(* ===== verification/_CoqProject ===== *)
-Q . S2P
Prelude.v
CString.v
Bitmap.v
Interrupt.v
KList.v
Sched.v
Locks.v
Paging.v
Ioqueue.v
Keyboard.v
Stdio.v
Timer.v
Syscall.v
Path.v
Shell.v
Disk.v
Ide.v
Inode.v
File.v
Dir.v
Fs.v
Create.v
Tree.v
Mount.v
PagePool.v
Heap.v
HeapPages.v
System.v
Fd.v
Thread.v
Spaces.v
Exit.v
Fork.v
Spawn.v
Exec.v
