(* ===== verification/Prelude.v ===== *)
(** * LaiMiniOs: a verification development

    LaiMiniOs is a 32-bit x86 kernel in C with processes, a file system on an
    IDE disk and a shell.  This library translates its C code into Rocq
    functions and proves what the code promises.

    ** The program and the files that model it

    - [Prelude]: results of C code ([res]: a value, a failed [ASSERT] or
      [PANIC], an access outside an object, a loop out of fuel), machine
      integers ([u8], [u16], [u32], [s8], [s16], [s32]), the state monad [M],
      the shared lemmas and tactics.
    - [CString] (kernel/string.c), [Bitmap] (kernel/bitmap.c), [Stdio]
      (kernel/stdio.c), [KList] (kernel/list.c): the kernel's library.  [KList]
      is at the level of [prev] and [next] pointers; every other file uses the
      sequences of [KList.Spec], which the pointer code is shown to implement.
    - [Interrupt] (kernel/interrupt.c, userprog/tss.c), [Timer], [Keyboard],
      [Ioqueue] (device/*.c, the loops of shell/pipe.c), [Ide] (device/ide.c):
      the devices, at the level of ports and interrupts.
    - [Sched] (thread/thread.c: schedule, block, unblock, yield; thread/sync.c)
      and [Locks]: the scheduler, semaphores and locks, and the transition
      system in which the timer interrupts any thread at any time.
    - [Paging] (kernel/memory.c: pools, page tables, page allocation),
      [PagePool] (the set of pages a pool has handed out), [Heap] (kernel/memory.c:
      sys_malloc, sys_free) and [HeapPages].  [Heap] is written against the
      class [PageAlloc]; [HeapPages] shows that [Paging] is an instance.
    - [Disk] (sectors as the file system sees them; [Ide] shows that the driver
      provides them), [Inode] (fs/inode.c), [File] (fs/file.c), [Dir]
      (fs/dir.c), [Path], [Fs], [Create], [Mount] (fs/fs.c), with [Tree], a
      small file system on which the theorems are tried.
    - [Syscall] (user/syscall.c, userprog/syscall-init.c), [Shell]
      (shell/shell.c).
    - [System] puts the states of the scheduler, the page tables and the file
      system side by side, as the kernel has them: a PCB is a task, an address
      space and a table of descriptors.  On it are [Fd] (descriptors and pipes:
      fs/fs.c from fd_local2global to sys_lseek, shell/pipe.c, device/console.c),
      [Thread] (process identifiers, creation and end of threads:
      thread/thread.c, userprog/process.c), [Spaces] (two address spaces side
      by side), [Exit] (userprog/wait_exit.c, and the table of processes), [Fork]
      (userprog/fork.c), [Spawn] (what creating a task does to the table) and
      [Exec] (userprog/exec.c, on the bytes of the user's memory).

    The state of a component is a record with the C variables as fields;
    memory objects are found by their address; a call that can fail an
    assertion, fault or loop returns [res].  [Build] says whether [ASSERT] is
    compiled in.

    ** What the theorems show

    - Concurrency: under every interleaving of timer interrupts no assertion of
      the scheduler and the locks fails while every thread releases only what it
      has acquired (a release without an acquire stops the kernel), a lock has
      one holder, the ready queue and the waiting lists are consistent, and no
      wake-up is lost.
    - Memory: page_table_add and the self-map give the translation asked for;
      malloc_page maps fresh pages to distinct free frames and mfree_page undoes
      it; sys_malloc and sys_free refine a set of disjoint blocks.
    - Library: lists refine sequences, bitmap_scan is first fit, itoa round
      trips, path washing resolves "." and "..".
    - File system: formatting and mounting give a state in which the calls
      work; files behave as byte sequences under write and read, directories as
      sequences of entries; search_file walks the tree; mkdir, unlink, chdir and
      getcwd change or report the tree as they should; inodes survive the disk.
    - System calls on descriptors: what sys_write writes, sys_lseek and sys_read
      give back; a pipe carries bytes in order and its page is given back when
      the last descriptor is closed.
    - Processes: a new page directory shares the kernel and nothing else;
      forking copies every user page into a frame of the child's own and leaves
      the parent's memory alone; fork and thread creation add one task with a
      fresh identifier to the table of processes; sys_wait refines waiting on
      that table and gives back the collected child's pages, list entries and
      identifier; a process that exits hands its parent, if it waits, a child to
      collect; sys_execv enters the program with its segments laid over the old
      image.  What exit and fork need of the memory as a whole (that the
      resources can be released, that the copy does not run out of pages) is a
      hypothesis, shown to hold on concrete processes.
    - Shell: a line is edited, cut into words and run as a pipeline; each
      external command's child executes the path its first word names.
    - Devices: ide_read and ide_write move the sectors asked for; the ring
      buffer is a queue; the scheduling flaw of the ring buffer is exhibited.

    Where the code does not do what it means to, a theorem shows the behaviour
    (bitmap_scan_exhausted, ioq_deadlock_reachable, write_stdout_overflow and
    others).

    ** Fuel

    Loops whose bound is not structural have fuel, and the theorems are total:
    they show that the result is reached.  [search_loop] gets two more than the
    length of the path (each turn consumes a character); [cwd_loop] and
    [reverse_loop] get 513 (the path buffer has 512 bytes and every turn adds or
    removes one); [write_loop] and [read_loop] get one more than the number of
    bytes (each turn moves at least one); [skip_full_bytes] gets the length of
    the bitmap.  Where the C code really does not return, the model runs out of
    fuel at every fuel ([delete_indirect_spins]).

    ** Not modelled

    - boot/*.S, kernel/print.S, thread/switch.S, command/start.S: assembly.  The
      context switch is modelled by its effect in [Sched.schedule]; the screen is
      the list of the characters sent to it, and messages of printk are left out.
    - ps (thread/thread.c), the disk identification and partition scan of
      device/ide.c, and the built-in commands of shell/buildin_cmd.c (they print
      what the calls return).
    - kernel/init.c, kernel/main.c, kernel/debug.c, user/assert.c, command/cat.c:
      a fixed sequence of initialisation calls, an endless loop after a panic, a
      test program.
    - The TLB, except where the code reads a page it has just freed:
      [Thread.thread_exit] has a flag for whether the stale entry still serves.
      Without it every collected child but the first thread ends in a fault,
      which [Exit.wait_refines] states.

    ** Where a model is coarser than the code

    - The file system's heap ([Inode.sys_malloc], [Inode.sys_free]) hands out
      fresh addresses and counts the blocks in use; that sys_malloc and sys_free
      are right about blocks is [Heap]'s part.  The switch of cur->pgdir to NULL
      around them in inode_open and inode_close, which selects the kernel's
      heap, is implied: this heap is the kernel's.
    - [Inode.ide_read] and [Inode.ide_write] move sectors at once and assert
      the first lba; the chunks of 256 sectors and the port protocol are in
      [Ide], whose drive answers a request in one burst and, in the theorem
      about reading, is ready whenever it is asked.
    - [Heap] keeps the free lists as lists: the two pointers that free_elem
      writes into the first eight bytes of a free block are not in its bytes.
    - Directory theorems are about directories of direct blocks ([Dir.dir_ok]).
      The code for indirect blocks is modelled, and two theorems show what is
      wrong with it.
    - Several theorems ask for inode numbers below 256, because inode_sync
      takes the number as a uint8_t. *)

From stdpp Require Export base gmap list numbers list_numbers.
From Stdlib Require Export ZArith Lia.

#[global] Open Scope Z_scope.
#[global] Set Default Goal Selector "!".

(** Arithmetic stays folded under [simpl]. *)
#[global] Arguments Z.eqb : simpl never.
#[global] Arguments Z.ltb : simpl never.
#[global] Arguments Z.leb : simpl never.
#[global] Arguments Z.add : simpl never.
#[global] Arguments Z.sub : simpl never.
#[global] Arguments Z.mul : simpl never.
#[global] Arguments Z.div : simpl never.
#[global] Arguments Z.modulo : simpl never.
#[global] Arguments Z.testbit : simpl never.
#[global] Arguments Z.land : simpl never.
#[global] Arguments Z.lor : simpl never.
#[global] Arguments Z.lxor : simpl never.
#[global] Arguments Z.shiftl : simpl never.
#[global] Arguments Z.shiftr : simpl never.
#[global] Arguments Z.of_nat : simpl never.
#[global] Arguments Z.to_nat : simpl never.

(** ** Results of C code

    A piece of kernel code either returns a value, stops in [panic_spin]
    (a failed [ASSERT] or an explicit [PANIC]), touches memory outside the
    object the model gives it ([Fault]), never comes back ([Spin]), or gives
    up the processor inside [thread_block] before returning ([Block]). *)

Inductive res (A : Type) : Type :=
| Ok (a : A)
| Panic
| Fault
| Spin
| Block.
Arguments Ok {A} a.
Arguments Panic {A}.
Arguments Fault {A}.
Arguments Spin {A}.
Arguments Block {A}.

Definition rbind {A B} (m : res A) (k : A → res B) : res B :=
  match m with
  | Ok a => k a
  | Panic => Panic
  | Fault => Fault
  | Spin => Spin
  | Block => Block
  end.

(** State-passing code: one function from the state before to a result
    holding the value and the state after. *)

Definition M (S A : Type) : Type := S → res (A * S).

Definition mok {S A} (a : A) : M S A := λ s, Ok (a, s).
Definition mbnd {S A B} (m : M S A) (k : A → M S B) : M S B :=
  λ s, rbind (m s) (λ r, k r.1 r.2).
Definition mget {S A} (f : S → A) : M S A := λ s, Ok (f s, s).
Definition mmod {S} (f : S → S) : M S unit := λ s, Ok (tt, f s).
Definition mlift {S A} (r : res A) : M S A := λ s, rbind r (λ a, Ok (a, s)).

Declare Scope kern_scope.
Delimit Scope kern_scope with kern.
Notation "'let?' x := m 'in' k" := (rbind m (λ x, k))
  (at level 10, x pattern, m at level 100, k at level 200) : kern_scope.
Notation "'check' m 'in' k" := (rbind m (λ _, k))
  (at level 10, m at level 100, k at level 200) : kern_scope.
Notation "'let!' x := m 'in' k" := (mbnd m (λ x, k))
  (at level 10, x pattern, m at level 100, k at level 200) : kern_scope.
Notation "'do!' m 'in' k" := (mbnd m (λ _, k))
  (at level 10, m at level 100, k at level 200) : kern_scope.
#[global] Open Scope kern_scope.

(** ** Build configuration

    [lib/debug.h] drops every [ASSERT] when [NDEBUG] is defined.  The Makefile
    does not define it, so [debug_build] is the kernel as it is built; the
    theorems hold of both builds unless they name one. *)

Class Build := { ndebug : bool }.
Definition debug_build : Build := {| ndebug := false |}.
Definition release_build : Build := {| ndebug := true |}.

Definition ASSERT {B : Build} (c : bool) : res unit :=
  if ndebug || c then Ok tt else Panic.

(** ** Machine integers *)

Definition u8 (z : Z) : Z := z mod 256.
Definition u16 (z : Z) : Z := z mod 65536.
Definition u32 (z : Z) : Z := z mod 4294967296.
Definition s8 (z : Z) : Z := (z + 128) mod 256 - 128.
Definition s16 (z : Z) : Z := (z + 32768) mod 65536 - 32768.
Definition s32 (z : Z) : Z := (z + 2147483648) mod 4294967296 - 2147483648.

Definition DIV_ROUND_UP (x step : Z) : Z := u32 (x + step - 1) / step.
Definition PG_SIZE : Z := 4096.

(** ** Arrays

    Reading or writing outside an array is [Fault]. *)

Definition rd {A} (l : list A) (i : Z) : res A :=
  if i <? 0 then Fault
  else match l !! Z.to_nat i with Some x => Ok x | None => Fault end.

Definition wr {A} (l : list A) (i : Z) (x : A) : res (list A) :=
  if (i <? 0) || (Z.of_nat (length l) <=? i) then Fault
  else Ok (<[Z.to_nat i := x]> l).

(** ** Generic lemmas *)

Lemma rbind_Ok_inv {A B} (m : res A) (k : A → res B) b :
  rbind m k = Ok b → ∃ a, m = Ok a ∧ k a = Ok b.
Proof. destruct m; simpl; naive_solver. Qed.

Lemma mbnd_Ok_inv {S A B} (m : M S A) (k : A → M S B) s b s' :
  mbnd m k s = Ok (b, s') → ∃ a s1, m s = Ok (a, s1) ∧ k a s1 = Ok (b, s').
Proof.
  unfold mbnd. intros H. apply rbind_Ok_inv in H as ([a s1] & H1 & H2). eauto.
Qed.

Lemma mbnd_Ok {S A B} (m : M S A) (k : A → M S B) s a s1 :
  m s = Ok (a, s1) → mbnd m k s = k a s1.
Proof. unfold mbnd. by intros ->. Qed.

Lemma mlift_Ok {S A} (r : res A) (s : S) a : r = Ok a → mlift r s = Ok (a, s).
Proof. by intros ->. Qed.

Lemma mlift_Ok_inv {S A} (r : res A) (s s' : S) a :
  mlift r s = Ok (a, s') → r = Ok a ∧ s' = s.
Proof. unfold mlift. destruct r; simpl; naive_solver. Qed.

Lemma ASSERT_true {B : Build} c : c = true → ASSERT c = Ok tt.
Proof. intros ->. unfold ASSERT. by rewrite orb_true_r. Qed.

Lemma ASSERT_Ok_inv {B : Build} c u : ASSERT c = Ok u → ndebug = true ∨ c = true.
Proof. unfold ASSERT. destruct ndebug, c; naive_solver. Qed.

Lemma rd_Some {A} (l : list A) (n : nat) x :
  l !! n = Some x → rd l (Z.of_nat n) = Ok x.
Proof.
  intros H. unfold rd. rewrite (proj2 (Z.ltb_ge _ _)) by lia.
  by rewrite Nat2Z.id, H.
Qed.

Lemma rd_lookup {A} (l : list A) (i : Z) x :
  0 ≤ i → l !! Z.to_nat i = Some x → rd l i = Ok x.
Proof. intros Hi H. unfold rd. rewrite (proj2 (Z.ltb_ge _ _)) by lia. by rewrite H. Qed.

Lemma rd_Ok_inv {A} (l : list A) i x :
  rd l i = Ok x → 0 ≤ i ∧ l !! Z.to_nat i = Some x.
Proof.
  unfold rd. destruct (Z.ltb_spec i 0); [done|].
  destruct (l !! Z.to_nat i); naive_solver.
Qed.

Lemma rd_total {A} (l : list A) i :
  0 ≤ i < Z.of_nat (length l) → ∃ x, rd l i = Ok x ∧ l !! Z.to_nat i = Some x.
Proof.
  intros H. destruct (lookup_lt_is_Some_2 l (Z.to_nat i)) as [x Hx]; [lia|].
  exists x. split; [|done]. apply rd_lookup; [lia|done].
Qed.

Lemma wr_Ok {A} (l : list A) i x :
  0 ≤ i < Z.of_nat (length l) → wr l i x = Ok (<[Z.to_nat i := x]> l).
Proof.
  intros H. unfold wr.
  rewrite (proj2 (Z.ltb_ge _ _)) by lia.
  by rewrite (proj2 (Z.leb_gt _ _)) by lia.
Qed.

Lemma wr_Ok_inv {A} (l : list A) i x l' :
  wr l i x = Ok l' → 0 ≤ i < Z.of_nat (length l) ∧ l' = <[Z.to_nat i := x]> l.
Proof.
  unfold wr. destruct (Z.ltb_spec i 0), (Z.leb_spec (Z.of_nat (length l)) i); simpl; naive_solver lia.
Qed.

(** Machine integers inside their range are unchanged. *)

Lemma u8_small z : 0 ≤ z < 256 → u8 z = z.
Proof. apply Z.mod_small. Qed.
Lemma u16_small z : 0 ≤ z < 65536 → u16 z = z.
Proof. apply Z.mod_small. Qed.
Lemma u32_small z : 0 ≤ z < 4294967296 → u32 z = z.
Proof. apply Z.mod_small. Qed.
Lemma s8_small z : -128 ≤ z < 128 → s8 z = z.
Proof. intros. unfold s8. rewrite Z.mod_small; lia. Qed.
Lemma s16_small z : -32768 ≤ z < 32768 → s16 z = z.
Proof. intros. unfold s16. rewrite Z.mod_small; lia. Qed.
Lemma s32_small z : -2147483648 ≤ z < 2147483648 → s32 z = z.
Proof. intros. unfold s32. rewrite Z.mod_small; lia. Qed.

Lemma u8_range z : 0 ≤ u8 z < 256.
Proof. apply Z.mod_pos_bound. lia. Qed.
Lemma u16_range z : 0 ≤ u16 z < 65536.
Proof. apply Z.mod_pos_bound. lia. Qed.
Lemma u32_range z : 0 ≤ u32 z < 4294967296.
Proof. apply Z.mod_pos_bound. lia. Qed.

(** A list update seen through [lookup]. *)
Lemma insert_lookup_Z {A} (l : list A) (i j : Z) x :
  0 ≤ i < Z.of_nat (length l) → 0 ≤ j →
  <[Z.to_nat i := x]> l !! Z.to_nat j = if decide (i = j) then Some x else l !! Z.to_nat j.
Proof.
  intros Hi Hj. case_decide as E.
  - subst. apply list_lookup_insert_eq. lia.
  - apply list_lookup_insert_ne. lia.
Qed.

Lemma filter_all {A} (P : A → Prop) `{!∀ x, Decision (P x)} (l : list A) :
  (∀ x, x ∈ l → P x) → filter P l = l.
Proof.
  induction l as [|x l IH]; intros Hall; [done|].
  rewrite filter_cons, decide_True by (apply Hall; by left). f_equal. apply IH. intros. apply Hall. by right.
Qed.

(** ** Bits of a byte *)

Lemma testbit_land_pow2 w k :
  0 ≤ k → Z.testbit w k = negb (Z.land w (Z.shiftl 1 k) =? 0).
Proof.
  intros Hk. rewrite Z.shiftl_1_l.
  destruct (Z.testbit w k) eqn:E; symmetry.
  - apply negb_true_iff, Z.eqb_neq. intros H.
    apply (f_equal (λ z, Z.testbit z k)) in H.
    rewrite Z.land_spec, Z.bits_0, E, Z.pow2_bits_true in H by done. done.
  - apply negb_false_iff, Z.eqb_eq. apply Z.bits_inj_0. intros n.
    rewrite Z.land_spec. destruct (decide (n = k)) as [->|Hn].
    + by rewrite E.
    + rewrite Z.pow2_bits_false by done. apply andb_false_r.
Qed.

Lemma bit_explode (P : Z → Prop) :
  P 0 → P 1 → P 2 → P 3 → P 4 → P 5 → P 6 → P 7 → ∀ m, 0 ≤ m < 8 → P m.
Proof.
  intros ???????? m Hm.
  assert (m = 0 ∨ m = 1 ∨ m = 2 ∨ m = 3 ∨ m = 4 ∨ m = 5 ∨ m = 6 ∨ m = 7) as Hc by lia.
  by destruct Hc as [->|[->|[->|[->|[->|[->|[->| ->]]]]]]].
Qed.

Lemma byte_ext w1 w2 :
  0 ≤ w1 < 256 → 0 ≤ w2 < 256 →
  (∀ k, 0 ≤ k < 8 → Z.testbit w1 k = Z.testbit w2 k) → w1 = w2.
Proof.
  intros H1 H2 H. apply Z.bits_inj'. intros n Hn.
  destruct (decide (n < 8)); [by apply H; lia|].
  rewrite !Z.bits_above_log2; try done; try lia.
  all: assert (2 ^ 8 ≤ 2 ^ n) by (apply Z.pow_le_mono_r; lia).
  - destruct (decide (w2 = 0)); [subst; simpl; lia|]. apply Z.log2_lt_pow2; lia.
  - destruct (decide (w1 = 0)); [subst; simpl; lia|]. apply Z.log2_lt_pow2; lia.
Qed.

(** ** Automation

    [kinv] takes apart the equations [m = Ok _] the monads produce;
    [zsolve] is [lia] with division, remainder and the widths unfolded. *)

Create HintDb kern.
Create Rewrite HintDb kern.
#[export] Hint Resolve u8_range u16_range u32_range : kern.
#[export] Hint Rewrite @insert_lookup_Z using lia : kern.

Ltac kinv :=
  repeat match goal with
  | H : rbind _ _ = Ok _ |- _ => apply rbind_Ok_inv in H as (? & ? & ?)
  | H : mbnd _ _ _ = Ok (_, _) |- _ => apply mbnd_Ok_inv in H as (? & ? & ? & ?)
  | H : mlift _ _ = Ok (_, _) |- _ => apply mlift_Ok_inv in H as [? ?]
  | H : mok _ _ = Ok _ |- _ => unfold mok in H
  | H : mget _ _ = Ok _ |- _ => unfold mget in H
  | H : mmod _ _ = Ok _ |- _ => unfold mmod in H
  | H : Ok _ = Ok _ |- _ => injection H as H
  | H : Panic = Ok _ |- _ => discriminate H
  | H : Fault = Ok _ |- _ => discriminate H
  | H : Spin = Ok _ |- _ => discriminate H
  | H : Block = Ok _ |- _ => discriminate H
  end; simplify_eq/=.

(** Runs the first command of a sequence by its equation. *)
Tactic Notation "mstep" uconstr(E) := rewrite (mbnd_Ok _ _ _ _ _ E).

Ltac zsolve :=
  unfold u8, u16, u32, s8, s16, s32, PG_SIZE in *;
  Z.to_euclidean_division_equations; lia.

(** Proves a decidable closed proposition by evaluating it. *)
Ltac by_decide := refine (bool_decide_unpack _ _); vm_compute; exact I.
