(* ===== verification/CString.v ===== *)
(** * Bytes and C strings ([kernel/string.c])

    A pointer argument is [option (list Z)]: [None] is NULL, [Some l] the bytes
    of the object from the pointer to its end, so moving a pointer forward
    drops bytes and running off the object is [Fault].  [char] is signed, as
    gcc has it on x86; a stored byte is a [Z] from 0 to 255. *)

From S2P Require Import Prelude.

Definition ptr := option (list Z).
Definition nonnull (p : ptr) : bool := bool_decide (is_Some p).
(** The bytes behind a pointer; NULL has none, so any access through it faults. *)
Definition mem (p : ptr) : list Z := default [] p.

Lemma mem_Some (l : list Z) : mem (Some l) = l.
Proof. done. Qed.

(** A byte read as a [char]. *)
Definition char_of (b : Z) : Z := s8 b.

Section string_ops.
Context {B : Build}.

(** ** Memory *)

Fixpoint set_loop (size : nat) (value : Z) (dst : list Z) : res (list Z) :=
  match size with
  | O => Ok dst
  | S size' =>
      match dst with
      | [] => Fault
      | _ :: dst' => let? r := set_loop size' value dst' in Ok (u8 value :: r)
      end
  end.

Definition memset (dst_ : ptr) (value size : Z) : res (list Z) :=
  check ASSERT (nonnull dst_) in
  set_loop (Z.to_nat size) value (mem dst_).

Fixpoint copy_loop (size : nat) (dst src : list Z) : res (list Z) :=
  match size with
  | O => Ok dst
  | S size' =>
      match dst, src with
      | _ :: dst', b :: src' => let? r := copy_loop size' dst' src' in Ok (b :: r)
      | _, _ => Fault
      end
  end.

Definition memcpy (dst_ src_ : ptr) (size : Z) : res (list Z) :=
  check ASSERT (nonnull dst_ && nonnull src_) in
  copy_loop (Z.to_nat size) (mem dst_) (mem src_).

Fixpoint cmp_loop (size : nat) (a b : list Z) : res Z :=
  match size with
  | O => Ok 0
  | S size' =>
      match a, b with
      | x :: a', y :: b' =>
          if char_of x =? char_of y then cmp_loop size' a' b'
          else Ok (if char_of y <? char_of x then 1 else -1)
      | _, _ => Fault
      end
  end.

(** The assertion asks for one non-NULL argument only. *)
Definition memcmp (a_ b_ : ptr) (size : Z) : res Z :=
  check ASSERT (nonnull a_ || nonnull b_) in
  cmp_loop (Z.to_nat size) (mem a_) (mem b_).

(** ** Strings *)

Fixpoint strcpy_loop (dst src : list Z) : res (list Z) :=
  match dst, src with
  | _ :: dst', b :: src' =>
      if b =? 0 then Ok (b :: dst')
      else let? r := strcpy_loop dst' src' in Ok (b :: r)
  | _, _ => Fault
  end.

Definition strcpy (dst_ src_ : ptr) : res (list Z) :=
  check ASSERT (nonnull dst_ && nonnull src_) in
  strcpy_loop (mem dst_) (mem src_).

(** The loop that advances [p] while the byte at [p] is not NUL: how far [p] has moved when the loop ends. *)
Fixpoint past_nul (str : list Z) : res Z :=
  match str with
  | [] => Fault
  | b :: str' => if b =? 0 then Ok 1 else let? n := past_nul str' in Ok (n + 1)
  end.

Definition strlen (str : ptr) : res Z :=
  check ASSERT (nonnull str) in
  let? p := past_nul (mem str) in
  Ok (u32 (p - 1)).

Fixpoint strcmp_loop (a b : list Z) : res Z :=
  match a, b with
  | x :: a', y :: b' =>
      if negb (x =? 0) && (char_of x =? char_of y) then strcmp_loop a' b'
      else Ok (if char_of x <? char_of y then -1
               else if char_of y <? char_of x then 1 else 0)
  | _, _ => Fault
  end.

Definition strcmp (a b : ptr) : res Z :=
  check ASSERT (nonnull a && nonnull b) in
  strcmp_loop (mem a) (mem b).

(** The result is an offset from [str], [None] for NULL; [*str == ch] compares
    a signed [char] with an unsigned [uint8_t], both promoted to [int]. *)
Fixpoint strchr_loop (pos : Z) (str : list Z) (ch : Z) : res (option Z) :=
  match str with
  | [] => Fault
  | b :: str' =>
      if b =? 0 then Ok None
      else if char_of b =? ch then Ok (Some pos)
      else strchr_loop (pos + 1) str' ch
  end.

Definition strchr (str : ptr) (ch : Z) : res (option Z) :=
  check ASSERT (nonnull str) in
  strchr_loop 0 (mem str) (u8 ch).

Fixpoint strrchr_loop (pos : Z) (last_char : option Z) (str : list Z) (ch : Z) : res (option Z) :=
  match str with
  | [] => Fault
  | b :: str' =>
      if b =? 0 then Ok last_char
      else strrchr_loop (pos + 1) (if char_of b =? ch then Some pos else last_char) str' ch
  end.

Definition strrchr (str : ptr) (ch : Z) : res (option Z) :=
  check ASSERT (nonnull str) in
  strrchr_loop 0 None (mem str) (u8 ch).

Definition strcat (dst_ src_ : ptr) : res (list Z) :=
  check ASSERT (nonnull dst_ && nonnull src_) in
  let? p := past_nul (mem dst_) in
  let at_nul := Z.to_nat (p - 1) in
  let? r := strcpy_loop (drop at_nul (mem dst_)) (mem src_) in
  Ok (take at_nul (mem dst_) ++ r).

Fixpoint strchrs_loop (ch_cnt : Z) (p : list Z) (ch : Z) : res Z :=
  match p with
  | [] => Fault
  | b :: p' =>
      if b =? 0 then Ok ch_cnt
      else strchrs_loop (if char_of b =? ch then u32 (ch_cnt + 1) else ch_cnt) p' ch
  end.

Definition strchrs (str : ptr) (ch : Z) : res Z :=
  check ASSERT (nonnull str) in
  strchrs_loop 0 (mem str) (u8 ch).

End string_ops.

(** ** What a buffer holds *)

Definition is_char (c : Z) : Prop := 0 < c < 256.

(** The buffer starts with the characters [s] and a NUL. *)
Definition cstr (buf s : list Z) : Prop :=
  Forall is_char s ∧ ∃ rest, buf = s ++ 0 :: rest.

(** Lexicographic comparison on [char]s, shorter strings first. *)
Fixpoint lex (s t : list Z) : Z :=
  match s, t with
  | [], [] => 0
  | [], y :: _ => if char_of y <? 0 then 1 else -1
  | x :: _, [] => if char_of x <? 0 then -1 else 1
  | x :: s', y :: t' =>
      if char_of x =? char_of y then lex s' t'
      else if char_of x <? char_of y then -1 else 1
  end.

Definition first_index (s : list Z) (ch : Z) : option Z :=
  (λ r, Z.of_nat r.1) <$> list_find (λ c, c = ch) s.
Definition last_index (s : list Z) (ch : Z) : option Z :=
  (λ i, Z.of_nat (length s) - 1 - i) <$> first_index (reverse s) ch.

#[global] Instance is_char_dec c : Decision (is_char c).
Proof. unfold is_char. apply _. Defined.

(** The words of a text between separators. *)
Fixpoint words_from (sep : Z) (cur s : list Z) : list (list Z) :=
  match s with
  | [] => if bool_decide (cur = []) then [] else [cur]
  | c :: s' =>
      if c =? sep then (if bool_decide (cur = []) then [] else [cur]) ++ words_from sep [] s'
      else words_from sep (cur ++ [c]) s'
  end.
Definition words (sep : Z) (s : list Z) : list (list Z) := words_from sep [] s.

(** ** Lemmas *)

(** Every text is separators, a word, and then the end or another separator. *)
Section word_lemmas.
Context (sep : Z).

Lemma words_from_word cur w rest :
  sep ∉ w → words_from sep cur (w ++ rest) = words_from sep (cur ++ w) rest.
Proof.
  revert cur. induction w as [|c w IH]; intros cur Hw; simpl; [by rewrite app_nil_r|].
  apply not_elem_of_cons in Hw as [Hc Hw]. rewrite (proj2 (Z.eqb_neq c sep)) by done.
  rewrite IH by done. by rewrite <-app_assoc.
Qed.

Lemma words_seps k s : words sep (replicate k sep ++ s) = words sep s.
Proof. induction k as [|k IH]; simpl; [done|]. unfold words in *. simpl. by rewrite Z.eqb_refl. Qed.

Lemma words_shape s :
  ∃ k w rest, s = replicate k sep ++ w ++ rest ∧ (sep ∉ w) ∧ (rest = [] ∨ (∃ r, rest = sep :: r)) ∧ (w = [] → rest = []).
Proof.
  induction s as [|c s (k & w & rest & -> & Hw & Hr & He)].
  - exists O, [], []. split_and!; auto using not_elem_of_nil.
  - destruct (decide (c = sep)) as [->|Hc].
    + exists (S k), w, rest. done.
    + destruct k as [|k]; simpl.
      * exists O, (c :: w), rest. split_and!; try done. set_solver.
      * exists O, [c], (replicate (S k) sep ++ w ++ rest). split_and!; try done; [set_solver|]. right. eauto.
Qed.

Lemma words_cons k w rest :
  sep ∉ w → (rest = [] ∨ (∃ r, rest = sep :: r)) → (w = [] → rest = []) →
  words sep (replicate k sep ++ w ++ rest) = if bool_decide (w = []) then [] else w :: words sep rest.
Proof.
  intros Hw Hr He. rewrite words_seps. unfold words. rewrite words_from_word by done. simpl.
  case_bool_decide as E; [subst; by rewrite He|].
  destruct Hr as [->|[r ->]]; simpl; rewrite ?Z.eqb_refl; by rewrite bool_decide_false by done.
Qed.
End word_lemmas.

Section string_lemmas.
Context {B : Build}.
Implicit Types (s t buf dst src : list Z).

Lemma char_of_nonzero c : is_char c → char_of c ≠ 0.
Proof. unfold is_char, char_of. intros. zsolve. Qed.
Lemma char_of_inj c d : is_char c → is_char d → char_of c = char_of d → c = d.
Proof. unfold is_char, char_of. intros. zsolve. Qed.
Lemma char_of_low c ch : is_char c → 0 ≤ ch < 128 → char_of c = ch ↔ c = ch.
Proof. unfold is_char, char_of. intros. split; intros; zsolve. Qed.
Lemma char_of_high c ch : 128 ≤ ch < 256 → char_of c ≠ ch.
Proof. unfold char_of. intros. zsolve. Qed.

Lemma set_loop_run n v dst :
  (n ≤ length dst)%nat → set_loop n v dst = Ok (replicate n (u8 v) ++ drop n dst).
Proof.
  revert dst. induction n as [|n IH]; intros [|b dst] H; simpl in *; try done; try lia.
  rewrite IH by lia. done.
Qed.

Lemma copy_loop_run n dst src :
  (n ≤ length dst)%nat → (n ≤ length src)%nat → copy_loop n dst src = Ok (take n src ++ drop n dst).
Proof.
  revert dst src. induction n as [|n IH]; intros [|b dst] [|c src] H1 H2; simpl in *; try done; try lia.
  rewrite IH by lia. done.
Qed.

Lemma past_nul_run s rest : Forall is_char s → past_nul (s ++ 0 :: rest) = Ok (Z.of_nat (length s) + 1).
Proof.
  induction 1 as [|c s Hc _ IH]; simpl; [done|].
  rewrite (proj2 (Z.eqb_neq _ _)) by (destruct Hc; lia). rewrite IH. simpl. f_equal. lia.
Qed.

Lemma strcpy_loop_run s rest dst :
  Forall is_char s →
  strcpy_loop dst (s ++ 0 :: rest) =
    if decide (length s < length dst)%nat then Ok (s ++ 0 :: drop (S (length s)) dst) else Fault.
Proof.
  intros Hs. revert dst. induction Hs as [|c s Hc _ IH]; intros [|b dst]; simpl; try done.
  rewrite (proj2 (Z.eqb_neq _ _)) by (destruct Hc; lia). rewrite IH.
  repeat case_decide; try done; lia.
Qed.

Lemma strcmp_loop_run s r1 t r2 :
  Forall is_char s → Forall is_char t → strcmp_loop (s ++ 0 :: r1) (t ++ 0 :: r2) = Ok (lex s t).
Proof.
  intros Hs. revert t. induction Hs as [|c s Hc Hs IH]; intros [|d t] Ht; simpl.
  - done.
  - inversion_clear Ht as [|? ? Hd Ht']. assert (Hn := char_of_nonzero _ Hd). change (char_of 0) with 0.
    repeat match goal with |- context [Z.ltb ?a ?b] => destruct (Z.ltb_spec a b) end; done || lia.
  - assert (Hn := char_of_nonzero _ Hc). change (char_of 0) with 0.
    rewrite (proj2 (Z.eqb_neq c _)), (proj2 (Z.eqb_neq (char_of c) 0)) by (destruct Hc; lia). simpl.
    repeat match goal with |- context [Z.ltb ?a ?b] => destruct (Z.ltb_spec a b) end; done || lia.
  - inversion_clear Ht as [|? ? Hd Ht'].
    rewrite (proj2 (Z.eqb_neq c 0)) by (destruct Hc; lia). simpl.
    destruct (Z.eqb_spec (char_of c) (char_of d)); [by apply IH|].
    repeat match goal with |- context [Z.ltb ?a ?b] => destruct (Z.ltb_spec a b) end; done || lia.
Qed.

Lemma lex_eq s t : Forall is_char s → Forall is_char t → lex s t = 0 ↔ s = t.
Proof.
  intros Hs. revert t. induction Hs as [|c s Hc Hs IH]; intros [|d t] Ht; simpl; try done.
  - case_match; naive_solver.
  - case_match; naive_solver.
  - inversion_clear Ht as [|? ? Hd Ht'].
    destruct (Z.eqb_spec (char_of c) (char_of d)) as [E|E].
    + apply char_of_inj in E; [|done..]. subst. rewrite IH by done. naive_solver.
    + case_match; naive_solver.
Qed.

Lemma lex_antisym s t : lex s t = - lex t s.
Proof.
  revert t. induction s as [|c s IH]; intros [|d t]; simpl; try done.
  - case_match; done.
  - case_match; done.
  - rewrite (Z.eqb_sym (char_of d)). destruct (Z.eqb_spec (char_of c) (char_of d)); [apply IH|].
    destruct (Z.ltb_spec (char_of c) (char_of d)), (Z.ltb_spec (char_of d) (char_of c)); lia.
Qed.

Lemma strchr_loop_low s rest ch pos :
  Forall is_char s → 0 ≤ ch < 128 →
  strchr_loop pos (s ++ 0 :: rest) ch = Ok ((λ i, pos + i) <$> first_index s ch).
Proof.
  intros Hs Hch. revert pos. induction Hs as [|c s Hc _ IH]; intros pos; simpl; [done|].
  rewrite (proj2 (Z.eqb_neq c 0)) by (destruct Hc; lia). unfold first_index. simpl.
  destruct (Z.eqb_spec (char_of c) ch) as [E|E]; rewrite char_of_low in E by done.
  - rewrite decide_True by done. simpl. do 2 f_equal. lia.
  - rewrite decide_False by done. rewrite IH. unfold first_index.
    destruct (list_find _ s) as [[i x]|]; simpl; [do 2 f_equal; lia|done].
Qed.

Lemma strchr_loop_high s rest ch pos :
  Forall is_char s → 128 ≤ ch < 256 → strchr_loop pos (s ++ 0 :: rest) ch = Ok None.
Proof.
  intros Hs Hch. revert pos. induction Hs as [|c s Hc _ IH]; intros pos; simpl; [done|].
  rewrite (proj2 (Z.eqb_neq c 0)) by (destruct Hc; lia).
  rewrite (proj2 (Z.eqb_neq (char_of c) ch)) by (by apply char_of_high). apply IH.
Qed.

Lemma strrchr_loop_run s rest ch pos lst :
  Forall is_char s → 0 ≤ ch < 128 →
  strrchr_loop pos lst (s ++ 0 :: rest) ch =
    Ok (match last_index s ch with Some i => Some (pos + i) | None => lst end).
Proof.
  intros Hs Hch. revert pos lst. induction Hs as [|c s Hc _ IH]; intros pos lst; simpl; [done|].
  rewrite (proj2 (Z.eqb_neq c 0)) by (destruct Hc; lia). rewrite IH.
  unfold last_index, first_index. rewrite reverse_cons.
  destruct (list_find (λ x, x = ch) (reverse s)) as [[i x]|] eqn:E.
  - erewrite list_find_app_l by done. simpl. do 2 f_equal. lia.
  - rewrite list_find_app_r by done. simpl. destruct (Z.eqb_spec (char_of c) ch) as [E'|E']; rewrite char_of_low in E' by done.
    + rewrite decide_True by done. simpl. rewrite length_reverse. do 2 f_equal. lia.
    + by rewrite decide_False.
Qed.

Lemma strchrs_loop_run s rest ch n :
  Forall is_char s → 0 ≤ ch < 128 → 0 ≤ n < 4294967296 →
  strchrs_loop n (s ++ 0 :: rest) ch = Ok (u32 (n + Z.of_nat (length (filter (λ c, c = ch) s)))).
Proof.
  intros Hs Hch. revert n. induction Hs as [|c s Hc _ IH]; intros n Hn; simpl.
  { rewrite u32_small by lia. do 2 f_equal. lia. }
  rewrite (proj2 (Z.eqb_neq c 0)) by (destruct Hc; lia). rewrite filter_cons.
  destruct (Z.eqb_spec (char_of c) ch) as [E|E]; rewrite char_of_low in E by done.
  - rewrite decide_True by done. rewrite IH by apply u32_range. simpl. f_equal.
    unfold u32. rewrite Zplus_mod_idemp_l. f_equal. lia.
  - rewrite decide_False by done. apply IH. done.
Qed.

(** The same facts in terms of what the buffers hold. *)

Lemma strcat_run t r2 s r1 :
  Forall is_char s → Forall is_char t →
  strcat (Some (t ++ 0 :: r2)) (Some (s ++ 0 :: r1)) =
    if decide (length t + length s < length (t ++ 0%Z :: r2))%nat
    then Ok (t ++ s ++ 0 :: drop (S (length t + length s)) (t ++ 0 :: r2)) else Fault.
Proof.
  intros Hs Ht. unfold strcat. rewrite ASSERT_true by done. cbn [rbind]. rewrite !mem_Some.
  rewrite past_nul_run by done. cbn [rbind].
  replace (Z.to_nat (Z.of_nat (length t) + 1 - 1)) with (length t) by lia.
  rewrite drop_app_length, take_app_length, strcpy_loop_run by done.
  rewrite length_app. simpl. repeat case_decide; try done; try lia. cbn [rbind].
  do 3 f_equal. rewrite drop_app_ge by lia. f_equal.
  replace (S (length t + length s) - length t)%nat with (S (length s)) by lia. done.
Qed.

Lemma strcat_cstr dst src s t :
  cstr dst t → cstr src s → (length t + length s < length dst)%nat →
  ∃ dst', strcat (Some dst) (Some src) = Ok dst' ∧ cstr dst' (t ++ s) ∧ length dst' = length dst.
Proof.
  intros [Ht [r2 ->]] [Hs [r1 ->]] Hl. rewrite strcat_run, decide_True by done. eexists. split; [done|]. split.
  - split; [by apply Forall_app|]. rewrite app_assoc. eauto.
  - rewrite !length_app in *. simpl in *. rewrite length_drop, length_app. simpl. lia.
Qed.

Lemma strcmp_cstr a b s t :
  cstr a s → cstr b t → ∃ r, strcmp (Some a) (Some b) = Ok r ∧ (r = 0 ↔ s = t).
Proof.
  intros [Hs [r1 ->]] [Ht [r2 ->]]. unfold strcmp. rewrite ASSERT_true by done. cbn [rbind]. rewrite !mem_Some.
  rewrite strcmp_loop_run by done. eexists. split; [done|]. by apply lex_eq.
Qed.

(** The last occurrence of [ch] is the one before a part without it. *)
Lemma strrchr_last p n rest ch :
  Forall is_char (p ++ ch :: n) → 0 ≤ ch < 128 → ch ∉ n →
  strrchr (Some ((p ++ ch :: n) ++ 0 :: rest)) ch = Ok (Some (Z.of_nat (length p))).
Proof.
  intros Hs Hch Hn. unfold strrchr. rewrite ASSERT_true by done. cbn [rbind]. rewrite mem_Some.
  rewrite u8_small by lia. rewrite strrchr_loop_run by done. unfold last_index, first_index.
  rewrite reverse_app, reverse_cons, <-app_assoc. simpl.
  rewrite (list_find_app_r (λ c, c = ch)).
  2: { apply list_find_None, Forall_forall. intros x Hx Ex. rewrite elem_of_reverse in Hx. by subst. }
  simpl. rewrite decide_True by done. simpl. rewrite length_app, length_reverse. simpl. do 2 f_equal. lia.
Qed.

End string_lemmas.

(** ** Properties *)

Section string_properties.
Context {B : Build}.
Implicit Types (s t buf dst src : list Z).

(** [strlen], [strcpy] and [strcat] on NUL-terminated buffers compute
    length, copy and concatenation, change no byte past the terminator they
    write, and run off the destination exactly when the result does not fit. *)
Theorem string_copy_correct dst src s t :
  cstr src s → cstr dst t → Z.of_nat (length s) < 4294967296 →
  strlen (Some src) = Ok (Z.of_nat (length s)) ∧
  strcpy (Some dst) (Some src) =
    (if decide (length s < length dst)%nat
     then Ok (s ++ 0 :: drop (S (length s)) dst) else Fault) ∧
  strcat (Some dst) (Some src) =
    (if decide (length t + length s < length dst)%nat
     then Ok (t ++ s ++ 0 :: drop (S (length t + length s)) dst) else Fault).
Proof.
  intros [Hs [r1 ->]] [Ht [r2 ->]] Hlen. unfold strlen, strcpy. rewrite !ASSERT_true by done.
  cbn [rbind]. rewrite !mem_Some. split_and!.
  - rewrite past_nul_run by done. cbn [rbind]. f_equal. rewrite u32_small by lia. lia.
  - by apply strcpy_loop_run.
  - by apply strcat_run.
Qed.

(** [strcmp] is a total order on strings: 0 exactly on equal strings, and
    swapping the arguments flips the sign; characters compare as signed
    [char]s. *)
Theorem strcmp_order buf1 buf2 s t :
  cstr buf1 s → cstr buf2 t →
  strcmp (Some buf1) (Some buf2) = Ok (lex s t) ∧
  (lex s t = 0 ↔ s = t) ∧ lex t s = - lex s t.
Proof.
  intros [Hs [r1 ->]] [Ht [r2 ->]]. unfold strcmp. rewrite !ASSERT_true by done. cbn [rbind]. rewrite !mem_Some.
  split_and!; [by apply strcmp_loop_run|by apply lex_eq|]. rewrite (lex_antisym s t). lia.
Qed.

(** [strchr], [strrchr] and [strchrs] find the first occurrence, the last
    occurrence and the number of occurrences of an ASCII character; for a
    character of 128 or more the signed comparison never succeeds, so [strchr]
    misses it even when it is there. *)
Theorem string_search_correct buf s ch :
  cstr buf s → Z.of_nat (length s) < 4294967296 →
  (0 ≤ ch < 128 →
     strchr (Some buf) ch = Ok (first_index s ch) ∧
     strrchr (Some buf) ch = Ok (last_index s ch) ∧
     strchrs (Some buf) ch = Ok (Z.of_nat (length (filter (λ c, c = ch) s)))) ∧
  (128 ≤ ch < 256 → strchr (Some buf) ch = Ok None).
Proof.
  intros [Hs [r ->]] Hlen. unfold strchr, strrchr, strchrs. rewrite !ASSERT_true by done. cbn [rbind]. rewrite !mem_Some.
  split; intros Hch; rewrite u8_small by lia.
  - rewrite strchr_loop_low, strrchr_loop_run, strchrs_loop_run by (done || lia).
    assert (length (filter (λ c, c = ch) s) ≤ length s)%nat by apply length_filter.
    rewrite u32_small by lia. split_and!; [|by destruct (last_index s ch)|do 2 f_equal; lia].
    by destruct (first_index s ch).
  - by apply strchr_loop_high.
Qed.

(** [memset] and [memcpy] write exactly [size] bytes when they fit in the
    object. *)
Theorem mem_write_correct dst src v n :
  0 ≤ n ≤ Z.of_nat (length dst) → n ≤ Z.of_nat (length src) →
  memset (Some dst) v n = Ok (replicate (Z.to_nat n) (u8 v) ++ drop (Z.to_nat n) dst) ∧
  memcpy (Some dst) (Some src) n = Ok (take (Z.to_nat n) src ++ drop (Z.to_nat n) dst).
Proof.
  intros H1 H2. unfold memset, memcpy. rewrite !ASSERT_true by done. cbn [rbind].
  rewrite !mem_Some, set_loop_run, copy_loop_run by lia. done.
Qed.

End string_properties.

Definition buf_abc : list Z := [97; 98; 99; 0; 7; 7; 7; 7].
Definition buf_ab : list Z := [97; 98; 0; 9].

Lemma buf_abc_cstr : cstr buf_abc [97; 98; 99].
Proof. split; [repeat constructor; lia|]. by exists [7; 7; 7; 7]. Qed.
Lemma buf_ab_cstr : cstr buf_ab [97; 98].
Proof. split; [repeat constructor; lia|]. by exists [9]. Qed.

Lemma string_copy_correct_witness :
  @strlen debug_build (Some buf_ab) = Ok 2 ∧
  @strcpy debug_build (Some buf_abc) (Some buf_ab) = Ok [97; 98; 0; 0; 7; 7; 7; 7] ∧
  @strcat debug_build (Some buf_abc) (Some buf_ab) = Ok [97; 98; 99; 97; 98; 0; 7; 7].
Proof.
  apply (@string_copy_correct debug_build buf_abc buf_ab [97; 98] [97; 98; 99]).
  - apply buf_ab_cstr.
  - apply buf_abc_cstr.
  - simpl. lia.
Defined.

Lemma strcmp_order_witness :
  @strcmp debug_build (Some buf_ab) (Some buf_abc) = Ok (-1) ∧
  (-1 = 0 ↔ [97; 98] = [97; 98; 99]) ∧ 1 = - -1.
Proof.
  apply (@strcmp_order debug_build buf_ab buf_abc [97; 98] [97; 98; 99]).
  - apply buf_ab_cstr.
  - apply buf_abc_cstr.
Defined.

Lemma string_search_correct_witness :
  (0 ≤ 98 < 128 →
     @strchr debug_build (Some buf_abc) 98 = Ok (Some 1) ∧
     @strrchr debug_build (Some buf_abc) 98 = Ok (Some 1) ∧
     @strchrs debug_build (Some buf_abc) 98 = Ok 1) ∧
  (128 ≤ 98 < 256 → @strchr debug_build (Some buf_abc) 98 = Ok None).
Proof.
  apply (@string_search_correct debug_build buf_abc [97; 98; 99] 98).
  - apply buf_abc_cstr.
  - simpl. lia.
Defined.

Lemma mem_write_correct_witness :
  @memset debug_build (Some buf_abc) 0 2 = Ok [0; 0; 99; 0; 7; 7; 7; 7] ∧
  @memcpy debug_build (Some buf_abc) (Some buf_ab) 2 = Ok [97; 98; 99; 0; 7; 7; 7; 7].
Proof. apply (@mem_write_correct debug_build buf_abc buf_ab 0 2); simpl; lia. Defined.
