(* ===== verification/Bitmap.v ===== *)
(** * Bitmaps ([kernel/bitmap.c], [lib/bitmap.h])

    The resource maps behind page frames, virtual pages, pids, inodes and
    disk blocks.  A [bitmap] is the C structure: the length in bytes and the
    memory its [bits] pointer points to.  That memory is the list [bits],
    which may be longer than [btmp_bytes_len]: the code reads one byte past
    the map, so the byte that follows it is part of the model. *)

From S2P Require Import Prelude CString.

Record bitmap := Bitmap { btmp_bytes_len : Z; bits : list Z }.

Definition BITMAP_MASK : Z := 1.

#[export] Instance bitmap_eq_dec : EqDecision bitmap.
Proof. solve_decision. Defined.

(** ** The operations *)

Definition bitmap_init {B : Build} (btmp : bitmap) : res bitmap :=
  let? l := memset (Some (bits btmp)) 0 (btmp_bytes_len btmp) in
  Ok (Bitmap (btmp_bytes_len btmp) l).

(** The C function returns the masked byte, not 0 or 1. *)
Definition bitmap_scan_test (btmp : bitmap) (bit_idx : Z) : res Z :=
  let byte_idx := bit_idx / 8 in
  let bit_odd := bit_idx mod 8 in
  let? b := rd (bits btmp) byte_idx in
  Ok (Z.land b (Z.shiftl BITMAP_MASK bit_odd)).

(** [while ((0xff == bits[idx_byte]) && (idx_byte < len)) idx_byte++]: the
    byte is read before the bound is tested. *)
Fixpoint skip_full_bytes (fuel : nat) (btmp : bitmap) (idx_byte : Z) : res Z :=
  let? b := rd (bits btmp) idx_byte in
  if (255 =? b) && (idx_byte <? btmp_bytes_len btmp)
  then match fuel with
       | O => Spin
       | S fuel' => skip_full_bytes fuel' btmp (u32 (idx_byte + 1))
       end
  else Ok idx_byte.

(** [while ((uint8_t)(BITMAP_MASK << idx_bit) & bits[idx_byte]) idx_bit++]:
    at [idx_bit = 8] the cast leaves 0, so eight steps are enough. *)
Fixpoint first_zero_bit (fuel : nat) (b idx_bit : Z) : res Z :=
  if Z.land (u8 (Z.shiftl BITMAP_MASK idx_bit)) b =? 0 then Ok idx_bit
  else match fuel with
       | O => Spin
       | S fuel' => first_zero_bit fuel' b (idx_bit + 1)
       end.

(** [while (bit_left-- > 0)]: [bit_left] bits are looked at. *)
Fixpoint scan_run (bit_left : nat) (btmp : bitmap) (cnt next_bit count : Z) : res Z :=
  match bit_left with
  | O => Ok (-1)
  | S bit_left' =>
      let? t := bitmap_scan_test btmp next_bit in
      let count := if t =? 0 then u32 (count + 1) else 0 in
      if count =? cnt then Ok (s32 (next_bit - cnt + 1))
      else scan_run bit_left' btmp cnt (u32 (next_bit + 1)) count
  end.

Definition bitmap_scan {B : Build} (btmp : bitmap) (cnt : Z) : res Z :=
  let? idx_byte := skip_full_bytes (Z.to_nat (btmp_bytes_len btmp)) btmp 0 in
  check ASSERT (idx_byte <? btmp_bytes_len btmp) in
  if idx_byte =? btmp_bytes_len btmp then Ok (-1)
  else
    let? b := rd (bits btmp) idx_byte in
    let? idx_bit := first_zero_bit 8 b 0 in
    let bit_idx_start := s32 (idx_byte * 8 + idx_bit) in
    if cnt =? 1 then Ok bit_idx_start
    else
      let bit_left := u32 (btmp_bytes_len btmp * 8 - bit_idx_start) in
      let next_bit := u32 (bit_idx_start + 1) in
      scan_run (Z.to_nat bit_left) btmp cnt next_bit 1.

(** [~(BITMAP_MASK << bit_odd)] is an [int]; storing it back keeps 8 bits. *)
Definition bitmap_set {B : Build} (btmp : bitmap) (bit_idx value : Z) : res bitmap :=
  check ASSERT ((value =? 0) || (value =? 1)) in
  let byte_idx := bit_idx / 8 in
  let bit_odd := bit_idx mod 8 in
  let? b := rd (bits btmp) byte_idx in
  let b' := if value =? 0
            then u8 (Z.land b (Z.lnot (Z.shiftl BITMAP_MASK bit_odd)))
            else u8 (Z.lor b (Z.shiftl BITMAP_MASK bit_odd)) in
  let? l := wr (bits btmp) byte_idx b' in
  Ok (Bitmap (btmp_bytes_len btmp) l).

(** ** The set of bits a bitmap stands for *)

Definition bit (btmp : bitmap) (i : Z) : bool :=
  match bits btmp !! Z.to_nat (i / 8) with
  | Some b => Z.testbit b (i mod 8)
  | None => false
  end.

(** [btmp_bytes_len] bytes of map inside the memory, every byte a byte, and
    fewer than 2^31 bits: the code keeps bit indices in an [int]. *)
Record bitmap_ok (btmp : bitmap) : Prop := {
  bok_len : 0 ≤ btmp_bytes_len btmp < 268435456;
  bok_mem : btmp_bytes_len btmp ≤ Z.of_nat (length (bits btmp));
  bok_bytes : Forall (λ b, 0 ≤ b < 256) (bits btmp)
}.

(** The byte after the map can be read. *)
Definition slack (btmp : bitmap) : Prop :=
  btmp_bytes_len btmp < Z.of_nat (length (bits btmp)).

Definition bit_cnt (btmp : bitmap) : Z := btmp_bytes_len btmp * 8.

Definition run_free (btmp : bitmap) (i cnt : Z) : Prop :=
  ∀ k, i ≤ k < i + cnt → bit btmp k = false.

Definition full (btmp : bitmap) : Prop :=
  ∀ k, 0 ≤ k < bit_cnt btmp → bit btmp k = true.

(** The free bits, in order. *)
Definition free_bits (btmp : bitmap) : list Z :=
  filter (λ i, bit btmp i = false) (seqZ 0 (bit_cnt btmp)).

(** ** Lemmas *)

Lemma filter_iff_in {A} (P Q : A → Prop) `{!∀ x, Decision (P x), !∀ x, Decision (Q x)} (l : list A) :
  (∀ x, x ∈ l → P x ↔ Q x) → filter P l = filter Q l.
Proof.
  induction l as [|x l IH]; intros HPQ; [done|]. rewrite !filter_cons.
  rewrite IH by (intros; apply HPQ; by right). assert (P x ↔ Q x) as Hx by (apply HPQ; by left).
  repeat case_decide; naive_solver.
Qed.

Lemma filter_drop_one {A} (P Q : A → Prop) `{!∀ x, Decision (P x), !∀ x, Decision (Q x)} (l : list A) x :
  NoDup l → x ∈ l → P x → ¬ Q x → (∀ y, y ≠ x → P y ↔ Q y) →
  length (filter P l) = S (length (filter Q l)).
Proof.
  intros Hnd Hin Hp Hq Heq. induction Hnd as [|y l Hy Hnd IH]; [by apply not_elem_of_nil in Hin|].
  rewrite !filter_cons. apply elem_of_cons in Hin as [<-|Hin].
  - rewrite decide_True, decide_False by done. simpl. f_equal. f_equal.
    apply filter_iff_in. intros z Hz. apply Heq. congruence.
  - assert (y ≠ x) by congruence. destruct (decide (P y)) as [?|?].
    + rewrite decide_True by (by apply Heq). simpl. by rewrite IH.
    + rewrite decide_False by (by rewrite <-Heq). by apply IH.
Qed.

Lemma free_bits_some b : (0 < length (free_bits b))%nat → ∃ k, 0 ≤ k < bit_cnt b ∧ bit b k = false.
Proof.
  intros H. destruct (free_bits b) as [|k l] eqn:E; [simpl in H; lia|]. exists k.
  assert (k ∈ free_bits b) as Hk by (rewrite E; by left).
  unfold free_bits in Hk. apply list_elem_of_filter in Hk as [? ?%elem_of_seqZ]. split; [lia|done].
Qed.

Lemma free_bits_take b b' i :
  bit_cnt b' = bit_cnt b → 0 ≤ i < bit_cnt b → bit b i = false →
  (∀ j, 0 ≤ j → bit b' j = if decide (j = i) then true else bit b j) →
  length (free_bits b) = S (length (free_bits b')).
Proof.
  intros Hc Hi Hf Hset. unfold free_bits. rewrite Hc.
  assert (∀ y, y ∈ seqZ 0 (bit_cnt b) → bit b' y = if decide (y = i) then true else bit b y) as Hset'
    by (intros y ?%elem_of_seqZ; apply Hset; lia).
  rewrite (filter_iff_in (λ j, bit b' j = false) (λ j, (if decide (j = i) then true else bit b j) = false))
    by (intros y Hy; by rewrite Hset').
  apply (filter_drop_one _ _ _ i).
  - apply NoDup_seqZ.
  - apply elem_of_seqZ. lia.
  - done.
  - by rewrite decide_True.
  - intros y Hy. by rewrite decide_False.
Qed.

Section bitmap_lemmas.
Context {B : Build}.
Implicit Types (b : bitmap) (i j k cnt : Z).

Lemma byte_lookup_range b n w :
  bitmap_ok b → bits b !! n = Some w → 0 ≤ w < 256.
Proof. intros H Hn. exact (Forall_lookup_1 _ _ _ _ (bok_bytes _ H) Hn). Qed.

Lemma scan_test_bit b i :
  bitmap_ok b → 0 ≤ i → i / 8 < Z.of_nat (length (bits b)) →
  ∃ t, bitmap_scan_test b i = Ok t ∧ (t =? 0) = negb (bit b i).
Proof.
  intros Hb Hi Hlt. unfold bitmap_scan_test, bit, BITMAP_MASK.
  destruct (rd_total (bits b) (i / 8)) as (w & Hr & Hw).
  { split; [apply Z.div_pos; lia|done]. }
  rewrite Hr, Hw. simpl. eexists. split; [done|].
  rewrite (testbit_land_pow2 w) by (apply Z.mod_pos_bound; lia).
  by rewrite negb_involutive.
Qed.

Lemma full_byte_bits b n w :
  bitmap_ok b → 0 ≤ n → bits b !! Z.to_nat n = Some w →
  w = 255 ↔ ∀ k, n * 8 ≤ k < n * 8 + 8 → bit b k = true.
Proof.
  intros Hb Hn Hw. assert (Hr := byte_lookup_range _ _ _ Hb Hw). split.
  - intros -> k Hk. unfold bit.
    replace (k / 8) with n by (Z.to_euclidean_division_equations; lia).
    rewrite Hw. assert (0 ≤ k mod 8 < 8) as Hm by (apply Z.mod_pos_bound; lia).
    revert Hm. generalize (k mod 8). by apply bit_explode.
  - intros H. apply byte_ext; [lia|lia|]. intros m Hm.
    specialize (H (n * 8 + m) ltac:(lia)). unfold bit in H.
    replace ((n * 8 + m) / 8) with n in H by (Z.to_euclidean_division_equations; lia).
    replace ((n * 8 + m) mod 8) with m in H by (Z.to_euclidean_division_equations; lia).
    rewrite Hw in H. rewrite H. clear H. revert m Hm. by apply bit_explode.
Qed.

(** The byte loop stops at the first byte that is not [0xff], or at the end. *)
Lemma skip_full_bytes_spec b fuel i :
  bitmap_ok b → 0 ≤ i ≤ btmp_bytes_len b →
  (btmp_bytes_len b - i ≤ Z.of_nat fuel) →
  (∀ k, 0 ≤ k < i * 8 → bit b k = true) →
  (i = btmp_bytes_len b → slack b) →
  (slack b ∨ ∃ k, 0 ≤ k < bit_cnt b ∧ bit b k = false) →
  ∃ r, skip_full_bytes fuel b i = Ok r ∧ i ≤ r ≤ btmp_bytes_len b ∧
    (∀ k, 0 ≤ k < r * 8 → bit b k = true) ∧
    (r < btmp_bytes_len b → ∃ w, bits b !! Z.to_nat r = Some w ∧ w ≠ 255).
Proof.
  intros Hb. revert i. induction fuel as [|fuel IH]; intros i Hi Hf Hlo Hend Hsl.
  all: assert (0 ≤ i < Z.of_nat (length (bits b))) as Hin
    by (destruct Hb; unfold slack in *; destruct (decide (i = btmp_bytes_len b)); lia).
  all: destruct (rd_total (bits b) i Hin) as (w & Hr & Hw); simpl; rewrite Hr; simpl.
  - rewrite (proj2 (Z.ltb_ge i _)), andb_false_r by lia. eexists; split_and!; [done|lia|lia|done|lia].
  - destruct (Z.eqb_spec 255 w) as [Hff|Hff], (Z.ltb_spec i (btmp_bytes_len b)) as [Hlt|Hlt]; simpl;
      try (eexists; split_and!; [done|lia|lia|done|first [lia|eauto]]).
    assert (Hnew : ∀ k, 0 ≤ k < (i + 1) * 8 → bit b k = true).
    { intros k Hk. destruct (decide (k < i * 8)); [apply Hlo; lia|].
      eapply (proj1 (full_byte_bits b i w Hb ltac:(lia) Hw)); [done|lia]. }
    rewrite u32_small by (destruct Hb; lia).
    destruct (IH (i + 1)) as (r & ? & ? & ? & ?); try done; try lia.
    + intros Heq. destruct Hsl as [?|(k & Hk & Hz)]; [done|].
      rewrite Hnew in Hz; [done|]. unfold bit_cnt in Hk. lia.
    + exists r. repeat split; eauto; lia.
Qed.

Lemma first_zero_bit_spec w fuel m :
  0 ≤ w < 256 → 0 ≤ m ≤ 8 → 8 - m ≤ Z.of_nat fuel →
  (∀ k, 0 ≤ k < m → Z.testbit w k = true) →
  ∃ r, first_zero_bit fuel w m = Ok r ∧ m ≤ r ≤ 8 ∧
    (∀ k, 0 ≤ k < r → Z.testbit w k = true) ∧ (r < 8 → Z.testbit w r = false).
Proof.
  intros Hw. revert m. induction fuel as [|fuel IH]; intros m Hm Hf Hlo; simpl; unfold BITMAP_MASK.
  - assert (m = 8) as -> by lia. simpl. eauto with lia.
  - destruct (decide (m = 8)) as [->|Hne]; [simpl; eauto with lia|].
    assert (u8 (Z.shiftl 1 m) = Z.shiftl 1 m) as ->.
    { assert (0 ≤ m < 8) as Hlt by lia. clear -Hlt. revert m Hlt. by apply bit_explode. }
    assert (Ht := testbit_land_pow2 w m ltac:(lia)). rewrite Z.land_comm.
    destruct (Z.eqb_spec (Z.land w (Z.shiftl 1 m)) 0).
    + exists m. repeat split; [lia|lia|done|intros; by rewrite Ht].
    + destruct (IH (m + 1)) as (r & ? & ? & ? & ?); try lia.
      { intros k Hk. destruct (decide (k = m)) as [->|]; [done|apply Hlo; lia]. }
      exists r. repeat split; try done; lia.
Qed.

#[local] Arguments first_zero_bit : simpl never.

(** A fresh map has every bit free. *)
Lemma bitmap_init_spec b :
  bitmap_ok b → ∃ b', bitmap_init b = Ok b' ∧ bitmap_ok b' ∧ bit_cnt b' = bit_cnt b ∧
    length (bits b') = length (bits b) ∧ run_free b' 0 (bit_cnt b').
Proof.
  intros [Hl Hm Hb]. unfold bitmap_init, memset. rewrite ASSERT_true by done. cbn [rbind].
  rewrite mem_Some, set_loop_run by lia. cbn [rbind]. eexists. split_and!; [done|split| | |].
  - done.
  - simpl. rewrite length_app, length_replicate, length_drop. lia.
  - simpl. apply Forall_app. split; [by apply Forall_replicate|by apply Forall_drop].
  - done.
  - simpl. rewrite length_app, length_replicate, length_drop. lia.
  - intros k Hk. unfold bit, bit_cnt in *. simpl in *.
    rewrite lookup_app_l by (rewrite length_replicate; Z.to_euclidean_division_equations; lia).
    rewrite lookup_replicate_2 by (Z.to_euclidean_division_equations; lia). apply Z.bits_0.
Qed.

Lemma u8_testbit z m : 0 ≤ m < 8 → Z.testbit (u8 z) m = Z.testbit z m.
Proof. intros. unfold u8. change 256 with (2 ^ 8). apply Z.mod_pow2_bits_low. lia. Qed.

Lemma set_byte_testbit w k m v :
  0 ≤ k < 8 → 0 ≤ m < 8 → v = 0 ∨ v = 1 →
  Z.testbit (if v =? 0 then u8 (Z.land w (Z.lnot (Z.shiftl BITMAP_MASK k)))
             else u8 (Z.lor w (Z.shiftl BITMAP_MASK k))) m
  = if decide (m = k) then v =? 1 else Z.testbit w m.
Proof.
  intros Hk Hm Hv. unfold BITMAP_MASK. rewrite Z.shiftl_1_l.
  destruct Hv as [-> | ->]; simpl; rewrite u8_testbit by done.
  - rewrite Z.land_spec, Z.lnot_spec by lia. case_decide as E.
    + subst. rewrite Z.pow2_bits_true by lia. apply andb_false_r.
    + rewrite Z.pow2_bits_false by done. apply andb_true_r.
  - rewrite Z.lor_spec. case_decide as E.
    + subst. rewrite Z.pow2_bits_true by lia. apply orb_true_r.
    + rewrite Z.pow2_bits_false by done. apply orb_false_r.
Qed.

(** [bitmap_set] writes one bit and leaves the rest of memory alone. *)
Lemma bitmap_set_spec b i v :
  bitmap_ok b → 0 ≤ i → i / 8 < Z.of_nat (length (bits b)) → v = 0 ∨ v = 1 →
  ∃ b', bitmap_set b i v = Ok b' ∧ bitmap_ok b' ∧
    btmp_bytes_len b' = btmp_bytes_len b ∧ length (bits b') = length (bits b) ∧
    ∀ j, 0 ≤ j → bit b' j = if decide (j = i) then v =? 1 else bit b j.
Proof.
  intros Hb Hi Hlt Hv. unfold bitmap_set.
  assert (0 ≤ i / 8) as Hd by (apply Z.div_pos; lia).
  destruct (rd_total (bits b) (i / 8)) as (w & Hr & Hw); [lia|].
  rewrite ASSERT_true by (destruct Hv as [-> | ->]; done). simpl. rewrite Hr. simpl.
  rewrite wr_Ok by lia. simpl. eexists. split_and!; [done| |done|simpl; by rewrite length_insert|].
  - destruct Hb. split; simpl; [done|by rewrite length_insert|].
    apply Forall_insert; [done|]. case_match; apply u8_range.
  - intros j Hj. unfold bit. simpl. rewrite insert_lookup_Z by (try apply Z.div_pos; lia).
    destruct (decide (i / 8 = j / 8)) as [E|E].
    + rewrite set_byte_testbit by (try apply Z.mod_pos_bound; lia || done).
      rewrite E in Hw. rewrite Hw. repeat case_decide; try done; exfalso.
      * Z.to_euclidean_division_equations; lia.
      * subst. done.
    + case_decide; [|done]. subst. done.
Qed.

Lemma scan_run_spec b n cnt next count :
  bitmap_ok b → slack b → 1 ≤ count < cnt ∨ 0 = count →
  2 ≤ cnt < 2147483648 →
  count ≤ next → next + Z.of_nat n = bit_cnt b + 1 →
  run_free b (next - count) count →
  (∀ j, 0 ≤ j < next - count → ¬ run_free b j cnt) →
  ∃ r, scan_run n b cnt next count = Ok r ∧
    ((0 ≤ r ∧ run_free b r cnt ∧ r + cnt ≤ bit_cnt b + 1 ∧ (∀ j, 0 ≤ j < r → ¬ run_free b j cnt)) ∨
     (r = -1 ∧ ∀ j, 0 ≤ j → j + cnt ≤ bit_cnt b + 1 → ¬ run_free b j cnt)).
Proof.
  intros Hb Hs. revert next count. induction n as [|n IH]; intros next count Hc Hcnt Hle Hn Hrun Hmin; simpl.
  { exists (-1). split; [done|]. right. split; [done|]. intros j Hj Hjc.
    apply Hmin. split; [done|]. unfold bit_cnt in *. lia. }
  assert (Hnb : next / 8 < Z.of_nat (length (bits b))).
  { unfold slack, bit_cnt in *. Z.to_euclidean_division_equations; lia. }
  destruct (scan_test_bit b next Hb ltac:(lia) Hnb) as (t & -> & Ht). simpl. rewrite Ht.
  assert (next + 1 < 2147483648 + 2) as Hnx by (destruct Hb; unfold bit_cnt in *; lia).
  destruct (bit b next) eqn:Hbit; simpl.
  - rewrite (proj2 (Z.eqb_neq 0 cnt)) by lia. rewrite u32_small by lia.
    apply IH; [lia|done|lia|lia|intros k Hk; lia|]. intros j Hj Hf.
    destruct (decide (j < next - count)); [eapply Hmin; [|done]; lia|].
    rewrite (Hf next) in Hbit by lia. done.
  - rewrite (u32_small (count + 1)) by lia.
    assert (Hrun' : run_free b (next - count) (count + 1)).
    { intros k Hk. destruct (decide (k = next)) as [->|]; [done|apply Hrun; lia]. }
    destruct (Z.eqb_spec (count + 1) cnt) as [E|E].
    + exists (next - cnt + 1). split; [rewrite s32_small; [done|destruct Hb; unfold bit_cnt in *; lia]|].
      left. replace (next - cnt + 1) with (next - count) by lia. rewrite <- E.
      split_and!; [lia|done|lia|by rewrite E].
    + rewrite u32_small by lia.
      apply IH; [lia|done|lia|lia| |].
      * replace (next + 1 - (count + 1)) with (next - count) by lia. done.
      * replace (next + 1 - (count + 1)) with (next - count) by lia. done.
Qed.

(** [bitmap_scan] up to the first free bit. *)
Lemma scan_start b :
  bitmap_ok b → (∃ k, 0 ≤ k < bit_cnt b ∧ bit b k = false) →
  ∃ idx_byte w idx_bit, 
    skip_full_bytes (Z.to_nat (btmp_bytes_len b)) b 0 = Ok idx_byte ∧
    0 ≤ idx_byte < btmp_bytes_len b ∧ rd (bits b) idx_byte = Ok w ∧
    first_zero_bit 8 w 0 = Ok idx_bit ∧ 0 ≤ idx_bit < 8 ∧
    bit b (idx_byte * 8 + idx_bit) = false ∧
    ∀ k, 0 ≤ k < idx_byte * 8 + idx_bit → bit b k = true.
Proof.
  intros Hb Hz. destruct (skip_full_bytes_spec b (Z.to_nat (btmp_bytes_len b)) 0) as (r & Hr & Hri & Hlo & Hw);
    [done|destruct Hb; lia|lia|lia| |by right|].
  { intros E. destruct Hz as (k & Hk & _). unfold bit_cnt in Hk. lia. }
  assert (r < btmp_bytes_len b) as Hlt.
  { destruct Hz as (k & Hk & Hk'). destruct (decide (r < btmp_bytes_len b)); [done|].
    rewrite Hlo in Hk'; [done|]. unfold bit_cnt in Hk. lia. }
  destruct (Hw Hlt) as (w & Hwl & Hne). assert (Hwr := byte_lookup_range _ _ _ Hb Hwl).
  destruct (first_zero_bit_spec w 8 0 Hwr) as (m & Hm & Hmr & Hmlo & Hmz); [lia|lia|lia|].
  assert (m ≠ 8) as Hm8.
  { intros ->. apply Hne, byte_ext; [lia|lia|]. intros k Hk. rewrite Hmlo by lia.
    revert k Hk. by apply bit_explode. }
  assert (Hbit : ∀ k, 0 ≤ k < 8 → bit b (r * 8 + k) = Z.testbit w k).
  { intros k Hk. unfold bit.
    replace ((r * 8 + k) / 8) with r by (Z.to_euclidean_division_equations; lia).
    replace ((r * 8 + k) mod 8) with k by (Z.to_euclidean_division_equations; lia). by rewrite Hwl. }
  exists r, w, m. split_and!; try done; try lia.
  - apply rd_lookup; [lia|done].
  - rewrite Hbit by lia. apply Hmz. lia.
  - intros k Hk. destruct (decide (k < r * 8)); [apply Hlo; lia|].
    replace k with (r * 8 + (k - r * 8)) by lia. rewrite Hbit by lia. apply Hmlo. lia.
Qed.

(** Single-bit scans find the first free bit ... *)
Lemma bitmap_scan_one b :
  bitmap_ok b → (∃ k, 0 ≤ k < bit_cnt b ∧ bit b k = false) →
  ∃ i, bitmap_scan b 1 = Ok i ∧ 0 ≤ i < bit_cnt b ∧ bit b i = false ∧
    ∀ k, 0 ≤ k < i → bit b k = true.
Proof.
  intros Hb Hz. destruct (scan_start b Hb Hz) as (r & w & m & Hr & Hlt & Hw & Hm & Hmr & Hbit & Hlo).
  unfold bitmap_scan. rewrite Hr. simpl. rewrite ASSERT_true by (apply Z.ltb_lt; lia). simpl.
  rewrite (proj2 (Z.eqb_neq _ _)) by lia. rewrite Hw. simpl. rewrite Hm. simpl.
  exists (r * 8 + m). unfold bit_cnt in *. destruct Hb.
  rewrite s32_small by lia. split_and!; [done|lia|lia|done|done].
Qed.

(** ... and meet the assertion, or return -1 without it, when there is none. *)
Lemma bitmap_scan_full b cnt :
  bitmap_ok b → slack b → full b →
  bitmap_scan b cnt = if ndebug then Ok (-1) else Panic.
Proof.
  intros Hb Hs Hf. destruct (skip_full_bytes_spec b (Z.to_nat (btmp_bytes_len b)) 0) as (r & Hr & Hri & Hlo & Hw);
    [done|destruct Hb; lia|lia|lia|done|by left|].
  assert (r = btmp_bytes_len b) as ->.
  { destruct (decide (r < btmp_bytes_len b)) as [Hlt|]; [|lia].
    destruct (Hw Hlt) as (w & Hwl & Hne). destruct Hne.
    apply (full_byte_bits b r w Hb); [lia|done|]. intros k Hk. apply Hf. unfold bit_cnt. lia. }
  unfold bitmap_scan. rewrite Hr. simpl. rewrite Z.ltb_irrefl. unfold ASSERT.
  destruct ndebug; simpl; [by rewrite Z.eqb_refl|done].
Qed.

(** A search for [cnt] bits that fit inside the map stays inside it. *)
Lemma bitmap_scan_spec (b : bitmap) (cnt : Z) :
  bitmap_ok b → slack b → (∃ k, 0 ≤ k < bit_cnt b ∧ bit b k = false) →
  1 ≤ cnt < 2147483648 →
  let limit := bit_cnt b + (if cnt =? 1 then 0 else 1) in
  ∃ r, bitmap_scan b cnt = Ok r ∧
    ((0 ≤ r ∧ run_free b r cnt ∧ r + cnt ≤ limit ∧ ∀ j, 0 ≤ j < r → ¬ run_free b j cnt) ∨
     (r = -1 ∧ ∀ j, 0 ≤ j → j + cnt ≤ limit → ¬ run_free b j cnt)).
Proof.
  intros Hb Hs Hz Hcnt. simpl. destruct (Z.eqb_spec cnt 1) as [->|Hne].
  { destruct (bitmap_scan_one b Hb Hz) as (i & -> & Hi & Hbit & Hlo).
    exists i. split; [done|]. left. split_and!; [lia| |lia|].
    - intros k Hk. by replace k with i by lia.
    - intros j Hj Hf. specialize (Hf j ltac:(lia)). by rewrite Hlo in Hf. }
  destruct (scan_start b Hb Hz) as (r & w & m & Hr & Hlt & Hw & Hm & Hmr & Hbit & Hlo).
  unfold bitmap_scan. rewrite Hr. simpl. rewrite ASSERT_true by (apply Z.ltb_lt; lia). simpl.
  rewrite (proj2 (Z.eqb_neq r _)) by lia. rewrite Hw. simpl. rewrite Hm. simpl.
  rewrite (proj2 (Z.eqb_neq cnt 1)) by done.
  assert (btmp_bytes_len b < 268435456) by (destruct Hb; lia).
  rewrite s32_small, !u32_small by lia.
  apply scan_run_spec; try done; try lia.
  - unfold bit_cnt. lia.
  - intros k Hk. by replace k with (r * 8 + m) by lia.
  - intros j Hj Hf. specialize (Hf j ltac:(lia)). rewrite Hlo in Hf; [done|lia].
Qed.

Lemma bitmap_scan_fits b cnt j :
  bitmap_ok b → slack b → 1 ≤ cnt < 2147483648 → 0 ≤ j → j + cnt ≤ bit_cnt b → run_free b j cnt →
  ∃ r, bitmap_scan b cnt = Ok r ∧ 0 ≤ r ∧ r + cnt ≤ bit_cnt b ∧ run_free b r cnt.
Proof.
  intros Hb Hs Hc Hj Hfit Hf.
  destruct (bitmap_scan_spec b cnt) as (r & Hr & H); [done|done|exists j; split; [lia|apply Hf; lia]|lia|].
  exists r. split; [done|]. destruct H as [(H0 & Hrf & Hl & Hmin)|[_ Hno]].
  - split_and!; [lia| |done]. destruct (decide (j < r)) as [Hlt|]; [|lia]. by destruct (Hmin j).
  - destruct (Hno j); [lia|case_match; lia|done].
Qed.

End bitmap_lemmas.

(** ** Properties *)

Section bitmap_properties.
Context {B : Build}.
#[local] Arguments first_zero_bit : simpl never.

(** C32: [bitmap_scan] is a complete first-fit search.  On a map that still has
    a free bit it returns, for every request of [cnt] bits, either the lowest
    start of [cnt] free bits or -1 when no such run exists; the run is searched
    up to one bit past the map when [cnt > 1]. *)
Theorem bitmap_scan_first_fit (b : bitmap) (cnt : Z) :
  bitmap_ok b → slack b → (∃ k, 0 ≤ k < bit_cnt b ∧ bit b k = false) →
  1 ≤ cnt < 2147483648 →
  let limit := bit_cnt b + (if cnt =? 1 then 0 else 1) in
  ∃ r, bitmap_scan b cnt = Ok r ∧
    ((0 ≤ r ∧ run_free b r cnt ∧ r + cnt ≤ limit ∧ ∀ j, 0 ≤ j < r → ¬ run_free b j cnt) ∨
     (r = -1 ∧ ∀ j, 0 ≤ j → j + cnt ≤ limit → ¬ run_free b j cnt)).
Proof. apply bitmap_scan_spec. Qed.

(** On a map with no free bit, [bitmap_scan] stops the kernel in its own
    assertion; only a build with [NDEBUG] reaches [return -1].  The NULL and -1
    paths of the callers are therefore dead in the build the Makefile makes. *)
Theorem bitmap_scan_exhausted (b : bitmap) (cnt : Z) :
  bitmap_ok b → slack b → full b →
  bitmap_scan b cnt = if ndebug then Ok (-1) else Panic.
Proof. apply bitmap_scan_full. Qed.

(** [bitmap_set] changes exactly the named bit, keeps every byte a byte and
    the memory the same size, and never fails inside the memory. *)
Theorem bitmap_set_exact (b : bitmap) (i v : Z) :
  bitmap_ok b → 0 ≤ i < bit_cnt b → v = 0 ∨ v = 1 →
  ∃ b', bitmap_set b i v = Ok b' ∧ bitmap_ok b' ∧ bit_cnt b' = bit_cnt b ∧
    ∀ j, 0 ≤ j → bit b' j = if decide (j = i) then v =? 1 else bit b j.
Proof.
  intros Hb Hi Hv. destruct (bitmap_set_spec b i v) as (b' & ? & ? & Hl & ? & ?);
    [done|lia| |done|].
  { destruct Hb. unfold bit_cnt in Hi. Z.to_euclidean_division_equations; lia. }
  exists b'. unfold bit_cnt. rewrite Hl. eauto.
Qed.

End bitmap_properties.

Definition half_map : bitmap := Bitmap 1 [15; 0].

(** Witness of the search: four free bits from bit 4. *)
Lemma bitmap_scan_first_fit_witness :
  ∃ r, @bitmap_scan debug_build half_map 4 = Ok r ∧
    ((0 ≤ r ∧ run_free half_map r 4 ∧ r + 4 ≤ 9 ∧ ∀ j, 0 ≤ j < r → ¬ run_free half_map j 4) ∨
     (r = -1 ∧ ∀ j, 0 ≤ j → j + 4 ≤ 9 → ¬ run_free half_map j 4)).
Proof.
  apply (@bitmap_scan_first_fit debug_build half_map 4).
  - split; simpl; [lia|lia|repeat constructor; lia].
  - unfold slack. simpl. lia.
  - exists 4. split; [unfold bit_cnt; simpl; lia|reflexivity].
  - lia.
Defined.

Definition full_map : bitmap := Bitmap 1 [255; 0].

(** Witness of exhaustion. *)
Lemma bitmap_scan_exhausted_witness :
  @bitmap_scan debug_build full_map 1 = Panic.
Proof.
  apply (@bitmap_scan_exhausted debug_build full_map 1).
  - split; simpl; [lia|lia|repeat constructor; lia].
  - unfold slack. simpl. lia.
  - intros k Hk. unfold bit_cnt in Hk. simpl in Hk. revert k Hk. by apply bit_explode.
Defined.

(** Witness of an update. *)
Lemma bitmap_set_exact_witness :
  ∃ b', @bitmap_set debug_build half_map 4 1 = Ok b' ∧ bitmap_ok b' ∧ bit_cnt b' = 8 ∧
    ∀ j, 0 ≤ j → bit b' j = if decide (j = 4) then 1 =? 1 else bit half_map j.
Proof.
  apply (@bitmap_set_exact debug_build half_map 4 1).
  - split; simpl; [lia|lia|repeat constructor; lia].
  - unfold bit_cnt. simpl. lia.
  - by right.
Defined.

(** The search loop of [bitmap_scan] runs one bit too far.  A run of [cnt]
    bits that includes the first bit after the map is returned as found, here
    five bits from bit 4 of an eight-bit map. *)
Theorem bitmap_scan_overruns :
  ∃ b cnt r, bitmap_ok b ∧ slack b ∧ @bitmap_scan debug_build b cnt = Ok r ∧
    bit_cnt b < r + cnt.
Proof.
  exists half_map, 5, 4. split_and!.
  - split; simpl; [lia|lia|repeat constructor; lia].
  - unfold slack. simpl. lia.
  - reflexivity.
  - unfold bit_cnt. simpl. lia.
Qed.
