(* ===== verification/Interrupt.v ===== *)
(** * Interrupts and descriptors ([kernel/interrupt.c], [userprog/tss.c])

    The interrupt flag as the C code drives it (bit 9 of EFLAGS), the
    interrupt descriptor table it builds, the handler table behind it, and the
    segment descriptors [tss_init] installs.  Addresses of assembly entry
    points are parameters: they are fixed by the linker. *)

From S2P Require Import Prelude.

(** ** The interrupt flag *)

Inductive intr_status := INTR_OFF | INTR_ON.

#[export] Instance intr_status_eq_dec : EqDecision intr_status.
Proof. solve_decision. Defined.

Definition EFLAGS_IF : Z := 512.

(** The processor's [cli] and [sti]. *)
Definition cli (eflags : Z) : Z := Z.ldiff eflags EFLAGS_IF.
Definition sti (eflags : Z) : Z := Z.lor eflags EFLAGS_IF.

Definition intr_get_status (eflags : Z) : intr_status :=
  if Z.land EFLAGS_IF eflags =? 0 then INTR_OFF else INTR_ON.

Definition intr_enable (eflags : Z) : intr_status * Z :=
  match intr_get_status eflags with
  | INTR_ON => (INTR_ON, eflags)
  | INTR_OFF => (INTR_OFF, sti eflags)
  end.

Definition intr_disable (eflags : Z) : intr_status * Z :=
  match intr_get_status eflags with
  | INTR_ON => (INTR_ON, cli eflags)
  | INTR_OFF => (INTR_OFF, eflags)
  end.

Definition intr_set_status (status : intr_status) (eflags : Z) : intr_status * Z :=
  match status with
  | INTR_ON => intr_enable eflags
  | INTR_OFF => intr_disable eflags
  end.

(** ** Gate descriptors *)

Definition IDT_DESC_CNT : Z := 129.
Definition SELECTOR_K_CODE : Z := 8.
Definition SELECTOR_K_STACK : Z := 16.
Definition IDT_DESC_ATTR_DPL0 : Z := 142.
Definition IDT_DESC_ATTR_DPL3 : Z := 238.

Record gate_desc := Gate {
  func_offset_low_word : Z;
  selector : Z;
  dcount : Z;
  attribute : Z;
  func_offset_high_word : Z
}.

Definition make_idt_desc (attr function : Z) : gate_desc :=
  Gate (u16 (Z.land function 65535)) SELECTOR_K_CODE 0 (u8 attr)
       (u16 (Z.shiftr (Z.land function 4294901760) 16)).

(** [for (i = 0; i < IDT_DESC_CNT; i++) make_idt_desc(&idt[i], DPL0, intr_entry_table[i])]. *)
Fixpoint fill_gates (n : nat) (i : Z) (intr_entry_table : list Z) (idt : list gate_desc)
  : res (list gate_desc) :=
  match n with
  | O => Ok idt
  | S n' =>
      let? f := rd intr_entry_table i in
      let? idt' := wr idt i (make_idt_desc IDT_DESC_ATTR_DPL0 f) in
      fill_gates n' (i + 1) intr_entry_table idt'
  end.

Definition idt_desc_init (intr_entry_table : list Z) (syscall_handler : Z)
  (idt : list gate_desc) : res (list gate_desc) :=
  let lastindex := IDT_DESC_CNT - 1 in
  let? idt' := fill_gates (Z.to_nat IDT_DESC_CNT) 0 intr_entry_table idt in
  wr idt' lastindex (make_idt_desc IDT_DESC_ATTR_DPL3 syscall_handler).

(** The handler table [idt_table]; [uint8_t vector_no] may exceed it. *)
Definition register_handler (vector_no function : Z) (idt_table : list Z) : res (list Z) :=
  wr idt_table (u8 vector_no) function.

(** The handler [kernel.S] calls for a vector. *)
Definition dispatch (idt_table : list Z) (vec_nr : Z) : res Z := rd idt_table vec_nr.

(** The two spurious vectors are ignored; any other one prints and hangs. *)
Definition general_intr_handler (vec_nr : Z) : res unit :=
  if (vec_nr =? 39) || (vec_nr =? 47) then Ok tt else Spin.

(** [idtr] operand: 16 bits of limit, 32 of base. *)
Definition idt_operand (idt_addr : Z) : Z :=
  Z.lor (IDT_DESC_CNT * 8 - 1) (Z.shiftl (u32 idt_addr) 16).

(** [pic_init] as the port writes it performs, in order. *)
Definition pic_init : list (Z * Z) :=
  [(32, 17); (33, 32); (33, 4); (33, 1);
   (160, 17); (161, 40); (161, 2); (161, 1);
   (33, 248); (161, 191)].

(** How the processor reads a gate back. *)
Definition gate_offset (g : gate_desc) : Z :=
  func_offset_low_word g + func_offset_high_word g * 65536.
Definition gate_dpl (g : gate_desc) : Z := Z.land (Z.shiftr (attribute g) 5) 3.

(** ** Segment descriptors *)

Record gdt_desc := Desc {
  limit_low_word : Z;
  base_low_word : Z;
  base_mid_byte : Z;
  attr_low_byte : Z;
  limit_high_attr_high : Z;
  base_high_byte : Z
}.

Definition make_gdt_desc (desc_addr limit attr_low attr_high : Z) : gdt_desc :=
  Desc (u16 (Z.land limit 65535))
       (u16 (Z.land desc_addr 65535))
       (u8 (Z.shiftr (Z.land desc_addr 16711680) 16))
       (u8 attr_low)
       (u8 (Z.shiftr (Z.land limit 983040) 16 + u8 attr_high))
       (u8 (Z.shiftr desc_addr 24)).

Definition desc_base (d : gdt_desc) : Z :=
  base_low_word d + base_mid_byte d * 65536 + base_high_byte d * 16777216.
Definition desc_limit (d : gdt_desc) : Z :=
  limit_low_word d + (limit_high_attr_high d mod 16) * 65536.

(** ** Lemmas *)

Lemma intr_get_status_bit f :
  intr_get_status f = if Z.testbit f 9 then INTR_ON else INTR_OFF.
Proof.
  unfold intr_get_status. rewrite (testbit_land_pow2 f 9) by lia.
  rewrite Z.land_comm. change (Z.shiftl 1 9) with EFLAGS_IF. by destruct (_ =? _).
Qed.

Lemma cli_off f : intr_get_status (cli f) = INTR_OFF.
Proof.
  rewrite intr_get_status_bit. unfold cli. rewrite Z.ldiff_spec.
  change (Z.testbit EFLAGS_IF 9) with true. by rewrite andb_false_r.
Qed.

Lemma sti_on f : intr_get_status (sti f) = INTR_ON.
Proof.
  rewrite intr_get_status_bit. unfold sti. rewrite Z.lor_spec.
  change (Z.testbit EFLAGS_IF 9) with true. by rewrite orb_true_r.
Qed.

Lemma intr_disable_off f : intr_get_status (intr_disable f).2 = INTR_OFF.
Proof. unfold intr_disable. destruct (intr_get_status f) eqn:E; [done|apply cli_off]. Qed.

Lemma intr_set_status_get st f : intr_get_status (intr_set_status st f).2 = st.
Proof.
  destruct st; simpl; [apply intr_disable_off|].
  unfold intr_enable. destruct (intr_get_status f) eqn:E; [apply sti_on|done].
Qed.

(** Only the interrupt flag ever changes. *)
Lemma intr_set_status_other st f n :
  n ≠ 9 → 0 ≤ n → Z.testbit (intr_set_status st f).2 n = Z.testbit f n.
Proof.
  intros Hn Hp. assert (Z.testbit EFLAGS_IF n = false) as E.
  { change EFLAGS_IF with (2 ^ 9). apply Z.pow2_bits_false. done. }
  destruct st; simpl; unfold intr_enable, intr_disable; destruct (intr_get_status f);
    unfold cli, sti; simpl; rewrite ?Z.ldiff_spec, ?Z.lor_spec, ?E; simpl;
    by rewrite ?andb_true_r, ?orb_false_r.
Qed.

(** Disable, work that leaves the flag alone, restore: the flag is back. *)
Lemma intr_section f :
  (intr_set_status (intr_disable f).1 (intr_disable f).2).2 = f.
Proof.
  unfold intr_disable. destruct (intr_get_status f) eqn:E; simpl.
  - unfold intr_disable. by rewrite E.
  - unfold intr_enable. rewrite cli_off. simpl. apply Z.bits_inj'. intros n Hn.
    unfold sti, cli. rewrite Z.lor_spec, Z.ldiff_spec.
    destruct (decide (n = 9)) as [->|Hne].
    + rewrite intr_get_status_bit in E. destruct (Z.testbit f 9); [|done]. by destruct (Z.testbit EFLAGS_IF 9).
    + change EFLAGS_IF with (2 ^ 9). rewrite Z.pow2_bits_false by done.
      by rewrite andb_true_r, orb_false_r.
Qed.

#[export] Hint Rewrite cli_off sti_on intr_disable_off intr_set_status_get intr_section : kern.

Lemma land_low z k : 0 ≤ k → Z.land z (Z.ones k) = z mod 2 ^ k.
Proof. intros. by apply Z.land_ones. Qed.

(** A field of [z]: [k] bits from bit [sh]. *)
Lemma land_field z sh k :
  0 ≤ sh → 0 ≤ k → Z.shiftr (Z.land z (Z.shiftl (Z.ones k) sh)) sh = (z / 2 ^ sh) mod 2 ^ k.
Proof.
  intros Hs Hk. rewrite Z.shiftr_land, Z.shiftr_shiftl_l by done.
  rewrite Z.sub_diag, Z.shiftl_0_r, Z.land_ones, Z.shiftr_div_pow2 by done. done.
Qed.

Lemma gate_offset_make attr f : gate_offset (make_idt_desc attr f) = u32 f.
Proof.
  unfold gate_offset, make_idt_desc. simpl.
  change 4294901760 with (Z.shiftl (Z.ones 16) 16). change 65535 with (Z.ones 16).
  rewrite land_field, land_low by lia. change (2 ^ 16) with 65536. zsolve.
Qed.

Lemma fill_gates_spec n i tbl idt :
  0 ≤ i → i + Z.of_nat n ≤ Z.of_nat (length tbl) → i + Z.of_nat n ≤ Z.of_nat (length idt) →
  ∃ idt', fill_gates n i tbl idt = Ok idt' ∧ length idt' = length idt ∧
    (∀ j f, i ≤ j < i + Z.of_nat n → tbl !! Z.to_nat j = Some f →
       idt' !! Z.to_nat j = Some (make_idt_desc IDT_DESC_ATTR_DPL0 f)) ∧
    (∀ j, 0 ≤ j < i → idt' !! Z.to_nat j = idt !! Z.to_nat j).
Proof.
  revert i idt. induction n as [|n IH]; intros i idt Hi Ht Hd; simpl.
  { exists idt. split_and!; [done|done|intros; lia|done]. }
  destruct (rd_total tbl i) as (f & Hr & Hf); [lia|]. rewrite Hr. simpl.
  rewrite wr_Ok by lia. simpl.
  destruct (IH (i + 1) (<[Z.to_nat i := make_idt_desc IDT_DESC_ATTR_DPL0 f]> idt))
    as (idt' & -> & Hl & Hin & Hlo); [lia|lia|rewrite length_insert; lia|].
  rewrite length_insert in Hl. exists idt'. split_and!; [done|done| |].
  - intros j g Hj Hg. destruct (decide (j = i)) as [->|Hne]; [|apply Hin; [lia|done]].
    rewrite Hlo, insert_lookup_Z, decide_True by lia || done. congruence.
  - intros j Hj. rewrite Hlo by lia. rewrite insert_lookup_Z, decide_False by lia. done.
Qed.

(** ** Properties *)

(** The critical-section idiom [old = intr_disable(); ...;
    intr_set_status(old)] runs with interrupts off and gives back exactly the
    EFLAGS it found. *)
Theorem intr_critical_section (f : Z) :
  intr_get_status (intr_disable f).2 = INTR_OFF ∧
  (intr_disable f).1 = intr_get_status f ∧
  (intr_set_status (intr_disable f).1 (intr_disable f).2).2 = f.
Proof.
  split_and!; [apply intr_disable_off| |apply intr_section].
  unfold intr_disable. by destruct (intr_get_status f).
Qed.

(** [idt_desc_init] installs, for every vector but the last, a DPL 0 gate to
    its assembly entry, and at vector 0x80 a DPL 3 gate to [syscall_handler]:
    user code can enter the kernel through the system call and nothing else. *)
Theorem idt_desc_init_gates (tbl : list Z) (idt : list gate_desc) (sys : Z) :
  length tbl = 129%nat → length idt = 129%nat → Forall (λ f, 0 ≤ f < 4294967296) tbl →
  0 ≤ sys < 4294967296 →
  ∃ idt', idt_desc_init tbl sys idt = Ok idt' ∧ length idt' = 129%nat ∧
    (∀ v f, 0 ≤ v < 128 → tbl !! Z.to_nat v = Some f →
       ∃ g, idt' !! Z.to_nat v = Some g ∧ gate_offset g = f ∧ gate_dpl g = 0 ∧
            selector g = SELECTOR_K_CODE) ∧
    ∃ g, idt' !! Z.to_nat 128 = Some g ∧ gate_offset g = sys ∧ gate_dpl g = 3 ∧
         selector g = SELECTOR_K_CODE.
Proof.
  intros Ht Hd Hr Hs. unfold idt_desc_init, IDT_DESC_CNT.
  destruct (fill_gates_spec (Z.to_nat 129) 0 tbl idt) as (idt1 & -> & Hl & Hin & _); [lia|lia|lia|].
  cbn [rbind]. rewrite wr_Ok by lia. eexists. split_and!; [done|rewrite length_insert; lia| |].
  - intros v f Hv Hf. rewrite insert_lookup_Z, decide_False by lia.
    exists (make_idt_desc IDT_DESC_ATTR_DPL0 f). split_and!; [apply Hin; [lia|done]| |done|done].
    rewrite gate_offset_make, u32_small; [done|]. exact (Forall_lookup_1 _ _ _ _ Hr Hf).
  - exists (make_idt_desc IDT_DESC_ATTR_DPL3 sys).
    rewrite insert_lookup_Z, decide_True by lia. split_and!; [done| |done|done].
    by rewrite gate_offset_make, u32_small.
Qed.

Lemma idt_desc_init_gates_witness :
  ∃ idt', idt_desc_init (replicate 129 4096) 8192 (replicate 129 (Gate 0 0 0 0 0)) = Ok idt' ∧
    length idt' = 129%nat ∧
    (∀ v f, 0 ≤ v < 128 → replicate 129 4096 !! Z.to_nat v = Some f →
       ∃ g, idt' !! Z.to_nat v = Some g ∧ gate_offset g = f ∧ gate_dpl g = 0 ∧
            selector g = SELECTOR_K_CODE) ∧
    ∃ g, idt' !! Z.to_nat 128 = Some g ∧ gate_offset g = 8192 ∧ gate_dpl g = 3 ∧
         selector g = SELECTOR_K_CODE.
Proof.
  apply (idt_desc_init_gates (replicate 129 4096) (replicate 129 (Gate 0 0 0 0 0)) 8192).
  - reflexivity.
  - reflexivity.
  - apply Forall_replicate. lia.
  - lia.
Defined.

(** A descriptor built by [make_gdt_desc] decodes, the way the processor
    reassembles its scattered fields, to the base and the 20-bit limit it was
    given. *)
Theorem make_gdt_desc_decodes (base limit lo hi : Z) :
  0 ≤ base < 4294967296 → 0 ≤ limit < 1048576 → hi mod 16 = 0 →
  desc_base (make_gdt_desc base limit lo hi) = base ∧
  desc_limit (make_gdt_desc base limit lo hi) = limit.
Proof.
  intros Hb Hl Hh. unfold desc_base, desc_limit, make_gdt_desc. simpl.
  change 65535 with (Z.ones 16).
  change 16711680 with (Z.shiftl (Z.ones 8) 16). change 983040 with (Z.shiftl (Z.ones 4) 16).
  rewrite !land_low, !land_field, Z.shiftr_div_pow2 by lia.
  change (2 ^ 16) with 65536. change (2 ^ 8) with 256. change (2 ^ 4) with 16.
  change (2 ^ 24) with 16777216. split; zsolve.
Qed.

Lemma make_gdt_desc_decodes_witness :
  desc_base (make_gdt_desc 3221234567 107 137 128) = 3221234567 ∧
  desc_limit (make_gdt_desc 3221234567 107 137 128) = 107.
Proof. apply (make_gdt_desc_decodes 3221234567 107 137 128); [lia|lia|reflexivity]. Defined.
