(* ===== verification/KList.v ===== *)
(** * Doubly linked lists ([kernel/list.c], [lib/list.h])

    The intrusive lists that hold ready threads, waiters, free memory blocks,
    partitions and open inodes.  List cells live in a store from addresses to
    their [prev] and [next] pointers, and every operation is the C code's
    sequence of loads and stores, interrupts disabled around it.  [is_list]
    says which store represents which sequence of elements; the theorems show
    that the C operations implement the sequence operations of [Spec]. *)

From S2P Require Import Prelude Interrupt.

(** ** Memory *)

Record lst := Lst { cells : gmap Z (Z * Z); eflags : Z }.

Definition NULL : Z := 0.

Definition ld_prev (a : Z) : M lst Z := λ s,
  match cells s !! a with Some (p, _) => Ok (p, s) | None => Fault end.
Definition ld_next (a : Z) : M lst Z := λ s,
  match cells s !! a with Some (_, n) => Ok (n, s) | None => Fault end.
Definition st_prev (a v : Z) : M lst unit := λ s,
  match cells s !! a with
  | Some (_, n) => Ok (tt, Lst (<[a := (v, n)]> (cells s)) (eflags s))
  | None => Fault
  end.
Definition st_next (a v : Z) : M lst unit := λ s,
  match cells s !! a with
  | Some (p, _) => Ok (tt, Lst (<[a := (p, v)]> (cells s)) (eflags s))
  | None => Fault
  end.

Definition intr_off : M lst intr_status := λ s,
  let r := intr_disable (eflags s) in Ok (r.1, Lst (cells s) r.2).
Definition intr_restore (old : intr_status) : M lst unit := λ s,
  Ok (tt, Lst (cells s) (intr_set_status old (eflags s)).2).

(** A [struct list] at [plist]: [head] first, [tail] eight bytes on. *)
Definition head (plist : Z) : Z := plist.
Definition tail (plist : Z) : Z := plist + 8.

(** ** The operations *)

Definition list_init (list : Z) : M lst unit :=
  do! st_prev (head list) NULL in
  do! st_next (head list) (tail list) in
  do! st_prev (tail list) (head list) in
  st_next (tail list) NULL.

Definition list_insert_before (before elem : Z) : M lst unit :=
  let! old_status := intr_off in
  let! p := ld_prev before in
  do! st_next p elem in
  let! p := ld_prev before in
  do! st_prev elem p in
  do! st_next elem before in
  do! st_prev before elem in
  intr_restore old_status.

Definition list_push (plist elem : Z) : M lst unit :=
  let! n := ld_next (head plist) in
  list_insert_before n elem.

Definition list_append (plist elem : Z) : M lst unit :=
  list_insert_before (tail plist) elem.

Definition list_remove (pelem : Z) : M lst unit :=
  let! old_status := intr_off in
  let! p := ld_prev pelem in
  let! n := ld_next pelem in
  do! st_next p n in
  let! n := ld_next pelem in
  let! p := ld_prev pelem in
  do! st_prev n p in
  intr_restore old_status.

Definition list_pop (plist : Z) : M lst Z :=
  let! elem := ld_next (head plist) in
  do! list_remove elem in
  mok elem.

(** The traversals follow [next] until [&plist->tail]; the fuel is the number
    of cells in memory, which bounds every list that is really a list. *)
Fixpoint find_loop (fuel : nat) (plist obj_elem elem : Z) : M lst bool :=
  if elem =? tail plist then mok false
  else if elem =? obj_elem then mok true
  else match fuel with
       | O => λ _, Spin
       | S fuel' => let! n := ld_next elem in find_loop fuel' plist obj_elem n
       end.

Definition elem_find (plist obj_elem : Z) : M lst bool := λ s,
  (let! elem := ld_next (head plist) in
   find_loop (size (cells s)) plist obj_elem elem) s.

Definition list_empty (plist : Z) : M lst bool :=
  let! n := ld_next (head plist) in mok (n =? tail plist).

Fixpoint traverse_loop (fuel : nat) (plist : Z) (func : Z → Z → M lst bool) (arg elem : Z) : M lst Z :=
  if elem =? tail plist then mok NULL
  else
    let! hit := func elem arg in
    if hit then mok elem
    else match fuel with
         | O => λ _, Spin
         | S fuel' => let! n := ld_next elem in traverse_loop fuel' plist func arg n
         end.

Definition list_traversal (plist : Z) (func : Z → Z → M lst bool) (arg : Z) : M lst Z := λ s,
  (let! elem := ld_next (head plist) in
   let! e := list_empty plist in
   if e then mok NULL
   else traverse_loop (size (cells s)) plist func arg elem) s.

Fixpoint len_loop (fuel : nat) (plist length elem : Z) : M lst Z :=
  if elem =? tail plist then mok length
  else match fuel with
       | O => λ _, Spin
       | S fuel' => let! n := ld_next elem in len_loop fuel' plist (u32 (length + 1)) n
       end.

Definition list_len (plist : Z) : M lst Z := λ s,
  (let! elem := ld_next (head plist) in
   len_loop (size (cells s)) plist 0 elem) s.

(** ** What the operations mean on sequences *)

Module Spec.
Definition push (x : Z) (xs : list Z) : list Z := x :: xs.
Definition append (x : Z) (xs : list Z) : list Z := xs ++ [x].
Definition remove (x : Z) (xs : list Z) : list Z := filter (λ y, y ≠ x) xs.
Definition find (p : Z → bool) (xs : list Z) : Z :=
  match list_find (λ y, p y = true) xs with Some (_, y) => y | None => NULL end.
End Spec.

(** ** Representation *)

Definition prv (c : gmap Z (Z * Z)) (a : Z) : option Z := fst <$> c !! a.
Definition nxt (c : gmap Z (Z * Z)) (a : Z) : option Z := snd <$> c !! a.

(** The cells from [a] through [xs] to [b] are linked both ways. *)
Fixpoint dseg (c : gmap Z (Z * Z)) (a : Z) (xs : list Z) (b : Z) : Prop :=
  match xs with
  | [] => nxt c a = Some b ∧ prv c b = Some a
  | x :: xs' => nxt c a = Some x ∧ prv c x = Some a ∧ dseg c x xs' b
  end.

Definition nodes (plist : Z) (xs : list Z) : list Z := head plist :: xs ++ [tail plist].

Record is_list (c : gmap Z (Z * Z)) (plist : Z) (xs : list Z) : Prop := {
  il_seg : dseg c (head plist) xs (tail plist);
  il_nodup : NoDup (nodes plist xs);
  il_null : NULL ∉ xs;
  il_ends : prv c (head plist) = Some NULL ∧ nxt c (tail plist) = Some NULL
}.

(** ** Lemmas *)

Section klist.
Implicit Types (c : gmap Z (Z * Z)) (a b e x y : Z) (xs ys : list Z) (s : lst).

Definition last_node a xs : Z := default a (last xs).

Lemma nxt_insert c a p n x :
  nxt (<[a := (p, n)]> c) x = if decide (x = a) then Some n else nxt c x.
Proof. unfold nxt. rewrite lookup_insert. repeat case_decide; naive_solver. Qed.
Lemma prv_insert c a p n x :
  prv (<[a := (p, n)]> c) x = if decide (x = a) then Some p else prv c x.
Proof. unfold prv. rewrite lookup_insert. repeat case_decide; naive_solver. Qed.

Lemma cell_split c a p n : prv c a = Some p → nxt c a = Some n → c !! a = Some (p, n).
Proof. unfold prv, nxt. destruct (c !! a) as [[? ?]|]; naive_solver. Qed.
Lemma prv_mapped c a p : prv c a = Some p → ∃ n, c !! a = Some (p, n).
Proof. unfold prv. destruct (c !! a) as [[? ?]|]; naive_solver. Qed.
Lemma nxt_mapped c a n : nxt c a = Some n → ∃ p, c !! a = Some (p, n).
Proof. unfold nxt. destruct (c !! a) as [[? ?]|]; naive_solver. Qed.

Lemma dseg_app c a xs y ys b :
  dseg c a (xs ++ y :: ys) b ↔ dseg c a xs y ∧ dseg c y ys b.
Proof. revert a. induction xs as [|x xs IH]; intros a; simpl; [tauto|]. rewrite IH. tauto. Qed.

Lemma dseg_last c a xs b :
  dseg c a xs b → nxt c (last_node a xs) = Some b ∧ prv c b = Some (last_node a xs).
Proof.
  unfold last_node. destruct xs as [|x xs] using rev_ind; [done|].
  rewrite last_snoc. rewrite dseg_app. simpl. naive_solver.
Qed.

Lemma dseg_mapped c a xs b x : dseg c a xs b → x ∈ a :: xs → ∃ n, nxt c x = Some n.
Proof.
  revert a. induction xs as [|y xs IH]; intros a Hd Hx; simpl in Hd.
  - destruct Hd. apply list_elem_of_singleton in Hx. subst. eauto.
  - destruct Hd as (? & ? & ?). apply elem_of_cons in Hx as [->|Hx]; eauto.
Qed.

(** The part of the store a segment depends on. *)
Lemma dseg_frame c c' a xs b :
  dseg c a xs b → (∀ x, x ∈ a :: xs → nxt c' x = nxt c x) →
  (∀ x, x ∈ xs ++ [b] → prv c' x = prv c x) → dseg c' a xs b.
Proof.
  revert a. induction xs as [|y xs IH]; intros a Hd Hn Hp; simpl in *.
  - rewrite Hn, Hp by set_solver. done.
  - destruct Hd as (? & ? & ?). rewrite Hn, Hp by set_solver.
    split_and!; [done|done|]. apply IH; [done| |]; intros; [apply Hn|apply Hp]; set_solver.
Qed.

(** A segment whose last link is turned to another cell. *)
Lemma dseg_retarget c c' a xs b e :
  dseg c a xs b → NoDup (a :: xs) →
  nxt c' (last_node a xs) = Some e → prv c' e = Some (last_node a xs) →
  (∀ x, x ∈ a :: xs → x ≠ last_node a xs → nxt c' x = nxt c x) →
  (∀ x, x ∈ xs → prv c' x = prv c x) → dseg c' a xs e.
Proof.
  unfold last_node. destruct xs as [|x xs _] using rev_ind; [done|].
  rewrite last_snoc, !dseg_app. simpl. intros [Hd _] Hnd Hn Hp Hfn Hfp. split; [|done].
  assert (x ∉ a :: xs).
  { rewrite app_comm_cons in Hnd. apply NoDup_app in Hnd as (_ & Hdis & _).
    intros Hx. apply (Hdis x Hx). set_solver. }
  apply (dseg_frame c); [done| |].
  - intros z Hz. apply Hfn; [set_solver|]. intros ->. done.
  - intros z Hz. apply Hfp. done.
Qed.

Lemma dseg_insert c c' a xs b e :
  dseg c a xs b → NoDup (a :: xs ++ [b]) → e ∉ a :: xs ++ [b] →
  (∀ x, nxt c' x = if decide (x = e) then Some b
                   else if decide (x = last_node a xs) then Some e else nxt c x) →
  (∀ x, prv c' x = if decide (x = b) then Some e
                   else if decide (x = e) then Some (last_node a xs) else prv c x) →
  dseg c' a (xs ++ [e]) b.
Proof.
  intros Hd Hnd He Hn Hp. rewrite dseg_app. simpl.
  assert (last_node a xs ∈ a :: xs) as Hlast.
  { unfold last_node. destruct (last xs) eqn:E; simpl; [|set_solver].
    apply last_Some in E as [? ->]. set_solver. }
  rewrite app_comm_cons in Hnd. apply NoDup_app in Hnd as (Hnd & Hb & _).
  split_and!.
  - eapply dseg_retarget; [done|done| | | |].
    + rewrite Hn. repeat case_decide; set_solver.
    + rewrite Hp. repeat case_decide; set_solver.
    + intros x Hx Hne. rewrite Hn. repeat case_decide; set_solver.
    + intros x Hx. rewrite Hp. repeat case_decide; set_solver.
  - rewrite Hn. by rewrite decide_True.
  - rewrite Hp. by rewrite decide_True.
Qed.

(** *** Single loads and stores *)

Lemma ld_prev_run s a p : prv (cells s) a = Some p → ld_prev a s = Ok (p, s).
Proof. intros H. apply prv_mapped in H as [n H]. unfold ld_prev. by rewrite H. Qed.
Lemma ld_next_run s a n : nxt (cells s) a = Some n → ld_next a s = Ok (n, s).
Proof. intros H. apply nxt_mapped in H as [p H]. unfold ld_next. by rewrite H. Qed.

Lemma prv_nxt_mapped c a : is_Some (prv c a) ↔ is_Some (nxt c a).
Proof. unfold prv, nxt. by rewrite !fmap_is_Some. Qed.

Lemma st_next_run s a v :
  is_Some (nxt (cells s) a) → ∃ c', st_next a v s = Ok (tt, Lst c' (eflags s)) ∧
  (∀ x, nxt c' x = if decide (x = a) then Some v else nxt (cells s) x) ∧
  (∀ x, prv c' x = prv (cells s) x).
Proof.
  intros [n H]. apply nxt_mapped in H as [p H]. unfold st_next. rewrite H.
  eexists. split_and!; [done|intros; apply nxt_insert|].
  intros x. rewrite prv_insert. case_decide; [|done]. subst. unfold prv. by rewrite H.
Qed.
Lemma st_prev_run s a v :
  is_Some (prv (cells s) a) → ∃ c', st_prev a v s = Ok (tt, Lst c' (eflags s)) ∧
  (∀ x, prv c' x = if decide (x = a) then Some v else prv (cells s) x) ∧
  (∀ x, nxt c' x = nxt (cells s) x).
Proof.
  intros [n H]. apply prv_mapped in H as [p H]. unfold st_prev. rewrite H.
  eexists. split_and!; [done|intros; apply prv_insert|].
  intros x. rewrite nxt_insert. case_decide; [|done]. subst. unfold nxt. by rewrite H.
Qed.

Lemma restore_run c f :
  intr_restore (intr_disable f).1 (Lst c (intr_disable f).2) = Ok (tt, Lst c f).
Proof. unfold intr_restore. simpl. by rewrite intr_section. Qed.

(** *** [list_insert_before] and [list_remove] as store updates *)

Lemma insert_before_run s before elem p :
  prv (cells s) before = Some p → is_Some (nxt (cells s) p) → is_Some (prv (cells s) elem) →
  elem ≠ p → elem ≠ before →
  ∃ c', list_insert_before before elem s = Ok (tt, Lst c' (eflags s)) ∧
    (∀ x, nxt c' x = if decide (x = elem) then Some before
                     else if decide (x = p) then Some elem else nxt (cells s) x) ∧
    (∀ x, prv c' x = if decide (x = before) then Some elem
                     else if decide (x = elem) then Some p else prv (cells s) x).
Proof.
  intros Hp Hpm Hem Hne1 Hne2. unfold list_insert_before, intr_off.
  erewrite mbnd_Ok by done. cbn beta.
  rewrite (mbnd_Ok _ _ _ _ _ (ld_prev_run (Lst _ _) before p Hp)).
  destruct (st_next_run (Lst (cells s) (intr_disable (eflags s)).2) p elem Hpm) as (c1 & E1 & N1 & P1).
  rewrite (mbnd_Ok _ _ _ _ _ E1). simpl in N1, P1 |- *.
  erewrite mbnd_Ok by (apply ld_prev_run; simpl; by rewrite P1).
  destruct (st_prev_run (Lst c1 (intr_disable (eflags s)).2) elem p) as (c2 & E2 & P2 & N2); [simpl; by rewrite P1|].
  rewrite (mbnd_Ok _ _ _ _ _ E2). simpl in N2, P2 |- *.
  destruct (st_next_run (Lst c2 (intr_disable (eflags s)).2) elem before) as (c3 & E3 & N3 & P3).
  { apply prv_nxt_mapped. simpl. rewrite P2, decide_True by done. eauto. }
  rewrite (mbnd_Ok _ _ _ _ _ E3). simpl in N3, P3 |- *.
  destruct (st_prev_run (Lst c3 (intr_disable (eflags s)).2) before elem) as (c4 & E4 & P4 & N4).
  { simpl. rewrite P3, P2, decide_False, P1, Hp by done. eauto. }
  rewrite (mbnd_Ok _ _ _ _ _ E4). simpl in N4, P4 |- *. rewrite restore_run.
  exists c4. split_and!; [done| |].
  - intros x. by rewrite N4, N3, N2, N1.
  - intros x. by rewrite P4, P3, P2, P1.
Qed.

Lemma remove_run s e p n :
  prv (cells s) e = Some p → nxt (cells s) e = Some n →
  is_Some (nxt (cells s) p) → is_Some (prv (cells s) n) → p ≠ e → n ≠ e →
  ∃ c', list_remove e s = Ok (tt, Lst c' (eflags s)) ∧
    (∀ x, nxt c' x = if decide (x = p) then Some n else nxt (cells s) x) ∧
    (∀ x, prv c' x = if decide (x = n) then Some p else prv (cells s) x).
Proof.
  intros Hp Hn Hpm Hnm Hpe Hne. unfold list_remove, intr_off.
  erewrite mbnd_Ok by done. cbn beta.
  rewrite (mbnd_Ok _ _ _ _ _ (ld_prev_run (Lst _ _) e p Hp)).
  rewrite (mbnd_Ok _ _ _ _ _ (ld_next_run (Lst _ _) e n Hn)).
  destruct (st_next_run (Lst (cells s) (intr_disable (eflags s)).2) p n Hpm) as (c1 & E1 & N1 & P1).
  rewrite (mbnd_Ok _ _ _ _ _ E1). simpl in N1, P1 |- *.
  erewrite mbnd_Ok by (apply ld_next_run; simpl; rewrite N1, decide_False; done).
  erewrite mbnd_Ok by (apply ld_prev_run; simpl; by rewrite P1).
  destruct (st_prev_run (Lst c1 (intr_disable (eflags s)).2) n p) as (c2 & E2 & P2 & N2); [simpl; by rewrite P1|].
  rewrite (mbnd_Ok _ _ _ _ _ E2). simpl in N2, P2 |- *. rewrite restore_run.
  exists c2. split_and!; [done| |].
  - intros x. by rewrite N2, N1.
  - intros x. by rewrite P2, P1.
Qed.

(** Two stores that agree on both links of a cell agree on the cell. *)
Lemma cell_ext c c' x : nxt c' x = nxt c x → prv c' x = prv c x → c' !! x = c !! x.
Proof. unfold nxt, prv. destruct (c' !! x) as [[]|], (c !! x) as [[]|]; naive_solver. Qed.

Lemma is_list_frame c c' plist xs :
  is_list c plist xs → (∀ x, x ∈ nodes plist xs → c' !! x = c !! x) → is_list c' plist xs.
Proof.
  intros [Hs Hnd H0 He] Hf. split; [|done|done|].
  - apply (dseg_frame c); [done| |]; intros x Hx; unfold nxt, prv; rewrite Hf; [done| |done|];
      unfold nodes; set_solver.
  - unfold nxt, prv in *. rewrite !Hf by (unfold nodes; set_solver). done.
Qed.

(** *** Lists taken apart at a position *)

Definition first_node xs b : Z := match xs with [] => b | x :: _ => x end.
Definition rest_seg c xs b : Prop := match xs with [] => True | x :: xs' => dseg c x xs' b end.

Lemma dseg_split c a xs1 xs2 b :
  dseg c a (xs1 ++ xs2) b ↔ dseg c a xs1 (first_node xs2 b) ∧ rest_seg c xs2 b.
Proof. destruct xs2; simpl; [rewrite app_nil_r; tauto|apply dseg_app]. Qed.

Lemma first_node_in xs b : first_node xs b ∈ xs ++ [b].
Proof. destruct xs; set_solver. Qed.

Lemma last_node_in a xs : last_node a xs ∈ a :: xs.
Proof.
  unfold last_node. destruct (last xs) eqn:E; simpl; [|set_solver].
  apply last_Some in E as [? ->]. set_solver.
Qed.

(** A segment survives updates of [next] outside [x :: xs] and of [prev]
    outside [xs]. *)
Lemma rest_seg_frame c c' xs b :
  rest_seg c xs b → (∀ x, x ∈ xs → nxt c' x = nxt c x) →
  (∀ x, x ∈ tl xs ++ [b] → prv c' x = prv c x) → rest_seg c' xs b.
Proof. destruct xs as [|x xs]; simpl; [done|]. intros. by apply (dseg_frame c). Qed.

Lemma nodes_split l xs1 xs2 : nodes l (xs1 ++ xs2) = (head l :: xs1) ++ (xs2 ++ [tail l]).
Proof. unfold nodes. simpl. by rewrite <- app_assoc. Qed.

Lemma nodes_insert l xs1 xs2 e : nodes l (xs1 ++ e :: xs2) ≡ₚ e :: nodes l (xs1 ++ xs2).
Proof.
  unfold nodes. rewrite <- !app_assoc. symmetry. exact (Permutation_middle (head l :: xs1) _ e).
Qed.

Lemma first_not_in l xs1 xs2 :
  NoDup (nodes l (xs1 ++ xs2)) → first_node xs2 (tail l) ∉ head l :: xs1.
Proof.
  rewrite nodes_split. intros (_ & Hd & _)%NoDup_app Hin. apply (Hd _ Hin), first_node_in.
Qed.

Lemma last_not_in l xs1 xs2 :
  NoDup (nodes l (xs1 ++ xs2)) → last_node (head l) xs1 ∉ xs2 ++ [tail l].
Proof. rewrite nodes_split. intros (_ & Hd & _)%NoDup_app. apply Hd, last_node_in. Qed.

Lemma nodes_facts l xs1 xs2 :
  NoDup (nodes l (xs1 ++ xs2)) →
  NoDup (head l :: xs1) ∧ NoDup (xs2 ++ [tail l]) ∧
  (∀ x, x ∈ head l :: xs1 → x ∉ xs2 ++ [tail l]).
Proof. rewrite nodes_split. intros (? & ? & ?)%NoDup_app. done. Qed.

Lemma first_not_tl xs b : NoDup (xs ++ [b]) → first_node xs b ∉ tl xs ++ [b] ∨ xs = [].
Proof. destruct xs; simpl; [by right|]. intros [? _]%NoDup_cons. by left. Qed.

Lemma tl_in xs b x : x ∈ tl xs ++ [b] → x ∈ xs ++ [b].
Proof. destruct xs; simpl; [done|]. intros. by apply elem_of_cons; right. Qed.

Lemma insert_at s l xs1 xs2 e :
  is_list (cells s) l (xs1 ++ xs2) → e ∉ nodes l (xs1 ++ xs2) → e ≠ NULL →
  is_Some (cells s !! e) →
  ∃ c', list_insert_before (first_node xs2 (tail l)) e s = Ok (tt, Lst c' (eflags s)) ∧
    is_list c' l (xs1 ++ e :: xs2) ∧
    ∀ x, x ∉ e :: nodes l (xs1 ++ xs2) → c' !! x = cells s !! x.
Proof.
  intros [Hs Hnd H0 He] Hne Hnn Hm. apply dseg_split in Hs as [Hs1 Hs2].
  destruct (nodes_facts _ _ _ Hnd) as (Hnd1 & Hnd2 & Hdis).
  destruct (dseg_last _ _ _ _ Hs1) as [Hln Hlp].
  assert (Hf := first_node_in xs2 (tail l)). assert (Hl := last_node_in (head l) xs1).
  assert (HeA : (e ∉ head l :: xs1) ∧ (e ∉ xs2 ++ [tail l])).
  { rewrite nodes_split in Hne. by apply not_elem_of_app in Hne. }
  destruct HeA as [HeA HeB].
  destruct (insert_before_run s (first_node xs2 (tail l)) e _ Hlp) as (c' & E & N & P);
    [rewrite Hln; eauto|by apply fmap_is_Some|by intros ->|by intros ->|].
  exists c'. split_and!; [done|split|].
  - change (xs1 ++ e :: xs2) with (xs1 ++ [e] ++ xs2). rewrite app_assoc, dseg_split. split.
    + eapply dseg_insert; [done| | |done|done].
      * rewrite app_comm_cons. apply NoDup_app.
        split_and!; [done|intros x Hx ->%list_elem_of_singleton; by apply (Hdis _ Hx)|apply NoDup_singleton].
      * rewrite app_comm_cons, not_elem_of_app, list_elem_of_singleton. split; [done|by intros ->].
    + destruct (decide (xs2 = [])) as [->|Hnil]; [done|].
      apply (rest_seg_frame (cells s)); [done| |].
      * intros x Hx. rewrite N, !decide_False; [done|intros ->; by apply (Hdis _ Hl), elem_of_app; left|].
        intros ->. apply HeB, elem_of_app. by left.
      * intros x Hx. rewrite P, !decide_False; [done|intros ->; by apply HeB, tl_in|].
        intros ->. by destruct (first_not_tl _ _ Hnd2).
  - rewrite nodes_insert. by apply NoDup_cons.
  - rewrite elem_of_app, elem_of_cons. rewrite elem_of_app in H0. naive_solver.
  - assert (head l ∈ head l :: xs1) as Hh by by left.
    assert (tail l ∈ xs2 ++ [tail l]) as Ht by (apply elem_of_app; right; by left).
    split.
    + rewrite P, !decide_False; [apply He|by intros <-|]. intros E'. rewrite <- E' in Hf. by apply (Hdis _ Hh).
    + rewrite N, !decide_False; [apply He| |by intros <-]. intros E'. rewrite <- E' in Hl. by apply (Hdis _ Hl).
  - intros x Hx. rewrite nodes_split, not_elem_of_cons, not_elem_of_app in Hx. destruct Hx as (? & ? & ?).
    apply cell_ext; [rewrite N|rewrite P]; rewrite !decide_False; [done|by intros ->|done|done|done|by intros ->].
Qed.

Lemma remove_at s l xs1 e xs2 :
  is_list (cells s) l (xs1 ++ e :: xs2) →
  ∃ c', list_remove e s = Ok (tt, Lst c' (eflags s)) ∧
    is_list c' l (xs1 ++ xs2) ∧
    ∀ x, x ∉ nodes l (xs1 ++ xs2) → c' !! x = cells s !! x.
Proof.
  intros [Hs Hnd H0 He]. apply dseg_app in Hs as [Hs1 Hs2].
  rewrite nodes_insert in Hnd. apply NoDup_cons in Hnd as [Hne Hnd].
  destruct (nodes_facts _ _ _ Hnd) as (Hnd1 & Hnd2 & Hdis).
  destruct (dseg_last _ _ _ _ Hs1) as [Hln Hlp].
  apply (dseg_split _ e [] xs2) in Hs2 as [[Hfn Hfp] Hs2].
  assert (Hf := first_node_in xs2 (tail l)). assert (Hl := last_node_in (head l) xs1).
  assert (HeA : (e ∉ head l :: xs1) ∧ (e ∉ xs2 ++ [tail l])).
  { rewrite nodes_split in Hne. by apply not_elem_of_app in Hne. }
  destruct HeA as [HeA HeB].
  destruct (remove_run s e _ _ Hlp Hfn) as (c' & E & N & P);
    [rewrite Hln; eauto|rewrite Hfp; eauto|by intros <-|by intros <-|].
  exists c'. split_and!; [done|split|].
  - rewrite dseg_split. split.
    + eapply dseg_retarget; [done|done| | | |].
      * by rewrite N, decide_True.
      * by rewrite P, decide_True.
      * intros x Hx Hxl. by rewrite N, decide_False.
      * intros x Hx. rewrite P, decide_False; [done|]. intros ->. eapply Hdis; [|done]. by right.
    + destruct (decide (xs2 = [])) as [->|Hnil]; [done|].
      apply (rest_seg_frame (cells s)); [done| |].
      * intros x Hx. rewrite N, decide_False; [done|]. intros ->. by apply (Hdis _ Hl), elem_of_app; left.
      * intros x Hx. rewrite P, decide_False; [done|]. intros ->. by destruct (first_not_tl _ _ Hnd2).
  - done.
  - rewrite elem_of_app in *. rewrite elem_of_cons in H0. naive_solver.
  - assert (head l ∈ head l :: xs1) as Hh by by left.
    assert (tail l ∈ xs2 ++ [tail l]) as Ht by (apply elem_of_app; right; by left). split.
    + rewrite P, decide_False; [apply He|]. intros E'. rewrite <- E' in Hf. by apply (Hdis _ Hh).
    + rewrite N, decide_False; [apply He|]. intros E'. rewrite <- E' in Hl. by apply (Hdis _ Hl).
  - intros x Hx. rewrite nodes_split, not_elem_of_app in Hx. destruct Hx as [? ?].
    apply cell_ext; [rewrite N|rewrite P]; rewrite decide_False; [done|by intros ->|done|by intros ->].
Qed.

(** *** Traversals *)

Lemma is_list_size c l xs : is_list c l xs → (length xs < size c)%nat.
Proof.
  intros [Hs Hnd _ He].
  assert (Hsub : list_to_set (head l :: xs) ⊆ dom c).
  { intros x Hx%elem_of_list_to_set. apply elem_of_dom.
    destruct (dseg_mapped _ _ _ _ _ Hs Hx) as [n Hn]. apply nxt_mapped in Hn as [? ->]. eauto. }
  apply subseteq_size in Hsub. rewrite size_dom in Hsub.
  rewrite size_list_to_set in Hsub; [simpl in Hsub; lia|].
  apply (nodes_facts l xs []). by rewrite app_nil_r.
Qed.

Lemma tail_not_in l xs : NoDup (nodes l xs) → tail l ∉ xs.
Proof.
  intros Hnd. rewrite <- (app_nil_r xs) in Hnd. destruct (nodes_facts _ _ _ Hnd) as (_ & _ & Hd).
  intros H. apply (Hd (tail l)); [by right|by left].
Qed.

Lemma ld_first s l xs : is_list (cells s) l xs → ld_next (head l) s = Ok (first_node xs (tail l), s).
Proof.
  intros [Hs _ _ _]. apply ld_next_run. apply (dseg_split _ _ [] xs) in Hs as [[? _] _]. done.
Qed.

(** A loop over the elements: the generic step from one cell to the next. *)
Lemma rest_step s x xs b : rest_seg (cells s) (x :: xs) b →
  ld_next x s = Ok (first_node xs b, s) ∧ rest_seg (cells s) xs b.
Proof.
  simpl. intros H. apply (dseg_split _ x [] xs) in H as [[Hn _] Hr]. split; [by apply ld_next_run|done].
Qed.

Lemma is_list_rest c l xs : is_list c l xs → rest_seg c xs (tail l).
Proof. intros [Hs _ _ _]. by apply (dseg_split _ _ [] xs) in Hs as [_ ?]. Qed.

Lemma find_loop_run s l e xs fuel :
  rest_seg (cells s) xs (tail l) → tail l ∉ xs → (length xs ≤ fuel)%nat →
  find_loop fuel l e (first_node xs (tail l)) s = Ok (bool_decide (e ∈ xs), s).
Proof.
  revert xs. induction fuel as [|fuel IH]; intros [|x xs] Hr Ht Hf; simpl in Hf; try lia.
  - simpl. by rewrite Z.eqb_refl.
  - simpl. by rewrite Z.eqb_refl.
  - apply not_elem_of_cons in Ht as [Hx Ht]. destruct (rest_step _ _ _ _ Hr) as [Hn Hr']. simpl.
    rewrite (proj2 (Z.eqb_neq _ _)) by congruence.
    destruct (Z.eqb_spec x e) as [->|Hne].
    + rewrite bool_decide_eq_true_2; [done|by left].
    + rewrite (mbnd_Ok _ _ _ _ _ Hn), IH by (done || lia). f_equal. f_equal.
      apply bool_decide_ext. rewrite elem_of_cons. naive_solver.
Qed.

Lemma traverse_loop_run s l (func : Z → Z → M lst bool) arg (p : Z → bool) xs fuel :
  (∀ x, func x arg s = Ok (p x, s)) →
  rest_seg (cells s) xs (tail l) → tail l ∉ xs → (length xs ≤ fuel)%nat →
  traverse_loop fuel l func arg (first_node xs (tail l)) s = Ok (Spec.find p xs, s).
Proof.
  intros Hp. revert xs. induction fuel as [|fuel IH]; intros [|x xs] Hr Ht Hf; simpl in Hf; try lia.
  - simpl. by rewrite Z.eqb_refl.
  - simpl. by rewrite Z.eqb_refl.
  - apply not_elem_of_cons in Ht as [Hx Ht]. destruct (rest_step _ _ _ _ Hr) as [Hn Hr']. simpl.
    rewrite (proj2 (Z.eqb_neq _ _)) by congruence.
    rewrite (mbnd_Ok _ _ _ _ _ (Hp x)). unfold Spec.find. simpl. destruct (p x) eqn:E.
    + by rewrite decide_True.
    + rewrite decide_False by congruence. rewrite (mbnd_Ok _ _ _ _ _ Hn), IH by (done || lia).
      unfold Spec.find. by destruct (list_find (λ y, p y = true) xs) as [[? ?]|].
Qed.

Lemma len_loop_run s l xs fuel n :
  rest_seg (cells s) xs (tail l) → tail l ∉ xs → (length xs ≤ fuel)%nat →
  len_loop fuel l n (first_node xs (tail l)) s = Ok (if decide (xs = []) then n else u32 (n + Z.of_nat (length xs)), s).
Proof.
  revert xs n. induction fuel as [|fuel IH]; intros [|x xs] n Hr Ht Hf; simpl in Hf; try lia.
  - simpl. by rewrite Z.eqb_refl.
  - simpl. by rewrite Z.eqb_refl.
  - apply not_elem_of_cons in Ht as [Hx Ht]. destruct (rest_step _ _ _ _ Hr) as [Hn Hr'].
    cbn [len_loop first_node]. rewrite (proj2 (Z.eqb_neq _ _)) by congruence.
    rewrite (mbnd_Ok _ _ _ _ _ Hn), IH by (done || lia). rewrite (decide_False (P := x :: xs = [])) by done.
    cbn [length]. case_decide; [subst; done|].
    replace (n + Z.of_nat (S (length xs))) with ((n + 1) + Z.of_nat (length xs)) by lia.
    unfold u32. by rewrite Zplus_mod_idemp_l.
Qed.

End klist.

(** ** Properties *)

Section klist_properties.
Implicit Types (s : lst) (l e : Z) (xs : list Z).

(** [list_init] makes an empty list of any two mapped cells. *)
Theorem list_init_empty s l :
  is_Some (cells s !! head l) → is_Some (cells s !! tail l) →
  ∃ s', list_init l s = Ok (tt, s') ∧ is_list (cells s') l [] ∧ eflags s' = eflags s ∧
    ∀ x, x ∉ nodes l [] → cells s' !! x = cells s !! x.
Proof.
  intros [[p0 n0] Hh] [[p1 n1] Ht]. assert (head l ≠ tail l) as Hne by (unfold head, tail; lia).
  unfold list_init, st_prev, st_next, mbnd. rewrite Hh. simpl. rewrite lookup_insert_eq. simpl.
  rewrite !lookup_insert_ne, Ht by done. simpl. rewrite lookup_insert_eq. simpl.
  eexists. split_and!; [done|split|done|].
  - simpl. unfold nxt, prv.
    rewrite lookup_insert_ne, lookup_insert_ne, !lookup_insert_eq by done. done.
  - unfold nodes. simpl. repeat constructor; set_solver.
  - apply not_elem_of_nil.
  - unfold nxt, prv. simpl. rewrite lookup_insert_ne, lookup_insert_ne, !lookup_insert_eq by done. done.
  - intros x Hx. simpl. rewrite !lookup_insert_ne; [done|..]; unfold nodes in Hx; set_solver.
Qed.

(** [list_push] and [list_append] implement adding at the front and at the
    back, whatever else is in memory, and restore the interrupt flag. *)
Theorem list_add_refines s l xs e :
  is_list (cells s) l xs → e ∉ nodes l xs → e ≠ NULL → is_Some (cells s !! e) →
  (∃ s', list_push l e s = Ok (tt, s') ∧ is_list (cells s') l (Spec.push e xs) ∧
     eflags s' = eflags s ∧ ∀ x, x ∉ e :: nodes l xs → cells s' !! x = cells s !! x) ∧
  (∃ s', list_append l e s = Ok (tt, s') ∧ is_list (cells s') l (Spec.append e xs) ∧
     eflags s' = eflags s ∧ ∀ x, x ∉ e :: nodes l xs → cells s' !! x = cells s !! x).
Proof.
  intros Hl He Hn Hm. split.
  - unfold list_push. rewrite (mbnd_Ok _ _ _ _ _ (ld_first s l xs Hl)).
    destruct (insert_at s l [] xs e) as (c' & ? & ? & ?); [done..|]. exists (Lst c' (eflags s)). done.
  - unfold list_append. destruct (insert_at s l xs [] e) as (c' & ? & ? & Hf); rewrite ?app_nil_r; [done..|].
    exists (Lst c' (eflags s)). rewrite app_nil_r in Hf. done.
Qed.

(** C35: [list_remove] unlinks exactly its element and [list_pop] the first one;
    the rest of the list keeps its order. *)
Theorem list_remove_refines s l xs e :
  is_list (cells s) l xs → e ∈ xs →
  ∃ s', list_remove e s = Ok (tt, s') ∧ is_list (cells s') l (Spec.remove e xs) ∧
    eflags s' = eflags s ∧ (∀ x, x ∉ nodes l (Spec.remove e xs) → cells s' !! x = cells s !! x) ∧
    (∀ xs', xs = e :: xs' → list_pop l s = Ok (e, s')).
Proof.
  intros Hl (xs1 & xs2 & ->)%list_elem_of_split.
  assert (Spec.remove e (xs1 ++ e :: xs2) = xs1 ++ xs2) as Hrm.
  { destruct Hl as [_ Hnd _ _]. rewrite nodes_insert in Hnd. apply NoDup_cons in Hnd as [Hne _].
    unfold nodes in Hne. unfold Spec.remove. rewrite filter_app, filter_cons, decide_False by naive_solver.
    f_equal; apply filter_all; intros x Hx ->; apply Hne; set_solver. }
  rewrite Hrm. destruct (remove_at s l xs1 e xs2 Hl) as (c' & E & ? & ?).
  exists (Lst c' (eflags s)). split_and!; try done. intros xs' Hx. unfold list_pop.
  rewrite (mbnd_Ok _ _ _ _ _ (ld_first _ _ _ Hl)), Hx. simpl. by rewrite (mbnd_Ok _ _ _ _ _ E).
Qed.

(** The traversals terminate on every list and compute membership,
    emptiness, length modulo 2^32 and the first element a callback accepts
    (NULL when there is none), leaving memory as it was. *)
Theorem list_queries_correct s l xs e arg (func : Z → Z → M lst bool) (p : Z → bool) :
  is_list (cells s) l xs → (∀ x, func x arg s = Ok (p x, s)) →
  elem_find l e s = Ok (bool_decide (e ∈ xs), s) ∧
  list_empty l s = Ok (bool_decide (xs = []), s) ∧
  list_len l s = Ok (u32 (Z.of_nat (length xs)), s) ∧
  list_traversal l func arg s = Ok (Spec.find p xs, s).
Proof.
  intros Hl Hp. assert (Hr := is_list_rest _ _ _ Hl). assert (Hsz := is_list_size _ _ _ Hl).
  assert (Ht := tail_not_in l xs (il_nodup _ _ _ Hl)).
  assert (Hf := ld_first s l xs Hl).
  assert (He : list_empty l s = Ok (bool_decide (xs = []), s)).
  { unfold list_empty. rewrite (mbnd_Ok _ _ _ _ _ Hf). unfold mok. destruct xs as [|x xs]; simpl.
    - by rewrite Z.eqb_refl.
    - rewrite (proj2 (Z.eqb_neq _ _)); [done|]. set_solver. }
  split_and!; [|done| |].
  - unfold elem_find. rewrite (mbnd_Ok _ _ _ _ _ Hf). apply find_loop_run; [done..|lia].
  - unfold list_len. rewrite (mbnd_Ok _ _ _ _ _ Hf), len_loop_run by (done || lia).
    case_decide; by subst.
  - unfold list_traversal. rewrite (mbnd_Ok _ _ _ _ _ Hf), (mbnd_Ok _ _ _ _ _ He).
    destruct xs as [|x xs]; [done|]. rewrite bool_decide_eq_false_2 by done.
    apply traverse_loop_run; [done..|lia].
Qed.

End klist_properties.

(** *** Witnesses *)

Definition demo_store : lst :=
  Lst (<[100 := (0, 300)]> (<[108 := (300, 0)]> (<[300 := (100, 108)]> (<[400 := (0, 0)]> ∅)))) 2.

Lemma demo_is_list : is_list (cells demo_store) 100 [300].
Proof. split; [done| |set_solver|done]. apply (bool_decide_unpack _). reflexivity. Qed.

Lemma list_init_empty_witness :
  ∃ s', list_init 100 demo_store = Ok (tt, s') ∧ is_list (cells s') 100 [] ∧ eflags s' = 2 ∧
    ∀ x, x ∉ nodes 100 [] → cells s' !! x = cells demo_store !! x.
Proof. apply (list_init_empty demo_store 100); vm_compute; eauto. Defined.

Lemma list_add_refines_witness :
  (∃ s', list_push 100 400 demo_store = Ok (tt, s') ∧ is_list (cells s') 100 [400; 300] ∧
     eflags s' = 2 ∧ ∀ x, x ∉ 400 :: nodes 100 [300] → cells s' !! x = cells demo_store !! x) ∧
  (∃ s', list_append 100 400 demo_store = Ok (tt, s') ∧ is_list (cells s') 100 [300; 400] ∧
     eflags s' = 2 ∧ ∀ x, x ∉ 400 :: nodes 100 [300] → cells s' !! x = cells demo_store !! x).
Proof.
  apply (list_add_refines demo_store 100 [300] 400).
  - apply demo_is_list.
  - apply (bool_decide_unpack _). reflexivity.
  - done.
  - vm_compute. eauto.
Defined.

Lemma list_remove_refines_witness :
  ∃ s', list_remove 300 demo_store = Ok (tt, s') ∧ is_list (cells s') 100 [] ∧
    eflags s' = 2 ∧ (∀ x, x ∉ nodes 100 [] → cells s' !! x = cells demo_store !! x) ∧
    (∀ xs', [300] = 300 :: xs' → list_pop 100 demo_store = Ok (300, s')).
Proof.
  apply (list_remove_refines demo_store 100 [300] 300).
  - apply demo_is_list.
  - by left.
Defined.

Lemma list_queries_correct_witness :
  elem_find 100 300 demo_store = Ok (true, demo_store) ∧
  list_empty 100 demo_store = Ok (false, demo_store) ∧
  list_len 100 demo_store = Ok (1, demo_store) ∧
  list_traversal 100 (λ x a, mok (x =? a)) 300 demo_store = Ok (300, demo_store).
Proof.
  apply (list_queries_correct demo_store 100 [300] 300 300 (λ x a, mok (x =? a)) (λ x, x =? 300)).
  - apply demo_is_list.
  - done.
Defined.
