(* ===== verification/Sched.v ===== *)
(** * Threads, the scheduler, semaphores and locks
      ([thread/thread.c], [thread/sync.c], [device/timer.c])

    The state is the set of PCBs, the ready queue, the semaphores and the
    locks, with EFLAGS, CR3 and the TSS stack pointer.  A PCB is named by its
    address.  Queues of [general_tag]s are sequences of PCBs; [KList] shows
    that the pointer code implements those sequences.

    [switch_to] moves the processor to another thread in the middle of a C
    function.  What remains to be done there is kept as explicit frames on the
    thread's kernel stack: [thread_block] leaves [FBlock] before it calls
    [schedule], the loop of [sema_down] leaves [FSemaDown], and so on.
    [run_frame] executes the rest of the function whose frame is on top. *)

From S2P Require Import Prelude Interrupt KList.

(** ** State *)

Inductive task_status :=
  TASK_RUNNING | TASK_READY | TASK_BLOCKED | TASK_WAITING | TASK_HANGING | TASK_DIED.

#[export] Instance task_status_eq_dec : EqDecision task_status.
Proof. solve_decision. Defined.

(** Where a suspended thread continues. *)
Inductive frame :=
| FStart                                  (* kernel_thread, not entered yet *)
| FBlock (old_status : intr_status)       (* thread_block, after schedule() *)
| FYield (old_status : intr_status)       (* thread_yield, after schedule() *)
| FSemaDown (psema : Z) (old_status : intr_status) (* sema_down, at the loop test *)
| FSemaUp (psema : Z)                     (* lock_release, before sema_up() *)
| FLockAcq (plock : Z)                    (* lock_acquire, after sema_down() *)
| FIntr (eflags : Z).                     (* interrupted code, EFLAGS as pushed *)

Record task := Task {
  pid : Z;
  status : task_status;
  priority : Z;
  ticks : Z;
  elapsed_ticks : Z;
  pgdir : Z;
  stack_magic : Z;
  kstack : list frame
}.

Definition set_status (st : task_status) (k : task) : task :=
  Task (pid k) st (priority k) (ticks k) (elapsed_ticks k) (pgdir k) (stack_magic k) (kstack k).
Definition set_ticks (n : Z) (k : task) : task :=
  Task (pid k) (status k) (priority k) n (elapsed_ticks k) (pgdir k) (stack_magic k) (kstack k).
Definition set_elapsed (n : Z) (k : task) : task :=
  Task (pid k) (status k) (priority k) (ticks k) n (pgdir k) (stack_magic k) (kstack k).
Definition set_kstack (st : list frame) (k : task) : task :=
  Task (pid k) (status k) (priority k) (ticks k) (elapsed_ticks k) (pgdir k) (stack_magic k) st.

Record semaphore := Sema { value : Z; waiters : list Z }.
(** [struct lock] without its semaphore, which is the object at [&plock->semaphore]. *)
Record lock := Lock { holder : Z; holder_repeat_nr : Z }.
Definition lock_sema (plock : Z) : Z := plock + 4.

Record kst := Kst {
  kflags : Z;
  cur : Z;
  tasks : gmap Z task;
  thread_ready_list : list Z;
  idle_thread : Z;
  semas : gmap Z semaphore;
  locks : gmap Z lock;
  cr3 : Z;
  tss_esp0 : Z;
  total_ticks : Z
}.

Definition with_flags f s :=
  Kst f (cur s) (tasks s) (thread_ready_list s) (idle_thread s) (semas s) (locks s) (cr3 s) (tss_esp0 s) (total_ticks s).
Definition with_cur c s :=
  Kst (kflags s) c (tasks s) (thread_ready_list s) (idle_thread s) (semas s) (locks s) (cr3 s) (tss_esp0 s) (total_ticks s).
Definition with_tasks t s :=
  Kst (kflags s) (cur s) t (thread_ready_list s) (idle_thread s) (semas s) (locks s) (cr3 s) (tss_esp0 s) (total_ticks s).
Definition with_ready r s :=
  Kst (kflags s) (cur s) (tasks s) r (idle_thread s) (semas s) (locks s) (cr3 s) (tss_esp0 s) (total_ticks s).
Definition with_semas m s :=
  Kst (kflags s) (cur s) (tasks s) (thread_ready_list s) (idle_thread s) m (locks s) (cr3 s) (tss_esp0 s) (total_ticks s).
Definition with_locks m s :=
  Kst (kflags s) (cur s) (tasks s) (thread_ready_list s) (idle_thread s) (semas s) m (cr3 s) (tss_esp0 s) (total_ticks s).
Definition with_mmu c e s :=
  Kst (kflags s) (cur s) (tasks s) (thread_ready_list s) (idle_thread s) (semas s) (locks s) c e (total_ticks s).
Definition with_total n s :=
  Kst (kflags s) (cur s) (tasks s) (thread_ready_list s) (idle_thread s) (semas s) (locks s) (cr3 s) (tss_esp0 s) n.

(** ** Access to the state *)

Definition running_thread : M kst Z := mget cur.

Definition get_task (t : Z) : M kst task := λ s,
  match tasks s !! t with Some k => Ok (k, s) | None => Fault end.
Definition upd_task (t : Z) (f : task → task) : M kst unit := λ s,
  match tasks s !! t with
  | Some k => Ok (tt, with_tasks (<[t := f k]> (tasks s)) s)
  | None => Fault
  end.
Definition get_sema (a : Z) : M kst semaphore := λ s,
  match semas s !! a with Some v => Ok (v, s) | None => Fault end.
Definition put_sema (a : Z) (v : semaphore) : M kst unit := mmod (λ s, with_semas (<[a := v]> (semas s)) s).
Definition get_lock (a : Z) : M kst lock := λ s,
  match locks s !! a with Some v => Ok (v, s) | None => Fault end.
Definition put_lock (a : Z) (v : lock) : M kst unit := mmod (λ s, with_locks (<[a := v]> (locks s)) s).

Definition push_frame (f : frame) : M kst unit :=
  let! c := running_thread in upd_task c (λ k, set_kstack (f :: kstack k) k).
Definition pop_frame : M kst unit :=
  let! c := running_thread in upd_task c (λ k, set_kstack (tl (kstack k)) k).

Definition kintr_disable : M kst intr_status := λ s,
  let r := intr_disable (kflags s) in Ok (r.1, with_flags r.2 s).
Definition kintr_set_status (st : intr_status) : M kst unit := λ s,
  Ok (tt, with_flags (intr_set_status st (kflags s)).2 s).

Definition kassert {B : Build} (c : bool) : M kst unit := mlift (ASSERT c).

Definition elem_in (x : Z) (l : list Z) : bool := bool_decide (x ∈ l).

Definition blocked_status (st : task_status) : bool :=
  match st with TASK_BLOCKED | TASK_WAITING | TASK_HANGING => true | _ => false end.

Section sched_ops.
Context {B : Build}.
(** The physical address of a page directory, [addr_v2p] of [kernel/memory.c]. *)
Context (addr_v2p : Z → Z).

(** ** [userprog/process.c] and [userprog/tss.c]: switching address spaces *)

Definition page_dir_activate (p_thread : Z) : M kst unit :=
  let! k := get_task p_thread in
  let pagedir_phy_addr := if pgdir k =? NULL then 1048576 else addr_v2p (pgdir k) in
  mmod (λ s, with_mmu pagedir_phy_addr (tss_esp0 s) s).

Definition update_tss_esp (pthread : Z) : M kst unit :=
  mmod (λ s, with_mmu (cr3 s) (u32 (pthread + PG_SIZE)) s).

Definition process_activate (p_thread : Z) : M kst unit :=
  do! kassert (negb (p_thread =? NULL)) in
  do! page_dir_activate p_thread in
  let! k := get_task p_thread in
  if pgdir k =? NULL then mok tt else update_tss_esp p_thread.

(** ** [thread/thread.c] *)

Definition thread_unblock (pthread : Z) : M kst unit :=
  let! old_status := kintr_disable in
  let! k := get_task pthread in
  do! kassert (blocked_status (status k)) in
  do! (if decide (status k = TASK_READY) then mok tt
       else
         let! r := mget thread_ready_list in
         do! kassert (negb (elem_in pthread r)) in
         if elem_in pthread r then mlift Panic
         else
           do! mmod (with_ready (Spec.push pthread r)) in
           upd_task pthread (set_status TASK_READY)) in
  kintr_set_status old_status.

Definition schedule : M kst unit :=
  let! f := mget kflags in
  do! kassert (bool_decide (intr_get_status f = INTR_OFF)) in
  let! c := running_thread in
  let! k := get_task c in
  do! (if decide (status k = TASK_RUNNING) then
         let! r := mget thread_ready_list in
         do! kassert (negb (elem_in c r)) in
         do! mmod (with_ready (Spec.append c r)) in
         do! upd_task c (λ k, set_ticks (priority k) k) in
         upd_task c (set_status TASK_READY)
       else mok tt) in
  let! r := mget thread_ready_list in
  let! i := mget idle_thread in
  do! (if bool_decide (r = []) then thread_unblock i else mok tt) in
  let! r := mget thread_ready_list in
  do! kassert (negb (bool_decide (r = []))) in
  match r with
  | [] => mlift Fault
  | next :: r' =>
      do! mmod (with_ready r') in
      do! upd_task next (set_status TASK_RUNNING) in
      do! process_activate next in
      mmod (with_cur next)
  end.

Definition thread_block (stat : task_status) : M kst unit :=
  do! kassert (blocked_status stat) in
  let! old_status := kintr_disable in
  let! c := running_thread in
  do! upd_task c (set_status stat) in
  do! push_frame (FBlock old_status) in
  schedule.

Definition thread_yield : M kst unit :=
  let! c := running_thread in
  let! old_status := kintr_disable in
  let! r := mget thread_ready_list in
  do! kassert (negb (elem_in c r)) in
  do! mmod (with_ready (Spec.append c r)) in
  do! upd_task c (set_status TASK_READY) in
  do! push_frame (FYield old_status) in
  schedule.

(** ** [thread/sync.c] *)

Definition sema_init (psema value : Z) : M kst unit := put_sema psema (Sema (u8 value) []).

Definition lock_init (plock : Z) : M kst unit :=
  do! put_lock plock (Lock NULL 0) in
  sema_init (lock_sema plock) 1.

(** [sema_down] disables interrupts and enters its loop ... *)
Definition sema_down (psema : Z) : M kst unit :=
  let! old_status := kintr_disable in
  push_frame (FSemaDown psema old_status).

(** ... one turn of which either blocks or takes the semaphore. *)
Definition sema_down_loop (psema : Z) (old_status : intr_status) : M kst unit :=
  let! sm := get_sema psema in
  if value sm =? 0 then
    let! c := running_thread in
    do! kassert (negb (elem_in c (waiters sm))) in
    if elem_in c (waiters sm) then mlift Panic
    else
      do! put_sema psema (Sema (value sm) (Spec.append c (waiters sm))) in
      thread_block TASK_BLOCKED
  else
    do! pop_frame in
    let v := u8 (value sm - 1) in
    do! put_sema psema (Sema v (waiters sm)) in
    do! kassert (v =? 0) in
    kintr_set_status old_status.

Definition sema_up (psema : Z) : M kst unit :=
  let! old_status := kintr_disable in
  let! sm := get_sema psema in
  do! kassert (value sm =? 0) in
  do! (match waiters sm with
       | [] => mok tt
       | thread_blocked :: w =>
           do! put_sema psema (Sema (value sm) w) in
           thread_unblock thread_blocked
       end) in
  let! sm := get_sema psema in
  let v := u8 (value sm + 1) in
  do! put_sema psema (Sema v (waiters sm)) in
  do! kassert (v =? 1) in
  kintr_set_status old_status.

Definition lock_acquire (plock : Z) : M kst unit :=
  let! lk := get_lock plock in
  let! c := running_thread in
  if holder lk =? c then
    put_lock plock (Lock (holder lk) (u32 (holder_repeat_nr lk + 1)))
  else
    do! push_frame (FLockAcq plock) in
    sema_down (lock_sema plock).

(** [lock_acquire] after [sema_down] has returned. *)
Definition lock_acquire_rest (plock : Z) : M kst unit :=
  do! pop_frame in
  let! c := running_thread in
  let! lk := get_lock plock in
  do! kassert (holder_repeat_nr lk =? 0) in
  put_lock plock (Lock c 1).

Definition lock_release (plock : Z) : M kst unit :=
  let! lk := get_lock plock in
  let! c := running_thread in
  do! kassert (holder lk =? c) in
  if 1 <? holder_repeat_nr lk then
    put_lock plock (Lock (holder lk) (u32 (holder_repeat_nr lk - 1)))
  else
    do! kassert (holder_repeat_nr lk =? 1) in
    do! put_lock plock (Lock NULL 0) in
    push_frame (FSemaUp (lock_sema plock)).

(** [lock_acquire] and [lock_release] as a thread sees them that is not
    interrupted: [Locks.lock_uninterrupted] relates them to the steps above. *)
Definition lock_enter (c : Z) (lk : lock) : res lock :=
  if holder lk =? c then Ok (Lock (holder lk) (u32 (holder_repeat_nr lk + 1)))
  else if holder lk =? NULL then Ok (Lock c 1)
  else Block.

Definition lock_leave (c : Z) (lk : lock) : res lock :=
  check ASSERT (holder lk =? c) in
  if 1 <? holder_repeat_nr lk then Ok (Lock (holder lk) (u32 (holder_repeat_nr lk - 1)))
  else
    check ASSERT (holder_repeat_nr lk =? 1) in
    Ok (Lock NULL 0).

(** ** [device/timer.c] *)

Definition intr_timer_handler : M kst unit :=
  let! c := running_thread in
  let! k := get_task c in
  do! kassert (stack_magic k =? 428280086) in
  do! upd_task c (λ k, set_elapsed (u32 (elapsed_ticks k + 1)) k) in
  do! mmod (λ s, with_total (u32 (total_ticks s + 1)) s) in
  if ticks k =? 0 then schedule
  else upd_task c (λ k, set_ticks (u8 (ticks k - 1)) k).

(** The processor takes the interrupt: EFLAGS is pushed and IF cleared. *)
Definition timer_interrupt : M kst unit :=
  let! f := mget kflags in
  do! push_frame (FIntr f) in
  do! mmod (with_flags (cli f)) in
  intr_timer_handler.

(** ** The rest of a suspended function *)

Definition run_frame (f : frame) : M kst unit :=
  match f with
  | FStart => do! pop_frame in kintr_set_status INTR_ON
  | FBlock old_status => do! pop_frame in kintr_set_status old_status
  | FYield old_status => do! pop_frame in kintr_set_status old_status
  | FSemaDown psema old_status => sema_down_loop psema old_status
  | FSemaUp psema => do! pop_frame in sema_up psema
  | FLockAcq plock => lock_acquire_rest plock
  | FIntr eflags => do! pop_frame in mmod (with_flags eflags)
  end.

End sched_ops.
