(* ===== verification/Locks.v ===== *)
(** * Locks under preemption

    The kernel of [Sched] as a transition system: the running thread executes
    its topmost frame, calls [lock_acquire], [lock_release] or [thread_yield],
    the idle thread blocks itself or executes [sti; hlt], and the timer interrupts whenever IF is set.
    [Inv] is an invariant of all of it.  From it follow that no assertion of
    the scheduler, of the semaphores or of the locks ever fails, that the
    ready queue and the waiters lists are consistent, that a lock is held by
    at most one thread, and that no wakeup is lost. *)

From S2P Require Import Prelude Interrupt KList Sched.

(** ** The transition system *)

Inductive act := ARun | AAcquire (l : Z) | ARelease (l : Z) | AYield | AIdle | AHalt | ATick.

Definition stack_of (s : kst) (t : Z) : list frame := from_option kstack [] (tasks s !! t).

Section machine.
Context {B : Build} (addr_v2p : Z → Z).

(** How often each thread has come back from [lock_acquire] without having
    called [lock_release] yet. *)
Definition held := Z → Z → Z.

(** What a thread may do next.  Of its own calls only one thing is required:
    it calls [lock_release(l)] no more often than it has come back from
    [lock_acquire(l)], and has no more than 2^32 - 1 calls of [lock_acquire(l)]
    open; the state of the lock is not consulted. *)
Definition enabled (a : act) (s : kst) (h : held) : Prop :=
  match a with
  | ARun => stack_of s (cur s) ≠ []
  | AAcquire l => stack_of s (cur s) = [] ∧ cur s ≠ idle_thread s ∧ is_Some (locks s !! l) ∧ h (cur s) l < 4294967295
  | ARelease l => stack_of s (cur s) = [] ∧ cur s ≠ idle_thread s ∧ is_Some (locks s !! l) ∧ 0 < h (cur s) l
  | AYield => stack_of s (cur s) = [] ∧ cur s ≠ idle_thread s
  | AIdle | AHalt => stack_of s (cur s) = [] ∧ cur s = idle_thread s
  | ATick => intr_get_status (kflags s) = INTR_ON
  end.

Definition exec (a : act) : M kst unit := λ s,
  match a with
  | ARun => match stack_of s (cur s) with f :: _ => run_frame addr_v2p f s | [] => Fault end
  | AAcquire l => lock_acquire l s
  | ARelease l => lock_release l s
  | AYield => thread_yield addr_v2p s
  | AIdle => thread_block addr_v2p TASK_BLOCKED s
  | AHalt => mmod (λ s, with_flags (sti (kflags s)) s) s
  | ATick => timer_interrupt addr_v2p s
  end.

Definition bump (t l d : Z) (h : held) : held := λ t' l',
  if decide (t' = t ∧ l' = l) then h t' l' + d else h t' l'.

Definition record_act (a : act) (s : kst) (h : held) : held :=
  match a with
  | ARun => match stack_of s (cur s) with FLockAcq l :: _ => bump (cur s) l 1 h | _ => h end
  | AAcquire l =>
      match locks s !! l with
      | Some lk => if holder lk =? cur s then bump (cur s) l 1 h else h
      | None => h
      end
  | ARelease l => bump (cur s) l (-1) h
  | _ => h
  end.

Inductive reach : kst → held → kst → held → Prop :=
| reach_refl s h : reach s h s h
| reach_step s h s1 h1 a s2 :
    reach s h s1 h1 → enabled a s1 h1 → exec a s1 = Ok (tt, s2) →
    reach s h s2 (record_act a s1 h1).

End machine.

(** ** The invariant *)

(** The kernel stacks that occur. *)
Inductive shape (lk : gmap Z lock) : list frame → Prop :=
| sh_nil : shape lk []
| sh_start : shape lk [FStart]
| sh_yield o : shape lk [FYield o]
| sh_block o : shape lk [FBlock o]
| sh_acq l : is_Some (lk !! l) → shape lk [FLockAcq l]
| sh_up l : is_Some (lk !! l) → shape lk [FSemaUp (lock_sema l)]
| sh_down l o : is_Some (lk !! l) → shape lk [FSemaDown (lock_sema l) o; FLockAcq l]
| sh_wait l o : is_Some (lk !! l) →
    shape lk [FBlock INTR_OFF; FSemaDown (lock_sema l) o; FLockAcq l]
| sh_intr f : shape lk [FIntr f]
| sh_intr_acq f l : is_Some (lk !! l) → shape lk [FIntr f; FLockAcq l]
| sh_intr_up f l : is_Some (lk !! l) → shape lk [FIntr f; FSemaUp (lock_sema l)].

Inductive idle_shape : list frame → Prop :=
| is_nil : idle_shape []
| is_start : idle_shape [FStart]
| is_block o : idle_shape [FBlock o]
| is_intr f : idle_shape [FIntr f].

(** The frames a thread is only ever resumed in with interrupts off. *)
Definition needs_off (st : list frame) : bool :=
  match st with
  | (FStart | FBlock _ | FYield _ | FSemaDown _ _ | FIntr _) :: _ => true
  | _ => false
  end.

Definition asleep (k : task) : bool := bool_decide (status k = TASK_BLOCKED).

(** [k] sleeps in the waiters list of semaphore [p]. *)
Definition waits (p : Z) (k : task) : bool :=
  asleep k && match kstack k with FBlock INTR_OFF :: FSemaDown q _ :: _ => q =? p | _ => false end.

(** [k] is awake inside the loop of [sema_down(p)]. *)
Definition pending (p : Z) (k : task) : bool :=
  negb (asleep k) &&
  match kstack k with
  | FSemaDown q _ :: _ | FBlock _ :: FSemaDown q _ :: _ => q =? p
  | _ => false
  end.

(** [k] has the semaphore of [l] but is not the holder: between [sema_down] and
    the assignment in [lock_acquire], or between the one in [lock_release] and
    [sema_up]. *)
Definition token (l : Z) (k : task) : bool :=
  match kstack k with
  | [FLockAcq l'] | [FIntr _; FLockAcq l'] => l' =? l
  | [FSemaUp p] | [FIntr _; FSemaUp p] => p =? lock_sema l
  | _ => false
  end.

Definition who (m : gmap Z task) (q : task → bool) (t : Z) : Prop :=
  ∃ k, m !! t = Some k ∧ q k = true.

Definition lock_case (m : gmap Z task) (l : Z) (lk : lock) (v : Z) : Prop :=
  (v = 1 ∧ lk = Lock NULL 0 ∧ ∀ t, ¬ who m (token l) t) ∨
  (v = 0 ∧ holder lk ≠ NULL ∧ 1 ≤ holder_repeat_nr lk < 4294967296 ∧ ∀ t, ¬ who m (token l) t) ∨
  (v = 0 ∧ lk = Lock NULL 0 ∧ ∃ t, ∀ t', who m (token l) t' ↔ t' = t).

Record lock_ok (m : gmap Z task) (l : Z) (lk : lock) (sm : semaphore) : Prop := {
  lo_nodup : NoDup (waiters sm);
  lo_waits : ∀ t, t ∈ waiters sm ↔ who m (waits (lock_sema l)) t;
  lo_case : lock_case m l lk (value sm);
  lo_wake : value sm = 1 → waiters sm ≠ [] → ∃ t, who m (pending (lock_sema l)) t
}.

Record task_ok (s : kst) (t : Z) (k : task) : Prop := {
  to_magic : stack_magic k = 428280086;
  to_status : status k = TASK_RUNNING ∨ status k = TASK_READY ∨ status k = TASK_BLOCKED;
  to_shape : shape (locks s) (kstack k);
  to_idle : t = idle_thread s → idle_shape (kstack k);
  to_asleep : t ≠ idle_thread s → status k = TASK_BLOCKED →
    ∃ l o, is_Some (locks s !! l) ∧ kstack k = [FBlock INTR_OFF; FSemaDown (lock_sema l) o; FLockAcq l];
  to_asleep_idle : t = idle_thread s → status k = TASK_BLOCKED → ∃ o, kstack k = [FBlock o]
}.

Record Base (s : kst) : Prop := {
  c_null : tasks s !! NULL = None;
  c_cur : is_Some (tasks s !! cur s);
  c_idle : is_Some (tasks s !! idle_thread s);
  c_run : ∀ t k, tasks s !! t = Some k → status k = TASK_RUNNING → t = cur s;
  c_nodup : NoDup (thread_ready_list s);
  c_ready : ∀ t, t ∈ thread_ready_list s ↔ ∃ k, tasks s !! t = Some k ∧ status k = TASK_READY;
  c_task : ∀ t k, tasks s !! t = Some k → task_ok s t k
}.

Record Core (s : kst) : Prop := {
  c_base :> Base s;
  c_lock : ∀ l lk, locks s !! l = Some lk →
    ∃ sm, semas s !! lock_sema l = Some sm ∧ lock_ok (tasks s) l lk sm
}.

Record Inv (s : kst) : Prop := {
  i_core : Core s;
  i_running : ∃ k, tasks s !! cur s = Some k ∧ status k = TASK_RUNNING;
  i_flag : needs_off (stack_of s (cur s)) = true → intr_get_status (kflags s) = INTR_OFF
}.

(** The ghost counts agree with the lock fields. *)
Definition held_ok (s : kst) (h : held) : Prop :=
  ∀ l lk, locks s !! l = Some lk → ∀ t,
    h t l = if decide (t = holder lk ∧ t ≠ NULL) then holder_repeat_nr lk else 0.

(** The counts that the lock fields stand for. *)
Definition holds_of (s : kst) : held := λ t l,
  match locks s !! l with Some lk => if decide (t = holder lk ∧ t ≠ NULL) then holder_repeat_nr lk else 0 | None => 0 end.

Lemma holds_of_ok s : held_ok s (holds_of s).
Proof. intros l lk E t. unfold holds_of. by rewrite E. Qed.

(** ** Lemmas on the invariant *)

Lemma lock_sema_eqb l l' : (lock_sema l =? lock_sema l') = (l =? l').
Proof. unfold lock_sema. destruct (Z.eqb_spec l l'), (Z.eqb_spec (l + 4) (l' + 4)); lia. Qed.

Lemma lock_sema_ne l l' : l ≠ l' → lock_sema l ≠ lock_sema l'.
Proof. unfold lock_sema. lia. Qed.

Lemma who_insert m q t k t' :
  who (<[t := k]> m) q t' ↔ if decide (t' = t) then q k = true else who m q t'.
Proof.
  unfold who. case_decide as E.
  - subst. rewrite lookup_insert_eq. naive_solver.
  - by rewrite lookup_insert_ne by done.
Qed.

Lemma who_insert_same m q t k k' t' :
  m !! t = Some k → q k' = q k → who (<[t := k']> m) q t' ↔ who m q t'.
Proof.
  intros Hk Hq. rewrite who_insert. case_decide; [|done]. subst.
  unfold who. rewrite Hk, Hq. naive_solver.
Qed.

(** The three predicates a lock looks at do not tell [k] and [k'] apart. *)
Definition quiet (l : Z) (k k' : task) : Prop :=
  waits (lock_sema l) k' = waits (lock_sema l) k ∧
  pending (lock_sema l) k' = pending (lock_sema l) k ∧
  token l k' = token l k.

Lemma lock_case_ext m m' l lk v :
  (∀ t, who m' (token l) t ↔ who m (token l) t) → lock_case m l lk v → lock_case m' l lk v.
Proof.
  intros Ht [(?&?&H)|[(?&?&?&H)|(?&?&t&H)]].
  - left. split_and!; [done..|]. intros u. rewrite Ht. apply H.
  - right; left. split_and!; [lia|done|lia..|]. intros u. rewrite Ht. apply H.
  - right; right. split_and!; [done..|]. exists t. intros u. rewrite Ht. apply H.
Qed.

Lemma lock_ok_quiet m t k k' l lk sm :
  m !! t = Some k → quiet l k k' → lock_ok m l lk sm → lock_ok (<[t := k']> m) l lk sm.
Proof.
  intros Hk (Hw & Hp & Ht) [N W C K]. split; [done| | |].
  - intros u. rewrite (who_insert_same _ _ _ k) by done. apply W.
  - eapply lock_case_ext; [|exact C]. intros u. by apply (who_insert_same _ _ _ k).
  - intros H1 H2. destruct (K H1 H2) as [u Hu]. exists u. by rewrite (who_insert_same _ _ _ k).
Qed.

Lemma shape_mono lk lk' st :
  (∀ l, is_Some (lk !! l) → is_Some (lk' !! l)) → shape lk st → shape lk' st.
Proof. intros H []; constructor; auto. Qed.

Lemma task_ok_mono s s' t k :
  idle_thread s' = idle_thread s → (∀ l, is_Some (locks s !! l) → is_Some (locks s' !! l)) →
  task_ok s t k → task_ok s' t k.
Proof.
  intros Hi Hl [M S H I A J]. split; rewrite ?Hi; try done.
  - eauto using shape_mono.
  - intros Ht Hs. destruct (A Ht Hs) as (l & o & ? & ?). eauto.
Qed.

(** One thread changes: what has to be checked. *)
Lemma base_upd s s' t k k' :
  Base s → tasks s !! t = Some k → tasks s' = <[t := k']> (tasks s) →
  idle_thread s' = idle_thread s →
  (∀ l, is_Some (locks s !! l) → is_Some (locks s' !! l)) →
  is_Some (tasks s !! cur s') →
  (status k' = TASK_RUNNING → t = cur s') →
  (∀ u ku, u ≠ t → tasks s !! u = Some ku → status ku = TASK_RUNNING → u = cur s') →
  NoDup (thread_ready_list s') →
  (∀ u, u ≠ t → u ∈ thread_ready_list s' ↔ u ∈ thread_ready_list s) →
  (t ∈ thread_ready_list s' ↔ status k' = TASK_READY) →
  task_ok s' t k' → Base s'.
Proof.
  intros [Cn Cc Ci Cr Cd Ce Ct] Hk Ht Hi Hl Hc Hr Hr' Hn He He' Hok.
  assert (Hne : t ≠ NULL) by congruence.
  split; rewrite ?Ht, ?Hi; try done.
  - by rewrite lookup_insert_ne.
  - destruct (decide (t = cur s')) as [<-|]; [by rewrite lookup_insert_eq|by rewrite lookup_insert_ne].
  - destruct (decide (t = idle_thread s)) as [<-|]; [by rewrite lookup_insert_eq|by rewrite lookup_insert_ne].
  - intros u ku [[<- <-]|[??]]%lookup_insert_Some; eauto.
  - intros u. destruct (decide (u = t)) as [->|Hu].
    + rewrite lookup_insert_eq, He'. naive_solver.
    + rewrite lookup_insert_ne, He by done. apply Ce.
  - intros u ku [[<- <-]|[??]]%lookup_insert_Some; [done|]. eapply task_ok_mono; eauto.
Qed.

Lemma core_upd s s' t k k' :
  Core s → tasks s !! t = Some k → tasks s' = <[t := k']> (tasks s) →
  idle_thread s' = idle_thread s →
  (∀ l, is_Some (locks s !! l) → is_Some (locks s' !! l)) →
  is_Some (tasks s !! cur s') →
  (status k' = TASK_RUNNING → t = cur s') →
  (∀ u ku, u ≠ t → tasks s !! u = Some ku → status ku = TASK_RUNNING → u = cur s') →
  NoDup (thread_ready_list s') →
  (∀ u, u ≠ t → u ∈ thread_ready_list s' ↔ u ∈ thread_ready_list s) →
  (t ∈ thread_ready_list s' ↔ status k' = TASK_READY) →
  task_ok s' t k' →
  (∀ l lk, locks s' !! l = Some lk →
    ∃ sm, semas s' !! lock_sema l = Some sm ∧ lock_ok (tasks s') l lk sm) →
  Core s'.
Proof. intros [HB _] **. split; [|done]. eapply base_upd; eauto. Qed.

(** ** The scheduler *)

Ltac krun :=
  unfold push_frame, pop_frame, running_thread, put_sema, put_lock, kassert;
  unfold mbnd, mget, mmod, mok, mlift, get_task, upd_task, get_sema, get_lock,
    kintr_disable, kintr_set_status; simpl.

Section sched_lemmas.
Context {B : Build} (addr_v2p : Z → Z).

Lemma thread_unblock_run s t k :
  tasks s !! t = Some k → status k = TASK_BLOCKED → t ∉ thread_ready_list s →
  ∃ f, thread_unblock t s =
         Ok (tt, with_flags f (with_tasks (<[t := set_status TASK_READY k]> (tasks s))
                   (with_ready (t :: thread_ready_list s) s))) ∧
       intr_get_status f = intr_get_status (kflags s).
Proof.
  intros Hk Hs Hr. unfold thread_unblock. krun. rewrite Hk. simpl. rewrite Hs. simpl.
  rewrite ASSERT_true by done. simpl. unfold elem_in. rewrite bool_decide_false by done. simpl.
  rewrite ASSERT_true by done. simpl. rewrite Hk. simpl.
  eexists. split; [reflexivity|].
  rewrite intr_set_status_get. unfold intr_disable. by destruct (intr_get_status (kflags s)).
Qed.

Lemma unblock_core s t k :
  Core s → tasks s !! t = Some k → status k = TASK_BLOCKED →
  (∀ l, waits (lock_sema l) k = false) →
  Core (with_tasks (<[t := set_status TASK_READY k]> (tasks s))
         (with_ready (t :: thread_ready_list s) s)).
Proof.
  intros HC Hk Hs Hw. pose proof (c_task _ HC _ _ Hk) as [M S H I A J].
  assert (t ∉ thread_ready_list s) by (intros (? & ? & ?)%(c_ready _ HC); congruence).
  assert (Hpend : ∀ l, pending (lock_sema l) (set_status TASK_READY k) = false).
  { intros l. specialize (Hw l). unfold waits, asleep in Hw. rewrite bool_decide_true in Hw by done.
    unfold pending. simpl in *. destruct (decide (t = idle_thread s)) as [Hi|Hi].
    - destruct (J Hi Hs) as [o ->]. done.
    - destruct (A Hi Hs) as (l' & o & _ & HK). rewrite HK in *. simpl in *.
      done. }
  eapply core_upd; simpl; eauto using c_cur, c_base; simpl; try done.
  - intros u ku Hu Hku Hr. by apply (c_run _ HC u ku).
  - constructor; [done|apply (c_nodup _ HC)].
  - intros u Hu. rewrite elem_of_cons. naive_solver.
  - split; [done|]. intros _. by left.
  - split; simpl; auto; done.
  - intros l lk Hlk. destruct (c_lock _ HC _ _ Hlk) as (sm & Hsm & Hok). exists sm. split; [done|].
    eapply lock_ok_quiet; eauto. split_and!; simpl.
    + by rewrite Hw.
    + rewrite Hpend. symmetry. unfold pending, asleep. by rewrite bool_decide_true.
    + done.
Qed.

Lemma run_task_ok s t k st :
  st = TASK_RUNNING ∨ st = TASK_READY → task_ok s t k → task_ok s t (set_status st k).
Proof. intros Hst [M S H I A J]. split; simpl; naive_solver. Qed.

Lemma awake_quiet l k k' :
  kstack k' = kstack k → status k ≠ TASK_BLOCKED → status k' ≠ TASK_BLOCKED → quiet l k k'.
Proof.
  intros Hk Hs Hs'. unfold quiet, waits, pending, token, asleep.
  rewrite Hk, !bool_decide_false by done. done.
Qed.

(** Changing nothing but status, time slice and stack flags of an awake thread keeps every lock. *)
Lemma locks_awake s t k k' :
  Core s → tasks s !! t = Some k → (∀ l, quiet l k k') →
  ∀ l lk, locks s !! l = Some lk →
    ∃ sm, semas s !! lock_sema l = Some sm ∧ lock_ok (<[t := k']> (tasks s)) l lk sm.
Proof.
  intros HC Hk Hq l lk Hlk. destruct (c_lock _ HC _ _ Hlk) as (sm & Hsm & Hok).
  eauto using lock_ok_quiet.
Qed.

Lemma process_activate_run s t k :
  tasks s !! t = Some k → t ≠ NULL →
  ∃ c e, process_activate addr_v2p t s = Ok (tt, with_mmu c e s).
Proof.
  intros Hk Hn. unfold process_activate, page_dir_activate, update_tss_esp. krun.
  rewrite ASSERT_true by (apply negb_true_iff, Z.eqb_neq; done). simpl. rewrite Hk. simpl. rewrite Hk. simpl.
  destruct (pgdir k =? NULL); eauto.
Qed.

(** The states between which [schedule] moves: same stacks, same locks. *)
Record same_world (s s' : kst) : Prop := {
  sw_flags : intr_get_status (kflags s') = intr_get_status (kflags s);
  sw_idle : idle_thread s' = idle_thread s;
  sw_semas : semas s' = semas s;
  sw_locks : locks s' = locks s;
  sw_stacks : ∀ t, stack_of s' t = stack_of s t
}.

Lemma same_world_refl s : same_world s s.
Proof. by split. Qed.

Lemma same_world_trans s1 s2 s3 : same_world s1 s2 → same_world s2 s3 → same_world s1 s3.
Proof. intros [] []. split; try congruence. Qed.

Lemma stack_of_insert s s' t k k' u :
  tasks s !! t = Some k → tasks s' = <[t := k']> (tasks s) → kstack k' = kstack k →
  stack_of s' u = stack_of s u.
Proof.
  intros Hk Ht Hs. unfold stack_of. rewrite Ht. destruct (decide (u = t)) as [->|].
  - by rewrite lookup_insert_eq, Hk.
  - by rewrite lookup_insert_ne.
Qed.

(** [schedule] after its first [if]: some thread is ready. *)
Lemma pick_next_inv s n r k c e :
  Core s → intr_get_status (kflags s) = INTR_OFF →
  (∀ t k, tasks s !! t = Some k → status k ≠ TASK_RUNNING) →
  thread_ready_list s = n :: r → tasks s !! n = Some k → status k = TASK_READY →
  Inv (with_cur n (with_mmu c e (with_tasks (<[n := set_status TASK_RUNNING k]> (tasks s)) (with_ready r s)))).
Proof.
  intros HC Hf Hno Hr Hk Hs.
  pose proof (c_nodup _ HC) as Hnd. rewrite Hr in Hnd. apply NoDup_cons in Hnd as [Hn Hnd].
  split; simpl.
  - eapply core_upd; simpl; eauto; simpl; try done.
    + intros u ku _ Hu Hru. by destruct (Hno _ _ Hu).
    + intros u Hu. rewrite Hr, elem_of_cons. naive_solver.
    + apply run_task_ok; [by left|]. eapply task_ok_mono; [| |by apply (c_task _ HC)]; done.
    + eapply locks_awake; eauto. intros l. apply awake_quiet; simpl; congruence.
  - rewrite lookup_insert_eq. eauto.
  - done.
Qed.

(** The first [if]: a thread that only used up its slice goes to the end of the queue. *)
Lemma requeue_spec s k :
  Core s → tasks s !! cur s = Some k →
  ∃ s1, (if decide (status k = TASK_RUNNING) then
         let! r := mget thread_ready_list in
         do! kassert (negb (elem_in (cur s) r)) in
         do! mmod (with_ready (Spec.append (cur s) r)) in
         do! upd_task (cur s) (λ k, set_ticks (priority k) k) in
         upd_task (cur s) (set_status TASK_READY)
       else mok tt) s = Ok (tt, s1) ∧ Core s1 ∧ same_world s s1 ∧
    (∀ t k, tasks s1 !! t = Some k → status k ≠ TASK_RUNNING).
Proof.
  intros HC Hk. destruct (decide (status k = TASK_RUNNING)) as [Hrun|Hrun].
  - assert (Hnin : cur s ∉ thread_ready_list s) by (intros (? & ? & ?)%(c_ready _ HC); congruence).
    krun. unfold elem_in. rewrite ASSERT_true by (by rewrite bool_decide_false). simpl.
    rewrite Hk. simpl. rewrite lookup_insert_eq. simpl. rewrite insert_insert_eq.
    eexists. split; [reflexivity|].
    set (k' := set_status TASK_READY _). split; [|split].
    + eapply core_upd with (k' := k'); simpl; eauto using c_cur, c_base; simpl; try done.
      * intros. by eapply (c_run _ HC).
      * apply NoDup_app. split_and!; [apply (c_nodup _ HC)|set_solver|apply NoDup_singleton].
      * set_solver.
      * set_solver.
      * destruct (c_task _ HC _ _ Hk) as [M S H I A J]. split; simpl; auto; done.
      * eapply locks_awake; eauto. intros l. apply awake_quiet; simpl; congruence.
    + split; try done. intros t. by eapply stack_of_insert with (k' := k').
    + simpl. intros t kt [[<- <-]|[Ht Hkt]]%lookup_insert_Some; [done|].
      intros Hrt. by destruct Ht; symmetry; eapply (c_run _ HC).
  - eexists. split; [reflexivity|]. split; [done|]. split; [apply same_world_refl|].
    intros t kt Ht Hrt. apply (c_run _ HC) in Ht as Hc; [|done]. congruence.
Qed.

Lemma Core_flags s f : Core s → Core (with_flags f s).
Proof.
  intros [[? ? ? ? ? ? T] L]. split; [split|]; auto. intros t kt Ht. eapply task_ok_mono; [| |by apply T]; done.
Qed.

(** The second: an empty queue wakes the idle thread. *)
Lemma wake_idle_spec s1 :
  Core s1 → (∀ t k, tasks s1 !! t = Some k → status k ≠ TASK_RUNNING) →
  ∃ s2, (if bool_decide (thread_ready_list s1 = []) then thread_unblock (idle_thread s1) else mok tt) s1
       = Ok (tt, s2) ∧ Core s2 ∧ same_world s1 s2 ∧ thread_ready_list s2 ≠ [] ∧
       (∀ t k, tasks s2 !! t = Some k → status k ≠ TASK_RUNNING).
Proof.
  intros HC1 Hno. case_bool_decide as Hemp; [|by exists s1; eauto using same_world_refl].
  destruct (c_idle _ HC1) as [ki Hki]. pose proof (c_task _ HC1 _ _ Hki) as Hok.
  assert (Hb : status ki = TASK_BLOCKED).
  { destruct (to_status _ _ _ Hok) as [?|[?|?]]; [by destruct (Hno _ _ Hki)| |done].
    assert (idle_thread s1 ∈ thread_ready_list s1) as Hin by (rewrite (c_ready _ HC1); eauto).
    rewrite Hemp in Hin. set_solver. }
  destruct (to_asleep_idle _ _ _ Hok eq_refl Hb) as [o Ho].
  destruct (thread_unblock_run s1 _ _ Hki Hb) as (f & -> & Hfl); [rewrite Hemp; set_solver|].
  eexists. split; [reflexivity|]. split; [|split; [|split]].
  - apply Core_flags, unblock_core; try done. intros l. unfold waits. rewrite Ho. destruct o; apply andb_false_r.
  - split; try done. intros t. by eapply stack_of_insert.
  - done.
  - simpl. intros t kt [[<- <-]|[Ht Hkt]]%lookup_insert_Some; [done|by eapply Hno].
Qed.

Lemma schedule_spec s :
  Core s → intr_get_status (kflags s) = INTR_OFF →
  ∃ s', schedule addr_v2p s = Ok (tt, s') ∧ Inv s' ∧ same_world s s'.
Proof.
  intros HC Hf. destruct (c_cur _ HC) as [k Hk].
  destruct (requeue_spec s k HC Hk) as (s1 & E1 & HC1 & W1 & Hno).
  destruct (wake_idle_spec s1 HC1 Hno) as (s2 & E2 & HC2 & W2 & Hne & Hno2).
  unfold schedule. unfold mbnd at 1. unfold mget at 1. simpl.
  unfold mbnd at 1. unfold kassert at 1, mlift at 1. rewrite ASSERT_true by (by rewrite bool_decide_true). simpl.
  unfold mbnd at 1. unfold running_thread, mget at 1. simpl.
  unfold mbnd at 1, get_task at 1. rewrite Hk. simpl.
  erewrite mbnd_Ok by exact E1. cbv beta.
  unfold mbnd at 1. unfold mget at 1. simpl. unfold mbnd at 1. unfold mget at 1. simpl.
  erewrite mbnd_Ok by exact E2. cbv beta.
  destruct (thread_ready_list s2) as [|n r] eqn:Hr; [done|].
  krun. rewrite Hr. rewrite ASSERT_true by done. simpl.
  destruct (proj1 (c_ready _ HC2 n)) as (kn & Hkn & Hsn); [rewrite Hr; by left|]. rewrite Hkn. simpl.
  set (s3 := with_tasks _ _).
  assert (Hnn : n ≠ NULL) by (intros ->; by rewrite (c_null _ HC2) in Hkn).
  destruct (process_activate_run s3 n (set_status TASK_RUNNING kn)) as (c & e & ->); [apply lookup_insert_eq|done|].
  simpl. eexists. split; [reflexivity|]. split.
  - eapply pick_next_inv; eauto. rewrite (sw_flags _ _ W2), (sw_flags _ _ W1). done.
  - eapply same_world_trans; [exact W1|]. eapply same_world_trans; [exact W2|].
    split; try done. intros t. by eapply stack_of_insert.
Qed.

End sched_lemmas.

(** ** One step *)

Section step_lemmas.
Context {B : Build} (addr_v2p : Z → Z).

(** Only the running thread changes, and it keeps running. *)
Lemma inv_cur s s' k k' :
  Inv s → tasks s !! cur s = Some k → tasks s' = <[cur s := k']> (tasks s) →
  cur s' = cur s → thread_ready_list s' = thread_ready_list s → idle_thread s' = idle_thread s →
  (∀ l, is_Some (locks s !! l) → is_Some (locks s' !! l)) →
  status k' = TASK_RUNNING → stack_magic k' = stack_magic k → shape (locks s') (kstack k') →
  (cur s = idle_thread s → idle_shape (kstack k')) →
  (needs_off (kstack k') = true → intr_get_status (kflags s') = INTR_OFF) →
  (∀ l lk, locks s' !! l = Some lk →
    ∃ sm, semas s' !! lock_sema l = Some sm ∧ lock_ok (tasks s') l lk sm) →
  Inv s'.
Proof.
  intros [HC (k0 & Hk0 & Hrun) _] Hk Ht Hc Hr Hi Hl Hst Hm Hsh Hish Hfl Hlk.
  rewrite Hk in Hk0. injection Hk0 as <-.
  assert (Hnin : cur s ∉ thread_ready_list s) by (intros (? & ? & ?)%(c_ready _ HC); congruence).
  split.
  - eapply (core_upd s s' (cur s) k k'); rewrite ?Hr, ?Hc; eauto.
    + intros. by eapply (c_run _ HC).
    + apply (c_nodup _ HC).
    + rewrite Hst. naive_solver.
    + split; rewrite ?Hst, ?Hi; try done; eauto. rewrite Hm. by eapply (c_task _ HC).
  - exists k'. by rewrite Hc, Ht, lookup_insert_eq.
  - unfold stack_of. by rewrite Hc, Ht, lookup_insert_eq.
Qed.

Lemma running_cur s : Inv s →
  ∃ k, tasks s !! cur s = Some k ∧ status k = TASK_RUNNING ∧ stack_of s (cur s) = kstack k ∧ task_ok s (cur s) k.
Proof.
  intros [HC (k & Hk & Hr) _]. exists k. split_and!; try done.
  - unfold stack_of. by rewrite Hk.
  - by eapply (c_task _ HC).
Qed.

Definition step_ok (a : act) (s : kst) : Prop :=
  ∃ s', exec addr_v2p a s = Ok (tt, s') ∧ Inv s' ∧
    ∀ h, held_ok s h → held_ok s' (record_act a s h).

Lemma run_quiet l k k' :
  status k = TASK_RUNNING → status k' = TASK_RUNNING →
  match kstack k with FSemaDown q _ :: _ | FBlock _ :: FSemaDown q _ :: _ => q =? lock_sema l | _ => false end =
  match kstack k' with FSemaDown q _ :: _ | FBlock _ :: FSemaDown q _ :: _ => q =? lock_sema l | _ => false end →
  token l k' = token l k → quiet l k k'.
Proof.
  intros H H' Hp Ht. unfold quiet, waits, pending, asleep. rewrite H, H', !bool_decide_false by done. simpl.
  split_and!; [done| |done]. symmetry. apply Hp.
Qed.

(** A frame that only restores IF. *)
Lemma pop_step s k f st fl :
  Inv s → tasks s !! cur s = Some k → status k = TASK_RUNNING → kstack k = f :: st →
  (∀ l, quiet l k (set_kstack st k)) → shape (locks s) st → (cur s = idle_thread s → idle_shape st) →
  (needs_off st = true → intr_get_status fl = INTR_OFF) →
  Inv (with_flags fl (with_tasks (<[cur s := set_kstack st k]> (tasks s)) s)).
Proof.
  intros HI Hk Hr Hst Hq Hs His Hfl. eapply inv_cur; simpl; eauto; simpl; try done.
  eapply locks_awake; eauto. apply HI.
Qed.

(** The stacks of the running thread by their topmost frame. *)
Lemma shape_cons_inv lk f st :
  shape lk (f :: st) →
  match f with
  | FStart | FYield _ => st = []
  | FBlock o => st = [] ∨ (o = INTR_OFF ∧ ∃ l o', is_Some (lk !! l) ∧ st = [FSemaDown (lock_sema l) o'; FLockAcq l])
  | FSemaDown p o => ∃ l, is_Some (lk !! l) ∧ p = lock_sema l ∧ st = [FLockAcq l]
  | FSemaUp p => ∃ l, is_Some (lk !! l) ∧ p = lock_sema l ∧ st = []
  | FLockAcq l => is_Some (lk !! l) ∧ st = []
  | FIntr _ => st = [] ∨ ∃ l, is_Some (lk !! l) ∧ (st = [FLockAcq l] ∨ st = [FSemaUp (lock_sema l)])
  end.
Proof. inversion 1; subst; naive_solver. Qed.

Lemma idle_pop f st : idle_shape (f :: st) → idle_shape st.
Proof. inversion 1; constructor. Qed.

Lemma restore_step s k f st fl :
  Inv s → tasks s !! cur s = Some k → status k = TASK_RUNNING → kstack k = f :: st →
  match f with FStart | FBlock _ | FYield _ | FIntr _ => True | _ => False end →
  (needs_off st = true → intr_get_status fl = INTR_OFF) →
  Inv (with_flags fl (with_tasks (<[cur s := set_kstack st k]> (tasks s)) s)).
Proof.
  intros HI Hk Hr Hst Hf Hfl. destruct (c_task _ (i_core _ HI) _ _ Hk) as [_ _ Hsh His _ _].
  rewrite Hst in *. apply shape_cons_inv in Hsh as Hc.
  eapply pop_step; eauto.
  - intros l. apply run_quiet; try done; unfold token; simpl; rewrite Hst.
    all: destruct f; try done; naive_solver.
  - destruct f; try done; naive_solver eauto using shape.
  - intros. eapply idle_pop, His; eauto.
Qed.

Lemma held_same s s' h : locks s' = locks s → held_ok s h → held_ok s' h.
Proof. unfold held_ok. by intros ->. Qed.

Lemma run_restore s f st :
  Inv s → stack_of s (cur s) = f :: st →
  match f with FStart | FBlock _ | FYield _ | FIntr _ => True | _ => False end → step_ok ARun s.
Proof.
  intros HI Hs Hf. destruct (running_cur s HI) as (k & Hk & Hr & Hst & Hok). rewrite Hs in Hst.
  pose proof (to_shape _ _ _ Hok) as Hsh. rewrite <-Hst in Hsh. apply shape_cons_inv in Hsh.
  unfold step_ok. simpl. rewrite Hs.
  destruct f; simpl; try done; krun; rewrite Hk; simpl; rewrite <-Hst; simpl.
  all: eexists; split; [reflexivity|]; split; [eapply restore_step; eauto|done]; simpl.
  all: rewrite ?intr_set_status_get; naive_solver.
Qed.

Lemma cur_not_null s : Inv s → cur s ≠ NULL.
Proof. intros HI H. destruct (running_cur s HI) as (k & Hk & _). rewrite H, (c_null _ (i_core _ HI)) in Hk. done. Qed.

(** The lock a thread holds the token of. *)
Lemma token_case s l lk sm t k :
  tasks s !! t = Some k → token l k = true → lock_ok (tasks s) l lk sm →
  value sm = 0 ∧ lk = Lock NULL 0 ∧ ∀ u, who (tasks s) (token l) u ↔ u = t.
Proof.
  intros Hk Ht [_ _ [(_ & _ & H)|[(_ & _ & _ & H)|(H0 & H1 & u & H)]] _].
  1-2: destruct (H t); exists k; done.
  split_and!; try done. assert (t = u) as -> by (apply H; exists k; done). done.
Qed.

Definition count (lk : lock) (t : Z) : Z :=
  if decide (t = holder lk ∧ t ≠ NULL) then holder_repeat_nr lk else 0.

Lemma held_bump s s' l lk lk' d h :
  locks s !! l = Some lk → locks s' = <[l := lk']> (locks s) →
  (∀ t, count lk' t = count lk t + if decide (t = cur s) then d else 0) →
  held_ok s h → held_ok s' (bump (cur s) l d h).
Proof.
  intros Hl Hl' Hd Hh l2 lk2. rewrite Hl'. unfold bump. intros [[<- <-]|[Hne Hl2]]%lookup_insert_Some t.
  - fold (count lk' t). rewrite Hd, (Hh _ _ Hl). unfold count. repeat case_decide; naive_solver lia.
  - rewrite decide_False by naive_solver. by apply Hh.
Qed.

Lemma locks_dom (m : gmap Z lock) l x l' : is_Some (m !! l') → is_Some (<[l := x]> m !! l').
Proof. destruct (decide (l' = l)) as [->|]; [by rewrite lookup_insert_eq|by rewrite lookup_insert_ne]. Qed.

Lemma run_lockacq s l st : Inv s → stack_of s (cur s) = FLockAcq l :: st → step_ok ARun s.
Proof.
  intros HI Hs. destruct (running_cur s HI) as (k & Hk & Hr & Hst & Hok). rewrite Hs in Hst.
  pose proof (to_shape _ _ _ Hok) as Hsh. rewrite <-Hst in Hsh. apply shape_cons_inv in Hsh as [[lk Hlk] ->].
  destruct (c_lock _ (i_core _ HI) _ _ Hlk) as (sm & Hsm & Hlo).
  assert (Ht : token l k = true) by (unfold token; rewrite <-Hst; apply Z.eqb_refl).
  destruct (token_case s l lk sm _ _ Hk Ht Hlo) as (Hv & -> & Hu).
  pose proof (cur_not_null s HI) as Hn.
  unfold step_ok. simpl. rewrite Hs. simpl. unfold lock_acquire_rest. krun. rewrite Hk. simpl. rewrite Hlk. simpl.
  rewrite ASSERT_true by done. simpl. eexists. split; [reflexivity|]. split.
  - eapply inv_cur; simpl; eauto; simpl; rewrite <-?Hst; try done; simpl; try by constructor.
    { intros l'. apply locks_dom. }
    intros l' lk' [[<- <-]|[Hne Hl']]%lookup_insert_Some.
    + exists sm. split; [done|]. destruct Hlo as [N W C K]. split; try done.
      * intros t. rewrite (who_insert_same _ _ _ k); [apply W|done|]. unfold waits, asleep. simpl. by rewrite Hr.
      * right; left. simpl. split_and!; [done|done|lia..|]. intros t. rewrite who_insert. unfold token at 1. simpl.
        case_decide; [done|]. by rewrite Hu.
      * congruence.
    + destruct (c_lock _ (i_core _ HI) _ _ Hl') as (sm' & Hsm' & Hlo'). exists sm'. split; [done|].
      eapply lock_ok_quiet; eauto. apply run_quiet; simpl; rewrite <-?Hst; try done.
      unfold token. simpl. rewrite <-Hst. symmetry. apply Z.eqb_neq. congruence.
  - intros h. eapply held_bump; eauto. intros t. unfold count. simpl. repeat case_decide; naive_solver.
Qed.

(** Every other lock is untouched when the running thread's stack only mentions [l]. *)
Lemma other_locks s k k' l l' lk' :
  Core s → tasks s !! cur s = Some k → l' ≠ l → locks s !! l' = Some lk' → quiet l' k k' →
  ∃ sm, semas s !! lock_sema l' = Some sm ∧ lock_ok (<[cur s := k']> (tasks s)) l' lk' sm.
Proof.
  intros HC Hk Hne Hl' Hq. destruct (c_lock _ HC _ _ Hl') as (sm' & Hsm' & Hlo').
  eauto using lock_ok_quiet.
Qed.

Lemma run_semadown_take s l o sm k lk :
  Inv s → tasks s !! cur s = Some k → status k = TASK_RUNNING →
  kstack k = [FSemaDown (lock_sema l) o; FLockAcq l] →
  locks s !! l = Some lk → semas s !! lock_sema l = Some sm → lock_ok (tasks s) l lk sm →
  value sm ≠ 0 → step_ok ARun s.
Proof.
  intros HI Hk Hr Hst Hlk Hsm [N W C K] Hv.
  destruct C as [(Hv1 & -> & Hno)|[(? & _)|(? & _)]]; [|done..].
  unfold step_ok. simpl. assert (stack_of s (cur s) = kstack k) as -> by (unfold stack_of; by rewrite Hk). rewrite Hst. simpl.
  unfold sema_down_loop. krun. rewrite Hsm. simpl. rewrite Hv1. simpl. rewrite Hk. simpl.
  rewrite ASSERT_true by done. simpl. eexists. split; [reflexivity|]. split; [|done].
  eapply inv_cur; simpl; eauto; simpl; rewrite ?Hst; simpl; try done.
  { constructor. eauto. }
  { intros Hi. pose proof (to_idle _ _ _ (c_task _ (i_core _ HI) _ _ Hk) Hi) as Hx. rewrite Hst in Hx. inversion Hx. }
  intros l' lk' Hl'. destruct (decide (l' = l)) as [->|Hne].
  - assert (lk' = Lock NULL 0) as -> by congruence.
    rewrite lookup_insert_eq. eexists. split; [reflexivity|]. split; simpl; try done.
    + intros t. rewrite (who_insert_same _ _ _ k); [apply W|done|]. unfold waits, asleep. simpl. by rewrite Hr.
    + right; right. split_and!; try done. exists (cur s). intros t. rewrite who_insert. unfold token at 1. simpl.
      case_decide; [|naive_solver]. subst. by rewrite Z.eqb_refl.
  - rewrite lookup_insert_ne by (by apply lock_sema_ne). eapply (other_locks s k _ l); eauto; [apply HI|].
    apply run_quiet; unfold token; simpl; rewrite ?Hst; simpl; try done.
    + rewrite lock_sema_eqb. apply Z.eqb_neq. congruence.
    + apply Z.eqb_neq. congruence.
Qed.

(** The running thread goes to sleep or back to the queue before [schedule]. *)
Lemma core_leave s s1 k k' :
  Inv s → tasks s !! cur s = Some k → status k = TASK_RUNNING →
  tasks s1 = <[cur s := k']> (tasks s) → cur s1 = cur s → idle_thread s1 = idle_thread s →
  locks s1 = locks s → stack_magic k' = stack_magic k → shape (locks s) (kstack k') →
  (status k' = TASK_BLOCKED ∧ thread_ready_list s1 = thread_ready_list s ∨
   status k' = TASK_READY ∧ thread_ready_list s1 = thread_ready_list s ++ [cur s]) →
  (cur s = idle_thread s → idle_shape (kstack k')) →
  (cur s ≠ idle_thread s → status k' = TASK_BLOCKED →
    ∃ l o, is_Some (locks s !! l) ∧ kstack k' = [FBlock INTR_OFF; FSemaDown (lock_sema l) o; FLockAcq l]) →
  (cur s = idle_thread s → status k' = TASK_BLOCKED → ∃ o, kstack k' = [FBlock o]) →
  (∀ l lk, locks s !! l = Some lk →
    ∃ sm, semas s1 !! lock_sema l = Some sm ∧ lock_ok (<[cur s := k']> (tasks s)) l lk sm) →
  Core s1.
Proof.
  intros [HC _ _] Hk Hr Ht Hc Hi Hl Hm Hsh Hst Hid Hb Hbi Hlk.
  assert (Hnin : cur s ∉ thread_ready_list s) by (intros (? & ? & ?)%(c_ready _ HC); congruence).
  eapply (core_upd s s1 (cur s) k k'); rewrite ?Hc, ?Hi, ?Hl, ?Ht; eauto.
  - intros. by eapply (c_run _ HC).
  - destruct Hst as [[_ ->]|[_ ->]]; [apply (c_nodup _ HC)|].
    apply NoDup_app. split_and!; [apply (c_nodup _ HC)|set_solver|apply NoDup_singleton].
  - destruct Hst as [[_ ->]|[_ ->]]; set_solver.
  - destruct Hst as [[-> ->]|[-> ->]]; set_solver.
  - split; rewrite ?Hi, ?Hl, ?Hm; auto; [by eapply (c_task _ HC)|naive_solver].
Qed.

Lemma locked_sleep s l o sm k lk :
  status k = TASK_RUNNING → tasks s !! cur s = Some k →
  kstack k = [FSemaDown (lock_sema l) o; FLockAcq l] → lock_ok (tasks s) l lk sm → value sm = 0 →
  lock_ok (<[cur s := set_kstack (FBlock INTR_OFF :: kstack k) (set_status TASK_BLOCKED k)]> (tasks s)) l lk
    (Sema (value sm) (waiters sm ++ [cur s])).
Proof.
  intros Hr Hk Hst [N W C K] Hv.
  assert (Hnin : cur s ∉ waiters sm).
  { rewrite W. intros (k' & Hk' & Hw). rewrite Hk in Hk'. injection Hk' as <-.
    unfold waits, asleep in Hw. by rewrite Hr in Hw. }
  split; simpl.
  - apply NoDup_app. split_and!; [done|set_solver|apply NoDup_singleton].
  - intros t. rewrite who_insert, elem_of_app, W, list_elem_of_singleton.
    case_decide as E; [|naive_solver]. subst. unfold waits, asleep. simpl. rewrite Hst, Z.eqb_refl. naive_solver.
  - eapply lock_case_ext; [|exact C]. intros t. apply (who_insert_same _ _ _ k); [done|].
    unfold token. simpl. by rewrite Hst.
  - lia.
Qed.

Lemma run_semadown_sleep s l o sm k lk :
  Inv s → tasks s !! cur s = Some k → status k = TASK_RUNNING →
  kstack k = [FSemaDown (lock_sema l) o; FLockAcq l] →
  locks s !! l = Some lk → semas s !! lock_sema l = Some sm → lock_ok (tasks s) l lk sm →
  value sm = 0 → step_ok ARun s.
Proof.
  intros HI Hk Hr Hst Hlk Hsm Hlo Hv.
  assert (Hnin : cur s ∉ waiters sm).
  { rewrite (lo_waits _ _ _ _ Hlo). intros (k' & Hk' & Hw). rewrite Hk in Hk'. injection Hk' as <-.
    unfold waits, asleep in Hw. by rewrite Hr in Hw. }
  assert (Hsf : stack_of s (cur s) = kstack k) by (unfold stack_of; by rewrite Hk).
  assert (Hoff : intr_get_status (kflags s) = INTR_OFF) by (apply HI; by rewrite Hsf, Hst).
  pose proof (to_idle _ _ _ (c_task _ (i_core _ HI) _ _ Hk)) as Hidl.
  assert (Hni : cur s ≠ idle_thread s) by (intros Hi; apply Hidl in Hi; rewrite Hst in Hi; inversion Hi).
  unfold step_ok. simpl. rewrite Hsf, Hst. simpl.
  unfold sema_down_loop, thread_block. krun. rewrite Hsm. simpl. rewrite Hv. simpl.
  unfold elem_in. rewrite bool_decide_false by done. rewrite !ASSERT_true by done. simpl.
  rewrite Hk. simpl. rewrite lookup_insert_eq. simpl. rewrite insert_insert_eq.
  unfold intr_disable. rewrite Hoff. simpl.
  match goal with |- context [schedule _ ?x] => destruct (schedule_spec addr_v2p x) as (s' & E & HI' & W) end;
    [|done|rewrite E; exists s'; split; [done|]; split; [done|];
      intros h Hh; eapply held_same; [|exact Hh]; apply (sw_locks _ _ W)].
  eapply (core_leave s _ k); simpl; eauto; simpl; rewrite ?Hst; try done.
  - constructor. eauto.
  - naive_solver.
  - intros l' lk' Hl'. destruct (decide (l' = l)) as [->|Hne].
    + rewrite lookup_insert_eq. eexists. split; [reflexivity|]. assert (lk' = lk) as -> by congruence.
      rewrite <-Hv, <-Hst. by eapply locked_sleep.
    + rewrite lookup_insert_ne by (by apply lock_sema_ne). eapply (other_locks s k _ l); eauto; [apply HI|].
      unfold quiet, waits, pending, token, asleep. simpl. rewrite Hst, Hr. simpl.
      rewrite lock_sema_eqb, (proj2 (Z.eqb_neq l l')) by congruence. done.
Qed.

Lemma run_semadown s p o st : Inv s → stack_of s (cur s) = FSemaDown p o :: st → step_ok ARun s.
Proof.
  intros HI Hs. destruct (running_cur s HI) as (k & Hk & Hr & Hst & Hok). rewrite Hs in Hst.
  pose proof (to_shape _ _ _ Hok) as Hsh. rewrite <-Hst in Hsh.
  apply shape_cons_inv in Hsh as (l & [lk Hlk] & -> & ->).
  destruct (c_lock _ (i_core _ HI) _ _ Hlk) as (sm & Hsm & Hlo).
  destruct (decide (value sm = 0)); eauto using run_semadown_sleep, run_semadown_take.
Qed.

(** [sema_up] with nobody waiting. *)
Lemma run_semaup_free s l sm k :
  Inv s → tasks s !! cur s = Some k → status k = TASK_RUNNING → kstack k = [FSemaUp (lock_sema l)] →
  locks s !! l = Some (Lock NULL 0) → semas s !! lock_sema l = Some sm → lock_ok (tasks s) l (Lock NULL 0) sm →
  value sm = 0 → (∀ u, who (tasks s) (token l) u ↔ u = cur s) → waiters sm = [] → step_ok ARun s.
Proof.
  intros HI Hk Hr Hst Hlk Hsm [N W C K] Hv Hu Hw.
  assert (Hsf : stack_of s (cur s) = kstack k) by (unfold stack_of; by rewrite Hk).
  unfold step_ok. simpl. rewrite Hsf, Hst. simpl. unfold sema_up. krun. rewrite Hk. simpl. rewrite Hsm. simpl.
  rewrite Hv, Hw. rewrite ASSERT_true by done. simpl. rewrite Hsm. simpl. rewrite Hv, Hw.
  rewrite ASSERT_true by done. simpl. eexists. split; [reflexivity|]. split; [|done].
  eapply inv_cur; simpl; eauto; simpl; rewrite ?Hst; simpl; try done.
  { constructor. } { constructor. }
  intros l' lk' Hl'. destruct (decide (l' = l)) as [->|Hne].
  - assert (lk' = Lock NULL 0) as -> by congruence.
    rewrite lookup_insert_eq. eexists. split; [reflexivity|]. split; simpl; try done; [constructor|..].
    + intros t. rewrite (who_insert_same _ _ _ k); [rewrite <-W; by rewrite Hw|done|]. unfold waits, asleep. simpl. by rewrite Hr.
    + left. split_and!; try done. intros t. rewrite who_insert. unfold token at 1. simpl. case_decide; [done|]. by rewrite Hu.
  - rewrite lookup_insert_ne by (by apply lock_sema_ne). eapply (other_locks s k _ l); eauto; [apply HI|].
    apply run_quiet; unfold token; simpl; rewrite ?Hst; simpl; try done.
    rewrite lock_sema_eqb. symmetry. apply Z.eqb_neq. congruence.
Qed.

(** The lock after its first waiter has been made ready. *)
Lemma locked_wake m l sm c t w k kt :
  lock_ok m l (Lock NULL 0) sm → waiters sm = t :: w → m !! c = Some k → m !! t = Some kt → t ≠ c →
  status k = TASK_RUNNING → kstack k = [FSemaUp (lock_sema l)] → status kt = TASK_BLOCKED →
  (∃ o, kstack kt = [FBlock INTR_OFF; FSemaDown (lock_sema l) o; FLockAcq l]) →
  (∀ u, who m (token l) u ↔ u = c) →
  lock_ok (<[t := set_status TASK_READY kt]> (<[c := set_kstack [] k]> m)) l (Lock NULL 0) (Sema 1 w).
Proof.
  intros [N W C K] Hw Hk Hkt Hne Hr Hst Hs (o & Ho) Hu. rewrite Hw in *. apply NoDup_cons in N as [N1 N2].
  split; simpl.
  - done.
  - intros u. rewrite who_insert. specialize (W u). rewrite elem_of_cons in W.
    case_decide as E1; [subst; unfold waits, asleep; simpl; naive_solver|].
    rewrite who_insert. case_decide as E2; [|naive_solver]. subst.
    unfold waits at 1, asleep. simpl. rewrite Hr. simpl.
    split; [|done]. intros Hin. destruct (proj1 W) as (k' & Hk' & Hx); [by right|].
    rewrite Hk in Hk'. injection Hk' as <-. unfold waits, asleep in Hx. by rewrite Hr in Hx.
  - left. split_and!; try done. intros u. rewrite who_insert. unfold token at 1. simpl. rewrite Ho.
    case_decide; [done|]. rewrite who_insert. unfold token at 1. simpl. case_decide; [done|]. by rewrite Hu.
  - intros _ _. exists t. rewrite who_insert, decide_True by done. unfold pending, asleep. simpl. rewrite Ho.
    by rewrite Z.eqb_refl.
Qed.

Lemma base_wake s k t kt st :
  Inv s → tasks s !! cur s = Some k → status k = TASK_RUNNING → tasks s !! t = Some kt → status kt = TASK_BLOCKED →
  shape (locks s) st → (cur s = idle_thread s → idle_shape st) →
  Base (with_ready (t :: thread_ready_list s)
    (with_tasks (<[t := set_status TASK_READY kt]> (<[cur s := set_kstack st k]> (tasks s))) s)).
Proof.
  intros [HC _ _] Hk Hr Hkt Hs Hsh Hid. assert (Hne : t ≠ cur s) by congruence.
  assert (Hnin : cur s ∉ thread_ready_list s) by (intros (? & ? & ?)%(c_ready _ HC); congruence).
  assert (Hnin' : t ∉ thread_ready_list s) by (intros (? & ? & ?)%(c_ready _ HC); congruence).
  assert (HB : Base (with_tasks (<[cur s := set_kstack st k]> (tasks s)) s)).
  { eapply (base_upd s _ (cur s) k); simpl; eauto using c_base; simpl; try done.
    - intros. by eapply (c_run _ HC).
    - apply (c_nodup _ HC).
    - rewrite Hr. naive_solver.
    - destruct (c_task _ HC _ _ Hk) as [M S H I A J]. split; simpl; rewrite ?Hr; auto; done. }
  eapply (base_upd _ _ t kt); [exact HB|..]; simpl; eauto; simpl.
  - by rewrite lookup_insert_ne.
  - rewrite lookup_insert_eq. eauto.
  - done.
  - intros u ku Hu Hku Hru. by apply (c_run _ HB u ku).
  - constructor; [done|apply (c_nodup _ HC)].
  - set_solver.
  - set_solver.
  - destruct (c_task _ HC _ _ Hkt) as [M S H I A J]. split; simpl; auto; done.
Qed.

Lemma run_semaup_wake s l sm k t w :
  Inv s → tasks s !! cur s = Some k → status k = TASK_RUNNING → kstack k = [FSemaUp (lock_sema l)] →
  locks s !! l = Some (Lock NULL 0) → semas s !! lock_sema l = Some sm → lock_ok (tasks s) l (Lock NULL 0) sm →
  value sm = 0 → (∀ u, who (tasks s) (token l) u ↔ u = cur s) → waiters sm = t :: w → step_ok ARun s.
Proof.
  intros HI Hk Hr Hst Hlk Hsm Hlo Hv Hu Hw. pose proof (i_core _ HI) as HC.
  assert (Hsf : stack_of s (cur s) = kstack k) by (unfold stack_of; by rewrite Hk).
  destruct (proj1 (lo_waits _ _ _ _ Hlo t)) as (kt & Hkt & Hwt); [rewrite Hw; by left|].
  assert (Hs : status kt = TASK_BLOCKED) by (unfold waits, asleep in Hwt; by case_bool_decide).
  assert (Hne : t ≠ cur s) by congruence.
  assert (Ho : ∃ o, kstack kt = [FBlock INTR_OFF; FSemaDown (lock_sema l) o; FLockAcq l]).
  { unfold waits, asleep in Hwt. rewrite Hs in Hwt. simpl in Hwt. pose proof (c_task _ HC _ _ Hkt) as Hok.
    destruct (decide (t = idle_thread s)) as [Hi|Hi].
    - destruct (to_asleep_idle _ _ _ Hok Hi Hs) as [o Ho]. rewrite Ho in Hwt. by destruct o.
    - destruct (to_asleep _ _ _ Hok Hi Hs) as (l' & o & _ & Ho). rewrite Ho in Hwt. simpl in Hwt.
      rewrite lock_sema_eqb in Hwt. apply Z.eqb_eq in Hwt as ->. eauto. }
  assert (Hnin' : t ∉ thread_ready_list s) by (intros (? & ? & ?)%(c_ready _ HC); congruence).
  unfold step_ok. simpl. rewrite Hsf, Hst. simpl. unfold sema_up. krun. rewrite Hk. simpl. rewrite Hsm. simpl.
  rewrite Hv, Hw. rewrite ASSERT_true by done. simpl.
  match goal with |- context [thread_unblock t ?x] => destruct (thread_unblock_run x t kt) as (f & -> & Hf) end;
    [simpl; by rewrite lookup_insert_ne|done|done|].
  simpl. rewrite lookup_insert_eq. simpl. rewrite ASSERT_true by done. simpl. rewrite insert_insert_eq.
  eexists. split; [reflexivity|]. split; [|done].
  split; [split| |].
  - pose proof (base_wake s k t kt [] HI Hk Hr Hkt Hs ltac:(constructor) ltac:(constructor)) as HB.
    rewrite Hst. destruct HB as [? ? ? ? ? ? T]. split; auto.
    simpl. intros u ku Hku. eapply task_ok_mono; [| |by apply T]; done.
  - simpl. rewrite Hst. simpl. intros l' lk' Hl'. destruct (decide (l' = l)) as [->|Hnl].
    + rewrite lookup_insert_eq. eexists. split; [reflexivity|]. assert (lk' = Lock NULL 0) as -> by congruence.
      by eapply locked_wake.
    + rewrite lookup_insert_ne by (by apply lock_sema_ne).
      destruct (c_lock _ HC _ _ Hl') as (sm' & Hsm' & Hlo'). exists sm'. split; [done|].
      eapply lock_ok_quiet; [by rewrite lookup_insert_ne| |eapply lock_ok_quiet; [exact Hk| |done]].
      * destruct Ho as [o Ho]. unfold quiet, waits, pending, token, asleep. simpl. rewrite Ho, Hs. simpl.
        rewrite lock_sema_eqb, (proj2 (Z.eqb_neq l l')) by congruence. done.
      * apply run_quiet; unfold token; simpl; rewrite ?Hst; simpl; try done.
        rewrite lock_sema_eqb. symmetry. apply Z.eqb_neq. congruence.
  - simpl. rewrite lookup_insert_ne, lookup_insert_eq by done. eauto.
  - unfold stack_of. simpl. rewrite lookup_insert_ne, lookup_insert_eq by done. simpl. by rewrite Hst.
Qed.

Lemma run_semaup s p st : Inv s → stack_of s (cur s) = FSemaUp p :: st → step_ok ARun s.
Proof.
  intros HI Hs. destruct (running_cur s HI) as (k & Hk & Hr & Hst & Hok). rewrite Hs in Hst.
  pose proof (to_shape _ _ _ Hok) as Hsh. rewrite <-Hst in Hsh.
  apply shape_cons_inv in Hsh as (l & [lk Hlk] & -> & ->).
  destruct (c_lock _ (i_core _ HI) _ _ Hlk) as (sm & Hsm & Hlo).
  destruct (token_case s l lk sm _ _ Hk) as (Hv & -> & Hu); [|done|].
  { unfold token. rewrite <-Hst. apply Z.eqb_refl. }
  destruct (waiters sm) as [|t w] eqn:Hw; [eapply run_semaup_free|eapply run_semaup_wake]; eauto.
Qed.

(** The holder of a lock, seen from the lock's three states. *)
Lemma holder_case s l lk :
  Inv s → locks s !! l = Some lk → holder lk = cur s →
  ∃ sm, semas s !! lock_sema l = Some sm ∧ lock_ok (tasks s) l lk sm ∧ value sm = 0 ∧
    1 ≤ holder_repeat_nr lk < 4294967296 ∧ ∀ t, ¬ who (tasks s) (token l) t.
Proof.
  intros HI Hlk Hh. pose proof (cur_not_null s HI).
  destruct (c_lock _ (i_core _ HI) _ _ Hlk) as (sm & Hsm & Hlo). exists sm. split; [done|]. split; [done|].
  destruct (lo_case _ _ _ _ Hlo) as [(?&->&?)|[(?&?&?&?)|(?&->&?)]]; naive_solver lia.
Qed.

(** The holder changes only its repeat count. *)
Lemma inv_repeat s l lk n :
  Inv s → stack_of s (cur s) = [] → locks s !! l = Some lk → holder lk = cur s → 1 ≤ n < 4294967296 →
  Inv (with_locks (<[l := Lock (holder lk) n]> (locks s)) s).
Proof.
  intros HI Hs Hlk Hh Hn. destruct (running_cur s HI) as (k & Hk & Hr & Hst & Hok). rewrite Hs in Hst.
  destruct (holder_case s l lk HI Hlk Hh) as (sm & Hsm & [N W C K] & Hv & _ & Hno).
  pose proof (cur_not_null s HI).
  eapply (inv_cur s _ k k); simpl; eauto; simpl; rewrite <-?Hst; try done; try constructor.
  - by rewrite insert_id.
  - intros l'. apply locks_dom.
  - intros l' lk' [[<- <-]|[Hne Hl']]%lookup_insert_Some; [|by apply (c_lock _ (i_core _ HI))].
    exists sm. split; [done|]. split; try done. right; left. simpl. naive_solver lia.
Qed.

(** Entering [sema_down] below [lock_acquire]. *)
Lemma inv_enter s l k lk :
  Inv s → tasks s !! cur s = Some k → status k = TASK_RUNNING → kstack k = [] → cur s ≠ idle_thread s →
  locks s !! l = Some lk → ∀ o,
  Inv (with_tasks (<[cur s := set_kstack [FSemaDown (lock_sema l) o; FLockAcq l] (set_kstack [FLockAcq l] k)]> (tasks s))
        (with_flags (intr_disable (kflags s)).2 s)).
Proof.
  intros HI Hk Hr Hst Hni Hlk o. eapply (inv_cur s _ k); simpl; eauto; simpl; try done.
  - constructor. eauto.
  - intros _. apply intr_disable_off.
  - intros l' lk' Hl'. destruct (c_lock _ (i_core _ HI) _ _ Hl') as (sm & Hsm & [N W C K]).
    exists sm. split; [done|]. split; [done|..].
    + intros t. rewrite (who_insert_same _ _ _ k); [apply W|done|]. unfold waits, asleep. simpl. by rewrite Hr.
    + eapply lock_case_ext; [|exact C]. intros t. apply (who_insert_same _ _ _ k); [done|].
      unfold token. simpl. by rewrite Hst.
    + intros H1 H2. destruct (K H1 H2) as (t & Ht). exists t. rewrite who_insert. case_decide; [|done]. subst.
      destruct Ht as (k2 & Hk2 & Hp). assert (k2 = k) as -> by congruence.
      unfold pending in Hp. rewrite Hst, andb_false_r in Hp. done.
Qed.

Lemma step_acquire s h l : Inv s → held_ok s h → enabled (AAcquire l) s h → step_ok (AAcquire l) s.
Proof.
  intros HI Hho (Hs & Hni & [lk Hlk] & Hmax).
  destruct (running_cur s HI) as (k & Hk & Hr & Hst & Hok). rewrite Hs in Hst.
  pose proof (cur_not_null s HI) as Hn.
  unfold step_ok. simpl. unfold lock_acquire, sema_down. krun. rewrite Hlk. simpl.
  destruct (Z.eqb_spec (holder lk) (cur s)) as [Hh|Hh].
  - rewrite (Hho l lk Hlk (cur s)), decide_True in Hmax by done.
    destruct (holder_case s l lk HI Hlk Hh) as (sm & _ & _ & _ & Hrep & _). rewrite u32_small by lia.
    eexists. split; [reflexivity|]. split; [apply inv_repeat; by try lia|].
    intros h0. eapply held_bump; eauto. intros t. unfold count. simpl. repeat case_decide; naive_solver lia.
  - rewrite Hk. simpl. rewrite lookup_insert_eq. simpl. rewrite insert_insert_eq, <-Hst.
    eexists. split; [reflexivity|]. split; [|done]. by eapply (inv_enter s l k).
Qed.

(** [lock_release] gives up the lock but not yet its semaphore. *)
Lemma inv_give s l k lk :
  Inv s → tasks s !! cur s = Some k → status k = TASK_RUNNING → kstack k = [] → cur s ≠ idle_thread s →
  locks s !! l = Some lk → holder lk = cur s →
  Inv (with_tasks (<[cur s := set_kstack [FSemaUp (lock_sema l)] k]> (tasks s))
        (with_locks (<[l := Lock NULL 0]> (locks s)) s)).
Proof.
  intros HI Hk Hr Hst Hni Hlk Hh.
  destruct (holder_case s l lk HI Hlk Hh) as (sm & Hsm & [N W C K] & Hv & _ & Hno).
  eapply (inv_cur s _ k); simpl; eauto using locks_dom; simpl; try done.
  - constructor. eauto using locks_dom.
  - intros l' lk' [[<- <-]|[Hne Hl']]%lookup_insert_Some.
    + exists sm. split; [done|]. split; try done; simpl; [| |lia].
      * intros t. rewrite (who_insert_same _ _ _ k); [apply W|done|]. unfold waits, asleep. simpl. by rewrite Hr.
      * right; right. split_and!; try done. exists (cur s). intros t. rewrite who_insert. unfold token at 1. simpl.
        case_decide; [|naive_solver]. subst. by rewrite Z.eqb_refl.
    + eapply (other_locks s k _ l); eauto; [apply HI|]. apply run_quiet; unfold token; simpl; rewrite ?Hst; try done.
      rewrite lock_sema_eqb. apply Z.eqb_neq. congruence.
Qed.

Lemma step_release s h l : Inv s → held_ok s h → enabled (ARelease l) s h → step_ok (ARelease l) s.
Proof.
  intros HI Hho (Hs & Hni & [lk Hlk] & Hpos). rewrite (Hho l lk Hlk (cur s)) in Hpos.
  assert (Hh : holder lk = cur s) by (case_decide; [naive_solver|lia]).
  destruct (running_cur s HI) as (k & Hk & Hr & Hst & Hok). rewrite Hs in Hst.
  pose proof (cur_not_null s HI) as Hn.
  destruct (holder_case s l lk HI Hlk Hh) as (sm & _ & _ & _ & Hrep & _).
  unfold step_ok. simpl. unfold lock_release. krun. rewrite Hlk. simpl.
  rewrite ASSERT_true by (by apply Z.eqb_eq). simpl. destruct (Z.ltb_spec 1 (holder_repeat_nr lk)) as [Hgt|Hle].
  - rewrite u32_small by lia. eexists. split; [reflexivity|]. split; [apply inv_repeat; by try lia|].
    intros h0. eapply held_bump; eauto. intros t. unfold count. simpl. repeat case_decide; naive_solver lia.
  - assert (holder_repeat_nr lk = 1) as Hone by lia. rewrite ASSERT_true by (by rewrite Hone). simpl. rewrite Hk. simpl.
    rewrite <-Hst. eexists. split; [reflexivity|]. split; [by eapply inv_give|].
    intros h0. eapply held_bump; eauto. intros t. unfold count. simpl. repeat case_decide; naive_solver lia.
Qed.

(** [schedule] ends a step. *)
Lemma schedule_step s s1 :
  Core s1 → intr_get_status (kflags s1) = INTR_OFF → locks s1 = locks s →
  ∃ s', schedule addr_v2p s1 = Ok (tt, s') ∧ Inv s' ∧ ∀ h, held_ok s h → held_ok s' h.
Proof.
  intros HC Hf Hl. destruct (schedule_spec addr_v2p s1 HC Hf) as (s' & E & HI & W).
  exists s'. split; [done|]. split; [done|]. intros h Hh. eapply held_same; [|exact Hh].
  by rewrite (sw_locks _ _ W).
Qed.

Lemma leave_quiet l k st f : status k = TASK_RUNNING → kstack k = [] →
  match f with FYield _ | FBlock _ => True | _ => False end →
  quiet l k (set_kstack [f] (set_status st k)).
Proof.
  intros Hr Hst Hf. unfold quiet, waits, pending, token, asleep. simpl. rewrite Hr, Hst. simpl.
  destruct f as [|[]|[]| | | |]; try done; rewrite ?andb_false_r; done.
Qed.

Lemma step_yield s h : Inv s → enabled AYield s h → step_ok AYield s.
Proof.
  intros HI [Hs Hni]. destruct (running_cur s HI) as (k & Hk & Hr & Hst & Hok). rewrite Hs in Hst.
  assert (Hnin : cur s ∉ thread_ready_list s) by (intros (? & ? & ?)%(c_ready _ (i_core _ HI)); congruence).
  unfold step_ok. simpl. unfold thread_yield. krun. unfold elem_in. rewrite bool_decide_false by done.
  rewrite ASSERT_true by done. simpl. rewrite Hk. simpl. rewrite lookup_insert_eq. simpl. rewrite insert_insert_eq, <-Hst.
  eapply (schedule_step s); [|apply intr_disable_off|done].
  eapply (core_leave s _ k); simpl; eauto; simpl; try done.
  - constructor.
  - eapply (locks_awake s); eauto; [apply HI|]. intros l. by apply leave_quiet.
Qed.

Lemma step_idle s h : Inv s → enabled AIdle s h → step_ok AIdle s.
Proof.
  intros HI [Hs Hi]. destruct (running_cur s HI) as (k & Hk & Hr & Hst & Hok). rewrite Hs in Hst.
  unfold step_ok. simpl. unfold thread_block. krun. rewrite ASSERT_true by done. simpl.
  rewrite Hk. simpl. rewrite lookup_insert_eq. simpl. rewrite insert_insert_eq, <-Hst.
  eapply (schedule_step s); [|apply intr_disable_off|done].
  eapply (core_leave s _ k); simpl; eauto; simpl; try done; try constructor; try done.
  eapply (locks_awake s); eauto; [apply HI|]. intros l. by apply leave_quiet.
Qed.

Lemma step_halt s h : Inv s → enabled AHalt s h → step_ok AHalt s.
Proof.
  intros HI [Hs Hi]. destruct (running_cur s HI) as (k & Hk & Hr & Hst & Hok). rewrite Hs in Hst.
  eexists. split; [reflexivity|]. split; [|done].
  eapply (inv_cur s _ k k); simpl; eauto; rewrite <-?Hst; try done; try constructor.
  - by rewrite insert_id.
  - apply HI.
Qed.

Lemma step_tick s h : Inv s → enabled ATick s h → step_ok ATick s.
Proof.
  intros HI Hon. destruct (running_cur s HI) as (k & Hk & Hr & Hst & Hok).
  assert (Hno : needs_off (kstack k) = false).
  { destruct (needs_off (kstack k)) eqn:E; [|done]. rewrite <-Hst in E. apply (i_flag _ HI) in E.
    simpl in Hon. congruence. }
  pose proof (to_magic _ _ _ Hok) as Hm.
  assert (Hq : ∀ l k', status k' = TASK_RUNNING → kstack k' = FIntr (kflags s) :: kstack k → quiet l k k').
  { intros l k' Hr' Hs'. apply run_quiet; try done; unfold token; rewrite Hs'; destruct (kstack k) as [|[] []]; done. }
  assert (Hsh : shape (locks s) (FIntr (kflags s) :: kstack k)).
  { revert Hno. destruct (to_shape _ _ _ Hok); try done; by constructor. }
  assert (Hid : cur s = idle_thread s → idle_shape (FIntr (kflags s) :: kstack k)).
  { intros Hi. revert Hno. destruct (to_idle _ _ _ Hok Hi); try done; constructor. }
  unfold step_ok. simpl. unfold timer_interrupt, intr_timer_handler. krun. rewrite Hk. simpl. rewrite lookup_insert_eq. simpl.
  rewrite ASSERT_true by (by rewrite Hm). simpl. rewrite lookup_insert_eq. simpl. rewrite insert_insert_eq.
  set (k' := set_elapsed _ _). set (s1 := with_total _ _).
  assert (HI1 : ∀ k2, stack_magic k2 = stack_magic k → status k2 = TASK_RUNNING →
      kstack k2 = FIntr (kflags s) :: kstack k → Inv (with_tasks (<[cur s := k2]> (tasks s)) s1)).
  { intros k2 H2 H3 H4. eapply (inv_cur s _ k k2); simpl; eauto; simpl; rewrite ?H4; try done.
    - intros _. apply cli_off.
    - eapply (locks_awake s); eauto. apply HI. }
  destruct (Z.eqb_spec (ticks k) 0) as [Ht|Ht].
  - eapply (schedule_step s); [|apply cli_off|done].
    exact (i_core _ (HI1 k' eq_refl Hr eq_refl)).
  - unfold s1 at 1. simpl. rewrite lookup_insert_eq. simpl. rewrite insert_insert_eq. eexists. split; [reflexivity|].
    split; [|done]. by apply HI1.
Qed.

(** Every enabled step of a state that satisfies the invariant succeeds and keeps it. *)
Lemma step_inv a s h : Inv s → held_ok s h → enabled a s h → step_ok a s.
Proof.
  intros HI Hho. destruct a.
  - intros Hs. simpl in Hs. destruct (stack_of s (cur s)) as [|f st] eqn:E; [done|].
    destruct f; first [by eapply run_restore|by eapply run_semadown|by eapply run_semaup|by eapply run_lockacq].
  - by apply (step_acquire _ h).
  - by apply (step_release _ h).
  - by apply (step_yield _ h).
  - by apply (step_idle _ h).
  - by apply (step_halt _ h).
  - by apply (step_tick _ h).
Qed.

Lemma reach_inv s h s' h' :
  Inv s → held_ok s h → reach addr_v2p s h s' h' → Inv s' ∧ held_ok s' h'.
Proof.
  intros HI Hh. induction 1 as [|s h s1 h1 a s2 R IH E X]; [done|].
  destruct IH as [HI1 Hh1]; [done..|]. destruct (step_inv a s1 h1 HI1 Hh1 E) as (s3 & E3 & HI3 & Hh3).
  rewrite X in E3. injection E3 as <-. auto.
Qed.

End step_lemmas.

(** ** Boot state *)

(** The state [thread_init] leaves: the main thread runs, every other thread is
    ready and has not been entered, every lock is as [lock_init] made it. *)
Record boot (s : kst) : Prop := {
  b_null : tasks s !! NULL = None;
  b_idle : is_Some (tasks s !! idle_thread s);
  b_not_idle : cur s ≠ idle_thread s;
  b_cur : ∃ k, tasks s !! cur s = Some k ∧ status k = TASK_RUNNING ∧ kstack k = [];
  b_other : ∀ t k, tasks s !! t = Some k → t ≠ cur s → status k = TASK_READY ∧ kstack k = [FStart];
  b_magic : ∀ t k, tasks s !! t = Some k → stack_magic k = 428280086;
  b_ready : NoDup (thread_ready_list s) ∧
    ∀ t, t ∈ thread_ready_list s ↔ is_Some (tasks s !! t) ∧ t ≠ cur s;
  b_locks : ∀ l lk, locks s !! l = Some lk → lk = Lock NULL 0 ∧ semas s !! lock_sema l = Some (Sema 1 [])
}.

Definition no_holds : held := λ _ _, 0.

Lemma boot_task s t k : boot s → tasks s !! t = Some k →
  task_ok s t k ∧ (status k = TASK_RUNNING → t = cur s) ∧ (status k = TASK_READY ↔ t ≠ cur s) ∧
  ∀ p q l, waits p k = false ∧ pending q k = false ∧ token l k = false.
Proof.
  intros Hb Hk. destruct (b_cur _ Hb) as (kc & Hkc & Hrc & Hsc).
  destruct (decide (t = cur s)) as [->|Ht].
  - rewrite Hkc in Hk. injection Hk as <-. split_and!; try done.
    + split; rewrite ?Hrc, ?Hsc; try done; auto; try constructor. by eapply (b_magic _ Hb).
    + by rewrite Hrc.
    + intros. unfold waits, pending, token. rewrite Hsc. by rewrite !andb_false_r.
  - destruct (b_other _ Hb _ _ Hk Ht) as [Hr Hs]. split_and!; try done.
    + split; rewrite ?Hr, ?Hs; try done; auto; try constructor. by eapply (b_magic _ Hb).
    + by rewrite Hr.
    + intros. unfold waits, pending, token. rewrite Hs. by rewrite !andb_false_r.
Qed.

Lemma boot_inv s : boot s → Inv s ∧ held_ok s no_holds.
Proof.
  intros Hb. destruct (b_cur _ Hb) as (kc & Hkc & Hrc & Hsc).
  assert (Hno : ∀ q, (∀ t k, tasks s !! t = Some k → q k = false) → ∀ t, ¬ who (tasks s) q t).
  { intros q Hq t (k & Hk & Ht). rewrite (Hq _ _ Hk) in Ht. done. }
  split; [split; [split; [split|]| |]|].
  - apply Hb.
  - eauto.
  - apply Hb.
  - intros t k Hk. by apply (boot_task s t k).
  - apply (b_ready _ Hb).
  - intros t. rewrite (proj2 (b_ready _ Hb)). split.
    + intros [[k Hk] Ht]. exists k. split; [done|]. by apply (boot_task s t k).
    + intros (k & Hk & Hr). split; [eauto|]. by apply (boot_task s t k).
  - intros t k Hk. by apply (boot_task s t k).
  - intros l lk Hlk. destruct (b_locks _ Hb _ _ Hlk) as [-> Hsm]. eexists. split; [done|]. split; simpl; try done.
    + constructor.
    + intros t. split; [by intros ?%not_elem_of_nil|].
      intros Hw. exfalso. eapply Hno; [|exact Hw]. intros u k Hk. by apply (boot_task s u k Hb Hk).
    + left. split_and!; try done. apply Hno. intros u k Hk. by apply (boot_task s u k Hb Hk).
  - eauto.
  - unfold stack_of. rewrite Hkc. simpl. by rewrite Hsc.
  - intros l lk Hlk t. destruct (b_locks _ Hb _ _ Hlk) as [-> _]. simpl. by case_decide.
Qed.

Lemma boot_reach {B : Build} addr_v2p s s' h' :
  boot s → reach addr_v2p s no_holds s' h' → Inv s' ∧ held_ok s' h'.
Proof. intros [HI Hh]%boot_inv. by apply reach_inv. Qed.

Fixpoint exec_list {B : Build} (addr_v2p : Z → Z) (acts : list act) : M kst unit :=
  match acts with
  | [] => mok tt
  | a :: acts' => do! exec addr_v2p a in exec_list addr_v2p acts'
  end.

Lemma acquire_uninterrupted {B : Build} addr_v2p s l sm k :
  tasks s !! cur s = Some k → [] = kstack k → cur s ≠ NULL →
  locks s !! l = Some (Lock NULL 0) → semas s !! lock_sema l = Some sm → value sm = 1 →
  ∃ s', exec_list addr_v2p [AAcquire l; ARun; ARun] s = Ok (tt, s') ∧
    locks s' !! l = Some (Lock (cur s) 1) ∧ cur s' = cur s ∧ stack_of s' (cur s) = [].
Proof.
  intros Hk Hst Hn Hlk Hsm Hv. unfold exec_list, exec, lock_acquire, sema_down. krun.
  rewrite Hlk. simpl. rewrite (proj2 (Z.eqb_neq _ _)) by congruence. simpl.
  rewrite Hk. simpl. rewrite lookup_insert_eq. simpl. rewrite insert_insert_eq, <-Hst.
  unfold stack_of at 1. simpl. rewrite lookup_insert_eq. simpl. unfold sema_down_loop. krun.
  rewrite Hsm. simpl. rewrite Hv. simpl. rewrite lookup_insert_eq. simpl. rewrite ASSERT_true by done. simpl.
  rewrite insert_insert_eq. unfold stack_of. simpl. rewrite lookup_insert_eq. simpl. unfold lock_acquire_rest. krun.
  rewrite lookup_insert_eq. simpl. rewrite Hlk. simpl. rewrite ASSERT_true by done. simpl.
  eexists. split; [reflexivity|]. simpl. by rewrite !lookup_insert_eq.
Qed.

(** [thread_unblock] and [sema_up] stay on the calling thread. *)
Lemma thread_unblock_frame {B : Build} t s u s' :
  thread_unblock t s = Ok (u, s') →
  cur s' = cur s ∧ locks s' = locks s ∧ ∀ t', stack_of s' t' = stack_of s t'.
Proof.
  unfold thread_unblock, kintr_disable, kintr_set_status, get_task, kassert, upd_task.
  intros H. kinv. destruct (tasks s !! t) as [k|] eqn:Hk; kinv. case_decide; kinv; [done|].
  case_match; kinv. simpl in *. rewrite Hk in *. kinv. split_and!; try done.
  intros t'. by eapply stack_of_insert.
Qed.

Lemma sema_up_frame {B : Build} p s u s' :
  sema_up p s = Ok (u, s') →
  cur s' = cur s ∧ locks s' = locks s ∧ ∀ t', stack_of s' t' = stack_of s t'.
Proof.
  unfold sema_up, kintr_disable, kintr_set_status, get_sema, put_sema, kassert.
  intros H. kinv. destruct (semas s !! p) eqn:Hsm; kinv.
  match goal with H : context [waiters ?x] |- _ => destruct (waiters x); kinv end.
  - case_match; kinv. done.
  - match goal with H : thread_unblock _ _ = _ |- _ => apply thread_unblock_frame in H as (E1 & E2 & E3) end.
    case_match; kinv. split_and!; done.
Qed.

Lemma release_uninterrupted {B : Build} addr_v2p s l lk k :
  Inv s → tasks s !! cur s = Some k → status k = TASK_RUNNING → [] = kstack k → cur s ≠ NULL →
  locks s !! l = Some lk → holder lk = cur s → holder_repeat_nr lk = 1 → cur s ≠ idle_thread s →
  ∃ s', exec_list addr_v2p [ARelease l; ARun] s = Ok (tt, s') ∧
    locks s' !! l = Some (Lock NULL 0) ∧ cur s' = cur s ∧ stack_of s' (cur s) = [].
Proof.
  intros HI Hk Hr Hst Hn Hlk Hh Hone Hni.
  set (s1 := with_tasks (<[cur s := set_kstack [FSemaUp (lock_sema l)] k]> (tasks s))
        (with_locks (<[l := Lock NULL 0]> (locks s)) s)).
  assert (E1 : exec addr_v2p (ARelease l) s = Ok (tt, s1)).
  { simpl. unfold lock_release. krun. rewrite Hlk. simpl. rewrite ASSERT_true by (by apply Z.eqb_eq). simpl.
    rewrite Hone. simpl. rewrite ASSERT_true by done. simpl. rewrite Hk. simpl. by rewrite <-Hst. }
  assert (HI1 : Inv s1) by (by eapply inv_give).
  assert (Hs1 : stack_of s1 (cur s1) = [FSemaUp (lock_sema l)]) by (unfold stack_of; simpl; by rewrite lookup_insert_eq).
  destruct (step_inv addr_v2p ARun s1 _ HI1 (holds_of_ok s1)) as (s2 & E2 & _); [unfold enabled; by rewrite Hs1|].
  exists s2. unfold exec_list. rewrite (mbnd_Ok _ _ _ _ _ E1), (mbnd_Ok _ _ _ _ _ E2). split; [done|].
  unfold exec in E2. rewrite Hs1 in E2. unfold run_frame, pop_frame, running_thread in E2. kinv.
  match goal with H : upd_task _ _ _ = _ |- _ => unfold upd_task in H; simpl in H; rewrite lookup_insert_eq in H end. kinv.
  match goal with H : sema_up _ _ = _ |- _ => apply sema_up_frame in H as (-> & -> & Hst2) end.
  simpl. rewrite lookup_insert_eq, Hst2. unfold stack_of. simpl. by rewrite lookup_insert_eq.
Qed.

(** [lock_release] by a thread that does not hold the lock. *)
Lemma release_stranger {B : Build} addr_v2p s h l lk : Inv s → held_ok s h → ndebug = false → locks s !! l = Some lk → h (cur s) l = 0 →
  exec addr_v2p (ARelease l) s = Panic.
Proof.
  intros HI Hh Hd Hlk H0. pose proof (cur_not_null s HI) as Hn. rewrite (Hh l lk Hlk (cur s)) in H0.
  assert (Hne : holder lk ≠ cur s).
  { intros E. rewrite decide_True in H0 by done. destruct (holder_case addr_v2p s l lk HI Hlk E) as (sm & _ & _ & _ & Hrep & _). lia. }
  simpl. unfold lock_release. krun. rewrite Hlk. simpl. rewrite (proj2 (Z.eqb_neq _ _)) by done. unfold ASSERT. by rewrite Hd.
Qed.

(** ** Theorems *)

(** C1: No assertion fails for callers that balance their calls.  In every
    interleaving of timer interrupts with threads that acquire, release and
    yield, whatever the time slices, where a thread releases a lock no more often
    than it has acquired it and nests fewer than 2^32 - 1 acquisitions of one
    lock, no [ASSERT] or [PANIC] of [schedule], [thread_block],
    [thread_unblock], [sema_down], [sema_up], [lock_acquire], [lock_release] or
    the timer handler fires.  The assertion on the holder in [lock_release]
    catches the others: in a build with assertions a thread that has released a
    lock as often as it acquired it panics when it releases it again. *)
Theorem locks_never_panic {B : Build} (addr_v2p : Z → Z) (s s' : kst) (h' : held) :
  boot s → reach addr_v2p s no_holds s' h' →
  (∀ a, enabled a s' h' → ∃ s'', exec addr_v2p a s' = Ok (tt, s'')) ∧
  (ndebug = false → ∀ l, is_Some (locks s' !! l) → h' (cur s') l = 0 → exec addr_v2p (ARelease l) s' = Panic).
Proof.
  intros Hb R. destruct (boot_reach addr_v2p s s' h' Hb R) as [HI Hh]. split.
  - intros a Ha. destruct (step_inv addr_v2p a s' h' HI Hh Ha) as (s'' & E & _). eauto.
  - intros Hd l [lk Hlk] H0. by apply (release_stranger addr_v2p s' h' l lk).
Qed.

(** C2: Mutual exclusion. A thread that has come back from [lock_acquire(l)]
    more often than it has called [lock_release(l)] is the recorded holder of
    the lock, its count is [holder_repeat_nr], and no other thread is in that
    position, in every state reachable under preemption. *)
Theorem lock_mutual_exclusion {B : Build} (addr_v2p : Z → Z) (s s' : kst) (h' : held) (l : Z) (lk : lock) (t1 t2 : Z) :
  boot s → reach addr_v2p s no_holds s' h' → locks s' !! l = Some lk →
  h' t1 l ≠ 0 →
  holder lk = t1 ∧ h' t1 l = holder_repeat_nr lk ∧ (h' t2 l ≠ 0 → t2 = t1).
Proof.
  intros Hb R Hlk. destruct (boot_reach addr_v2p s s' h' Hb R) as [_ Hh].
  rewrite !(Hh _ _ Hlk). repeat case_decide; naive_solver.
Qed.

(** C6: No wakeup is lost. A thread other than idle that is [TASK_BLOCKED] sleeps
    on the semaphore of some lock, is queued in its [waiters], and somebody who
    is not asleep there still has to act on it: the lock has a holder, or a
    thread is between [sema_down] and becoming the holder or between giving up
    the lock and [sema_up], or a woken thread is about to retest the semaphore. *)
Theorem lock_no_lost_wakeup {B : Build} (addr_v2p : Z → Z) (s s' : kst) (h' : held) (t : Z) (k : task) :
  boot s → reach addr_v2p s no_holds s' h' → tasks s' !! t = Some k → t ≠ idle_thread s' →
  status k = TASK_BLOCKED →
  ∃ l lk sm, locks s' !! l = Some lk ∧ semas s' !! lock_sema l = Some sm ∧ t ∈ waiters sm ∧
    (holder lk ≠ NULL ∧ h' (holder lk) l ≠ 0 ∨
     (∃ t', who (tasks s') (token l) t') ∨ ∃ t', who (tasks s') (pending (lock_sema l)) t').
Proof.
  intros Hb R Hk Ht Hs. destruct (boot_reach addr_v2p s s' h' Hb R) as [HI Hh].
  destruct (to_asleep _ _ _ (c_task _ (i_core _ HI) _ _ Hk) Ht Hs) as (l & o & [lk Hlk] & Hst).
  destruct (c_lock _ (i_core _ HI) _ _ Hlk) as (sm & Hsm & Hlo). exists l, lk, sm. split_and!; try done.
  - apply (lo_waits _ _ _ _ Hlo). exists k. unfold waits, asleep. rewrite Hs, Hst. simpl. by rewrite Z.eqb_refl.
  - destruct (lo_case _ _ _ _ Hlo) as [(Hv & _)|[(_ & Hn & Hr & _)|(_ & _ & u & Hu)]].
    + right; right. apply (lo_wake _ _ _ _ Hlo Hv). intros Hw.
      assert (t ∈ waiters sm) as Hin; [|rewrite Hw in Hin; by apply not_elem_of_nil in Hin].
      apply (lo_waits _ _ _ _ Hlo). exists k. unfold waits, asleep. rewrite Hs, Hst. simpl. by rewrite Z.eqb_refl.
    + left. split; [done|]. rewrite (Hh _ _ Hlk), decide_True by done. lia.
    + right; left. exists u. by apply Hu.
Qed.

(** C7: The ready queue is consistent. In every reachable state the queue holds
    exactly the [TASK_READY] threads, each once, exactly the thread on the
    processor is [TASK_RUNNING], and a thread suspended in the middle of the
    scheduler is only resumed with interrupts off. *)
Theorem ready_queue_consistent {B : Build} (addr_v2p : Z → Z) (s s' : kst) (h' : held) :
  boot s → reach addr_v2p s no_holds s' h' →
  NoDup (thread_ready_list s') ∧
  (∀ t, t ∈ thread_ready_list s' ↔ ∃ k, tasks s' !! t = Some k ∧ status k = TASK_READY) ∧
  (∀ t, t = cur s' ↔ ∃ k, tasks s' !! t = Some k ∧ status k = TASK_RUNNING) ∧
  (needs_off (stack_of s' (cur s')) = true → intr_get_status (kflags s') = INTR_OFF).
Proof.
  intros Hb R. destruct (boot_reach addr_v2p s s' h' Hb R) as [HI _]. pose proof (i_core _ HI) as HC.
  split_and!; [apply (c_nodup _ HC)|apply (c_ready _ HC)| |apply HI].
  intros t. split; [intros ->; apply HI|]. intros (k & Hk & Hr). by eapply (c_run _ HC).
Qed.

(** Without an interruption, [lock_acquire] on a free lock or on one the
    caller already holds runs to completion and leaves the lock as [lock_enter]
    says, and [lock_release] by the holder as [lock_leave] says, with the
    caller still on the processor and its kernel stack empty again. *)
Theorem lock_uninterrupted {B : Build} (addr_v2p : Z → Z) (s : kst) (l : Z) (lk : lock) (sm : semaphore) :
  Inv s → stack_of s (cur s) = [] → cur s ≠ idle_thread s →
  locks s !! l = Some lk → semas s !! lock_sema l = Some sm →
  let after acts lk' := ∃ s', exec_list addr_v2p acts s = Ok (tt, s') ∧ locks s' !! l = Some lk' ∧
    cur s' = cur s ∧ stack_of s' (cur s) = [] in
  (holder lk = cur s → holder_repeat_nr lk < 4294967295 →
     ∃ lk', lock_enter (cur s) lk = Ok lk' ∧ after [AAcquire l] lk') ∧
  (value sm = 1 →
     ∃ lk', lock_enter (cur s) lk = Ok lk' ∧ after [AAcquire l; ARun; ARun] lk') ∧
  (holder lk = cur s →
     ∃ lk', lock_leave (cur s) lk = Ok lk' ∧
       after (if 1 <? holder_repeat_nr lk then [ARelease l] else [ARelease l; ARun]) lk').
Proof.
  intros HI Hs Hni Hlk Hsm after. pose proof (cur_not_null s HI) as Hn.
  destruct (running_cur s HI) as (k & Hk & Hr & Hst & Hok). rewrite Hs in Hst.
  split_and!.
  - intros Hh Hmax. unfold lock_enter. rewrite Hh, Z.eqb_refl. eexists. split; [done|].
    unfold after, exec_list, exec, lock_acquire. krun. rewrite Hlk. simpl. rewrite Hh, Z.eqb_refl.
    eexists. split; [reflexivity|]. simpl. rewrite lookup_insert_eq. unfold stack_of. simpl. by rewrite Hk.
  - intros Hv. destruct (c_lock _ (i_core _ HI) _ _ Hlk) as (sm' & Hsm' & Hlo).
    assert (sm' = sm) as -> by congruence.
    destruct (lo_case _ _ _ _ Hlo) as [(_ & -> & _)|[(? & _)|(? & _)]]; [|congruence..].
    exists (Lock (cur s) 1). split.
    { unfold lock_enter. simpl. by rewrite (proj2 (Z.eqb_neq _ _)) by congruence. }
    by apply (acquire_uninterrupted addr_v2p s l sm k).
  - intros Hh. destruct (holder_case addr_v2p s l lk HI Hlk Hh) as (sm' & Hsm' & Hlo & Hv & Hrep & _).
    assert (sm' = sm) as -> by congruence.
    unfold lock_leave. rewrite Hh, Z.eqb_refl, ASSERT_true by done. simpl.
    destruct (Z.ltb_spec 1 (holder_repeat_nr lk)) as [Hgt|Hle].
    + eexists. split; [done|]. unfold after, exec_list, exec, lock_release. krun. rewrite Hlk. simpl.
      rewrite Hh, Z.eqb_refl, ASSERT_true by done. simpl. rewrite (proj2 (Z.ltb_lt _ _)) by lia.
      eexists. split; [reflexivity|]. simpl. rewrite lookup_insert_eq. unfold stack_of. simpl. by rewrite Hk.
    + assert (holder_repeat_nr lk = 1) as Hone by lia. rewrite Hone, ASSERT_true by done. simpl.
      eexists. split; [done|]. by apply (release_uninterrupted addr_v2p s l lk k).
Qed.

(** ** A concrete run

    Threads 4096 (main), 8192 and 12288 (idle) and a lock at 100: main takes
    the lock, its slice ends, 8192 starts and falls asleep on the lock. *)

Definition demo_task (p : Z) (st : task_status) (fs : list frame) : task := Task p st 1 0 0 0 428280086 fs.

Definition demo : kst :=
  Kst 512 4096
    (<[4096 := demo_task 1 TASK_RUNNING []]>
      (<[8192 := demo_task 2 TASK_READY [FStart]]> (<[12288 := demo_task 3 TASK_READY [FStart]]> ∅)))
    [8192; 12288] 12288 {[ 104 := Sema 1 [] ]} {[ 100 := Lock NULL 0 ]} 0 0 0.

Definition demo_acts : list act :=
  [AAcquire 100; ARun; ARun; ATick; ARun; AAcquire 100; ARun].

Definition empty_stack (s : kst) : bool :=
  match stack_of s (cur s) with [] => true | _ => false end.

Definition enabledb (a : act) (s : kst) (h : held) : bool :=
  match a with
  | ARun => negb (empty_stack s)
  | AAcquire l => empty_stack s && negb (cur s =? idle_thread s) &&
      bool_decide (is_Some (locks s !! l)) && (h (cur s) l <? 4294967295)
  | ARelease l => empty_stack s && negb (cur s =? idle_thread s) &&
      bool_decide (is_Some (locks s !! l)) && (0 <? h (cur s) l)
  | AYield => empty_stack s && negb (cur s =? idle_thread s)
  | AIdle | AHalt => empty_stack s && (cur s =? idle_thread s)
  | ATick => bool_decide (intr_get_status (kflags s) = INTR_ON)
  end.

Lemma enabledb_sound a s h : enabledb a s h = true → enabled a s h.
Proof.
  unfold enabledb, enabled, empty_stack.
  destruct a as [|l|l| | | |]; rewrite ?andb_true_iff, ?negb_true_iff, ?Z.eqb_neq, ?Z.eqb_eq, ?bool_decide_eq_true.
  all: rewrite ?Z.ltb_lt; destruct (stack_of s (cur s)); naive_solver.
Qed.

Fixpoint exec_all {B : Build} (acts : list act) (s : kst) (h : held) : res (kst * held) :=
  match acts with
  | [] => Ok (s, h)
  | a :: acts' =>
      if enabledb a s h then let? r := exec id a s in exec_all acts' r.2 (record_act a s h) else Fault
  end.

Lemma exec_all_reach {B : Build} acts s h s1 h1 s2 h2 :
  reach id s h s1 h1 → exec_all acts s1 h1 = Ok (s2, h2) → reach id s h s2 h2.
Proof.
  revert s1 h1. induction acts as [|a acts IH]; simpl; intros s1 h1 R E.
  - by injection E as <- <-.
  - destruct (enabledb a s1 h1) eqn:Ha; [|done].
    destruct (exec id a s1) as [[[] s3]| | | |] eqn:X; try done. simpl in E.
    eapply IH; [|exact E]. eapply reach_step; eauto using enabledb_sound.
Qed.

Lemma demo_tasks t k : tasks demo !! t = Some k →
  t = 4096 ∧ k = demo_task 1 TASK_RUNNING [] ∨ t = 8192 ∧ k = demo_task 2 TASK_READY [FStart] ∨
  t = 12288 ∧ k = demo_task 3 TASK_READY [FStart].
Proof. simpl. rewrite !lookup_insert_Some, lookup_empty. naive_solver. Qed.

Lemma demo_boot : boot demo.
Proof.
  split.
  - done.
  - by eexists.
  - done.
  - by eexists.
  - intros t k Hk. apply demo_tasks in Hk. naive_solver.
  - intros t k Hk. apply demo_tasks in Hk. naive_solver.
  - split; [by apply (bool_decide_unpack _)|]. intros t. split.
    + simpl. rewrite !elem_of_cons. intros [->|[->|?%not_elem_of_nil]]; by try eexists.
    + intros [[k Hk%demo_tasks] Ht]. simpl in *. rewrite !elem_of_cons. naive_solver.
  - simpl. intros l lk [<- <-]%lookup_singleton_Some. done.
Qed.

Definition demo_end : kst * held :=
  match exec_all (B := debug_build) demo_acts demo no_holds with Ok r => r | _ => (demo, no_holds) end.

Lemma demo_reach : reach (B := debug_build) id demo no_holds demo_end.1 demo_end.2.
Proof. eapply (exec_all_reach demo_acts); [constructor|vm_compute; reflexivity]. Qed.

Lemma locks_never_panic_witness :
  ∃ s'', exec (B := debug_build) id ARun demo_end.1 = Ok (tt, s'').
Proof.
  apply (locks_never_panic (B := debug_build) id demo demo_end.1 demo_end.2 demo_boot demo_reach).
  vm_compute. discriminate.
Defined.

Lemma lock_mutual_exclusion_witness :
  ∃ lk, locks demo_end.1 !! 100 = Some lk ∧ holder lk = 4096 ∧ demo_end.2 4096 100 = holder_repeat_nr lk ∧
    (demo_end.2 8192 100 ≠ 0 → 8192 = 4096).
Proof.
  exists (Lock 4096 1). split; [vm_compute; reflexivity|].
  apply (lock_mutual_exclusion (B := debug_build) id demo demo_end.1 demo_end.2 100 (Lock 4096 1) 4096 8192 demo_boot demo_reach);
    vm_compute; [reflexivity|discriminate].
Defined.

Lemma lock_no_lost_wakeup_witness :
  ∃ l lk sm, locks demo_end.1 !! l = Some lk ∧ semas demo_end.1 !! lock_sema l = Some sm ∧ 8192 ∈ waiters sm ∧
    (holder lk ≠ NULL ∧ demo_end.2 (holder lk) l ≠ 0 ∨
     (∃ t', who (tasks demo_end.1) (token l) t') ∨ ∃ t', who (tasks demo_end.1) (pending (lock_sema l)) t').
Proof.
  destruct (tasks demo_end.1 !! 8192) as [k|] eqn:E; [|vm_compute in E; discriminate].
  apply (lock_no_lost_wakeup (B := debug_build) id demo demo_end.1 demo_end.2 8192 k demo_boot demo_reach E).
  - vm_compute. discriminate.
  - vm_compute in E. injection E as <-. reflexivity.
Defined.

Lemma ready_queue_consistent_witness : NoDup (thread_ready_list demo_end.1) ∧ cur demo_end.1 = 12288.
Proof.
  split; [|vm_compute; reflexivity].
  apply (ready_queue_consistent (B := debug_build) id demo demo_end.1 demo_end.2 demo_boot demo_reach).
Defined.

Lemma lock_uninterrupted_witness :
  ∃ lk', lock_enter 4096 (Lock NULL 0) = Ok lk' ∧
    ∃ s', exec_list (B := debug_build) id [AAcquire 100; ARun; ARun] demo = Ok (tt, s') ∧ locks s' !! 100 = Some lk' ∧
      cur s' = 4096 ∧ stack_of s' 4096 = [].
Proof.
  assert (HI : Inv demo) by (apply boot_inv, demo_boot).
  apply (lock_uninterrupted (B := debug_build) id demo 100 (Lock NULL 0) (Sema 1 []) HI); try reflexivity.
  discriminate.
Defined.
