(* ===== verification/Paging.v ===== *)
(** * Paging and page allocation ([kernel/memory.c], [lib/memory.h])

    Physical memory is a map from word addresses to 32-bit words, and every
    access the C code makes to a page directory or a page table goes through
    the two-level translation of the processor, so that the self-map behind
    [pde_ptr] and [pte_ptr] is part of what is proved.  The page pools and the
    virtual address pools are the bitmaps of [Bitmap]; the memory that holds
    their bits (low memory below the pools) is kept in them and not in the
    word map.  Access rights and the TLB are not modelled. *)

From S2P Require Import Prelude CString Bitmap Interrupt KList Sched.

(** ** State *)

Inductive pool_flags := PF_KERNEL | PF_USER.

#[export] Instance pool_flags_eq_dec : EqDecision pool_flags.
Proof. solve_decision. Defined.

Record pool := Pool {
  pool_bitmap : bitmap;
  phy_addr_start : Z;
  pool_size : Z;
  pool_lock : lock
}.

Record virtual_addr := VAddr { vaddr_bitmap : bitmap; vaddr_start : Z }.

Record mst := Mst {
  pm : gmap Z Z;                  (* physical memory, by word address *)
  mcr3 : Z;                       (* page directory of the running thread *)
  kernel_pool : pool;
  user_pool : pool;
  kernel_vaddr : virtual_addr;
  userprog_vaddr : virtual_addr;  (* of the running thread *)
  self : Z;                       (* the running thread *)
  self_pgdir : Z                  (* its pgdir field *)
}.

Definition with_pm m st :=
  Mst m (mcr3 st) (kernel_pool st) (user_pool st) (kernel_vaddr st) (userprog_vaddr st) (self st) (self_pgdir st).
Definition with_pool (pf : pool_flags) p st :=
  match pf with
  | PF_KERNEL => Mst (pm st) (mcr3 st) p (user_pool st) (kernel_vaddr st) (userprog_vaddr st) (self st) (self_pgdir st)
  | PF_USER => Mst (pm st) (mcr3 st) (kernel_pool st) p (kernel_vaddr st) (userprog_vaddr st) (self st) (self_pgdir st)
  end.
Definition with_vaddr (pf : pool_flags) v st :=
  match pf with
  | PF_KERNEL => Mst (pm st) (mcr3 st) (kernel_pool st) (user_pool st) v (userprog_vaddr st) (self st) (self_pgdir st)
  | PF_USER => Mst (pm st) (mcr3 st) (kernel_pool st) (user_pool st) (kernel_vaddr st) v (self st) (self_pgdir st)
  end.

Definition pool_of (pf : pool_flags) (st : mst) : pool :=
  match pf with PF_KERNEL => kernel_pool st | PF_USER => user_pool st end.
Definition vaddr_of (pf : pool_flags) (st : mst) : virtual_addr :=
  match pf with PF_KERNEL => kernel_vaddr st | PF_USER => userprog_vaddr st end.

(** ** The processor *)

Definition ld (m : gmap Z Z) (a : Z) : Z := default 0 (m !! a).

Definition pdi (v : Z) : Z := v / 4194304.
Definition pti (v : Z) : Z := v / 4096 mod 1024.
Definition frame_of (e : Z) : Z := e / 4096 * 4096.
Definition present (e : Z) : bool := Z.odd e.

(** Translation of a virtual address; [Fault] is the page fault. *)
Definition walk (m : gmap Z Z) (c v : Z) : res Z :=
  let pde := ld m (c + 4 * pdi v) in
  if present pde then
    let pte := ld m (frame_of pde + 4 * pti v) in
    if present pte then Ok (frame_of pte + v mod 4096) else Fault
  else Fault.

Definition vload (v : Z) : M mst Z := λ st,
  let? a := walk (pm st) (mcr3 st) v in Ok (ld (pm st) a, st).
Definition vstore (v w : Z) : M mst unit := λ st,
  let? a := walk (pm st) (mcr3 st) v in Ok (tt, with_pm (<[a := u32 w]> (pm st)) st).

(** [memset(v, 0, 4 * n)] at a word boundary. *)
Fixpoint vclear (n : nat) (v : Z) : M mst unit :=
  match n with
  | O => mok tt
  | S n' => do! vstore v 0 in vclear n' (u32 (v + 4))
  end.

(** ** The operations *)

Definition PDE_IDX (addr : Z) : Z := Z.shiftr (Z.land addr 4290772992) 22.
Definition PTE_IDX (addr : Z) : Z := Z.shiftr (Z.land addr 4190208) 12.
Definition K_HEAP_START : Z := 3222274048.
Definition MEM_BITMAP_BASE : Z := 3221856256.
(** [PG_US_U | PG_RW_W | PG_P_1] *)
Definition PG_FLAGS : Z := 7.

Definition pte_ptr (vaddr : Z) : Z :=
  u32 (4290772992 + Z.shiftr (Z.land vaddr 4290772992) 10 + PTE_IDX vaddr * 4).
Definition pde_ptr (vaddr : Z) : Z := u32 (4294963200 + PDE_IDX vaddr * 4).

Section paging_ops.
Context {B : Build}.

Definition massert (c : bool) : M mst unit := mlift (ASSERT c).

Definition set_pool_bitmap (pf : pool_flags) (b : bitmap) : M mst unit := mmod (λ st,
  let p := pool_of pf st in with_pool pf (Pool b (phy_addr_start p) (pool_size p) (pool_lock p)) st).
Definition set_vaddr_bitmap (pf : pool_flags) (b : bitmap) : M mst unit := mmod (λ st,
  with_vaddr pf (VAddr b (vaddr_start (vaddr_of pf st))) st).

Definition acquire (pf : pool_flags) : M mst unit := λ st,
  let p := pool_of pf st in
  let? l := lock_enter (self st) (pool_lock p) in
  Ok (tt, with_pool pf (Pool (pool_bitmap p) (phy_addr_start p) (pool_size p) l) st).
Definition release (pf : pool_flags) : M mst unit := λ st,
  let p := pool_of pf st in
  let? l := lock_leave (self st) (pool_lock p) in
  Ok (tt, with_pool pf (Pool (pool_bitmap p) (phy_addr_start p) (pool_size p) l) st).

(** [while (cnt < pg_cnt) bitmap_set(btmp, bit_idx_start + cnt++, v)] *)
Fixpoint set_bits (n : nat) (b : bitmap) (i v : Z) : res bitmap :=
  match n with
  | O => Ok b
  | S n' => let? b' := bitmap_set b (u32 i) v in set_bits n' b' (i + 1) v
  end.

Definition vaddr_get (pf : pool_flags) (pg_cnt : Z) : M mst Z :=
  let! v := mget (vaddr_of pf) in
  let! bit_idx_start := mlift (bitmap_scan (vaddr_bitmap v) pg_cnt) in
  if bit_idx_start =? -1 then mok NULL
  else
    let! b := mlift (set_bits (Z.to_nat pg_cnt) (vaddr_bitmap v) bit_idx_start 1) in
    do! set_vaddr_bitmap pf b in
    let vaddr := u32 (vaddr_start v + bit_idx_start * PG_SIZE) in
    do! (match pf with
         | PF_KERNEL => mok tt
         | PF_USER => massert (vaddr <? 3221225472 - PG_SIZE)
         end) in
    mok vaddr.

Definition palloc (pf : pool_flags) : M mst Z :=
  let! p := mget (pool_of pf) in
  let! bit_idx := mlift (bitmap_scan (pool_bitmap p) 1) in
  if bit_idx =? -1 then mok NULL
  else
    let! b := mlift (bitmap_set (pool_bitmap p) (u32 bit_idx) 1) in
    do! set_pool_bitmap pf b in
    mok (u32 (bit_idx * PG_SIZE + phy_addr_start p)).

Definition page_table_add (vaddr page_phyaddr : Z) : M mst unit :=
  let pde := pde_ptr vaddr in
  let pte := pte_ptr vaddr in
  let! d := vload pde in
  if negb (Z.land d 1 =? 0) then
    let! e := vload pte in
    do! massert (Z.land e 1 =? 0) in
    if Z.land e 1 =? 0 then vstore pte (Z.lor page_phyaddr PG_FLAGS)
    else mlift Panic
  else
    let! pde_phyaddr := palloc PF_KERNEL in
    do! vstore pde (Z.lor pde_phyaddr PG_FLAGS) in
    do! vclear 1024 (Z.land pte 4294963200) in
    let! e := vload pte in
    do! massert (Z.land e 1 =? 0) in
    vstore pte (Z.lor page_phyaddr PG_FLAGS).

(** [while (cnt-- > 0)] of [malloc_page]; [false] is the early [return NULL]. *)
Fixpoint map_pages (cnt : nat) (pf : pool_flags) (vaddr : Z) : M mst bool :=
  match cnt with
  | O => mok true
  | S cnt' =>
      let! page_phyaddr := palloc pf in
      if page_phyaddr =? NULL then mok false
      else
        do! page_table_add vaddr page_phyaddr in
        map_pages cnt' pf (u32 (vaddr + PG_SIZE))
  end.

Definition malloc_page (pf : pool_flags) (pg_cnt : Z) : M mst Z :=
  do! massert ((0 <? pg_cnt) && (pg_cnt <? 3840)) in
  let! vaddr := vaddr_get pf pg_cnt in
  if vaddr =? NULL then mok NULL
  else
    let! done_ := map_pages (Z.to_nat pg_cnt) pf vaddr in
    mok (if done_ then vaddr else NULL).

Definition get_pages (pf : pool_flags) (pg_cnt : Z) : M mst Z :=
  do! acquire pf in
  let! vaddr := malloc_page pf pg_cnt in
  do! (if vaddr =? NULL then mok tt else vclear (Z.to_nat (pg_cnt * 1024)) vaddr) in
  do! release pf in
  mok vaddr.
Definition get_kernel_pages : Z → M mst Z := get_pages PF_KERNEL.
Definition get_user_pages : Z → M mst Z := get_pages PF_USER.

(** The second half of [get_a_page], and the whole of
    [get_a_page_without_opvaddrbitmap] between its lock calls. *)
Definition back_page (pf : pool_flags) (vaddr : Z) : M mst Z :=
  let! page_phyaddr := palloc pf in
  if page_phyaddr =? NULL then do! release pf in mok NULL
  else
    do! page_table_add vaddr page_phyaddr in
    do! release pf in
    mok vaddr.

Definition get_a_page (pf : pool_flags) (vaddr : Z) : M mst Z :=
  do! acquire pf in
  let! pgdir := mget self_pgdir in
  let! v := mget (vaddr_of pf) in
  let bit_idx := s32 (u32 (vaddr - vaddr_start v) / PG_SIZE) in
  do! (if negb (pgdir =? NULL) && bool_decide (pf = PF_USER) then
         do! massert (0 <=? bit_idx) in
         let! b := mlift (bitmap_set (vaddr_bitmap v) (u32 bit_idx) 1) in
         set_vaddr_bitmap pf b
       else if (pgdir =? NULL) && bool_decide (pf = PF_KERNEL) then
         do! massert (0 <? bit_idx) in
         let! b := mlift (bitmap_set (vaddr_bitmap v) (u32 bit_idx) 1) in
         set_vaddr_bitmap pf b
       else mlift Panic) in
  back_page pf vaddr.

Definition get_a_page_without_opvaddrbitmap (pf : pool_flags) (vaddr : Z) : M mst Z :=
  do! acquire pf in back_page pf vaddr.

Definition addr_v2p (vaddr : Z) : M mst Z :=
  let! e := vload (pte_ptr vaddr) in
  mok (u32 (Z.land e 4294963200 + Z.land vaddr 4095)).

Definition pfree (pg_phy_addr : Z) : M mst unit :=
  let! up := mget user_pool in
  let pf := if phy_addr_start up <=? pg_phy_addr then PF_USER else PF_KERNEL in
  let! p := mget (pool_of pf) in
  let bit_idx := u32 (pg_phy_addr - phy_addr_start p) / PG_SIZE in
  let! b := mlift (bitmap_set (pool_bitmap p) bit_idx 0) in
  set_pool_bitmap pf b.

Definition free_a_phy_page : Z → M mst unit := pfree.

Definition page_table_pte_remove (vaddr : Z) : M mst unit :=
  let pte := pte_ptr vaddr in
  let! e := vload pte in
  vstore pte (Z.land e (Z.lnot 1)).

Definition vaddr_remove (pf : pool_flags) (vaddr pg_cnt : Z) : M mst unit :=
  let! v := mget (vaddr_of pf) in
  let bit_idx_start := u32 (vaddr - vaddr_start v) / PG_SIZE in
  let! b := mlift (set_bits (Z.to_nat pg_cnt) (vaddr_bitmap v) bit_idx_start 0) in
  set_vaddr_bitmap pf b.

(** The two loops of [mfree_page] differ in their assertion only. *)
Fixpoint unmap_pages (cnt : nat) (user : bool) (vaddr : Z) : M mst unit :=
  match cnt with
  | O => mok tt
  | S cnt' =>
      let vaddr := u32 (vaddr + PG_SIZE) in
      let! pg_phy_addr := addr_v2p vaddr in
      let! kp := mget kernel_pool in
      let! up := mget user_pool in
      do! massert ((pg_phy_addr mod PG_SIZE =? 0) &&
            (if user then phy_addr_start up <=? pg_phy_addr
             else (phy_addr_start kp <=? pg_phy_addr) && (pg_phy_addr <? phy_addr_start up))) in
      do! pfree pg_phy_addr in
      do! page_table_pte_remove vaddr in
      unmap_pages cnt' user vaddr
  end.

Definition mfree_page (pf : pool_flags) (vaddr pg_cnt : Z) : M mst unit :=
  do! massert ((1 <=? pg_cnt) && (vaddr mod PG_SIZE =? 0)) in
  let! pg_phy_addr := addr_v2p vaddr in
  do! massert ((pg_phy_addr mod PG_SIZE =? 0) && (1056768 <=? pg_phy_addr)) in
  let! up := mget user_pool in
  do! unmap_pages (Z.to_nat pg_cnt) (phy_addr_start up <=? pg_phy_addr) (u32 (vaddr - PG_SIZE)) in
  vaddr_remove pf vaddr pg_cnt.

End paging_ops.

(** ** [mem_pool_init] *)

(** The layout the C code computes, before the bitmaps are cleared.  A bitmap
    is its base address and its length in bytes. *)
Record pool_layout := Layout {
  kp_start : Z; kp_size : Z; kbm_base : Z; kbm_length : Z;
  up_start : Z; up_size : Z; ubm_base : Z; ubm_length : Z;
  vbm_base : Z; vbm_length : Z; kv_start : Z
}.

Definition mem_pool_layout (all_mem : Z) : pool_layout :=
  let page_table_size := PG_SIZE * 256 in
  let used_mem := page_table_size + 1048576 in
  let free_mem := u32 (all_mem - used_mem) in
  let all_free_pages := u16 (free_mem / PG_SIZE) in
  let kernel_free_pages := u16 (all_free_pages / 2) in
  let user_free_pages := u16 (all_free_pages - kernel_free_pages) in
  let kbm_length := kernel_free_pages / 8 in
  let ubm_length := user_free_pages / 8 in
  let kp_start := used_mem in
  let up_start := u32 (kp_start + kernel_free_pages * PG_SIZE) in
  Layout kp_start (u32 (kernel_free_pages * PG_SIZE)) MEM_BITMAP_BASE kbm_length
         up_start (u32 (user_free_pages * PG_SIZE)) (u32 (MEM_BITMAP_BASE + kbm_length)) ubm_length
         (u32 (MEM_BITMAP_BASE + kbm_length + ubm_length)) kbm_length K_HEAP_START.

(** [low] is what the memory behind the three bitmaps holds: the bytes from
    each base address on. *)
Definition mem_pool_init {B : Build} (all_mem : Z) (low : Z → list Z) (st : mst) : res mst :=
  let l := mem_pool_layout all_mem in
  let? kb := bitmap_init (Bitmap (kbm_length l) (low (kbm_base l))) in
  let? ub := bitmap_init (Bitmap (ubm_length l) (low (ubm_base l))) in
  let? vb := bitmap_init (Bitmap (vbm_length l) (low (vbm_base l))) in
  Ok (Mst (pm st) (mcr3 st)
        (Pool kb (kp_start l) (kp_size l) (Lock NULL 0))
        (Pool ub (up_start l) (up_size l) (Lock NULL 0))
        (VAddr vb (kv_start l)) (userprog_vaddr st) (self st) (self_pgdir st)).

(** ** The self-map *)

Lemma land_high z sh k :
  0 ≤ sh → 0 ≤ k → Z.land z (Z.shiftl (Z.ones k) sh) = (z / 2 ^ sh) mod 2 ^ k * 2 ^ sh.
Proof.
  intros Hs Hk. rewrite <-land_field, <-Z.shiftl_mul_pow2 by done.
  apply Z.bits_inj'. intros n Hn. rewrite Z.shiftl_spec, Z.land_spec by done.
  destruct (decide (n < sh)).
  - rewrite Z.shiftl_spec by done. rewrite (Z.testbit_neg_r (Z.ones k)), (Z.testbit_neg_r (Z.shiftr _ _)) by lia.
    by rewrite andb_false_r.
  - rewrite Z.shiftr_spec by lia. replace (n - sh + sh) with n by lia. by rewrite Z.land_spec.
Qed.

Lemma mask_high e : 0 ≤ e < 4294967296 → Z.land e 4294963200 = frame_of e.
Proof.
  intros He. unfold frame_of. change 4294963200 with (Z.shiftl (Z.ones 20) 12).
  rewrite land_high by lia. change (2 ^ 12) with 4096. change (2 ^ 20) with 1048576.
  rewrite Z.mod_small; [done|]. zsolve.
Qed.

Lemma PDE_IDX_eq v : 0 ≤ v < 4294967296 → PDE_IDX v = pdi v.
Proof.
  intros Hv. unfold PDE_IDX, pdi. change 4290772992 with (Z.shiftl (Z.ones 10) 22).
  rewrite land_field by lia. change (2 ^ 22) with 4194304. change (2 ^ 10) with 1024.
  rewrite Z.mod_small; [done|]. zsolve.
Qed.

Lemma PTE_IDX_eq v : PTE_IDX v = pti v.
Proof.
  unfold PTE_IDX, pti. change 4190208 with (Z.shiftl (Z.ones 10) 12). by rewrite land_field by lia.
Qed.

Lemma pdi_range v : 0 ≤ v < 4294967296 → 0 ≤ pdi v < 1024.
Proof. intros. unfold pdi. zsolve. Qed.

Lemma pti_range v : 0 ≤ pti v < 1024.
Proof. apply Z.mod_pos_bound. lia. Qed.

Lemma pte_ptr_eq v : 0 ≤ v < 4294967296 → pte_ptr v = 4290772992 + pdi v * 4096 + pti v * 4.
Proof.
  intros Hv. unfold pte_ptr. rewrite PTE_IDX_eq.
  assert (Z.shiftr (Z.land v 4290772992) 10 = pdi v * 4096) as ->.
  { change 4290772992 with (Z.shiftl (Z.ones 10) 22). rewrite land_high, Z.shiftr_div_pow2 by lia.
    change (2 ^ 22) with 4194304. change (2 ^ 10) with 1024. unfold pdi. rewrite (Z.mod_small _ 1024) by zsolve. zsolve. }
  pose proof (pdi_range v Hv). pose proof (pti_range v). apply u32_small. lia.
Qed.

Lemma pde_ptr_eq v : 0 ≤ v < 4294967296 → pde_ptr v = 4294963200 + pdi v * 4.
Proof.
  intros Hv. unfold pde_ptr. rewrite PDE_IDX_eq by done. pose proof (pdi_range v Hv). apply u32_small. lia.
Qed.

Lemma present_land e : (Z.land e 1 =? 0) = negb (present e).
Proof.
  unfold present. change 1 with (Z.ones 1). rewrite Z.land_ones by lia. change (2 ^ 1) with 2.
  rewrite Zmod_odd. by destruct (Z.odd e).
Qed.

(** The page directory maps itself in its last entry. *)
Record self_mapped (m : gmap Z Z) (c : Z) : Prop := {
  sm_c : 0 ≤ c < 4294967296;
  sm_align : c mod 4096 = 0;
  sm_words : ∀ a, 0 ≤ ld m a < 4294967296;
  sm_present : present (ld m (c + 4092)) = true;
  sm_frame : frame_of (ld m (c + 4092)) = c
}.

Definition pde_at (m : gmap Z Z) (c v : Z) : Z := ld m (c + 4 * pdi v).
Definition pte_slot (m : gmap Z Z) (c v : Z) : Z := frame_of (pde_at m c v) + 4 * pti v.

Lemma walk_pde m c v :
  self_mapped m c → 0 ≤ v < 4294967296 → walk m c (pde_ptr v) = Ok (c + 4 * pdi v).
Proof.
  intros [Hc Ha Hw Hp Hf] Hv. pose proof (pdi_range v Hv). unfold walk. rewrite pde_ptr_eq by done.
  assert (pdi (4294963200 + pdi v * 4) = 1023) as -> by (unfold pdi at 1; zsolve).
  assert (pti (4294963200 + pdi v * 4) = 1023) as -> by (unfold pti; zsolve).
  change (4 * 1023) with 4092. rewrite Hp, Hf, Hp, Hf. f_equal. f_equal. zsolve.
Qed.

Lemma walk_pte m c v :
  self_mapped m c → 0 ≤ v < 4294967296 → present (pde_at m c v) = true →
  walk m c (pte_ptr v) = Ok (pte_slot m c v).
Proof.
  intros [Hc Ha Hw Hp Hf] Hv Hpr. pose proof (pdi_range v Hv). pose proof (pti_range v).
  unfold walk. rewrite pte_ptr_eq by done.
  assert (pdi (4290772992 + pdi v * 4096 + pti v * 4) = 1023) as -> by (unfold pdi at 1; zsolve).
  assert (pti (4290772992 + pdi v * 4096 + pti v * 4) = pdi v) as -> by (unfold pti at 1; zsolve).
  change (4 * 1023) with 4092. rewrite Hp, Hf. fold (pde_at m c v). rewrite Hpr. f_equal. unfold pte_slot. f_equal. zsolve.
Qed.

Lemma walk_alt m c v :
  walk m c v = if present (pde_at m c v) then
                 if present (ld m (pte_slot m c v)) then Ok (frame_of (ld m (pte_slot m c v)) + v mod 4096) else Fault
               else Fault.
Proof. done. Qed.

(** Translation when only the tables below the directory entry changed. *)
Lemma walk_same_pde m m' c v :
  pde_at m' c v = pde_at m c v →
  walk m' c v = if present (pde_at m c v) then
                  if present (ld m' (pte_slot m c v)) then Ok (frame_of (ld m' (pte_slot m c v)) + v mod 4096) else Fault
                else Fault.
Proof. intros E. rewrite walk_alt. unfold pte_slot. by rewrite E. Qed.

(** ** Page table entries *)

Lemma lor_flags p : 0 ≤ p < 4294967296 → p mod 4096 = 0 → u32 (Z.lor p PG_FLAGS) = p + 7.
Proof.
  intros Hp Ha. unfold PG_FLAGS. assert (Z.land p 7 = 0) as Hl.
  { change 7 with (Z.ones 3). rewrite Z.land_ones by lia. change (2 ^ 3) with 8. zsolve. }
  pose proof (Z.add_lor_land p 7) as E. rewrite Hl in E. replace (Z.lor p 7) with (p + 7) by lia.
  apply u32_small. zsolve.
Qed.

Lemma frame_flags p : p mod 4096 = 0 → frame_of (p + 7) = p.
Proof. intros. unfold frame_of. zsolve. Qed.

Lemma present_flags p : p mod 4096 = 0 → present (p + 7) = true.
Proof.
  intros Hp. unfold present. replace (p + 7) with (2 * (2048 * (p / 4096) + 3) + 1) by zsolve.
  rewrite Z.odd_add, Z.odd_mul. done.
Qed.

Lemma frame_aligned e : frame_of e mod 4096 = 0.
Proof. unfold frame_of. apply Z.mod_mul. lia. Qed.

Lemma ld_insert m a w b : ld (<[a := w]> m) b = if decide (b = a) then w else ld m b.
Proof.
  unfold ld. case_decide as E; [subst; by rewrite lookup_insert_eq|by rewrite lookup_insert_ne].
Qed.

(** Words of different aligned frames. *)
Lemma frame_word f g i j :
  f mod 4096 = 0 → g mod 4096 = 0 → 0 ≤ i < 1024 → 0 ≤ j < 1024 →
  f + 4 * i = g + 4 * j → f = g ∧ i = j.
Proof. intros. zsolve. Qed.

(** ** Pools *)

Record pool_ok (p : pool) : Prop := {
  po_bitmap : bitmap_ok (pool_bitmap p);
  po_slack : slack (pool_bitmap p);
  po_align : phy_addr_start p mod 4096 = 0;
  po_range : 0 < phy_addr_start p ∧ phy_addr_start p + 4096 * bit_cnt (pool_bitmap p) ≤ 4294967296
}.

Definition frame_free (p : pool) (f : Z) : Prop :=
  ∃ i, 0 ≤ i < bit_cnt (pool_bitmap p) ∧ f = phy_addr_start p + 4096 * i ∧ bit (pool_bitmap p) i = false.

Definition nfree (p : pool) : nat := length (free_bits (pool_bitmap p)).

(** [p'] is [p] with the frame [f] taken out. *)
Record pool_take (p : pool) (f : Z) (p' : pool) : Prop := {
  pt_ok : pool_ok p';
  pt_start : phy_addr_start p' = phy_addr_start p;
  pt_cnt : bit_cnt (pool_bitmap p') = bit_cnt (pool_bitmap p);
  pt_size : pool_size p' = pool_size p;
  pt_lock : pool_lock p' = pool_lock p;
  pt_was : frame_free p f;
  pt_free : ∀ g, frame_free p' g ↔ frame_free p g ∧ g ≠ f;
  pt_nfree : nfree p = S (nfree p')
}.

Lemma frame_free_range p f : pool_ok p → frame_free p f → 0 < f < 4294967296 ∧ f mod 4096 = 0.
Proof. intros [_ _ Ha Hr] (i & Hi & -> & _). split; [lia|zsolve]. Qed.

Section pool_lemmas.
Context {B : Build}.

Lemma palloc_spec st pf :
  pool_ok (pool_of pf st) → (0 < nfree (pool_of pf st))%nat →
  ∃ f p', palloc pf st = Ok (f, with_pool pf p' st) ∧ pool_take (pool_of pf st) f p'.
Proof.
  intros [Hb Hs Ha Hr] Hn. destruct (bitmap_scan_one _ Hb (free_bits_some _ Hn)) as (i & Hi & Hrange & Hbit & _).
  destruct (bitmap_set_spec (pool_bitmap (pool_of pf st)) i 1) as (b' & Hset & Hb' & Hl & Hlen & Hbits);
    [done|lia| |by right|].
  { destruct Hb. unfold bit_cnt in Hrange. zsolve. }
  set (p' := Pool b' (phy_addr_start (pool_of pf st)) (pool_size (pool_of pf st)) (pool_lock (pool_of pf st))).
  assert (Hc : bit_cnt b' = bit_cnt (pool_bitmap (pool_of pf st))) by (unfold bit_cnt; by rewrite Hl).
  exists (phy_addr_start (pool_of pf st) + 4096 * i), p'. split.
  - unfold palloc, mbnd, mget. simpl. unfold mlift. rewrite Hi. simpl.
    rewrite (proj2 (Z.eqb_neq i (-1))) by lia. rewrite (u32_small i) by lia. simpl. rewrite Hset. simpl.
    unfold mok, PG_SIZE. f_equal. f_equal. rewrite u32_small by lia. lia.
  - split; simpl; try done.
    + split; simpl; try done; [unfold slack in *; by rewrite Hl, Hlen|by rewrite Hc].
    + by exists i.
    + intros g. unfold frame_free. simpl. rewrite Hc. split.
      * intros (j & Hj & -> & Hf). rewrite Hbits in Hf by lia. case_decide; [done|]. split; [by exists j|lia].
      * intros [(j & Hj & -> & Hf) Hne]. exists j. split_and!; [lia|lia|done|]. rewrite Hbits by lia.
        by rewrite decide_False by lia.
    + eapply free_bits_take; eauto; lia.
Qed.

(** [pfree] of a frame of a pool puts exactly that frame back. *)
Lemma pfree_spec st pf i :
  pool_ok (kernel_pool st) → pool_ok (user_pool st) →
  phy_addr_start (kernel_pool st) + 4096 * bit_cnt (pool_bitmap (kernel_pool st)) ≤ phy_addr_start (user_pool st) →
  0 ≤ i < bit_cnt (pool_bitmap (pool_of pf st)) →
  ∃ p', pfree (phy_addr_start (pool_of pf st) + 4096 * i) st = Ok (tt, with_pool pf p' st) ∧
    pool_ok p' ∧ phy_addr_start p' = phy_addr_start (pool_of pf st) ∧
    bit_cnt (pool_bitmap p') = bit_cnt (pool_bitmap (pool_of pf st)) ∧
    pool_lock p' = pool_lock (pool_of pf st) ∧
    ∀ g, frame_free p' g ↔ frame_free (pool_of pf st) g ∨ g = phy_addr_start (pool_of pf st) + 4096 * i.
Proof.
  intros Hk Hu Hdis Hi. set (p := pool_of pf st) in *. set (f := phy_addr_start p + 4096 * i).
  assert (Hok : pool_ok p) by (by destruct pf). destruct Hok as [Hb Hs Ha Hr].
  destruct (bitmap_set_spec (pool_bitmap p) i 0) as (b' & Hset & Hb' & Hl & Hlen & Hbits); [done|lia| |by left|].
  { destruct Hb. unfold bit_cnt in Hi. zsolve. }
  assert (Hc : bit_cnt b' = bit_cnt (pool_bitmap p)) by (unfold bit_cnt; by rewrite Hl).
  assert (Hpf : (if phy_addr_start (user_pool st) <=? f then PF_USER else PF_KERNEL) = pf).
  { destruct pf; simpl in p; [rewrite (proj2 (Z.leb_gt _ _))|rewrite (proj2 (Z.leb_le _ _))]; try done; unfold f, p in *; simpl in *; lia. }
  exists (Pool b' (phy_addr_start p) (pool_size p) (pool_lock p)). split_and!; try done.
  - unfold pfree, mbnd, mget. simpl. rewrite Hpf. simpl. fold p. unfold mlift, PG_SIZE.
    assert (u32 (f - phy_addr_start p) / 4096 = i) as -> by (unfold f; rewrite u32_small by lia; zsolve).
    by rewrite Hset.
  - split; simpl; try done; [unfold slack in *; by rewrite Hl, Hlen|by rewrite Hc].
  - intros g. unfold frame_free. simpl. rewrite Hc. split.
    + intros (j & Hj & -> & Hf). rewrite Hbits in Hf by lia. case_decide; [right; unfold f; lia|left; by exists j].
    + intros [(j & Hj & -> & Hf)| ->]; [exists j|exists i]; (split_and!; [lia|lia|done|]); rewrite Hbits by lia.
      * by case_decide.
      * by rewrite decide_True.
Qed.

End pool_lemmas.

(** ** Adding a mapping *)

Definition table_word (P lo hi a : Z) : Prop := P + 4 * lo ≤ a < P + 4 * hi ∧ (a - P) mod 4 = 0.

#[export] Instance table_word_dec P lo hi a : Decision (table_word P lo hi a).
Proof. unfold table_word. apply _. Defined.

Lemma self_mapped_write m m' c :
  self_mapped m c → ld m' (c + 4092) = ld m (c + 4092) → (∀ a, 0 ≤ ld m' a < 4294967296) → self_mapped m' c.
Proof. intros [] E. split; rewrite ?E; done. Qed.

Lemma walk_table_word m c v k :
  self_mapped m c → 0 ≤ v < 4294967296 → present (pde_at m c v) = true → 0 ≤ k < 1024 →
  walk m c (4290772992 + pdi v * 4096 + 4 * k) = Ok (frame_of (pde_at m c v) + 4 * k).
Proof.
  intros Hs Hv Hp Hk. pose proof (pdi_range v Hv).
  assert (pdi (pdi v * 4194304 + k * 4096) = pdi v) as E1 by (unfold pdi at 1; zsolve).
  assert (pti (pdi v * 4194304 + k * 4096) = k) as E2 by (unfold pti; zsolve).
  pose proof (walk_pte m c (pdi v * 4194304 + k * 4096) Hs) as W.
  unfold pte_slot, pde_at in W. rewrite pte_ptr_eq, E1, E2 in W by lia.
  replace (4290772992 + pdi v * 4096 + 4 * k) with (4290772992 + pdi v * 4096 + k * 4) by lia.
  apply W; [lia|done].
Qed.

Lemma vclear_table n st v k :
  self_mapped (pm st) (mcr3 st) → 0 ≤ v < 4294967296 → pdi v < 1023 →
  present (pde_at (pm st) (mcr3 st) v) = true → frame_of (pde_at (pm st) (mcr3 st) v) ≠ mcr3 st →
  0 ≤ k → k + Z.of_nat n ≤ 1024 →
  ∃ m', vclear n (4290772992 + pdi v * 4096 + 4 * k) st = Ok (tt, with_pm m' st) ∧
    ∀ a, ld m' a = if decide (table_word (frame_of (pde_at (pm st) (mcr3 st) v)) k (k + Z.of_nat n) a) then 0 else ld (pm st) a.
Proof.
  revert st k. induction n as [|n IH]; intros st k Hs Hv Hi Hp Hf Hk Hn.
  - exists (pm st). split; [by destruct st|]. intros a. rewrite decide_False; [done|]. unfold table_word. lia.
  - set (P := frame_of (pde_at (pm st) (mcr3 st) v)) in *. simpl. unfold mbnd, vstore.
    rewrite (walk_table_word _ _ v k) by (done || lia). fold P. simpl.
    pose proof (pdi_range v Hv).
    set (m1 := <[P + 4 * k := u32 0]> (pm st)).
    assert (HcP : ∀ i, 0 ≤ i < 1024 → mcr3 st + 4 * i ≠ P + 4 * k).
    { intros i Hri E. apply frame_word in E as [E _]; [done|apply Hs|apply frame_aligned|lia|lia]. }
    assert (Hpde : pde_at m1 (mcr3 st) v = pde_at (pm st) (mcr3 st) v).
    { unfold pde_at, m1. rewrite ld_insert, decide_False; [done|]. apply HcP. lia. }
    destruct (IH (with_pm m1 st) (k + 1)) as (m' & E & Hm'); simpl; rewrite ?Hpde; try done; try lia.
    { eapply self_mapped_write; [exact Hs| |].
      - unfold m1. rewrite ld_insert, decide_False; [done|]. apply (HcP 1023). lia.
      - intros a. unfold m1. rewrite ld_insert. case_decide; [change (u32 0) with 0; lia|apply Hs]. }
    replace (u32 (4290772992 + pdi v * 4096 + 4 * k + 4)) with (4290772992 + pdi v * 4096 + 4 * (k + 1))
      by (rewrite u32_small; lia).
    rewrite E. exists m'. split; [done|]. intros a. rewrite Hm'. simpl. rewrite Hpde. fold P. unfold m1. rewrite ld_insert.
    unfold table_word. repeat case_decide; try done; exfalso; zsolve.
Qed.

#[global] Arguments vclear : simpl never.

(** The invariant of the page tables of the running address space: the
    directory maps itself, its tables are frames the kernel pool will not hand
    out again, and no two entries above the identity-mapped first one share a
    table (entries 0 and 768 of the boot directory do). *)
Definition taken (st : mst) (f : Z) : Prop :=
  ¬ frame_free (kernel_pool st) f ∧ ¬ frame_free (user_pool st) f.

(** [f] is neither the directory nor one of its tables. *)
Definition data_frame (st : mst) (f : Z) : Prop :=
  f ≠ mcr3 st ∧ ∀ i, 0 ≤ i < 1023 → present (ld (pm st) (mcr3 st + 4 * i)) = true →
    frame_of (ld (pm st) (mcr3 st + 4 * i)) ≠ f.

Record tables_ok (st : mst) : Prop := {
  t_self : self_mapped (pm st) (mcr3 st);
  t_pool : pool_ok (kernel_pool st);
  t_upool : pool_ok (user_pool st);
  t_disj : phy_addr_start (kernel_pool st) + 4096 * bit_cnt (pool_bitmap (kernel_pool st)) ≤ phy_addr_start (user_pool st);
  t_cr3 : taken st (mcr3 st);
  t_tab : ∀ i, 0 ≤ i < 1023 → present (ld (pm st) (mcr3 st + 4 * i)) = true →
    frame_of (ld (pm st) (mcr3 st + 4 * i)) ≠ mcr3 st ∧ taken st (frame_of (ld (pm st) (mcr3 st + 4 * i)));
  t_inj : ∀ i j, 1 ≤ i < 1023 → 1 ≤ j < 1023 →
    present (ld (pm st) (mcr3 st + 4 * i)) = true → present (ld (pm st) (mcr3 st + 4 * j)) = true →
    frame_of (ld (pm st) (mcr3 st + 4 * i)) = frame_of (ld (pm st) (mcr3 st + 4 * j)) → i = j
}.

(** A free frame is not part of the tables; a kernel frame is not a user frame. *)
Lemma free_data st pf f : tables_ok st → frame_free (pool_of pf st) f → data_frame st f.
Proof.
  intros HT Hf. assert (Hn : ∀ g, taken st g → g ≠ f) by (intros g [? ?] ->; by destruct pf).
  split; [intros ->; by eapply Hn; [apply HT|]|]. intros i Hi Hp. apply Hn. by apply (t_tab _ HT).
Qed.

Lemma pools_disjoint st f : tables_ok st → frame_free (kernel_pool st) f → frame_free (user_pool st) f → False.
Proof.
  intros HT (i & Hi & -> & _) (j & Hj & E & _). pose proof (t_disj _ HT). lia.
Qed.

(** Addresses with a page table of their own. *)
Definition managed (v : Z) : Prop := 0 ≤ v < 4294967296 ∧ 1 ≤ pdi v < 1023.

Lemma same_page v v' : managed v → managed v' → (pdi v = pdi v' ∧ pti v = pti v') ↔ v / 4096 = v' / 4096.
Proof. intros [Hv _] [Hv' _]. unfold pdi, pti. split; [intros [? ?]|intros ?; split]; zsolve. Qed.

(** How [page_table_add] changes translation. *)
Definition maps_to (st st' : mst) (v p : Z) : Prop :=
  ∀ v', managed v' → walk (pm st') (mcr3 st') v' =
    if decide (v' / 4096 = v / 4096) then Ok (p + v' mod 4096) else walk (pm st) (mcr3 st) v'.

(** What an operation does to the kernel pool: at most [n] frames go. *)
Record shrinks (n : nat) (p p' : pool) : Prop := {
  s_ok : pool_ok p';
  s_start : phy_addr_start p' = phy_addr_start p;
  s_cnt : bit_cnt (pool_bitmap p') = bit_cnt (pool_bitmap p);
  s_size : pool_size p' = pool_size p;
  s_lock : pool_lock p' = pool_lock p;
  s_free : ∀ g, frame_free p' g → frame_free p g;
  s_nfree : (nfree p ≤ n + nfree p')%nat
}.

Lemma shrinks_refl p : pool_ok p → shrinks 0 p p.
Proof. intros. by split. Qed.

Lemma shrinks_take p f p' : pool_take p f p' → shrinks 1 p p'.
Proof. intros []. split; try done; [naive_solver|lia]. Qed.

Lemma shrinks_trans n m p p' p'' : shrinks n p p' → shrinks m p' p'' → shrinks (n + m) p p''.
Proof. intros [] []. split; try congruence; [auto|lia]. Qed.

Lemma shrinks_le n m p p' : (n ≤ m)%nat → shrinks n p p' → shrinks m p p'.
Proof. intros ? []. split; try done. lia. Qed.

(** Writing the entry of an absent page in an existing table. *)
Lemma write_pte_ok st v p :
  tables_ok st → managed v → 0 ≤ p < 4294967296 → p mod 4096 = 0 →
  present (pde_at (pm st) (mcr3 st) v) = true →
  let st' := with_pm (<[pte_slot (pm st) (mcr3 st) v := p + 7]> (pm st)) st in
  tables_ok st' ∧ maps_to st st' v p ∧
  ∀ i, 0 ≤ i < 1024 → ld (pm st') (mcr3 st + 4 * i) = ld (pm st) (mcr3 st + 4 * i).
Proof.
  intros [Hs Hpool Hup Hdis Hc Ht Hinj] [Hv Hi] Hp Ha Hpr st'.
  destruct (Ht (pdi v)) as [Hne _]; [lia|done|]. fold (pde_at (pm st) (mcr3 st) v) in Hne.
  pose proof (pti_range v).
  assert (HcP : ∀ i, 0 ≤ i < 1024 → mcr3 st + 4 * i ≠ pte_slot (pm st) (mcr3 st) v).
  { intros i Hri E. apply frame_word in E as [E _]; [done|apply Hs|apply frame_aligned|lia|lia]. }
  assert (Hpd : ∀ i, 0 ≤ i < 1024 → ld (pm st') (mcr3 st + 4 * i) = ld (pm st) (mcr3 st + 4 * i)).
  { intros i Hri. simpl. rewrite ld_insert, decide_False; [done|]. by apply HcP. }
  split; [split; simpl|split; [|exact Hpd]].
  - eapply self_mapped_write; [exact Hs|apply (Hpd 1023); lia|].
    intros a. simpl. rewrite ld_insert. case_decide; [zsolve|apply Hs].
  - done.
  - done.
  - done.
  - done.
  - intros i Hri. simpl in Hpd. rewrite Hpd by lia. by apply Ht.
  - intros i j Hri Hrj. simpl in Hpd. rewrite !Hpd by lia. by apply Hinj.
  - intros v' [Hv' Hi']. simpl.
    rewrite (walk_same_pde (pm st) _ _ v') by (apply Hpd; lia). rewrite (walk_alt (pm st)), ld_insert.
    pose proof (pti_range v'). destruct (decide (v' / 4096 = v / 4096)) as [E|E].
    + apply same_page in E as [E1 E2]; [|done..].
      assert (pte_slot (pm st) (mcr3 st) v' = pte_slot (pm st) (mcr3 st) v) as -> by (unfold pte_slot, pde_at; by rewrite E1, E2).
      rewrite decide_True by done. replace (pde_at (pm st) (mcr3 st) v') with (pde_at (pm st) (mcr3 st) v) by (unfold pde_at; by rewrite E1).
      rewrite Hpr, present_flags, frame_flags by done. done.
    + destruct (present (pde_at (pm st) (mcr3 st) v')) eqn:Hpr'; [|done].
      rewrite decide_False; [done|]. intros Eq. apply frame_word in Eq as [Eq1 Eq2]; try apply frame_aligned; try lia.
      apply E, same_page; try done. split; [|done]. eapply Hinj; eauto.
Qed.

(** An empty table in a free directory entry changes no translation. *)
Lemma new_table_ok st v P kp' m2 :
  tables_ok st → managed v → present (pde_at (pm st) (mcr3 st) v) = false →
  pool_take (kernel_pool st) P kp' →
  (∀ a, ld m2 a = if decide (table_word P 0 1024 a) then 0
                  else if decide (a = mcr3 st + 4 * pdi v) then P + 7 else ld (pm st) a) →
  let st2 := with_pm m2 (with_pool PF_KERNEL kp' st) in
  tables_ok st2 ∧
  (∀ i, 0 ≤ i < 1024 → ld m2 (mcr3 st + 4 * i) = if decide (i = pdi v) then P + 7 else ld (pm st) (mcr3 st + 4 * i)) ∧
  ∀ v', managed v' → walk m2 (mcr3 st) v' = walk (pm st) (mcr3 st) v'.
Proof.
  intros HT [Hv Hi] Habs T Hm2 st2. pose proof HT as [Hs Hpool Hup Hdis Hc Ht Hinj].
  destruct (frame_free_range _ _ Hpool (pt_was _ _ _ T)) as [HPr HPa].
  assert (HPc : P ≠ mcr3 st) by (intros ->; destruct Hc as [Hc _]; apply Hc, T).
  assert (Hpd : ∀ i, 0 ≤ i < 1024 → ld m2 (mcr3 st + 4 * i) = if decide (i = pdi v) then P + 7 else ld (pm st) (mcr3 st + 4 * i)).
  { intros i Hri. rewrite Hm2, decide_False.
    - repeat case_decide; try done; exfalso; lia.
    - unfold table_word. pose proof (sm_align _ _ Hs). zsolve. }
  assert (Hfree : ∀ g, taken st g → taken st2 g).
  { intros g [Hg Hg']. split; [|done]. simpl. intros [? ?]%(pt_free _ _ _ T). done. }
  assert (Hold : ∀ i, 0 ≤ i < 1023 → present (ld (pm st) (mcr3 st + 4 * i)) = true → frame_of (ld (pm st) (mcr3 st + 4 * i)) ≠ P).
  { intros i Hri Hpi E. destruct (Ht i Hri Hpi) as [_ [Hnf _]]. apply Hnf. rewrite E. apply T. }
  split; [split; simpl|split].
  - eapply self_mapped_write; [exact Hs|change 4092 with (4 * 1023); by rewrite (Hpd 1023), decide_False by lia|].
    intros a. rewrite Hm2. repeat case_decide; [lia|zsolve|apply Hs].
  - apply T.
  - done.
  - rewrite (pt_start _ _ _ T), (pt_cnt _ _ _ T). done.
  - by apply Hfree.
  - intros i Hri. rewrite Hpd by lia. case_decide as E.
    + intros _. rewrite frame_flags by done. split; [done|]. split; simpl.
      * intros [_ ?]%(pt_free _ _ _ T). done.
      * intros Hx. eapply pools_disjoint; [exact HT|apply T|exact Hx].
    + intros Hpi. destruct (Ht i Hri Hpi). auto.
  - intros i j Hri Hrj. rewrite !Hpd by lia. repeat case_decide; subst; try done; rewrite ?frame_flags by done.
    + intros _ Hpj E. by destruct (Hold j); [lia|..].
    + intros Hpj _ E. by destruct (Hold i); [lia|..].
    + by apply Hinj.
  - exact Hpd.
  - intros v' [Hv' Hi']. pose proof (pti_range v'). rewrite !walk_alt. unfold pte_slot, pde_at. rewrite Hpd by lia.
    case_decide as E.
    + rewrite E in *. fold (pde_at (pm st) (mcr3 st) v). rewrite Habs, present_flags, frame_flags by done.
      rewrite Hm2, decide_True; [done|]. unfold table_word. zsolve.
    + destruct (present (ld (pm st) (mcr3 st + 4 * pdi v'))) eqn:Hp'; [|done].
      destruct (Ht (pdi v')) as [Hnc _]; [lia|done|]. pose proof (Hold (pdi v') ltac:(lia) Hp') as HnP.
      set (g := frame_of (ld (pm st) (mcr3 st + 4 * pdi v'))) in *.
      assert (g mod 4096 = 0) by apply frame_aligned. pose proof (sm_align _ _ Hs).
      rewrite Hm2, decide_False, decide_False; [done| |].
      * intros Eq. apply frame_word in Eq; try done; naive_solver lia.
      * unfold table_word. zsolve.
Qed.

(** Where [page_table_add] writes: in the directory entry of [v] and in the
    table [h] it names, which is the one that was there or a free frame. *)
Record added (st : mst) (v : Z) (m' : gmap Z Z) (kp' : pool) (h : Z) : Prop := {
  ad_table : present (pde_at (pm st) (mcr3 st) v) = true ∧ h = frame_of (pde_at (pm st) (mcr3 st) v) ∨ frame_free (kernel_pool st) h ∧ ¬ frame_free kp' h;
  ad_pde : present (pde_at m' (mcr3 st) v) = true ∧ frame_of (pde_at m' (mcr3 st) v) = h;
  ad_dir : ∀ i, 0 ≤ i < 1024 → i ≠ pdi v → ld m' (mcr3 st + 4 * i) = ld (pm st) (mcr3 st + 4 * i);
  ad_rest : ∀ a, ¬ mcr3 st ≤ a < mcr3 st + 4096 → ¬ h ≤ a < h + 4096 → ld m' a = ld (pm st) a
}.

Section page_table_lemmas.
Context {B : Build}.

Lemma page_table_add_spec st v p :
  tables_ok st → managed v → 0 ≤ p < 4294967296 → p mod 4096 = 0 →
  walk (pm st) (mcr3 st) v = Fault →
  (present (pde_at (pm st) (mcr3 st) v) = false → 0 < nfree (kernel_pool st))%nat →
  ∃ m' kp', page_table_add v p st = Ok (tt, with_pm m' (with_pool PF_KERNEL kp' st)) ∧
    shrinks 1 (kernel_pool st) kp' ∧
    let st' := with_pm m' (with_pool PF_KERNEL kp' st) in tables_ok st' ∧ maps_to st st' v p ∧
    (∀ g, data_frame st g → ¬ frame_free (kernel_pool st) g → data_frame st' g) ∧ (∃ h, added st v m' kp' h) ∧
    (present (pde_at (pm st) (mcr3 st) v) = true → kp' = kernel_pool st).
Proof.
  intros HT Hv Hp Ha Hfault Hroom. destruct Hv as [Hv Hi]. pose proof (t_self _ HT) as Hs.
  unfold page_table_add, mbnd, vload at 1. rewrite walk_pde by done. simpl. fold (pde_at (pm st) (mcr3 st) v).
  rewrite present_land, negb_involutive. destruct (present (pde_at (pm st) (mcr3 st) v)) eqn:Hpr.
  - exists (<[pte_slot (pm st) (mcr3 st) v := p + 7]> (pm st)), (kernel_pool st). split.
    + unfold vload. rewrite walk_pte by done. simpl. rewrite !present_land.
      rewrite walk_alt, Hpr in Hfault. destruct (present (ld (pm st) _)); [done|]. simpl.
      unfold massert, mlift. rewrite ASSERT_true by done. simpl.
      unfold vstore. rewrite walk_pte by done. simpl. by rewrite lor_flags by done.
    + split; [apply (shrinks_le 0); [lia|]; apply shrinks_refl, HT|].
      destruct (write_pte_ok st v p HT) as (HT' & Hmap & Hpd); try done. split_and!; try done.
      * intros g [Hg1 Hg2] _. split; [done|]. intros i Hri. simpl in *. rewrite Hpd by lia. by apply Hg2.
      * pose proof (pdi_range v Hv). pose proof (pti_range v). simpl in Hpd. exists (frame_of (pde_at (pm st) (mcr3 st) v)). split; [by left|unfold pde_at at 1 2; by rewrite Hpd by lia|auto|].
        intros a _ Ha'. rewrite ld_insert, decide_False; [done|]. unfold pte_slot. intros ->. lia.
  - destruct (palloc_spec st PF_KERNEL) as (P & kp' & E & T); [apply HT|by apply Hroom|].
    rewrite E. simpl. destruct (frame_free_range _ _ (t_pool _ HT) (pt_was _ _ _ T)) as [HPr HPa].
    assert (HPc : P ≠ mcr3 st) by (intros ->; destruct (t_cr3 _ HT) as [Hc _]; apply Hc, T). simpl in T.
    unfold vstore at 1. simpl. rewrite walk_pde by done. simpl. rewrite lor_flags by (done || lia).
    set (m1 := <[mcr3 st + 4 * pdi v := P + 7]> (pm st)).
    assert (Hpde1 : pde_at m1 (mcr3 st) v = P + 7) by (unfold pde_at, m1; by rewrite ld_insert, decide_True).
    assert (Hs1 : self_mapped m1 (mcr3 st)).
    { eapply self_mapped_write; [exact Hs|unfold m1; by rewrite ld_insert, decide_False by lia|].
      intros a. unfold m1. rewrite ld_insert. case_decide; [zsolve|apply Hs]. }
    rewrite mask_high, pte_ptr_eq by (rewrite ?pte_ptr_eq by done; pose proof (pdi_range v Hv); pose proof (pti_range v); lia).
    pose proof (pti_range v). pose proof (pdi_range v Hv).
    replace (frame_of (4290772992 + pdi v * 4096 + pti v * 4)) with (4290772992 + pdi v * 4096 + 4 * 0)
      by (unfold frame_of; zsolve).
    destruct (vclear_table 1024 (with_pm m1 (with_pool PF_KERNEL kp' st)) v 0) as (m2 & E2 & Hm2);
      simpl; rewrite ?Hpde1, ?present_flags, ?frame_flags by done; try done; try lia.
    simpl in E2. rewrite E2. simpl. simpl in Hm2. rewrite Hpde1, frame_flags in Hm2 by done.
    destruct (new_table_ok st v P kp' m2) as (HT2 & Hpd2 & Hw2); try done.
    { intros a. rewrite Hm2. unfold m1. by rewrite ld_insert. }
    assert (Hpde2 : pde_at m2 (mcr3 st) v = P + 7) by (unfold pde_at; by rewrite Hpd2, decide_True by lia).
    set (st2 := with_pm m2 (with_pool PF_KERNEL kp' st)) in *.
    assert (Hpr2 : present (pde_at m2 (mcr3 st) v) = true) by (rewrite Hpde2; by apply present_flags).
    assert (Hslot : ld m2 (pte_slot m2 (mcr3 st) v) = 0).
    { unfold pte_slot. rewrite Hpde2, frame_flags by done. rewrite Hm2, decide_True; [done|]. unfold table_word. zsolve. }
    exists (<[pte_slot m2 (mcr3 st) v := p + 7]> m2), kp'. rewrite <-pte_ptr_eq by done. split; [|split].
    + unfold vload. simpl. rewrite walk_pte by (done || apply HT2). simpl. rewrite Hslot. simpl.
      unfold massert, mlift. rewrite ASSERT_true by done. simpl. unfold vstore. simpl.
      rewrite walk_pte by (done || apply HT2). simpl. by rewrite lor_flags by done.
    + by eapply shrinks_take.
    + destruct (write_pte_ok st2 v p HT2) as (HT3 & Hmap & Hpd3); try done. split; [done|]. split_and!.
      * intros v' Hv'. specialize (Hmap v' Hv'). simpl in *. rewrite Hmap. case_decide; [done|]. by apply Hw2.
      * intros g [Hg1 Hg2] Hgf. split; [done|]. intros i Hri. simpl in *. rewrite Hpd3, Hpd2 by lia.
        case_decide; [|by apply Hg2]. intros _. rewrite frame_flags by done. intros ->. apply Hgf, T.
      * exists P. simpl in *. split.
        -- right. split; [apply T|]. intros Hx. apply (pt_free _ _ _ T) in Hx. naive_solver.
        -- unfold pde_at at 1 2. rewrite Hpd3 by lia. fold (pde_at m2 (mcr3 st) v). rewrite Hpde2, frame_flags by done. by rewrite present_flags.
        -- intros i Hri Hne. rewrite Hpd3, Hpd2 by lia. by rewrite decide_False.
        -- intros a Ha1 Ha2. rewrite ld_insert, decide_False; [|unfold pte_slot; rewrite Hpde2, frame_flags by done; lia].
           rewrite Hm2, decide_False by (unfold table_word; lia). unfold m1. rewrite ld_insert, decide_False by lia. done.
      * intros Hx. congruence.
Qed.

End page_table_lemmas.

(** ** Allocating pages *)

Record same_env (st st' : mst) : Prop := {
  e_cr3 : mcr3 st' = mcr3 st;
  e_kv : kernel_vaddr st' = kernel_vaddr st;
  e_uv : userprog_vaddr st' = userprog_vaddr st;
  e_self : self st' = self st;
  e_pgdir : self_pgdir st' = self_pgdir st
}.

Lemma same_env_trans st1 st2 st3 : same_env st1 st2 → same_env st2 st3 → same_env st1 st3.
Proof. intros [] []. split; congruence. Qed.

Lemma same_env_pool pf p st : same_env st (with_pool pf p st).
Proof. by destruct pf. Qed.

Lemma tables_shrink pf st p' n : tables_ok st → shrinks n (pool_of pf st) p' → tables_ok (with_pool pf p' st).
Proof.
  intros [Hs Hp Hu Hd Hc Ht Hi] [Ok E1 E2 _ _ Hf _].
  assert (Htk : ∀ g, taken st g → taken (with_pool pf p' st) g) by (intros g [? ?]; destruct pf; split; naive_solver).
  destruct pf; split; simpl in *; rewrite ?E1, ?E2; auto.
  all: intros i Hri Hpi; destruct (Ht i Hri Hpi); auto.
Qed.

(** What a call may take from the two pools. *)
Definition budget (pf : pool_flags) (n : nat) (st : mst) : Prop :=
  match pf with
  | PF_KERNEL => (2 * n ≤ nfree (kernel_pool st))%nat
  | PF_USER => (n ≤ nfree (kernel_pool st))%nat ∧ (n ≤ nfree (user_pool st))%nat
  end.

(** The translation after [fs] have been mapped from [v] on. *)
Definition maps_frames (st st' : mst) (v : Z) (fs : list Z) : Prop :=
  ∀ v', managed v' → walk (pm st') (mcr3 st') v' =
    if decide (v / 4096 ≤ v' / 4096 < v / 4096 + Z.of_nat (length fs))
    then match fs !! Z.to_nat (v' / 4096 - v / 4096) with Some f => Ok (f + v' mod 4096) | None => Fault end
    else walk (pm st) (mcr3 st) v'.

Lemma maps_frames_cons st st1 st2 v f fs :
  v mod 4096 = 0 → maps_to st st1 v f → maps_frames st1 st2 (v + 4096) fs → maps_frames st st2 v (f :: fs).
Proof.
  intros Ha H1 H2 v' Hv'. rewrite (H2 v' Hv'), (H1 v' Hv'). simpl.
  replace ((v + 4096) / 4096) with (v / 4096 + 1) by zsolve.
  destruct (decide (v / 4096 + 1 ≤ v' / 4096 < v / 4096 + 1 + Z.of_nat (length fs))) as [Hin|Hin].
  - rewrite decide_True by lia.
    replace (Z.to_nat (v' / 4096 - v / 4096)) with (S (Z.to_nat (v' / 4096 - (v / 4096 + 1)))) by lia. done.
  - case_decide as E.
    + rewrite decide_True by lia. by rewrite E, Z.sub_diag.
    + by rewrite decide_False by lia.
Qed.

Record mapped (pf : pool_flags) (st st' : mst) (v : Z) (fs : list Z) : Prop := {
  mp_tables : tables_ok st';
  mp_env : same_env st st';
  mp_nodup : NoDup fs;
  mp_fresh : ∀ f, f ∈ fs → frame_free (pool_of pf st) f ∧ ¬ frame_free (pool_of pf st') f;
  mp_kernel : shrinks (2 * length fs) (kernel_pool st) (kernel_pool st');
  mp_user : shrinks (length fs) (user_pool st) (user_pool st');
  mp_walk : maps_frames st st' v fs;
  mp_data : ∀ f, f ∈ fs → data_frame st' f;
  mp_keep : ∀ g, data_frame st g → ¬ frame_free (kernel_pool st) g → data_frame st' g;
  mp_exact : pf = PF_USER → ∀ g, frame_free (user_pool st') g ↔ frame_free (user_pool st) g ∧ g ∉ fs
}.

Section malloc_lemmas.
Context {B : Build}.

(** One turn of the loop of [malloc_page]. *)
Lemma map_one st pf n v :
  tables_ok st → pool_ok (user_pool st) → budget pf (S n) st → managed v → walk (pm st) (mcr3 st) v = Fault →
  ∃ f st1 st2, palloc pf st = Ok (f, st1) ∧ f ≠ NULL ∧ page_table_add v f st1 = Ok (tt, st2) ∧
    budget pf n st2 ∧ tables_ok st2 ∧ same_env st st2 ∧ frame_free (pool_of pf st) f ∧ ¬ frame_free (pool_of pf st2) f ∧
    shrinks 2 (kernel_pool st) (kernel_pool st2) ∧ shrinks 1 (user_pool st) (user_pool st2) ∧ maps_to st st2 v f ∧
    data_frame st2 f ∧ (∀ g, data_frame st g → ¬ frame_free (kernel_pool st) g → data_frame st2 g) ∧
    (pf = PF_USER → ∀ g, frame_free (user_pool st2) g ↔ frame_free (user_pool st) g ∧ g ≠ f).
Proof.
  intros HT Hu Hb Hv Hf.
  assert (Hpo : pool_ok (pool_of pf st)) by (destruct pf; [apply HT|done]).
  destruct (palloc_spec st pf Hpo) as (f & p' & E & T); [destruct pf; simpl in *; lia|].
  destruct (frame_free_range _ _ Hpo (pt_was _ _ _ T)) as [Hfr Hfa].
  set (st1 := with_pool pf p' st).
  assert (HT1 : tables_ok st1) by (eapply tables_shrink; [done|by eapply shrinks_take]).
  destruct (page_table_add_spec st1 v f HT1 Hv) as (m' & kp' & E2 & Hsh & HT2 & Hmap & Hdat & _); [lia|done|by destruct pf| |].
  { intros _. pose proof (pt_nfree _ _ _ T). destruct pf; simpl in *; lia. }
  exists f, st1, (with_pm m' (with_pool PF_KERNEL kp' st1)). pose proof (pt_nfree _ _ _ T) as Hn. pose proof (s_nfree _ _ _ Hsh).
  split_and!; try done.
  - unfold NULL. lia.
  - destruct pf; simpl in *; lia.
  - by destruct pf.
  - apply T.
  - destruct pf; simpl in *; [intros Hx; apply (s_free _ _ _ Hsh) in Hx|intros Hx]; apply (pt_free _ _ _ T) in Hx; naive_solver.
  - destruct pf; simpl in *; [eapply (shrinks_trans 1 1); [by eapply shrinks_take|done]|by apply (shrinks_le 1); [lia|]].
  - destruct pf; simpl in *; [apply (shrinks_le 0); [lia|by apply shrinks_refl]|by eapply shrinks_take].
  - intros v' Hv'. rewrite (Hmap v' Hv'). by destruct pf.
  - apply Hdat; [pose proof (free_data _ _ _ HT (pt_was _ _ _ T)); by destruct pf|].
    destruct pf; simpl; [intros Hx; apply (pt_free _ _ _ T) in Hx; naive_solver|].
    intros Hx. eapply (pools_disjoint st); [done|exact Hx|apply T].
  - intros g Hg Hgf. apply Hdat; [by destruct pf|]. destruct pf; simpl in *; [|done].
    intros Hx. apply (pt_free _ _ _ T) in Hx. naive_solver.
  - intros ->. apply (pt_free _ _ _ T).
Qed.

Lemma map_pages_spec n st pf v :
  tables_ok st → pool_ok (user_pool st) → budget pf n st → v mod 4096 = 0 →
  (∀ k, 0 ≤ k < Z.of_nat n → managed (v + 4096 * k) ∧ walk (pm st) (mcr3 st) (v + 4096 * k) = Fault) →
  0 ≤ v → v + 4096 * Z.of_nat n ≤ 4290772992 →
  ∃ st' fs, map_pages n pf v st = Ok (true, st') ∧ length fs = n ∧ mapped pf st st' v fs.
Proof.
  revert st v. induction n as [|n IH]; intros st v HT Hu Hb Ha Hpg Hv0 Hv1.
  - exists st, []. split; [done|]. split; [done|]. split; try done.
    + constructor.
    + by intros f ?%not_elem_of_nil.
    + apply shrinks_refl, HT.
    + intros v' _. by rewrite decide_False by (simpl; lia).
    + by intros f ?%not_elem_of_nil.
    + intros _ g. split; [intros ?; split; [done|by apply not_elem_of_nil]|by intros [? _]].
  - destruct (Hpg 0 ltac:(lia)) as [Hm Hf]. rewrite Z.mul_0_r, Z.add_0_r in Hm, Hf.
    destruct (map_one st pf n v HT Hu Hb Hm Hf) as
      (f & st1 & st2 & E1 & Hfn & E2 & Hb2 & HT2 & Henv & Hff & Hnf & Hk & Hus & Hmap & Hdf & Hkeep & Hex).
    destruct (IH st2 (v + 4096)) as (st' & fs & E & Hl & [M1 M2 M3 M4 M5 M6 M7 M8 M9 M10]); try done.
    { apply Hus. } { zsolve. }
    { intros k Hk'. destruct (Hpg (k + 1) ltac:(lia)) as [Hm' Hf'].
      replace (v + 4096 + 4096 * k) with (v + 4096 * (k + 1)) by lia. split; [done|].
      rewrite (Hmap _ Hm'), decide_False; [done|]. zsolve. }
    { lia. } { lia. }
    exists st', (f :: fs). split.
    + simpl. unfold mbnd. rewrite E1. simpl. rewrite (proj2 (Z.eqb_neq f NULL)) by done. rewrite E2. simpl.
      unfold PG_SIZE. rewrite u32_small by lia. done.
    + split; [simpl; lia|]. split; try done.
      * by eapply same_env_trans.
      * constructor; [|done]. intros Hin. apply Hnf, M4, Hin.
      * intros g [->|Hg]%elem_of_cons.
        -- split; [done|]. intros Hx. apply Hnf. destruct pf; [by apply (s_free _ _ _ M5)|by apply (s_free _ _ _ M6)].
        -- destruct (M4 g Hg) as [Hx ?]. split; [|done]. destruct pf; [by apply (s_free _ _ _ Hk)|by apply (s_free _ _ _ Hus)].
      * replace (2 * length (f :: fs))%nat with (2 + 2 * length fs)%nat by (simpl; lia). by eapply shrinks_trans.
      * change (length (f :: fs)) with (1 + length fs)%nat. by eapply shrinks_trans.
      * by eapply maps_frames_cons.
      * intros g [->|Hg]%elem_of_cons; [|by apply M8]. apply M9; [done|].
        destruct pf; [done|]. intros Hx. apply (s_free _ _ _ Hk) in Hx. by eapply (pools_disjoint st).
      * intros g Hg Hgf. apply M9; [by apply Hkeep|]. intros Hx. by apply Hgf, (s_free _ _ _ Hk).
      * intros Hpf g. rewrite (M10 Hpf), (Hex Hpf), not_elem_of_cons. tauto.
Qed.

Lemma set_bits_spec n b i v :
  bitmap_ok b → 0 ≤ i → i + Z.of_nat n ≤ bit_cnt b → v = 0 ∨ v = 1 →
  ∃ b', set_bits n b i v = Ok b' ∧ bitmap_ok b' ∧ bit_cnt b' = bit_cnt b ∧ (slack b → slack b') ∧
    ∀ j, 0 ≤ j → bit b' j = if decide (i ≤ j < i + Z.of_nat n) then v =? 1 else bit b j.
Proof.
  revert b i. induction n as [|n IH]; intros b i Hb Hi Hn Hv.
  - exists b. split_and!; try done. intros j Hj. by rewrite decide_False by lia.
  - destruct (bitmap_set_spec b i v) as (b1 & E & Hb1 & Hl & Hlen & Hbit); [done..| |done|].
    { destruct Hb. unfold bit_cnt in Hn. zsolve. }
    destruct (IH b1 (i + 1)) as (b' & E' & Hb' & Hc' & Hs' & Hbit'); try done; [lia|unfold bit_cnt in *; lia|].
    assert (i < 2147483648) by (destruct Hb; unfold bit_cnt in *; lia).
    exists b'. simpl. rewrite u32_small by lia. rewrite E. simpl. split_and!; try done.
    + unfold bit_cnt in *. lia.
    + intros Hs. apply Hs'. unfold slack in *. by rewrite Hl, Hlen.
    + intros j Hj. rewrite Hbit', Hbit by lia. repeat case_decide; try done; lia.
Qed.

End malloc_lemmas.

(** ** Virtual address pools *)

(** The addresses a pool may hand out have tables of their own and are not
    mapped; a user address stays below the stack page. *)
Record vpool_ok (pf : pool_flags) (st : mst) : Prop := {
  vo_bitmap : bitmap_ok (vaddr_bitmap (vaddr_of pf st));
  vo_slack : slack (vaddr_bitmap (vaddr_of pf st));
  vo_align : vaddr_start (vaddr_of pf st) mod 4096 = 0;
  vo_range : 4194304 ≤ vaddr_start (vaddr_of pf st) ∧
    vaddr_start (vaddr_of pf st) + 4096 * bit_cnt (vaddr_bitmap (vaddr_of pf st)) ≤ 4290772992;
  vo_top : pf = PF_USER → ∀ i, 0 ≤ i < bit_cnt (vaddr_bitmap (vaddr_of pf st)) →
    bit (vaddr_bitmap (vaddr_of pf st)) i = false → vaddr_start (vaddr_of pf st) + 4096 * i < 3221221376;
  vo_free : ∀ i, 0 ≤ i < bit_cnt (vaddr_bitmap (vaddr_of pf st)) → bit (vaddr_bitmap (vaddr_of pf st)) i = false →
    walk (pm st) (mcr3 st) (vaddr_start (vaddr_of pf st) + 4096 * i) = Fault
}.

(** The bits of the [n] pages from [v] are [b], the others as before. *)
Definition range_bits (pf : pool_flags) (st st' : mst) (v n : Z) (b : bool) : Prop :=
  vaddr_start (vaddr_of pf st') = vaddr_start (vaddr_of pf st) ∧
  bit_cnt (vaddr_bitmap (vaddr_of pf st')) = bit_cnt (vaddr_bitmap (vaddr_of pf st)) ∧
  ∀ i, 0 ≤ i < bit_cnt (vaddr_bitmap (vaddr_of pf st)) →
    bit (vaddr_bitmap (vaddr_of pf st')) i =
      if decide (v ≤ vaddr_start (vaddr_of pf st) + 4096 * i < v + 4096 * n) then b
      else bit (vaddr_bitmap (vaddr_of pf st)) i.

Lemma managed_range v i : v mod 4096 = 0 → 4194304 ≤ v → 0 ≤ i → v + 4096 * i + 4096 ≤ 4290772992 → managed (v + 4096 * i).
Proof. intros. unfold managed, pdi. split; [lia|zsolve]. Qed.

Section malloc_page_lemmas.
Context {B : Build}.

Lemma vaddr_get_spec st pf cnt j :
  vpool_ok pf st → 1 ≤ cnt < 3840 → 0 ≤ j → j + cnt ≤ bit_cnt (vaddr_bitmap (vaddr_of pf st)) →
  run_free (vaddr_bitmap (vaddr_of pf st)) j cnt →
  ∃ v r st1, vaddr_get pf cnt st = Ok (v, st1) ∧ v = vaddr_start (vaddr_of pf st) + 4096 * r ∧
    0 ≤ r ∧ r + cnt ≤ bit_cnt (vaddr_bitmap (vaddr_of pf st)) ∧ run_free (vaddr_bitmap (vaddr_of pf st)) r cnt ∧
    range_bits pf st st1 v cnt true ∧ bitmap_ok (vaddr_bitmap (vaddr_of pf st1)) ∧ slack (vaddr_bitmap (vaddr_of pf st1)) ∧
    (∃ b, st1 = with_vaddr pf (VAddr b (vaddr_start (vaddr_of pf st))) st).
Proof.
  intros [Hb Hs Ha Hr Htop Hfr] Hc Hj Hfit Hrun.
  destruct (bitmap_scan_fits _ cnt j Hb Hs) as (r & E & Hr0 & Hrc & Hrf); [lia|done..|].
  destruct (set_bits_spec (Z.to_nat cnt) (vaddr_bitmap (vaddr_of pf st)) r 1) as (b' & Es & Hb' & Hc' & Hs' & Hbits);
    [done|lia|lia|by right|].
  set (v := vaddr_start (vaddr_of pf st) + 4096 * r).
  exists v, r, (with_vaddr pf (VAddr b' (vaddr_start (vaddr_of pf st))) st). split_and!; try done; try lia.
  - unfold vaddr_get, mbnd, mget, mlift. simpl. rewrite E. simpl. rewrite (proj2 (Z.eqb_neq r (-1))) by lia. simpl.
    rewrite Es. simpl. unfold PG_SIZE. rewrite u32_small by lia.
    replace (vaddr_start (vaddr_of pf st) + r * 4096) with v by (unfold v; lia).
    destruct pf; [done|]. unfold massert, mlift. rewrite ASSERT_true; [done|]. apply Z.ltb_lt.
    apply Htop; [done|lia|apply Hrf; lia].
  - unfold range_bits. destruct pf; simpl; (split; [done|split; [done|]]).
    all: intros i Hi; rewrite Hbits by lia; simpl in *; unfold v; repeat case_decide; try done; lia.
  - by destruct pf.
  - destruct pf; by apply Hs'.
  - by exists b'.
Qed.

Lemma malloc_page_spec st pf cnt j :
  tables_ok st → vpool_ok pf st → 1 ≤ cnt < 3840 → 0 ≤ j → j + cnt ≤ bit_cnt (vaddr_bitmap (vaddr_of pf st)) →
  run_free (vaddr_bitmap (vaddr_of pf st)) j cnt → budget pf (Z.to_nat cnt) st →
  ∃ v r st1 st' fs, malloc_page pf cnt st = Ok (v, st') ∧ Z.of_nat (length fs) = cnt ∧
    v = vaddr_start (vaddr_of pf st) + 4096 * r ∧ 0 ≤ r ∧ r + cnt ≤ bit_cnt (vaddr_bitmap (vaddr_of pf st)) ∧
    run_free (vaddr_bitmap (vaddr_of pf st)) r cnt ∧
    pm st1 = pm st ∧ mcr3 st1 = mcr3 st ∧ kernel_pool st1 = kernel_pool st ∧ user_pool st1 = user_pool st ∧
    mapped pf st1 st' v fs ∧ range_bits pf st st' v cnt true ∧ vpool_ok pf st' ∧ self st' = self st ∧ self_pgdir st' = self_pgdir st ∧
    (∀ pf', pf' ≠ pf → vaddr_of pf' st' = vaddr_of pf' st).
Proof.
  intros HT HV Hc Hj Hfit Hrun Hbud.
  destruct (vaddr_get_spec st pf cnt j HV Hc Hj Hfit Hrun) as (v & r & st1 & E & Ev & Hr0 & Hrc & Hrf & Hrb & Hb1 & Hs1 & b & Est).
  pose proof HV as [Hb Hs Ha Hr Htop Hfr].
  assert (Heq : pm st1 = pm st ∧ mcr3 st1 = mcr3 st ∧ kernel_pool st1 = kernel_pool st ∧ user_pool st1 = user_pool st)
    by (subst; by destruct pf). destruct Heq as (Q1 & Q2 & Q3 & Q4).
  assert (HT1 : tables_ok st1) by (destruct HT; split; unfold taken; rewrite ?Q1, ?Q2, ?Q3, ?Q4; done).
  assert (Hpg : ∀ k, 0 ≤ k < cnt → managed (v + 4096 * k) ∧ walk (pm st1) (mcr3 st1) (v + 4096 * k) = Fault).
  { intros k Hk. rewrite Ev, <-Z.add_assoc, <-Z.mul_add_distr_l. split; [apply managed_range; lia|].
    rewrite Q1, Q2. apply Hfr; [lia|apply Hrf; lia]. }
  destruct (map_pages_spec (Z.to_nat cnt) st1 pf v HT1) as (st' & fs & E2 & Hl & Hmp).
  { rewrite Q4. apply HT. } { destruct pf; simpl in *; rewrite ?Q3, ?Q4; done. } { rewrite Ev. zsolve. }
  { intros k Hk. apply Hpg. lia. } { lia. } { lia. }
  assert (Hve : vaddr_of pf st' = vaddr_of pf st1) by (destruct pf; apply (mp_env _ _ _ _ _ Hmp)).
  destruct Hrb as (R1 & R2 & R3).
  exists v, r, st1, st', fs. split_and!; try done; try lia.
  - unfold malloc_page, mbnd, massert, mlift. rewrite ASSERT_true by (apply andb_true_iff; split; apply Z.ltb_lt; lia).
    simpl. rewrite E. simpl. rewrite (proj2 (Z.eqb_neq v NULL)) by (unfold NULL; lia). simpl. by rewrite E2.
  - unfold range_bits. by rewrite Hve.
  - split; rewrite ?Hve; rewrite ?R1, ?R2; try done.
    + intros Hu i Hi Hbit. rewrite R3 in Hbit by lia. case_decide; [done|]. by apply Htop.
    + intros i Hi Hbit. rewrite R3 in Hbit by lia. case_decide as Hd; [done|].
      rewrite (mp_walk _ _ _ _ _ Hmp) by (apply managed_range; lia). rewrite decide_False by zsolve.
      rewrite Q1, Q2. by apply Hfr.
  - rewrite (e_self _ _ (mp_env _ _ _ _ _ Hmp)). subst st1. by destruct pf.
  - rewrite (e_pgdir _ _ (mp_env _ _ _ _ _ Hmp)). subst st1. by destruct pf.
  - intros pf' Hne. transitivity (vaddr_of pf' st1); [destruct pf'; apply (mp_env _ _ _ _ _ Hmp)|]. subst st1. by destruct pf, pf'.
Qed.

End malloc_page_lemmas.

(** ** Freeing pages *)

Lemma mask_low v : 0 ≤ v → Z.land v 4095 = v mod 4096.
Proof. intros. change 4095 with (Z.ones 12). by rewrite Z.land_ones by lia. Qed.

Lemma walk_Ok_inv m c v f :
  walk m c v = Ok f → present (pde_at m c v) = true ∧ present (ld m (pte_slot m c v)) = true ∧
    f = frame_of (ld m (pte_slot m c v)) + v mod 4096.
Proof. rewrite walk_alt. repeat case_match; naive_solver. Qed.

Section unmap_lemmas.
Context {B : Build}.

(** [addr_v2p] is the translation the processor makes. *)
Lemma addr_v2p_spec st v f :
  self_mapped (pm st) (mcr3 st) → 0 ≤ v < 4294967296 → walk (pm st) (mcr3 st) v = Ok f →
  addr_v2p v st = Ok (f, st).
Proof.
  intros Hs Hv Hw. apply walk_Ok_inv in Hw as (Hp & Hp' & ->).
  unfold addr_v2p, mbnd, vload. rewrite walk_pte by done. simpl. unfold mok.
  pose proof (sm_words _ _ Hs (pte_slot (pm st) (mcr3 st) v)).
  rewrite mask_high, mask_low by lia. do 2 f_equal. apply u32_small. unfold frame_of. zsolve.
Qed.

Lemma pte_clear e : 0 ≤ e < 4294967296 → 0 ≤ u32 (Z.land e (Z.lnot 1)) < 4294967296 ∧ present (u32 (Z.land e (Z.lnot 1))) = false.
Proof.
  intros He. split; [apply u32_range|]. unfold present, u32.
  assert (Z.land e (Z.lnot 1) = 2 * (e / 2)) as ->.
  { rewrite <-Z.ldiff_land. change 1 with (Z.ones 1). rewrite Z.ldiff_ones_r by lia.
    rewrite Z.shiftl_mul_pow2, Z.shiftr_div_pow2 by lia. change (2 ^ 1) with 2. lia. }
  rewrite Z.mod_small by zsolve. by rewrite Z.odd_mul.
Qed.

(** The state after [page_table_pte_remove] and [pfree] of the frame below it. *)
Lemma unmap_tables st v m' pf p' f :
  tables_ok st → managed v → present (pde_at (pm st) (mcr3 st) v) = true →
  (∃ w, 0 ≤ w < 4294967296 ∧ present w = false ∧ m' = <[pte_slot (pm st) (mcr3 st) v := w]> (pm st)) →
  data_frame st f → pool_ok p' → phy_addr_start p' = phy_addr_start (pool_of pf st) →
  bit_cnt (pool_bitmap p') = bit_cnt (pool_bitmap (pool_of pf st)) →
  (∀ g, frame_free p' g ↔ frame_free (pool_of pf st) g ∨ g = f) →
  let st' := with_pm m' (with_pool pf p' st) in
  tables_ok st' ∧ (∀ g, data_frame st g → data_frame st' g) ∧
  ∀ v', managed v' → walk m' (mcr3 st) v' = if decide (v' / 4096 = v / 4096) then Fault else walk (pm st) (mcr3 st) v'.
Proof.
  intros [Hs Hpool Hup Hdis Hc Ht Hinj] [Hv Hi] Hpr (w & Hw & Hwp & ->) [Hd1 Hd2] Hok Hst Hcnt Hfree st'.
  destruct (Ht (pdi v)) as [Hne _]; [lia|done|]. fold (pde_at (pm st) (mcr3 st) v) in Hne. pose proof (pti_range v).
  set (m' := <[pte_slot (pm st) (mcr3 st) v := w]> (pm st)) in *.
  assert (Hpd : ∀ i, 0 ≤ i < 1024 → ld m' (mcr3 st + 4 * i) = ld (pm st) (mcr3 st + 4 * i)).
  { intros i Hri. unfold m'. rewrite ld_insert, decide_False; [done|]. intros E.
    apply frame_word in E as [E _]; [done|apply Hs|apply frame_aligned|lia|lia]. }
  assert (Htk : ∀ g, taken st g → g ≠ f → taken st' g).
  { intros g [? ?] Hg. unfold taken, st'. destruct pf; simpl in *; split; try done; rewrite Hfree; naive_solver. }
  assert (Hm : mcr3 st' = mcr3 st) by (by destruct pf).
  split; [|split].
  - split; rewrite ?Hm; simpl; try done.
    + eapply self_mapped_write; [exact Hs|apply (Hpd 1023); lia|].
      intros a. unfold m'. rewrite ld_insert. case_decide; [done|apply Hs].
    + by destruct pf.
    + by destruct pf.
    + destruct pf; simpl in *; lia.
    + by apply Htk.
    + intros i Hri. rewrite Hpd by lia. intros Hpi. destruct (Ht i Hri Hpi). split; [done|]. apply Htk; [done|]. by apply Hd2.
    + intros i j Hri Hrj. rewrite !Hpd by lia. by apply Hinj.
  - intros g [Hg1 Hg2]. split; rewrite ?Hm; [done|]. intros i Hri. simpl. rewrite Hpd by lia. by apply Hg2.
  - intros v' [Hv' Hi']. rewrite (walk_same_pde (pm st)) by (apply Hpd; lia). rewrite (walk_alt (pm st)). unfold m'. rewrite ld_insert.
    pose proof (pti_range v'). destruct (decide (v' / 4096 = v / 4096)) as [E|E].
    + apply same_page in E as [E1 E2]; [|done..]. rewrite decide_True by (unfold pte_slot, pde_at; by rewrite E1, E2).
      rewrite Hwp. by destruct (present (pde_at (pm st) (mcr3 st) v')).
    + destruct (present (pde_at (pm st) (mcr3 st) v')) eqn:Hpr'; [|done].
      rewrite decide_False; [done|]. intros Eq. apply frame_word in Eq as [Eq1 Eq2]; try apply frame_aligned; try lia.
      apply E, same_page; try done. split; [|done]. eapply Hinj; eauto.
Qed.

(** The frames [fs] of pool [pf] are mapped from [v] on. *)
Definition backed (pf : pool_flags) (st : mst) (v : Z) (fs : list Z) : Prop :=
  ∀ k f, fs !! k = Some f → managed (v + 4096 * Z.of_nat k) ∧
    walk (pm st) (mcr3 st) (v + 4096 * Z.of_nat k) = Ok f ∧ data_frame st f ∧
    ∃ i, 0 ≤ i < bit_cnt (pool_bitmap (pool_of pf st)) ∧ f = phy_addr_start (pool_of pf st) + 4096 * i.

Record unmapped (pf : pool_flags) (st st' : mst) (v : Z) (fs : list Z) : Prop := {
  um_tables : tables_ok st';
  um_env : same_env st st';
  um_other : ∀ pf', pf' ≠ pf → pool_of pf' st' = pool_of pf' st;
  um_start : phy_addr_start (pool_of pf st') = phy_addr_start (pool_of pf st);
  um_cnt : bit_cnt (pool_bitmap (pool_of pf st')) = bit_cnt (pool_bitmap (pool_of pf st));
  um_lock : pool_lock (pool_of pf st') = pool_lock (pool_of pf st);
  um_free : ∀ g, frame_free (pool_of pf st') g ↔ frame_free (pool_of pf st) g ∨ g ∈ fs;
  um_data : ∀ g, data_frame st g → data_frame st' g;
  um_walk : ∀ v', managed v' → walk (pm st') (mcr3 st') v' =
    if decide (v / 4096 ≤ v' / 4096 < v / 4096 + Z.of_nat (length fs)) then Fault else walk (pm st) (mcr3 st) v'
}.

Lemma unmap_pages_spec fs st pf v :
  tables_ok st → v mod 4096 = 0 → 4096 ≤ v → v + 4096 * Z.of_nat (length fs) ≤ 4290772992 → backed pf st v fs →
  ∃ st', unmap_pages (length fs) (bool_decide (pf = PF_USER)) (v - 4096) st = Ok (tt, st') ∧ unmapped pf st st' v fs.
Proof.
  revert st v. induction fs as [|f fs IH]; intros st v HT Ha Hv0 Hv1 Hbk.
  - exists st. split; [done|]. split; try done.
    + intros g. set_solver.
    + intros v' _. by rewrite decide_False by (simpl; lia).
  - destruct (Hbk O f eq_refl) as (Hm & Hw & Hd & i & Hi & Ef). change (Z.of_nat 0) with 0 in Hm, Hw.
    rewrite Z.mul_0_r, Z.add_0_r in Hm, Hw. pose proof Hm as [Hvr Hpi].
    destruct (walk_Ok_inv _ _ _ _ Hw) as (Hp & Hp' & Hf).
    pose proof (t_pool _ HT) as Hkp. pose proof (t_upool _ HT) as Hup. pose proof (t_disj _ HT) as Hdis.
    destruct (pfree_spec st pf i Hkp Hup Hdis Hi) as (p' & Ep & Hp'ok & Hst & Hcnt & Hlk & Hfree). rewrite <-Ef in Ep, Hfree.
    destruct (pte_clear (ld (pm st) (pte_slot (pm st) (mcr3 st) v))) as [Hwr Hwp]; [apply (sm_words _ _ (t_self _ HT))|].
    set (w := u32 (Z.land (ld (pm st) (pte_slot (pm st) (mcr3 st) v)) (Z.lnot 1))) in *.
    set (m' := <[pte_slot (pm st) (mcr3 st) v := w]> (pm st)).
    destruct (unmap_tables st v m' pf p' f HT Hm Hp) as (HT' & Hdat & Hwalk); try done; [by exists w|].
    set (st2 := with_pm m' (with_pool pf p' st)) in *. assert (Hc2 : mcr3 st2 = mcr3 st) by (by destruct pf).
    assert (Hp2 : pool_of pf st2 = p') by (by destruct pf).
    destruct (IH st2 (v + 4096)) as (st' & E & U); [done|zsolve|lia|simpl in Hv1; lia| |].
    { intros k g Hg. destruct (Hbk (S k) g Hg) as (Hm2 & Hw2 & Hd2 & Hx).
      replace (v + 4096 + 4096 * Z.of_nat k) with (v + 4096 * Z.of_nat (S k)) by lia. split; [done|]. split.
      - rewrite Hc2. change (pm st2) with m'. rewrite Hwalk, decide_False by (done || zsolve). done.
      - split; [by apply Hdat|]. by rewrite Hp2, Hst, Hcnt. }
    exists st'. split.
    + simpl. unfold mbnd at 1, PG_SIZE. replace (u32 (v - 4096 + 4096)) with v by (rewrite u32_small; lia).
      rewrite (addr_v2p_spec st v f (t_self _ HT) Hvr Hw). simpl. unfold mbnd, mget, massert, mlift. simpl.
      rewrite ASSERT_true.
      2: { apply andb_true_iff. split; [apply Z.eqb_eq; rewrite Hf, Ha, Z.add_0_r; apply frame_aligned|].
           clear -Hi Ef Hdis. destruct pf; simpl in *;
             rewrite ?andb_true_iff, ?Z.leb_le, ?Z.ltb_lt; lia. }
      simpl. rewrite Ep. simpl. unfold page_table_pte_remove, mbnd, vload, vstore.
      assert (Q : pm (with_pool pf p' st) = pm st ∧ mcr3 (with_pool pf p' st) = mcr3 st) by (by destruct pf). destruct Q as [-> ->].
      rewrite walk_pte by (done || apply HT). simpl.
      assert (Q : pm (with_pool pf p' st) = pm st ∧ mcr3 (with_pool pf p' st) = mcr3 st) by (by destruct pf). destruct Q as [-> ->].
      rewrite walk_pte by (done || apply HT). simpl. fold w. fold m'. fold st2.
      replace v with (v + 4096 - 4096) by lia. exact E.
    + destruct U as [U1 U2 U3 U4 U5 Ul U6 Ud U7]. rewrite Hp2 in *. split; try done.
      * eapply same_env_trans; [|exact U2]. by destruct pf.
      * intros pf' Hne. rewrite (U3 pf' Hne). by destruct pf, pf'.
      * congruence.
      * congruence.
      * congruence.
      * intros g. rewrite U6, Hfree, elem_of_cons. naive_solver.
      * intros g Hg. by apply Ud, Hdat.
      * intros v' Hv'. rewrite (U7 v' Hv'), Hc2. change (pm st2) with m'. rewrite (Hwalk v' Hv').
        simpl length. replace ((v + 4096) / 4096) with (v / 4096 + 1) by zsolve. repeat case_decide; try done; lia.
Qed.

End unmap_lemmas.

Section mfree_lemmas.
Context {B : Build}.

Lemma pool_side st pf i :
  tables_ok st → 0 ≤ i < bit_cnt (pool_bitmap (pool_of pf st)) →
  (phy_addr_start (user_pool st) <=? phy_addr_start (pool_of pf st) + 4096 * i) = bool_decide (pf = PF_USER).
Proof.
  intros HT Hi. pose proof (t_disj _ HT). destruct pf; simpl in *; [apply Z.leb_gt|apply Z.leb_le]; lia.
Qed.

Lemma mfree_page_spec st pf v fs r :
  tables_ok st → 1056768 ≤ phy_addr_start (kernel_pool st) → fs ≠ [] → backed pf st v fs →
  bitmap_ok (vaddr_bitmap (vaddr_of pf st)) → vaddr_start (vaddr_of pf st) mod 4096 = 0 →
  4194304 ≤ vaddr_start (vaddr_of pf st) →
  vaddr_start (vaddr_of pf st) + 4096 * bit_cnt (vaddr_bitmap (vaddr_of pf st)) ≤ 4290772992 →
  v = vaddr_start (vaddr_of pf st) + 4096 * r → 0 ≤ r →
  r + Z.of_nat (length fs) ≤ bit_cnt (vaddr_bitmap (vaddr_of pf st)) →
  ∃ st1 st', mfree_page pf v (Z.of_nat (length fs)) st = Ok (tt, st') ∧ unmapped pf st st1 v fs ∧
    pm st' = pm st1 ∧ mcr3 st' = mcr3 st1 ∧ kernel_pool st' = kernel_pool st1 ∧ user_pool st' = user_pool st1 ∧
    range_bits pf st st' v (Z.of_nat (length fs)) false ∧
    bitmap_ok (vaddr_bitmap (vaddr_of pf st')) ∧ (slack (vaddr_bitmap (vaddr_of pf st)) → slack (vaddr_bitmap (vaddr_of pf st'))) ∧
    self st' = self st ∧ self_pgdir st' = self_pgdir st ∧ (∀ pf', pf' ≠ pf → vaddr_of pf' st' = vaddr_of pf' st).
Proof.
  intros HT Hlow Hne Hbk Hb Ha Hs0 Hs1 Ev Hr0 Hr1. set (n := Z.of_nat (length fs)) in *.
  assert (Hva : v mod 4096 = 0) by (rewrite Ev; zsolve).
  destruct (unmap_pages_spec fs st pf v HT Hva) as (st1 & E & U); [lia|fold n; lia|done|].
  destruct fs as [|f fs]; [done|]. destruct (Hbk O f eq_refl) as (Hm & Hw & _ & i & Hi & Ef).
  change (Z.of_nat 0) with 0 in Hm, Hw. rewrite Z.mul_0_r, Z.add_0_r in Hm, Hw.
  destruct (walk_Ok_inv _ _ _ _ Hw) as (_ & _ & Hf).
  assert (Hve : vaddr_of pf st1 = vaddr_of pf st) by (destruct pf; apply (um_env _ _ _ _ _ U)).
  destruct (set_bits_spec (Z.to_nat n) (vaddr_bitmap (vaddr_of pf st)) r 0) as (b' & Es & Hb' & Hc' & Hsl & Hbits);
    [done|lia|lia|by left|].
  exists st1, (with_vaddr pf (VAddr b' (vaddr_start (vaddr_of pf st))) st1).
  split; [|split; [done|]].
  - unfold mfree_page, mbnd, massert, mlift, mget, PG_SIZE.
    rewrite ASSERT_true by (apply andb_true_iff; split; [apply Z.leb_le; unfold n; simpl; lia|by apply Z.eqb_eq]). simpl.
    rewrite (addr_v2p_spec st v f (t_self _ HT) (proj1 Hm) Hw). simpl. rewrite ASSERT_true.
    2: { apply andb_true_iff. split; [apply Z.eqb_eq; rewrite Hf, Hva, Z.add_0_r; apply frame_aligned|].
         apply Z.leb_le. pose proof (t_disj _ HT). destruct (po_bitmap _ (t_pool _ HT)). unfold bit_cnt in *.
         destruct pf; simpl in *; lia. }
    simpl. rewrite Ef, (pool_side st pf i HT Hi). rewrite u32_small by (destruct Hm; lia).
    replace (Z.to_nat n) with (length (f :: fs)) by lia. rewrite E. simpl.
    unfold vaddr_remove, mbnd, mget, mlift, PG_SIZE. simpl. rewrite Hve.
    replace (u32 (v - vaddr_start (vaddr_of pf st)) / 4096) with r by (rewrite u32_small by (destruct Hm; lia); zsolve).
    rewrite Es. simpl. unfold set_vaddr_bitmap, mmod. by rewrite Hve.
  - pose proof (e_self _ _ (um_env _ _ _ _ _ U)) as Hself. pose proof (e_pgdir _ _ (um_env _ _ _ _ _ U)) as Hpgd.
    pose proof (e_kv _ _ (um_env _ _ _ _ _ U)) as Hkv. pose proof (e_uv _ _ (um_env _ _ _ _ _ U)) as Huv.
    split_and!; try (by destruct pf); [|by intros []; destruct pf]. unfold range_bits. destruct pf; simpl; (split; [done|split; [done|]]).
    all: intros j Hj; rewrite Hbits by lia; simpl in *; rewrite Ev; repeat case_decide; try done; lia.
Qed.

End mfree_lemmas.

(** ** Theorems *)

Section paging_theorems.
Context {B : Build}.

(** C36: The self-map works. When the last directory entry points at the
    directory, [pde_ptr] and [pte_ptr] are virtual addresses of the directory
    entry and of the table entry of [v], and [addr_v2p] computes the address the
    processor translates [v] to. *)
Theorem self_map_correct (st : mst) (v : Z) :
  self_mapped (pm st) (mcr3 st) → 0 ≤ v < 4294967296 →
  walk (pm st) (mcr3 st) (pde_ptr v) = Ok (mcr3 st + 4 * pdi v) ∧
  (present (ld (pm st) (mcr3 st + 4 * pdi v)) = true →
     walk (pm st) (mcr3 st) (pte_ptr v) = Ok (frame_of (ld (pm st) (mcr3 st + 4 * pdi v)) + 4 * pti v)) ∧
  (∀ f, walk (pm st) (mcr3 st) v = Ok f → addr_v2p v st = Ok (f, st)).
Proof.
  intros Hs Hv. split_and!; [by apply walk_pde|by apply walk_pte|]. intros f Hw. by apply addr_v2p_spec.
Qed.

(** C16: [page_table_add] installs exactly one mapping.  In a well-formed
    address space, let [v] be an unmapped address outside the first 4 MB and
    outside the window of the page tables (the last 4 MB), and [p] a frame; if
    [v] has no page table yet, the kernel pool must have a frame for it.  Then
    the call returns without panic, takes at most one frame from the kernel pool
    and none when the table was there, translates every address of the page of
    [v] into the frame [p] and every other address outside these two areas as
    before, and keeps the address space well-formed. *)
Theorem page_table_add_maps (st : mst) (v p : Z) :
  tables_ok st → managed v → 0 ≤ p < 4294967296 → p mod 4096 = 0 →
  walk (pm st) (mcr3 st) v = Fault → (present (pde_at (pm st) (mcr3 st) v) = false → 0 < nfree (kernel_pool st))%nat →
  ∃ st', page_table_add v p st = Ok (tt, st') ∧ tables_ok st' ∧ same_env st st' ∧
    user_pool st' = user_pool st ∧ shrinks 1 (kernel_pool st) (kernel_pool st') ∧
    (present (pde_at (pm st) (mcr3 st) v) = true → ∀ g, frame_free (kernel_pool st') g ↔ frame_free (kernel_pool st) g) ∧
    ∀ v', managed v' → walk (pm st') (mcr3 st') v' =
      if decide (v' / 4096 = v / 4096) then Ok (p + v' mod 4096) else walk (pm st) (mcr3 st) v'.
Proof.
  intros HT Hv Hp Ha Hf Hn.
  destruct (page_table_add_spec st v p HT Hv Hp Ha Hf Hn) as (m' & kp' & E & Hsh & HT' & Hmap & _ & _ & Hkeep).
  eexists. split; [exact E|]. split_and!; try done. intros Hpr. by rewrite (Hkeep Hpr).
Qed.

(** Frame allocation is exact. [palloc] takes one frame that was free out
    of its pool, aligned and never NULL, and [pfree] of it gives back precisely
    that frame, in whichever of the two pools it came from. *)
Theorem palloc_pfree_inverse (st : mst) (pf : pool_flags) :
  tables_ok st → (0 < nfree (pool_of pf st))%nat →
  ∃ f st1 st2, palloc pf st = Ok (f, st1) ∧ f ≠ NULL ∧ f mod 4096 = 0 ∧
    frame_free (pool_of pf st) f ∧ (∀ g, frame_free (pool_of pf st1) g ↔ frame_free (pool_of pf st) g ∧ g ≠ f) ∧
    pfree f st1 = Ok (tt, st2) ∧ (∀ pf' g, frame_free (pool_of pf' st2) g ↔ frame_free (pool_of pf' st) g).
Proof.
  intros HT Hn. assert (Hpo : pool_ok (pool_of pf st)) by (destruct pf; apply HT).
  destruct (palloc_spec st pf Hpo Hn) as (f & p' & E & T).
  destruct (frame_free_range _ _ Hpo (pt_was _ _ _ T)) as [Hfr Hfa].
  assert (HT1 : tables_ok (with_pool pf p' st)) by (eapply tables_shrink; [done|by eapply shrinks_take]).
  assert (Hp1 : pool_of pf (with_pool pf p' st) = p') by (by destruct pf).
  destruct (pt_was _ _ _ T) as (i & Hi & Ef & Hbit).
  destruct (pfree_spec (with_pool pf p' st) pf i (t_pool _ HT1) (t_upool _ HT1) (t_disj _ HT1)) as (p2 & E2 & _ & _ & _ & _ & Hfree).
  { by rewrite Hp1, (pt_cnt _ _ _ T). }
  rewrite Hp1, (pt_start _ _ _ T), <-Ef in E2, Hfree.
  exists f, (with_pool pf p' st), (with_pool pf p2 (with_pool pf p' st)). rewrite Hp1.
  split_and!; try done; [unfold NULL; lia|apply T|apply T|].
  intros pf' g. pose proof (pt_free _ _ _ T g) as H1. pose proof (Hfree g) as H2. pose proof (pt_was _ _ _ T).
  destruct pf, pf'; simpl in *; try done; rewrite H2, H1; destruct (decide (g = f)); naive_solver.
Qed.

(** C14: [malloc_page] allocates.  In a well-formed address space, if the virtual
    pool has a run of [cnt] free pages (1 to 3839) and the physical pools have
    room for them and for a page table each, it returns the start [v] of a run
    of [cnt] pages of the pool that were all free and unmapped; the pages become
    taken and are mapped, in order, to [cnt] distinct frames that were free
    before and are not any more; no other translation and no other bit of the
    pool changes; the invariants of the tables and of the virtual pool are kept. *)
Theorem malloc_page_maps (st : mst) (pf : pool_flags) (cnt j : Z) :
  tables_ok st → vpool_ok pf st → 1 ≤ cnt < 3840 →
  0 ≤ j → j + cnt ≤ bit_cnt (vaddr_bitmap (vaddr_of pf st)) → run_free (vaddr_bitmap (vaddr_of pf st)) j cnt →
  budget pf (Z.to_nat cnt) st →
  ∃ (v r : Z) (st' : mst) (fs : list Z), malloc_page pf cnt st = Ok (v, st') ∧
    v = vaddr_start (vaddr_of pf st) + 4096 * r ∧ 0 ≤ r ∧ r + cnt ≤ bit_cnt (vaddr_bitmap (vaddr_of pf st)) ∧
    run_free (vaddr_bitmap (vaddr_of pf st)) r cnt ∧ (∀ k, 0 ≤ k < cnt → walk (pm st) (mcr3 st) (v + 4096 * k) = Fault) ∧
    Z.of_nat (length fs) = cnt ∧ NoDup fs ∧
    (∀ f, f ∈ fs → frame_free (pool_of pf st) f ∧ ¬ frame_free (pool_of pf st') f) ∧
    maps_frames st st' v fs ∧ range_bits pf st st' v cnt true ∧ tables_ok st' ∧ vpool_ok pf st'.
Proof.
  intros HT HV Hc Hj Hfit Hrun Hbud.
  destruct (malloc_page_spec st pf cnt j HT HV Hc Hj Hfit Hrun Hbud) as
    (v & r & st1 & st' & fs & E & Hl & Ev & Hr0 & Hr1 & Hrf & Q1 & Q2 & Q3 & Q4 & [M1 M2 M3 M4 M5 M6 M7 _ _ _] & Hrb & HV' & _).
  exists v, r, st', fs. split_and!; try done.
  - intros k Hk. rewrite Ev, <-Z.add_assoc, <-Z.mul_add_distr_l. apply (vo_free _ _ HV); [lia|apply Hrf; lia].
  - intros f Hf. destruct (M4 f Hf) as [Hx ?]. split; [|done]. destruct pf; simpl in *; congruence.
  - intros v' Hv'. rewrite (M7 v' Hv'). by rewrite Q1, Q2.
Qed.

(** C15: [mfree_page] undoes [malloc_page].  Under the conditions of the
    allocation, freeing the [cnt] pages at the address that [malloc_page]
    returned succeeds, restores the translation of every address outside the
    first and the last 4 MB and the virtual bitmap, and makes the frames [fs] to
    which the pages were mapped, and no others, free again.  After a user
    allocation the same frames of the user pool are free as before it; after a
    kernel allocation no frame is free that was not free before it (a frame
    spent on a new page table stays taken). *)
Theorem mfree_page_undoes_malloc (st : mst) (pf : pool_flags) (cnt j : Z) :
  tables_ok st → vpool_ok pf st → 1056768 ≤ phy_addr_start (kernel_pool st) → 1 ≤ cnt < 3840 →
  0 ≤ j → j + cnt ≤ bit_cnt (vaddr_bitmap (vaddr_of pf st)) → run_free (vaddr_bitmap (vaddr_of pf st)) j cnt →
  budget pf (Z.to_nat cnt) st →
  ∃ (v : Z) (st' : mst) (fs : list Z) (st'' : mst), malloc_page pf cnt st = Ok (v, st') ∧ mfree_page pf v cnt st' = Ok (tt, st'') ∧
    Z.of_nat (length fs) = cnt ∧ (∀ k f, fs !! k = Some f → walk (pm st') (mcr3 st') (v + 4096 * Z.of_nat k) = Ok f) ∧
    (∀ v', managed v' → walk (pm st'') (mcr3 st'') v' = walk (pm st) (mcr3 st) v') ∧
    (∀ i, 0 ≤ i < bit_cnt (vaddr_bitmap (vaddr_of pf st)) →
       bit (vaddr_bitmap (vaddr_of pf st'')) i = bit (vaddr_bitmap (vaddr_of pf st)) i) ∧
    (∀ g, frame_free (pool_of pf st'') g ↔ frame_free (pool_of pf st') g ∨ g ∈ fs) ∧
    (∀ g, frame_free (pool_of pf st'') g → frame_free (pool_of pf st) g) ∧
    (pf = PF_USER → ∀ g, frame_free (user_pool st'') g ↔ frame_free (user_pool st) g).
Proof.
  intros HT HV Hlow Hc Hj Hfit Hrun Hbud.
  destruct (malloc_page_spec st pf cnt j HT HV Hc Hj Hfit Hrun Hbud) as
    (v & r & st1 & st' & fs & E & Hl & Ev & Hr0 & Hr1 & Hrf & Q1 & Q2 & Q3 & Q4 & [M1 M2 M3 M4 M5 M6 M7 M8 _ M10] & (R1 & R2 & R3) & HV' & _).
  pose proof HV as [_ _ Va Vr _ Vf].
  assert (Hbk : backed pf st' v fs).
  { intros k f Hk. pose proof (lookup_lt_Some _ _ _ Hk) as Hlt.
    assert (Hm : managed (v + 4096 * Z.of_nat k)).
    { rewrite Ev, <-Z.add_assoc, <-Z.mul_add_distr_l. apply managed_range; lia. }
    split_and!; try done.
    - rewrite (M7 _ Hm), decide_True by zsolve.
      replace (Z.to_nat ((v + 4096 * Z.of_nat k) / 4096 - v / 4096)) with k by zsolve. rewrite Hk.
      f_equal. replace ((v + 4096 * Z.of_nat k) mod 4096) with 0; [lia|]. rewrite Ev. zsolve.
    - by apply M8, list_elem_of_lookup; eauto.
    - destruct (M4 f) as [(i & Hi & Ef & _) _]; [apply list_elem_of_lookup; eauto|]. exists i.
      destruct pf; simpl in *; [rewrite (s_start _ _ _ M5), (s_cnt _ _ _ M5)|rewrite (s_start _ _ _ M6), (s_cnt _ _ _ M6)]; done. }
  destruct (mfree_page_spec st' pf v fs r M1) as (st2 & st'' & E2 & U & S1 & S2 & S3 & S4 & (T1 & T2 & T3) & _); rewrite ?R1, ?R2; try done; try lia.
  { rewrite (s_start _ _ _ M5), Q3. done. } { intros ->. simpl in Hl. lia. } { apply HV'. }
  rewrite Hl in E2, T3. rewrite R1, R2 in *.
  assert (Hfr : ∀ g, frame_free (pool_of pf st'') g ↔ frame_free (pool_of pf st') g ∨ g ∈ fs)
    by (intros g; destruct pf; simpl in *; rewrite ?S3, ?S4; apply (um_free _ _ _ _ _ U)).
  assert (Hold : ∀ f, f ∈ fs → frame_free (pool_of pf st) f) by (intros f Hf; destruct (M4 f Hf) as [Hx _]; destruct pf; simpl in *; congruence).
  exists v, st', fs, st''. split_and!; try done.
  - intros k f Hk. by apply Hbk.
  - intros v' Hv'. rewrite S1, S2, (um_walk _ _ _ _ _ U v' Hv'), (M7 v' Hv'), Q1, Q2, Hl.
    case_decide as Hd; [|done]. symmetry.
    pose proof (Vf (v' / 4096 - vaddr_start (vaddr_of pf st) / 4096) ltac:(zsolve) ltac:(apply Hrf; zsolve)) as Hz.
    rewrite walk_alt in Hz |- *.
    assert (Hpg : v' / 4096 = (vaddr_start (vaddr_of pf st) + 4096 * (v' / 4096 - vaddr_start (vaddr_of pf st) / 4096)) / 4096) by zsolve.
    apply same_page in Hpg as [Hp1 Hp2]; [|done|apply managed_range; zsolve].
    unfold pte_slot, pde_at in *. rewrite Hp1, Hp2. repeat case_match; done.
  - intros i Hi. rewrite T3 by lia. rewrite R3 by lia. case_decide as Hd; [|done].
    symmetry. apply Hrf. zsolve.
  - intros g [Hg|Hg]%Hfr; [|by apply Hold]. destruct pf; simpl in *; [rewrite <-Q3; by apply (s_free _ _ _ M5)|rewrite <-Q4; by apply (s_free _ _ _ M6)].
  - intros -> g. rewrite (Hfr g). simpl. rewrite (M10 eq_refl g), Q4. pose proof (Hold g). destruct (decide (g ∈ fs)); simpl in *; tauto.
Qed.

End paging_theorems.

(** ** Laying out the pools *)

(** C37: For every machine with at least 2 MB and 64 KB and at most 65535 pages
    above the first 2 MB, [mem_pool_init] lays out two pools that lie behind
    the kernel, do not overlap and stay inside the memory that exists, and
    three bitmaps one behind the other that end below the main thread's PCB at
    0xc009e000; every page of both pools and of the kernel heap starts free
    and both pool locks start unheld. *)
Theorem mem_pool_init_layout {B : Build} (all_mem : Z) (low : Z → list Z) (st : mst) :
  2162688 ≤ all_mem < 2097152 + 65536 * 4096 →
  (∀ a, Forall (λ b, 0 ≤ b < 256) (low a) ∧ (4096 < length (low a))%nat) →
  let l := mem_pool_layout all_mem in
  ∃ st', mem_pool_init all_mem low st = Ok st' ∧
    (pool_ok (kernel_pool st') ∧ pool_ok (user_pool st')) ∧
    phy_addr_start (kernel_pool st') = 2097152 ∧
    phy_addr_start (kernel_pool st') + 4096 * bit_cnt (pool_bitmap (kernel_pool st')) ≤ phy_addr_start (user_pool st') ∧
    phy_addr_start (user_pool st') + 4096 * bit_cnt (pool_bitmap (user_pool st')) ≤ all_mem ∧
    (kbm_base l = MEM_BITMAP_BASE ∧ ubm_base l = kbm_base l + kbm_length l ∧ vbm_base l = ubm_base l + ubm_length l ∧
     vbm_base l + vbm_length l < 3221872640) ∧
    run_free (pool_bitmap (kernel_pool st')) 0 (bit_cnt (pool_bitmap (kernel_pool st'))) ∧
    run_free (pool_bitmap (user_pool st')) 0 (bit_cnt (pool_bitmap (user_pool st'))) ∧
    run_free (vaddr_bitmap (kernel_vaddr st')) 0 (bit_cnt (vaddr_bitmap (kernel_vaddr st'))) ∧
    pool_lock (kernel_pool st') = Lock NULL 0 ∧ pool_lock (user_pool st') = Lock NULL 0.
Proof.
  intros Hm Hlow l. set (pages := (all_mem - 2097152) / 4096).
  assert (Hpg : 16 ≤ pages < 65536) by (unfold pages; zsolve).
  assert (El : l = Layout 2097152 (pages / 2 * 4096) MEM_BITMAP_BASE (pages / 2 / 8)
                    (2097152 + pages / 2 * 4096) ((pages - pages / 2) * 4096)
                    (MEM_BITMAP_BASE + pages / 2 / 8) ((pages - pages / 2) / 8)
                    (MEM_BITMAP_BASE + pages / 2 / 8 + (pages - pages / 2) / 8) (pages / 2 / 8) K_HEAP_START).
  { unfold l, mem_pool_layout, PG_SIZE. change (4096 * 256 + 1048576) with 2097152.
    rewrite (u32_small (all_mem - 2097152)) by lia. fold pages. rewrite (u16_small pages) by lia.
    rewrite (u16_small (pages / 2)) by zsolve. rewrite (u16_small (pages - pages / 2)) by zsolve.
    unfold MEM_BITMAP_BASE. rewrite !u32_small by zsolve. done. }
  assert (Hbm : ∀ a n, 0 ≤ n ≤ 4096 → ∃ b, bitmap_init (Bitmap n (low a)) = Ok b ∧ bitmap_ok b ∧ bit_cnt b = n * 8 ∧
      slack b ∧ run_free b 0 (bit_cnt b)).
  { intros a n Hn. destruct (Hlow a) as [Hf Hl].
    destruct (bitmap_init_spec (Bitmap n (low a))) as (b & E & Hb & Hc & Hlen & Hr); [by split; simpl; [lia|lia|]|].
    exists b. split_and!; try done. unfold slack. unfold bit_cnt in Hc. simpl in *. lia. }
  unfold mem_pool_init. fold l. rewrite El. simpl.
  destruct (Hbm MEM_BITMAP_BASE (pages / 2 / 8)) as (kb & -> & Hkb & Hkc & Hks & Hkf); [zsolve|]. simpl.
  destruct (Hbm (MEM_BITMAP_BASE + pages / 2 / 8) ((pages - pages / 2) / 8)) as (ub & -> & Hub & Huc & Hus & Huf); [zsolve|]. simpl.
  destruct (Hbm (MEM_BITMAP_BASE + pages / 2 / 8 + (pages - pages / 2) / 8) (pages / 2 / 8)) as (vb & -> & Hvb & Hvc & Hvs & Hvf); [zsolve|].
  simpl. eexists. split; [reflexivity|]. simpl. unfold MEM_BITMAP_BASE in *.
  split_and!; try done; [split|split|..]; simpl; rewrite ?Hkc, ?Huc; try done; unfold pages; zsolve.
Qed.

(** Above 256 MB the page count no longer fits its [uint16_t]: of the 512 MB
    the comment at the top of the file promises to support, [mem_pool_init]
    manages 65024 pages (254 MB) and loses the other half. *)
Theorem mem_pool_512M_truncated :
  let l := mem_pool_layout 536870912 in
  kp_size l + up_size l = 65024 * 4096 ∧ 536870912 - 2097152 = 130560 * 4096.
Proof. vm_compute. done. Qed.

(** ** A concrete address space

    A directory at 1 MB that maps only itself, eight frames in each pool and a
    kernel heap of eight pages. *)

Definition demo_space : mst :=
  Mst {[ 1052668 := 1048583 ]} 1048576
      (Pool (Bitmap 1 [0; 0]) 2097152 32768 (Lock NULL 0)) (Pool (Bitmap 1 [0; 0]) 2129920 32768 (Lock NULL 0))
      (VAddr (Bitmap 1 [0; 0]) K_HEAP_START) (VAddr (Bitmap 1 [0; 0]) 134512640) 3221872640 0.

Lemma demo_ld a : ld (pm demo_space) a = if decide (a = 1052668) then 1048583 else 0.
Proof. simpl. unfold ld. case_decide; [subst; done|]. by rewrite lookup_singleton_ne by done. Qed.

Lemma demo_bitmap_ok : bitmap_ok (Bitmap 1 [0; 0]) ∧ slack (Bitmap 1 [0; 0]).
Proof. split; [split; simpl; [lia|lia|repeat constructor; lia]|unfold slack; simpl; lia]. Qed.

Lemma demo_bit i : 0 ≤ i → bit (Bitmap 1 [0; 0]) i = false.
Proof.
  intros Hi. unfold bit. simpl. destruct (Z.to_nat (i / 8)) as [|[|n]]; simpl; [apply Z.bits_0|apply Z.bits_0|done].
Qed.

Lemma demo_tables_ok : tables_ok demo_space.
Proof.
  assert (Hpd : ∀ i, 0 ≤ i < 1023 → ld (pm demo_space) (1048576 + 4 * i) = 0) by (intros i Hi; by rewrite demo_ld, decide_False by lia).
  assert (Htk : ∀ f, f < 2097152 → taken demo_space f) by (intros f Hf; split; intros (i & Hi & -> & _); simpl in *; lia).
  destruct demo_bitmap_ok. split.
  - split; change (mcr3 demo_space) with 1048576.
    + lia.
    + done.
    + intros a. rewrite demo_ld. case_decide; lia.
    + rewrite demo_ld, decide_True; done.
    + rewrite demo_ld, decide_True; done.
  - split; simpl; try done; unfold bit_cnt; simpl; lia.
  - split; simpl; try done; unfold bit_cnt; simpl; lia.
  - unfold bit_cnt. simpl. lia.
  - apply Htk. simpl. lia.
  - change (mcr3 demo_space) with 1048576. intros i Hi. by rewrite Hpd.
  - change (mcr3 demo_space) with 1048576. intros i j Hi Hj. by rewrite Hpd by lia.
Qed.

Lemma demo_unmapped v : managed v → walk (pm demo_space) (mcr3 demo_space) v = Fault.
Proof.
  intros [Hv Hi]. rewrite walk_alt. unfold pde_at. rewrite demo_ld, decide_False; [done|]. simpl. lia.
Qed.

Lemma demo_vpool_ok : vpool_ok PF_KERNEL demo_space.
Proof.
  destruct demo_bitmap_ok. split; try done.
  intros i Hi _. apply demo_unmapped. apply managed_range; [done|..]; unfold bit_cnt in Hi; simpl in *; unfold K_HEAP_START; lia.
Qed.

Lemma self_map_correct_witness :
  walk (pm demo_space) (mcr3 demo_space) (pde_ptr K_HEAP_START) = Ok 1051648 ∧
  addr_v2p 4294963200 demo_space = Ok (1048576, demo_space).
Proof.
  pose proof (t_self _ demo_tables_ok) as Hs. split.
  - destruct (self_map_correct demo_space K_HEAP_START Hs) as [H _]; [vm_compute; split; congruence|]. exact H.
  - destruct (self_map_correct demo_space 4294963200 Hs) as (_ & _ & H); [lia|]. apply H. vm_compute. reflexivity.
Defined.

Lemma page_table_add_maps_witness :
  ∃ st', page_table_add (B := debug_build) K_HEAP_START 2129920 demo_space = Ok (tt, st') ∧
    walk (pm st') (mcr3 st') (K_HEAP_START + 12) = Ok 2129932.
Proof.
  assert (Hm : ∀ d, 0 ≤ d < 4096 → managed (K_HEAP_START + d)) by (intros; unfold managed, pdi, K_HEAP_START; split; [lia|zsolve]).
  destruct (page_table_add_maps (B := debug_build) demo_space K_HEAP_START 2129920 demo_tables_ok) as (st' & E & _ & _ & _ & _ & _ & H).
  - apply (Hm 0). lia.
  - lia.
  - reflexivity.
  - apply demo_unmapped, (Hm 0). lia.
  - intros _. vm_compute. lia.
  - exists st'. split; [exact E|]. rewrite H by (apply Hm; lia). reflexivity.
Defined.

Lemma palloc_pfree_inverse_witness :
  ∃ f st1 st2, palloc (B := debug_build) PF_USER demo_space = Ok (f, st1) ∧ pfree (B := debug_build) f st1 = Ok (tt, st2) ∧
    frame_free (user_pool demo_space) f.
Proof.
  destruct (palloc_pfree_inverse (B := debug_build) demo_space PF_USER demo_tables_ok) as (f & st1 & st2 & E & _ & _ & Hf & _ & E2 & _).
  - vm_compute. lia.
  - exists f, st1, st2. auto.
Defined.

Lemma malloc_page_maps_witness :
  ∃ (v : Z) (st' : mst) (fs : list Z), malloc_page (B := debug_build) PF_KERNEL 2 demo_space = Ok (v, st') ∧ NoDup fs ∧ Z.of_nat (length fs) = 2.
Proof.
  destruct (malloc_page_maps (B := debug_build) demo_space PF_KERNEL 2 0 demo_tables_ok demo_vpool_ok) as (v & r & st' & fs & E & _ & _ & _ & _ & _ & Hl & Hn & _).
  - lia.
  - lia.
  - vm_compute. discriminate.
  - intros k Hk. apply demo_bit. lia.
  - vm_compute. lia.
  - exists v, st', fs. auto.
Defined.

Lemma mfree_page_undoes_malloc_witness :
  ∃ (v : Z) (st' st'' : mst), malloc_page (B := debug_build) PF_KERNEL 2 demo_space = Ok (v, st') ∧
    mfree_page (B := debug_build) PF_KERNEL v 2 st' = Ok (tt, st'').
Proof.
  destruct (mfree_page_undoes_malloc (B := debug_build) demo_space PF_KERNEL 2 0 demo_tables_ok demo_vpool_ok) as (v & st' & fs & st'' & E & E2 & _).
  - vm_compute. discriminate.
  - lia.
  - lia.
  - vm_compute. discriminate.
  - intros k Hk. apply demo_bit. lia.
  - vm_compute. lia.
  - exists v, st', st''. exact (conj E E2).
Defined.

Lemma mem_pool_init_layout_witness :
  ∃ st', mem_pool_init (B := debug_build) 33554432 (λ _, replicate 5000 0) demo_space = Ok st' ∧
    phy_addr_start (kernel_pool st') = 2097152.
Proof.
  destruct (mem_pool_init_layout (B := debug_build) 33554432 (λ _, replicate 5000 0) demo_space) as (st' & E & _ & H & _).
  - lia.
  - intros _. rewrite length_replicate. split; [apply Forall_replicate; lia|lia].
  - exists st'. split; [exact E|exact H].
Defined.
