(* ===== verification/Ioqueue.v ===== *)
(** * The byte queue between producers and consumers ([device/ioqueue.c], [shell/pipe.c])

    A ring of [bufsize] bytes with one waiting producer and one waiting
    consumer.  [ioq_getchar] and [ioq_putchar] run with interrupts off, so
    another thread runs only where they sleep: in [lock_acquire] on a held lock
    or in [thread_block] inside [ioq_wait].  Each function is therefore split
    there: the part up to the sleep, and the part that continues after it. *)

From S2P Require Import Prelude Interrupt KList Sched.

Definition bufsize : Z := 2048.

Record ioqueue := Ioq {
  ilock : lock;
  producer : Z;
  consumer : Z;
  buf : list Z;
  head : Z;
  tail : Z
}.

(** The queue, EFLAGS, and the threads that are blocked in [ioq_wait]. *)
Record ioqst := IoqSt { ioq : ioqueue; iflags : Z; sleeping : list Z }.

Definition with_ioq q s := IoqSt q (iflags s) (sleeping s).
Definition with_sleeping l s := IoqSt (ioq s) (iflags s) l.
Definition set_ilock l q := Ioq l (producer q) (consumer q) (buf q) (head q) (tail q).
Definition set_producer t q := Ioq (ilock q) t (consumer q) (buf q) (head q) (tail q).
Definition set_consumer t q := Ioq (ilock q) (producer q) t (buf q) (head q) (tail q).

(** Which of the two waiter fields a [struct task_struct**] argument points to. *)
Inductive slot := Producer | Consumer.
Definition get_slot (w : slot) (q : ioqueue) : Z := match w with Producer => producer q | Consumer => consumer q end.
Definition set_slot (w : slot) (t : Z) (q : ioqueue) : ioqueue :=
  match w with Producer => set_producer t q | Consumer => set_consumer t q end.

(** How a call ends: with a value, asleep in [lock_acquire], or asleep in [ioq_wait]. *)
Inductive outcome (A : Type) := Done (a : A) | OnLock | Asleep.
Arguments Done {A} a.
Arguments OnLock {A}.
Arguments Asleep {A}.

Section ioq_ops.
Context {B : Build}.

Definition ioqueue_init (q : ioqueue) : ioqueue := Ioq (Lock NULL 0) NULL NULL (buf q) 0 0.

Definition next_pos (pos : Z) : Z := Z.rem (s32 (pos + 1)) bufsize.

Definition intr_off : M ioqst unit := λ s,
  check ASSERT (bool_decide (intr_get_status (iflags s) = INTR_OFF)) in Ok (tt, s).

Definition ioq_full : M ioqst bool :=
  do! intr_off in mget (λ s, next_pos (head (ioq s)) =? tail (ioq s)).
Definition ioq_empty : M ioqst bool :=
  do! intr_off in mget (λ s, head (ioq s) =? tail (ioq s)).

Definition ioq_wait (w : slot) (c : Z) : M ioqst unit :=
  let! q := mget ioq in
  do! mlift (ASSERT (get_slot w q =? NULL)) in
  do! mmod (with_ioq (set_slot w c q)) in
  mmod (λ s, with_sleeping (c :: sleeping s) s).

(** [thread_unblock] asserts that the thread is blocked. *)
Definition wakeup (w : slot) : M ioqst unit :=
  let! q := mget ioq in
  do! mlift (ASSERT (negb (get_slot w q =? NULL))) in
  let! sl := mget sleeping in
  do! mlift (ASSERT (elem_in (get_slot w q) sl)) in
  do! mmod (with_sleeping (Spec.remove (get_slot w q) sl)) in
  mmod (λ s, with_ioq (set_slot w NULL (ioq s)) s).

(** The body of both [while] loops: [lock_acquire] and [ioq_wait]. *)
Definition ioq_sleep (w : slot) (c : Z) : M ioqst (option unit) := λ s,
  match lock_enter c (ilock (ioq s)) with
  | Ok l =>
      let? r := ioq_wait w c (with_ioq (set_ilock l (ioq s)) s) in Ok (Some tt, r.2)
  | Block => Ok (None, s)
  | _ => Fault
  end.

Definition ioq_take : M ioqst Z :=
  let! q := mget ioq in
  let! byte := mlift (rd (buf q) (tail q)) in
  do! mmod (with_ioq (Ioq (ilock q) (producer q) (consumer q) (buf q) (head q) (next_pos (tail q)))) in
  do! (if producer q =? NULL then mok tt else wakeup Producer) in
  mok byte.

Definition ioq_getchar (c : Z) : M ioqst (outcome Z) :=
  do! intr_off in
  let! e := ioq_empty in
  if e then
    let! r := ioq_sleep Consumer c in
    mok (match r with Some _ => Asleep | None => OnLock end)
  else let! b := ioq_take in mok (Done b).

Definition ioq_put (byte : Z) : M ioqst unit :=
  let! q := mget ioq in
  let! buf' := mlift (wr (buf q) (head q) byte) in
  do! mmod (with_ioq (Ioq (ilock q) (producer q) (consumer q) buf' (next_pos (head q)) (tail q))) in
  if consumer q =? NULL then mok tt else wakeup Consumer.

Definition ioq_putchar (c byte : Z) : M ioqst (outcome unit) :=
  do! intr_off in
  let! f := ioq_full in
  if f then
    let! r := ioq_sleep Producer c in
    mok (match r with Some _ => Asleep | None => OnLock end)
  else do! ioq_put byte in mok (Done tt).

(** The thread that slept in [lock_acquire] gets the lock and sleeps again. *)
Definition ioq_locked (w : slot) (c : Z) : M ioqst (option unit) := ioq_sleep w c.

(** The thread that slept in [ioq_wait] releases the lock and tests again. *)
Definition ioq_woken (c : Z) : M ioqst unit := λ s,
  let? l := lock_leave c (ilock (ioq s)) in Ok (tt, with_ioq (set_ilock l (ioq s)) s).

Definition ioq_length (q : ioqueue) : Z :=
  if tail q <=? head q then u32 (head q - tail q) else u32 (bufsize - (tail q - head q)).

(** ** [shell/pipe.c] on the queue behind a descriptor *)

Fixpoint pipe_read_loop (n : nat) (c : Z) (acc : list Z) : M ioqst (outcome (list Z)) :=
  match n with
  | O => mok (Done acc)
  | S n' =>
      let! r := ioq_getchar c in
      match r with
      | Done b => pipe_read_loop n' c (acc ++ [b])
      | OnLock => mok OnLock
      | Asleep => mok Asleep
      end
  end.

Definition pipe_read (c count : Z) : M ioqst (outcome (list Z)) :=
  let! q := mget ioq in
  let ioq_len := ioq_length q in
  let size := if count <? ioq_len then count else ioq_len in
  pipe_read_loop (Z.to_nat size) c [].

Fixpoint pipe_write_loop (bytes : list Z) (c done_ : Z) : M ioqst (outcome Z) :=
  match bytes with
  | [] => mok (Done done_)
  | b :: bytes' =>
      let! r := ioq_putchar c b in
      match r with
      | Done _ => pipe_write_loop bytes' c (u32 (done_ + 1))
      | OnLock => mok OnLock
      | Asleep => mok Asleep
      end
  end.

Definition pipe_write (c : Z) (buffer : list Z) (count : Z) : M ioqst (outcome Z) :=
  let! q := mget ioq in
  let ioq_left := u32 (bufsize - ioq_length q) in
  let size := if count <? ioq_left then count else ioq_left in
  pipe_write_loop (take (Z.to_nat size) buffer) c 0.

End ioq_ops.

(** ** The queue as a sequence *)

Definition ring_len (q : ioqueue) : Z := (head q - tail q) mod bufsize.

(** The bytes between [tail] and [head], oldest first. *)
Definition content (q : ioqueue) : list Z :=
  (λ i, default 0 (buf q !! Z.to_nat ((tail q + i) mod bufsize))) <$> seqZ 0 (ring_len q).

Record ring_ok (q : ioqueue) : Prop := {
  r_buf : length (buf q) = 2048%nat;
  r_head : 0 ≤ head q < bufsize;
  r_tail : 0 ≤ tail q < bufsize
}.

Lemma next_pos_eq p : 0 ≤ p < bufsize → next_pos p = (p + 1) mod bufsize.
Proof. unfold next_pos, bufsize. intros. rewrite s32_small, Z.rem_mod_nonneg by lia. done. Qed.

Lemma ring_len_range q : 0 ≤ ring_len q < bufsize.
Proof. apply Z.mod_pos_bound. unfold bufsize. lia. Qed.

Lemma content_length q : Z.of_nat (length (content q)) = ring_len q.
Proof.
  unfold content. rewrite length_fmap, length_seqZ. pose proof (ring_len_range q). lia.
Qed.

Lemma ioq_length_eq q : ring_ok q → ioq_length q = ring_len q.
Proof.
  intros [_ Hh Ht]. unfold ioq_length, ring_len, bufsize in *.
  destruct (Z.leb_spec (tail q) (head q)); rewrite u32_small by lia; zsolve.
Qed.

Lemma full_iff q : ring_ok q → (next_pos (head q) =? tail q) = (ring_len q =? 2047).
Proof.
  intros [_ Hh Ht]. rewrite next_pos_eq by done. unfold ring_len, bufsize in *.
  destruct (Z.eqb_spec ((head q + 1) mod 2048) (tail q)), (Z.eqb_spec ((head q - tail q) mod 2048) 2047); try done; exfalso; zsolve.
Qed.

Lemma empty_iff q : ring_ok q → (head q =? tail q) = (ring_len q =? 0).
Proof.
  intros [_ Hh Ht]. unfold ring_len, bufsize in *.
  destruct (Z.eqb_spec (head q) (tail q)), (Z.eqb_spec ((head q - tail q) mod 2048) 0); try done; exfalso; zsolve.
Qed.

Lemma content_empty q : ring_len q = 0 → content q = [].
Proof. intros H. unfold content. by rewrite H. Qed.

(** Taking a byte removes the oldest one ... *)
Lemma content_take q :
  ring_ok q → ring_len q ≠ 0 →
  ∃ b, rd (buf q) (tail q) = Ok b ∧
    let q' := Ioq (ilock q) (producer q) (consumer q) (buf q) (head q) (next_pos (tail q)) in
    ring_ok q' ∧ content q = b :: content q'.
Proof.
  intros [Hb Hh Ht] Hn. pose proof (ring_len_range q) as Hr.
  destruct (rd_total (buf q) (tail q)) as (b & Hrd & Hl); [rewrite Hb; unfold bufsize in *; lia|].
  exists b. split; [done|]. simpl. rewrite next_pos_eq by done. split.
  { split; simpl; try done. apply Z.mod_pos_bound. unfold bufsize. lia. }
  unfold content at 1. rewrite (seqZ_cons 0 (ring_len q)) by lia. simpl. f_equal.
  - rewrite Z.add_0_r, Z.mod_small by done. by rewrite Hl.
  - unfold content. simpl.
    assert (ring_len (Ioq (ilock q) (producer q) (consumer q) (buf q) (head q) ((tail q + 1) mod bufsize)) = ring_len q - 1) as ->.
    { unfold ring_len, bufsize in *. simpl. zsolve. }
    change (Z.succ 0) with (1 + 0). rewrite <-(fmap_add_seqZ 1 0).
    rewrite <-list_fmap_compose. replace (Z.pred (ring_len q)) with (ring_len q - 1) by lia.
    apply list_fmap_ext. intros i x _. simpl. do 3 f_equal. unfold bufsize. zsolve.
Qed.

(** ... and putting one appends it. *)
Lemma content_put q b :
  ring_ok q → ring_len q ≠ 2047 →
  ∃ buf', wr (buf q) (head q) b = Ok buf' ∧
    let q' := Ioq (ilock q) (producer q) (consumer q) buf' (next_pos (head q)) (tail q) in
    ring_ok q' ∧ content q' = content q ++ [b].
Proof.
  intros [Hb Hh Ht] Hn. pose proof (ring_len_range q) as Hr.
  exists (<[Z.to_nat (head q) := b]> (buf q)). split; [apply wr_Ok; rewrite Hb; unfold bufsize in *; lia|].
  simpl. rewrite next_pos_eq by done. split.
  { split; simpl; try done; [by rewrite length_insert|]. apply Z.mod_pos_bound. unfold bufsize. lia. }
  unfold content. simpl.
  assert (ring_len (Ioq (ilock q) (producer q) (consumer q) (<[Z.to_nat (head q):=b]> (buf q)) ((head q + 1) mod bufsize) (tail q)) = ring_len q + 1) as ->.
  { unfold ring_len, bufsize in *. simpl. zsolve. }
  rewrite seqZ_app, fmap_app by lia. f_equal.
  - apply list_fmap_ext. intros i x Hx. apply lookup_seqZ in Hx as [-> Hi]. f_equal.
    apply list_lookup_insert_ne. unfold ring_len, bufsize in *. zsolve.
  - simpl. f_equal. replace ((tail q + (Z.of_nat 0 + (0 + ring_len q))) mod bufsize) with (head q) by (unfold ring_len, bufsize in *; zsolve).
    rewrite list_lookup_insert_eq; [done|]. rewrite Hb. unfold bufsize in *. lia.
Qed.

(** ** One producer and one consumer *)

Inductive phase := PFree | PLock | PWait.

#[export] Instance phase_eq_dec : EqDecision phase.
Proof. solve_decision. Defined.

Record sys := Sys {
  queue : ioqst;
  cph : phase;              (* where the consumer is *)
  pph : phase;              (* where the producer is *)
  pend : Z;                 (* the byte the producer is putting *)
  sent : list Z;            (* bytes put so far *)
  recv : list Z             (* bytes taken so far *)
}.

(** A call, or the continuation of the thread that sleeps in one. *)
Inductive sstep := SGet | SGetGo | SPut (b : Z) | SPutGo.

Section system.
Context {B : Build} (c p : Z).

Definition lock_free_for (t : Z) (s : sys) : bool :=
  let h := holder (ilock (ioq (queue s))) in (h =? t) || (h =? NULL).

Definition s_enabled (a : sstep) (s : sys) : bool :=
  match a with
  | SGet => bool_decide (cph s = PFree)
  | SPut _ => bool_decide (pph s = PFree)
  | SGetGo => match cph s with
              | PFree => false
              | PLock => lock_free_for c s
              | PWait => negb (elem_in c (sleeping (queue s)))
              end
  | SPutGo => match pph s with
              | PFree => false
              | PLock => lock_free_for p s
              | PWait => negb (elem_in p (sleeping (queue s)))
              end
  end.

Definition do_get (s : sys) (q0 : ioqst) : res sys :=
  let? r := ioq_getchar c q0 in
  Ok (match r.1 with
      | Done b => Sys r.2 PFree (pph s) (pend s) (sent s) (recv s ++ [b])
      | OnLock => Sys r.2 PLock (pph s) (pend s) (sent s) (recv s)
      | Asleep => Sys r.2 PWait (pph s) (pend s) (sent s) (recv s)
      end).

Definition do_put (b : Z) (s : sys) (q0 : ioqst) : res sys :=
  let? r := ioq_putchar p b q0 in
  Ok (match r.1 with
      | Done _ => Sys r.2 (cph s) PFree b (sent s ++ [b]) (recv s)
      | OnLock => Sys r.2 (cph s) PLock b (sent s) (recv s)
      | Asleep => Sys r.2 (cph s) PWait b (sent s) (recv s)
      end).

Definition s_exec (a : sstep) (s : sys) : res sys :=
  match a with
  | SGet => do_get s (queue s)
  | SPut b => do_put b s (queue s)
  | SGetGo =>
      match cph s with
      | PLock => let? r := ioq_locked Consumer c (queue s) in Ok (Sys r.2 PWait (pph s) (pend s) (sent s) (recv s))
      | PWait => let? r := ioq_woken c (queue s) in do_get s r.2
      | PFree => Fault
      end
  | SPutGo =>
      match pph s with
      | PLock => let? r := ioq_locked Producer p (queue s) in Ok (Sys r.2 (cph s) PWait (pend s) (sent s) (recv s))
      | PWait => let? r := ioq_woken p (queue s) in do_put (pend s) s r.2
      | PFree => Fault
      end
  end.

Fixpoint s_run (l : list sstep) (s : sys) : res sys :=
  match l with
  | [] => Ok s
  | a :: l' => if s_enabled a s then let? s' := s_exec a s in s_run l' s' else Fault
  end.

Definition sys_init (b : list Z) : sys :=
  Sys (IoqSt (ioqueue_init (Ioq (Lock NULL 0) NULL NULL b 0 0)) 0 []) PFree PFree 0 [] [].

(** ** The invariant *)

Definition is_wait (ph : phase) : bool := match ph with PWait => true | _ => false end.

Definition expected_lock (s : sys) : lock :=
  if is_wait (cph s) then Lock c 1 else if is_wait (pph s) then Lock p 1 else Lock NULL 0.

Record sys_ok (s : sys) : Prop := {
  so_intr : intr_get_status (iflags (queue s)) = INTR_OFF;
  so_ring : ring_ok (ioq (queue s));
  so_fifo : sent s = recv s ++ content (ioq (queue s));
  so_lock : ilock (ioq (queue s)) = expected_lock s;
  so_excl : cph s = PWait → pph s = PWait → False;
  so_cons : (consumer (ioq (queue s)) = c ∧ c ∈ sleeping (queue s) ∧ cph s = PWait) ∨
            (consumer (ioq (queue s)) = NULL ∧ c ∉ sleeping (queue s));
  so_prod : (producer (ioq (queue s)) = p ∧ p ∈ sleeping (queue s) ∧ pph s = PWait) ∨
            (producer (ioq (queue s)) = NULL ∧ p ∉ sleeping (queue s))
}.

End system.

Section system_lemmas.
Context {B : Build} (c p : Z).
Context (Hc : c ≠ NULL) (Hp : p ≠ NULL) (Hcp : c ≠ p).

Lemma intr_off_ok s : intr_get_status (iflags s) = INTR_OFF → intr_off s = Ok (tt, s).
Proof. intros H. unfold intr_off. by rewrite ASSERT_true by (by rewrite bool_decide_true). Qed.

Lemma remove_elem (x y : Z) l : x ∈ Spec.remove y l ↔ x ∈ l ∧ x ≠ y.
Proof. unfold Spec.remove. rewrite list_elem_of_filter. naive_solver. Qed.

(** [wakeup] on the waiter that is recorded. *)
Lemma wakeup_ok w t s :
  get_slot w (ioq s) = t → t ≠ NULL → t ∈ sleeping s →
  wakeup w s = Ok (tt, with_ioq (set_slot w NULL (ioq s)) (with_sleeping (Spec.remove t (sleeping s)) s)).
Proof.
  intros Hw Ht Hin. unfold wakeup, mbnd, mget, mlift, mmod. simpl. rewrite Hw.
  rewrite ASSERT_true by (apply negb_true_iff, Z.eqb_neq; done). simpl.
  rewrite ASSERT_true by (unfold elem_in; by rewrite bool_decide_true). done.
Qed.

(** The body of the loops, seen from the lock. *)
Lemma ioq_sleep_ok w t s :
  get_slot w (ioq s) = NULL → t ≠ NULL → ilock (ioq s) = Lock NULL 0 →
  ioq_sleep w t s = Ok (Some tt, with_sleeping (t :: sleeping s) (with_ioq (set_slot w t (set_ilock (Lock t 1) (ioq s))) s)).
Proof.
  intros Hw Ht Hl. unfold ioq_sleep. rewrite Hl. unfold lock_enter. simpl.
  rewrite (proj2 (Z.eqb_neq _ _)) by congruence. simpl.
  unfold ioq_wait, mbnd, mget, mlift, mmod. simpl.
  rewrite ASSERT_true; [done|]. destruct w; simpl in *; by rewrite Hw.
Qed.

Lemma ioq_sleep_block w t u s :
  t ≠ u → u ≠ NULL → ilock (ioq s) = Lock u 1 → ioq_sleep w t s = Ok (None, s).
Proof.
  intros Ht Hu Hl. unfold ioq_sleep. rewrite Hl. unfold lock_enter. simpl.
  rewrite (proj2 (Z.eqb_neq _ _)) by congruence. by rewrite (proj2 (Z.eqb_neq u NULL)).
Qed.

Lemma woken_ok t s : ilock (ioq s) = Lock t 1 → ioq_woken t s = Ok (tt, with_ioq (set_ilock (Lock NULL 0) (ioq s)) s).
Proof.
  intros Hl. unfold ioq_woken. rewrite Hl. unfold lock_leave. simpl.
  rewrite Z.eqb_refl, ASSERT_true by done. simpl. by rewrite ASSERT_true.
Qed.

Lemma get_ok s : sys_ok c p s → cph s = PFree → ∃ s', do_get c s (queue s) = Ok s' ∧ sys_ok c p s'.
Proof.
  intros [Hi Hr Hf Hl Hx Hcs Hps] Hph. unfold do_get, ioq_getchar, ioq_empty. unfold mbnd at 1. rewrite intr_off_ok by done.
  simpl. unfold mbnd. rewrite intr_off_ok by done. simpl. rewrite empty_iff by done.
  assert (Hcons : consumer (ioq (queue s)) = NULL ∧ c ∉ sleeping (queue s)) by (destruct Hcs as [(_ & _ & ?)|?]; [congruence|done]).
  destruct Hcons as [Hcn Hcs'].
  destruct (Z.eqb_spec (ring_len (ioq (queue s))) 0) as [E|E].
  - destruct (is_wait (pph s)) eqn:Ew; unfold expected_lock in Hl; rewrite Hph in Hl; simpl in Hl; rewrite Ew in Hl.
    + rewrite (ioq_sleep_block Consumer c p) by done. simpl. eexists. split; [reflexivity|].
      split; simpl; try done; [unfold expected_lock; simpl; by rewrite Ew|by right].
    + rewrite ioq_sleep_ok by done. simpl. eexists. split; [reflexivity|]. split; simpl; try done; [by destruct Hr|..].
      * intros _ Hq. by rewrite Hq in Ew.
      * left. split_and!; [done|by left|done].
      * destruct Hps as [(? & ? & ?)|[? ?]]; [left|right]; (split_and!; try done); [by right|set_solver].
  - destruct (content_take _ Hr E) as (b & Hrd & Hr' & Hct). unfold ioq_take, mbnd, mget, mlift, mmod, mok. simpl.
    rewrite Hrd. simpl.
    destruct Hps as [(Hpp & Hpin & Hpw)|[Hpp Hpin]]; rewrite Hpp.
    + rewrite (proj2 (Z.eqb_neq p NULL)) by done. rewrite (wakeup_ok Producer p) by (simpl; done). simpl.
      eexists. split; [reflexivity|]. split; simpl; try done; [by destruct Hr'|..].
      * by rewrite <-app_assoc, Hf, Hct.
      * rewrite Hl. unfold expected_lock. by rewrite Hph.
      * right. split; [done|]. rewrite remove_elem. naive_solver.
      * right. split; [done|]. rewrite remove_elem. naive_solver.
    + simpl. eexists. split; [reflexivity|]. split; simpl; try done; [by destruct Hr'|..].
      * by rewrite <-app_assoc, Hf, Hct.
      * rewrite Hl. unfold expected_lock. by rewrite Hph.
      * by right.
      * by right.
Qed.

Lemma put_ok s b : sys_ok c p s → pph s = PFree → ∃ s', do_put p b s (queue s) = Ok s' ∧ sys_ok c p s'.
Proof.
  intros [Hi Hr Hf Hl Hx Hcs Hps] Hph. unfold do_put, ioq_putchar, ioq_full. unfold mbnd at 1. rewrite intr_off_ok by done.
  simpl. unfold mbnd. rewrite intr_off_ok by done. simpl. rewrite full_iff by done.
  assert (Hprod : producer (ioq (queue s)) = NULL ∧ p ∉ sleeping (queue s)) by (destruct Hps as [(_ & _ & ?)|?]; [congruence|done]).
  destruct Hprod as [Hpn Hps'].
  destruct (Z.eqb_spec (ring_len (ioq (queue s))) 2047) as [E|E].
  - destruct (is_wait (cph s)) eqn:Ew; unfold expected_lock in Hl; rewrite Hph, Ew in Hl; simpl in Hl.
    + rewrite (ioq_sleep_block Producer p c) by done. simpl. eexists. split; [reflexivity|].
      split; simpl; try done; [unfold expected_lock; simpl; by rewrite Ew|by right].
    + rewrite ioq_sleep_ok by done. simpl. eexists. split; [reflexivity|]. split; simpl; try done; [by destruct Hr|..].
      * unfold expected_lock. simpl. by rewrite Ew.
      * intros Hq _. by rewrite Hq in Ew.
      * destruct Hcs as [(? & ? & ?)|[? ?]]; [left|right]; (split_and!; try done); [by right|set_solver].
      * left. split_and!; [done|by left|done].
  - destruct (content_put _ b Hr E) as (buf' & Hwr & Hr' & Hct). unfold ioq_put, mbnd, mget, mlift, mmod, mok. simpl.
    rewrite Hwr. simpl.
    destruct Hcs as [(Hcc & Hcin & Hcw)|[Hcc Hcin]]; rewrite Hcc.
    + rewrite (proj2 (Z.eqb_neq c NULL)) by done. rewrite (wakeup_ok Consumer c) by (simpl; done). simpl.
      eexists. split; [reflexivity|]. split; simpl; try done; [by destruct Hr'|..].
      * rewrite Hf, <-app_assoc. f_equal. symmetry. exact Hct.
      * rewrite Hl. unfold expected_lock. by rewrite Hph.
      * right. split; [done|]. rewrite remove_elem. naive_solver.
      * right. split; [done|]. rewrite remove_elem. naive_solver.
    + simpl. eexists. split; [reflexivity|]. split; simpl; try done; [by destruct Hr'|..].
      * rewrite Hf, <-app_assoc. f_equal. symmetry. exact Hct.
      * rewrite Hl. unfold expected_lock. by rewrite Hph.
      * by right.
      * by right.
Qed.

Lemma sys_step a s : sys_ok c p s → s_enabled c p a s = true → ∃ s', s_exec c p a s = Ok s' ∧ sys_ok c p s'.
Proof.
  intros Hok He. pose proof Hok as [Hi Hr Hf Hl Hx Hcs Hps]. destruct a as [| |b|]; simpl in *.
  - apply bool_decide_eq_true in He. by apply get_ok.
  - destruct (cph s) eqn:Hph; [done| |].
    + assert (Hlk : ilock (ioq (queue s)) = Lock NULL 0).
      { unfold lock_free_for in He. rewrite Hl in *. unfold expected_lock in *. rewrite Hph in *. simpl in *.
        destruct (is_wait (pph s)); [|done]. simpl in He. exfalso.
        destruct (Z.eqb_spec p c), (Z.eqb_spec p NULL); done. }
      assert (Hcons : consumer (ioq (queue s)) = NULL ∧ c ∉ sleeping (queue s)) by (destruct Hcs as [(_ & _ & ?)|?]; [congruence|done]).
      unfold ioq_locked. rewrite ioq_sleep_ok by (simpl; naive_solver). simpl. eexists. split; [reflexivity|].
      assert (Hpw : pph s ≠ PWait) by (intros Hq; rewrite Hlk in Hl; unfold expected_lock in Hl; rewrite Hph, Hq in Hl; simpl in Hl; congruence).
      split; simpl; try done; [by destruct Hr|..].
      * left. split_and!; [done|by left|done].
      * destruct Hps as [(_ & _ & Hq)|[? ?]]; [done|right; split; [done|set_solver]].
    + apply negb_true_iff in He. unfold elem_in in He. apply bool_decide_eq_false in He.
      assert (Hlk : ilock (ioq (queue s)) = Lock c 1) by (rewrite Hl; unfold expected_lock; by rewrite Hph).
      rewrite woken_ok by done. simpl. assert (Hpw : pph s ≠ PWait) by naive_solver.
      destruct (get_ok (Sys (with_ioq (set_ilock (Lock NULL 0) (ioq (queue s))) (queue s)) PFree (pph s) (pend s) (sent s) (recv s)))
        as (s' & E & Hok'); [|done|by exists s'].
      split; simpl; try done; [by destruct Hr|unfold expected_lock; simpl; by destruct (pph s)|right; naive_solver].
  - apply bool_decide_eq_true in He. by apply put_ok.
  - destruct (pph s) eqn:Hph; [done| |].
    + assert (Hcw : is_wait (cph s) = false).
      { destruct (is_wait (cph s)) eqn:E; [|done]. unfold lock_free_for in He. rewrite Hl in He. unfold expected_lock in He.
        rewrite E in He. simpl in He. destruct (Z.eqb_spec c p), (Z.eqb_spec c NULL); done. }
      assert (Hlk : ilock (ioq (queue s)) = Lock NULL 0) by (rewrite Hl; unfold expected_lock; by rewrite Hcw, Hph).
      assert (Hprod : producer (ioq (queue s)) = NULL ∧ p ∉ sleeping (queue s)) by (destruct Hps as [(_ & _ & ?)|?]; [congruence|done]).
      unfold ioq_locked. rewrite ioq_sleep_ok by (simpl; naive_solver). simpl. eexists. split; [reflexivity|].
      split; simpl; try done; [by destruct Hr|..].
      * unfold expected_lock. simpl. by rewrite Hcw.
      * intros Hq _. by rewrite Hq in Hcw.
      * destruct Hcs as [(_ & _ & Hq)|[? ?]]; [by rewrite Hq in Hcw|right; split; [done|set_solver]].
      * left. split_and!; [done|by left|done].
    + apply negb_true_iff in He. unfold elem_in in He. apply bool_decide_eq_false in He.
      assert (Hcw : cph s ≠ PWait) by naive_solver.
      assert (Hlk : ilock (ioq (queue s)) = Lock p 1) by (rewrite Hl; unfold expected_lock; rewrite Hph; by destruct (cph s)).
      rewrite woken_ok by done. simpl.
      destruct (put_ok (Sys (with_ioq (set_ilock (Lock NULL 0) (ioq (queue s))) (queue s)) (cph s) PFree (pend s) (sent s) (recv s)) (pend s))
        as (s' & E & Hok'); [|done|by exists s'].
      split; simpl; try done; [by destruct Hr|unfold expected_lock; simpl; by destruct (cph s)|right; naive_solver].
Qed.

Lemma sys_run l s s' : sys_ok c p s → s_run c p l s = Ok s' → sys_ok c p s'.
Proof.
  revert s. induction l as [|a l IH]; simpl; intros s Hok Hrun; [by injection Hrun as <-|].
  destruct (s_enabled c p a s) eqn:He; [|done]. destruct (sys_step a s Hok He) as (s1 & E & Hok1).
  rewrite E in Hrun. simpl in Hrun. eauto.
Qed.

Lemma init_ok b : length b = 2048%nat → sys_ok c p (sys_init b).
Proof.
  intros Hb. split; simpl; try done.
  - right. split; [done|apply not_elem_of_nil].
  - right. split; [done|apply not_elem_of_nil].
Qed.

End system_lemmas.

(** ** Pipes *)

Section pipe_lemmas.
Context {B : Build}.

(** One byte taken while nobody waits to put, one put while nobody waits to take. *)
Lemma getchar_done c s :
  intr_get_status (iflags s) = INTR_OFF → ring_ok (ioq s) → producer (ioq s) = NULL → ring_len (ioq s) ≠ 0 →
  ∃ b q', ioq_getchar c s = Ok (Done b, with_ioq q' s) ∧ ring_ok q' ∧ content (ioq s) = b :: content q' ∧
    ilock q' = ilock (ioq s) ∧ producer q' = producer (ioq s) ∧ consumer q' = consumer (ioq s).
Proof.
  intros Hi Hr Hp Hne. destruct (content_take _ Hr Hne) as (b & Hrd & Hr' & Hct).
  exists b. eexists. split; [|split; [exact Hr'|split; [exact Hct|done]]].
  unfold ioq_getchar, ioq_empty, ioq_take. unfold mbnd at 1. rewrite intr_off_ok by done. simpl.
  unfold mbnd. rewrite intr_off_ok by done. simpl. rewrite empty_iff, (proj2 (Z.eqb_neq _ _)) by done.
  unfold mbnd, mget, mlift, mmod, mok. simpl. rewrite Hrd. simpl. by rewrite (proj2 (Z.eqb_eq _ _) Hp).
Qed.

Lemma putchar_done c b s :
  intr_get_status (iflags s) = INTR_OFF → ring_ok (ioq s) → consumer (ioq s) = NULL → ring_len (ioq s) ≠ 2047 →
  ∃ q', ioq_putchar c b s = Ok (Done tt, with_ioq q' s) ∧ ring_ok q' ∧ content q' = content (ioq s) ++ [b] ∧
    ilock q' = ilock (ioq s) ∧ producer q' = producer (ioq s) ∧ consumer q' = consumer (ioq s).
Proof.
  intros Hi Hr Hp Hne. destruct (content_put _ b Hr Hne) as (buf' & Hwr & Hr' & Hct).
  eexists. split; [|split; [exact Hr'|split; [exact Hct|done]]].
  unfold ioq_putchar, ioq_full, ioq_put. unfold mbnd at 1. rewrite intr_off_ok by done. simpl.
  unfold mbnd. rewrite intr_off_ok by done. simpl. rewrite full_iff, (proj2 (Z.eqb_neq _ _)) by done.
  unfold mbnd, mget, mlift, mmod, mok. simpl. rewrite Hwr. simpl. by rewrite (proj2 (Z.eqb_eq _ _) Hp).
Qed.

(** A read of no more bytes than there are. *)
Lemma pipe_read_loop_spec n c s acc :
  intr_get_status (iflags s) = INTR_OFF → ring_ok (ioq s) → producer (ioq s) = NULL →
  (n ≤ length (content (ioq s)))%nat →
  ∃ s', pipe_read_loop n c acc s = Ok (Done (acc ++ take n (content (ioq s))), s') ∧ ring_ok (ioq s') ∧
    content (ioq s') = drop n (content (ioq s)) ∧ sleeping s' = sleeping s.
Proof.
  revert s acc. induction n as [|n IH]; intros s acc Hi Hr Hp Hn.
  - exists s. simpl. unfold mok. by rewrite app_nil_r.
  - pose proof (content_length (ioq s)) as Hl. assert (Hne : ring_len (ioq s) ≠ 0) by lia.
    destruct (getchar_done c s Hi Hr Hp Hne) as (b & q' & E & Hr' & Hct & _ & Hp' & _). set (s1 := with_ioq q' s) in *.
    destruct (IH s1 (acc ++ [b])) as (s' & E' & Hr2 & Hc2 & Hs2); try done; [simpl; congruence|..].
    { simpl. rewrite Hct in Hn. simpl in Hn. lia. }
    exists s'. simpl. unfold mbnd. rewrite E. simpl. rewrite E'. rewrite Hct. split_and!; try done.
    + do 3 f_equal. simpl. by rewrite <-app_assoc.
Qed.

Lemma pipe_write_loop_spec bytes c s n :
  intr_get_status (iflags s) = INTR_OFF → ring_ok (ioq s) → consumer (ioq s) = NULL →
  Z.of_nat (length bytes) + ring_len (ioq s) ≤ 2047 → 0 ≤ n → n + Z.of_nat (length bytes) < 4294967296 →
  ∃ s', pipe_write_loop bytes c n s = Ok (Done (n + Z.of_nat (length bytes)), s') ∧ ring_ok (ioq s') ∧
    content (ioq s') = content (ioq s) ++ bytes ∧ iflags s' = iflags s ∧ sleeping s' = sleeping s ∧
    ilock (ioq s') = ilock (ioq s) ∧ producer (ioq s') = producer (ioq s).
Proof.
  revert s n. induction bytes as [|b bytes IH]; intros s n Hi Hr Hp Hn H0 Hb.
  - exists s. simpl. unfold mok. rewrite app_nil_r, Z.add_0_r. done.
  - assert (Hne : ring_len (ioq s) ≠ 2047) by (simpl in Hn; lia).
    destruct (putchar_done c b s Hi Hr Hp Hne) as (q' & E & Hr' & Hct & Hlk' & Hpr' & Hcn'). set (s1 := with_ioq q' s) in *.
    assert (Hl : ring_len (ioq s1) = ring_len (ioq s) + 1).
    { rewrite <-!content_length. simpl. rewrite Hct, length_app. simpl. lia. }
    destruct (IH s1 (u32 (n + 1))) as (s' & E' & Hr2 & Hc2 & Hf2 & Hs2 & Hl2 & Hp2); try done.
    { simpl. congruence. } { simpl length in Hn. lia. } { apply u32_range. } { simpl length in Hb. rewrite u32_small; lia. }
    exists s'. simpl. unfold mbnd. rewrite E. simpl. rewrite E'. split_and!; try done.
    + simpl length in Hb. rewrite u32_small by lia. do 3 f_equal. lia.
    + rewrite Hc2. simpl. by rewrite Hct, <-app_assoc.
    + rewrite Hl2. done.
    + rewrite Hp2. done.
Qed.

End pipe_lemmas.

(** ** The shape of a state, for following one long run *)

Section views.
Context {B : Build} (c p : Z).
Context (Hc : c ≠ NULL) (Hp : p ≠ NULL) (Hcp : c ≠ p).

Definition view (s : sys) (lk : lock) (pr co : Z) (sl : list Z) (ch ph : phase) (n : Z) : Prop :=
  intr_get_status (iflags (queue s)) = INTR_OFF ∧ ring_ok (ioq (queue s)) ∧ ilock (ioq (queue s)) = lk ∧
  producer (ioq (queue s)) = pr ∧ consumer (ioq (queue s)) = co ∧ sleeping (queue s) = sl ∧
  cph s = ch ∧ pph s = ph ∧ ring_len (ioq (queue s)) = n.

Lemma s_run_app l1 l2 s s1 : s_run c p l1 s = Ok s1 → s_run c p (l1 ++ l2) s = s_run c p l2 s1.
Proof.
  revert s. induction l1 as [|a l1 IH]; simpl; intros s E; [by injection E as ->|].
  destruct (s_enabled c p a s); [|done]. destruct (s_exec c p a s); try done. by apply IH.
Qed.

Lemma view_puts k b s lk pr sl ch n :
  view s lk pr NULL sl ch PFree n → n + Z.of_nat k ≤ 2047 →
  ∃ s', s_run c p (replicate k (SPut b)) s = Ok s' ∧ view s' lk pr NULL sl ch PFree (n + Z.of_nat k).
Proof.
  revert s n. induction k as [|k IH]; intros s n V Hn.
  - exists s. split; [done|]. by replace (n + Z.of_nat 0) with n by lia.
  - destruct V as (Hi & Hr & Hl & Hpr & Hco & Hsl & Hch & Hph & Hlen).
    destruct (putchar_done p b (queue s)) as (q' & E & Hr' & Hct & Q1 & Q2 & Q3); try done; [lia|].
    destruct (IH (Sys (with_ioq q' (queue s)) ch PFree b (sent s ++ [b]) (recv s)) (n + 1)) as (s' & E' & V').
    { split_and!; simpl; try done; try congruence.
      rewrite <-content_length, Hct, length_app, <-Hlen, <-content_length. simpl. lia. }
    { lia. }
    exists s'. simpl. rewrite bool_decide_true by done. unfold do_put. rewrite E. simpl. rewrite Hch. split; [done|].
    by replace (n + Z.of_nat (S k)) with (n + 1 + Z.of_nat k) by lia.
Qed.

Lemma view_gets k s lk co sl ph n :
  view s lk NULL co sl PFree ph n → Z.of_nat k ≤ n →
  ∃ s', s_run c p (replicate k SGet) s = Ok s' ∧ view s' lk NULL co sl PFree ph (n - Z.of_nat k).
Proof.
  revert s n. induction k as [|k IH]; intros s n V Hn.
  - exists s. split; [done|]. by replace (n - Z.of_nat 0) with n by lia.
  - destruct V as (Hi & Hr & Hl & Hpr & Hco & Hsl & Hch & Hph & Hlen).
    destruct (getchar_done c (queue s)) as (b & q' & E & Hr' & Hct & Q1 & Q2 & Q3); try done; [lia|].
    destruct (IH (Sys (with_ioq q' (queue s)) PFree ph (pend s) (sent s) (recv s ++ [b])) (n - 1)) as (s' & E' & V').
    { split_and!; simpl; try done; try congruence.
      rewrite <-Hlen, <-!content_length, Hct. simpl. lia. }
    { lia. }
    exists s'. simpl. rewrite bool_decide_true by done. unfold do_get. rewrite E. simpl. rewrite Hph. split; [done|].
    by replace (n - Z.of_nat (S k)) with (n - 1 - Z.of_nat k) by lia.
Qed.

(** The producer finds the ring full and the lock free. *)
Lemma view_put_sleep b s co sl ch :
  view s (Lock NULL 0) NULL co sl ch PFree 2047 →
  ∃ s', s_run c p [SPut b] s = Ok s' ∧ view s' (Lock p 1) p co (p :: sl) ch PWait 2047.
Proof.
  intros (Hi & Hr & Hl & Hpr & Hco & Hsl & Hch & Hph & Hlen).
  assert (E : ioq_putchar p b (queue s) = Ok (Asleep, with_sleeping (p :: sleeping (queue s))
      (with_ioq (set_slot Producer p (set_ilock (Lock p 1) (ioq (queue s)))) (queue s)))).
  { unfold ioq_putchar, ioq_full. unfold mbnd at 1. rewrite intr_off_ok by done. simpl.
    unfold mbnd. rewrite intr_off_ok by done. simpl. rewrite full_iff, (proj2 (Z.eqb_eq _ _)) by done.
    by rewrite ioq_sleep_ok by done. }
  simpl. rewrite bool_decide_true by done. unfold do_put. rewrite E. simpl. eexists. split; [reflexivity|].
  split_and!; simpl; try done; [by destruct Hr|congruence].
Qed.

(** The first byte taken wakes it. *)
Lemma view_get_wake s lk co ph n :
  view s lk p co [p] PFree ph n → 0 < n →
  ∃ s', s_run c p [SGet] s = Ok s' ∧ view s' lk NULL co [] PFree ph (n - 1).
Proof.
  intros (Hi & Hr & Hl & Hpr & Hco & Hsl & Hch & Hph & Hlen) Hn.
  destruct (content_take (ioq (queue s)) Hr) as (b & Hrd & Hr' & Hct); [lia|].
  simpl. rewrite bool_decide_true by done. unfold do_get, ioq_getchar, ioq_empty, ioq_take.
  unfold mbnd at 1. rewrite intr_off_ok by done. simpl. unfold mbnd. rewrite intr_off_ok by done. simpl.
  rewrite empty_iff, (proj2 (Z.eqb_neq _ _)) by (done || lia).
  unfold mbnd, mget, mlift, mmod, mok. simpl. rewrite Hrd. simpl. rewrite Hpr, (proj2 (Z.eqb_neq p NULL)) by done.
  rewrite (wakeup_ok Producer p) by (simpl; rewrite ?Hsl; try done; by left). simpl.
  eexists. split; [reflexivity|]. split_and!; simpl; try done; [by destruct Hr'| |].
  - rewrite Hsl. unfold Spec.remove. rewrite filter_cons, decide_False by naive_solver. done.
  - apply (f_equal length) in Hct. simpl in Hct. apply (f_equal Z.of_nat) in Hct.
    rewrite Nat2Z.inj_succ, !content_length in Hct. rewrite <-Hlen, Hct. unfold ring_len. simpl. lia.
Qed.

(** The consumer finds the ring empty and the lock taken. *)
Lemma view_get_block s pr co sl ph :
  view s (Lock p 1) pr co sl PFree ph 0 →
  ∃ s', s_run c p [SGet] s = Ok s' ∧ view s' (Lock p 1) pr co sl PLock ph 0.
Proof.
  intros (Hi & Hr & Hl & Hpr & Hco & Hsl & Hch & Hph & Hlen).
  simpl. rewrite bool_decide_true by done. unfold do_get, ioq_getchar, ioq_empty.
  unfold mbnd at 1. rewrite intr_off_ok by done. simpl. unfold mbnd. rewrite intr_off_ok by done. simpl.
  rewrite empty_iff, (proj2 (Z.eqb_eq _ _)) by done. rewrite (ioq_sleep_block Consumer c p) by done. simpl.
  eexists. split; [reflexivity|]. split_and!; simpl; done.
Qed.

(** The woken producer releases the lock and puts its byte. *)
Lemma view_put_go s ch n :
  view s (Lock p 1) NULL NULL [] ch PWait n → n < 2047 →
  ∃ s', s_run c p [SPutGo] s = Ok s' ∧ view s' (Lock NULL 0) NULL NULL [] ch PFree (n + 1).
Proof.
  intros (Hi & Hr & Hl & Hpr & Hco & Hsl & Hch & Hph & Hlen) Hn.
  simpl. rewrite Hph, Hsl. simpl. rewrite woken_ok by done. simpl.
  set (q1 := with_ioq (set_ilock (Lock NULL 0) (ioq (queue s))) (queue s)).
  destruct (putchar_done p (pend s) q1) as (q' & E & Hr' & Hct & Q1 & Q2 & Q3); try done.
  { by destruct Hr. } { change (ring_len (ioq (queue s)) ≠ 2047). lia. }
  unfold do_put. rewrite E. simpl. eexists. split; [reflexivity|].
  split_and!; simpl; try done; try (by rewrite Q2); try (by rewrite Q3).
  rewrite <-content_length, Hct, length_app, Nat2Z.inj_add, content_length.
  change (ring_len (ioq q1)) with (ring_len (ioq (queue s))). simpl. lia.
Qed.

(** Fill the queue and fall asleep; empty it completely; put again to the brim. *)
Definition deadlock_run : list sstep :=
  replicate 2047 (SPut 7) ++ [SPut 7] ++ [SGet] ++ replicate 2046 SGet ++ [SGet] ++ [SPutGo] ++
  replicate 2046 (SPut 9) ++ [SPut 9].

Lemma deadlock_view :
  ∃ s, s_run c p deadlock_run (sys_init (replicate 2048 0)) = Ok s ∧ view s (Lock p 1) p NULL [p] PLock PWait 2047.
Proof.
  assert (V0 : view (sys_init (replicate 2048 0)) (Lock NULL 0) NULL NULL [] PFree PFree 0).
  { split_and!; simpl; done. }
  destruct (view_puts 2047 7 _ _ _ _ _ _ V0) as (s1 & E1 & V1); [lia|].
  destruct (view_put_sleep 7 _ _ _ _ V1) as (s2 & E2 & V2).
  destruct (view_get_wake _ _ _ _ _ V2) as (s3 & E3 & V3); [lia|].
  destruct (view_gets 2046 _ _ _ _ _ _ V3) as (s4 & E4 & V4); [lia|].
  destruct (view_get_block _ _ _ _ _ V4) as (s5 & E5 & V5).
  destruct (view_put_go _ _ _ V5) as (s6 & E6 & V6); [lia|].
  destruct (view_puts 2046 9 _ _ _ _ _ _ V6) as (s7 & E7 & V7); [lia|].
  destruct (view_put_sleep 9 _ _ _ _ V7) as (s8 & E8 & V8).
  exists s8. split; [|done]. unfold deadlock_run.
  rewrite (s_run_app _ _ _ _ E1), (s_run_app _ _ _ _ E2), (s_run_app _ _ _ _ E3), (s_run_app _ _ _ _ E4),
    (s_run_app _ _ _ _ E5), (s_run_app _ _ _ _ E6), (s_run_app _ _ _ _ E7). done.
Qed.

End views.

(** ** Theorems *)

(** C30: Between one producer and one consumer, in any interleaving, the queue is
    first in first out: the bytes put are the bytes taken followed by the bytes
    in the ring, of which there are at most 2047; no assertion fails and no
    access leaves the buffer; and the two threads are never both asleep in
    [ioq_wait]. *)
Theorem ioq_fifo {B : Build} (c p : Z) (b : list Z) (l : list sstep) (s : sys) :
  c ≠ NULL → p ≠ NULL → c ≠ p → length b = 2048%nat → s_run c p l (sys_init b) = Ok s →
  sent s = recv s ++ content (ioq (queue s)) ∧ (length (content (ioq (queue s))) ≤ 2047)%nat ∧
  (∀ a, s_enabled c p a s = true → ∃ s', s_exec c p a s = Ok s') ∧
  ¬ (c ∈ sleeping (queue s) ∧ p ∈ sleeping (queue s)).
Proof.
  intros Hc Hp Hcp Hb Hrun. assert (Hok : sys_ok c p s) by (eapply sys_run; [..|exact Hrun]; try done; by apply init_ok).
  split_and!.
  - apply Hok.
  - pose proof (content_length (ioq (queue s))). pose proof (ring_len_range (ioq (queue s))). unfold bufsize in *. lia.
  - intros a He. destruct (sys_step c p Hc Hp Hcp a s Hok He) as (s' & E & _). eauto.
  - intros [H1 H2]. destruct (so_cons _ _ _ Hok) as [(_ & _ & Q1)|[_ Q1]]; [|done].
    destruct (so_prod _ _ _ Hok) as [(_ & _ & Q2)|[_ Q2]]; [|done]. by apply (so_excl _ _ _ Hok).
Qed.

(** C38: The lock is kept while a thread sleeps in [ioq_wait], and the condition
    is not tested again after [lock_acquire]: a producer and a consumer can
    reach a state in which no step of either is possible, with a full buffer,
    the producer asleep with the lock and the consumer waiting for the lock. *)
Theorem ioq_deadlock_reachable :
  ∃ s, s_run (B := debug_build) 4096 8192 deadlock_run (sys_init (replicate 2048 0)) = Ok s ∧
    (∀ a, s_enabled 4096 8192 a s = false) ∧ ring_len (ioq (queue s)) = 2047.
Proof.
  destruct (deadlock_view (B := debug_build) 4096 8192) as (s & E & V); [done..|].
  exists s. split; [exact E|]. destruct V as (_ & _ & Hl & _ & _ & Hs & Hc & Hp & Hn). split; [|done].
  intros []; simpl; rewrite ?Hc, ?Hp; unfold lock_free_for; rewrite ?Hl, ?Hs; done.
Qed.

Lemma pipe_write_loop_app l1 l2 {B : Build} c s n n1 s1 :
  pipe_write_loop l1 c n s = Ok (Done n1, s1) → pipe_write_loop (l1 ++ l2) c n s = pipe_write_loop l2 c n1 s1.
Proof.
  revert s n. induction l1 as [|b l1 IH]; simpl; intros s n E.
  - unfold mok in E. by injection E as -> ->.
  - revert E. unfold mbnd. destruct (ioq_putchar c b s) as [[[] s2]| | | |]; simpl; try done. apply IH.
Qed.

(** A pipe delivers. With interrupts off and nobody waiting, [pipe_write] of
    bytes that fit (at most 2047 in the ring) appends them and returns their
    number, and [pipe_read] returns the oldest [count] bytes, or all there are,
    takes exactly those out, and never sleeps. *)
Theorem pipe_delivers {B : Build} (c : Z) (s : ioqst) (bytes : list Z) (count rcount : Z) :
  intr_get_status (iflags s) = INTR_OFF → ring_ok (ioq s) →
  producer (ioq s) = NULL → consumer (ioq s) = NULL → 0 ≤ rcount →
  Z.of_nat (length bytes) = count → count + Z.of_nat (length (content (ioq s))) ≤ 2047 →
  ∃ s1 s2, pipe_write c bytes count s = Ok (Done count, s1) ∧
    content (ioq s1) = content (ioq s) ++ bytes ∧
    pipe_read c rcount s1 = Ok (Done (take (Z.to_nat rcount) (content (ioq s1))), s2) ∧
    content (ioq s2) = drop (Z.to_nat rcount) (content (ioq s1)).
Proof.
  intros Hi Hr Hp Hco Hrc Hl Hfit. rewrite content_length in Hfit. pose proof (ring_len_range (ioq s)) as Hlen.
  destruct (pipe_write_loop_spec bytes c s 0) as (s1 & E1 & Hr1 & Hc1 & Hi1 & Hs1 & _ & Hp1); try done; [lia|lia|].
  assert (Hw : pipe_write c bytes count s = Ok (Done count, s1)).
  { unfold pipe_write, mbnd, mget. simpl. rewrite ioq_length_eq by done. unfold bufsize in *. rewrite u32_small by lia.
    rewrite (proj2 (Z.ltb_lt _ _)) by lia. rewrite take_ge by lia. rewrite E1. by rewrite Hl. }
  pose proof (ring_len_range (ioq s1)) as Hlen1. pose proof (content_length (ioq s1)) as Hcl.
  set (n := Z.to_nat (if rcount <? ring_len (ioq s1) then rcount else ring_len (ioq s1))).
  destruct (pipe_read_loop_spec n c s1 []) as (s2 & E2 & _ & Hc2 & _); [congruence|done|congruence| |].
  { unfold n. destruct (Z.ltb_spec rcount (ring_len (ioq s1))); lia. }
  exists s1, s2. split; [done|]. split; [done|].
  assert (Ht : take n (content (ioq s1)) = take (Z.to_nat rcount) (content (ioq s1)) ∧
               drop n (content (ioq s1)) = drop (Z.to_nat rcount) (content (ioq s1))).
  { unfold n. destruct (Z.ltb_spec rcount (ring_len (ioq s1))); [done|]. by rewrite !take_ge, !drop_ge by lia. }
  destruct Ht as [Ht1 Ht2]. split; [|by rewrite Hc2].
  unfold pipe_read, mbnd, mget. simpl. rewrite ioq_length_eq by done. fold n. rewrite E2. simpl. by rewrite Ht1.
Qed.

(** [pipe_write] can sleep although it limits its count "to avoid blocking":
    it takes the ring to hold 2048 bytes, but the ring is full at 2047. Any write
    of at least as many bytes as 2048 minus the bytes present puts the writer to
    sleep after the ring is full, holding the queue's lock. *)
Theorem pipe_write_sleeps {B : Build} (c : Z) (s : ioqst) (bytes : list Z) (count : Z) :
  intr_get_status (iflags s) = INTR_OFF → ring_ok (ioq s) → c ≠ NULL →
  producer (ioq s) = NULL → consumer (ioq s) = NULL → ilock (ioq s) = Lock NULL 0 →
  Z.of_nat (length bytes) = count → 2048 ≤ count + Z.of_nat (length (content (ioq s))) →
  ∃ s1, pipe_write c bytes count s = Ok (Asleep, s1) ∧ c ∈ sleeping s1 ∧ ilock (ioq s1) = Lock c 1 ∧
    Z.of_nat (length (content (ioq s1))) = 2047.
Proof.
  intros Hi Hr Hcn Hp Hco Hlk Hl Hfit. rewrite content_length in Hfit. pose proof (ring_len_range (ioq s)) as Hlen.
  unfold bufsize in Hlen. set (k := Z.to_nat (2047 - ring_len (ioq s))).
  destruct (lookup_lt_is_Some_2 bytes k) as [b Hb]; [lia|].
  assert (Hsplit : take (S k) bytes = take k bytes ++ [b]) by (by apply take_S_r).
  destruct (pipe_write_loop_spec (take k bytes) c s 0) as (s1 & E1 & Hr1 & Hc1 & Hi1 & Hs1 & Hl1 & Hp1); try done;
    [rewrite length_take; lia|rewrite length_take; lia|].
  assert (Hlen1 : ring_len (ioq s1) = 2047).
  { rewrite <-content_length, Hc1, length_app, Nat2Z.inj_add, content_length, length_take. lia. }
  exists (with_sleeping (c :: sleeping s1) (with_ioq (set_slot Producer c (set_ilock (Lock c 1) (ioq s1))) s1)).
  split; [|split; [by left|split; [done|]]].
  - unfold pipe_write, mbnd, mget. simpl. rewrite ioq_length_eq by done. unfold bufsize. rewrite u32_small by lia.
    assert ((if count <? 2048 - ring_len (ioq s) then count else 2048 - ring_len (ioq s)) = 2048 - ring_len (ioq s)) as ->
      by (destruct (Z.ltb_spec count (2048 - ring_len (ioq s))); lia).
    replace (Z.to_nat (2048 - ring_len (ioq s))) with (S k) by lia. rewrite Hsplit.
    rewrite (pipe_write_loop_app _ _ _ _ _ _ _ E1). simpl. unfold mbnd at 1, ioq_putchar, ioq_full.
    unfold mbnd at 1. rewrite intr_off_ok by congruence. simpl. unfold mbnd. rewrite intr_off_ok by congruence. simpl.
    rewrite full_iff, (proj2 (Z.eqb_eq _ _)) by done. rewrite ioq_sleep_ok; [done|simpl; congruence|done|congruence].
  - change (Z.of_nat (length (content (ioq s1))) = 2047). by rewrite content_length.
Qed.

(** ** Witnesses *)

Definition empty_queue : ioqst := queue (sys_init (replicate 2048 0)).

Lemma empty_ring : ring_ok (ioq empty_queue).
Proof. split; [reflexivity|vm_compute; split; congruence|vm_compute; split; congruence]. Qed.

Lemma ioq_fifo_witness : ∃ s, s_run (B := debug_build) 4096 8192 [SGet; SPut 65; SGetGo] (sys_init (replicate 2048 0)) = Ok s ∧
  sent s = recv s ++ content (ioq (queue s)).
Proof.
  eexists. split; [vm_compute; reflexivity|].
  refine (proj1 (ioq_fifo (B := debug_build) 4096 8192 (replicate 2048 0) [SGet; SPut 65; SGetGo] _ _ _ _ _ _)); try discriminate; vm_compute; reflexivity.
Defined.

Lemma pipe_delivers_witness :
  ∃ s1 s2, pipe_write (B := debug_build) 4096 [72; 105] 2 empty_queue = Ok (Done 2, s1) ∧
    pipe_read (B := debug_build) 4096 1 s1 = Ok (Done (take 1 (content (ioq s1))), s2).
Proof.
  destruct (pipe_delivers (B := debug_build) 4096 empty_queue [72; 105] 2 1) as (s1 & s2 & E1 & _ & E2 & _).
  - vm_compute. reflexivity.
  - apply empty_ring.
  - reflexivity.
  - reflexivity.
  - lia.
  - reflexivity.
  - vm_compute. discriminate.
  - exists s1, s2. split; [exact E1|exact E2].
Defined.

Lemma pipe_write_sleeps_witness :
  ∃ s1, pipe_write (B := debug_build) 4096 (replicate 2048 1) 2048 empty_queue = Ok (Asleep, s1) ∧ 4096 ∈ sleeping s1.
Proof.
  destruct (pipe_write_sleeps (B := debug_build) 4096 empty_queue (replicate 2048 1) 2048) as (s1 & E & H & _).
  - vm_compute. reflexivity.
  - apply empty_ring.
  - discriminate.
  - reflexivity.
  - reflexivity.
  - reflexivity.
  - vm_compute. reflexivity.
  - vm_compute. discriminate.
  - exists s1. split; [exact E|exact H].
Defined.
