(* ===== verification/Keyboard.v ===== *)
(** * The keyboard driver ([device/keyboard.c])

    The interrupt handler turns scancodes into characters, tracking the
    modifier keys, and puts them into the keyboard queue.  The byte read from
    port 0x60 is an argument. *)

From S2P Require Import Prelude Interrupt KList Sched Ioqueue.

(** ** State *)

Record kbd := Kbd {
  ctrl_status : bool;
  shift_status : bool;
  alt_status : bool;
  caps_lock_status : bool;
  ext_scancode : bool
}.

Record kbst := Kbst { kb : kbd; kbd_buf : ioqst }.

Definition set_ctrl b k := Kbd b (shift_status k) (alt_status k) (caps_lock_status k) (ext_scancode k).
Definition set_shift b k := Kbd (ctrl_status k) b (alt_status k) (caps_lock_status k) (ext_scancode k).
Definition set_alt b k := Kbd (ctrl_status k) (shift_status k) b (caps_lock_status k) (ext_scancode k).
Definition set_caps b k := Kbd (ctrl_status k) (shift_status k) (alt_status k) b (ext_scancode k).
Definition set_ext b k := Kbd (ctrl_status k) (shift_status k) (alt_status k) (caps_lock_status k) b.

(** [keymap\[make_code\]\[shift\]] as character codes. *)
Definition keymap : list (Z * Z) :=
  [(0, 0); (27, 27); (49, 33); (50, 64); (51, 35); (52, 36); (53, 37); (54, 94); (55, 38); (56, 42);
   (57, 40); (48, 41); (45, 95); (61, 43); (8, 8); (9, 9);
   (113, 81); (119, 87); (101, 69); (114, 82); (116, 84); (121, 89); (117, 85); (105, 73); (111, 79); (112, 80);
   (91, 123); (93, 125); (13, 13); (0, 0);
   (97, 65); (115, 83); (100, 68); (102, 70); (103, 71); (104, 72); (106, 74); (107, 75); (108, 76);
   (59, 58); (39, 34); (96, 126); (0, 0); (92, 124);
   (122, 90); (120, 88); (99, 67); (118, 86); (98, 66); (110, 78); (109, 77); (44, 60); (46, 62); (47, 63);
   (0, 0); (42, 42); (0, 0); (32, 32); (0, 0)].

Definition shift_l_make : Z := 42.
Definition shift_r_make : Z := 54.
Definition alt_l_make : Z := 56.
Definition alt_r_make : Z := 57400.
Definition ctrl_l_make : Z := 29.
Definition ctrl_r_make : Z := 57373.
Definition caps_lock_make : Z := 58.

(** The keys with two characters on them. *)
Definition two_char_key (scancode : Z) : bool :=
  (scancode <? 14) || (scancode =? 41) || (scancode =? 26) || (scancode =? 27) || (scancode =? 43) ||
  (scancode =? 39) || (scancode =? 40) || (scancode =? 51) || (scancode =? 52) || (scancode =? 53).

(** Which column of the map a make code selects. *)
Definition use_shift (k : kbd) (scancode : Z) : bool :=
  if two_char_key scancode then shift_status k
  else if shift_status k && caps_lock_status k then false
  else shift_status k || caps_lock_status k.

Definition release_key (k : kbd) (make_code : Z) : kbd :=
  if (make_code =? ctrl_l_make) || (make_code =? ctrl_r_make) then set_ctrl false k
  else if (make_code =? shift_l_make) || (make_code =? shift_r_make) then set_shift false k
  else if (make_code =? alt_l_make) || (make_code =? alt_r_make) then set_alt false k
  else k.

Definition press_modifier (k : kbd) (scancode : Z) : kbd :=
  if (scancode =? ctrl_l_make) || (scancode =? ctrl_r_make) then set_ctrl true k
  else if (scancode =? shift_l_make) || (scancode =? shift_r_make) then set_shift true k
  else if (scancode =? alt_l_make) || (scancode =? alt_r_make) then set_alt true k
  else if scancode =? caps_lock_make then set_caps (negb (caps_lock_status k)) k
  else k.

Definition kbd_put {B : Build} (c cur_char : Z) (s : kbst) : res kbst :=
  let? f := ioq_full (kbd_buf s) in
  if f.1 then Ok (Kbst (kb s) f.2)
  else let? r := ioq_putchar c cur_char f.2 in Ok (Kbst (kb s) r.2).

(** [c] is the thread that was interrupted. *)
Definition intr_keyboard_handler {B : Build} (c inb : Z) (s : kbst) : res kbst :=
  let k := kb s in
  if inb =? 224 then Ok (Kbst (set_ext true k) (kbd_buf s))
  else
    let scancode := if ext_scancode k then Z.lor 57344 inb else inb in
    let k := set_ext false k in
    if negb (Z.land scancode 128 =? 0) then
      Ok (Kbst (release_key k (Z.land scancode 65407)) (kbd_buf s))
    else if ((0 <? scancode) && (scancode <? 59)) || (scancode =? alt_r_make) || (scancode =? ctrl_r_make) then
      let shift := use_shift k scancode in
      let scancode := Z.land scancode 255 in
      let? e := rd keymap scancode in
      let cur_char := if shift then e.2 else e.1 in
      if cur_char =? 0 then Ok (Kbst (press_modifier k scancode) (kbd_buf s))
      else
        let cur_char := if (ctrl_status k && (cur_char =? 108)) || (ctrl_status k && (cur_char =? 117))
                        then s8 (cur_char - 97) else cur_char in
        kbd_put c cur_char (Kbst k (kbd_buf s))
    else Ok (Kbst k (kbd_buf s)).

(** A sequence of bytes from the controller. *)
Fixpoint keyboard_run {B : Build} (c : Z) (bytes : list Z) (s : kbst) : res kbst :=
  match bytes with
  | [] => Ok s
  | b :: bytes' => let? s' := intr_keyboard_handler c b s in keyboard_run c bytes' s'
  end.

(** ** What the keys mean *)

(** The character a key types: letters take shift exclusive-or caps lock, the
    other keys shift alone; ctrl-l and ctrl-u become the shell's two shortcuts. *)
Definition typed (k : kbd) (base shifted : Z) : Z :=
  let ch := if (97 <=? base) && (base <=? 122)
            then if xorb (shift_status k) (caps_lock_status k) then base - 32 else base
            else if shift_status k then shifted else base in
  if ctrl_status k && ((ch =? 108) || (ch =? 117)) then ch - 97 else ch.

(** The character the handler's arithmetic selects for a make code. *)
Definition selected (k : kbd) (scancode : Z) : option Z :=
  match keymap !! Z.to_nat scancode with
  | Some e =>
      let ch := if use_shift k scancode then e.2 else e.1 in
      if ch =? 0 then None
      else Some (if (ctrl_status k && (ch =? 108)) || (ctrl_status k && (ch =? 117)) then s8 (ch - 97) else ch)
  | None => None
  end.

Definition expected (k : kbd) (scancode : Z) : option Z :=
  match keymap !! Z.to_nat scancode with
  | Some e => if e.1 =? 0 then None else Some (typed k e.1 e.2)
  | None => None
  end.

Lemma selected_expected k sc : 0 < sc < 59 → selected k sc = expected k sc.
Proof.
  intros Hsc. destruct k as [ct sh al ca ex].
  assert (H : forallb (λ n, forallb (λ ct, forallb (λ sh, forallb (λ ca,
      bool_decide (selected (Kbd ct sh false ca false) (Z.of_nat n) = expected (Kbd ct sh false ca false) (Z.of_nat n)))
      [true; false]) [true; false]) [true; false]) (seq 1 58) = true) by (vm_compute; reflexivity).
  rewrite forallb_forall in H. specialize (H (Z.to_nat sc)). rewrite in_seq in H. specialize (H ltac:(lia)).
  rewrite forallb_forall in H. specialize (H ct ltac:(destruct ct; simpl; auto)).
  rewrite forallb_forall in H. specialize (H sh ltac:(destruct sh; simpl; auto)).
  rewrite forallb_forall in H. specialize (H ca ltac:(destruct ca; simpl; auto)).
  apply bool_decide_eq_true in H. by rewrite Z2Nat.id in H by lia.
Qed.

(** The part of the queue the driver relies on. *)
Record kbd_queue_ok (s : ioqst) : Prop := {
  ko_intr : intr_get_status (iflags s) = INTR_OFF;
  ko_ring : ring_ok (ioq s);
  ko_cons : consumer (ioq s) = NULL ∨ consumer (ioq s) ∈ sleeping s
}.

Section kbd_lemmas.
Context {B : Build} (c : Z).

(** [ioq_putchar] in a queue with room, whoever waits for the byte. *)
Lemma putchar_room b s :
  kbd_queue_ok s → ring_len (ioq s) ≠ 2047 →
  ∃ s', ioq_putchar c b s = Ok (Done tt, s') ∧ content (ioq s') = content (ioq s) ++ [b] ∧ kbd_queue_ok s' ∧
    ∀ t, t ∈ sleeping s' → t ∈ sleeping s.
Proof.
  intros [Hi Hr Hc] Hne. destruct (decide (consumer (ioq s) = NULL)) as [Hn|Hn].
  - destruct (putchar_done c b s Hi Hr Hn Hne) as (q' & E & Hr' & Hct & _ & _ & Hq). eexists. split; [exact E|].
    split; [done|]. split; [|done]. split; simpl; try done. left. congruence.
  - destruct Hc as [?|Hc]; [done|]. destruct (content_put _ b Hr Hne) as (buf' & Hwr & Hr' & Hct).
    eexists. split.
    { unfold ioq_putchar, ioq_full, ioq_put. unfold mbnd at 1. rewrite intr_off_ok by done. simpl.
      unfold mbnd. rewrite intr_off_ok by done. simpl. rewrite full_iff, (proj2 (Z.eqb_neq _ _)) by done.
      unfold mbnd, mget, mlift, mmod, mok. simpl. rewrite Hwr. simpl. rewrite (proj2 (Z.eqb_neq _ _) Hn).
      erewrite (wakeup_ok Consumer); simpl; done. }
    simpl. split; [exact Hct|]. split; [split; simpl; [done|by destruct Hr'|by left]|].
    intros t. rewrite remove_elem. naive_solver.
Qed.

(** Putting a character never sleeps: a full queue drops it. *)
Lemma kbd_put_spec ch s :
  kbd_queue_ok (kbd_buf s) →
  ∃ s', kbd_put c ch s = Ok s' ∧ kb s' = kb s ∧ kbd_queue_ok (kbd_buf s') ∧
    (∀ t, t ∈ sleeping (kbd_buf s') → t ∈ sleeping (kbd_buf s)) ∧
    content (ioq (kbd_buf s')) =
      if decide (Z.of_nat (length (content (ioq (kbd_buf s)))) = 2047) then content (ioq (kbd_buf s))
      else content (ioq (kbd_buf s)) ++ [ch].
Proof.
  intros Hk. pose proof Hk as [Hi Hr _]. unfold kbd_put, ioq_full. unfold mbnd at 1. rewrite intr_off_ok by done. simpl.
  rewrite full_iff by done. rewrite content_length.
  destruct (Z.eqb_spec (ring_len (ioq (kbd_buf s))) 2047) as [E|E].
  - eexists. split; [reflexivity|]. rewrite decide_True by done. done.
  - destruct (putchar_room ch (kbd_buf s) Hk E) as (s' & Es & Hct & Hk' & Hsl). rewrite Es. simpl.
    eexists. split; [reflexivity|]. rewrite decide_False by done. done.
Qed.

Lemma make_code_land sc : 0 ≤ sc < 128 → Z.land sc 128 = 0 ∧ Z.land sc 255 = sc.
Proof.
  intros H. assert (Hf : forallb (λ n, (Z.land (Z.of_nat n) 128 =? 0) && (Z.land (Z.of_nat n) 255 =? Z.of_nat n)) (seq 0 128) = true)
    by (vm_compute; reflexivity).
  rewrite forallb_forall in Hf. specialize (Hf (Z.to_nat sc)). rewrite in_seq in Hf. specialize (Hf ltac:(lia)).
  rewrite Z2Nat.id in Hf by lia. apply andb_true_iff in Hf as [?%Z.eqb_eq ?%Z.eqb_eq]. done.
Qed.

(** A make code of the map, not announced by 0xe0. *)
Lemma handler_make s sc :
  0 < sc < 59 → ext_scancode (kb s) = false → ∃ k', k' = set_ext false (kb s) ∧
  intr_keyboard_handler c sc s =
    match selected (kb s) sc with
    | Some ch => kbd_put c ch (Kbst k' (kbd_buf s))
    | None => Ok (Kbst (press_modifier k' sc) (kbd_buf s))
    end.
Proof.
  intros Hsc He. eexists. split; [done|]. unfold intr_keyboard_handler. rewrite (proj2 (Z.eqb_neq sc 224)) by lia. rewrite He.
  destruct (make_code_land sc) as [H1 H2]; [lia|]. rewrite H1. simpl.
  rewrite (proj2 (Z.ltb_lt 0 sc)), (proj2 (Z.ltb_lt sc 59)) by lia. simpl. rewrite H2.
  destruct (rd_total keymap sc) as (e & Hrd & Hl); [simpl; lia|]. rewrite Hrd. simpl.
  unfold selected. rewrite Hl. unfold use_shift. simpl. by destruct (_ =? 0).
Qed.

End kbd_lemmas.

(** ** Theorems *)

(** Every key of the map types what its cap says. For each make code and
    each state of the modifiers the handler appends to the keyboard queue the
    letter in the case that shift exclusive-or caps lock selects, or the shifted
    or unshifted symbol, or the code of ctrl-l or ctrl-u; the modifiers stay as
    they are; a full queue drops the character, and in neither case does the
    interrupted thread go to sleep. *)
Theorem keyboard_types {B : Build} (c sc : Z) (s : kbst) (ch : Z) :
  0 < sc < 59 → ext_scancode (kb s) = false → kbd_queue_ok (kbd_buf s) → expected (kb s) sc = Some ch →
  ∃ s', intr_keyboard_handler c sc s = Ok s' ∧ kb s' = kb s ∧ kbd_queue_ok (kbd_buf s') ∧
    (∀ t, t ∈ sleeping (kbd_buf s') → t ∈ sleeping (kbd_buf s)) ∧
    content (ioq (kbd_buf s')) =
      if decide (Z.of_nat (length (content (ioq (kbd_buf s)))) = 2047) then content (ioq (kbd_buf s))
      else content (ioq (kbd_buf s)) ++ [ch].
Proof.
  intros Hsc He Hk Hex. destruct (handler_make c s sc Hsc He) as (k' & -> & ->).
  rewrite selected_expected, Hex by done.
  destruct (kbd_put_spec c ch (Kbst (set_ext false (kb s)) (kbd_buf s)) Hk) as (s' & E & Hkb & H). exists s'. split; [done|].
  split; [|done]. rewrite Hkb. simpl. unfold set_ext. destruct (kb s); simpl in *. by subst.
Qed.

(** The effect of pressing and releasing a modifier key. *)
Inductive modifier := MCtrlL | MCtrlR | MShiftL | MShiftR | MAltL | MAltR.

Definition make_bytes (m : modifier) : list Z :=
  match m with
  | MCtrlL => [29] | MCtrlR => [224; 29] | MShiftL => [42] | MShiftR => [54] | MAltL => [56] | MAltR => [224; 56]
  end.
Definition break_bytes (m : modifier) : list Z :=
  match m with
  | MCtrlL => [157] | MCtrlR => [224; 157] | MShiftL => [170] | MShiftR => [182] | MAltL => [184] | MAltR => [224; 184]
  end.
Definition set_modifier (m : modifier) (b : bool) (k : kbd) : kbd :=
  match m with MCtrlL | MCtrlR => set_ctrl b k | MShiftL | MShiftR => set_shift b k | MAltL | MAltR => set_alt b k end.

(** The driver follows the modifier keys. The make code of each ctrl, shift
    and alt key, one byte or two with the 0xe0 prefix, sets exactly its state
    and the break code clears it; caps lock toggles on every press and ignores
    its release; none of them puts a character into the queue. *)
Theorem keyboard_modifiers {B : Build} (c : Z) (s : kbst) (m : modifier) :
  ext_scancode (kb s) = false →
  keyboard_run c (make_bytes m) s = Ok (Kbst (set_modifier m true (kb s)) (kbd_buf s)) ∧
  keyboard_run c (break_bytes m) s = Ok (Kbst (set_modifier m false (kb s)) (kbd_buf s)) ∧
  keyboard_run c [58] s = Ok (Kbst (set_caps (negb (caps_lock_status (kb s))) (kb s)) (kbd_buf s)) ∧
  keyboard_run c [186] s = Ok s.
Proof.
  destruct s as [[ct sh al ca ex] q]. simpl. intros ->.
  split_and!; [destruct m|destruct m| |]; destruct ct, sh, al, ca; reflexivity.
Qed.

(** ** Witnesses *)

Definition demo_kbd : kbst := Kbst (Kbd false true false false false) empty_queue.

Lemma demo_kbd_ok : kbd_queue_ok (kbd_buf demo_kbd).
Proof. split; [vm_compute; reflexivity|apply empty_ring|by left]. Qed.

Lemma keyboard_types_witness :
  ∃ s', intr_keyboard_handler (B := debug_build) 4096 30 demo_kbd = Ok s' ∧ content (ioq (kbd_buf s')) = [65].
Proof.
  destruct (keyboard_types (B := debug_build) 4096 30 demo_kbd 65) as (s' & E & _ & _ & _ & H).
  - lia.
  - reflexivity.
  - apply demo_kbd_ok.
  - vm_compute. reflexivity.
  - exists s'. split; [exact E|exact H].
Defined.

Lemma keyboard_modifiers_witness :
  keyboard_run (B := debug_build) 4096 [224; 29] demo_kbd = Ok (Kbst (set_ctrl true (kb demo_kbd)) (kbd_buf demo_kbd)).
Proof. exact (proj1 (keyboard_modifiers (B := debug_build) 4096 demo_kbd MCtrlR eq_refl)). Defined.
