(* ===== verification/Stdio.v ===== *)
(** * Formatted output ([kernel/stdio.c])

    [vsprintf] writes through a pointer into the buffer its caller passes: the
    buffer is a list of bytes and the pointer an offset into it, so a write
    past the end is [Fault].  Variable arguments are 32-bit slots; one that
    holds a pointer to a string is the bytes it points to. *)

From S2P Require Import Prelude CString.

Inductive va := VInt (z : Z) | VStr (p : list Z).

(** The buffer and [buf_ptr - str]. *)
Definition out := (list Z * Z)%type.

Definition putc (c : Z) (b : out) : res out :=
  let? str := wr b.1 b.2 (u8 c) in Ok (str, b.2 + 1).

Section stdio_ops.
Context {B : Build}.

(** A 32-bit value has at most 32 digits in any base from 2 on. *)
Fixpoint itoa (fuel : nat) (value base : Z) (b : out) : res out :=
  match fuel with
  | O => Spin
  | S fuel' =>
      if base =? 0 then Fault
      else
        let m := value mod base in
        let i := value / base in
        let? b := (if i =? 0 then Ok b else itoa fuel' i base b) in
        putc (if m <? 10 then m + 48 else m - 10 + 65) b
  end.

Definition va_int (ap : list va) : res (Z * list va) :=
  match ap with VInt z :: ap' => Ok (s32 z, ap') | _ => Fault end.
Definition va_str (ap : list va) : res (list Z * list va) :=
  match ap with VStr p :: ap' => Ok (p, ap') | _ => Fault end.

(** [strcpy(buf_ptr, arg_str); buf_ptr += strlen(arg_str)] *)
Definition puts (s : list Z) (b : out) : res out :=
  let? r := strcpy (Some (drop (Z.to_nat b.2) b.1)) (Some s) in
  let? n := strlen (Some s) in
  Ok (take (Z.to_nat b.2) b.1 ++ r, b.2 + n).

Definition putd (z : Z) (b : out) : res out :=
  if z <? 0 then let? b := putc 45 b in itoa 32 (u32 (s32 (0 - z))) 10 b
  else itoa 32 (u32 z) 10 b.

(** The loop; the head of [index_ptr] is [index_char]. *)
Fixpoint vsprintf_loop (index_ptr : list Z) (ap : list va) (b : out) : res out :=
  match index_ptr with
  | [] => Fault
  | index_char :: index_ptr' =>
      if index_char =? 0 then Ok b
      else if negb (index_char =? 37) then
        let? b := putc index_char b in vsprintf_loop index_ptr' ap b
      else
        match index_ptr' with
        | [] => Fault
        | c :: index_ptr'' =>
            if c =? 115 then
              let? a := va_str ap in let? b := puts a.1 b in vsprintf_loop index_ptr'' a.2 b
            else if c =? 99 then
              let? a := va_int ap in let? b := putc a.1 b in vsprintf_loop index_ptr'' a.2 b
            else if c =? 100 then
              let? a := va_int ap in let? b := putd a.1 b in vsprintf_loop index_ptr'' a.2 b
            else if c =? 120 then
              let? a := va_int ap in let? b := itoa 32 (u32 a.1) 16 b in vsprintf_loop index_ptr'' a.2 b
            else vsprintf_loop index_ptr' ap b
        end
  end.

(** Returns [strlen(str)]; no terminator is written. *)
Definition vsprintf (str format : list Z) (ap : list va) : res (list Z * Z) :=
  let? b := vsprintf_loop format ap (str, 0) in
  let? n := strlen (Some b.1) in
  Ok (b.1, n).

Definition sprintf : list Z → list Z → list va → res (list Z * Z) := vsprintf.

(** The string [printf] and [printk] hand to [write] and [console_put_str]. *)
Definition printf (format : list Z) (ap : list va) : res (list Z) :=
  let? r := vsprintf (replicate 1024 0) format ap in
  let? n := strlen (Some r.1) in
  Ok (take (Z.to_nat n) r.1).
Definition printk : list Z → list va → res (list Z) := printf.

End stdio_ops.

(** ** What a format means *)

Inductive piece := PLit (c : Z) | PStr (s : list Z) | PChar (c : Z) | PDec (z : Z) | PHex (z : Z).

Definition digit (m : Z) : Z := if m <? 10 then m + 48 else m - 10 + 65.

(** The digits of [v], most significant first. *)
Fixpoint digits (fuel : nat) (base v : Z) : list Z :=
  match fuel with
  | O => []
  | S fuel' => (if v / base =? 0 then [] else digits fuel' base (v / base)) ++ [digit (v mod base)]
  end.

Definition digit_value (c : Z) : Z := if c <? 58 then c - 48 else c - 65 + 10.
(** The number a digit string denotes. *)
Definition parse (base : Z) (l : list Z) : Z := fold_left (λ acc c, acc * base + digit_value c) l 0.

Definition render_piece (p : piece) : list Z :=
  match p with
  | PLit c => [c]
  | PStr s => s
  | PChar c => [c]
  | PDec z => if z <? 0 then 45 :: digits 32 10 (- z) else digits 32 10 z
  | PHex z => digits 32 16 (u32 z)
  end.
Definition render (ps : list piece) : list Z := concat (render_piece <$> ps).

Definition encode_piece (p : piece) : list Z :=
  match p with PLit c => [c] | PStr _ => [37; 115] | PChar _ => [37; 99] | PDec _ => [37; 100] | PHex _ => [37; 120] end.
Definition encode (ps : list piece) : list Z := concat (encode_piece <$> ps).

Definition args_piece (p : piece) : list va :=
  match p with PLit _ => [] | PStr s => [VStr (s ++ [0])] | PChar c => [VInt c] | PDec z | PHex z => [VInt z] end.
Definition args (ps : list piece) : list va := concat (args_piece <$> ps).

Definition piece_ok (p : piece) : Prop :=
  match p with
  | PLit c => is_char c ∧ c ≠ 37
  | PStr s => Forall is_char s ∧ Z.of_nat (length s) < 4294967296
  | PChar c => is_char c
  | PDec z | PHex z => -2147483648 ≤ z < 2147483648
  end.

(** ** Lemmas *)

(** A buffer that holds [o] and is zero behind it, with the pointer there. *)
Definition bufr (o : list Z) (k : nat) : out := (o ++ replicate k 0, Z.of_nat (length o)).

Lemma digit_char m : 0 ≤ m < 16 → is_char (digit m).
Proof. intros. unfold digit, is_char. case_match; lia. Qed.

Lemma digit_value_digit m : 0 ≤ m < 16 → digit_value (digit m) = m.
Proof.
  intros. unfold digit, digit_value. destruct (Z.ltb_spec m 10).
  - rewrite (proj2 (Z.ltb_lt _ _)) by lia. lia.
  - rewrite (proj2 (Z.ltb_ge _ _)) by lia. lia.
Qed.

Lemma digits_chars n base v : 2 ≤ base ≤ 16 → 0 ≤ v → Forall is_char (digits n base v).
Proof.
  intros Hb. revert v. induction n as [|n IH]; intros v Hv; simpl; [done|].
  apply Forall_app. split.
  - case_match; [constructor|]. apply IH. apply Z.div_pos; lia.
  - constructor; [|done]. apply digit_char. pose proof (Z.mod_pos_bound v base ltac:(lia)). lia.
Qed.

Lemma div_pow2_bound v base n : 2 ≤ base → 0 ≤ v < 2 ^ Z.of_nat (S n) → 0 ≤ v / base < 2 ^ Z.of_nat n.
Proof.
  intros Hb Hv. split; [apply Z.div_pos; lia|]. rewrite Nat2Z.inj_succ, Z.pow_succ_r in Hv by lia.
  apply Z.div_lt_upper_bound; [lia|]. assert (0 < 2 ^ Z.of_nat n) by (apply Z.pow_pos_nonneg; lia). nia.
Qed.

(** Reading the digits back gives the number. *)
Lemma parse_digits n base v : 2 ≤ base ≤ 16 → 0 ≤ v < 2 ^ Z.of_nat n → parse base (digits n base v) = v.
Proof.
  intros Hb. revert v. induction n as [|n IH]; intros v Hv; simpl.
  { change (2 ^ Z.of_nat 0) with 1 in Hv. unfold parse. simpl. lia. }
  unfold parse. rewrite fold_left_app. simpl.
  pose proof (Z.mod_pos_bound v base ltac:(lia)). rewrite digit_value_digit by lia.
  pose proof (Z.div_mod v base ltac:(lia)) as Hdm.
  destruct (Z.eqb_spec (v / base) 0) as [E|E]; simpl; [nia|].
  fold (parse base (digits n base (v / base))). rewrite IH by (apply div_pow2_bound; lia). lia.
Qed.

Lemma digits_length n base v :
  2 ≤ base ≤ 16 → 0 ≤ v < 2 ^ Z.of_nat n → v ≠ 0 → ∃ d ds, digits n base v = d :: ds ∧ d ≠ 48.
Proof.
  intros Hb. revert v. induction n as [|n IH]; intros v Hv Hne; simpl.
  { change (2 ^ Z.of_nat 0) with 1 in Hv. lia. }
  destruct (Z.eqb_spec (v / base) 0) as [E|E]; simpl.
  - eexists _, []. split; [done|]. pose proof (Z.mod_pos_bound v base ltac:(lia)) as Hm.
    assert (v mod base ≠ 0) by (pose proof (Z.div_mod v base ltac:(lia)); nia).
    unfold digit. case_match; lia.
  - destruct (IH (v / base)) as (d & ds & -> & Hd); [apply div_pow2_bound; lia|done|]. eexists d, _. by split.
Qed.

Section stdio_lemmas.
Context {B : Build}.

Lemma putc_run c o k : (0 < k)%nat → putc c (bufr o k) = Ok (bufr (o ++ [u8 c]) (k - 1)).
Proof.
  intros Hk. destruct k as [|k]; [lia|]. unfold putc, bufr. simpl.
  rewrite wr_Ok by (rewrite length_app; simpl; lia). simpl. rewrite Nat2Z.id, insert_app_r_alt, Nat.sub_diag by lia.
  simpl. rewrite Nat.sub_0_r, <-app_assoc. simpl. do 2 f_equal. rewrite length_app. simpl. lia.
Qed.

Lemma itoa_run n v base o k :
  2 ≤ base ≤ 16 → 0 ≤ v < 2 ^ Z.of_nat n → (0 < n)%nat → (length (digits n base v) ≤ k)%nat →
  itoa n v base (bufr o k) = Ok (bufr (o ++ digits n base v) (k - length (digits n base v))).
Proof.
  intros Hb. revert v o k. induction n as [|n IH]; intros v o k Hv Hn Hk; [lia|].
  pose proof (Z.mod_pos_bound v base ltac:(lia)) as Hm. simpl in Hk |- *.
  rewrite (proj2 (Z.eqb_neq base 0)) by lia. fold (digit (v mod base)). rewrite length_app in *. simpl in *.
  assert (Hd : u8 (digit (v mod base)) = digit (v mod base)).
  { apply u8_small. pose proof (digit_char (v mod base)) as Hc. unfold is_char in Hc. lia. }
  destruct (Z.eqb_spec (v / base) 0) as [E|E]; simpl in *.
  - rewrite putc_run, Hd by lia. done.
  - destruct n as [|n].
    { exfalso. pose proof (div_pow2_bound v base 0 ltac:(lia) Hv) as Hdv. change (2 ^ Z.of_nat 0) with 1 in Hdv. lia. }
    rewrite IH by (try apply div_pow2_bound; lia). cbn [rbind]. rewrite putc_run, Hd by lia.
    rewrite <-app_assoc. do 2 f_equal. lia.
Qed.

Lemma puts_run s o k :
  Forall is_char s → Z.of_nat (length s) < 4294967296 → (length s < k)%nat →
  puts (s ++ [0]) (bufr o k) = Ok (bufr (o ++ s) (k - length s)).
Proof.
  intros Hs Hl Hk. unfold puts, bufr, strcpy, strlen. simpl. rewrite !ASSERT_true by done. simpl.
  rewrite Nat2Z.id, drop_app_length, take_app_length.
  rewrite strcpy_loop_run, decide_True by (rewrite ?length_replicate; done). simpl.
  rewrite past_nul_run by done. simpl. rewrite u32_small by lia. do 2 f_equal.
  - rewrite <-app_assoc. f_equal. f_equal. rewrite drop_replicate.
    replace (k - length s)%nat with (S (k - S (length s))) by lia. done.
  - rewrite length_app. lia.
Qed.

#[local] Arguments digits : simpl never.
#[local] Arguments itoa : simpl never.

Lemma itoa32 v base o k :
  2 ≤ base ≤ 16 → 0 ≤ v < 4294967296 → (length (digits 32 base v) ≤ k)%nat →
  itoa 32 v base (bufr o k) = Ok (bufr (o ++ digits 32 base v) (k - length (digits 32 base v))).
Proof. intros Hb Hv Hk. apply itoa_run; [done|exact Hv|lia|done]. Qed.

Lemma putd_run z o k :
  -2147483648 ≤ z < 2147483648 → (length (render_piece (PDec z)) ≤ k)%nat →
  putd z (bufr o k) = Ok (bufr (o ++ render_piece (PDec z)) (k - length (render_piece (PDec z)))).
Proof.
  intros Hz Hk. unfold putd, render_piece in *. destruct (Z.ltb_spec z 0) as [Hn|Hn].
  - simpl in Hk. rewrite putc_run by lia. cbn [rbind].
    assert (u32 (s32 (0 - z)) = - z) as -> by zsolve.
    rewrite itoa32 by lia. rewrite <-app_assoc. do 2 f_equal. simpl. lia.
  - rewrite u32_small by lia. rewrite itoa32 by lia. done.
Qed.

(** One conversion or literal. *)
Lemma piece_run p fmt ap o k :
  piece_ok p → (length (render_piece p) < k)%nat →
  vsprintf_loop (encode_piece p ++ fmt) (args_piece p ++ ap) (bufr o k) =
    vsprintf_loop fmt ap (bufr (o ++ render_piece p) (k - length (render_piece p))).
Proof.
  intros Hp Hk. destruct p as [c|s|c|z|z].
  - destruct Hp as [Hc H37]. unfold is_char in Hc. simpl in *. rewrite (proj2 (Z.eqb_neq c 0)), (proj2 (Z.eqb_neq c 37)) by lia.
    cbn [negb]. rewrite putc_run by lia. cbn [rbind]. by rewrite u8_small by lia.
  - destruct Hp as [Hs Hl]. simpl. simpl in Hk. unfold va_str. cbn [rbind fst snd]. rewrite puts_run by done. done.
  - simpl in *. unfold is_char in Hp. rewrite s32_small by lia. rewrite putc_run by lia. cbn [rbind]. by rewrite u8_small by lia.
  - simpl in Hp. cbn [encode_piece args_piece app vsprintf_loop va_int]. simpl. rewrite s32_small by lia. rewrite putd_run by (done || lia). done.
  - simpl in Hp, Hk. cbn [encode_piece args_piece app vsprintf_loop va_int]. simpl. rewrite s32_small by lia.
    pose proof (u32_range z). rewrite itoa32 by lia. done.
Qed.

Lemma vsprintf_loop_run ps rest o k :
  Forall piece_ok ps → (length (render ps) < k)%nat →
  vsprintf_loop (encode ps ++ 0 :: rest) (args ps) (bufr o k) = Ok (bufr (o ++ render ps) (k - length (render ps))).
Proof.
  intros Hps. revert o k. induction Hps as [|p ps Hp Hps IH]; intros o k Hk.
  - simpl. rewrite app_nil_r, Nat.sub_0_r. done.
  - change (render (p :: ps)) with (render_piece p ++ render ps) in *.
    change (encode (p :: ps)) with (encode_piece p ++ encode ps).
    change (args (p :: ps)) with (args_piece p ++ args ps). rewrite length_app in Hk.
    rewrite <-app_assoc. rewrite piece_run by (done || lia). rewrite IH by lia.
    rewrite <-app_assoc, length_app. do 2 f_equal. lia.
Qed.

Lemma render_chars ps : Forall piece_ok ps → Forall is_char (render ps).
Proof.
  induction 1 as [|p ps Hp _ IH]; unfold render; simpl; [done|]. apply Forall_app. split; [|done].
  destruct p as [c|s|c|z|z]; simpl in *.
  - constructor; [apply Hp|done].
  - apply Hp.
  - by constructor.
  - case_match; [constructor; [unfold is_char; lia|]|]; apply digits_chars; lia.
  - apply digits_chars; [lia|apply u32_range].
Qed.

End stdio_lemmas.

(** ** Theorems *)

(** C39: [itoa] prints numbers. For every 32-bit value in base 10 or 16 it
    terminates, appends at the pointer exactly the digits of the value and moves
    the pointer behind them; reading the digits back gives the value; and there
    is no leading zero but for 0 itself. *)
Theorem itoa_roundtrip (v base : Z) (o : list Z) (k : nat) :
  base = 10 ∨ base = 16 → 0 ≤ v < 4294967296 → (length (digits 32 base v) ≤ k)%nat →
  itoa 32 v base (bufr o k) = Ok (bufr (o ++ digits 32 base v) (k - length (digits 32 base v))) ∧
  parse base (digits 32 base v) = v ∧
  (v ≠ 0 → ∃ d ds, digits 32 base v = d :: ds ∧ d ≠ 48).
Proof.
  intros Hb Hv Hk. assert (2 ≤ base ≤ 16) by lia.
  split_and!; [by apply itoa32|by apply parse_digits|by apply digits_length].
Qed.

(** [vsprintf] formats. Into a buffer that is zero beforehand and long
    enough, it writes the rendering of the format, character for character:
    literals, strings, characters, signed decimals over the whole [int] range
    and hexadecimals, and returns its length. *)
Theorem vsprintf_renders {B : Build} (ps : list piece) (rest : list Z) (k : nat) :
  Forall piece_ok ps → (length (render ps) < k)%nat → Z.of_nat k < 4294967296 →
  vsprintf (replicate k 0) (encode ps ++ 0 :: rest) (args ps) =
    Ok (render ps ++ replicate (k - length (render ps)) 0, Z.of_nat (length (render ps))).
Proof.
  intros Hps Hk Hmax. unfold vsprintf. change (replicate k 0, 0) with (bufr [] k).
  rewrite vsprintf_loop_run by done. unfold strlen. cbn [rbind fst bufr]. rewrite ASSERT_true by done. cbn [rbind].
  rewrite mem_Some. simpl app.
  replace (k - length (render ps))%nat with (S (k - length (render ps) - 1)) by lia. simpl replicate.
  rewrite past_nul_run by (by apply render_chars). cbn [rbind]. rewrite u32_small by lia. do 2 f_equal. lia.
Qed.

(** [vsprintf] never writes the terminating NUL: into a buffer with old
    bytes, formatting "ab" leaves them behind the text and the returned length
    counts them. *)
Theorem vsprintf_no_terminator {B : Build} :
  vsprintf [88; 88; 88; 88; 0] [97; 98; 0] [] = Ok ([97; 98; 88; 88; 0], 4).
Proof. unfold vsprintf, strlen. simpl. rewrite ASSERT_true by done. done. Qed.

Lemma itoa_roundtrip_witness :
  itoa 32 2748 16 (bufr [48; 120] 8) = Ok (bufr [48; 120; 65; 66; 67] 5) ∧ parse 16 [65; 66; 67] = 2748.
Proof.
  destruct (itoa_roundtrip 2748 16 [48; 120] 8) as (E & H & _); [by right|lia|vm_compute; lia|].
  split; [exact E|exact H].
Defined.

Lemma vsprintf_renders_witness :
  vsprintf (B := debug_build) (replicate 16 0) [120; 61; 37; 100; 0] [VInt (-42)] =
    Ok ([120; 61; 45; 52; 50] ++ replicate 11 0, 5).
Proof.
  refine (vsprintf_renders (B := debug_build) [PLit 120; PLit 61; PDec (-42)] [] 16 _ _ _).
  - repeat constructor; simpl; unfold is_char; lia.
  - vm_compute. lia.
  - lia.
Defined.
