(* ===== verification/Timer.v ===== *)
(** * The timer chip and sleeping ([device/timer.c])

    [frequency_set] programs counter 0 of the 8253 through port writes, which
    are recorded as a list of (port, byte); the chip assembles its reload value
    from them.  The handler of the timer interrupt is in [Sched]. *)

From S2P Require Import Prelude.

Definition IRQ0_FREQUENCY : Z := 100.
Definition INPUT_FREQUENCY : Z := 1193180.
Definition COUNTER0_VALUE : Z := INPUT_FREQUENCY / IRQ0_FREQUENCY.
Definition CONTRER0_PORT : Z := 64.
Definition PIT_CONTROL_PORT : Z := 67.
Definition mil_seconds_per_intr : Z := 1000 / IRQ0_FREQUENCY.

(** A cast binds tighter than a shift: the third write is [((uint8_t)counter_value) >> 8]. *)
Definition frequency_set (counter_port counter_no rwl counter_mode counter_value : Z) : list (Z * Z) :=
  [(PIT_CONTROL_PORT, u8 (Z.lor (Z.lor (Z.shiftl counter_no 6) (Z.shiftl rwl 4)) (Z.shiftl counter_mode 1)));
   (counter_port, u8 counter_value);
   (counter_port, u8 (Z.shiftr (u8 counter_value) 8))].

Definition timer_init : list (Z * Z) := frequency_set CONTRER0_PORT 0 3 2 COUNTER0_VALUE.

(** The chip: a control word selects the counter, the access mode and the
    counting mode; in access mode 3 the counter then takes low and high byte. *)
Record pit := Pit { p_counter : Z; p_access : Z; p_mode : Z; p_reload : Z }.

Definition pit_program (writes : list (Z * Z)) : option pit :=
  match writes with
  | [(67, w); (_, lo); (_, hi)] =>
      Some (Pit (Z.shiftr w 6) (Z.land (Z.shiftr w 4) 3) (Z.land (Z.shiftr w 1) 7) (lo + 256 * hi))
  | _ => None
  end.

(** [while (ticks - start_tick < sleep_ticks) thread_yield()]: the values of
    [ticks] the loop reads; the result is how many yields it made. *)
Fixpoint ticks_to_sleep (reads : list Z) (start_tick sleep_ticks : Z) (yields : Z) : res Z :=
  match reads with
  | [] => Spin
  | t :: reads' =>
      if u32 (t - start_tick) <? sleep_ticks then ticks_to_sleep reads' start_tick sleep_ticks (yields + 1)
      else Ok yields
  end.

Definition mtime_sleep {B : Build} (reads : list Z) (start_tick m_seconds : Z) : res Z :=
  let sleep_ticks := DIV_ROUND_UP m_seconds mil_seconds_per_intr in
  check ASSERT (0 <? sleep_ticks) in
  ticks_to_sleep reads start_tick sleep_ticks 0.

(** Ticks that have really passed at each read, as the interrupt counts them. *)
Definition counter (start : Z) (elapsed : list Z) : list Z := (λ e, u32 (start + e)) <$> elapsed.

Lemma ticks_to_sleep_spec elapsed start n y i e :
  0 ≤ n < 4294967296 →
  (∀ j x, (j < i)%nat → elapsed !! j = Some x → 0 ≤ x < n) →
  elapsed !! i = Some e → n ≤ e < 4294967296 →
  ticks_to_sleep (counter start elapsed) start n y = Ok (y + Z.of_nat i).
Proof.
  intros Hn. revert i y. induction elapsed as [|x l IH]; intros i y Hlt Hi He; [done|].
  assert (Hu : ∀ z, 0 ≤ z < 4294967296 → u32 (u32 (start + z) - start) = z).
  { intros z Hz. unfold u32. rewrite Zminus_mod_idemp_l. replace (start + z - start) with z by lia. by apply Z.mod_small. }
  destruct i as [|i]; simpl in *.
  - injection Hi as ->. rewrite Hu by lia. rewrite (proj2 (Z.ltb_ge _ _)) by lia. f_equal. lia.
  - assert (Hx : 0 ≤ x < n) by (apply (Hlt O); [lia|done]). rewrite Hu by lia.
    rewrite (proj2 (Z.ltb_lt _ _)) by lia. rewrite (IH i); [f_equal; lia| |done|done].
    intros j z Hj Hz. apply (Hlt (S j)); [lia|done].
Qed.

(** Sleeping is exact and survives the overflow of the tick counter.  From
    any start value, [mtime_sleep] gives up the processor as long as fewer than
    the milliseconds divided by 10, rounded up, ticks have passed, and returns
    at the first look at the counter after that many. *)
Theorem mtime_sleep_exact {B : Build} (start ms : Z) (elapsed : list Z) (i : nat) (e : Z) :
  0 ≤ start < 4294967296 → 0 < ms < 4294967287 →
  (∀ j x, (j < i)%nat → elapsed !! j = Some x → 0 ≤ x < (ms + 9) / 10) →
  elapsed !! i = Some e → (ms + 9) / 10 ≤ e < 4294967296 →
  mtime_sleep (counter start elapsed) start ms = Ok (Z.of_nat i).
Proof.
  intros Hs Hms Hlt Hi He. unfold mtime_sleep, DIV_ROUND_UP. change mil_seconds_per_intr with 10.
  replace (ms + 10 - 1) with (ms + 9) by lia. rewrite u32_small by lia.
  assert (0 < (ms + 9) / 10 < 4294967296) by (Z.to_euclidean_division_equations; lia).
  rewrite ASSERT_true by (apply Z.ltb_lt; lia). cbn [rbind].
  rewrite (ticks_to_sleep_spec elapsed start _ 0 i e); [f_equal; lia|lia|done|done|lia].
Qed.

(** The timer does not run at 100 Hz.  [timer_init] selects counter 0, both
    bytes and rate mode, but the high byte it writes is always 0, so the reload
    value is 155 instead of 11931 and the interrupt comes 7697 times a second. *)
Theorem timer_wrong_frequency :
  pit_program timer_init = Some (Pit 0 3 2 155) ∧ COUNTER0_VALUE = 11931 ∧ INPUT_FREQUENCY / 155 = 7697.
Proof. vm_compute. done. Qed.

Lemma mtime_sleep_exact_witness :
  mtime_sleep (B := debug_build) (counter 4294967295 [0; 1; 3]) 4294967295 25 = Ok 2.
Proof.
  refine (mtime_sleep_exact (B := debug_build) 4294967295 25 [0; 1; 3] 2 3 _ _ _ _ _).
  - lia.
  - lia.
  - intros [|[|j]] x Hj Hx; simpl in Hx; [injection Hx as <-|injection Hx as <-|lia]; vm_compute; split; congruence.
  - reflexivity.
  - vm_compute. split; congruence.
Defined.
