(* ===== verification/Syscall.v ===== *)
(** * System calls ([user/syscall.c], [lib/syscall.h], [userprog/syscall-init.c])

    A user wrapper loads the call number and its arguments into registers and
    executes [int 0x80]; the entry code pushes EBX, ECX and EDX as C arguments
    and calls through [syscall_table]; [syscall_init] fills the table.  The
    handlers themselves are named, not run, here. *)

From S2P Require Import Prelude.

Inductive SYSCALL_NR :=
| SYS_GETPID
| SYS_WRITE
| SYS_MALLOC
| SYS_FREE
| SYS_FORK
| SYS_READ
| SYS_PUTCHAR
| SYS_CLEAR
| SYS_GETCWD
| SYS_OPEN
| SYS_CLOSE
| SYS_LSEEK
| SYS_UNLINK
| SYS_MKDIR
| SYS_OPENDIR
| SYS_CLOSEDIR
| SYS_CHDIR
| SYS_RMDIR
| SYS_READDIR
| SYS_REWINDDIR
| SYS_STAT
| SYS_PS
| SYS_EXECV
| SYS_EXIT
| SYS_WAIT
| SYS_PIPE
| SYS_FD_REDIRECT
| SYS_HELP.

(** The enumerators count from 0. *)
Definition nr (n : SYSCALL_NR) : Z :=
  match n with
  | SYS_GETPID => 0
  | SYS_WRITE => 1
  | SYS_MALLOC => 2
  | SYS_FREE => 3
  | SYS_FORK => 4
  | SYS_READ => 5
  | SYS_PUTCHAR => 6
  | SYS_CLEAR => 7
  | SYS_GETCWD => 8
  | SYS_OPEN => 9
  | SYS_CLOSE => 10
  | SYS_LSEEK => 11
  | SYS_UNLINK => 12
  | SYS_MKDIR => 13
  | SYS_OPENDIR => 14
  | SYS_CLOSEDIR => 15
  | SYS_CHDIR => 16
  | SYS_RMDIR => 17
  | SYS_READDIR => 18
  | SYS_REWINDDIR => 19
  | SYS_STAT => 20
  | SYS_PS => 21
  | SYS_EXECV => 22
  | SYS_EXIT => 23
  | SYS_WAIT => 24
  | SYS_PIPE => 25
  | SYS_FD_REDIRECT => 26
  | SYS_HELP => 27
  end.

(** The functions [syscall_init] stores. *)
Inductive handler :=
| H_sys_getpid
| H_sys_write
| H_sys_malloc
| H_sys_free
| H_sys_fork
| H_sys_read
| H_sys_putchar
| H_cls_screen
| H_sys_getcwd
| H_sys_open
| H_sys_close
| H_sys_lseek
| H_sys_unlink
| H_sys_mkdir
| H_sys_opendir
| H_sys_closedir
| H_sys_chdir
| H_sys_rmdir
| H_sys_readdir
| H_sys_rewinddir
| H_sys_stat
| H_sys_ps
| H_sys_execv
| H_sys_exit
| H_sys_wait
| H_sys_pipe
| H_sys_fd_redirect
| H_sys_help.

#[export] Instance handler_eq_dec : EqDecision handler.
Proof. solve_decision. Defined.

(** The number of arguments in the C declaration of each handler. *)
Definition arity (h : handler) : nat :=
  match h with
  | H_sys_getpid => 0
  | H_sys_write => 3
  | H_sys_malloc => 1
  | H_sys_free => 1
  | H_sys_fork => 0
  | H_sys_read => 3
  | H_sys_putchar => 1
  | H_cls_screen => 0
  | H_sys_getcwd => 2
  | H_sys_open => 2
  | H_sys_close => 1
  | H_sys_lseek => 3
  | H_sys_unlink => 1
  | H_sys_mkdir => 1
  | H_sys_opendir => 1
  | H_sys_closedir => 1
  | H_sys_chdir => 1
  | H_sys_rmdir => 1
  | H_sys_readdir => 1
  | H_sys_rewinddir => 1
  | H_sys_stat => 2
  | H_sys_ps => 0
  | H_sys_execv => 2
  | H_sys_exit => 1
  | H_sys_wait => 1
  | H_sys_pipe => 1
  | H_sys_fd_redirect => 2
  | H_sys_help => 0
  end%nat.

(** ** The user side *)

(** The registers at [int 0x80]; [None] is a register the wrapper does not set. *)
Record regs := Regs { eax : Z; ebx : option Z; ecx : option Z; edx : option Z }.

Definition _syscall0 (number : SYSCALL_NR) : regs := Regs (nr number) None None None.
Definition _syscall1 (number : SYSCALL_NR) (arg1 : Z) : regs := Regs (nr number) (Some arg1) None None.
Definition _syscall2 (number : SYSCALL_NR) (arg1 arg2 : Z) : regs := Regs (nr number) (Some arg1) (Some arg2) None.
Definition _syscall3 (number : SYSCALL_NR) (arg1 arg2 arg3 : Z) : regs :=
  Regs (nr number) (Some arg1) (Some arg2) (Some arg3).

(** A [char] argument is promoted to [int], a [uint8_t] one is a byte. *)

Definition getpid_ : regs := _syscall0 SYS_GETPID.
Definition write_ (fd buf count : Z) : regs := _syscall3 SYS_WRITE fd buf count.
Definition malloc_ (size : Z) : regs := _syscall1 SYS_MALLOC size.
Definition free_ (ptr : Z) : regs := _syscall1 SYS_FREE ptr.
Definition fork_ : regs := _syscall0 SYS_FORK.
Definition read_ (fd buf count : Z) : regs := _syscall3 SYS_READ fd buf count.
Definition putchar_ (char_asci : Z) : regs := _syscall1 SYS_PUTCHAR (s8 char_asci).
Definition clear_ : regs := _syscall0 SYS_CLEAR.
Definition getcwd_ (buf size : Z) : regs := _syscall2 SYS_GETCWD buf size.
Definition open_ (pathname flag : Z) : regs := _syscall2 SYS_OPEN pathname (u8 flag).
Definition close_ (fd : Z) : regs := _syscall1 SYS_CLOSE fd.
Definition lseek_ (fd offset whence : Z) : regs := _syscall3 SYS_LSEEK fd offset (u8 whence).
Definition unlink_ (pathname : Z) : regs := _syscall1 SYS_UNLINK pathname.
Definition mkdir_ (pathname : Z) : regs := _syscall1 SYS_MKDIR pathname.
Definition opendir_ (name : Z) : regs := _syscall1 SYS_OPENDIR name.
Definition closedir_ (dir : Z) : regs := _syscall1 SYS_CLOSEDIR dir.
Definition chdir_ (path : Z) : regs := _syscall1 SYS_CHDIR path.
Definition rmdir_ (pathname : Z) : regs := _syscall1 SYS_RMDIR pathname.
Definition readdir_ (dir : Z) : regs := _syscall1 SYS_READDIR dir.
Definition rewinddir_ (dir : Z) : regs := _syscall1 SYS_REWINDDIR dir.
Definition stat_ (path buf : Z) : regs := _syscall2 SYS_STAT path buf.
Definition ps_ : regs := _syscall0 SYS_PS.
Definition execv_ (pathname argv : Z) : regs := _syscall2 SYS_EXECV pathname argv.
Definition exit_ (status : Z) : regs := _syscall1 SYS_EXIT status.
Definition wait_ (status : Z) : regs := _syscall1 SYS_WAIT status.
Definition pipe_ (pipefd : Z) : regs := _syscall1 SYS_PIPE pipefd.
Definition fd_redirect_ (old_local_fd new_local_fd : Z) : regs := _syscall2 SYS_FD_REDIRECT old_local_fd new_local_fd.
Definition help_ : regs := _syscall0 SYS_HELP.

(** ** The kernel side *)

Definition syscall_nr : nat := 32.

(** [syscall_table\[number\] = handler] *)
Definition install (number : SYSCALL_NR) (h : handler) (t : list (option handler)) : list (option handler) :=
  <[Z.to_nat (nr number) := Some h]> t.

Definition syscall_init (t : list (option handler)) : list (option handler) :=

  let t := install SYS_GETPID H_sys_getpid t in
  let t := install SYS_WRITE H_sys_write t in
  let t := install SYS_MALLOC H_sys_malloc t in
  let t := install SYS_FREE H_sys_free t in
  let t := install SYS_FORK H_sys_fork t in
  let t := install SYS_READ H_sys_read t in
  let t := install SYS_PUTCHAR H_sys_putchar t in
  let t := install SYS_CLEAR H_cls_screen t in
  let t := install SYS_GETCWD H_sys_getcwd t in
  let t := install SYS_OPEN H_sys_open t in
  let t := install SYS_CLOSE H_sys_close t in
  let t := install SYS_LSEEK H_sys_lseek t in
  let t := install SYS_UNLINK H_sys_unlink t in
  let t := install SYS_MKDIR H_sys_mkdir t in
  let t := install SYS_OPENDIR H_sys_opendir t in
  let t := install SYS_CLOSEDIR H_sys_closedir t in
  let t := install SYS_CHDIR H_sys_chdir t in
  let t := install SYS_RMDIR H_sys_rmdir t in
  let t := install SYS_READDIR H_sys_readdir t in
  let t := install SYS_REWINDDIR H_sys_rewinddir t in
  let t := install SYS_STAT H_sys_stat t in
  let t := install SYS_PS H_sys_ps t in
  let t := install SYS_EXECV H_sys_execv t in
  let t := install SYS_EXIT H_sys_exit t in
  let t := install SYS_WAIT H_sys_wait t in
  let t := install SYS_PIPE H_sys_pipe t in
  let t := install SYS_FD_REDIRECT H_sys_fd_redirect t in
  let t := install SYS_HELP H_sys_help t in
  t.

(** [call \[syscall_table + eax*4\]] with EBX, ECX, EDX pushed: the handler and
    the arguments it looks at.  A missing entry or an argument register that
    was never set is [Fault]. *)
Definition syscall_handler (table : list (option handler)) (r : regs) : res (handler * list Z) :=
  let? e := rd table (eax r) in
  match e with
  | None => Fault
  | Some h =>
      match mapM id (take (arity h) [ebx r; ecx r; edx r]) with
      | Some l => Ok (h, l)
      | None => Fault
      end
  end.

(** ** The calls a program can make *)

Inductive ucall :=

| U_getpid
| U_write (fd buf count : Z)
| U_malloc (size : Z)
| U_free (ptr : Z)
| U_fork
| U_read (fd buf count : Z)
| U_putchar (char_asci : Z)
| U_clear
| U_getcwd (buf size : Z)
| U_open (pathname flag : Z)
| U_close (fd : Z)
| U_lseek (fd offset whence : Z)
| U_unlink (pathname : Z)
| U_mkdir (pathname : Z)
| U_opendir (name : Z)
| U_closedir (dir : Z)
| U_chdir (path : Z)
| U_rmdir (pathname : Z)
| U_readdir (dir : Z)
| U_rewinddir (dir : Z)
| U_stat (path buf : Z)
| U_ps
| U_execv (pathname argv : Z)
| U_exit (status : Z)
| U_wait (status : Z)
| U_pipe (pipefd : Z)
| U_fd_redirect (old_local_fd new_local_fd : Z)
| U_help.

Definition wrapper (u : ucall) : regs :=
  match u with
  | U_getpid  => getpid_ 
  | U_write fd buf count => write_ fd buf count
  | U_malloc size => malloc_ size
  | U_free ptr => free_ ptr
  | U_fork  => fork_ 
  | U_read fd buf count => read_ fd buf count
  | U_putchar char_asci => putchar_ char_asci
  | U_clear  => clear_ 
  | U_getcwd buf size => getcwd_ buf size
  | U_open pathname flag => open_ pathname flag
  | U_close fd => close_ fd
  | U_lseek fd offset whence => lseek_ fd offset whence
  | U_unlink pathname => unlink_ pathname
  | U_mkdir pathname => mkdir_ pathname
  | U_opendir name => opendir_ name
  | U_closedir dir => closedir_ dir
  | U_chdir path => chdir_ path
  | U_rmdir pathname => rmdir_ pathname
  | U_readdir dir => readdir_ dir
  | U_rewinddir dir => rewinddir_ dir
  | U_stat path buf => stat_ path buf
  | U_ps  => ps_ 
  | U_execv pathname argv => execv_ pathname argv
  | U_exit status => exit_ status
  | U_wait status => wait_ status
  | U_pipe pipefd => pipe_ pipefd
  | U_fd_redirect old_local_fd new_local_fd => fd_redirect_ old_local_fd new_local_fd
  | U_help  => help_ 
  end.

(** The kernel function that implements each call, and what it must receive. *)
Definition meaning (u : ucall) : handler * list Z :=
  match u with
  | U_getpid  => (H_sys_getpid, [])
  | U_write fd buf count => (H_sys_write, [fd; buf; count])
  | U_malloc size => (H_sys_malloc, [size])
  | U_free ptr => (H_sys_free, [ptr])
  | U_fork  => (H_sys_fork, [])
  | U_read fd buf count => (H_sys_read, [fd; buf; count])
  | U_putchar char_asci => (H_sys_putchar, [(s8 char_asci)])
  | U_clear  => (H_cls_screen, [])
  | U_getcwd buf size => (H_sys_getcwd, [buf; size])
  | U_open pathname flag => (H_sys_open, [pathname; (u8 flag)])
  | U_close fd => (H_sys_close, [fd])
  | U_lseek fd offset whence => (H_sys_lseek, [fd; offset; (u8 whence)])
  | U_unlink pathname => (H_sys_unlink, [pathname])
  | U_mkdir pathname => (H_sys_mkdir, [pathname])
  | U_opendir name => (H_sys_opendir, [name])
  | U_closedir dir => (H_sys_closedir, [dir])
  | U_chdir path => (H_sys_chdir, [path])
  | U_rmdir pathname => (H_sys_rmdir, [pathname])
  | U_readdir dir => (H_sys_readdir, [dir])
  | U_rewinddir dir => (H_sys_rewinddir, [dir])
  | U_stat path buf => (H_sys_stat, [path; buf])
  | U_ps  => (H_sys_ps, [])
  | U_execv pathname argv => (H_sys_execv, [pathname; argv])
  | U_exit status => (H_sys_exit, [status])
  | U_wait status => (H_sys_wait, [status])
  | U_pipe pipefd => (H_sys_pipe, [pipefd])
  | U_fd_redirect old_local_fd new_local_fd => (H_sys_fd_redirect, [old_local_fd; new_local_fd])
  | U_help  => (H_sys_help, [])
  end.

(** Every system call reaches its function.  With the table that
    [syscall_init] builds, each of the 28 user wrappers invokes the kernel
    function of the same purpose with its arguments in order, and no handler
    reads a register its wrapper left unset. *)
Theorem syscall_reaches_handler (t : list (option handler)) (u : ucall) :
  length t = syscall_nr → syscall_handler (syscall_init t) (wrapper u) = Ok (meaning u).
Proof.
  intros Ht. do 32 (destruct t as [|? t]; [discriminate Ht|]). destruct t; [|discriminate Ht].
  destruct u; reflexivity.
Qed.

(** The table is filled exactly from 0 to 27: numbers are distinct, each has
    the handler of the same name, and the four entries above stay as they were. *)
Theorem syscall_table_complete (t : list (option handler)) (i : Z) :
  length t = syscall_nr → 0 ≤ i < 32 →
  (i < 28 → ∃ n h, nr n = i ∧ syscall_init t !! Z.to_nat i = Some (Some h) ∧ ∀ m, nr m = i → m = n) ∧
  (28 ≤ i → syscall_init t !! Z.to_nat i = t !! Z.to_nat i).
Proof.
  intros Ht Hi. do 32 (destruct t as [|? t]; [discriminate Ht|]). destruct t; [|discriminate Ht].
  assert (Hn : ∃ n : nat, i = Z.of_nat n ∧ (n < 32)%nat) by (exists (Z.to_nat i); lia). destruct Hn as (n & -> & Hn).
  rewrite Nat2Z.id. split; intros Hb.
  - do 28 (destruct n as [|n]; [eexists _, _; split; [|split; [reflexivity|intros []; (discriminate || reflexivity)]]; 
      first [exact (eq_refl : nr SYS_GETPID = Z.of_nat 0) | exact (eq_refl : nr SYS_WRITE = Z.of_nat 1) | exact (eq_refl : nr SYS_MALLOC = Z.of_nat 2) | exact (eq_refl : nr SYS_FREE = Z.of_nat 3) | exact (eq_refl : nr SYS_FORK = Z.of_nat 4) | exact (eq_refl : nr SYS_READ = Z.of_nat 5) | exact (eq_refl : nr SYS_PUTCHAR = Z.of_nat 6) | exact (eq_refl : nr SYS_CLEAR = Z.of_nat 7) | exact (eq_refl : nr SYS_GETCWD = Z.of_nat 8) | exact (eq_refl : nr SYS_OPEN = Z.of_nat 9) | exact (eq_refl : nr SYS_CLOSE = Z.of_nat 10) | exact (eq_refl : nr SYS_LSEEK = Z.of_nat 11) | exact (eq_refl : nr SYS_UNLINK = Z.of_nat 12) | exact (eq_refl : nr SYS_MKDIR = Z.of_nat 13) | exact (eq_refl : nr SYS_OPENDIR = Z.of_nat 14) | exact (eq_refl : nr SYS_CLOSEDIR = Z.of_nat 15) | exact (eq_refl : nr SYS_CHDIR = Z.of_nat 16) | exact (eq_refl : nr SYS_RMDIR = Z.of_nat 17) | exact (eq_refl : nr SYS_READDIR = Z.of_nat 18) | exact (eq_refl : nr SYS_REWINDDIR = Z.of_nat 19) | exact (eq_refl : nr SYS_STAT = Z.of_nat 20) | exact (eq_refl : nr SYS_PS = Z.of_nat 21) | exact (eq_refl : nr SYS_EXECV = Z.of_nat 22) | exact (eq_refl : nr SYS_EXIT = Z.of_nat 23) | exact (eq_refl : nr SYS_WAIT = Z.of_nat 24) | exact (eq_refl : nr SYS_PIPE = Z.of_nat 25) | exact (eq_refl : nr SYS_FD_REDIRECT = Z.of_nat 26) | exact (eq_refl : nr SYS_HELP = Z.of_nat 27)] |]). lia.
  - do 28 (destruct n as [|n]; [lia|]). do 4 (destruct n as [|n]; [reflexivity|]). lia.
Qed.

Lemma syscall_reaches_handler_witness :
  syscall_handler (syscall_init (replicate 32 None)) (lseek_ 3 (-1) 258) = Ok (H_sys_lseek, [3; -1; 2]).
Proof. exact (syscall_reaches_handler (replicate 32 None) (U_lseek 3 (-1) 258) eq_refl). Defined.

Lemma syscall_table_complete_witness : syscall_init (replicate 32 None) !! 30%nat = Some None.
Proof. refine (proj2 (syscall_table_complete (replicate 32 None) 30 eq_refl _) _); lia. Defined.
