(* ===== verification/Path.v ===== *)
(** * Paths ([fs/fs.c], [shell/buildin_cmd.c])

    [path_parse] splits off the first name of a path, [path_depth_cnt] counts
    the names, and [wash_path] and [make_clear_abs_path] turn what the user
    typed into a clean absolute path.  A [char*] that moves through a string is
    the rest of the buffer from it on; [None] is NULL. *)

From S2P Require Import Prelude CString.

Definition MAX_FILE_NAME_LEN : Z := 16.
Definition MAX_PATH_LEN : Z := 512.
Definition slash : Z := 47.
Definition dot : Z := 46.

Section path_ops.
Context {B : Build}.

Fixpoint skip_slashes (pathname : list Z) : res (list Z) :=
  match pathname with
  | [] => Fault
  | c :: p => if c =? slash then skip_slashes p else Ok pathname
  end.

(** Copies a name into [name_store] without any bound but the buffer's own. *)
Fixpoint copy_name (pathname : list Z) (name_store : list Z) (pos : Z) : res (list Z * list Z) :=
  match pathname with
  | [] => Fault
  | c :: p =>
      if (c =? slash) || (c =? 0) then Ok (pathname, name_store)
      else let? n := wr name_store pos c in copy_name p n (pos + 1)
  end.

Definition path_parse (pathname : list Z) (name_store : list Z) : res (option (list Z) * list Z) :=
  let? c := rd pathname 0 in
  let? p := (if c =? slash then skip_slashes (tail pathname) else Ok pathname) in
  let? r := copy_name p name_store 0 in
  let? e := rd r.1 0 in
  Ok (if e =? 0 then None else Some r.1, r.2).

(** The loop of [path_depth_cnt]; every turn but the last consumes a byte. *)
Fixpoint depth_loop (fuel : nat) (p : option (list Z)) (name : list Z) (depth : Z) : res Z :=
  match fuel with
  | O => Spin
  | S fuel' =>
      let? n0 := rd name 0 in
      if n0 =? 0 then Ok (s32 depth)
      else
        let? name := memset (Some name) 0 MAX_FILE_NAME_LEN in
        match p with
        | Some q => let? r := path_parse q name in depth_loop fuel' r.1 r.2 (u32 (depth + 1))
        | None => depth_loop fuel' None name (u32 (depth + 1))
        end
  end.

(** [name] is the uninitialised local array. *)
Definition path_depth_cnt (name pathname : list Z) : res Z :=
  let? r := path_parse pathname name in
  depth_loop (S (S (length pathname))) r.1 r.2 0.

(** ** Cleaning a path *)

(** One name: go up for "..", stay for ".", append otherwise. *)
Definition wash_name (name new_abs_path : list Z) : res (list Z) :=
  let? c := strcmp (Some [dot; dot; 0]) (Some name) in
  if c =? 0 then
    let? slash_ptr := strrchr (Some new_abs_path) slash in
    match slash_ptr with
    | None => Fault
    | Some off => if negb (off =? 0) then wr new_abs_path off 0 else wr new_abs_path (off + 1) 0
    end
  else
    let? c := strcmp (Some [dot; 0]) (Some name) in
    if negb (c =? 0) then
      let? c := strcmp (Some new_abs_path) (Some [slash; 0]) in
      let? n := (if negb (c =? 0) then strcat (Some new_abs_path) (Some [slash; 0]) else Ok new_abs_path) in
      strcat (Some n) (Some name)
    else Ok new_abs_path.

Fixpoint wash_loop (fuel : nat) (sub_path : option (list Z)) (name new_abs_path : list Z) : res (list Z) :=
  match fuel with
  | O => Spin
  | S fuel' =>
      let? n0 := rd name 0 in
      if n0 =? 0 then Ok new_abs_path
      else
        let? new_abs_path := wash_name name new_abs_path in
        let? name := memset (Some name) 0 MAX_FILE_NAME_LEN in
        match sub_path with
        | Some q => let? r := path_parse q name in wash_loop fuel' r.1 r.2 new_abs_path
        | None => wash_loop fuel' None name new_abs_path
        end
  end.

Definition wash_path (old_abs_path new_abs_path : list Z) : res (list Z) :=
  let? c := rd old_abs_path 0 in
  if negb (c =? slash) then Panic
  else
    let? r := path_parse old_abs_path (replicate 16 0) in
    let? n0 := rd r.2 0 in
    if n0 =? 0 then
      let? n := wr new_abs_path 0 slash in wr n 1 0
    else
      let? n := wr new_abs_path 0 0 in
      let? n := strcat (Some n) (Some [slash; 0]) in
      wash_loop (S (S (length old_abs_path))) r.1 r.2 n.

(** [cwd] is what [getcwd] leaves in the zeroed buffer of 512 bytes, and
    whether it returned the buffer or NULL. *)
Definition make_clear_abs_path (cwd : list Z * bool) (path final_path : list Z) : res (list Z) :=
  let? c := rd path 0 in
  let? abs_path :=
    (if negb (c =? slash) then
       if cwd.2 then
         let? a0 := rd cwd.1 0 in let? a1 := rd cwd.1 1 in
         if negb ((a0 =? slash) && (a1 =? 0)) then strcat (Some cwd.1) (Some [slash; 0]) else Ok cwd.1
       else Ok cwd.1
     else Ok (replicate 512 0)) in
  let? abs_path := strcat (Some abs_path) (Some path) in
  wash_path abs_path final_path.

End path_ops.

(** ** What a path means *)

(** The names between slashes. *)
Notation comps := (words slash).

(** Going through the names from the root. *)
Definition go (acc : list (list Z)) (name : list Z) : list (list Z) :=
  if bool_decide (name = [dot; dot]) then take (length acc - 1) acc
  else if bool_decide (name = [dot]) then acc
  else acc ++ [name].
Definition normalize (names : list (list Z)) : list (list Z) := fold_left go names [].

(** The text of an absolute path. *)
Definition joined (names : list (list Z)) : list Z := concat ((λ n, slash :: n) <$> names).
Definition show (names : list (list Z)) : list Z := if bool_decide (names = []) then [slash] else joined names.

(** A name: not empty, no slash, fits a directory entry with its NUL. *)
Definition name_ok (n : list Z) : Prop := n ≠ [] ∧ (slash ∉ n) ∧ Forall is_char n ∧ (length n ≤ 15)%nat.

(** ** Lemmas *)

(** The shape of every path: slashes, a name, and the end or another slash. *)
Notation path_shape := (words_shape slash).
Notation comps_shape := (words_cons slash).

Section path_lemmas.
Context {B : Build}.

Lemma skip_slashes_run k c s : c ≠ slash → skip_slashes (replicate k slash ++ c :: s) = Ok (c :: s).
Proof.
  intros Hc. induction k as [|k IH]; simpl; [|done]. by rewrite (proj2 (Z.eqb_neq c slash)).
Qed.

Lemma copy_name_run w e p name pre :
  Forall is_char w → slash ∉ w → e = slash ∨ e = 0 → (length pre + length w ≤ length name)%nat →
  take (length pre) name = pre →
  copy_name (w ++ e :: p) name (Z.of_nat (length pre)) = Ok (e :: p, pre ++ w ++ drop (length pre + length w) name).
Proof.
  intros Hw. revert name pre. induction Hw as [|c w Hc Hw IH]; intros name pre Hs He Hl Hp; simpl.
  - assert ((e =? slash) || (e =? 0) = true) as -> by (destruct He as [-> | ->]; done).
    rewrite Nat.add_0_r. do 2 f_equal. rewrite <-Hp at 1. by rewrite take_drop.
  - apply not_elem_of_cons in Hs as [Hcs Hs]. simpl in Hl. unfold is_char in Hc.
    rewrite (proj2 (Z.eqb_neq c slash)), (proj2 (Z.eqb_neq c 0)) by (done || lia). simpl.
    rewrite wr_Ok by lia. cbn [rbind]. rewrite Nat2Z.id.
    replace (Z.of_nat (length pre) + 1) with (Z.of_nat (length (pre ++ [c]))) by (rewrite length_app; simpl; lia).
    rewrite IH; try done.
    + do 2 f_equal. rewrite length_app, <-app_assoc. simpl. do 3 f_equal.
      rewrite drop_insert_lt by lia. f_equal. lia.
    + rewrite length_app, length_insert. simpl. lia.
    + rewrite length_app. simpl. rewrite Nat.add_1_r. rewrite (take_S_r _ _ c).
      * rewrite take_insert_ge by lia. by rewrite Hp.
      * apply list_lookup_insert_eq. lia.
Qed.

Lemma rd_head {A} (x : A) l : rd (x :: l) 0 = Ok x.
Proof. done. Qed.

Lemma path_parse_run k w rest r name :
  Forall is_char w → slash ∉ w →
  (rest = [] ∨ (∃ q, rest = slash :: q)) → (w = [] → rest = []) → (length w ≤ length name)%nat →
  path_parse ((replicate k slash ++ w ++ rest) ++ 0 :: r) name =
    Ok (if bool_decide (rest = []) then None else Some (rest ++ 0 :: r), w ++ drop (length w) name).
Proof.
  intros Hcw Hw Hr He Hl.
  set (e := match rest with [] => 0 | c :: _ => c end). set (p := match rest with [] => r | _ :: q => q ++ 0 :: r end).
  assert (Hep : rest ++ 0 :: r = e :: p) by (destruct Hr as [->|[q ->]]; done).
  assert (Hes : e = slash ∨ e = 0) by (destruct Hr as [->|[q ->]]; unfold e; auto).
  assert (Hcopy : copy_name (w ++ e :: p) name 0 = Ok (e :: p, w ++ drop (length w) name))
    by (apply (copy_name_run w e p name []); simpl; done || lia).
  assert (Hfin : (if e =? 0 then None else Some (e :: p)) = if bool_decide (rest = []) then None else Some (e :: p)).
  { destruct Hr as [->|[q ->]]; done. }
  assert (Hfirst : ∃ c q, w ++ e :: p = c :: q ∧ c ≠ slash).
  { destruct w as [|c w]; [|exists c, (w ++ e :: p); split; [done|set_solver]].
    exists e, p. split; [done|]. unfold e. by rewrite (He eq_refl). }
  destruct Hfirst as (c & q & Ecq & Hc).
  rewrite <-!app_assoc, Hep. unfold path_parse.
  assert (Htail : ∀ pp, pp = w ++ e :: p → (let? r0 := copy_name pp name 0 in let? e0 := rd r0.1 0 in Ok (if e0 =? 0 then None else Some r0.1, r0.2))
      = Ok (if bool_decide (rest = []) then None else Some (e :: p), w ++ drop (length w) name)).
  { intros pp ->. rewrite Hcopy. cbn [rbind fst snd]. rewrite rd_head. cbn [rbind]. by rewrite Hfin. }
  destruct k as [|k]; simpl app.
  - rewrite Ecq, rd_head. cbn [rbind]. rewrite (proj2 (Z.eqb_neq c slash)) by done. cbn [rbind]. apply Htail. by rewrite Ecq.
  - rewrite rd_head. cbn [rbind]. change (slash =? slash) with true. cbn [tail].
    rewrite Ecq, skip_slashes_run by done. cbn [rbind]. apply Htail. by rewrite Ecq.
Qed.

Lemma slash_cstr : cstr [slash; 0] [slash].
Proof. split; [|by exists []]. apply Forall_singleton. unfold is_char, slash. lia. Qed.

(** Writing a NUL cuts a string. *)
Lemma cut_cstr buf p x :
  cstr buf (p ++ x) → ∃ buf', wr buf (Z.of_nat (length p)) 0 = Ok buf' ∧ cstr buf' p ∧ length buf' = length buf.
Proof.
  intros [Hc [rest ->]]. apply Forall_app in Hc as [Hp _]. rewrite <-app_assoc.
  assert (∃ y q, x ++ 0 :: rest = y :: q) as (y & q & ->) by (destruct x; simpl; eauto).
  rewrite wr_Ok by (rewrite length_app; simpl; lia). eexists. split; [done|]. rewrite Nat2Z.id.
  rewrite insert_app_r_alt, Nat.sub_diag by lia. simpl. split; [split; eauto|]. rewrite !length_app. done.
Qed.

Lemma joined_snoc acc n : joined (acc ++ [n]) = joined acc ++ slash :: n.
Proof. unfold joined. rewrite fmap_app, concat_app. simpl. by rewrite app_nil_r. Qed.

Lemma joined_chars acc : Forall name_ok acc → Forall is_char (joined acc).
Proof.
  induction 1 as [|n acc Hn _ IH]; unfold joined; simpl; [done|]. constructor; [unfold is_char, slash; lia|].
  apply Forall_app. split; [apply Hn|done].
Qed.

Lemma show_snoc acc n : show (acc ++ [n]) = joined acc ++ slash :: n.
Proof. unfold show. rewrite bool_decide_false by (by destruct acc). apply joined_snoc. Qed.

Lemma show_root acc : Forall name_ok acc → show acc = [slash] ↔ acc = [].
Proof.
  intros H. split; [|by intros ->]. destruct acc as [|n acc _] using rev_ind; [done|].
  rewrite show_snoc. intros E. apply (f_equal length) in E. rewrite length_app in E. simpl in E.
  apply Forall_app in H as [_ H]. apply Forall_inv in H as [Hn _]. destruct n; [done|]. simpl in E. lia.
Qed.

Lemma go_ok acc w : Forall name_ok acc → name_ok w → Forall name_ok (go acc w).
Proof.
  intros Ha Hw. unfold go. case_bool_decide; [by apply Forall_take|]. case_bool_decide; [done|].
  apply Forall_app. auto.
Qed.

Lemma joined_take acc n : (length (joined (take n acc)) ≤ length (joined acc))%nat.
Proof.
  rewrite <-(take_drop n acc) at 2. unfold joined. rewrite fmap_app, concat_app, length_app. lia.
Qed.

Lemma go_length acc w : Forall name_ok acc → (length (show (go acc w)) ≤ length (show acc) + length w + 1)%nat.
Proof.
  intros Ha. assert (Hs : ∀ a, (length (joined a) ≤ length (show a))%nat ∧ (1 ≤ length (show a))%nat ∧
      (a ≠ [] → show a = joined a)).
  { intros a. unfold show. destruct a as [|m a].
    - split_and!; [vm_compute; lia|vm_compute; lia|by intros []].
    - rewrite bool_decide_false by done. split_and!; [done|unfold joined; simpl; lia|done]. }
  unfold go. case_bool_decide.
  - destruct (decide (take (length acc - 1) acc = [])) as [E|E]; [rewrite E; simpl; destruct (Hs acc); lia|].
    destruct (Hs (take (length acc - 1) acc)) as (_ & _ & Hj). rewrite (Hj E).
    pose proof (joined_take acc (length acc - 1)). destruct (Hs acc). lia.
  - case_bool_decide; [lia|]. rewrite show_snoc, length_app. simpl. destruct (Hs acc). lia.
Qed.

(** ".." removes the last name of the text. *)
Lemma wash_up new acc :
  cstr new (show acc) → Forall name_ok acc → (1 < length new)%nat →
  ∃ new', (let? slash_ptr := strrchr (Some new) slash in
    match slash_ptr with
    | None => Fault
    | Some off => if negb (off =? 0) then wr new off 0 else wr new (off + 1) 0
    end) = Ok new' ∧ cstr new' (show (take (length acc - 1) acc)) ∧ length new' = length new.
Proof.
  intros Hc Ha Hl. pose proof Hc as [Hch [rest Hrest]].
  destruct acc as [|n acc _] using rev_ind.
  - rewrite Hrest. change (show []) with ([] ++ slash :: []) at 1. rewrite (strrchr_last [] []); [|by apply Hch|unfold slash; lia|apply not_elem_of_nil].
    cbn [rbind]. rewrite <-Hrest. destruct (cut_cstr new [slash] [] Hc) as (new' & E & Hc' & Hl').
    change (wr new 1 0 = Ok new') in E. exists new'. done.
  - rewrite show_snoc in Hc, Hch, Hrest. apply Forall_app in Ha as [Ha Hn]. apply Forall_inv in Hn as (Hne & Hns & _).
    rewrite Hrest, (strrchr_last (joined acc) n) by (done || (unfold slash; lia)). rewrite <-Hrest. cbn [rbind].
    rewrite length_app, Nat.add_sub, take_app_length. destruct acc as [|m acc'].
    + destruct (cut_cstr new [slash] n) as (new' & E & Hc' & Hl'); [done|].
      change (wr new 1 0 = Ok new') in E. exists new'. done.
    + set (acc := m :: acc') in *. rewrite (proj2 (Z.eqb_neq _ _)) by (unfold acc, joined; simpl; lia). simpl negb.
      destruct (cut_cstr new (joined acc) (slash :: n) Hc) as (new' & E & Hc' & Hl'). rewrite E. eauto.
Qed.

Lemma wash_name_spec name w new acc :
  cstr name w → name_ok w → cstr new (show acc) → Forall name_ok acc → (length (show acc) + length w + 1 < length new)%nat →
  ∃ new', wash_name name new = Ok new' ∧ cstr new' (show (go acc w)) ∧ length new' = length new.
Proof.
  intros Hname Hw Hnew Hacc Hl. unfold wash_name, go.
  assert (Hdd : cstr [dot; dot; 0] [dot; dot]) by (split; [repeat constructor; unfold dot; lia|by exists []]).
  assert (Hd : cstr [dot; 0] [dot]) by (split; [repeat constructor; unfold dot; lia|by exists []]).
  pose proof slash_cstr as Hs.
  destruct (strcmp_cstr _ _ _ _ Hdd Hname) as (c1 & -> & H1). cbn [rbind].
  destruct (Z.eqb_spec c1 0) as [E1|E1].
  { rewrite bool_decide_true by (symmetry; by apply H1). apply wash_up; try done. lia. }
  rewrite bool_decide_false by naive_solver. destruct (strcmp_cstr _ _ _ _ Hd Hname) as (c2 & -> & H2). cbn [rbind].
  destruct (Z.eqb_spec c2 0) as [E2|E2]; cbn [negb].
  { rewrite bool_decide_true by (symmetry; by apply H2). eauto. }
  rewrite bool_decide_false by naive_solver. destruct (strcmp_cstr _ _ _ _ Hnew Hs) as (c3 & -> & H3). cbn [rbind].
  rewrite show_root in H3 by done. rewrite show_snoc. destruct (Z.eqb_spec c3 0) as [E3|E3]; cbn [negb rbind].
  - apply H3 in E3 as ->. destruct (strcat_cstr new name w [slash] Hnew Hname) as (new' & -> & Hc & Hl'); [simpl in *; lia|]. eauto.
  - assert (Hne : acc ≠ []) by naive_solver.
    assert (Hsh : show acc = joined acc) by (unfold show; by rewrite bool_decide_false). rewrite Hsh in *.
    destruct (strcat_cstr new [slash; 0] [slash] (joined acc) Hnew Hs) as (n1 & -> & Hc1 & Hl1); [simpl; lia|]. cbn [rbind].
    destruct (strcat_cstr n1 name w (joined acc ++ [slash]) Hc1 Hname) as (n2 & -> & Hc2 & Hl2); [rewrite length_app, Hl1; simpl; lia|].
    exists n2. split; [done|]. split; [|lia]. by rewrite <-app_assoc in Hc2.
Qed.

Definition zeros16 : list Z := replicate 16 0.

Lemma memset16 name : length name = 16%nat → memset (Some name) 0 MAX_FILE_NAME_LEN = Ok zeros16.
Proof.
  intros Hl. unfold memset. rewrite ASSERT_true by done. cbn [rbind]. rewrite mem_Some, set_loop_run by (rewrite Hl; vm_compute; lia).
  rewrite drop_ge by (rewrite Hl; vm_compute; lia). by rewrite app_nil_r.
Qed.

(** The buffer after [path_parse] of a name. *)
Lemma name_buffer w :
  name_ok w → let b := w ++ drop (length w) zeros16 in
  cstr b w ∧ length b = 16%nat ∧ ∃ c, rd b 0 = Ok c ∧ c ≠ 0.
Proof.
  intros (Hne & Hs & Hc & Hl) b. unfold b, zeros16. rewrite drop_replicate. split_and!.
  - split; [done|]. replace (16 - length w)%nat with (S (15 - length w)) by lia. simpl. eauto.
  - rewrite length_app, length_replicate. lia.
  - destruct w as [|c w]; [done|]. exists c. split; [done|]. apply Forall_inv in Hc. unfold is_char in Hc. lia.
Qed.

(** One call of [path_parse] on a clean buffer takes the first name off. *)
Lemma parse_first t r :
  Forall is_char t → Forall name_ok (comps t) →
  match comps t with
  | [] => path_parse (t ++ 0 :: r) zeros16 = Ok (None, zeros16)
  | w :: ws =>
      ∃ rest, path_parse (t ++ 0 :: r) zeros16
          = Ok (if bool_decide (rest = []) then None else Some (rest ++ 0 :: r), w ++ drop (length w) zeros16) ∧
        comps rest = ws ∧ Forall is_char rest ∧ (rest = [] ∨ ∃ q, rest = slash :: q) ∧
        (length w + length rest ≤ length t)%nat ∧
        ((∃ q, t = slash :: q) → (length w + length rest < length t)%nat)
  end.
Proof.
  intros Hch Hok. destruct (path_shape t) as (k & w & rest & -> & Hw & Hr & He). rewrite comps_shape in Hok |- * by done.
  apply Forall_app in Hch as [_ [Hcw Hcr]%Forall_app]. case_bool_decide as Ew.
  - rewrite path_parse_run by (try done; subst w; simpl; lia). by rewrite (He Ew), Ew.
  - apply Forall_cons in Hok as [Hwok Hok]. assert (Hlw : (length w ≤ 15)%nat) by apply Hwok.
    exists rest. rewrite path_parse_run by (try done; unfold zeros16; rewrite length_replicate; lia).
    rewrite !length_app, length_replicate. split_and!; try done; [lia|].
    intros [q Eq]. destruct k; [|lia]. exfalso. destruct w as [|c w]; [done|]. injection Eq as -> _. set_solver.
Qed.

(** The loop of [wash_path], entered with the first name of [t] parsed. *)
Lemma wash_loop_spec n t r new acc fuel :
  (length t < n)%nat → (n < fuel)%nat → Forall is_char t → Forall name_ok (comps t) → (t = [] ∨ (∃ q, t = slash :: q)) →
  cstr new (show acc) → Forall name_ok acc → (length (show acc) + length t + 1 < length new)%nat →
  ∃ sub name new', path_parse (t ++ 0 :: r) zeros16 = Ok (sub, name) ∧
    wash_loop fuel sub name new = Ok new' ∧
    cstr new' (show (fold_left go (comps t) acc)) ∧ length new' = length new.
Proof.
  revert t new acc fuel. induction n as [|n IH]; intros t new acc fuel Ht Hfuel Hch Hok Habs Hnew Hacc Hl; [lia|].
  destruct fuel as [|fuel]; [lia|]. pose proof (parse_first t r Hch Hok) as Hp.
  destruct (comps t) as [|w ws]; [by exists None, zeros16, new|].
  destruct Hp as (rest & E & Ews & Hcr & Hr & Hlen & Hlt). apply Forall_cons in Hok as [Hwok Hok]. rewrite <-Ews in *.
  assert (Hlw : (length w + length rest < length t)%nat).
  { apply Hlt. destruct Habs as [->|Habs]; [|done]. destruct Hwok as [Hne _]. destruct w; [done|]. simpl in Hlen. lia. }
  destruct (name_buffer w Hwok) as (Hb1 & Hb2 & c & Hb3 & Hc0).
  destruct (wash_name_spec _ w new acc Hb1 Hwok Hnew Hacc) as (new1 & E1 & Hc1 & Hl1); [lia|].
  assert (Hgrow : (length (show (go acc w)) ≤ length (show acc) + length w + 1)%nat) by (apply go_length; done).
  destruct (IH rest new1 (go acc w) fuel) as (sub2 & name2 & new2 & E2 & E3 & Hc3 & Hl3); try done; try lia; [by apply go_ok|].
  eexists _, _, new2. split; [exact E|]. split; [|split; [done|lia]].
  simpl. rewrite Hb3. cbn [rbind]. rewrite (proj2 (Z.eqb_neq c 0)) by done. rewrite E1. cbn [rbind].
  rewrite memset16 by done. cbn [rbind]. case_bool_decide as Er.
  - subst rest. vm_compute in E2. injection E2 as <- <-. exact E3.
  - rewrite E2. exact E3.
Qed.

(** The loop of [path_depth_cnt] counts the names that are left. *)
Lemma depth_loop_spec n t r depth fuel :
  (length t < n)%nat → (n < fuel)%nat → Forall is_char t → Forall name_ok (comps t) →
  0 ≤ depth → depth + Z.of_nat (length t) < 2147483648 →
  ∃ sub name, path_parse (t ++ 0 :: r) zeros16 = Ok (sub, name) ∧
    depth_loop fuel sub name depth = Ok (depth + Z.of_nat (length (comps t))).
Proof.
  revert t depth fuel. induction n as [|n IH]; intros t depth fuel Ht Hfuel Hch Hok Hd Hb; [lia|].
  destruct fuel as [|fuel]; [lia|]. pose proof (parse_first t r Hch Hok) as Hp.
  destruct (comps t) as [|w ws].
  { exists None, zeros16. split; [done|]. simpl. f_equal. change (Z.of_nat 0) with 0. rewrite Z.add_0_r. apply s32_small. lia. }
  destruct Hp as (rest & E & Ews & Hcr & _ & Hlen & _). apply Forall_cons in Hok as [Hwok Hok]. rewrite <-Ews in *.
  assert (0 < length w)%nat by (destruct Hwok as [Hne _]; destruct w; simpl; [done|lia]).
  destruct (name_buffer w Hwok) as (Hb1 & Hb2 & c & Hb3 & Hc0).
  destruct (IH rest (depth + 1) fuel) as (sub2 & name2 & E2 & E3); try done; try lia.
  eexists _, _. split; [exact E|].
  simpl. rewrite Hb3. cbn [rbind]. rewrite (proj2 (Z.eqb_neq c 0)) by done.
  rewrite memset16 by done. cbn [rbind]. rewrite u32_small by lia.
  replace (depth + Z.of_nat (S (length (comps rest)))) with (depth + 1 + Z.of_nat (length (comps rest))) by lia.
  case_bool_decide as Er.
  - subst rest. vm_compute in E2. injection E2 as <- <-. exact E3.
  - rewrite E2. exact E3.
Qed.

End path_lemmas.

(** ** Theorems *)

Section path_theorems.
Context {B : Build}.

Lemma wash_path_clean t r new :
  Forall is_char t → Forall name_ok (comps t) → (∃ q, t = slash :: q) → (length t + 2 < length new)%nat →
  ∃ new', wash_path (t ++ 0 :: r) new = Ok new' ∧ cstr new' (show (normalize (comps t))) ∧ length new' = length new.
Proof.
  intros Hch Hok Habs Hl. unfold wash_path. pose proof (parse_first t r Hch Hok) as Hp.
  assert (E0 : rd (t ++ 0 :: r) 0 = Ok slash) by (destruct Habs as [q ->]; done). rewrite E0. cbn [rbind].
  change (negb (slash =? slash)) with false. cbv iota. change (replicate 16 0) with zeros16.
  destruct (comps t) as [|w ws] eqn:Ec.
  - rewrite Hp. cbn [rbind fst snd]. change (rd zeros16 0) with (Ok 0). cbn [rbind]. change (0 =? 0) with true. cbv iota.
    destruct new as [|x [|y new]]; [simpl in Hl; lia..|].
    change (wr (x :: y :: new) 0 slash) with (Ok (slash :: y :: new)). cbn [rbind]. rewrite wr_Ok by (simpl; lia).
    eexists. split; [done|]. split; [|done]. split; [repeat constructor; unfold slash; lia|]. by exists new.
  - destruct Hp as (rest & E & _). assert (Hw : name_ok w) by (by apply Forall_inv in Hok).
    destruct (name_buffer w Hw) as (_ & _ & c & Hb3 & Hc0). rewrite E. cbn [rbind fst snd]. rewrite Hb3. cbn [rbind].
    rewrite (proj2 (Z.eqb_neq c 0)) by done.
    destruct new as [|x new]; [simpl in Hl; lia|]. change (wr (x :: new) 0 0) with (Ok (0 :: new)). cbn [rbind].
    destruct (strcat_cstr (0 :: new) [slash; 0] [slash] []) as (n & -> & Hc & Hln);
      [split; [done|by exists new]|apply slash_cstr|simpl in *; lia|].
    cbn [rbind]. simpl app in Hc. rewrite length_app.
    destruct (wash_loop_spec (S (length t)) t r n [] (S (S (length t + length (0 :: r))))) as (sub & nm & new' & E1 & E2 & Hc' & Hl');
      try done; try (simpl; lia); [by rewrite Ec|by right|simpl in *; lia|].
    rewrite E in E1. injection E1 as <- <-. exists new'. rewrite E2, Ec in *. split; [done|]. split; [done|]. simpl in *. lia.
Qed.

(** C34: [wash_path] resolves a path: from an absolute path of names of at most
    15 characters, whatever the number of slashes between them, it stores the
    text of the directory reached by walking the names from the root, where
    "." stays, ".." goes up and stops at the root, and it terminates. *)
Theorem wash_path_resolves t r new :
  Forall is_char t → Forall name_ok (comps t) → (∃ q, t = slash :: q) → (length t + 2 < length new)%nat →
  ∃ new', wash_path (t ++ 0 :: r) new = Ok new' ∧ cstr new' (show (normalize (comps t))) ∧ length new' = length new.
Proof. apply wash_path_clean. Qed.

Lemma comps_joined names s :
  Forall name_ok names → (s = [] ∨ ∃ q, s = slash :: q) → comps (joined names ++ s) = names ++ comps s.
Proof.
  induction 1 as [|n names (Hne & Hs & _) _ IH]; intros Hs'; [done|].
  change (joined (n :: names) ++ s) with (replicate 1 slash ++ (n ++ joined names) ++ s). rewrite <-app_assoc.
  rewrite comps_shape; try done.
  - rewrite bool_decide_false by done. simpl. by rewrite IH.
  - destruct names; [done|]. right. eauto.
Qed.

(** What [make_clear_abs_path] puts in front of the path. *)
Lemma abs_prefix cwd names p :
  length cwd = 512%nat → cstr cwd (show names) → Forall name_ok names → Forall is_char p → Forall name_ok (comps p) →
  (length (show names) + 1 < 512)%nat →
  ∃ t0 a, (if negb (default 0 (head p) =? slash) then
       let? a0 := rd cwd 0 in let? a1 := rd cwd 1 in
       if negb ((a0 =? slash) && (a1 =? 0)) then strcat (Some cwd) (Some [slash; 0]) else Ok cwd
     else Ok (replicate 512 0)) = Ok a ∧ cstr a t0 ∧ length a = 512%nat ∧ (∃ q, t0 ++ p = slash :: q) ∧
    comps (t0 ++ p) = (if bool_decide (head p = Some slash) then comps p else names ++ comps p) ∧
    (length t0 ≤ length (show names) + 1)%nat.
Proof.
  intros Hcl Hcwd Hn Hch Hok Hb. destruct (Z.eqb_spec (default 0 (head p)) slash) as [E|E]; cbn [negb].
  { destruct p as [|c p]; simpl in E; [done|]. subst c. exists [], (replicate 512 0). split; [done|].
    split; [split; [done|by exists (replicate 511 0)]|]. split; [done|]. split; [simpl; eauto|]. split; [done|simpl; lia]. }
  rewrite bool_decide_false by (destruct p; simpl in *; naive_solver). pose proof Hcwd as [Hsc [rest Er]].
  destruct names as [|n names].
  - exists [slash], cwd. rewrite Er. change (show []) with [slash] in *. split; [done|]. rewrite <-Er.
    split; [done|]. split; [done|]. split; [simpl; eauto|]. split; [|simpl; lia]. done.
  - apply Forall_cons in Hn as [Hn0 Hn]. assert (Hsh : show (n :: names) = joined (n :: names)) by done. rewrite Hsh in *.
    assert (∃ c q, joined (n :: names) = slash :: c :: q ∧ c ≠ 0) as (c & q & Ej & Hc).
    { destruct Hn0 as (Hne & _ & Hc & _). destruct n as [|c n]; [done|]. exists c, (n ++ joined names). split; [done|].
      apply Forall_inv in Hc. unfold is_char in Hc. lia. }
    assert (rd cwd 0 = Ok slash) as -> by (by rewrite Er, Ej). assert (rd cwd 1 = Ok c) as -> by (by rewrite Er, Ej). cbn [rbind].
    rewrite (proj2 (Z.eqb_neq c 0)), andb_false_r by done. cbn [negb].
    destruct (strcat_cstr cwd [slash; 0] [slash] (joined (n :: names))) as (a & -> & Ha & Hal);
      [done|apply slash_cstr|rewrite Hcl; change (length [slash]) with 1%nat; lia|].
    exists (joined (n :: names) ++ [slash]), a. split; [done|]. split; [done|]. split; [lia|].
    split; [rewrite Ej; simpl; eauto|]. rewrite <-app_assoc, comps_joined by (eauto using Forall_cons_2).
    split; [done|]. rewrite length_app. change (length [slash]) with 1%nat. lia.
Qed.

(** [make_clear_abs_path] makes every path absolute and clean: a path that
    starts with a slash is resolved from the root, any other from the current
    directory that [getcwd] reports. *)
Theorem make_clear_abs_path_resolves cwd names p path final :
  cstr path p → Forall name_ok (comps p) → length cwd = 512%nat → cstr cwd (show names) → Forall name_ok names →
  (length (show names) + length p + 2 < 512)%nat → (length (show names) + length p + 3 < length final)%nat →
  ∃ f, make_clear_abs_path (cwd, true) path final = Ok f ∧ length f = length final ∧
    cstr f (show (normalize (if bool_decide (head p = Some slash) then comps p else names ++ comps p))).
Proof.
  intros Hp Hok Hcl Hcwd Hn Hb Hf. pose proof Hp as [Hch [rp Erp]]. unfold make_clear_abs_path.
  assert (E0 : rd path 0 = Ok (default 0 (head p))) by (rewrite Erp; by destruct p). rewrite E0. cbn [rbind fst snd].
  destruct (abs_prefix cwd names p Hcl Hcwd Hn Hch Hok) as (t0 & a & E & Ha & Hal & Habs & Hc & Hlt); [lia|].
  rewrite E. cbn [rbind]. destruct (strcat_cstr a path p t0 Ha Hp) as (a' & -> & Ha' & Hal'); [lia|].
  cbn [rbind]. destruct Ha' as [Hch' [ra ->]].
  destruct (wash_path_clean (t0 ++ p) ra final) as (f & E1 & Hc1 & Hl1); try done; [..|].
  - rewrite Hc. case_bool_decide; [done|]. by apply Forall_app.
  - rewrite length_app. lia.
  - exists f. rewrite Hc in Hc1. done.
Qed.

(** [path_depth_cnt] terminates on every path of names of at most 15
    characters and returns how many names the path has.  On a path without a
    name, such as "/", the answer depends on the uninitialised [name]: 0 when
    its first byte happens to be 0, and 1 otherwise. *)
Theorem path_depth_cnt_counts garbage t r :
  length garbage = 16%nat → Forall is_char t → Forall name_ok (comps t) → Z.of_nat (length t) < 2147483648 →
  path_depth_cnt garbage (t ++ 0 :: r) =
    Ok (if bool_decide (comps t = []) then (if bool_decide (head garbage = Some 0) then 0 else 1)
        else Z.of_nat (length (comps t))).
Proof.
  intros Hg Hch Hok Hb. unfold path_depth_cnt. rewrite length_app.
  destruct (path_shape t) as (k & w & rest & Et & Hw & Hr & He).
  assert (Ec : comps t = if bool_decide (w = []) then [] else w :: comps rest) by (rewrite Et; by apply comps_shape).
  assert (Hlt : length t = (k + length w + length rest)%nat) by (rewrite Et, !length_app, length_replicate; lia).
  rewrite Et in Hch. apply Forall_app in Hch as [_ [Hcw Hcr]%Forall_app].
  assert (Hlw : (length w ≤ 15)%nat).
  { rewrite Ec in Hok. case_bool_decide as Ew; [rewrite Ew; simpl; lia|]. apply Forall_inv in Hok. apply Hok. }
  rewrite Et at 1. rewrite path_parse_run by (done || lia). cbn [rbind fst snd]. rewrite Ec in Hok |- *.
  case_bool_decide as Ew.
  - rewrite (He Ew), Ew, bool_decide_true by done. rewrite bool_decide_true by done. simpl.
    destruct garbage as [|g garbage]; [done|]. rewrite drop_0, rd_head. cbn [rbind head].
    destruct (Z.eqb_spec g 0) as [->|Hg0]; [by rewrite bool_decide_true|]. rewrite bool_decide_false by naive_solver.
    rewrite memset16 by done. cbn [rbind]. done.
  - rewrite (bool_decide_false (w :: _ = [])) by done. apply Forall_cons in Hok as [Hwok Hok].
    destruct w as [|c w']; [done|]. apply Forall_inv in Hcw as Hc0. unfold is_char in Hc0. cbn [depth_loop app].
    rewrite rd_head. cbn [rbind]. rewrite (proj2 (Z.eqb_neq c 0)) by lia.
    rewrite memset16 by (simpl in *; rewrite length_app, length_drop; lia). cbn [rbind].
    destruct (depth_loop_spec (S (length rest)) rest r 1 (S (length t + length (0 :: r)))) as (sub & nm & E1 & E2); try done; try (simpl in *; lia).
    change (u32 (0 + 1)) with 1.
    replace (Z.of_nat (length ((c :: w') :: comps rest))) with (1 + Z.of_nat (length (comps rest))) by (simpl; lia).
    case_bool_decide as Er; [|rewrite E1; exact E2]. subst rest. vm_compute in E1. injection E1 as <- <-. exact E2.
Qed.

End path_theorems.

(** ** Witnesses *)

#[global] Instance name_ok_dec n : Decision (name_ok n).
Proof. unfold name_ok. apply _. Defined.

(** "/a/./b/../c" *)
Definition sample_path : list Z := [47; 97; 47; 46; 47; 98; 47; 46; 46; 47; 99].
(** "//ab/c", relative "../c" from "/ab" *)
Definition two_names : list Z := [47; 47; 97; 98; 47; 99].
Definition up_c : list Z := [46; 46; 47; 99].
Definition cwd_ab : list Z := [47; 97; 98; 0] ++ replicate 508 0.

Lemma wash_path_resolves_witness : ∃ new',
  @wash_path debug_build (sample_path ++ [0]) (replicate 512 7) = Ok new' ∧ cstr new' [47; 97; 47; 99].
Proof.
  destruct (@wash_path_resolves debug_build sample_path [] (replicate 512 7)) as (n & E & H & _).
  - by_decide.
  - by_decide.
  - by exists (tail sample_path).
  - vm_compute. lia.
  - exists n. split; [exact E|exact H].
Defined.

Lemma make_clear_abs_path_witness : ∃ f,
  @make_clear_abs_path debug_build (cwd_ab, true) (up_c ++ [0]) (replicate 512 0) = Ok f ∧ cstr f [47; 99].
Proof.
  destruct (@make_clear_abs_path_resolves debug_build cwd_ab [[97; 98]] up_c (up_c ++ [0]) (replicate 512 0)) as (f & E & _ & H).
  - split; [by_decide|by exists []].
  - by_decide.
  - done.
  - split; [by_decide|by exists (replicate 508 0)].
  - by_decide.
  - vm_compute. lia.
  - vm_compute. lia.
  - exists f. split; [exact E|exact H].
Defined.

Lemma path_depth_cnt_witness :
  @path_depth_cnt debug_build (replicate 16 9) (two_names ++ [0]) = Ok 2.
Proof.
  rewrite (@path_depth_cnt_counts debug_build (replicate 16 9) two_names []); [done|done|by_decide|by_decide|vm_compute; done].
Defined.
