(* ===== verification/Shell.v ===== *)
(** * The command line ([shell/shell.c])

    [readline] edits a line in [cmd_line], [cmd_parse] cuts it into words and
    [my_shell] runs it, as one command or as a pipeline.  What the shell shows
    and what it asks the system for is a list of [event]s, in order. *)

From S2P Require Import Prelude CString Path.

Definition MAX_ARG_NR : Z := 16.
Definition bs : Z := 8.
Definition nl : Z := 10.
Definition cr : Z := 13.
(** ['l' - 'a'] and ['u' - 'a'] *)
Definition ctrl_l : Z := 11.
Definition ctrl_u : Z := 20.
Definition space : Z := 32.
Definition bar : Z := 124.

(** The commands [cmd_execute] knows itself. *)
Inductive builtin := Ls | Cd | Pwd | Ps | Clear | Mkdir | Rmdir | Rm | Help.

Inductive event :=
| EPutchar (c : Z)
| EClear
| EPrompt
| EPrint (s : list Z)
| ENoEnter              (* "readline: can`t find enter_key ..." *)
| ETooMany              (* "num of arguments exceed ..." *)
| EPipe
| ERedirect (old new : Z)
| EClose (fd : Z)
| EBuiltin (cmd : builtin) (argv : list (list Z))
| EFork (child : list event)   (* what the child does up to its end *)
| EWait
| EChild (pid status : Z)   (* "child_pid %d, it's status: %d" *)
| EStat (path : list Z)
| ENoFile (path : list Z)      (* "cannot access %s: No such file or directory" *)
| EExit (status : Z)
| EExec (path : list Z) (argv : list (list Z)).

(** ** [readline]

    [buf] is [cmd_line], the buffer of the only call. *)

Record rline := RLine { cmd_line : list Z; pos : Z; shown : list event }.

(** The bytes of a C string. *)
Fixpoint text (b : list Z) : list Z :=
  match b with [] => [] | c :: b' => if c =? 0 then [] else c :: text b' end.

Section shell_ops.
Context {B : Build}.

(** [while (buf != pos) { putchar('\b'); *(pos--) = 0; }] with [pos] as a count *)
Fixpoint erase_loop (n : nat) (l : rline) : res rline :=
  match n with
  | O => Ok l
  | S n' =>
      let? b := wr (cmd_line l) (pos l) 0 in
      erase_loop n' (RLine b (pos l - 1) (shown l ++ [EPutchar bs]))
  end.

(** One turn of the loop, after [read] has stored a byte at [pos]; [true] is [return]. *)
Definition readline_key (l : rline) : res (bool * rline) :=
  let? c := rd (cmd_line l) (pos l) in
  if (c =? nl) || (c =? cr) then
    let? b := wr (cmd_line l) (pos l) 0 in
    Ok (true, RLine b (pos l) (shown l ++ [EPutchar nl]))
  else if c =? bs then
    let? c0 := rd (cmd_line l) 0 in
    if negb (c0 =? bs) then Ok (false, RLine (cmd_line l) (pos l - 1) (shown l ++ [EPutchar bs]))
    else Ok (false, l)
  else if c =? ctrl_l then
    let? b := wr (cmd_line l) (pos l) 0 in
    Ok (false, RLine b (pos l) (shown l ++ [EClear; EPrompt; EPrint (text b)]))
  else if c =? ctrl_u then
    let? l' := erase_loop (Z.to_nat (pos l)) l in Ok (false, l')
  else Ok (false, RLine (cmd_line l) (pos l + 1) (shown l ++ [EPutchar c])).

(** [input] is what the calls of [read] return: a byte, or -1 ([None]); at its
    end the shell sleeps in [read]. *)
Fixpoint readline_loop (input : list (option Z)) (count : Z) (l : rline) : res rline :=
  match input with
  | [] => Block
  | None :: _ => Ok (RLine (cmd_line l) (pos l) (shown l ++ [ENoEnter]))
  | Some c :: input' =>
      let? b := wr (cmd_line l) (pos l) c in
      if pos l <? count then
        let? r := readline_key (RLine b (pos l) (shown l)) in
        if r.1 then Ok r.2 else readline_loop input' count r.2
      else Ok (RLine b (pos l) (shown l ++ [ENoEnter]))
  end.

Definition readline (input : list (option Z)) (line : list Z) (count : Z) : res rline :=
  check (if 0 <? count then Ok tt else Panic) in
  readline_loop input count (RLine line 0 []).

(** ** [cmd_parse]

    A [char*] into the command line is its offset, [None] is NULL. *)

Fixpoint skip_while (f : Z → bool) (b : list Z) (next : Z) : res Z :=
  match b with
  | [] => Fault
  | c :: b' => if f c then skip_while f b' (next + 1) else Ok next
  end.

Fixpoint parse_loop (fuel : nat) (token : Z) (b : list Z) (argv : list (option Z)) (next argc : Z)
  : res (Z * list Z * list (option Z)) :=
  match fuel with
  | O => Spin
  | S fuel' =>
      let? c := rd b next in
      if c =? 0 then Ok (argc, b, argv) else
      let? next := skip_while (λ c, c =? token) (drop (Z.to_nat next) b) next in
      let? c := rd b next in
      if c =? 0 then Ok (argc, b, argv) else
      let? argv := wr argv argc (Some next) in
      let? next := skip_while (λ c, negb (c =? 0) && negb (c =? token)) (drop (Z.to_nat next) b) next in
      let? c := rd b next in
      let? r := (if negb (c =? 0) then let? b := wr b next 0 in Ok (b, next + 1) else Ok (b, next)) in
      if MAX_ARG_NR <? argc then Ok (-1, r.1, argv)
      else parse_loop fuel' token r.1 argv r.2 (s32 (argc + 1))
  end.

(** [argv[0..15] = NULL], then the words.  Every turn of the outer loop but the
    last moves [next] forward. *)
Fixpoint clear_argv (n : nat) (i : Z) (argv : list (option Z)) : res (list (option Z)) :=
  match n with O => Ok argv | S n' => let? a := wr argv i None in clear_argv n' (i + 1) a end.

Definition cmd_parse (cmd_str : list Z) (start : Z) (argv : list (option Z)) (token : Z)
  : res (Z * list Z * list (option Z)) :=
  let? argv := clear_argv (Z.to_nat MAX_ARG_NR) 0 argv in
  parse_loop (S (length cmd_str)) token cmd_str argv start 0.

(** ** [cmd_execute] and [my_shell] *)

(** The literals of [cmd_execute], in the order of its tests. *)
Definition builtins : list (list Z * builtin) :=
  [([108; 115], Ls); ([99; 100], Cd); ([112; 119; 100], Pwd); ([112; 115], Ps);
   ([99; 108; 101; 97; 114], Clear); ([109; 107; 100; 105; 114], Mkdir);
   ([114; 109; 100; 105; 114], Rmdir); ([114; 109], Rm); ([104; 101; 108; 112], Help)].

Fixpoint dispatch (tbl : list (list Z * builtin)) (name : ptr) : res (option builtin) :=
  match tbl with
  | [] => Ok None
  | (lit, k) :: tbl' =>
      let? c := strcmp (Some (lit ++ [0])) name in
      if c =? 0 then Ok (Some k) else dispatch tbl' name
  end.

(** What the system calls of one command answer: [fork], [wait], [stat],
    [execv] (true when it comes back), [getcwd], and, for the [cd] command,
    what [buildin_cd] leaves in [final_path] when it does not return NULL. *)
Record answers := Answers {
  fork_ret : Z;
  wait_ret : Z * Z;
  stat_ret : Z;
  exec_returns : bool;
  cwd_ret : list Z * bool;
  cd_ret : option (list Z)
}.

(** The shell's globals and what it has done. *)
Record shell := Shell {
  sline : list Z;
  sargv : list (option Z);
  final_path : list Z;
  cwd_cache : list Z;
  log : list event
}.
Definition say (ev : list event) (s : shell) : shell :=
  Shell (sline s) (sargv s) (final_path s) (cwd_cache s) (log s ++ ev).

Definition argptr (s : shell) (i : Z) : res ptr :=
  let? a := rd (sargv s) i in Ok ((λ off, drop (Z.to_nat off) (sline s)) <$> a).

(** The words [argv] points at, up to the first NULL. *)
Fixpoint argtexts (b : list Z) (argv : list (option Z)) : list (list Z) :=
  match argv with Some off :: argv' => text (drop (Z.to_nat off) b) :: argtexts b argv' | _ => [] end.

(** The child's side of an external command: what it does, and the shell it
    goes on as when [execv] comes back. *)
Definition cmd_child (y : answers) (name : ptr) (ws : list (list Z)) (s : shell) : res (list event * option shell) :=
  let? fp := make_clear_abs_path (cwd_ret y) (mem name) (final_path s) in
  if stat_ret y =? -1 then Ok ([EStat (text fp); ENoFile (text fp); EExit (-1)], None)
  else Ok ([EStat (text fp); EExec (text fp) (text fp :: tail ws)],
           if exec_returns y then Some (Shell (sline s) (sargv s) fp (cwd_cache s) (log s)) else None).

(** [None]: this process ends here.  After a [fork] that made a child, the child
    runs on its own copy of the shell's memory while the shell waits for it; a
    child that faults or fails an assertion never ends, and the shell goes no
    further than its [wait]. *)
Definition cmd_execute (y : answers) (s : shell) : res (option shell) :=
  let? name := argptr s 0 in
  let? k := dispatch builtins name in
  let ws := argtexts (sline s) (sargv s) in
  match k with
  | Some Cd =>
      let s := say [EBuiltin Cd ws] s in
      match cd_ret y with
      | None => Ok (Some s)
      | Some fp =>
          let? c := memset (Some (cwd_cache s)) 0 MAX_PATH_LEN in
          let? c := strcpy (Some c) (Some fp) in
          Ok (Some (Shell (sline s) (sargv s) fp c (log s)))
      end
  | Some k => Ok (Some (say [EBuiltin k ws] s))
  | None =>
      if fork_ret y =? 0 then
        let? r := cmd_child y name ws s in
        Ok (say r.1 <$> r.2)
      else
        let? child := (if 0 <? fork_ret y then let? r := cmd_child y name ws s in Ok r.1 else Ok []) in
        if (wait_ret y).1 =? -1 then Panic
        else Ok (Some (say [EFork child; EWait; EChild (wait_ret y).1 (wait_ret y).2] s))
  end.

Definition parse (start : Z) (s : shell) : res (Z * shell) :=
  let? r := cmd_parse (sline s) start (sargv s) space in
  Ok (r.1.1, Shell r.1.2 r.2 (final_path s) (cwd_cache s) (log s)).

(** [strchr(each_cmd, '|')], [*pipe_symbol = 0] *)
Definition cut_bar (start : Z) (s : shell) : res (option (Z * shell)) :=
  let? p := strchr (Some (drop (Z.to_nat start) (sline s))) bar in
  match p with
  | None => Ok None
  | Some off =>
      let? b := wr (sline s) (start + off) 0 in
      Ok (Some (start + off + 1, Shell b (sargv s) (final_path s) (cwd_cache s) (log s)))
  end.

(** [cmd_parse] and [cmd_execute], as all three parts of a pipeline do. *)
Definition run_at (y : answers) (start : Z) (s : shell) : res (option shell) :=
  let? r := parse start s in cmd_execute y r.2.

(** The commands between the first and the last; every turn uses up an answer. *)
Fixpoint middle (ys : list answers) (each_cmd : Z) (s : shell) : res (option (Z * shell * list answers)) :=
  let? c := cut_bar each_cmd s in
  match c, ys with
  | None, _ => Ok (Some (each_cmd, s, ys))
  | Some _, [] => Block
  | Some (next, s'), y :: ys' =>
      let? r := run_at y each_cmd s' in
      match r with None => Ok None | Some s'' => middle ys' next s'' end
  end.

(** One turn of the loop of [my_shell] after [readline]; [fd] is what [pipe]
    stores, [ys] the answers of the commands in the order they run. *)
Definition my_shell_line (ys : list answers) (fd : Z * Z) (s : shell) : res (option shell) :=
  let? c0 := rd (sline s) 0 in
  if c0 =? 0 then Ok (Some s) else
  let? bar_at := strchr (Some (sline s)) bar in
  match bar_at with
  | Some _ =>
      let s := say [EPipe; ERedirect 1 fd.2] s in
      let? c := cut_bar 0 s in
      match c, ys with
      | Some (each_cmd, s), y :: ys =>
          let? r := run_at y 0 s in
          match r with
          | None => Ok None
          | Some s =>
              let s := say [ERedirect 0 fd.1] s in
              let? m := middle ys each_cmd s in
              match m with
              | Some (each_cmd, s, y :: _) =>
                  let s := say [ERedirect 1 1] s in
                  let? r := run_at y each_cmd s in
                  Ok (say [ERedirect 0 0; EClose fd.1; EClose fd.2] <$> r)
              | Some (_, _, []) => Block
              | None => Ok None
              end
          end
      | _, _ => Block
      end
  | None =>
      let? r := parse 0 s in
      if r.1 =? -1 then Ok (Some (say [ETooMany] r.2))
      else match ys with y :: _ => cmd_execute y r.2 | [] => Block end
  end.

End shell_ops.

(** ** What editing a line means *)

(** The line after a key. *)
Definition edit (line : list Z) (key : Z) : list Z :=
  if key =? bs then take (length line - 1) line
  else if key =? ctrl_l then line
  else if key =? ctrl_u then []
  else line ++ [key].

(** The part of the screen after the prompt. *)
Definition screen (scr : list Z) (e : event) : list Z :=
  match e with
  | EPutchar c => if c =? bs then take (length scr - 1) scr else scr ++ [c]
  | EClear | EPrompt => []
  | EPrint s => scr ++ s
  | _ => scr
  end.

Definition key_ok (c : Z) : Prop := is_char c ∧ c ≠ nl ∧ c ≠ cr.

(** The line never fills the buffer while the keys are typed. *)
Fixpoint fits (n : nat) (line keys : list Z) : bool :=
  (Z.of_nat (length line) <? Z.of_nat n) &&
  match keys with [] => true | k :: keys' => fits n (edit line k) keys' end.

(** The path a first word names: from the root when it starts with a slash,
    else from the directory [getcwd] reports. *)
Definition program_path (y : answers) (w : list Z) : list Z :=
  show (normalize (if bool_decide (head w = Some slash) then comps w else comps (text (cwd_ret y).1) ++ comps w)).

(** What the child forked for the words [ws] does: it looks the program up,
    and executes it with its path and the other words, or exits with -1. *)
Definition spawned (y : answers) (ws : list (list Z)) : list event :=
  let p := program_path y (default [] (head ws)) in
  if 0 <? fork_ret y then
    if stat_ret y =? -1 then [EStat p; ENoFile p; EExit (-1)] else [EStat p; EExec p (p :: tail ws)]
  else [].

(** What one command makes the shell and its child do. *)
Definition builtin_of (w : list Z) : option builtin := snd <$> (snd <$> list_find (λ e, e.1 = w) builtins).
Definition ran (y : answers) (ws : list (list Z)) : list event :=
  match builtin_of (default [] (head ws)) with
  | Some k => [EBuiltin k ws]
  | None => [EFork (spawned y ws); EWait; EChild (wait_ret y).1 (wait_ret y).2]
  end.

(** Answers that keep this process a shell. *)
Definition parent (y : answers) : Prop :=
  fork_ret y ≠ 0 ∧ (wait_ret y).1 ≠ -1 ∧
  match cd_ret y with None => True | Some fp => ∃ t, cstr fp t ∧ (length t < 512)%nat ∧ length fp = 512%nat end.

(** The child's [getcwd] answers, and the path of the program fits the buffers. *)
Definition reachable_program (y : answers) (w : list Z) : Prop :=
  ∃ cwd names, cwd_ret y = (cwd, true) ∧ length cwd = 512%nat ∧ cstr cwd (show names) ∧ Forall name_ok names ∧
    Forall name_ok (comps w) ∧ (length (show names) + length w + 3 < 512)%nat.

Definition served (y : answers) (c : list Z) : Prop :=
  parent y ∧ (builtin_of (default [] (head (words space c))) = None → reachable_program y (default [] (head (words space c)))).

(** A command of one to sixteen words. *)
Definition command (c : list Z) : Prop :=
  Forall is_char c ∧ (bar ∉ c) ∧ (1 ≤ length (words space c) ≤ 16)%nat.

(** A line of commands with bars between them. *)
Fixpoint pipeline (cs : list (list Z)) (c : list Z) : list Z :=
  match cs with [] => c | c0 :: cs' => c0 ++ bar :: pipeline cs' c end.

(** ** Lemmas *)

Section shell_lemmas.
Context {B : Build}.

(** The edited text is in the buffer, on the screen, and the cursor after it. *)
Record editing (n : nat) (line : list Z) (l : rline) : Prop := {
  ed_len : length (cmd_line l) = n;
  ed_text : take (length line) (cmd_line l) = line;
  ed_pos : pos l = Z.of_nat (length line);
  ed_shown : fold_left screen (shown l) [] = line;
  ed_chars : Forall (λ c, is_char c ∧ c ≠ bs) line;
}.

Lemma text_app s r : Forall is_char s → text (s ++ 0 :: r) = s.
Proof.
  induction 1 as [|c s Hc _ IH]; simpl; [done|]. unfold is_char in Hc. rewrite (proj2 (Z.eqb_neq c 0)) by lia. by rewrite IH.
Qed.

Lemma store_at (b line : list Z) (c : Z) :
  take (length line) b = line → (length line < length b)%nat →
  <[length line := c]> b = line ++ c :: drop (S (length line)) b.
Proof.
  intros E H. rewrite insert_take_drop by done. by rewrite E.
Qed.

Lemma erase_loop_run n l :
  (n ≤ length (cmd_line l))%nat → pos l = Z.of_nat n → (n < length (cmd_line l))%nat →
  ∃ b ev, erase_loop n l = Ok (RLine b 0 (shown l ++ ev)) ∧ length b = length (cmd_line l) ∧
    ev = replicate n (EPutchar bs).
Proof.
  revert l. induction n as [|n IH]; intros [b p s] Hn Hp Hl; simpl in *.
  - exists b, []. subst p. by rewrite app_nil_r.
  - rewrite wr_Ok by lia. cbn [rbind].
    destruct (IH (RLine (<[Z.to_nat p:=0]> b) (p - 1) (s ++ [EPutchar bs]))) as (b' & ev & -> & Hl' & ->); simpl; rewrite ?length_insert; try lia.
    simpl in *. rewrite length_insert in Hl'. exists b', (EPutchar bs :: replicate n (EPutchar bs)). rewrite <-app_assoc. done.
Qed.

Lemma screen_erase n scr : (length scr ≤ n)%nat → fold_left screen (replicate n (EPutchar bs)) scr = [].
Proof.
  revert scr. induction n as [|n IH]; intros scr H; simpl; [by destruct scr; [|simpl in *; lia]|].
  apply IH. change (bs =? bs) with true. simpl. rewrite length_take. lia.
Qed.

(** The buffer after a key is stored: the line, the key, the rest. *)
Lemma editing_store n line l c :
  editing n line l → (length line < n)%nat →
  ∃ r, wr (cmd_line l) (pos l) c = Ok (line ++ c :: r) ∧ length (line ++ c :: r) = n.
Proof.
  intros [Hl Ht Hp _ _] Hn. rewrite Hp, wr_Ok by lia. rewrite Nat2Z.id, store_at by (done || lia).
  eexists. split; [done|]. rewrite length_app. simpl. rewrite length_drop. lia.
Qed.

Lemma rd_mid {A} (p : list A) x r : rd (p ++ x :: r) (Z.of_nat (length p)) = Ok x.
Proof. apply rd_Some. rewrite lookup_app_r by done. by rewrite Nat.sub_diag. Qed.
Lemma wr_mid {A} (p : list A) x y r : wr (p ++ x :: r) (Z.of_nat (length p)) y = Ok (p ++ y :: r).
Proof. rewrite wr_Ok by (rewrite length_app; simpl; lia). rewrite Nat2Z.id, insert_app_r_alt by done. by rewrite Nat.sub_diag. Qed.

Lemma readline_key_edit n line l c r :
  editing n line l → (length line < n)%nat → key_ok c → length (line ++ c :: r) = n →
  ∃ l', readline_key (RLine (line ++ c :: r) (pos l) (shown l)) = Ok (false, l') ∧ editing n (edit line c) l'.
Proof.
  intros [Hl Ht Hp Hs Hc] Hn (Hch & Hnl & Hcr) Hlen. unfold readline_key, edit. cbn [cmd_line pos shown].
  rewrite Hp, rd_mid. cbn [rbind]. rewrite (proj2 (Z.eqb_neq c nl)), (proj2 (Z.eqb_neq c cr)) by done. cbn [orb].
  assert (Hci : Forall is_char line) by (eapply Forall_impl; [exact Hc|naive_solver]).
  destruct (Z.eqb_spec c bs) as [->|Hb].
  { destruct line as [|x line].
    - cbn [app]. rewrite rd_head. eexists. split; [done|]. by split.
    - cbn [app]. rewrite rd_head. cbn [rbind]. apply Forall_inv in Hc as Hx. rewrite (proj2 (Z.eqb_neq x bs)) by naive_solver. cbn [negb].
      set (ln := x :: line) in *. eexists. split; [done|]. assert (0 < length ln)%nat by (unfold ln; simpl; lia). split; cbn [cmd_line pos shown].
      + done.
      + change (x :: line ++ bs :: r) with (ln ++ bs :: r). rewrite length_take, take_app_le by lia. f_equal. lia.
      + rewrite length_take. lia.
      + rewrite fold_left_app, Hs. done.
      + by apply Forall_take. }
  destruct (Z.eqb_spec c ctrl_l) as [->|Hcl].
  { rewrite wr_mid. cbn [rbind]. eexists. split; [done|]. split; cbn [cmd_line pos shown].
    - rewrite !length_app in *. done.
    - by rewrite take_app_length.
    - done.
    - rewrite fold_left_app. simpl. by apply text_app.
    - done. }
  destruct (Z.eqb_spec c ctrl_u) as [->|Hcu].
  { rewrite Nat2Z.id. destruct (erase_loop_run (length line) (RLine (line ++ ctrl_u :: r) (Z.of_nat (length line)) (shown l))) as (b' & ev & -> & Hb' & ->); cbn [cmd_line pos shown] in *; try lia.
    cbn [rbind]. eexists. split; [done|]. split; cbn [cmd_line pos shown]; try done; [lia|].
    rewrite fold_left_app, Hs. by apply screen_erase. }
  eexists. split; [done|]. split; cbn [cmd_line pos shown].
  - done.
  - rewrite length_app, take_app_add. done.
  - rewrite length_app. simpl. lia.
  - rewrite fold_left_app, Hs. simpl. by rewrite (proj2 (Z.eqb_neq c bs)).
  - apply Forall_app. split; [done|]. by apply Forall_singleton.
Qed.

Lemma readline_loop_run keys enter rest n line l :
  editing n line l → Forall key_ok keys → fits n line keys = true → enter = nl ∨ enter = cr →
  ∃ l', readline_loop ((Some <$> keys) ++ Some enter :: rest) (Z.of_nat n) l = Ok l' ∧
    cstr (cmd_line l') (fold_left edit keys line) ∧ length (cmd_line l') = n ∧
    fold_left screen (shown l') [] = fold_left edit keys line ++ [nl].
Proof.
  intros He Hk. revert line l He. induction Hk as [|k keys Hk _ IH]; intros line l He Hf Hent;
    simpl in Hf; apply andb_true_iff in Hf as [Hf0 Hf]; apply Z.ltb_lt in Hf0; simpl.
  - destruct (editing_store n line l enter He) as (r & -> & Hlen); [lia|]. cbn [rbind]. destruct He as [Hl Ht Hp Hs Hc].
    rewrite Hp, (proj2 (Z.ltb_lt _ _)) by lia. unfold readline_key. cbn [cmd_line pos shown]. rewrite rd_mid. cbn [rbind].
    assert ((enter =? nl) || (enter =? cr) = true) as -> by (by destruct Hent as [-> | ->]). rewrite wr_mid. cbn [rbind fst snd].
    eexists. split; [done|]. cbn [cmd_line shown]. split; [split|split].
    + eapply Forall_impl; [exact Hc|naive_solver].
    + by exists r.
    + rewrite length_app in *. done.
    + rewrite fold_left_app, Hs. done.
  - destruct (editing_store n line l k He) as (r & -> & Hlen); [lia|]. cbn [rbind].
    rewrite (ed_pos _ _ _ He), (proj2 (Z.ltb_lt _ _)) by lia. rewrite <-(ed_pos _ _ _ He).
    destruct (readline_key_edit n line l k r) as (l' & -> & He'); try done; [lia|]. cbn [rbind fst snd]. by apply IH.
Qed.

(** A line that has filled the buffer: the next byte lands behind it. *)
Lemma readline_loop_full keys c rest l line :
  editing 512 line l → Forall key_ok keys → Forall (λ k, k ≠ bs ∧ k ≠ ctrl_l ∧ k ≠ ctrl_u) keys →
  (length line + length keys = 512)%nat →
  readline_loop ((Some <$> keys) ++ Some c :: rest) 512 l = Fault.
Proof.
  intros He Hk. revert line l He. induction Hk as [|k keys Hk _ IH]; intros line l He Hp Hl; simpl.
  - destruct He as [Hcl _ Hpos _ _]. unfold wr. rewrite Hcl, Hpos. simpl in Hl. rewrite Nat.add_0_r in Hl. rewrite Hl. done.
  - apply Forall_cons in Hp as [(H1 & H2 & H3) Hp]. simpl in Hl.
    destruct (editing_store 512 line l k He) as (r & -> & Hlen); [lia|]. cbn [rbind].
    rewrite (ed_pos _ _ _ He), (proj2 (Z.ltb_lt _ _)) by lia. rewrite <-(ed_pos _ _ _ He).
    destruct (readline_key_edit 512 line l k r) as (l' & -> & He'); try done; [lia|]. cbn [rbind fst snd].
    apply (IH (edit line k)); try done. unfold edit. rewrite (proj2 (Z.eqb_neq k bs)), (proj2 (Z.eqb_neq k ctrl_l)), (proj2 (Z.eqb_neq k ctrl_u)) by done.
    rewrite length_app. simpl. lia.
Qed.

(** *** Words of a command *)

Lemma skip_while_run f w c r next :
  Forall (λ x, f x = true) w → f c = false → skip_while f (w ++ c :: r) next = Ok (next + Z.of_nat (length w)).
Proof.
  intros Hw Hc. revert next. induction Hw as [|x w Hx _ IH]; intros next; simpl.
  - rewrite Hc. f_equal. lia.
  - rewrite Hx, IH. f_equal. lia.
Qed.

Lemma clear_argv_run argv : length argv = 16%nat → clear_argv (Z.to_nat MAX_ARG_NR) 0 argv = Ok (replicate 16 None).
Proof. intros H. do 16 (destruct argv as [|? argv]; [done|]). by destruct argv. Qed.

Lemma drop_at {A} (p q : list A) : drop (Z.to_nat (Z.of_nat (length p))) (p ++ q) = q.
Proof. by rewrite Nat2Z.id, drop_app_length. Qed.

(** One turn of the outer loop on separators, a word and what follows. *)
Lemma parse_loop_turn fuel token pre j w e r argv argc :
  token ≠ 0 → Forall is_char w → w ≠ [] → token ∉ w → (e = token ∨ e = 0) → 0 ≤ argc ≤ 16 →
  parse_loop (S fuel) token (pre ++ replicate j token ++ w ++ e :: r) argv (Z.of_nat (length pre)) argc =
    let off := Z.of_nat (length (pre ++ replicate j token)) in
    let? argv' := wr argv argc (Some off) in
    if e =? 0
    then parse_loop fuel token (pre ++ replicate j token ++ w ++ e :: r) argv' (off + Z.of_nat (length w)) (argc + 1)
    else parse_loop fuel token (pre ++ replicate j token ++ w ++ 0 :: r) argv' (off + Z.of_nat (length w) + 1) (argc + 1).
Proof.
  intros Ht Hw Hne Hs He Hargc. destruct w as [|c w]; [done|]. clear Hne.
  apply not_elem_of_cons in Hs as [Hct Hs]. apply Forall_cons in Hw as [Hc Hw]. unfold is_char in Hc.
  set (b := pre ++ replicate j token ++ (c :: w) ++ e :: r).
  assert (∃ x q, replicate j token ++ (c :: w) ++ e :: r = x :: q ∧ x ≠ 0) as (x & q & Ex & Hx).
  { destruct j; simpl; eexists _, _; (split; [done|]); [lia|done]. }
  assert (Hb0 : rd b (Z.of_nat (length pre)) = Ok x) by (unfold b; rewrite Ex; apply rd_mid).
  assert (Hb1 : rd b (Z.of_nat (length (pre ++ replicate j token))) = Ok c)
    by (unfold b; rewrite app_assoc; apply (rd_mid _ c (w ++ e :: r))).
  assert (Hb2 : ∀ e, rd (pre ++ replicate j token ++ (c :: w) ++ e :: r) (Z.of_nat (length (pre ++ replicate j token)) + Z.of_nat (length (c :: w))) = Ok e).
  { intros e'. rewrite <-Nat2Z.inj_add, <-length_app, !app_assoc. rewrite <-(app_assoc pre). apply rd_mid. }
  cbn [parse_loop]. rewrite Hb0. cbn [rbind]. rewrite (proj2 (Z.eqb_neq x 0)) by done.
  unfold b at 1. rewrite drop_at. change ((c :: w) ++ e :: r) with (c :: (w ++ e :: r)).
  rewrite skip_while_run by (first [apply Z.eqb_neq; done | apply Forall_replicate, Z.eqb_refl]). cbn [rbind].
  rewrite <-Nat2Z.inj_add, <-length_app, Hb1. cbn [rbind]. rewrite (proj2 (Z.eqb_neq c 0)) by lia.
  cbv zeta. destruct (wr argv argc _) as [argv'| | | |]; try done. cbn [rbind].
  unfold b at 1. rewrite app_assoc, drop_at.
  rewrite skip_while_run; [..|destruct He as [-> | ->]; [by rewrite Z.eqb_refl, andb_false_r|done]].
  2:{ apply Forall_forall. intros y Hy. assert (is_char y ∧ y ≠ token) as [Hy1 Hy2].
      { apply elem_of_cons in Hy as [->|Hy]; [split; [done|congruence]|]. rewrite Forall_forall in Hw. split; [by apply Hw|set_solver]. }
      unfold is_char in Hy1. rewrite (proj2 (Z.eqb_neq y 0)), (proj2 (Z.eqb_neq y token)) by (done || lia). done. }
  cbn [rbind]. unfold b at 1. rewrite Hb2. cbn [rbind].
  assert (Hw0 : wr b (Z.of_nat (length (pre ++ replicate j token)) + Z.of_nat (length (c :: w))) 0 =
    Ok (pre ++ replicate j token ++ (c :: w) ++ 0 :: r)).
  { unfold b. rewrite <-Nat2Z.inj_add, <-length_app, !app_assoc. rewrite <-(app_assoc pre). apply wr_mid. }
  rewrite s32_small by lia. assert ((MAX_ARG_NR <? argc) = false) as -> by (apply Z.ltb_ge; unfold MAX_ARG_NR; lia).
  destruct (Z.eqb_spec e 0) as [->|He0]; cbn [negb rbind fst snd]; [done|]. rewrite Hw0. done.
Qed.

(** What [cmd_parse] makes of the buffer: what surrounds the command is left,
    the offsets point at the words. *)
Definition parsed (pre t : list Z) (r b' : list Z) (offs : list Z) (ws : list (list Z)) : Prop :=
  (∃ t', b' = pre ++ t' ++ 0 :: r ∧ length t' = length t) ∧
  Forall2 (λ off w, 0 ≤ off ∧ cstr (drop (Z.to_nat off) b') w) offs ws.

Lemma str_at pre w r : Forall is_char w → cstr (drop (Z.to_nat (Z.of_nat (length pre))) (pre ++ w ++ 0 :: r)) w.
Proof. intros H. rewrite drop_at. split; [done|]. by exists r. Qed.

Lemma parse_loop_end fuel token pre j r argv argc :
  token ≠ 0 → parse_loop (S fuel) token (pre ++ replicate j token ++ 0 :: r) argv (Z.of_nat (length pre)) argc
    = Ok (argc, pre ++ replicate j token ++ 0 :: r, argv).
Proof.
  intros Ht. cbn [parse_loop]. destruct j as [|j].
  - simpl. rewrite rd_mid. done.
  - assert (rd (pre ++ replicate (S j) token ++ 0 :: r) (Z.of_nat (length pre)) = Ok token) as -> by (simpl; apply rd_mid).
    cbn [rbind]. rewrite (proj2 (Z.eqb_neq token 0)) by done. rewrite drop_at.
    rewrite skip_while_run by (first [apply Forall_replicate, Z.eqb_refl | apply Z.eqb_neq; congruence]). cbn [rbind].
    rewrite <-Nat2Z.inj_add, <-length_app, app_assoc, rd_mid. done.
Qed.

Lemma argv_fill (argv : list (option Z)) k off offs :
  (k < length argv)%nat →
  take (S k) (<[k := Some off]> argv) ++ (Some <$> offs) ++ drop (S k + length offs) (<[k := Some off]> argv) =
  take k argv ++ (Some <$> off :: offs) ++ drop (k + length (off :: offs)) argv.
Proof.
  intros H. rewrite (take_S_r _ _ (Some off)) by (by apply list_lookup_insert_eq). rewrite take_insert_ge by lia.
  rewrite <-app_assoc, drop_insert_lt by lia. simpl. rewrite Nat.add_succ_r. done.
Qed.

Lemma parse_loop_spec n fuel token pre t r argv k :
  (length t < n)%nat → (n ≤ fuel)%nat → token ≠ 0 → Forall is_char t → length argv = 16%nat →
  (k + length (words token t) ≤ 16)%nat →
  ∃ b' offs, parse_loop fuel token (pre ++ t ++ 0 :: r) argv (Z.of_nat (length pre)) (Z.of_nat k)
      = Ok (Z.of_nat (k + length (words token t)), b', take k argv ++ (Some <$> offs) ++ drop (k + length offs) argv) ∧
    parsed pre t r b' offs (words token t).
Proof.
  intros Hn Hf Ht Hc. revert fuel pre t argv k Hn Hf Hc. induction n as [|n IH]; intros fuel pre t argv k Hn Hf Hc Ha Hk; [lia|].
  destruct fuel as [|fuel]; [lia|]. destruct (words_shape token t) as (j & w & rest & -> & Hw & Hr & He).
  rewrite words_cons in Hk |- * by done. apply Forall_app in Hc as [_ [Hcw Hcr]%Forall_app]. rewrite !length_app, length_replicate in Hn.
  case_bool_decide as Ew.
  - rewrite (He Ew), Ew, !app_nil_r. exists (pre ++ replicate j token ++ 0 :: r), [].
    rewrite parse_loop_end by done. simpl. rewrite Nat.add_0_r, take_drop. split; [done|].
    split; [|constructor]. exists (replicate j token). done.
  - assert (0 < length w)%nat by (destruct w; simpl; [done|lia]). simpl in Hk. rewrite <-!app_assoc.
    set (off := Z.of_nat (length (pre ++ replicate j token))).
    destruct Hr as [->|[q ->]].
    + change ([] ++ 0 :: r) with (0 :: r). rewrite parse_loop_turn by (done || lia || auto). cbv zeta. fold off.
      rewrite wr_Ok by lia. cbn [rbind]. change (0 =? 0) with true. cbv iota. rewrite Nat2Z.id.
      destruct fuel as [|fuel]; [lia|]. unfold off at 2. rewrite <-Nat2Z.inj_add, <-length_app.
      replace (pre ++ replicate j token ++ w ++ 0 :: r) with ((((pre ++ replicate j token) ++ w) ++ replicate 0 token ++ 0 :: r)) by (by rewrite <-!app_assoc).
      rewrite parse_loop_end by done. eexists _, [off]. split.
      * rewrite <-argv_fill by lia. do 3 f_equal; [simpl; lia|]. simpl app. rewrite Nat.add_0_r. by rewrite take_drop.
      * simpl. split; [exists (replicate j token ++ w); rewrite <-!app_assoc; split; [done|rewrite !length_app; simpl; lia]|].
        constructor; [|constructor]. split; [lia|]. rewrite <-!app_assoc. rewrite app_assoc. by apply str_at.
    + apply Forall_cons in Hcr as [_ Hcr]. change ((token :: q) ++ 0 :: r) with (token :: q ++ 0 :: r).
      rewrite parse_loop_turn by (done || lia || auto). cbv zeta. fold off.
      rewrite wr_Ok by lia. cbn [rbind]. rewrite (proj2 (Z.eqb_neq token 0)) by done. rewrite Nat2Z.id.
      set (pre' := pre ++ replicate j token ++ w ++ [0]).
      replace (off + Z.of_nat (length w) + 1) with (Z.of_nat (length pre'))
        by (unfold off, pre'; rewrite !length_app; simpl; lia).
      replace (pre ++ replicate j token ++ w ++ 0 :: q ++ 0 :: r) with (pre' ++ q ++ 0 :: r)
        by (unfold pre'; rewrite <-!app_assoc; done).
      replace (Z.of_nat k + 1) with (Z.of_nat (S k)) by lia.
      assert (Hwq : words token (token :: q) = words token q) by (apply (words_seps token 1 q)). rewrite Hwq in Hk |- *.
      destruct (IH fuel pre' q (<[k := Some off]> argv) (S k)) as (b' & offs & E & (t' & -> & Hlt) & Hoffs); try done; try (simpl in Hn; lia).
      { rewrite length_insert. done. }
      exists (pre' ++ t' ++ 0 :: r), (off :: offs). rewrite E. split.
      * rewrite argv_fill by lia. do 3 f_equal. simpl. lia.
      * split.
        -- exists (replicate j token ++ w ++ 0 :: t'). unfold pre'. rewrite <-!app_assoc. split; [done|].
           rewrite !length_app. simpl. by rewrite Hlt.
        -- constructor; [|done]. split; [lia|]. unfold pre'. rewrite <-!app_assoc, app_assoc. simpl. by apply str_at.
Qed.

(** More than 16 words: the seventeenth pointer is stored behind [argv]. *)
Lemma parse_loop_overrun n fuel token pre t r argv k :
  (length t < n)%nat → (n ≤ fuel)%nat → token ≠ 0 → Forall is_char t → length argv = 16%nat → (k ≤ 16)%nat →
  (16 < k + length (words token t))%nat →
  parse_loop fuel token (pre ++ t ++ 0 :: r) argv (Z.of_nat (length pre)) (Z.of_nat k) = Fault.
Proof.
  intros Hn Hf Ht Hc. revert fuel pre t argv k Hn Hf Hc. induction n as [|n IH]; intros fuel pre t argv k Hn Hf Hc Ha Hk1 Hk; [lia|].
  destruct fuel as [|fuel]; [lia|]. destruct (words_shape token t) as (j & w & rest & -> & Hw & Hr & He).
  rewrite words_cons in Hk by done. apply Forall_app in Hc as [_ [Hcw Hcr]%Forall_app]. rewrite !length_app, length_replicate in Hn.
  case_bool_decide as Ew; [simpl in Hk; lia|]. assert (0 < length w)%nat by (destruct w; simpl; [done|lia]). simpl in Hk.
  set (off := Z.of_nat (length (pre ++ replicate j token))). rewrite <-!app_assoc.
  destruct (decide (k = 16%nat)) as [->|Hne].
  { assert (Hwr : ∀ x, wr argv (Z.of_nat 16) x = Fault).
    { intros x. unfold wr. rewrite Ha. done. }
    destruct Hr as [->|[q ->]]; cbn [app]; rewrite parse_loop_turn by (done || lia || auto); cbv zeta; by rewrite Hwr. }
  destruct Hr as [->|[q ->]].
  { cbn in Hk. lia. }
  apply Forall_cons in Hcr as [_ Hcr]. change ((token :: q) ++ 0 :: r) with (token :: q ++ 0 :: r).
  rewrite parse_loop_turn by (done || lia || auto). cbv zeta. fold off.
  rewrite wr_Ok by lia. cbn [rbind]. rewrite (proj2 (Z.eqb_neq token 0)) by done. rewrite Nat2Z.id.
  set (pre' := pre ++ replicate j token ++ w ++ [0]).
  replace (off + Z.of_nat (length w) + 1) with (Z.of_nat (length pre'))
    by (unfold off, pre'; rewrite !length_app; simpl; lia).
  replace (pre ++ replicate j token ++ w ++ 0 :: q ++ 0 :: r) with (pre' ++ q ++ 0 :: r)
    by (unfold pre'; rewrite <-!app_assoc; done).
  replace (Z.of_nat k + 1) with (Z.of_nat (S k)) by lia.
  assert (Hwq : words token (token :: q) = words token q) by (apply (words_seps token 1 q)). rewrite Hwq in Hk.
  apply IH; try done; try (simpl in Hn; lia). by rewrite length_insert.
Qed.

(** *** Running commands *)

Lemma dispatch_run tbl name w :
  cstr name w → Forall (λ e, Forall is_char e.1) tbl →
  dispatch tbl (Some name) = Ok (snd <$> (snd <$> list_find (λ e, e.1 = w) tbl)).
Proof.
  intros Hw. induction 1 as [|[lit k] tbl Hl _ IH]; simpl; [done|]. simpl in Hl.
  destruct (strcmp_cstr (lit ++ [0]) name lit w) as (c & -> & Hc); [split; [done|by exists []]|done|]. cbn [rbind].
  destruct (Z.eqb_spec c 0) as [E|E].
  - rewrite decide_True by (by apply Hc). done.
  - rewrite decide_False by naive_solver. rewrite IH. do 2 f_equal. by destruct (list_find _ tbl) as [[? []]|].
Qed.

Lemma builtins_chars : Forall (λ e : list Z * builtin, Forall is_char e.1) builtins.
Proof. by_decide. Qed.

Lemma argtexts_run b offs ws k :
  Forall2 (λ off w, 0 ≤ off ∧ cstr (drop (Z.to_nat off) b) w) offs ws →
  argtexts b ((Some <$> offs) ++ replicate k None) = ws.
Proof.
  induction 1 as [|off w offs ws (_ & Hc & rest & Er) _ IH]; [by destruct k|].
  change (text (drop (Z.to_nat off) b) :: argtexts b ((Some <$> offs) ++ replicate k None) = w :: ws). rewrite IH, Er. f_equal. by apply text_app.
Qed.

(** The shell between two commands. *)
Definition ready (s : shell) : Prop :=
  length (sargv s) = 16%nat ∧ length (cwd_cache s) = 512%nat ∧ length (final_path s) = 512%nat.

Lemma comps_show names : Forall name_ok names → comps (show names) = names.
Proof.
  intros Hn. unfold show. case_bool_decide as E; [by subst|]. rewrite <-(app_nil_r (joined names)), comps_joined by auto. by rewrite app_nil_r.
Qed.

Lemma text_cstr b t : cstr b t → text b = t.
Proof. intros [Ht [r ->]]. by apply text_app. Qed.

(** The child stats and executes the path its first word names. *)
Lemma cmd_child_run y b w ws s :
  cstr b w → reachable_program y w → length (final_path s) = 512%nat → 0 < fork_ret y →
  ∃ s', cmd_child y (Some b) (w :: ws) s = Ok (spawned y (w :: ws), s').
Proof.
  intros Hb (cwd & names & Ey & Hl & Hcwd & Hn & Hw & Hlen) Hf Hp. unfold cmd_child. rewrite Ey, mem_Some.
  destruct (make_clear_abs_path_resolves cwd names w b (final_path s) Hb Hw Hl Hcwd Hn) as (f & -> & _ & Hfp); [lia|lia|].
  cbn [rbind]. unfold spawned, program_path. cbn [head default]. rewrite (proj2 (Z.ltb_lt _ _)), Ey by done. cbn [fst].
  rewrite (text_cstr _ _ Hcwd), comps_show, (text_cstr _ _ Hfp) by done. destruct (stat_ret y =? -1); eauto.
Qed.

Lemma strcpy_cwd c fp t :
  length c = 512%nat → cstr fp t → (length t < 512)%nat →
  ∃ c', (let? c := memset (Some c) 0 MAX_PATH_LEN in strcpy (Some c) (Some fp)) = Ok c' ∧ length c' = 512%nat.
Proof.
  intros Hc [Ht [r ->]] Hl. unfold memset. rewrite ASSERT_true by done. cbn [rbind]. rewrite mem_Some, set_loop_run by (rewrite Hc; vm_compute; lia).
  rewrite drop_ge, app_nil_r by (rewrite Hc; vm_compute; lia). cbn [rbind]. unfold strcpy. rewrite ASSERT_true by done. cbn [rbind]. rewrite !mem_Some.
  set (z := replicate _ _). assert (Hz : length z = 512%nat) by done. clearbody z.
  rewrite strcpy_loop_run, decide_True by (done || lia).
  eexists. split; [done|]. rewrite length_app. simpl length. rewrite length_drop. lia.
Qed.

Lemma run_at_spec y pre c r s :
  sline s = pre ++ c ++ 0 :: r → command c → served y c → ready s →
  ∃ s', run_at y (Z.of_nat (length pre)) s = Ok (Some s') ∧ ready s' ∧ log s' = log s ++ ran y (words space c) ∧
    ∃ t', sline s' = pre ++ t' ++ 0 :: r ∧ length t' = length c.
Proof.
  intros Hs (Hc & _ & Hw1 & Hw2) ((Hfork & Hwait & Hcd) & Hprog) (Ha & Hcwd & Hfp). unfold run_at, parse, cmd_parse.
  rewrite clear_argv_run by done. cbn [rbind]. rewrite Hs.
  destruct (parse_loop_spec (S (length c)) (S (length (pre ++ c ++ 0 :: r))) space pre c r (replicate 16 None) 0)
    as (b' & offs & E & (t' & Eb & Hlt) & Hoffs); try done; try (rewrite ?length_app; simpl; lia).
  change (Z.of_nat 0) with 0 in E. rewrite E. cbn [rbind fst snd]. clear E.
  rewrite Nat.add_0_l, drop_replicate, take_0. cbn [app]. set (ws := words space c) in *.
  set (argv' := (Some <$> offs) ++ replicate (16 - length offs) None).
  assert (Hargv : length argv' = 16%nat).
  { unfold argv'. rewrite length_app, length_fmap, length_replicate. apply Forall2_length in Hoffs. lia. }
  assert (Hts : argtexts b' argv' = ws) by (by apply argtexts_run).
  destruct Hoffs as [|off w offs ws' [Hoff Hw] Hoffs]; [simpl in Hw1; lia|].
  unfold cmd_execute, argptr. cbn [sargv sline]. change (rd argv' 0) with (Ok (Some off)). cbn [rbind fmap option_fmap option_map].
  rewrite (dispatch_run _ _ w) by (done || apply builtins_chars). cbn [rbind]. fold (builtin_of w).
  assert (Hran : ran y (w :: ws') = match builtin_of w with Some k => [EBuiltin k (w :: ws')] | None => [EFork (spawned y (w :: ws')); EWait; EChild (wait_ret y).1 (wait_ret y).2] end) by done.
  rewrite Hran, Hts. clear Hran. destruct (builtin_of w) as [[]|] eqn:Ek.
  2:{ cbn [say log cwd_cache sline sargv]. destruct (cd_ret y) as [fp|].
      - destruct Hcd as (t & Ht & Htl & Hfl). destruct (strcpy_cwd _ fp t Hcwd Ht Htl) as (c' & Ec & Hc').
        apply rbind_Ok_inv in Ec as (c1 & E1 & E2). rewrite E1. cbn [rbind]. rewrite E2. cbn [rbind].
        eexists. split; [done|]. split; [done|]. split; [done|]. exists t'. done.
      - eexists. split; [done|]. split; [done|]. split; [done|]. exists t'. done. }
  9:{ cbv zeta. rewrite (proj2 (Z.eqb_neq (fork_ret y) 0)) by done. set (s1 := Shell b' argv' _ _ _).
      destruct (Z.ltb_spec 0 (fork_ret y)) as [Hpos|Hneg].
      - destruct (cmd_child_run y (drop (Z.to_nat off) b') w ws' s1) as (sc & ->); [done|by apply Hprog|done|done|].
        cbn [rbind fst]. rewrite (proj2 (Z.eqb_neq _ _)) by done. eexists. split; [done|]. split; [done|]. split; [done|exists t'; done].
      - cbn [rbind]. rewrite (proj2 (Z.eqb_neq _ _)) by done. eexists. split; [done|]. split; [done|]. split; [|exists t'; done].
        unfold spawned. by rewrite (proj2 (Z.ltb_ge _ _)). }
  all: eexists; (split; [done|]); (split; [done|]); (split; [done|]); exists t'; done.
Qed.

Lemma cut_bar_none pre c r s :
  sline s = pre ++ c ++ 0 :: r → Forall is_char c → bar ∉ c → cut_bar (Z.of_nat (length pre)) s = Ok None.
Proof.
  intros Hs Hc Hb. unfold cut_bar, strchr. rewrite ASSERT_true by done. cbn [rbind]. rewrite mem_Some, Hs, drop_at.
  change (u8 bar) with bar. rewrite strchr_loop_low by (done || (unfold bar; lia)). unfold first_index.
  assert (list_find (λ x, x = bar) c = None) as ->; [|done].
  apply list_find_None. apply Forall_forall. intros x Hx ->. done.
Qed.

Lemma first_bar c q : bar ∉ c → first_index (c ++ bar :: q) bar = Some (Z.of_nat (length c)).
Proof.
  intros Hb. unfold first_index. rewrite list_find_app_r.
  - by change (list_find (λ c, c = bar) (bar :: q)) with (Some (O, bar)).
  - apply list_find_None. apply Forall_forall. intros x Hx ->. done.
Qed.

Lemma cut_bar_some pre c q r s :
  sline s = pre ++ (c ++ bar :: q) ++ 0 :: r → Forall is_char c → Forall is_char q → bar ∉ c →
  cut_bar (Z.of_nat (length pre)) s = Ok (Some (Z.of_nat (length (pre ++ c ++ [0])),
    Shell (pre ++ c ++ 0 :: q ++ 0 :: r) (sargv s) (final_path s) (cwd_cache s) (log s))).
Proof.
  intros Hs Hc Hq Hb. unfold cut_bar, strchr. rewrite ASSERT_true by done. cbn [rbind]. rewrite mem_Some, Hs, drop_at.
  change (u8 bar) with bar. rewrite strchr_loop_low; [|apply Forall_app; split; [done|constructor; [unfold is_char, bar; lia|done]]|unfold bar; lia].
  rewrite first_bar by done. cbn [fmap option_fmap option_map rbind].
  replace (Z.of_nat (length pre) + (0 + Z.of_nat (length c))) with (Z.of_nat (length (pre ++ c))) by (rewrite length_app; lia).
  rewrite <-app_assoc, app_assoc. cbn [app]. rewrite wr_mid. cbn [rbind]. rewrite <-app_assoc. do 3 f_equal. rewrite !length_app. simpl. lia.
Qed.

Lemma pipeline_chars cs c : Forall command cs → command c → Forall is_char (pipeline cs c).
Proof.
  intros Hcs Hc. induction Hcs as [|c0 cs H0 _ IH]; simpl; [apply Hc|].
  apply Forall_app. split; [apply H0|]. constructor; [unfold is_char, bar; lia|done].
Qed.

Definition rans (ys : list answers) (cs : list (list Z)) : list event :=
  concat (zip_with (λ y c, ran y (words space c)) ys cs).

(** A stretch of commands, each followed by a bar. *)
Lemma middle_spec ys ys' cs c pre r s :
  sline s = pre ++ pipeline cs c ++ 0 :: r → Forall command cs → command c → Forall2 served ys cs → ready s →
  ∃ pre' s', middle (ys ++ ys') (Z.of_nat (length pre)) s = Ok (Some (Z.of_nat (length pre'), s', ys')) ∧
    sline s' = pre' ++ c ++ 0 :: r ∧ ready s' ∧ log s' = log s ++ rans ys cs.
Proof.
  intros Hs Hcs Hc. revert ys pre s Hs. induction Hcs as [|c0 cs H0 Hcs IH]; intros ys pre s Hs Hys Hr.
  - apply Forall2_nil_inv_r in Hys as ->. exists pre, s. cbn [app]. destruct ys' as [|y ys']; cbn [middle];
      rewrite (cut_bar_none pre c r) by (done || apply Hc); (split; [done|]); split_and!; try done; by rewrite app_nil_r.
  - apply Forall2_cons_inv_r in Hys as (y & ys0 & Hy & Hys & ->). rename ys0 into ys. simpl pipeline in Hs.
    pose proof H0 as (H0c & H0b & _). cbn [app middle]. rewrite (cut_bar_some pre c0 (pipeline cs c) r) by (done || by apply pipeline_chars). cbn [rbind].
    set (s1 := Shell _ _ _ _ _).
    destruct (run_at_spec y pre c0 (pipeline cs c ++ 0 :: r) s1) as (s2 & E & Hr2 & Hlog & t' & Ht' & Htl); try done.
    rewrite E. cbn [rbind].
    replace (Z.of_nat (length (pre ++ c0 ++ [0]))) with (Z.of_nat (length (pre ++ t' ++ [0]))) by (rewrite !length_app, Htl; done).
    destruct (IH ys (pre ++ t' ++ [0]) s2) as (pre' & s3 & E3 & Hs3 & Hr3 & Hl3); try done.
    { rewrite Ht', <-!app_assoc. done. }
    exists pre', s3. split; [done|]. split_and!; try done. rewrite Hl3, Hlog, <-app_assoc. done.
Qed.

End shell_lemmas.

(** ** Theorems *)

Section shell_theorems.
Context {B : Build}.

(** [readline] is a line editor: for keys that keep the line shorter than
    the buffer, up to the first Enter, it terminates with [cmd_line] holding the
    edited line as a C string (backspace removes the last character and nothing
    at the start, ctrl+u empties the line, ctrl+l keeps it), and what the screen
    shows after the prompt is that line and a newline. *)
Theorem readline_edits keys enter rest line :
  Forall key_ok keys → fits 512 [] keys = true → enter = nl ∨ enter = cr → length line = 512%nat →
  ∃ l, readline ((Some <$> keys) ++ Some enter :: rest) line 512 = Ok l ∧
    cstr (cmd_line l) (fold_left edit keys []) ∧ length (cmd_line l) = 512%nat ∧
    fold_left screen (shown l) [] = fold_left edit keys [] ++ [nl].
Proof.
  intros Hk Hf He Hl. unfold readline. change (0 <? 512) with true. cbn [rbind].
  apply (readline_loop_run keys enter rest 512 [] (RLine line 0 [])); try done.
Qed.

(** The bound test of [readline] comes after the store: once 512 characters
    have been typed without Enter, the next key is written behind [cmd_line]. *)
Theorem readline_overflow keys c rest line :
  Forall key_ok keys → Forall (λ k, k ≠ bs ∧ k ≠ ctrl_l ∧ k ≠ ctrl_u) keys → length keys = 512%nat → length line = 512%nat →
  readline ((Some <$> keys) ++ Some c :: rest) line 512 = Fault.
Proof.
  intros Hk Hp Hl Hline. unfold readline. change (0 <? 512) with true. cbn [rbind].
  apply (readline_loop_full keys c rest (RLine line 0 []) []); done.
Qed.

(** [cmd_parse] returns the number of words between separators and makes
    [argv] point at them, in order, as C strings inside the line, with NULL
    behind the last one, for up to sixteen words; with more it stores the
    seventeenth pointer behind [argv], and its test of [argc] comes too late. *)
Theorem cmd_parse_words pre t r argv token :
  token ≠ 0 → Forall is_char t → length argv = 16%nat →
  if decide (length (words token t) ≤ 16)%nat then
    ∃ b' offs, cmd_parse (pre ++ t ++ 0 :: r) (Z.of_nat (length pre)) argv token
        = Ok (Z.of_nat (length (words token t)), b', (Some <$> offs) ++ replicate (16 - length offs) None) ∧
      Forall2 (λ off w, 0 ≤ off ∧ cstr (drop (Z.to_nat off) b') w) offs (words token t)
  else cmd_parse (pre ++ t ++ 0 :: r) (Z.of_nat (length pre)) argv token = Fault.
Proof.
  intros Ht Hc Ha. unfold cmd_parse. rewrite clear_argv_run by done. cbn [rbind]. rewrite !length_app. case_decide as Hw.
  - destruct (parse_loop_spec (S (length t)) (S (length pre + (length t + length (0 :: r)))) token pre t r (replicate 16 None) 0)
      as (b' & offs & E & _ & Hoffs); try done; try (simpl; lia).
    exists b', offs. change (Z.of_nat 0) with 0 in E. rewrite E, take_0, drop_replicate. done.
  - apply (parse_loop_overrun (S (length t)) _ token pre t r _ 0); try done; simpl; lia.
Qed.

(** C33: A line "c1|c2|...|cn" of two or more commands of one to sixteen words
    runs as a pipeline: the standard output goes to the pipe before the first
    command, the standard input comes from it before the second, every command
    runs once, in order, the output returns to the screen before the last one,
    and the input to the keyboard and both ends of the pipe are closed after it.
    A built-in command runs with its own words.  For any other the shell forks
    and waits, and the child stats the clean absolute path its first word names
    and, if the file is there, executes it with that path and the other words,
    and else exits with -1; when [fork] fails there is no child.  Assumed of the
    answers: this process is the parent of every [fork], no [wait] fails, the
    child's [getcwd] answers, and the program's path has names of at most 15
    characters and fits the buffer of 512 bytes. *)
Theorem pipeline_runs y ys yn rest c cs cn fd line s r :
  line = pipeline (c :: cs) cn → sline s = line ++ 0 :: r → Forall command (c :: cs) → command cn →
  served y c → Forall2 served ys cs → served yn cn → ready s →
  ∃ s', my_shell_line (y :: ys ++ yn :: rest) fd s = Ok (Some s') ∧
    log s' = log s ++ [EPipe; ERedirect 1 fd.2] ++ ran y (words space c) ++ [ERedirect 0 fd.1] ++ rans ys cs
      ++ [ERedirect 1 1] ++ ran yn (words space cn) ++ [ERedirect 0 0; EClose fd.1; EClose fd.2].
Proof.
  intros -> Hs [Hc Hcs]%Forall_cons Hcn Hy Hys Hyn Hr. pose proof Hc as (Hcc & Hcb & Hw & _).
  assert (Hch : Forall is_char (pipeline cs cn)) by (by apply pipeline_chars).
  unfold my_shell_line. simpl pipeline in Hs.
  assert (Hc0 : ∃ x q, sline s = x :: q ∧ x ≠ 0).
  { rewrite Hs. destruct c as [|x c]; [by vm_compute in Hw; lia|]. apply Forall_inv in Hcc. unfold is_char in Hcc.
    eexists _, _. split; [done|]. lia. }
  destruct Hc0 as (x & q & Ex & Hx). assert (rd (sline s) 0 = Ok x) as -> by (by rewrite Ex). cbn [rbind]. rewrite (proj2 (Z.eqb_neq x 0)) by done.
  assert (strchr (Some (sline s)) bar = Ok (Some (0 + Z.of_nat (length c)))) as ->.
  { unfold strchr. rewrite ASSERT_true by done. cbn [rbind]. rewrite mem_Some, Hs. change (u8 bar) with bar.
    rewrite strchr_loop_low; [|apply Forall_app; split; [done|constructor; [unfold is_char, bar; lia|done]]|unfold bar; lia].
    by rewrite first_bar. }
  cbn [rbind].
  set (s1 := say _ s). pose proof (cut_bar_some [] c (pipeline cs cn) r s1 Hs Hcc Hch Hcb) as E1. change (Z.of_nat (length [])) with 0 in E1.
  rewrite E1. cbn [rbind]. set (s2 := Shell _ _ _ _ _).
  destruct (run_at_spec y [] c (pipeline cs cn ++ 0 :: r) s2) as (s3 & E3 & Hr3 & Hl3 & t' & Ht' & Htl); try done.
  change (Z.of_nat (length [])) with 0 in E3. rewrite E3. cbn [rbind].
  set (s4 := say _ s3). change (length ([] ++ c ++ [0])) with (length (c ++ [0])).
  replace (length (c ++ [0])) with (length (t' ++ [0])) by (rewrite !length_app, Htl; done).
  destruct (middle_spec ys (yn :: rest) cs cn (t' ++ [0]) r s4) as (pre' & s5 & E5 & Hs5 & Hr5 & Hl5); try done.
  { unfold s4. cbn [say sline]. rewrite Ht', <-!app_assoc. done. }
  rewrite E5. cbn [rbind].
  destruct (run_at_spec yn pre' cn r (say [ERedirect 1 1] s5)) as (s6 & E6 & _ & Hl6 & _); try done.
  rewrite E6. cbn [rbind]. eexists. split; [done|]. cbn [say log]. rewrite Hl6. cbn [say log]. rewrite Hl5. unfold s4. cbn [say log].
  rewrite Hl3. unfold s2. cbn [log]. unfold s1. cbn [say log]. rewrite <-!app_assoc. done.
Qed.

End shell_theorems.

(** ** Witnesses *)

(** "ls", backspace, "s -l": the line "ls -l" *)
Definition typed : list Z := [108; 115; 8; 115; 32; 45; 108].

Lemma readline_edits_witness : ∃ l,
  readline ((Some <$> typed) ++ [Some nl]) (replicate 512 0) 512 = Ok l ∧ cstr (cmd_line l) [108; 115; 32; 45; 108].
Proof.
  destruct (readline_edits typed nl [] (replicate 512 0)) as (l & E & H & _).
  - by_decide.
  - reflexivity.
  - by left.
  - reflexivity.
  - exists l. split; [exact E|exact H].
Defined.

Lemma readline_overflow_witness :
  readline ((Some <$> replicate 512 97) ++ [Some nl]) (replicate 512 0) 512 = Fault.
Proof.
  apply (readline_overflow (replicate 512 97) nl [] (replicate 512 0)); [by_decide|by_decide|reflexivity|reflexivity].
Defined.

Lemma cmd_parse_words_witness : ∃ b' offs,
  cmd_parse ([] ++ [108; 115; 32; 32; 45; 108] ++ 0 :: []) 0 (replicate 16 None) space
    = Ok (2, b', (Some <$> offs) ++ replicate (16 - length offs) None).
Proof.
  pose proof (cmd_parse_words [] [108; 115; 32; 32; 45; 108] [] (replicate 16 None) space) as H.
  rewrite decide_True in H by (vm_compute; lia).
  destruct H as (b' & offs & E & _); [done|by_decide|reflexivity|]. exists b', offs. exact E.
Defined.

(** "ls|cat x|rm" run in "/ab" by a shell whose children have pid 5 *)
Definition five : answers := Answers 5 (5, 0) 0 false (cwd_ab, true) None.
Definition sh0 : shell :=
  Shell ([108; 115; 124; 99; 97; 116; 32; 120; 124; 114; 109] ++ [0]) (replicate 16 None) (replicate 512 0) (replicate 512 0) [].

Lemma pipeline_runs_witness : ∃ s',
  @my_shell_line debug_build [five; five; five] (3, 4) sh0 = Ok (Some s') ∧
  log s' = [EPipe; ERedirect 1 4; EBuiltin Ls [[108; 115]]; ERedirect 0 3;
            EFork [EStat [47; 97; 98; 47; 99; 97; 116]; EExec [47; 97; 98; 47; 99; 97; 116] [[47; 97; 98; 47; 99; 97; 116]; [120]]];
            EWait; EChild 5 0; ERedirect 1 1; EBuiltin Rm [[114; 109]]; ERedirect 0 0; EClose 3; EClose 4].
Proof.
  destruct (@pipeline_runs debug_build five [five] five [] [108; 115] [[99; 97; 116; 32; 120]] [114; 109] (3, 4) _ sh0 [] eq_refl eq_refl) as (s' & E & H).
  - unfold command. by_decide.
  - unfold command. by_decide.
  - done.
  - constructor; [|constructor]. split; [done|]. intros _. exists cwd_ab, [[97; 98]].
    split; [done|]. split; [done|]. split; [split; [by_decide|by exists (replicate 508 0)]|].
    split; [by_decide|]. split; [by_decide|]. vm_compute. lia.
  - done.
  - done.
  - exists s'. split; [exact E|exact H].
Defined.
