(* ===== verification/Disk.v ===== *)
(** * Sectors and bytes (the view of the disk the file system has)

    The drive as the file system uses it: 512-byte sectors by LBA, read and
    written in runs.  [Ide] shows that the driver ([device/ide.c]) implements
    [disk_read] and [disk_write].  The file also holds the layout of 32-bit
    words in memory and the replacement of a range of bytes in a buffer. *)

From S2P Require Import Prelude.

Definition SECTOR_SIZE : Z := 512.
Definition BLOCK_SIZE : Z := 512.
Definition BITS_PER_SECTOR : Z := 4096.
(** [(80*1024*1024/512) - 1] *)
Definition max_lba : Z := 163839.

(** A sector that was never written reads as zeroes. *)
Notation disk := (gmap Z (list Z)).
Definition sector (d : disk) (lba : Z) : list Z := default (replicate 512 0) (d !! lba).

Definition disk_read (d : disk) (lba : Z) (n : nat) : list Z := concat (sector d <$> seqZ lba (Z.of_nat n)).
Fixpoint disk_write (d : disk) (lba : Z) (bytes : list Z) (n : nat) : disk :=
  match n with
  | O => d
  | S n' => disk_write (<[lba := take 512 bytes]> d) (lba + 1) (drop 512 bytes) n'
  end.

(** Every sector holds 512 bytes. *)
Definition disk_ok (d : disk) : Prop := ∀ lba s, d !! lba = Some s → length s = 512%nat.

(** ** Bytes in a buffer *)

Definition splice (off : nat) (bytes buf : list Z) : list Z :=
  take off buf ++ bytes ++ drop (off + length bytes) buf.

(** A copy to [buf + off]; outside the buffer it is [Fault]. *)
Definition put_at (buf : list Z) (off : Z) (bytes : list Z) : res (list Z) :=
  if (0 <=? off) && (off + Z.of_nat (length bytes) <=? Z.of_nat (length buf))
  then Ok (splice (Z.to_nat off) bytes buf) else Fault.

(** [n] bytes at [buf + off] *)
Definition get_at (buf : list Z) (off n : Z) : res (list Z) :=
  if (0 <=? off) && (0 <=? n) && (off + n <=? Z.of_nat (length buf))
  then Ok (take (Z.to_nat n) (drop (Z.to_nat off) buf)) else Fault.

(** ** Little-endian words *)

Definition le32 (z : Z) : list Z := [z mod 256; z / 256 mod 256; z / 65536 mod 256; z / 16777216 mod 256].
Definition of_le32 (a b c d : Z) : Z := a + b * 256 + c * 65536 + d * 16777216.

Definition bytes_of (ws : list Z) : list Z := concat (le32 <$> ws).
Fixpoint words_of (bs : list Z) : list Z :=
  match bs with
  | a :: b :: c :: d :: bs' => of_le32 a b c d :: words_of bs'
  | _ => []
  end.

Definition is_u32 (z : Z) : Prop := 0 ≤ z < 4294967296.
#[global] Instance is_u32_dec z : Decision (is_u32 z).
Proof. unfold is_u32. apply _. Defined.

(** ** Lemmas *)

Lemma le32_length z : length (le32 z) = 4%nat.
Proof. done. Qed.

Lemma bytes_of_length ws : length (bytes_of ws) = (4 * length ws)%nat.
Proof. induction ws as [|w ws IH]; [done|]. change (bytes_of (w :: ws)) with (le32 w ++ bytes_of ws). rewrite length_app, IH. simpl. lia. Qed.

Lemma of_le32_le32 z : is_u32 z → of_le32 (z mod 256) (z / 256 mod 256) (z / 65536 mod 256) (z / 16777216 mod 256) = z.
Proof. unfold of_le32, is_u32. intros. zsolve. Qed.

Lemma words_of_bytes_of ws : Forall is_u32 ws → words_of (bytes_of ws) = ws.
Proof.
  induction 1 as [|w ws Hw _ IH]; [done|].
  change (of_le32 (w mod 256) (w / 256 mod 256) (w / 65536 mod 256) (w / 16777216 mod 256) :: words_of (bytes_of ws) = w :: ws).
  by rewrite IH, of_le32_le32.
Qed.

Lemma bytes_of_app ws vs : bytes_of (ws ++ vs) = bytes_of ws ++ bytes_of vs.
Proof. unfold bytes_of. by rewrite fmap_app, concat_app. Qed.

Lemma words_of_app_bytes ws bs : Forall is_u32 ws → words_of (bytes_of ws ++ bs) = ws ++ words_of bs.
Proof.
  induction 1 as [|w ws Hw _ IH]; [done|].
  change (of_le32 (w mod 256) (w / 256 mod 256) (w / 65536 mod 256) (w / 16777216 mod 256) :: words_of (bytes_of ws ++ bs) = w :: ws ++ words_of bs).
  by rewrite IH, of_le32_le32.
Qed.

Lemma words_of_length n bs : length bs = (4 * n)%nat → length (words_of bs) = n.
Proof.
  revert bs. induction n as [|n IH]; intros bs H; [by destruct bs|].
  destruct bs as [|a [|b [|c [|d bs]]]]; simpl in H; try lia. simpl. rewrite IH; lia.
Qed.

(** *** Replacing a range *)

Lemma splice_length off bytes buf :
  (off + length bytes ≤ length buf)%nat → length (splice off bytes buf) = length buf.
Proof. intros H. unfold splice. rewrite !length_app, length_take, length_drop. lia. Qed.

Lemma splice_read off bytes buf :
  (off + length bytes ≤ length buf)%nat → take (length bytes) (drop off (splice off bytes buf)) = bytes.
Proof.
  intros H. unfold splice. rewrite drop_app_length' by (rewrite length_take; lia). by rewrite take_app_length.
Qed.

(** A range on either side of the replaced one is unchanged. *)
Lemma splice_other off bytes buf o n :
  (off + length bytes ≤ length buf)%nat → (o + n ≤ off ∨ off + length bytes ≤ o)%nat →
  take n (drop o (splice off bytes buf)) = take n (drop o buf).
Proof.
  intros Hl [H|H]; unfold splice.
  - rewrite drop_app_le by (rewrite length_take; lia). rewrite take_app_le by (rewrite length_drop, length_take; lia).
    rewrite skipn_firstn_comm, take_take. f_equal. lia.
  - rewrite app_assoc, drop_app_ge by (rewrite length_app, length_take; lia).
    rewrite drop_drop, length_app, length_take. do 2 f_equal. lia.
Qed.

(** Replacing inside a window of the buffer. *)
Lemma splice_window off bytes buf o n :
  (o ≤ off)%nat → (off + length bytes ≤ o + n)%nat → (o + n ≤ length buf)%nat →
  splice o (splice (off - o) bytes (take n (drop o buf))) buf = splice off bytes buf.
Proof.
  intros H1 H2 H3. unfold splice.
  assert (Hl : length (take (off - o) (take n (drop o buf)) ++ bytes ++ drop (off - o + length bytes) (take n (drop o buf))) = n).
  { rewrite !length_app, !length_take, !length_drop, !length_take, !length_drop. lia. }
  rewrite Hl. rewrite take_take, (Nat.min_l (off - o) n) by lia. rewrite !skipn_firstn_comm, drop_drop.
  rewrite <-!app_assoc.
  replace (take off buf) with (take o buf ++ take (off - o) (drop o buf)).
  2:{ rewrite <-(take_drop o (take off buf)), take_take, Nat.min_l by lia. f_equal. rewrite skipn_firstn_comm. done. }
  rewrite <-app_assoc. do 3 f_equal.
  rewrite <-(take_drop (n - (off - o + length bytes)) (drop (off + length bytes) buf)). rewrite drop_drop.
  f_equal; [do 2 f_equal; lia|f_equal; lia].
Qed.

Lemma splice_nil off buf : splice off [] buf = buf.
Proof. unfold splice. cbn [app length]. by rewrite Nat.add_0_r, take_drop. Qed.

(** Two replacements side by side are one. *)
Lemma splice_adjacent off b1 b2 buf :
  (off + length b1 + length b2 ≤ length buf)%nat →
  splice (off + length b1) b2 (splice off b1 buf) = splice off (b1 ++ b2) buf.
Proof.
  intros H. unfold splice. rewrite length_app, !app_assoc. f_equal; [f_equal|].
  - by rewrite take_app_length' by (rewrite length_app, length_take; lia).
  - rewrite drop_app_ge by (rewrite length_app, length_take; lia). rewrite drop_drop. f_equal. rewrite length_app, length_take. lia.
Qed.

(** A changed element is copied over with the range around it. *)
Lemma splice_insert (l : list Z) o n j v :
  (o ≤ j < o + n)%nat → (o + n ≤ length l)%nat →
  splice o (take n (drop o (<[j := v]> l))) l = <[j := v]> l.
Proof.
  intros Hj Hn. unfold splice. rewrite length_take, length_drop, length_insert, Nat.min_l by lia.
  rewrite <-(take_insert_ge l o j v) by lia. rewrite <-(drop_insert_lt l (o + n) j v) by lia.
  rewrite <-drop_drop, !take_drop. done.
Qed.

Lemma put_at_Ok buf off bytes :
  0 ≤ off → off + Z.of_nat (length bytes) ≤ Z.of_nat (length buf) →
  put_at buf off bytes = Ok (splice (Z.to_nat off) bytes buf).
Proof. intros. unfold put_at. by rewrite (proj2 (Z.leb_le 0 off)), (proj2 (Z.leb_le _ _)) by lia. Qed.

Lemma put_at_Fault buf off bytes :
  Z.of_nat (length buf) < off + Z.of_nat (length bytes) → put_at buf off bytes = Fault.
Proof. intros. unfold put_at. by rewrite (proj2 (Z.leb_gt _ (Z.of_nat (length buf)))), andb_false_r by lia. Qed.

Lemma get_at_Ok buf off n :
  0 ≤ off → 0 ≤ n → off + n ≤ Z.of_nat (length buf) → get_at buf off n = Ok (take (Z.to_nat n) (drop (Z.to_nat off) buf)).
Proof. intros. unfold get_at. by rewrite (proj2 (Z.leb_le 0 off)), (proj2 (Z.leb_le 0 n)), (proj2 (Z.leb_le _ _)) by lia. Qed.

(** *** Runs of sectors *)

Lemma sector_length d lba : disk_ok d → length (sector d lba) = 512%nat.
Proof. intros H. unfold sector. destruct (d !! lba) as [s|] eqn:E; simpl; [by eapply H|done]. Qed.

Lemma sector_insert d lba s lba' : sector (<[lba := s]> d) lba' = if decide (lba = lba') then s else sector d lba'.
Proof. unfold sector. case_decide; [subst; by rewrite lookup_insert_eq|by rewrite lookup_insert_ne]. Qed.

Lemma disk_ok_insert d lba s : disk_ok d → length s = 512%nat → disk_ok (<[lba := s]> d).
Proof. intros Hd Hs l s'. destruct (decide (lba = l)) as [->|]; [rewrite lookup_insert_eq|rewrite lookup_insert_ne by done]; naive_solver. Qed.

Lemma disk_read_S d lba n : disk_read d lba (S n) = sector d lba ++ disk_read d (lba + 1) n.
Proof. unfold disk_read. rewrite Nat2Z.inj_succ, seqZ_cons, Z.pred_succ by lia. done. Qed.

Lemma disk_read_1 d lba : disk_read d lba 1 = sector d lba.
Proof. rewrite disk_read_S. change (disk_read d (lba + 1) 0) with (@nil Z). apply app_nil_r. Qed.

Lemma disk_read_length d lba n : disk_ok d → length (disk_read d lba n) = (512 * n)%nat.
Proof.
  intros Hd. revert lba. induction n as [|n IH]; intros lba; [done|]. rewrite disk_read_S, length_app, IH, sector_length by done. lia.
Qed.

Lemma disk_read_app d lba n m : disk_read d lba (n + m) = disk_read d lba n ++ disk_read d (lba + Z.of_nat n) m.
Proof.
  revert lba. induction n as [|n IH]; intros lba; simpl.
  - by rewrite Z.add_0_r.
  - rewrite !disk_read_S, IH, <-app_assoc. do 3 f_equal. lia.
Qed.

(** A run inside a larger one is a range of its bytes. *)
Lemma disk_read_sub d lba n q k :
  disk_ok d → (q + k ≤ n)%nat →
  disk_read d (lba + Z.of_nat q) k = take (512 * k) (drop (512 * q) (disk_read d lba n)).
Proof.
  intros Hd H. replace n with (q + (k + (n - q - k)))%nat by lia. rewrite !disk_read_app.
  rewrite drop_app_length' by (by rewrite disk_read_length). by rewrite take_app_length' by (by rewrite disk_read_length).
Qed.

Lemma disk_write_ok d lba bytes n : disk_ok d → (512 * n ≤ length bytes)%nat → disk_ok (disk_write d lba bytes n).
Proof.
  revert d lba bytes. induction n as [|n IH]; intros d lba bytes Hd Hl; simpl; [done|].
  apply IH; [|rewrite length_drop; lia]. apply disk_ok_insert; [done|]. rewrite length_take. lia.
Qed.

(** Sectors outside the written run are unchanged. *)
Lemma sector_write_other d lba bytes n l :
  l < lba ∨ lba + Z.of_nat n ≤ l → sector (disk_write d lba bytes n) l = sector d l.
Proof.
  revert d lba bytes. induction n as [|n IH]; intros d lba bytes Hl; simpl; [done|].
  rewrite IH by lia. rewrite sector_insert, decide_False by lia. done.
Qed.

Lemma disk_read_ext d d' lba n :
  (∀ l, lba ≤ l < lba + Z.of_nat n → sector d l = sector d' l) → disk_read d lba n = disk_read d' lba n.
Proof.
  intros H. unfold disk_read. f_equal. apply list_fmap_ext. intros i x Hx.
  apply list_elem_of_lookup_2, elem_of_seqZ in Hx. apply H. lia.
Qed.

Lemma disk_read_write_other d lba bytes n l m :
  l + Z.of_nat m ≤ lba ∨ lba + Z.of_nat n ≤ l → disk_read (disk_write d lba bytes n) l m = disk_read d l m.
Proof. intros H. apply disk_read_ext. intros x Hx. apply sector_write_other. lia. Qed.

Lemma disk_read_write_same d lba bytes n :
  (512 * n ≤ length bytes)%nat → disk_read (disk_write d lba bytes n) lba n = take (512 * n) bytes.
Proof.
  revert d lba bytes. induction n as [|n IH]; intros d lba bytes Hl; [done|].
  rewrite disk_read_S. simpl disk_write. rewrite IH by (rewrite length_drop; lia).
  rewrite sector_write_other, sector_insert, decide_True by (done || lia).
  replace (512 * S n)%nat with (512 + 512 * n)%nat by lia.
  rewrite <-(take_drop 512 (take (512 + 512 * n) bytes)), take_take, skipn_firstn_comm. f_equal; f_equal; lia.
Qed.

(** Writing a run inside a larger one replaces a range of its bytes. *)
Lemma disk_write_sub d lba n q k bytes :
  disk_ok d → (q + k ≤ n)%nat → length bytes = (512 * k)%nat →
  disk_read (disk_write d (lba + Z.of_nat q) bytes k) lba n = splice (512 * q) bytes (disk_read d lba n).
Proof.
  intros Hd H Hl. set (d' := disk_write _ _ _ _). replace n with (q + (k + (n - q - k)))%nat by lia. rewrite !(disk_read_app d').
  unfold d'. rewrite disk_read_write_other by lia. rewrite disk_read_write_same by lia. rewrite disk_read_write_other by lia.
  rewrite take_ge by lia. unfold splice. rewrite !disk_read_app.
  rewrite take_app_length' by (by rewrite disk_read_length). f_equal. f_equal.
  rewrite app_assoc, drop_app_length'; [done|]. rewrite length_app, !disk_read_length by done. lia.
Qed.

Lemma disk_write_take d lba bytes n : disk_write d lba (take (512 * n) bytes) n = disk_write d lba bytes n.
Proof.
  revert d lba bytes. induction n as [|n IH]; intros d lba bytes; cbn [disk_write]; [done|].
  rewrite take_take, Nat.min_l by lia. rewrite skipn_firstn_comm. replace (512 * S n - 512)%nat with (512 * n)%nat by lia. apply IH.
Qed.

Lemma disk_write_app d lba bytes n m :
  disk_write d lba bytes (n + m) = disk_write (disk_write d lba (take (512 * n) bytes) n) (lba + Z.of_nat n) (drop (512 * n) bytes) m.
Proof.
  rewrite disk_write_take. revert d lba bytes. induction n as [|n IH]; intros d lba bytes.
  - by rewrite Z.add_0_r.
  - cbn [disk_write Nat.add]. rewrite IH, drop_drop. f_equal; [lia|f_equal; lia].
Qed.
