(* ===== verification/Ide.v ===== *)
(** * The disk driver ([device/ide.c])

    The driver at its ports: [outb], [inb], [insw] and [outsw] against an ATA
    drive pair that latches the task-file registers, answers status reads,
    moves data through the data register and raises its interrupt when a
    command is done.  The theorems show that [ide_read] and [ide_write] move
    exactly the sectors asked for, in chunks of 256, as [Disk] promises to the
    file system.  The channel lock is taken and given back as [Sched.lock_enter]
    and [Sched.lock_leave] say, which [Locks] relates to the preemptible code. *)

From S2P Require Import Prelude KList Sched Disk.

(** ** Constants *)

Definition BIT_STAT_BSY : Z := 128.
Definition BIT_STAT_DRDY : Z := 64.
Definition BIT_STAT_DRQ : Z := 8.
Definition BIT_DEV_MBS : Z := 160.
Definition BIT_DEV_LBA : Z := 64.
Definition BIT_DEV_DEV : Z := 16.
Definition CMD_IDENTIFY : Z := 236.
Definition CMD_READ_SECTOR : Z := 32.
Definition CMD_WRITE_SECTOR : Z := 48.

(** Offsets from [port_base]. *)
Definition reg_data : Z := 0.
Definition reg_sect_cnt : Z := 2.
Definition reg_lba_l : Z := 3.
Definition reg_lba_m : Z := 4.
Definition reg_lba_h : Z := 5.
Definition reg_dev : Z := 6.
Definition reg_cmd : Z := 7.

(** ** The channel and the two drives on it *)

Record task_file := TaskFile { r_cnt : Z; r_l : Z; r_m : Z; r_h : Z; r_dev : Z; r_cmd : Z }.

Record channel := Channel {
  irq_no : Z;
  expecting_intr : bool;
  disk_done : Z;              (* the semaphore's value *)
  regs : task_file;
  dev0 : disk;
  dev1 : disk;
  status : list Z;            (* what the next reads of the status register return *)
  clock : lock
}.

Definition set_regs r c := Channel (irq_no c) (expecting_intr c) (disk_done c) r (dev0 c) (dev1 c) (status c) (clock c).
Definition set_expecting b c := Channel (irq_no c) b (disk_done c) (regs c) (dev0 c) (dev1 c) (status c) (clock c).
Definition set_done n c := Channel (irq_no c) (expecting_intr c) n (regs c) (dev0 c) (dev1 c) (status c) (clock c).
Definition set_status l c := Channel (irq_no c) (expecting_intr c) (disk_done c) (regs c) (dev0 c) (dev1 c) l (clock c).
Definition set_clock l c := Channel (irq_no c) (expecting_intr c) (disk_done c) (regs c) (dev0 c) (dev1 c) (status c) l.

(** A byte written to a register is latched. *)
Definition latch (reg v : Z) (r : task_file) : task_file :=
  if reg =? reg_sect_cnt then TaskFile v (r_l r) (r_m r) (r_h r) (r_dev r) (r_cmd r)
  else if reg =? reg_lba_l then TaskFile (r_cnt r) v (r_m r) (r_h r) (r_dev r) (r_cmd r)
  else if reg =? reg_lba_m then TaskFile (r_cnt r) (r_l r) v (r_h r) (r_dev r) (r_cmd r)
  else if reg =? reg_lba_h then TaskFile (r_cnt r) (r_l r) (r_m r) v (r_dev r) (r_cmd r)
  else if reg =? reg_dev then TaskFile (r_cnt r) (r_l r) (r_m r) (r_h r) v (r_cmd r)
  else if reg =? reg_cmd then TaskFile (r_cnt r) (r_l r) (r_m r) (r_h r) (r_dev r) v
  else r.

(** The 28-bit address, the count (0 is 256) and the drive the registers select. *)
Definition target_lba (r : task_file) : Z := r_l r + r_m r * 256 + r_h r * 65536 + Z.land (r_dev r) 15 * 16777216.
Definition target_cnt (r : task_file) : nat := if r_cnt r =? 0 then 256%nat else Z.to_nat (r_cnt r).
Definition target_slave (r : task_file) : bool := negb (Z.land (r_dev r) BIT_DEV_DEV =? 0).
Definition selected_disk (c : channel) : disk := if target_slave (regs c) then dev1 c else dev0 c.

Definition outb (reg v : Z) : M channel unit := mmod (λ c, set_regs (latch reg (u8 v) (regs c)) c).
Definition inb_status : M channel Z := λ c,
  match status c with [] => Spin | s :: l => Ok (s, set_status l c) end.

(** [insw] and [outsw] of [n] words: the data of the command in the registers. *)
Definition insw (n : Z) : M channel (list Z) := λ c,
  if negb (r_cmd (regs c) =? CMD_READ_SECTOR) then Fault
  else Ok (take (Z.to_nat (2 * n)) (disk_read (selected_disk c) (target_lba (regs c)) (target_cnt (regs c))), c).
Definition outsw (bytes : list Z) (n : Z) : M channel unit := λ c,
  if negb (r_cmd (regs c) =? CMD_WRITE_SECTOR) then Fault
  else
    let d := disk_write (selected_disk c) (target_lba (regs c)) (take (Z.to_nat (2 * n)) bytes) (target_cnt (regs c)) in
    Ok (tt, if target_slave (regs c)
            then Channel (irq_no c) (expecting_intr c) (disk_done c) (regs c) (dev0 c) d (status c) (clock c)
            else Channel (irq_no c) (expecting_intr c) (disk_done c) (regs c) d (dev1 c) (status c) (clock c)).

Section ide_ops.
Context {B : Build}.

(** ** The driver *)

Definition select_disk (dev_no : Z) : M channel unit :=
  let reg_device := Z.lor BIT_DEV_MBS BIT_DEV_LBA in
  outb reg_dev (if dev_no =? 1 then Z.lor reg_device BIT_DEV_DEV else reg_device).

Definition select_sector (dev_no lba sec_cnt : Z) : M channel unit :=
  do! mlift (ASSERT (lba <=? max_lba)) in
  do! outb reg_sect_cnt sec_cnt in
  do! outb reg_lba_l lba in
  do! outb reg_lba_m (Z.shiftr lba 8) in
  do! outb reg_lba_h (Z.shiftr lba 16) in
  outb reg_dev (Z.lor (Z.lor (Z.lor BIT_DEV_MBS BIT_DEV_LBA) (if dev_no =? 1 then BIT_DEV_DEV else 0)) (Z.shiftr lba 24)).

Definition cmd_out (cmd : Z) : M channel unit :=
  do! mmod (set_expecting true) in outb reg_cmd cmd.

Definition read_from_sector (sec_cnt : Z) : M channel (list Z) :=
  let sec_cnt := u8 sec_cnt in
  insw ((if sec_cnt =? 0 then 256 * 512 else sec_cnt * 512) / 2).

Definition write2sector (buf : list Z) (sec_cnt : Z) : M channel unit :=
  let sec_cnt := u8 sec_cnt in
  outsw buf ((if sec_cnt =? 0 then 256 * 512 else sec_cnt * 512) / 2).

(** [while (time_limit -= 10 >= 0)]: the comparison binds first, so the limit
    goes down by 1, not by 10; [mtime_sleep(10)] between two polls. *)
Fixpoint busy_wait_loop (fuel : nat) (time_limit : Z) : M channel bool :=
  match fuel with
  | O => λ _, Spin
  | S fuel' =>
      let time_limit := u16 (time_limit - 1) in
      if time_limit =? 0 then mok false else
      let! s := inb_status in
      if Z.land s BIT_STAT_BSY =? 0 then
        let! s := inb_status in mok (negb (Z.land s BIT_STAT_DRQ =? 0))
      else busy_wait_loop fuel' time_limit
  end.
Definition busy_wait : M channel bool := busy_wait_loop (Z.to_nat 30000) (30 * 1000).

Definition intr_hd_handler (irq : Z) : M channel unit :=
  do! mlift (ASSERT ((irq =? 46) || (irq =? 47))) in
  let! i := mget irq_no in
  do! mlift (ASSERT (i =? irq)) in
  let! e := mget expecting_intr in
  if e then
    do! mmod (set_expecting false) in
    do! mmod (λ c, set_done (disk_done c + 1) c) in
    let! _ := inb_status in mok tt
  else mok tt.

(** [sema_down(&disk_done)]: the thread sleeps until the drive's interrupt. *)
Definition sema_down_done : M channel unit :=
  let! i := mget irq_no in
  do! intr_hd_handler i in
  λ c, if disk_done c =? 0 then Block else Ok (tt, set_done (disk_done c - 1) c).

(** [lock_acquire] and [lock_release] of the channel lock by thread [me] *)
Definition chan_acquire (me : Z) : M channel unit := λ c,
  let? l := lock_enter me (clock c) in Ok (tt, set_clock l c).
Definition chan_release (me : Z) : M channel unit := λ c,
  let? l := lock_leave me (clock c) in Ok (tt, set_clock l c).

Definition secs_of (secs_done sec_cnt : Z) : Z :=
  if secs_done + 256 <=? sec_cnt then 256 else sec_cnt - secs_done.

(** Every turn moves at least one sector. *)
Fixpoint ide_read_loop (fuel : nat) (dev_no lba : Z) (buf : list Z) (secs_done sec_cnt : Z) : M channel (list Z) :=
  match fuel with
  | O => λ _, Spin
  | S fuel' =>
      if secs_done <? sec_cnt then
        let secs_op := secs_of secs_done sec_cnt in
        do! select_sector dev_no (u32 (lba + secs_done)) secs_op in
        do! cmd_out CMD_READ_SECTOR in
        do! sema_down_done in
        let! ok := busy_wait in
        if negb ok then λ _, Panic else
        let! data := read_from_sector secs_op in
        let! buf := mlift (put_at buf (secs_done * 512) data) in
        ide_read_loop fuel' dev_no lba buf (secs_done + secs_op) sec_cnt
      else mok buf
  end.

Definition ide_read (me dev_no lba : Z) (buf : list Z) (sec_cnt : Z) : M channel (list Z) :=
  do! mlift (ASSERT (lba <=? max_lba)) in
  do! mlift (ASSERT (0 <? sec_cnt)) in
  do! chan_acquire me in
  do! select_disk dev_no in
  let! buf := ide_read_loop (S (Z.to_nat sec_cnt)) dev_no lba buf 0 sec_cnt in
  do! chan_release me in
  mok buf.

Fixpoint ide_write_loop (fuel : nat) (dev_no lba : Z) (buf : list Z) (secs_done sec_cnt : Z) : M channel unit :=
  match fuel with
  | O => λ _, Spin
  | S fuel' =>
      if secs_done <? sec_cnt then
        let secs_op := secs_of secs_done sec_cnt in
        do! select_sector dev_no (u32 (lba + secs_done)) secs_op in
        do! cmd_out CMD_WRITE_SECTOR in
        let! ok := busy_wait in
        if negb ok then λ _, Panic else
        let! data := mlift (get_at buf (secs_done * 512) (secs_op * 512)) in
        do! write2sector data secs_op in
        do! sema_down_done in
        ide_write_loop fuel' dev_no lba buf (secs_done + secs_op) sec_cnt
      else mok tt
  end.

Definition ide_write (me dev_no lba : Z) (buf : list Z) (sec_cnt : Z) : M channel unit :=
  do! mlift (ASSERT (lba <=? max_lba)) in
  do! mlift (ASSERT (0 <? sec_cnt)) in
  do! chan_acquire me in
  do! select_disk dev_no in
  do! ide_write_loop (S (Z.to_nat sec_cnt)) dev_no lba buf 0 sec_cnt in
  chan_release me.

(** [swap_pairs_bytes]: [idx] is a [uint8_t]. *)
Fixpoint swap_pairs (fuel : nat) (dst buf : list Z) (idx len : Z) : res (list Z) :=
  match fuel with
  | O => Spin
  | S fuel' =>
      if idx <? len then
        match dst with
        | a :: b :: dst' =>
            let? buf := wr buf (idx + 1) a in
            let? buf := wr buf idx b in
            swap_pairs fuel' dst' buf (u8 (idx + 2)) len
        | _ => Fault
        end
      else wr buf idx 0
  end.
Definition swap_pairs_bytes (dst buf : list Z) (len : Z) : res (list Z) :=
  swap_pairs (S (Z.to_nat len)) dst buf 0 len.

End ide_ops.

(** ** Lemmas *)

Definition ready (s : Z) : Prop := Z.land s BIT_STAT_BSY = 0 ∧ Z.land s BIT_STAT_DRQ ≠ 0.
#[global] Instance ready_dec s : Decision (ready s).
Proof. unfold ready. apply _. Defined.

(** The registers after [select_sector] and [cmd_out]. *)
Definition command (dev_no lba cnt cmd : Z) : task_file :=
  TaskFile (u8 cnt) (u8 lba) (u8 (lba / 256)) (u8 (lba / 65536)) (if dev_no =? 1 then 240 else 224) cmd.

Definition on_dev (dev_no : Z) (c : channel) : disk := if dev_no =? 1 then dev1 c else dev0 c.

(** An idle channel whose next [n] status reads say that the drive is ready. *)
Record idle (n : nat) (c : channel) : Prop := {
  id_irq : irq_no c = 46 ∨ irq_no c = 47;
  id_done : disk_done c = 0;
  id_ready : Forall ready (take n (status c));
  id_status : (n ≤ length (status c))%nat;
}.

Section ide_lemmas.
Context {B : Build}.

Lemma target_lba_command dev_no lba cnt cmd : 0 ≤ lba ≤ max_lba → target_lba (command dev_no lba cnt cmd) = lba.
Proof.
  unfold target_lba, command, max_lba. cbn [r_l r_m r_h r_dev]. intros H.
  assert (Z.land (if dev_no =? 1 then 240 else 224) 15 = 0) as -> by (by destruct (dev_no =? 1)). zsolve.
Qed.

Lemma target_cnt_command dev_no lba cnt cmd : 0 < cnt ≤ 256 → target_cnt (command dev_no lba cnt cmd) = Z.to_nat cnt.
Proof.
  intros H. unfold target_cnt, command. cbn [r_cnt]. destruct (decide (cnt = 256)) as [->|]; [done|].
  rewrite u8_small by lia. by rewrite (proj2 (Z.eqb_neq cnt 0)) by lia.
Qed.

Lemma issue_run dev_no lba cnt cmd c :
  0 ≤ lba ≤ max_lba → 0 ≤ cmd < 256 →
  mbnd (select_sector dev_no lba cnt) (λ _, cmd_out cmd) c = Ok (tt, set_expecting true (set_regs (command dev_no lba cnt cmd) c)).
Proof.
  intros Hl Hc. unfold max_lba in Hl. unfold mbnd at 1. unfold select_sector.
  assert (ASSERT (lba <=? max_lba) = Ok tt) as -> by (apply ASSERT_true, Z.leb_le; unfold max_lba; lia).
  rewrite !Z.shiftr_div_pow2 by lia.
  replace (lba / 2 ^ 24) with 0 by (symmetry; apply Z.div_small; lia). rewrite Z.lor_0_r.
  unfold command. change (2 ^ 8) with 256. change (2 ^ 16) with 65536.
  unfold cmd_out, outb. rewrite (u8_small cmd) by done. destruct c as [i e dn [] d0 d1 st lk]. by destruct (dev_no =? 1).
Qed.

Lemma busy_wait_run s1 s2 l c :
  ready s1 → ready s2 → status c = s1 :: s2 :: l → busy_wait c = Ok (true, set_status l c).
Proof.
  intros [H1 _] [_ H2] Hs. unfold busy_wait. change (Z.to_nat 30000) with (S (Z.to_nat 29999)). cbn [busy_wait_loop].
  change (u16 (30 * 1000 - 1) =? 0) with false. cbv iota. unfold inb_status, mbnd, mok. rewrite Hs. cbn [rbind fst snd].
  rewrite H1. change (0 =? 0) with true. cbv iota. cbn [set_status status rbind fst snd].
  by rewrite (proj2 (Z.eqb_neq _ _)).
Qed.

Lemma sema_down_done_run s l c :
  irq_no c = 46 ∨ irq_no c = 47 → expecting_intr c = true → disk_done c = 0 → status c = s :: l →
  sema_down_done c = Ok (tt, set_status l (set_expecting false c)).
Proof.
  intros Hi He Hd Hs. unfold sema_down_done, intr_hd_handler, mbnd, mget, mlift, mmod, inb_status, mok. cbn [rbind fst snd].
  rewrite ASSERT_true by (by destruct Hi as [-> | ->]). cbn [rbind fst snd]. rewrite ASSERT_true by (apply Z.eqb_refl). cbn [rbind fst snd].
  rewrite He. cbn [rbind fst snd set_expecting set_done status disk_done irq_no]. rewrite Hs. cbn [rbind fst snd set_status disk_done].
  rewrite Hd. change (0 + 1 =? 0) with false. cbv iota. destruct c; simpl in *; subst. done.
Qed.

Lemma idle_uncons n c :
  idle (3 + n) c → ∃ a b e l, status c = a :: b :: e :: l ∧ ready a ∧ ready b ∧ ready e ∧ Forall ready (take n l) ∧ (n ≤ length l)%nat.
Proof.
  intros [_ _ Hr Hl]. destruct (status c) as [|a [|b [|e l]]]; simpl in *; try lia.
  inversion_clear Hr as [|? ? Ha Hr']. inversion_clear Hr' as [|? ? Hb Hr'']. inversion_clear Hr'' as [|? ? He Hr3].
  exists a, b, e, l. split_and!; try done. lia.
Qed.

Lemma ready_prefix n m l : Forall ready (take m l) → (n ≤ m)%nat → Forall ready (take n l).
Proof. intros H Hn. rewrite <-(Nat.min_l n m), <-take_take by done. by apply Forall_take. Qed.

(** The channel after an operation of [n] status reads. *)
Definition served (r : task_file) (l : list Z) (c : channel) : channel :=
  Channel (irq_no c) false (disk_done c) r (dev0 c) (dev1 c) l (clock c).

Lemma served_idle n r l c : idle (3 + n) c → Forall ready (take n l) → (n ≤ length l)%nat → idle n (served r l c).
Proof. intros [H1 H2 _ _] Hr Hl. by split. Qed.

Lemma secs_of_bounds secs_done sec_cnt : secs_done < sec_cnt → 0 < secs_of secs_done sec_cnt ≤ 256 ∧ secs_done + secs_of secs_done sec_cnt ≤ sec_cnt.
Proof. unfold secs_of. destruct (Z.leb_spec (secs_done + 256) sec_cnt); lia. Qed.

Lemma words_cnt k : 0 < k ≤ 256 → Z.to_nat (2 * ((if u8 k =? 0 then 256 * 512 else u8 k * 512) / 2)) = (512 * Z.to_nat k)%nat.
Proof.
  intros H. destruct (decide (k = 256)) as [->|].
  { change (u8 256 =? 0) with true. cbv iota. change (256 * 512 / 2) with 65536. lia. }
  rewrite u8_small by lia. rewrite (proj2 (Z.eqb_neq k 0)) by lia.
  replace (k * 512) with (k * 256 * 2) by lia. rewrite Z.div_mul by lia. lia.
Qed.

Lemma selected_command dev_no lba cnt cmd c x :
  regs x = command dev_no lba cnt cmd → dev0 x = dev0 c → dev1 x = dev1 c → selected_disk x = on_dev dev_no c.
Proof. unfold selected_disk, target_slave, on_dev. intros -> -> ->. unfold command. cbn [r_dev]. by destruct (dev_no =? 1). Qed.

(** [select_sector] and [cmd_out] in front of the rest of an operation. *)
Lemma issue_then {X} (K : M channel X) dev_no lba cnt cmd c :
  0 ≤ lba ≤ max_lba → 0 ≤ cmd < 256 →
  (do! select_sector dev_no lba cnt in do! cmd_out cmd in K) c = K (set_expecting true (set_regs (command dev_no lba cnt cmd) c)).
Proof.
  intros Hl Hc. pose proof (issue_run dev_no lba cnt cmd c Hl Hc) as H.
  unfold mbnd at 1 in H. apply rbind_Ok_inv in H as ([[] c1] & E1 & E2). cbn [fst snd] in E2.
  by rewrite (mbnd_Ok _ _ _ _ _ E1), (mbnd_Ok _ _ _ _ _ E2).
Qed.

Lemma read_chunk {X} (K : list Z → M channel X) dev_no lba k n c a b e l :
  0 ≤ lba ≤ max_lba → 0 < k ≤ 256 → idle (3 + n) c → disk_ok (on_dev dev_no c) →
  status c = a :: b :: e :: l → ready a → ready b → ready e →
  (do! select_sector dev_no lba k in do! cmd_out CMD_READ_SECTOR in do! sema_down_done in
   let! ok := busy_wait in if negb ok then λ _, Panic else let! data := read_from_sector k in K data) c
  = K (disk_read (on_dev dev_no c) lba (Z.to_nat k)) (served (command dev_no lba k CMD_READ_SECTOR) l c).
Proof.
  intros Hl Hk Hi Hd Hst Ha Hb He. rewrite issue_then by (done || (unfold CMD_READ_SECTOR; lia)).
  set (c2 := set_expecting _ _).
  rewrite (mbnd_Ok _ _ _ _ _ (sema_down_done_run a (b :: e :: l) c2 (id_irq _ _ Hi) eq_refl (id_done _ _ Hi) Hst)).
  rewrite (mbnd_Ok _ _ _ _ _ (busy_wait_run b e l (set_status (b :: e :: l) (set_expecting false c2)) Hb He eq_refl)). cbn [negb].
  rewrite (mbnd_Ok _ _ _ (disk_read (on_dev dev_no c) lba (Z.to_nat k)) (served (command dev_no lba k CMD_READ_SECTOR) l c)); [done|].
  unfold read_from_sector, insw. rewrite words_cnt by done. set (c4 := set_status l _).
  assert (Hr : regs c4 = command dev_no lba k CMD_READ_SECTOR) by done. rewrite (selected_command dev_no lba k CMD_READ_SECTOR c c4) by done.
  rewrite Hr. change (r_cmd (command dev_no lba k CMD_READ_SECTOR) =? CMD_READ_SECTOR) with true.
  cbn [negb]. rewrite target_lba_command, target_cnt_command by done.
  rewrite take_ge by (by rewrite disk_read_length). done.
Qed.

(** The channel after a write. *)
Definition stored (dev_no : Z) (d : disk) (c : channel) : channel :=
  if dev_no =? 1 then Channel (irq_no c) (expecting_intr c) (disk_done c) (regs c) (dev0 c) d (status c) (clock c)
  else Channel (irq_no c) (expecting_intr c) (disk_done c) (regs c) d (dev1 c) (status c) (clock c).

Lemma on_dev_stored dev_no d c : on_dev dev_no (stored dev_no d c) = d.
Proof. unfold on_dev, stored. by destruct (dev_no =? 1). Qed.

Lemma write_chunk {X} (K : M channel X) dev_no lba k n c a b e l data :
  0 ≤ lba ≤ max_lba → 0 < k ≤ 256 → idle (3 + n) c → length data = (512 * Z.to_nat k)%nat →
  status c = a :: b :: e :: l → ready a → ready b → ready e →
  (do! select_sector dev_no lba k in do! cmd_out CMD_WRITE_SECTOR in
   let! ok := busy_wait in if negb ok then λ _, Panic else
   do! write2sector data k in do! sema_down_done in K) c
  = K (served (command dev_no lba k CMD_WRITE_SECTOR) l (stored dev_no (disk_write (on_dev dev_no c) lba data (Z.to_nat k)) c)).
Proof.
  intros Hl Hk Hi Hd Hst Ha Hb He. rewrite issue_then by (done || (unfold CMD_WRITE_SECTOR; lia)).
  set (c2 := set_expecting _ _).
  rewrite (mbnd_Ok _ _ _ _ _ (busy_wait_run a b (e :: l) c2 Ha Hb Hst)). cbn [negb].
  set (c3 := stored dev_no (disk_write (on_dev dev_no c) lba data (Z.to_nat k)) (set_status (e :: l) c2)).
  rewrite (mbnd_Ok _ _ _ tt c3).
  - rewrite (mbnd_Ok _ _ _ _ _ (sema_down_done_run e l c3 ltac:(unfold c3, stored; destruct (dev_no =? 1); apply (id_irq _ _ Hi))
      ltac:(unfold c3, stored; by destruct (dev_no =? 1)) ltac:(unfold c3, stored; destruct (dev_no =? 1); apply (id_done _ _ Hi))
      ltac:(unfold c3, stored; by destruct (dev_no =? 1)))).
    f_equal. unfold c3, stored, c2. by destruct (dev_no =? 1).
  - unfold write2sector, outsw. rewrite words_cnt by done. set (c4 := set_status (e :: l) c2).
    assert (Hr : regs c4 = command dev_no lba k CMD_WRITE_SECTOR) by done. rewrite (selected_command dev_no lba k CMD_WRITE_SECTOR c c4) by done.
    rewrite Hr. change (r_cmd (command dev_no lba k CMD_WRITE_SECTOR) =? CMD_WRITE_SECTOR) with true.
    cbn [negb]. rewrite target_lba_command, target_cnt_command by done. rewrite (take_ge data) by lia.
    unfold c3, stored, c2, target_slave, command. cbn [r_dev]. by destruct (dev_no =? 1).
Qed.

(** The two loops from any point on. *)
Lemma ide_read_loop_run fuel dev_no lba buf done_ n c :
  0 ≤ lba → 0 ≤ done_ ≤ n → lba + n - 1 ≤ max_lba → (Z.to_nat (n - done_) < fuel)%nat → 512 * n ≤ Z.of_nat (length buf) →
  disk_ok (on_dev dev_no c) → idle (3 * Z.to_nat (n - done_)) c →
  ∃ c', ide_read_loop fuel dev_no lba buf done_ n c =
      Ok (splice (512 * Z.to_nat done_) (disk_read (on_dev dev_no c) (lba + done_) (Z.to_nat (n - done_))) buf, c') ∧
    dev0 c' = dev0 c ∧ dev1 c' = dev1 c ∧ clock c' = clock c.
Proof.
  intros Hl Hd Hm Hf Hb Hok Hi. unfold max_lba in Hm.
  revert buf done_ c Hd Hf Hb Hok Hi. induction fuel as [|fuel IH]; intros buf done_ c Hd Hf Hb Hok Hi; [lia|].
  cbn [ide_read_loop]. destruct (Z.ltb_spec done_ n) as [Hlt|Hge].
  2:{ replace done_ with n by lia. rewrite Z.sub_diag. change (disk_read _ _ (Z.to_nat 0)) with (@nil Z).
      exists c. split; [|done]. by rewrite splice_nil. }
  destruct (secs_of_bounds done_ n Hlt) as [Hk Hk2]. set (k := secs_of done_ n) in *. cbv zeta.
  rewrite u32_small by (unfold max_lba in *; lia).
  assert (Hi' : idle (3 + (3 * Z.to_nat (n - done_) - 3)) c) by (replace (3 + (3 * Z.to_nat (n - done_) - 3))%nat with (3 * Z.to_nat (n - done_))%nat by lia; done).
  destruct (idle_uncons _ _ Hi') as (a & b & e & l & Hst & Ha & Hbb & He & Hr & Hll).
  rewrite (read_chunk _ dev_no (lba + done_) k _ c a b e l) by (done || (unfold max_lba; lia)).
  set (c1 := served _ l c). set (data := disk_read _ _ _).
  assert (Hdl : length data = (512 * Z.to_nat k)%nat) by (by apply disk_read_length).
  rewrite (mbnd_Ok _ _ _ _ _ (mlift_Ok _ c1 _ (put_at_Ok buf (done_ * 512) data ltac:(lia) ltac:(lia)))).
  assert (Hi1 : idle (3 * Z.to_nat (n - (done_ + k))) c1).
  { destruct Hi as [H1 H2 _ _]. split; [done|done| |cbn [c1 served status]; lia]. cbn [c1 served status].
    apply (ready_prefix _ _ l Hr). lia. }
  destruct (IH (splice (Z.to_nat (done_ * 512)) data buf) (done_ + k) c1) as (c' & E & H0 & H1); try done; try lia.
  { rewrite splice_length by lia. done. }
  exists c'. split; [|done]. rewrite E. do 2 f_equal. change (on_dev dev_no c1) with (on_dev dev_no c).
  replace (Z.to_nat (n - done_)) with (Z.to_nat k + Z.to_nat (n - (done_ + k)))%nat by lia. rewrite disk_read_app.
  fold data. rewrite Z2Nat.id by lia. rewrite Z.add_assoc.
  set (data2 := disk_read _ (lba + done_ + k) _). assert (Hdl2 : length data2 = (512 * Z.to_nat (n - (done_ + k)))%nat) by (by apply disk_read_length).
  replace (Z.to_nat (done_ * 512)) with (512 * Z.to_nat done_)%nat by lia.
  replace (512 * Z.to_nat (done_ + k))%nat with (512 * Z.to_nat done_ + length data)%nat by lia.
  apply splice_adjacent. lia.
Qed.

Lemma ide_write_loop_run fuel dev_no lba buf done_ n c :
  dev_no = 0 ∨ dev_no = 1 → 0 ≤ lba → 0 ≤ done_ ≤ n → lba + n - 1 ≤ max_lba → (Z.to_nat (n - done_) < fuel)%nat →
  512 * n ≤ Z.of_nat (length buf) → idle (3 * Z.to_nat (n - done_)) c →
  ∃ c', ide_write_loop fuel dev_no lba buf done_ n c = Ok (tt, c') ∧
    on_dev dev_no c' = disk_write (on_dev dev_no c) (lba + done_) (drop (512 * Z.to_nat done_) buf) (Z.to_nat (n - done_)) ∧
    on_dev (1 - dev_no) c' = on_dev (1 - dev_no) c ∧ clock c' = clock c.
Proof.
  intros Hdev Hl Hd Hm Hf Hb Hi. unfold max_lba in Hm.
  revert done_ c Hd Hf Hi. induction fuel as [|fuel IH]; intros done_ c Hd Hf Hi; [lia|].
  cbn [ide_write_loop]. destruct (Z.ltb_spec done_ n) as [Hlt|Hge].
  2:{ exists c. split; [done|]. split; [|split; done]. replace done_ with n by lia. by rewrite Z.sub_diag. }
  destruct (secs_of_bounds done_ n Hlt) as [Hk Hk2]. set (k := secs_of done_ n) in *. cbv zeta.
  rewrite u32_small by (unfold max_lba in *; lia).
  assert (Hi' : idle (3 + (3 * Z.to_nat (n - done_) - 3)) c) by (replace (3 + (3 * Z.to_nat (n - done_) - 3))%nat with (3 * Z.to_nat (n - done_))%nat by lia; done).
  destruct (idle_uncons _ _ Hi') as (a & b & e & l & Hst & Ha & Hbb & He & Hr & Hll).
  set (data := take (512 * Z.to_nat k) (drop (512 * Z.to_nat done_) buf)).
  assert (Hdata : get_at buf (done_ * 512) (k * 512) = Ok data).
  { rewrite get_at_Ok by lia. unfold data. do 2 f_equal; [lia|f_equal; lia]. }
  assert (Hdl : length data = (512 * Z.to_nat k)%nat) by (unfold data; rewrite length_take, length_drop; lia).
  set (d' := disk_write (on_dev dev_no c) (lba + done_) data (Z.to_nat k)).
  set (c1 := served (command dev_no (lba + done_) k CMD_WRITE_SECTOR) l (stored dev_no d' c)).
  assert (Hi1 : idle (3 * Z.to_nat (n - (done_ + k))) c1).
  { destruct Hi as [H1 H2 _ _]. unfold c1, stored, served. split; cbn [irq_no disk_done status].
    - by destruct (dev_no =? 1).
    - by destruct (dev_no =? 1).
    - apply (ready_prefix _ _ l Hr). lia.
    - lia. }
  destruct (IH (done_ + k) c1) as (c' & E & H0 & H1 & H2); try done; try lia.
  exists c'. rewrite issue_then by (unfold max_lba, CMD_WRITE_SECTOR; lia). split; [|split; [|split]].
  - rewrite <-E. unfold c1, d'. erewrite <-(write_chunk _ dev_no (lba + done_) k _ c a b e l data) by (done || (unfold max_lba; lia)).
    rewrite issue_then by (unfold max_lba, CMD_WRITE_SECTOR; lia).
    unfold mbnd at 1 5. destruct (busy_wait _) as [[[] c2]| | | |]; try done. cbn [rbind fst snd negb].
    by rewrite (mbnd_Ok _ _ _ _ _ (mlift_Ok _ c2 _ Hdata)).
  - rewrite H0. assert (on_dev dev_no c1 = d') as -> by (unfold c1, d', on_dev, served, stored; by destruct (dev_no =? 1)).
    unfold d', data. replace (Z.to_nat (n - done_)) with (Z.to_nat k + Z.to_nat (n - (done_ + k)))%nat by lia.
    rewrite disk_write_app. rewrite drop_drop. f_equal; [lia|f_equal; lia].
  - rewrite H1. unfold c1, on_dev, served, stored. by destruct Hdev as [-> | ->].
  - rewrite H2. unfold c1, served, stored. by destruct (dev_no =? 1).
Qed.

Lemma chan_acquire_run me c : clock c = Lock NULL 0 → me ≠ NULL → chan_acquire me c = Ok (tt, set_clock (Lock me 1) c).
Proof. intros Hc Hme. unfold chan_acquire, lock_enter. rewrite Hc. cbn [holder]. by rewrite (proj2 (Z.eqb_neq NULL me)) by congruence. Qed.
Lemma chan_release_run me c : clock c = Lock me 1 → chan_release me c = Ok (tt, set_clock (Lock NULL 0) c).
Proof. intros Hc. unfold chan_release, lock_leave. rewrite Hc. cbn [holder holder_repeat_nr]. by rewrite Z.eqb_refl, !ASSERT_true. Qed.

End ide_lemmas.

(** ** Theorems *)

(** C31: [ide_read] fills the start of the buffer with exactly the sectors asked
    for, whatever their number, from the drive asked for, and leaves both
    drives and the rest of the buffer as they were, when the drive answers; the
    channel lock is free again afterwards. *)
Theorem ide_read_sectors {B : Build} (me dev_no lba n : Z) (buf : list Z) (c : channel) :
  0 ≤ lba → 0 < n → lba + n - 1 ≤ max_lba → 512 * n ≤ Z.of_nat (length buf) →
  disk_ok (on_dev dev_no c) → idle (3 * Z.to_nat n) c → clock c = Lock NULL 0 → me ≠ NULL →
  ∃ c', ide_read me dev_no lba buf n c = Ok (splice 0 (disk_read (on_dev dev_no c) lba (Z.to_nat n)) buf, c') ∧
    dev0 c' = dev0 c ∧ dev1 c' = dev1 c ∧ clock c' = Lock NULL 0.
Proof.
  intros Hl Hn Hm Hb Hd Hi Hlk Hme. unfold ide_read.
  rewrite (mbnd_Ok _ _ _ _ _ (mlift_Ok _ c _ (ASSERT_true _ (proj2 (Z.leb_le lba max_lba) ltac:(lia))))).
  rewrite (mbnd_Ok _ _ _ _ _ (mlift_Ok _ c _ (ASSERT_true _ (proj2 (Z.ltb_lt 0 n) ltac:(lia))))).
  rewrite (mbnd_Ok _ _ _ _ _ (chan_acquire_run me c Hlk Hme)).
  set (v := if dev_no =? 1 then Z.lor (Z.lor BIT_DEV_MBS BIT_DEV_LBA) BIT_DEV_DEV else Z.lor BIT_DEV_MBS BIT_DEV_LBA). set (c0 := set_clock (Lock me 1) c). set (c1 := set_regs (latch reg_dev (u8 v) (regs c0)) c0).
  change (select_disk dev_no) with (outb reg_dev v). rewrite (mbnd_Ok (outb reg_dev v) _ c0 tt c1 eq_refl).
  destruct (ide_read_loop_run (S (Z.to_nat n)) dev_no lba buf 0 n c1) as (c' & E & H0 & H1 & H2); try done; try lia.
  - rewrite Z.sub_0_r. by destruct Hi; split.
  - exists (set_clock (Lock NULL 0) c'). rewrite (mbnd_Ok _ _ _ _ _ E). rewrite (mbnd_Ok _ _ _ _ _ (chan_release_run me c' H2)).
    rewrite Z.sub_0_r, Z.add_0_r. done.
Qed.

(** [ide_write] stores exactly the sectors asked for on the drive asked for;
    every other sector of it and the other drive are untouched. *)
Theorem ide_write_sectors {B : Build} (me dev_no lba n : Z) (buf : list Z) (c : channel) :
  dev_no = 0 ∨ dev_no = 1 → 0 ≤ lba → 0 < n → lba + n - 1 ≤ max_lba → 512 * n ≤ Z.of_nat (length buf) → idle (3 * Z.to_nat n) c → clock c = Lock NULL 0 → me ≠ NULL →
  ∃ c', ide_write me dev_no lba buf n c = Ok (tt, c') ∧
    on_dev dev_no c' = disk_write (on_dev dev_no c) lba buf (Z.to_nat n) ∧ on_dev (1 - dev_no) c' = on_dev (1 - dev_no) c ∧
    (∀ l, l < lba ∨ lba + n ≤ l → sector (on_dev dev_no c') l = sector (on_dev dev_no c) l) ∧
    disk_read (on_dev dev_no c') lba (Z.to_nat n) = take (512 * Z.to_nat n) buf ∧ clock c' = Lock NULL 0.
Proof.
  intros Hdev Hl Hn Hm Hb Hi Hlk Hme. unfold ide_write.
  rewrite (mbnd_Ok _ _ _ _ _ (mlift_Ok _ c _ (ASSERT_true _ (proj2 (Z.leb_le lba max_lba) ltac:(lia))))).
  rewrite (mbnd_Ok _ _ _ _ _ (mlift_Ok _ c _ (ASSERT_true _ (proj2 (Z.ltb_lt 0 n) ltac:(lia))))).
  rewrite (mbnd_Ok _ _ _ _ _ (chan_acquire_run me c Hlk Hme)).
  set (v := if dev_no =? 1 then Z.lor (Z.lor BIT_DEV_MBS BIT_DEV_LBA) BIT_DEV_DEV else Z.lor BIT_DEV_MBS BIT_DEV_LBA). set (c0 := set_clock (Lock me 1) c). set (c1 := set_regs (latch reg_dev (u8 v) (regs c0)) c0).
  change (select_disk dev_no) with (outb reg_dev v). rewrite (mbnd_Ok (outb reg_dev v) _ c0 tt c1 eq_refl).
  destruct (ide_write_loop_run (S (Z.to_nat n)) dev_no lba buf 0 n c1) as (c' & E & H0 & H1 & H2); try done; try lia.
  - rewrite Z.sub_0_r. by destruct Hi; split.
  - rewrite Z.sub_0_r, Z.add_0_r in H0. change (drop (512 * Z.to_nat 0) buf) with (drop 0 buf) in H0. rewrite drop_0 in H0.
    change (on_dev dev_no c1) with (on_dev dev_no c) in H0. exists (set_clock (Lock NULL 0) c').
    rewrite (mbnd_Ok _ _ _ _ _ E), (chan_release_run me c' H2). change (on_dev dev_no (set_clock (Lock NULL 0) c')) with (on_dev dev_no c'). rewrite H0.
    split; [done|]. split; [done|]. split; [exact H1|]. split; [|split; [|done]].
    + intros l Hll. apply sector_write_other. lia.
    + apply disk_read_write_same. lia.
Qed.

(** A drive that stays busy. *)
Definition stuck (n : nat) : channel := Channel 46 true 0 (TaskFile 0 0 0 0 0 0) ∅ ∅ (replicate n BIT_STAT_BSY) (Lock NULL 0).

(** [busy_wait] means to wait 30 seconds in steps of 10 ms, 3000 polls, but
    [time_limit -= 10 >= 0] subtracts 1: a drive that stays busy is polled
    29999 times, ten times as long. *)
Theorem busy_wait_too_long {B : Build} : busy_wait (stuck (Z.to_nat 29999)) = Ok (false, stuck 0).
Proof. vm_compute. reflexivity. Qed.

(** ** Witnesses *)

(** 600 sectors, a transfer of three chunks, and a drive that is always ready. *)
Definition ready_channel : channel :=
  Channel 46 false 0 (TaskFile 0 0 0 0 0 0) ∅ {[ 700 := replicate 512 7 ]} (replicate 1800 BIT_STAT_DRQ) (Lock NULL 0).

Lemma ready_channel_idle : idle 1800 ready_channel.
Proof.
  split; [by left|done| |by cbn [status ready_channel]; rewrite length_replicate]. cbn [status ready_channel].
  rewrite take_ge by (by rewrite length_replicate). apply Forall_replicate. by_decide.
Qed.

Lemma ready_channel_ok dev : disk_ok (on_dev dev ready_channel).
Proof.
  unfold on_dev. destruct (dev =? 1); intros l s; cbn [dev0 dev1 ready_channel].
  - rewrite lookup_singleton_Some. by intros [_ <-].
  - by rewrite lookup_empty.
Qed.

Lemma ide_read_sectors_witness : ∃ c',
  @ide_read debug_build 4096 1 400 (replicate (Z.to_nat 307200) 0) 600 ready_channel
    = Ok (splice 0 (disk_read (dev1 ready_channel) 400 (Z.to_nat 600)) (replicate (Z.to_nat 307200) 0), c').
Proof.
  destruct (@ide_read_sectors debug_build 4096 1 400 600 (replicate (Z.to_nat 307200) 0) ready_channel) as (c' & E & _);
    [lia|lia|unfold max_lba; lia|rewrite length_replicate; lia|apply ready_channel_ok|apply ready_channel_idle|reflexivity|discriminate|].
  exists c'. exact E.
Defined.

Lemma ide_write_sectors_witness : ∃ c',
  @ide_write debug_build 4096 1 400 (replicate 1024 9) 2 ready_channel = Ok (tt, c') ∧ dev0 c' = ∅.
Proof.
  destruct (@ide_write_sectors debug_build 4096 1 400 2 (replicate 1024 9) ready_channel) as (c' & E & _ & H & _);
    [by right|lia|lia|unfold max_lba; lia|rewrite length_replicate; lia|split; [by left|done|by_decide|vm_compute; lia]|reflexivity|discriminate|].
  exists c'. split; [exact E|exact H].
Defined.
