(* ===== verification/Inode.v ===== *)
(** * Inodes and the state of the file system ([fs/inode.c], [lib/inode.h],
      [lib/super_block.h], the bitmap functions of [fs/file.c])

    [fs] is the state all file-system code works on: the disk, the mounted
    partition with its two bitmaps and its list of open inodes, the inodes,
    directories and open files in memory, and the descriptors of the running
    task.  Objects in memory are found by their address; [open_inodes] is the
    kernel list in its abstract form ([KList]). *)

From S2P Require Import Prelude Bitmap Disk.

Definition MAX_FILES_PER_PART : Z := 4096.
Definition NULL : Z := 0.

(** ** Data *)

Record inode := Inode {
  i_no : Z;
  i_size : Z;
  i_open_cnts : Z;
  write_deny : bool;
  i_sectors : list Z          (* 12 direct blocks and the table of the others *)
}.

Record super_block := SuperBlock {
  magic : Z; sb_sec_cnt : Z; inode_cnt : Z; part_lba_base : Z;
  block_bitmap_lba : Z; block_bitmap_sects : Z;
  inode_bitmap_lba : Z; inode_bitmap_sects : Z;
  inode_table_lba : Z; inode_table_sects : Z;
  data_start_lba : Z; root_inode_no : Z; dir_entry_size : Z
}.

Record partition := Partition {
  start_lba : Z;
  sec_cnt : Z;
  sb : super_block;
  block_bitmap : bitmap;
  inode_bitmap : bitmap;
  open_inodes : list Z
}.

(** [dir_buf] is the sector [dir_read] returns entries from. *)
Record dir := Dir { d_inode : Z; dir_pos : Z; dir_buf : list Z }.
Record file := File { fd_pos : Z; fd_flag : Z; fd_inode : Z }.

(** [brk] is the address the next [sys_malloc] returns, [oom] says of the
    coming calls whether they fail, [live] counts the blocks that were
    allocated and not freed. *)
Record fs := Fs {
  drive : disk;
  cur_part : partition;
  inodes : gmap Z inode;
  dirs : gmap Z dir;
  file_table : list file;
  fd_table : list Z;
  cwd_inode_nr : Z;
  brk : Z;
  oom : list bool;
  live : Z
}.

Definition set_drive d s := Fs d (cur_part s) (inodes s) (dirs s) (file_table s) (fd_table s) (cwd_inode_nr s) (brk s) (oom s) (live s).
Definition set_part p s := Fs (drive s) p (inodes s) (dirs s) (file_table s) (fd_table s) (cwd_inode_nr s) (brk s) (oom s) (live s).
Definition set_inodes m s := Fs (drive s) (cur_part s) m (dirs s) (file_table s) (fd_table s) (cwd_inode_nr s) (brk s) (oom s) (live s).
Definition set_dirs m s := Fs (drive s) (cur_part s) (inodes s) m (file_table s) (fd_table s) (cwd_inode_nr s) (brk s) (oom s) (live s).
Definition set_file_table t s := Fs (drive s) (cur_part s) (inodes s) (dirs s) t (fd_table s) (cwd_inode_nr s) (brk s) (oom s) (live s).
Definition set_fd_table t s := Fs (drive s) (cur_part s) (inodes s) (dirs s) (file_table s) t (cwd_inode_nr s) (brk s) (oom s) (live s).
Definition set_cwd n s := Fs (drive s) (cur_part s) (inodes s) (dirs s) (file_table s) (fd_table s) n (brk s) (oom s) (live s).
Definition set_heap b o l s := Fs (drive s) (cur_part s) (inodes s) (dirs s) (file_table s) (fd_table s) (cwd_inode_nr s) b o l.

Definition set_block_bitmap b p := Partition (start_lba p) (sec_cnt p) (sb p) b (inode_bitmap p) (open_inodes p).
Definition set_inode_bitmap b p := Partition (start_lba p) (sec_cnt p) (sb p) (block_bitmap p) b (open_inodes p).
Definition set_open_inodes l p := Partition (start_lba p) (sec_cnt p) (sb p) (block_bitmap p) (inode_bitmap p) l.

Definition set_i_sectors l i := Inode (i_no i) (i_size i) (i_open_cnts i) (write_deny i) l.
Definition set_i_size n i := Inode (i_no i) n (i_open_cnts i) (write_deny i) (i_sectors i).
Definition set_open_cnts n i := Inode (i_no i) (i_size i) n (write_deny i) (i_sectors i).
Definition set_write_deny b i := Inode (i_no i) (i_size i) (i_open_cnts i) b (i_sectors i).

(** ** Memory *)

(** [sys_malloc] returns zeroed memory or NULL; [sys_free] takes it back. *)
Definition sys_malloc : M fs Z := λ s,
  match oom s with
  | true :: l => Ok (NULL, set_heap (brk s) l (live s) s)
  | _ => Ok (brk s, set_heap (brk s + 1) (tail (oom s)) (live s + 1) s)
  end.
Definition sys_free : M fs unit := mmod (λ s, set_heap (brk s) (oom s) (live s - 1) s).

(** An I/O buffer of [n] zeroed bytes. *)
Definition malloc_buf (n : nat) : M fs (option (list Z)) :=
  let! p := sys_malloc in mok (if p =? NULL then None else Some (replicate n 0)).

Definition inode_at (p : Z) : M fs inode := λ s,
  match inodes s !! p with Some i => Ok (i, s) | None => Fault end.
Definition put_inode (p : Z) (i : inode) : M fs unit := mmod (λ s, set_inodes (<[p := i]> (inodes s)) s).

Section inode_ops.
Context {B : Build}.

(** ** The driver, as [Ide] proves it *)

(** [ide_read(disk, lba, buf + off, n)] gives the buffer afterwards. *)
Definition ide_read (lba : Z) (buf : list Z) (off : Z) (n : nat) : M fs (list Z) := λ s,
  check ASSERT (lba <=? max_lba) in
  let? buf := put_at buf off (disk_read (drive s) lba n) in Ok (buf, s).

Definition ide_write (lba : Z) (buf : list Z) (off : Z) (n : nat) : M fs unit := λ s,
  check ASSERT (lba <=? max_lba) in
  let? bytes := get_at buf off (512 * Z.of_nat n) in
  Ok (tt, set_drive (disk_write (drive s) lba bytes n) s).

(** ** Bitmaps on disk ([fs/file.c]) *)

Inductive bitmap_type := INODE_BITMAP | BLOCK_BITMAP.

Definition inode_bitmap_alloc : M fs Z :=
  let! p := mget cur_part in
  let! bit_idx := mlift (bitmap_scan (inode_bitmap p) 1) in
  if bit_idx =? -1 then mok (-1) else
  let! b := mlift (bitmap_set (inode_bitmap p) bit_idx 1) in
  do! mmod (set_part (set_inode_bitmap b p)) in
  mok bit_idx.

Definition block_bitmap_alloc : M fs Z :=
  let! p := mget cur_part in
  let! bit_idx := mlift (bitmap_scan (block_bitmap p) 1) in
  if bit_idx =? -1 then mok (-1) else
  let! b := mlift (bitmap_set (block_bitmap p) bit_idx 1) in
  do! mmod (set_part (set_block_bitmap b p)) in
  mok (s32 (data_start_lba (sb p) + bit_idx)).

Definition bitmap_sync (bit_idx : Z) (btmp_type : bitmap_type) : M fs unit :=
  let! p := mget cur_part in
  let off_sec := bit_idx / 4096 in
  let off_size := off_sec * BLOCK_SIZE in
  match btmp_type with
  | INODE_BITMAP => ide_write (u32 (inode_bitmap_lba (sb p) + off_sec)) (bits (inode_bitmap p)) off_size 1
  | BLOCK_BITMAP => ide_write (u32 (block_bitmap_lba (sb p) + off_sec)) (bits (block_bitmap p)) off_size 1
  end.

(** [bitmap_set(&part->block_bitmap, i, v)] and its inode counterpart *)
Definition set_block_bit (i v : Z) : M fs unit :=
  let! p := mget cur_part in
  let! b := mlift (bitmap_set (block_bitmap p) i v) in mmod (set_part (set_block_bitmap b p)).
Definition set_inode_bit (i v : Z) : M fs unit :=
  let! p := mget cur_part in
  let! b := mlift (bitmap_set (inode_bitmap p) i v) in mmod (set_part (set_inode_bitmap b p)).

(** ** The layout of an inode: 19 words, 76 bytes *)

Definition inode_size : Z := 76.

(** [pure_inode]: [i_open_cnts], [write_deny] and [inode_tag] are cleared. *)
Definition pure_words (i : inode) : list Z := [i_no i; i_size i; 0; 0] ++ i_sectors i ++ [0; 0].
Definition inode_of_bytes (bs : list Z) : option inode :=
  match words_of bs with
  | no :: size :: cnts :: deny :: ws => Some (Inode no size cnts (negb (deny =? 0)) (take 13 ws))
  | _ => None
  end.

Definition inode_locate (inode_no : Z) : M fs (bool * Z * Z) :=
  do! mlift (ASSERT (inode_no <? 4096)) in
  let! p := mget cur_part in
  let off_size := u32 (inode_no * inode_size) in
  let off_sec := off_size / 512 in
  let off_size_in_sec := off_size mod 512 in
  let left_in_sec := 512 - off_size_in_sec in
  mok (left_in_sec <? inode_size, u32 (inode_table_lba (sb p) + off_sec), off_size_in_sec).

Definition inode_sync (i : inode) (io_buf : list Z) : M fs (list Z) :=
  let inode_no := u8 (i_no i) in
  let! pos := inode_locate inode_no in
  let '(two_sec, sec_lba, off_size) := pos in
  let! p := mget cur_part in
  do! mlift (ASSERT (sec_lba <=? u32 (start_lba p + sec_cnt p))) in
  let n := if two_sec then 2%nat else 1%nat in
  let! inode_buf := ide_read sec_lba io_buf 0 n in
  let! inode_buf := mlift (put_at inode_buf off_size (bytes_of (pure_words i))) in
  do! ide_write sec_lba inode_buf 0 n in
  mok inode_buf.

(** The search in [open_inodes] *)
Fixpoint find_open (l : list Z) (m : gmap Z inode) (inode_no : Z) : option Z :=
  match l with
  | [] => None
  | p :: l' =>
      match m !! p with
      | Some i => if i_no i =? inode_no then Some p else find_open l' m inode_no
      | None => None
      end
  end.

Definition inode_open (inode_no : Z) : M fs Z :=
  let! p := mget cur_part in
  let! m := mget inodes in
  match find_open (open_inodes p) m inode_no with
  | Some q =>
      let! i := inode_at q in
      do! put_inode q (set_open_cnts (u32 (i_open_cnts i + 1)) i) in mok q
  | None =>
      let! pos := inode_locate inode_no in
      let '(two_sec, sec_lba, off_size) := pos in
      let! inode_found := sys_malloc in
      let n := if two_sec then 2%nat else 1%nat in
      let! inode_buf := malloc_buf (512 * n) in
      match inode_buf with
      | None => λ _, Fault
      | Some inode_buf =>
          let! inode_buf := ide_read sec_lba inode_buf 0 n in
          let! bs := mlift (get_at inode_buf off_size inode_size) in
          if inode_found =? NULL then λ _, Fault else
          match inode_of_bytes bs with
          | None => λ _, Fault
          | Some i =>
              do! mmod (λ s, set_part (set_open_inodes (inode_found :: open_inodes (cur_part s)) (cur_part s)) s) in
              do! put_inode inode_found (set_open_cnts 1 i) in
              do! sys_free in
              mok inode_found
          end
      end
  end.

Definition inode_close (q : Z) : M fs unit :=
  let! i := inode_at q in
  let cnt := u32 (i_open_cnts i - 1) in
  do! put_inode q (set_open_cnts cnt i) in
  if cnt =? 0 then
    do! mmod (λ s, set_part (set_open_inodes (filter (λ x, x ≠ q) (open_inodes (cur_part s))) (cur_part s)) s) in
    do! mmod (λ s, set_inodes (delete q (inodes s)) s) in
    sys_free
  else mok tt.

Definition inode_delete (inode_no : Z) (io_buf : list Z) : M fs (list Z) :=
  do! mlift (ASSERT (inode_no <? 4096)) in
  let! pos := inode_locate inode_no in
  let '(two_sec, sec_lba, off_size) := pos in
  let! p := mget cur_part in
  do! mlift (ASSERT (sec_lba <=? u32 (start_lba p + sec_cnt p))) in
  let n := if two_sec then 2%nat else 1%nat in
  let! inode_buf := ide_read sec_lba io_buf 0 n in
  let! inode_buf := mlift (put_at inode_buf off_size (replicate 76 0)) in
  do! ide_write sec_lba inode_buf 0 n in
  mok inode_buf.

(** Frees the blocks in the list that are not 0. *)
Fixpoint free_blocks (blocks : list Z) : M fs unit :=
  match blocks with
  | [] => mok tt
  | b :: blocks' =>
      do! (if negb (b =? 0) then
             let! p := mget cur_part in
             let block_bitmap_idx := u32 (b - data_start_lba (sb p)) in
             do! mlift (ASSERT (0 <? block_bitmap_idx)) in
             do! set_block_bit block_bitmap_idx 0 in
             bitmap_sync block_bitmap_idx BLOCK_BITMAP
           else mok tt) in
      free_blocks blocks'
  end.

Definition inode_release (inode_no : Z) : M fs unit :=
  let! inode_to_del := inode_open inode_no in
  let! i := inode_at inode_to_del in
  do! mlift (ASSERT (i_no i =? inode_no)) in
  let! tbl := mlift (rd (i_sectors i) 12) in
  let! all_blocks :=
    (if negb (tbl =? 0) then
       let! t := ide_read tbl (replicate 512 0) 0 1 in
       let! p := mget cur_part in
       let block_bitmap_idx := u32 (tbl - data_start_lba (sb p)) in
       do! mlift (ASSERT (0 <? block_bitmap_idx)) in
       do! set_block_bit block_bitmap_idx 0 in
       do! bitmap_sync block_bitmap_idx BLOCK_BITMAP in
       mok (take 12 (i_sectors i) ++ words_of t)
     else mok (take 12 (i_sectors i))) in
  do! free_blocks all_blocks in
  do! set_inode_bit inode_no 0 in
  do! bitmap_sync inode_no INODE_BITMAP in
  let! io_buf := malloc_buf 1024 in
  match io_buf with
  | None => λ _, Fault
  | Some io_buf =>
      let! _ := inode_delete inode_no io_buf in
      do! sys_free in
      inode_close inode_to_del
  end.

Definition inode_init (inode_no : Z) : inode := Inode inode_no 0 0 false (replicate 13 0).

End inode_ops.

(** ** Where things are on disk *)

(** The regions of a mounted partition, in the order [partition_format] lays
    them out; a block that can still be allocated is on the disk. *)
Record layout (s : fs) : Prop := {
  ly_disk : disk_ok (drive s);
  ly_bb : 0 ≤ block_bitmap_lba (sb (cur_part s));
  ly_bbs : 0 ≤ block_bitmap_sects (sb (cur_part s));
  ly_ib : block_bitmap_lba (sb (cur_part s)) + block_bitmap_sects (sb (cur_part s)) ≤ inode_bitmap_lba (sb (cur_part s));
  ly_it : inode_bitmap_lba (sb (cur_part s)) + 1 ≤ inode_table_lba (sb (cur_part s));
  ly_data : inode_table_lba (sb (cur_part s)) + 608 ≤ data_start_lba (sb (cur_part s));
  ly_part : data_start_lba (sb (cur_part s)) ≤ start_lba (cur_part s) + sec_cnt (cur_part s) ≤ max_lba;
  ly_blocks : bitmap_ok (block_bitmap (cur_part s)) ∧ slack (block_bitmap (cur_part s));
  ly_bbytes : btmp_bytes_len (block_bitmap (cur_part s)) = block_bitmap_sects (sb (cur_part s)) * 512;
  ly_inodes : bitmap_ok (inode_bitmap (cur_part s)) ∧ slack (inode_bitmap (cur_part s));
  ly_ibytes : btmp_bytes_len (inode_bitmap (cur_part s)) = 512;
  ly_free : ∀ k, 0 ≤ k < bit_cnt (block_bitmap (cur_part s)) → bit (block_bitmap (cur_part s)) k = false →
    data_start_lba (sb (cur_part s)) + k ≤ max_lba;
  ly_root : bit (block_bitmap (cur_part s)) 0 = true;
}.

Definition table_lba (s : fs) : Z := inode_table_lba (sb (cur_part s)).
Definition data_lba (s : fs) : Z := data_start_lba (sb (cur_part s)).

(** The inode table as bytes, and the 76 bytes of one inode. *)
Definition table (s : fs) : list Z := disk_read (drive s) (table_lba s) 608.
Definition slot (s : fs) (n : Z) : list Z := take 76 (drop (Z.to_nat (76 * n)) (table s)).

(** An inode with fields of the right width. *)
Definition inode_ok (i : inode) : Prop :=
  is_u32 (i_no i) ∧ is_u32 (i_size i) ∧ length (i_sectors i) = 13%nat ∧ Forall is_u32 (i_sectors i).

#[global] Instance inode_ok_dec i : Decision (inode_ok i).
Proof. unfold inode_ok. apply _. Defined.

(** ** Lemmas *)

Section inode_lemmas.
Context {B : Build}.

Lemma fs_ext s s' :
  drive s = drive s' → cur_part s = cur_part s' → inodes s = inodes s' → dirs s = dirs s' → file_table s = file_table s' →
  fd_table s = fd_table s' → cwd_inode_nr s = cwd_inode_nr s' → brk s = brk s' → oom s = oom s' → live s = live s' → s = s'.
Proof. destruct s, s'. cbn. congruence. Qed.

Lemma table_length s : layout s → length (table s) = (512 * 608)%nat.
Proof. intros Hl. unfold table. apply disk_read_length, Hl. Qed.

Lemma ide_read_run lba buf off n s :
  lba ≤ max_lba → disk_ok (drive s) → 0 ≤ off → off + 512 * Z.of_nat n ≤ Z.of_nat (length buf) →
  ide_read lba buf off n s = Ok (splice (Z.to_nat off) (disk_read (drive s) lba n) buf, s).
Proof.
  intros Hl Hd Ho Hb. unfold ide_read. rewrite ASSERT_true by (by apply Z.leb_le). cbn [rbind].
  rewrite put_at_Ok by (rewrite ?disk_read_length by done; lia). done.
Qed.

Lemma ide_read_fault lba buf off n s :
  disk_ok (drive s) → Z.of_nat (length buf) < off + 512 * Z.of_nat n → lba ≤ max_lba → ide_read lba buf off n s = Fault.
Proof.
  intros Hd Hb Hl. unfold ide_read. rewrite ASSERT_true by (by apply Z.leb_le). cbn [rbind].
  rewrite put_at_Fault by (rewrite disk_read_length by done; lia). done.
Qed.

Lemma ide_write_run lba buf off n s :
  lba ≤ max_lba → 0 ≤ off → off + 512 * Z.of_nat n ≤ Z.of_nat (length buf) →
  ide_write lba buf off n s = Ok (tt, set_drive (disk_write (drive s) lba (take (512 * n) (drop (Z.to_nat off) buf)) n) s).
Proof.
  intros Hl Ho Hb. unfold ide_write. rewrite ASSERT_true by (by apply Z.leb_le). cbn [rbind].
  rewrite get_at_Ok by lia. cbn [rbind]. by replace (Z.to_nat (512 * Z.of_nat n)) with (512 * n)%nat by lia.
Qed.

(** How many sectors the inode touches, and where it starts. *)
Definition straddles (n : Z) : bool := 512 - (76 * n) mod 512 <? 76.
Definition isecs (n : Z) : nat := if straddles n then 2%nat else 1%nat.

Lemma isecs_fit n : 0 ≤ n < 4096 → 76 * n mod 512 + 76 ≤ 512 * Z.of_nat (isecs n) ∧ 76 * n / 512 + Z.of_nat (isecs n) ≤ 608.
Proof.
  intros H. unfold isecs, straddles. destruct (Z.ltb_spec (512 - (76 * n) mod 512) 76); zsolve.
Qed.

Lemma inode_locate_run n s :
  0 ≤ n < 4096 → layout s →
  inode_locate n s = Ok ((straddles n, table_lba s + 76 * n / 512, 76 * n mod 512), s).
Proof.
  intros Hn Hl. unfold inode_locate. rewrite (mbnd_Ok _ _ _ _ _ (mlift_Ok _ s _ (ASSERT_true _ (proj2 (Z.ltb_lt n 4096) ltac:(lia))))).
  unfold mbnd, mget, mok. cbn [rbind fst snd]. unfold inode_size. rewrite (u32_small (n * 76)) by lia.
  replace (n * 76) with (76 * n) by lia. unfold straddles. f_equal. f_equal. f_equal. f_equal. unfold table_lba.
  destruct Hl. rewrite u32_small; [done|]. unfold max_lba in *. zsolve.
Qed.

Lemma pure_words_length i : inode_ok i → length (bytes_of (pure_words i)) = 76%nat.
Proof. intros (_ & _ & H & _). rewrite bytes_of_length. unfold pure_words. rewrite !length_app, H. done. Qed.

(** A rewrite of [m] bytes of the table at the slot of inode [n]. *)
Lemma table_update n m s bytes :
  0 ≤ n < 4096 → layout s → length bytes = 76%nat → (m = isecs n) →
  let lba := table_lba s + 76 * n / 512 in
  let new := splice (Z.to_nat (76 * n mod 512)) bytes (disk_read (drive s) lba m) in
  let s' := set_drive (disk_write (drive s) lba new m) s in
  table s' = splice (Z.to_nat (76 * n)) bytes (table s) ∧ disk_ok (drive s') ∧
  (∀ l, l < table_lba s ∨ table_lba s + 608 ≤ l → sector (drive s') l = sector (drive s) l).
Proof.
  intros Hn Hl Hb -> lba new s'. pose proof (isecs_fit n Hn) as [Hf1 Hf2]. set (m := isecs n) in *.
  pose proof (ly_disk s Hl) as Hd. set (q := Z.to_nat (76 * n / 512)).
  assert (Hq : lba = table_lba s + Z.of_nat q) by (unfold lba, q; rewrite Z2Nat.id by zsolve; done).
  assert (Hoff : Z.to_nat (76 * n) = (512 * q + Z.to_nat (76 * n mod 512))%nat) by (unfold q; zsolve).
  assert (Hnew : length new = (512 * m)%nat).
  { unfold new. rewrite splice_length; [by apply disk_read_length|]. rewrite disk_read_length, Hb by done. zsolve. }
  split; [|split].
  - unfold table, s'. cbn [drive set_drive cur_part]. change (table_lba (set_drive _ s)) with (table_lba s). rewrite Hq.
    rewrite disk_write_sub by (done || lia). unfold new. rewrite Hq. rewrite (disk_read_sub _ (table_lba s) 608 q m) by (done || lia).
    rewrite <-(splice_window (Z.to_nat (76 * n)) bytes _ (512 * q) (512 * m)); try (rewrite ?disk_read_length by done; zsolve).
    do 2 f_equal. lia.
  - unfold s'. cbn [drive set_drive]. apply disk_write_ok; [done|]. lia.
  - intros l Hll. unfold s'. cbn [drive set_drive]. apply sector_write_other. lia.
Qed.

Lemma sb_lba_bound s : layout s → 0 < table_lba s ∧ table_lba s + 608 ≤ max_lba.
Proof. intros []. unfold table_lba. lia. Qed.

(** [inode_sync] and [inode_delete] store 76 bytes in the slot. *)
Lemma store_slot_run n bytes io_buf s :
  0 ≤ n < 4096 → layout s → length bytes = 76%nat → (512 * isecs n ≤ length io_buf)%nat →
  let lba := table_lba s + 76 * n / 512 in
  ∃ buf' s', (let! b := ide_read lba io_buf 0 (isecs n) in
       let! b := mlift (put_at b (76 * n mod 512) bytes) in
       do! ide_write lba b 0 (isecs n) in mok b) s = Ok (buf', s') ∧
    (∃ d, s' = set_drive d s ∧ disk_ok d ∧ ∀ l, l < table_lba s ∨ table_lba s + 608 ≤ l → sector d l = sector (drive s) l) ∧
    table s' = splice (Z.to_nat (76 * n)) bytes (table s) ∧ length buf' = length io_buf.
Proof.
  intros Hn Hl Hb Hio lba. pose proof (isecs_fit n Hn) as [Hf1 Hf2]. pose proof (sb_lba_bound s Hl) as [Ht1 Ht2].
  pose proof (ly_disk s Hl) as Hd. assert (Hlba : lba ≤ max_lba) by (unfold lba; zsolve).
  rewrite (mbnd_Ok _ _ _ _ _ (ide_read_run lba io_buf 0 (isecs n) s Hlba Hd ltac:(lia) ltac:(lia))).
  set (R := disk_read (drive s) lba (isecs n)). assert (HR : length R = (512 * isecs n)%nat) by (by apply disk_read_length).
  change (splice (Z.to_nat 0) R io_buf) with (R ++ drop (length R) io_buf).
  assert (Hbl : length (R ++ drop (length R) io_buf) = length io_buf) by (rewrite length_app, length_drop; lia).
  rewrite (mbnd_Ok _ _ _ _ _ (mlift_Ok _ s _ (put_at_Ok (R ++ drop (length R) io_buf) (76 * n mod 512) bytes ltac:(zsolve) ltac:(lia)))).
  set (b2 := splice _ bytes _). assert (Hb2l : length b2 = length io_buf) by (unfold b2; rewrite splice_length by (rewrite Hbl; zsolve); done).
  rewrite (mbnd_Ok _ _ _ _ _ (ide_write_run lba b2 0 (isecs n) s Hlba ltac:(lia) ltac:(lia))). change (drop (Z.to_nat 0) b2) with b2.
  assert (Hb2 : take (512 * isecs n) b2 = splice (Z.to_nat (76 * n mod 512)) bytes R).
  { unfold b2, splice. rewrite (take_app_le R) by zsolve. rewrite (drop_app_le R) by zsolve. rewrite !app_assoc.
    rewrite take_app_length'; [done|]. rewrite !length_app, length_take, length_drop. zsolve. }
  rewrite Hb2. destruct (table_update n (isecs n) s bytes Hn Hl Hb eq_refl) as (HT & HD & HO).
  eexists b2, _. split; [done|]. split; [|done]. eexists. split; [done|]. split; [exact HD|exact HO].
Qed.

Lemma layout_set_drive d s : layout s → disk_ok d → layout (set_drive d s).
Proof. intros [] Hd. by split. Qed.

Lemma inode_sync_run i io_buf s :
  layout s → inode_ok i → (512 * isecs (u8 (i_no i)) ≤ length io_buf)%nat →
  ∃ buf' s', inode_sync i io_buf s = Ok (buf', s') ∧
    (∃ d, s' = set_drive d s ∧ disk_ok d ∧ ∀ l, l < table_lba s ∨ table_lba s + 608 ≤ l → sector d l = sector (drive s) l) ∧
    table s' = splice (Z.to_nat (76 * u8 (i_no i))) (bytes_of (pure_words i)) (table s) ∧ length buf' = length io_buf.
Proof.
  intros Hl Hi Hio. set (n := u8 (i_no i)) in *. assert (Hn : 0 ≤ n < 4096) by (pose proof (u8_range (i_no i)); lia).
  destruct (store_slot_run n (bytes_of (pure_words i)) io_buf s Hn Hl (pure_words_length i Hi) Hio) as (buf' & s' & E & H).
  exists buf', s'. split; [|done]. unfold inode_sync. fold n. rewrite (mbnd_Ok _ _ _ _ _ (inode_locate_run n s Hn Hl)).
  unfold mbnd at 1. unfold mget at 1. cbn [rbind fst snd].
  rewrite (mbnd_Ok _ _ _ _ _ (mlift_Ok _ s _ (ASSERT_true (table_lba s + 76 * n / 512 <=? u32 (start_lba (cur_part s) + sec_cnt (cur_part s))) ltac:(destruct Hl; apply Z.leb_le; rewrite u32_small by (unfold max_lba in *; lia); unfold table_lba; zsolve)))).
  fold (isecs n). exact E.
Qed.

Lemma inode_sync_short i io_buf s :
  layout s → inode_ok i → (length io_buf < 512 * isecs (u8 (i_no i)))%nat → inode_sync i io_buf s = Fault.
Proof.
  intros Hl Hi Hio. set (n := u8 (i_no i)) in *. assert (Hn : 0 ≤ n < 4096) by (pose proof (u8_range (i_no i)); lia).
  unfold inode_sync. fold n. rewrite (mbnd_Ok _ _ _ _ _ (inode_locate_run n s Hn Hl)).
  unfold mbnd at 1. unfold mget at 1. cbn [rbind fst snd].
  rewrite (mbnd_Ok _ _ _ _ _ (mlift_Ok _ s _ (ASSERT_true (table_lba s + 76 * n / 512 <=? u32 (start_lba (cur_part s) + sec_cnt (cur_part s))) ltac:(destruct Hl; apply Z.leb_le; rewrite u32_small by (unfold max_lba in *; lia); unfold table_lba; zsolve)))).
  fold (isecs n). unfold mbnd at 1. rewrite ide_read_fault; [done|apply Hl|lia|]. pose proof (sb_lba_bound s Hl). unfold max_lba in *. zsolve.
Qed.

(** The slots are disjoint. *)
Lemma slot_splice s s' n m bytes :
  0 ≤ n < 4096 → 0 ≤ m < 4096 → layout s → length bytes = 76%nat → table s' = splice (Z.to_nat (76 * n)) bytes (table s) →
  slot s' m = if decide (m = n) then bytes else slot s m.
Proof.
  intros Hn Hm Hl Hb Ht. unfold slot. rewrite Ht. pose proof (table_length s Hl). case_decide as E.
  - subst m. rewrite <-Hb. apply splice_read. lia.
  - apply splice_other; lia.
Qed.

(** What [inode_open] decodes. *)
Lemma inode_of_pure i : inode_ok i → inode_of_bytes (bytes_of (pure_words i)) = Some (Inode (i_no i) (i_size i) 0 false (i_sectors i)).
Proof.
  intros (H1 & H2 & H3 & H4). unfold inode_of_bytes. rewrite words_of_bytes_of.
  - unfold pure_words. cbn [app]. change (negb (0 =? 0)) with false. rewrite take_app_length' by done. done.
  - assert (Hz : is_u32 0) by (unfold is_u32; lia). unfold pure_words.
    apply Forall_app. split; [by eauto 10 using Forall_cons_2, Forall_nil_2|].
    apply Forall_app. split; [done|by eauto using Forall_cons_2, Forall_nil_2].
Qed.

Lemma find_open_none_in l m n p : find_open l m n = None → p ∈ l → Forall (λ q, is_Some (m !! q)) l → ∃ i, m !! p = Some i ∧ i_no i ≠ n.
Proof.
  induction l as [|q l IH]; intros Hf Hin Hall; [by apply not_elem_of_nil in Hin|]. apply Forall_cons in Hall as [[i Hi] Hall].
  simpl in Hf. rewrite Hi in Hf. destruct (Z.eqb_spec (i_no i) n) as [|Hne]; [done|].
  apply elem_of_cons in Hin as [->|Hin]; [eauto|by apply IH].
Qed.

(** A fresh [inode_open]. *)
(** The search goes by number, and looks only at the inodes on the list. *)
Lemma find_open_insert l m q i i' n :
  m !! q = Some i → i_no i' = i_no i → find_open l m n = Some q → find_open l (<[q := i']> m) n = Some q.
Proof.
  intros Hq Hn. induction l as [|p l IH]; [done|]. cbn [find_open]. destruct (decide (p = q)) as [->|Hne].
  - rewrite lookup_insert_eq, Hq, Hn. by destruct (i_no i =? n).
  - rewrite lookup_insert_ne by done. destruct (m !! p); [|done]. by destruct (i_no _ =? n).
Qed.

Lemma inode_open_hit n q i s :
  find_open (open_inodes (cur_part s)) (inodes s) n = Some q → inodes s !! q = Some i → 0 ≤ i_open_cnts i < 4294967295 →
  inode_open n s = Ok (q, set_inodes (<[q := set_open_cnts (i_open_cnts i + 1) i]> (inodes s)) s).
Proof.
  intros Hf Hq Hc. unfold inode_open, mbnd, mget, inode_at, put_inode, mmod, mok. cbn [rbind fst snd]. rewrite Hf, Hq. cbn [rbind fst snd].
  by rewrite u32_small by lia.
Qed.

Lemma inode_open_miss n i s :
  0 ≤ n < 4096 → layout s → oom s = [] → 0 < brk s → find_open (open_inodes (cur_part s)) (inodes s) n = None →
  inode_of_bytes (slot s n) = Some i →
  inode_open n s = Ok (brk s, set_heap (brk s + 2) [] (live s + 1)
    (set_inodes (<[brk s := set_open_cnts 1 i]> (inodes s)) (set_part (set_open_inodes (brk s :: open_inodes (cur_part s)) (cur_part s)) s))).
Proof.
  intros Hn Hl Ho Hbrk Hf Hi. unfold inode_open. unfold mbnd at 1. unfold mget at 1. cbn [rbind fst snd].
  unfold mbnd at 1. unfold mget at 1. cbn [rbind fst snd]. rewrite Hf.
  rewrite (mbnd_Ok _ _ _ _ _ (inode_locate_run n s Hn Hl)).
  assert (Hm : ∀ s, oom s = [] → sys_malloc s = Ok (brk s, set_heap (brk s + 1) [] (live s + 1) s)) by (intros s0 E0; unfold sys_malloc; by rewrite E0).
  rewrite (mbnd_Ok _ _ _ _ _ (Hm s Ho)). set (s1 := set_heap _ _ _ s).
  assert (Hb : malloc_buf (512 * (if straddles n then 2 else 1)) s1 = Ok (Some (replicate (512 * isecs n) 0), set_heap (brk s1 + 1) [] (live s1 + 1) s1)).
  { unfold malloc_buf. rewrite (mbnd_Ok _ _ _ _ _ (Hm s1 eq_refl)). unfold mok. by rewrite (proj2 (Z.eqb_neq (brk s1) NULL)) by (cbn; unfold NULL; lia). }
  rewrite (mbnd_Ok _ _ _ _ _ Hb). set (s2 := set_heap _ _ _ s1). fold (isecs n).
  pose proof (isecs_fit n Hn) as [Hf1 Hf2]. pose proof (sb_lba_bound s Hl) as [Ht1 Ht2].
  assert (Hlba : table_lba s + 76 * n / 512 ≤ max_lba) by zsolve.
  rewrite (mbnd_Ok _ _ _ _ _ (ide_read_run _ (replicate (512 * isecs n) 0) 0 (isecs n) s2 Hlba (ly_disk s Hl) ltac:(lia) ltac:(rewrite length_replicate; lia))).
  set (R := disk_read (drive s2) _ _). assert (HR : length R = (512 * isecs n)%nat) by (apply disk_read_length, Hl).
  assert (HRs : splice (Z.to_nat 0) R (replicate (512 * isecs n) 0) = R).
  { change (R ++ drop (length R) (replicate (512 * isecs n) 0) = R). rewrite drop_ge by (rewrite length_replicate; lia). apply app_nil_r. }
  rewrite HRs.
  rewrite (mbnd_Ok _ _ _ _ _ (mlift_Ok _ s2 _ (get_at_Ok R (76 * n mod 512) inode_size ltac:(zsolve) ltac:(done) ltac:(unfold inode_size; lia)))).
  rewrite (proj2 (Z.eqb_neq (brk s) NULL)) by (unfold NULL; lia).
  assert (Hsl : take (Z.to_nat inode_size) (drop (Z.to_nat (76 * n mod 512)) R) = slot s n).
  { unfold slot, R, table. change (Z.to_nat inode_size) with 76%nat. cbn [drive set_heap s2 s1].
    replace (table_lba s + 76 * n / 512) with (table_lba s + Z.of_nat (Z.to_nat (76 * n / 512))) by (rewrite Z2Nat.id; zsolve).
    rewrite (disk_read_sub _ (table_lba s) 608) by (apply Hl || zsolve). rewrite skipn_firstn_comm, drop_drop, take_take. f_equal; [zsolve|].
    f_equal. zsolve. }
  rewrite Hsl, Hi. unfold mbnd, mmod, put_inode, sys_free, mok. cbn [rbind fst snd].
  unfold s2, s1, set_heap, set_inodes, set_part. cbn. do 3 f_equal; lia.
Qed.

(** *** Bitmaps in memory and on disk *)

(** The copy on disk is the copy in memory. *)
Definition coherent (s : fs) : Prop :=
  disk_read (drive s) (block_bitmap_lba (sb (cur_part s))) (Z.to_nat (block_bitmap_sects (sb (cur_part s))))
    = take (Z.to_nat (btmp_bytes_len (block_bitmap (cur_part s)))) (bits (block_bitmap (cur_part s))).

Lemma bitmap_set_byte b i v b' :
  bitmap_set b i v = Ok b' → btmp_bytes_len b' = btmp_bytes_len b ∧ ∃ w, bits b' = <[Z.to_nat (i / 8) := w]> (bits b).
Proof.
  unfold bitmap_set. intros H. apply rbind_Ok_inv in H as (? & _ & H). apply rbind_Ok_inv in H as (? & _ & H).
  apply rbind_Ok_inv in H as (l & H1 & H2). apply wr_Ok_inv in H1 as [_ ->]. injection H2 as <-. eauto.
Qed.

Definition with_blocks (b : bitmap) (s : fs) : fs := set_part (set_block_bitmap b (cur_part s)) s.

(** [bitmap_sync] after a change of one bit restores the copy on disk and
    writes nowhere else. *)
Lemma block_sync_run s b k v :
  layout s → 0 ≤ k < bit_cnt (block_bitmap (cur_part s)) → bitmap_set (block_bitmap (cur_part s)) k v = Ok b →
  ∃ d, bitmap_sync k BLOCK_BITMAP (with_blocks b s) = Ok (tt, set_drive d (with_blocks b s)) ∧ disk_ok d ∧
    (coherent s → coherent (set_drive d (with_blocks b s))) ∧
    ∀ l, l < block_bitmap_lba (sb (cur_part s)) ∨ inode_bitmap_lba (sb (cur_part s)) ≤ l → sector d l = sector (drive s) l.
Proof.
  intros Hl Hk Hset. destruct (bitmap_set_byte _ _ _ _ Hset) as [Hlen [w Hbits]].
  pose proof (ly_blocks s Hl) as [[Hb1 Hb2 _] Hsl]. pose proof (ly_bbytes s Hl) as Hbytes. unfold bit_cnt in Hk. unfold slack in Hsl.
  pose proof (ly_ib s Hl) as G1. pose proof (ly_it s Hl) as G2. pose proof (ly_data s Hl) as G3. pose proof (ly_part s Hl) as G4. pose proof (ly_bb s Hl) as G5.
  set (bl := block_bitmap_lba (sb (cur_part s))) in *. set (bn := block_bitmap_sects (sb (cur_part s))) in *.
  set (old := block_bitmap (cur_part s)) in *. pose proof (ly_disk s Hl) as Hd.
  assert (Hq : 0 ≤ k / 4096 < bn) by zsolve. set (q := Z.to_nat (k / 4096)).
  assert (Hlba : u32 (bl + k / 4096) = bl + Z.of_nat q).
  { unfold q. rewrite Z2Nat.id by lia. unfold max_lba in *. apply u32_small. lia. }
  assert (Hmax : bl + Z.of_nat q ≤ max_lba).
  { unfold q. rewrite Z2Nat.id by lia. lia. }
  assert (Hbl : length (bits b) = length (bits old)) by (rewrite Hbits; apply length_insert).
  set (bytes := take (512 * 1) (drop (Z.to_nat (k / 4096 * BLOCK_SIZE)) (bits b))).
  assert (Hoff : Z.to_nat (k / 4096 * BLOCK_SIZE) = (512 * q)%nat) by (unfold BLOCK_SIZE, q; lia).
  assert (Hby : length bytes = 512%nat) by (unfold bytes; rewrite length_take, length_drop, Hoff; lia).
  exists (disk_write (drive s) (bl + Z.of_nat q) bytes 1). split; [|split; [|split]].
  - unfold bitmap_sync. unfold mbnd, mget. cbn [rbind fst snd cur_part with_blocks set_part set_block_bitmap block_bitmap sb]. fold bl.
    rewrite Hlba. rewrite ide_write_run by (unfold BLOCK_SIZE; zsolve || lia). done.
  - apply disk_write_ok; [done|]. lia.
  - unfold coherent. intros Hco. cbn [drive set_drive cur_part with_blocks set_part set_block_bitmap block_bitmap sb]. fold bl bn. rewrite Hlen, Hbytes.
    rewrite disk_write_sub by (done || lia). fold bl bn old in Hco. rewrite Hco, Hbytes.
    unfold bytes. rewrite Hbits, Hoff. rewrite take_insert_lt by zsolve.
    rewrite <-(splice_insert (take (Z.to_nat (bn * 512)) (bits old)) (512 * q) 512) by (rewrite ?length_take; zsolve).
    f_equal. rewrite <-take_insert_lt by zsolve. rewrite skipn_firstn_comm, take_take. f_equal. zsolve.
  - intros l Hl'. apply sector_write_other. lia.
Qed.

(** The block bitmap changed in bit [k] and was written back; nothing else. *)
Record block_change (k : Z) (v : bool) (s s' : fs) : Prop := {
  bc_frame : ∃ d b, s' = set_drive d (with_blocks b s);
  bc_bit : ∀ j, 0 ≤ j → bit (block_bitmap (cur_part s')) j = if decide (j = k) then v else bit (block_bitmap (cur_part s)) j;
  bc_cnt : bit_cnt (block_bitmap (cur_part s')) = bit_cnt (block_bitmap (cur_part s));
  bc_disk : ∀ l, l < block_bitmap_lba (sb (cur_part s)) ∨ inode_bitmap_lba (sb (cur_part s)) ≤ l → sector (drive s') l = sector (drive s) l;
  bc_layout : layout s';
  bc_coherent : coherent s → coherent s';
}.

Lemma layout_blocks s d b k v :
  layout s → disk_ok d → bitmap_ok b → btmp_bytes_len b = btmp_bytes_len (block_bitmap (cur_part s)) →
  length (bits b) = length (bits (block_bitmap (cur_part s))) →
  (∀ j, 0 ≤ j → bit b j = if decide (j = k) then v else bit (block_bitmap (cur_part s)) j) →
  k ≠ 0 → (v = false → data_lba s + k ≤ max_lba) → layout (set_drive d (with_blocks b s)).
Proof.
  intros [] Hd Hb Hlen Hml Hbit Hk Hv. split; try done; cbn [cur_part set_drive with_blocks set_part set_block_bitmap block_bitmap sb].
  - split; [done|]. unfold slack in *. rewrite Hlen, Hml. by destruct ly_blocks0.
  - by rewrite Hlen.
  - intros j Hj Hf. unfold bit_cnt in *. rewrite Hlen in Hj. rewrite Hbit in Hf by lia. case_decide; [subst; by apply Hv|by apply ly_free0].
  - rewrite Hbit, decide_False by (done || lia). done.
Qed.

(** An allocation takes the first free block, which is not the root's. *)
Lemma alloc_only_run s :
  layout s → (0 < length (free_bits (block_bitmap (cur_part s))))%nat →
  ∃ k b, block_bitmap_alloc s = Ok (data_lba s + k, with_blocks b s) ∧ bitmap_set (block_bitmap (cur_part s)) k 1 = Ok b ∧
    0 < k < bit_cnt (block_bitmap (cur_part s)) ∧ bit (block_bitmap (cur_part s)) k = false ∧ data_lba s + k ≤ max_lba ∧
    (∀ j, 0 ≤ j → bit b j = if decide (j = k) then true else bit (block_bitmap (cur_part s)) j) ∧
    bit_cnt b = bit_cnt (block_bitmap (cur_part s)) ∧
    (∀ d, disk_ok d → layout (set_drive d (with_blocks b s))) ∧
    length (free_bits (block_bitmap (cur_part s))) = S (length (free_bits b)).
Proof.
  intros Hl Hf. pose proof (ly_blocks s Hl) as [Hb Hsl]. set (bb := block_bitmap (cur_part s)) in *.
  destruct (bitmap_scan_one bb Hb (free_bits_some bb Hf)) as (k & Hscan & Hk & Hbit & _).
  assert (Hk0 : k ≠ 0) by (intros ->; pose proof (ly_root s Hl) as Hr; fold bb in Hr; congruence).
  unfold slack in Hsl. unfold bit_cnt in Hk.
  destruct (bitmap_set_spec bb k 1 Hb) as (b' & Hset & Hb' & Hlen & Hml & Hbits); [lia|zsolve|by right|].
  assert (Hmax : data_lba s + k ≤ max_lba) by (apply (ly_free s Hl); [fold bb; unfold bit_cnt; lia|done]).
  exists k, b'. split_and!; try done; try (unfold bit_cnt; rewrite ?Hlen; done || lia).
  - unfold block_bitmap_alloc. unfold mbnd at 1. unfold mget at 1. cbn [rbind fst snd]. fold bb.
    rewrite (mbnd_Ok _ _ _ _ _ (mlift_Ok _ s _ Hscan)). rewrite (proj2 (Z.eqb_neq k (-1))) by lia.
    rewrite (mbnd_Ok _ _ _ _ _ (mlift_Ok _ s _ Hset)). unfold mbnd, mmod, mok. cbn [rbind fst snd].
    rewrite s32_small; [done|]. destruct Hl. unfold data_lba, max_lba in *. lia.
  - intros d Hd. by eapply layout_blocks.
  - apply (free_bits_take bb b' k); try done; unfold bit_cnt; rewrite ?Hlen; done || lia.
Qed.

Lemma alloc_block_run s :
  layout s → (0 < length (free_bits (block_bitmap (cur_part s))))%nat →
  ∃ k s1 s', block_bitmap_alloc s = Ok (data_lba s + k, s1) ∧ bitmap_sync k BLOCK_BITMAP s1 = Ok (tt, s') ∧
    0 < k < bit_cnt (block_bitmap (cur_part s)) ∧ bit (block_bitmap (cur_part s)) k = false ∧ block_change k true s s' ∧
    length (free_bits (block_bitmap (cur_part s))) = S (length (free_bits (block_bitmap (cur_part s')))).
Proof.
  intros Hl Hf. destruct (alloc_only_run s Hl Hf) as (k & b & E & Hset & Hk & Hbit & Hmax & Hbits & Hcnt & Hlay & Hfree).
  destruct (block_sync_run s b k 1 Hl ltac:(lia) Hset) as (d & Hsync & Hd & Hco' & Hsec).
  exists k, (with_blocks b s), (set_drive d (with_blocks b s)). split_and!; try done; try lia.
  split; try done; [by eexists _, _|by apply Hlay].
Qed.

Lemma free_block_run s k :
  layout s → 0 < k < bit_cnt (block_bitmap (cur_part s)) → data_lba s + k ≤ max_lba →
  ∃ s1 s', set_block_bit k 0 s = Ok (tt, s1) ∧ bitmap_sync k BLOCK_BITMAP s1 = Ok (tt, s') ∧ block_change k false s s'.
Proof.
  intros Hl Hk Hmax. pose proof (ly_blocks s Hl) as [Hb Hsl]. set (bb := block_bitmap (cur_part s)) in *.
  unfold slack in Hsl. unfold bit_cnt in Hk.
  destruct (bitmap_set_spec bb k 0 Hb) as (b' & Hset & Hb' & Hlen & Hml & Hbits); [lia|zsolve|by left|].
  destruct (block_sync_run s b' k 0 Hl) as (d & Hsync & Hd & Hco' & Hsec); [fold bb; unfold bit_cnt; lia|done|].
  exists (with_blocks b' s), (set_drive d (with_blocks b' s)). split_and!; [|done|].
  - unfold set_block_bit. unfold mbnd at 1. unfold mget at 1. cbn [rbind fst snd]. fold bb.
    rewrite (mbnd_Ok _ _ _ _ _ (mlift_Ok _ s _ Hset)). done.
  - split; try done; [by eexists _, _|cbn; unfold bit_cnt; fold bb; by rewrite Hlen|].
    eapply layout_blocks; try done. lia.
Qed.

(** The block addresses a list may hold: 0 or an allocatable block. *)
Definition block_addr (s : fs) (b : Z) : Prop :=
  b = 0 ∨ data_lba s < b < data_lba s + bit_cnt (block_bitmap (cur_part s)) ∧ b ≤ max_lba.

(** The blocks [bs] were freed and the map written back; nothing else. *)
Record blocks_freed (bs : list Z) (s s' : fs) : Prop := {
  bf_frame : ∃ d b, s' = set_drive d (with_blocks b s);
  bf_bit : ∀ j, 0 ≤ j → bit (block_bitmap (cur_part s')) j = if decide (data_lba s + j ∈ bs) then false else bit (block_bitmap (cur_part s)) j;
  bf_cnt : bit_cnt (block_bitmap (cur_part s')) = bit_cnt (block_bitmap (cur_part s));
  bf_disk : ∀ l, l < block_bitmap_lba (sb (cur_part s)) ∨ inode_bitmap_lba (sb (cur_part s)) ≤ l → sector (drive s') l = sector (drive s) l;
  bf_layout : layout s';
  bf_coherent : coherent s → coherent s';
}.

Lemma data_lba_pos s : layout s → 0 < data_lba s ≤ max_lba.
Proof. intros []. unfold data_lba. lia. Qed.

Lemma with_blocks_twice d b d' b' s :
  set_drive d' (with_blocks b' (set_drive d (with_blocks b s))) = set_drive d' (with_blocks b' s).
Proof. done. Qed.

(** Freeing one block that is not 0. *)
Lemma free_addr_run s b :
  layout s → block_addr s b → b ≠ 0 →
  ∃ s', (let! p := mget cur_part in
         let block_bitmap_idx := u32 (b - data_start_lba (sb p)) in
         do! mlift (ASSERT (0 <? block_bitmap_idx)) in
         do! set_block_bit block_bitmap_idx 0 in
         bitmap_sync block_bitmap_idx BLOCK_BITMAP) s = Ok (tt, s') ∧ blocks_freed [b] s s'.
Proof.
  intros Hl [->|[Hb Hm]] Hb0; [done|]. pose proof (data_lba_pos s Hl) as Hp.
  destruct (free_block_run s (b - data_lba s) Hl) as (s1 & s' & E1 & E2 & [H1 H2 H3 H4 H5 H6]); [lia|lia|].
  exists s'. split.
  - unfold mbnd at 1. unfold mget at 1. cbn [rbind fst snd]. fold (data_lba s). rewrite u32_small by (unfold max_lba in *; lia).
    rewrite (mbnd_Ok _ _ _ _ _ (mlift_Ok _ s _ (ASSERT_true _ (proj2 (Z.ltb_lt 0 (b - data_lba s)) ltac:(lia))))).
    by rewrite (mbnd_Ok _ _ _ _ _ E1).
  - split; try done. intros j Hj. rewrite H2 by done.
    rewrite (decide_ext (data_lba s + j ∈ [b]) (j = b - data_lba s)) by (rewrite list_elem_of_singleton; lia). done.
Qed.

Lemma blocks_freed_trans bs1 bs2 s s1 s2 :
  blocks_freed bs1 s s1 → blocks_freed bs2 s1 s2 → blocks_freed (bs1 ++ bs2) s s2.
Proof.
  intros [(d & b & ->) H2 H3 H4 H5 H6] [(d' & b' & ->) K2 K3 K4 K5 K6]. split; try done.
  - by exists d', b'.
  - intros j Hj. rewrite K2 by done. rewrite H2 by done. change (data_lba (set_drive d (with_blocks b s))) with (data_lba s).
    repeat case_decide; set_solver.
  - by rewrite K3.
  - intros l Hl. rewrite K4 by done. by apply H4.
  - auto.
Qed.

Lemma free_blocks_run bs s :
  layout s → Forall (block_addr s) bs →
  ∃ s', free_blocks bs s = Ok (tt, s') ∧ blocks_freed bs s s'.
Proof.
  intros Hl Hbs. revert s Hl Hbs. induction bs as [|b bs IH]; intros s Hl Hbs.
  { exists s. split; [done|]. split; try done.
    exists (drive s), (block_bitmap (cur_part s)). by destruct s as [? []]. }
  apply Forall_cons in Hbs as [Hb Hbs]. cbn [free_blocks]. destruct (Z.eqb_spec b 0) as [->|Hb0]; cbn [negb].
  - destruct (IH s Hl Hbs) as (s' & E & H). exists s'. unfold mbnd, mok. cbn [rbind fst snd]. split; [done|].
    destruct H as [H1 H2 H3 H4 H5 H6]. split; try done. intros j Hj. rewrite H2 by done. pose proof (data_lba_pos s Hl).
    rewrite (decide_ext (data_lba s + j ∈ 0 :: bs) (data_lba s + j ∈ bs)) by (rewrite elem_of_cons; naive_solver lia). done.
  - destruct (free_addr_run s b Hl Hb Hb0) as (s1 & E1 & H1). rewrite (mbnd_Ok _ _ _ _ _ E1).
    destruct (IH s1) as (s' & E & H); [apply H1| |].
    { eapply Forall_impl; [exact Hbs|]. intros x Hx. unfold block_addr in *. destruct H1 as [(d & b' & ->) _ Hc _ _ _].
      rewrite Hc. change (data_lba (set_drive d (with_blocks b' s))) with (data_lba s). done. }
    exists s'. split; [done|]. by apply (blocks_freed_trans [b] bs s s1 s').
Qed.

(** The inode bitmap: one bit cleared and written back. *)
Lemma free_inode_bit_run s n :
  layout s → 0 ≤ n < 4096 →
  ∃ s1 s', set_inode_bit n 0 s = Ok (tt, s1) ∧ bitmap_sync n INODE_BITMAP s1 = Ok (tt, s') ∧ layout s' ∧
    (∃ d b, s' = set_drive d (set_part (set_inode_bitmap b (cur_part s)) s) ∧
      (∀ j, 0 ≤ j → bit b j = if decide (j = n) then false else bit (inode_bitmap (cur_part s)) j) ∧
      ∀ l, l ≠ inode_bitmap_lba (sb (cur_part s)) → sector d l = sector (drive s) l).
Proof.
  intros Hl Hn. pose proof (ly_inodes s Hl) as [Hb Hsl]. pose proof (ly_ibytes s Hl) as Hby. unfold slack in Hsl.
  set (ib := inode_bitmap (cur_part s)) in *.
  destruct (bitmap_set_spec ib n 0 Hb) as (b' & Hset & Hb' & Hlen & Hml & Hbits); [lia|zsolve|by left|].
  set (s1 := set_part (set_inode_bitmap b' (cur_part s)) s).
  assert (Hlba : 0 ≤ inode_bitmap_lba (sb (cur_part s)) ≤ max_lba) by (destruct Hl; lia).
  set (d := disk_write (drive s) (inode_bitmap_lba (sb (cur_part s))) (take (512 * 1) (drop 0 (bits b'))) 1).
  exists s1, (set_drive d s1). split_and!.
  - unfold set_inode_bit. unfold mbnd at 1. unfold mget at 1. cbn [rbind fst snd]. fold ib. rewrite (mbnd_Ok _ _ _ _ _ (mlift_Ok _ s _ Hset)). done.
  - unfold bitmap_sync. unfold mbnd, mget. cbn [rbind fst snd]. rewrite (Z.div_small n 4096) by lia.
    change (cur_part s1) with (set_inode_bitmap b' (cur_part s)). cbn [sb set_inode_bitmap inode_bitmap]. rewrite Z.add_0_r, u32_small by (unfold max_lba in *; lia).
    rewrite ide_write_run by (unfold BLOCK_SIZE; lia). done.
  - destruct Hl. split; try done.
    + change (disk_ok d). apply disk_write_ok; [done|]. rewrite length_take, length_drop. lia.
    + change (bitmap_ok b' ∧ slack b'). split; [done|]. unfold slack. lia.
    + change (btmp_bytes_len b' = 512). lia.
  - exists d, b'. split; [done|]. split; [intros j Hj; rewrite Hbits by done; done|].
    intros l Hne. apply sector_write_other. lia.
Qed.

(** The addresses of the blocks of an inode that is on disk. *)
Definition inode_blocks (s : fs) (i : inode) : list Z :=
  let tbl := nth 12 (i_sectors i) 0 in
  take 12 (i_sectors i) ++ (if tbl =? 0 then [] else tbl :: words_of (sector (drive s) tbl)).

Lemma inode_delete_run n io_buf s :
  0 ≤ n < 4096 → layout s → (1024 ≤ length io_buf)%nat →
  ∃ buf' s', inode_delete n io_buf s = Ok (buf', s') ∧
    (∃ d, s' = set_drive d s ∧ disk_ok d ∧ ∀ l, l < table_lba s ∨ table_lba s + 608 ≤ l → sector d l = sector (drive s) l) ∧
    table s' = splice (Z.to_nat (76 * n)) (replicate 76 0) (table s).
Proof.
  intros Hn Hl Hio. destruct (store_slot_run n (replicate 76 0) io_buf s Hn Hl) as (buf' & s' & E & H1 & H2 & _); [done|unfold isecs; destruct (straddles n); lia|].
  exists buf', s'. split; [|done]. unfold inode_delete.
  rewrite (mbnd_Ok _ _ _ _ _ (mlift_Ok _ s _ (ASSERT_true _ (proj2 (Z.ltb_lt n 4096) ltac:(lia))))).
  rewrite (mbnd_Ok _ _ _ _ _ (inode_locate_run n s Hn Hl)). unfold mbnd at 1. unfold mget at 1. cbn [rbind fst snd].
  rewrite (mbnd_Ok _ _ _ _ _ (mlift_Ok _ s _ (ASSERT_true (table_lba s + 76 * n / 512 <=? u32 (start_lba (cur_part s) + sec_cnt (cur_part s))) ltac:(destruct Hl; apply Z.leb_le; rewrite u32_small by (unfold max_lba in *; lia); unfold table_lba; zsolve)))).
  fold (isecs n). exact E.
Qed.

(** The part of [inode_release] that frees the blocks. *)
Lemma release_blocks_run i s :
  layout s → inode_ok i → Forall (block_addr s) (inode_blocks s i) →
  ∃ s', (∀ X (K : M fs X), (let! all_blocks :=
          (if negb (nth 12 (i_sectors i) 0 =? 0) then
             let! t := ide_read (nth 12 (i_sectors i) 0) (replicate 512 0) 0 1 in
             let! p := mget cur_part in
             let block_bitmap_idx := u32 (nth 12 (i_sectors i) 0 - data_start_lba (sb p)) in
             do! mlift (ASSERT (0 <? block_bitmap_idx)) in
             do! set_block_bit block_bitmap_idx 0 in
             do! bitmap_sync block_bitmap_idx BLOCK_BITMAP in
             mok (take 12 (i_sectors i) ++ words_of t)
           else mok (take 12 (i_sectors i))) in
        do! free_blocks all_blocks in K) s = K s') ∧ blocks_freed (inode_blocks s i) s s'.
Proof.
  intros Hl Hi Hb. unfold inode_blocks in *. set (tbl := nth 12 (i_sectors i) 0) in *. destruct (Z.eqb_spec tbl 0) as [E|E]; cbn [negb].
  - destruct (free_blocks_run _ s Hl Hb) as (s' & E1 & H1). rewrite app_nil_r in *. exists s'. split; [|done].
    intros X K. unfold mbnd at 1. unfold mok. cbn [rbind fst snd]. by rewrite (mbnd_Ok _ _ _ _ _ E1).
  - apply Forall_app in Hb as [Hb12 [Htbl Hws]%Forall_cons].
    assert (Hlba : tbl ≤ max_lba) by (destruct Htbl as [?|[_ ?]]; [done|lia]).
    destruct (free_addr_run s tbl Hl Htbl E) as (s1 & E1 & H1).
    destruct (free_blocks_run (take 12 (i_sectors i) ++ words_of (sector (drive s) tbl)) s1) as (s2 & E2 & H2); [apply H1| |].
    { destruct H1 as [(d & b' & ->) _ Hc _ _ _]. assert (Hba : ∀ x, block_addr s x → block_addr (set_drive d (with_blocks b' s)) x).
      { intros x. unfold block_addr. by rewrite Hc. }
      apply Forall_app. split; eapply Forall_impl; eauto. }
    exists s2. split.
    + intros X K. unfold mbnd at 1. rewrite (mbnd_Ok _ _ _ _ _ (ide_read_run tbl (replicate 512 0) 0 1 s Hlba (ly_disk s Hl) ltac:(lia) ltac:(done))).
      assert (Hsp : splice (Z.to_nat 0) (disk_read (drive s) tbl 1) (replicate 512 0) = sector (drive s) tbl).
      { rewrite disk_read_1. unfold splice. change (Z.to_nat 0) with O. rewrite sector_length by apply Hl. rewrite drop_ge by done. apply app_nil_r. }
      rewrite Hsp. unfold mbnd at 1 in E1. unfold mget at 1 in E1. cbn [rbind fst snd] in E1.
      unfold mbnd at 1. unfold mget at 1. cbn [rbind fst snd].
      apply mbnd_Ok_inv in E1 as (u1 & s3 & F1 & F2). rewrite (mbnd_Ok _ _ _ _ _ F1).
      apply mbnd_Ok_inv in F2 as (u2 & s4 & F3 & F4). rewrite (mbnd_Ok _ _ _ _ _ F3). rewrite (mbnd_Ok _ _ _ _ _ F4).
      unfold mok. cbn [rbind fst snd]. by rewrite (mbnd_Ok _ _ _ _ _ E2).
    + pose proof (blocks_freed_trans _ _ _ _ _ H1 H2) as [G1 G2 G3 G4 G5 G6]. split; try done.
      intros j Hj. rewrite G2 by done. apply decide_ext. set_solver.
Qed.

(** What [inode_release] leaves: both bitmaps, the table and the bitmap sectors
    change, nothing else does. *)
Lemma inode_release_run n i s :
  layout s → oom s = [] → 0 < brk s → inodes s !! brk s = None → (brk s ∉ open_inodes (cur_part s)) →
  0 ≤ n < 4096 → find_open (open_inodes (cur_part s)) (inodes s) n = None →
  inode_of_bytes (slot s n) = Some i → inode_ok i → i_no i = n → Forall (block_addr s) (inode_blocks s i) →
  ∃ d b1 b2,
    let s' := set_heap (brk s + 3) [] (live s) (set_drive d (set_part (set_inode_bitmap b2 (set_block_bitmap b1 (cur_part s))) s)) in
    inode_release n s = Ok (tt, s') ∧ (coherent s → coherent s') ∧ layout s' ∧
    (∀ j, 0 ≤ j → bit b1 j = if decide (data_lba s + j ∈ inode_blocks s i) then false else bit (block_bitmap (cur_part s)) j) ∧
    bit_cnt b1 = bit_cnt (block_bitmap (cur_part s)) ∧
    (∀ j, 0 ≤ j → bit b2 j = if decide (j = n) then false else bit (inode_bitmap (cur_part s)) j) ∧
    (∀ m, 0 ≤ m < 4096 → slot s' m = if decide (m = n) then replicate 76 0 else slot s m) ∧
    (∀ l, data_lba s ≤ l → sector d l = sector (drive s) l).
Proof.
  intros Hl Ho Hbrk Hfresh Hnin Hn Hf Hdec Hi Hno Hb.
  pose proof (inode_open_miss n i s Hn Hl Ho Hbrk Hf Hdec) as E0. set (s1 := set_heap _ _ _ _) in E0.
  assert (Hl1 : layout s1) by (by destruct Hl).
  destruct (release_blocks_run i s1 Hl1 Hi Hb) as (s2 & E2 & [(d & b & Es2) H2 H3 H4 H5 H6]).
  destruct (free_inode_bit_run s2 n H5 Hn) as (s3 & s4 & E3 & E4 & Hl4 & (d4 & b4 & Es4 & Hbit4 & Hsec4)).
  set (s5 := set_heap (brk s4 + 1) [] (live s4 + 1) s4).
  assert (E5 : malloc_buf 1024 s4 = Ok (Some (replicate 1024 0), s5)).
  { subst s4 s2. unfold malloc_buf, mbnd, sys_malloc, mok. cbn [oom set_drive set_part with_blocks s1 set_heap brk rbind fst snd].
    by rewrite (proj2 (Z.eqb_neq _ NULL)) by (unfold NULL; lia). }
  assert (Hl5 : layout s5) by (by destruct Hl4).
  destruct (inode_delete_run n (replicate 1024 0) s5 Hn Hl5) as (buf' & s6 & E6 & (d6 & Es6 & Hd6 & Hsec6) & Ht6); [by rewrite length_replicate|].
  assert (Hbl : ∀ d', disk_ok d' → (∀ l, l < table_lba s5 ∨ table_lba s5 + 608 ≤ l → sector d' l = sector (drive s5) l) → coherent s → coherent (set_drive d' s5)).
  { intros d' Hd' Hs Hco. unfold coherent in *. subst s5 s4 s2. etransitivity; [|exact (H6 (Hco : coherent s1))]. apply disk_read_ext. intros l Hll.
    cbn in Hs, Hsec4, Hll |- *. destruct Hl. unfold table_lba in Hs. cbn in Hs. rewrite Hs by lia. apply Hsec4. lia. }
  set (s' := set_heap (brk s + 3) [] (live s) (set_drive d6 (set_part (set_inode_bitmap b4 (set_block_bitmap b (cur_part s))) s))).
  assert (Hlay : layout (set_drive d6 s5)) by (by apply layout_set_drive).
  exists d6, b, b4. fold s'. split; [|split_and!].
  { unfold inode_release. rewrite (mbnd_Ok _ _ _ _ _ E0).
    assert (Hat : inode_at (brk s) s1 = Ok (set_open_cnts 1 i, s1)) by (unfold inode_at; cbn; by rewrite lookup_insert_eq).
    rewrite (mbnd_Ok _ _ _ _ _ Hat). rewrite (mbnd_Ok _ _ _ _ _ (mlift_Ok _ s1 _ (ASSERT_true (i_no (set_open_cnts 1 i) =? n) (proj2 (Z.eqb_eq _ _) Hno)))).
    destruct Hi as (_ & _ & Hlen & _).
    assert (Hrd : rd (i_sectors (set_open_cnts 1 i)) 12 = Ok (nth 12 (i_sectors i) 0)).
    { apply rd_lookup; [done|]. change (Z.to_nat 12) with 12%nat. cbn [i_sectors set_open_cnts]. destruct (lookup_lt_is_Some_2 (i_sectors i) 12) as [x Hx]; [lia|].
      rewrite Hx. f_equal. symmetry. by apply nth_lookup_Some. }
    rewrite (mbnd_Ok _ _ _ _ _ (mlift_Ok _ s1 _ Hrd)). cbn [i_sectors set_open_cnts]. rewrite E2.
    rewrite (mbnd_Ok _ _ _ _ _ E3), (mbnd_Ok _ _ _ _ _ E4), (mbnd_Ok _ _ _ _ _ E5), (mbnd_Ok _ _ _ _ _ E6).
    unfold sys_free at 1. unfold mbnd at 1. unfold mmod at 1. cbn [rbind fst snd].
    unfold inode_close. set (s7 := set_heap _ _ _ s6).
    assert (Hat7 : inode_at (brk s) s7 = Ok (set_open_cnts 1 i, s7)).
    { unfold inode_at. replace (inodes s7) with (inodes s1) by (subst s7 s6 s5 s4 s2; done). cbn. by rewrite lookup_insert_eq. }
    rewrite (mbnd_Ok _ _ _ _ _ Hat7). change (u32 (i_open_cnts (set_open_cnts 1 i) - 1)) with 0.
    unfold mbnd, put_inode, mmod, sys_free. cbn [rbind fst snd]. change (0 =? 0) with true. cbv iota. unfold mmod. cbn [rbind fst snd].
    do 2 f_equal. subst s6 s7 s5 s4 s2. unfold s'. apply fs_ext; try done; try (cbn; lia).
    - change (set_open_inodes (filter (λ x, x ≠ brk s) (brk s :: open_inodes (cur_part s))) (set_inode_bitmap b4 (set_block_bitmap b (cur_part s))) = set_inode_bitmap b4 (set_block_bitmap b (cur_part s))).
      rewrite filter_cons, decide_False by naive_solver. rewrite filter_all; [by destruct (cur_part s)|]. by intros x Hx ->.
    - change (delete (brk s) (<[brk s := set_open_cnts 0 (set_open_cnts 1 i)]> (<[brk s := set_open_cnts 1 i]> (inodes s))) = inodes s).
      by rewrite !delete_insert_eq, delete_id. }
  - intros Hco. specialize (Hbl d6 Hd6 Hsec6 Hco). subst s6 s5 s4 s2. exact Hbl.
  - subst s6 s5 s4 s2. by destruct Hlay.
  - subst s5 s4 s2. intros j Hj. exact (H2 j Hj).
  - subst s5 s4 s2. exact H3.
  - subst s5 s4 s2. intros j Hj. exact (Hbit4 j Hj).
  - intros m Hm. assert (Htab : table s5 = table s).
    { subst s5 s4 s2. unfold table, table_lba. cbn. apply disk_read_ext. intros l Hll. cbn in Hsec4, H4. destruct Hl. rewrite Hsec4 by lia. apply H4. lia. }
    transitivity (slot (set_drive d6 s5) m); [subst s5 s4 s2; done|]. rewrite <-Es6. rewrite (slot_splice s5 _ n m (replicate 76 0)) by done.
    case_decide; [done|]. unfold slot. by rewrite Htab.
  - intros l Hll. destruct Hl. subst s5 s4 s2. unfold table_lba, data_lba in *. cbn in Hsec6, Hsec4, H4. rewrite Hsec6 by lia. rewrite Hsec4 by lia. apply H4. lia.
Qed.

End inode_lemmas.

(** ** Theorems *)

Section inode_theorems.
Context {B : Build}.

(** C4: What [inode_sync] stores, [inode_open] finds.  For inode numbers below
    256 and a buffer of two sectors, storing an inode and opening it afresh
    gives an inode with the same number, size and blocks, opened once and free
    for writing; no other inode of the table changes, whether or not the inode
    straddles two sectors. *)
Theorem inode_sync_open i io_buf s :
  layout s → inode_ok i → i_no i < 256 → length io_buf = 1024%nat → oom s = [] → 0 < brk s →
  find_open (open_inodes (cur_part s)) (inodes s) (i_no i) = None →
  ∃ buf' s1 q s2, inode_sync i io_buf s = Ok (buf', s1) ∧ inode_open (i_no i) s1 = Ok (q, s2) ∧
    inodes s2 !! q = Some (Inode (i_no i) (i_size i) 1 false (i_sectors i)) ∧
    (∀ n, 0 ≤ n < 4096 → n ≠ i_no i → slot s1 n = slot s n).
Proof.
  intros Hl Hi Hno Hio Ho Hbrk Hf. pose proof Hi as ([Hn0 _] & _).
  assert (Hu8 : u8 (i_no i) = i_no i) by (apply u8_small; lia).
  destruct (inode_sync_run i io_buf s Hl Hi) as (buf' & s1 & E & (d & -> & Hd & _) & Ht & _).
  { rewrite Hio. unfold isecs. destruct (straddles _); lia. }
  rewrite Hu8 in Ht. assert (Hl1 : layout (set_drive d s)) by (by apply layout_set_drive).
  assert (Hslot : ∀ m, 0 ≤ m < 4096 → slot (set_drive d s) m = if decide (m = i_no i) then bytes_of (pure_words i) else slot s m).
  { intros m Hm. apply slot_splice; try done; try lia. by apply pure_words_length. }
  eexists buf', (set_drive d s), (brk s), _. split; [done|]. split.
  { apply (inode_open_miss (i_no i) (Inode (i_no i) (i_size i) 0 false (i_sectors i)) (set_drive d s)); try done; [lia|].
    rewrite Hslot, decide_True by (done || lia). by apply inode_of_pure. }
  split; [cbn; by rewrite lookup_insert_eq|]. intros n Hn Hne. by rewrite Hslot, decide_False.
Qed.

(** [inode_sync] keeps only eight bits of the inode number: from 256 on it
    stores the inode in the slot of another one and leaves its own slot as it
    was. *)
Theorem inode_sync_wrong_slot i io_buf s :
  layout s → inode_ok i → 256 ≤ i_no i < 4096 → length io_buf = 1024%nat →
  ∃ buf' s1, inode_sync i io_buf s = Ok (buf', s1) ∧ slot s1 (i_no i) = slot s (i_no i) ∧
    slot s1 (i_no i mod 256) = bytes_of (pure_words i).
Proof.
  intros Hl Hi Hno Hio.
  destruct (inode_sync_run i io_buf s Hl Hi) as (buf' & s1 & E & (d & -> & Hd & _) & Ht & _).
  { rewrite Hio. unfold isecs. destruct (straddles _); lia. }
  pose proof (u8_range (i_no i)) as Hr. assert (Hne : i_no i ≠ u8 (i_no i)) by lia.
  exists buf', (set_drive d s). split; [done|].
  assert (Hslot : ∀ m, 0 ≤ m < 4096 → slot (set_drive d s) m = if decide (m = u8 (i_no i)) then bytes_of (pure_words i) else slot s m).
  { intros m Hm. apply slot_splice; try done; try lia. by apply pure_words_length. }
  split; [by rewrite Hslot, decide_False by (done || lia)|]. change (i_no i mod 256) with (u8 (i_no i)). by rewrite Hslot, decide_True by (done || lia).
Qed.

(** Inodes are shared and counted.  Opening an inode that is open returns
    the same object with one more opener, and closing it again gives back the
    state there was; closing the last opener takes it off the list and frees
    it. *)
Theorem inode_open_close_counts n q i s :
  find_open (open_inodes (cur_part s)) (inodes s) n = Some q → inodes s !! q = Some i → 1 ≤ i_open_cnts i < 4294967295 →
  inode_open n s = Ok (q, set_inodes (<[q := set_open_cnts (i_open_cnts i + 1) i]> (inodes s)) s) ∧
  inode_close q (set_inodes (<[q := set_open_cnts (i_open_cnts i + 1) i]> (inodes s)) s) = Ok (tt, s) ∧
  (i_open_cnts i = 1 → inode_close q s = Ok (tt, set_heap (brk s) (oom s) (live s - 1)
     (set_inodes (delete q (inodes s)) (set_part (set_open_inodes (filter (λ x, x ≠ q) (open_inodes (cur_part s))) (cur_part s)) s)))).
Proof.
  intros Hf Hq Hc. split_and!.
  - apply inode_open_hit; [done..|lia].
  - unfold inode_close, mbnd, inode_at, put_inode, mmod, mok. cbn [inodes set_inodes]. rewrite lookup_insert_eq. cbn [rbind fst snd i_open_cnts set_open_cnts inodes set_inodes].
    replace (i_open_cnts i + 1 - 1) with (i_open_cnts i) by lia. rewrite u32_small by lia. rewrite (proj2 (Z.eqb_neq _ 0)) by lia.
    unfold mok. rewrite insert_insert_eq. unfold set_inodes, set_open_cnts. cbn. rewrite insert_id by (rewrite Hq; by destruct i). by destruct s.
  - intros H1. unfold inode_close, mbnd, inode_at, put_inode, mmod, sys_free. rewrite Hq. cbn [rbind fst snd]. rewrite H1.
    change (u32 (1 - 1)) with 0. change (0 =? 0) with true. cbv iota. unfold mmod. cbn [rbind fst snd inodes set_inodes cur_part set_part].
    unfold set_inodes, set_part, set_heap. cbn. by rewrite delete_insert_eq.
Qed.

(** C5: [inode_release] gives back exactly what the inode holds: its direct
    blocks, its table block and the blocks in the table become free in the
    block map, on disk too, its own bit in the inode map and its slot in the
    table are cleared, and nothing else changes: no other block or inode, not
    the list of open inodes, and no memory is leaked. *)
Theorem inode_release_frees n i s :
  layout s → coherent s → oom s = [] → 0 < brk s → inodes s !! brk s = None → (brk s ∉ open_inodes (cur_part s)) →
  0 ≤ n < 4096 → find_open (open_inodes (cur_part s)) (inodes s) n = None →
  inode_of_bytes (slot s n) = Some i → inode_ok i → i_no i = n → Forall (block_addr s) (inode_blocks s i) →
  ∃ s', inode_release n s = Ok (tt, s') ∧ coherent s' ∧ layout s' ∧
    (∀ j, 0 ≤ j → bit (block_bitmap (cur_part s')) j =
       if decide (data_lba s + j ∈ inode_blocks s i) then false else bit (block_bitmap (cur_part s)) j) ∧
    (∀ j, 0 ≤ j → bit (inode_bitmap (cur_part s')) j = if decide (j = n) then false else bit (inode_bitmap (cur_part s)) j) ∧
    (∀ m, 0 ≤ m < 4096 → slot s' m = if decide (m = n) then replicate 76 0 else slot s m) ∧
    open_inodes (cur_part s') = open_inodes (cur_part s) ∧ inodes s' = inodes s ∧ live s' = live s.
Proof.
  intros Hl Hco Ho Hbrk Hfresh Hnin Hn Hf Hdec Hi Hno Hb.
  destruct (inode_release_run n i s Hl Ho Hbrk Hfresh Hnin Hn Hf Hdec Hi Hno Hb) as (d & b1 & b2 & E & Hc & Hl' & H1 & _ & H2 & H3 & _).
  eexists. split; [exact E|]. split; [by apply Hc|]. done.
Qed.

End inode_theorems.

(** ** Witnesses *)

(** A small partition: the root in inode 0 and block 0, a file of 600 bytes in
    inode 1 and blocks 1 and 2, nothing open. *)
Definition root_inode : inode := Inode 0 48 0 false (612 :: replicate 12 0).
Definition file_inode : inode := Inode 1 600 0 false (613 :: 614 :: replicate 11 0).
Definition demo_sb : super_block := SuperBlock 425264920 10000 4096 0 2 1 3 1 4 608 612 0 24.
Definition demo_blocks : bitmap := Bitmap 512 (7 :: replicate 512 0).
Definition demo_inodes : bitmap := Bitmap 512 (3 :: replicate 512 0).
Definition demo_table : list Z :=
  bytes_of (pure_words root_inode) ++ bytes_of (pure_words file_inode) ++ replicate 360 0.
Definition demo_disk : disk := <[2 := 7 :: replicate 511 0]> (<[3 := 3 :: replicate 511 0]> (<[4 := demo_table]> ∅)).
Definition demo_fs : fs :=
  Fs demo_disk (Partition 0 10000 demo_sb demo_blocks demo_inodes []) ∅ ∅
     (replicate 32 (File 0 0 NULL)) [0; 1; 2; -1; -1; -1; -1; -1] 0 4096 [] 0.

Lemma demo_disk_ok : disk_ok demo_disk.
Proof.
  intros l s. unfold demo_disk. rewrite !lookup_insert_Some, lookup_empty. naive_solver.
Qed.

Lemma byte_map_ok n b l : 0 ≤ b < 256 → Z.of_nat (length (b :: l)) ≤ 1000000 → Forall (λ x, 0 ≤ x < 256) l → 0 ≤ n ≤ Z.of_nat (length l) →
  bitmap_ok (Bitmap n (b :: l)) ∧ slack (Bitmap n (b :: l)).
Proof.
  intros Hb Hl Hx Hn. simpl in Hl. split; [split; simpl; try lia; by constructor|]. unfold slack. simpl. lia.
Qed.

Lemma demo_layout : layout demo_fs.
Proof.
  split; cbn; try lia; try (by apply demo_disk_ok); try (unfold max_lba; lia).
  - apply byte_map_ok; rewrite ?length_cons, ?length_replicate; try lia. apply Forall_replicate. lia.
  - apply byte_map_ok; rewrite ?length_cons, ?length_replicate; try lia. apply Forall_replicate. lia.
  - unfold bit_cnt. cbn. unfold max_lba. lia.
  - reflexivity.
Qed.

Lemma demo_coherent : coherent demo_fs.
Proof. vm_compute. reflexivity. Qed.

Lemma file_inode_ok : inode_ok file_inode.
Proof. by_decide. Qed.

(** Inode 6 lies across two sectors. *)
Lemma inode_sync_open_witness : ∃ buf' s1 q s2,
  @inode_sync debug_build (Inode 6 600 3 true (613 :: 614 :: replicate 11 0)) (replicate 1024 0) demo_fs = Ok (buf', s1) ∧
  @inode_open debug_build 6 s1 = Ok (q, s2) ∧ inodes s2 !! q = Some (Inode 6 600 1 false (613 :: 614 :: replicate 11 0)).
Proof.
  destruct (@inode_sync_open debug_build (Inode 6 600 3 true (613 :: 614 :: replicate 11 0)) (replicate 1024 0) demo_fs) as (b & s1 & q & s2 & H1 & H2 & H3 & _).
  - apply demo_layout.
  - by_decide.
  - reflexivity.
  - apply length_replicate.
  - reflexivity.
  - reflexivity.
  - reflexivity.
  - exists b, s1, q, s2. split; [exact H1|split; [exact H2|exact H3]].
Defined.

Lemma inode_sync_wrong_slot_witness : ∃ buf' s1,
  @inode_sync debug_build (Inode 257 600 1 false (613 :: 614 :: replicate 11 0)) (replicate 1024 0) demo_fs = Ok (buf', s1) ∧
  slot s1 1 = bytes_of (pure_words (Inode 257 600 1 false (613 :: 614 :: replicate 11 0))).
Proof.
  destruct (@inode_sync_wrong_slot debug_build (Inode 257 600 1 false (613 :: 614 :: replicate 11 0)) (replicate 1024 0) demo_fs) as (b & s1 & H1 & _ & H2).
  - apply demo_layout.
  - by_decide.
  - vm_compute. split; [discriminate|reflexivity].
  - apply length_replicate.
  - exists b, s1. split; [exact H1|exact H2].
Defined.

Definition demo_open : fs :=
  set_inodes {[ 4096 := set_open_cnts 1 file_inode ]} (set_part (set_open_inodes [4096] (cur_part demo_fs)) demo_fs).

Lemma inode_open_close_witness :
  @inode_open debug_build 1 demo_open = Ok (4096, set_inodes (<[4096 := set_open_cnts 2 file_inode]> (inodes demo_open)) demo_open).
Proof.
  apply (@inode_open_close_counts debug_build 1 4096 (set_open_cnts 1 file_inode) demo_open); [reflexivity|reflexivity|vm_compute; split; [discriminate|reflexivity]].
Defined.

Lemma inode_release_frees_witness : ∃ s', @inode_release debug_build 1 demo_fs = Ok (tt, s') ∧
  (bit (block_bitmap (cur_part s')) 1 = false ∧ bit (block_bitmap (cur_part s')) 2 = false) ∧ live s' = 0.
Proof.
  destruct (@inode_release_frees debug_build 1 file_inode demo_fs) as (s' & E & _ & _ & Hb & _ & _ & _ & _ & Hlv).
  - apply demo_layout.
  - apply demo_coherent.
  - reflexivity.
  - reflexivity.
  - reflexivity.
  - apply not_elem_of_nil.
  - lia.
  - reflexivity.
  - vm_compute. reflexivity.
  - apply file_inode_ok.
  - reflexivity.
  - unfold block_addr. by_decide.
  - exists s'. split; [exact E|]. split; [|exact Hlv]. split.
    + rewrite Hb by lia. reflexivity.
    + rewrite Hb by lia. reflexivity.
Defined.
