(* ===== verification/File.v ===== *)
(** * Open files ([fs/file.c], [lib/file.h])

    The table of open files and the reading and writing of regular files.  A
    [struct file*] is its index in [file_table]; an array of block addresses is
    a list of words.  An early [return -1] of [file_write] is [None]. *)

From S2P Require Import Prelude CString Bitmap Disk Inode.

Definition MAX_FILE_OPEN : Z := 32.
Definition MAX_FILES_OPEN_PER_PROC : Z := 8.
Definition O_RDONLY : Z := 0.
Definition O_WRONLY : Z := 1.
Definition O_RDWR : Z := 2.
Definition O_CREAT : Z := 4.

Section file_ops.
Context {B : Build}.

Definition file_at (f : Z) : M fs file := λ s, let? x := rd (file_table s) f in Ok (x, s).
Definition put_file (f : Z) (x : file) : M fs unit := λ s,
  let? t := wr (file_table s) f x in Ok (tt, set_file_table t s).

(** ** Descriptors *)

(** The loop [while (idx < end) { if (P(t[idx])) break; idx++; }] *)
Fixpoint find_from {A} (P : A → bool) (fuel : nat) (t : list A) (idx : Z) : res Z :=
  match fuel with
  | O => Ok idx
  | S fuel' => let? x := rd t idx in if P x then Ok idx else find_from P fuel' t (idx + 1)
  end.

Definition get_free_slot_in_global : M fs Z :=
  let! t := mget file_table in
  let! fd_idx := mlift (find_from (λ x, fd_inode x =? NULL) (Z.to_nat (MAX_FILE_OPEN - 3)) t 3) in
  mok (if fd_idx =? MAX_FILE_OPEN then -1 else fd_idx).

Definition pcb_fd_install (globa_fd_idx : Z) : M fs Z :=
  let! t := mget fd_table in
  let! local_fd_idx := mlift (find_from (λ x, x =? -1) (Z.to_nat (MAX_FILES_OPEN_PER_PROC - 3)) t 3) in
  if local_fd_idx =? MAX_FILES_OPEN_PER_PROC then mok (-1) else
  let! t := mlift (wr t local_fd_idx globa_fd_idx) in
  do! mmod (set_fd_table t) in
  mok local_fd_idx.

Definition file_open (inode_no flag : Z) : M fs Z :=
  let! fd_idx := get_free_slot_in_global in
  if fd_idx =? -1 then mok (-1) else
  let! q := inode_open inode_no in
  do! put_file fd_idx (File 0 flag q) in
  if (flag =? O_WRONLY) || (flag =? O_RDWR) then
    let! i := inode_at q in
    if negb (write_deny i) then
      do! put_inode q (set_write_deny true i) in pcb_fd_install fd_idx
    else mok (-1)
  else pcb_fd_install fd_idx.

Definition file_close (f : option Z) : M fs Z :=
  match f with
  | None => mok (-1)
  | Some f =>
      let! x := file_at f in
      let! i := inode_at (fd_inode x) in
      do! put_inode (fd_inode x) (set_write_deny false i) in
      do! inode_close (fd_inode x) in
      do! put_file f (File (fd_pos x) (fd_flag x) NULL) in
      mok 0
  end.

(** ** Block addresses *)

Definition set_sector (p idx lba : Z) : M fs unit :=
  let! i := inode_at p in
  let! l := mlift (wr (i_sectors i) idx lba) in
  put_inode p (set_i_sectors l i).
Definition sector_of (p idx : Z) : M fs Z := let! i := inode_at p in mlift (rd (i_sectors i) idx).

(** [ide_read(disk, table, all_blocks + 12, 1)] and [ide_write] of the same *)
Definition load_table (tbl : Z) (all_blocks : list Z) : M fs (list Z) :=
  let! t := ide_read tbl (replicate 512 0) 0 1 in mok (take 12 all_blocks ++ words_of t).
Definition store_table (tbl : Z) (all_blocks : list Z) : M fs unit :=
  ide_write tbl (bytes_of (drop 12 all_blocks)) 0 1.

Definition sync_block (lba : Z) : M fs unit :=
  let! p := mget cur_part in bitmap_sync (u32 (lba - data_start_lba (sb p))) BLOCK_BITMAP.

(** The three loops that allocate the blocks from [block_idx] on; they differ
    in which addresses also go into the inode ([direct]). *)
Fixpoint grow (direct : Z → bool) (n : nat) (p block_idx : Z) (all_blocks : list Z) : M fs (option (list Z)) :=
  match n with
  | O => mok (Some all_blocks)
  | S n' =>
      let! block_lba := block_bitmap_alloc in
      if block_lba =? -1 then mok None else
      do! (if direct block_idx then
             let! old := sector_of p block_idx in
             do! mlift (ASSERT (old =? 0)) in
             set_sector p block_idx block_lba
           else mok tt) in
      let! all_blocks := mlift (wr all_blocks block_idx block_lba) in
      do! sync_block block_lba in
      grow direct n' p (block_idx + 1) all_blocks
  end.

Definition copy_sector (p idx : Z) (all_blocks : list Z) : M fs (list Z) :=
  let! v := sector_of p idx in mlift (wr all_blocks idx v).

(** The first block of a file that has none. *)
Definition first_block (p : Z) : M fs bool :=
  let! s0 := sector_of p 0 in
  if s0 =? 0 then
    let! block_lba := block_bitmap_alloc in
    if block_lba =? -1 then mok false else
    do! set_sector p 0 block_lba in
    let! q := mget cur_part in
    let block_bitmap_idx := u32 (block_lba - data_start_lba (sb q)) in
    do! mlift (ASSERT (negb (block_bitmap_idx =? 0))) in
    do! bitmap_sync block_bitmap_idx BLOCK_BITMAP in
    mok true
  else mok true.

(** [all_blocks] for a write that needs blocks [has - 1] to [will - 1]. *)
Definition collect_blocks (p has will : Z) (all_blocks : list Z) : M fs (option (list Z)) :=
  let add_blocks := u32 (will - has) in
  if add_blocks =? 0 then
    if has <=? 12 then
      let! ab := copy_sector p (has - 1) all_blocks in mok (Some ab)
    else
      let! tbl := sector_of p 12 in
      do! mlift (ASSERT (negb (tbl =? 0))) in
      let! ab := load_table tbl all_blocks in mok (Some ab)
  else if will <=? 12 then
    let! last := sector_of p (has - 1) in
    do! mlift (ASSERT (negb (last =? 0))) in
    let! ab := copy_sector p (has - 1) all_blocks in
    grow (λ _, true) (Z.to_nat (will - has)) p has ab
  else if (has <=? 12) && (12 <? will) then
    let! ab := copy_sector p (has - 1) all_blocks in
    let! block_lba := block_bitmap_alloc in
    if block_lba =? -1 then mok None else
    let! old := sector_of p 12 in
    do! mlift (ASSERT (old =? 0)) in
    do! set_sector p 12 block_lba in
    let! r := grow (λ i, i <? 12) (Z.to_nat (will - has)) p has ab in
    match r with
    | None => mok None
    | Some ab => do! store_table block_lba ab in mok (Some ab)
    end
  else
    let! tbl := sector_of p 12 in
    do! mlift (ASSERT (negb (tbl =? 0))) in
    let! ab := load_table tbl all_blocks in
    let! r := grow (λ _, false) (Z.to_nat (will - has)) p has ab in
    match r with
    | None => mok None
    | Some ab => do! store_table tbl ab in mok (Some ab)
    end.

(** ** Writing *)

(** Every turn writes at least one byte.  The result is [io_buf], which
    [inode_sync] uses next. *)
Fixpoint write_loop (fuel : nat) (f p : Z) (all_blocks io_buf src : list Z) (first_write_block : bool)
    (bytes_written count size_left : Z) : M fs (list Z) :=
  match fuel with
  | O => λ _, Spin
  | S fuel' =>
      if bytes_written <? count then
        let! io_buf := mlift (memset (Some io_buf) 0 BLOCK_SIZE) in
        let! i := inode_at p in
        let sec_idx := i_size i / BLOCK_SIZE in
        let! sec_lba := mlift (rd all_blocks sec_idx) in
        let sec_off_bytes := i_size i mod BLOCK_SIZE in
        let sec_left_bytes := BLOCK_SIZE - sec_off_bytes in
        let chunk_size := if size_left <? sec_left_bytes then size_left else sec_left_bytes in
        let! io_buf := (if first_write_block then ide_read sec_lba io_buf 0 1 else mok io_buf) in
        let! data := mlift (get_at src 0 chunk_size) in
        let! io_buf := mlift (put_at io_buf sec_off_bytes data) in
        do! ide_write sec_lba io_buf 0 1 in
        do! put_inode p (set_i_size (u32 (i_size i + chunk_size)) i) in
        let! x := file_at f in
        do! put_file f (File (u32 (fd_pos x + chunk_size)) (fd_flag x) (fd_inode x)) in
        write_loop fuel' f p all_blocks io_buf (drop (Z.to_nat chunk_size) src) false
          (bytes_written + chunk_size) count (size_left - chunk_size)
      else mok io_buf
  end.

(** From the counting of the blocks to the end. *)
Definition write_blocks (f p : Z) (x : file) (i : inode) (io_buf buf : list Z) (count : Z) : M fs Z :=
  let has := i_size i / BLOCK_SIZE + 1 in
  let will := u32 (i_size i + count) / BLOCK_SIZE + 1 in
  do! mlift (ASSERT (will <=? 140)) in
  let! ab := collect_blocks p has will (replicate 140 0) in
  match ab with
  | None => mok (-1)
  | Some ab =>
      do! put_file f (File (u32 (i_size i - 1)) (fd_flag x) p) in
      let! io_buf := write_loop (S (Z.to_nat count)) f p ab io_buf buf true 0 count count in
      let! i := inode_at p in
      let! _ := inode_sync i io_buf in
      do! sys_free in
      do! sys_free in
      mok count
  end.

Definition file_write (f : Z) (buf : list Z) (count : Z) : M fs Z :=
  let! x := file_at f in
  let p := fd_inode x in
  let! i := inode_at p in
  if BLOCK_SIZE * 140 <? u32 (i_size i + count) then mok (-1) else
  let! io_buf := malloc_buf 512 in
  match io_buf with
  | None => mok (-1)
  | Some io_buf =>
      let! all_blocks := malloc_buf 560 in
      match all_blocks with
      | None => mok (-1)
      | Some _ =>
          let! ok := first_block p in
          if negb ok then mok (-1) else write_blocks f p x i io_buf buf count
      end
  end.

(** ** Reading *)

Fixpoint copy_sectors (n : nat) (p idx : Z) (all_blocks : list Z) : M fs (list Z) :=
  match n with
  | O => mok all_blocks
  | S n' => let! ab := copy_sector p idx all_blocks in copy_sectors n' p (idx + 1) ab
  end.

(** [all_blocks] for a read of blocks [b0] to [b1]. *)
Definition collect_read (p b0 b1 : Z) (all_blocks : list Z) : M fs (list Z) :=
  if u32 (b0 - b1) =? 0 then
    do! mlift (ASSERT (b1 =? b0)) in
    if b1 <? 12 then copy_sector p b1 all_blocks
    else let! tbl := sector_of p 12 in load_table tbl all_blocks
  else if b1 <? 12 then copy_sectors (Z.to_nat (b1 - b0 + 1)) p b0 all_blocks
  else if (b0 <? 12) && (12 <=? b1) then
    let! ab := copy_sectors (Z.to_nat (12 - b0)) p b0 all_blocks in
    let! tbl := sector_of p 12 in
    do! mlift (ASSERT (negb (tbl =? 0))) in
    load_table tbl ab
  else
    let! tbl := sector_of p 12 in
    do! mlift (ASSERT (negb (tbl =? 0))) in
    load_table tbl all_blocks.

(** Every turn reads at least one byte; [dst] is the rest of [buf] from [buf_dst] on. *)
Fixpoint read_loop (fuel : nat) (f : Z) (all_blocks : list Z) (io_buf : ptr) (buf : list Z)
    (bytes_read size size_left : Z) : M fs (list Z) :=
  match fuel with
  | O => λ _, Spin
  | S fuel' =>
      if bytes_read <? size then
        let! x := file_at f in
        let sec_idx := fd_pos x / BLOCK_SIZE in
        let! sec_lba := mlift (rd all_blocks sec_idx) in
        let sec_off_bytes := fd_pos x mod BLOCK_SIZE in
        let sec_left_bytes := BLOCK_SIZE - sec_off_bytes in
        let chunk_size := if size_left <? sec_left_bytes then size_left else sec_left_bytes in
        let! io := mlift (memset io_buf 0 BLOCK_SIZE) in
        let! io := ide_read sec_lba io 0 1 in
        let! data := mlift (get_at io sec_off_bytes chunk_size) in
        let! buf := mlift (put_at buf bytes_read data) in
        do! put_file f (File (u32 (fd_pos x + chunk_size)) (fd_flag x) (fd_inode x)) in
        read_loop fuel' f all_blocks (Some io) buf (bytes_read + chunk_size) size (size_left - chunk_size)
      else mok buf
  end.

(** The bytes read, or -1, and the buffer afterwards. *)
Definition file_read (f : Z) (buf : list Z) (count : Z) : M fs (Z * list Z) :=
  let! x := file_at f in
  let! i := inode_at (fd_inode x) in
  let over := i_size i <? u32 (fd_pos x + count) in
  let size := if over then u32 (i_size i - fd_pos x) else count in
  if over && (size =? 0) then mok (-1, buf) else
  let! io_buf := malloc_buf 512 in
  let! all_blocks := malloc_buf 560 in
  match all_blocks with
  | None => mok (-1, buf)
  | Some _ =>
      let block_read_start_idx := fd_pos x / BLOCK_SIZE in
      let block_read_end_idx := u32 (fd_pos x + size) / BLOCK_SIZE in
      do! mlift (ASSERT ((block_read_start_idx <? 139) && (block_read_end_idx <? 139))) in
      let! ab := collect_read (fd_inode x) block_read_start_idx block_read_end_idx (replicate 140 0) in
      let! buf := read_loop (S (Z.to_nat size)) f ab io_buf buf 0 size size in
      do! sys_free in
      do! sys_free in
      mok (size, buf)
  end.

End file_ops.

(** ** What a file is *)

Notation bb s := (block_bitmap (cur_part s)).

Definition tbl_of (i : inode) : Z := nth 12 (i_sectors i) 0.

(** All block addresses of an inode, in the order of the data. *)
Definition blocks_of (d : disk) (i : inode) : list Z :=
  take 12 (i_sectors i) ++ (if tbl_of i =? 0 then [] else words_of (sector d (tbl_of i))).

(** The number of blocks [file_write] counts for a size. *)
Definition used (i : inode) : nat := Z.to_nat (i_size i / 512 + 1).

(** The data in a list of blocks, and the bytes of a file. *)
Definition img (d : disk) (bs : list Z) : list Z := concat (sector d <$> bs).
Definition content (d : disk) (i : inode) : list Z := take (Z.to_nat (i_size i)) (img d (take (used i) (blocks_of d i))).

(** A data block that the block map says is taken. *)
Definition own (s : fs) (b : Z) : Prop :=
  data_lba s < b < data_lba s + bit_cnt (bb s) ∧ b ≤ max_lba ∧ bit (bb s) (b - data_lba s) = true.

(** The blocks a file holds: its data blocks and the table. *)
Definition owned (d : disk) (i : inode) : list Z :=
  take (used i) (blocks_of d i) ++ (if tbl_of i =? 0 then [] else [tbl_of i]).

(** A file with at least one block: as many blocks as its size needs, each
    taken in the block map, none twice, and a table exactly when the direct
    blocks are not enough. *)
Record file_ok (s : fs) (i : inode) : Prop := {
  fo_inode : inode_ok i;
  fo_size : i_size i < 71680;
  fo_tbl : tbl_of i = 0 ↔ (used i ≤ 12)%nat;
  fo_zero : ∀ k, (used i ≤ k < 12)%nat → i_sectors i !! k = Some 0;
  fo_own : Forall (own s) (owned (drive s) i);
  fo_nodup : NoDup (owned (drive s) i);
}.

(** A file just created has no block. *)
Definition no_blocks (i : inode) : Prop := i_size i = 0 ∧ i_sectors i = replicate 13 0.

(** ** Lemmas *)

(** The blocks [new] were taken from the free ones, in memory and on disk; of
    the inodes only [p] may have changed. *)
Record grown (p : Z) (new : list Z) (s s' : fs) : Prop := {
  gr_frame : ∃ d b m, s' = set_drive d (set_inodes m (with_blocks b s)) ∧ (∀ q, q ≠ p → m !! q = inodes s !! q);
  gr_bits : ∀ j, 0 ≤ j → bit (bb s') j = if decide (data_lba s + j ∈ new) then true else bit (bb s) j;
  gr_cnt : bit_cnt (bb s') = bit_cnt (bb s);
  gr_new : Forall (λ x, data_lba s < x < data_lba s + bit_cnt (bb s) ∧ x ≤ max_lba ∧ bit (bb s) (x - data_lba s) = false) new;
  gr_nodup : NoDup new;
  gr_disk : ∀ l, inode_bitmap_lba (sb (cur_part s)) ≤ l → sector (drive s') l = sector (drive s) l;
  gr_layout : layout s';
  gr_free : length (free_bits (bb s)) = (length new + length (free_bits (bb s')))%nat;
}.

Section file_lemmas.
Context {B : Build}.

Lemma grown_data p new s s' : grown p new s s' → data_lba s' = data_lba s.
Proof. by intros [(d & b & m & -> & _) _ _ _ _ _ _ _]. Qed.
Lemma grown_sb p new s s' : grown p new s s' → sb (cur_part s') = sb (cur_part s).
Proof. by intros [(d & b & m & -> & _) _ _ _ _ _ _ _]. Qed.

Lemma grown_refl p s m : layout s → (∀ q, q ≠ p → m !! q = inodes s !! q) → grown p [] s (set_inodes m s).
Proof.
  intros Hl Hm. split; try done.
  - exists (drive s), (bb s), m. split; [by destruct s as [? []]|done].
  - constructor.
  - by destruct Hl.
Qed.

Lemma grown_trans p new1 new2 s s1 s2 : grown p new1 s s1 → grown p new2 s1 s2 → grown p (new1 ++ new2) s s2.
Proof.
  intros H1 H2. pose proof (grown_data _ _ _ _ H1) as Ed. pose proof (grown_sb _ _ _ _ H1) as Esb.
  destruct H1 as [F1 B1 C1 N1 D1 K1 L1 Q1], H2 as [F2 B2 C2 N2 D2 K2 L2 Q2]. rewrite Ed, ?Esb in *.
  split; try done.
  - destruct F1 as (d & b & m & -> & Hm), F2 as (d' & b' & m' & -> & Hm'). exists d', b', m'. split; [done|].
    intros q Hq. rewrite Hm' by done. by apply Hm.
  - intros j Hj. rewrite B2, B1 by done. repeat case_decide; set_solver.
  - by rewrite C2.
  - apply Forall_app. split; [done|]. rewrite C1 in N2. eapply Forall_impl; [exact N2|]. simpl. intros x (Hx & Hm & Hb). split; [done|]. split; [done|].
    rewrite B1 in Hb by lia. by case_decide.
  - apply NoDup_app. split; [done|]. split; [|done]. intros x Hx Hx2. rewrite Forall_forall in N2. specialize (N2 x Hx2) as (Hr & _ & Hb).
    rewrite B1 in Hb by lia. replace (data_lba s + (x - data_lba s)) with x in Hb by lia. by rewrite decide_True in Hb.
  - intros l Hll. rewrite K2 by done. by apply K1.
  - rewrite length_app. lia.
Qed.

(** One allocation, with the inode changed before the map is written back. *)
Lemma alloc_grown p s :
  layout s → (0 < length (free_bits (bb s)))%nat →
  ∃ lba s1, block_bitmap_alloc s = Ok (lba, s1) ∧ 0 < lba ≤ max_lba ∧ inodes s1 = inodes s ∧ drive s1 = drive s ∧ cur_part s1 = set_block_bitmap (bb s1) (cur_part s) ∧
    ∀ i', grown p [lba] s (set_inodes (<[p := i']> (inodes s1)) s1) ∧
    ∃ s2, sync_block lba (set_inodes (<[p := i']> (inodes s1)) s1) = Ok (tt, s2) ∧
      bitmap_sync (u32 (lba - data_lba s)) BLOCK_BITMAP (set_inodes (<[p := i']> (inodes s1)) s1) = Ok (tt, s2) ∧
      u32 (lba - data_lba s) ≠ 0 ∧ inodes s2 = <[p := i']> (inodes s) ∧ grown p [lba] s s2.
Proof.
  intros Hl Hf. destruct (alloc_only_run s Hl Hf) as (k & b & E & Hset & Hk & Hbit & Hmax & Hbits & Hcnt & Hlay & Hfree).
  pose proof (data_lba_pos s Hl) as Hpos.
  assert (Hgen : ∀ i' d, disk_ok d → (∀ l, inode_bitmap_lba (sb (cur_part s)) ≤ l → sector d l = sector (drive s) l) →
    grown p [data_lba s + k] s (set_drive d (set_inodes (<[p := i']> (inodes s)) (with_blocks b s)))).
  { intros i' d Hd Hs. split; try done.
    - exists d, b, (<[p := i']> (inodes s)). split; [done|]. intros q Hq. by rewrite lookup_insert_ne.
    - intros j Hj. change (bit b j = if decide (data_lba s + j ∈ [data_lba s + k]) then true else bit (bb s) j). rewrite Hbits by done.
      rewrite (decide_ext (data_lba s + j ∈ [data_lba s + k]) (j = k)) by (rewrite list_elem_of_singleton; lia). done.
    - apply Forall_singleton. replace (data_lba s + k - data_lba s) with k by lia. split; [lia|done].
    - apply NoDup_singleton.
    - pose proof (Hlay d Hd) as Hl'. by destruct Hl'. }
  exists (data_lba s + k), (with_blocks b s). split_and!; try done; try lia. intros i'. split.
  - apply (Hgen i' (drive s)); [apply Hl|done].
  - set (si := set_inodes (<[p := i']> (inodes s)) s).
    destruct (block_sync_run si b k 1) as (d & Hsync & Hd & _ & Hsec); [by destruct Hl|cbn; lia|done|].
    exists (set_drive d (with_blocks b si)).
    assert (Hu : u32 (data_lba s + k - data_lba s) = k) by (replace (data_lba s + k - data_lba s) with k by lia; apply u32_small; unfold max_lba in *; lia).
    rewrite Hu. split_and!; try done; try lia.
    + unfold sync_block, mbnd, mget. cbn [rbind fst snd]. change (data_start_lba (sb (cur_part (set_inodes (<[p:=i']> (inodes (with_blocks b s))) (with_blocks b s))))) with (data_lba s). rewrite Hu. exact Hsync.
    + apply (Hgen i' d Hd). intros l Hll. apply Hsec. right. exact Hll.
Qed.

Lemma set_inodes_same p i s : inodes s !! p = Some i → set_inodes (<[p := i]> (inodes s)) s = s.
Proof. intros H. rewrite insert_id by done. by destruct s. Qed.

Lemma inode_at_run p i s : inodes s !! p = Some i → inode_at p s = Ok (i, s).
Proof. unfold inode_at. by intros ->. Qed.

Lemma sector_of_run p i s idx v : inodes s !! p = Some i → 0 ≤ idx → i_sectors i !! Z.to_nat idx = Some v → sector_of p idx s = Ok (v, s).
Proof.
  intros Hi H0 Hv. unfold sector_of. mstep (inode_at_run p i s Hi). by rewrite (mlift_Ok _ _ _ (rd_lookup _ _ _ H0 Hv)).
Qed.

Lemma set_sector_run p i s idx v :
  inodes s !! p = Some i → 0 ≤ idx < Z.of_nat (length (i_sectors i)) →
  set_sector p idx v s = Ok (tt, set_inodes (<[p := set_i_sectors (<[Z.to_nat idx := v]> (i_sectors i)) i]> (inodes s)) s).
Proof.
  intros Hi H0. unfold set_sector. mstep (inode_at_run p i s Hi).
  by mstep (mlift_Ok _ s _ (wr_Ok _ _ v H0)).
Qed.

(** The new block addresses in the inode. *)
Definition sectors_after (direct : Z → bool) (idx : nat) (new old sec : list Z) : Prop :=
  length sec = length old ∧
  ∀ k, sec !! k = if decide (idx ≤ k < idx + length new)%nat then (if direct (Z.of_nat k) then new !! (k - idx)%nat else old !! k) else old !! k.

Lemma grow_run direct n p idx ab s i :
  layout s → inodes s !! p = Some i → length (i_sectors i) = 13%nat → (idx + n ≤ length ab)%nat →
  (∀ k, (idx ≤ k < idx + n)%nat → direct (Z.of_nat k) = true → i_sectors i !! k = Some 0) →
  (n ≤ length (free_bits (bb s)))%nat →
  ∃ new s' sec, grow direct n p (Z.of_nat idx) ab s = Ok (Some (splice idx new ab), s') ∧ length new = n ∧ grown p new s s' ∧
    inodes s' !! p = Some (set_i_sectors sec i) ∧ sectors_after direct idx new (i_sectors i) sec.
Proof.
  revert idx ab s i. induction n as [|n IH]; intros idx ab s i Hl Hi Hlen Hab Hz Hf.
  { exists [], s, (i_sectors i). split_and!; try done.
    - cbn [grow]. by rewrite splice_nil.
    - rewrite <-(set_inodes_same p i s Hi) at 2. apply grown_refl; [done|]. intros q Hq. by rewrite lookup_insert_ne.
    - rewrite Hi. by destruct i.
    - split; [done|]. intros k. by rewrite decide_False by (simpl; lia). }
  destruct (alloc_grown p s Hl) as (lba & s1 & E & Hlba & Hi1 & _ & _ & Hg); [lia|].
  cbn [grow]. mstep E. rewrite (proj2 (Z.eqb_neq lba (-1))) by lia.
  set (sec1 := if direct (Z.of_nat idx) then <[idx := lba]> (i_sectors i) else i_sectors i).
  destruct (Hg (set_i_sectors sec1 i)) as (_ & s2 & Esync & _ & _ & Hi2 & Hgr).
  assert (Hset : (if direct (Z.of_nat idx) then
             let! old := sector_of p (Z.of_nat idx) in do! mlift (ASSERT (old =? 0)) in set_sector p (Z.of_nat idx) lba
           else mok tt) s1 = Ok (tt, set_inodes (<[p := set_i_sectors sec1 i]> (inodes s1)) s1)).
  { unfold sec1. destruct (direct (Z.of_nat idx)) eqn:Ed.
    - assert (Hold : i_sectors i !! idx = Some 0) by (apply Hz; [lia|done]). apply lookup_lt_Some in Hold as Hlt.
      mstep (sector_of_run p i s1 (Z.of_nat idx) 0 ltac:(by rewrite Hi1) ltac:(lia) ltac:(by rewrite Nat2Z.id)).
      mstep (mlift_Ok _ s1 _ (ASSERT_true (0 =? 0) eq_refl)).
      rewrite (set_sector_run p i s1) by (rewrite ?Hi1; done || lia). by rewrite Nat2Z.id.
    - assert (set_i_sectors (i_sectors i) i = i) as -> by (by destruct i). rewrite set_inodes_same by (by rewrite Hi1). done. }
  mstep Hset.
  mstep (mlift_Ok _ _ _ (wr_Ok ab (Z.of_nat idx) lba ltac:(lia))).
  mstep Esync. rewrite Nat2Z.id. replace (Z.of_nat idx + 1) with (Z.of_nat (S idx)) by lia.
  assert (Hs1len : length sec1 = 13%nat) by (unfold sec1; destruct (direct _); rewrite ?length_insert; done).
  destruct (IH (S idx) (<[idx := lba]> ab) s2 (set_i_sectors sec1 i)) as (new & s' & sec & E3 & Hn & Hgr3 & Hi3 & Hsec).
  - apply Hgr.
  - rewrite Hi2. by rewrite lookup_insert_eq.
  - done.
  - rewrite length_insert. lia.
  - intros k Hk Hd. cbn [i_sectors set_i_sectors]. unfold sec1. destruct (direct (Z.of_nat idx)); [rewrite list_lookup_insert_ne by lia|]; apply Hz; done || lia.
  - pose proof (gr_free _ _ _ _ Hgr) as Hfr. simpl in Hfr. lia.
  - exists (lba :: new), s', sec. split_and!.
    + rewrite E3. do 3 f_equal. unfold splice. simpl length. rewrite (take_S_r _ _ lba) by (apply list_lookup_insert_eq; lia).
      rewrite take_insert_ge by lia. rewrite drop_insert_lt by lia. rewrite <-app_assoc. simpl. do 3 f_equal. f_equal. lia.
    + simpl. by rewrite Hn.
    + by apply (grown_trans p [lba] new s s2 s').
    + exact Hi3.
    + destruct Hsec as [Hsl Hsk]. split; [cbn [i_sectors set_i_sectors] in Hsl; rewrite Hsl; lia|]. intros k. rewrite Hsk. cbn [i_sectors set_i_sectors length].
      assert (Hs1k : sec1 !! k = if decide (k = idx) then (if direct (Z.of_nat idx) then Some lba else i_sectors i !! k) else i_sectors i !! k).
      { unfold sec1. case_decide as Ek.
        - subst k. destruct (direct (Z.of_nat idx)) eqn:Ed; [|done]. apply list_lookup_insert_eq. apply (lookup_lt_Some _ _ 0). apply Hz; [lia|done].
        - destruct (direct (Z.of_nat idx)); [by rewrite list_lookup_insert_ne|done]. }
      rewrite Hs1k. destruct (decide (k = idx)) as [->|Hne].
      * rewrite decide_False by lia. rewrite decide_True by lia. rewrite Nat.sub_diag. done.
      * destruct (decide (S idx ≤ k < S idx + length new)%nat) as [Hin|Hout].
        -- rewrite (decide_True (P := (idx ≤ k < idx + S (length new))%nat)) by lia. destruct (direct (Z.of_nat k)); [|done].
           replace (k - idx)%nat with (S (k - S idx)) by lia. done.
        -- by rewrite decide_False by lia.
Qed.

(** *** Block addresses *)

Lemma blocks_direct d i k : (k < 12)%nat → length (i_sectors i) = 13%nat → blocks_of d i !! k = i_sectors i !! k.
Proof.
  intros Hk Hl. unfold blocks_of. rewrite lookup_app_l by (rewrite length_take; lia). by apply lookup_take_lt.
Qed.

Lemma blocks_table d i k : (12 ≤ k)%nat → length (i_sectors i) = 13%nat → tbl_of i ≠ 0 → blocks_of d i !! k = words_of (sector d (tbl_of i)) !! (k - 12)%nat.
Proof.
  intros Hk Hl Ht. unfold blocks_of. rewrite lookup_app_r by (rewrite length_take; lia). rewrite (proj2 (Z.eqb_neq _ _)) by done.
  f_equal. rewrite length_take. lia.
Qed.

Lemma blocks_length d i : disk_ok d → length (i_sectors i) = 13%nat → length (blocks_of d i) = if tbl_of i =? 0 then 12%nat else 140%nat.
Proof.
  intros Hd Hl. unfold blocks_of. rewrite length_app, length_take, Hl. destruct (tbl_of i =? 0); simpl; [done|].
  rewrite (words_of_length 128); [done|]. by rewrite sector_length.
Qed.

Lemma load_table_run tbl ab s :
  disk_ok (drive s) → tbl ≤ max_lba → load_table tbl ab s = Ok (take 12 ab ++ words_of (sector (drive s) tbl), s).
Proof.
  intros Hd Ht. unfold load_table. mstep (ide_read_run tbl (replicate 512 0) 0 1 s Ht Hd ltac:(lia) ltac:(done)).
  unfold mok. rewrite disk_read_1. unfold splice. change (Z.to_nat 0) with O. rewrite sector_length by done. rewrite drop_ge by done. by rewrite app_nil_r.
Qed.

Lemma store_table_run tbl ab s :
  length ab = 140%nat → tbl ≤ max_lba →
  store_table tbl ab s = Ok (tt, set_drive (<[tbl := bytes_of (drop 12 ab)]> (drive s)) s).
Proof.
  intros Hab Ht. unfold store_table. assert (Hlen : length (bytes_of (drop 12 ab)) = 512%nat) by (rewrite bytes_of_length, length_drop, Hab; done).
  rewrite ide_write_run by (done || lia). cbn [disk_write]. change (drop (Z.to_nat 0) (bytes_of (drop 12 ab))) with (bytes_of (drop 12 ab)).
  rewrite !take_ge by (rewrite ?length_take; lia). done.
Qed.

Lemma copy_sector_run p i s k ab v :
  inodes s !! p = Some i → i_sectors i !! k = Some v → (k < length ab)%nat → copy_sector p (Z.of_nat k) ab s = Ok (<[k := v]> ab, s).
Proof.
  intros Hi Hv Hk. unfold copy_sector. mstep (sector_of_run p i s (Z.of_nat k) v Hi ltac:(lia) ltac:(by rewrite Nat2Z.id)).
  rewrite (mlift_Ok _ s _ (wr_Ok ab (Z.of_nat k) v ltac:(lia))). by rewrite Nat2Z.id.
Qed.

Lemma tbl_lookup i : length (i_sectors i) = 13%nat → i_sectors i !! 12%nat = Some (tbl_of i).
Proof.
  intros H. unfold tbl_of. destruct (lookup_lt_is_Some_2 (i_sectors i) 12) as [x Hx]; [lia|]. rewrite Hx. f_equal. symmetry. by apply nth_lookup_Some.
Qed.

(** What [collect_blocks] has done: [tnew] is the new table, [new] the new data blocks. *)
Record collected (p : Z) (i : inode) (has will : nat) (s : fs) (ab tnew new sec : list Z) (s0 : fs) (d : disk) : Prop := {
  co_grown : grown p (tnew ++ new) s s0;
  co_inode : inodes s0 !! p = Some (set_i_sectors sec i);
  co_new : length new = (will - has)%nat;
  co_blocks : take will (blocks_of d (set_i_sectors sec i)) = take has (blocks_of (drive s) i) ++ new;
  co_tbl : tnew = [] ∧ tbl_of (set_i_sectors sec i) = tbl_of i ∧ ((will ≤ 12)%nat ↔ tbl_of i = 0) ∨
           (∃ t, tnew = [t] ∧ tbl_of (set_i_sectors sec i) = t ∧ tbl_of i = 0 ∧ (12 < will)%nat);
  co_len : length sec = 13%nat;
  co_zero : ∀ k, (will ≤ k < 12)%nat → sec !! k = Some 0;
  co_ab : ∀ k, (has - 1 ≤ k < will)%nat → ab !! k = (take has (blocks_of (drive s) i) ++ new) !! k;
  co_disk : ∀ l, l ≠ tbl_of (set_i_sectors sec i) → sector d l = sector (drive s0) l;
  co_ok : disk_ok d;
}.

Lemma set_i_sectors_same i : set_i_sectors (i_sectors i) i = i.
Proof. by destruct i. Qed.

Lemma used_range s i : file_ok s i → (1 ≤ used i ≤ 140)%nat ∧ i_size i / 512 + 1 = Z.of_nat (used i).
Proof. intros [(_ & [H0 _] & _) Hs _ _ _ _]. unfold used. split; zsolve. Qed.

Lemma used_blocks s i : layout s → file_ok s i → (used i ≤ length (blocks_of (drive s) i))%nat.
Proof.
  intros Hl Hf. pose proof (used_range s i Hf) as [Hu _]. destruct Hf as [(_ & _ & Hlen & _) _ Ht _ _ _].
  rewrite blocks_length by (done || apply Hl). destruct (Z.eqb_spec (tbl_of i) 0) as [E|E]; [by apply Ht|lia].
Qed.

Lemma tbl_own s i : file_ok s i → tbl_of i ≠ 0 → own s (tbl_of i).
Proof.
  intros [_ _ _ _ Ho _] Ht. unfold owned in Ho. rewrite (proj2 (Z.eqb_neq _ _)) in Ho by done.
  apply Forall_app in Ho as [_ Ho]. by apply Forall_inv in Ho.
Qed.

(** No new block is needed. *)
Lemma collect_same p i s :
  layout s → file_ok s i → inodes s !! p = Some i →
  ∃ ab, collect_blocks p (Z.of_nat (used i)) (Z.of_nat (used i)) (replicate 140 0) s = Ok (Some ab, s) ∧
    collected p i (used i) (used i) s ab [] [] (i_sectors i) s (drive s).
Proof.
  intros Hl Hf Hi. pose proof (used_range s i Hf) as [Hu _]. pose proof (used_blocks s i Hl Hf) as Hub.
  pose proof (fo_inode s i Hf) as (_ & _ & Hlen & _). pose proof (ly_disk s Hl) as Hd.
  assert (Hcol : ∀ ab, ab !! (used i - 1)%nat = blocks_of (drive s) i !! (used i - 1)%nat → collected p i (used i) (used i) s ab [] [] (i_sectors i) s (drive s)).
  { intros ab Hab. split; rewrite ?set_i_sectors_same; try done.
    - rewrite <-(set_inodes_same p i s Hi) at 2. apply grown_refl; [done|]. intros q Hq. by rewrite lookup_insert_ne.
    - simpl. lia.
    - by rewrite app_nil_r.
    - left. split; [done|]. split; [done|]. symmetry. apply (fo_tbl s i Hf).
    - apply (fo_zero s i Hf).
    - intros k Hk. assert (k = used i - 1)%nat as -> by lia. rewrite Hab, app_nil_r. by rewrite lookup_take_lt by lia. }
  unfold collect_blocks. rewrite Z.sub_diag. change (u32 0 =? 0) with true. cbv iota.
  destruct (Z.leb_spec (Z.of_nat (used i)) 12) as [Hle|Hgt].
  - destruct (lookup_lt_is_Some_2 (i_sectors i) (used i - 1)) as [v Hv]; [lia|].
    replace (Z.of_nat (used i) - 1) with (Z.of_nat (used i - 1)) by lia.
    exists (<[(used i - 1)%nat := v]> (replicate 140 0)). mstep (copy_sector_run p i s (used i - 1) (replicate 140 0) v Hi Hv ltac:(rewrite length_replicate; lia)).
    split; [done|]. apply Hcol. rewrite list_lookup_insert_eq by (rewrite length_replicate; lia). rewrite blocks_direct by (done || lia). done.
  - assert (Ht : tbl_of i ≠ 0) by (rewrite (fo_tbl s i Hf); lia). pose proof (tbl_own s i Hf Ht) as (_ & Htm & _).
    mstep (sector_of_run p i s 12 (tbl_of i) Hi ltac:(lia) (tbl_lookup i Hlen)).
    mstep (mlift_Ok _ s _ (ASSERT_true (negb (tbl_of i =? 0)) ltac:(by rewrite (proj2 (Z.eqb_neq _ _))))).
    mstep (load_table_run (tbl_of i) _ s Hd Htm). eexists. split; [done|]. apply Hcol.
    rewrite lookup_app_r by (rewrite length_take, length_replicate; lia). rewrite blocks_table by (done || lia). f_equal.
Qed.

(** All blocks are direct ones. *)
Lemma collect_direct p i s will :
  layout s → file_ok s i → inodes s !! p = Some i → (used i < will ≤ 12)%nat → (will - used i ≤ length (free_bits (bb s)))%nat →
  ∃ ab new sec s', collect_blocks p (Z.of_nat (used i)) (Z.of_nat will) (replicate 140 0) s = Ok (Some ab, s') ∧
    collected p i (used i) will s ab [] new sec s' (drive s').
Proof.
  intros Hl Hf Hi Hw Hfree. pose proof (used_range s i Hf) as [Hu _]. pose proof (used_blocks s i Hl Hf) as Hub.
  pose proof (fo_inode s i Hf) as (_ & _ & Hlen & _). set (n := used i) in *.
  assert (Ht0 : tbl_of i = 0) by (apply (fo_tbl s i Hf); fold n; lia).
  destruct (lookup_lt_is_Some_2 (i_sectors i) (n - 1)) as [v Hv]; [lia|].
  assert (Hv0 : v ≠ 0).
  { assert (Hvo : own s v); [|destruct Hvo as [Hvo _]; pose proof (data_lba_pos s Hl); lia]. pose proof (fo_own s i Hf) as Ho. rewrite Forall_forall in Ho.
    apply Ho. unfold owned. apply elem_of_app. left. apply (list_elem_of_lookup_2 _ (n - 1)). rewrite lookup_take_lt by (fold n; lia). rewrite blocks_direct by (done || lia). done. }
  unfold collect_blocks. rewrite u32_small by lia. rewrite (proj2 (Z.eqb_neq _ 0)) by lia. rewrite (proj2 (Z.leb_le (Z.of_nat will) 12)) by lia.
  replace (Z.of_nat n - 1) with (Z.of_nat (n - 1)) by lia.
  mstep (sector_of_run p i s (Z.of_nat (n - 1)) v Hi ltac:(lia) ltac:(by rewrite Nat2Z.id)).
  mstep (mlift_Ok _ s _ (ASSERT_true (negb (v =? 0)) ltac:(by rewrite (proj2 (Z.eqb_neq _ _))))).
  mstep (copy_sector_run p i s (n - 1) (replicate 140 0) v Hi Hv ltac:(rewrite length_replicate; lia)).
  replace (Z.to_nat (Z.of_nat will - Z.of_nat n)) with (will - n)%nat by lia.
  destruct (grow_run (λ _, true) (will - n) p n (<[(n - 1)%nat:=v]> (replicate 140 0)) s i) as (new & s' & sec & E & Hn & Hg & Hi' & Hsl & Hsk); try done.
  - rewrite length_insert, length_replicate. lia.
  - intros k Hk _. apply (fo_zero s i Hf). fold n. lia.
  - eexists _, new, sec, s'. split; [exact E|].
    assert (Hsec : ∀ k, (k < n)%nat → sec !! k = i_sectors i !! k) by (intros k Hk; rewrite Hsk, decide_False by lia; done).
    assert (Htbl : tbl_of (set_i_sectors sec i) = tbl_of i).
    { assert (Some (tbl_of (set_i_sectors sec i)) = Some (tbl_of i)) as [= ->]; [|done].
      rewrite <-!tbl_lookup by (cbn [i_sectors set_i_sectors]; congruence). cbn [i_sectors set_i_sectors]. rewrite Hsk, decide_False by lia. done. }
    split; try done.
    + apply list_eq. intros k. destruct (decide (k < will)%nat) as [Hk|Hk].
      * rewrite lookup_take_lt by done. rewrite blocks_direct by (cbn [i_sectors set_i_sectors]; congruence || lia). cbn [i_sectors set_i_sectors].
        destruct (decide (k < n)%nat).
        -- rewrite Hsec by done. rewrite lookup_app_l by (rewrite length_take; lia). rewrite lookup_take_lt by done. by rewrite blocks_direct by (done || lia).
        -- rewrite Hsk, decide_True by lia. rewrite lookup_app_r by (rewrite length_take; lia). f_equal. rewrite length_take. lia.
      * rewrite !lookup_ge_None_2; [done|rewrite length_app, length_take; lia|rewrite length_take; lia].
    + left. split; [done|]. split; [done|]. split; [done|]. lia.
    + congruence.
    + intros k Hk. rewrite Hsk, decide_False by lia. apply (fo_zero s i Hf). fold n. lia.
    + intros k Hk. unfold splice. destruct (decide (k < n)%nat) as [Hkn|Hkn].
      * assert (k = n - 1)%nat as -> by lia. rewrite lookup_app_l by (rewrite length_take, length_insert, length_replicate; lia).
        rewrite lookup_take_lt by lia. rewrite list_lookup_insert_eq by (rewrite length_replicate; lia).
        rewrite lookup_app_l by (rewrite length_take; lia). rewrite lookup_take_lt by lia. by rewrite blocks_direct by (done || lia).
      * rewrite lookup_app_r by (rewrite length_take, length_insert, length_replicate; lia).
        rewrite lookup_app_l by (rewrite length_take, length_insert, length_replicate; lia).
        rewrite lookup_app_r by (rewrite length_take; lia). f_equal. rewrite !length_take, length_insert, length_replicate. lia.
    + apply (gr_layout _ _ _ _ Hg).
Qed.

Lemma grown_u32 p new s s' : layout s → grown p new s s' → Forall is_u32 new.
Proof.
  intros Hl Hg. pose proof (data_lba_pos s Hl). eapply Forall_impl; [apply (gr_new _ _ _ _ Hg)|]. simpl. intros x Hx. unfold is_u32. unfold max_lba in *. lia.
Qed.

Lemma own_u32 s b : layout s → own s b → is_u32 b.
Proof. intros Hl (H1 & H2 & _). pose proof (data_lba_pos s Hl). unfold is_u32. unfold max_lba in *. lia. Qed.

(** The blocks in front of the new ones are the file's own. *)
Lemma old_blocks_u32 s i : layout s → file_ok s i → Forall is_u32 (take (used i) (blocks_of (drive s) i)).
Proof.
  intros Hl Hf. pose proof (fo_own s i Hf) as Ho. unfold owned in Ho. apply Forall_app in Ho as [Ho _].
  eapply Forall_impl; [exact Ho|]. intros b. by apply own_u32.
Qed.

Lemma words_of_prefix ws bs : Forall is_u32 ws → words_of (bytes_of (ws ++ bs)) = ws ++ words_of (bytes_of bs).
Proof. intros H. rewrite bytes_of_app. by apply words_of_app_bytes. Qed.

(** The file gets its table. *)
Lemma collect_cross p i s will :
  layout s → file_ok s i → inodes s !! p = Some i → (used i ≤ 12 < will)%nat → (will ≤ 140)%nat → (will - used i < length (free_bits (bb s)))%nat →
  ∃ ab t new sec s0 d, collect_blocks p (Z.of_nat (used i)) (Z.of_nat will) (replicate 140 0) s = Ok (Some ab, set_drive d s0) ∧
    collected p i (used i) will s ab [t] new sec s0 d.
Proof.
  intros Hl Hf Hi Hw Hw2 Hfree. pose proof (used_range s i Hf) as [Hu _]. pose proof (used_blocks s i Hl Hf) as Hub.
  pose proof (fo_inode s i Hf) as (_ & _ & Hlen & _). pose proof (fo_tbl s i Hf) as Ht0. pose proof (fo_zero s i Hf) as Hzero. set (n := used i) in *.
  assert (Ht : tbl_of i = 0) by (apply Ht0; lia).
  destruct (lookup_lt_is_Some_2 (i_sectors i) (n - 1)) as [v Hv]; [lia|].
  unfold collect_blocks. rewrite u32_small by lia. rewrite (proj2 (Z.eqb_neq _ 0)) by lia. rewrite (proj2 (Z.leb_gt (Z.of_nat will) 12)) by lia.
  rewrite (proj2 (Z.leb_le (Z.of_nat n) 12)), (proj2 (Z.ltb_lt 12 (Z.of_nat will))) by lia. cbn [andb].
  replace (Z.of_nat n - 1) with (Z.of_nat (n - 1)) by lia.
  mstep (copy_sector_run p i s (n - 1) (replicate 140 0) v Hi Hv ltac:(rewrite length_replicate; lia)).
  set (ab0 := <[(n - 1)%nat := v]> (replicate 140 0)). assert (Hab0 : length ab0 = 140%nat) by (unfold ab0; rewrite length_insert; done).
  destruct (alloc_grown p s Hl) as (t & s1 & E & Htl & Hi1 & _ & _ & Hg); [lia|].
  set (i1 := set_i_sectors (<[12%nat := t]> (i_sectors i)) i). destruct (Hg i1) as (Hg1 & _). clear Hg.
  mstep E. rewrite (proj2 (Z.eqb_neq t (-1))) by lia.
  mstep (sector_of_run p i s1 12 0 ltac:(by rewrite Hi1) ltac:(lia) ltac:(rewrite <-Ht; apply (tbl_lookup i Hlen))).
  mstep (mlift_Ok _ s1 _ (ASSERT_true (0 =? 0) eq_refl)).
  mstep (set_sector_run p i s1 12 t ltac:(by rewrite Hi1) ltac:(rewrite Hlen; lia)). change (Z.to_nat 12) with 12%nat. fold i1.
  set (s1' := set_inodes (<[p := i1]> (inodes s1)) s1) in *.
  replace (Z.to_nat (Z.of_nat will - Z.of_nat n)) with (will - n)%nat by lia.
  assert (Hlen1 : length (i_sectors i1) = 13%nat) by (cbn; rewrite length_insert; done).
  assert (Hz1 : ∀ k, (n ≤ k < 12)%nat → i_sectors i1 !! k = Some 0) by (intros k Hk; cbn; rewrite list_lookup_insert_ne by lia; by apply Hzero).
  destruct (grow_run (λ k, k <? 12) (will - n) p n ab0 s1' i1) as (new & s0 & sec & E2 & Hn & Hg2 & Hi' & Hsl & Hsk); try done.
  { apply (gr_layout _ _ _ _ Hg1). } { cbn. by rewrite lookup_insert_eq. } { lia. }
  { intros k Hk Hd. apply Z.ltb_lt in Hd. apply Hz1. lia. }
  { pose proof (gr_free _ _ _ _ Hg1) as Hfr. cbn [length] in Hfr. lia. }
  mstep E2. set (ab := splice n new ab0).
  assert (Hab : length ab = 140%nat) by (unfold ab; rewrite splice_length by lia; done).
  mstep (store_table_run t ab s0 Hab ltac:(lia)).
  eexists ab, t, new, sec, s0, _. split; [done|].
  change (set_i_sectors sec i1) with (set_i_sectors sec i) in Hi'.
  assert (Hsec12 : sec !! 12%nat = Some t).
  { rewrite Hsk. destruct (decide _); [|cbn; by rewrite list_lookup_insert_eq by lia]. change (Z.of_nat 12 <? 12) with false. cbn. by rewrite list_lookup_insert_eq by lia. }
  assert (Hslen : length sec = 13%nat) by congruence.
  assert (Htbl : tbl_of (set_i_sectors sec i) = t).
  { assert (Some (tbl_of (set_i_sectors sec i)) = Some t) as [= ->]; [|done]. by rewrite <-tbl_lookup. }
  assert (Htake : take 12 sec = take n (i_sectors i) ++ take (12 - n) new).
  { apply list_eq. intros k. destruct (decide (k < 12)%nat) as [Hk|Hk].
    2:{ rewrite !lookup_ge_None_2; [done|rewrite length_app, !length_take; lia|rewrite length_take; lia]. }
    rewrite lookup_take_lt, Hsk by done. destruct (decide (k < n)%nat) as [Hkn|Hkn].
    - rewrite decide_False by lia. rewrite lookup_app_l by (rewrite length_take; lia). cbn. rewrite list_lookup_insert_ne by lia. by rewrite lookup_take_lt.
    - rewrite decide_True by lia. rewrite (proj2 (Z.ltb_lt _ 12)) by lia. rewrite lookup_app_r by (rewrite length_take; lia).
      rewrite length_take, Hlen, Nat.min_l by lia. by rewrite lookup_take_lt by lia. }
  assert (Hold : take n (blocks_of (drive s) i) = take n (i_sectors i)).
  { unfold blocks_of. rewrite take_app_le by (rewrite length_take; lia). rewrite take_take. f_equal. lia. }
  assert (Hdrop : drop 12 ab = drop (12 - n) new ++ drop will ab0).
  { unfold ab, splice. rewrite drop_app_ge by (rewrite length_take; lia). rewrite length_take, Hab0, Nat.min_l by lia.
    rewrite drop_app_le by lia. do 2 f_equal. lia. }
  assert (Hnu : Forall is_u32 (drop (12 - n) new)) by (apply Forall_drop; eapply grown_u32; [apply (gr_layout _ _ _ _ Hg1)|exact Hg2]).
  split; try done.
  - by apply (grown_trans p [t] new s s1' s0).
  - unfold blocks_of at 1. rewrite Htbl. rewrite (proj2 (Z.eqb_neq t 0)) by lia. cbn [i_sectors set_i_sectors]. rewrite sector_insert, decide_True by done.
    rewrite Hdrop, words_of_prefix by done. rewrite Hold, Htake. rewrite <-app_assoc, (app_assoc (take (12 - n) new)), take_drop, app_assoc.
    apply take_app_length'. rewrite length_app, length_take. lia.
  - right. exists t. split_and!; try done. lia.
  - intros k Hk. lia.
  - intros k Hk. rewrite Hold. unfold ab, splice. destruct (decide (k < n)%nat) as [Hkn|Hkn].
    + assert (k = n - 1)%nat as -> by lia. rewrite !lookup_app_l by (rewrite length_take; lia). rewrite !lookup_take_lt by lia.
      unfold ab0. by rewrite list_lookup_insert_eq by (rewrite length_replicate; lia).
    + rewrite lookup_app_r by (rewrite length_take; lia). rewrite lookup_app_l by (rewrite length_take; lia).
      rewrite lookup_app_r by (rewrite length_take; lia). f_equal. rewrite !length_take. lia.
  - intros l Hne. rewrite Htbl in Hne. by rewrite sector_insert, decide_False by done.
  - apply disk_ok_insert; [apply (gr_layout _ _ _ _ Hg2)|]. rewrite bytes_of_length, length_drop, Hab. done.
Qed.

(** The file has a table already. *)
Lemma collect_table p i s will :
  layout s → file_ok s i → inodes s !! p = Some i → (12 < used i < will)%nat → (will ≤ 140)%nat → (will - used i ≤ length (free_bits (bb s)))%nat →
  ∃ ab new sec s0 d, collect_blocks p (Z.of_nat (used i)) (Z.of_nat will) (replicate 140 0) s = Ok (Some ab, set_drive d s0) ∧
    collected p i (used i) will s ab [] new sec s0 d.
Proof.
  intros Hl Hf Hi Hw Hw2 Hfree. pose proof (used_blocks s i Hl Hf) as Hub. pose proof (old_blocks_u32 s i Hl Hf) as Hou.
  pose proof (fo_inode s i Hf) as (_ & _ & Hlen & _). set (n := used i) in *. pose proof (ly_disk s Hl) as Hd.
  assert (Ht : tbl_of i ≠ 0) by (rewrite (fo_tbl s i Hf); fold n; lia). pose proof (tbl_own s i Hf Ht) as (_ & Htm & _).
  set (ws := words_of (sector (drive s) (tbl_of i))). assert (Hws : length ws = 128%nat) by (apply words_of_length; by rewrite sector_length).
  set (ab0 := take 12 (replicate 140 0) ++ ws).
  assert (Hab0 : length ab0 = 140%nat) by (unfold ab0; rewrite length_app, length_take, length_replicate, Hws; done).
  unfold collect_blocks. rewrite u32_small by lia. rewrite (proj2 (Z.eqb_neq _ 0)) by lia. rewrite (proj2 (Z.leb_gt (Z.of_nat will) 12)) by lia.
  rewrite (proj2 (Z.leb_gt (Z.of_nat n) 12)) by lia. cbn [andb].
  mstep (sector_of_run p i s 12 (tbl_of i) Hi ltac:(lia) (tbl_lookup i Hlen)).
  mstep (mlift_Ok _ s _ (ASSERT_true (negb (tbl_of i =? 0)) ltac:(by rewrite (proj2 (Z.eqb_neq _ _))))).
  mstep (load_table_run (tbl_of i) (replicate 140 0) s Hd Htm). fold ws ab0.
  replace (Z.to_nat (Z.of_nat will - Z.of_nat n)) with (will - n)%nat by lia.
  destruct (grow_run (λ _, false) (will - n) p n ab0 s i) as (new & s0 & sec & E & Hn & Hg & Hi' & Hsl & Hsk); try done; [lia|].
  mstep E. set (ab := splice n new ab0).
  assert (Hab : length ab = 140%nat) by (unfold ab; rewrite splice_length by lia; done).
  mstep (store_table_run (tbl_of i) ab s0 Hab Htm).
  assert (sec = i_sectors i) as ->. { apply list_eq. intros k. rewrite Hsk. by destruct (decide _). }
  eexists ab, new, (i_sectors i), s0, _. split; [done|]. rewrite set_i_sectors_same in *.
  assert (Hold : take n (blocks_of (drive s) i) = take 12 (i_sectors i) ++ take (n - 12) ws).
  { unfold blocks_of. rewrite (proj2 (Z.eqb_neq _ _)) by done. fold ws. rewrite take_app_ge by (rewrite length_take; lia). rewrite length_take.
    by replace (n - min 12 (length (i_sectors i)))%nat with (n - 12)%nat by lia. }
  assert (Hdrop : drop 12 ab = (take (n - 12) ws ++ new) ++ drop (will - 12) ws).
  { unfold ab, splice, ab0. rewrite <-(app_assoc (take (n - 12) ws)). rewrite drop_app_le by (rewrite length_take, Hab0 || (rewrite length_take; fold ab0; lia); lia).
    rewrite take_app_ge by (rewrite length_take, length_replicate; lia). rewrite length_take, length_replicate. change (min 12 140) with 12%nat.
    rewrite drop_app_length' by (rewrite length_take, length_replicate; done).
    f_equal. f_equal. rewrite drop_app_ge by (rewrite length_take, length_replicate; lia). f_equal. rewrite length_take, length_replicate. lia. }
  split; rewrite ?set_i_sectors_same; try done.
  - assert (Hbd : blocks_of (<[tbl_of i := bytes_of (drop 12 ab)]> (drive s0)) i = take 12 (i_sectors i) ++ (take (n - 12) ws ++ new) ++ words_of (bytes_of (drop (will - 12) ws))).
    { unfold blocks_of. rewrite (proj2 (Z.eqb_neq _ _)) by done. f_equal. rewrite sector_insert, decide_True by done. rewrite Hdrop.
      apply words_of_prefix. apply Forall_app. split; [|by eapply grown_u32]. rewrite Hold in Hou. apply Forall_app in Hou. by destruct Hou. }
    rewrite Hbd, Hold, !app_assoc. rewrite take_app_length'; [done|]. rewrite !length_app, !length_take. lia.
  - left. split; [done|]. split; [done|]. split; [lia|done].
  - intros k Hk. lia.
  - intros k Hk. rewrite Hold. unfold ab, splice. destruct (decide (k < n)%nat) as [Hkn|Hkn].
    + rewrite lookup_app_l by (rewrite length_take; lia). rewrite lookup_take_lt by done. unfold ab0.
      rewrite lookup_app_r by (rewrite length_take, length_replicate; lia). rewrite <-app_assoc. rewrite lookup_app_r by (rewrite length_take; lia).
      rewrite lookup_app_l by (rewrite !length_take; lia). rewrite lookup_take_lt by (rewrite length_take; lia). f_equal. rewrite !length_take, length_replicate. lia.
    + rewrite lookup_app_r by (rewrite length_take; lia). rewrite lookup_app_l by (rewrite length_take; lia).
      rewrite lookup_app_r by (rewrite length_app, !length_take; lia). f_equal. rewrite length_app, !length_take. lia.
  - intros l Hne. by rewrite sector_insert, decide_False by done.
  - apply disk_ok_insert; [apply (gr_layout _ _ _ _ Hg)|]. rewrite bytes_of_length, length_drop, Hab. done.
Qed.

(** *** The data of a file *)

Lemma img_app d l1 l2 : img d (l1 ++ l2) = img d l1 ++ img d l2.
Proof. unfold img. by rewrite fmap_app, concat_app. Qed.

Lemma img_length d bs : disk_ok d → length (img d bs) = (512 * length bs)%nat.
Proof.
  intros Hd. induction bs as [|b bs IH]; [done|]. change (img d (b :: bs)) with (sector d b ++ img d bs).
  rewrite length_app, IH, sector_length by done. simpl. lia.
Qed.

Lemma img_ext d d' bs : (∀ b, b ∈ bs → sector d b = sector d' b) → img d bs = img d' bs.
Proof. intros H. unfold img. f_equal. apply list_fmap_ext. intros k b Hb. apply H. by eapply list_elem_of_lookup_2. Qed.

(** Bytes stored behind the data that is kept, in the block where it ends. *)
Lemma img_append d bs k a off ch rest :
  disk_ok d → NoDup bs → bs !! k = Some a → (off + length ch + length rest = 512)%nat →
  take (512 * k + (off + length ch)) (img (<[a := take off (sector d a) ++ ch ++ rest]> d) bs) = take (512 * k + off) (img d bs) ++ ch.
Proof.
  intros Hd Hnd Ha Hlen. set (d' := <[a := _]> d). assert (Hk : (k < length bs)%nat) by (by eapply lookup_lt_Some).
  rewrite <-(take_drop_middle bs k a Ha) in Hnd |- *. apply NoDup_app in Hnd as (_ & Hna & _). rewrite !img_app.
  assert (He : img d' (take k bs) = img d (take k bs)).
  { apply img_ext. intros b Hb. unfold d'. rewrite sector_insert, decide_False; [done|]. intros ->. apply (Hna b Hb). by left. }
  assert (Hl : length (img d (take k bs)) = (512 * k)%nat) by (rewrite img_length, length_take by done; lia).
  change (img d' (a :: drop (S k) bs)) with (sector d' a ++ img d' (drop (S k) bs)).
  change (img d (a :: drop (S k) bs)) with (sector d a ++ img d (drop (S k) bs)).
  rewrite He. rewrite (take_app_ge _ _ (512 * k + (off + length ch))), (take_app_ge _ _ (512 * k + off)) by lia. rewrite Hl. replace (512 * k + (off + length ch) - 512 * k)%nat with (off + length ch)%nat by lia.
  replace (512 * k + off - 512 * k)%nat with off by lia. rewrite <-app_assoc. f_equal.
  assert (Hs : length (sector d a) = 512%nat) by (by apply sector_length).
  unfold d'. rewrite sector_insert, decide_True by done. rewrite (take_app_le _ _ (off + length ch)) by (rewrite !length_app, length_take; lia).
  rewrite (take_app_le (sector d a)) by lia. rewrite app_assoc. apply take_app_length'. rewrite length_app, length_take. lia.
Qed.

(** *** The loop that writes *)

Lemma file_at_run f x s : 0 ≤ f → file_table s !! Z.to_nat f = Some x → file_at f s = Ok (x, s).
Proof. intros Hf Hx. unfold file_at. by rewrite (rd_lookup _ _ _ Hf Hx). Qed.

Lemma put_file_run f x y s : 0 ≤ f → file_table s !! Z.to_nat f = Some x → put_file f y s = Ok (tt, set_file_table (<[Z.to_nat f := y]> (file_table s)) s).
Proof. intros Hf Hx. unfold put_file. apply lookup_lt_Some in Hx. by rewrite wr_Ok by lia. Qed.

(** The state in which only the data, the size and the position are new. *)
Definition after_io (d : disk) (p : Z) (i : inode) (f : Z) (x : file) (s : fs) : fs :=
  set_file_table (<[Z.to_nat f := x]> (file_table s)) (set_inodes (<[p := i]> (inodes s)) (set_drive d s)).

Lemma after_io_twice d1 d p i1 i f x1 x s : after_io d p i f x (after_io d1 p i1 f x1 s) = after_io d p i f x s.
Proof. unfold after_io. cbn. by rewrite insert_insert_eq, list_insert_insert_eq. Qed.

Lemma memset_block io : length io = 512%nat → memset (Some io) 0 BLOCK_SIZE = Ok (replicate 512 0).
Proof.
  intros H. unfold memset. rewrite ASSERT_true by done. cbn [rbind]. change (Z.to_nat BLOCK_SIZE) with 512%nat.
  rewrite mem_Some, set_loop_run by lia. rewrite drop_ge by lia. by rewrite app_nil_r.
Qed.

Lemma u32_add_l a b : u32 (u32 a + b) = u32 (a + b).
Proof. unfold u32. by rewrite Zplus_mod_idemp_l. Qed.

Lemma write_loop_run fuel f p ab bs io src first bw count left i x s :
  disk_ok (drive s) → inodes s !! p = Some i → 0 ≤ f → file_table s !! Z.to_nat f = Some x → length io = 512%nat →
  NoDup bs → Forall (λ b, b ≤ max_lba) bs → (∀ k, (Z.to_nat (i_size i / 512) ≤ k < length bs)%nat → ab !! k = bs !! k) →
  0 ≤ i_size i → 0 ≤ left → i_size i + left < 512 * Z.of_nat (length bs) → i_size i + left < 71680 → left ≤ Z.of_nat (length src) →
  left = 0 ∨ first = true ∨ i_size i mod 512 = 0 → count = bw + left → (Z.to_nat left < fuel)%nat →
  ∃ io' d', write_loop fuel f p ab io src first bw count left s =
      Ok (io', after_io d' p (set_i_size (i_size i + left) i) f (File (if left =? 0 then fd_pos x else u32 (fd_pos x + left)) (fd_flag x) (fd_inode x)) s) ∧
    length io' = 512%nat ∧ disk_ok d' ∧
    take (Z.to_nat (i_size i + left)) (img d' bs) = take (Z.to_nat (i_size i)) (img (drive s) bs) ++ take (Z.to_nat left) src ∧
    (∀ l, l ∉ bs → sector d' l = sector (drive s) l).
Proof.
  revert s i x io src first bw left. induction fuel as [|fuel IH];
    intros s i x io src first bw left Hd Hi Hf Hx Hio Hnd Hmax Hagree H0 Hl0 Hroom Hmaxs Hsrc Hfirst Hcnt Hfuel; [lia|].
  cbn [write_loop]. destruct (Z.ltb_spec bw count) as [Hlt|Hge]; [|assert (left = 0) as -> by lia].
  2:{ exists io, (drive s). rewrite Z.add_0_r. split; [|rewrite app_nil_r; done]. unfold mok, after_io. change (0 =? 0) with true. cbv iota.
      replace (set_i_size (i_size i) i) with i by (by destruct i). replace (File (fd_pos x) (fd_flag x) (fd_inode x)) with x by (by destruct x).
      rewrite (insert_id (inodes s)) by done. rewrite list_insert_id by done. by destruct s. }
  rewrite (proj2 (Z.eqb_neq left 0)) by lia.
  set (k := Z.to_nat (i_size i / 512)). set (off := Z.to_nat (i_size i mod 512)).
  assert (Hdm : i_size i = 512 * Z.of_nat k + Z.of_nat off ∧ (off < 512)%nat) by (subst k off; zsolve). destruct Hdm as [Hdm Hoff].
  assert (Hkb : (k < length bs)%nat) by lia. destruct (lookup_lt_is_Some_2 bs k Hkb) as [a Ha].
  assert (Hamax : a ≤ max_lba) by (rewrite Forall_forall in Hmax; apply Hmax; by eapply list_elem_of_lookup_2).
  set (c := if left <? BLOCK_SIZE - i_size i mod BLOCK_SIZE then left else BLOCK_SIZE - i_size i mod BLOCK_SIZE).
  assert (Hc : 0 < c ≤ left ∧ Z.of_nat off + c ≤ 512 ∧ (c < left → Z.of_nat off + c = 512)).
  { unfold c, BLOCK_SIZE. subst off. destruct (Z.ltb_spec left (512 - i_size i mod 512)); zsolve. } destruct Hc as (Hc & Hcoff & Hcfull).
  mstep (mlift_Ok _ s _ (memset_block io Hio)). mstep (inode_at_run p i s Hi).
  assert (Hrd : rd ab (i_size i / BLOCK_SIZE) = Ok a).
  { unfold BLOCK_SIZE. apply rd_lookup; [zsolve|]. fold k. rewrite Hagree by (fold k; lia). done. }
  mstep (mlift_Ok _ s _ Hrd).
  set (old := if first then sector (drive s) a else replicate 512 0).
  assert (Hold : (if first then ide_read a (replicate 512 0) 0 1 else mok (replicate 512 0)) s = Ok (old, s)).
  { unfold old. destruct first; [|done]. rewrite ide_read_run by (done || lia). rewrite disk_read_1. unfold splice.
    rewrite sector_length by done. by rewrite app_nil_r. }
  assert (Hlold : length old = 512%nat) by (unfold old; destruct first; [by apply sector_length|done]).
  fold c. mstep Hold. mstep (mlift_Ok _ s _ (get_at_Ok src 0 c ltac:(lia) ltac:(lia) ltac:(lia))). change (Z.to_nat 0) with 0%nat. rewrite drop_0.
  set (ch := take (Z.to_nat c) src). assert (Hch : length ch = Z.to_nat c) by (unfold ch; rewrite length_take; lia).
  assert (Hput : put_at old (i_size i mod BLOCK_SIZE) ch = Ok (splice off ch old)).
  { unfold BLOCK_SIZE, off. apply put_at_Ok; [zsolve|]. rewrite Hch, Hlold. subst off. zsolve. }
  mstep (mlift_Ok _ s _ Hput). set (data := splice off ch old).
  assert (Hdata : length data = 512%nat) by (unfold data; rewrite splice_length by lia; done).
  rewrite (mbnd_Ok _ _ _ _ _ (ide_write_run a data 0 1 s Hamax ltac:(lia) ltac:(lia))). cbn [disk_write]. change (Z.to_nat 0) with 0%nat. rewrite drop_0, !take_ge by (rewrite ?length_take; lia).
  assert (Hu : u32 (i_size i + c) = i_size i + c) by (apply u32_small; lia). rewrite Hu.
  set (d1 := <[a := data]> (drive s)). set (i1 := set_i_size (i_size i + c) i).
  mstep (eq_refl : put_inode p i1 (set_drive d1 s) = Ok (tt, _)).
  mstep (file_at_run f x (set_inodes (<[p := i1]> (inodes s)) (set_drive d1 s)) Hf Hx).
  set (x1 := File (u32 (fd_pos x + c)) (fd_flag x) (fd_inode x)).
  mstep (put_file_run f x x1 (set_inodes (<[p := i1]> (inodes s)) (set_drive d1 s)) Hf Hx).
  fold (after_io d1 p i1 f x1 s).
  destruct (IH (after_io d1 p i1 f x1 s) i1 x1 data (drop (Z.to_nat c) src) false (bw + c) (left - c)) as (io' & d' & E & Hio' & Hd' & Himg & Hsec).
  - apply disk_ok_insert; done.
  - cbn. by rewrite lookup_insert_eq.
  - done.
  - cbn. apply list_lookup_insert_eq. by eapply lookup_lt_Some.
  - done.
  - done.
  - done.
  - intros j Hj. apply Hagree. cbn [i1 set_i_size i_size] in Hj. subst k. zsolve.
  - cbn. lia.
  - lia.
  - cbn. lia.
  - cbn. lia.
  - rewrite length_drop. lia.
  - cbn [i1 set_i_size i_size]. destruct (decide (c < left)) as [Hcl|Hcl]; [|left; lia]. right. right. specialize (Hcfull Hcl). rewrite Hdm. zsolve.
  - lia.
  - lia.
  - exists io', d'. cbn [i1 x1 set_i_size i_size fd_pos fd_flag fd_inode] in E, Himg.
    replace (i_size i + c + (left - c)) with (i_size i + left) in E, Himg by lia. split_and!; try done.
    + etransitivity; [exact E|]. rewrite after_io_twice. do 3 f_equal. f_equal. destruct (Z.eqb_spec (left - c) 0) as [Hz|Hz]; [f_equal; lia|]. rewrite u32_add_l. f_equal. lia.
    + rewrite Himg. change (drive (after_io d1 p i1 f x1 s)) with d1.
      assert (Hd1 : d1 = <[a := take off (sector (drive s) a) ++ ch ++ drop (off + length ch) old]> (drive s)).
      { unfold d1, data, splice. do 2 f_equal. unfold old. destruct first; [done|]. assert (off = 0)%nat as -> by (subst off; destruct Hfirst as [?|[?| ->]]; done || lia). done. }
      replace (Z.to_nat (i_size i + c)) with (512 * k + (off + length ch))%nat by lia. rewrite Hd1.
      rewrite img_append by (try done; rewrite length_drop; lia). replace (512 * k + off)%nat with (Z.to_nat (i_size i)) by lia.
      rewrite <-app_assoc. f_equal. unfold ch. replace (Z.to_nat left) with (Z.to_nat c + Z.to_nat (left - c))%nat by lia.
      rewrite <-(take_drop (Z.to_nat c) (take (Z.to_nat c + _) src)), take_take, Nat.min_l, skipn_firstn_comm by lia. do 2 f_equal. lia.
    + intros l Hll. rewrite Hsec by done. change (drive (after_io d1 p i1 f x1 s)) with d1. unfold d1. rewrite sector_insert, decide_False; [done|].
      intros ->. apply Hll. by eapply list_elem_of_lookup_2.
Qed.

(** *** Blocks old and new *)

Definition tbl_list (i : inode) : list Z := if tbl_of i =? 0 then [] else [tbl_of i].

Lemma own_grown p new s s' b : grown p new s s' → own s b → own s' b ∧ b ∉ new.
Proof.
  intros Hg (H1 & H2 & H3). pose proof (grown_data _ _ _ _ Hg) as Ed. destruct Hg as [_ Hb Hc Hn _ _ _ _]. unfold own. rewrite Ed, Hc. split.
  - split_and!; try done; try lia. rewrite Hb by lia. by case_decide.
  - intros Hin. rewrite Forall_forall in Hn. destruct (Hn b Hin) as (_ & _ & Hf). congruence.
Qed.

Lemma own_new p new s s' b : grown p new s s' → b ∈ new → own s' b.
Proof.
  intros Hg Hin. pose proof (grown_data _ _ _ _ Hg) as Ed. destruct Hg as [_ Hb Hc Hn _ _ _ _]. rewrite Forall_forall in Hn.
  destruct (Hn b Hin) as (H1 & H2 & _). unfold own. rewrite Ed, Hc. split_and!; try done; try lia. rewrite Hb by lia.
  rewrite decide_True; [done|]. by replace (data_lba s + (b - data_lba s)) with b by lia.
Qed.

Lemma own_data s b : layout s → own s b → inode_bitmap_lba (sb (cur_part s)) ≤ b ∧ table_lba s + 608 ≤ b ∧ 0 < b.
Proof. intros [] [H _]. unfold data_lba, table_lba in *. lia. Qed.

Lemma collected_perm p i will s ab tnew new sec s0 d :
  collected p i (used i) will s ab tnew new sec s0 d → 0 ∉ tnew →
  (take (used i) (blocks_of (drive s) i) ++ new) ++ tbl_list (set_i_sectors sec i) ≡ₚ owned (drive s) i ++ (tnew ++ new).
Proof.
  intros [_ _ _ _ Ht _ _ _ _ _] Hpos. unfold owned, tbl_list. destruct Ht as [(-> & -> & _)|(t & -> & -> & E & _)].
  - simpl. by rewrite <-!app_assoc, (Permutation_app_comm new).
  - rewrite E. change (0 =? 0) with true. cbv iota. rewrite app_nil_r. rewrite (proj2 (Z.eqb_neq t 0)) by set_solver.
    rewrite <-app_assoc. by rewrite (Permutation_app_comm new).
Qed.

(** What is true when the addresses have been collected. *)
Record gathered (s : fs) (i : inode) (will : nat) (s0 : fs) (d : disk) (i1 : inode) (bs : list Z) : Prop := {
  ga_len : length bs = will;
  ga_blocks : take will (blocks_of d i1) = bs;
  ga_tbl : tbl_of i1 = 0 ↔ (will ≤ 12)%nat;
  ga_zero : ∀ k, (will ≤ k < 12)%nat → i_sectors i1 !! k = Some 0;
  ga_nodup : NoDup (bs ++ tbl_list i1);
  ga_own : Forall (own s0) (bs ++ tbl_list i1);
  ga_data : take (Z.to_nat (i_size i)) (img d bs) = content (drive s) i;
  ga_others : ∀ b, own s b → b ∉ owned (drive s) i → own s0 b ∧ (b ∉ bs ++ tbl_list i1) ∧ sector d b = sector (drive s) b;
}.

Lemma gather p i will s ab tnew new sec s0 d :
  layout s → file_ok s i → (used i ≤ will)%nat → collected p i (used i) will s ab tnew new sec s0 d →
  gathered s i will s0 d (set_i_sectors sec i) (take (used i) (blocks_of (drive s) i) ++ new).
Proof.
  intros Hl Hf Huw Hc. pose proof (co_grown _ _ _ _ _ _ _ _ _ _ _ Hc) as Hg. pose proof (used_blocks s i Hl Hf) as Hub.
  assert (Hpos : 0 ∉ tnew).
  { intros Hin. assert (own s0 0) as Ho by (eapply own_new; [exact Hg|set_solver]). destruct (own_data s0 0 (gr_layout _ _ _ _ Hg) Ho). lia. }
  pose proof (collected_perm _ _ _ _ _ _ _ _ _ _ Hc Hpos) as Hperm. set (bs := take (used i) (blocks_of (drive s) i) ++ new) in *.
  set (i1 := set_i_sectors sec i) in *.
  assert (Hnd : NoDup (bs ++ tbl_list i1)).
  { rewrite Hperm. apply NoDup_app. split; [apply Hf|]. split; [|apply Hg]. intros b Hb. eapply own_grown; [exact Hg|]. pose proof (fo_own s i Hf) as Ho.
    rewrite Forall_forall in Ho. by apply Ho. }
  assert (Hown : Forall (own s0) (bs ++ tbl_list i1)).
  { rewrite Hperm. apply Forall_app. split.
    - eapply Forall_impl; [apply (fo_own s i Hf)|]. intros b Hb. by eapply own_grown.
    - apply Forall_forall. intros b Hb. by eapply own_new. }
  assert (Hne : ∀ b, own s0 b → b ∉ tbl_list i1 → b ≠ tbl_of i1).
  { intros b Hb Hn ->. unfold tbl_list in Hn. destruct (Z.eqb_spec (tbl_of i1) 0) as [E|E].
    - destruct (own_data s0 _ (gr_layout _ _ _ _ Hg) Hb). lia.
    - apply Hn. by left. }
  assert (Hsec : ∀ b, own s b → b ∉ tbl_list i1 → sector d b = sector (drive s) b).
  { intros b Hb Hn. rewrite (co_disk _ _ _ _ _ _ _ _ _ _ _ Hc) by (apply Hne; [by eapply own_grown|done]).
    apply (gr_disk _ _ _ _ Hg). by apply own_data. }
  split; try done.
  - unfold bs. rewrite length_app, length_take, (co_new _ _ _ _ _ _ _ _ _ _ _ Hc). lia.
  - apply (co_blocks _ _ _ _ _ _ _ _ _ _ _ Hc).
  - destruct (co_tbl _ _ _ _ _ _ _ _ _ _ _ Hc) as [(_ & E & H)|(t & Et & E & _ & H)]; fold i1 in E; rewrite E; [by rewrite H|].
    split; [|lia]. set_solver.
  - intros k Hk. cbn. by apply (co_zero _ _ _ _ _ _ _ _ _ _ _ Hc).
  - unfold content, bs. rewrite img_app, take_app_le.
    + f_equal. apply img_ext. intros b Hb. apply NoDup_app in Hnd as (_ & Hdis & _). apply Hsec; [|apply Hdis; unfold bs; apply elem_of_app; by left].
      pose proof (fo_own s i Hf) as Ho. unfold owned in Ho. apply Forall_app in Ho as [Ho _]. rewrite Forall_forall in Ho. by apply Ho.
    + rewrite img_length, length_take by apply Hc. pose proof (used_range s i Hf). zsolve.
  - intros b Hb Hn. destruct (own_grown _ _ _ _ _ Hg Hb) as [H1 H2]. assert (b ∉ bs ++ tbl_list i1) as H3 by (rewrite Hperm; set_solver).
    split_and!; try done. apply Hsec; [done|]. set_solver.
Qed.

Lemma collect_blocks_run p i s will :
  layout s → file_ok s i → inodes s !! p = Some i → (used i ≤ will ≤ 140)%nat →
  (will - used i + (if decide (used i ≤ 12 < will)%nat then 1 else 0) ≤ length (free_bits (bb s)))%nat →
  ∃ ab tnew new sec s0 d, collect_blocks p (Z.of_nat (used i)) (Z.of_nat will) (replicate 140 0) s = Ok (Some ab, set_drive d s0) ∧
    collected p i (used i) will s ab tnew new sec s0 d.
Proof.
  intros Hl Hf Hi Hw Hfree. assert (Hsd : ∀ s, set_drive (drive s) s = s) by (by intros []).
  destruct (decide (will = used i)) as [->|Hne].
  { destruct (collect_same p i s Hl Hf Hi) as (ab & E & H). exists ab, [], [], (i_sectors i), s, (drive s). by rewrite Hsd. }
  destruct (decide (will ≤ 12)%nat) as [H12|H12].
  { rewrite decide_False in Hfree by lia. destruct (collect_direct p i s will Hl Hf Hi ltac:(lia) ltac:(lia)) as (ab & new & sec & s' & E & H).
    exists ab, [], new, sec, s', (drive s'). by rewrite Hsd. }
  destruct (decide (used i ≤ 12)%nat) as [Hu|Hu].
  - rewrite decide_True in Hfree by lia. destruct (collect_cross p i s will Hl Hf Hi ltac:(lia) ltac:(lia) ltac:(lia)) as (ab & t & new & sec & s0 & d & E & H).
    by exists ab, [t], new, sec, s0, d.
  - rewrite decide_False in Hfree by lia. destruct (collect_table p i s will Hl Hf Hi ltac:(lia) ltac:(lia) ltac:(lia)) as (ab & new & sec & s0 & d & E & H).
    by exists ab, [], new, sec, s0, d.
Qed.

(** *** The first block *)

(** A file that was just created becomes a file with one block. *)
Lemma first_block_run p i s :
  layout s → inodes s !! p = Some i → inode_ok i → no_blocks i → (1 ≤ length (free_bits (bb s)))%nat →
  ∃ lba s1, first_block p s = Ok (true, s1) ∧ grown p [lba] s s1 ∧
    inodes s1 = <[p := set_i_sectors (lba :: replicate 12 0) i]> (inodes s) ∧ file_ok s1 (set_i_sectors (lba :: replicate 12 0) i).
Proof.
  intros Hl Hi Hok [Hz Hsec] Hfree. destruct (alloc_grown p s Hl ltac:(lia)) as (lba & s1 & E & Hlba & Hi1 & _ & Hp & Hg).
  set (i1 := set_i_sectors (lba :: replicate 12 0) i). destruct (Hg i1) as (_ & s2 & _ & Esync & Hu & Hi2 & Hgr).
  exists lba, s2. split; [|split; [done|]; split; [done|]].
  - unfold first_block. mstep (sector_of_run p i s 0 0 Hi ltac:(lia) ltac:(by rewrite Hsec)). change (0 =? 0) with true. cbv iota.
    mstep E. rewrite (proj2 (Z.eqb_neq lba (-1))) by lia.
    mstep (set_sector_run p i s1 0 lba ltac:(by rewrite Hi1) ltac:(rewrite Hsec; simpl; lia)). rewrite Hsec. change (<[Z.to_nat 0 := lba]> (replicate 13 0)) with (lba :: replicate 12 0). fold i1.
    unfold mbnd at 1. unfold mget at 1. cbn [rbind fst snd cur_part set_inodes]. rewrite Hp. cbn [sb set_block_bitmap]. fold (data_lba s).
    mstep (mlift_Ok _ (set_inodes (<[p := i1]> (inodes s1)) s1) _ (ASSERT_true (negb (u32 (lba - data_lba s) =? 0)) ltac:(by rewrite (proj2 (Z.eqb_neq _ _))))).
    mstep Esync. done.
  - assert (Ho : own s2 lba) by (eapply own_new; [exact Hgr|by left]).
    assert (Hu1 : used i1 = 1%nat) by (unfold used; cbn; by rewrite Hz).
    assert (Howned : owned (drive s2) i1 = [lba]) by (unfold owned; rewrite Hu1; done).
    change (file_ok s2 i1). split; rewrite ?Howned, ?Hu1.
    + destruct Hok as (H1 & H2 & _ & _). split_and!; try done. apply Forall_cons. split; [|by apply Forall_replicate]. apply (own_u32 s2); [apply Hgr|done].
    + cbn. lia.
    + split; [lia|done].
    + intros k Hk. change (i_sectors i1) with (lba :: replicate 12 0). rewrite lookup_cons_ne_0 by lia. apply lookup_replicate_2. lia.
    + by constructor.
    + apply NoDup_singleton.
Qed.

(** The file before and after, when it has a block already. *)
Lemma first_block_skip p i s : layout s → inodes s !! p = Some i → file_ok s i → first_block p s = Ok (true, s).
Proof.
  intros Hl Hi Hf. pose proof (used_range s i Hf) as [Hu _]. pose proof (fo_inode s i Hf) as (_ & _ & Hlen & _).
  destruct (lookup_lt_is_Some_2 (i_sectors i) 0) as [v Hv]; [lia|].
  assert (Hvo : own s v).
  { pose proof (fo_own s i Hf) as Ho. rewrite Forall_forall in Ho. apply Ho. unfold owned. apply elem_of_app. left.
    apply (list_elem_of_lookup_2 _ 0). rewrite lookup_take_lt by lia. by rewrite blocks_direct by (done || lia). }
  unfold first_block. mstep (sector_of_run p i s 0 v Hi ltac:(lia) Hv). rewrite (proj2 (Z.eqb_neq v 0)); [done|].
  destruct (own_data s v Hl Hvo). lia.
Qed.

(** *** Other files *)

(** A file whose blocks kept their data and their place in the map. *)
Lemma file_frame s s' j :
  file_ok s j → (∀ b, b ∈ owned (drive s) j → own s' b ∧ sector (drive s') b = sector (drive s) b) →
  file_ok s' j ∧ content (drive s') j = content (drive s) j.
Proof.
  intros Hf Hb.
  assert (Ht : tbl_of j = 0 ∨ sector (drive s') (tbl_of j) = sector (drive s) (tbl_of j)).
  { destruct (Z.eqb_spec (tbl_of j) 0) as [E|E]; [by left|right]. apply Hb. unfold owned. rewrite (proj2 (Z.eqb_neq _ _)) by done. set_solver. }
  assert (He : blocks_of (drive s') j = blocks_of (drive s) j).
  { unfold blocks_of. destruct (Z.eqb_spec (tbl_of j) 0) as [E|E]; [done|]. destruct Ht as [?| ->]; done. }
  assert (Ho : owned (drive s') j = owned (drive s) j) by (unfold owned; by rewrite He). split.
  - destruct Hf. split; rewrite ?Ho; try done. apply Forall_forall. intros b Hin. by apply Hb.
  - unfold content. rewrite He. f_equal. apply img_ext. intros b Hin. apply Hb. unfold owned. set_solver.
Qed.

Lemma table_ext s s' :
  table_lba s' = table_lba s → (∀ l, table_lba s ≤ l < table_lba s + 608 → sector (drive s') l = sector (drive s) l) → table s' = table s.
Proof. intros E H. unfold table. rewrite E. apply disk_read_ext. intros l Hl. apply H. lia. Qed.

Lemma gathered_sectors s i will s0 d i1 bs :
  layout s0 → disk_ok d → length (i_sectors i1) = 13%nat → gathered s i will s0 d i1 bs → Forall is_u32 (i_sectors i1).
Proof.
  intros Hl Hd Hlen [Hbl Hb Ht Hz _ Ho _ _]. rewrite Forall_forall in Ho.
  assert (Hou : ∀ b, b ∈ bs ++ tbl_list i1 → is_u32 b) by (intros b Hin; apply (own_u32 s0); [done|by apply Ho]).
  apply Forall_lookup. intros k v Hv. assert (Hk : (k < 13)%nat) by (rewrite <-Hlen; by eapply lookup_lt_Some).
  destruct (decide (k = 12)%nat) as [->|Hk12].
  - rewrite tbl_lookup in Hv by done. injection Hv as <-. destruct (Z.eqb_spec (tbl_of i1) 0) as [E|E]; [rewrite E; done|].
    apply Hou. unfold tbl_list. rewrite (proj2 (Z.eqb_neq _ _)) by done. set_solver.
  - destruct (decide (k < will)%nat) as [Hkw|Hkw]; [|rewrite Hz in Hv by lia; by injection Hv as <-].
    apply Hou. apply elem_of_app. left. rewrite <-Hb. apply (list_elem_of_lookup_2 _ k). rewrite lookup_take_lt by done. by rewrite blocks_direct by (done || lia).
Qed.

(** The file with its new size, once the data is stored. *)
Lemma gathered_file s i will s0 d i1 bs n s2 :
  gathered s i will s0 d i1 bs → inode_ok i1 → cur_part s2 = cur_part s0 → (∀ b, b ∈ tbl_list i1 → sector (drive s2) b = sector d b) →
  Z.to_nat (n / 512 + 1) = will → 0 ≤ n < 71680 →
  file_ok s2 (set_i_size n i1) ∧ take will (blocks_of (drive s2) (set_i_size n i1)) = bs.
Proof.
  intros [Hbl Hb Ht Hz Hnd Ho _ _] (Hok1 & _ & Hok3 & Hok4) Hp Hsec Hn Hr. set (i2 := set_i_size n i1).
  assert (Hbo : blocks_of (drive s2) i2 = blocks_of d i1).
  { unfold blocks_of. change (tbl_of i2) with (tbl_of i1). unfold tbl_list in Hsec. destruct (Z.eqb_spec (tbl_of i1) 0); [done|]. rewrite Hsec by set_solver. done. }
  assert (Hwb : used i2 = will) by exact Hn.
  assert (Howned : owned (drive s2) i2 = bs ++ tbl_list i1) by (unfold owned; rewrite Hbo, Hwb, Hb; done).
  split; [|by rewrite Hbo]. split; rewrite ?Howned, ?Hwb; try done.
  - split_and!; try done. cbn. unfold is_u32. lia.
  - cbn. lia.
  - eapply Forall_impl; [exact Ho|]. intros b. unfold own, data_lba. by rewrite Hp.
Qed.

(** *** The whole write *)

(** Bytes were appended to the file in inode [p]; the rest of the file system
    is as it was. *)
Record appended (f p : Z) (x : file) (i : inode) (data : list Z) (s s' : fs) : Prop := {
  ap_file : ∃ i', inodes s' !! p = Some i' ∧ i_no i' = i_no i ∧ i_size i' = i_size i + Z.of_nat (length data) ∧
    file_ok s' i' ∧ content (drive s') i' = content (drive s) i ++ data ∧ slot s' (i_no i) = bytes_of (pure_words i');
  ap_inodes : ∀ q, q ≠ p → inodes s' !! q = inodes s !! q;
  ap_blocks : ∀ b, own s b → b ∉ owned (drive s) i → own s' b ∧ sector (drive s') b = sector (drive s) b;
  ap_slots : ∀ n, 0 ≤ n < 4096 → n ≠ i_no i → slot s' n = slot s n;
  ap_files : file_table s' = <[Z.to_nat f := File (u32 (i_size i + Z.of_nat (length data) - 1)) (fd_flag x) p]> (file_table s);
  ap_layout : layout s';
}.

Definition will_use (i : inode) (count : Z) : nat := Z.to_nat ((i_size i + count) / 512 + 1).

(** The data is stored and the inode in memory is right, the one on disk not yet. *)
Record stored (f p : Z) (x : file) (i i2 : inode) (data : list Z) (s s' : fs) : Prop := {
  sd_inode : inodes s' !! p = Some i2 ∧ i_no i2 = i_no i ∧ i_size i2 = i_size i + Z.of_nat (length data);
  sd_ok : file_ok s' i2;
  sd_content : content (drive s') i2 = content (drive s) i ++ data;
  sd_inodes : ∀ q, q ≠ p → inodes s' !! q = inodes s !! q;
  sd_blocks : ∀ b, own s b → b ∉ owned (drive s) i → own s' b ∧ sector (drive s') b = sector (drive s) b;
  sd_table : table s' = table s;
  sd_files : file_table s' = <[Z.to_nat f := File (u32 (i_size i + Z.of_nat (length data) - 1)) (fd_flag x) p]> (file_table s);
  sd_layout : layout s';
  sd_live : live s' = live s;
}.

(** The blocks written lie behind the inode table. *)
Lemma gathered_table s i will s0 d i1 bs d' l p ab tnew new sec :
  layout s → grown p (tnew ++ new) s s0 → gathered s i will s0 d i1 bs → collected p i (used i) will s ab tnew new sec s0 d → i1 = set_i_sectors sec i →
  (∀ l, l ∉ bs → sector d' l = sector d l) → table_lba s ≤ l < table_lba s + 608 → sector d' l = sector (drive s) l.
Proof.
  intros Hl Hg Hga Hc -> Hsec Hll. pose proof (ly_it s Hl) as Hit. fold (table_lba s) in Hit. pose proof (gr_layout _ _ _ _ Hg) as Hl0.
  assert (Etl : table_lba s0 = table_lba s) by (unfold table_lba; by rewrite (grown_sb _ _ _ _ Hg)).
  pose proof (ga_own _ _ _ _ _ _ _ Hga) as Ho. rewrite Forall_forall in Ho.
  assert (Hnown : ∀ b, own s0 b → l ≠ b) by (intros b Hb ->; destruct (own_data s0 b Hl0 Hb) as (_ & ? & _); lia).
  rewrite Hsec by (intros Hin; apply (Hnown l); [apply Ho; set_solver|done]).
  rewrite (co_disk _ _ _ _ _ _ _ _ _ _ _ Hc); [apply (gr_disk _ _ _ _ Hg); lia|]. intros ->.
  destruct (Z.eqb_spec (tbl_of (set_i_sectors sec i)) 0) as [Ez|Ez]; [pose proof (sb_lba_bound s Hl); lia|].
  apply (Hnown (tbl_of (set_i_sectors sec i))); [|done]. apply Ho. unfold tbl_list. rewrite (proj2 (Z.eqb_neq _ _)) by done. set_solver.
Qed.

Lemma write_data_run f p x i io buf count s :
  layout s → file_ok s i → inodes s !! p = Some i → 0 ≤ f → file_table s !! Z.to_nat f = Some x → length io = 512%nat →
  0 ≤ count ≤ Z.of_nat (length buf) → i_size i + count < 71680 →
  (will_use i count - used i + (if decide (used i ≤ 12 < will_use i count)%nat then 1 else 0) ≤ length (free_bits (bb s)))%nat →
  ∃ io' i2 s', write_blocks f p x i io buf count s = (let! _ := inode_sync i2 io' in do! sys_free in do! sys_free in mok count) s' ∧ length io' = 512%nat ∧
    stored f p x i i2 (take (Z.to_nat count) buf) s s'.
Proof.
  intros Hl Hf Hi Hf0 Hx Hio Hcount Hsize Hfree.
  pose proof (used_range s i Hf) as [Hu Hu2]. pose proof (fo_inode s i Hf) as (Hok1 & Hok2 & _ & _). unfold is_u32 in Hok1, Hok2.
  set (will := will_use i count) in *. assert (Hw : (i_size i + count) / 512 + 1 = Z.of_nat will ∧ (used i ≤ will ≤ 140)%nat).
  { unfold will, will_use, used in *. zsolve. } destruct Hw as [Hw1 Hw2].
  unfold write_blocks, BLOCK_SIZE. rewrite u32_small by lia. rewrite Hu2, Hw1.
  mstep (mlift_Ok _ s _ (ASSERT_true (Z.of_nat will <=? 140) ltac:(apply Z.leb_le; lia))).
  destruct (collect_blocks_run p i s will Hl Hf Hi Hw2 Hfree) as (ab & tnew & new & sec & s0 & d & E & Hc). mstep E.
  pose proof (gather p i will s ab tnew new sec s0 d Hl Hf ltac:(lia) Hc) as Hga. pose proof (co_grown _ _ _ _ _ _ _ _ _ _ _ Hc) as Hg.
  set (bs := take (used i) (blocks_of (drive s) i) ++ new) in *. set (i1 := set_i_sectors sec i) in *.
  destruct (gr_frame _ _ _ _ Hg) as (d0 & bm & m & Es0 & Hm).
  mstep (put_file_run f x (File (u32 (i_size i - 1)) (fd_flag x) p) (set_drive d s0) Hf0 ltac:(rewrite Es0; exact Hx)).
  set (x0 := File _ (fd_flag x) p). set (sB := set_file_table _ (set_drive d s0)).
  assert (Hdb : disk_ok d) by apply Hc. assert (Hl0 : layout s0) by apply Hg.
  pose proof (ga_own _ _ _ _ _ _ _ Hga) as Ho. pose proof (ga_nodup _ _ _ _ _ _ _ Hga) as Hnd. apply NoDup_app in Hnd as (Hnd & Hdis & _).
  destruct (write_loop_run (S (Z.to_nat count)) f p ab bs io buf true 0 count count i1 x0 sB) as (io' & d' & E2 & Hio' & Hd' & Himg & Hsec); try done; try lia.
  { apply (co_inode _ _ _ _ _ _ _ _ _ _ _ Hc). }
  { cbn. apply list_lookup_insert_eq. rewrite Es0. by eapply lookup_lt_Some. }
  { apply Forall_app in Ho as [Ho _]. eapply Forall_impl; [exact Ho|]. intros b (_ & Hb & _). exact Hb. }
  { intros k Hk. apply (co_ab _ _ _ _ _ _ _ _ _ _ _ Hc). rewrite (ga_len _ _ _ _ _ _ _ Hga) in Hk. cbn in Hk. lia. }
  { cbn. lia. }
  { rewrite (ga_len _ _ _ _ _ _ _ Hga). cbn. zsolve. }
  mstep E2. clear E2.
  change (i_size i1) with (i_size i) in *. set (n := i_size i + count) in *. set (i2 := set_i_size n i1) in *. set (xf := File (if count =? 0 then _ else _) _ _). set (sC := after_io d' p i2 f xf sB).
  assert (Hi2 : inodes sC !! p = Some i2) by (cbn; by rewrite lookup_insert_eq). mstep (inode_at_run p i2 sC Hi2).
  exists io', i2, sC. split; [done|]. split; [done|].
  assert (Hok : inode_ok i1) by (split_and!; [done|done|apply Hc|apply (gathered_sectors s i will s0 d i1 bs); try done; apply Hc]).
  rewrite Forall_forall in Ho. change (drive sB) with d in *.
  assert (Hlen : Z.of_nat (length (take (Z.to_nat count) buf)) = count) by (rewrite length_take; lia).
  destruct (gathered_file s i will s0 d i1 bs n sC Hga Hok) as [Hfok Hbs]; [done| |done|lia|].
  { intros b Hb. apply Hsec. intros Hin. by apply (Hdis b). }
  fold i2 in Hfok, Hbs. split; try done; rewrite ?Hlen.
  - done.
  - unfold content. change (used i2) with will. rewrite Hbs. change (i_size i2) with n. change (drive sC) with d'. rewrite Himg.
    by rewrite (ga_data _ _ _ _ _ _ _ Hga).
  - intros q Hq. cbn. rewrite lookup_insert_ne by done. rewrite Es0. by apply Hm.
  - intros b Hb Hnb. destruct (ga_others _ _ _ _ _ _ _ Hga b Hb Hnb) as (H1 & H2 & H3). split; [exact H1|]. cbn. rewrite Hsec by set_solver. done.
  - apply table_ext; [unfold table_lba; cbn; by rewrite (grown_sb _ _ _ _ Hg)|]. intros l Hll. by eapply gathered_table.
  - cbn. rewrite list_insert_insert_eq, Es0. cbn. f_equal. unfold xf. f_equal.
    destruct (Z.eqb_spec count 0) as [->|Hne]; [cbn; f_equal; lia|]. cbn. rewrite u32_add_l. f_equal. lia.
  - assert (layout (set_drive d' s0)) as [] by (by apply layout_set_drive). by split.
  - change (live s0 = live s). by rewrite Es0.
Qed.

Lemma write_blocks_run f p x i io buf count s :
  layout s → file_ok s i → inodes s !! p = Some i → 0 ≤ f → file_table s !! Z.to_nat f = Some x → length io = 512%nat →
  i_no i < 256 → straddles (i_no i) = false → 0 ≤ count ≤ Z.of_nat (length buf) → i_size i + count < 71680 →
  (will_use i count - used i + (if decide (used i ≤ 12 < will_use i count)%nat then 1 else 0) ≤ length (free_bits (bb s)))%nat →
  ∃ s', write_blocks f p x i io buf count s = Ok (count, s') ∧ live s' = live s - 2 ∧ appended f p x i (take (Z.to_nat count) buf) s s'.
Proof.
  intros Hl Hf Hi Hf0 Hx Hio Hno Hstr Hcount Hsize Hfree. pose proof (fo_inode s i Hf) as ([Hno0 _] & _).
  destruct (write_data_run f p x i io buf count s) as (io' & i2 & sC & -> & Hio' & [(Hi2 & En & Es) Hok2 Hco Hin Hbl Htab Hft HlC Hlv]); try done.
  assert (Hu8 : u8 (i_no i2) = i_no i) by (rewrite En; apply u8_small; lia).
  destruct (inode_sync_run i2 io' sC HlC (fo_inode _ _ Hok2)) as (b' & sD & E3 & (dD & -> & HdD & HsD) & HtD & _).
  { rewrite Hu8. unfold isecs. rewrite Hstr, Hio'. lia. }
  mstep E3. clear E3. rewrite Hu8 in HtD.
  assert (Hdata : ∀ b, own sC b → sector dD b = sector (drive sC) b). { intros b Hb. apply HsD. right. by apply own_data. }
  eexists. split; [reflexivity|]. split; [cbn; lia|].
  match goal with |- appended _ _ _ _ _ _ ?st => set (sE := st) end.
  assert (Hslot : ∀ m, 0 ≤ m < 4096 → slot sE m = if decide (m = i_no i) then bytes_of (pure_words i2) else slot s m).
  { intros m Hm. rewrite (slot_splice sC sE (i_no i) m (bytes_of (pure_words i2))); [|lia|done|done|by apply pure_words_length, (fo_inode _ _ Hok2)|exact HtD].
    destruct (decide (m = i_no i)); [done|]. unfold slot. by rewrite Htab. }
  destruct (file_frame sC sE i2 Hok2) as [HokE HcoE].
  { intros b Hb. pose proof (fo_own _ _ Hok2) as Ho. rewrite Forall_forall in Ho. specialize (Ho b Hb). split; [exact Ho|by apply Hdata]. }
  split.
  - exists i2. split_and!; try done; [by rewrite HcoE|]. by rewrite Hslot, decide_True by (done || lia).
  - exact Hin.
  - intros b Hb Hnb. destruct (Hbl b Hb Hnb) as [H1 H2]. split; [exact H1|]. rewrite <-H2. by apply Hdata.
  - intros m Hm Hne. by rewrite Hslot, decide_False by (done || lia).
  - exact Hft.
  - assert (layout (set_drive dD sC)) as [] by (by apply layout_set_drive). by split.
Qed.

Lemma layout_heap b o l s : layout s → layout (set_heap b o l s).
Proof. intros []. by split. Qed.
Lemma file_ok_heap b o l s i : file_ok s i → file_ok (set_heap b o l s) i.
Proof. intros []. by split. Qed.

Lemma malloc_buf_run n s : oom s = [] → 0 < brk s → malloc_buf n s = Ok (Some (replicate n 0), set_heap (brk s + 1) [] (live s + 1) s).
Proof.
  intros Ho Hb. unfold malloc_buf, mbnd, sys_malloc. rewrite Ho. cbn [rbind fst snd tail]. unfold NULL. by rewrite (proj2 (Z.eqb_neq (brk s) 0)) by lia.
Qed.

(** Appending to the one-block file is appending to the empty one. *)
Lemma appended_first f p x i lba data s s1 s' :
  layout s → no_blocks i → grown p [lba] s s1 → inodes s1 = <[p := set_i_sectors (lba :: replicate 12 0) i]> (inodes s) →
  appended f p x (set_i_sectors (lba :: replicate 12 0) i) data s1 s' → appended f p x i data s s'.
Proof.
  intros Hl [Hz _] Hg Hi [(i' & A1 & A2 & A3 & A4 & A5 & A6) B1 C1 D1 E1 F1]. set (i1 := set_i_sectors _ i) in *.
  assert (Htab : table s1 = table s).
  { apply table_ext; [unfold table_lba; by rewrite (grown_sb _ _ _ _ Hg)|]. intros l Hll. apply (gr_disk _ _ _ _ Hg). pose proof (ly_it s Hl). unfold table_lba in *. lia. }
  assert (Hown : owned (drive s1) i1 = [lba]). { unfold owned, used, i1. cbn [i_size set_i_sectors]. rewrite Hz. done. }
  split; try done.
  - exists i'. split_and!; try done. rewrite A5. unfold content, i1. cbn [i_size set_i_sectors]. by rewrite Hz.
  - intros q Hq. rewrite B1, Hi by done. by rewrite lookup_insert_ne.
  - intros b Hb _. destruct (own_grown _ _ _ _ _ Hg Hb) as [Hb1 Hnb]. destruct (C1 b Hb1) as [Hb2 Hs]; [by rewrite Hown|]. split; [done|].
    rewrite Hs. apply (gr_disk _ _ _ _ Hg). by apply own_data.
  - intros n Hn Hne. rewrite D1 by done. unfold slot. by rewrite Htab.
  - rewrite E1. unfold i1. cbn [i_size set_i_sectors]. by destruct (gr_frame _ _ _ _ Hg) as (? & ? & ? & -> & _).
Qed.

(** The number of blocks a write takes from the free ones. *)
Definition blocks_needed (i : inode) (count : Z) : nat :=
  (will_use i count - used i + (if decide (used i ≤ 12 < will_use i count) then 1 else 0) + (if (nth 0 (i_sectors i) 0 =? 0)%Z then 1 else 0))%nat.

(** The code in front of [write_blocks]. *)
Lemma file_write_prefix f x i s buf count :
  0 ≤ f → file_table s !! Z.to_nat f = Some x → inodes s !! fd_inode x = Some i → oom s = [] → 0 < brk s →
  0 ≤ i_size i + count ≤ 71680 →
  file_write f buf count s =
    (let! ok := first_block (fd_inode x) in if negb ok then mok (-1) else write_blocks f (fd_inode x) x i (replicate 512 0) buf count)
    (set_heap (brk s + 2) [] (live s + 2) s).
Proof.
  intros Hf Hx Hi Ho Hb Hs. unfold file_write. mstep (file_at_run f x s Hf Hx). mstep (inode_at_run _ i s Hi).
  unfold BLOCK_SIZE. rewrite u32_small by lia. rewrite (proj2 (Z.ltb_ge _ _)) by lia.
  mstep (malloc_buf_run 512 s Ho Hb). mstep (malloc_buf_run 560 (set_heap (brk s + 1) [] (live s + 1) s) eq_refl ltac:(cbn; lia)).
  unfold set_heap. cbn [drive cur_part inodes dirs file_table fd_table cwd_inode_nr brk live]. by replace (brk s + 1 + 1) with (brk s + 2) by lia; replace (live s + 1 + 1) with (live s + 2) by lia.
Qed.

(** *** Descriptors *)

(** [k] is the first index from [lo] on with the property, or [hi] if there is none. *)
Definition first_in {A} (P : A → bool) (t : list A) (lo hi k : nat) : Prop :=
  (lo ≤ k ≤ hi)%nat ∧ (∀ j y, (lo ≤ j < k)%nat → t !! j = Some y → P y = false) ∧
  ((k < hi)%nat → ∃ y, t !! k = Some y ∧ P y = true).

Lemma find_from_run {A} (P : A → bool) fuel t idx :
  (idx + fuel ≤ length t)%nat → ∃ k, find_from P fuel t (Z.of_nat idx) = Ok (Z.of_nat k) ∧ first_in P t idx (idx + fuel) k.
Proof.
  revert idx. induction fuel as [|fuel IH]; intros idx Hl; cbn [find_from].
  - exists idx. split; [done|]. split; [lia|]. split; intros; lia.
  - destruct (lookup_lt_is_Some_2 t idx) as [y Hy]; [lia|]. rewrite (rd_Some t idx y Hy). cbn [rbind]. destruct (P y) eqn:EP.
    + exists idx. split; [done|]. split; [lia|]. split; [intros; lia|]. intros _. by exists y.
    + replace (Z.of_nat idx + 1) with (Z.of_nat (S idx)) by lia. destruct (IH (S idx)) as (k & E & H1 & H2 & H3); [lia|].
      exists k. split; [done|]. split; [lia|]. split.
      * intros j z Hj Hz. destruct (decide (j = idx)) as [->|]; [congruence|]. apply (H2 j z); [lia|done].
      * intros Hk. apply H3. lia.
Qed.

Lemma first_in_unique {A} (P : A → bool) t lo hi k k' : (hi ≤ length t)%nat → first_in P t lo hi k → first_in P t lo hi k' → k = k'.
Proof.
  intros Hlen (H1 & H2 & H3) (H1' & H2' & H3'). destruct (decide (k < k')%nat) as [Hlt|].
  - destruct H3 as (y & Hy & HP); [lia|]. specialize (H2' k y ltac:(lia) Hy). congruence.
  - destruct (decide (k' < k)%nat) as [Hlt|]; [|lia]. destruct H3' as (y & Hy & HP); [lia|]. specialize (H2 k' y ltac:(lia) Hy). congruence.
Qed.

Lemma get_free_slot_run s k :
  length (file_table s) = 32%nat → first_in (λ x, fd_inode x =? NULL) (file_table s) 3 32 k →
  get_free_slot_in_global s = Ok (if decide (k = 32%nat) then -1 else Z.of_nat k, s).
Proof.
  intros Hl Hk. unfold get_free_slot_in_global. unfold mbnd at 1. unfold mget at 1. cbn [rbind fst snd].
  destruct (find_from_run (λ x, fd_inode x =? NULL) 29 (file_table s) 3) as (k' & E & Hk'); [lia|].
  assert (k' = k) as -> by (apply (first_in_unique _ _ _ _ _ _ (Nat.eq_le_incl _ _ (eq_sym Hl)) Hk' Hk)). mstep (mlift_Ok _ s _ E). unfold mok, MAX_FILE_OPEN. do 2 f_equal.
  case_decide as Hd; [by rewrite Hd|]. by rewrite (proj2 (Z.eqb_neq _ _)) by lia.
Qed.

Lemma pcb_fd_install_run g s k :
  length (fd_table s) = 8%nat → first_in (λ x, x =? -1) (fd_table s) 3 8 k →
  pcb_fd_install g s = Ok (if decide (k = 8%nat) then (-1, s) else (Z.of_nat k, set_fd_table (<[k := g]> (fd_table s)) s)).
Proof.
  intros Hl Hk. unfold pcb_fd_install. unfold mbnd at 1. unfold mget at 1. cbn [rbind fst snd].
  destruct (find_from_run (λ x, x =? -1) 5 (fd_table s) 3) as (k' & E & Hk'); [lia|].
  assert (k' = k) as -> by (apply (first_in_unique _ _ _ _ _ _ (Nat.eq_le_incl _ _ (eq_sym Hl)) Hk' Hk)). mstep (mlift_Ok _ s _ E). unfold MAX_FILES_OPEN_PER_PROC. destruct (decide (k = 8%nat)) as [->|Hd]; [done|].
  rewrite (proj2 (Z.eqb_neq _ _)) by lia. destruct Hk as (Hr & _ & _). mstep (mlift_Ok _ s _ (wr_Ok (fd_table s) (Z.of_nat k) g ltac:(lia))). by rewrite Nat2Z.id.
Qed.

(** Opening for writing an inode that is open already. *)
Definition opened (q slot flag : Z) (i : inode) (s : fs) : fs :=
  set_file_table (<[Z.to_nat slot := File 0 flag q]> (file_table s)) (set_inodes (<[q := i]> (inodes s)) s).

Lemma file_open_hit n q i s slot fd flag :
  find_open (open_inodes (cur_part s)) (inodes s) n = Some q → inodes s !! q = Some i → 0 ≤ i_open_cnts i < 4294967295 →
  length (file_table s) = 32%nat → length (fd_table s) = 8%nat → first_in (λ x, fd_inode x =? NULL) (file_table s) 3 32 slot →
  first_in (λ x, x =? -1) (fd_table s) 3 8 fd → (slot < 32)%nat → (fd < 8)%nat → flag = O_WRONLY ∨ flag = O_RDWR →
  let i1 := set_open_cnts (i_open_cnts i + 1) i in
  file_open n flag s =
    if write_deny i then Ok (-1, opened q (Z.of_nat slot) flag i1 s)
    else Ok (Z.of_nat fd, set_fd_table (<[fd := Z.of_nat slot]> (fd_table s)) (opened q (Z.of_nat slot) flag (set_write_deny true i1) s)).
Proof.
  intros Hf Hq Hc Hft Hfd Hslot Hfdk Hs32 Hf8 Hflag i1. unfold file_open. mstep (get_free_slot_run s slot Hft Hslot). rewrite decide_False by lia.
  rewrite (proj2 (Z.eqb_neq _ (-1))) by lia. mstep (inode_open_hit n q i s Hf Hq Hc). fold i1. set (s1 := set_inodes _ s).
  destruct (lookup_lt_is_Some_2 (file_table s) slot) as [y Hy]; [lia|].
  mstep (put_file_run (Z.of_nat slot) y (File 0 flag q) s1 ltac:(lia) ltac:(by rewrite Nat2Z.id)). fold (opened q (Z.of_nat slot) flag i1 s).
  assert (Hfl : (flag =? O_WRONLY) || (flag =? O_RDWR) = true) by (destruct Hflag as [-> | ->]; done). rewrite Hfl.
  mstep (inode_at_run q i1 (opened q (Z.of_nat slot) flag i1 s) ltac:(cbn; by rewrite lookup_insert_eq)). change (write_deny i1) with (write_deny i).
  destruct (write_deny i); cbn [negb]; [done|]. set (sp := set_inodes (<[q := set_write_deny true i1]> (<[q := i1]> (inodes s))) (opened q (Z.of_nat slot) flag i1 s)).
  mstep (eq_refl : put_inode q (set_write_deny true i1) (opened q (Z.of_nat slot) flag i1 s) = Ok (tt, sp)).
  rewrite (pcb_fd_install_run (Z.of_nat slot) sp fd) by done. rewrite decide_False by lia. f_equal. f_equal.
  unfold sp, opened, set_fd_table, set_inodes, set_file_table. cbn. by rewrite insert_insert_eq.
Qed.

(** *** Reading *)

Lemma copy_sectors_run n p i s idx ab :
  inodes s !! p = Some i → (idx + n ≤ length (i_sectors i))%nat → (idx + n ≤ length ab)%nat →
  ∃ ab', copy_sectors n p (Z.of_nat idx) ab s = Ok (ab', s) ∧ length ab' = length ab ∧
    ∀ k, ab' !! k = if decide (idx ≤ k < idx + n)%nat then i_sectors i !! k else ab !! k.
Proof.
  intros Hi. revert idx ab. induction n as [|n IH]; intros idx ab Hs Ha.
  - exists ab. split_and!; try done. intros k. by rewrite decide_False by lia.
  - destruct (lookup_lt_is_Some_2 (i_sectors i) idx) as [v Hv]; [lia|]. cbn [copy_sectors].
    mstep (copy_sector_run p i s idx ab v Hi Hv ltac:(lia)). replace (Z.of_nat idx + 1) with (Z.of_nat (S idx)) by lia.
    destruct (IH (S idx) (<[idx := v]> ab)) as (ab' & E & Hl & Hk); [lia|rewrite length_insert; lia|].
    exists ab'. rewrite length_insert in Hl. split_and!; try done. intros k. rewrite Hk. destruct (decide (S idx ≤ k < S idx + n)%nat).
    + by rewrite decide_True by lia.
    + destruct (decide (k = idx)) as [->|]; [rewrite decide_True, list_lookup_insert_eq by lia; done|].
      rewrite decide_False by lia. by apply list_lookup_insert_ne.
Qed.

(** [collect_read] finds the addresses of the blocks from [b0] to [b1]. *)
Lemma collect_read_run p i s b0 b1 :
  layout s → file_ok s i → inodes s !! p = Some i → (b0 ≤ b1 < used i)%nat →
  ∃ ab, collect_read p (Z.of_nat b0) (Z.of_nat b1) (replicate 140 0) s = Ok (ab, s) ∧
    ∀ k, (b0 ≤ k ≤ b1)%nat → ab !! k = blocks_of (drive s) i !! k.
Proof.
  intros Hl Hf Hi Hb. pose proof (used_range s i Hf) as [Hu _]. pose proof (fo_inode s i Hf) as (_ & _ & Hlen & _). pose proof (ly_disk s Hl) as Hd.
  assert (Htbl : (12 ≤ b1)%nat → tbl_of i ≠ 0 ∧ tbl_of i ≤ max_lba).
  { intros H. assert (Ht : tbl_of i ≠ 0) by (rewrite (fo_tbl s i Hf); lia). split; [done|]. by destruct (tbl_own s i Hf Ht) as (_ & ? & _). }
  assert (Hload : ∀ ab, (12 ≤ b1)%nat → length ab = 140%nat → (∀ k, (b0 ≤ k < 12)%nat → ab !! k = i_sectors i !! k) →
    ∃ ab', load_table (tbl_of i) ab s = Ok (ab', s) ∧ ∀ k, (b0 ≤ k ≤ b1)%nat → ab' !! k = blocks_of (drive s) i !! k).
  { intros ab H12 Hab Hk. destruct (Htbl H12) as [Ht Hm]. eexists. split; [by apply load_table_run|]. intros k Hkb.
    destruct (decide (k < 12)%nat).
    - rewrite lookup_app_l by (rewrite length_take; lia). rewrite lookup_take_lt, Hk by lia. by rewrite blocks_direct by (done || lia).
    - rewrite lookup_app_r by (rewrite length_take; lia). rewrite blocks_table by (done || lia). f_equal. rewrite length_take. lia. }
  unfold collect_read. destruct (decide (b0 = b1)) as [->|Hne].
  - rewrite Z.sub_diag. change (u32 0 =? 0) with true. cbv iota. mstep (mlift_Ok _ s _ (ASSERT_true (Z.of_nat b1 =? Z.of_nat b1) ltac:(apply Z.eqb_refl))).
    destruct (Z.ltb_spec (Z.of_nat b1) 12) as [H12|H12].
    + destruct (lookup_lt_is_Some_2 (i_sectors i) b1) as [v Hv]; [lia|]. eexists. split; [apply (copy_sector_run p i s b1 _ v Hi Hv); rewrite length_replicate; lia|].
      intros k Hk. assert (k = b1) as -> by lia. rewrite list_lookup_insert_eq by (rewrite length_replicate; lia). by rewrite blocks_direct by (done || lia).
    + mstep (sector_of_run p i s 12 (tbl_of i) Hi ltac:(lia) (tbl_lookup i Hlen)). apply Hload; [lia|done|lia].
  - assert (Hsub : (u32 (Z.of_nat b0 - Z.of_nat b1) =? 0) = false) by (apply Z.eqb_neq; zsolve). rewrite Hsub. clear Hsub.
    destruct (Z.ltb_spec (Z.of_nat b1) 12) as [H12|H12].
    + replace (Z.to_nat (Z.of_nat b1 - Z.of_nat b0 + 1)) with (b1 - b0 + 1)%nat by lia.
      destruct (copy_sectors_run (b1 - b0 + 1) p i s b0 (replicate 140 0) Hi) as (ab & E & _ & Hk); [lia|rewrite length_replicate; lia|].
      exists ab. split; [exact E|]. intros k Hkb. rewrite Hk, decide_True by lia. by rewrite blocks_direct by (done || lia).
    + destruct (Htbl ltac:(lia)) as [Ht Hm]. destruct (Z.ltb_spec (Z.of_nat b0) 12) as [H0|H0]; cbn [andb].
      * rewrite (proj2 (Z.leb_le 12 _)) by lia. replace (Z.to_nat (12 - Z.of_nat b0)) with (12 - b0)%nat by lia.
        destruct (copy_sectors_run (12 - b0) p i s b0 (replicate 140 0) Hi) as (ab & E & Hal & Hk); [lia|rewrite length_replicate; lia|]. mstep E.
        mstep (sector_of_run p i s 12 (tbl_of i) Hi ltac:(lia) (tbl_lookup i Hlen)).
        mstep (mlift_Ok _ s _ (ASSERT_true (negb (tbl_of i =? 0)) ltac:(by rewrite (proj2 (Z.eqb_neq _ _))))).
        apply Hload; [lia|done|]. intros k Hkb. by rewrite Hk, decide_True by lia.
      * mstep (sector_of_run p i s 12 (tbl_of i) Hi ltac:(lia) (tbl_lookup i Hlen)).
        mstep (mlift_Ok _ s _ (ASSERT_true (negb (tbl_of i =? 0)) ltac:(by rewrite (proj2 (Z.eqb_neq _ _))))).
        apply Hload; [lia|done|lia].
Qed.

Lemma img_read d bs k a off c :
  disk_ok d → bs !! k = Some a → (off + c ≤ 512)%nat → take c (drop off (sector d a)) = take c (drop (512 * k + off) (img d bs)).
Proof.
  intros Hd Ha Hc. assert (Hk : (k < length bs)%nat) by (by eapply lookup_lt_Some). rewrite <-(take_drop_middle bs k a Ha), img_app.
  rewrite drop_app_ge by (rewrite img_length, length_take by done; lia). rewrite img_length, length_take by done.
  replace (512 * k + off - 512 * min k (length bs))%nat with off by lia.
  change (img d (a :: drop (S k) bs)) with (sector d a ++ img d (drop (S k) bs)). pose proof (sector_length d a Hd).
  rewrite drop_app_le by lia. by rewrite take_app_le by (rewrite length_drop; lia).
Qed.

Lemma read_loop_run fuel f ab bs io buf br size left x s :
  disk_ok (drive s) → 0 ≤ f → file_table s !! Z.to_nat f = Some x → length io = 512%nat → Forall (λ b, b ≤ max_lba) bs →
  0 ≤ fd_pos x → 0 ≤ left → fd_pos x + left < 512 * Z.of_nat (length bs) → (length bs ≤ 140)%nat →
  (∀ k, fd_pos x / 512 ≤ Z.of_nat k ≤ (fd_pos x + left) / 512 → ab !! k = bs !! k) →
  0 ≤ br → br + left ≤ Z.of_nat (length buf) → size = br + left → (Z.to_nat left < fuel)%nat →
  read_loop fuel f ab (Some io) buf br size left s =
    Ok (splice (Z.to_nat br) (take (Z.to_nat left) (drop (Z.to_nat (fd_pos x)) (img (drive s) bs))) buf,
        set_file_table (<[Z.to_nat f := File (fd_pos x + left) (fd_flag x) (fd_inode x)]> (file_table s)) s).
Proof.
  revert s x io buf br left. induction fuel as [|fuel IH]; intros s x io buf br left Hd Hf Hx Hio Hmax H0 Hl0 Hroom Hbs Hagree Hbr Hbuf Hsize Hfuel; [lia|].
  cbn [read_loop]. destruct (Z.ltb_spec br size) as [Hlt|Hge]; [|assert (left = 0) as -> by lia].
  2:{ unfold mok. rewrite Z.add_0_r. change (Z.to_nat 0) with 0%nat. rewrite take_0, splice_nil.
      replace (File (fd_pos x) (fd_flag x) (fd_inode x)) with x by (by destruct x). rewrite list_insert_id by done. by destruct s. }
  mstep (file_at_run f x s Hf Hx).
  set (k := Z.to_nat (fd_pos x / 512)). set (off := Z.to_nat (fd_pos x mod 512)).
  assert (Hdm : fd_pos x = 512 * Z.of_nat k + Z.of_nat off ∧ (off < 512)%nat) by (subst k off; zsolve). destruct Hdm as [Hdm Hoff]. assert (Hoz : fd_pos x mod 512 = Z.of_nat off) by (subst off; zsolve).
  assert (Hkb : (k < length bs)%nat) by lia. destruct (lookup_lt_is_Some_2 bs k Hkb) as [a Ha].
  assert (Hamax : a ≤ max_lba) by (rewrite Forall_forall in Hmax; apply Hmax; by eapply list_elem_of_lookup_2).
  assert (Hrd : rd ab (fd_pos x / BLOCK_SIZE) = Ok a).
  { unfold BLOCK_SIZE. apply rd_lookup; [zsolve|]. fold k. rewrite Hagree by (subst k; zsolve). done. }
  mstep (mlift_Ok _ s _ Hrd).
  set (c := if left <? BLOCK_SIZE - fd_pos x mod BLOCK_SIZE then left else BLOCK_SIZE - fd_pos x mod BLOCK_SIZE).
  assert (Hc : 0 < c ≤ left ∧ Z.of_nat off + c ≤ 512).
  { unfold c, BLOCK_SIZE. subst off. destruct (Z.ltb_spec left (512 - fd_pos x mod 512)); zsolve. } destruct Hc as (Hc & Hcoff).
  mstep (mlift_Ok _ s _ (memset_block io Hio)). mstep (ide_read_run a (replicate 512 0) 0 1 s Hamax Hd ltac:(lia) ltac:(done)).
  assert (Hsp : splice (Z.to_nat 0) (disk_read (drive s) a 1) (replicate 512 0) = sector (drive s) a).
  { rewrite disk_read_1. unfold splice. rewrite sector_length by done. by rewrite app_nil_r. }
  rewrite Hsp. unfold BLOCK_SIZE. pose proof (sector_length (drive s) a Hd) as Hsl.
  mstep (mlift_Ok _ s _ (get_at_Ok (sector (drive s) a) (fd_pos x mod 512) c ltac:(lia) ltac:(lia) ltac:(lia))). fold off.
  set (data := take _ (drop off _)). assert (Hdl : length data = Z.to_nat c) by (unfold data; rewrite length_take, length_drop; lia).
  mstep (mlift_Ok _ s _ (put_at_Ok buf br data Hbr ltac:(lia))). rewrite u32_small by lia.
  set (x1 := File (fd_pos x + c) (fd_flag x) (fd_inode x)).
  mstep (put_file_run f x x1 s Hf Hx).
  set (s1 := set_file_table _ s).
  rewrite (IH s1 x1); try done; try lia.
  - cbn [fd_pos fd_flag fd_inode x1 file_table s1 set_file_table drive]. rewrite list_insert_insert_eq.
    replace (fd_pos x + c + (left - c)) with (fd_pos x + left) by lia. do 2 f_equal.
    assert (Hda : data = take (Z.to_nat c) (drop (Z.to_nat (fd_pos x)) (img (drive s) bs))).
    { unfold data. rewrite (img_read (drive s) bs k a off) by (done || lia). do 2 f_equal. lia. }
    assert (Hil : length (img (drive s) bs) = (512 * length bs)%nat) by (by apply img_length).
    replace (Z.to_nat (br + c)) with (Z.to_nat br + length data)%nat by lia. rewrite splice_adjacent.
    + f_equal. rewrite Hda. replace (Z.to_nat (fd_pos x + c)) with (Z.to_nat (fd_pos x) + Z.to_nat c)%nat by lia. rewrite <-drop_drop.
      replace (Z.to_nat left) with (Z.to_nat c + Z.to_nat (left - c))%nat by lia. apply take_take_drop.
    + rewrite length_take, length_drop. lia.
  - cbn. apply list_lookup_insert_eq. by eapply lookup_lt_Some.
  - cbn. lia.
  - cbn. lia.
  - intros j Hj. apply Hagree. cbn [fd_pos x1] in Hj. replace (fd_pos x + c + (left - c)) with (fd_pos x + left) in Hj by lia. zsolve.
  - rewrite splice_length by lia. lia.
Qed.

End file_lemmas.

(** ** Theorems *)

Section file_properties.
Context {B : Build}.

Lemma file_write_run f x i s buf count :
  layout s → 0 ≤ f → file_table s !! Z.to_nat f = Some x → inodes s !! fd_inode x = Some i →
  file_ok s i ∨ inode_ok i ∧ no_blocks i → i_no i < 256 → straddles (i_no i) = false →
  0 ≤ count ≤ Z.of_nat (length buf) → i_size i + count < 71680 →
  (blocks_needed i count ≤ length (free_bits (bb s)))%nat → oom s = [] → 0 < brk s →
  ∃ s', file_write f buf count s = Ok (count, s') ∧ live s' = live s ∧
    appended f (fd_inode x) x i (take (Z.to_nat count) buf) s s' ∧
    ∀ j, file_ok s j → (∀ b, b ∈ owned (drive s) j → b ∉ owned (drive s) i) → file_ok s' j ∧ content (drive s') j = content (drive s) j.
Proof.
  intros Hl Hf Hx Hi Hfile Hno Hstr Hcount Hsize Hfree Hoom Hbrk.
  assert (Happ : ∃ s', file_write f buf count s = Ok (count, s') ∧ live s' = live s ∧ appended f (fd_inode x) x i (take (Z.to_nat count) buf) s s').
  2:{ destruct Happ as (s' & E & Hlv & Ha). exists s'. split_and!; try done. intros j Hj Hd. apply (file_frame s s' j Hj). intros b Hb.
      apply (ap_blocks _ _ _ _ _ _ _ Ha); [|by apply Hd]. pose proof (fo_own s j Hj) as Ho. rewrite Forall_forall in Ho. by apply Ho. }
  set (p := fd_inode x) in *. set (sm := set_heap (brk s + 2) [] (live s + 2) s).
  assert (Hlm : layout sm) by (by apply layout_heap). unfold blocks_needed in Hfree.
  assert (H0 : 0 ≤ i_size i) by (destruct Hfile as [[(_ & [? _] & _) _ _ _ _ _]|[(_ & [? _] & _) _]]; done).
  rewrite (file_write_prefix f x i s buf count Hf Hx Hi Hoom Hbrk) by lia. fold sm p.
  destruct Hfile as [Hok|[Hok Hnb]].
  - mstep (first_block_skip p i sm Hlm Hi ltac:(by apply file_ok_heap)). cbn [negb].
    destruct (write_blocks_run f p x i (replicate 512 0) buf count sm) as (s' & E & Hlv & Ha); try done; try lia.
    { by apply file_ok_heap. } { cbn [cur_part set_heap sm]. lia. }
    exists s'. split; [exact E|]. split; [cbn in Hlv; lia|]. by destruct Ha.
  - destruct (first_block_run p i sm Hlm Hi Hok Hnb) as (lba & s1 & E1 & Hg & Hi1 & Hok1).
    { cbn [cur_part set_heap sm]. destruct Hnb as [_ Hs]. rewrite Hs in Hfree. change (nth 0 (replicate 13 0) 0 =? 0) with true in Hfree. cbv iota in Hfree. lia. }
    mstep E1. cbn [negb]. set (i1 := set_i_sectors _ i) in *.
    change (write_blocks f p x i (replicate 512 0) buf count s1) with (write_blocks f p x i1 (replicate 512 0) buf count s1).
    destruct (gr_frame _ _ _ _ Hg) as (? & ? & ? & Hs1 & _).
    destruct (write_blocks_run f p x i1 (replicate 512 0) buf count s1) as (s' & E & Hlv & Ha); try done; try lia.
    { apply Hg. } { rewrite Hi1. by rewrite lookup_insert_eq. } { by rewrite Hs1. }
    { pose proof (gr_free _ _ _ _ Hg) as Hfr. cbn [length cur_part set_heap sm] in Hfr. destruct Hnb as [_ Hs]. rewrite Hs in Hfree. change (nth 0 (replicate 13 0) 0 =? 0) with true in Hfree. cbv iota in Hfree.
      change (used i1) with (used i). change (will_use i1 count) with (will_use i count). lia. }
    exists s'. split; [exact E|]. split; [rewrite Hlv, Hs1; cbn; lia|].
    pose proof (appended_first f p x i lba _ sm s1 s' Hlm Hnb Hg Hi1 Ha) as []. by split.
Qed.

(** C3: [file_write] appends.  From any file of the file system, with or without
    blocks so far, and whatever mixture of direct and indirect blocks the data
    needs, it returns [count]; the file then has the bytes it had followed by
    the bytes of the buffer, satisfies the invariant of files, and its inode is
    in its slot on disk; every other file, every other inode in memory and on
    disk and every other block is as before; the memory is given back.  This
    is for inodes below 256 that lie in one sector, enough free blocks and a
    new size below the limit. *)
Theorem file_write_appends f x i s buf count :
  layout s → 0 ≤ f → file_table s !! Z.to_nat f = Some x → inodes s !! fd_inode x = Some i →
  file_ok s i ∨ inode_ok i ∧ no_blocks i → i_no i < 256 → straddles (i_no i) = false →
  0 ≤ count ≤ Z.of_nat (length buf) → i_size i + count < 71680 →
  (blocks_needed i count ≤ length (free_bits (bb s)))%nat → oom s = [] → 0 < brk s →
  ∃ s', file_write f buf count s = Ok (count, s') ∧ live s' = live s ∧
    appended f (fd_inode x) x i (take (Z.to_nat count) buf) s s' ∧
    ∀ j, file_ok s j → (∀ b, b ∈ owned (drive s) j → b ∉ owned (drive s) i) → file_ok s' j ∧ content (drive s') j = content (drive s) j.
Proof. apply file_write_run. Qed.

Lemma file_read_run f x i s buf count :
  layout s → 0 ≤ f → file_table s !! Z.to_nat f = Some x → inodes s !! fd_inode x = Some i → file_ok s i →
  0 ≤ fd_pos x ≤ i_size i → 0 ≤ count < 4294896000 → oom s = [] → 0 < brk s →
  let n := Z.min count (i_size i - fd_pos x) in
  n ≤ Z.of_nat (length buf) → fd_pos x + n < 71168 →
  if (fd_pos x =? i_size i) && (0 <? count) then file_read f buf count s = Ok ((-1, buf), s)
  else file_read f buf count s = Ok ((n, take (Z.to_nat n) (drop (Z.to_nat (fd_pos x)) (content (drive s) i)) ++ drop (Z.to_nat n) buf),
    set_heap (brk s + 2) [] (live s) (set_file_table (<[Z.to_nat f := File (fd_pos x + n) (fd_flag x) (fd_inode x)]> (file_table s)) s)).
Proof.
  intros Hl Hf Hx Hi Hok Hpos Hcount Hoom Hbrk n Hbuf Hend. set (p := fd_inode x) in *. pose proof (fo_size s i Hok) as Hsz. pose proof (used_range s i Hok) as [Hu Hu2].
  unfold file_read. mstep (file_at_run f x s Hf Hx). fold p. mstep (inode_at_run p i s Hi). rewrite (u32_small (fd_pos x + count)) by lia.
  rewrite (u32_small (i_size i - fd_pos x)) by lia.
  assert (Hn : (if i_size i <? fd_pos x + count then i_size i - fd_pos x else count) = n) by (unfold n; destruct (Z.ltb_spec (i_size i) (fd_pos x + count)); lia).
  rewrite Hn. destruct ((fd_pos x =? i_size i) && (0 <? count)) eqn:Eof.
  { apply andb_true_iff in Eof as [E1%Z.eqb_eq E2%Z.ltb_lt]. rewrite (proj2 (Z.ltb_lt _ _)) by lia. by rewrite (proj2 (Z.eqb_eq n 0)) by lia. }
  assert (Hgo : (i_size i <? fd_pos x + count) && (n =? 0) = false).
  { destruct (Z.eqb_spec n 0) as [En|]; [|apply andb_false_r]. rewrite andb_true_r. apply Z.ltb_ge.
    apply andb_false_iff in Eof as [E%Z.eqb_neq|E%Z.ltb_ge]; lia. }
  rewrite Hgo. mstep (malloc_buf_run 512 s Hoom Hbrk). mstep (malloc_buf_run 560 (set_heap (brk s + 1) [] (live s + 1) s) eq_refl ltac:(cbn; lia)).
  set (sm := set_heap _ _ _ (set_heap _ _ _ s)). assert (Hlm : layout sm) by (by apply layout_heap, layout_heap). assert (Hokm : file_ok sm i) by (by apply file_ok_heap, file_ok_heap).
  rewrite u32_small by lia. unfold BLOCK_SIZE.
  set (b0 := Z.to_nat (fd_pos x / 512)). set (b1 := Z.to_nat ((fd_pos x + n) / 512)).
  assert (Hb : Z.of_nat b0 = fd_pos x / 512 ∧ Z.of_nat b1 = (fd_pos x + n) / 512 ∧ (b0 ≤ b1 < used i)%nat ∧ (b1 < 139)%nat) by (subst b0 b1; zsolve).
  destruct Hb as (Eb0 & Eb1 & Hb & Hb139). rewrite <-Eb0, <-Eb1.
  mstep (mlift_Ok _ sm _ (ASSERT_true ((Z.of_nat b0 <? 139) && (Z.of_nat b1 <? 139)) ltac:(apply andb_true_iff; split; apply Z.ltb_lt; lia))).
  destruct (collect_read_run p i sm b0 b1 Hlm Hokm Hi Hb) as (ab & E & Hab). mstep E. change (drive sm) with (drive s) in Hab.
  pose proof (used_blocks s i Hl Hok) as Hub. set (bs := take (used i) (blocks_of (drive s) i)). assert (Hbs : length bs = used i) by (unfold bs; rewrite length_take; lia).
  assert (Hil : length (img (drive s) bs) = (512 * used i)%nat) by (rewrite img_length by apply Hl; lia).
  assert (Hrun : read_loop (S (Z.to_nat n)) f ab (Some (replicate 512 0)) buf 0 n n sm = Ok (splice 0 (take (Z.to_nat n) (drop (Z.to_nat (fd_pos x)) (img (drive s) bs))) buf,
    set_file_table (<[Z.to_nat f := File (fd_pos x + n) (fd_flag x) (fd_inode x)]> (file_table s)) sm)).
  { apply (read_loop_run (S (Z.to_nat n)) f ab bs (replicate 512 0) buf 0 n n x sm); try done; try lia.
    - apply Hl.
    - pose proof (fo_own s i Hok) as Ho. apply Forall_app in Ho as [Ho _]. eapply Forall_impl; [exact Ho|]. by intros b (_ & ? & _).
    - rewrite Hbs. zsolve.
    - intros k Hk. rewrite Hab by lia. unfold bs. by rewrite lookup_take_lt by lia. }
  mstep Hrun. unfold sys_free, mmod, mbnd, mok. cbn [rbind fst snd]. f_equal. f_equal.
  - f_equal. unfold splice. rewrite take_0, length_take, length_drop, Hil. cbn [app]. rewrite Nat.add_0_l. rewrite Nat.min_l by zsolve. f_equal.
    unfold content. fold bs. rewrite skipn_firstn_comm, take_take. f_equal. lia.
  - cbn. unfold set_heap, set_file_table. cbn. f_equal; lia.
Qed.

(** C19: [file_read] reads.  At a position inside a file it returns as many bytes as
    were asked for and are left, stores exactly these bytes of the file at the
    start of the buffer, moves the position behind them and gives the memory
    back; at the end of the file it returns -1 and changes nothing.  The disk
    is never written.  This is for reads that end below block 139. *)
Theorem file_read_content f x i s buf count :
  layout s → 0 ≤ f → file_table s !! Z.to_nat f = Some x → inodes s !! fd_inode x = Some i → file_ok s i →
  0 ≤ fd_pos x ≤ i_size i → 0 ≤ count < 4294896000 → oom s = [] → 0 < brk s →
  let n := Z.min count (i_size i - fd_pos x) in
  n ≤ Z.of_nat (length buf) → fd_pos x + n < 71168 →
  if (fd_pos x =? i_size i) && (0 <? count) then file_read f buf count s = Ok ((-1, buf), s)
  else file_read f buf count s = Ok ((n, take (Z.to_nat n) (drop (Z.to_nat (fd_pos x)) (content (drive s) i)) ++ drop (Z.to_nat n) buf),
    set_heap (brk s + 2) [] (live s) (set_file_table (<[Z.to_nat f := File (fd_pos x + n) (fd_flag x) (fd_inode x)]> (file_table s)) s)).
Proof. apply file_read_run. Qed.

(** [file_write] guards its limits badly.  Past 71680 bytes it returns -1 and
    changes nothing; at exactly 71680 bytes it passes its own test and then
    stops the kernel in [ASSERT(file_will_use_blocks <= 140)], for every file. *)
Theorem file_write_limit f x i s buf count :
  layout s → 0 ≤ f → file_table s !! Z.to_nat f = Some x → inodes s !! fd_inode x = Some i → file_ok s i →
  0 ≤ count → 71680 ≤ i_size i + count < 4294967296 → ndebug = false → oom s = [] → 0 < brk s →
  file_write f buf count s = if i_size i + count =? 71680 then Panic else Ok (-1, s).
Proof.
  intros Hl Hf Hx Hi Hok Hc Hs Hd Hoom Hbrk. destruct (Z.eqb_spec (i_size i + count) 71680) as [E|E].
  - rewrite (file_write_prefix f x i s buf count Hf Hx Hi Hoom Hbrk) by lia.
    mstep (first_block_skip _ i (set_heap (brk s + 2) [] (live s + 2) s) ltac:(by apply layout_heap) Hi ltac:(by apply file_ok_heap)). cbn [negb].
    unfold write_blocks. rewrite E. change (u32 71680 / BLOCK_SIZE + 1 <=? 140) with false. unfold mbnd at 1. unfold mlift, ASSERT. by rewrite Hd.
  - unfold file_write. mstep (file_at_run f x s Hf Hx). mstep (inode_at_run _ i s Hi). rewrite u32_small by lia. unfold BLOCK_SIZE.
    by rewrite (proj2 (Z.ltb_lt _ _)) by lia.
Qed.

(** [file_write] gives [inode_sync] a buffer of one sector.  When the inode
    lies across two sectors, [inode_sync] reads two sectors into it: the write
    runs over the end of the heap block, after the data has been stored. *)
Theorem file_write_heap_overflow f x i s buf count :
  layout s → 0 ≤ f → file_table s !! Z.to_nat f = Some x → inodes s !! fd_inode x = Some i → file_ok s i →
  straddles (u8 (i_no i)) = true → 0 ≤ count ≤ Z.of_nat (length buf) → i_size i + count < 71680 →
  (blocks_needed i count ≤ length (free_bits (bb s)))%nat → oom s = [] → 0 < brk s →
  file_write f buf count s = Fault.
Proof.
  intros Hl Hf Hx Hi Hok Hstr Hcount Hs Hfree Hoom Hbrk. pose proof (fo_inode s i Hok) as (_ & [H0 _] & _).
  rewrite (file_write_prefix f x i s buf count Hf Hx Hi Hoom Hbrk) by lia. set (sm := set_heap _ _ _ s). assert (Hlm : layout sm) by (by apply layout_heap).
  mstep (first_block_skip _ i sm Hlm Hi ltac:(by apply file_ok_heap)). cbn [negb]. unfold blocks_needed in Hfree.
  destruct (write_data_run f (fd_inode x) x i (replicate 512 0) buf count sm) as (io' & i2 & sC & -> & Hio' & Hst); try done.
  { by apply file_ok_heap. } { cbn [cur_part set_heap sm]. lia. }
  unfold mbnd at 1. rewrite inode_sync_short; [done|apply Hst|apply (fo_inode _ _ (sd_ok _ _ _ _ _ _ _ _ Hst))|].
  destruct (sd_inode _ _ _ _ _ _ _ _ Hst) as (_ & -> & _). rewrite Hio'. unfold isecs. rewrite Hstr. lia.
Qed.

(** C40: One writer per file, at a price.  For a file whose inode is already in
    memory, opening it for writing takes the first free slot and the first free
    descriptor and marks the inode; while the mark is set, opening it again for
    writing returns -1, but the slot stays taken and the inode keeps the extra
    opener, which nothing gives back. *)
Theorem file_open_excludes n q i s slot fd flag :
  find_open (open_inodes (cur_part s)) (inodes s) n = Some q → inodes s !! q = Some i → 0 ≤ i_open_cnts i < 4294967294 →
  length (file_table s) = 32%nat → length (fd_table s) = 8%nat → first_in (λ x, fd_inode x =? NULL) (file_table s) 3 32 slot →
  first_in (λ x, x =? -1) (fd_table s) 3 8 fd → (slot < 31)%nat → (fd < 7)%nat → flag = O_WRONLY ∨ flag = O_RDWR →
  write_deny i = false → q ≠ NULL →
  ∃ s1, file_open n flag s = Ok (Z.of_nat fd, s1) ∧ fd_table s1 !! fd = Some (Z.of_nat slot) ∧ file_table s1 !! slot = Some (File 0 flag q) ∧
    ∀ slot' fd', first_in (λ x, fd_inode x =? NULL) (file_table s1) 3 32 slot' → first_in (λ x, x =? -1) (fd_table s1) 3 8 fd' → (slot' < 32)%nat → (fd' < 8)%nat →
    ∃ s2, file_open n flag s1 = Ok (-1, s2) ∧ fd_table s2 = fd_table s1 ∧ file_table s2 !! slot' = Some (File 0 flag q) ∧
      inodes s2 !! q = Some (set_write_deny true (set_open_cnts (i_open_cnts i + 2) i)).
Proof.
  intros Hf Hq Hc Hft Hfd Hslot Hfdk Hs32 Hf8 Hflag Hwd Hnull.
  pose proof (file_open_hit n q i s slot fd flag Hf Hq ltac:(lia) Hft Hfd Hslot Hfdk ltac:(lia) ltac:(lia) Hflag) as E. cbv zeta in E. rewrite Hwd in E.
  set (i1 := set_write_deny true (set_open_cnts (i_open_cnts i + 1) i)) in *. set (s1 := set_fd_table _ _) in E. exists s1. split; [exact E|].
  split; [cbn; apply list_lookup_insert_eq; lia|]. split; [cbn; rewrite Nat2Z.id; apply list_lookup_insert_eq; lia|].
  intros slot' fd' Hs' Hfd' Hs'32 Hfd'8. assert (Hi1 : inodes s1 !! q = Some i1) by (cbn; by rewrite lookup_insert_eq).
  assert (Hf1 : find_open (open_inodes (cur_part s1)) (inodes s1) n = Some q).
  { change (find_open (open_inodes (cur_part s)) (<[q := i1]> (inodes s)) n = Some q). by apply (find_open_insert _ _ _ i). }
  pose proof (file_open_hit n q i1 s1 slot' fd' flag Hf1 Hi1 ltac:(cbn; lia) ltac:(cbn; by rewrite length_insert) ltac:(cbn; by rewrite length_insert) Hs' Hfd' ltac:(lia) ltac:(lia) Hflag) as E'.
  cbn [write_deny i1 set_write_deny] in E'. eexists. split; [exact E'|]. split; [done|]. split.
  - cbn. rewrite Nat2Z.id. apply list_lookup_insert_eq. rewrite length_insert. lia.
  - cbn. rewrite lookup_insert_eq. unfold i1, set_write_deny, set_open_cnts. cbn. do 2 f_equal. lia.
Qed.

(** [file_close] clears the writer's mark whoever closes: when a reader of a
    file that is open for writing closes its descriptor, the file can be opened
    for writing a second time. *)
Theorem file_close_readmits n f x i s slot fd flag :
  0 ≤ f → file_table s !! Z.to_nat f = Some x → fd_flag x = O_RDONLY → inodes s !! fd_inode x = Some i →
  find_open (open_inodes (cur_part s)) (inodes s) n = Some (fd_inode x) → write_deny i = true → 2 ≤ i_open_cnts i < 4294967295 →
  length (file_table s) = 32%nat → length (fd_table s) = 8%nat →
  first_in (λ y, fd_inode y =? NULL) (<[Z.to_nat f := File (fd_pos x) (fd_flag x) NULL]> (file_table s)) 3 32 slot → (slot < 32)%nat →
  first_in (λ y, y =? -1) (fd_table s) 3 8 fd → (fd < 8)%nat → flag = O_WRONLY ∨ flag = O_RDWR →
  ∃ s1 s2, file_close (Some f) s = Ok (0, s1) ∧ file_open n flag s1 = Ok (Z.of_nat fd, s2).
Proof.
  intros Hf Hx Hro Hi Hfo Hwd Hc Hft Hfd Hslot Hs32 Hfdk Hf8 Hflag. set (p := fd_inode x) in *.
  set (i1 := set_open_cnts (i_open_cnts i - 1) (set_write_deny false i)).
  set (s1 := set_file_table (<[Z.to_nat f := File (fd_pos x) (fd_flag x) NULL]> (file_table s)) (set_inodes (<[p := i1]> (inodes s)) s)).
  assert (Hi1 : inodes s1 !! p = Some i1) by (cbn; by rewrite lookup_insert_eq).
  assert (Hf1 : find_open (open_inodes (cur_part s1)) (inodes s1) n = Some p).
  { change (find_open (open_inodes (cur_part s)) (<[p := i1]> (inodes s)) n = Some p). by apply (find_open_insert _ _ _ i). }
  pose proof (file_open_hit n p i1 s1 slot fd flag Hf1 Hi1 ltac:(cbn; lia) ltac:(cbn; by rewrite length_insert) Hfd Hslot Hfdk ltac:(lia) ltac:(lia) Hflag) as E'.
  eexists s1, _. split; [|exact E']. unfold file_close. mstep (file_at_run f x s Hf Hx). fold p. mstep (inode_at_run p i s Hi).
  set (sa := set_inodes (<[p := set_write_deny false i]> (inodes s)) s). mstep (eq_refl : put_inode p (set_write_deny false i) s = Ok (tt, sa)).
  assert (Hcl : inode_close p sa = Ok (tt, set_inodes (<[p := i1]> (inodes s)) s)).
  { unfold inode_close. mstep (inode_at_run p (set_write_deny false i) sa ltac:(cbn; by rewrite lookup_insert_eq)). cbn [i_open_cnts set_write_deny].
    rewrite u32_small by lia. rewrite (proj2 (Z.eqb_neq _ 0)) by lia. unfold mbnd, put_inode, mmod, mok. cbn [rbind fst snd]. fold i1.
    unfold sa, set_inodes. cbn. by rewrite insert_insert_eq. }
  mstep Hcl. mstep (put_file_run f x (File (fd_pos x) (fd_flag x) NULL) (set_inodes (<[p := i1]> (inodes s)) s) Hf Hx). done.
Qed.

End file_properties.

(** ** Witnesses *)

(** The file of 600 bytes is open in slot 3, at its start. *)
Definition demo_inode (n : Z) : inode := Inode n 600 1 false (613 :: 614 :: replicate 11 0).
Definition demo_file (i : inode) : fs :=
  set_inodes {[ 4096 := i ]} (set_file_table (<[3%nat := File 0 O_RDONLY 4096]> (replicate 32 (File 0 0 NULL))) demo_open).

Lemma demo_file_layout i : layout (demo_file i).
Proof. destruct demo_layout. by split. Qed.

Lemma demo_file_ok i n : is_u32 n → file_ok (demo_file i) (demo_inode n).
Proof.
  intros Hn. split.
  - split; [done|]. by_decide.
  - done.
  - split; [intros _; vm_compute; lia|done].
  - intros k Hk. change (used (demo_inode n)) with 2%nat in Hk. do 12 (destruct k as [|k]; [first [lia|done]|]). lia.
  - change (owned (drive (demo_file i)) (demo_inode n)) with [613; 614]. unfold own. by_decide.
  - change (owned (drive (demo_file i)) (demo_inode n)) with [613; 614]. by_decide.
Qed.

Lemma file_write_appends_witness : ∃ s' i',
  @file_write debug_build 3 [104; 101; 108; 108; 111] 5 (demo_file (demo_inode 1)) = Ok (5, s') ∧ inodes s' !! 4096 = Some i' ∧ i_size i' = 605.
Proof.
  destruct (@file_write_appends debug_build 3 (File 0 O_RDONLY 4096) (demo_inode 1) (demo_file (demo_inode 1)) [104; 101; 108; 108; 111] 5)
    as (s' & E & _ & Ha & _).
  - apply demo_file_layout.
  - lia.
  - reflexivity.
  - reflexivity.
  - left. by apply demo_file_ok.
  - reflexivity.
  - reflexivity.
  - vm_compute. split; discriminate.
  - reflexivity.
  - vm_compute. lia.
  - reflexivity.
  - reflexivity.
  - destruct (ap_file _ _ _ _ _ _ _ Ha) as (i' & Hi & _ & Hs & _). exists s', i'. split; [exact E|]. split; [exact Hi|exact Hs].
Defined.

Lemma file_read_content_witness : ∃ s',
  @file_read debug_build 3 [7; 7; 7; 7] 3 (demo_file (demo_inode 1)) = Ok ((3, [0; 0; 0; 7]), s').
Proof.
  pose proof (@file_read_content debug_build 3 (File 0 O_RDONLY 4096) (demo_inode 1) (demo_file (demo_inode 1)) [7; 7; 7; 7] 3) as H.
  eexists. etransitivity.
  - apply H.
    + apply demo_file_layout.
    + lia.
    + reflexivity.
    + reflexivity.
    + by apply demo_file_ok.
    + vm_compute. split; discriminate.
    + lia.
    + reflexivity.
    + reflexivity.
    + vm_compute. discriminate.
    + reflexivity.
  - vm_compute. reflexivity.
Defined.

Lemma file_write_limit_witness : @file_write debug_build 3 [] 71080 (demo_file (demo_inode 1)) = Panic.
Proof.
  apply (@file_write_limit debug_build 3 (File 0 O_RDONLY 4096) (demo_inode 1)).
  - apply demo_file_layout.
  - lia.
  - reflexivity.
  - reflexivity.
  - by apply demo_file_ok.
  - lia.
  - vm_compute. split; [discriminate|reflexivity].
  - reflexivity.
  - reflexivity.
  - reflexivity.
Defined.

(** Inode 6 lies across two sectors. *)
Lemma file_write_heap_overflow_witness : @file_write debug_build 3 [104; 105] 2 (demo_file (demo_inode 6)) = Fault.
Proof.
  apply (@file_write_heap_overflow debug_build 3 (File 0 O_RDONLY 4096) (demo_inode 6)).
  - apply demo_file_layout.
  - lia.
  - reflexivity.
  - reflexivity.
  - by apply demo_file_ok.
  - reflexivity.
  - vm_compute. split; discriminate.
  - reflexivity.
  - vm_compute. lia.
  - reflexivity.
  - reflexivity.
Defined.

Lemma first_in_at {A} (P : A → bool) (t : list A) (lo k hi : nat) (y : A) :
  (lo ≤ k < hi)%nat → forallb (λ z, negb (P z)) (take (k - lo) (drop lo t)) = true → t !! k = Some y → P y = true → first_in P t lo hi k.
Proof.
  intros Hk Hall Hy HP. split; [lia|]. split; [|by eauto]. intros j z Hj Hz. rewrite forallb_forall in Hall. apply negb_true_iff, Hall.
  apply list_elem_of_In, (list_elem_of_lookup_2 _ (j - lo)). rewrite lookup_take_lt by lia. rewrite lookup_drop. by replace (lo + (j - lo))%nat with j by lia.
Qed.

Lemma file_open_excludes_witness : ∃ s1, @file_open debug_build 1 O_WRONLY (demo_file (demo_inode 1)) = Ok (3, s1) ∧
  ∃ s2, @file_open debug_build 1 O_RDWR s1 = Ok (-1, s2).
Proof.
  destruct (@file_open_excludes debug_build 1 4096 (demo_inode 1) (demo_file (demo_inode 1)) 4 3 O_WRONLY) as (s1 & E & _).
  - reflexivity.
  - reflexivity.
  - vm_compute. split; [discriminate|reflexivity].
  - reflexivity.
  - reflexivity.
  - by apply (first_in_at _ _ _ _ _ (File 0 0 NULL)); [lia|..].
  - by apply (first_in_at _ _ _ _ _ (-1)); [lia|..].
  - lia.
  - lia.
  - by left.
  - reflexivity.
  - discriminate.
  - exists s1. split; [exact E|]. vm_compute in E. injection E as <-. eexists. vm_compute. reflexivity.
Defined.

Lemma file_close_readmits_witness : ∃ s1 s2,
  file_close (Some 3) (demo_file (set_write_deny true (set_open_cnts 2 (demo_inode 1)))) = Ok (0, s1) ∧ @file_open debug_build 1 O_WRONLY s1 = Ok (3, s2).
Proof.
  apply (@file_close_readmits debug_build 1 3 (File 0 O_RDONLY 4096) (set_write_deny true (set_open_cnts 2 (demo_inode 1))) _ 3 3 O_WRONLY).
  - lia.
  - reflexivity.
  - reflexivity.
  - reflexivity.
  - reflexivity.
  - reflexivity.
  - vm_compute. split; [discriminate|reflexivity].
  - reflexivity.
  - reflexivity.
  - by apply (first_in_at _ _ _ _ _ (File 0 0 NULL)); [lia|..].
  - lia.
  - by apply (first_in_at _ _ _ _ _ (-1)); [lia|..].
  - lia.
  - by left.
Defined.
