(* ===== verification/Dir.v ===== *)
(** * Directories ([fs/dir.c], [lib/dir.h])

    A directory is a file whose blocks hold entries of 24 bytes, 21 to a
    sector.  A [struct dir*] is an address in [dirs]; a [struct dir_entry*] that
    points into a buffer is an index into it.  The theorems relate the four
    operations on entries (search, add, delete, list) to the sequence of live
    entries of the directory. *)

From S2P Require Import Prelude CString Bitmap Disk Inode File.

Definition MAX_FILE_NAME_LEN : Z := 16.
Definition FT_UNKNOWN : Z := 0.
Definition FT_REGULAR : Z := 1.
Definition FT_DIRECTORY : Z := 2.

(** ** Entries *)

Record dir_entry := DirEntry { filename : list Z; de_i_no : Z; f_type : Z }.

(** [sizeof(struct dir_entry)], and the entry as it lies in memory *)
Definition de_size : Z := 24.
Definition de_bytes (e : dir_entry) : list Z := filename e ++ le32 (de_i_no e) ++ le32 (f_type e).
Definition de_of (bs : list Z) : dir_entry :=
  match words_of (drop 16 bs) with
  | i :: t :: _ => DirEntry (take 16 bs) i t
  | _ => DirEntry (take 16 bs) 0 0
  end.

(** The static [root_dir]; no heap block has its address. *)
Definition root_dir : Z := -1.

(** C strings "." and ".." *)
Definition dot : list Z := [46; 0].
Definition dotdot : list Z := [46; 46; 0].

Section dir_ops.
Context {B : Build}.

Definition dir_at (d : Z) : M fs dir := λ s,
  match dirs s !! d with Some x => Ok (x, s) | None => Fault end.
Definition put_dir (d : Z) (x : dir) : M fs unit := mmod (λ s, set_dirs (<[d := x]> (dirs s)) s).

(** ** Opening and closing *)

Definition open_root_dir : M fs unit :=
  let! p := mget cur_part in
  let! q := inode_open (root_inode_no (sb p)) in
  let! m := mget dirs in
  put_dir root_dir (Dir q 0 (default (replicate 512 0) (dir_buf <$> m !! root_dir))).

Definition dir_open (inode_no : Z) : M fs Z :=
  let! pdir := sys_malloc in
  let! q := inode_open inode_no in
  if pdir =? NULL then λ _, Fault else
  do! put_dir pdir (Dir q 0 (replicate 512 0)) in
  mok pdir.

Definition dir_close (d : Z) : M fs unit :=
  if d =? root_dir then mok tt else
  let! x := dir_at d in
  do! inode_close (d_inode x) in
  do! mmod (λ s, set_dirs (delete d (dirs s)) s) in
  sys_free.

(** ** The blocks of a directory *)

(** The 12 direct addresses and, if there is a table, the 128 in it. *)
Definition dir_blocks (q : Z) : M fs (list Z) :=
  let! i := inode_at q in
  let! tbl := mlift (rd (i_sectors i) 12) in
  if negb (tbl =? 0) then load_table tbl (take 12 (i_sectors i))
  else mok (take 12 (i_sectors i) ++ replicate 128 0).

(** The file name, the inode number and the type of the entry at index [k] of a buffer *)
Definition name_at (buf : list Z) (k : Z) : ptr := Some (drop (Z.to_nat (de_size * k)) buf).
Definition word_at (buf : list Z) (off : Z) : res Z :=
  let? w := get_at buf off 4 in
  match words_of w with z :: _ => Ok z | [] => Fault end.
Definition i_no_at (buf : list Z) (k : Z) : res Z := word_at buf (de_size * k + 16).
Definition type_at (buf : list Z) (k : Z) : res Z := word_at buf (de_size * k + 20).

(** ** Search *)

(** The entries of one sector from index [k] on. *)
Fixpoint scan_entries (n : nat) (buf : list Z) (k size : Z) (name : list Z) : res (option (list Z)) :=
  match n with
  | O => Ok None
  | S n' =>
      let? c := strcmp (name_at buf k) (Some name) in
      if c =? 0 then let? e := get_at buf (de_size * k) size in Ok (Some e)
      else scan_entries n' buf (k + 1) size name
  end.

Fixpoint search_blocks (blocks buf : list Z) (size : Z) (name : list Z) : M fs (option (list Z)) :=
  match blocks with
  | [] => mok None
  | b :: blocks' =>
      if b =? 0 then search_blocks blocks' buf size name else
      let! buf := ide_read b buf 0 1 in
      let! r := mlift (scan_entries (Z.to_nat (SECTOR_SIZE / size)) buf 0 size name) in
      match r with
      | Some e => mok (Some e)
      | None =>
          let! buf := mlift (memset (Some buf) 0 SECTOR_SIZE) in
          search_blocks blocks' buf size name
      end
  end.

(** The entry found, [None] for [false]. *)
Definition search_dir_entry (pdir : Z) (name : list Z) : M fs (option dir_entry) :=
  let! all_blocks := malloc_buf 560 in
  match all_blocks with
  | None => mok None
  | Some _ =>
      let! x := dir_at pdir in
      let! all_blocks := dir_blocks (d_inode x) in
      let! buf := malloc_buf 512 in
      match buf with
      | None => λ _, Fault
      | Some buf =>
          let! p := mget cur_part in
          let! r := search_blocks all_blocks buf (dir_entry_size (sb p)) name in
          do! sys_free in
          do! sys_free in
          mok (de_of <$> r)
      end
  end.

(** ** Adding *)

Definition create_dir_entry (fname : list Z) (inode_no file_type : Z) (p_de : dir_entry) : res dir_entry :=
  let? n := strlen (Some fname) in
  check ASSERT (n <=? MAX_FILE_NAME_LEN) in
  let? n := strlen (Some fname) in
  let? f := memcpy (Some (filename p_de)) (Some fname) n in
  Ok (DirEntry f inode_no (u8 file_type)).

(** The first free entry of a sector from index [k] on. *)
Fixpoint find_free (n : nat) (buf : list Z) (k : Z) : res (option Z) :=
  match n with
  | O => Ok None
  | S n' => let? t := type_at buf k in if t =? FT_UNKNOWN then Ok (Some k) else find_free n' buf (k + 1)
  end.

(** [dir_inode->i_size += dir_entry_size] *)
Definition add_size (q size : Z) : M fs unit :=
  let! i := inode_at q in put_inode q (set_i_size (u32 (i_size i + size)) i).

(** The block that is missing at [block_idx]: [None] when there is none left. *)
Definition sync_new_block (q block_idx : Z) (all_blocks : list Z) : M fs (option (list Z)) :=
  let! block_lba := block_bitmap_alloc in
  if block_lba =? -1 then mok None else
  let! p := mget cur_part in
  let block_bitmap_idx := s32 (block_lba - data_start_lba (sb p)) in
  do! mlift (ASSERT (negb (block_bitmap_idx =? -1))) in
  do! bitmap_sync (u32 block_bitmap_idx) BLOCK_BITMAP in
  if block_idx <? 12 then
    do! set_sector q block_idx block_lba in
    let! ab := mlift (wr all_blocks block_idx block_lba) in mok (Some ab)
  else if block_idx =? 12 then
    do! set_sector q 12 block_lba in
    let! block_lba := block_bitmap_alloc in
    if block_lba =? -1 then
      let! tbl := sector_of q 12 in
      do! set_block_bit (u32 (tbl - data_start_lba (sb p))) 0 in
      do! set_sector q 12 0 in
      mok None
    else
      let block_bitmap_idx := s32 (block_lba - data_start_lba (sb p)) in
      do! mlift (ASSERT (negb (block_bitmap_idx =? -1))) in
      do! bitmap_sync (u32 block_bitmap_idx) BLOCK_BITMAP in
      let! ab := mlift (wr all_blocks 12 block_lba) in
      let! tbl := sector_of q 12 in
      do! store_table tbl ab in
      mok (Some ab)
  else
    let! ab := mlift (wr all_blocks block_idx block_lba) in
    let! tbl := sector_of q 12 in
    do! store_table tbl ab in
    mok (Some ab).

Fixpoint sync_loop (n : nat) (q block_idx size : Z) (all_blocks : list Z) (p_de : dir_entry) (io_buf : list Z) : M fs (bool * list Z) :=
  match n with
  | O => mok (false, io_buf)
  | S n' =>
      let! b := mlift (rd all_blocks block_idx) in
      if b =? 0 then
        let! ab := sync_new_block q block_idx all_blocks in
        match ab with
        | None => mok (false, io_buf)
        | Some ab =>
            let! io_buf := mlift (memset (Some io_buf) 0 512) in
            let! e := mlift (get_at (de_bytes p_de) 0 size) in
            let! io_buf := mlift (put_at io_buf 0 e) in
            let! lba := mlift (rd ab block_idx) in
            do! ide_write lba io_buf 0 1 in
            do! add_size q size in
            mok (true, io_buf)
        end
      else
        let! io_buf := ide_read b io_buf 0 1 in
        let! k := mlift (find_free (Z.to_nat (512 / size)) io_buf 0) in
        match k with
        | Some k =>
            let! e := mlift (get_at (de_bytes p_de) 0 size) in
            let! io_buf := mlift (put_at io_buf (de_size * k) e) in
            do! ide_write b io_buf 0 1 in
            do! add_size q size in
            mok (true, io_buf)
        | None => sync_loop n' q (block_idx + 1) size all_blocks p_de io_buf
        end
  end.

(** The direct blocks only: the table is never read. *)
Definition sync_dir_entry (parent_dir : Z) (p_de : dir_entry) (io_buf : list Z) : M fs (bool * list Z) :=
  let! x := dir_at parent_dir in
  let! i := inode_at (d_inode x) in
  let! p := mget cur_part in
  let size := dir_entry_size (sb p) in
  do! mlift (ASSERT (i_size i mod size =? 0)) in
  sync_loop 140 (d_inode x) 0 size (take 12 (i_sectors i) ++ replicate 128 0) p_de io_buf.

(** ** Deleting *)

(** One sector: whether it holds ".", how many other entries, and where the
    entry of [inode_no] is. *)
Fixpoint count_entries (n : nat) (buf : list Z) (k inode_no : Z) (first_block : bool) (cnt : Z) (found : option Z) : res (bool * Z * option Z) :=
  match n with
  | O => Ok (first_block, cnt, found)
  | S n' =>
      let? t := type_at buf k in
      if t =? FT_UNKNOWN then count_entries n' buf (k + 1) inode_no first_block cnt found else
      let? c := strcmp (name_at buf k) (Some dot) in
      if c =? 0 then count_entries n' buf (k + 1) inode_no true cnt found else
      let? c' := strcmp (name_at buf k) (Some dotdot) in
      if c' =? 0 then count_entries n' buf (k + 1) inode_no first_block cnt found else
      let? i := i_no_at buf k in
      if i =? inode_no then
        check ASSERT (negb (bool_decide (is_Some found))) in
        count_entries n' buf (k + 1) inode_no first_block (u8 (cnt + 1)) (Some k)
      else count_entries n' buf (k + 1) inode_no first_block (u8 (cnt + 1)) found
  end.

(** The entry at [k] in [io_buf], the sector at [lba], is the one to delete. *)
Definition delete_found (q block_idx lba k cnt size : Z) (first_block : bool) (io_buf : list Z) : M fs unit :=
  do! mlift (ASSERT (1 <=? cnt)) in
  let! io_buf :=
    (if (cnt =? 1) && negb first_block then
       let! p := mget cur_part in
       let block_bitmap_idx := u32 (lba - data_start_lba (sb p)) in
       do! set_block_bit block_bitmap_idx 0 in
       do! bitmap_sync block_bitmap_idx BLOCK_BITMAP in
       if block_idx <? 12 then do! set_sector q block_idx 0 in mok io_buf
       else λ _, Spin      (* [indirect_block_idx] is never incremented *)
     else
       let! io_buf := mlift (put_at io_buf (de_size * k) (replicate (Z.to_nat size) 0)) in
       do! ide_write lba io_buf 0 1 in
       mok io_buf) in
  let! i := inode_at q in
  do! mlift (ASSERT (size <=? i_size i)) in
  do! put_inode q (set_i_size (u32 (i_size i - size)) i) in
  let! io_buf := mlift (memset (Some io_buf) 0 1024) in
  let! i := inode_at q in
  let! _ := inode_sync i io_buf in
  mok tt.

Fixpoint delete_loop (blocks : list Z) (q block_idx inode_no size : Z) (io_buf : list Z) : M fs bool :=
  match blocks with
  | [] => mok false
  | b :: blocks' =>
      if b =? 0 then delete_loop blocks' q (block_idx + 1) inode_no size io_buf else
      let! io_buf := mlift (memset (Some io_buf) 0 SECTOR_SIZE) in
      let! io_buf := ide_read b io_buf 0 1 in
      let! r := mlift (count_entries (Z.to_nat (SECTOR_SIZE / size)) io_buf 0 inode_no false 0 None) in
      let '(first_block, cnt, found) := r in
      match found with
      | None => delete_loop blocks' q (block_idx + 1) inode_no size io_buf
      | Some k => do! delete_found q block_idx b k cnt size first_block io_buf in mok true
      end
  end.

Definition delete_dir_entry (pdir inode_no : Z) (io_buf : list Z) : M fs bool :=
  let! x := dir_at pdir in
  let! all_blocks := dir_blocks (d_inode x) in
  let! p := mget cur_part in
  delete_loop all_blocks (d_inode x) 0 inode_no (dir_entry_size (sb p)) io_buf.

(** ** Listing *)

(** One sector: the index of the entry to return, or the position reached. *)
Fixpoint read_entries (n : nat) (buf : list Z) (k cur_dir_entry_pos dir_pos size : Z) : res (Z * option Z) :=
  match n with
  | O => Ok (cur_dir_entry_pos, None)
  | S n' =>
      let? t := type_at buf k in
      if negb (t =? 0) then
        if cur_dir_entry_pos <? dir_pos then read_entries n' buf (k + 1) (u32 (cur_dir_entry_pos + size)) dir_pos size
        else check ASSERT (cur_dir_entry_pos =? dir_pos) in Ok (cur_dir_entry_pos, Some k)
      else read_entries n' buf (k + 1) cur_dir_entry_pos dir_pos size
  end.

Fixpoint read_blocks (blocks : list Z) (d cur_dir_entry_pos size : Z) : M fs (option Z) :=
  match blocks with
  | [] => mok None
  | b :: blocks' =>
      let! x := dir_at d in
      let! i := inode_at (d_inode x) in
      if i_size i <=? dir_pos x then mok None else
      if b =? 0 then read_blocks blocks' d cur_dir_entry_pos size else
      let! buf := mlift (memset (Some (dir_buf x)) 0 SECTOR_SIZE) in
      let! buf := ide_read b buf 0 1 in
      do! put_dir d (Dir (d_inode x) (dir_pos x) buf) in
      let! r := mlift (read_entries (Z.to_nat (SECTOR_SIZE / size)) buf 0 cur_dir_entry_pos (dir_pos x) size) in
      match r with
      | (_, Some k) => do! put_dir d (Dir (d_inode x) (u32 (dir_pos x + size)) buf) in mok (Some k)
      | (pos, None) => read_blocks blocks' d pos size
      end
  end.

(** The index of the entry in [dir_buf], [None] for NULL. *)
Definition dir_read (d : Z) : M fs (option Z) :=
  let! x := dir_at d in
  let! i := inode_at (d_inode x) in
  let! tbl := mlift (rd (i_sectors i) 12) in
  let! all_blocks := dir_blocks (d_inode x) in
  let! p := mget cur_part in
  read_blocks (take (if negb (tbl =? 0) then 140 else 12) all_blocks) d 0 (dir_entry_size (sb p)).

Definition dir_is_empty (d : Z) : M fs bool :=
  let! x := dir_at d in
  let! i := inode_at (d_inode x) in
  let! p := mget cur_part in
  mok (i_size i =? u32 (dir_entry_size (sb p) * 2)).

(** ** Removing a directory *)

Fixpoint assert_unused (n : nat) (l : list Z) (block_idx : Z) : res unit :=
  match n with
  | O => Ok tt
  | S n' => let? v := rd l block_idx in check ASSERT (v =? 0) in assert_unused n' l (block_idx + 1)
  end.

Definition dir_remove (parent_dir child_dir : Z) : M fs Z :=
  let! c := dir_at child_dir in
  let! i := inode_at (d_inode c) in
  do! mlift (assert_unused 12 (i_sectors i) 1) in
  let! io_buf := malloc_buf 1024 in
  match io_buf with
  | None => mok (-1)
  | Some io_buf =>
      do! delete_dir_entry parent_dir (i_no i) io_buf in
      do! inode_release (i_no i) in
      do! sys_free in
      mok 0
  end.

End dir_ops.

(** ** What a directory is *)

(** The entry at index [k] of a sector, and all 21. *)
Definition slot_at (sec : list Z) (k : nat) : dir_entry := de_of (take 24 (drop (24 * k) sec)).
Definition slots (sec : list Z) : list dir_entry := slot_at sec <$> seq 0 21.

Definition is_live (e : dir_entry) : Prop := f_type e ≠ FT_UNKNOWN.
#[global] Instance is_live_dec e : Decision (is_live e).
Proof. unfold is_live. apply _. Defined.

(** The characters in front of the first NUL. *)
Fixpoint cname (l : list Z) : list Z :=
  match l with [] => [] | b :: l' => if b =? 0 then [] else b :: cname l' end.
Definition de_name (e : dir_entry) : list Z := cname (filename e).

(** The entries in the block at an address, 0 meaning no block, and the live
    entries of the directory in the order of its blocks. *)
Definition pos_slots (d : disk) (b : Z) : list dir_entry := if b =? 0 then [] else slots (sector d b).
Definition dir_slots (d : disk) (i : inode) : list dir_entry := concat (pos_slots d <$> take 12 (i_sectors i)).
Definition entries (d : disk) (i : inode) : list dir_entry := filter is_live (dir_slots d i).

(** An entry is free and has no name, or is live and has a name of at most 15 characters. *)
Definition slot_ok (e : dir_entry) : Prop :=
  cstr (filename e) (de_name e) ∧ (is_live e ↔ de_name e ≠ []).

(** A block of the partition that is taken; block 0 of the data is the root's. *)
Definition taken (s : fs) (b : Z) : Prop :=
  data_lba s ≤ b < data_lba s + bit_cnt (bb s) ∧ b ≤ max_lba ∧ bit (bb s) (b - data_lba s) = true.

Notation dir_sectors i := (filter (λ b, b ≠ 0) (take 12 (i_sectors i))).

(** A directory in direct blocks. *)
Record dir_ok (s : fs) (i : inode) : Prop := {
  dk_inode : inode_ok i;
  dk_tbl : tbl_of i = 0;
  dk_taken : Forall (taken s) (dir_sectors i);
  dk_nodup : NoDup (dir_sectors i);
  dk_slots : Forall slot_ok (dir_slots (drive s) i);
  dk_size : i_size i = 24 * Z.of_nat (length (entries (drive s) i));
}.

(** ** Lemmas *)

Section dir_lemmas.
Context {B : Build}.

Lemma cname_cstr l n : cstr l n → cname l = n.
Proof.
  intros [Hn [r ->]]. induction Hn as [|c n Hc _ IH]; [done|]. simpl. unfold is_char in Hc. rewrite (proj2 (Z.eqb_neq c 0)) by lia. by rewrite IH.
Qed.

Lemma cstr_prefix m l n : cstr (take m l) n → cstr l n.
Proof.
  intros [Hn [r Hr]]. split; [done|]. exists (r ++ drop m l). rewrite <-(take_drop m l) at 1. rewrite Hr. by rewrite <-app_assoc.
Qed.

Lemma words_two l : length l = 8%nat → ∃ a b, words_of l = [a; b].
Proof. intros H. do 8 (destruct l as [|? l]; [simpl in H; lia|]). destruct l; [|simpl in H; lia]. simpl. eauto. Qed.

Lemma slot_filename sec k : filename (slot_at sec k) = take 16 (drop (24 * k) sec).
Proof.
  unfold slot_at, de_of. assert (Ht : take 16 (take 24 (drop (24 * k) sec)) = take 16 (drop (24 * k) sec)) by (rewrite take_take; f_equal).
  destruct (words_of _) as [|? [|? ?]]; exact Ht.
Qed.

Lemma slot_words sec k : (512 ≤ length sec)%nat → (k < 21)%nat →
  words_of (take 8 (drop (24 * k + 16) sec)) = [de_i_no (slot_at sec k); f_type (slot_at sec k)].
Proof.
  intros Hl Hk. unfold slot_at, de_of. rewrite skipn_firstn_comm, drop_drop. change (24 - 16)%nat with 8%nat.
  destruct (words_two (take 8 (drop (24 * k + 16) sec))) as (a & b & E); [rewrite length_take, length_drop; lia|]. by rewrite E.
Qed.

Lemma word_at_run buf off a : length (take 4 (drop (Z.to_nat off) buf)) = 4%nat → 0 ≤ off → words_of (take 4 (drop (Z.to_nat off) buf)) = [a] → word_at buf off = Ok a.
Proof.
  intros Hl H0 Hw. unfold word_at. rewrite length_take, length_drop in Hl. rewrite get_at_Ok by lia. cbn [rbind]. change (Z.to_nat 4) with 4%nat. by rewrite Hw.
Qed.

Lemma words_split l a b : length l = 8%nat → words_of l = [a; b] → words_of (take 4 l) = [a] ∧ words_of (take 4 (drop 4 l)) = [b].
Proof. intros H. do 8 (destruct l as [|? l]; [simpl in H; lia|]). destruct l; [|simpl in H; lia]. simpl. by intros [= -> ->]. Qed.

Lemma entry_words sec k : (512 ≤ length sec)%nat → (k < 21)%nat →
  i_no_at sec (Z.of_nat k) = Ok (de_i_no (slot_at sec k)) ∧ type_at sec (Z.of_nat k) = Ok (f_type (slot_at sec k)).
Proof.
  intros Hl Hk. pose proof (slot_words sec k Hl Hk) as Hw. apply words_split in Hw as [H1 H2]; [|rewrite length_take, length_drop; lia].
  rewrite take_take in H1. rewrite skipn_firstn_comm, take_take, drop_drop in H2. unfold i_no_at, type_at, de_size. split.
  - apply word_at_run; [rewrite length_take, length_drop; lia|lia|]. by replace (Z.to_nat (24 * Z.of_nat k + 16)) with (24 * k + 16)%nat by lia.
  - apply word_at_run; [rewrite length_take, length_drop; lia|lia|]. by replace (Z.to_nat (24 * Z.of_nat k + 20)) with (24 * k + 16 + 4)%nat by lia.
Qed.

Lemma slots_length sec : length (slots sec) = 21%nat.
Proof. unfold slots. by rewrite length_fmap, length_seq. Qed.

Lemma slots_lookup sec k : (k < 21)%nat → slots sec !! k = Some (slot_at sec k).
Proof. intros Hk. unfold slots. rewrite list_lookup_fmap, lookup_seq_lt by done. done. Qed.

Lemma slots_from sec k : (k < 21)%nat → drop k (slots sec) = slot_at sec k :: drop (S k) (slots sec).
Proof. intros Hk. apply drop_S. by apply slots_lookup. Qed.

(** The name of an entry compared with a string. *)
Lemma name_cmp sec k name n : slot_ok (slot_at sec k) → cstr name n →
  ∃ c, strcmp (name_at sec (Z.of_nat k)) (Some name) = Ok c ∧ (c = 0 ↔ de_name (slot_at sec k) = n).
Proof.
  intros [Hc _] Hn. rewrite slot_filename in Hc. apply cstr_prefix in Hc. unfold name_at, de_size. replace (Z.to_nat (24 * Z.of_nat k)) with (24 * k)%nat by lia. by apply strcmp_cstr.
Qed.

Definition named (n : list Z) (e : dir_entry) : bool := bool_decide (de_name e = n).

Lemma find_app {A} (P : A → bool) l1 l2 : find P (l1 ++ l2) = match find P l1 with Some x => Some x | None => find P l2 end.
Proof. induction l1 as [|x l1 IH]; [done|]. simpl. by destruct (P x). Qed.

Lemma find_filter {A} (P : A → bool) (Q : A → Prop) `{!∀ x, Decision (Q x)} l : (∀ x, x ∈ l → P x = true → Q x) → find P (filter Q l) = find P l.
Proof.
  induction l as [|x l IH]; intros Hx; [done|]. rewrite filter_cons. destruct (decide (Q x)) as [HQ|HQ]; simpl.
  - destruct (P x); [done|]. apply IH. intros y Hy. apply Hx. by right.
  - destruct (P x) eqn:E; [exfalso; apply HQ, Hx; [by left|done]|]. apply IH. intros y Hy. apply Hx. by right.
Qed.

Lemma scan_run m sec k name n :
  length sec = 512%nat → (k + m = 21)%nat → Forall slot_ok (drop k (slots sec)) → cstr name n →
  ∃ r, scan_entries m sec (Z.of_nat k) 24 name = Ok r ∧ de_of <$> r = find (named n) (drop k (slots sec)).
Proof.
  revert k. induction m as [|m IH]; intros k Hl Hk Hok Hn.
  { exists None. split; [done|]. by rewrite drop_ge by (rewrite slots_length; lia). }
  rewrite slots_from in Hok |- * by lia. apply Forall_cons in Hok as [Hok Hoks]. cbn [scan_entries].
  destruct (name_cmp sec k name n Hok Hn) as (c & -> & Hc). cbn [rbind find]. unfold named at 1. case_bool_decide as Hb.
  - rewrite (proj2 (Z.eqb_eq c 0)) by (by apply Hc). unfold de_size. rewrite get_at_Ok by lia. eexists. split; [done|]. cbn.
    by replace (Z.to_nat (24 * Z.of_nat k)) with (24 * k)%nat by lia.
  - rewrite (proj2 (Z.eqb_neq c 0)) by (by rewrite Hc). replace (Z.of_nat k + 1) with (Z.of_nat (S k)) by lia. apply IH; try done. lia.
Qed.

Lemma read_sector_run b io s :
  disk_ok (drive s) → b ≤ max_lba → (512 ≤ length io)%nat → ide_read b io 0 1 s = Ok (sector (drive s) b ++ drop 512 io, s).
Proof.
  intros Hd Hb Hio. rewrite ide_read_run by (done || lia). rewrite disk_read_1. unfold splice. change (Z.to_nat 0) with 0%nat. rewrite take_0. cbn [app]. rewrite sector_length by done. done.
Qed.

Lemma search_blocks_run blocks io name n s :
  disk_ok (drive s) → Forall (λ b, b ≤ max_lba) blocks → length io = 512%nat → Forall slot_ok (concat (pos_slots (drive s) <$> blocks)) → cstr name n →
  ∃ r, search_blocks blocks io 24 name s = Ok (r, s) ∧ de_of <$> r = find (named n) (concat (pos_slots (drive s) <$> blocks)).
Proof.
  intros Hd. revert io. induction blocks as [|b blocks IH]; intros io Hm Hio Hok Hn; [by exists None|].
  apply Forall_cons in Hm as [Hb Hm]. cbn [search_blocks]. rewrite fmap_cons in *. cbn [concat] in *. apply Forall_app in Hok as [Hok1 Hok2].
  unfold pos_slots at 1 in Hok1. unfold pos_slots at 1. destruct (Z.eqb_spec b 0) as [->|Hb0]; [by apply IH|].
  mstep (read_sector_run b io s Hd Hb ltac:(lia)). rewrite (drop_ge io) by lia. rewrite app_nil_r.
  pose proof (sector_length (drive s) b Hd) as Hsl.
  destruct (scan_run 21 (sector (drive s) b) 0 name n Hsl eq_refl Hok1 Hn) as (r & E & Hr).
  mstep (mlift_Ok _ s _ E). rewrite find_app. change (drop 0 (slots (sector (drive s) b))) with (slots (sector (drive s) b)) in Hr. rewrite <-Hr. destruct r as [e|].
  - by exists (Some e).
  - mstep (mlift_Ok _ s _ (memset_block _ Hsl)). by apply IH.
Qed.

Lemma dir_at_run d x s : dirs s !! d = Some x → dir_at d s = Ok (x, s).
Proof. unfold dir_at. by intros ->. Qed.

(** The addresses of a directory without a table. *)
Lemma dir_blocks_run q i s : inodes s !! q = Some i → length (i_sectors i) = 13%nat → tbl_of i = 0 →
  dir_blocks q s = Ok (take 12 (i_sectors i) ++ replicate 128 0, s).
Proof.
  intros Hi Hl Ht. unfold dir_blocks. mstep (inode_at_run q i s Hi). mstep (mlift_Ok _ s _ (rd_lookup (i_sectors i) 12 0 ltac:(lia) ltac:(rewrite <-Ht; apply (tbl_lookup i Hl)))). done.
Qed.

Lemma pos_slots_zeros d n : concat (pos_slots d <$> replicate n 0) = [].
Proof. induction n as [|n IH]; [done|]. cbn. exact IH. Qed.

Lemma blocks_max s i : dir_ok s i → Forall (λ b, b ≤ max_lba) (take 12 (i_sectors i) ++ replicate 128 0).
Proof.
  intros Hok. apply Forall_app. split; [|apply Forall_replicate; unfold max_lba; lia]. pose proof (dk_taken s i Hok) as Ht. rewrite Forall_forall in Ht.
  apply Forall_forall. intros b Hb. destruct (decide (b = 0)) as [->|Hb0]; [unfold max_lba; lia|]. apply Ht. by apply list_elem_of_filter.
Qed.

Lemma live_named s i n e : dir_ok s i → n ≠ [] → e ∈ dir_slots (drive s) i → named n e = true → is_live e.
Proof.
  intros Hok Hn He Hnm. pose proof (dk_slots s i Hok) as Hs. rewrite Forall_forall in Hs. apply (Hs e He). apply bool_decide_eq_true in Hnm. congruence.
Qed.

(** *** Changing one block of a directory *)

Lemma insert_middle {A} (l1 l2 : list A) (x y : A) (n : nat) : n = length l1 → <[n := x]> (l1 ++ y :: l2) = l1 ++ x :: l2.
Proof. intros ->. induction l1 as [|z l1 IH]; [done|]. simpl. by rewrite IH. Qed.

Lemma concat_split {A C} (f : A → list C) l1 b l2 : concat (f <$> l1 ++ b :: l2) = concat (f <$> l1) ++ f b ++ concat (f <$> l2).
Proof. by rewrite fmap_app, fmap_cons, concat_app. Qed.

Lemma pos_slots_ext d d' l : (∀ x, x ∈ l → x ≠ 0 → sector d' x = sector d x) → concat (pos_slots d' <$> l) = concat (pos_slots d <$> l).
Proof.
  intros H. f_equal. apply list_fmap_ext. intros k x Hx. apply list_elem_of_lookup_2 in Hx. unfold pos_slots. destruct (Z.eqb_spec x 0); [done|]. by rewrite H.
Qed.

Lemma dir_update s s' i i' l1 b b' l2 :
  dir_ok s i → take 12 (i_sectors i) = l1 ++ b :: l2 → take 12 (i_sectors i') = l1 ++ b' :: l2 → inode_ok i' → tbl_of i' = 0 →
  (∀ x, x ∈ l1 ++ l2 → x ≠ 0 → sector (drive s') x = sector (drive s) x ∧ taken s' x) →
  (b' ≠ 0 → taken s' b' ∧ (b' ∉ l1 ++ l2)) → Forall slot_ok (pos_slots (drive s') b') →
  i_size i' = i_size i + 24 * (Z.of_nat (length (filter is_live (pos_slots (drive s') b'))) - Z.of_nat (length (filter is_live (pos_slots (drive s) b)))) →
  dir_ok s' i' ∧ ∃ E1 E2, entries (drive s) i = E1 ++ filter is_live (pos_slots (drive s) b) ++ E2 ∧
    entries (drive s') i' = E1 ++ filter is_live (pos_slots (drive s') b') ++ E2.
Proof.
  intros [_ _ Htk Hnd Hsl Hsz] Hi Hi' Hok' Ht' Hsec Hb' Hsl' Hsz'. unfold entries, dir_slots in *. rewrite Hi in *. rewrite concat_split in *. rewrite !filter_app in *.
  assert (He1 : concat (pos_slots (drive s') <$> l1) = concat (pos_slots (drive s) <$> l1)) by (apply pos_slots_ext; intros x Hx H0; apply Hsec; [set_solver|done]).
  assert (He2 : concat (pos_slots (drive s') <$> l2) = concat (pos_slots (drive s) <$> l2)) by (apply pos_slots_ext; intros x Hx H0; apply Hsec; [set_solver|done]).
  assert (Hent : filter is_live (concat (pos_slots (drive s') <$> take 12 (i_sectors i'))) = filter is_live (concat (pos_slots (drive s) <$> l1)) ++
    filter is_live (pos_slots (drive s') b') ++ filter is_live (concat (pos_slots (drive s) <$> l2))) by (rewrite Hi', concat_split, !filter_app, He1, He2; done).
  split.
  - assert (Hd : NoDup (filter (λ b, b ≠ 0) l1 ++ filter (λ b, b ≠ 0) l2)).
    { rewrite filter_cons in Hnd. destruct (decide (b ≠ 0)); [|done]. apply NoDup_app in Hnd as (H1 & H2 & H3). apply NoDup_cons in H3 as [_ H3]. apply NoDup_app. set_solver. }
    split; try done.
    + rewrite Hi', filter_app, filter_cons. apply Forall_forall. intros y Hy. apply elem_of_app in Hy as [Hy|Hy].
      * apply list_elem_of_filter in Hy as [H0 Hy]. apply Hsec; set_solver.
      * destruct (decide (b' ≠ 0)) as [Hne|]; [apply elem_of_cons in Hy as [->|Hy]; [by apply Hb'|]|]; apply list_elem_of_filter in Hy as [H0 Hy]; apply Hsec; set_solver.
    + rewrite Hi', filter_app, filter_cons. destruct (decide (b' ≠ 0)) as [Hne|]; [|done]. rewrite <-Permutation_middle. apply NoDup_cons. split; [|done].
      intros Hin. apply (proj2 (Hb' Hne)). rewrite <-filter_app in Hin. by apply list_elem_of_filter in Hin as [_ ?].
    + unfold dir_slots. rewrite Hi', concat_split, He1, He2. apply Forall_app in Hsl as [H1 H2]. apply Forall_app in H2 as [_ H2]. by rewrite !Forall_app.
    + unfold entries, dir_slots. rewrite Hent, Hsz', Hsz. rewrite !length_app. lia.
  - by exists (filter is_live (concat (pos_slots (drive s) <$> l1))), (filter is_live (concat (pos_slots (drive s) <$> l2))).
Qed.

(** *** One entry of a sector *)

(** An entry that can be stored. *)
Definition entry_ok (e : dir_entry) : Prop := length (filename e) = 16%nat ∧ is_u32 (de_i_no e) ∧ is_u32 (f_type e) ∧ slot_ok e.

Lemma de_bytes_length e : entry_ok e → length (de_bytes e) = 24%nat.
Proof. intros (H & _). unfold de_bytes. rewrite !length_app, H. done. Qed.

Lemma de_of_bytes e : entry_ok e → de_of (de_bytes e) = e.
Proof.
  intros (H & Hi & Ht & _). unfold de_of, de_bytes. rewrite drop_app_length' by done. rewrite take_app_length' by done.
  change (le32 (de_i_no e) ++ le32 (f_type e)) with (bytes_of [de_i_no e; f_type e]). rewrite words_of_bytes_of by (apply Forall_cons; split; [done|by apply Forall_singleton]). by destruct e.
Qed.

Lemma slot_at_app sec r k : length sec = 512%nat → (k < 21)%nat → slot_at (sec ++ r) k = slot_at sec k.
Proof. intros Hl Hk. unfold slot_at. rewrite drop_app_le by lia. by rewrite take_app_le by (rewrite length_drop; lia). Qed.

Lemma slots_splice sec k bytes : length sec = 512%nat → (k < 21)%nat → length bytes = 24%nat →
  slots (splice (24 * k) bytes sec) = <[k := de_of bytes]> (slots sec).
Proof.
  intros Hl Hk Hb. apply list_eq. intros j. destruct (decide (j < 21)%nat) as [Hj|Hj].
  - rewrite slots_lookup by done. destruct (decide (j = k)) as [->|Hne].
    + rewrite list_lookup_insert_eq by (rewrite slots_length; lia). f_equal. unfold slot_at. f_equal. rewrite <-Hb at 1. apply splice_read. lia.
    + rewrite list_lookup_insert_ne, slots_lookup by done. f_equal. unfold slot_at. f_equal. apply splice_other; lia.
  - rewrite !lookup_ge_None_2; [done|rewrite length_insert|]; unfold slots; rewrite length_fmap, length_seq; lia.
Qed.

Lemma find_free_run m io sec k :
  length sec = 512%nat → (∃ r, io = sec ++ r) → (k + m = 21)%nat →
  (∃ j, (k ≤ j < 21)%nat ∧ find_free m io (Z.of_nat k) = Ok (Some (Z.of_nat j)) ∧ ¬ is_live (slot_at sec j)) ∨
  find_free m io (Z.of_nat k) = Ok None ∧ Forall is_live (drop k (slots sec)).
Proof.
  intros Hl [r ->]. revert k. induction m as [|m IH]; intros k Hk.
  { right. split; [done|]. rewrite drop_ge by (rewrite slots_length; lia). constructor. }
  cbn [find_free]. destruct (entry_words (sec ++ r) k) as [_ ->]; [rewrite length_app; lia|lia|]. cbn [rbind]. rewrite slot_at_app by (done || lia).
  destruct (Z.eqb_spec (f_type (slot_at sec k)) FT_UNKNOWN) as [E|E].
  - left. exists k. split; [lia|]. split; [done|]. intros Hlv. by apply Hlv.
  - replace (Z.of_nat k + 1) with (Z.of_nat (S k)) by lia. destruct (IH (S k)) as [(j & Hj & Ej & Hd)|[En Ha]]; [lia| |].
    + left. exists j. split; [lia|done].
    + right. split; [done|]. rewrite slots_from by lia. by constructor.
Qed.

(** A free entry becomes a live one. *)
Lemma filter_insert {A} (P : A → Prop) `{!∀ x, Decision (P x)} l k x y :
  l !! k = Some y → ¬ P y → P x → filter P (<[k := x]> l) ≡ₚ x :: filter P l.
Proof.
  intros Hy Hn Hx. rewrite <-(take_drop_middle l k y Hy) at 1. rewrite insert_middle by (apply lookup_lt_Some in Hy; rewrite length_take; lia).
  rewrite <-(take_drop_middle l k y Hy) at 3. rewrite !filter_app, !filter_cons, decide_True, decide_False by done. by rewrite Permutation_middle.
Qed.

Lemma memset_run io n : (n ≤ length io)%nat → memset (Some io) 0 (Z.of_nat n) = Ok (replicate n 0 ++ drop n io).
Proof. intros H. unfold memset. rewrite ASSERT_true by done. cbn [rbind]. rewrite Nat2Z.id, mem_Some, set_loop_run by done. done. Qed.

Lemma write_sector_run b io s : b ≤ max_lba → (512 ≤ length io)%nat → ide_write b io 0 1 s = Ok (tt, set_drive (<[b := take 512 io]> (drive s)) s).
Proof. intros Hb Hio. rewrite ide_write_run by (done || lia). cbn [disk_write]. change (Z.to_nat 0) with 0%nat. by rewrite drop_0, take_take. Qed.

Lemma splice_app_l off bytes sec r : (off + length bytes ≤ length sec)%nat → splice off bytes (sec ++ r) = splice off bytes sec ++ r.
Proof. intros H. unfold splice. rewrite take_app_le, drop_app_le by lia. by rewrite <-!app_assoc. Qed.

(** *** The state around a changed directory *)

Lemma frame_id m d s : set_inodes m (set_drive d s) = set_drive d (set_inodes m (with_blocks (bb s) s)).
Proof. by destruct s as [? []]. Qed.

Record dir_changed (q : Z) (i i' : inode) (s s' : fs) : Prop := {
  dc_inode : inodes s' !! q = Some i' ∧ i_no i' = i_no i ∧ i_open_cnts i' = i_open_cnts i ∧ write_deny i' = write_deny i;
  dc_frame : ∃ d b m, s' = set_drive d (set_inodes m (with_blocks b s));
  dc_sub : ∀ b, b ∈ dir_sectors i' → b ∈ dir_sectors i ∨ ¬ taken s b;
  dc_ok : dir_ok s' i';
  dc_inodes : ∀ p, p ≠ q → inodes s' !! p = inodes s !! p;
  dc_blocks : ∀ b, taken s b → b ∉ dir_sectors i → taken s' b ∧ sector (drive s') b = sector (drive s) b;
  dc_layout : layout s';
  dc_dirs : dirs s' = dirs s ∧ file_table s' = file_table s ∧ fd_table s' = fd_table s;
  dc_heap : brk s' = brk s ∧ oom s' = oom s ∧ live s' = live s;
  dc_taken : ∀ b, taken s' b ↔ b ∈ dir_sectors i' ∨ taken s b ∧ b ∉ dir_sectors i;
}.

Lemma taken_split s i b : dir_ok s i → taken s b ↔ b ∈ dir_sectors i ∨ taken s b ∧ b ∉ dir_sectors i.
Proof.
  intros H. destruct (decide (b ∈ dir_sectors i)) as [Hb|Hb]; [|tauto]. split; [by left|]. intros _. pose proof (dk_taken s i H) as Ht. rewrite Forall_forall in Ht. by apply Ht.
Qed.

Lemma pos_slots_length d l : (length (concat (pos_slots d <$> l)) ≤ 21 * length l)%nat.
Proof.
  induction l as [|b l IH]; [done|]. rewrite fmap_cons. cbn [concat length]. rewrite length_app.
  assert (length (pos_slots d b) ≤ 21)%nat by (unfold pos_slots; destruct (b =? 0); cbn [length]; [lia|]; unfold slots; rewrite length_fmap, length_seq; lia). lia.
Qed.

Lemma dir_size_bound s i : dir_ok s i → 0 ≤ i_size i ≤ 6048.
Proof.
  intros Hok. rewrite (dk_size s i Hok). unfold entries. pose proof (pos_slots_length (drive s) (take 12 (i_sectors i))) as H. fold (dir_slots (drive s) i) in H.
  pose proof (length_filter is_live (dir_slots (drive s) i)). rewrite length_take in H. lia.
Qed.

Lemma taken_grown p new s s' b : grown p new s s' → taken s b → taken s' b ∧ (b ∉ new).
Proof.
  intros Hg (H1 & H2 & H3). pose proof (grown_data _ _ _ _ Hg) as Ed. destruct Hg as [_ Hb Hc Hn _ _ _ _]. unfold taken. rewrite Ed, Hc. split.
  - split_and!; try done; try lia. rewrite Hb by lia. by case_decide.
  - intros Hin. rewrite Forall_forall in Hn. destruct (Hn b Hin) as (_ & _ & Hf). congruence.
Qed.

Lemma taken_new p lba s s' b : grown p [lba] s s' → taken s' b ↔ taken s b ∨ b = lba.
Proof.
  intros Hg. split; [|intros [Hb| ->]; [by destruct (taken_grown _ _ _ _ _ Hg Hb)|]].
  - unfold taken. rewrite (grown_data _ _ _ _ Hg). intros (H1 & H2 & H3). rewrite (gr_cnt _ _ _ _ Hg) in H1. rewrite (gr_bits _ _ _ _ Hg) in H3 by lia.
    case_decide as Hd; [right; apply list_elem_of_singleton in Hd; lia|left; exact (conj H1 (conj H2 H3))].
  - pose proof (gr_new _ _ _ _ Hg) as Hn. apply Forall_singleton in Hn as (Hr & Hm & _). unfold taken. rewrite (grown_data _ _ _ _ Hg), (gr_cnt _ _ _ _ Hg), (gr_bits _ _ _ _ Hg) by lia.
    split_and!; try done; try lia. rewrite decide_True; [done|]. apply list_elem_of_singleton. lia.
Qed.

Lemma taken_own s b : own s b → taken s b.
Proof. intros ([? ?] & ? & ?). unfold taken. split_and!; done || lia. Qed.

Lemma taken_range s b : layout s → taken s b → inode_bitmap_lba (sb (cur_part s)) ≤ b ∧ table_lba s + 608 ≤ b ∧ 0 < b.
Proof. intros [] [H _]. unfold data_lba, table_lba in *. lia. Qed.

Lemma sector_taken s i b : dir_ok s i → b ∈ take 12 (i_sectors i) → b ≠ 0 → taken s b.
Proof. intros Hok Hb H0. pose proof (dk_taken s i Hok) as H. rewrite Forall_forall in H. apply H. by apply list_elem_of_filter. Qed.

Lemma dir_other s i l1 b l2 : dir_ok s i → take 12 (i_sectors i) = l1 ++ b :: l2 → b ≠ 0 → b ∉ l1 ++ l2.
Proof.
  intros Hok E H0 Hin. pose proof (dk_nodup s i Hok) as Hnd. rewrite E, filter_app, filter_cons, decide_True, <-Permutation_middle in Hnd by done.
  apply NoDup_cons in Hnd as [Hn _]. apply Hn. rewrite <-filter_app. by apply list_elem_of_filter.
Qed.

Lemma slots_ok_sector s i l1 b l2 : dir_ok s i → take 12 (i_sectors i) = l1 ++ b :: l2 → Forall slot_ok (pos_slots (drive s) b).
Proof.
  intros Hok E. pose proof (dk_slots s i Hok) as H. unfold dir_slots in H. rewrite E, concat_split in H. apply Forall_app in H as [_ H]. by apply Forall_app in H as [H _].
Qed.

Lemma layout_disk s b data m : layout s → length data = 512%nat → layout (set_inodes m (set_drive (<[b := data]> (drive s)) s)).
Proof. intros Hl Hd. assert (layout (set_drive (<[b := data]> (drive s)) s)) as [] by (apply layout_set_drive; [done|apply disk_ok_insert; [apply Hl|done]]). by split. Qed.

(** The entry goes into a free place of a block. *)
Lemma add_in_block q i e s l1 b l2 j :
  layout s → inodes s !! q = Some i → dir_ok s i → take 12 (i_sectors i) = l1 ++ b :: l2 → b ≠ 0 → (j < 21)%nat → ¬ is_live (slot_at (sector (drive s) b) j) →
  entry_ok e → is_live e →
  let i' := set_i_size (i_size i + 24) i in
  let s' := set_inodes (<[q := i']> (inodes s)) (set_drive (<[b := splice (24 * j) (de_bytes e) (sector (drive s) b)]> (drive s)) s) in
  dir_changed q i i' s s' ∧ (entries (drive s') i' ≡ₚ e :: entries (drive s) i).
Proof.
  intros Hl Hi Hok Hsp Hb Hj Hdead He Hlive i' s'. pose proof (sector_length (drive s) b (ly_disk s Hl)) as Hsl. pose proof (de_bytes_length e He) as Hbl.
  pose proof (dir_other s i l1 b l2 Hok Hsp Hb) as Hnin. assert (Htb : taken s b) by (apply (sector_taken s i b Hok); [rewrite Hsp; set_solver|done]).
  assert (Hnew : pos_slots (drive s') b = <[j := e]> (pos_slots (drive s) b)).
  { unfold pos_slots. rewrite (proj2 (Z.eqb_neq b 0)) by done. cbn [drive s' set_inodes set_drive]. rewrite sector_insert, decide_True by done.
    rewrite slots_splice by done. by rewrite de_of_bytes. }
  assert (Hold : pos_slots (drive s) b !! j = Some (slot_at (sector (drive s) b) j)) by (unfold pos_slots; rewrite (proj2 (Z.eqb_neq b 0)) by done; by apply slots_lookup).
  pose proof (filter_insert is_live _ _ e _ Hold Hdead Hlive) as Hperm. rewrite <-Hnew in Hperm.
  destruct (dir_update s s' i i' l1 b b l2 Hok Hsp) as [Hok' (E1 & E2 & Hen & Hen')].
  - exact Hsp.
  - pose proof (dir_size_bound s i Hok). destruct (dk_inode s i Hok) as (? & ? & ? & ?). split_and!; try done. cbn. unfold is_u32. lia.
  - apply (dk_tbl s i Hok).
  - intros x Hx H0. split; [|apply (sector_taken s i x Hok); [rewrite Hsp; set_solver|done]]. cbn. rewrite sector_insert, decide_False; [done|]. by intros ->.
  - intros _. split; [exact Htb|done].
  - rewrite Hnew. apply Forall_insert; [by apply (slots_ok_sector s i l1 b l2)|apply He].
  - rewrite Hperm. simpl. lia.
  - split.
    + split; try done.
      * cbn. by rewrite lookup_insert_eq.
      * eexists _, _, _. apply frame_id.
      * intros y Hy. by left.
      * intros p Hp. cbn. by rewrite lookup_insert_ne.
      * intros x Hx Hn. split; [exact Hx|]. cbn. rewrite sector_insert, decide_False; [done|]. intros <-. apply Hn. rewrite Hsp. apply list_elem_of_filter. split; [done|set_solver].
      * apply layout_disk; [done|]. rewrite splice_length; lia.
      * intros y. exact (taken_split s i y Hok).
    + rewrite Hen', Hen, Hperm. simpl. symmetry. apply Permutation_middle.
Qed.

(** The entry gets a block of its own. *)
Lemma add_new_block q i e s l1 l2 lba s2 :
  layout s → inodes s !! q = Some i → dir_ok s i → take 12 (i_sectors i) = l1 ++ 0 :: l2 → grown q [lba] s s2 → inodes s2 = inodes s →
  entry_ok e → is_live e →
  let i' := set_i_size (i_size i + 24) (set_i_sectors (<[length l1 := lba]> (i_sectors i)) i) in
  let s' := set_inodes (<[q := i']> (inodes s)) (set_drive (<[lba := splice 0 (de_bytes e) (replicate 512 0)]> (drive s2)) s2) in
  dir_changed q i i' s s' ∧ (entries (drive s') i' ≡ₚ e :: entries (drive s) i).
Proof.
  intros Hl Hi Hok Hsp Hg Hi2 He Hlive i' s'. pose proof (de_bytes_length e He) as Hbl. destruct (dk_inode s i Hok) as (Hk1 & Hk2 & Hk3 & Hk4).
  assert (Hl12 : length (l1 ++ 0 :: l2) = 12%nat) by (rewrite <-Hsp, length_take; lia). rewrite length_app in Hl12. simpl in Hl12.
  assert (Hlo : own s2 lba) by (eapply own_new; [exact Hg|by left]). pose proof (own_data s2 lba (gr_layout _ _ _ _ Hg) Hlo) as (_ & _ & Hpos).
  assert (Hsp' : take 12 (i_sectors i') = l1 ++ lba :: l2) by (cbn; rewrite take_insert_lt by lia; rewrite Hsp; by apply insert_middle).
  assert (Hold : ∀ x, taken s x → taken s' x ∧ sector (drive s') x = sector (drive s) x).
  { intros x Hx. destruct (taken_grown _ _ _ _ _ Hg Hx) as [Hx2 Hn]. split; [exact Hx2|]. cbn. rewrite sector_insert, decide_False by set_solver.
    apply (gr_disk _ _ _ _ Hg). by apply taken_range. }
  assert (Hnew : pos_slots (drive s') lba = e :: replicate 20 (DirEntry (replicate 16 0) 0 0)).
  { unfold pos_slots. rewrite (proj2 (Z.eqb_neq lba 0)) by lia. cbn [drive s' set_inodes set_drive]. rewrite sector_insert, decide_True by done.
    rewrite (slots_splice (replicate 512 0) 0) by (done || lia). rewrite de_of_bytes by done. done. }
  assert (Hdead : ¬ is_live (DirEntry (replicate 16 0) 0 0)) by (intros H; by apply H).
  assert (Hf : filter is_live (pos_slots (drive s') lba) = [e]).
  { rewrite Hnew, filter_cons, decide_True by done. done. }
  destruct (dir_update s s' i i' l1 0 lba l2 Hok Hsp Hsp') as [Hok' (E1 & E2 & Hen & Hen')].
  - pose proof (dir_size_bound s i Hok). split_and!; try done; [cbn; unfold is_u32; lia|cbn; by rewrite length_insert|].
    apply Forall_insert; [done|]. by apply (own_u32 s2); [apply Hg|].
  - pose proof (dk_tbl s i Hok) as Ht. unfold tbl_of in *. cbn. rewrite !nth_lookup in *. rewrite list_lookup_insert_ne by lia. exact Ht.
  - intros x Hx H0. destruct (Hold x); [apply (sector_taken s i x Hok); [rewrite Hsp; set_solver|done]|done].
  - intros _. split; [by apply taken_own|]. intros Hin. assert (Htk : taken s lba) by (apply (sector_taken s i lba Hok); [rewrite Hsp; set_solver|lia]).
    destruct (taken_grown _ _ _ _ _ Hg Htk) as [_ Hn]. set_solver.
  - rewrite Hnew. apply Forall_cons. split; [apply He|]. apply Forall_replicate. split.
    + cbn. split; [constructor|]. by exists (replicate 15 0).
    + split; [intros H; by destruct (Hdead H)|intros H; by destruct H].
  - rewrite Hf. change (pos_slots (drive s) 0) with (@nil dir_entry). cbn. lia.
  - destruct (gr_frame _ _ _ _ Hg) as (? & ? & ? & Es2 & _). split.
    + split; try done.
      * cbn. by rewrite lookup_insert_eq.
      * unfold s'. rewrite Es2. by eexists _, _, _.
      * intros y Hy. rewrite Hsp' in Hy. rewrite Hsp. apply list_elem_of_filter in Hy as [Hy0 Hy]. apply elem_of_app in Hy as [Hy|Hy]; [left; apply list_elem_of_filter; set_solver|].
        apply elem_of_cons in Hy as [->|Hy]; [|left; apply list_elem_of_filter; set_solver]. right. intros (_ & _ & Hbt). pose proof (gr_new _ _ _ _ Hg) as Hgn. apply Forall_inv in Hgn as (_ & _ & Hf0). congruence.
      * intros p Hp. cbn. by rewrite lookup_insert_ne.
      * intros y Hy _. by apply Hold.
      * apply layout_disk; [apply Hg|]. rewrite splice_length; rewrite ?length_replicate; lia.
      * unfold s'. cbn. by rewrite Es2.
      * unfold s'. cbn. by rewrite Es2.
      * intros y. change (taken s' y) with (taken s2 y). rewrite (taken_new q lba s s2 y Hg), Hsp, Hsp', !list_elem_of_filter, !elem_of_app, !elem_of_cons. 
        assert (y = lba → ¬ (taken s y)) by (intros -> (_ & _ & Hbt); pose proof (gr_new _ _ _ _ Hg) as Hgn; apply Forall_inv in Hgn as (_ & _ & Hf0); congruence).
        pose proof (proj1 (Forall_forall _ _) (dk_taken s i Hok) y) as Hy. rewrite Hsp, list_elem_of_filter, elem_of_app, elem_of_cons in Hy. destruct (decide (y = 0)), (decide (y = lba)), (decide (y ∈ l1)), (decide (y ∈ l2)); try lia; tauto.
    + rewrite Hen', Hen, Hf. change (pos_slots (drive s) 0) with (@nil dir_entry). cbn. symmetry. apply Permutation_middle.
Qed.

(** *** The loop that adds *)

Lemma add_size_run q i n s : inodes s !! q = Some i → 0 ≤ i_size i + n < 4294967296 →
  add_size q n s = Ok (tt, set_inodes (<[q := set_i_size (i_size i + n) i]> (inodes s)) s).
Proof. intros Hi Hn. unfold add_size. mstep (inode_at_run q i s Hi). by rewrite u32_small by done. Qed.

Lemma sync_new_block_run q i s k ab :
  layout s → inodes s !! q = Some i → length (i_sectors i) = 13%nat → length ab = 140%nat → (k < 12)%nat → (1 ≤ length (free_bits (bb s)))%nat →
  ∃ lba s2, sync_new_block q (Z.of_nat k) ab s =
      Ok (Some (<[k := lba]> ab), set_inodes (<[q := set_i_sectors (<[k := lba]> (i_sectors i)) i]> (inodes s)) s2) ∧
    grown q [lba] s s2 ∧ inodes s2 = inodes s.
Proof.
  intros Hl Hi Hlen Hab Hk Hfree. destruct (alloc_grown q s Hl ltac:(lia)) as (lba & s1 & E & Hlba & Hi1 & _ & Hp & Hg).
  destruct (Hg i) as (_ & s2 & _ & Esync & Hu & Hi2 & Hgr). rewrite set_inodes_same in Esync by (by rewrite Hi1). rewrite insert_id in Hi2 by done.
  exists lba, s2. split; [|done]. unfold sync_new_block. mstep E. rewrite (proj2 (Z.eqb_neq lba (-1))) by lia.
  unfold mbnd at 1. unfold mget at 1. cbn [rbind fst snd]. rewrite Hp. cbn [sb set_block_bitmap]. fold (data_lba s).
  pose proof (gr_new _ _ _ _ Hgr) as Hn. apply Forall_singleton in Hn as (Hr & Hm & _). pose proof (data_lba_pos s Hl). unfold max_lba in *.
  rewrite s32_small by lia. mstep (mlift_Ok _ s1 _ (ASSERT_true (negb (lba - data_lba s =? -1)) ltac:(by rewrite (proj2 (Z.eqb_neq _ _)) by lia))).
  mstep Esync. rewrite (proj2 (Z.ltb_lt _ 12)) by lia. mstep (set_sector_run q i s2 (Z.of_nat k) lba ltac:(by rewrite Hi2) ltac:(lia)).
  mstep (mlift_Ok _ _ _ (wr_Ok ab (Z.of_nat k) lba ltac:(lia))). rewrite Nat2Z.id, Hi2. done.
Qed.

Lemma sync_loop_run m q i e io s l1 l2 :
  layout s → inodes s !! q = Some i → dir_ok s i → entry_ok e → is_live e → (512 ≤ length io)%nat → (0 ∈ take 12 (i_sectors i) → (1 ≤ length (free_bits (bb s)))%nat) →
  take 12 (i_sectors i) = l1 ++ l2 → (length l2 ≤ m)%nat → (∃ b, b ∈ l2 ∧ (b = 0 ∨ ∃ e', e' ∈ pos_slots (drive s) b ∧ ¬ is_live e')) →
  ∃ io' i' s', sync_loop m q (Z.of_nat (length l1)) 24 (take 12 (i_sectors i) ++ replicate 128 0) e io s = Ok ((true, io'), s') ∧ length io' = length io ∧
    dir_changed q i i' s s' ∧ (entries (drive s') i' ≡ₚ e :: entries (drive s) i) ∧ table s' = table s.
Proof.
  intros Hl Hi Hok He Hlive Hio Hfree. destruct (dk_inode s i Hok) as (_ & _ & Hlen & _). pose proof (dir_size_bound s i Hok) as Hsz. pose proof (ly_disk s Hl) as Hd.
  pose proof (de_bytes_length e He) as Hbl. set (ab := take 12 (i_sectors i) ++ replicate 128 0).
  assert (Hab : length ab = 140%nat) by (unfold ab; rewrite length_app, length_take, length_replicate; lia).
  assert (Hge : get_at (de_bytes e) 0 24 = Ok (de_bytes e)) by (rewrite get_at_Ok by lia; f_equal; change (Z.to_nat 0) with 0%nat; rewrite drop_0; apply take_ge; lia).
  revert m io l1 Hio. induction l2 as [|b l2 IH]; intros m io l1 Hio Hsp Hm Hroom; [destruct Hroom as (b & Hb & _); set_solver|].
  destruct m as [|m]; [simpl in Hm; lia|]. cbn [sync_loop].
  assert (Hl1 : (length l1 < 12)%nat) by (apply (f_equal length) in Hsp; rewrite length_app, length_take, length_cons in Hsp; lia).
  assert (Hrd : rd ab (Z.of_nat (length l1)) = Ok b) by (apply rd_Some; unfold ab; rewrite Hsp, <-app_assoc; by apply list_lookup_middle).
  mstep (mlift_Ok _ s _ Hrd). destruct (Z.eqb_spec b 0) as [->|Hb].
  - destruct (sync_new_block_run q i s (length l1) ab Hl Hi Hlen Hab Hl1 ltac:(apply Hfree; rewrite Hsp; apply elem_of_app; right; by left)) as (lba & s2 & E & Hg & Hi2). mstep E.
    destruct (add_new_block q i e s l1 l2 lba s2 Hl Hi Hok Hsp Hg Hi2 He Hlive) as [Hch Hen].
    assert (Hlo : own s2 lba) by (eapply own_new; [exact Hg|by left]). pose proof (own_data s2 lba (gr_layout _ _ _ _ Hg) Hlo) as (_ & Hlt & _). destruct Hlo as (_ & Hlm & _).
    change 512 with (Z.of_nat 512) at 1. set (s3 := set_inodes _ s2). mstep (mlift_Ok _ s3 _ (memset_run io 512 Hio)). mstep (mlift_Ok _ s3 _ Hge).
    set (io1 := replicate 512 0 ++ drop 512 io). assert (Hio1 : length io1 = length io) by (unfold io1; rewrite length_app, length_replicate, length_drop; lia).
    mstep (mlift_Ok _ s3 _ (put_at_Ok io1 0 (de_bytes e) ltac:(lia) ltac:(lia))). change (Z.to_nat 0) with 0%nat.
    mstep (mlift_Ok _ s3 _ (rd_Some (<[length l1 := lba]> ab) (length l1) lba ltac:(apply list_lookup_insert_eq; lia))).
    unfold io1. rewrite splice_app_l by (rewrite length_replicate; lia). set (data := splice 0 (de_bytes e) (replicate 512 0)).
    assert (Hdl : length data = 512%nat) by (unfold data; rewrite splice_length; rewrite ?length_replicate; lia).
    mstep (write_sector_run lba (data ++ drop 512 io) s3 Hlm ltac:(rewrite length_app; lia)). rewrite (take_app_length' data) by done.
    mstep (add_size_run q (set_i_sectors (<[length l1 := lba]> (i_sectors i)) i) 24 (set_drive (<[lba := data]> (drive s3)) s3) ltac:(cbn; by rewrite lookup_insert_eq) ltac:(cbn; lia)).
    eexists _, _, _. split; [reflexivity|]. split; [rewrite length_app, length_drop; lia|].
    assert (Heq : ∀ j, set_inodes (<[q := j]> (inodes (set_drive (<[lba := data]> (drive s3)) s3))) (set_drive (<[lba := data]> (drive s3)) s3)
      = set_inodes (<[q := j]> (inodes s)) (set_drive (<[lba := data]> (drive s2)) s2)) by (intros j; unfold s3, set_inodes, set_drive; cbn; by rewrite insert_insert_eq).
    rewrite Heq. split; [exact Hch|]. split; [exact Hen|]. assert (Etl : table_lba s2 = table_lba s) by (unfold table_lba; by rewrite (grown_sb _ _ _ _ Hg)).
    apply table_ext; [exact Etl|]. intros l Hll. cbn. rewrite sector_insert, decide_False by lia. apply (gr_disk _ _ _ _ Hg). pose proof (ly_it s Hl). unfold table_lba in *. lia.
  - assert (Htb : taken s b) by (apply (sector_taken s i b Hok); [rewrite Hsp; set_solver|done]). pose proof (taken_range s b Hl Htb) as (_ & Hlt & _). destruct Htb as (_ & Hbm & _).
    mstep (read_sector_run b io s Hd Hbm Hio). pose proof (sector_length (drive s) b Hd) as Hsl. change (Z.to_nat (512 / 24)) with 21%nat.
    set (io1 := sector (drive s) b ++ drop 512 io). assert (Hio1 : length io1 = length io) by (unfold io1; rewrite length_app, length_drop; lia).
    destruct (find_free_run 21 io1 (sector (drive s) b) 0 Hsl ltac:(by eexists) eq_refl) as [(j & Hj & E & Hdead)|[E Hall]].
    + mstep (mlift_Ok _ s _ E). mstep (mlift_Ok _ s _ Hge). unfold de_size.
      mstep (mlift_Ok _ s _ (put_at_Ok io1 (24 * Z.of_nat j) (de_bytes e) ltac:(lia) ltac:(lia))). replace (Z.to_nat (24 * Z.of_nat j)) with (24 * j)%nat by lia.
      unfold io1. rewrite splice_app_l by lia. set (data := splice (24 * j) (de_bytes e) (sector (drive s) b)).
      assert (Hdl : length data = 512%nat) by (unfold data; rewrite splice_length; lia).
      mstep (write_sector_run b (data ++ drop 512 io) s Hbm ltac:(rewrite length_app; lia)). rewrite (take_app_length' data) by done.
      mstep (add_size_run q i 24 (set_drive (<[b := data]> (drive s)) s) Hi ltac:(lia)).
      destruct (add_in_block q i e s l1 b l2 j Hl Hi Hok Hsp Hb ltac:(lia) Hdead He Hlive) as [Hch Hen].
      eexists _, _, _. split; [reflexivity|]. split; [rewrite length_app, length_drop; lia|]. split; [exact Hch|]. split; [exact Hen|].
      apply table_ext; [done|]. intros l Hll. cbn. by rewrite sector_insert, decide_False by lia.
    + mstep (mlift_Ok _ s _ E). replace (Z.of_nat (length l1) + 1) with (Z.of_nat (length (l1 ++ [b]))) by (rewrite length_app; simpl; lia).
      destruct (IH m io1 (l1 ++ [b])) as (io' & i' & s' & E' & Hio' & H'); [lia|by rewrite <-app_assoc|simpl in Hm; lia| |].
      { destruct Hroom as (b' & Hb' & Hr). apply elem_of_cons in Hb' as [->|Hb']; [|by exists b']. destruct Hr as [?|(e' & He' & Hnl)]; [done|].
        unfold pos_slots in He'. rewrite (proj2 (Z.eqb_neq b 0)) in He' by done. rewrite Forall_forall in Hall. by destruct (Hnl (Hall e' He')). }
      exists io', i', s'. split; [exact E'|]. split; [lia|done].
Qed.

(** *** Deleting one entry *)

Lemma filter_delete {A} (P : A → Prop) `{!∀ x, Decision (P x)} l k x y :
  l !! k = Some y → P y → ¬ P x → filter P l ≡ₚ y :: filter P (<[k := x]> l).
Proof.
  intros Hy Hn Hx. rewrite <-(take_drop_middle l k y Hy) at 2. rewrite insert_middle by (apply lookup_lt_Some in Hy; rewrite length_take; lia).
  rewrite <-(take_drop_middle l k y Hy) at 1. rewrite !filter_app, !filter_cons, decide_True, decide_False by done. by rewrite Permutation_middle.
Qed.

Definition no_entry : dir_entry := DirEntry (replicate 16 0) 0 0.
Lemma no_entry_dead : ¬ is_live no_entry.
Proof. intros H. by apply H. Qed.
Lemma no_entry_ok : slot_ok no_entry.
Proof.
  split; [split; [constructor|by exists (replicate 15 0)]|]. split; [intros H; by destruct (no_entry_dead H)|intros H; by destruct H].
Qed.

Lemma del_in_block q i e s l1 b l2 j :
  layout s → inodes s !! q = Some i → dir_ok s i → take 12 (i_sectors i) = l1 ++ b :: l2 → b ≠ 0 → (j < 21)%nat → slot_at (sector (drive s) b) j = e → is_live e →
  let i' := set_i_size (i_size i - 24) i in
  let s' := set_inodes (<[q := i']> (inodes s)) (set_drive (<[b := splice (24 * j) (replicate 24 0) (sector (drive s) b)]> (drive s)) s) in
  dir_changed q i i' s s' ∧ (entries (drive s) i ≡ₚ e :: entries (drive s') i').
Proof.
  intros Hl Hi Hok Hsp Hb Hj Hslot Hlive i' s'. pose proof (sector_length (drive s) b (ly_disk s Hl)) as Hsl.
  pose proof (dir_other s i l1 b l2 Hok Hsp Hb) as Hnin. assert (Htb : taken s b) by (apply (sector_taken s i b Hok); [rewrite Hsp; set_solver|done]).
  assert (Hnew : pos_slots (drive s') b = <[j := no_entry]> (pos_slots (drive s) b)).
  { unfold pos_slots. rewrite (proj2 (Z.eqb_neq b 0)) by done. cbn [drive s' set_inodes set_drive]. rewrite sector_insert, decide_True by done. by rewrite slots_splice. }
  assert (Hold : pos_slots (drive s) b !! j = Some e) by (unfold pos_slots; rewrite (proj2 (Z.eqb_neq b 0)) by done; rewrite <-Hslot; by apply slots_lookup).
  pose proof (filter_delete is_live _ _ no_entry _ Hold Hlive no_entry_dead) as Hperm. rewrite <-Hnew in Hperm.
  pose proof (Permutation_length Hperm) as Hplen. rewrite length_cons in Hplen.
  assert (Hge : 24 ≤ i_size i).
  { rewrite (dk_size s i Hok). unfold entries, dir_slots. rewrite Hsp, concat_split, !filter_app, !length_app. lia. }
  destruct (dir_update s s' i i' l1 b b l2 Hok Hsp) as [Hok' (E1 & E2 & Hen & Hen')].
  - exact Hsp.
  - destruct (dk_inode s i Hok) as (? & [? ?] & ? & ?). split_and!; try done. cbn. unfold is_u32. lia.
  - apply (dk_tbl s i Hok).
  - intros x Hx H0. split; [|apply (sector_taken s i x Hok); [rewrite Hsp; set_solver|done]]. cbn. rewrite sector_insert, decide_False; [done|]. by intros ->.
  - intros _. split; [exact Htb|done].
  - rewrite Hnew. apply Forall_insert; [by apply (slots_ok_sector s i l1 b l2)|apply no_entry_ok].
  - cbn [i_size i' set_i_size]. lia.
  - split.
    + split; try done.
      * cbn. by rewrite lookup_insert_eq.
      * eexists _, _, _. apply frame_id.
      * intros y Hy. by left.
      * intros p Hp. cbn. by rewrite lookup_insert_ne.
      * intros x Hx Hn. split; [exact Hx|]. cbn. rewrite sector_insert, decide_False; [done|]. intros <-. apply Hn. rewrite Hsp. apply list_elem_of_filter. split; [done|set_solver].
      * apply layout_disk; [done|]. rewrite splice_length; rewrite ?length_replicate; lia.
      * intros y. exact (taken_split s i y Hok).
    + rewrite Hen, Hen', Hperm. simpl. symmetry. apply Permutation_middle.
Qed.

Lemma del_block q i e s l1 b l2 s2 :
  layout s → inodes s !! q = Some i → dir_ok s i → take 12 (i_sectors i) = l1 ++ b :: l2 → b ≠ 0 → filter is_live (slots (sector (drive s) b)) = [e] →
  block_change (b - data_lba s) false s s2 →
  let i' := set_i_size (i_size i - 24) (set_i_sectors (<[length l1 := 0]> (i_sectors i)) i) in
  let s' := set_inodes (<[q := i']> (inodes s)) s2 in
  dir_changed q i i' s s' ∧ (entries (drive s) i ≡ₚ e :: entries (drive s') i').
Proof.
  intros Hl Hi Hok Hsp Hb Hlive [(d & bm & Es2) Hbit Hcnt Hdisk Hlay _] i' s'. destruct (dk_inode s i Hok) as (Hk1 & [Hk2 Hk2'] & Hk3 & Hk4).
  assert (Hl12 : length (l1 ++ b :: l2) = 12%nat) by (rewrite <-Hsp, length_take; lia). rewrite length_app, length_cons in Hl12.
  assert (Hsp' : take 12 (i_sectors i') = l1 ++ 0 :: l2) by (cbn; rewrite take_insert_lt by lia; rewrite Hsp; by apply insert_middle).
  pose proof (dir_other s i l1 b l2 Hok Hsp Hb) as Hnin. assert (Htb : taken s b) by (apply (sector_taken s i b Hok); [rewrite Hsp; set_solver|done]).
  assert (Hold : ∀ x, taken s x → x ≠ b → taken s' x ∧ sector (drive s') x = sector (drive s) x).
  { intros x (Hx1 & Hx2 & Hx3) Hne. assert (Ed : data_lba s' = data_lba s) by (unfold s'; by rewrite Es2). split.
    - unfold taken. rewrite Ed. change (bb s') with (bb s2). rewrite Hcnt. split_and!; try done; try lia. rewrite Hbit, decide_False by lia. done.
    - apply Hdisk. right. by apply taken_range. }
  assert (Hps : filter is_live (pos_slots (drive s) b) = [e]) by (unfold pos_slots; rewrite (proj2 (Z.eqb_neq b 0)) by done; done).
  assert (Hge : 24 ≤ i_size i).
  { rewrite (dk_size s i Hok). unfold entries, dir_slots. rewrite Hsp, concat_split, !filter_app, !length_app, Hps. simpl. lia. }
  destruct (dir_update s s' i i' l1 b 0 l2 Hok Hsp Hsp') as [Hok' (E1 & E2 & Hen & Hen')].
  - split_and!; try done; [cbn; unfold is_u32; lia|cbn; by rewrite length_insert|]. apply Forall_insert; [done|]. unfold is_u32. lia.
  - pose proof (dk_tbl s i Hok) as Ht. unfold tbl_of in *. cbn. rewrite !nth_lookup in *. rewrite list_lookup_insert_ne by lia. exact Ht.
  - intros x Hx H0. destruct (Hold x); [apply (sector_taken s i x Hok); [rewrite Hsp; set_solver|done]|by intros ->|done].
  - intros H. by destruct H.
  - constructor.
  - rewrite Hps. change (pos_slots (drive s') 0) with (@nil dir_entry). cbn [i_size i' set_i_size filter length]. cbn. lia.
  - split.
    + split; try done.
      * cbn. by rewrite lookup_insert_eq.
      * unfold s'. rewrite Es2. by eexists _, _, _.
      * intros y Hy. left. rewrite Hsp' in Hy. rewrite Hsp. apply list_elem_of_filter in Hy as [Hy0 Hy]. apply list_elem_of_filter. split; [done|]. set_solver.
      * intros p Hp. cbn. by rewrite lookup_insert_ne.
      * intros y Hy Hn. apply Hold; [done|]. intros ->. apply Hn. rewrite Hsp. apply list_elem_of_filter. split; [done|set_solver].
      * destruct Hlay. by split.
      * unfold s'. cbn. by rewrite Es2.
      * unfold s'. cbn. by rewrite Es2.
      * intros y. assert (Ht : taken s' y ↔ taken s y ∧ y ≠ b).
        { split; [|intros [Hy Hn]; by apply Hold]. intros (Y1 & Y2 & Y3). assert (Ed : data_lba s' = data_lba s) by (unfold s'; by rewrite Es2). rewrite Ed in *. change (bb s') with (bb s2) in *.
          rewrite Hcnt in Y1. rewrite Hbit in Y3 by lia. case_decide as Hd; [done|]. split; [exact (conj Y1 (conj Y2 Y3))|]. by intros ->. }
        rewrite Ht, Hsp, Hsp', !list_elem_of_filter. pose proof (proj1 (Forall_forall _ _) (dk_taken s i Hok) y) as Hy. rewrite Hsp, list_elem_of_filter in Hy.
        assert (Hy0 : taken s y → y ≠ 0) by (intros Hty; apply (taken_range s y Hl) in Hty; lia). rewrite !elem_of_app, !elem_of_cons in *.
        destruct (decide (y = b)) as [Eyb|]; [rewrite Eyb in *; tauto|]. destruct (decide (y ∈ l1)), (decide (y ∈ l2)); tauto.
    + rewrite Hen, Hen', Hps. change (pos_slots (drive s') 0) with (@nil dir_entry). cbn. symmetry. apply Permutation_middle.
Qed.

(** Storing the inode leaves the directory alone. *)
Lemma dir_changed_sync q i i' s s1 d :
  dir_changed q i i' s s1 → layout s → disk_ok d → (∀ l, l < table_lba s1 ∨ table_lba s1 + 608 ≤ l → sector d l = sector (drive s1) l) →
  dir_changed q i i' s (set_drive d s1) ∧ entries d i' = entries (drive s1) i'.
Proof.
  intros [H1 (d0 & b0 & m0 & Hfr) Hsub H2 H3 H4 H5 H6 H7 H8] Hl Hd Hsec.
  assert (Htk : ∀ b, taken s1 b → sector d b = sector (drive s1) b) by (intros b Hb; apply Hsec; right; by apply taken_range).
  assert (Hsl : dir_slots d i' = dir_slots (drive s1) i').
  { unfold dir_slots. apply pos_slots_ext. intros x Hx H0. apply Htk. by apply (sector_taken s1 i' x H2). }
  split; [|unfold entries; by rewrite Hsl]. split; try done.
  - rewrite Hfr. by eexists d, b0, m0.
  - destruct H2 as [K1 K2 K3 K4 K5 K6]. split; try done; cbn [drive set_drive]; unfold entries; rewrite Hsl; done.
  - intros b Hb Hn. destruct (H4 b Hb Hn) as [Hb1 Hs]. split; [exact Hb1|]. cbn. by rewrite Htk.
  - by apply layout_set_drive.
Qed.

(** *** Counting the entries of a sector *)

Definition is_dot (e : dir_entry) : Prop := is_live e ∧ de_name e = [46].
Definition is_dotdot (e : dir_entry) : Prop := is_live e ∧ de_name e = [46; 46].
(** Live and neither "." nor "..", and the one with the number looked for. *)
Definition plain (e : dir_entry) : Prop := is_live e ∧ de_name e ≠ [46] ∧ de_name e ≠ [46; 46].
Definition hits (n : Z) (e : dir_entry) : Prop := plain e ∧ de_i_no e = n.
#[local] Instance is_dot_dec e : Decision (is_dot e).
Proof. unfold is_dot. apply _. Defined.
#[local] Instance plain_dec e : Decision (plain e).
Proof. unfold plain. apply _. Defined.
#[local] Instance hits_dec n e : Decision (hits n e).
Proof. unfold hits. apply _. Defined.

Lemma dot_cstr : cstr dot [46].
Proof. split; [repeat constructor; lia|]. by exists []. Qed.
Lemma dotdot_cstr : cstr dotdot [46; 46].
Proof. split; [repeat constructor; lia|]. by exists []. Qed.

Lemma count_run m io sec k n fb cnt found :
  length sec = 512%nat → (∃ r, io = sec ++ r) → (k + m = 21)%nat → Forall slot_ok (drop k (slots sec)) → 0 ≤ cnt → cnt + Z.of_nat m < 256 →
  let hs := filter (λ j, hits n (slot_at sec j)) (seq k m) in
  hs = [] ∨ found = None ∧ (∃ j, hs = [j]) →
  count_entries m io (Z.of_nat k) n fb cnt found =
    Ok (fb || existsb (λ e, bool_decide (is_dot e)) (drop k (slots sec)), cnt + Z.of_nat (length (filter plain (drop k (slots sec)))),
        match hs with [] => found | j :: _ => Some (Z.of_nat j) end).
Proof.
  intros Hl [r ->]. revert k fb cnt found. induction m as [|m IH]; intros k fb cnt found Hk Hok H0 Hc hs Hhs.
  { subst hs. rewrite drop_ge by (rewrite slots_length; lia). cbn. by rewrite orb_false_r, Z.add_0_r. }
  subst hs. cbn [seq] in *. rewrite filter_cons in *. rewrite slots_from in Hok |- * by lia. apply Forall_cons in Hok as [Hok Hoks]. cbn [count_entries existsb]. rewrite filter_cons.
  destruct (entry_words (sec ++ r) k) as [Hin Hty]; [rewrite length_app; lia|lia|]. rewrite Hty. cbn [rbind]. rewrite slot_at_app in Hin |- * by (done || lia).
  set (e := slot_at sec k) in *. replace (Z.of_nat k + 1) with (Z.of_nat (S k)) by lia.
  destruct (name_cmp (sec ++ r) k dot [46]) as (c1 & -> & Hc1); [rewrite slot_at_app by (done || lia); exact Hok|apply dot_cstr|].
  destruct (name_cmp (sec ++ r) k dotdot [46; 46]) as (c2 & -> & Hc2); [rewrite slot_at_app by (done || lia); exact Hok|apply dotdot_cstr|].
  rewrite slot_at_app in Hc1, Hc2 by (done || lia). fold e in Hc1, Hc2. cbn [rbind].
  destruct (Z.eqb_spec (f_type e) FT_UNKNOWN) as [Ht|Ht].
  { assert (Hd : ¬ is_live e) by (intros H; by apply H). rewrite (decide_False (P := hits n e)) in Hhs |- * by (intros [[? _] _]; done).
    rewrite (decide_False (P := plain e)) by (intros [? _]; done). rewrite (bool_decide_eq_false_2 (is_dot e)) by (intros [? _]; done). cbn [orb]. apply IH; try done; lia. }
  destruct (Z.eqb_spec c1 0) as [E1|E1].
  { apply Hc1 in E1. rewrite (decide_False (P := hits n e)) in Hhs |- * by (intros [(_ & ? & _) _]; done).
    rewrite (decide_False (P := plain e)) by (intros (_ & ? & _); done). rewrite (bool_decide_eq_true_2 (is_dot e)) by done. cbn [orb]. rewrite orb_true_r. rewrite IH by (done || lia). done. }
  assert (Hn1 : de_name e ≠ [46]) by (by rewrite <-Hc1). rewrite (bool_decide_eq_false_2 (is_dot e)) by (intros [_ ?]; done). cbn [orb].
  destruct (Z.eqb_spec c2 0) as [E2|E2].
  { apply Hc2 in E2. rewrite (decide_False (P := hits n e)) in Hhs |- * by (intros [(_ & _ & ?) _]; done).
    rewrite (decide_False (P := plain e)) by (intros (_ & _ & ?); done). apply IH; try done; lia. }
  assert (Hpl : plain e) by (split_and!; [done|done|by rewrite <-Hc2]). rewrite (decide_True (P := plain e)) by done. rewrite length_cons. rewrite Hin. cbn [rbind].
  rewrite (u8_small (cnt + 1)) by lia. destruct (Z.eqb_spec (de_i_no e) n) as [En|En].
  - rewrite (decide_True (P := hits n e)) in Hhs |- * by done. destruct Hhs as [?|[-> [j Hj]]]; [done|]. injection Hj as <- Hj.
    rewrite ASSERT_true by done. cbn [rbind]. rewrite IH by (try done; try lia; by left). rewrite Hj. do 2 f_equal. f_equal. lia.
  - rewrite (decide_False (P := hits n e)) in Hhs |- * by (intros [_ ?]; done). rewrite IH by (done || lia). do 2 f_equal. f_equal. lia.
Qed.

(** *** The loop that deletes *)

(** The inode's new size, and its way to the disk. *)
Lemma delete_finish q i1 s1 (io : list Z) :
  let i' := set_i_size (i_size i1 - 24) i1 in
  let s1' := set_inodes (<[q := i']> (inodes s1)) s1 in
  inodes s1 !! q = Some i1 → 24 ≤ i_size i1 < 4294967296 → (1024 ≤ length io)%nat → layout s1' → inode_ok i' → i_no i1 < 256 →
  ∃ d, (let! i := inode_at q in
        do! mlift (ASSERT (24 <=? i_size i)) in
        do! put_inode q (set_i_size (u32 (i_size i - 24)) i) in
        let! io_buf := mlift (memset (Some io) 0 1024) in
        let! i := inode_at q in
        let! _ := inode_sync i io_buf in
        mok tt) s1 = Ok (tt, set_drive d s1') ∧ disk_ok d ∧
    (∀ l, l < table_lba s1' ∨ table_lba s1' + 608 ≤ l → sector d l = sector (drive s1') l) ∧
    table (set_drive d s1') = splice (Z.to_nat (76 * i_no i1)) (bytes_of (pure_words i')) (table s1').
Proof.
  intros i' s1' Hi Hsz Hio Hl Hok Hno. mstep (inode_at_run q i1 s1 Hi). mstep (mlift_Ok _ s1 _ (ASSERT_true (24 <=? i_size i1) ltac:(apply Z.leb_le; lia))).
  rewrite u32_small by lia. fold i'. mstep (eq_refl : put_inode q i' s1 = Ok (tt, s1')). mstep (mlift_Ok _ s1' _ (memset_run io 1024 Hio)).
  mstep (inode_at_run q i' s1' ltac:(cbn; by rewrite lookup_insert_eq)). destruct Hok as ([Hn0 Hn1] & Hok2). change (i_no i1) with (i_no i').
  destruct (inode_sync_run i' (replicate 1024 0 ++ drop 1024 io) s1') as (buf' & s' & E & (d & -> & Hd & Hsec) & Ht & _); [done|by split|rewrite length_app, length_replicate; unfold isecs; destruct (straddles _); lia|].
  mstep E. change (0 ≤ i_no i1) in Hn0. rewrite (u8_small (i_no i')) in Ht by (change (i_no i') with (i_no i1); lia). exists d. done.
Qed.

(** A sector whose only entry is the one to delete. *)
Lemma live_alone sec e : Forall slot_ok (slots sec) → length (filter plain (slots sec)) = 1%nat → e ∈ slots sec → plain e →
  existsb (λ x, bool_decide (is_dot x)) (slots sec) = false → (¬ ∃ x, x ∈ slots sec ∧ is_dotdot x) → filter is_live (slots sec) = [e].
Proof.
  intros Hok Hlen He Hp Hnd Hndd. assert (Hd : ∀ x, x ∈ slots sec → ¬ is_dot x).
  { intros x Hx Hdx. assert (existsb (λ x, bool_decide (is_dot x)) (slots sec) = true); [|congruence]. apply existsb_exists. exists x. split; [by apply list_elem_of_In|by apply bool_decide_eq_true]. }
  assert (Heq : filter is_live (slots sec) = filter plain (slots sec)).
  { clear Hlen He Hnd Hok. induction (slots sec) as [|x l IH]; [done|]. rewrite !filter_cons.
    assert (Hrest : filter is_live l = filter plain l) by (apply IH; [intros (y & ? & ?); apply Hndd; exists y; set_solver|set_solver]).
    destruct (decide (is_live x)) as [Hlv|Hlv]; [|rewrite decide_False by (intros [? _]; done); done].
    rewrite (decide_True (P := plain x)); [by rewrite Hrest|]. split; [done|]. split; intros E.
    - apply (Hd x); [by left|done].
    - apply Hndd. exists x. split; [by left|done]. }
  rewrite Heq. assert (Hin : e ∈ filter plain (slots sec)) by (by apply list_elem_of_filter).
  destruct (filter plain (slots sec)) as [|y [|]]; simpl in Hlen; try lia. set_solver.
Qed.

Lemma delete_found_run q i e s l1 b l2 j cnt io fb :
  layout s → inodes s !! q = Some i → dir_ok s i → take 12 (i_sectors i) = l1 ++ b :: l2 → b ≠ 0 → (j < 21)%nat → slot_at (sector (drive s) b) j = e → plain e →
  (1024 ≤ length io)%nat → (∃ r, io = sector (drive s) b ++ r) → i_no i < 256 →
  cnt = Z.of_nat (length (filter plain (slots (sector (drive s) b)))) → fb = existsb (λ x, bool_decide (is_dot x)) (slots (sector (drive s) b)) →
  (b = data_lba s ∨ (∃ x, x ∈ slots (sector (drive s) b) ∧ is_dotdot x) → fb = true) →
  ∃ i' s', delete_found q (Z.of_nat (length l1)) b (Z.of_nat j) cnt 24 fb io s = Ok (tt, s') ∧ dir_changed q i i' s s' ∧
    (entries (drive s) i ≡ₚ e :: entries (drive s') i') ∧ ∀ m, 0 ≤ m < 4096 → slot s' m = if decide (m = i_no i) then bytes_of (pure_words i') else slot s m.
Proof.
  intros Hl Hi Hok Hsp Hb Hj Hslot Hpl Hio [r Hr] Hno Hcnt Hfb Hdots. set (sec := sector (drive s) b) in *. destruct (dk_inode s i Hok) as (Hk1 & Hk2 & Hk3 & Hk4). unfold is_u32 in Hk1, Hk2.
  pose proof (sector_length (drive s) b (ly_disk s Hl)) as Hsl. fold sec in Hsl.
  assert (He : e ∈ slots sec) by (apply (list_elem_of_lookup_2 _ j); rewrite <-Hslot; by apply slots_lookup).
  assert (Hlive : is_live e) by apply Hpl. assert (Hcnt1 : 1 ≤ cnt). { assert (e ∈ filter plain (slots sec)) as Hin by (by apply list_elem_of_filter). destruct (filter plain (slots sec)); [set_solver|]. simpl in Hcnt. lia. }
  assert (Htb : taken s b) by (apply (sector_taken s i b Hok); [rewrite Hsp; set_solver|done]). pose proof (taken_range s b Hl Htb) as (_ & Hlt & _).
  assert (Hl12 : (length l1 < 12)%nat) by (apply (f_equal length) in Hsp; rewrite length_app, length_take, length_cons in Hsp; lia).
  assert (Hlast : ∀ i1 s1 io1, inodes s1 !! q = Some i1 → (1024 ≤ length io1)%nat → i_no i1 = i_no i → i_size i1 = i_size i → 
    let i' := set_i_size (i_size i1 - 24) i1 in let s1' := set_inodes (<[q := i']> (inodes s1)) s1 in
    dir_changed q i i' s s1' → (entries (drive s) i ≡ₚ e :: entries (drive s1') i') → table s1' = table s →
    ∃ s', (let! i := inode_at q in do! mlift (ASSERT (24 <=? i_size i)) in do! put_inode q (set_i_size (u32 (i_size i - 24)) i) in
        let! io_buf := mlift (memset (Some io1) 0 1024) in let! i := inode_at q in let! _ := inode_sync i io_buf in mok tt) s1 = Ok (tt, s') ∧
      dir_changed q i i' s s' ∧ (entries (drive s) i ≡ₚ e :: entries (drive s') i') ∧
      ∀ m, 0 ≤ m < 4096 → slot s' m = if decide (m = i_no i) then bytes_of (pure_words i') else slot s m).
  { intros i1 s1 io1 Hi1 Hio1 En Es i' s1' Hch Hen Htab. pose proof (dc_layout _ _ _ _ _ Hch) as Hl1. pose proof (dk_inode _ _ (dc_ok _ _ _ _ _ Hch)) as Hok1.
    assert (Hge : 24 ≤ i_size i). { rewrite (dk_size s i Hok), (Permutation_length Hen). simpl. lia. }
    destruct (delete_finish q i1 s1 io1 Hi1 ltac:(lia) Hio1 Hl1 Hok1 ltac:(lia)) as (d & E & Hd & Hsec & Ht). fold i' s1' in E, Ht, Hsec.
    destruct (dir_changed_sync q i i' s s1' d Hch Hl Hd Hsec) as [Hch' Hen']. exists (set_drive d s1'). split; [exact E|]. split; [exact Hch'|]. split.
    - cbn [drive set_drive]. rewrite Hen'. exact Hen.
    - intros m Hm. rewrite (slot_splice s1' (set_drive d s1') (i_no i) m (bytes_of (pure_words i'))); [|lia|done|done|by apply pure_words_length|rewrite <-En; exact Ht].
      destruct (decide (m = i_no i)); [done|]. unfold slot. by rewrite Htab. }
  unfold delete_found. mstep (mlift_Ok _ s _ (ASSERT_true (1 <=? cnt) ltac:(apply Z.leb_le; lia))).
  destruct ((cnt =? 1) && negb fb) eqn:Ebr.
  - apply andb_true_iff in Ebr as [E1%Z.eqb_eq E2%negb_true_iff]. rewrite E2 in Hdots.
    assert (Hal : filter is_live (slots sec) = [e]).
    { apply live_alone; try done; [|lia|congruence|].
      - pose proof (slots_ok_sector s i l1 b l2 Hok Hsp) as H. unfold pos_slots in H. by rewrite (proj2 (Z.eqb_neq b 0)) in H.
      - intros H. assert (false = true); [apply Hdots; by right|done]. }
    assert (Hbd : data_lba s < b). { destruct Htb as [[? _] _]. assert (b ≠ data_lba s) by (intros ->; assert (false = true); [apply Hdots; by left|done]). lia. }
    destruct Htb as ([_ Hbc] & Hbm & _). pose proof (data_lba_pos s Hl).
    destruct (free_block_run s (b - data_lba s) Hl ltac:(lia) ltac:(lia)) as (sa & s2 & Ea & Eb & Hbc2).
    unfold mbnd at 1 2. unfold mget at 1. cbn [rbind fst snd]. fold (data_lba s). rewrite u32_small by (unfold max_lba in *; lia).
    rewrite (mbnd_Ok _ _ _ _ _ Ea), (mbnd_Ok _ _ _ _ _ Eb). rewrite (proj2 (Z.ltb_lt _ 12)) by lia.
    destruct (bc_frame _ _ _ _ Hbc2) as (dd & bm & Es2).
    assert (Hi2 : inodes s2 !! q = Some i) by (by rewrite Es2).
    mstep (set_sector_run q i s2 (Z.of_nat (length l1)) 0 Hi2 ltac:(lia)). rewrite Nat2Z.id. unfold mok at 1. cbn [rbind fst snd].
    set (i1 := set_i_sectors (<[length l1 := 0]> (i_sectors i)) i). set (s3 := set_inodes (<[q := i1]> (inodes s2)) s2).
    destruct (del_block q i e s l1 b l2 s2 Hl Hi Hok Hsp Hb Hal Hbc2) as [Hch Hen].
    assert (Heq : ∀ y, set_inodes (<[q := y]> (inodes s3)) s3 = set_inodes (<[q := y]> (inodes s)) s2).
    { intros y. unfold s3, set_inodes. cbn. rewrite insert_insert_eq. by rewrite Es2. }
    destruct (Hlast i1 s3 io) as (s' & E & Hres); try done; rewrite ?Heq; try done.
    { cbn. by rewrite lookup_insert_eq. }
    { apply table_ext; [unfold table_lba; cbn; by rewrite Es2|]. intros l Hll. cbn. apply (bc_disk _ _ _ _ Hbc2). right. pose proof (ly_it s Hl). unfold table_lba in *. lia. }
    eexists _, s'. split; [exact E|exact Hres].
  - destruct Htb as (_ & Hbm & _). assert (Hrl : (512 ≤ length r)%nat) by (rewrite Hr, length_app in Hio; lia). unfold de_size. change (Z.to_nat 24) with 24%nat.
    assert (Hput : put_at io (24 * Z.of_nat j) (replicate 24 0) = Ok (splice (24 * j) (replicate 24 0) sec ++ r)).
    { rewrite put_at_Ok by (rewrite ?length_replicate; lia). replace (Z.to_nat (24 * Z.of_nat j)) with (24 * j)%nat by lia. rewrite Hr. rewrite splice_app_l by (rewrite length_replicate; lia). done. }
    set (data := splice (24 * j) (replicate 24 0) sec) in *. assert (Hdl : length data = 512%nat) by (unfold data; rewrite splice_length; rewrite ?length_replicate; lia).
    unfold mbnd at 1. rewrite (mbnd_Ok _ _ _ _ _ (mlift_Ok _ s _ Hput)). rewrite (mbnd_Ok _ _ _ _ _ (write_sector_run b (data ++ r) s Hbm ltac:(rewrite length_app; lia))).
    rewrite take_app_length' by done. unfold mok at 1. cbn [rbind fst snd]. set (s3 := set_drive (<[b := data]> (drive s)) s).
    destruct (del_in_block q i e s l1 b l2 j Hl Hi Hok Hsp Hb Hj Hslot Hlive) as [Hch Hen].
    destruct (Hlast i s3 (data ++ r)) as (s' & E & Hres); try done.
    { rewrite length_app. lia. }
    { apply table_ext; [done|]. intros l Hll. cbn. rewrite sector_insert, decide_False by lia. done. }
    eexists _, s'. split; [exact E|exact Hres].
Qed.

(** The blocks where "." and the root block and ".." go together. *)
Definition dots_ok (s : fs) (i : inode) : Prop :=
  ∀ b, b ∈ dir_sectors i → b = data_lba s ∨ (∃ x, x ∈ slots (sector (drive s) b) ∧ is_dotdot x) → ∃ x, x ∈ slots (sector (drive s) b) ∧ is_dot x.

Lemma filter_fmap {A C} (P : C → Prop) `{!∀ x, Decision (P x)} (f : A → C) (l : list A) : filter P (f <$> l) = f <$> filter (λ x, P (f x)) l.
Proof. induction l as [|x l IH]; [done|]. rewrite fmap_cons, !filter_cons, IH. by destruct (decide (P (f x))). Qed.

Lemma delete_loop_run q i n e s l1 l2 io :
  layout s → inodes s !! q = Some i → dir_ok s i → dots_ok s i → (1024 ≤ length io)%nat → i_no i < 256 →
  take 12 (i_sectors i) = l1 ++ l2 → filter (hits n) (concat (pos_slots (drive s) <$> l2)) = [e] →
  ∃ i' s', delete_loop (l2 ++ replicate 128 0) q (Z.of_nat (length l1)) n 24 io s = Ok (true, s') ∧ dir_changed q i i' s s' ∧
    (entries (drive s) i ≡ₚ e :: entries (drive s') i') ∧ ∀ m, 0 ≤ m < 4096 → slot s' m = if decide (m = i_no i) then bytes_of (pure_words i') else slot s m.
Proof.
  intros Hl Hi Hok Hdots. pose proof (ly_disk s Hl) as Hd. revert l1 io. induction l2 as [|b l2 IH]; intros l1 io Hio Hno Hsp Hhit; [done|].
  cbn [app delete_loop]. rewrite fmap_cons in Hhit. cbn [concat] in Hhit. rewrite filter_app in Hhit.
  replace (Z.of_nat (length l1) + 1) with (Z.of_nat (length (l1 ++ [b]))) by (rewrite length_app; simpl; lia).
  destruct (Z.eqb_spec b 0) as [->|Hb]; [apply IH; try done; by rewrite <-app_assoc|].
  assert (Htb : taken s b) by (apply (sector_taken s i b Hok); [rewrite Hsp; set_solver|done]). destruct Htb as (_ & Hbm & _).
  pose proof (sector_length (drive s) b Hd) as Hsl. set (sec := sector (drive s) b) in *.
  change SECTOR_SIZE with (Z.of_nat 512) at 1. mstep (mlift_Ok _ s _ (memset_run io 512 ltac:(lia))).
  mstep (read_sector_run b (replicate 512 0 ++ drop 512 io) s Hd Hbm ltac:(rewrite length_app, length_replicate; lia)). rewrite drop_app_length' by (by rewrite length_replicate).
  fold sec. set (io1 := sec ++ drop 512 io). assert (Hio1 : length io1 = length io) by (unfold io1; rewrite length_app, length_drop; lia).
  assert (Hps : pos_slots (drive s) b = slots sec) by (unfold pos_slots; by rewrite (proj2 (Z.eqb_neq b 0))). rewrite Hps in Hhit.
  pose proof (slots_ok_sector s i l1 b l2 Hok Hsp) as Hoks. rewrite Hps in Hoks.
  assert (Hfl : filter (hits n) (slots sec) = slot_at sec <$> filter (λ j, hits n (slot_at sec j)) (seq 0 21)) by (unfold slots; apply filter_fmap). rewrite Hfl in Hhit.
  pose proof (count_run 21 io1 sec 0 n false 0 None Hsl ltac:(by eexists) eq_refl Hoks ltac:(lia) ltac:(lia)) as Hcount. cbv zeta in Hcount.
  destruct (filter (λ j, hits n (slot_at sec j)) (seq 0 21)) as [|j hs] eqn:Ehs.
  - mstep (mlift_Ok _ s _ (Hcount (or_introl eq_refl))). cbn [fmap list_fmap app] in Hhit. apply IH; try done; [lia|by rewrite <-app_assoc].
  - cbn [fmap list_fmap app] in Hhit. injection Hhit as He Hhs. apply app_eq_nil in Hhs as [Hhs _]. apply fmap_nil_inv in Hhs as ->.
    mstep (mlift_Ok _ s _ (Hcount (or_intror (conj eq_refl (ex_intro _ j eq_refl))))). cbn [fst snd].
    assert (Hj : j ∈ filter (λ j, hits n (slot_at sec j)) (seq 0 21)) by (rewrite Ehs; by left). apply list_elem_of_filter in Hj as [[Hpl _] Hj]. apply elem_of_seq in Hj. rewrite He in Hpl.
    rewrite drop_0. change (false || ?x) with x.
    destruct (delete_found_run q i e s l1 b l2 j (0 + Z.of_nat (length (filter plain (slots sec)))) io1 (existsb (λ x, bool_decide (is_dot x)) (slots sec)))
      as (i' & s' & E & Hres); try done; try lia.
    { by eexists. }
    { intros H. destruct (Hdots b) as (x & Hx & Hdx); [rewrite Hsp; apply list_elem_of_filter; split; [done|apply elem_of_app; right; apply elem_of_cons; by left]|exact H|].
      apply existsb_exists. exists x. split; [by apply list_elem_of_In|by apply bool_decide_eq_true]. }
    exists i', s'. split; [|exact Hres]. by rewrite (mbnd_Ok _ _ _ _ _ E).
Qed.

(** *** Listing *)

Lemma read_entries_run m io sec k pos dpos :
  length sec = 512%nat → io = sec → (k + m = 21)%nat → 0 ≤ pos ≤ dpos → dpos + 24 * 21 < 4294967296 → pos mod 24 = 0 → dpos mod 24 = 0 →
  let es := filter is_live (drop k (slots sec)) in
  (∃ j, (k ≤ j < 21)%nat ∧ read_entries m io (Z.of_nat k) pos dpos 24 = Ok (dpos, Some (Z.of_nat j)) ∧ es !! Z.to_nat ((dpos - pos) / 24) = Some (slot_at sec j)) ∨
  read_entries m io (Z.of_nat k) pos dpos 24 = Ok (pos + 24 * Z.of_nat (length es), None) ∧ pos + 24 * Z.of_nat (length es) ≤ dpos.
Proof.
  intros Hl ->. revert k pos. induction m as [|m IH]; intros k pos Hk Hp Hb Hm1 Hm2.
  { right. rewrite drop_ge by (rewrite slots_length; lia). cbn. split; [|lia]. do 2 f_equal. lia. }
  rewrite slots_from by lia. rewrite filter_cons. cbn [read_entries]. destruct (entry_words sec k) as [_ ->]; [lia|lia|]. cbn [rbind].
  replace (Z.of_nat k + 1) with (Z.of_nat (S k)) by lia. destruct (decide (is_live (slot_at sec k))) as [Hlv|Hlv].
  - rewrite (proj2 (Z.eqb_neq (f_type (slot_at sec k)) 0)) by exact Hlv. cbn [negb]. destruct (Z.ltb_spec pos dpos) as [Hlt|Hge].
    + rewrite u32_small by lia. assert (Hle : pos + 24 ≤ dpos) by zsolve. destruct (IH (S k) (pos + 24)) as [(j & Hj & E & He)|[E He]]; [lia|lia|lia|zsolve|done| |].
      * left. exists j. split; [lia|]. split; [exact E|]. replace (Z.to_nat ((dpos - pos) / 24)) with (S (Z.to_nat ((dpos - (pos + 24)) / 24))) by zsolve. exact He.
      * right. rewrite length_cons. split; [rewrite E; do 2 f_equal; lia|lia].
    + assert (pos = dpos) as -> by lia. left. exists k. split; [lia|]. rewrite ASSERT_true by (apply Z.eqb_refl). split; [done|]. rewrite Z.sub_diag. done.
  - assert (Hz : f_type (slot_at sec k) = 0) by (destruct (decide (f_type (slot_at sec k) = 0)); [done|by destruct Hlv]). rewrite Hz. change (negb (0 =? 0)) with false. cbv iota.
    destruct (IH (S k) pos) as [(j & Hj & E & He)|[E He]]; [lia|lia|lia|done|done| |].
    + left. exists j. split; [lia|done].
    + right. done.
Qed.

Lemma read_blocks_run d x i s pos blocks :
  layout s → dirs s !! d = Some x → inodes s !! d_inode x = Some i → 0 ≤ pos ≤ dir_pos x → dir_pos x < 1000000 → pos mod 24 = 0 → dir_pos x mod 24 = 0 →
  length (dir_buf x) = 512%nat → Forall (λ b, b ≤ max_lba) blocks →
  i_size i = pos + 24 * Z.of_nat (length (filter is_live (concat (pos_slots (drive s) <$> blocks)))) →
  ∃ r x', read_blocks blocks d pos 24 s = Ok (r, set_dirs (<[d := x']> (dirs s)) s) ∧ d_inode x' = d_inode x ∧ length (dir_buf x') = 512%nat ∧
    match filter is_live (concat (pos_slots (drive s) <$> blocks)) !! Z.to_nat ((dir_pos x - pos) / 24) with
    | Some e => dir_pos x' = dir_pos x + 24 ∧ ∃ j, (j < 21)%nat ∧ r = Some (Z.of_nat j) ∧ slot_at (dir_buf x') j = e
    | None => dir_pos x' = dir_pos x ∧ r = None
    end.
Proof.
  intros Hl. revert s x pos Hl. induction blocks as [|b blocks IH]; intros s x pos Hl Hx Hi Hp Hd Hm1 Hm2 Hbuf Hmax Hsz.
  { exists None, x. split; [|done]. cbn. rewrite insert_id by done. by destruct s. }
  apply Forall_cons in Hmax as [Hbm Hmax]. cbn [read_blocks]. mstep (dir_at_run d x s Hx). mstep (inode_at_run _ i s Hi).
  rewrite fmap_cons in *. cbn [concat] in *. rewrite filter_app in *. rewrite length_app in Hsz. destruct (Z.leb_spec (i_size i) (dir_pos x)) as [Hle|Hgt].
  { exists None, x. split; [unfold mok; rewrite insert_id by done; by destruct s|]. split; [done|]. split; [done|]. rewrite lookup_ge_None_2; [done|]. rewrite length_app. zsolve. }
  destruct (Z.eqb_spec b 0) as [->|Hb]; [by apply IH|]. assert (Hps : pos_slots (drive s) b = slots (sector (drive s) b)) by (unfold pos_slots; by rewrite (proj2 (Z.eqb_neq b 0))).
  rewrite Hps in *. pose proof (sector_length (drive s) b (ly_disk s Hl)) as Hsl. set (sec := sector (drive s) b) in *.
  mstep (mlift_Ok _ s _ (memset_block (dir_buf x) Hbuf)). mstep (read_sector_run b (replicate 512 0) s (ly_disk s Hl) Hbm ltac:(by rewrite length_replicate)).
  change (drop 512 (replicate 512 0)) with (@nil Z). rewrite app_nil_r. fold sec. set (x1 := Dir (d_inode x) (dir_pos x) sec). set (s1 := set_dirs (<[d := x1]> (dirs s)) s).
  mstep (eq_refl : put_dir d x1 s = Ok (tt, s1)). change (Z.to_nat (SECTOR_SIZE / 24)) with 21%nat.
  destruct (read_entries_run 21 sec sec 0 pos (dir_pos x) Hsl eq_refl eq_refl ltac:(lia) ltac:(lia) Hm1 Hm2) as [(j & Hj & E & He)|[E He]]; rewrite drop_0 in He.
  - mstep (mlift_Ok _ s1 _ E). rewrite u32_small by lia. exists (Some (Z.of_nat j)), (Dir (d_inode x) (dir_pos x + 24) sec). split.
    + unfold mbnd, put_dir, mmod, mok. cbn [rbind fst snd]. unfold s1, set_dirs. cbn. by rewrite insert_insert_eq.
    + split; [done|]. split; [done|]. rewrite (lookup_app_l_Some _ _ _ _ He). split; [done|]. exists j. split; [lia|done].
  - rewrite drop_0 in E. mstep (mlift_Ok _ s1 _ E). cbn [fst snd]. remember (length (filter is_live (slots sec))) as n eqn:En.
    destruct (IH s1 x1 (pos + 24 * Z.of_nat n)) as (r & x' & E' & H1 & H2 & H3); try done.
    + by destruct Hl; split.
    + cbn. by rewrite lookup_insert_eq.
    + change (dir_pos x1) with (dir_pos x). lia.
    + zsolve.
    + change (drive s1) with (drive s). lia.
    + exists r, x'. split; [rewrite E'; unfold s1, set_dirs; cbn; by rewrite insert_insert_eq|]. split; [done|]. split; [done|].
      rewrite lookup_app_r by (rewrite <-En; zsolve). rewrite <-En. change (dir_pos x1) with (dir_pos x) in H3. change (drive s1) with (drive s) in H3.
      replace (Z.to_nat ((dir_pos x - pos) / 24) - n)%nat with (Z.to_nat ((dir_pos x - (pos + 24 * Z.of_nat n)) / 24)) by zsolve. exact H3.
Qed.

Lemma search_dir_entry_run pdir x i name n s :
  layout s → dirs s !! pdir = Some x → inodes s !! d_inode x = Some i → dir_ok s i → dir_entry_size (sb (cur_part s)) = 24 →
  cstr name n → n ≠ [] → oom s = [] → 0 < brk s →
  search_dir_entry pdir name s = Ok (find (named n) (entries (drive s) i), set_heap (brk s + 2) [] (live s) s).
Proof.
  intros Hl Hx Hi Hok Hsz Hn Hne Hoom Hbrk. unfold search_dir_entry. mstep (malloc_buf_run 560 s Hoom Hbrk). set (s1 := set_heap _ _ _ s).
  mstep (dir_at_run pdir x s1 Hx). pose proof (dk_inode s i Hok) as (_ & _ & Hlen & _). mstep (dir_blocks_run (d_inode x) i s1 Hi Hlen (dk_tbl s i Hok)).
  mstep (malloc_buf_run 512 s1 eq_refl ltac:(cbn; lia)). set (s2 := set_heap _ _ _ s1).
  unfold mbnd at 1. unfold mget at 1. cbn [rbind fst snd]. change (dir_entry_size (sb (cur_part s2))) with (dir_entry_size (sb (cur_part s))). rewrite Hsz.
  assert (Hcat : concat (pos_slots (drive s) <$> take 12 (i_sectors i) ++ replicate 128 0) = dir_slots (drive s) i).
  { rewrite fmap_app, concat_app, pos_slots_zeros. apply app_nil_r. }
  destruct (search_blocks_run (take 12 (i_sectors i) ++ replicate 128 0) (replicate 512 0) name n s2) as (r & E & Hr).
  - apply Hl.
  - by apply (blocks_max s).
  - done.
  - change (drive s2) with (drive s). rewrite Hcat. apply (dk_slots s i Hok).
  - done.
  - mstep E. unfold sys_free, mmod, mbnd, mok. cbn [rbind fst snd]. change (drive s2) with (drive s) in Hr. rewrite Hcat in Hr. rewrite Hr. unfold entries.
    rewrite find_filter by (intros e; by apply (live_named s i)). do 2 f_equal. unfold s2, s1, set_heap. cbn. f_equal; lia.
Qed.

Lemma sync_dir_entry_run pdir x i e io s :
  layout s → dirs s !! pdir = Some x → inodes s !! d_inode x = Some i → dir_ok s i → dir_entry_size (sb (cur_part s)) = 24 →
  entry_ok e → is_live e → (512 ≤ length io)%nat → (0 ∈ take 12 (i_sectors i) → (1 ≤ length (free_bits (bb s)))%nat) →
  (∃ b, b ∈ take 12 (i_sectors i) ∧ (b = 0 ∨ ∃ e', e' ∈ pos_slots (drive s) b ∧ ¬ is_live e')) →
  ∃ io' i' s', sync_dir_entry pdir e io s = Ok ((true, io'), s') ∧ length io' = length io ∧ dir_changed (d_inode x) i i' s s' ∧
    (entries (drive s') i' ≡ₚ e :: entries (drive s) i) ∧ i_size i' = i_size i + 24 ∧ table s' = table s ∧
    ((∀ e', e' ∈ entries (drive s) i → de_name e' ≠ de_name e) → find (named (de_name e)) (entries (drive s') i') = Some e).
Proof.
  intros Hl Hx Hi Hok Hsz He Hlive Hio Hfree Hroom. unfold sync_dir_entry. mstep (dir_at_run pdir x s Hx). mstep (inode_at_run _ i s Hi).
  unfold mbnd at 1. unfold mget at 1. cbn [rbind fst snd]. rewrite Hsz.
  mstep (mlift_Ok _ s _ (ASSERT_true (i_size i mod 24 =? 0) ltac:(apply Z.eqb_eq; rewrite (dk_size s i Hok), Z.mul_comm; by apply Z.mod_mul))).
  destruct (sync_loop_run 140 (d_inode x) i e io s [] (take 12 (i_sectors i)) Hl Hi Hok He Hlive Hio Hfree eq_refl) as (io' & i' & s' & E & Hlio & Hch & Hen & Ht);
    [rewrite length_take; lia|done|].
  exists io', i', s'. split; [exact E|]. split; [done|]. split; [done|]. split; [done|]. split; [|split; [done|]].
  - rewrite (dk_size s i Hok), (dk_size _ _ (dc_ok _ _ _ _ _ Hch)), (Permutation_length Hen). simpl. lia.
  - intros Hnew. assert (Hall : ∀ y, y ∈ entries (drive s') i' → named (de_name e) y = true → y = e).
    { intros y Hy Hn. rewrite Hen in Hy. apply elem_of_cons in Hy as [->|Hy]; [done|]. apply bool_decide_eq_true in Hn. by destruct (Hnew y Hy). }
    destruct (find (named (de_name e)) (entries (drive s') i')) as [y|] eqn:Ef.
    + apply find_some in Ef as [Hy Hn]. f_equal. apply Hall; [by apply list_elem_of_In|done].
    + exfalso. assert (Hin : e ∈ entries (drive s') i') by (rewrite Hen; by left). apply list_elem_of_In in Hin. pose proof (find_none _ _ Ef e Hin) as Hf.
      unfold named in Hf. by rewrite bool_decide_eq_true_2 in Hf.
Qed.

Lemma delete_dir_entry_run pdir x i n e io s :
  layout s → dirs s !! pdir = Some x → inodes s !! d_inode x = Some i → dir_ok s i → dots_ok s i → dir_entry_size (sb (cur_part s)) = 24 →
  i_no i < 256 → (1024 ≤ length io)%nat → filter (hits n) (dir_slots (drive s) i) = [e] →
  ∃ i' s', delete_dir_entry pdir n io s = Ok (true, s') ∧ dir_changed (d_inode x) i i' s s' ∧ (entries (drive s) i ≡ₚ e :: entries (drive s') i') ∧
    ∀ m, 0 ≤ m < 4096 → slot s' m = if decide (m = i_no i) then bytes_of (pure_words i') else slot s m.
Proof.
  intros Hl Hx Hi Hok Hdots Hsz Hno Hio Hhit. unfold delete_dir_entry. mstep (dir_at_run pdir x s Hx). pose proof (dk_inode s i Hok) as (_ & _ & Hlen & _).
  mstep (dir_blocks_run (d_inode x) i s Hi Hlen (dk_tbl s i Hok)). unfold mbnd at 1. unfold mget at 1. cbn [rbind fst snd]. rewrite Hsz.
  by apply (delete_loop_run (d_inode x) i n e s [] (take 12 (i_sectors i)) io).
Qed.

End dir_lemmas.

(** ** Theorems *)

Section dir_properties.
Context {B : Build}.

(** C20: [search_dir_entry] finds: in a well-formed directory in direct blocks it
    returns the first live entry with the name, or [false] when no entry has it;
    neither the disk nor the directory changes and the memory is given back. *)
Theorem search_dir_entry_finds pdir x i name n s :
  layout s → dirs s !! pdir = Some x → inodes s !! d_inode x = Some i → dir_ok s i → dir_entry_size (sb (cur_part s)) = 24 →
  cstr name n → n ≠ [] → oom s = [] → 0 < brk s →
  search_dir_entry pdir name s = Ok (find (named n) (entries (drive s) i), set_heap (brk s + 2) [] (live s) s).
Proof. apply search_dir_entry_run. Qed.

(** C21: [sync_dir_entry] adds: in a well-formed directory in direct blocks, while
    a direct block has a free entry or is still missing, and if one is missing
    the disk has a free block, it returns [true] and the directory holds the
    entries it held and the new one; a later search for a name that was not
    there finds it; the size counts it; no other block, inode or open file
    changes, and the blocks in use are those from before and, when the entry
    went into a new block, that one. *)
Theorem sync_dir_entry_adds pdir x i e io s :
  layout s → dirs s !! pdir = Some x → inodes s !! d_inode x = Some i → dir_ok s i → dir_entry_size (sb (cur_part s)) = 24 →
  entry_ok e → is_live e → (512 ≤ length io)%nat → (0 ∈ take 12 (i_sectors i) → (1 ≤ length (free_bits (bb s)))%nat) →
  (∃ b, b ∈ take 12 (i_sectors i) ∧ (b = 0 ∨ ∃ e', e' ∈ pos_slots (drive s) b ∧ ¬ is_live e')) →
  ∃ io' i' s', sync_dir_entry pdir e io s = Ok ((true, io'), s') ∧ dir_changed (d_inode x) i i' s s' ∧
    (entries (drive s') i' ≡ₚ e :: entries (drive s) i) ∧ i_size i' = i_size i + 24 ∧ table s' = table s ∧
    ((∀ e', e' ∈ entries (drive s) i → de_name e' ≠ de_name e) → find (named (de_name e)) (entries (drive s') i') = Some e).
Proof.
  intros. destruct (sync_dir_entry_run pdir x i e io s) as (io' & i' & s' & E & _ & H'); try done. by exists io', i', s'.
Qed.

(** C22: [delete_dir_entry] removes: in a well-formed directory in direct blocks
    with an inode number below 256, the one entry with the inode number that is
    neither "." nor ".." disappears and no other, whether its sector is kept or
    was its last; in the block map the sectors that the directory then has are
    in use, one it has lost is free, and every other block is as it was; the
    directory's inode on disk is brought up to date and no other inode, block or
    open file changes. *)
Theorem delete_dir_entry_removes pdir x i n e io s :
  layout s → dirs s !! pdir = Some x → inodes s !! d_inode x = Some i → dir_ok s i → dots_ok s i → dir_entry_size (sb (cur_part s)) = 24 →
  i_no i < 256 → (1024 ≤ length io)%nat → filter (hits n) (dir_slots (drive s) i) = [e] →
  ∃ i' s', delete_dir_entry pdir n io s = Ok (true, s') ∧ dir_changed (d_inode x) i i' s s' ∧ (entries (drive s) i ≡ₚ e :: entries (drive s') i') ∧
    ∀ m, 0 ≤ m < 4096 → slot s' m = if decide (m = i_no i) then bytes_of (pure_words i') else slot s m.
Proof. apply delete_dir_entry_run. Qed.

(** The entries a caller gets that calls [dir_read] until it returns NULL. *)
Fixpoint list_dir (fuel : nat) (d : Z) : M fs (list dir_entry) :=
  match fuel with
  | O => mok []
  | S fuel' =>
      let! r := dir_read d in
      match r with
      | None => mok []
      | Some k => let! x := dir_at d in let! es := list_dir fuel' d in mok (slot_at (dir_buf x) (Z.to_nat k) :: es)
      end
  end.

Lemma dir_read_run d x i s k :
  layout s → dirs s !! d = Some x → inodes s !! d_inode x = Some i → dir_ok s i → dir_entry_size (sb (cur_part s)) = 24 →
  dir_pos x = 24 * Z.of_nat k → (k ≤ length (entries (drive s) i))%nat → length (dir_buf x) = 512%nat →
  ∃ r x', dir_read d s = Ok (r, set_dirs (<[d := x']> (dirs s)) s) ∧ d_inode x' = d_inode x ∧ length (dir_buf x') = 512%nat ∧
    match entries (drive s) i !! k with
    | Some e => dir_pos x' = 24 * Z.of_nat (S k) ∧ ∃ j, r = Some (Z.of_nat j) ∧ slot_at (dir_buf x') j = e
    | None => r = None
    end.
Proof.
  intros Hl Hx Hi Hok Hsz Hp Hk Hbuf. pose proof (dk_inode s i Hok) as (_ & _ & Hlen & _). pose proof (dir_size_bound s i Hok) as Hb. pose proof (dk_size s i Hok) as Hs.
  unfold dir_read. mstep (dir_at_run d x s Hx). mstep (inode_at_run _ i s Hi).
  mstep (mlift_Ok _ s _ (rd_lookup (i_sectors i) 12 0 ltac:(lia) ltac:(rewrite <-(dk_tbl s i Hok); apply (tbl_lookup i Hlen)))).
  mstep (dir_blocks_run (d_inode x) i s Hi Hlen (dk_tbl s i Hok)). unfold mbnd at 1. unfold mget at 1. cbn [rbind fst snd]. rewrite Hsz.
  change (negb (0 =? 0)) with false. cbv iota. rewrite take_app_length' by (rewrite length_take; lia).
  destruct (read_blocks_run d x i s 0 (take 12 (i_sectors i))) as (r & x' & E & H1 & H2 & H3); try done; try lia.
  - rewrite Hp, Z.mul_comm. by apply Z.mod_mul.
  - pose proof (blocks_max s i Hok) as H. by apply Forall_app in H as [H _].
  - exists r, x'. split; [exact E|]. split; [done|]. split; [done|]. fold (dir_slots (drive s) i) in H3. fold (entries (drive s) i) in H3.
    replace (Z.to_nat ((dir_pos x - 0) / 24)) with k in H3 by (rewrite Hp, Z.sub_0_r, Z.mul_comm, Z.div_mul; lia).
    destruct (entries (drive s) i !! k) as [e|]; [|by destruct H3]. destruct H3 as [H3 (j & _ & Hr & He)]. split; [lia|by exists j].
Qed.

(** Reading a directory from its start gives every live entry exactly once, in
    the order of the blocks, and then NULL; neither the disk nor the inodes
    change. *)
Theorem dir_read_lists d x i s fuel :
  layout s → dirs s !! d = Some x → inodes s !! d_inode x = Some i → dir_ok s i → dir_entry_size (sb (cur_part s)) = 24 →
  dir_pos x = 0 → length (dir_buf x) = 512%nat → (length (entries (drive s) i) < fuel)%nat →
  ∃ x', list_dir fuel d s = Ok (entries (drive s) i, set_dirs (<[d := x']> (dirs s)) s) ∧ d_inode x' = d_inode x.
Proof.
  intros Hl Hx Hi Hok Hsz Hp Hbuf Hfuel. assert (Hgen : ∀ m k s1 x1, s1 = set_dirs (<[d := x1]> (dirs s)) s → d_inode x1 = d_inode x → length (dir_buf x1) = 512%nat →
    dir_pos x1 = 24 * Z.of_nat k → (k ≤ length (entries (drive s) i))%nat → (length (entries (drive s) i) - k < m)%nat →
    ∃ x', list_dir m d s1 = Ok (drop k (entries (drive s) i), set_dirs (<[d := x']> (dirs s)) s) ∧ d_inode x' = d_inode x).
  { induction m as [|m IH]; intros k s1 x1 -> Hq Hb Hp1 Hk Hm; [lia|]. cbn [list_dir]. set (s1 := set_dirs _ s).
    destruct (dir_read_run d x1 i s1 k) as (r & x' & E & H1 & H2 & H3); try done.
    - by destruct Hl; split.
    - cbn. by rewrite lookup_insert_eq.
    - by rewrite Hq.
    - by destruct Hok; split.
    - assert (Hs2 : set_dirs (<[d := x']> (dirs s1)) s1 = set_dirs (<[d := x']> (dirs s)) s) by (unfold s1, set_dirs; cbn; by rewrite insert_insert_eq).
      mstep E. rewrite Hs2. change (drive s1) with (drive s) in H3. destruct (entries (drive s) i !! k) as [e|] eqn:Ee.
      + destruct H3 as [Hp' (j & -> & He)]. mstep (dir_at_run d x' (set_dirs (<[d := x']> (dirs s)) s) ltac:(cbn; by rewrite lookup_insert_eq)).
        apply lookup_lt_Some in Ee as Hlt. destruct (IH (S k) (set_dirs (<[d := x']> (dirs s)) s) x' eq_refl ltac:(congruence) H2 Hp' ltac:(lia) ltac:(lia)) as (x'' & E' & Hq').
        mstep E'. exists x''. split; [|done]. unfold mok. rewrite Nat2Z.id, He. by rewrite (drop_S _ _ _ Ee).
      + rewrite H3. exists x'. split; [|congruence]. rewrite drop_ge by (by apply lookup_ge_None). done. }
  destruct (Hgen fuel 0%nat s x) as (x' & E & Hq'); try done; try lia.
  - rewrite insert_id by done. by destruct s.
  - by exists x'.
Qed.

End dir_properties.

(** ** Directories with a table *)

(** Twelve full blocks and, in the table, a block with the one entry "y". *)
Definition entry_x : dir_entry := DirEntry (120 :: replicate 15 0) 7 FT_REGULAR.
Definition entry_y : dir_entry := DirEntry (121 :: replicate 15 0) 9 FT_REGULAR.
Definition entry_z : dir_entry := DirEntry (122 :: replicate 15 0) 11 FT_REGULAR.
Definition full_sector : list Z := concat (replicate 21 (de_bytes entry_x)) ++ replicate 8 0.
Definition full_disk : disk :=
  <[625 := bytes_of (626 :: replicate 127 0)]> (<[626 := de_bytes entry_y ++ replicate 488 0]>
    (foldr (λ b d, <[b := full_sector]> d) demo_disk (seqZ 613 12))).
Definition full_inode : inode := Inode 0 6072 1 false (seqZ 613 12 ++ [625]).
Definition full_dir : fs :=
  set_dirs {[ root_dir := Dir 8192 0 (replicate 512 0) ]} (set_inodes {[ 8192 := full_inode ]}
    (set_part (set_block_bitmap (Bitmap 512 (255 :: 127 :: replicate 511 0)) (cur_part demo_fs)) (set_drive full_disk demo_fs))).

(** [sync_dir_entry] never reads the table of indirect blocks: in a directory
    that has one it takes a new block for the table and overwrites the address,
    so that the entries in the old table's blocks, here "y", are lost. *)
Theorem sync_dir_entry_drops_table : ∃ io s1 s2 s3,
  @search_dir_entry debug_build root_dir [121; 0] full_dir = Ok (Some entry_y, s1) ∧
  @sync_dir_entry debug_build root_dir entry_z (replicate 512 0) full_dir = Ok ((true, io), s2) ∧
  @search_dir_entry debug_build root_dir [121; 0] s2 = Ok (None, s3).
Proof. eexists _, _, _, _. split; [vm_compute; reflexivity|]. split; [vm_compute; reflexivity|]. vm_compute. reflexivity. Qed.

(** Deleting the last entry of an indirect block never ends: the loop that
    counts the indirect blocks does not advance. *)
Theorem delete_indirect_spins : @delete_dir_entry debug_build root_dir 9 (replicate 1024 0) full_dir = Spin.
Proof. vm_compute. reflexivity. Qed.

(** ** Witnesses *)

(** The root directory with ".", ".." and a file "x". *)
Definition small_sector : list Z :=
  de_bytes (DirEntry (46 :: replicate 15 0) 0 FT_DIRECTORY) ++ de_bytes (DirEntry (46 :: 46 :: replicate 14 0) 0 FT_DIRECTORY) ++ de_bytes entry_x ++ replicate 440 0.
Definition small_inode : inode := Inode 0 72 1 false (612 :: replicate 12 0).
Definition small_dir : fs :=
  set_dirs {[ root_dir := Dir 8192 0 (replicate 512 0) ]} (set_inodes {[ 8192 := small_inode ]} (set_drive (<[612 := small_sector]> demo_disk) demo_fs)).

Lemma small_slots : dir_slots (drive small_dir) small_inode =
  [DirEntry (46 :: replicate 15 0) 0 FT_DIRECTORY; DirEntry (46 :: 46 :: replicate 14 0) 0 FT_DIRECTORY; entry_x] ++ replicate 18 no_entry.
Proof. vm_compute. reflexivity. Qed.

Lemma small_layout : layout small_dir.
Proof.
  assert (layout (set_drive (<[612 := small_sector]> demo_disk) demo_fs)) as [] by (apply layout_set_drive; [apply demo_layout|apply disk_ok_insert; [apply demo_disk_ok|done]]). by split.
Qed.

Lemma live_ok fn n t r m : Forall is_char n → n ≠ [] → t ≠ FT_UNKNOWN → fn = n ++ 0 :: r → slot_ok (DirEntry fn m t).
Proof.
  intros Hn Hne Ht ->. assert (Hc : cstr (n ++ 0 :: r) n) by (split; [done|by exists r]). unfold slot_ok, de_name, is_live. cbn. rewrite (cname_cstr _ _ Hc). done.
Qed.

Lemma entry_x_ok : slot_ok entry_x.
Proof. by apply (live_ok _ [120] _ (replicate 14 0)); [by_decide|..]. Qed.

Lemma small_dir_ok : dir_ok small_dir small_inode.
Proof.
  split.
  - by_decide.
  - reflexivity.
  - unfold taken. by_decide.
  - by_decide.
  - rewrite small_slots. apply Forall_app. split; [|apply Forall_replicate, no_entry_ok]. apply Forall_cons. split; [|apply Forall_cons; split; [|apply Forall_singleton, entry_x_ok]].
    + by apply (live_ok _ [46] _ (replicate 14 0)); [by_decide|..].
    + by apply (live_ok _ [46; 46] _ (replicate 13 0)); [by_decide|..].
  - unfold entries. rewrite small_slots. reflexivity.
Qed.

Lemma search_dir_entry_finds_witness : ∃ s', @search_dir_entry debug_build root_dir [120; 0] small_dir = Ok (Some entry_x, s').
Proof.
  eexists. etransitivity.
  - apply (@search_dir_entry_finds debug_build root_dir (Dir 8192 0 (replicate 512 0)) small_inode [120; 0] [120] small_dir).
    + apply small_layout.
    + reflexivity.
    + reflexivity.
    + apply small_dir_ok.
    + reflexivity.
    + split; [by_decide|]. by exists [].
    + discriminate.
    + reflexivity.
    + reflexivity.
  - vm_compute. reflexivity.
Defined.

Lemma sync_dir_entry_adds_witness : ∃ io' i' s',
  @sync_dir_entry debug_build root_dir entry_z (replicate 512 0) small_dir = Ok ((true, io'), s') ∧ i_size i' = 96 ∧ find (named [122]) (entries (drive s') i') = Some entry_z.
Proof.
  destruct (@sync_dir_entry_adds debug_build root_dir (Dir 8192 0 (replicate 512 0)) small_inode entry_z (replicate 512 0) small_dir) as (io' & i' & s' & E & _ & _ & Hs & _ & Hf).
  - apply small_layout.
  - reflexivity.
  - reflexivity.
  - apply small_dir_ok.
  - reflexivity.
  - split; [done|]. split; [by_decide|]. split; [by_decide|]. by apply (live_ok _ [122] _ (replicate 14 0)); [by_decide|..].
  - discriminate.
  - rewrite length_replicate. lia.
  - vm_compute. lia.
  - exists 0. split; [by_decide|by left].
  - exists io', i', s'. split; [exact E|]. split; [exact Hs|]. apply Hf. intros e'. unfold entries. rewrite small_slots. intros He'. vm_compute in He'.
    repeat (apply elem_of_cons in He' as [->|He']; [discriminate|]). by apply elem_of_nil in He'.
Defined.

Lemma delete_dir_entry_removes_witness : ∃ i' s',
  @delete_dir_entry debug_build root_dir 7 (replicate 1024 0) small_dir = Ok (true, s') ∧ length (entries (drive s') i') = 2%nat.
Proof.
  destruct (@delete_dir_entry_removes debug_build root_dir (Dir 8192 0 (replicate 512 0)) small_inode 7 entry_x (replicate 1024 0) small_dir) as (i' & s' & E & _ & Hp & _).
  - apply small_layout.
  - reflexivity.
  - reflexivity.
  - apply small_dir_ok.
  - intros b Hb _. exists (DirEntry (46 :: replicate 15 0) 0 FT_DIRECTORY). vm_compute in Hb. apply list_elem_of_singleton in Hb as ->. split; [vm_compute; left|done].
  - reflexivity.
  - reflexivity.
  - rewrite length_replicate. lia.
  - vm_compute. reflexivity.
  - exists i', s'. split; [exact E|]. apply Permutation_length in Hp. injection Hp as <-. reflexivity.
Defined.

Lemma dir_read_lists_witness : ∃ s',
  @list_dir debug_build 4 root_dir small_dir = Ok ([DirEntry (46 :: replicate 15 0) 0 FT_DIRECTORY; DirEntry (46 :: 46 :: replicate 14 0) 0 FT_DIRECTORY; entry_x], s').
Proof.
  destruct (@dir_read_lists debug_build root_dir (Dir 8192 0 (replicate 512 0)) small_inode small_dir 4) as (x' & E & _).
  - apply small_layout.
  - reflexivity.
  - reflexivity.
  - apply small_dir_ok.
  - reflexivity.
  - reflexivity.
  - apply length_replicate.
  - vm_compute. lia.
  - eexists. etransitivity; [exact E|]. unfold entries. rewrite small_slots. reflexivity.
Defined.
