(* ===== verification/Fs.v ===== *)
(** * File system calls on paths ([fs/fs.c], [file_create] of [fs/file.c])

    [search_file] walks a path from the root directory; the calls that take a
    path open, create, delete, list or examine what it finds.  Messages on the
    screen are not part of the model.  [Stack] holds what two local arrays that
    the code reads before it sets them happen to contain. *)

From S2P Require Import Prelude CString Bitmap Disk Inode File Dir Path.

Record path_search_record := Psr { searched_path : list Z; parent_dir : Z; file_type : Z }.
Record stat := Stat { st_ino : Z; st_size : Z; st_filetype : Z }.

Definition zero_record : path_search_record := Psr (replicate 512 0) NULL FT_UNKNOWN.

Class Stack := { stk_name : list Z; stk_entry : dir_entry }.

Section fs_ops.
Context {B : Build} {J : Stack}.

(** ** Resolving a path *)

(** The [||] of three comparisons with "/", "/." and "/..". *)
Definition is_root_path (pathname : list Z) : res bool :=
  let? c1 := strcmp (Some pathname) (Some [slash; 0]) in
  if c1 =? 0 then Ok true else
  let? c2 := strcmp (Some pathname) (Some [slash; 46; 0]) in
  if c2 =? 0 then Ok true else
  let? c3 := strcmp (Some pathname) (Some [slash; 46; 46; 0]) in
  Ok (c3 =? 0).

(** The rest of the path after one more name, or what is left of it. *)
Definition next_name (sub_path : option (list Z)) (name : list Z) : res (option (list Z) * list Z) :=
  let? name := memset (Some name) 0 MAX_FILE_NAME_LEN in
  match sub_path with Some q => path_parse q name | None => Ok (None, name) end.

(** The loop over the names and what follows it; every turn but the last takes
    a name off the path. *)
Fixpoint search_loop (fuel : nat) (sub_path : option (list Z)) (name : list Z) (pdir parent_inode_no : Z)
    (dir_e : dir_entry) (r : path_search_record) : M fs (Z * path_search_record) :=
  match fuel with
  | O => λ _, Spin
  | S fuel' =>
      let! n0 := mlift (rd name 0) in
      if n0 =? 0 then
        do! dir_close (parent_dir r) in
        let! d := dir_open parent_inode_no in
        mok (s32 (de_i_no dir_e), Psr (searched_path r) d FT_DIRECTORY)
      else
        let! len := mlift (strlen (Some (searched_path r))) in
        do! mlift (ASSERT (len <? 512)) in
        let! p := mlift (strcat (Some (searched_path r)) (Some [slash; 0])) in
        let! p := mlift (strcat (Some p) (Some name)) in
        let! found := search_dir_entry pdir name in
        match found with
        | None => mok (-1, Psr p (parent_dir r) (file_type r))
        | Some e =>
            let! nx := mlift (next_name sub_path name) in
            if FT_DIRECTORY =? f_type e then
              let! x := dir_at pdir in
              let! i := inode_at (d_inode x) in
              do! dir_close pdir in
              let! d := dir_open (de_i_no e) in
              search_loop fuel' nx.1 nx.2 d (i_no i) e (Psr p d (file_type r))
            else if FT_REGULAR =? f_type e then
              mok (s32 (de_i_no e), Psr p (parent_dir r) FT_REGULAR)
            else search_loop fuel' nx.1 nx.2 pdir parent_inode_no e (Psr p (parent_dir r) (file_type r))
        end
  end.

Definition search_file (pathname : list Z) (r : path_search_record) : M fs (Z * path_search_record) :=
  let! root := mlift (is_root_path pathname) in
  if root then
    let! p := mlift (wr (searched_path r) 0 0) in
    mok (0, Psr p root_dir FT_DIRECTORY)
  else
    let! path_len := mlift (strlen (Some pathname)) in
    let! c := mlift (rd pathname 0) in
    do! mlift (ASSERT ((c =? slash) && (1 <? path_len) && (path_len <? MAX_PATH_LEN))) in
    let! nx := mlift (path_parse pathname (replicate 16 0)) in
    search_loop (S (S (length pathname))) nx.1 nx.2 root_dir 0 stk_entry (Psr (searched_path r) root_dir FT_UNKNOWN).

(** ** Creating a file ([fs/file.c]) *)

(** The statements behind [rollback:]; the cases fall through. *)
Definition create_rollback (rollback_step inode_no new_file_inode fd_idx : Z) : M fs Z :=
  do! (if rollback_step =? 3 then put_file fd_idx (File 0 0 NULL) else mok tt) in
  do! (if 2 <=? rollback_step then
         do! mmod (λ s, set_inodes (delete new_file_inode (inodes s)) s) in sys_free
       else mok tt) in
  do! set_inode_bit (u32 inode_no) 0 in
  do! sys_free in
  mok (-1).

Definition file_create (pdir : Z) (fname : list Z) (flag : Z) : M fs Z :=
  let! io_buf := malloc_buf 1024 in
  match io_buf with
  | None => mok (-1)
  | Some io_buf =>
      let! inode_no := inode_bitmap_alloc in
      if inode_no =? -1 then mok (-1) else
      let! q := sys_malloc in
      if q =? NULL then create_rollback 1 inode_no q 0 else
      do! put_inode q (inode_init inode_no) in
      let! fd_idx := get_free_slot_in_global in
      if fd_idx =? -1 then create_rollback 2 inode_no q 0 else
      do! put_file fd_idx (File 0 flag q) in
      let! e := mlift (create_dir_entry fname inode_no FT_REGULAR (DirEntry (replicate 16 0) 0 0)) in
      let! r := sync_dir_entry pdir e io_buf in
      if negb r.1 then create_rollback 3 inode_no q fd_idx else
      let! io_buf := mlift (memset (Some r.2) 0 1024) in
      let! x := dir_at pdir in
      let! pi := inode_at (d_inode x) in
      let! io_buf := inode_sync pi io_buf in
      let! io_buf := mlift (memset (Some io_buf) 0 1024) in
      let! i := inode_at q in
      let! _ := inode_sync i io_buf in
      do! bitmap_sync (u32 inode_no) INODE_BITMAP in
      do! mmod (λ s, set_part (set_open_inodes (q :: open_inodes (cur_part s)) (cur_part s)) s) in
      let! i := inode_at q in
      do! put_inode q (set_open_cnts 1 i) in
      do! sys_free in
      pcb_fd_install fd_idx
  end.

(** ** [sys_open] *)

Definition close_and_fail (r : path_search_record) : M fs Z := do! dir_close (parent_dir r) in mok (-1).

(** The part of a path behind its last slash. *)
Definition base_name (path : list Z) : res (list Z) :=
  let? o := strrchr (Some path) slash in
  match o with Some k => Ok (drop (Z.to_nat (k + 1)) path) | None => Fault end.

Definition sys_open (pathname : list Z) (flags : Z) : M fs Z :=
  let! len := mlift (strlen (Some pathname)) in
  let! c := mlift (rd pathname (u32 (len - 1))) in
  if c =? slash then mok (-1) else
  do! mlift (ASSERT (flags <=? 7)) in
  let! pathname_depth := mlift (path_depth_cnt stk_name pathname) in
  let! sr := search_file pathname zero_record in
  let '(inode_no, r) := sr in
  let found := negb (inode_no =? -1) in
  let creating := negb (Z.land flags O_CREAT =? 0) in
  if file_type r =? FT_DIRECTORY then close_and_fail r else
  let! path_searched_depth := mlift (path_depth_cnt stk_name (searched_path r)) in
  if negb (pathname_depth =? path_searched_depth) then close_and_fail r else
  if negb found && negb creating then close_and_fail r else
  if found && creating then close_and_fail r else
  if creating then
    let! fname := mlift (base_name pathname) in
    let! fd := file_create (parent_dir r) fname flags in
    do! dir_close (parent_dir r) in
    mok fd
  else file_open inode_no flags.

(** ** Deleting a file *)

(** The search for an open file with that inode *)
Fixpoint file_in_use (n : nat) (file_idx inode_no : Z) : M fs bool :=
  match n with
  | O => mok false
  | S n' =>
      let! x := file_at file_idx in
      if fd_inode x =? NULL then file_in_use n' (file_idx + 1) inode_no else
      let! i := inode_at (fd_inode x) in
      if u32 inode_no =? i_no i then mok true else file_in_use n' (file_idx + 1) inode_no
  end.

Definition sys_unlink (pathname : list Z) : M fs Z :=
  let! len := mlift (strlen (Some pathname)) in
  do! mlift (ASSERT (len <? MAX_PATH_LEN)) in
  let! sr := search_file pathname zero_record in
  let '(inode_no, r) := sr in
  do! mlift (ASSERT (negb (inode_no =? 0))) in
  if inode_no =? -1 then close_and_fail r else
  if file_type r =? FT_DIRECTORY then close_and_fail r else
  let! in_use := file_in_use (Z.to_nat MAX_FILE_OPEN) 0 inode_no in
  if in_use then close_and_fail r else
  let! io_buf := malloc_buf 1024 in
  match io_buf with
  | None => close_and_fail r
  | Some io_buf =>
      do! delete_dir_entry (parent_dir r) (u32 inode_no) io_buf in
      do! inode_release (u32 inode_no) in
      do! sys_free in
      do! dir_close (parent_dir r) in
      mok 0
  end.

(** ** Directories *)

(** [memcpy(p_de->filename, name, ...)] and the two assignments, at index [k] of a buffer *)
Definition put_entry (buf : list Z) (k : Z) (name : list Z) (i_no : Z) : res (list Z) :=
  let? buf := put_at buf (de_size * k) name in
  let? buf := put_at buf (de_size * k + 16) (le32 i_no) in
  put_at buf (de_size * k + 20) (le32 FT_DIRECTORY).

Definition mkdir_rollback (rollback_step inode_no : Z) (r : path_search_record) : M fs Z :=
  do! (if rollback_step =? 2 then set_inode_bit (u32 inode_no) 0 else mok tt) in
  do! dir_close (parent_dir r) in
  do! sys_free in
  mok (-1).

(** From [inode_bitmap_alloc] on. *)
Definition mkdir_create (r : path_search_record) (dirname io_buf : list Z) : M fs Z :=
  let! inode_no := inode_bitmap_alloc in
  if inode_no =? -1 then mkdir_rollback 1 inode_no r else
  let new_dir_inode := inode_init inode_no in
  let! block_lba := block_bitmap_alloc in
  if block_lba =? -1 then mkdir_rollback 2 inode_no r else
  let! sectors := mlift (wr (i_sectors new_dir_inode) 0 block_lba) in
  let! p := mget cur_part in
  let block_bitmap_idx := u32 (block_lba - data_start_lba (sb p)) in
  do! mlift (ASSERT (negb (block_bitmap_idx =? 0))) in
  do! bitmap_sync block_bitmap_idx BLOCK_BITMAP in
  let! io_buf := mlift (memset (Some io_buf) 0 1024) in
  let! io_buf := mlift (put_entry io_buf 0 [46] inode_no) in
  let! x := dir_at (parent_dir r) in
  let! pi := inode_at (d_inode x) in
  let! io_buf := mlift (put_entry io_buf 1 [46; 46] (i_no pi)) in
  do! ide_write block_lba io_buf 0 1 in
  let new_dir_inode := set_i_size (u32 (2 * dir_entry_size (sb p))) (set_i_sectors sectors new_dir_inode) in
  let! e := mlift (create_dir_entry dirname inode_no FT_DIRECTORY (DirEntry (replicate 16 0) 0 0)) in
  let! io_buf := mlift (memset (Some io_buf) 0 1024) in
  let! sy := sync_dir_entry (parent_dir r) e io_buf in
  if negb sy.1 then mkdir_rollback 2 inode_no r else
  let! io_buf := mlift (memset (Some sy.2) 0 1024) in
  let! pi := inode_at (d_inode x) in
  let! io_buf := inode_sync pi io_buf in
  let! io_buf := mlift (memset (Some io_buf) 0 1024) in
  let! _ := inode_sync new_dir_inode io_buf in
  do! bitmap_sync (u32 inode_no) INODE_BITMAP in
  do! sys_free in
  do! dir_close (parent_dir r) in
  mok 0.

Definition sys_mkdir (pathname : list Z) : M fs Z :=
  let! io_buf := malloc_buf 1024 in
  match io_buf with
  | None => mok (-1)
  | Some io_buf =>
      let! sr := search_file pathname zero_record in
      let '(inode_no, r) := sr in
      if negb (inode_no =? -1) then mkdir_rollback 1 inode_no r else
      let! pathname_depth := mlift (path_depth_cnt stk_name pathname) in
      let! path_searched_depth := mlift (path_depth_cnt stk_name (searched_path r)) in
      if negb (pathname_depth =? path_searched_depth) then mkdir_rollback 1 inode_no r else
      let! dirname := mlift (base_name (searched_path r)) in
      mkdir_create r dirname io_buf
  end.

(** NULL is 0.  The second test of [name[0]] is the one the source has. *)
Definition sys_opendir (name : list Z) : M fs Z :=
  let! len := mlift (strlen (Some name)) in
  do! mlift (ASSERT (len <? MAX_PATH_LEN)) in
  let! c0 := mlift (rd name 0) in
  let! c1 := (if c0 =? slash then mlift (rd name 1) else mok 0) in
  if (c0 =? slash) && ((c1 =? 0) || (c0 =? 46)) then mok root_dir else
  let! sr := search_file name zero_record in
  let '(inode_no, r) := sr in
  let! ret :=
    (if inode_no =? -1 then mok NULL
     else if file_type r =? FT_REGULAR then mok NULL
     else if file_type r =? FT_DIRECTORY then dir_open (u32 inode_no)
     else mok NULL) in
  do! dir_close (parent_dir r) in
  mok ret.

Definition sys_closedir (d : Z) : M fs Z :=
  if negb (d =? NULL) then do! dir_close d in mok 0 else mok (-1).

Definition sys_readdir (d : Z) : M fs (option Z) :=
  do! mlift (ASSERT (negb (d =? NULL))) in dir_read d.

Definition sys_rewinddir (d : Z) : M fs unit :=
  let! x := dir_at d in put_dir d (Dir (d_inode x) 0 (dir_buf x)).

Definition sys_rmdir (pathname : list Z) : M fs Z :=
  let! sr := search_file pathname zero_record in
  let '(inode_no, r) := sr in
  do! mlift (ASSERT (negb (inode_no =? 0))) in
  let! retval :=
    (if inode_no =? -1 then mok (-1)
     else if file_type r =? FT_REGULAR then mok (-1)
     else
       let! d := dir_open (u32 inode_no) in
       let! e := dir_is_empty d in
       let! ret := (if negb e then mok (-1)
                    else let! v := dir_remove (parent_dir r) d in mok (if v =? 0 then 0 else -1)) in
       do! dir_close d in
       mok ret) in
  do! dir_close (parent_dir r) in
  mok retval.

(** ** The working directory *)

Definition get_parent_dir_inode_nr (child_inode_nr : Z) (io_buf : list Z) : M fs (Z * list Z) :=
  let! q := inode_open child_inode_nr in
  let! i := inode_at q in
  let! block_lba := mlift (rd (i_sectors i) 0) in
  let! p := mget cur_part in
  do! mlift (ASSERT (data_start_lba (sb p) <=? block_lba)) in
  do! inode_close q in
  let! io_buf := ide_read block_lba io_buf 0 1 in
  let! n := mlift (i_no_at io_buf 1) in
  let! t := mlift (type_at io_buf 1) in
  do! mlift (ASSERT ((n <? 4096) && (t =? FT_DIRECTORY))) in
  mok (n, io_buf).

(** The entry of one sector, from index [k] on, with the inode number. *)
Fixpoint child_entry (n : nat) (buf : list Z) (k c_inode_nr : Z) : res (option Z) :=
  match n with
  | O => Ok None
  | S n' => let? i := i_no_at buf k in if i =? c_inode_nr then Ok (Some k) else child_entry n' buf (k + 1) c_inode_nr
  end.

Fixpoint child_loop (blocks : list Z) (c_inode_nr size : Z) (path io_buf : list Z) : M fs (Z * list Z * list Z) :=
  match blocks with
  | [] => mok (-1, path, io_buf)
  | b :: blocks' =>
      if b =? 0 then child_loop blocks' c_inode_nr size path io_buf else
      let! io_buf := ide_read b io_buf 0 1 in
      let! r := mlift (child_entry (Z.to_nat (512 / size)) io_buf 0 c_inode_nr) in
      match r with
      | Some k =>
          let! path := mlift (strcat (Some path) (Some [slash; 0])) in
          let! path := mlift (strcat (Some path) (name_at io_buf k)) in
          mok (0, path, io_buf)
      | None => child_loop blocks' c_inode_nr size path io_buf
      end
  end.

Definition get_child_dir_name (p_inode_nr c_inode_nr : Z) (path io_buf : list Z) : M fs (Z * list Z * list Z) :=
  let! q := inode_open p_inode_nr in
  let! i := inode_at q in
  let! tbl := mlift (rd (i_sectors i) 12) in
  let! all_blocks := dir_blocks q in
  do! inode_close q in
  let! p := mget cur_part in
  child_loop (take (if negb (tbl =? 0) then 140 else 12) all_blocks) c_inode_nr (dir_entry_size (sb p)) path io_buf.

(** From the working directory up to the root; every turn adds a slash to the
    buffer, so 513 turns are enough. *)
Fixpoint cwd_loop (fuel : nat) (child_inode_nr : Z) (full_path_reverse io_buf : list Z) : M fs (option (list Z)) :=
  match fuel with
  | O => λ _, Spin
  | S fuel' =>
      if child_inode_nr =? 0 then mok (Some full_path_reverse) else
      let! r := get_parent_dir_inode_nr (u32 child_inode_nr) io_buf in
      let '(n, io_buf) := r in
      let parent_inode_nr := s32 n in
      let! c := get_child_dir_name (u32 parent_inode_nr) (u32 child_inode_nr) full_path_reverse io_buf in
      let '(v, full_path_reverse, io_buf) := c in
      if v =? -1 then mok None else cwd_loop fuel' parent_inode_nr full_path_reverse io_buf
  end.

(** Takes the names off the end of the reversed path; every turn removes a slash. *)
Fixpoint reverse_loop (fuel : nat) (buf full_path_reverse : list Z) : res (list Z) :=
  match fuel with
  | O => Spin
  | S fuel' =>
      let? o := strrchr (Some full_path_reverse) slash in
      match o with
      | None => Ok buf
      | Some k =>
          let? len := strlen (Some buf) in
          let off := Z.to_nat (u16 len) in
          let? b := strcpy (Some (drop off buf)) (Some (drop (Z.to_nat k) full_path_reverse)) in
          let? f := wr full_path_reverse k 0 in
          reverse_loop fuel' (take off buf ++ b) f
      end
  end.

(** The buffer, [None] for NULL, and whether NULL is returned. *)
Definition sys_getcwd (buf : list Z) (size : Z) : M fs (list Z * bool) :=
  let! io_buf := malloc_buf 512 in
  match io_buf with
  | None => mok (buf, false)
  | Some io_buf =>
      let! child_inode_nr := mget (λ s, s32 (cwd_inode_nr s)) in
      do! mlift (ASSERT ((0 <=? child_inode_nr) && (child_inode_nr <? 4096))) in
      if child_inode_nr =? 0 then
        let! buf := mlift (wr buf 0 slash) in
        let! buf := mlift (wr buf 1 0) in
        do! sys_free in
        mok (buf, true)
      else
        let! buf := mlift (memset (Some buf) 0 size) in
        let! f := cwd_loop 513 child_inode_nr (replicate 512 0) io_buf in
        match f with
        | None => do! sys_free in mok (buf, false)
        | Some full_path_reverse =>
            let! n := mlift (strlen (Some full_path_reverse)) in
            do! mlift (ASSERT (n <=? size)) in
            let! buf := mlift (reverse_loop 513 buf full_path_reverse) in
            do! sys_free in
            mok (buf, true)
        end
  end.

Definition sys_chdir (path : list Z) : M fs Z :=
  let! sr := search_file path zero_record in
  let '(inode_no, r) := sr in
  let! ret :=
    (if negb (inode_no =? -1) then
       if file_type r =? FT_DIRECTORY then do! mmod (set_cwd (u32 inode_no)) in mok 0 else mok (-1)
     else mok (-1)) in
  do! dir_close (parent_dir r) in
  mok ret.

(** ** [sys_stat] *)

Definition sys_stat (path : list Z) (buf : stat) : M fs (Z * stat) :=
  let! root := mlift (is_root_path path) in
  if root then
    let! x := dir_at root_dir in
    let! i := inode_at (d_inode x) in
    mok (0, Stat 0 (i_size i) FT_DIRECTORY)
  else
    let! sr := search_file path zero_record in
    let '(inode_no, r) := sr in
    let! ret :=
      (if negb (inode_no =? -1) then
         let! q := inode_open (u32 inode_no) in
         let! i := inode_at q in
         do! inode_close q in
         mok (0, Stat (u32 inode_no) (i_size i) (file_type r))
       else mok (-1, buf)) in
    do! dir_close (parent_dir r) in
    mok ret.

End fs_ops.

(** ** The state between calls *)

(** The inode with a number: the open one, or the one in the table on disk. *)
Definition the_inode (s : fs) (n : Z) : option inode :=
  match find_open (open_inodes (cur_part s)) (inodes s) n with
  | Some q => inodes s !! q
  | None => inode_of_bytes (slot s n)
  end.

(** Memory is available, addresses of objects lie below the next one to be
    handed out, every inode in [open_inodes] is in memory and can be held [k]
    more times, and the root directory is open. *)
Record fs_ok (k : Z) (s : fs) : Prop := {
  fk_layout : layout s;
  fk_size : dir_entry_size (sb (cur_part s)) = 24;
  fk_oom : oom s = [];
  fk_brk : 0 < brk s;
  fk_inodes : ∀ q, is_Some (inodes s !! q) → q < brk s;
  fk_dirs : ∀ d, is_Some (dirs s !! d) → d < brk s;
  fk_open : ∀ q, q ∈ open_inodes (cur_part s) → ∃ i, inodes s !! q = Some i ∧ 1 ≤ i_open_cnts i ∧ i_open_cnts i + k < 4294967296;
  fk_root : ∃ x, dirs s !! root_dir = Some x ∧ find_open (open_inodes (cur_part s)) (inodes s) 0 = Some (d_inode x);
}.

(** The same state after some memory was allocated and freed. *)
Definition bump (b : Z) (s : fs) : fs := set_heap b [] (live s) s.

(** [held s n d s']: [s'] is [s] with the directory of inode [n] open at [d];
    the root directory is open already. *)
Inductive held (s : fs) (n : Z) : Z → fs → Prop :=
| held_root b : brk s ≤ b → n = 0 → held s n root_dir (bump b s)
| held_hit b d q i :
    brk s ≤ d < b → find_open (open_inodes (cur_part s)) (inodes s) n = Some q → inodes s !! q = Some i →
    held s n d (set_heap b [] (live s + 1) (set_dirs (<[d := Dir q 0 (replicate 512 0)]> (dirs s))
      (set_inodes (<[q := set_open_cnts (i_open_cnts i + 1) i]> (inodes s)) s)))
| held_miss b d q i :
    brk s ≤ d < q → q < b → find_open (open_inodes (cur_part s)) (inodes s) n = None → inode_of_bytes (slot s n) = Some i → i_no i = n →
    held s n d (set_heap b [] (live s + 2) (set_dirs (<[d := Dir q 0 (replicate 512 0)]> (dirs s))
      (set_inodes (<[q := set_open_cnts 1 i]> (inodes s)) (set_part (set_open_inodes (q :: open_inodes (cur_part s)) (cur_part s)) s)))).

(** ** What a path leads to *)

Definition dir_of (s : fs) (n : Z) : list dir_entry :=
  match the_inode s n with Some i => entries (drive s) i | None => [] end.

Definition is_dir (s : fs) (n : Z) : Prop :=
  0 ≤ n < 4096 ∧ ∃ i, the_inode s n = Some i ∧ i_no i = n ∧ dir_ok s i.

(** What a walk finds: the inode number or -1, the type, the directory it was
    looked up in, and the names it went through. *)
Record walked := Walked { w_no : Z; w_type : Z; w_parent : Z; w_path : list (list Z) }.

(** From directory [n], whose parent is [par], along the names. *)
Fixpoint resolve (s : fs) (par n : Z) (seen names : list (list Z)) : walked :=
  match names with
  | [] => Walked n FT_DIRECTORY par seen
  | w :: rest =>
      match find (named w) (dir_of s n) with
      | None => Walked (-1) FT_UNKNOWN n (seen ++ [w])
      | Some e =>
          if f_type e =? FT_DIRECTORY then resolve s n (de_i_no e) (seen ++ [w]) rest
          else Walked (de_i_no e) FT_REGULAR n (seen ++ [w])
      end
  end.

(** Every directory on the way is in order, and every entry taken has one of
    the two types. *)
Fixpoint walkable (s : fs) (n : Z) (names : list (list Z)) : Prop :=
  is_dir s n ∧
  match names with
  | [] => True
  | w :: rest =>
      match find (named w) (dir_of s n) with
      | None => True
      | Some e =>
          0 ≤ de_i_no e < 4096 ∧
          (f_type e = FT_DIRECTORY ∧ walkable s (de_i_no e) rest ∨ f_type e = FT_REGULAR)
      end
  end.

(** Directory [c] is a child of [p] under the name [w]: the second entry of its
    first block is the ".." that names [p], and the first entry of [p] with its
    inode number has that name. *)
Definition links (s : fs) (p c : Z) (w : list Z) : Prop :=
  c ≠ 0 ∧ name_ok w ∧ is_dir s p ∧ is_dir s c ∧
  (∃ i blk, the_inode s c = Some i ∧ i_sectors i !! 0%nat = Some blk ∧ blk ≠ 0 ∧
     de_i_no (slot_at (sector (drive s) blk) 1) = p ∧ f_type (slot_at (sector (drive s) blk) 1) = FT_DIRECTORY) ∧
  ∃ i e, the_inode s p = Some i ∧ find (λ e, de_i_no e =? c) (dir_slots (drive s) i) = Some e ∧ de_name e = w.

(** The names from a directory up to the root, innermost first. *)
Fixpoint up (s : fs) (c : Z) (names : list (list Z)) : Prop :=
  match names with
  | [] => c = 0
  | w :: names' => ∃ p, links s p c w ∧ up s p names'
  end.

(** Every step of the way down is such a link. *)
Fixpoint linked (s : fs) (n : Z) (names : list (list Z)) : Prop :=
  match names with
  | [] => True
  | w :: rest =>
      match find (named w) (dir_of s n) with
      | Some e => f_type e = FT_DIRECTORY ∧ links s n (de_i_no e) w ∧ linked s (de_i_no e) rest
      | None => False
      end
  end.

(** ** Lemmas *)

Section fs_lemmas.
Context {B : Build} {J : Stack}.

Lemma set_heap_twice b o l b' o' l' s : set_heap b o l (set_heap b' o' l' s) = set_heap b o l s.
Proof. done. Qed.

Lemma bump_self s : oom s = [] → bump (brk s) s = s.
Proof. intros H. unfold bump, set_heap. rewrite <-H. by destruct s. Qed.

Lemma find_open_in l m n q : find_open l m n = Some q → q ∈ l ∧ ∃ i, m !! q = Some i ∧ i_no i = n.
Proof.
  induction l as [|p l IH]; simpl; [done|]. destruct (m !! p) as [i|] eqn:E; [|done].
  destruct (Z.eqb_spec (i_no i) n) as [Hn|Hn]; [intros [= <-]; split; [by left|eauto]|]. intros H. destruct (IH H) as [Hq Hi]. split; [by right|done].
Qed.

(** Whatever happens to the open counts, the search in [open_inodes] finds the same inode. *)
Lemma find_open_ext l m m' n :
  (∀ q, q ∈ l → i_no <$> m' !! q = i_no <$> m !! q) → find_open l m' n = find_open l m n.
Proof.
  induction l as [|p l IH]; intros H; [done|]. simpl. pose proof (H p ltac:(by left)) as Hp.
  destruct (m !! p) as [i|], (m' !! p) as [i'|]; simplify_eq/=; [|done]. rewrite Hp. destruct (i_no i =? n); [done|]. apply IH. intros q Hq. apply H. by right.
Qed.

Lemma dir_open_run k n i b s :
  fs_ok (k + 1) s → 0 ≤ k → the_inode s n = Some i → i_no i = n → 0 ≤ n < 4096 → brk s ≤ b →
  ∃ d s', dir_open n (bump b s) = Ok (d, s') ∧ held s n d s'.
Proof.
  intros Hs Hk Hi Hno Hn Hb. pose proof (fk_brk _ s Hs) as Hbrk. unfold the_inode in Hi. unfold dir_open.
  assert (Em : sys_malloc (bump b s) = Ok (b, set_heap (b + 1) [] (live s + 1) s)) by done. mstep Em.
  destruct (find_open (open_inodes (cur_part s)) (inodes s) n) as [q|] eqn:Ef.
  - destruct (fk_open _ s Hs q) as (i0 & Hi0 & Hc); [apply (find_open_in _ (inodes s) n q); done|]. rewrite Hi in Hi0. injection Hi0 as <-.
    mstep (inode_open_hit n q i (set_heap (b + 1) [] (live s + 1) s) Ef Hi ltac:(lia)). rewrite (proj2 (Z.eqb_neq b NULL)) by (unfold NULL; lia).
    eexists b, _. split; [reflexivity|]. apply (held_hit s n (b + 1) b q i); [lia|done|done].
  - mstep (inode_open_miss n i (set_heap (b + 1) [] (live s + 1) s) Hn (layout_heap _ _ _ _ (fk_layout _ s Hs)) eq_refl ltac:(cbn; lia) Ef Hi).
    rewrite (proj2 (Z.eqb_neq b NULL)) by (unfold NULL; lia). eexists b, _. split; [reflexivity|]. cbn.
    replace (live s + 1 + 1) with (live s + 2) by lia. apply (held_miss s n (b + 1 + 2) b (b + 1) i); (done || lia).
Qed.

Lemma inode_close_more q i s :
  inodes s !! q = Some i → 1 < i_open_cnts i < 4294967296 →
  inode_close q s = Ok (tt, set_inodes (<[q := set_open_cnts (i_open_cnts i - 1) i]> (inodes s)) s).
Proof.
  intros Hi Hc. unfold inode_close. mstep (inode_at_run q i s Hi). rewrite u32_small by lia.
  rewrite (proj2 (Z.eqb_neq (i_open_cnts i - 1) 0)) by lia. done.
Qed.

Lemma inode_close_last q i s :
  inodes s !! q = Some i → i_open_cnts i = 1 →
  inode_close q s = Ok (tt, set_heap (brk s) (oom s) (live s - 1) (set_inodes (delete q (inodes s))
    (set_part (set_open_inodes (filter (λ x, x ≠ q) (open_inodes (cur_part s))) (cur_part s)) s))).
Proof.
  intros Hi Hc. unfold inode_close. mstep (inode_at_run q i s Hi). rewrite Hc. change (u32 (1 - 1)) with 0. change (0 =? 0) with true. cbv iota.
  unfold put_inode, mmod, mbnd, sys_free. cbn [rbind fst snd]. do 3 f_equal. unfold set_inodes, set_part. cbn. by rewrite delete_insert_eq.
Qed.

Lemma not_there {A} (m : gmap Z A) b p : (∀ q, is_Some (m !! q) → q < b) → b ≤ p → m !! p = None.
Proof. intros H Hp. destruct (m !! p) eqn:E; [|done]. pose proof (H p ltac:(by rewrite E)). lia. Qed.

Lemma dir_close_run k n d s s' : fs_ok k s → 1 ≤ k → held s n d s' → ∃ b, brk s ≤ b ∧ dir_close d s' = Ok (tt, bump b s).
Proof.
  intros Hs Hk Ho. pose proof (fk_brk _ s Hs) as Hbrk. unfold dir_close. destruct Ho as [b Hb _|b d q i Hd Hf Hi|b d q i Hd Hq Hf Hi Hno].
  - by exists b.
  - exists b. split; [lia|]. rewrite (proj2 (Z.eqb_neq d root_dir)) by (unfold root_dir; lia).
    mstep (dir_at_run d _ _ (lookup_insert_eq (dirs s) d _)). cbn [d_inode].
    destruct (fk_open _ s Hs q) as (i0 & Hi0 & Hc); [apply (find_open_in _ (inodes s) n q); done|]. rewrite Hi in Hi0. injection Hi0 as <-.
    mstep (inode_close_more q (set_open_cnts (i_open_cnts i + 1) i) _ (lookup_insert_eq (inodes s) q _) ltac:(cbn; lia)).
    unfold sys_free, mmod, mbnd. cbn [rbind fst snd]. do 2 f_equal. apply fs_ext; cbn; try done; try lia.
    + rewrite insert_insert_eq. apply insert_id. rewrite Hi. unfold set_open_cnts. cbn. replace (i_open_cnts i + 1 - 1) with (i_open_cnts i) by lia. by destruct i.
    + apply delete_insert_id, (not_there _ (brk s)); [apply Hs|lia].
  - exists b. split; [lia|]. rewrite (proj2 (Z.eqb_neq d root_dir)) by (unfold root_dir; lia).
    mstep (dir_at_run d _ _ (lookup_insert_eq (dirs s) d _)). cbn [d_inode].
    match goal with |- mbnd _ _ ?st = _ => rewrite (mbnd_Ok _ _ _ _ _ (inode_close_last q (set_open_cnts 1 i) st (lookup_insert_eq (inodes s) q _) eq_refl)) end.
    assert (Hqn : inodes s !! q = None) by (apply (not_there _ (brk s)); [apply Hs|lia]).
    unfold sys_free, mmod, mbnd. cbn [rbind fst snd]. do 2 f_equal. apply fs_ext; cbn -[filter]; try done; try lia.
    + rewrite filter_cons, decide_False by naive_solver. rewrite filter_all; [by destruct (cur_part s)|].
      intros x Hx ->. destruct (fk_open _ s Hs q Hx) as (? & ? & _). congruence.
    + by apply delete_insert_id.
    + apply delete_insert_id, (not_there _ (brk s)); [apply Hs|lia].
Qed.

Lemma close_with {A} (v : A) k n d s s' :
  fs_ok k s → 1 ≤ k → held s n d s' → ∃ b, brk s ≤ b ∧ (do! dir_close d in mok v) s' = Ok (v, bump b s).
Proof. intros Hs Hk Ho. destruct (dir_close_run _ _ _ _ _ Hs Hk Ho) as (b & Hb & Ecl). exists b. split; [done|]. by mstep Ecl. Qed.

(** *** What a held directory leaves as it was *)

(** An inode apart from how often it is open. *)
Definition still (i : inode) : inode := set_open_cnts 0 i.

Record view (s s' : fs) : Prop := {
  vw_drive : drive s' = drive s;
  vw_part : ∃ l, cur_part s' = set_open_inodes l (cur_part s);
  vw_inode : ∀ n, still <$> the_inode s' n = still <$> the_inode s n;
}.

(** The same disk and partition, whatever is open. *)
Definition same_part (s s' : fs) : Prop := drive s' = drive s ∧ ∃ l, cur_part s' = set_open_inodes l (cur_part s).

Lemma view_part s s' : view s s' → same_part s s'.
Proof. by intros []. Qed.

Lemma same_part_sym s s' : same_part s s' → same_part s' s.
Proof. intros [Hd [l Hp]]. split; [done|]. exists (open_inodes (cur_part s)). rewrite Hp. by destruct (cur_part s). Qed.

Lemma layout_part s s' : same_part s s' → layout s → layout s'.
Proof. intros [Hd [l Hp]] []. split; rewrite ?Hp, ?Hd; cbn; done. Qed.

Lemma layout_view s s' : view s s' → layout s → layout s'.
Proof. intros Hv. by apply layout_part, view_part. Qed.

Lemma slot_view s s' n : same_part s s' → slot s' n = slot s n.
Proof. intros [Hd [l Hp]]. unfold slot, table, table_lba. by rewrite Hd, Hp. Qed.

Lemma taken_part s s' b : same_part s s' → taken s b → taken s' b.
Proof. intros [Hd [l Hp]]. unfold taken, data_lba. by rewrite Hp. Qed.

Lemma still_fields i i' : still i' = still i → i_no i' = i_no i ∧ i_size i' = i_size i ∧ i_sectors i' = i_sectors i ∧ write_deny i' = write_deny i.
Proof. unfold still, set_open_cnts. by intros [= -> -> -> ->]. Qed.

Lemma dir_ok_part s s' i i' : same_part s s' → still i' = still i → dir_ok s i → dir_ok s' i'.
Proof.
  intros Hv Hi [(H1 & H2 & H3 & H4) Ht Htk Hnd Hsl Hsz]. pose proof Hv as [Hd _]. apply still_fields in Hi as (E1 & E2 & E3 & _).
  unfold tbl_of, dir_slots, entries, inode_ok in *. split; unfold tbl_of, dir_slots, entries, inode_ok, dir_slots; rewrite ?E1, ?E2, ?E3, ?Hd; try done.
  eapply Forall_impl; [exact Htk|]. intros b. by apply taken_part.
Qed.

Lemma entries_still d i i' : still i' = still i → entries d i' = entries d i.
Proof. intros Hi. apply still_fields in Hi as (_ & _ & E & _). unfold entries, dir_slots. by rewrite E. Qed.

Lemma dir_ok_view s s' i i' : view s s' → still i' = still i → dir_ok s i → dir_ok s' i'.
Proof. intros Hv. by apply dir_ok_part, view_part. Qed.

Lemma view_bump b s : view s (bump b s).
Proof. by split; [|exists (open_inodes (cur_part s)); destruct s as [? []]|]. Qed.

Lemma held_view k n d s s' : fs_ok k s → held s n d s' → view s s'.
Proof.
  intros Hs Ho. destruct Ho as [b Hb _|b d q i Hd Hf Hi|b d q i Hd Hq Hf Hi Hno]; [apply view_bump| |].
  - split; [done|exists (open_inodes (cur_part s)); by destruct s as [? []]|]. intros m. unfold the_inode. cbn.
    rewrite (find_open_ext _ (inodes s)).
    + destruct (find_open _ _ m) as [p|]; [|done]. destruct (decide (p = q)) as [->|]; [rewrite lookup_insert_eq, Hi; by destruct i|by rewrite lookup_insert_ne].
    + intros p _. destruct (decide (p = q)) as [->|]; [rewrite lookup_insert_eq, Hi; by destruct i|by rewrite lookup_insert_ne].
  - assert (Hqn : inodes s !! q = None) by (apply (not_there _ (brk s)); [apply Hs|lia]).
    split; [done|by eexists|]. intros m. unfold the_inode. cbn [cur_part open_inodes set_heap set_dirs set_inodes set_part set_open_inodes inodes find_open].
    rewrite lookup_insert_eq. cbn [i_no set_open_cnts]. rewrite Hno. destruct (Z.eqb_spec n m) as [<-|Hm].
    + rewrite lookup_insert_eq, Hf, Hi. done.
    + rewrite (find_open_ext _ (inodes s)) by (intros p Hp; rewrite lookup_insert_ne; [done|]; intros ->; destruct (fk_open _ s Hs p Hp) as (? & ? & _); congruence).
      destruct (find_open _ _ m) as [p|] eqn:Ep; [|rewrite (slot_view s); [done|split; [done|by eexists]]].
      apply find_open_in in Ep as [_ (i' & Hi' & _)]. rewrite lookup_insert_ne by naive_solver. done.
Qed.

Lemma held_ok k n d s s' : fs_ok (k + 1) s → 0 ≤ k → held s n d s' → fs_ok k s'.
Proof.
  intros Hs Hk Ho. pose proof (held_view _ _ _ _ _ Hs Ho) as Hv. pose proof (fk_brk _ s Hs) as Hbrk.
  destruct (fk_root _ s Hs) as (x & Hx & Hr).
  assert (Hkb : k + 2 < 4294967296).
  { destruct (find_open_in _ _ _ _ Hr) as [Hin _]. destruct (fk_open _ s Hs _ Hin) as (? & _ & ?). lia. }
  destruct Ho as [b Hb _|b d q i Hd Hf Hi|b d q i Hd Hq Hf Hi Hno].
  - destruct Hs. split; cbn; try done; try lia.
    + by apply (layout_view s).
    + intros q Hq. specialize (fk_inodes0 q Hq). lia.
    + intros q Hq. specialize (fk_dirs0 q Hq). lia.
    + intros q Hq. destruct (fk_open0 q Hq) as (i & ? & ?). exists i. split; [done|lia].
  - split; cbn; try done; try lia.
    + by apply (layout_view s), Hs.
    + apply Hs.
    + intros p Hp. destruct (decide (p = q)) as [->|]; [|rewrite lookup_insert_ne in Hp by done]; [pose proof (fk_inodes _ s Hs q ltac:(eauto)); lia|].
      pose proof (fk_inodes _ s Hs p Hp). lia.
    + intros p Hp. destruct (decide (p = d)) as [->|]; [lia|]. rewrite lookup_insert_ne in Hp by done. pose proof (fk_dirs _ s Hs p Hp). lia.
    + intros p Hp. destruct (fk_open _ s Hs p Hp) as (i' & Hi' & Hc). destruct (decide (p = q)) as [->|].
      * rewrite lookup_insert_eq. eexists. split; [done|]. cbn. rewrite Hi in Hi'. injection Hi' as <-. lia.
      * rewrite lookup_insert_ne by done. exists i'. split; [done|lia].
    + exists x. rewrite lookup_insert_ne by (unfold root_dir; lia). split; [done|]. rewrite (find_open_ext _ (inodes s)); [done|].
      intros p _. destruct (decide (p = q)) as [->|]; [rewrite lookup_insert_eq, Hi; by destruct i|by rewrite lookup_insert_ne].
  - assert (Hqn : inodes s !! q = None) by (apply (not_there _ (brk s)); [apply Hs|lia]).
    assert (Hne : ∀ p, p ∈ open_inodes (cur_part s) → p ≠ q) by (intros p Hp ->; destruct (fk_open _ s Hs q Hp) as (? & ? & _); congruence).
    split; try done; try (cbn; lia).
    + by apply (layout_view s), Hs.
    + apply Hs.
    + intros p Hp. cbn in *. destruct (decide (p = q)) as [->|]; [lia|]. rewrite lookup_insert_ne in Hp by done. pose proof (fk_inodes _ s Hs p Hp). lia.
    + intros p Hp. cbn in *. destruct (decide (p = d)) as [->|]; [lia|]. rewrite lookup_insert_ne in Hp by done. pose proof (fk_dirs _ s Hs p Hp). lia.
    + cbn. intros p Hp. apply elem_of_cons in Hp as [->|Hp]; [rewrite lookup_insert_eq; eexists; split; [done|cbn; lia]|].
      rewrite lookup_insert_ne by (by apply not_eq_sym, Hne). destruct (fk_open _ s Hs p Hp) as (i' & Hi' & Hc). exists i'. split; [done|lia].
    + exists x. cbn. rewrite lookup_insert_ne by (unfold root_dir; lia). split; [done|]. rewrite lookup_insert_eq. cbn.
      rewrite (proj2 (Z.eqb_neq (i_no i) 0)) by (rewrite Hno; intros ->; congruence).
      rewrite (find_open_ext _ (inodes s)); [done|]. intros p Hp. rewrite lookup_insert_ne; [done|]. by apply not_eq_sym, Hne.
Qed.

Lemma held_dir k n d i s s' : fs_ok k s → held s n d s' → the_inode s n = Some i →
  ∃ x i', dirs s' !! d = Some x ∧ inodes s' !! d_inode x = Some i' ∧ still i' = still i.
Proof.
  intros Hs Ho Hi. unfold the_inode in Hi. destruct Ho as [b Hb ->|b d q j Hd Hf Hj|b d q j Hd Hq Hf Hj Hno].
  - destruct (fk_root _ s Hs) as (x & Hx & Hr). rewrite Hr in Hi. exists x, i. done.
  - rewrite Hf in Hi. eexists _, _. split; [apply lookup_insert_eq|]. split; [apply lookup_insert_eq|]. rewrite Hj in Hi. injection Hi as ->. by destruct i.
  - rewrite Hf in Hi. eexists _, _. split; [apply lookup_insert_eq|]. split; [apply lookup_insert_eq|]. rewrite Hj in Hi. injection Hi as ->. by destruct i.
Qed.

Lemma held_heap n d s s' b : held s n d s' → brk s' ≤ b → held s n d (set_heap b [] (live s') s').
Proof.
  intros Ho Hb. destruct Ho as [b0 Hb0 Hn|b0 d q j Hd Hf Hj|b0 d q j Hd Hq Hf Hj Hno]; cbn in Hb.
  - apply (held_root s n b); [lia|done].
  - apply (held_hit s n b d q j); [lia|done|done].
  - apply (held_miss s n b d q j); try done; lia.
Qed.

(** Paths lead to the same places. *)
Lemma dir_of_view s s' n : view s s' → dir_of s' n = dir_of s n.
Proof.
  intros Hv. pose proof (vw_inode _ _ Hv n) as Hi. unfold dir_of. rewrite (vw_drive _ _ Hv).
  destruct (the_inode s n) as [i|], (the_inode s' n) as [i'|]; try done. apply entries_still. by apply (inj Some).
Qed.

Lemma is_dir_view s s' n : view s s' → is_dir s n → is_dir s' n.
Proof.
  intros Hv (Hn & i & Hi & Hno & Hok). split; [done|]. pose proof (vw_inode _ _ Hv n) as He. rewrite Hi in He.
  destruct (the_inode s' n) as [i'|] eqn:Ei; [|done]. apply (inj Some) in He. exists i'. split; [done|].
  pose proof (still_fields _ _ He) as (E & _). split; [congruence|]. by apply (dir_ok_view s s' i).
Qed.

Lemma resolve_view s s' par n seen names : view s s' → resolve s' par n seen names = resolve s par n seen names.
Proof.
  intros Hv. revert par n seen. induction names as [|w names IH]; intros par n seen; cbn; [done|]. rewrite (dir_of_view s s' n Hv).
  destruct (find _ _) as [e|]; [|done]. destruct (f_type e =? FT_DIRECTORY); [apply IH|done].
Qed.

Lemma walkable_view s s' n names : view s s' → walkable s n names → walkable s' n names.
Proof.
  intros Hv. revert n. induction names as [|w names IH]; intros n; cbn; [intros [Hd _]; split; [by apply (is_dir_view s)|done]|].
  intros [Hd Hw]. split; [by apply (is_dir_view s)|]. rewrite (dir_of_view s s' n Hv). destruct (find _ _) as [e|]; [|done].
  destruct Hw as [He [[Ht Hw]|Hw]]; (split; [done|]); [left; split; [done|by apply IH]|by right].
Qed.

(** *** The walk *)

Lemma strlen_cstr buf t : cstr buf t → Z.of_nat (length t) < 4294967296 → strlen (Some buf) = Ok (Z.of_nat (length t)).
Proof.
  intros [Ht [r ->]] Hl. unfold strlen. rewrite ASSERT_true by done. cbn [rbind]. rewrite mem_Some, past_nul_run by done. cbn [rbind].
  rewrite u32_small by lia. f_equal. lia.
Qed.

Lemma walkable_dir s n names : walkable s n names → is_dir s n.
Proof. destruct names; by intros []. Qed.

(** Looking a name up in a held directory. *)
Lemma held_search k n d w name s s' :
  fs_ok (k + 1) s → 0 ≤ k → held s n d s' → is_dir s n → cstr name w → w ≠ [] →
  ∃ s2, search_dir_entry d name s' = Ok (find (named w) (dir_of s n), s2) ∧ held s n d s2 ∧
    ∃ x i, dirs s2 !! d = Some x ∧ inodes s2 !! d_inode x = Some i ∧ i_no i = n.
Proof.
  intros Hs Hk Ho (Hn & i & Hi & Hno & Hok) Hc Hw. destruct (held_dir _ _ _ i _ _ Hs Ho Hi) as (x & i' & Hx & Hi' & Hst).
  pose proof (held_ok k n d s s' Hs Hk Ho) as Hs'. pose proof (held_view _ _ _ _ _ Hs Ho) as Hv.
  assert (Hok' : dir_ok s' i') by (by apply (dir_ok_view s s' i)).
  rewrite (search_dir_entry_run d x i' name w s' (fk_layout _ s' Hs') Hx Hi' Hok' (fk_size _ s' Hs') Hc Hw (fk_oom _ s' Hs') (fk_brk _ s' Hs')).
  apply still_fields in Hst as (Eno & _ & Es & _). exists (set_heap (brk s' + 2) [] (live s') s'). split; [|split; [apply held_heap; [done|lia]|]].
  - unfold dir_of. rewrite Hi. unfold entries, dir_slots. by rewrite Es, (vw_drive _ _ Hv).
  - exists x, i'. split; [done|]. split; [done|]. by rewrite Eno.
Qed.

Lemma search_loop_run k t r s s1 d n par seen p e fuel :
  fs_ok (k + 1) s → 0 ≤ k → walkable s n (comps t) → is_dir s par →
  held s n d s1 → Forall is_char t → Forall name_ok (comps t) → Forall name_ok seen → (t = [] ∨ ∃ q, t = slash :: q) →
  cstr p (joined seen) → length p = 512%nat → (length (joined seen) + length t < 512)%nat → (length t + 1 < fuel)%nat →
  (comps t = [] → de_i_no e = n) →
  let w := resolve s par n seen (comps t) in
  ∃ sub name rec s2, path_parse (t ++ 0 :: r) zeros16 = Ok (sub, name) ∧
    search_loop fuel sub name d par e (Psr p d FT_UNKNOWN) s1 = Ok ((w_no w, rec), s2) ∧
    held s (w_parent w) (parent_dir rec) s2 ∧ file_type rec = w_type w ∧ cstr (searched_path rec) (joined (w_path w)) ∧
    is_dir s (w_parent w) ∧ Forall name_ok (w_path w).
Proof.
  intros Hs Hk. revert t s1 d n par seen p e. induction fuel as [|fuel IH];
    intros t s1 d n par seen p e Hw Hpar Ho Hch Hok Hseen Habs Hp Hpl Hlen Hfuel He; [lia|].
  pose proof (parse_first t r Hch Hok) as Hps. pose proof (walkable_dir _ _ _ Hw) as Hdir. destruct (comps t) as [|w ws] eqn:Ec.
  - exists None, zeros16. cbn [search_loop resolve w_no w_parent w_type w_path]. mstep (mlift_Ok _ s1 _ (eq_refl : rd zeros16 0 = Ok 0)). change (0 =? 0) with true. cbv iota.
    cbn [parent_dir]. destruct (dir_close_run _ _ _ _ _ Hs ltac:(lia) Ho) as (b & Hb & Ecl). mstep Ecl.
    pose proof Hpar as (Hpn & pi & Hpi & Hpno & Hpok). destruct (dir_open_run k par pi b s Hs Hk Hpi Hpno Hpn Hb) as (d' & s2 & Eo & Ho'). mstep Eo.
    exists (Psr p d' FT_DIRECTORY), s2. split; [done|]. split; [|done].
    unfold mok. rewrite He by done. destruct Hdir as (Hn & _). by rewrite s32_small by lia.
  - destruct Hps as (rest & E & Ews & Hcr & Hr & Hl1 & Hlt). apply Forall_cons in Hok as [Hwok Hok]. rewrite <-Ews in *.
    assert (Hlw : (length w + length rest < length t)%nat).
    { apply Hlt. destruct Habs as [->|Habs]; [|done]. destruct Hwok as [Hne _]. destruct w; [done|]. simpl in Hl1. lia. }
    destruct (name_buffer w Hwok) as (Hb1 & Hb2 & c & Hb3 & Hc0). eexists _, _.
    cbn [search_loop resolve].
    destruct (strcat_cstr p [slash; 0] [slash] (joined seen) Hp slash_cstr) as (p1 & Ep1 & Hc1 & Hl3); [simpl; lia|].
    destruct (strcat_cstr p1 _ w _ Hc1 Hb1) as (p2 & Ep2 & Hc2 & Hl4); [rewrite length_app, Hl3; simpl; lia|].
    rewrite <-app_assoc in Hc2. change ([slash] ++ w) with (slash :: w) in Hc2. rewrite <-joined_snoc in Hc2.
    destruct (held_search k n d w _ s s1 Hs Hk Ho Hdir Hb1 (proj1 Hwok)) as (s2 & Es & Ho2 & x & i & Hx & Hi & Hno).
    assert (Hrun : ∀ K : M fs (Z * path_search_record), (let! found := search_dir_entry d (w ++ drop (length w) zeros16) in K) s1 = K s2) by (intros K; by mstep Es).
    rewrite (mbnd_Ok _ _ _ _ _ (mlift_Ok _ s1 _ Hb3)). rewrite (proj2 (Z.eqb_neq c 0)) by done.
    cbn [searched_path]. mstep (mlift_Ok _ s1 _ (strlen_cstr p _ Hp ltac:(lia))). mstep (mlift_Ok _ s1 _ (ASSERT_true (Z.of_nat (length (joined seen)) <? 512) ltac:(apply Z.ltb_lt; lia))).
    mstep (mlift_Ok _ s1 _ Ep1). mstep (mlift_Ok _ s1 _ Ep2). mstep Es. clear Hrun.
    assert (Hseen' : Forall name_ok (seen ++ [w])) by (apply Forall_app; split; [done|by constructor]).
    assert (Hnx : ∃ sub' name', path_parse (rest ++ 0 :: r) zeros16 = Ok (sub', name') ∧
        next_name (if bool_decide (rest = []) then None else Some (rest ++ 0 :: r)) (w ++ drop (length w) zeros16) = Ok (sub', name')).
    { unfold next_name. rewrite memset16 by done. cbn [rbind]. case_bool_decide as Er.
      - subst rest. eexists _, _. split; [|reflexivity]. by vm_compute.
      - pose proof (parse_first rest r Hcr Hok) as Hq. destruct (comps rest) as [|w' ws']; [by eexists _, _|]. destruct Hq as (q & Eq & _). by eexists _, _. }
    destruct Hnx as (sub' & name' & Epp & Enx). cbn [walkable] in Hw. destruct Hw as [_ Hw].
    destruct (find (named w) (dir_of s n)) as [e'|] eqn:Ef.
    + destruct Hw as [Hen Hw]. mstep (mlift_Ok _ s2 _ Enx). rewrite (Z.eqb_sym FT_DIRECTORY). destruct (Z.eqb_spec (f_type e') FT_DIRECTORY) as [Et|Et].
      * destruct Hw as [[_ Hw]|Hw]; [|rewrite Et in Hw; done]. mstep (dir_at_run d x s2 Hx). mstep (inode_at_run _ i s2 Hi).
        destruct (dir_close_run _ _ _ _ _ Hs ltac:(lia) Ho2) as (b & Hb & Ecl). mstep Ecl.
        destruct (walkable_dir _ _ _ Hw) as (_ & ci & Hci & Hcno & _).
        destruct (dir_open_run k (de_i_no e') ci b s Hs Hk Hci Hcno Hen Hb) as (d' & s3 & Eo & Ho3). mstep Eo. rewrite Hno. cbn [fst snd parent_dir file_type].
        destruct (IH rest s3 d' (de_i_no e') n (seen ++ [w]) p2 e') as (sub2 & name2 & rec & s4 & Epp2 & El & Hrest); try done; try lia.
        { rewrite joined_snoc, length_app. simpl. lia. }
        rewrite Epp in Epp2. injection Epp2 as <- <-. eexists rec, s4. split; [exact E|]. split; [exact El|done].
      * destruct Hw as [[Hw _]|Hw]; [done|]. rewrite Hw. change (FT_REGULAR =? FT_REGULAR) with true. cbv iota.
        eexists _, s2. split; [exact E|]. split; [unfold mok; rewrite s32_small by lia; reflexivity|]. cbn. done.
    + eexists _, s2. split; [exact E|]. split; [reflexivity|]. cbn. done.
Qed.

(** The texts "/", "/." and "/.." *)
Definition root_texts : list (list Z) := [[slash]; [slash; 46]; [slash; 46; 46]].

Lemma is_root_path_run t r : Forall is_char t → is_root_path (t ++ 0 :: r) = Ok (bool_decide (t ∈ root_texts)).
Proof.
  intros Hch. assert (Ht : cstr (t ++ 0 :: r) t) by (split; [done|eauto]).
  assert (Hroot : ∀ x, x ∈ root_texts → cstr (x ++ [0]) x).
  { intros x Hx. split; [|by exists []]. unfold root_texts in Hx. set_unfold in Hx. destruct Hx as [->|[->|[->|[]]]]; by_decide. }
  unfold is_root_path.
  destruct (strcmp_cstr _ _ _ _ Ht (Hroot [slash] ltac:(unfold root_texts; set_solver))) as (c1 & E1 & H1). cbn [app] in E1. rewrite E1. cbn [rbind].
  destruct (strcmp_cstr _ _ _ _ Ht (Hroot [slash; 46] ltac:(unfold root_texts; set_solver))) as (c2 & E2 & H2). cbn [app] in E2.
  destruct (strcmp_cstr _ _ _ _ Ht (Hroot [slash; 46; 46] ltac:(unfold root_texts; set_solver))) as (c3 & E3 & H3). cbn [app] in E3.
  unfold root_texts. destruct (Z.eqb_spec c1 0) as [Ec1|Ec1]; [rewrite bool_decide_true; [done|set_solver]|]. rewrite E2. cbn [rbind].
  destruct (Z.eqb_spec c2 0) as [Ec2|Ec2]; [rewrite bool_decide_true; [done|set_solver]|]. rewrite E3. cbn [rbind]. f_equal.
  destruct (Z.eqb_spec c3 0) as [Ec3|Ec3]; symmetry; [apply bool_decide_eq_true|apply bool_decide_eq_false]; set_solver.
Qed.

(** A path the calls take: absolute, shorter than [MAX_PATH_LEN], with names
    that fit a directory entry, and not one of the texts for the root. *)
Record path_ok (t : list Z) : Prop := {
  pk_chars : Forall is_char t;
  pk_abs : ∃ q, t = slash :: q;
  pk_len : (length t < 512)%nat;
  pk_names : Forall name_ok (comps t);
  pk_some : comps t ≠ [];
  pk_root : t ∉ root_texts;
}.

Definition target (s : fs) (t : list Z) : walked := resolve s 0 0 [] (comps t).

Lemma search_file_run k t r s :
  fs_ok (k + 1) s → 0 ≤ k → path_ok t → walkable s 0 (comps t) →
  let w := target s t in
  ∃ rec s2, search_file (t ++ 0 :: r) zero_record s = Ok ((w_no w, rec), s2) ∧
    held s (w_parent w) (parent_dir rec) s2 ∧ file_type rec = w_type w ∧ cstr (searched_path rec) (joined (w_path w)) ∧
    is_dir s (w_parent w) ∧ Forall name_ok (w_path w).
Proof.
  intros Hs Hk [Hch Habs Hlen Hnm Hne Hroot] Hw. unfold search_file.
  rewrite (mbnd_Ok _ _ _ _ _ (mlift_Ok _ s _ (is_root_path_run t r Hch))). rewrite bool_decide_false by done.
  rewrite (mbnd_Ok _ _ _ _ _ (mlift_Ok _ s _ (strlen_cstr (t ++ 0 :: r) t ltac:(split; [done|eauto]) ltac:(lia)))).
  destruct Habs as [q Eq]. assert (E0 : rd (t ++ 0 :: r) 0 = Ok slash) by (by rewrite Eq). mstep (mlift_Ok _ s _ E0).
  assert (Hl1 : (1 < length t)%nat) by (destruct q; [subst t; done|subst t; simpl; lia]).
  assert (Ea : (slash =? slash) && (1 <? Z.of_nat (length t)) && (Z.of_nat (length t) <? MAX_PATH_LEN) = true).
  { rewrite (proj2 (Z.ltb_lt 1 _)), (proj2 (Z.ltb_lt _ MAX_PATH_LEN)) by (unfold MAX_PATH_LEN; lia). done. }
  rewrite (mbnd_Ok _ _ _ _ _ (mlift_Ok _ s _ (ASSERT_true _ Ea))).
  assert (Hcs : cstr (replicate 512 0) (joined [])) by (split; [constructor|by exists (replicate 511 0)]).
  destruct (search_loop_run k t r s s root_dir 0 0 [] (replicate 512 0) stk_entry (S (S (length (t ++ 0 :: r))))) as (sub & name & rec & s2 & Ep & El & Hrest);
    try done; eauto using walkable_dir; try (rewrite ?length_app; simpl; lia).
  { rewrite <-(bump_self s) at 2 by apply Hs. apply held_root; [lia|done]. }
  change (replicate 16 0) with zeros16. mstep (mlift_Ok _ s _ Ep). cbn [fst snd searched_path zero_record]. exists rec, s2. done.
Qed.

(** *** Opening an inode for a moment *)

Lemma inode_open_run k n i b s :
  fs_ok (k + 1) s → 0 ≤ k → the_inode s n = Some i → 0 ≤ n < 4096 → brk s ≤ b →
  ∃ q s1 i', inode_open n (bump b s) = Ok (q, s1) ∧ inodes s1 !! q = Some i' ∧ still i' = still i ∧
    drive s1 = drive s ∧ (∃ l, cur_part s1 = set_open_inodes l (cur_part s)) ∧
    ∃ b', brk s ≤ b' ∧ inode_close q s1 = Ok (tt, bump b' s).
Proof.
  intros Hs Hk Hi Hn Hb. pose proof (fk_brk _ s Hs) as Hbrk. unfold the_inode in Hi.
  destruct (find_open (open_inodes (cur_part s)) (inodes s) n) as [q|] eqn:Ef.
  - destruct (fk_open _ s Hs q) as (i0 & Hi0 & Hc); [apply (find_open_in _ (inodes s) n q); done|]. rewrite Hi in Hi0. injection Hi0 as <-.
    pose proof (lookup_insert_eq (inodes s) q (set_open_cnts (i_open_cnts i + 1) i)) as Hl.
    eexists q, _, _. split; [apply (inode_open_hit n q i (bump b s)); [done|done|lia]|]. split; [exact Hl|]. split; [by destruct i|].
    split; [done|]. split; [exists (open_inodes (cur_part s)); by destruct s as [? []]|]. exists b. split; [lia|].
    match goal with |- inode_close _ ?st = _ => rewrite (inode_close_more q _ st Hl) by (cbn; lia) end. do 2 f_equal. apply fs_ext; try done. cbn.
    rewrite insert_insert_eq. apply insert_id. rewrite Hi. unfold set_open_cnts. cbn. replace (i_open_cnts i + 1 - 1) with (i_open_cnts i) by lia. by destruct i.
  - assert (Hbn : inodes s !! b = None) by (apply (not_there _ (brk s)); [apply Hs|lia]).
    pose proof (lookup_insert_eq (inodes s) b (set_open_cnts 1 i)) as Hl.
    eexists b, _, _. split; [apply (inode_open_miss n i (bump b s)); [done|apply layout_heap, Hs|done|cbn; lia|done|done]|]. split; [exact Hl|].
    split; [by destruct i|]. split; [done|]. split; [by eexists|]. exists (b + 2). split; [lia|].
    match goal with |- inode_close _ ?st = _ => rewrite (inode_close_last b _ st Hl eq_refl) end. do 2 f_equal. apply fs_ext; cbn -[filter]; try done; try lia.
    + rewrite filter_cons, decide_False by naive_solver. rewrite filter_all; [by destruct (cur_part s)|].
      intros x Hx ->. destruct (fk_open _ s Hs b Hx) as (? & ? & _). congruence.
    + by apply delete_insert_id.
Qed.

(** The working directory of the task has no part in what is held. *)
Lemma held_cwd c n d s s' : held s n d s' → held (set_cwd c s) n d (set_cwd c s').
Proof.
  intros [b Hb Hn|b d' q j Hd Hf Hj|b d' q j Hd Hq Hf Hj Hno].
  - exact (held_root (set_cwd c s) n b Hb Hn).
  - exact (held_hit (set_cwd c s) n b d' q j Hd Hf Hj).
  - exact (held_miss (set_cwd c s) n b d' q j Hd Hq Hf Hj Hno).
Qed.

Lemma fs_ok_cwd k c s : fs_ok k s → fs_ok k (set_cwd c s).
Proof. intros [[] ? ? ? ? ? ? ?]. split; [|done..]. by split. Qed.

(** *** The working directory *)

Lemma dir_inode_len s i : dir_ok s i → length (i_sectors i) = 13%nat.
Proof. intros Hok. apply (dk_inode s i Hok). Qed.

(** A block of a directory, with its entries. *)
Lemma dir_block s i b : dir_ok s i → b ∈ take 12 (i_sectors i) → b ≠ 0 →
  data_lba s ≤ b ≤ max_lba ∧ Forall slot_ok (slots (sector (drive s) b)).
Proof.
  intros Hok Hin Hb. destruct (sector_taken s i b Hok Hin Hb) as (Hr & Hm & _). split; [lia|].
  apply list_elem_of_split in Hin as (l1 & l2 & E). pose proof (slots_ok_sector s i l1 b l2 Hok E) as H. unfold pos_slots in H. by rewrite (proj2 (Z.eqb_neq b 0)) in H.
Qed.

Lemma parent_run k p c w io b s :
  fs_ok (k + 1) s → 0 ≤ k → links s p c w → length io = 512%nat → brk s ≤ b →
  ∃ io' b', get_parent_dir_inode_nr c io (bump b s) = Ok ((p, io'), bump b' s) ∧ brk s ≤ b' ∧ length io' = 512%nat.
Proof.
  intros Hs Hk (_ & _ & (Hp & _) & (Hc & ic & Hic & _ & Hok) & (i & blk & Hi & Hb0 & Hne & Hno & Hty) & _) Hio Hb.
  rewrite Hi in Hic. injection Hic as <-. unfold get_parent_dir_inode_nr.
  destruct (inode_open_run k c i b s Hs Hk Hi Hc Hb) as (q & s1 & i' & Eo & Hi' & Hst & Hd & [l Hpt] & b' & Hb' & Ecl).
  mstep Eo. mstep (inode_at_run q i' s1 Hi'). apply still_fields in Hst as (_ & _ & Es & _).
  assert (Hin : blk ∈ take 12 (i_sectors i)) by (destruct (i_sectors i); [done|]; cbn in *; simplify_eq; by left).
  destruct (dir_block s i blk Hok Hin Hne) as [Hrange _].
  mstep (mlift_Ok _ s1 _ (rd_lookup (i_sectors i') 0 blk ltac:(lia) ltac:(rewrite Es; exact Hb0))).
  unfold mbnd at 1. unfold mget at 1. cbn [rbind fst snd]. rewrite Hpt. cbn [sb set_open_inodes].
  mstep (mlift_Ok _ s1 _ (ASSERT_true (data_start_lba (sb (cur_part s)) <=? blk) ltac:(apply Z.leb_le; unfold data_lba in Hrange; lia))). mstep Ecl.
  assert (Hdk : disk_ok (drive s)) by apply (fk_layout _ s Hs).
  mstep (read_sector_run blk io (bump b' s) Hdk ltac:(lia) ltac:(lia)). cbn [drive bump set_heap]. rewrite drop_ge, app_nil_r by lia.
  pose proof (sector_length (drive s) blk Hdk) as Hsl. destruct (entry_words (sector (drive s) blk) 1 ltac:(lia) ltac:(lia)) as [E1 E2]. change (Z.of_nat 1) with 1 in *.
  mstep (mlift_Ok _ (bump b' s) _ E1). mstep (mlift_Ok _ (bump b' s) _ E2). rewrite Hno, Hty.
  mstep (mlift_Ok _ (bump b' s) _ (ASSERT_true ((p <? 4096) && (FT_DIRECTORY =? FT_DIRECTORY)) ltac:(rewrite (proj2 (Z.ltb_lt p 4096)) by lia; done))).
  by exists (sector (drive s) blk), b'.
Qed.

Lemma child_entry_run m sec k c :
  length sec = 512%nat → (k + m = 21)%nat →
  ∃ r, child_entry m sec (Z.of_nat k) c = Ok r ∧
    match r with
    | Some j => 0 ≤ j < 21 ∧ find (λ e, de_i_no e =? c) (drop k (slots sec)) = Some (slot_at sec (Z.to_nat j))
    | None => find (λ e, de_i_no e =? c) (drop k (slots sec)) = None
    end.
Proof.
  intros Hl. revert k. induction m as [|m IH]; intros k Hk.
  { exists None. split; [done|]. by rewrite drop_ge by (rewrite slots_length; lia). }
  rewrite slots_from by lia. cbn [child_entry find]. destruct (entry_words sec k ltac:(lia) ltac:(lia)) as [-> _]. cbn [rbind].
  destruct (Z.eqb_spec (de_i_no (slot_at sec k)) c) as [E|E].
  - exists (Some (Z.of_nat k)). split; [done|]. split; [lia|]. by rewrite Nat2Z.id.
  - replace (Z.of_nat k + 1) with (Z.of_nat (S k)) by lia. apply IH. lia.
Qed.

Lemma child_loop_run s blocks c path acc io e :
  disk_ok (drive s) → Forall (λ b, b ≤ max_lba) blocks → Forall slot_ok (concat (pos_slots (drive s) <$> blocks)) → length io = 512%nat →
  find (λ e, de_i_no e =? c) (concat (pos_slots (drive s) <$> blocks)) = Some e → name_ok (de_name e) →
  cstr path acc → (length acc + length (de_name e) + 1 < length path)%nat →
  ∃ path' io', child_loop blocks c 24 path io s = Ok ((0, path', io'), s) ∧ cstr path' (acc ++ slash :: de_name e) ∧ length path' = length path ∧ length io' = 512%nat.
Proof.
  intros Hd. revert io. induction blocks as [|b blocks IH]; intros io Hm Hok Hio Hf Hn Hp Hl; [done|]. apply Forall_cons in Hm as [Hb Hm].
  cbn [child_loop]. rewrite fmap_cons in *. cbn [concat] in *. apply Forall_app in Hok as [Hok1 Hok2]. rewrite find_app in Hf. unfold pos_slots at 1 in Hok1. unfold pos_slots at 1 in Hf.
  destruct (Z.eqb_spec b 0) as [->|Hb0]; [by apply IH|]. pose proof (sector_length (drive s) b Hd) as Hsl.
  mstep (read_sector_run b io s Hd Hb ltac:(lia)). rewrite (drop_ge io) by lia. rewrite app_nil_r.
  destruct (child_entry_run 21 (sector (drive s) b) 0 c Hsl eq_refl) as (r & E & Hr). change (drop 0 (slots (sector (drive s) b))) with (slots (sector (drive s) b)) in Hr.
  mstep (mlift_Ok _ s _ E). destruct r as [j|].
  - destruct Hr as [Hj Hr]. rewrite Hr in Hf. injection Hf as <-. set (e := slot_at (sector (drive s) b) (Z.to_nat j)) in *.
    assert (Hc : cstr (drop (Z.to_nat (24 * j)) (sector (drive s) b)) (de_name e)).
    { rewrite Forall_forall in Hok1. destruct (Hok1 e) as [Hc _]; [apply (list_elem_of_lookup_2 _ (Z.to_nat j)), slots_lookup; lia|].
      unfold e in Hc at 1. rewrite slot_filename in Hc. apply cstr_prefix in Hc. by replace (Z.to_nat (24 * j)) with (24 * Z.to_nat j)%nat by lia. }
    destruct (strcat_cstr path [slash; 0] [slash] acc Hp slash_cstr) as (p1 & E1 & Hc1 & Hl1); [simpl; lia|].
    destruct (strcat_cstr p1 _ _ _ Hc1 Hc) as (p2 & E2 & Hc2 & Hl2); [rewrite length_app, Hl1; simpl; lia|].
    mstep (mlift_Ok _ s _ E1). unfold name_at, de_size. mstep (mlift_Ok _ s _ E2). eexists p2, _. split; [reflexivity|]. rewrite <-app_assoc in Hc2. split; [done|]. split; [congruence|done].
  - rewrite Hr in Hf. by apply IH.
Qed.

Lemma child_run k p c w path acc io b s :
  fs_ok (k + 1) s → 0 ≤ k → links s p c w → length io = 512%nat → brk s ≤ b → cstr path acc → (length acc + length w + 1 < length path)%nat →
  ∃ path' io' b', get_child_dir_name p c path io (bump b s) = Ok ((0, path', io'), bump b' s) ∧ brk s ≤ b' ∧ length io' = 512%nat ∧
    cstr path' (acc ++ slash :: w) ∧ length path' = length path.
Proof.
  intros Hs Hk (_ & Hw & (Hp & ip & Hip & _ & Hok) & _ & _ & i & e & Hi & Hf & <-) Hio Hb Hc Hl.
  rewrite Hi in Hip. injection Hip as <-. unfold get_child_dir_name.
  destruct (inode_open_run k p i b s Hs Hk Hi Hp Hb) as (q & s1 & i' & Eo & Hi' & Hst & Hd & [l Hpt] & b' & Hb' & Ecl).
  mstep Eo. mstep (inode_at_run q i' s1 Hi'). apply still_fields in Hst as (_ & _ & Es & _).
  pose proof (dir_inode_len s i Hok) as Hlen. rewrite <-Es in Hlen. assert (Ht : tbl_of i' = 0) by (unfold tbl_of; rewrite Es; apply (dk_tbl s i Hok)).
  mstep (mlift_Ok _ s1 _ (rd_lookup (i_sectors i') 12 0 ltac:(lia) ltac:(rewrite <-Ht; apply (tbl_lookup i' Hlen)))). mstep (dir_blocks_run q i' s1 Hi' Hlen Ht). mstep Ecl.
  unfold mbnd at 1. unfold mget at 1. cbn [rbind fst snd]. change (negb (0 =? 0)) with false. cbv iota.
  change (dir_entry_size (sb (cur_part (bump b' s)))) with (dir_entry_size (sb (cur_part s))). rewrite (fk_size _ s Hs), Es, take_app_le, take_take by (rewrite length_take, <-Es; lia).
  destruct (child_loop_run (bump b' s) (take 12 (i_sectors i)) c path acc io e) as (path' & io' & El & H1 & H2 & H3); try done.
  - apply (fk_layout _ s Hs).
  - pose proof (blocks_max s i Hok) as Hbm. by apply Forall_app in Hbm as [Hbm _].
  - apply (dk_slots s i Hok).
  - exists path', io', b'. done.
Qed.

Lemma cwd_loop_run k names c path acc io b s fuel :
  fs_ok (k + 1) s → 0 ≤ k → up s c names → length io = 512%nat → brk s ≤ b → cstr path (joined acc) → (length (joined acc) + length (joined names) < length path)%nat →
  (length names < fuel)%nat → 
  ∃ path' b', cwd_loop fuel c path io (bump b s) = Ok (Some path', bump b' s) ∧ brk s ≤ b' ∧ cstr path' (joined (acc ++ names)) ∧ length path' = length path.
Proof.
  intros Hs Hk. revert c path acc io b fuel. induction names as [|w names IH]; intros c path acc io b fuel Hup Hio Hb Hp Hl Hfuel; (destruct fuel as [|fuel]; [simpl in Hfuel; lia|]); cbn [cwd_loop].
  - cbn in Hup. subst c. exists path, b. change (0 =? 0) with true. cbv iota. by rewrite app_nil_r.
  - destruct Hup as (p & Hlk & Hup). pose proof Hlk as (Hc0 & _ & (Hp4 & _) & (Hc4 & _) & _). rewrite (proj2 (Z.eqb_neq c 0)) by done. rewrite (u32_small c) by lia.
    change (joined (w :: names)) with (slash :: w ++ joined names) in Hl. cbn [length] in Hl. rewrite length_app in Hl.
    destruct (parent_run k p c w io b s Hs Hk Hlk Hio Hb) as (io1 & b1 & E1 & Hb1 & Hio1). mstep E1. rewrite (s32_small p), (u32_small p) by lia.
    destruct (child_run k p c w path (joined acc) io1 b1 s Hs Hk Hlk Hio1 Hb1 Hp) as (path2 & io2 & b2 & E2 & Hb2 & Hio2 & Hc2 & Hl2); [lia|]. mstep E2.
    change (0 =? -1) with false. cbv iota. rewrite <-joined_snoc in Hc2.
    destruct (IH p path2 (acc ++ [w]) io2 b2 fuel Hup Hio2 Hb2 Hc2) as (path3 & b3 & E3 & Hb3 & Hc3 & Hl3).
    + rewrite joined_snoc, length_app, Hl2. simpl. lia.
    + simpl in Hfuel. lia.
    + exists path3, b3. rewrite E3. rewrite <-app_assoc in Hc3. split; [done|]. split; [done|]. split; [done|congruence].
Qed.

(** One turn of the reversal moves the last name to the end of [buf]. *)
Lemma reverse_turn p w f buf acc :
  cstr f (p ++ slash :: w) → slash ∉ w → cstr buf acc → (length acc + length w + 1 < length buf)%nat → Z.of_nat (length buf) < 65536 →
  ∃ buf' f', (∀ fuel, reverse_loop (S fuel) buf f = reverse_loop fuel buf' f') ∧
    cstr buf' (acc ++ slash :: w) ∧ length buf' = length buf ∧ cstr f' p ∧ length f' = length f.
Proof.
  intros Hf Hw Hb Hl Hlb. destruct (cut_cstr f p (slash :: w) Hf) as (f' & Ef & Hf' & Hlf). pose proof Hf as [Hch [r Er]]. pose proof Hb as [Hcb [rb Erb]].
  assert (Hsw : Forall is_char (slash :: w)) by (by apply Forall_app in Hch as [_ ?]).
  exists (acc ++ (slash :: w) ++ 0 :: drop (S (length (slash :: w))) (0 :: rb)), f'. split; [|split_and!; try done].
  - intros fuel. cbn [reverse_loop]. rewrite Er at 1. rewrite strrchr_last by (done || unfold slash; lia). cbn [rbind].
    rewrite (strlen_cstr buf acc Hb) by lia. cbn [rbind]. rewrite u16_small, !Nat2Z.id by lia. unfold strcpy. rewrite ASSERT_true by done. cbn [rbind]. rewrite !mem_Some.
    rewrite Er at 1. rewrite <-app_assoc, drop_app_length. rewrite Erb. rewrite drop_app_length, take_app_length, strcpy_loop_run by done.
    rewrite decide_True by (rewrite Erb, length_app in Hl; simpl in *; lia). cbn [rbind]. rewrite Ef. done.
  - split; [by apply Forall_app|]. rewrite app_assoc. eauto.
  - rewrite Erb, length_app in Hl. simpl in Hl. rewrite Erb, !length_app. simpl. rewrite length_drop. lia.
Qed.

Lemma reverse_loop_run names f buf acc fuel :
  cstr f (joined names) → Forall name_ok names → cstr buf acc → (length acc + length (joined names) < length buf)%nat → Z.of_nat (length buf) < 65536 →
  (length names < fuel)%nat →
  ∃ buf', reverse_loop fuel buf f = Ok buf' ∧ cstr buf' (acc ++ joined (reverse names)) ∧ length buf' = length buf.
Proof.
  revert f buf acc fuel. induction names as [|w names IH] using rev_ind; intros f buf acc fuel Hf Hn Hb Hl Hlb Hfuel; (destruct fuel as [|fuel]; [rewrite ?length_app in Hfuel; simpl in Hfuel; lia|]).
  - exists buf. split; [|split; [by rewrite app_nil_r|done]]. destruct Hf as [_ [r ->]]. cbn [reverse_loop]. unfold strrchr. rewrite ASSERT_true by done. cbn [rbind].
    change (mem (Some (joined [] ++ 0 :: r))) with ([] ++ 0 :: r). by rewrite strrchr_loop_run by (done || vm_compute; done).
  - rewrite joined_snoc in Hf, Hl. apply Forall_app in Hn as [Hn Hw]. apply Forall_inv in Hw as (_ & Hsl & _ & _). rewrite length_app in Hl, Hfuel. cbn [length] in Hl, Hfuel.
    destruct (reverse_turn (joined names) w f buf acc Hf Hsl Hb ltac:(lia) Hlb) as (buf1 & f1 & E1 & Hb1 & Hl1 & Hf1 & _). rewrite E1.
    destruct (IH f1 buf1 (acc ++ slash :: w) fuel Hf1 Hn Hb1) as (buf2 & E2 & Hb2 & Hl2); [rewrite length_app; simpl; lia|lia|lia|].
    exists buf2. split; [done|]. split; [|congruence]. rewrite reverse_app. cbn. rewrite <-app_assoc in Hb2. done.
Qed.

(** A walk along links ends where the names lead up again. *)
Lemma resolve_linked s par n seen names :
  linked s n names → up s n (reverse seen) →
  w_type (resolve s par n seen names) = FT_DIRECTORY ∧ w_path (resolve s par n seen names) = seen ++ names ∧
  up s (w_no (resolve s par n seen names)) (reverse (seen ++ names)).
Proof.
  revert par n seen. induction names as [|w names IH]; intros par n seen Hl Hup; cbn [resolve linked] in *; [by rewrite app_nil_r|].
  destruct (find (named w) (dir_of s n)) as [e|]; [|done]. destruct Hl as (Ht & Hlk & Hl). rewrite (proj2 (Z.eqb_eq (f_type e) FT_DIRECTORY)) by done.
  destruct (IH n (de_i_no e) (seen ++ [w]) Hl) as (H1 & H2 & H3).
  - rewrite reverse_app. cbn. eauto.
  - rewrite <-app_assoc in *. done.
Qed.

Lemma linked_walkable s n names : linked s n names → is_dir s n → walkable s n names.
Proof.
  revert n. induction names as [|w names IH]; intros n Hl Hd; cbn in *; [done|]. split; [done|].
  destruct (find (named w) (dir_of s n)) as [e|]; [|done]. destruct Hl as (Ht & Hlk & Hl). pose proof Hlk as (_ & _ & _ & Hc & _). split; [apply Hc|]. left. eauto.
Qed.

Lemma fs_ok_heap k b l s : fs_ok k s → brk s ≤ b → fs_ok k (set_heap b [] l s).
Proof.
  intros [Hl ? ? Hb Hi Hd ? ?] Hle. split; cbn; try done; try lia; [by apply layout_heap| |].
  - intros q Hq. specialize (Hi q Hq). lia.
  - intros q Hq. specialize (Hd q Hq). lia.
Qed.

Lemma resolve_dir_no s par n seen names :
  walkable s n names → w_type (resolve s par n seen names) = FT_DIRECTORY → 0 ≤ w_no (resolve s par n seen names) < 4096.
Proof.
  revert par n seen. induction names as [|w names IH]; intros par n seen Hw Ht; cbn [resolve walkable] in *; [apply Hw|].
  destruct Hw as [_ Hw]. destruct (find (named w) (dir_of s n)) as [e|]; [|done]. destruct Hw as [He Hw].
  destruct (Z.eqb_spec (f_type e) FT_DIRECTORY) as [E|E]; [|done]. destruct Hw as [[_ Hw]|Hw]; [by apply IH|]. rewrite E in Hw. done.
Qed.

Lemma joined_length l : length (joined l) = (sum_list (length <$> l) + length l)%nat.
Proof. induction l as [|w l IH]; [done|]. change (joined (w :: l)) with (slash :: w ++ joined l). cbn. rewrite length_app, IH. lia. Qed.

Lemma joined_reverse l : length (joined (reverse l)) = length (joined l).
Proof. rewrite !joined_length, length_reverse. f_equal. rewrite fmap_reverse. by rewrite reverse_Permutation. Qed.

(** The names and a slash each are no longer than the path they are from. *)
Lemma comps_length t : (∃ q, t = slash :: q) ∨ t = [] → (length (joined (comps t)) ≤ length t)%nat.
Proof.
  remember (length t) as n eqn:En. revert t En. induction (lt_wf n) as [n _ IH]. intros t -> Habs.
  destruct (words_shape slash t) as (k & w & rest & Et & Hw & Hr & He). rewrite Et, (words_cons slash) by done. rewrite !length_app, length_replicate.
  case_bool_decide as Ew; [simpl; lia|]. change (joined (w :: comps rest)) with (slash :: w ++ joined (comps rest)). cbn [length]. rewrite length_app.
  assert (Hk : (1 ≤ k)%nat) by (destruct k; [|lia]; destruct w as [|c w]; [done|]; destruct Habs as [[q Eq]|Eq]; rewrite Et in Eq; simplify_eq/=; set_solver).
  destruct w as [|c w]; [done|].
  assert (Hi : (length (joined (comps rest)) ≤ length rest)%nat); [|simpl; lia].
  eapply IH; [|done|tauto]. rewrite Et, !length_app, length_replicate. simpl. lia.
Qed.

(** The same state as far as names and inodes go. *)
Lemma up_frame v b o l c names s : up s c names → up (set_cwd v (set_heap b o l s)) c names.
Proof.
  revert c. induction names as [|w names IH]; intros c; cbn; [done|]. intros (p & (H1 & H2 & H3 & H4 & H5) & Hup).
  assert (Hd : ∀ n, is_dir s n → is_dir (set_cwd v (set_heap b o l s)) n) by (intros n (? & i & ? & ? & []); split; [done|]; exists i; split_and!; try done; by split).
  exists p. split; [|by apply IH]. split; [done|]. split; [done|]. split; [by apply Hd|]. split; [by apply Hd|]. exact H5.
Qed.

End fs_lemmas.

(** ** Properties *)

Section fs_properties.
Context {B : Build} {J : Stack}.

(** C23: [search_file] resolves a path: it returns the inode number, the type and
    the searched part of the path that a walk along the names of the path from
    the root directory gives (-1 where a name is missing; a regular file ends
    the walk even when names follow it), hands out the directory of the last
    lookup open, and closing that directory gives back the state before the
    call but for addresses handed out. *)
Theorem search_file_resolves t r s :
  fs_ok 2 s → path_ok t → walkable s 0 (comps t) →
  let w := target s t in
  ∃ rec s2 x i b, search_file (t ++ 0 :: r) zero_record s = Ok ((w_no w, rec), s2) ∧
    file_type rec = w_type w ∧ cstr (searched_path rec) (joined (w_path w)) ∧
    dirs s2 !! parent_dir rec = Some x ∧ inodes s2 !! d_inode x = Some i ∧ i_no i = w_parent w ∧
    dir_close (parent_dir rec) s2 = Ok (tt, bump b s).
Proof.
  intros Hs Hp Hw w. destruct (search_file_run 1 t r s Hs ltac:(lia) Hp Hw) as (rec & s2 & E & Ho & Ht & Hc & (_ & i & Hi & Hno & _) & _).
  destruct (held_dir _ _ _ i _ _ Hs Ho Hi) as (x & i' & Hx & Hi' & Hst). apply still_fields in Hst as (En & _).
  destruct (dir_close_run _ _ _ _ _ Hs ltac:(lia) Ho) as (b & _ & Ecl).
  exists rec, s2, x, i', b. split_and!; try done. by rewrite En.
Qed.

Lemma sys_chdir_run t r s :
  fs_ok 2 s → path_ok t → walkable s 0 (comps t) →
  ∃ b, brk s ≤ b ∧ sys_chdir (t ++ 0 :: r) s =
    Ok (if bool_decide (w_type (target s t) = FT_DIRECTORY) then (0, bump b (set_cwd (w_no (target s t)) s)) else (-1, bump b s)).
Proof.
  intros Hs Hp Hw. destruct (search_file_run 1 t r s Hs ltac:(lia) Hp Hw) as (rec & s2 & E & Ho & Ht & _ & (Hn & _) & _).
  unfold sys_chdir. mstep E. rewrite Ht.
  destruct (Z.eqb_spec (w_no (target s t)) (-1)) as [Eno|Eno]; cbn [negb].
  - assert (Hty : w_type (target s t) ≠ FT_DIRECTORY).
    { intros Hd. destruct (resolve_dir_no s 0 0 [] (comps t) Hw Hd). unfold target in Eno. lia. }
    rewrite bool_decide_false by done. destruct (close_with (-1) _ _ _ _ _ Hs ltac:(lia) Ho) as (b & Hb & Eb). exists b. split; [done|]. exact Eb.
  - destruct (Z.eqb_spec (w_type (target s t)) FT_DIRECTORY) as [Hd|Hd].
    + rewrite bool_decide_true by done. pose proof (resolve_dir_no s 0 0 [] (comps t) Hw Hd) as Hr. change (resolve s 0 0 [] (comps t)) with (target s t) in Hr. rewrite u32_small by lia.
      destruct (close_with 0 _ _ _ _ _ (fs_ok_cwd _ (w_no (target s t)) _ Hs) ltac:(lia) (held_cwd _ _ _ _ _ Ho)) as (b & Hb & Eb). exists b. split; [done|]. exact Eb.
    + rewrite bool_decide_false by done. destruct (close_with (-1) _ _ _ _ _ Hs ltac:(lia) Ho) as (b & Hb & Eb). exists b. split; [done|]. exact Eb.
Qed.

(** C26: [chdir] and [getcwd] agree: after [sys_chdir] to a path whose every
    directory is linked to its parent by "..", [sys_getcwd] returns the path
    with its names separated by single slashes; both calls leave the rest of
    the state as it was. *)
Theorem chdir_getcwd t r s buf :
  fs_ok 2 s → path_ok t → is_dir s 0 → linked s 0 (comps t) → length buf = 512%nat →
  ∃ s1 b buf', sys_chdir (t ++ 0 :: r) s = Ok (0, s1) ∧ cwd_inode_nr s1 = w_no (target s t) ∧
    sys_getcwd buf 512 s1 = Ok ((buf', true), bump b (set_cwd (w_no (target s t)) s)) ∧ cstr buf' (joined (comps t)).
Proof.
  intros Hs Hp Hd Hlk Hbl. pose proof (linked_walkable s 0 _ Hlk Hd) as Hw.
  destruct (resolve_linked s 0 0 [] (comps t) Hlk eq_refl) as (Hty & _ & Hup). change (resolve s 0 0 [] (comps t)) with (target s t) in *. cbn [app] in Hup.
  destruct (sys_chdir_run t r s Hs Hp Hw) as (b1 & Hb1 & E1). rewrite bool_decide_true in E1 by done.
  pose proof (resolve_dir_no s 0 0 [] (comps t) Hw Hty) as Hr. change (resolve s 0 0 [] (comps t)) with (target s t) in Hr.
  set (m := w_no (target s t)) in *. set (s0 := set_cwd m s) in *. pose proof (fs_ok_cwd 2 m s Hs : fs_ok (1 + 1) s0) as Hs0.
  assert (Hm : m ≠ 0).
  { intros Em. rewrite Em in Hup. destruct (reverse (comps t)) as [|w l] eqn:Erev; [|destruct Hup as (? & (H0 & _) & _); done].
    apply (pk_some t Hp). by apply (f_equal reverse) in Erev; rewrite reverse_involutive in Erev. }
  pose proof (comps_length t (or_introl (pk_abs t Hp))) as Hcl. pose proof (pk_len t Hp) as Hpl. rewrite <-(joined_reverse (comps t)) in Hcl.
  set (sL := set_heap (brk s) [] (live s + 1) s0). pose proof (fs_ok_heap _ (brk s) (live s + 1) s0 Hs0 ltac:(cbn; lia)) as HsL.
  assert (Hup' : up sL m (reverse (comps t))) by (exact (up_frame m (brk s) [] (live s + 1) _ _ _ Hup)).
  assert (Hz : cstr (replicate 512 0) (joined [])) by (split; [constructor|by exists (replicate 511 0)]).
  assert (Hcc : Forall name_ok (reverse (comps t))) by (rewrite Forall_reverse; apply (pk_names t Hp)).
  destruct (cwd_loop_run 1 (reverse (comps t)) m (replicate 512 0) [] (replicate 512 0) (b1 + 1) sL 513) as (path & b2 & Ec & Hb2 & Hcp & Hlp); try done.
  { cbn in *. lia. }
  { cbn [length joined]. rewrite length_replicate. change (length (joined [])) with 0%nat. lia. }
  { rewrite joined_length in Hcl. rewrite length_reverse in *. lia. }
  cbn [app] in Hcp.
  destruct (reverse_loop_run (reverse (comps t)) path (replicate 512 0) [] 513 Hcp Hcc) as (buf' & Er & Hcb & _); try done.
  { change (length (replicate 512 0)) with 512%nat. change (length []) with 0%nat. lia. }
  { rewrite joined_length in Hcl. rewrite length_reverse in *. lia. }
  rewrite reverse_involutive in Hcb. cbn [app] in Hcb.
  exists (bump b1 s0), b2, buf'. split; [exact E1|]. split; [done|]. split; [|done]. unfold sys_getcwd.
  mstep (malloc_buf_run 512 (bump b1 s0) eq_refl ltac:(pose proof (fk_brk _ s Hs); cbn; lia)).
  change (set_heap (brk (bump b1 s0) + 1) [] (live (bump b1 s0) + 1) (bump b1 s0)) with (bump (b1 + 1) sL).
  unfold mbnd at 1. unfold mget at 1. cbn [rbind fst snd]. change (cwd_inode_nr (bump (b1 + 1) sL)) with m. rewrite s32_small by lia.
  mstep (mlift_Ok _ (bump (b1 + 1) sL) _ (ASSERT_true ((0 <=? m) && (m <? 4096)) ltac:(rewrite (proj2 (Z.leb_le 0 m)), (proj2 (Z.ltb_lt m 4096)) by lia; done))).
  rewrite (proj2 (Z.eqb_neq m 0)) by done.
  mstep (mlift_Ok _ (bump (b1 + 1) sL) _ (memset_run buf 512 ltac:(lia))). rewrite drop_ge, app_nil_r by lia. mstep Ec.
  mstep (mlift_Ok _ (bump b2 sL) _ (strlen_cstr path _ Hcp ltac:(lia))).
  mstep (mlift_Ok _ (bump b2 sL) _ (ASSERT_true (Z.of_nat (length (joined (reverse (comps t)))) <=? 512) ltac:(apply Z.leb_le; lia))).
  mstep (mlift_Ok _ (bump b2 sL) _ Er). unfold sys_free, mmod, mbnd, mok. cbn [rbind fst snd]. do 2 f_equal. apply fs_ext; try done. cbn. lia.
Qed.

End fs_properties.
