(* ===== verification/Create.v ===== *)
(** * Creating and deleting names ([sys_mkdir], [sys_unlink] of [fs/fs.c], [file_create])

    What the calls of [Fs] that change the tree do to it.  Such a call holds the
    parent directory open while it works; [held_patch] says that what it did
    then is what it would have done to the state without the held directory. *)

From S2P Require Import Prelude CString Bitmap Disk Inode File Dir Path Fs.

(** [s'] is [s] with the disk [dr], the bitmaps [ib] and [bm], and inode [n]
    changed to [i']; [dl] is the change in the number of heap blocks in use. *)
Record patched (n : Z) (i' : inode) (dr : disk) (ib bm : bitmap) (dl : Z) (s s' : fs) : Prop := {
  pt_drive : drive s' = dr;
  pt_part : cur_part s' = set_inode_bitmap ib (set_block_bitmap bm (cur_part s));
  pt_dirs : dirs s' = dirs s ∧ file_table s' = file_table s ∧ fd_table s' = fd_table s ∧ cwd_inode_nr s' = cwd_inode_nr s;
  pt_heap : brk s' = brk s ∧ oom s' = [] ∧ live s' = live s + dl;
  pt_nos : ∀ q, i_no <$> inodes s' !! q = i_no <$> inodes s !! q;
  pt_cnts : ∀ q, i_open_cnts <$> inodes s' !! q = i_open_cnts <$> inodes s !! q;
  pt_same : ∀ m q, m ≠ n → find_open (open_inodes (cur_part s)) (inodes s) m = Some q → inodes s' !! q = inodes s !! q;
  pt_new : ∃ i, the_inode s' n = Some i ∧ still i = still i';
}.

Definition patch (dr : disk) (ib bm : bitmap) (q : Z) (i' : inode) (b dl : Z) (s : fs) : fs :=
  set_heap b [] (live s + dl) (set_drive dr (set_inodes (<[q := i']> (inodes s)) (set_part (set_inode_bitmap ib (set_block_bitmap bm (cur_part s))) s))).

Section create_lemmas.
Context {B : Build} {J : Stack}.

Lemma patched_find n i' dr ib bm dl s s' m : patched n i' dr ib bm dl s s' →
  find_open (open_inodes (cur_part s')) (inodes s') m = find_open (open_inodes (cur_part s)) (inodes s) m.
Proof. intros [_ Hp _ _ Hn _ _ _]. rewrite Hp. cbn. apply find_open_ext. intros q _. apply Hn. Qed.

Lemma patched_ok k n i' dr ib bm dl s s' : fs_ok k s → patched n i' dr ib bm dl s s' → layout s' → fs_ok k s'.
Proof.
  intros Hs Hpt Hl. pose proof Hpt as [Hd Hp (Hdr & _) (Hb & Ho & _) Hn Hc _ _]. split; try done.
  - rewrite Hp. apply (fk_size _ s Hs).
  - rewrite Hb. apply Hs.
  - intros q Hq. rewrite Hb. apply (fk_inodes _ s Hs). rewrite <-(fmap_is_Some i_no), <-Hn. by rewrite fmap_is_Some.
  - intros q Hq. rewrite Hb. apply (fk_dirs _ s Hs). by rewrite <-Hdr.
  - rewrite Hp. cbn. intros q Hq. destruct (fk_open _ s Hs q Hq) as (i & Hi & Hcn). pose proof (Hc q) as Hcq. rewrite Hi in Hcq.
    destruct (inodes s' !! q) as [i2|]; [|done]. exists i2. split; [done|]. injection Hcq as ->. done.
  - destruct (fk_root _ s Hs) as (x & Hx & Hf). exists x. rewrite Hdr, (patched_find _ _ _ _ _ _ _ _ _ Hpt). done.
Qed.

(** Another inode is the open one it was, or the one in the new table. *)
Lemma patched_other n i' dr ib bm dl s s' m :
  patched n i' dr ib bm dl s s' → m ≠ n → slot s' m = slot s m → the_inode s' m = the_inode s m.
Proof.
  intros Hpt Hm Hsl. unfold the_inode. rewrite (patched_find _ _ _ _ _ _ _ _ _ Hpt), Hsl.
  destruct (find_open _ _ m) as [q|] eqn:E; [|done]. by apply (pt_same _ _ _ _ _ _ _ _ Hpt m).
Qed.

Lemma recount i c : i_open_cnts i = c → set_open_cnts c i = i.
Proof. intros <-. by destruct i. Qed.

Lemma held_patch k n d x i i' dr ib bm b dl s s2 :
  fs_ok k s → held s n d s2 → dirs s2 !! d = Some x → inodes s2 !! d_inode x = Some i → i_no i = n → write_deny i = false →
  i_no i' = i_no i → i_open_cnts i' = i_open_cnts i → write_deny i' = write_deny i → brk s2 ≤ b →
  inode_of_bytes (slot (patch dr ib bm (d_inode x) i' b dl s2) n) = Some (set_open_cnts 0 i') →
  ∃ s', held s' n d (patch dr ib bm (d_inode x) i' b dl s2) ∧ patched n i' dr ib bm dl s s'.
Proof.
  intros Hs Ho Hx Hi Hno Hwd Eno Ecn Ewd Hb Hsl. destruct Ho as [b0 Hb0 Hn0|b0 d q j Hd Hf Hj|b0 d q j Hd Hq Hf Hj Hnj].
  - set (s' := patch dr ib bm (d_inode x) i' (brk s) dl s). assert (Hf : find_open (open_inodes (cur_part s)) (inodes s) 0 = Some (d_inode x)).
    { destruct (fk_root _ s Hs) as (x' & Hx' & Hf). cbn in Hx. rewrite Hx in Hx'. by injection Hx' as <-. }
    cbn in Hi. assert (Hnos : ∀ p, i_no <$> inodes s' !! p = i_no <$> inodes s !! p).
    { intros p. cbn. destruct (decide (p = d_inode x)) as [->|]; [rewrite lookup_insert_eq, Hi; cbn; by rewrite Eno|by rewrite lookup_insert_ne]. }
    exists s'. split; [exact (held_root s' n b ltac:(cbn in *; lia) Hn0)|]. split; try done.
    + intros p. cbn. destruct (decide (p = d_inode x)) as [->|]; [rewrite lookup_insert_eq, Hi; cbn; by rewrite Ecn|by rewrite lookup_insert_ne].
    + intros m p Hm Hp. cbn. rewrite lookup_insert_ne; [done|]. intros Epq. destruct (find_open_in _ _ _ _ Hp) as (_ & i0 & Hi0 & Hn'). congruence.
    + exists i'. split; [|done]. unfold the_inode. cbn [cur_part s' patch set_heap set_drive set_inodes set_part open_inodes set_inode_bitmap set_block_bitmap inodes].
      rewrite (find_open_ext _ (inodes s)) by (intros p _; apply Hnos). rewrite Hn0, Hf. apply lookup_insert_eq.
  - cbn in Hx. rewrite lookup_insert_eq in Hx. injection Hx as <-. cbn [d_inode] in *. cbn in Hi. rewrite lookup_insert_eq in Hi. injection Hi as <-. cbn in *.
    set (j' := set_open_cnts (i_open_cnts j) i'). set (s' := patch dr ib bm q j' (brk s) dl s).
    assert (Hnos : ∀ p, i_no <$> inodes s' !! p = i_no <$> inodes s !! p).
    { intros p. cbn. destruct (decide (p = q)) as [->|]; [rewrite lookup_insert_eq, Hj; cbn; by rewrite Eno|by rewrite lookup_insert_ne]. }
    assert (Hf' : find_open (open_inodes (cur_part s')) (inodes s') n = Some q).
    { cbn. rewrite (find_open_ext _ (inodes s)) by (intros p _; apply Hnos). done. }
    exists s'. split.
    + replace (patch _ _ _ _ _ _ _ _) with (set_heap b [] (live s' + 1) (set_dirs (<[d := Dir q 0 (replicate 512 0)]> (dirs s'))
        (set_inodes (<[q := set_open_cnts (i_open_cnts j' + 1) j']> (inodes s')) s'))).
      * apply (held_hit s' n b d q j'); [cbn; lia|done|apply lookup_insert_eq].
      * apply fs_ext; try done; cbn; [|lia]. rewrite !insert_insert_eq. f_equal. unfold j'. cbn. rewrite <-Ecn. by destruct i'.
    + split; try done.
      * intros p. cbn. destruct (decide (p = q)) as [->|]; [rewrite lookup_insert_eq, Hj; by cbn|by rewrite lookup_insert_ne].
      * intros m p Hm Hp. cbn. rewrite lookup_insert_ne; [done|]. intros Epq. destruct (find_open_in _ _ _ _ Hp) as (_ & i0 & Hi0 & Hn'). congruence.
      * exists j'. split; [|by destruct i']. unfold the_inode. rewrite Hf'. apply lookup_insert_eq.
  - cbn in Hx. rewrite lookup_insert_eq in Hx. injection Hx as <-. cbn [d_inode] in *. cbn in Hi. rewrite lookup_insert_eq in Hi. injection Hi as <-.
    assert (Hqn : inodes s !! q = None) by (apply (not_there _ (brk s)); [apply Hs|lia]). cbn in Eno, Ecn, Ewd, Hb.
    set (s' := set_heap (brk s) [] (live s + dl) (set_drive dr (set_part (set_inode_bitmap ib (set_block_bitmap bm (cur_part s))) s))).
    assert (Hsl' : inode_of_bytes (slot s' n) = Some (set_open_cnts 0 i')) by (rewrite <-Hsl; done).
    exists s'. split.
    + replace (patch _ _ _ _ _ _ _ _) with (set_heap b [] (live s' + 2) (set_dirs (<[d := Dir q 0 (replicate 512 0)]> (dirs s'))
        (set_inodes (<[q := set_open_cnts 1 (set_open_cnts 0 i')]> (inodes s')) (set_part (set_open_inodes (q :: open_inodes (cur_part s')) (cur_part s')) s')))).
      * apply (held_miss s' n b d q (set_open_cnts 0 i')); try done; cbn; [lia|congruence].
      * apply fs_ext; try done; cbn; [|lia]. rewrite insert_insert_eq. f_equal. destruct i'; cbn in *. by rewrite Ecn.
    + split; try done.
      exists (set_open_cnts 0 i'). split; [|done]. unfold the_inode. cbn [s' cur_part set_heap set_drive set_part open_inodes set_inode_bitmap set_block_bitmap inodes]. rewrite Hf. exact Hsl'.
Qed.

(** *** The inode bitmap *)

Lemma layout_inodes s d b :
  layout s → disk_ok d → bitmap_ok b → slack b → btmp_bytes_len b = 512 → layout (set_drive d (set_part (set_inode_bitmap b (cur_part s)) s)).
Proof. intros [] Hd Hb Hsl Hby. by split. Qed.

(** The first free inode number is taken in memory; [bitmap_sync] stores it. *)
Lemma alloc_inode_run s m :
  layout s → 0 ≤ m < 4096 → bit (inode_bitmap (cur_part s)) m = false →
  ∃ n b, inode_bitmap_alloc s = Ok (n, set_part (set_inode_bitmap b (cur_part s)) s) ∧ 0 ≤ n ≤ m ∧ bit (inode_bitmap (cur_part s)) n = false ∧
    (∀ j, 0 ≤ j → bit b j = if decide (j = n) then true else bit (inode_bitmap (cur_part s)) j) ∧
    bitmap_ok b ∧ slack b ∧ btmp_bytes_len b = 512.
Proof.
  intros Hl Hm Hfree. pose proof (ly_inodes s Hl) as [Hb Hsl]. pose proof (ly_ibytes s Hl) as Hby. unfold slack in Hsl. set (ib := inode_bitmap (cur_part s)) in *.
  destruct (bitmap_scan_one ib Hb) as (n & Hscan & Hn & Hbit & Hall); [exists m; unfold bit_cnt; split; [lia|done]|]. unfold bit_cnt in Hn.
  assert (Hle : n ≤ m) by (destruct (decide (n ≤ m)); [done|]; rewrite (Hall m) in Hfree by lia; done).
  destruct (bitmap_set_spec ib n 1 Hb) as (b' & Hset & Hb' & Hlen & Hml & Hbits); [lia|zsolve|by right|].
  exists n, b'. split_and!; try done; try lia; [|unfold slack; lia].
  unfold inode_bitmap_alloc. unfold mbnd at 1. unfold mget at 1. cbn [rbind fst snd]. fold ib.
  mstep (mlift_Ok _ s _ Hscan). rewrite (proj2 (Z.eqb_neq n (-1))) by lia. mstep (mlift_Ok _ s _ Hset). done.
Qed.

Lemma inode_bit_sync_run n s :
  layout s → 0 ≤ n < 4096 →
  ∃ d, bitmap_sync n INODE_BITMAP s = Ok (tt, set_drive d s) ∧ disk_ok d ∧ ∀ l, l ≠ inode_bitmap_lba (sb (cur_part s)) → sector d l = sector (drive s) l.
Proof.
  intros Hl Hn. pose proof (ly_inodes s Hl) as [Hb Hsl]. pose proof (ly_ibytes s Hl) as Hby. unfold slack in Hsl.
  assert (Hlba : 0 ≤ inode_bitmap_lba (sb (cur_part s)) ≤ max_lba) by (destruct Hl; lia).
  eexists. split; [|split].
  - unfold bitmap_sync. unfold mbnd, mget. cbn [rbind fst snd]. rewrite (Z.div_small n 4096) by lia.
    rewrite Z.add_0_r, u32_small by (unfold max_lba in *; lia). rewrite ide_write_run by (unfold BLOCK_SIZE; lia). reflexivity.
  - apply disk_write_ok; [apply Hl|]. rewrite length_take, length_drop. unfold BLOCK_SIZE. lia.
  - intros l Hne. apply sector_write_other. lia.
Qed.

(** *** The first block of a new directory *)

Definition dot_entry (n : Z) : dir_entry := DirEntry (46 :: replicate 15 0) n FT_DIRECTORY.
Definition dotdot_entry (p : Z) : dir_entry := DirEntry (46 :: 46 :: replicate 14 0) p FT_DIRECTORY.
Definition dots (n p : Z) : list Z := de_bytes (dot_entry n) ++ de_bytes (dotdot_entry p) ++ replicate 464 0.

Lemma put_at_app a r off bytes : 0 ≤ off → off + Z.of_nat (length bytes) ≤ Z.of_nat (length a) →
  put_at (a ++ r) off bytes = let? a := put_at a off bytes in Ok (a ++ r).
Proof.
  intros H0 H1. rewrite !put_at_Ok by (rewrite ?length_app; lia). cbn [rbind]. by rewrite splice_app_l by lia.
Qed.

Lemma put_entry_app a r k name n : 0 ≤ k → (length name ≤ 16)%nat → 24 * k + 24 ≤ Z.of_nat (length a) →
  put_entry (a ++ r) k name n = let? a := put_entry a k name n in Ok (a ++ r).
Proof.
  intros Hk Hn Hl. unfold put_entry, de_size. pose proof (le32_length n) as H4. assert (H4' : length (le32 FT_DIRECTORY) = 4%nat) by done.
  rewrite put_at_app by lia. rewrite (put_at_Ok a) by lia. cbn [rbind]. rewrite put_at_app by (rewrite ?splice_length; lia).
  rewrite (put_at_Ok (splice _ _ a)) by (rewrite ?splice_length; lia). cbn [rbind]. rewrite put_at_app; [done|lia|]. rewrite !splice_length; rewrite ?splice_length; lia.
Qed.

(** Both entries on a zeroed buffer. *)
Lemma put_dots m n p : (48 ≤ m)%nat →
  (let? b := put_entry (replicate m 0) 0 [46] n in put_entry b 1 [46; 46] p) =
    Ok (de_bytes (dot_entry n) ++ de_bytes (dotdot_entry p) ++ replicate (m - 48) 0).
Proof.
  intros Hm. replace m with (48 + (m - 48))%nat at 1 by lia. rewrite replicate_add, put_entry_app by (rewrite ?length_replicate; simpl; lia).
  assert (E : ∀ w v, length w = 4%nat → length v = 4%nat →
    (let? b := (let? b := put_at (replicate 48 0) 0 [46] in let? b := put_at b 16 w in put_at b 20 (le32 2)) in
     let? b := put_at b 24 [46; 46] in let? b := put_at b 40 v in put_at b 44 (le32 2)) =
    Ok ((46 :: replicate 15 0 ++ w ++ le32 2) ++ (46 :: 46 :: replicate 14 0 ++ v ++ le32 2))).
  { intros [|w0 [|w1 [|w2 [|w3 [|]]]]] [|v0 [|v1 [|v2 [|v3 [|]]]]] H1 H2; try discriminate. vm_compute. reflexivity. }
  specialize (E (le32 n) (le32 p) eq_refl eq_refl). unfold put_entry at 1, de_size. change (24 * 0) with 0. change (0 + 16) with 16. change (0 + 20) with 20.
  unfold FT_DIRECTORY. destruct (put_at (replicate 48 0) 0 [46]) as [b1| | | |]; cbn [rbind] in E |- *; try discriminate.
  destruct (put_at b1 16 (le32 n)) as [b2| | | |]; cbn [rbind] in E |- *; try discriminate.
  destruct (put_at b2 20 (le32 2)) as [b3| | | |] eqn:E3; cbn [rbind] in E |- *; try discriminate.
  assert (Hl3 : (48 ≤ length b3)%nat).
  { destruct (put_at b3 24 [46; 46]) as [b4| | | |] eqn:E4; cbn [rbind] in E; try discriminate. destruct (put_at b4 40 (le32 p)) as [b5| | | |] eqn:E5; cbn [rbind] in E; try discriminate.
    unfold put_at in E. destruct (_ && _) eqn:Eb; [|done]. apply andb_true_iff in Eb as [_ Eb]. apply Z.leb_le in Eb.
    unfold put_at in E5. destruct (_ && _) eqn:Eb5; [|done]. apply andb_true_iff in Eb5 as [_ Eb5]. apply Z.leb_le in Eb5. injection E5 as <-.
    unfold put_at in E4. destruct (_ && _) eqn:Eb4; [|done]. apply andb_true_iff in Eb4 as [_ Eb4]. apply Z.leb_le in Eb4. injection E4 as <-.
    rewrite !splice_length in *; rewrite ?splice_length; simpl in *; lia. }
  rewrite put_entry_app by (simpl; lia). unfold put_entry, de_size. change (24 * 1) with 24. change (24 + 16) with 40. change (24 + 20) with 44. unfold FT_DIRECTORY. rewrite E. cbn [rbind].
  by rewrite <-app_assoc.
Qed.

Lemma dot_slot_ok n : slot_ok (dot_entry n) ∧ slot_ok (dotdot_entry n).
Proof.
  split; [apply (live_ok _ [46] _ (replicate 14 0))|apply (live_ok _ [46; 46] _ (replicate 13 0))]; try done; by_decide.
Qed.

Lemma dots_slots n p : is_u32 n → is_u32 p → slots (dots n p) = dot_entry n :: dotdot_entry p :: replicate 19 no_entry.
Proof.
  intros Hn Hp.
  assert (H1 : entry_ok (dot_entry n)) by (split_and!; try done; apply dot_slot_ok).
  assert (H2 : entry_ok (dotdot_entry p)) by (split_and!; try done; apply dot_slot_ok).
  pose proof (de_bytes_length _ H1) as L1. pose proof (de_bytes_length _ H2) as L2.
  assert (E : dots n p = splice (24 * 0) (de_bytes (dot_entry n)) (splice (24 * 1) (de_bytes (dotdot_entry p)) (replicate 512 0))).
  { unfold dots. unfold splice at 1. cbn [take app Nat.mul Nat.add]. f_equal. }
  rewrite E. rewrite slots_splice; [|rewrite splice_length; rewrite ?length_replicate; lia|lia|done].
  rewrite slots_splice; [|by rewrite length_replicate|lia|done]. rewrite !de_of_bytes by done. reflexivity.
Qed.

Lemma dots_length n p : length (dots n p) = 512%nat.
Proof. unfold dots, de_bytes. rewrite !length_app, !le32_length, length_replicate. reflexivity. Qed.

Lemma dots_take n p m : (464 ≤ m)%nat → take 512 (de_bytes (dot_entry n) ++ de_bytes (dotdot_entry p) ++ replicate m 0) = dots n p.
Proof.
  intros H. replace m with (464 + (m - 464))%nat by lia. rewrite replicate_add.
  replace (_ ++ _ ++ _ ++ _) with (dots n p ++ replicate (m - 464) 0) by (unfold dots; by rewrite <-!app_assoc). apply take_app_length'. symmetry. apply dots_length.
Qed.

(** *** A new entry in the parent *)

Definition new_entry (w : list Z) (n t : Z) : dir_entry := DirEntry (w ++ replicate (16 - length w) 0) n t.

Lemma new_entry_run dirname w n t : cstr dirname w → name_ok w → 0 ≤ t < 256 →
  create_dir_entry dirname n t (DirEntry (replicate 16 0) 0 0) = Ok (new_entry w n t).
Proof.
  intros Hc (_ & _ & Hch & Hl) Ht. unfold create_dir_entry. rewrite (strlen_cstr dirname w Hc) by lia. cbn [rbind].
  rewrite ASSERT_true by (apply Z.leb_le; unfold Dir.MAX_FILE_NAME_LEN; lia). cbn [rbind]. unfold memcpy. rewrite ASSERT_true by done. cbn [rbind filename]. rewrite !mem_Some.
  destruct Hc as [_ [r ->]]. rewrite Nat2Z.id, copy_loop_run by (rewrite ?length_replicate, ?length_app; lia). cbn [rbind]. rewrite take_app_length, drop_replicate, u8_small by lia. done.
Qed.

Lemma new_entry_ok w n t : name_ok w → is_u32 n → 0 < t < 256 → entry_ok (new_entry w n t) ∧ is_live (new_entry w n t) ∧ de_name (new_entry w n t) = w.
Proof.
  intros (Hne & Hs & Hch & Hl) Hn Ht. assert (Hc : cstr (w ++ replicate (16 - length w) 0) w).
  { split; [done|]. replace (16 - length w)%nat with (S (15 - length w)) by lia. by eexists. }
  assert (Hlv : is_live (new_entry w n t)) by (unfold is_live, FT_UNKNOWN; cbn; lia).
  split; [|split; [done|by apply cname_cstr]]. split; [|split; [done|split]].
  - change (length (w ++ replicate (16 - length w) 0) = 16%nat). rewrite length_app, length_replicate. lia.
  - change (is_u32 t). unfold is_u32. lia.
  - destruct Hc as [_ [r Er]]. apply (live_ok _ w _ r); done || (unfold FT_UNKNOWN; lia).
Qed.

(** The directory has a free entry, or a direct block to come. *)
Definition room (s : fs) (i : inode) : Prop :=
  ∃ b, b ∈ take 12 (i_sectors i) ∧ (b = 0 ∨ ∃ e, e ∈ pos_slots (drive s) b ∧ ¬ is_live e).

Lemma sector_in i b : b ∈ take 12 (i_sectors i) → b ≠ 0 → b ∈ dir_sectors i.
Proof. intros. by apply list_elem_of_filter. Qed.

(** A directory whose blocks stay in use and keep their contents. *)
Lemma dir_ok_blocks s s' i :
  (∀ b, b ∈ dir_sectors i → taken s b → taken s' b ∧ sector (drive s') b = sector (drive s) b) → dir_ok s i →
  dir_ok s' i ∧ entries (drive s') i = entries (drive s) i.
Proof.
  intros H Hok. assert (E : dir_slots (drive s') i = dir_slots (drive s) i).
  { unfold dir_slots. apply pos_slots_ext. intros b Hb H0. apply H; [by apply sector_in|]. by apply (sector_taken s i b Hok). }
  unfold entries. rewrite E. split; [|done]. destruct Hok as [H1 H2 H3 H4 H5 H6]. split; try done.
  - rewrite Forall_forall in *. intros b Hb. apply H; [done|]. by apply H3.
  - by rewrite E.
  - unfold entries in *. by rewrite E.
Qed.

Lemma dir_ok_same s s' i :
  (∀ b, taken s b → taken s' b ∧ sector (drive s') b = sector (drive s) b) → dir_ok s i → dir_ok s' i ∧ entries (drive s') i = entries (drive s) i.
Proof. intros H. apply dir_ok_blocks. intros b _. apply H. Qed.

Lemma room_same s s' i : (∀ b, taken s b → sector (drive s') b = sector (drive s) b) → dir_ok s i → room s i → room s' i.
Proof.
  intros H Hok (b & Hb & Hr). exists b. split; [done|]. destruct (decide (b = 0)) as [->|H0]; [by left|]. right. destruct Hr as [->|(e & He & Hd)]; [done|].
  exists e. split; [|done]. unfold pos_slots in *. rewrite (proj2 (Z.eqb_neq b 0)) in * by done. rewrite H; [done|]. by apply (sector_taken s i b Hok).
Qed.

(** A new block of the partition, with its contents. *)
Lemma new_block_run s data :
  layout s → (1 ≤ length (free_bits (bb s)))%nat → length data = 512%nat →
  ∃ k s1 s2, block_bitmap_alloc s = Ok (data_lba s + k, s1) ∧ bitmap_sync k BLOCK_BITMAP s1 = Ok (tt, s2) ∧
    0 < k < bit_cnt (bb s) ∧ data_lba s + k ≤ max_lba ∧ 0 < data_lba s ∧
    let s' := set_drive (<[data_lba s + k := data]> (drive s2)) s2 in
    layout s' ∧ (∃ d b, s2 = set_drive d (with_blocks b s)) ∧ ¬ taken s (data_lba s + k) ∧ taken s' (data_lba s + k) ∧
    (∀ b, taken s b → taken s' b ∧ sector (drive s') b = sector (drive s) b) ∧ table s' = table s ∧
    length (free_bits (bb s)) = S (length (free_bits (bb s'))).
Proof.
  intros Hl Hf Hd. destruct (alloc_block_run s Hl ltac:(lia)) as (k & s1 & s2 & E1 & E2 & Hk & Hbit & [(d & b & Es2) Hb Hc Hs Hl2 _] & Hfree).
  assert (Hmax : data_lba s + k ≤ max_lba) by (apply (ly_free s Hl); [lia|done]). pose proof (data_lba_pos s Hl) as Hpos.
  assert (Hnt : ¬ taken s (data_lba s + k)) by (intros (_ & _ & Ht); replace (data_lba s + k - data_lba s) with k in Ht by lia; congruence).
  assert (Ed : data_lba s2 = data_lba s) by (by rewrite Es2).
  exists k, s1, s2. do 5 (split; [done || lia|]). cbv zeta. split; [|split; [eauto|split; [done|split; [|split; [|split; [|done]]]]]].
  - apply layout_set_drive; [done|]. apply disk_ok_insert; [apply Hl2|done].
  - unfold taken. cbn. change (data_lba (set_drive _ s2)) with (data_lba s2). rewrite Ed. rewrite Hc, Hb, decide_True by lia. split; [lia|done].
  - intros x Hx. pose proof (taken_range s x Hl Hx) as (Hr & _). pose proof Hx as (H1 & H2 & H3). split.
    + unfold taken. cbn. change (data_lba (set_drive _ s2)) with (data_lba s2). rewrite Ed, Hc, Hb by lia. case_decide; [lia|done].
    + cbn. rewrite sector_insert, decide_False by (intros <-; done). apply Hs. right. lia.
  - unfold table. change (table_lba (set_drive _ s2)) with (table_lba s2). replace (table_lba s2) with (table_lba s) by (by rewrite Es2). cbn. apply disk_read_ext. intros l Hll.
    destruct Hl. unfold data_lba, table_lba in *. rewrite sector_insert, decide_False by lia. apply Hs. right. lia.
Qed.

(** *** Storing a new entry, the parent's inode and the new inode *)

(** Directory [i] at [q] became [i'], with an entry [e] more, and [ni] is stored. *)
Record committed (q : Z) (i i' ni : inode) (e : dir_entry) (s s' : fs) : Prop := {
  cm_frame : ∃ d b, s' = set_drive d (set_inodes (<[q := i']> (inodes s)) (with_blocks b s));
  cm_layout : layout s';
  cm_slots : ∀ m, 0 ≤ m < 4096 → slot s' m =
    if decide (m = i_no ni) then bytes_of (pure_words ni) else if decide (m = i_no i) then bytes_of (pure_words i') else slot s m;
  cm_parent : dir_ok s' i' ∧ (entries (drive s') i' ≡ₚ e :: entries (drive s) i) ∧ find (named (de_name e)) (entries (drive s') i') = Some e;
  cm_fields : i_no i' = i_no i ∧ i_open_cnts i' = i_open_cnts i ∧ write_deny i' = write_deny i;
  cm_blocks : ∀ b, taken s b → b ∉ dir_sectors i → taken s' b ∧ sector (drive s') b = sector (drive s) b;
}.

Lemma entries_keep s d i : layout s → dir_ok s i → (∀ l, table_lba s + 608 ≤ l → sector d l = sector (drive s) l) →
  disk_ok d → dir_ok (set_drive d s) i ∧ entries d i = entries (drive s) i.
Proof.
  intros Hl Hok Hs Hd. apply (dir_ok_same s (set_drive d s)); [|done]. intros b Hb. split; [done|]. apply Hs. by apply (taken_range s b Hl Hb).
Qed.

Lemma commit_run pdir x i ni e io s :
  layout s → dirs s !! pdir = Some x → inodes s !! d_inode x = Some i → dir_ok s i → dir_entry_size (sb (cur_part s)) = 24 →
  entry_ok e → is_live e → length io = 1024%nat → (1 ≤ length (free_bits (bb s)))%nat → room s i → i_no i < 256 →
  inode_ok ni → 0 ≤ i_no ni < 256 → i_no ni ≠ i_no i → (∀ e', e' ∈ entries (drive s) i → de_name e' ≠ de_name e) →
  ∃ io1 io2 io3 i' s5 s6 s7 s8,
    sync_dir_entry pdir e io s = Ok ((true, io1), s5) ∧ length io1 = 1024%nat ∧ dirs s5 = dirs s ∧ inodes s5 = <[d_inode x := i']> (inodes s) ∧
    inode_sync i' (replicate 1024 0) s5 = Ok (io2, s6) ∧ length io2 = 1024%nat ∧ inodes s6 = inodes s5 ∧
    inode_sync ni (replicate 1024 0) s6 = Ok (io3, s7) ∧ bitmap_sync (i_no ni) INODE_BITMAP s7 = Ok (tt, s8) ∧
    committed (d_inode x) i i' ni e s s8.
Proof.
  intros Hl Hx Hi Hok Hsz He Hlive Hio Hfree Hroom Hno Hni Hnn Hne Hnew.
  destruct (sync_dir_entry_run pdir x i e io s Hl Hx Hi Hok Hsz He Hlive ltac:(lia) (λ _, Hfree) Hroom) as (io1 & i' & s5 & E5 & Hl5 & Hch & Hen & _ & Ht5 & Hfind).
  destruct Hch as [(Hi5 & F1 & F2 & F3) (d5 & b5 & m5 & Es5) _ Hok5 Hoth Hbl Hlay5 (Hd5 & _) _].
  assert (Hno0 : 0 ≤ i_no i) by apply (dk_inode s i Hok).
  assert (Hm5 : inodes s5 = <[d_inode x := i']> (inodes s)).
  { apply map_eq. intros p. destruct (decide (p = d_inode x)) as [->|Hp]; [by rewrite lookup_insert_eq|rewrite lookup_insert_ne by done; by apply Hoth]. }
  assert (Hi'ok : inode_ok i') by apply (dk_inode s5 i' Hok5).
  assert (Hbuf : ∀ n, 0 ≤ n < 256 → (512 * isecs (u8 n) ≤ length (replicate 1024 0%Z))%nat) by (intros n _; rewrite length_replicate; unfold isecs; destruct (straddles _); lia).
  destruct (inode_sync_run i' (replicate 1024 0) s5 Hlay5 Hi'ok ltac:(apply Hbuf; lia)) as (io2 & s6 & E6 & (d6 & Es6 & Hd6 & Hs6) & Ht6 & Hl6).
  assert (Hlay6 : layout s6) by (rewrite Es6; by apply layout_set_drive).
  destruct (inode_sync_run ni (replicate 1024 0) s6 Hlay6 Hni ltac:(apply Hbuf; lia)) as (io3 & s7 & E7 & (d7 & Es7 & Hd7 & Hs7) & Ht7 & _).
  assert (Hlay7 : layout s7) by (rewrite Es7; by apply layout_set_drive).
  destruct (inode_bit_sync_run (i_no ni) s7 Hlay7 ltac:(lia)) as (d8 & E8 & Hd8 & Hs8).
  assert (Etl : table_lba s6 = table_lba s5) by (by rewrite Es6). assert (Eib : inode_bitmap_lba (sb (cur_part s7)) < table_lba s5) by (rewrite Es7, Es6; destruct Hlay5; unfold table_lba; cbn; lia).
  assert (Hdata : ∀ l, table_lba s5 + 608 ≤ l → sector d8 l = sector (drive s5) l).
  { intros l Hll. rewrite Hs8 by lia. rewrite Es7. cbn. rewrite Hs7 by lia. rewrite Es6. cbn. by rewrite Hs6 by lia. }
  assert (Es8 : set_drive d8 s7 = set_drive d8 s5) by (by rewrite Es7, Es6).
  exists io1, io2, io3, i', s5, s6, s7, (set_drive d8 s5). rewrite Es8 in E8.
  split_and!; try done; try (by rewrite Es6); try (rewrite Hl6; done); try congruence.
  destruct (entries_keep s5 d8 i' Hlay5 Hok5 Hdata Hd8) as [Hok8 Hen8]. split.
  - exists d8, b5. rewrite <-Hm5. rewrite Es5. cbn. done.
  - by apply layout_set_drive.
  - intros m Hm. assert (Et8 : table (set_drive d8 s5) = table s7).
    { unfold table. change (table_lba (set_drive d8 s5)) with (table_lba s5). replace (table_lba s7) with (table_lba s5) by (by rewrite Es7, Es6). apply disk_read_ext.
      intros l Hll. cbn. apply Hs8. lia. }
    transitivity (slot s7 m); [unfold slot; by rewrite Et8|]. rewrite (u8_small (i_no ni)) in Ht7 by lia. rewrite (u8_small (i_no i')) in Ht6 by lia.
    rewrite (slot_splice s6 s7 (i_no ni) m _ ltac:(lia) Hm Hlay6 (pure_words_length ni Hni) Ht7). case_decide; [done|].
    rewrite (slot_splice s5 s6 (i_no i') m _ ltac:(lia) Hm Hlay5 (pure_words_length i' Hi'ok) Ht6). rewrite F1. case_decide; [done|]. unfold slot. by rewrite Ht5.
  - cbn. rewrite Hen8. split; [done|]. split; [done|]. by apply Hfind.
  - done.
  - intros b Hb Hn. destruct (Hbl b Hb Hn) as [Hb5 Hsb]. split; [exact Hb5|]. cbn. rewrite Hdata; [done|]. by apply (taken_range s5 b Hlay5 Hb5).
Qed.

(** *** [sys_mkdir] after the search *)

Definition new_dir (n lba : Z) : inode := Inode n 48 0 false (lba :: replicate 12 0).

(** Directory [i], held open, got an entry [e] for a new directory [n]. *)
Record dir_made (i i' : inode) (e : dir_entry) (n lba : Z) (s s' : fs) : Prop := {
  dm_n : 0 ≤ n < 256 ∧ bit (inode_bitmap (cur_part s)) n = false;
  dm_bit : ∀ j, 0 ≤ j → bit (inode_bitmap (cur_part s')) j = if decide (j = n) then true else bit (inode_bitmap (cur_part s)) j;
  dm_layout : layout s';
  dm_slots : ∀ m, 0 ≤ m < 4096 → slot s' m =
    if decide (m = n) then bytes_of (pure_words (new_dir n lba)) else if decide (m = i_no i) then bytes_of (pure_words i') else slot s m;
  dm_new : dir_ok s' (new_dir n lba) ∧ entries (drive s') (new_dir n lba) = [dot_entry n; dotdot_entry (i_no i)];
  dm_parent : dir_ok s' i' ∧ (entries (drive s') i' ≡ₚ e :: entries (drive s) i) ∧ find (named (de_name e)) (entries (drive s') i') = Some e;
  dm_fields : i_no i' = i_no i ∧ i_open_cnts i' = i_open_cnts i ∧ write_deny i' = write_deny i;
  dm_blocks : ∀ b, taken s b → b ∉ dir_sectors i → taken s' b ∧ sector (drive s') b = sector (drive s) b;
}.

Lemma new_dir_ok s n lba p : is_u32 n → is_u32 p → taken s lba → layout s → lba ≠ 0 → sector (drive s) lba = dots n p →
  dir_ok s (new_dir n lba) ∧ entries (drive s) (new_dir n lba) = [dot_entry n; dotdot_entry p].
Proof.
  intros Hn Hp Ht Hl H0 Hsec. assert (Hs : dir_slots (drive s) (new_dir n lba) = dot_entry n :: dotdot_entry p :: replicate 19 no_entry).
  { unfold dir_slots. cbn [i_sectors new_dir]. change (take 12 (lba :: replicate 12 0)) with ([lba] ++ replicate 11 0). rewrite fmap_app, concat_app, pos_slots_zeros, app_nil_r.
    cbn. unfold pos_slots. rewrite (proj2 (Z.eqb_neq lba 0)) by done. by rewrite Hsec, dots_slots, app_nil_r. }
  assert (He : entries (drive s) (new_dir n lba) = [dot_entry n; dotdot_entry p]) by (unfold entries; rewrite Hs; done).
  split; [|done]. pose proof Ht as (Hr & Hm & _). pose proof (data_lba_pos s Hl) as Hpos.
  assert (Hf : dir_sectors (new_dir n lba) = [lba]).
  { cbn [i_sectors new_dir]. change (take 12 (lba :: replicate 12 0)) with (lba :: replicate 11 0). rewrite filter_cons, decide_True by done. done. }
  split.
  - split; [done|]. split; [cbn; unfold is_u32; lia|]. split; [done|]. apply Forall_cons. split; [unfold is_u32, max_lba in *; lia|]. apply Forall_replicate. unfold is_u32. lia.
  - done.
  - rewrite Hf. by apply Forall_singleton.
  - rewrite Hf. apply NoDup_singleton.
  - rewrite Hs. apply Forall_cons. split; [apply dot_slot_ok|]. apply Forall_cons. split; [apply dot_slot_ok|]. apply Forall_replicate, no_entry_ok.
  - rewrite He. done.
Qed.

Lemma mkdir_create_run r x i w dirname io m s :
  layout s → oom s = [] → dirs s !! parent_dir r = Some x → inodes s !! d_inode x = Some i → dir_ok s i → dir_entry_size (sb (cur_part s)) = 24 →
  i_no i < 256 → bit (inode_bitmap (cur_part s)) (i_no i) = true → 0 ≤ m < 256 → bit (inode_bitmap (cur_part s)) m = false →
  (2 ≤ length (free_bits (bb s)))%nat → room s i → cstr dirname w → name_ok w → length io = 1024%nat →
  (∀ e, e ∈ entries (drive s) i → de_name e ≠ w) →
  ∃ n lba dr ib bm i', let s' := patch dr ib bm (d_inode x) i' (brk s) (-1) s in
    mkdir_create r dirname io s = (do! dir_close (parent_dir r) in mok 0) s' ∧ dir_made i i' (new_entry w n FT_DIRECTORY) n lba s s'.
Proof.
  intros Hl Hoom Hx Hi Hok Hsz Hno Hnb Hm Hmf Hfree Hroom Hc Hw Hio Hnew. unfold mkdir_create.
  destruct (alloc_inode_run s m Hl ltac:(lia) Hmf) as (n & ib & E1 & Hn & Hnf & Hbits & Hib1 & Hib2 & Hib3). mstep E1. rewrite (proj2 (Z.eqb_neq n (-1))) by lia.
  set (s1 := set_part (set_inode_bitmap ib (cur_part s)) s).
  assert (Hl1 : layout s1) by (pose proof (layout_inodes s (drive s) ib Hl (ly_disk s Hl) Hib1 Hib2 Hib3) as H; by destruct H).
  assert (Hno0 : 0 ≤ i_no i) by apply (dk_inode s i Hok). assert (Hnn : n ≠ i_no i) by congruence.
  destruct (new_block_run s1 (dots n (i_no i)) Hl1 ltac:(exact (Nat.le_trans _ _ _ (Nat.le_succ_diag_r 1) Hfree)) (dots_length _ _))
    as (k & s2 & s3 & E2 & E3 & Hk & Hkm & Hdp & Hl4 & (d3 & b3 & Es3) & Hnt & Ht4 & Hold4 & Htab4 & Hfree4).
  set (lba := data_lba s1 + k) in *. set (s4 := set_drive (<[lba := dots n (i_no i)]> (drive s3)) s3) in *.
  mstep E2. rewrite (proj2 (Z.eqb_neq lba (-1))) by lia.
  mstep (mlift_Ok _ s2 _ (wr_Ok (i_sectors (inode_init n)) 0 lba ltac:(vm_compute; done))).
  unfold mbnd at 1. unfold mget at 1. cbn [rbind fst snd].
  assert (Ep2 : sb (cur_part s2) = sb (cur_part s)).
  { destruct (alloc_only_run s1 Hl1 ltac:(lia)) as (k' & b' & E2' & _). rewrite E2 in E2'. by injection E2' as _ ->. }
  rewrite Ep2. change (data_start_lba (sb (cur_part s))) with (data_lba s1). unfold lba at 1 2. replace (data_lba s1 + k - data_lba s1) with k by lia.
  rewrite (u32_small k) by (unfold max_lba in *; lia). mstep (mlift_Ok _ s2 _ (ASSERT_true (negb (k =? 0)) ltac:(rewrite (proj2 (Z.eqb_neq k 0)) by lia; done))). mstep E3.
  mstep (mlift_Ok _ s3 _ (memset_run io 1024 ltac:(lia))). rewrite drop_ge, app_nil_r by lia.
  assert (Hx3 : dirs s3 !! parent_dir r = Some x) by (by rewrite Es3). assert (Hi3 : inodes s3 !! d_inode x = Some i) by (by rewrite Es3).
  pose proof (put_dots 1024 n (i_no i) ltac:(lia)) as Epd. apply rbind_Ok_inv in Epd as (bd & Epd1 & Epd2).
  mstep (mlift_Ok _ s3 _ Epd1). mstep (dir_at_run _ x s3 Hx3). mstep (inode_at_run _ i s3 Hi3). mstep (mlift_Ok _ s3 _ Epd2).
  assert (Hdl : length (de_bytes (dot_entry n) ++ de_bytes (dotdot_entry (i_no i)) ++ replicate (1024 - 48) 0) = 1024%nat) by (rewrite !length_app, length_replicate; reflexivity).
  mstep (write_sector_run lba _ s3 ltac:(unfold lba; lia) ltac:(rewrite Hdl; lia)).
  rewrite dots_take by lia.
  fold s4.
  assert (Hn32 : is_u32 n) by (unfold is_u32; lia). destruct (new_entry_ok w n FT_DIRECTORY Hw Hn32 ltac:(unfold FT_DIRECTORY; lia)) as (He & Hlv & Hnm).
  mstep (mlift_Ok _ s4 _ (new_entry_run dirname w n FT_DIRECTORY Hc Hw ltac:(unfold FT_DIRECTORY; lia))).
  mstep (mlift_Ok _ s4 _ (memset_run _ 1024 ltac:(rewrite Hdl; lia))). rewrite drop_ge, app_nil_r by (rewrite Hdl; lia).
  assert (Hok1 : dir_ok s1 i) by (by destruct Hok). destruct (dir_ok_same s1 s4 i Hold4 Hok1) as [Hok4 Hen4]. cbn [drive s1 set_part] in Hen4.
  set (ni := set_i_size _ _). assert (Eni : ni = new_dir n lba) by (unfold ni; rewrite Hsz; done).
  destruct (new_dir_ok s4 n lba (i_no i) Hn32 ltac:(unfold is_u32; lia) Ht4 Hl4 ltac:(unfold lba; lia)) as [Hnd Hnde].
  { cbn. by rewrite sector_insert, decide_True. }
  destruct (commit_run (parent_dir r) x i ni (new_entry w n FT_DIRECTORY) (replicate 1024 0) s4) as (io1 & io2 & io3 & i' & s5 & s6 & s7 & s8 & E5 & Hl5 & Hd5 & Hi5 & E6 & Hl6 & Hi6 & E7 & E8 & Hcm); try done.
  { unfold s4. rewrite Es3. done. }
  { change (bb s1) with (bb s) in Hfree4. lia. }
  { apply (room_same s1); [intros b Hb; by apply Hold4|done|done]. }
  { rewrite Eni. apply (dk_inode _ _ Hnd). }
  { rewrite Eni. cbn. lia. }
  { rewrite Hnm. intros e' He'. rewrite Hen4 in He'. by apply Hnew. }
  mstep E5. cbn [negb fst snd].
  mstep (mlift_Ok _ s5 _ (memset_run io1 1024 ltac:(lia))). rewrite drop_ge, app_nil_r by lia.
  assert (Hq5 : inodes s5 !! d_inode x = Some i') by (rewrite Hi5; apply lookup_insert_eq). mstep (inode_at_run _ i' s5 Hq5). mstep E6.
  mstep (mlift_Ok _ s6 _ (memset_run io2 1024 ltac:(lia))). rewrite drop_ge, app_nil_r by lia. mstep E7.
  rewrite (u32_small n) by lia. rewrite Eni in E8. cbn [i_no new_dir] in E8. mstep E8. unfold sys_free at 1. unfold mbnd at 1. unfold mmod at 1. cbn [rbind fst snd].
  destruct Hcm as [(d8 & b8 & Es8) Hl8 Hsl8 Hpar8 Hf8 Hb8].
  assert (Ei4 : inodes s4 = inodes s) by (unfold s4; rewrite Es3; done).
  exists n, lba, d8, ib, b8, i'.
  assert (Efin : set_heap (brk s8) (oom s8) (live s8 - 1) s8 = patch d8 ib b8 (d_inode x) i' (brk s) (-1) s).
  { rewrite Es8. unfold s4. rewrite Es3. apply fs_ext; try done; cbn; lia. }
  cbv zeta. rewrite <-Efin. split; [done|].
  assert (Hlbad : lba ∉ dir_sectors i).
  { intros Hin. apply Hnt. pose proof (dk_taken s i Hok) as Htk. rewrite Forall_forall in Htk. by apply Htk. }
  destruct (Hb8 lba Ht4 Hlbad) as [Ht8 Hsec8]. cbn [drive s4 set_drive] in Hsec8. rewrite sector_insert, decide_True in Hsec8 by done.
  assert (Hl9 : layout (set_heap (brk s8) (oom s8) (live s8 - 1) s8)) by (by apply layout_heap).
  split; try done.
  - split; [lia|done].
  - intros j Hj. rewrite Efin. cbn. by apply Hbits.
  - intros v Hv. transitivity (slot s8 v); [done|]. rewrite Hsl8 by done. rewrite Eni. cbn [i_no new_dir]. case_decide; [done|]. case_decide; [done|]. unfold slot. by rewrite Htab4.
  - apply (new_dir_ok (set_heap (brk s8) (oom s8) (live s8 - 1) s8) n lba (i_no i)); try done; [unfold is_u32; lia|unfold lba; lia].
  - destruct Hpar8 as (K1 & K2 & K3). rewrite <-Hen4. split; [by destruct K1|done].
  - intros b Hb Hbn. destruct (Hold4 b Hb) as [Hb4 Hs4]. destruct (Hb8 b Hb4 Hbn) as [Hb8' Hs8']. split; [exact Hb8'|]. cbn. by rewrite Hs8', Hs4.
Qed.

(** *** Around a change to the parent directory *)

Lemma view_heap b l s : view s (set_heap b [] l s).
Proof. by split; [|exists (open_inodes (cur_part s)); destruct s as [? []]|]. Qed.

Lemma depth_run t r : length stk_name = 16%nat → Forall is_char t → Forall name_ok (comps t) → comps t ≠ [] → Z.of_nat (length t) < 2147483648 →
  path_depth_cnt stk_name (t ++ 0 :: r) = Ok (Z.of_nat (length (comps t))).
Proof. intros Hs Hch Hn Hne Hl. rewrite path_depth_cnt_counts by done. by rewrite bool_decide_false. Qed.

Lemma depth_searched p names : length stk_name = 16%nat → cstr p (joined names) → Forall name_ok names → names ≠ [] → (length (joined names) < 512)%nat →
  path_depth_cnt stk_name p = Ok (Z.of_nat (length names)).
Proof.
  intros Hs [Hch [r ->]] Hn Hne Hl. assert (Ec : comps (joined names) = names).
  { rewrite <-(app_nil_r (joined names)), comps_joined by auto. by rewrite app_nil_r. }
  rewrite depth_run by (rewrite ?Ec; done || lia). by rewrite Ec.
Qed.

Lemma base_name_run p pre w : cstr p (joined (pre ++ [w])) → slash ∉ w → ∃ q, base_name p = Ok q ∧ cstr q w.
Proof.
  intros [Hch [r ->]] Hw. rewrite joined_snoc in *. unfold base_name. rewrite strrchr_last by (done || unfold slash; lia). cbn [rbind].
  eexists. split; [done|]. split; [by apply Forall_app in Hch as [_ [_ ?]%Forall_cons]|]. exists r.
  replace (Z.to_nat (Z.of_nat (length (joined pre)) + 1)) with (length (joined pre ++ [slash])) by (rewrite length_app; simpl; lia).
  change (slash :: w) with ([slash] ++ w). rewrite app_assoc, <-app_assoc. by rewrite drop_app_length.
Qed.

(** The last name of the path is missing in directory [w_parent]. *)
Definition missing (s : fs) (t : list Z) : Prop := w_no (target s t) = -1 ∧ w_path (target s t) = comps t.

Lemma resolve_missing s par n seen names :
  walkable s n names → w_no (resolve s par n seen names) = -1 → w_path (resolve s par n seen names) = seen ++ names →
  ∃ pre w, names = pre ++ [w] ∧ find (named w) (dir_of s (w_parent (resolve s par n seen names))) = None.
Proof.
  revert par n seen. induction names as [|w names IH]; intros par n seen Hw Hno Hp; cbn [resolve walkable] in *.
  - destruct Hw as [((? & ?) & _) _]. cbn in Hno. lia.
  - destruct Hw as [_ Hw]. destruct (find (named w) (dir_of s n)) as [e|] eqn:Ef.
    + destruct Hw as [He Hw]. destruct (Z.eqb_spec (f_type e) FT_DIRECTORY) as [Et|Et]; [|cbn in Hno; lia].
      destruct Hw as [[_ Hw]|Hw]; [|rewrite Et in Hw; done]. destruct (IH n (de_i_no e) (seen ++ [w]) Hw Hno) as (pre & v & -> & Hf); [by rewrite <-app_assoc|].
      by exists (w :: pre), v.
    + cbn in Hp. apply app_inv_head in Hp as [= <-]. by exists [], w.
Qed.

Lemma resolve_reg_no s par n seen names :
  walkable s n names → w_type (resolve s par n seen names) = FT_REGULAR → 0 ≤ w_no (resolve s par n seen names) < 4096.
Proof.
  revert par n seen. induction names as [|w names IH]; intros par n seen Hw Ht; cbn [resolve walkable] in *; [done|].
  destruct Hw as [_ Hw]. destruct (find (named w) (dir_of s n)) as [e|]; [|done]. destruct Hw as [He Hw].
  destruct (Z.eqb_spec (f_type e) FT_DIRECTORY) as [E|E]; [|done]. destruct Hw as [[_ Hw]|Hw]; [by apply IH|]. rewrite E in Hw. done.
Qed.

(** A block of a file: 0, or in use by nothing else than the file. *)
Definition file_block (s : fs) (i : inode) (b : Z) : Prop :=
  b = 0 ∨ (taken s b ∧ b ≠ data_lba s ∧ b ∉ dir_sectors i).

(** No open file has the inode. *)
Lemma file_in_use_run m k n s :
  (∀ f, f ∈ file_table s → fd_inode f ≠ NULL → ∃ j, inodes s !! fd_inode f = Some j ∧ i_no j ≠ n) →
  (k + m = length (file_table s))%nat → 0 ≤ n < 4096 → file_in_use m (Z.of_nat k) n s = Ok (false, s).
Proof.
  intros Huse. revert k. induction m as [|m IH]; intros k Hk Hn; [done|]. cbn [file_in_use].
  destruct (lookup_lt_is_Some_2 (file_table s) k) as [f Hf]; [lia|].
  assert (E : file_at (Z.of_nat k) s = Ok (f, s)) by (unfold file_at; by rewrite (rd_Some _ _ _ Hf)). mstep E.
  replace (Z.of_nat k + 1) with (Z.of_nat (S k)) by lia. destruct (Z.eqb_spec (fd_inode f) NULL) as [E0|E0]; [apply IH; lia|].
  destruct (Huse f (list_elem_of_lookup_2 _ _ _ Hf) E0) as (j & Hj & Hjn). mstep (inode_at_run _ j s Hj).
  rewrite u32_small by lia. rewrite (proj2 (Z.eqb_neq n (i_no j))) by done. apply IH; lia.
Qed.

(** The inodes in memory keep their numbers when a directory is held. *)
Lemma held_nos k n d s s' p j : fs_ok k s → held s n d s' → inodes s !! p = Some j → ∃ j', inodes s' !! p = Some j' ∧ i_no j' = i_no j.
Proof.
  intros Hs [b Hb Hn|b d' q i Hd Hf Hi|b d' q i Hd Hq Hf Hi Hno] Hj; [by exists j| |]; cbn.
  - destruct (decide (p = q)) as [->|]; [rewrite lookup_insert_eq; rewrite Hi in Hj; injection Hj as <-; by eexists|rewrite lookup_insert_ne by done; by exists j].
  - assert (p ≠ q) by (intros ->; pose proof (fk_inodes _ s Hs q ltac:(by rewrite Hj)); lia). rewrite lookup_insert_ne by done. by exists j.
Qed.

Lemma held_find k m n d s s' : fs_ok k s → held s m d s' → n ≠ m →
  find_open (open_inodes (cur_part s')) (inodes s') n = find_open (open_inodes (cur_part s)) (inodes s) n.
Proof.
  intros Hs Ho Hn. assert (Hnos : ∀ p, p ∈ open_inodes (cur_part s) → i_no <$> inodes s' !! p = i_no <$> inodes s !! p).
  { intros p Hp. destruct (fk_open _ s Hs p Hp) as (j & Hj & _). destruct (held_nos k m d s s' p j Hs Ho Hj) as (j' & Hj' & E). rewrite Hj, Hj'. cbn. by rewrite E. }
  destruct Ho as [b Hb Hm|b d' q i Hd Hf Hi|b d' q i Hd Hq Hf Hi Hno]; [done|by apply find_open_ext|].
  cbn [cur_part open_inodes set_heap set_dirs set_inodes set_part set_open_inodes inodes find_open] in *. rewrite lookup_insert_eq. cbn [i_no set_open_cnts].
  rewrite (proj2 (Z.eqb_neq (i_no i) n)) by congruence. by apply find_open_ext.
Qed.

Lemma held_frame n d s s' : held s n d s' → file_table s' = file_table s ∧ fd_table s' = fd_table s ∧ cwd_inode_nr s' = cwd_inode_nr s.
Proof. by intros []. Qed.

(** What is left when the held directory is closed after the change. *)
Record settled (n : Z) (i' : inode) (ib bm : bitmap) (dl : Z) (s s3 s' : fs) : Prop := {
  st_ok : fs_ok 2 s';
  st_live : live s' = live s + dl;
  st_part : same_part s3 s';
  st_maps : cur_part s' = set_inode_bitmap ib (set_block_bitmap bm (cur_part s));
  st_dir : is_dir s' n ∧ dir_of s' n = entries (drive s3) i';
  st_find : ∀ m, find_open (open_inodes (cur_part s')) (inodes s') m = find_open (open_inodes (cur_part s)) (inodes s) m;
  st_others : ∀ m, m ≠ n → slot s3 m = slot s m → the_inode s' m = the_inode s m;
  st_rest : fd_table s' = fd_table s ∧ cwd_inode_nr s' = cwd_inode_nr s ∧ dirs s' = dirs s;
}.

Lemma close_patch n d x i i' dr ib bm b dl s s2 :
  fs_ok 2 s → held s n d s2 → 0 ≤ n < 4096 → dirs s2 !! d = Some x → inodes s2 !! d_inode x = Some i → i_no i = n → write_deny i = false →
  i_no i' = i_no i → i_open_cnts i' = i_open_cnts i → write_deny i' = write_deny i → brk s2 ≤ b →
  let s3 := patch dr ib bm (d_inode x) i' b dl s2 in
  layout s3 → dir_ok s3 i' → slot s3 n = bytes_of (pure_words i') →
  ∃ s', (do! dir_close d in mok 0) s3 = Ok (0, s') ∧ settled n i' ib bm dl s s3 s'.
Proof.
  intros Hs Ho Hn Hx Hi Hno Hwd G1 G2 G3 Hb s3 Hl Hok Hsl.
  assert (Hslp : inode_of_bytes (slot s3 n) = Some (set_open_cnts 0 i')).
  { rewrite Hsl, inode_of_pure by apply (dk_inode _ _ Hok). destruct i'; cbn in *. by rewrite G3, Hwd. }
  destruct (held_patch 2 n d x i i' dr ib bm b dl s s2 Hs Ho Hx Hi Hno Hwd G1 G2 G3 Hb Hslp) as (s4 & Ho4 & Hpt). fold s3 in Ho4.
  pose proof (view_part _ _ (held_view _ _ _ _ _ Hs Ho)) as [_ [l2 Ep2]].
  pose proof Hpt as [Q1 Q2 (Q3 & _ & Q5 & Q6) (_ & _ & Q9) _ _ _ (ip & Hip & Hips)].
  assert (Hsp : same_part s3 s4).
  { split; [done|]. exists (open_inodes (cur_part s)). rewrite Q2. change (cur_part s3) with (set_inode_bitmap ib (set_block_bitmap bm (cur_part s2))). rewrite Ep2. by destruct (cur_part s). }
  pose proof (patched_ok 2 _ _ _ _ _ _ _ _ Hs Hpt (layout_part _ _ Hsp Hl)) as Hs4.
  destruct (close_with 0 2 n d s4 s3 Hs4 ltac:(lia) Ho4) as (b4 & Hb4 & Ecl). exists (bump b4 s4). split; [exact Ecl|].
  assert (Hspb : same_part s3 (bump b4 s4)) by (destruct Hsp; by split). pose proof (still_fields _ _ Hips) as (K & _).
  split; try done.
  - exact (fs_ok_heap 2 b4 (live s4) s4 Hs4 Hb4).
  - split.
    + split; [done|]. exists ip. split; [done|]. split; [congruence|]. by apply (dir_ok_part s3 (bump b4 s4) i').
    + unfold dir_of. change (the_inode (bump b4 s4) n) with (the_inode s4 n). rewrite Hip. destruct Hspb as [-> _]. by apply entries_still.
  - intros m. exact (patched_find _ _ _ _ _ _ _ _ m Hpt).
  - intros m Hm Hslm. change (the_inode (bump b4 s4) m) with (the_inode s4 m). apply (patched_other _ _ _ _ _ _ _ _ m Hpt Hm). by rewrite (slot_view s3 s4 m Hsp).
Qed.

(** Deleting the entry of file [fi] in a held directory and releasing its inode,
    up to the closing of the directory. *)
Lemma unlink_core pdir x i n fi e s :
  layout s → oom s = [] → 0 < brk s → (∀ q, is_Some (inodes s !! q) → q < brk s) → (∀ q, q ∈ open_inodes (cur_part s) → is_Some (inodes s !! q)) →
  dirs s !! pdir = Some x → inodes s !! d_inode x = Some i → dir_ok s i → dots_ok s i → dir_entry_size (sb (cur_part s)) = 24 → i_no i < 256 →
  filter (hits n) (dir_slots (drive s) i) = [e] → 0 ≤ n < 4096 → n ≠ i_no i → find_open (open_inodes (cur_part s)) (inodes s) n = None →
  inode_of_bytes (slot s n) = Some fi → inode_ok fi → i_no fi = n → Forall (file_block s i) (inode_blocks s fi) →
  ∃ i' d ib bm, let s' := patch d ib bm (d_inode x) i' (brk s + 4) 0 s in
    (∀ A (K : M fs A), (let! io_buf := malloc_buf 1024 in
       match io_buf with
       | None => λ _, Fault
       | Some io_buf => do! delete_dir_entry pdir n io_buf in do! inode_release n in do! sys_free in K
       end) s = K s') ∧
    layout s' ∧ dir_ok s' i' ∧ (entries (drive s) i ≡ₚ e :: entries (drive s') i') ∧
    i_no i' = i_no i ∧ i_open_cnts i' = i_open_cnts i ∧ write_deny i' = write_deny i ∧
    (∀ j, 0 ≤ j → bit ib j = if decide (j = n) then false else bit (inode_bitmap (cur_part s)) j) ∧
    (∀ b, b ∈ inode_blocks s fi → b ≠ 0 → bit bm (b - data_lba s) = false) ∧
    (∀ b, taken s b → b ∉ inode_blocks s fi → b ∉ dir_sectors i → taken s' b ∧ sector d b = sector (drive s) b) ∧
    (∀ m, 0 ≤ m < 4096 → slot s' m = if decide (m = n) then replicate 76 0 else if decide (m = i_no i) then bytes_of (pure_words i') else slot s m).
Proof.
  intros Hl Hoom Hbrk Hfr Hop Hx Hi Hok Hdots Hsz Hpar Hhit Hnr Hnp Hclosed Hfi Hfok Hfno Hfb. set (s3 := set_heap (brk s + 1) [] (live s + 1) s).
  destruct (delete_dir_entry_run pdir x i n e (replicate 1024 0) s3 (layout_heap _ _ _ _ Hl) Hx Hi ltac:(by destruct Hok) Hdots Hsz Hpar ltac:(rewrite length_replicate; lia) Hhit)
    as (i' & s4 & E4 & Hch & Hperm & Hslots).
  destruct Hch as [(Hi4 & G1 & G2 & G3) (d4 & b4 & m4 & Es4) Hsub Hok4 Hoth Hkeep Hl4 (Hd4 & _) (Hb4 & Ho4 & Hlv4)].
  assert (Hm4 : inodes s4 = <[d_inode x := i']> (inodes s)).
  { apply map_eq. intros p. destruct (decide (p = d_inode x)) as [->|Hpx]; [by rewrite lookup_insert_eq|rewrite lookup_insert_ne by done; by apply Hoth]. }
  assert (Ep4 : cur_part s4 = set_block_bitmap b4 (cur_part s)) by (by rewrite Es4). assert (Edl : data_lba s4 = data_lba s) by (unfold data_lba; by rewrite Ep4).
  assert (Eib : inode_blocks s4 fi = inode_blocks s fi).
  { unfold inode_blocks in *. destruct (Z.eqb_spec (nth 12 (i_sectors fi) 0) 0) as [Ez|Ez]; [done|]. do 3 f_equal.
    apply Forall_app in Hfb as [_ Hfb]. apply Forall_inv in Hfb as [?|(K1 & _ & K2)]; [done|]. by apply Hkeep. }
  destruct (inode_release_run n fi s4 Hl4) as (d5 & b5 & ib & E5 & _ & Hl5 & Hbb & Hbc & Hbi & Hsl5 & Hsec5); try done.
  { rewrite Hb4. cbn. lia. }
  { rewrite Hm4, Hb4. cbn. rewrite lookup_insert_ne by (pose proof (Hfr (d_inode x) ltac:(by rewrite Hi)); lia). apply (not_there _ (brk s)); [done|lia]. }
  { rewrite Hb4, Ep4. cbn. intros Hin. pose proof (Hfr _ (Hop _ Hin)). lia. }
  { rewrite Ep4. change (open_inodes (set_block_bitmap b4 (cur_part s))) with (open_inodes (cur_part s)). rewrite (find_open_ext _ (inodes s)); [done|].
    intros p _. rewrite Hm4. destruct (decide (p = d_inode x)) as [->|]; [rewrite lookup_insert_eq, Hi; cbn; by rewrite G1|by rewrite lookup_insert_ne]. }
  { rewrite Hslots by done. by rewrite decide_False. }
  { rewrite Eib. eapply Forall_impl; [exact Hfb|]. intros b [->|(K1 & K2 & K3)]; [by left|right]. destruct (Hkeep b K1 K3) as [(K4 & K5 & _) _]. rewrite Edl in *. lia. }
  set (s5 := set_heap (brk s4 + 3) _ _ _) in *. rewrite Eib, Edl in Hbb. rewrite Edl in Hsec5.
  assert (Hnb : ∀ b, taken s4 b → b ∉ inode_blocks s fi → taken s5 b ∧ sector (drive s5) b = sector (drive s4) b).
  { intros b (K1 & K2 & K3) Hbn. split; [|cbn; apply Hsec5; lia]. unfold taken. change (data_lba s5) with (data_lba s4). cbn. rewrite Hbc, Hbb by lia. split; [done|]. split; [done|].
    rewrite decide_False; [done|]. by replace (data_lba s + (b - data_lba s4)) with b by lia. }
  destruct (dir_ok_blocks s4 s5 i') as [Hpok Hpen]; [|done|].
  { intros b Hb Hbt. apply Hnb; [done|]. intros Hin. rewrite Forall_forall in Hfb. destruct (Hfb b Hin) as [->|(K1 & _ & K2)].
    - by apply list_elem_of_filter in Hb as [? _].
    - by destruct (Hsub b Hb). }
  assert (E6 : set_heap (brk s5) (oom s5) (live s5 - 1) s5 = patch d5 ib b5 (d_inode x) i' (brk s + 4) 0 s).
  { unfold s5. apply fs_ext; try done; try (rewrite Es4; cbn; done || lia); rewrite ?Hb4; cbn; lia. }
  exists i', d5, ib, b5. cbv zeta. rewrite <-E6. split; [|split; [by apply layout_heap|split; [by destruct Hpok|split; [by rewrite <-Hpen in Hperm|split_and!; try done]]]].
  - intros A K. mstep (malloc_buf_run 1024 s Hoom Hbrk). fold s3. mstep E4. mstep E5. done.
  - intros j Hj. rewrite Hbi by done. by rewrite Ep4.
  - intros b Hb Hb0. rewrite Forall_forall in Hfb. destruct (Hfb b Hb) as [?|((K & _) & _)]; [done|].
    rewrite Hbb, decide_True by (try lia; by replace (data_lba s + (b - data_lba s)) with b by lia). done.
  - intros b Hb Hb1 Hb2. destruct (Hkeep b Hb Hb2) as [K1 K2]. destruct (Hnb b K1 Hb1) as [K3 K4]. split; [done|]. etransitivity; [exact K4|exact K2].
  - intros m Hm. transitivity (slot s5 m); [done|]. rewrite Hsl5 by done. case_decide; [done|]. by apply Hslots.
Qed.

(** What an entry that is added to a directory leaves of the other inodes. *)
Record entry_added (par n : Z) (i : inode) (e : dir_entry) (ni : inode) (s s' : fs) : Prop := {
  ea_free : bit (inode_bitmap (cur_part s)) n = false ∧ 0 ≤ n < 256;
  ea_bits : ∀ j, 0 ≤ j → bit (inode_bitmap (cur_part s')) j = if decide (j = n) then true else bit (inode_bitmap (cur_part s)) j;
  ea_parent : is_dir s' par ∧ (dir_of s' par ≡ₚ e :: dir_of s par) ∧ find (named (de_name e)) (dir_of s' par) = Some e;
  ea_new : still <$> the_inode s' n = Some (still ni);
  ea_others : ∀ m, 0 ≤ m < 4096 → m ≠ n → m ≠ par → the_inode s' m = the_inode s m;
  ea_rest : fd_table s' = fd_table s ∧ cwd_inode_nr s' = cwd_inode_nr s ∧ dirs s' = dirs s;
  ea_blocks : ∀ b, taken s b → b ∉ dir_sectors i → taken s' b ∧ sector (drive s') b = sector (drive s) b;
}.

(** A directory that shares no block with the parent [i] has the entries it had. *)
Lemma entry_added_dirs par n i e ni s s' m j : entry_added par n i e ni s s' → 0 ≤ m < 4096 → m ≠ n → m ≠ par → the_inode s m = Some j → dir_ok s j →
  (∀ b, b ∈ dir_sectors j → b ∉ dir_sectors i) → dir_of s' m = dir_of s m.
Proof.
  intros H Hm Hn Hp Hj Hok Hdis. unfold dir_of. rewrite (ea_others _ _ _ _ _ _ _ H m Hm Hn Hp), Hj. unfold entries, dir_slots. f_equal.
  apply pos_slots_ext. intros x Hx H0. apply (ea_blocks _ _ _ _ _ _ _ H); [by apply (sector_taken s j)|]. apply Hdis. by apply list_elem_of_filter.
Qed.

End create_lemmas.

Section create_properties.
Context {B : Build} {J : Stack}.

(** C24: [sys_mkdir] makes a directory: on a path whose last name is missing in an
    existing directory (in direct blocks, not marked as being written, with an
    inode number below 256 and room for the entry), with an inode number below
    256 and two blocks free and no free inode number open, it returns 0, and afterwards the parent has one entry more, under the new name,
    for an inode number that was free; that inode is a directory with the
    entries "." for itself and ".." for the parent; every other inode is as it
    was, every block in use that is not the parent's keeps its contents and
    stays in use, so that every other directory that shares no block with the
    parent has the entries it had; no memory is lost, and the file system is
    again in order. *)
Theorem sys_mkdir_makes t r s i m :
  fs_ok 2 s → path_ok t → length stk_name = 16%nat → walkable s 0 (comps t) → missing s t →
  let par := w_parent (target s t) in
  the_inode s par = Some i → write_deny i = false → par < 256 → bit (inode_bitmap (cur_part s)) par = true →
  0 ≤ m < 256 → bit (inode_bitmap (cur_part s)) m = false → (2 ≤ length (free_bits (bb s)))%nat → room s i →
  (∀ n, bit (inode_bitmap (cur_part s)) n = false → find_open (open_inodes (cur_part s)) (inodes s) n = None) →
  ∃ n lba w s', sys_mkdir (t ++ 0 :: r) s = Ok (0, s') ∧ last (comps t) = Some w ∧ fs_ok 2 s' ∧ live s' = live s ∧
    entry_added par n i (new_entry w n FT_DIRECTORY) (new_dir n lba) s s' ∧
    is_dir s' n ∧ dir_of s' n = [dot_entry n; dotdot_entry par] ∧
    ∀ v j, 0 ≤ v < 4096 → v ≠ n → v ≠ par → the_inode s v = Some j → dir_ok s j → (∀ b, b ∈ dir_sectors j → b ∉ dir_sectors i) → dir_of s' v = dir_of s v.
Proof.
  intros Hs Hp Hstk Hw [Hmno Hmp] par Hi Hwd Hpar Hpb Hm Hmf Hfree Hroom Hclosed.
  destruct (resolve_missing s 0 0 [] (comps t) Hw Hmno Hmp) as (pre & w & Ec & Hfind). fold (target s t) in Hfind. fold par in Hfind.
  assert (Hwok : name_ok w) by (pose proof (pk_names t Hp) as Hn; rewrite Ec in Hn; apply Forall_app in Hn as [_ Hn]; by apply Forall_inv in Hn).
  set (sL := set_heap (brk s + 1) [] (live s + 1) s). pose proof (fs_ok_heap 2 (brk s + 1) (live s + 1) s Hs ltac:(lia)) as HsL. fold sL in HsL.
  pose proof (view_heap (brk s + 1) (live s + 1) s : view s sL) as HvL.
  destruct (search_file_run 1 t r sL HsL ltac:(lia) Hp (walkable_view _ _ _ _ HvL Hw)) as (rec & s2 & E2 & Ho & _ & Hsp & Hpd & _).
  assert (Etg : target sL t = target s t) by (apply (resolve_view s sL); done). rewrite Etg in *. rewrite Hmno in E2. rewrite Hmp in Hsp. fold par in Ho, Hpd.
  assert (HiL : the_inode sL par = Some i) by done.
  destruct (held_dir _ _ _ i _ _ HsL Ho HiL) as (x & i2 & Hx & Hi2 & Hst). pose proof (still_fields _ _ Hst) as (F1 & _ & F3 & F4).
  pose proof (held_view _ _ _ _ _ HsL Ho) as Hv2. pose proof (held_ok 1 _ _ _ _ HsL ltac:(lia) Ho) as Hs2.
  destruct Hpd as (Hpn & iL & HiL' & Hino & HokL). rewrite HiL in HiL'. injection HiL' as <-.
  assert (Hok2 : dir_ok s2 i2) by (by apply (dir_ok_view sL s2 i)). pose proof (vw_drive _ _ Hv2) as Ed2. destruct (vw_part _ _ Hv2) as [l2 Ep2].
  destruct (base_name_run (searched_path rec) pre w ltac:(rewrite <-Ec; done) ltac:(apply Hwok)) as (dirname & Eb & Hcb).
  assert (Hen2 : entries (drive s2) i2 = dir_of s par) by (unfold dir_of; rewrite Hi, Ed2; by apply entries_still).
  destruct (mkdir_create_run rec x i2 w dirname (replicate 1024 0) m s2) as (n & lba & dr & ib & bm & i' & Emk & Hmade); try done; try apply Hs2; try (rewrite ?Ep2; done).
  { rewrite F1, Hino. done. }
  { rewrite F1, Hino, Ep2. done. }
  { destruct Hroom as (b & Hb & Hr). exists b. rewrite F3, Ed2. done. }
  { intros e He Hne. rewrite Hen2 in He. apply list_elem_of_In in He. pose proof (find_none _ _ Hfind e He) as Hf. unfold named in Hf. by rewrite bool_decide_eq_true_2 in Hf. }
  destruct Hmade as [[Hn Hnf] Hbits Hl' Hslots [Hnok Hnent] (Hpok & Hperm & Hfnd) (G1 & G2 & G3) Hblk]. rewrite F1, Hino in Hslots, Hnent.
  set (s3 := patch dr ib bm (d_inode x) i' (brk s2) (-1) s2) in *.
  assert (Hnpar : n ≠ par) by (rewrite Ep2 in Hnf; cbn in Hnf; congruence).
  destruct (close_patch par _ x i2 i' dr ib bm (brk s2) (-1) sL s2 HsL Ho Hpn Hx Hi2 ltac:(congruence) ltac:(congruence) G1 G2 G3 ltac:(lia) Hl' Hpok
    ltac:(rewrite Hslots, decide_False, decide_True by (done || lia); done)) as (s5 & Ecl & [K1 K2 K3 K4 [K5 K6] K7 K8 K9]). fold s3 in K3, K6, K8, Ecl.
  assert (Hnew : the_inode s5 n = Some (new_dir n lba)).
  { unfold the_inode. rewrite K7. change (find_open (open_inodes (cur_part sL)) (inodes sL) n) with (find_open (open_inodes (cur_part s)) (inodes s) n). rewrite (Hclosed n) by (rewrite Ep2 in Hnf; exact Hnf). rewrite (slot_view s3 s5 n K3), Hslots, decide_True by (done || lia).
    by rewrite inode_of_pure by apply (dk_inode _ _ Hnok). }
  assert (Hea : entry_added par n i (new_entry w n FT_DIRECTORY) (new_dir n lba) s s5).
  { split; try done.
    - rewrite Ep2 in Hnf. split; [exact Hnf|lia].
    - intros j Hj. rewrite K4. specialize (Hbits j Hj). cbn in Hbits |- *. rewrite Hbits, Ep2. done.
    - rewrite K6. split; [done|]. split; [by rewrite <-Hen2|done].
    - by rewrite Hnew.
    - intros v Hv Hvn Hvp. rewrite K8; [done|done|]. rewrite Hslots, !decide_False by done. symmetry. apply slot_view, same_part_sym, (view_part sL), Hv2.
    - intros b Hb Hbi. assert (Hb2 : taken s2 b) by (by apply (taken_part sL s2); [apply view_part|]). rewrite <-F3 in Hbi. destruct (Hblk b Hb2 Hbi) as [Hb3 Hse].
      split; [by apply (taken_part s3 s5)|]. destruct K3 as [-> _]. by rewrite Hse, Ed2. }
  exists n, lba, w, s5. split_and!.
  - unfold sys_mkdir. mstep (malloc_buf_run 1024 s (fk_oom _ s Hs) (fk_brk _ s Hs)). fold sL. mstep E2. change (negb (-1 =? -1)) with false. cbv iota.
    pose proof (pk_len t Hp) as Hlt. pose proof (comps_length t (or_introl (pk_abs t Hp))) as Hcl.
    mstep (mlift_Ok _ s2 _ (depth_run t r Hstk (pk_chars t Hp) (pk_names t Hp) (pk_some t Hp) ltac:(lia))).
    mstep (mlift_Ok _ s2 _ (depth_searched (searched_path rec) (comps t) Hstk Hsp (pk_names t Hp) (pk_some t Hp) ltac:(lia))).
    rewrite Z.eqb_refl. cbn [negb]. mstep (mlift_Ok _ s2 _ Eb). rewrite Emk. exact Ecl.
  - rewrite Ec. apply last_snoc.
  - done.
  - rewrite K2. cbn. lia.
  - exact Hea.
  - split; [lia|]. exists (new_dir n lba). split; [done|]. split; [done|]. by apply (dir_ok_part s3 s5 (new_dir n lba)).
  - unfold dir_of. rewrite Hnew. destruct K3 as [-> _]. exact Hnent.
  - intros v j. by apply (entry_added_dirs par n i (new_entry w n FT_DIRECTORY) (new_dir n lba)).
Qed.

(** C25: [sys_unlink] deletes a file: on a path that leads to a regular file that is
    not open, whose blocks are in use by nothing else, in a directory in direct
    blocks, not marked as being written, with an inode number below 256, in
    which one entry names the file, it returns 0; the directory has lost
    exactly that entry, the inode number and all blocks of the file are free,
    every other inode is as it was, blocks that belong to neither the file nor
    the directory keep their contents, and no memory is lost. *)
Theorem sys_unlink_deletes t r s i fi e :
  fs_ok 2 s → path_ok t → walkable s 0 (comps t) → w_type (target s t) = FT_REGULAR →
  let par := w_parent (target s t) in
  let n := w_no (target s t) in
  the_inode s par = Some i → write_deny i = false → par < 256 → dots_ok s i → filter (hits n) (dir_slots (drive s) i) = [e] →
  n ≠ 0 → n ≠ par → find_open (open_inodes (cur_part s)) (inodes s) n = None → inode_of_bytes (slot s n) = Some fi → inode_ok fi → i_no fi = n →
  Forall (file_block s i) (inode_blocks s fi) → length (file_table s) = 32%nat →
  (∀ f, f ∈ file_table s → fd_inode f ≠ NULL → ∃ j, inodes s !! fd_inode f = Some j ∧ i_no j ≠ n) →
  ∃ s', sys_unlink (t ++ 0 :: r) s = Ok (0, s') ∧ fs_ok 2 s' ∧ live s' = live s ∧ is_dir s' par ∧ (dir_of s par ≡ₚ e :: dir_of s' par) ∧
    (∀ j, 0 ≤ j → bit (inode_bitmap (cur_part s')) j = if decide (j = n) then false else bit (inode_bitmap (cur_part s)) j) ∧
    (∀ b, b ∈ inode_blocks s fi → b ≠ 0 → bit (bb s') (b - data_lba s) = false) ∧
    (∀ b, taken s b → b ∉ inode_blocks s fi → b ∉ dir_sectors i → taken s' b ∧ sector (drive s') b = sector (drive s) b) ∧
    (∀ m, 0 ≤ m < 4096 → m ≠ n → m ≠ par → the_inode s' m = the_inode s m).
Proof.
  intros Hs Hp Hw Hty par n Hi Hwd Hpar Hdots Hhit Hn0 Hnp Hclosed Hfi Hfok Hfno Hfb Hft Huse.
  destruct (search_file_run 1 t r s Hs ltac:(lia) Hp Hw) as (rec & s2 & E2 & Ho & Htr & _ & Hpd & _). fold par in Ho, Hpd. fold n in E2. rewrite Hty in Htr.
  assert (Hnr : 0 ≤ n < 4096) by (apply (resolve_reg_no s 0 0 [] (comps t) Hw Hty)).
  destruct (held_dir _ _ _ i _ _ Hs Ho Hi) as (x & i2 & Hx & Hi2 & Hst). pose proof (still_fields _ _ Hst) as (F1 & _ & F3 & F4).
  pose proof (held_view _ _ _ _ _ Hs Ho) as Hv2. pose proof (held_ok 1 _ _ _ _ Hs ltac:(lia) Ho) as Hs2.
  destruct Hpd as (Hpn & iL & HiL' & Hino & HokL). rewrite Hi in HiL'. injection HiL' as <-.
  assert (Hok2 : dir_ok s2 i2) by (by apply (dir_ok_view s s2 i)). pose proof (vw_drive _ _ Hv2) as Ed2. destruct (vw_part _ _ Hv2) as [l2 Ep2].
  assert (Hen2 : entries (drive s2) i2 = dir_of s par) by (unfold dir_of; rewrite Hi, Ed2; by apply entries_still).
  assert (Hsl2 : dir_slots (drive s2) i2 = dir_slots (drive s) i) by (unfold dir_slots; by rewrite F3, Ed2).
  assert (Htk : ∀ b, taken s b ↔ taken s2 b) by (intros b; split; apply taken_part; [|apply same_part_sym]; apply (view_part s), Hv2).
  assert (Eib : inode_blocks s2 fi = inode_blocks s fi) by (unfold inode_blocks; by rewrite Ed2). assert (Edl : data_lba s2 = data_lba s) by (unfold data_lba; by rewrite Ep2).
  destruct (unlink_core (parent_dir rec) x i2 n fi e s2) as (i' & d5 & ib & bm & Erun & Hl' & Hpok & Hperm & G1 & G2 & G3 & Hbi & Hbf & Hbk & Hslots); try done; try apply Hs2; try congruence.
  { intros q Hq. destruct (fk_open _ _ Hs2 q Hq) as (j & Hj & _). by rewrite Hj. }
  { unfold dots_ok. rewrite F3, Ed2, Edl. exact Hdots. }
  { by rewrite (held_find 2 par n (parent_dir rec) s s2 Hs Ho Hnp). }
  { by rewrite (slot_view s s2 n (view_part _ _ Hv2)). }
  { rewrite Eib. eapply Forall_impl; [exact Hfb|]. intros b [->|(K1 & K2 & K3)]; [by left|right]. rewrite Edl, F3. by rewrite <-Htk. }
  rewrite Eib, F3 in Hbk. rewrite Eib, Edl in Hbf. rewrite F1, Hino in Hslots. set (s6 := patch d5 ib bm (d_inode x) i' (brk s2 + 4) 0 s2) in *.
  destruct (close_patch par _ x i2 i' d5 ib bm (brk s2 + 4) 0 s s2 Hs Ho Hpn Hx Hi2 ltac:(congruence) ltac:(congruence) G1 G2 G3 ltac:(lia) Hl' Hpok
    ltac:(rewrite Hslots, decide_False, decide_True by (done || lia); done)) as (s8 & Ecl & [K1 K2 K3 K4 [K5 K6] K7 K8 _]). fold s6 in K3, K6, K8, Ecl.
  exists s8. split_and!; try done.
  - unfold sys_unlink. pose proof (pk_len t Hp) as Hlt. mstep (mlift_Ok _ s _ (strlen_cstr (t ++ 0 :: r) t ltac:(split; [apply (pk_chars t Hp)|eauto]) ltac:(lia))).
    mstep (mlift_Ok _ s _ (ASSERT_true (Z.of_nat (length t) <? MAX_PATH_LEN) ltac:(apply Z.ltb_lt; unfold MAX_PATH_LEN; lia))). mstep E2.
    mstep (mlift_Ok _ s2 _ (ASSERT_true (negb (n =? 0)) ltac:(rewrite (proj2 (Z.eqb_neq n 0)) by done; done))). rewrite (proj2 (Z.eqb_neq n (-1))) by lia. rewrite Htr.
    change (FT_REGULAR =? FT_DIRECTORY) with false. cbv iota. destruct (held_frame _ _ _ _ Ho) as (Eft & _).
    assert (Euse : file_in_use (Z.to_nat MAX_FILE_OPEN) 0 n s2 = Ok (false, s2)).
    { apply (file_in_use_run 32 0 n s2); [|rewrite Eft; lia|done]. rewrite Eft. intros f Hf Hf0. destruct (Huse f Hf Hf0) as (j & Hj & Hjn).
      destruct (held_nos 2 par _ s s2 _ j Hs Ho Hj) as (j' & Hj' & En). exists j'. split; [done|congruence]. }
    mstep Euse. rewrite (u32_small n) by lia. specialize (Erun _ (do! dir_close (parent_dir rec) in mok 0)). rewrite (mbnd_Ok _ _ _ _ _ (malloc_buf_run 1024 s2 (fk_oom _ s2 Hs2) (fk_brk _ s2 Hs2))) in Erun.
    mstep (malloc_buf_run 1024 s2 (fk_oom _ s2 Hs2) (fk_brk _ s2 Hs2)).
    rewrite Erun. exact Ecl.
  - rewrite K2. lia.
  - rewrite K6, <-Hen2. exact Hperm.
  - intros j Hj. rewrite K4. cbn. rewrite Hbi by done. by rewrite Ep2.
  - intros b Hb Hb0. rewrite K4. by apply Hbf.
  - intros b Hb Hb1 Hb2. apply Htk in Hb. destruct (Hbk b Hb Hb1 Hb2) as [L1 L2]. split; [by apply (taken_part s6)|]. destruct K3 as [-> _]. by rewrite <-Ed2.
  - intros v Hv Hvn Hvp. apply K8; [done|]. rewrite Hslots, !decide_False by done. apply (slot_view s s2), view_part, Hv2.
Qed.

End create_properties.
