(* ===== verification/Tree.v ===== *)
(** * A small file system

    A disk with a root directory that holds the file "/x" and the directory
    "/d", the state after it was mounted, and the theorems of [Fs] and [Create]
    at work on it. *)

From S2P Require Import Prelude CString Bitmap Disk Inode File Dir Path Fs Create.

Definition tree_root : inode := Inode 0 96 1 false (612 :: replicate 12 0).
Definition tree_x : dir_entry := new_entry [120] 1 FT_REGULAR.
Definition tree_d : dir_entry := new_entry [100] 2 FT_DIRECTORY.
Definition tree_sector : list Z :=
  de_bytes (dot_entry 0) ++ de_bytes (dotdot_entry 0) ++ de_bytes tree_x ++ de_bytes tree_d ++ replicate 416 0.
Definition tree_table : list Z :=
  bytes_of (pure_words tree_root) ++ bytes_of (pure_words file_inode) ++ bytes_of (pure_words (new_dir 2 615)) ++ replicate 284 0.
Definition tree_disk : disk :=
  <[2 := 15 :: replicate 511 0]> (<[3 := 7 :: replicate 511 0]> (<[4 := tree_table]> (<[612 := tree_sector]> (<[615 := dots 2 0]> ∅)))).
Definition tree_blocks : bitmap := Bitmap 512 (15 :: replicate 512 0).
Definition tree_inodes : bitmap := Bitmap 512 (7 :: replicate 512 0).
Definition tree_fs : fs :=
  Fs tree_disk (Partition 0 10000 demo_sb tree_blocks tree_inodes [8192])
     {[ 8192 := tree_root ]} {[ root_dir := Dir 8192 0 (replicate 512 0) ]}
     (replicate 32 (File 0 0 NULL)) [0; 1; 2; -1; -1; -1; -1; -1] 0 16384 [] 0.

(** The uninitialised locals, with some contents. *)
#[export] Instance tree_stack : Stack := {| stk_name := replicate 16 204; stk_entry := no_entry |}.

Lemma tree_disk_ok : disk_ok tree_disk.
Proof. intros l s. unfold tree_disk. rewrite !lookup_insert_Some, lookup_empty. intros H. repeat (destruct H as [[_ <-]|[_ H]]; [reflexivity|]). done. Qed.

Lemma tree_layout : layout tree_fs.
Proof.
  split; cbn; try lia; try (by apply tree_disk_ok); try (unfold max_lba; lia).
  - apply byte_map_ok; rewrite ?length_cons, ?length_replicate; try lia. apply Forall_replicate. lia.
  - apply byte_map_ok; rewrite ?length_cons, ?length_replicate; try lia. apply Forall_replicate. lia.
  - unfold bit_cnt. cbn. unfold max_lba. lia.
  - reflexivity.
Qed.

Lemma tree_ok : fs_ok 2 tree_fs.
Proof.
  split; try done.
  - apply tree_layout.
  - intros q [i Hq]. cbn in Hq. apply lookup_singleton_Some in Hq as [<- _]. cbn. lia.
  - intros q [i Hq]. cbn in Hq. apply lookup_singleton_Some in Hq as [<- _]. cbn. unfold root_dir. lia.
  - intros q Hq. cbn in Hq. apply list_elem_of_singleton in Hq as ->. exists tree_root. split; [done|]. cbn. lia.
  - by exists (Dir 8192 0 (replicate 512 0)).
Qed.

Lemma tree_slots : dir_slots tree_disk tree_root = [dot_entry 0; dotdot_entry 0; tree_x; tree_d] ++ replicate 17 no_entry.
Proof. vm_compute. reflexivity. Qed.

Lemma tree_root_ok : dir_ok tree_fs tree_root.
Proof.
  split.
  - by_decide.
  - reflexivity.
  - unfold taken. by_decide.
  - by_decide.
  - cbn [drive tree_fs]. rewrite tree_slots. apply Forall_app. split; [|apply Forall_replicate, no_entry_ok].
    repeat (apply Forall_cons; split); try apply dot_slot_ok; try apply new_entry_ok; try done; by_decide.
  - unfold entries. cbn [drive tree_fs]. rewrite tree_slots. reflexivity.
Qed.

Lemma tree_root_dir : is_dir tree_fs 0.
Proof. split; [lia|]. exists tree_root. split; [reflexivity|]. split; [done|apply tree_root_ok]. Qed.

Lemma tree_d_dir : is_dir tree_fs 2.
Proof.
  split; [lia|]. exists (new_dir 2 615). split; [vm_compute; reflexivity|]. split; [done|].
  apply (new_dir_ok tree_fs 2 615 0); try by_decide. apply tree_layout.
Qed.

Lemma tree_links : links tree_fs 0 2 [100].
Proof.
  split; [done|]. split; [by_decide|]. split; [apply tree_root_dir|]. split; [apply tree_d_dir|]. split.
  - exists (new_dir 2 615), 615. split_and!; try done; vm_compute; reflexivity.
  - exists tree_root, tree_d. split_and!; vm_compute; reflexivity.
Qed.

(** The paths "/x", "/x/y", "/d" and "/d/e" *)
Definition path_x : list Z := [47; 120].
Definition path_xy : list Z := [47; 120; 47; 121].
Definition path_d : list Z := [47; 100].
Definition path_de : list Z := [47; 100; 47; 101].

Lemma path_ok_decide t : (∃ q, t = slash :: q) → Forall is_char t → (length t < 512)%nat → Forall name_ok (comps t) → comps t ≠ [] → (t ∉ root_texts) → path_ok t.
Proof. by split. Qed.

Ltac path := apply path_ok_decide; [by eexists|by_decide..].

Lemma tree_walk_x : walkable tree_fs 0 (comps path_x).
Proof.
  change (comps path_x) with [[120]]. split; [apply tree_root_dir|]. change (find _ _) with (Some tree_x). cbv beta iota. split; [cbn; lia|by right].
Qed.

Lemma tree_walk_de : walkable tree_fs 0 (comps path_de).
Proof.
  change (comps path_de) with [[100]; [101]]. split; [apply tree_root_dir|]. replace (find _ _) with (Some tree_d) by (vm_compute; reflexivity). cbv beta iota. split; [cbn; lia|].
  left. split; [done|]. split; [apply tree_d_dir|]. by replace (find _ _) with (@None dir_entry) by (vm_compute; reflexivity).
Qed.

Lemma search_file_resolves_witness : ∃ rec s2,
  @search_file debug_build tree_stack (path_x ++ [0]) zero_record tree_fs = Ok ((1, rec), s2) ∧ file_type rec = FT_REGULAR.
Proof.
  destruct (@search_file_resolves debug_build tree_stack path_x [] tree_fs) as (rec & s2 & _ & _ & _ & E & Ht & _).
  - apply tree_ok.
  - path.
  - apply tree_walk_x.
  - exists rec, s2. split; [exact E|exact Ht].
Defined.

Lemma chdir_getcwd_witness : ∃ s1 s2 buf,
  @sys_chdir debug_build tree_stack (path_d ++ [0]) tree_fs = Ok (0, s1) ∧ cwd_inode_nr s1 = 2 ∧
  @sys_getcwd debug_build (replicate 512 0) 512 s1 = Ok ((buf, true), s2) ∧ cstr buf path_d.
Proof.
  destruct (@chdir_getcwd debug_build tree_stack path_d [] tree_fs (replicate 512 0)) as (s1 & b & buf & E1 & E2 & E3 & E4).
  - apply tree_ok.
  - path.
  - apply tree_root_dir.
  - change (comps path_d) with [[100]]. cbn [linked]. replace (find _ _) with (Some tree_d) by (vm_compute; reflexivity). split; [done|]. split; [apply tree_links|done].
  - reflexivity.
  - exists s1, (bump b (set_cwd (w_no (target tree_fs path_d)) tree_fs)), buf. split; [exact E1|]. split; [exact E2|]. split; [exact E3|exact E4].
Defined.

Lemma sys_mkdir_makes_witness : ∃ n s',
  @sys_mkdir debug_build tree_stack (path_de ++ [0]) tree_fs = Ok (0, s') ∧ is_dir s' n ∧ find (named [101]) (dir_of s' 2) = Some (new_entry [101] n FT_DIRECTORY).
Proof.
  destruct (@sys_mkdir_makes debug_build tree_stack path_de [] tree_fs (new_dir 2 615) 3) as (n & lba & w & s' & E & Hw & _ & _ & [_ _ (_ & _ & Hf) _ _ _ _] & Hd & _).
  - apply tree_ok.
  - path.
  - reflexivity.
  - apply tree_walk_de.
  - split; vm_compute; reflexivity.
  - vm_compute. reflexivity.
  - reflexivity.
  - by_decide.
  - vm_compute. reflexivity.
  - lia.
  - vm_compute. reflexivity.
  - by_decide.
  - exists 0. split; [by_decide|by left].
  - intros n Hn. cbn [cur_part open_inodes tree_fs inodes find_open]. replace ({[8192 := tree_root]} !! 8192) with (Some tree_root) by reflexivity.
    destruct (Z.eqb_spec (i_no tree_root) n) as [<-|]; [|done]. vm_compute in Hn. discriminate.
  - exists n, s'. split; [exact E|]. split; [exact Hd|]. change (last (comps path_de)) with (Some [101]) in Hw. injection Hw as <-.
    change (de_name (new_entry [101] n FT_DIRECTORY)) with [101] in Hf. exact Hf.
Defined.

Lemma sys_unlink_deletes_witness : ∃ s',
  @sys_unlink debug_build tree_stack (path_x ++ [0]) tree_fs = Ok (0, s') ∧ (dir_of tree_fs 0 ≡ₚ tree_x :: dir_of s' 0) ∧ bit (bb s') 1 = false ∧ bit (bb s') 2 = false.
Proof.
  destruct (@sys_unlink_deletes debug_build tree_stack path_x [] tree_fs tree_root file_inode tree_x) as (s' & E & _ & _ & _ & Hp & _ & Hb & _).
  - apply tree_ok.
  - path.
  - apply tree_walk_x.
  - reflexivity.
  - reflexivity.
  - reflexivity.
  - by_decide.
  - intros b Hb _. change (dir_sectors tree_root) with [612] in Hb. apply list_elem_of_singleton in Hb as ->.
    exists (dot_entry 0). split; [|done]. replace (slots _) with (dir_slots tree_disk tree_root) by (vm_compute; reflexivity). rewrite tree_slots. by left.
  - change (drive tree_fs) with tree_disk. rewrite tree_slots. reflexivity.
  - done.
  - done.
  - reflexivity.
  - vm_compute. reflexivity.
  - apply file_inode_ok.
  - reflexivity.
  - change (inode_blocks tree_fs file_inode) with (613 :: 614 :: replicate 10 0).
    apply Forall_cons. split; [right; unfold taken; by_decide|]. apply Forall_cons. split; [right; unfold taken; by_decide|]. apply Forall_replicate. by left.
  - reflexivity.
  - intros f Hf Hn. change (file_table tree_fs) with (replicate 32 (File 0 0 NULL)) in Hf. apply elem_of_replicate in Hf as [-> _]. done.
  - exists s'. split; [exact E|]. split; [exact Hp|]. split; [apply (Hb 613)|apply (Hb 614)]; by_decide.
Defined.

(** ** What a walk that stops at a file leads to *)

(** The value a run ends with. *)
Definition value {S A} (r : res (A * S)) : option A := match r with Ok (a, _) => Some a | _ => None end.

(** What [sys_stat] says of "/x/y", what [sys_unlink] of it returns, and whether
    the root directory still has an entry "x". *)
Definition unlink_xy : M fs (stat * Z * option dir_entry) :=
  let! st := @sys_stat debug_build tree_stack (path_xy ++ [0]) (Stat 0 0 0) in
  let! r := @sys_unlink debug_build tree_stack (path_xy ++ [0]) in
  let! e := mget (λ s, find (named [120]) (dir_of s 0)) in
  mok (st.2, r, e).

(** [sys_unlink] and [sys_stat] do not ask whether the whole path was walked:
    "/x/y" names the file "/x", and unlinking it deletes "/x". *)
Theorem unlink_ignores_tail : value (unlink_xy tree_fs) = Some (Stat 1 600 FT_REGULAR, 0, None).
Proof. vm_compute. reflexivity. Qed.

(** "//" passes the assertion, has no name, and [search_file] returns the inode
    number in its uninitialised [dir_e]: 7 with one stack, 9 with another. *)
Definition stack_with (n : Z) : Stack := {| stk_name := []; stk_entry := DirEntry [] n 0 |}.
Theorem search_two_slashes : ∃ rec s',
  @search_file debug_build (stack_with 7) [47; 47; 0] zero_record tree_fs = Ok ((7, rec), s') ∧
  @search_file debug_build (stack_with 9) [47; 47; 0] zero_record tree_fs = Ok ((9, rec), s').
Proof. eexists _, _. split; vm_compute; reflexivity. Qed.

(** The file "/d/f" is created and closed, then opened and closed; the results
    are the blocks of memory in use after each of the two closes. *)
Definition path_df : list Z := [47; 100; 47; 102; 0].
Definition open_twice : M fs (Z * Z) :=
  let! _ := @sys_open debug_build tree_stack path_df 6 in
  let! _ := file_close (Some 3) in
  let! l1 := mget live in
  let! _ := @sys_open debug_build tree_stack path_df 2 in
  let! _ := file_close (Some 3) in
  let! l2 := mget live in
  mok (l1, l2).

(** The directory that [search_file] opened for the second [sys_open], and its
    inode, are never closed. *)
Theorem sys_open_keeps_parent : live tree_fs = 0 ∧ value (open_twice tree_fs) = Some (0, 2).
Proof. split; vm_compute; reflexivity. Qed.

(** Every inode is taken, in a build without assertions: [file_create] fails and
    keeps its I/O buffer. *)
Definition full_inodes : fs := set_part (set_inode_bitmap (Bitmap 512 (replicate 512 255 ++ [0])) (cur_part tree_fs)) tree_fs.
Theorem file_create_leaks_buffer :
  live full_inodes = 0 ∧ value ((let! r := @file_create release_build root_dir [122; 0] 6 in let! l := mget live in mok (r, l)) full_inodes) = Some (-1, 1).
Proof. split; vm_compute; reflexivity. Qed.
