(* ===== verification/Mount.v ===== *)
(** * Making and mounting a file system ([partition_format], [mount_partition],
      [filesys_init] of [fs/fs.c])

    [partition_format] lays a file system out on a partition, [mount_partition]
    reads its super block and bitmaps into memory, [filesys_init] formats what
    has no file system yet and mounts "sdb1".  The main theorem composes the
    first two with [open_root_dir]: the result is a state in which the calls of
    [Fs] and [Create] work. *)

From S2P Require Import Prelude CString Bitmap Disk Inode File Dir Path Fs Create.

Definition fs_magic : Z := 0x19590318.

Record part := Part { part_name : list Z; part_start : Z; part_cnt : Z }.
(** A disk: what it stores and its 4 primary and 8 logical partitions. *)
Record hd := Hd { store : disk; parts : list part }.

Definition sb_words (sb : super_block) : list Z :=
  [magic sb; sb_sec_cnt sb; inode_cnt sb; part_lba_base sb; block_bitmap_lba sb; block_bitmap_sects sb; inode_bitmap_lba sb;
   inode_bitmap_sects sb; inode_table_lba sb; inode_table_sects sb; data_start_lba sb; root_inode_no sb; dir_entry_size sb].
Definition sb_of_bytes (bs : list Z) : option super_block :=
  match words_of bs with
  | a :: b :: c :: d :: e :: f :: g :: h :: i :: j :: k :: l :: m :: _ => Some (SuperBlock a b c d e f g h i j k l m)
  | _ => None
  end.

Section mount_ops.
Context {B : Build}.

(** ** [partition_format] *)

(** The sectors of the block bitmap and the number of bits in it *)
Definition bitmap_size (cnt : Z) : Z * Z :=
  let inode_bitmap_sects := DIV_ROUND_UP MAX_FILES_PER_PART BITS_PER_SECTOR in
  let inode_table_sects := DIV_ROUND_UP (inode_size * MAX_FILES_PER_PART) SECTOR_SIZE in
  let used_sects := 1 + 1 + inode_bitmap_sects + inode_table_sects in
  let free_sects := u32 (cnt - used_sects) in
  let block_bitmap_sects := DIV_ROUND_UP free_sects BITS_PER_SECTOR in
  let block_bitmap_bit_len := u32 (free_sects - block_bitmap_sects) in
  (DIV_ROUND_UP block_bitmap_bit_len BITS_PER_SECTOR, block_bitmap_bit_len).

Definition format_sb (start cnt : Z) : super_block :=
  let inode_bitmap_sects := DIV_ROUND_UP MAX_FILES_PER_PART BITS_PER_SECTOR in
  let inode_table_sects := DIV_ROUND_UP (inode_size * MAX_FILES_PER_PART) SECTOR_SIZE in
  let block_bitmap_sects := (bitmap_size cnt).1 in
  let block_bitmap_lba := u32 (start + 2) in
  let inode_bitmap_lba := u32 (block_bitmap_lba + block_bitmap_sects) in
  let inode_table_lba := u32 (inode_bitmap_lba + inode_bitmap_sects) in
  let data_start_lba := u32 (inode_table_lba + inode_table_sects) in
  SuperBlock fs_magic cnt MAX_FILES_PER_PART start block_bitmap_lba block_bitmap_sects inode_bitmap_lba inode_bitmap_sects
    inode_table_lba inode_table_sects data_start_lba 0 de_size.

(** [while (bit_idx <= block_bitmap_last_bit) byte &= ~(1 << bit_idx++)]; [n] turns are left. *)
Fixpoint clear_bits (n : nat) (byte bit_idx : Z) : Z :=
  match n with
  | O => byte
  | S n' => clear_bits n' (u8 (Z.land byte (Z.lnot (Z.shiftl 1 bit_idx)))) (bit_idx + 1)
  end.

(** The block bitmap in a zeroed buffer *)
Definition format_bitmap (buf : list Z) (bit_len : Z) : res (list Z) :=
  let? b0 := rd buf 0 in
  let? buf := wr buf 0 (Z.lor b0 1) in
  let last_byte := bit_len / 8 in
  let last_bit := bit_len mod 8 in
  let last_size := SECTOR_SIZE - last_byte mod SECTOR_SIZE in
  let? tl := memset (Some (drop (Z.to_nat last_byte) buf)) 255 last_size in
  let buf := take (Z.to_nat last_byte) buf ++ tl in
  let? b := rd buf last_byte in
  wr buf last_byte (clear_bits (Z.to_nat (last_bit + 1)) b 0).

(** [i->i_size], [i->i_no] and [i->i_sectors[0]] of the first inode *)
Definition format_root (buf : list Z) (sb : super_block) : res (list Z) :=
  let? buf := put_at buf 4 (le32 (u32 (dir_entry_size sb * 2))) in
  let? buf := put_at buf 0 (le32 0) in
  put_at buf 16 (le32 (data_start_lba sb)).

(** [pad] is the rest of the local [struct super_block]. *)
Definition partition_format (pad : list Z) (start cnt : Z) : M fs unit :=
  let sb := format_sb start cnt in
  do! ide_write (u32 (start + 1)) (bytes_of (sb_words sb) ++ pad) 0 1 in
  let m := if inode_bitmap_sects sb <=? block_bitmap_sects sb then block_bitmap_sects sb else inode_bitmap_sects sb in
  let buf_size := u32 ((if inode_table_sects sb <=? m then m else inode_table_sects sb) * SECTOR_SIZE) in
  let! buf := malloc_buf (Z.to_nat buf_size) in
  match buf with
  | None => λ _, Fault
  | Some buf =>
      let! buf := mlift (format_bitmap buf (bitmap_size cnt).2) in
      do! ide_write (block_bitmap_lba sb) buf 0 (Z.to_nat (block_bitmap_sects sb)) in
      let! buf := mlift (memset (Some buf) 0 buf_size) in
      let! b0 := mlift (rd buf 0) in
      let! buf := mlift (wr buf 0 (Z.lor b0 1)) in
      do! ide_write (inode_bitmap_lba sb) buf 0 (Z.to_nat (inode_bitmap_sects sb)) in
      let! buf := mlift (memset (Some buf) 0 buf_size) in
      let! buf := mlift (format_root buf sb) in
      do! ide_write (inode_table_lba sb) buf 0 (Z.to_nat (inode_table_sects sb)) in
      let! buf := mlift (memset (Some buf) 0 buf_size) in
      let! buf := mlift (put_entry buf 0 [46] 0) in
      let! buf := mlift (put_entry buf 1 [46; 46] 0) in
      do! ide_write (data_start_lba sb) buf 0 1 in
      sys_free
  end.

(** ** [mount_partition], once the name is found *)

(** [behind] is the memory that follows a bitmap in its page. *)
Definition read_map (behind : list Z) (lba sects : Z) : M fs bitmap :=
  let len := u32 (sects * SECTOR_SIZE) in
  let! b := malloc_buf (Z.to_nat len) in
  match b with
  | None => λ _, Panic
  | Some b => let! b := ide_read lba b 0 (Z.to_nat sects) in mok (Bitmap len (b ++ behind))
  end.

Definition mount_partition (behind : list Z) (start cnt : Z) : M fs unit :=
  let! sb_buf := malloc_buf 512 in
  let! p := sys_malloc in
  if p =? NULL then λ _, Panic else
  let! sb_buf := mlift (memset sb_buf 0 SECTOR_SIZE) in
  let! sb_buf := ide_read (u32 (start + 1)) sb_buf 0 1 in
  match sb_of_bytes sb_buf with
  | None => λ _, Fault
  | Some sb =>
      let! bmap := read_map behind (block_bitmap_lba sb) (block_bitmap_sects sb) in
      let! imap := read_map behind (inode_bitmap_lba sb) (inode_bitmap_sects sb) in
      mmod (set_part (Partition start cnt sb bmap imap []))
  end.

(** ** [filesys_init] *)

(** The partitions from [part_idx] on of the disk that is the current [drive]. *)
Fixpoint format_parts (pad : list Z) (ps : list part) (sb_buf : list Z) : M fs unit :=
  match ps with
  | [] => mok tt
  | p :: ps' =>
      if part_cnt p =? 0 then format_parts pad ps' sb_buf else
      let! sb_buf := mlift (memset (Some sb_buf) 0 SECTOR_SIZE) in
      let! sb_buf := ide_read (u32 (part_start p + 1)) sb_buf 0 1 in
      let! m := mlift (word_at sb_buf 0) in
      do! (if m =? fs_magic then mok tt else partition_format pad (part_start p) (part_cnt p)) in
      format_parts pad ps' sb_buf
  end.

(** The slave disk of each channel.  [part_idx] is set to 0 once, so only the
    first disk is looked at; what each disk stores afterwards is the result. *)
Fixpoint format_disks (pad : list Z) (hds : list hd) (part_idx : nat) (sb_buf : list Z) : M fs (list hd) :=
  match hds with
  | [] => mok []
  | h :: hds' =>
      do! mmod (set_drive (store h)) in
      do! format_parts pad (take (12 - part_idx) (drop part_idx (parts h))) sb_buf in
      let! d := mget drive in
      let! l := format_disks pad hds' 12 sb_buf in
      mok (Hd d (parts h) :: l)
  end.

Definition sdb1 : list Z := [115; 100; 98; 49; 0].

(** The first disk with a partition of that name, and the partition. *)
Fixpoint find_part (hds : list hd) : res (option (hd * part)) :=
  match hds with
  | [] => Ok None
  | h :: hds' =>
      let? r := (fix go ps := match ps with
                 | [] => Ok None
                 | p :: ps' =>
                     if part_cnt p =? 0 then go ps' else
                     let? c := strcmp (Some (part_name p)) (Some sdb1) in
                     if c =? 0 then Ok (Some p) else go ps'
                 end) (parts h) in
      match r with Some p => Ok (Some (h, p)) | None => find_part hds' end
  end.

(** [hds] are the slave disks of the channels with their partitions as
    [partition_scan] entered them.  Without a partition "sdb1" [cur_part] stays NULL. *)
Definition filesys_init (pad behind : list Z) (hds : list hd) : M fs (list hd) :=
  let! sb_buf := malloc_buf 512 in
  match sb_buf with
  | None => λ _, Panic
  | Some sb_buf =>
      let! hds := format_disks pad hds 0 sb_buf in
      do! sys_free in
      let! r := mlift (find_part hds) in
      match r with
      | None => λ _, Fault
      | Some (h, p) =>
          do! mmod (set_drive (store h)) in
          do! mount_partition behind (part_start p) (part_cnt p) in
          do! open_root_dir in
          do! mmod (λ s, set_file_table ((λ f, File (fd_pos f) (fd_flag f) NULL) <$> file_table s) s) in
          mok hds
      end
  end.

End mount_ops.

(** ** The numbers of a layout *)

Section mount_lemmas.
Context {B : Build}.

(** Bits of the block bitmap and its sectors *)
Notation bit_len cnt := (bitmap_size cnt).2.
Notation map_sects cnt := (bitmap_size cnt).1.

Lemma bitmap_size_bounds cnt : 620 ≤ cnt ≤ 163839 →
  8 ≤ bit_len cnt ∧ 4096 * (map_sects cnt - 1) < bit_len cnt ≤ 4096 * map_sects cnt ∧ 1 ≤ map_sects cnt ≤ 40 ∧
  611 + map_sects cnt + bit_len cnt ≤ cnt.
Proof.
  intros H. unfold bitmap_size. cbn [fst snd].
  change (1 + 1 + DIV_ROUND_UP MAX_FILES_PER_PART BITS_PER_SECTOR + DIV_ROUND_UP (inode_size * MAX_FILES_PER_PART) SECTOR_SIZE) with 611.
  unfold DIV_ROUND_UP, BITS_PER_SECTOR. rewrite (u32_small (cnt - 611)) by lia. rewrite (u32_small (cnt - 611 + 4096 - 1)) by lia.
  rewrite (u32_small (cnt - 611 - (cnt - 611 + 4096 - 1) / 4096)) by zsolve. rewrite u32_small by zsolve. zsolve.
Qed.

(** The super block, without the wrap-around that does not happen *)
Lemma format_sb_eq start cnt : 620 ≤ cnt → 0 ≤ start → start + cnt ≤ max_lba →
  format_sb start cnt = SuperBlock fs_magic cnt 4096 start (start + 2) (map_sects cnt) (start + 2 + map_sects cnt) 1
    (start + 3 + map_sects cnt) 608 (start + 611 + map_sects cnt) 0 24.
Proof.
  unfold max_lba. intros H H0 H1. destruct (bitmap_size_bounds cnt ltac:(lia)) as (_ & _ & Hs & _).
  unfold format_sb. change (DIV_ROUND_UP MAX_FILES_PER_PART BITS_PER_SECTOR) with 1.
  change (DIV_ROUND_UP (inode_size * MAX_FILES_PER_PART) SECTOR_SIZE) with 608. rewrite (u32_small (start + 2)) by lia.
  rewrite (u32_small (start + 2 + _)) by lia. rewrite (u32_small (start + 2 + _ + 1)) by lia. rewrite u32_small by lia.
  unfold MAX_FILES_PER_PART, de_size. f_equal; lia.
Qed.

(** ** The block bitmap *)

Lemma clear_bits_bit r i : 0 ≤ r < 8 → 0 ≤ i < 8 →
  Z.testbit (clear_bits (Z.to_nat (r + 1)) 255 0) i = (r <? i) ∧ 0 ≤ clear_bits (Z.to_nat (r + 1)) 255 0 < 256.
Proof.
  intros Hr. revert i. revert r Hr. apply (bit_explode (λ r, ∀ i, 0 ≤ i < 8 → _));
    apply (bit_explode (λ i, _)); vm_compute; split; done.
Qed.

(** What the bytes of the bitmap are *)
Definition map_byte (len : Z) (j : nat) : Z :=
  if decide (Z.of_nat j < len / 8) then if decide (j = 0%nat) then 1 else 0
  else if decide (Z.of_nat j = len / 8) then clear_bits (Z.to_nat (len mod 8 + 1)) 255 0
  else if decide (Z.of_nat j < 512 * (len / 4096 + 1)) then 255 else 0.

Lemma testbit_low r : 0 ≤ r < 8 → Z.testbit 1 r = (r =? 0) ∧ Z.testbit 0 r = false ∧ Z.testbit 255 r = true.
Proof. revert r. by apply bit_explode. Qed.

Lemma map_byte_bit len k : 8 ≤ len → 0 ≤ k < 4096 * (len / 4096 + 1) →
  Z.testbit (map_byte len (Z.to_nat (k / 8))) (k mod 8) = (k =? 0) || (len <? k).
Proof.
  intros H8 Hk. unfold map_byte. assert (Hm : 0 ≤ k mod 8 < 8) by zsolve. assert (Hl : 0 ≤ len mod 8 < 8) by zsolve.
  assert (Hd : 0 ≤ k / 8) by zsolve. destruct (testbit_low (k mod 8) Hm) as (T1 & T0 & T255).
  rewrite Z2Nat.id by done. case_decide as H1; [|case_decide as H2; [|rewrite decide_True by zsolve]].
  - rewrite (proj2 (Z.ltb_ge len k)), orb_false_r by zsolve. case_decide as H2.
    + rewrite T1. f_equal. zsolve.
    + rewrite T0. symmetry. apply Z.eqb_neq. zsolve.
  - rewrite (proj1 (clear_bits_bit _ _ Hl Hm)), (proj2 (Z.eqb_neq k 0)) by zsolve. cbn. destruct (Z.ltb_spec len k); [apply Z.ltb_lt|apply Z.ltb_ge]; zsolve.
  - rewrite T255, (proj2 (Z.ltb_lt len k)) by zsolve. by rewrite orb_true_r.
Qed.

Lemma map_byte_range len j : 0 ≤ map_byte len j < 256.
Proof. unfold map_byte. repeat case_decide; try lia. apply (clear_bits_bit (len mod 8) 0); zsolve. Qed.

Lemma format_bitmap_run m len :
  8 ≤ len → len / 8 + 512 ≤ Z.of_nat m → format_bitmap (replicate m 0) len = Ok (map_byte len <$> seq 0 m).
Proof.
  intros H8 Hm. unfold format_bitmap. set (L := len / 8). set (n := SECTOR_SIZE - L mod SECTOR_SIZE).
  assert (HL : 1 ≤ L) by (unfold L; zsolve). assert (Hn : 1 ≤ n ≤ 512) by (unfold n, SECTOR_SIZE; zsolve).
  assert (Hq : L + n = 512 * (len / 4096 + 1)) by (unfold n, L, SECTOR_SIZE; zsolve).
  fold L in Hm. destruct m as [|m]; [lia|]. rewrite (rd_lookup _ 0 0) by (done || lia). cbn [rbind]. rewrite wr_Ok by (rewrite length_replicate; lia). cbn [rbind].
  change (<[Z.to_nat 0 := Z.lor 0 1]> (replicate (S m) 0)) with (1 :: replicate m 0).
  set (b1 := 1 :: replicate m 0). assert (Hb1 : length b1 = S m) by (cbn; by rewrite length_replicate).
  unfold memset. rewrite ASSERT_true by done. cbn [rbind]. rewrite mem_Some, set_loop_run by (rewrite length_drop; lia). cbn [rbind].
  set (b2 := take _ _ ++ _). assert (Hb2 : length b2 = S m).
  { unfold b2. rewrite !length_app, length_take, length_replicate, !length_drop. lia. }
  assert (H2 : ∀ j, (j < S m)%nat → b2 !! j = Some (if decide (Z.of_nat j < L) then if decide (j = 0%nat) then 1 else 0
    else if decide (Z.of_nat j < L + n) then 255 else 0)).
  { intros j Hj. unfold b2. assert (Hb : b1 !! j = Some (if decide (j = 0%nat) then 1 else 0)).
    { destruct j; [done|]. cbn. apply lookup_replicate. split; [done|lia]. }
    destruct (decide (Z.of_nat j < L)) as [Hd1|Hd1].
    - rewrite lookup_app_l by (rewrite length_take; lia). rewrite lookup_take_lt by lia. exact Hb.
    - rewrite lookup_app_r by (rewrite length_take; lia). rewrite length_take, Nat.min_l by lia.
      destruct (decide (Z.of_nat j < L + n)) as [Hd2|Hd2].
      + rewrite lookup_app_l by (rewrite length_replicate; lia). apply lookup_replicate. split; [done|lia].
      + rewrite lookup_app_r, length_replicate by (rewrite length_replicate; lia). rewrite drop_drop, lookup_drop.
        replace (_ + (_ - _))%nat with j by lia. rewrite Hb, decide_False by lia. done. }
  rewrite (rd_lookup b2 L 255).
  2:{ lia. } 2:{ rewrite H2 by lia. rewrite decide_False, decide_True by lia. done. }
  cbn [rbind]. rewrite wr_Ok by lia. f_equal. apply list_eq. intros j. destruct (decide (j < S m)%nat) as [Hj|Hj].
  2:{ rewrite !lookup_ge_None_2; [done|rewrite length_fmap, length_seq; lia|rewrite length_insert; lia]. }
  rewrite list_lookup_fmap, lookup_seq_lt by done. cbn [fmap option_fmap option_map Nat.add]. unfold map_byte. fold L. rewrite <-Hq.
  destruct (decide (Z.of_nat j = L)) as [He|He].
  - rewrite <-He, Nat2Z.id, list_lookup_insert_eq by lia. rewrite decide_False by lia. done.
  - rewrite list_lookup_insert_ne by lia. by apply H2.
Qed.

(** ** What formatting leaves on the disk *)

Notation data_at start cnt := (start + 611 + map_sects cnt).

Record formatted (pad : list Z) (start cnt : Z) (d d' : disk) : Prop := {
  fm_ok : disk_ok d';
  fm_sb : sector d' (start + 1) = bytes_of (sb_words (format_sb start cnt)) ++ pad;
  fm_map : disk_read d' (start + 2) (Z.to_nat (map_sects cnt)) = map_byte (bit_len cnt) <$> seq 0 (Z.to_nat (512 * map_sects cnt));
  fm_inodes : sector d' (start + 2 + map_sects cnt) = 1 :: replicate 511 0;
  fm_root : take 76 (disk_read d' (start + 3 + map_sects cnt) 608) = bytes_of (pure_words (new_dir 0 (data_at start cnt)));
  fm_data : sector d' (data_at start cnt) = dots 0 0;
  fm_other : ∀ l, l ≤ start ∨ data_at start cnt < l → sector d' l = sector d l;
}.

Lemma format_root_run m sb : (76 ≤ m)%nat → dir_entry_size sb = 24 →
  format_root (replicate m 0) sb = Ok (bytes_of (pure_words (new_dir 0 (data_start_lba sb))) ++ replicate (m - 76) 0).
Proof.
  intros Hm Hs. unfold format_root. rewrite Hs. change (u32 (24 * 2)) with 48.
  replace (replicate m 0) with (replicate 76 0 ++ replicate (m - 76) 0) by (rewrite <-replicate_add; f_equal; lia).
  assert (E : ∀ w, length w = 4%nat →
    (let? b := put_at (replicate 76 0) 4 (le32 48) in let? b := put_at b 0 (le32 0) in put_at b 16 w) =
    Ok (le32 0 ++ le32 48 ++ replicate 8 0 ++ w ++ replicate 56 0)).
  { intros [|w0 [|w1 [|w2 [|w3 [|]]]]] H1; try discriminate. vm_compute. reflexivity. }
  specialize (E (le32 (data_start_lba sb)) eq_refl).
  rewrite put_at_app by (rewrite ?length_replicate, ?le32_length; lia).
  rewrite put_at_Ok in E |- * by (rewrite ?length_replicate, ?le32_length; lia). cbn [rbind] in E |- *.
  set (b1 := splice _ _ _) in E |- *. assert (H1 : length b1 = 76%nat) by (vm_compute; done). clearbody b1.
  rewrite put_at_app by (rewrite ?le32_length; lia). rewrite put_at_Ok in E |- * by (rewrite ?le32_length; lia). cbn [rbind] in E |- *.
  set (b2 := splice _ _ _) in E |- *. assert (H2 : length b2 = 76%nat) by (unfold b2; rewrite splice_length; rewrite ?le32_length; lia). clearbody b2.
  rewrite put_at_app by (rewrite ?le32_length; lia). rewrite E. cbn [rbind]. done.
Qed.

Lemma memset_all buf size : Z.of_nat (length buf) = size → memset (Some buf) 0 size = Ok (replicate (length buf) 0).
Proof. intros <-. rewrite memset_run by lia. by rewrite drop_all, app_nil_r. Qed.

(** A run written from the start of a buffer *)
Lemma write_run lba buf n s : lba ≤ max_lba → (512 * n ≤ length buf)%nat →
  ide_write lba buf 0 n s = Ok (tt, set_drive (disk_write (drive s) lba (take (512 * n) buf) n) s).
Proof. intros H1 H2. by rewrite ide_write_run by lia. Qed.

Lemma sector_write_same d lba bytes : length bytes = 512%nat → sector (disk_write d lba bytes 1) lba = bytes.
Proof. intros H. rewrite <-disk_read_1, disk_read_write_same by lia. by rewrite take_ge by lia. Qed.

(** The five runs are written side by side. *)
Lemma formatted_writes pad start cnt d m :
  length pad = 460%nat → 620 ≤ cnt → 0 ≤ start → start + cnt ≤ max_lba → disk_ok d → 311296 ≤ Z.of_nat m →
  let sbb := bytes_of (sb_words (format_sb start cnt)) ++ pad in
  let bm := take (512 * Z.to_nat (map_sects cnt)) (map_byte (bit_len cnt) <$> seq 0 m) in
  let rt := take (512 * Z.to_nat 608) (bytes_of (pure_words (new_dir 0 (data_at start cnt))) ++ replicate (m - 76) 0) in
  formatted pad start cnt d
    (disk_write (disk_write (disk_write (disk_write (disk_write d (start + 1) sbb 1) (start + 2) bm (Z.to_nat (map_sects cnt)))
      (start + 2 + map_sects cnt) (1 :: replicate 511 0) 1) (start + 3 + map_sects cnt) rt (Z.to_nat 608)) (data_at start cnt) (dots 0 0) 1).
Proof.
  intros Hpad Hc H0 H1 Hd Hm sbb bm rt. destruct (bitmap_size_bounds cnt ltac:(unfold max_lba in *; lia)) as (B1 & B2 & B3 & B4).
  assert (Hsb : length sbb = 512%nat) by (unfold sbb; rewrite length_app, Hpad; done).
  assert (Hbm : length bm = (512 * Z.to_nat (map_sects cnt))%nat) by (unfold bm; rewrite length_take, length_fmap, length_seq; lia).
  assert (Hrt : length rt = (512 * Z.to_nat 608)%nat) by (unfold rt; rewrite length_take, length_app, bytes_of_length, length_replicate; cbn; lia).
  assert (Hin : length (1 :: replicate 511 0) = 512%nat) by done.
  split.
  - repeat apply disk_write_ok; rewrite ?Hsb, ?Hbm, ?Hrt, ?Hin, ?dots_length; (done || lia).
  - rewrite !sector_write_other by lia. by apply sector_write_same.
  - rewrite !disk_read_write_other by lia. rewrite disk_read_write_same by lia. rewrite take_ge by lia. unfold bm. rewrite <-fmap_take. f_equal.
    rewrite take_seq. f_equal. lia.
  - rewrite !(sector_write_other _ _ _ _ (start + 2 + map_sects cnt)) by lia. by apply sector_write_same.
  - rewrite disk_read_write_other by lia. change 608%nat with (Z.to_nat 608). rewrite disk_read_write_same, (take_ge rt) by lia. unfold rt.
    rewrite take_take, Nat.min_l by lia. apply take_app_length'. by rewrite bytes_of_length.
  - apply sector_write_same, dots_length.
  - intros l Hl. rewrite !sector_write_other by lia. done.
Qed.

Lemma partition_format_run pad start cnt s :
  length pad = 460%nat → 620 ≤ cnt → 0 ≤ start → start + cnt ≤ max_lba → disk_ok (drive s) → oom s = [] → 0 < brk s →
  ∃ d', partition_format pad start cnt s = Ok (tt, set_heap (brk s + 1) [] (live s) (set_drive d' s)) ∧ formatted pad start cnt (drive s) d'.
Proof.
  intros Hpad Hc H0 H1 Hd Ho Hb. destruct (bitmap_size_bounds cnt ltac:(unfold max_lba in *; lia)) as (B1 & B2 & B3 & B4).
  unfold partition_format. rewrite format_sb_eq by done. set (sb := SuperBlock _ _ _ _ _ _ _ _ _ _ _ _ _). cbv zeta.
  assert (Hsb : length (bytes_of (sb_words sb) ++ pad) = 512%nat) by (rewrite length_app, Hpad; done).
  rewrite (u32_small (start + 1)) by (unfold max_lba in *; lia).
  mstep (write_run (start + 1) (bytes_of (sb_words sb) ++ pad) 1 s ltac:(lia) ltac:(rewrite Hsb; lia)). rewrite take_ge by (rewrite Hsb; lia).
  set (d1 := disk_write _ _ _ _). cbn [inode_bitmap_sects block_bitmap_sects inode_table_sects sb].
  rewrite (proj2 (Z.leb_le 1 (map_sects cnt))), (proj2 (Z.leb_gt 608 (map_sects cnt))) by lia.
  change (u32 (608 * SECTOR_SIZE)) with 311296. set (m := Z.to_nat 311296). assert (Hm : Z.of_nat m = 311296) by (unfold m; lia).
  mstep (malloc_buf_run m (set_drive d1 s) Ho Hb). clearbody m. set (s1 := set_heap _ _ _ _).
  mstep (mlift_Ok _ s1 _ (format_bitmap_run m (bit_len cnt) B1 ltac:(zsolve))).
  set (bm := map_byte (bit_len cnt) <$> seq 0 m). assert (Hbm : length bm = m) by (unfold bm; by rewrite length_fmap, length_seq).
  mstep (write_run (start + 2) bm (Z.to_nat (map_sects cnt)) s1 ltac:(lia) ltac:(rewrite Hbm; lia)). set (d2 := disk_write _ _ _ _). set (s2 := set_drive d2 s1).
  mstep (mlift_Ok _ s2 _ (memset_all bm 311296 ltac:(lia))). rewrite Hbm. destruct m as [|m']; [lia|]. set (m := S m') in *.
  mstep (mlift_Ok _ s2 _ (rd_lookup (replicate m 0) 0 0 ltac:(lia) eq_refl)).
  mstep (mlift_Ok _ s2 _ (wr_Ok (replicate m 0) 0 (Z.lor 0 1) ltac:(rewrite length_replicate; lia))).
  change (<[Z.to_nat 0 := Z.lor 0 1]> (replicate m 0)) with (1 :: replicate m' 0).
  assert (Hl1 : length (1 :: replicate m' 0) = m) by (cbn; by rewrite length_replicate).
  mstep (write_run (start + 2 + map_sects cnt) (1 :: replicate m' 0) 1 s2 ltac:(lia) ltac:(rewrite Hl1; lia)). set (d3 := disk_write _ _ _ _). set (s3 := set_drive d3 s2).
  mstep (mlift_Ok _ s3 _ (memset_all (1 :: replicate m' 0) 311296 ltac:(lia))). rewrite Hl1.
  mstep (mlift_Ok _ s3 _ (format_root_run m sb ltac:(lia) eq_refl)). cbn [data_start_lba sb].
  set (rt := bytes_of _ ++ replicate (m - 76) 0). assert (Hrt : length rt = m) by (unfold rt; rewrite length_app, bytes_of_length, length_replicate; cbn; lia).
  cbn [inode_table_lba sb].
  mstep (write_run (start + 3 + map_sects cnt) rt (Z.to_nat 608) s3 ltac:(lia) ltac:(rewrite Hrt; lia)). set (d4 := disk_write _ _ _ _). set (s4 := set_drive d4 s3).
  mstep (mlift_Ok _ s4 _ (memset_all rt 311296 ltac:(lia))). rewrite Hrt.
  pose proof (put_dots m 0 0 ltac:(lia)) as Ed. apply rbind_Ok_inv in Ed as (bd & Ed1 & Ed2).
  mstep (mlift_Ok _ s4 _ Ed1). mstep (mlift_Ok _ s4 _ Ed2).
  mstep (write_run (data_at start cnt) (de_bytes (dot_entry 0) ++ de_bytes (dotdot_entry 0) ++ replicate (m - 48) 0) 1 s4 ltac:(lia) ltac:(rewrite !length_app, length_replicate; cbn; lia)).
  rewrite Nat.mul_1_r, dots_take by lia. set (d5 := disk_write _ _ _ _). exists d5. split.
  { unfold sys_free, mmod. do 2 f_equal. apply fs_ext; cbn; try done; lia. }
  pose proof (formatted_writes pad start cnt (drive s) m Hpad Hc H0 H1 Hd ltac:(lia)) as HF. rewrite format_sb_eq in HF by done.
  assert (E3 : take (512 * 1) (1 :: replicate m' 0) = 1 :: replicate 511 0).
  { rewrite Nat.mul_1_r. cbn [take]. by rewrite take_replicate, Nat.min_l by lia. }
  unfold d5, s4, d4, s3, d3. rewrite E3. exact HF.
Qed.

(** ** Mounting *)

Lemma read_run lba n s : lba ≤ max_lba → disk_ok (drive s) →
  ide_read lba (replicate (512 * n) 0) 0 n s = Ok (disk_read (drive s) lba n, s).
Proof.
  intros Hl Hd. rewrite ide_read_run by (rewrite ?length_replicate; done || lia). unfold splice. cbn [take Z.to_nat app].
  rewrite drop_ge by (rewrite length_replicate, disk_read_length by done; lia). by rewrite app_nil_r.
Qed.

Lemma read_map_run behind lba sects s : lba ≤ max_lba → 0 ≤ sects < 8388608 → disk_ok (drive s) → oom s = [] → 0 < brk s →
  read_map behind lba sects s =
    Ok (Bitmap (512 * sects) (disk_read (drive s) lba (Z.to_nat sects) ++ behind), set_heap (brk s + 1) [] (live s + 1) s).
Proof.
  intros Hl Hs Hd Ho Hb. unfold read_map, SECTOR_SIZE. rewrite u32_small by lia. mstep (malloc_buf_run (Z.to_nat (sects * 512)) s Ho Hb).
  replace (Z.to_nat (sects * 512)) with (512 * Z.to_nat sects)%nat by lia. set (s1 := set_heap _ _ _ s).
  mstep (read_run lba (Z.to_nat sects) s1 Hl Hd). unfold mok. do 3 f_equal. lia.
Qed.

Definition new_part (behind : list Z) (start cnt : Z) : partition :=
  Partition start cnt (format_sb start cnt)
    (Bitmap (512 * map_sects cnt) ((map_byte (bit_len cnt) <$> seq 0 (Z.to_nat (512 * map_sects cnt))) ++ behind))
    (Bitmap 512 ((1 :: replicate 511 0) ++ behind)) [].

Lemma mount_partition_run pad behind start cnt d s :
  620 ≤ cnt → 0 ≤ start → start + cnt ≤ max_lba → formatted pad start cnt d (drive s) → oom s = [] → 0 < brk s →
  mount_partition behind start cnt s = Ok (tt, set_heap (brk s + 4) [] (live s + 4) (set_part (new_part behind start cnt) s)).
Proof.
  intros Hc H0 H1 HF Ho Hb. destruct (bitmap_size_bounds cnt ltac:(unfold max_lba in *; lia)) as (B1 & B2 & B3 & B4).
  pose proof (fm_ok _ _ _ _ _ HF) as Hd. unfold mount_partition. mstep (malloc_buf_run 512 s Ho Hb). set (s1 := set_heap _ _ _ s).
  mstep (eq_refl : sys_malloc s1 = Ok (brk s1, set_heap (brk s1 + 1) [] (live s1 + 1) s1)). set (s2 := set_heap _ _ _ s1).
  rewrite (proj2 (Z.eqb_neq (brk s1) NULL)) by (cbn; unfold NULL; lia).
  mstep (mlift_Ok _ s2 _ (memset_all (replicate 512 0) SECTOR_SIZE eq_refl)). rewrite length_replicate.
  rewrite (u32_small (start + 1)) by (unfold max_lba in *; lia). mstep (read_run (start + 1) 1 s2 ltac:(lia) Hd).
  rewrite disk_read_1. change (drive s2) with (drive s). rewrite (fm_sb _ _ _ _ _ HF).
  assert (Hw : Forall is_u32 (sb_words (format_sb start cnt))).
  { rewrite format_sb_eq by done. unfold sb_words, max_lba, is_u32, fs_magic in *.
    cbn [magic sb_sec_cnt inode_cnt part_lba_base block_bitmap_lba block_bitmap_sects inode_bitmap_lba inode_bitmap_sects inode_table_lba inode_table_sects data_start_lba root_inode_no dir_entry_size].
    repeat (apply Forall_cons; split; [lia|]). by apply Forall_nil. }
  unfold sb_of_bytes. rewrite words_of_app_bytes by done. unfold sb_words at 1. cbn [app].
  replace (SuperBlock _ _ _ _ _ _ _ _ _ _ _ _ _) with (format_sb start cnt) by (by destruct (format_sb start cnt)).
  unfold new_part. rewrite format_sb_eq by done. cbn [block_bitmap_lba block_bitmap_sects inode_bitmap_lba inode_bitmap_sects].
  mstep (read_map_run behind (start + 2) (map_sects cnt) s2 ltac:(lia) ltac:(lia) Hd eq_refl ltac:(cbn; lia)). set (s3 := set_heap _ _ _ s2).
  mstep (read_map_run behind (start + 2 + map_sects cnt) 1 s3 ltac:(lia) ltac:(lia) Hd eq_refl ltac:(cbn; lia)).
  change (drive s3) with (drive s). rewrite (disk_read_1 (drive s) (start + 2 + map_sects cnt) : disk_read _ _ (Z.to_nat 1) = _).
  change (drive s2) with (drive s). rewrite (fm_map _ _ _ _ _ HF), (fm_inodes _ _ _ _ _ HF).
  unfold mmod. do 2 f_equal. apply fs_ext; cbn; try done; lia.
Qed.

Section new_part.
Context (pad behind : list Z) (start cnt : Z).
Hypotheses (Hc : 620 ≤ cnt) (H0 : 0 ≤ start) (H1 : start + cnt ≤ max_lba).
Hypotheses (Hb : behind ≠ []) (Hbb : Forall (λ b, 0 ≤ b < 256) behind).
Notation np := (new_part behind start cnt).

Lemma new_block_bit k : 0 ≤ k < bit_cnt (block_bitmap np) → bit (block_bitmap np) k = (k =? 0) || (bit_len cnt <? k).
Proof using Hc H0 H1.
  destruct (bitmap_size_bounds cnt ltac:(unfold max_lba in *; lia)) as (B1 & B2 & B3 & B4).
  unfold bit_cnt. cbn [block_bitmap new_part btmp_bytes_len]. intros Hk. unfold bit. cbn [bits block_bitmap new_part].
  assert (Hj : (Z.to_nat (k / 8) < Z.to_nat (512 * map_sects cnt))%nat) by zsolve.
  rewrite lookup_app_l by (rewrite length_fmap, length_seq; done). rewrite list_lookup_fmap, lookup_seq_lt by done.
  cbn [fmap option_fmap option_map Nat.add]. apply map_byte_bit; [done|]. zsolve.
Qed.

Lemma new_inode_bit k : 0 ≤ k < 4096 → bit (inode_bitmap np) k = (k =? 0).
Proof.
  intros Hk. unfold bit. cbn [bits inode_bitmap new_part]. assert (Hd : 0 ≤ k / 8 < 512) by zsolve.
  destruct (testbit_low (k mod 8) ltac:(zsolve)) as (T1 & T0 & _).
  destruct (decide (k / 8 = 0)) as [He|He].
  - rewrite He. change (Z.testbit 1 (k mod 8) = (k =? 0)). rewrite T1. f_equal. zsolve.
  - rewrite (lookup_app_l_Some _ _ _ 0); [rewrite T0; symmetry; apply Z.eqb_neq; zsolve|].
    destruct (Z.to_nat (k / 8)) as [|j] eqn:Ej; [zsolve|]. change (replicate 511 0 !! j = Some 0). apply lookup_replicate. split; [done|]. lia.
Qed.

Lemma new_part_layout s : cur_part s = np → disk_ok (drive s) → layout s.
Proof using Hc H0 H1 Hb Hbb.
  intros Hp Hd. pose proof new_block_bit as HB. destruct (bitmap_size_bounds cnt ltac:(unfold max_lba in *; lia)) as (B1 & B2 & B3 & B4).
  assert (Hlb : (0 < length behind)%nat) by (destruct behind; [done|cbn; lia]).
  unfold bit_cnt in HB. cbn [block_bitmap btmp_bytes_len new_part] in HB.
  split; rewrite ?Hp; unfold slack, bit_cnt; cbn [sb cur_part start_lba sec_cnt block_bitmap inode_bitmap new_part btmp_bytes_len bits];
    rewrite ?format_sb_eq by done; cbn [block_bitmap_lba block_bitmap_sects inode_bitmap_lba inode_table_lba data_start_lba]; try done; try lia.
  - split; [split; cbn [btmp_bytes_len bits]|].
    + lia.
    + rewrite length_app, length_fmap, length_seq. lia.
    + apply Forall_app. split; [|done]. apply Forall_fmap, Forall_true. intros j. apply map_byte_range.
    + rewrite length_app, length_fmap, length_seq. lia.
  - split; [split; cbn [btmp_bytes_len bits]|].
    + lia.
    + rewrite length_app. cbn. lia.
    + apply Forall_app. split; [|done]. apply Forall_cons. split; [lia|]. apply Forall_replicate. lia.
    + rewrite length_app. cbn. lia.
  - intros k Hk. rewrite HB by lia. intros Hf. apply orb_false_iff in Hf as [_ Hf%Z.ltb_ge]. lia.
  - rewrite HB by lia. done.
Qed.

End new_part.

(** C29: Formatting a partition of at least 620 sectors that ends inside the
    disk, mounting it and opening the root directory succeeds and gives a
    state the file system calls work in: the layout invariant holds, the root
    directory is in order and lists "." and ".." with inode 0, inode 0 is the
    only one taken, and block [k] of the data is taken exactly when it is the
    root's or [k] is more than the number of blocks that fit (one less would be
    right: block [bit_len] lies behind the partition).  Sectors
    outside the partition's first [611 + map_sects + 1] keep their contents.
    [behind] is the memory behind a bitmap; the scan of a bitmap reads its first byte. *)
Theorem format_mount_ready pad behind start cnt k s :
  length pad = 460%nat → behind ≠ [] → Forall (λ b, 0 ≤ b < 256) behind →
  620 ≤ cnt → 0 ≤ start → start + cnt ≤ max_lba →
  disk_ok (drive s) → oom s = [] → 0 < brk s →
  (∀ q, is_Some (inodes s !! q) → q < brk s) → (∀ d, is_Some (dirs s !! d) → d < brk s) → 0 ≤ k < 4294967295 →
  ∃ s', (do! partition_format pad start cnt in do! mount_partition behind start cnt in open_root_dir) s = Ok (tt, s') ∧
    fs_ok k s' ∧ is_dir s' 0 ∧ dir_of s' 0 = [dot_entry 0; dotdot_entry 0] ∧
    (∀ n, 0 ≤ n < 4096 → bit (inode_bitmap (cur_part s')) n = (n =? 0)) ∧
    (∀ n, 0 ≤ n < bit_cnt (block_bitmap (cur_part s')) → bit (block_bitmap (cur_part s')) n = (n =? 0) || ((bitmap_size cnt).2 <? n)) ∧
    (∀ l, l ≤ start ∨ data_lba s' < l → sector (drive s') l = sector (drive s) l).
Proof.
  intros Hpad Hb Hbb Hc H0 H1 Hd Ho Hbrk Hi Hds Hk. destruct (bitmap_size_bounds cnt ltac:(unfold max_lba in *; lia)) as (B1 & B2 & B3 & B4).
  destruct (partition_format_run pad start cnt s Hpad Hc H0 H1 Hd Ho Hbrk) as (d' & E1 & HF). mstep E1. set (s1 := set_heap _ _ _ _).
  mstep (mount_partition_run pad behind start cnt (drive s) s1 Hc H0 H1 HF eq_refl ltac:(cbn; lia)). set (s2 := set_heap _ _ _ _).
  assert (Hl : layout s2) by (apply (new_part_layout behind start cnt Hc H0 H1 Hb Hbb); [done|apply HF]).
  set (data := start + 611 + map_sects cnt) in *. set (ri := new_dir 0 data).
  assert (Hri : inode_ok ri).
  { unfold ri, new_dir, inode_ok, is_u32, max_lba in *. cbn [i_no i_size i_sectors]. split_and!; try lia; [done|]. apply Forall_cons. split; [lia|]. apply Forall_replicate. lia. }
  assert (Hslot : inode_of_bytes (slot s2 0) = Some ri).
  { change (inode_of_bytes (take 76 (drop 0 (disk_read d' (inode_table_lba (format_sb start cnt)) 608))) = Some ri).
    rewrite format_sb_eq by done. cbn [inode_table_lba]. rewrite drop_0, (fm_root _ _ _ _ _ HF). by apply inode_of_pure. }
  unfold open_root_dir. mstep (eq_refl : mget cur_part s2 = Ok (cur_part s2, s2)).
  replace (root_inode_no (sb (cur_part s2))) with 0 by (cbn [cur_part s2 set_heap set_part sb new_part]; by rewrite format_sb_eq).
  mstep (inode_open_miss 0 ri s2 ltac:(lia) Hl eq_refl ltac:(cbn; lia) eq_refl Hslot). set (s3 := set_heap _ _ _ _).
  mstep (eq_refl : mget dirs s3 = Ok (dirs s3, s3)). unfold put_dir, mmod. eexists. split; [reflexivity|]. set (s4 := set_dirs _ s3).
  assert (Hl4 : layout s4) by (by destruct Hl).
  assert (Hdata : data_lba s4 = data).
  { change (data_start_lba (format_sb start cnt) = data). by rewrite format_sb_eq. }
  assert (Hbit : ∀ n, 0 ≤ n < bit_cnt (bb s4) → bit (bb s4) n = (n =? 0) || (bit_len cnt <? n)) by (by apply new_block_bit).
  assert (Hbc : bit_cnt (bb s4) = 4096 * map_sects cnt) by (unfold bit_cnt; cbn [cur_part block_bitmap new_part btmp_bytes_len s4 s3 s2 set_dirs set_heap set_inodes set_part set_open_inodes]; lia).
  assert (Ht : taken s4 data).
  { split; [rewrite Hdata; lia|]. split; [unfold data; lia|]. rewrite Hbit by lia. rewrite Hdata, Z.sub_diag. done. }
  destruct (new_dir_ok s4 0 data 0 ltac:(unfold is_u32; lia) ltac:(unfold is_u32; lia) Ht Hl4 ltac:(unfold data; lia) (fm_data _ _ _ _ _ HF)) as [Hok Hent].
  assert (Hthe : the_inode s4 0 = Some (set_open_cnts 1 ri)).
  { unfold the_inode. cbn [s4 s3 set_dirs set_heap set_inodes set_part set_open_inodes cur_part open_inodes inodes find_open]. rewrite lookup_insert_eq.
    change (i_no (set_open_cnts 1 ri) =? 0) with true. cbv iota. by rewrite lookup_insert_eq. }
  split.
  { split; cbn [s4 s3 s2 s1 set_dirs set_heap set_inodes set_part set_open_inodes cur_part open_inodes inodes dirs oom brk sb new_part set_drive]; try done.
    - lia.
    - intros q Hq. destruct (decide (q = brk s + 1 + 4)) as [->|Hn]; [lia|]. rewrite lookup_insert_ne in Hq by done. specialize (Hi q Hq). lia.
    - intros q Hq. destruct (decide (q = root_dir)) as [->|Hn]; [unfold root_dir; lia|]. rewrite lookup_insert_ne in Hq by done. specialize (Hds q Hq). lia.
    - intros q Hq. apply list_elem_of_singleton in Hq as ->. rewrite lookup_insert_eq. eexists. split; [done|]. cbn. lia.
    - eexists. rewrite lookup_insert_eq. split; [done|]. cbn [find_open]. rewrite lookup_insert_eq. done. }
  split.
  { split; [lia|]. exists (set_open_cnts 1 ri). split; [done|]. split; [done|]. apply (dir_ok_part s4 s4 ri); [|done|exact Hok].
    split; [done|]. exists (open_inodes (cur_part s4)). by destruct (cur_part s4). }
  split; [unfold dir_of; by rewrite Hthe|]. split; [apply new_inode_bit|]. split; [done|].
  intros l Hl'. rewrite Hdata in Hl'. by apply (fm_other _ _ _ _ _ HF).
Qed.

End mount_lemmas.

(** ** A witness, and where the numbers are off *)

(** A disk that was never written, before anything is mounted *)
Definition blank : fs :=
  Fs ∅ (Partition 0 0 (SuperBlock 0 0 0 0 0 0 0 0 0 0 0 0 0) (Bitmap 0 []) (Bitmap 0 []) []) ∅ ∅ (replicate 32 (File 0 0 NULL))
    [0; 1; 2; -1; -1; -1; -1; -1] 0 1 [] 0.

Lemma format_mount_ready_witness :
  ∃ s', (do! @partition_format debug_build (replicate 460 0) 2048 5000 in
         do! @mount_partition debug_build [0] 2048 5000 in @open_root_dir debug_build) blank = Ok (tt, s') ∧
    fs_ok 2 s' ∧ is_dir s' 0 ∧ dir_of s' 0 = [dot_entry 0; dotdot_entry 0].
Proof.
  assert (Hb : [0] ≠ ([] : list Z)) by discriminate.
  assert (Hbb : Forall (λ b, 0 ≤ b < 256) [0]) by (apply Forall_singleton; lia).
  assert (Hd : disk_ok (drive blank)) by (intros l x H; discriminate H).
  assert (Hi : ∀ q, is_Some (inodes blank !! q) → q < brk blank) by (intros q [? H]; discriminate H).
  assert (Hx : ∀ d, is_Some (dirs blank !! d) → d < brk blank) by (intros d [? H]; discriminate H).
  pose proof (@format_mount_ready debug_build (replicate 460 0) [0] 2048 5000 2 blank (length_replicate 460 0) Hb Hbb
    ltac:(lia) ltac:(lia) ltac:(unfold max_lba; lia) Hd eq_refl ltac:(cbn; lia) Hi Hx ltac:(lia)) as H.
  destruct H as (s' & H1 & H2 & H3 & H4 & _). exists s'. exact (conj H1 (conj H2 (conj H3 H4))).
Defined.

(** With fewer than 8 blocks, filling the last byte of the bitmap overwrites the
    bit of the root directory, and clearing its low bits frees that block. *)
Example format_tiny_frees_root :
  (let? l := @format_bitmap debug_build (replicate 512 0) 5 in rd l 0) = Ok 192.
Proof. reflexivity. Qed.

(** The block with the number [bit_len] counts as free; it is the sector behind
    a partition of 1000 sectors. *)
Example format_frees_sector_behind start :
  (bitmap_size 1000).2 = 388 ∧ start + 611 + (bitmap_size 1000).1 + (bitmap_size 1000).2 = start + 1000 ∧
  Z.testbit (map_byte 388 (Z.to_nat (388 / 8))) (388 mod 8) = false.
Proof. split_and!; [done| |done]. change (bitmap_size 1000) with (1, 388). cbn. lia. Qed.

(** [part_idx] stays at 12 after the first disk: nothing is ever written to the second. *)
Lemma format_disks_first_only {B : Build} pad h1 h2 buf s l s' :
  format_disks pad [h1; h2] 0 buf s = Ok (l, s') → ∃ d1, l = [Hd d1 (parts h1); Hd (store h2) (parts h2)].
Proof.
  cbn [format_disks]. change (12 - 12)%nat with 0%nat. rewrite take_0. cbn [format_parts]. intros H.
  apply mbnd_Ok_inv in H as (? & s1 & _ & H). apply mbnd_Ok_inv in H as (? & s2 & _ & H). apply mbnd_Ok_inv in H as (d1 & s3 & _ & H).
  exists d1. apply mbnd_Ok_inv in H as (l2 & s4 & H2 & H). unfold mmod, mbnd, mget, mok in *. cbn in H2. simplify_eq/=. done.
Qed.
