(* ===== verification/PagePool.v ===== *)
(** * Pools of pages

    What [malloc_page] and [mfree_page] of [Paging] do to the set of pages a
    pool has handed out: the taken pages lie in different frames, getting pages
    adds fresh ones and giving pages back removes them.  The heap and the
    process code are proved on top of these two lemmas. *)

From S2P Require Import Prelude CString Bitmap Interrupt KList Sched Paging.

(** ** A pool in order *)

Notation vbits pf st := (vaddr_bitmap (vaddr_of pf st)).
Notation vstart pf st := (vaddr_start (vaddr_of pf st)).

(** Page [i] of the pool is taken, and is neither the page of a user stack nor
    the page directory of the running process. *)
Definition own_page (pf : pool_flags) (st : mst) (i : Z) : Prop :=
  0 ≤ i < bit_cnt (vbits pf st) ∧ bit (vbits pf st) i = true ∧ (pf = PF_USER → vstart pf st + 4096 * i < 3221221376) ∧
  walk (pm st) (mcr3 st) (vstart pf st + 4096 * i) ≠ Ok (mcr3 st).

Definition in_pool (p : pool) (f : Z) : Prop := ∃ j, 0 ≤ j < bit_cnt (pool_bitmap p) ∧ f = phy_addr_start p + 4096 * j.

(** The tables and the virtual pool are in order, and the pages lie in
    different taken frames. *)
Record pool_state (pf : pool_flags) (st : mst) : Prop := {
  ps_tables : tables_ok st;
  ps_vpool : vpool_ok pf st;
  ps_low : 1056768 ≤ phy_addr_start (kernel_pool st);
  ps_heap : pf = PF_KERNEL → K_HEAP_START ≤ vstart pf st;
  ps_back : ∀ i, own_page pf st i → ∃ f, walk (pm st) (mcr3 st) (vstart pf st + 4096 * i) = Ok f ∧ data_frame st f ∧
    in_pool (pool_of pf st) f ∧ ¬ frame_free (pool_of pf st) f;
  ps_inj : ∀ i j f, own_page pf st i → own_page pf st j → walk (pm st) (mcr3 st) (vstart pf st + 4096 * i) = Ok f →
    walk (pm st) (mcr3 st) (vstart pf st + 4096 * j) = Ok f → i = j
}.

Definition pool_owned (pf : pool_flags) (st : mst) (x : Z) : Prop := ∃ i, own_page pf st i ∧ x = vstart pf st + 4096 * i.
Definition pool_room (pf : pool_flags) (n : Z) (st : mst) : Prop :=
  ∃ j, 0 ≤ j ∧ j + n ≤ bit_cnt (vbits pf st) ∧ run_free (vbits pf st) j n ∧ budget pf (Z.to_nat n) st.

(** What getting and giving back pages leaves alone. *)
Record pool_same (pf : pool_flags) (st st' : mst) : Prop := {
  pl_cr3 : mcr3 st' = mcr3 st;
  pl_self : self st' = self st;
  pl_pgdir : self_pgdir st' = self_pgdir st;
  pl_start : vstart pf st' = vstart pf st;
  pl_vaddr : ∀ pf', pf' ≠ pf → vaddr_of pf' st' = vaddr_of pf' st;
  pl_lock : ∀ pf', pool_lock (pool_of pf' st') = pool_lock (pool_of pf' st)
}.

(** What getting [n] pages at [v] leaves alone in the tables. *)
Record kept (st st' : mst) (v n : Z) : Prop := {
  kt_walk : ∀ w, managed w → ¬ v / 4096 ≤ w / 4096 < v / 4096 + n → walk (pm st') (mcr3 st') w = walk (pm st) (mcr3 st) w;
  kt_data : ∀ g, data_frame st g → ¬ frame_free (kernel_pool st) g → data_frame st' g;
  kt_taken : ∀ g, taken st g → taken st' g
}.

Section pool_lemmas.
Context {B : Build}.
Implicit Types (st : mst) (pf : pool_flags).

Lemma pool_ok_ext p p' : pool_bitmap p' = pool_bitmap p → phy_addr_start p' = phy_addr_start p → pool_ok p → pool_ok p'.
Proof. intros E1 E2 []. split; rewrite ?E1, ?E2; done. Qed.

(** What [tables_ok] looks at *)
Lemma tables_ok_ext st st' : pm st' = pm st → mcr3 st' = mcr3 st →
  (∀ pf, pool_bitmap (pool_of pf st') = pool_bitmap (pool_of pf st) ∧ phy_addr_start (pool_of pf st') = phy_addr_start (pool_of pf st)) →
  tables_ok st → tables_ok st'.
Proof.
  intros E1 E2 E3 [H1 H2 H3 H4 H5 H6 H7]. destruct (E3 PF_KERNEL) as [K1 K2], (E3 PF_USER) as [U1 U2]. cbn in K1, K2, U1, U2.
  assert (Ht : ∀ f, taken st f → taken st' f) by (intros f; unfold taken, frame_free; by rewrite K1, K2, U1, U2).
  split; rewrite ?E1, ?E2, ?K1, ?K2, ?U1, ?U2; try done.
  - by apply (pool_ok_ext (kernel_pool st)).
  - by apply (pool_ok_ext (user_pool st)).
  - by apply Ht.
  - intros i Hi Hp. destruct (H6 i Hi Hp). split; [done|by apply Ht].
Qed.

(** ** Getting pages *)

Lemma frames_of_run pf fs v st st' i : mapped pf st st' v fs → v mod 4096 = 0 → managed (v + 4096 * i) → 0 ≤ i < Z.of_nat (length fs) →
  ∃ f, fs !! Z.to_nat i = Some f ∧ walk (pm st') (mcr3 st') (v + 4096 * i) = Ok f.
Proof.
  intros H Hv Hm Hi. destruct (lookup_lt_is_Some_2 fs (Z.to_nat i)) as [f Hf]; [lia|]. exists f. split; [done|].
  rewrite (mp_walk _ _ _ _ _ H) by done. rewrite decide_True by zsolve.
  replace (Z.to_nat ((v + 4096 * i) / 4096 - v / 4096)) with (Z.to_nat i) by zsolve. rewrite Hf. f_equal. zsolve.
Qed.

(** The pools and tables after a [malloc_page], seen from the state before. *)
Lemma mapped_pools pf st st' v fs : mapped pf st st' v fs → ∀ pf', phy_addr_start (pool_of pf' st') = phy_addr_start (pool_of pf' st) ∧
  bit_cnt (pool_bitmap (pool_of pf' st')) = bit_cnt (pool_bitmap (pool_of pf' st)) ∧ pool_lock (pool_of pf' st') = pool_lock (pool_of pf' st) ∧
  (∀ f, frame_free (pool_of pf' st') f → frame_free (pool_of pf' st) f).
Proof. intros [_ _ _ _ [] [] _ _ _] []; by split_and!. Qed.

(** A frame of one pool that is not free is free in neither. *)
Lemma not_free_kernel pf st f : tables_ok st → in_pool (pool_of pf st) f → ¬ frame_free (pool_of pf st) f → ¬ frame_free (kernel_pool st) f.
Proof.
  intros HT (j & Hj & Ef) Hn (i & Hi & Ei & Hb). destruct pf; cbn in *; [apply Hn; by exists i|]. pose proof (t_disj _ HT). lia.
Qed.

Lemma get_run pf st n : pool_state pf st → 1 ≤ n < 3840 → pool_room pf n st → ∃ v st', malloc_page pf n st = Ok (v, st') ∧ pool_state pf st' ∧ pool_same pf st st' ∧ kept st st' v n ∧
  ∃ r, v = vstart pf st + 4096 * r ∧ 0 ≤ r ∧ r + n ≤ bit_cnt (vbits pf st) ∧ (∀ i, own_page pf st' i ↔ own_page pf st i ∨ r ≤ i < r + n) ∧ ∀ i, own_page pf st i → ¬ r ≤ i < r + n.
Proof.
  intros [H1 H2 H3 H4 H7 H8] Hn (j & Hj & Hjn & Hrun & Hbud).
  destruct (malloc_page_spec st pf n j H1 H2 Hn Hj Hjn Hrun Hbud) as
    (v & r & st1 & st' & fs & E & Hl & Ev & Hr0 & Hrn & Hrf & Q1 & Q2 & Q3 & Q4 & Hmp & (R1 & R2 & R3) & HV' & Hs & Hpg & Hot).
  pose proof H2 as [_ _ Va Vr Vt _].
  assert (Ep1 : ∀ pf, pool_of pf st1 = pool_of pf st) by (by intros []). pose proof (mapped_pools _ _ _ _ _ Hmp) as Hpl.
  assert (Hbit : ∀ i, 0 ≤ i < bit_cnt (vbits pf st) → bit (vaddr_bitmap (vaddr_of pf st')) i = if decide (r ≤ i < r + n) then true else bit (vbits pf st) i).
  { intros i Hi. rewrite R3 by done. rewrite Ev. repeat case_decide; try done; lia. }
  assert (Hman : ∀ i, 0 ≤ i < bit_cnt (vbits pf st) → managed (vstart pf st + 4096 * i)) by (intros i Hi; apply managed_range; lia).
  assert (Hvm : v mod 4096 = 0) by (rewrite Ev, (Z.mul_comm 4096), Z_mod_plus_full; exact Va).
  assert (Hc : mcr3 st' = mcr3 st) by (by rewrite (e_cr3 _ _ (mp_env _ _ _ _ _ Hmp))).
  assert (Hout : ∀ i, 0 ≤ i < bit_cnt (vbits pf st) → ¬ r ≤ i < r + n → walk (pm st') (mcr3 st') (vstart pf st + 4096 * i) = walk (pm st) (mcr3 st) (vstart pf st + 4096 * i)).
  { intros i Hi Hx. rewrite (mp_walk _ _ _ _ _ Hmp) by (by apply Hman). rewrite decide_False by (rewrite Ev; zsolve). by rewrite Q1, Q2. }
  assert (Hnew : ∀ i, r ≤ i < r + n → ∃ f, walk (pm st') (mcr3 st') (vstart pf st + 4096 * i) = Ok f ∧ fs !! Z.to_nat (i - r) = Some f).
  { intros i Hi. destruct (frames_of_run pf fs v st1 st' (i - r) Hmp Hvm) as (f & Hf & Hw).
    { replace (v + 4096 * (i - r)) with (vstart pf st + 4096 * i) by lia. apply Hman. lia. } { lia. }
    exists f. split; [|done]. replace (vstart pf st + 4096 * i) with (v + 4096 * (i - r)) by lia. done. }
  assert (Hnot : ∀ i, own_page pf st i → ¬ r ≤ i < r + n) by (intros i (Hi & Hb & _) Hir; rewrite Hrf in Hb by lia; done).
  assert (Hown : ∀ i, own_page pf st' i ↔ own_page pf st i ∨ r ≤ i < r + n).
  { intros i. unfold own_page. rewrite R1, R2. split.
    - intros (Hi & Hb & Ht & Hw). rewrite Hbit in Hb by done. case_decide as Hd; [by right|left]. rewrite Hout, Hc in Hw by done. done.
    - intros [Ho|Hi]; [pose proof (Hnot i Ho); destruct Ho as (Hi & Hb & Ht & Hw); split; [done|]; split; [rewrite Hbit by done; by case_decide|split; [done|by rewrite Hout, Hc]]|].
      split; [lia|]. split; [by rewrite Hbit, decide_True by lia|]. split; [intros Hu; apply Vt; [done|lia|apply Hrf; lia]|].
      destruct (Hnew i Hi) as (f & -> & Hf). intros [= ->]. apply list_elem_of_lookup_2 in Hf. by destruct (mp_data _ _ _ _ _ Hmp _ Hf). }
  assert (Hold : ∀ i, own_page pf st i → walk (pm st') (mcr3 st') (vstart pf st + 4096 * i) = walk (pm st) (mcr3 st) (vstart pf st + 4096 * i)).
  { intros i Hi. pose proof (Hnot i Hi) as Hx. destruct Hi as (Hi & _). by apply Hout. }
  exists v, st'. split; [done|]. split; [|split; [|split; [|by exists r]]].
  3: { split.
       - intros w Hw Hx. rewrite (mp_walk _ _ _ _ _ Hmp) by done. rewrite decide_False by (rewrite Hl; done). by rewrite Q1, Q2.
       - intros g Hg Hgf. apply (mp_keep _ _ _ _ _ Hmp); [unfold data_frame in *; by rewrite Q1, Q2|by rewrite Q3].
       - intros g [G1 G2]. destruct (Hpl PF_KERNEL) as (_ & _ & _ & K4), (Hpl PF_USER) as (_ & _ & _ & U4). cbn in K4, U4. rewrite Q3 in K4. rewrite Q4 in U4. split; auto. }
  2: { split; try done. intros pf'. destruct (Hpl pf') as (_ & _ & -> & _). by rewrite Ep1. }
  split.
  - apply Hmp.
  - done.
  - destruct (Hpl PF_KERNEL) as [K _]. cbn in K. by rewrite K, Q3.
  - by rewrite R1.
  - intros i Hi. apply Hown in Hi. rewrite R1. destruct (Hpl pf) as (P1 & P2 & _ & P4). unfold in_pool. rewrite P1, P2, Ep1. rewrite Ep1 in P4.
    destruct Hi as [Hi|Hi].
    + destruct (H7 i Hi) as (f & Hw & Hd & Hip & Hnf). exists f. rewrite Hold by done. split_and!; try done; [|naive_solver].
      apply (mp_keep _ _ _ _ _ Hmp); [unfold data_frame in *; by rewrite Q1, Q2|]. rewrite Q3. by apply (not_free_kernel pf).
    + destruct (Hnew i Hi) as (f & Hw & Hf). apply list_elem_of_lookup_2 in Hf. exists f. destruct (mp_fresh _ _ _ _ _ Hmp f Hf) as [(k & Hk & Ek & _) Hnf]. rewrite Ep1 in Hk, Ek.
      split_and!; try done; [by apply (mp_data _ _ _ _ _ Hmp)|]. by exists k.
  - intros i k f Hi Hk. apply Hown in Hi, Hk. rewrite R1.
    assert (Hdis : ∀ i k, own_page pf st i → r ≤ k < r + n → walk (pm st') (mcr3 st') (vstart pf st + 4096 * i) = Ok f → walk (pm st') (mcr3 st') (vstart pf st + 4096 * k) = Ok f → False).
    { clear i k Hi Hk. intros i k Hi Hk Hwi Hwk. rewrite Hold in Hwi by done. destruct (H7 i Hi) as (g & Hw & _ & _ & Hnf). assert (g = f) as -> by congruence.
      destruct (Hnew k Hk) as (g & Hw' & Hg). assert (g = f) as -> by congruence. apply list_elem_of_lookup_2 in Hg. destruct (mp_fresh _ _ _ _ _ Hmp f Hg) as [Hff _]. rewrite Ep1 in Hff. done. }
    destruct Hi as [Hi|Hi], Hk as [Hk|Hk]; intros Hwi Hwk.
    + rewrite Hold in Hwi, Hwk by done. by apply (H8 i k f).
    + by destruct (Hdis i k).
    + by destruct (Hdis k i).
    + destruct (Hnew i Hi) as (f1 & W1 & L1), (Hnew k Hk) as (f2 & W2 & L2). assert (f1 = f) as -> by congruence. assert (f2 = f) as -> by congruence.
      pose proof (NoDup_lookup fs _ _ f (mp_nodup _ _ _ _ _ Hmp) L1 L2). lia.
Qed.

(** ** Giving pages back *)

Definition frame_at pf (st : mst) (i : Z) : Z := match walk (pm st) (mcr3 st) (vstart pf st + 4096 * i) with Ok f => f | _ => 0 end.

Lemma frames_backed pf st r n : pool_state pf st → 0 ≤ r → r + n ≤ bit_cnt (vbits pf st) → (∀ i, r ≤ i < r + n → own_page pf st i) →
  backed pf st (vstart pf st + 4096 * r) (frame_at pf st <$> seqZ r n).
Proof.
  intros H Hr Hrn Hown k f Hk. rewrite list_lookup_fmap in Hk. destruct (seqZ r n !! k) as [i|] eqn:Ei; [|done]. injection Hk as <-.
  apply lookup_seqZ in Ei as [-> Hk]. destruct (ps_back _ _ H (r + Z.of_nat k)) as (f & Hw & Hd & Hp & _); [apply Hown; lia|].
  replace (vstart pf st + 4096 * r + 4096 * Z.of_nat k) with (vstart pf st + 4096 * (r + Z.of_nat k)) by lia.
  unfold frame_at. rewrite Hw. destruct (ps_vpool _ _ H) as [_ _ Va [Vr1 Vr2] _ _]. split; [apply managed_range; lia|]. split_and!; try done.
Qed.

Lemma put_run pf st r n : pool_state pf st → 1 ≤ n → (∀ i, r ≤ i < r + n → own_page pf st i) →
  ∃ st', mfree_page pf (vstart pf st + 4096 * r) n st = Ok (tt, st') ∧ pool_state pf st' ∧ pool_same pf st st' ∧ ∀ i, own_page pf st' i ↔ own_page pf st i ∧ ¬ r ≤ i < r + n.
Proof.
  intros Hst Hn Hown. destruct (Hown r ltac:(lia)) as ([Hr0 _] & _). destruct (Hown (r + n - 1) ltac:(lia)) as ([_ Hrn] & _).
  pose proof (frames_backed pf st r n Hst Hr0 ltac:(lia) Hown) as Hbk. set (fs := frame_at pf st <$> seqZ r n) in *. set (v := vstart pf st + 4096 * r) in *.
  assert (Hl : Z.of_nat (length fs) = n) by (unfold fs; rewrite length_fmap, length_seqZ; lia). pose proof Hst as [H1 H2 H3 H4 H7 H8]. pose proof H2 as [Vb Vs Va Vr Vt Vf].
  destruct (mfree_page_spec st pf v fs r H1 H3) as (st1 & st' & E & U & Q1 & Q2 & Q3 & Q4 & (R1 & R2 & R3) & Bb & Bs & Hs & Hpg & Hot); try done; try lia.
  { intros Hnil. rewrite Hnil in Hl. cbn in Hl. lia. }
  rewrite Hl in E, R3.
  assert (Ep1 : ∀ pf, pool_of pf st' = pool_of pf st1) by (by intros []).
  assert (Hbit : ∀ i, 0 ≤ i < bit_cnt (vbits pf st) → bit (vaddr_bitmap (vaddr_of pf st')) i = if decide (r ≤ i < r + n) then false else bit (vbits pf st) i).
  { intros i Hi. rewrite R3 by done. unfold v. repeat case_decide; try done; lia. }
  assert (Hman : ∀ i, 0 ≤ i < bit_cnt (vbits pf st) → managed (vstart pf st + 4096 * i)) by (intros i Hi; apply managed_range; lia).
  assert (Hwalk : ∀ i, 0 ≤ i < bit_cnt (vbits pf st) → walk (pm st') (mcr3 st') (vstart pf st + 4096 * i) = if decide (r ≤ i < r + n) then Fault else walk (pm st) (mcr3 st) (vstart pf st + 4096 * i)).
  { intros i Hi. rewrite Q1, Q2, (um_walk _ _ _ _ _ U) by (by apply Hman). rewrite Hl. unfold v. repeat case_decide; try done; zsolve. }
  assert (Hc : mcr3 st' = mcr3 st) by (by rewrite Q2, (e_cr3 _ _ (um_env _ _ _ _ _ U))).
  assert (Hown' : ∀ i, own_page pf st' i ↔ own_page pf st i ∧ ¬ r ≤ i < r + n).
  { intros i. unfold own_page. rewrite R1, R2. split.
    - intros (Hi & Hb & Ht & Hw). rewrite Hbit in Hb by done. case_decide as Hd; [done|]. by rewrite Hwalk, decide_False, Hc in Hw by done.
    - intros ((Hi & Hb & Ht & Hw) & Hx). split; [done|]. split; [by rewrite Hbit, decide_False by done|]. split; [done|]. by rewrite Hwalk, decide_False, Hc by done. }
  assert (Hfs : ∀ i, own_page pf st i → ¬ r ≤ i < r + n → ∀ f, walk (pm st) (mcr3 st) (vstart pf st + 4096 * i) = Ok f → f ∉ fs).
  { intros i Hi Hx f Hw Hin. apply list_elem_of_fmap in Hin as (j & Ej & Hj%elem_of_seqZ). destruct (H7 j (Hown j Hj)) as (g & Hwj & _).
    unfold frame_at in Ej. rewrite Hwj in Ej. subst f. pose proof (H8 i j g Hi (Hown j Hj) Hw Hwj). lia. }
  exists st'. split; [done|]. split; [|split; [|done]].
  2: { split; try done. intros pf'. rewrite Ep1.
       destruct (decide (pf' = pf)) as [->|Hne]; [apply U|by rewrite (um_other _ _ _ _ _ U pf' Hne)]. }
  split.
  - apply (tables_ok_ext st1); [done|done|intros pf'; by rewrite Ep1|apply U].
  - split; try done; rewrite ?R1, ?R2; try done; [by apply Bs| |].
    + intros Hu i Hi Hb. destruct (decide (r ≤ i < r + n)) as [Hd|Hd]; [by apply (Hown i Hd)|]. rewrite Hbit, decide_False in Hb by done. by apply Vt.
    + intros i Hi Hb. rewrite Hwalk by done. case_decide as Hd; [done|]. rewrite Hbit, decide_False in Hb by done. by apply Vf.
  - rewrite Q3. destruct pf eqn:Epf; [by rewrite (um_start _ _ _ _ _ U : phy_addr_start (kernel_pool st1) = _)|].
    by rewrite (um_other _ _ _ _ _ U PF_KERNEL ltac:(done) : kernel_pool st1 = _).
  - by rewrite R1.
  - intros i Hi. apply Hown' in Hi as [Hi Hx]. destruct (H7 i Hi) as (f & Hw & Hd & Hp & Hnf). exists f. rewrite R1, Hwalk, decide_False by (done || apply Hi).
    split; [done|]. split; [unfold data_frame; rewrite Q1, Q2; by apply (um_data _ _ _ _ _ U)|]. split.
    + unfold in_pool in *. by rewrite Ep1, (um_start _ _ _ _ _ U), (um_cnt _ _ _ _ _ U).
    + rewrite Ep1, (um_free _ _ _ _ _ U). intros [?|Hin]; [done|]. by apply (Hfs i Hi Hx f).
  - intros i j f Hi Hj. apply Hown' in Hi as [Hi Hx], Hj as [Hj Hy]. rewrite R1, !Hwalk, !decide_False by (done || apply Hi || apply Hj). by apply H8.
Qed.


(** ** Clearing pages *)

(** [m'] differs from the memory of [st] at most inside the frame [f]. *)
Definition data_write (st : mst) (f : Z) (m' : gmap Z Z) : Prop :=
  (∀ a, 0 ≤ ld m' a < 4294967296) ∧ ∀ a, ¬ f ≤ a < f + 4096 → ld m' a = ld (pm st) a.

Lemma data_write_tables st f m' i : tables_ok st → data_frame st f → f mod 4096 = 0 → data_write st f m' → 0 ≤ i < 1024 →
  ld m' (mcr3 st + 4 * i) = ld (pm st) (mcr3 st + 4 * i).
Proof.
  intros HT [Hd _] Hf [_ Hm] Hi. apply Hm. pose proof (sm_align _ _ (t_self _ HT)). intros Hx. apply Hd. zsolve.
Qed.

Lemma data_write_walk st f m' v : tables_ok st → data_frame st f → f mod 4096 = 0 → data_write st f m' → managed v →
  walk m' (mcr3 st) v = walk (pm st) (mcr3 st) v.
Proof.
  intros HT Hd Hf Hm [Hv Hi]. pose proof (pti_range v).
  assert (E : pde_at m' (mcr3 st) v = pde_at (pm st) (mcr3 st) v) by (apply (data_write_tables st f); [done..|lia]).
  rewrite (walk_same_pde (pm st)) by done. rewrite walk_alt. destruct (present (pde_at (pm st) (mcr3 st) v)) eqn:Ep; [|done].
  destruct Hm as [_ Hm], Hd as [_ Hd]. rewrite Hm; [done|]. intros Hx. apply (Hd (pdi v) ltac:(lia) Ep).
  unfold pte_slot in Hx. fold (pde_at (pm st) (mcr3 st) v). pose proof (frame_aligned (pde_at (pm st) (mcr3 st) v)). zsolve.
Qed.

Lemma data_write_ok st f m' : tables_ok st → data_frame st f → f mod 4096 = 0 → data_write st f m' →
  tables_ok (with_pm m' st) ∧ ∀ g, data_frame st g → data_frame (with_pm m' st) g.
Proof.
  intros HT Hd Hf Hm. pose proof (data_write_tables st f m') as Ht. split.
  - destruct HT as [Hs ? ? ? ? Htab Hinj]. split; cbn; try done.
    + eapply self_mapped_write; [exact Hs|by apply (Ht 1023)|apply Hm].
    + intros i Hi. rewrite Ht by (done || lia). by apply Htab.
    + intros i j Hi Hj. rewrite !Ht by (done || lia). by apply Hinj.
  - intros g [Hg1 Hg2]. split; [done|]. intros i Hi. cbn. rewrite Ht by (done || lia). by apply Hg2.
Qed.

Lemma data_write_pool pf st f m' : pool_state pf st → data_frame st f → f mod 4096 = 0 → data_write st f m' →
  pool_state pf (with_pm m' st) ∧ pool_same pf st (with_pm m' st) ∧ ∀ i, own_page pf (with_pm m' st) i ↔ own_page pf st i.
Proof.
  intros [H1 H2 H3 H4 H7 H8] Hd Hf Hm. destruct (data_write_ok st f m' H1 Hd Hf Hm) as [HT Hdat].
  assert (Ev : ∀ pf, vaddr_of pf (with_pm m' st) = vaddr_of pf st) by (by intros []). assert (Ep : ∀ pf, pool_of pf (with_pm m' st) = pool_of pf st) by (by intros []).
  destruct H2 as [V1 V2 V3 V4 V5 V6].
  assert (Hw : ∀ i, 0 ≤ i < bit_cnt (vbits pf st) → walk m' (mcr3 st) (vstart pf st + 4096 * i) = walk (pm st) (mcr3 st) (vstart pf st + 4096 * i)).
  { intros i Hi. apply (data_write_walk st f); try done. apply managed_range; lia. }
  assert (Ho : ∀ i, own_page pf (with_pm m' st) i ↔ own_page pf st i).
  { intros i. unfold own_page. rewrite Ev. cbn. split; intros (Hi & Hb & Ht & Hx); [rewrite Hw in Hx by done|rewrite Hw by done]; done. }
  split; [|split; [split; by rewrite ?Ev|done]]. split; try done.
  - split; rewrite ?Ev; try done. intros i Hi Hb. cbn. rewrite Hw by done. by apply V6.
  - intros i Hi. apply Ho in Hi. rewrite Ev, Ep. cbn. rewrite Hw by apply Hi. destruct (H7 i Hi) as (g & Hg & Hdg & Hx). exists g. split; [done|]. split; [by apply Hdat|done].
  - intros i j g Hi Hj. apply Ho in Hi, Hj. rewrite Ev. cbn. rewrite !Hw by (apply Hi || apply Hj). by apply H8.
Qed.

Lemma data_write_trans st f m1 m2 : data_write st f m1 → data_write (with_pm m1 st) f m2 → data_write st f m2.
Proof. intros [_ H1] [H2 H3]. split; [done|]. intros a Ha. rewrite H3 by done. by apply H1. Qed.

(** Clearing [n] words of the page that is mapped to [f]. *)
Lemma vclear_data n st v f : tables_ok st → data_frame st f → f mod 4096 = 0 → managed v → v mod 4096 = 0 → walk (pm st) (mcr3 st) v = Ok f →
  ∀ k, 0 ≤ k → k + Z.of_nat n ≤ 1024 → ∃ m', vclear n (v + 4 * k) st = Ok (tt, with_pm m' st) ∧ data_write st f m' ∧
    ∀ i, 0 ≤ i → ld m' (f + 4 * i) = if decide (k ≤ i < k + Z.of_nat n) then 0 else ld (pm st) (f + 4 * i).
Proof.
  intros HT Hd Hf Hm Hv Hw. revert st HT Hd Hw. induction n as [|n IH]; intros st HT Hd Hw k Hk Hn.
  - exists (pm st). split; [by destruct st|]. split; [split; [apply (sm_words _ _ (t_self _ HT))|done]|]. intros i Hi. by rewrite decide_False by lia.
  - pose proof Hm as [Hvr Hvi]. destruct (walk_Ok_inv _ _ _ _ Hw) as (P1 & P2 & Ef).
    assert (Hm4 : managed (v + 4 * k)) by (unfold managed, pdi in *; split; [|split]; zsolve).
    assert (Hwk : walk (pm st) (mcr3 st) (v + 4 * k) = Ok (f + 4 * k)).
    { destruct (proj2 (same_page (v + 4 * k) v Hm4 Hm) ltac:(zsolve)) as [E1 E2].
      rewrite walk_alt in Hw |- *. unfold pte_slot, pde_at in *. rewrite E1, E2. rewrite P1 in Hw |- *. rewrite P2 in Hw |- *.
      injection Hw as Hw. f_equal. replace ((v + 4 * k) mod 4096) with (4 * k) by zsolve. rewrite Hv in Hw. lia. }
    set (m1 := <[f + 4 * k := u32 0]> (pm st)).
    assert (D1 : data_write st f m1).
    { split; intros a; [|intros Ha]; unfold m1; rewrite ld_insert; case_decide; [change (u32 0) with 0; lia|apply (sm_words _ _ (t_self _ HT))|lia|done]. }
    destruct (data_write_ok st f m1 HT Hd Hf D1) as [HT1 Hd1].
    destruct (IH (with_pm m1 st) HT1 (Hd1 f Hd) ltac:(cbn; by rewrite (data_write_walk st f m1)) (k + 1)) as (m' & E & Hm' & Hc'); [lia|lia|].
    exists m'. split; [|split; [by eapply data_write_trans|]]; cycle 1.
    { intros i Hi. rewrite Hc' by done. cbn. unfold m1. rewrite ld_insert. repeat case_decide; try done; lia. }
    change (vclear (S n) (v + 4 * k)) with (do! vstore (v + 4 * k) 0 in vclear n (u32 (v + 4 * k + 4))). unfold mbnd, vstore. rewrite Hwk. cbn [rbind fst snd]. fold m1.
    rewrite u32_small by (clear -Hvi Hvr Hn Hk; unfold pdi in Hvi; zsolve). replace (v + 4 * k + 4) with (v + 4 * (k + 1)) by lia. exact E.
Qed.

(** ** [get_kernel_pages(1)] and its return *)

Definition kernel_ok (st : mst) : Prop := pool_state PF_KERNEL st ∧ self st ≠ 0 ∧ pool_lock (kernel_pool st) = Lock 0 0.

Definition relocked (pf : pool_flags) (l : lock) (st : mst) : mst :=
  let p := pool_of pf st in with_pool pf (Pool (pool_bitmap p) (phy_addr_start p) (pool_size p) l) st.

Lemma relocked_pool pf l st : pool_state pf st → pool_state pf (relocked pf l st) ∧ ∀ i, own_page pf (relocked pf l st) i ↔ own_page pf st i.
Proof.
  intros [H1 H2 H3 H4 H7 H8]. assert (Ev : vaddr_of pf (relocked pf l st) = vaddr_of pf st) by (by destruct pf).
  assert (E : pm (relocked pf l st) = pm st ∧ mcr3 (relocked pf l st) = mcr3 st) by (by destruct pf). destruct E as [E1 E2].
  assert (Ho : ∀ i, own_page pf (relocked pf l st) i ↔ own_page pf st i) by (intros i; unfold own_page; by rewrite Ev, E1, E2).
  assert (E3 : ∀ pf', pool_bitmap (pool_of pf' (relocked pf l st)) = pool_bitmap (pool_of pf' st) ∧ phy_addr_start (pool_of pf' (relocked pf l st)) = phy_addr_start (pool_of pf' st)) by (by destruct pf; intros []).
  split; [|done]. split.
  - by apply (tables_ok_ext st).
  - destruct H2. split; rewrite ?Ev, ?E1, ?E2; done.
  - destruct (E3 PF_KERNEL) as [_ E]. cbn in E. by rewrite E.
  - by rewrite Ev.
  - intros i Hi. apply Ho in Hi. rewrite Ev, E1, E2. destruct (E3 pf) as [F1 F2]. unfold data_frame, in_pool, frame_free. rewrite E1, E2, F1, F2. by apply H7.
  - intros i j f Hi Hj. apply Ho in Hi, Hj. rewrite Ev, E1, E2. by apply H8.
Qed.

Lemma relocked_room pf l n st : pool_room pf n st → pool_room pf n (relocked pf l st).
Proof. intros (j & H1 & H2 & H3 & H4). exists j. by destruct pf. Qed.

Lemma owned_iff pf st st' : vstart pf st' = vstart pf st → (∀ i, own_page pf st' i ↔ own_page pf st i) → ∀ x, pool_owned pf st' x ↔ pool_owned pf st x.
Proof. intros E H x. unfold pool_owned. rewrite E. by setoid_rewrite H. Qed.

(** One page more, with the pool and its lock as before. *)
Record got_page (st st' : mst) (v : Z) : Prop := {
  gp_ok : kernel_ok st';
  gp_cr3 : mcr3 st' = mcr3 st;
  gp_self : self st' = self st;
  gp_pgdir : self_pgdir st' = self_pgdir st;
  gp_vaddr : userprog_vaddr st' = userprog_vaddr st;
  gp_addr : v mod 4096 = 0 ∧ K_HEAP_START ≤ v < 4294967296;
  gp_fresh : ¬ pool_owned PF_KERNEL st v;
  gp_owned : ∀ x, pool_owned PF_KERNEL st' x ↔ pool_owned PF_KERNEL st x ∨ x = v;
  gp_frame : ∃ f, walk (pm st') (mcr3 st') v = Ok f ∧ ∀ i, 0 ≤ i < 1024 → ld (pm st') (f + 4 * i) = 0;
  gp_kept : kept st st' v 1
}.

Lemma get_kernel_page st : kernel_ok st → pool_room PF_KERNEL 1 st → ∃ v st', get_kernel_pages 1 st = Ok (v, st') ∧ got_page st st' v.
Proof.
  intros (Hp & Hs & Hl) Hr. set (s1 := relocked PF_KERNEL (Lock (self st) 1) st). destruct (relocked_pool PF_KERNEL (Lock (self st) 1) st Hp) as [Hp1 Ho1]. fold s1 in Hp1, Ho1.
  destruct (get_run PF_KERNEL s1 1 Hp1 ltac:(lia) (relocked_room _ _ _ _ Hr)) as (v & s2 & E & Hp2 & Hsame & Hkept & r & Ev & Hr0 & Hrn & Hown & Hnot).
  pose proof (ps_heap _ _ Hp2 eq_refl) as Hheap. destruct (ps_vpool _ _ Hp1) as [_ _ Va [Vr1 Vr2] _ _]. rewrite (pl_start _ _ _ Hsame) in Hheap.
  change (vstart PF_KERNEL s1) with (vstart PF_KERNEL st) in *. change (vbits PF_KERNEL s1) with (vbits PF_KERNEL st) in *.
  destruct (ps_back _ _ Hp2 r ltac:(apply Hown; lia)) as (f & Hw & Hd & (j & Hj & Ef) & _). rewrite (pl_start _ _ _ Hsame) in Hw. change (vstart PF_KERNEL s1) with (vstart PF_KERNEL st) in Hw. rewrite <-Ev in Hw.
  assert (Hvm : v mod 4096 = 0) by (rewrite Ev, (Z.mul_comm 4096), Z_mod_plus_full; exact Va).
  assert (Hf : f mod 4096 = 0) by (destruct (walk_Ok_inv _ _ _ _ Hw) as (_ & _ & ->); rewrite Hvm, Z.add_0_r; apply frame_aligned).
  assert (Hmv : managed v) by (rewrite Ev; apply managed_range; lia).
  destruct (vclear_data (Z.to_nat (1 * 1024)) s2 v f (ps_tables _ _ Hp2) Hd Hf Hmv ltac:(rewrite Ev; zsolve) Hw 0 ltac:(lia) ltac:(lia)) as (m' & Ec & Hm & Hclear).
  rewrite Z.mul_0_r, Z.add_0_r in Ec. destruct (data_write_pool PF_KERNEL s2 f m' Hp2 Hd Hf Hm) as (Hp3 & Hs3 & Ho3).
  destruct (relocked_pool PF_KERNEL (Lock 0 0) _ Hp3) as [Hp4 Ho4]. set (s4 := relocked PF_KERNEL (Lock 0 0) (with_pm m' s2)) in *.
  destruct Hsame as [S1 S2 S3 S4 S5 S6]. exists v, s4. split.
  - unfold get_kernel_pages, get_pages, mbnd, acquire. cbn [pool_of]. rewrite Hl. unfold lock_enter. cbn [holder]. rewrite (proj2 (Z.eqb_neq 0 (self st))) by done. cbn [rbind fst snd].
    change (0 =? NULL) with true. cbn [rbind fst snd]. change (with_pool PF_KERNEL _ st) with s1. rewrite E. cbn [rbind fst snd].
    rewrite (proj2 (Z.eqb_neq v NULL)) by (unfold NULL, K_HEAP_START in *; lia). rewrite Ec. cbn [rbind fst snd]. unfold release. cbn [pool_of].
    assert (EL : pool_lock (kernel_pool (with_pm m' s2)) = Lock (self st) 1) by apply (S6 PF_KERNEL). rewrite EL. unfold lock_leave. cbn [holder holder_repeat_nr].
    change (self (with_pm m' s2)) with (self s2). rewrite S2, Z.eqb_refl, !ASSERT_true by done. done.
  - split; try done.
    + split; [done|]. split; [cbn; by rewrite S2|done].
    + apply (S5 PF_USER). done.
    + rewrite Ev. unfold K_HEAP_START in *. split; [zsolve|lia].
    + intros (i & Hi & Ei). apply (Hnot i); [by apply Ho1|]. lia.
    + intros x. unfold pool_owned. change (vstart PF_KERNEL s4) with (vstart PF_KERNEL s2). rewrite S4. change (vstart PF_KERNEL s1) with (vstart PF_KERNEL st). setoid_rewrite Ho4. setoid_rewrite Ho3. setoid_rewrite Hown. setoid_rewrite Ho1. split.
      * intros (i & [Hi|Hi] & ->); [left; by exists i|]. right. rewrite Ev. lia.
      * intros [(i & Hi & ->)|Hx]; [exists i; by split; [left|]|]. exists r. split; [right; lia|lia].
    + exists f. split; [change (walk m' (mcr3 s2) v = Ok f); by rewrite (data_write_walk s2 f m') by (done || apply Hp2)|].
      intros i Hi. change (ld m' (f + 4 * i) = 0). rewrite Hclear by lia. by rewrite decide_True by lia.
    + destruct Hkept as [K1 K2 K3]. destruct (data_write_ok s2 f m' (ps_tables _ _ Hp2) Hd Hf Hm) as [_ D3]. split.
      * intros w Hmw Hx. change (walk m' (mcr3 s2) w = walk (pm s1) (mcr3 s1) w). rewrite (data_write_walk s2 f m') by (done || apply Hp2). by apply K1.
      * intros g Hg Hgf. exact (D3 g (K2 g Hg Hgf)).
      * intros g Hg. exact (K3 g Hg).
Qed.

(** One page less. *)
Record put_page (st st' : mst) (v : Z) : Prop := {
  pp_ok : kernel_ok st';
  pp_cr3 : mcr3 st' = mcr3 st;
  pp_self : self st' = self st;
  pp_pgdir : self_pgdir st' = self_pgdir st;
  pp_vaddr : userprog_vaddr st' = userprog_vaddr st;
  pp_owned : ∀ x, pool_owned PF_KERNEL st' x ↔ pool_owned PF_KERNEL st x ∧ x ≠ v
}.

Lemma put_kernel_page st v : kernel_ok st → pool_owned PF_KERNEL st v → ∃ st', mfree_page PF_KERNEL v 1 st = Ok (tt, st') ∧ put_page st st' v.
Proof.
  intros (Hp & Hs & Hl) (r & Hr & ->). destruct (put_run PF_KERNEL st r 1 Hp ltac:(lia)) as (st' & E & Hp' & [S1 S2 S3 S4 S5 S6] & Hown).
  { intros i Hi. by replace i with r by lia. }
  exists st'. split; [done|]. split; try done.
  - split; [done|]. split; [by rewrite S2|by rewrite (S6 PF_KERNEL : pool_lock (kernel_pool st') = _)].
  - by apply (S5 PF_USER).
  - intros x. unfold pool_owned. rewrite S4. setoid_rewrite Hown. split.
    + intros (i & [Hi Hx] & ->). split; [by exists i|lia].
    + intros [(i & Hi & ->) Hx]. exists i. split; [|done]. split; [done|lia].
Qed.

End pool_lemmas.

(** ** The example of [Paging] *)

Lemma demo_pool_state : pool_state PF_KERNEL demo_space.
Proof.
  assert (Hn : ∀ i, ¬ own_page PF_KERNEL demo_space i).
  { intros i (Hi & Hb & _). change (vbits PF_KERNEL demo_space) with (Bitmap 1 [0; 0]) in *. rewrite demo_bit in Hb by lia. done. }
  split; [apply demo_tables_ok|apply demo_vpool_ok|cbn; lia| |by intros i Hi%Hn|by intros i j f Hi%Hn].
  intros _. change (vstart PF_KERNEL demo_space) with K_HEAP_START. lia.
Qed.

Lemma demo_kernel_ok : kernel_ok demo_space.
Proof. split; [exact demo_pool_state|done]. Qed.

Lemma demo_pool_room : pool_room PF_KERNEL 1 demo_space.
Proof.
  exists 0. change (vbits PF_KERNEL demo_space) with (Bitmap 1 [0; 0]). split_and!; [lia|done|intros k Hk; apply demo_bit; lia|]. vm_compute. lia.
Qed.
