(* ===== verification/Heap.v ===== *)
(** * The heap ([sys_malloc] and [sys_free] of [kernel/memory.c])

    Requests of up to 1024 bytes are served from arenas: a page that starts
    with a 12-byte header and is cut into blocks of one of seven sizes; free
    blocks of a size are kept in one list.  Larger requests get whole pages.
    The heap is written against [PageAlloc], what it needs from the page
    allocator; the end of the file shows that [Paging] provides it.

    A header is kept in [arenas] under the address of its page, a free list in
    the abstract form of [KList]; [bytes] is the memory the callers see.
    [descs] are [k_block_descs] when the running thread has no page directory
    ([page_kernel]) and [u_block_desc] of its task when it has one. *)

From S2P Require Import Prelude CString Bitmap Interrupt KList Sched Paging.

(** ** What the heap needs: pages *)

(** [page_ok b p]: [p] is in order, and its lock is held when [b] is true.
    [page_room n p] promises that [n] pages can be had. *)
Class PageAlloc (P : Type) := {
  page_acquire : M P unit;
  page_release : M P unit;
  page_get : Z → M P Z;
  page_put : Z → Z → M P unit;
  page_pool_size : P → Z;
  page_kernel : P → bool;
  page_ok : bool → P → Prop;
  page_owned : P → Z → Prop;
  page_room : Z → P → Prop
}.

(** The page that starts at [x] is one of the [n] from [a] on. *)
Definition of_pages (a n x : Z) : Prop := a ≤ x < a + 4096 * n ∧ x mod 4096 = 0.

Class PageLaws (P : Type) {A : PageAlloc P} := {
  acquire_law p : page_ok false p → ∃ p', page_acquire p = Ok (tt, p') ∧ page_ok true p' ∧
    (∀ x, page_owned p' x ↔ page_owned p x) ∧ (∀ n, page_room n p → page_room n p') ∧ page_kernel p' = page_kernel p;
  release_law p : page_ok true p → ∃ p', page_release p = Ok (tt, p') ∧ page_ok false p' ∧
    (∀ x, page_owned p' x ↔ page_owned p x) ∧ page_kernel p' = page_kernel p;
  get_law p n : page_ok true p → 1 ≤ n < 3840 → page_room n p → ∃ a p', page_get n p = Ok (a, p') ∧ page_ok true p' ∧
    a mod 4096 = 0 ∧ 0 < a ∧ a + 4096 * n ≤ 4294967296 ∧ (page_kernel p = true → K_HEAP_START ≤ a) ∧ page_kernel p' = page_kernel p ∧
    (∀ x, of_pages a n x → ¬ page_owned p x) ∧
    (∀ x, page_owned p' x ↔ page_owned p x ∨ of_pages a n x);
  put_law p a n : page_ok true p → 1 ≤ n → a mod 4096 = 0 → (∀ x, of_pages a n x → page_owned p x) →
    ∃ p', page_put a n p = Ok (tt, p') ∧ page_ok true p' ∧ page_kernel p' = page_kernel p ∧ (∀ x, page_owned p' x ↔ page_owned p x ∧ ¬ of_pages a n x)
}.

(** ** Data *)

Record mem_block_desc := Desc { block_size : Z; blocks_per_arena : Z; free_list : list Z }.
Definition set_free (l : list Z) (d : mem_block_desc) : mem_block_desc := Desc (block_size d) (blocks_per_arena d) l.

(** [a_desc] is the index of the descriptor, [None] for NULL. *)
Record arena := Arena { a_desc : option nat; cnt : Z; large : bool }.

Definition DESC_CNT : nat := 7.
Definition arena_size : Z := 12.

Record heap (P : Type) := Heap { pages : P; descs : list mem_block_desc; arenas : gmap Z arena; bytes : gmap Z Z }.
Arguments Heap {P} _ _ _ _.
Arguments pages {P} _.
Arguments descs {P} _.
Arguments arenas {P} _.
Arguments bytes {P} _.

(** ** The operations *)

Fixpoint desc_loop (n : nat) (block_size : Z) : list mem_block_desc :=
  match n with
  | O => []
  | S n' => Desc block_size ((PG_SIZE - arena_size) / block_size) [] :: desc_loop n' (u16 (block_size * 2))
  end.
Definition block_desc_init : list mem_block_desc := desc_loop DESC_CNT 16.

Definition arena2block (a idx size : Z) : Z := u32 (a + arena_size + idx * size).
Definition block2arena (b : Z) : Z := Z.land b 4294963200.

Section heap_ops.
Context {B : Build} {P : Type} {A : PageAlloc P}.

Definition on_pages {X} (m : M P X) : M (heap P) X := λ h,
  let? r := m (pages h) in Ok (r.1, Heap r.2 (descs h) (arenas h) (bytes h)).
Definition desc_at (k : nat) : M (heap P) mem_block_desc := λ h,
  match descs h !! k with Some d => Ok (d, h) | None => Fault end.
Definition put_desc (k : nat) (d : mem_block_desc) : M (heap P) unit := mmod (λ h,
  Heap (pages h) (<[k := d]> (descs h)) (arenas h) (bytes h)).
Definition arena_at (a : Z) : M (heap P) arena := λ h,
  match arenas h !! a with Some ar => Ok (ar, h) | None => Fault end.
Definition put_arena (a : Z) (ar : arena) : M (heap P) unit := mmod (λ h,
  Heap (pages h) (descs h) (<[a := ar]> (arenas h)) (bytes h)).
Definition drop_arena (a : Z) : M (heap P) unit := mmod (λ h,
  Heap (pages h) (descs h) (delete a (arenas h)) (bytes h)).

(** [memset(a, 0, n)] *)
Definition zeroes (a n : Z) (m : gmap Z Z) : gmap Z Z := foldr (λ x m, <[x := 0]> m) m (seqZ a n).
Definition clear (a n : Z) : M (heap P) unit := mmod (λ h, Heap (pages h) (descs h) (arenas h) (zeroes a n (bytes h))).

(** The first descriptor whose blocks are large enough *)
Fixpoint find_desc (ds : list mem_block_desc) (size : Z) : nat :=
  match ds with
  | [] => O
  | d :: ds' => if size <=? block_size d then O else S (find_desc ds' size)
  end.

(** The [n] blocks of the arena from [idx] on are added to the list. *)
Fixpoint add_blocks (n : nat) (a idx size : Z) (l : list Z) : res (list Z) :=
  match n with
  | O => Ok l
  | S n' =>
      let b := arena2block a idx size in
      check ASSERT (negb (elem_in b l)) in
      add_blocks n' a (idx + 1) size (Spec.append b l)
  end.

Fixpoint remove_blocks (n : nat) (a idx size : Z) (l : list Z) : res (list Z) :=
  match n with
  | O => Ok l
  | S n' =>
      let b := arena2block a idx size in
      check ASSERT (elem_in b l) in
      remove_blocks n' a (idx + 1) size (Spec.remove b l)
  end.

(** A new arena when the free list is empty; false when there is no page. *)
Definition new_arena (k : nat) : M (heap P) bool :=
  let! a := on_pages (page_get 1) in
  if a =? NULL then mok false else
  do! clear a PG_SIZE in
  let! d := desc_at k in
  do! put_arena a (Arena (Some k) (blocks_per_arena d) false) in
  let! l := mlift (add_blocks (Z.to_nat (blocks_per_arena d)) a 0 (block_size d) (free_list d)) in
  do! put_desc k (set_free l d) in
  mok true.

(** The first block of the list is handed out. *)
Definition take_block (k : nat) : M (heap P) Z :=
  let! d := desc_at k in
  match free_list d with
  | [] => λ _, Fault
  | b :: l =>
      do! put_desc k (set_free l d) in
      do! clear b (block_size d) in
      let a := block2arena b in
      let! ar := arena_at a in
      do! put_arena a (Arena (a_desc ar) (u32 (cnt ar - 1)) (large ar)) in
      do! on_pages page_release in
      mok b
  end.

Definition sys_malloc (size : Z) : M (heap P) Z :=
  let! pool_size := mget (λ h, page_pool_size (pages h)) in
  if negb ((0 <? size) && (size <? pool_size)) then mok NULL else
  do! on_pages page_acquire in
  if 1024 <? size then
    let page_cnt := DIV_ROUND_UP (u32 (size + arena_size)) PG_SIZE in
    let! a := on_pages (page_get page_cnt) in
    if negb (a =? NULL) then
      do! clear a (page_cnt * PG_SIZE) in
      do! put_arena a (Arena None page_cnt true) in
      do! on_pages page_release in
      mok (u32 (a + arena_size))
    else do! on_pages page_release in mok NULL
  else
    let! ds := mget descs in
    let desc_idx := find_desc ds size in
    let! d := desc_at desc_idx in
    let! ok := (if bool_decide (free_list d = []) then new_arena desc_idx else mok true) in
    if negb ok then do! on_pages page_release in mok NULL else
    take_block desc_idx.

Definition sys_free (ptr : Z) : M (heap P) unit :=
  do! mlift (ASSERT (negb (ptr =? NULL))) in
  if ptr =? NULL then mok tt else
  let! kernel := mget (λ h, page_kernel (pages h)) in
  do! mlift (if kernel then ASSERT (K_HEAP_START <=? ptr) else Ok tt) in
  do! on_pages page_acquire in
  let a := block2arena ptr in
  let! ar := arena_at a in
  match a_desc ar with
  | None =>
      if large ar then
        do! on_pages (page_put a (cnt ar)) in
        do! drop_arena a in
        on_pages page_release
      else λ _, Fault
  | Some k =>
      let! d := desc_at k in
      let l := Spec.append ptr (free_list d) in
      let cnt' := u32 (cnt ar + 1) in
      do! put_desc k (set_free l d) in
      do! put_arena a (Arena (a_desc ar) cnt' (large ar)) in
      if cnt' =? blocks_per_arena d then
        let! l := mlift (remove_blocks (Z.to_nat (blocks_per_arena d)) a 0 (block_size d) l) in
        do! put_desc k (set_free l d) in
        do! on_pages (page_put a 1) in
        do! drop_arena a in
        on_pages page_release
      else on_pages page_release
  end.

End heap_ops.

(** ** The state of the heap *)

Definition npages (ar : arena) : Z := if large ar then cnt ar else 1.
(** Size and number of the blocks of descriptor [k] *)
Definition bsize (k : nat) : Z := 16 * 2 ^ Z.of_nat k.
Definition bcount (k : nat) : Z := 4084 / bsize k.
Definition block (a : Z) (k : nat) (i : Z) : Z := a + 12 + i * bsize k.

Section heap_spec.
Context {P : Type} {A : PageAlloc P}.
Implicit Types (h : heap P).

Definition free_of (h : heap P) (k : nat) : list Z := from_option free_list [] (descs h !! k).

Definition arena_ok h (a : Z) (ar : arena) : Prop :=
  a mod 4096 = 0 ∧ 0 < a ∧ 1 ≤ npages ar ∧ a + 4096 * npages ar ≤ 4294967296 ∧ (page_kernel (pages h) = true → K_HEAP_START ≤ a) ∧
  (∀ x, of_pages a (npages ar) x → page_owned (pages h) x) ∧
  match a_desc ar with
  | None => large ar = true
  | Some k => large ar = false ∧ (k < 7)%nat ∧ cnt ar = Z.of_nat (length (filter (λ b, block2arena b = a) (free_of h k)))
  end.

(** Every header describes pages the heap owns, no two arenas share a page, a
    free block is a block of an arena of its size and is free once, and the
    count in a header is the number of the arena's free blocks. *)
Record heap_ok h : Prop := {
  hk_len : length (descs h) = 7%nat;
  hk_descs : ∀ k d, descs h !! k = Some d → block_size d = bsize k ∧ blocks_per_arena d = bcount k;
  hk_arena : ∀ a ar, arenas h !! a = Some ar → arena_ok h a ar;
  hk_apart : ∀ a a' ar ar', arenas h !! a = Some ar → arenas h !! a' = Some ar' → a < a' → a + 4096 * npages ar ≤ a';
  hk_nodup : ∀ k, NoDup (free_of h k);
  hk_free : ∀ k b, b ∈ free_of h k → ∃ ar i,
    arenas h !! block2arena b = Some ar ∧ a_desc ar = Some k ∧ 0 ≤ i < bcount k ∧ b = block (block2arena b) k i
}.

(** Between calls every arena has a block in use. *)
Definition tight h : Prop := ∀ a ar k, arenas h !! a = Some ar → a_desc ar = Some k → cnt ar < bcount k.

(** The caller owns the [n] bytes from [b] on. *)
Inductive allocated h : Z → Z → Prop :=
| in_arena a ar k i : arenas h !! a = Some ar → a_desc ar = Some k → 0 ≤ i < bcount k → block a k i ∉ free_of h k →
    allocated h (block a k i) (bsize k)
| in_pages a ar : arenas h !! a = Some ar → a_desc ar = None → allocated h (a + 12) (4096 * npages ar - 12).

(** Pages of the heap, and pages that are taken for something else *)
Definition heap_pages h (x : Z) : Prop := ∃ a ar, arenas h !! a = Some ar ∧ of_pages a (npages ar) x.
Definition foreign h (x : Z) : Prop := page_owned (pages h) x ∧ ¬ heap_pages h x.

(** The abstract heap is the map from the addresses of the blocks in use to
    their sizes. *)
Record rep h (live : gmap Z Z) : Prop := {
  rp_ok : heap_ok h;
  rp_tight : tight h;
  rp_pages : page_ok false (pages h);
  rp_live : ∀ b n, allocated h b n ↔ live !! b = Some n
}.

End heap_spec.

(** ** Lemmas *)

Lemma bsize_bounds k : (k < 7)%nat → 16 ≤ bsize k ≤ 1024 ∧ 3 ≤ bcount k ≤ 255 ∧ 12 + bcount k * bsize k ≤ 4096.
Proof. intros H. do 7 (destruct k as [|k]; [vm_compute; split_and!; congruence|]). lia. Qed.

Lemma block_inside a k i : (k < 7)%nat → 0 ≤ i < bcount k → a + 12 ≤ block a k i ∧ block a k i + bsize k ≤ a + 4096.
Proof. intros Hk Hi. destruct (bsize_bounds k Hk) as (H1 & H2 & H3). unfold block. nia. Qed.

Lemma block2arena_eq a b : a mod 4096 = 0 → 0 ≤ a → a ≤ b < a + 4096 → a + 4096 ≤ 4294967296 → block2arena b = a.
Proof. intros Ha H0 Hb Ht. unfold block2arena. rewrite mask_high by lia. unfold frame_of. zsolve. Qed.

Lemma block_arena a k i : a mod 4096 = 0 → 0 ≤ a → a + 4096 ≤ 4294967296 → (k < 7)%nat → 0 ≤ i < bcount k → block2arena (block a k i) = a.
Proof. intros Ha H0 Ht Hk Hi. pose proof (block_inside a k i Hk Hi). pose proof (bsize_bounds k Hk). apply block2arena_eq; lia. Qed.

Lemma block_inj a k i j : (k < 7)%nat → block a k i = block a k j → i = j.
Proof. intros Hk. pose proof (bsize_bounds k Hk). unfold block. nia. Qed.

Section heap_lemmas.
Context {B : Build} {P : Type} {A : PageAlloc P} {L : PageLaws P}.
Implicit Types (h : heap P).

(** *** The blocks of an arena *)

Definition blocks (a : Z) (k : nat) (idx : Z) (n : nat) : list Z := block a k <$> seqZ idx (Z.of_nat n).

Lemma blocks_S a k idx n : blocks a k idx (S n) = block a k idx :: blocks a k (idx + 1) n.
Proof. unfold blocks. rewrite Nat2Z.inj_succ, seqZ_cons, Z.pred_succ by lia. done. Qed.

Lemma elem_of_blocks a k idx n b : b ∈ blocks a k idx n ↔ ∃ i, idx ≤ i < idx + Z.of_nat n ∧ b = block a k i.
Proof.
  unfold blocks. rewrite list_elem_of_fmap. split; [intros (i & -> & Hi%elem_of_seqZ); eauto|].
  intros (i & Hi & ->). exists i. split; [done|]. by apply elem_of_seqZ.
Qed.

Lemma blocks_nodup a k idx n : (k < 7)%nat → NoDup (blocks a k idx n).
Proof. intros Hk. unfold blocks. apply NoDup_fmap_2_strong; [|apply NoDup_seqZ]. intros i j _ _. by apply block_inj. Qed.

Lemma arena2block_eq a k i : 0 ≤ a → a + 4096 ≤ 4294967296 → (k < 7)%nat → 0 ≤ i < bcount k → arena2block a i (bsize k) = block a k i.
Proof.
  intros H0 Ht Hk Hi. pose proof (block_inside a k i Hk Hi). pose proof (bsize_bounds k Hk). unfold arena2block, arena_size. apply u32_small.
  unfold block in *. lia.
Qed.

Lemma add_blocks_run n a idx k l : 0 ≤ a → a + 4096 ≤ 4294967296 → (k < 7)%nat → 0 ≤ idx → idx + Z.of_nat n ≤ bcount k →
  (∀ b, b ∈ blocks a k idx n → b ∉ l) → add_blocks n a idx (bsize k) l = Ok (l ++ blocks a k idx n).
Proof.
  intros H0 Ht Hk. revert idx l. induction n as [|n IH]; intros idx l Hi Hn Hl; [unfold blocks; cbn; by rewrite app_nil_r|].
  cbn [add_blocks]. rewrite arena2block_eq by (done || lia). rewrite blocks_S in Hl |- *.
  rewrite ASSERT_true. 2:{ unfold elem_in. rewrite bool_decide_false; [done|]. apply Hl. by left. }
  cbn [rbind]. rewrite IH; [unfold Spec.append; by rewrite <-app_assoc|lia|lia|].
  intros b Hb. unfold Spec.append. rewrite not_elem_of_app, list_elem_of_singleton. split; [apply Hl; by right|].
  intros ->. apply elem_of_blocks in Hb as (i & Hi' & E). apply block_inj in E; [lia|done].
Qed.

Lemma remove_blocks_run n a idx k l : 0 ≤ a → a + 4096 ≤ 4294967296 → (k < 7)%nat → 0 ≤ idx → idx + Z.of_nat n ≤ bcount k →
  (∀ b, b ∈ blocks a k idx n → b ∈ l) → remove_blocks n a idx (bsize k) l = Ok (filter (λ b, b ∉ blocks a k idx n) l).
Proof.
  intros H0 Ht Hk. revert idx l. induction n as [|n IH]; intros idx l Hi Hn Hl.
  - cbn. by rewrite filter_all by (intros; apply not_elem_of_nil).
  - cbn [remove_blocks]. rewrite arena2block_eq by (done || lia). rewrite blocks_S in Hl |- *.
    rewrite ASSERT_true by (apply bool_decide_true, Hl; by left). cbn [rbind]. rewrite IH; [|lia|lia|].
    + f_equal. unfold Spec.remove. rewrite list_filter_filter. apply list_filter_iff. intros b. rewrite not_elem_of_cons. tauto.
    + intros b Hb. apply list_elem_of_filter. split; [|apply Hl; by right]. intros ->.
      apply elem_of_blocks in Hb as (i & Hi' & E). apply block_inj in E; [lia|done].
Qed.

(** *** The invariant *)

Lemma heap_ok_pages h p m : heap_ok h → (∀ x, page_owned (pages h) x → page_owned p x) → page_kernel p = page_kernel (pages h) →
  heap_ok (Heap p (descs h) (arenas h) m).
Proof.
  intros [Hl Hd Ha Hap Hn Hf] Ho Hk. split; try done. intros a ar Har. destruct (Ha a ar Har) as (H1 & H2 & H3 & H4 & H5 & H6 & H7).
  split_and!; try done; cbn [pages]; [rewrite Hk; done|]. intros x Hx. apply Ho, H6, Hx.
Qed.

Lemma free_of_put h k d l as_ m (p : P) k' : descs h !! k = Some d →
  free_of (Heap p (<[k := set_free l d]> (descs h)) as_ m) k' = if decide (k' = k) then l else free_of h k'.
Proof.
  intros Hd. unfold free_of. cbn [descs]. case_decide as E.
  - subst. rewrite list_lookup_insert_eq by (by eapply lookup_lt_Some). done.
  - by rewrite list_lookup_insert_ne.
Qed.

Lemma descs_put h k d l : heap_ok h → descs h !! k = Some d →
  length (<[k := set_free l d]> (descs h)) = 7%nat ∧
  ∀ k' d', <[k := set_free l d]> (descs h) !! k' = Some d' → block_size d' = bsize k' ∧ blocks_per_arena d' = bcount k'.
Proof.
  intros Hh Hd. split; [rewrite length_insert; apply Hh|]. intros k' d' H'. destruct (decide (k' = k)) as [->|Hne].
  - rewrite list_lookup_insert_eq in H' by (by eapply lookup_lt_Some). injection H' as <-. exact (hk_descs h Hh k d Hd).
  - rewrite list_lookup_insert_ne in H' by done. by apply (hk_descs h Hh).
Qed.

Lemma desc_some h k : heap_ok h → (k < 7)%nat → ∃ d, descs h !! k = Some d ∧ block_size d = bsize k ∧ blocks_per_arena d = bcount k ∧ free_list d = free_of h k.
Proof.
  intros Hh Hk. destruct (lookup_lt_is_Some_2 (descs h) k) as [d Hd]; [rewrite (hk_len h Hh); lia|].
  exists d. split; [done|]. destruct (hk_descs h Hh k d Hd). split_and!; [done|done|]. unfold free_of. by rewrite Hd.
Qed.

(** Different blocks of the callers do not overlap. *)
Lemma allocated_inside h b n : heap_ok h → allocated h b n → ∃ ar, arenas h !! block2arena b = Some ar ∧ 0 < block2arena b ∧
  block2arena b + 12 ≤ b ∧ 0 < n ∧ b + n ≤ block2arena b + 4096 * npages ar.
Proof.
  intros Hh [a ar k i Har Hk Hi Hf|a ar Har Hd]; destruct (hk_arena h Hh a ar Har) as (H1 & H2 & H3 & H4 & _ & _ & H7).
  - rewrite Hk in H7. destruct H7 as (Hlg & Hk7 & _). pose proof (block_inside a k i Hk7 Hi) as Hin. pose proof (bsize_bounds k Hk7) as Hbs.
    unfold npages in *. rewrite Hlg in *. rewrite (block_arena a k i) by (done || lia). exists ar. rewrite Hlg. split_and!; (done || lia).
  - rewrite (block2arena_eq a (a + 12)) by (done || lia). exists ar. split_and!; (done || lia).
Qed.

Lemma allocated_apart h b n b' n' : heap_ok h → allocated h b n → allocated h b' n' → b ≠ b' → b + n ≤ b' ∨ b' + n' ≤ b.
Proof.
  intros Hh Hb Hb' Hne. destruct (allocated_inside h b n Hh Hb) as (ar & Har & H1 & H2 & H3 & H4).
  destruct (allocated_inside h b' n' Hh Hb') as (ar' & Har' & H1' & H2' & H3' & H4').
  destruct (Z.lt_trichotomy (block2arena b) (block2arena b')) as [Hlt|[He|Hlt]].
  - left. pose proof (hk_apart h Hh _ _ _ _ Har Har' Hlt). lia.
  - assert (ar' = ar) as -> by congruence.
    destruct Hb as [a ar0 k i Har0 Hk Hi Hf|a ar0 Har0 Hd]; destruct Hb' as [a' ar0' k' i' Har0' Hk' Hi' Hf'|a' ar0' Har0' Hd'].
    all: destruct (hk_arena h Hh _ _ Har0) as (G1 & G2 & G3 & G4 & _ & _ & G7); destruct (hk_arena h Hh _ _ Har0') as (G1' & G2' & G3' & G4' & _ & _ & G7').
    all: rewrite ?Hk, ?Hd in G7; rewrite ?Hk', ?Hd' in G7'.
    + destruct G7 as (Q1 & Q2 & _), G7' as (Q1' & Q2' & _). unfold npages in *. rewrite ?Q1, ?Q1' in *.
      rewrite !block_arena in * by (done || lia). subst a'. assert (k' = k) as -> by congruence.
      pose proof (bsize_bounds k Q2). unfold block in *. assert (i ≠ i') by congruence. nia.
    + destruct G7 as (Q1 & Q2 & _). unfold npages in G4. rewrite Q1 in G4. rewrite block_arena in * by (done || lia).
      rewrite (block2arena_eq a' (a' + 12)) in * by (done || lia). congruence.
    + destruct G7' as (Q1 & Q2 & _). unfold npages in G4'. rewrite Q1 in G4'. rewrite block_arena in * by (done || lia).
      rewrite (block2arena_eq a (a + 12)) in * by (done || lia). congruence.
    + rewrite (block2arena_eq a (a + 12)), (block2arena_eq a' (a' + 12)) in * by (done || lia). congruence.
  - right. pose proof (hk_apart h Hh _ _ _ _ Har' Har Hlt). lia.
Qed.

(** A block of an arena is in use when it is not in the free list. *)
Lemma allocated_block h a ar k i n : heap_ok h → arenas h !! a = Some ar → a_desc ar = Some k → 0 ≤ i < bcount k →
  allocated h (block a k i) n ↔ n = bsize k ∧ block a k i ∉ free_of h k.
Proof.
  intros Hh Har Hk Hi. destruct (hk_arena h Hh a ar Har) as (H1 & H2 & H3 & H4 & _ & _ & H7). rewrite Hk in H7. destruct H7 as (Hlg & Hk7 & _).
  unfold npages in *. rewrite Hlg in *. assert (Hb2 : block2arena (block a k i) = a) by (apply block_arena; (done || lia)).
  split; [|intros [-> ?]; by apply (in_arena h a ar)]. remember (block a k i) as b eqn:Eb. intros Hal.
  destruct (allocated_inside h b n Hh Hal) as (ar1 & Har1 & _). rewrite Hb2 in Har1.
  destruct Hal as [a' ar' k' i' Har' Hk' Hi' Hf|a' ar' Har' Hd]; destruct (hk_arena h Hh a' ar' Har') as (G1 & G2 & G3 & G4 & _ & _ & G7).
  - rewrite Hk' in G7. destruct G7 as (Gl & Gk7 & _). unfold npages in *. rewrite Gl in *. rewrite block_arena in Hb2 by (done || lia). subst a'.
    assert (k' = k) as -> by congruence. done.
  - rewrite (block2arena_eq a' (a' + 12)) in Hb2 by (done || lia). congruence.
Qed.

(** One block of an arena changes between free and in use. *)
Lemma move_block h a ar k d i l m : heap_ok h → descs h !! k = Some d → arenas h !! a = Some ar → a_desc ar = Some k → 0 ≤ i < bcount k →
  NoDup l → (∀ x, x ≠ block a k i → x ∈ l ↔ x ∈ free_of h k) →
  (∀ a', a' ≠ a → length (filter (λ b, block2arena b = a') l) = length (filter (λ b, block2arena b = a') (free_of h k))) →
  let h' := Heap (pages h) (<[k := set_free l d]> (descs h))
    (<[a := Arena (Some k) (Z.of_nat (length (filter (λ b, block2arena b = a) l))) false]> (arenas h)) m in
  heap_ok h' ∧ ∀ b n, b ≠ block a k i → allocated h' b n ↔ allocated h b n.
Proof.
  intros Hh Hd Har Hk Hi Hnd Hin Hcnt h'. pose proof (hk_arena h Hh a ar Har) as (H1 & H2 & H3 & H4 & H5 & H6 & H7). rewrite Hk in H7.
  destruct H7 as (Hlg & Hk7 & _). assert (Hnp : npages ar = 1) by (unfold npages; by rewrite Hlg).
  assert (Hfr : ∀ k', free_of h' k' = if decide (k' = k) then l else free_of h k') by (intros k'; by apply free_of_put).
  assert (Hb2 : block2arena (block a k i) = a) by (apply block_arena; (done || lia)).
  set (ar2 := Arena _ _ _) in h'.
  assert (Hlk : ∀ a' ar', arenas h' !! a' = Some ar' → ∃ ar0, arenas h !! a' = Some ar0 ∧ a_desc ar' = a_desc ar0 ∧ npages ar' = npages ar0).
  { intros a' ar' H. cbn [arenas h'] in H. destruct (decide (a' = a)) as [->|Hn]; [|rewrite lookup_insert_ne in H by done; eauto].
    rewrite lookup_insert_eq in H. injection H as <-. exists ar. split_and!; [done|by rewrite Hk|by rewrite Hnp]. }
  assert (Hlk2 : ∀ a' ar0, arenas h !! a' = Some ar0 → ∃ ar', arenas h' !! a' = Some ar' ∧ a_desc ar' = a_desc ar0 ∧ npages ar' = npages ar0).
  { intros a' ar0 H. cbn [arenas h']. destruct (decide (a' = a)) as [->|Hn]; [|rewrite lookup_insert_ne by done; eauto].
    rewrite lookup_insert_eq. exists ar2. assert (ar0 = ar) as -> by congruence. split_and!; [done|by rewrite Hk|by rewrite Hnp]. }
  split.
  - destruct (descs_put h k d l Hh Hd) as [Hlen Hds]. split; try done.
    + intros a' ar' H. cbn [arenas h'] in H. destruct (decide (a' = a)) as [->|Hn].
      * rewrite lookup_insert_eq in H. injection H as <-. rewrite Hnp in H4. unfold arena_ok. change (npages ar2) with 1. split_and!; try done.
        { intros x Hx. apply H6. by rewrite Hnp. } { cbn [a_desc ar2 cnt]. by rewrite Hfr, decide_True. }
      * rewrite lookup_insert_ne in H by done. destruct (hk_arena h Hh a' ar' H) as (G1 & G2 & G3 & G4 & G5 & G6 & G7).
        split_and!; try done. destruct (a_desc ar') as [k'|]; [|done]. destruct G7 as (? & ? & Ec). split_and!; try done. rewrite Ec, Hfr.
        case_decide; [|done]. subst. by rewrite (Hcnt a' Hn).
    + intros a1 a2 ar1 ar2' Ha1 Ha2 Hlt. destruct (Hlk _ _ Ha1) as (x1 & E1 & _ & ->). destruct (Hlk _ _ Ha2) as (x2 & E2 & _). by apply (hk_apart h Hh a1 a2 x1 x2).
    + intros k'. rewrite Hfr. case_decide; [done|apply Hh].
    + intros k' b Hb. rewrite Hfr in Hb. case_decide as E.
      * subst k'. destruct (decide (b = block a k i)) as [->|Hne].
        { rewrite Hb2. destruct (Hlk2 a ar Har) as (ar' & E & E' & _). exists ar', i. rewrite E', Hk. done. }
        apply Hin in Hb; [|done]. destruct (hk_free h Hh k b Hb) as (x & j & Ex & Dx & Hj & Ej). destruct (Hlk2 _ _ Ex) as (ar' & E & E' & _). exists ar', j. rewrite E', Dx. done.
      * destruct (hk_free h Hh k' b Hb) as (x & j & Ex & Dx & Hj & Ej). destruct (Hlk2 _ _ Ex) as (ar' & E1 & E' & _). exists ar', j. rewrite E', Dx. done.
  - intros b n Hne. split; intros Hal; destruct Hal as [a' ar' k' j Ha' Hk' Hj Hf|a' ar' Ha' Hk'].
    + destruct (Hlk _ _ Ha') as (x & Ex & Dx & _). apply (in_arena h a' x); [done|congruence|done|]. rewrite Hfr in Hf. case_decide; [|done]. subst. by rewrite <-Hin.
    + destruct (Hlk _ _ Ha') as (x & Ex & Dx & ->). apply (in_pages h a' x); congruence.
    + destruct (Hlk2 _ _ Ha') as (x & Ex & Dx & _). apply (in_arena h' a' x); [done|congruence|done|]. rewrite Hfr. case_decide; [|done]. subst. by rewrite Hin.
    + destruct (Hlk2 _ _ Ha') as (x & Ex & Dx & <-). apply (in_pages h' a' x); congruence.
Qed.

(** *** Arenas come and go *)

Lemma fresh_apart h a n a' ar' : heap_ok h → arenas h !! a' = Some ar' → a mod 4096 = 0 → 1 ≤ n →
  (∀ x, of_pages a n x → ¬ page_owned (pages h) x) → (a' < a → a' + 4096 * npages ar' ≤ a) ∧ (a < a' → a + 4096 * n ≤ a') ∧ a' ≠ a.
Proof.
  intros Hh Har Ha Hn Hno. destruct (hk_arena h Hh a' ar' Har) as (H1 & H2 & H3 & H4 & _ & H6 & _).
  assert (Hself : page_owned (pages h) a') by (apply H6; unfold of_pages; lia).
  assert (Hnew : ¬ page_owned (pages h) a) by (apply Hno; unfold of_pages; lia). split_and!.
  - intros Hlt. destruct (decide (a' + 4096 * npages ar' ≤ a)) as [|Hx]; [done|]. exfalso. apply Hnew, H6. unfold of_pages. lia.
  - intros Hlt. destruct (decide (a + 4096 * n ≤ a')) as [|Hx]; [done|]. exfalso. apply (Hno a'); [unfold of_pages; lia|done].
  - by intros ->.
Qed.

(** Whatever the free lists are, the other arenas keep their pages. *)
Lemma apart_add h a ar : heap_ok h → a mod 4096 = 0 → 1 ≤ npages ar → (∀ x, of_pages a (npages ar) x → ¬ page_owned (pages h) x) →
  ∀ a1 a2 r1 r2, <[a := ar]> (arenas h) !! a1 = Some r1 → <[a := ar]> (arenas h) !! a2 = Some r2 → a1 < a2 → a1 + 4096 * npages r1 ≤ a2.
Proof.
  intros Hh Ha Hn Hno a1 a2 r1 r2 H1 H2 Hlt. destruct (decide (a1 = a)) as [->|N1], (decide (a2 = a)) as [->|N2]; [lia| | |].
  - rewrite lookup_insert_eq in H1. injection H1 as <-. rewrite lookup_insert_ne in H2 by done. by apply (fresh_apart h a (npages ar) a2 r2).
  - rewrite lookup_insert_eq in H2. injection H2 as <-. rewrite lookup_insert_ne in H1 by done. by apply (fresh_apart h a (npages ar) a1 r1).
  - rewrite lookup_insert_ne in H1, H2 by done. by apply (hk_apart h Hh a1 a2 r1 r2).
Qed.

Definition new_pages (a n : Z) (p p' : P) : Prop :=
  a mod 4096 = 0 ∧ 0 < a ∧ 1 ≤ n ∧ a + 4096 * n ≤ 4294967296 ∧ (page_kernel p = true → K_HEAP_START ≤ a) ∧ page_kernel p' = page_kernel p ∧
  (∀ x, of_pages a n x → ¬ page_owned p x) ∧ (∀ x, page_owned p' x ↔ page_owned p x ∨ of_pages a n x).

Lemma arena_none h a n p : heap_ok h → new_pages a n (pages h) p → arenas h !! a = None.
Proof.
  intros Hh (H1 & H2 & H3 & _ & _ & _ & Hno & _). destruct (arenas h !! a) as [r|] eqn:E; [|done]. by destruct (fresh_apart h a n a r Hh E H1 H3 Hno) as (_ & _ & ?).
Qed.

Lemma add_large h a n p m : heap_ok h → new_pages a n (pages h) p →
  let h' := Heap p (descs h) (<[a := Arena None n true]> (arenas h)) m in
  heap_ok h' ∧ ∀ b c, allocated h' b c ↔ allocated h b c ∨ b = a + 12 ∧ c = 4096 * n - 12.
Proof.
  intros Hh Hp h'. pose proof (arena_none _ _ _ _ Hh Hp) as Hnone. destruct Hp as (H1 & H2 & H3 & H4 & H5 & H6 & H7 & H8). split.
  - pose proof Hh as [Hl Hd Ha Hap Hn Hf]. split; try done.
    + intros a' ar' H. cbn [arenas h'] in H. destruct (decide (a' = a)) as [->|Hne].
      * rewrite lookup_insert_eq in H. injection H as <-. unfold arena_ok. cbn [npages large cnt pages h' a_desc]. rewrite H6. split_and!; try done. intros x Hx. apply H8. by right.
      * rewrite lookup_insert_ne in H by done. destruct (Ha a' ar' H) as (G1 & G2 & G3 & G4 & G5 & G6 & G7).
        unfold arena_ok. cbn [pages h']. rewrite H6. split_and!; try done. intros x Hx. apply H8. left. by apply G6.
    + cbn [arenas h']. by apply apart_add.
    + intros k b Hb. destruct (Hf k b Hb) as (ar & i & Har & G). exists ar, i. cbn [arenas h']. rewrite lookup_insert_ne; [done|]. intros ->. congruence.
  - intros b c. split.
    + intros [a' ar' k i Har Hk Hi Hfr|a' ar' Har Hk]; cbn [arenas h'] in Har; (destruct (decide (a' = a)) as [->|Hne]; [rewrite lookup_insert_eq in Har; injection Har as <-|rewrite lookup_insert_ne in Har by done]); try done.
      * left. by apply (in_arena h a' ar').
      * by right.
      * left. by apply (in_pages h a' ar').
    + intros [[a' ar' k i Har Hk Hi Hfr|a' ar' Har Hk]|[-> ->]].
      * apply (in_arena h' a' ar'); try done. cbn [arenas h']. rewrite lookup_insert_ne; [done|congruence].
      * apply (in_pages h' a' ar'); try done. cbn [arenas h']. rewrite lookup_insert_ne; [done|congruence].
      * apply (in_pages h' a (Arena None n true)); try done. cbn [arenas h']. apply lookup_insert_eq.
Qed.

Lemma filter_none (Q : Z → Prop) `{!∀ x, Decision (Q x)} l : (∀ x, x ∈ l → ¬ Q x) → filter Q l = [].
Proof.
  induction l as [|x l IH]; intros Hq; [done|]. rewrite filter_cons, decide_False by (apply Hq; by left). apply IH. intros y Hy. apply Hq. by right.
Qed.

Lemma filter_blocks a k a' : a mod 4096 = 0 → 0 ≤ a → a + 4096 ≤ 4294967296 → (k < 7)%nat →
  filter (λ b, block2arena b = a') (blocks a k 0 (Z.to_nat (bcount k))) = if decide (a' = a) then blocks a k 0 (Z.to_nat (bcount k)) else [].
Proof.
  intros Ha H0 Ht Hk. assert (Hin : ∀ b, b ∈ blocks a k 0 (Z.to_nat (bcount k)) → block2arena b = a).
  { intros b (i & Hi & ->)%elem_of_blocks. apply block_arena; (done || lia). }
  case_decide as E; [subst; by apply filter_all|]. apply filter_none. intros b Hb. rewrite (Hin b Hb). congruence.
Qed.

Lemma arena_blocks_length a k idx n : length (blocks a k idx n) = n.
Proof. unfold blocks. rewrite length_fmap, length_seqZ. lia. Qed.

Lemma free_not_in h k a : heap_ok h → arenas h !! a = None → filter (λ b, block2arena b = a) (free_of h k) = [].
Proof.
  intros Hh Hn. apply filter_none. intros b Hb <-. destruct (hk_free h Hh k b Hb) as (ar & i & Har & _). congruence.
Qed.

Lemma add_small h a k d p m : heap_ok h → new_pages a 1 (pages h) p → descs h !! k = Some d → (k < 7)%nat →
  let h' := Heap p (<[k := set_free (free_of h k ++ blocks a k 0 (Z.to_nat (bcount k))) d]> (descs h)) (<[a := Arena (Some k) (bcount k) false]> (arenas h)) m in
  heap_ok h' ∧ ∀ b c, allocated h' b c ↔ allocated h b c.
Proof.
  intros Hh Hp Hd Hk h'. pose proof (arena_none _ _ _ _ Hh Hp) as Hnone. destruct Hp as (H1 & H2 & H3 & H4 & H5 & H6 & H7 & H8).
  pose proof (bsize_bounds k Hk) as (Hb1 & Hb2 & Hb3).
  assert (Hfr : ∀ k', free_of h' k' = if decide (k' = k) then free_of h k ++ blocks a k 0 (Z.to_nat (bcount k)) else free_of h k') by (intros k'; by apply free_of_put).
  assert (Hblk : ∀ b, b ∈ blocks a k 0 (Z.to_nat (bcount k)) → block2arena b = a).
  { intros b (i & Hi & ->)%elem_of_blocks. apply block_arena; (done || lia). }
  assert (Hnew : ∀ k' b, b ∈ free_of h k' → block2arena b ≠ a).
  { intros k' b Hb E. destruct (hk_free h Hh k' b Hb) as (ar & i & Har & _). congruence. }
  split.
  - destruct (descs_put h k d (free_of h k ++ blocks a k 0 (Z.to_nat (bcount k))) Hh Hd) as [Hlen Hds]. split; try done.
    + intros a' ar' H. cbn [arenas h'] in H. unfold arena_ok. cbn [pages h']. rewrite H6. destruct (decide (a' = a)) as [->|Hne].
      * rewrite lookup_insert_eq in H. injection H as <-. cbn [npages large cnt a_desc]. split_and!; try done; [intros x Hx; apply H8; by right|].
        rewrite Hfr, decide_True by done. rewrite filter_app, free_not_in, filter_blocks, decide_True by (done || lia). cbn [app]. rewrite arena_blocks_length. lia.
      * rewrite lookup_insert_ne in H by done. destruct (hk_arena h Hh a' ar' H) as (G1 & G2 & G3 & G4 & G5 & G6 & G7).
        split_and!; try done; [intros x Hx; apply H8; left; by apply G6|]. destruct (a_desc ar') as [k'|]; [|done]. destruct G7 as (? & ? & Ec). split_and!; try done.
        rewrite Hfr. case_decide; [|done]. subst k'. rewrite filter_app, filter_blocks, decide_False, app_nil_r by (done || lia). done.
    + cbn [arenas h']. by apply apart_add.
    + intros k'. rewrite Hfr. case_decide; [|apply Hh]. apply NoDup_app. split_and!; [apply Hh| |by apply blocks_nodup].
      intros b Hb Hb'. by apply (Hnew k b Hb), Hblk.
    + intros k' b. rewrite Hfr. cbn [arenas h']. case_decide as E; [subst k'; rewrite elem_of_app; intros [Hb|Hb]|intros Hb].
      * rewrite lookup_insert_ne by (by apply not_eq_sym, (Hnew k)). by apply (hk_free h Hh).
      * rewrite (Hblk b Hb), lookup_insert_eq. apply elem_of_blocks in Hb as (i & Hi & ->). eexists _, i. split; [done|]. split_and!; (done || lia).
      * rewrite lookup_insert_ne by (by apply not_eq_sym, (Hnew k')). by apply (hk_free h Hh).
  - intros b c. split.
    + intros [a' ar' k' i Har Hk' Hi Hf|a' ar' Har Hk']; cbn [arenas h'] in Har; (destruct (decide (a' = a)) as [->|Hne]; [rewrite lookup_insert_eq in Har; injection Har as <-|rewrite lookup_insert_ne in Har by done]); try done.
      * injection Hk' as <-. exfalso. apply Hf. rewrite Hfr, decide_True, elem_of_app by done. right. apply elem_of_blocks. exists i. split; [lia|done].
      * apply (in_arena h a' ar'); try done. intros Hin. apply Hf. rewrite Hfr. case_decide; [|done]. subst. apply elem_of_app. by left.
      * by apply (in_pages h a' ar').
    + intros [a' ar' k' i Har Hk' Hi Hf|a' ar' Har Hk'].
      * assert (a' ≠ a) by congruence. apply (in_arena h' a' ar'); try done; [cbn [arenas h']; by rewrite lookup_insert_ne|]. rewrite Hfr. case_decide; [|done]. subst k'.
        rewrite not_elem_of_app. split; [done|]. intros Hb%Hblk. destruct (hk_arena h Hh a' ar' Har) as (G1 & G2 & G3 & G4 & _ & _ & G7).
        rewrite Hk' in G7. destruct G7 as (Gl & Gk & _). unfold npages in *. rewrite Gl in *. rewrite block_arena in Hb by (done || lia). done.
      * apply (in_pages h' a' ar'); try done. cbn [arenas h']. rewrite lookup_insert_ne; [done|congruence].
Qed.

Lemma alloc_arena h b c a ar : heap_ok h → allocated h b c → arenas h !! a = Some ar → block2arena b = a →
  match a_desc ar with
  | Some k => ∃ i, 0 ≤ i < bcount k ∧ b = block a k i ∧ (block a k i ∉ free_of h k) ∧ c = bsize k
  | None => b = a + 12 ∧ c = 4096 * npages ar - 12
  end.
Proof.
  intros Hh Hal Har Hb. destruct Hal as [a' ar' k i Har' Hk Hi Hf|a' ar' Har' Hk]; destruct (hk_arena h Hh a' ar' Har') as (G1 & G2 & G3 & G4 & _ & _ & G7); rewrite Hk in G7.
  - destruct G7 as (Gl & Gk & _). unfold npages in *. rewrite Gl in *. rewrite block_arena in Hb by (done || lia). subst a'. assert (ar' = ar) as -> by congruence. rewrite Hk. eauto.
  - rewrite (block2arena_eq a' (a' + 12)) in Hb by (done || lia). subst a'. assert (ar' = ar) as -> by congruence. by rewrite Hk.
Qed.

(** An arena is given back, with its free blocks; the others stay. *)
Lemma drop_ok h a ar p ds m : heap_ok h → arenas h !! a = Some ar →
  page_kernel p = page_kernel (pages h) → (∀ x, page_owned p x ↔ page_owned (pages h) x ∧ ¬ of_pages a (npages ar) x) →
  length ds = 7%nat → (∀ k d, ds !! k = Some d → block_size d = bsize k ∧ blocks_per_arena d = bcount k) →
  let h' := Heap p ds (delete a (arenas h)) m in
  (∀ k, free_of h' k = filter (λ b, block2arena b ≠ a) (free_of h k)) →
  heap_ok h' ∧ ∀ b c, allocated h' b c ↔ allocated h b c ∧ block2arena b ≠ a.
Proof.
  intros Hh Har Hkn Hown Hlen Hds h' Hfr. destruct (hk_arena h Hh a ar Har) as (H1 & H2 & H3 & H4 & _).
  assert (Hba : ∀ a' ar', arenas h !! a' = Some ar' → a' ≠ a → ∀ x, of_pages a' (npages ar') x → page_owned p x).
  { intros a' ar' H Hne x Hx. apply Hown. destruct (hk_arena h Hh a' ar' H) as (G1 & G2 & G3 & G4 & _ & G6 & _). split; [by apply G6|].
    unfold of_pages in *. intros Hx'. destruct (Z.lt_total a a') as [Hlt|[?|Hlt]]; [|congruence|].
    - pose proof (hk_apart h Hh _ _ _ _ Har H Hlt). lia.
    - pose proof (hk_apart h Hh _ _ _ _ H Har Hlt). lia. }
  split.
  - split; try done.
    + intros a' ar' H. cbn [arenas h'] in H. apply lookup_delete_Some in H as [Hne H]. destruct (hk_arena h Hh a' ar' H) as (G1 & G2 & G3 & G4 & G5 & G6 & G7).
      unfold arena_ok. cbn [pages h']. rewrite Hkn. split_and!; try done; [exact (Hba a' ar' H (not_eq_sym Hne))|].
      destruct (a_desc ar') as [k'|]; [|done]. destruct G7 as (? & ? & Ec). split_and!; try done. rewrite Ec, Hfr, list_filter_filter. do 2 f_equal. apply list_filter_iff. intros b. naive_solver.
    + intros a1 a2 r1 r2 E1 E2. cbn [arenas h'] in E1, E2. apply lookup_delete_Some in E1 as [_ E1], E2 as [_ E2]. exact (hk_apart h Hh a1 a2 r1 r2 E1 E2).
    + intros k. rewrite Hfr. apply NoDup_filter, Hh.
    + intros k b Hb. rewrite Hfr in Hb. apply list_elem_of_filter in Hb as [Hne Hb]. destruct (hk_free h Hh k b Hb) as (r & i & E & ?). exists r, i.
      cbn [arenas h']. by rewrite lookup_delete_ne by done.
  - intros b c. split.
    + intros Hal. destruct Hal as [a' ar' k i E Hk Hi Hf|a' ar' E Hk]; cbn [arenas h'] in E; apply lookup_delete_Some in E as [Hne E];
        destruct (hk_arena h Hh a' ar' E) as (G1 & G2 & G3 & G4 & _ & _ & G7); rewrite Hk in G7.
      * destruct G7 as (Gl & Gk & _). unfold npages in *. rewrite Gl in *. assert (Hb2 : block2arena (block a' k i) = a') by (apply block_arena; (done || lia)).
        rewrite Hb2. split; [|done]. apply (in_arena h a' ar'); try done. intros Hin. apply Hf. rewrite Hfr. apply list_elem_of_filter. split; [|done]. by rewrite Hb2.
      * rewrite (block2arena_eq a' (a' + 12)) by (done || lia). split; [|done]. by apply (in_pages h a' ar').
    + intros [Hal Hne]. destruct Hal as [a' ar' k i E Hk Hi Hf|a' ar' E Hk];
        destruct (hk_arena h Hh a' ar' E) as (G1 & G2 & G3 & G4 & _ & _ & G7); rewrite Hk in G7.
      * destruct G7 as (Gl & Gk & _). unfold npages in *. rewrite Gl in *. rewrite block_arena in Hne by (done || lia).
        apply (in_arena h' a' ar'); try done; [cbn [arenas h']; by rewrite lookup_delete_ne|]. rewrite Hfr. rewrite list_elem_of_filter. naive_solver.
      * rewrite (block2arena_eq a' (a' + 12)) in Hne by (done || lia). apply (in_pages h' a' ar'); try done. cbn [arenas h']. by rewrite lookup_delete_ne.
Qed.

Lemma arena_count h a ar k : heap_ok h → arenas h !! a = Some ar → a_desc ar = Some k →
  large ar = false ∧ (k < 7)%nat ∧ cnt ar = Z.of_nat (length (filter (λ b, block2arena b = a) (free_of h k))) ∧
  filter (λ b, block2arena b = a) (free_of h k) ⊆+ blocks a k 0 (Z.to_nat (bcount k)) ∧ 0 ≤ cnt ar ≤ bcount k ≤ 255.
Proof.
  intros Hh Har Hk. destruct (hk_arena h Hh a ar Har) as (G1 & G2 & G3 & G4 & _ & _ & G7). rewrite Hk in G7. destruct G7 as (Gl & Gk & Ec).
  pose proof (bsize_bounds k Gk) as (_ & Hbc & _). set (l := filter (λ b, block2arena b = a) (free_of h k)) in *.
  assert (Hsub : l ⊆+ blocks a k 0 (Z.to_nat (bcount k))).
  { apply NoDup_submseteq; [apply NoDup_filter, Hh|]. intros b Hb. apply list_elem_of_filter in Hb as [E Hb].
    destruct (hk_free h Hh k b Hb) as (r & j & _ & _ & Hj & Ej). rewrite E in Ej. apply elem_of_blocks. exists j. split; [lia|done]. }
  apply submseteq_length in Hsub as Hlen. rewrite arena_blocks_length in Hlen. split_and!; (done || lia).
Qed.

(** An arena is full of free blocks exactly when its count says so. *)
Lemma arena_all_free h a ar k : heap_ok h → arenas h !! a = Some ar → a_desc ar = Some k →
  cnt ar = bcount k ↔ ∀ i, 0 ≤ i < bcount k → block a k i ∈ free_of h k.
Proof.
  intros Hh Har Hk. destruct (arena_count h a ar k Hh Har Hk) as (Gl & Gk & Ec & Hsub & Hc). destruct (hk_arena h Hh a ar Har) as (G1 & G2 & G3 & G4 & _).
  unfold npages in *. rewrite Gl in *. split.
  - intros E i Hi. apply submseteq_length_Permutation in Hsub as Hperm; [|rewrite arena_blocks_length; lia].
    assert (Hb : block a k i ∈ filter (λ b, block2arena b = a) (free_of h k)) by (rewrite Hperm; apply elem_of_blocks; exists i; split; [lia|done]).
    by apply list_elem_of_filter in Hb as [_ Hb].
  - intros Hall. assert (Hs : blocks a k 0 (Z.to_nat (bcount k)) ⊆+ filter (λ b, block2arena b = a) (free_of h k)).
    { apply NoDup_submseteq; [by apply blocks_nodup|]. intros b (i & Hi & ->)%elem_of_blocks. apply list_elem_of_filter. split; [apply block_arena; (done || lia)|apply Hall; lia]. }
    apply submseteq_length in Hs. rewrite arena_blocks_length in Hs. lia.
Qed.

(** *** Running the operations *)

Lemma zeroes_lookup a n m x : zeroes a n m !! x = if decide (a ≤ x < a + n) then Some 0 else m !! x.
Proof.
  unfold zeroes. destruct (decide (n ≤ 0)) as [Hn|Hn].
  - rewrite seqZ_nil by done. rewrite decide_False by lia. done.
  - replace n with (Z.of_nat (Z.to_nat n)) by lia. generalize (Z.to_nat n) as k. clear Hn. intros k. revert a. induction k as [|k IH]; intros a.
    + rewrite decide_False by lia. done.
    + rewrite Nat2Z.inj_succ, seqZ_cons, Z.pred_succ by lia. cbn [foldr]. destruct (decide (x = a)) as [->|Hx].
      * rewrite lookup_insert_eq, decide_True by lia. done.
      * rewrite lookup_insert_ne by done. rewrite IH. repeat case_decide; try done; lia.
Qed.

Lemma on_pages_run {X} (m : M P X) h v p : m (pages h) = Ok (v, p) → on_pages m h = Ok (v, Heap p (descs h) (arenas h) (bytes h)).
Proof. unfold on_pages. by intros ->. Qed.

Lemma desc_at_run k d h : descs h !! k = Some d → desc_at k h = Ok (d, h).
Proof. unfold desc_at. by intros ->. Qed.

Lemma arena_at_run a ar h : arenas h !! a = Some ar → arena_at a h = Ok (ar, h).
Proof. unfold arena_at. by intros ->. Qed.

Lemma heap_pages_update h h' a ar ar' : arenas h !! a = Some ar → arenas h' = <[a := ar']> (arenas h) → npages ar' = npages ar →
  ∀ x, heap_pages h' x ↔ heap_pages h x.
Proof.
  intros Har E En x. unfold heap_pages. rewrite E. split; intros (a' & r & Hr & Hx); destruct (decide (a' = a)) as [->|Hne].
  - rewrite lookup_insert_eq in Hr. injection Hr as <-. exists a, ar. by rewrite <-En.
  - rewrite lookup_insert_ne in Hr by done. eauto.
  - exists a, ar'. rewrite lookup_insert_eq. split; [done|]. assert (r = ar) as -> by congruence. by rewrite En.
  - exists a', r. by rewrite lookup_insert_ne.
Qed.

Lemma take_block_run h k d b l :
  heap_ok h → page_ok true (pages h) → descs h !! k = Some d → free_list d = b :: l →
  (∀ a ar k', arenas h !! a = Some ar → a_desc ar = Some k' → a ≠ block2arena b → cnt ar < bcount k') →
  ∃ h', take_block k h = Ok (b, h') ∧ heap_ok h' ∧ tight h' ∧ page_ok false (pages h') ∧ 0 < b ∧
    (∀ c, ¬ allocated h b c) ∧ (∀ b' c, allocated h' b' c ↔ allocated h b' c ∨ b' = b ∧ c = bsize k) ∧
    bytes h' = zeroes b (bsize k) (bytes h) ∧ (∀ x, foreign h' x ↔ foreign h x).
Proof.
  intros Hh Hp Hd El Ht. assert (Ef : free_of h k = b :: l) by (unfold free_of; by rewrite Hd).
  destruct (hk_free h Hh k b) as (ar & i & Har & Hk & Hi & Eb); [rewrite Ef; by left|]. set (a := block2arena b) in *.
  destruct (arena_count h a ar k Hh Har Hk) as (Hlg & Hk7 & Hc & _ & Hcr). pose proof (hk_arena h Hh a ar Har) as (G1 & G2 & _).
  destruct (hk_descs h Hh k d Hd) as [Ebs _]. rewrite Ef in Hc. rewrite filter_cons, decide_True in Hc by done. cbn [length] in Hc.
  pose proof (hk_nodup h Hh k) as Hnd. rewrite Ef in Hnd. apply NoDup_cons in Hnd as [Hbl Hnl].
  destruct (move_block h a ar k d i l (zeroes b (bsize k) (bytes h)) Hh Hd Har Hk Hi Hnl) as [Hok Hal].
  { intros x Hx. rewrite <-Eb in Hx. rewrite Ef, elem_of_cons. naive_solver. }
  { intros a' Ha'. rewrite Ef, filter_cons, decide_False by (by apply not_eq_sym). done. }
  rewrite <-Eb in Hal. set (ar2 := Arena (Some k) (Z.of_nat (length (filter (λ b0, block2arena b0 = a) l))) false) in *.
  set (h1 := Heap _ _ _ _) in Hok, Hal. destruct (release_law (pages h) Hp) as (p' & Er & Hp' & Ho & Hkn).
  set (h' := Heap p' (descs h1) (arenas h1) (bytes h1)).
  assert (Hok' : heap_ok h') by (apply (heap_ok_pages h1); [done|intros x; apply Ho|done]).
  assert (Hal' : ∀ b' c, allocated h' b' c ↔ allocated h1 b' c).
  { intros b' c. split; intros []; (by eapply in_arena) || (by eapply in_pages). }
  exists h'. split_and!; try done.
  - unfold take_block. mstep (desc_at_run k d h Hd). rewrite El. unfold put_desc, clear, mmod, mbnd. cbn [rbind fst snd].
    fold a. erewrite arena_at_run by exact Har. cbn [rbind fst snd]. unfold put_arena, mmod. cbn [rbind fst snd].
    rewrite (on_pages_run page_release _ tt p') by exact Er. cbn [rbind fst snd pages descs arenas bytes]. unfold mok. do 2 f_equal.
    unfold h', h1. cbn [descs arenas bytes]. rewrite Ebs, Hk, Hlg, u32_small by lia. do 3 f_equal. unfold ar2. f_equal. lia.
  - intros a' ar' k' H' Hk'. cbn [arenas h' h1] in H'. destruct (decide (a' = a)) as [->|Hne].
    + rewrite lookup_insert_eq in H'. injection H' as <-. cbn [a_desc ar2] in Hk'. injection Hk' as <-. cbn [cnt ar2]. lia.
    + rewrite lookup_insert_ne in H' by done. by apply (Ht a' ar').
  - pose proof (bsize_bounds k Hk7). unfold block in Eb. nia.
  - intros c Hc'. rewrite Eb, (allocated_block h a ar k i) in Hc' by done. rewrite <-Eb, Ef in Hc'. apply (proj2 Hc'). by left.
  - intros b' c. rewrite Hal'. destruct (decide (b' = b)) as [->|Hne].
    + rewrite Eb. rewrite (allocated_block h1 a ar2 k i c Hok (lookup_insert_eq _ _ _) eq_refl Hi). rewrite (allocated_block h a ar k i c Hh Har Hk Hi).
      unfold h1. rewrite free_of_put, decide_True, <-Eb by done. naive_solver.
    + rewrite Hal by done. naive_solver.
  - intros x. unfold foreign. rewrite (heap_pages_update h h' a ar ar2 Har eq_refl) by (unfold npages; by rewrite Hlg). cbn [pages h']. by rewrite Ho.
Qed.

Lemma find_desc_run ds size d : d ∈ ds → size ≤ block_size d → ∃ d', ds !! find_desc ds size = Some d' ∧ size ≤ block_size d'.
Proof.
  induction ds as [|x ds IH]; intros Hd Hs; [by apply not_elem_of_nil in Hd|]. cbn [find_desc]. destruct (Z.leb_spec size (block_size x)) as [Hx|Hx]; [by exists x|].
  apply elem_of_cons in Hd as [->|Hd]; [lia|]. by apply IH.
Qed.

Lemma find_desc_fits h size : heap_ok h → size ≤ 1024 → ∃ d, descs h !! find_desc (descs h) size = Some d ∧ (find_desc (descs h) size < 7)%nat ∧ size ≤ bsize (find_desc (descs h) size).
Proof.
  intros Hh Hs. destruct (desc_some h 6 Hh ltac:(lia)) as (d6 & E6 & S6 & _). destruct (find_desc_run (descs h) size d6) as (d & E & Hd).
  { by eapply list_elem_of_lookup_2. } { rewrite S6. exact Hs. }
  exists d. split; [done|]. rewrite <-(proj1 (hk_descs h Hh _ _ E)). split; [|done]. rewrite <-(hk_len h Hh). by eapply lookup_lt_Some.
Qed.

Lemma foreign_add h h' a ar : arenas h !! a = None → new_pages a (npages ar) (pages h) (pages h') → arenas h' = <[a := ar]> (arenas h) →
  ∀ x, foreign h' x ↔ foreign h x.
Proof.
  intros Hn (_ & _ & _ & _ & _ & _ & Hno & Ho) E x.
  assert (Hhp : heap_pages h' x ↔ heap_pages h x ∨ of_pages a (npages ar) x).
  { unfold heap_pages. rewrite E. split.
    - intros (a' & r & Hr & Hx). destruct (decide (a' = a)) as [->|Hne]; [rewrite lookup_insert_eq in Hr; injection Hr as <-; by right|]. rewrite lookup_insert_ne in Hr by done. left. eauto.
    - intros [(a' & r & Hr & Hx)|Hx]; [|exists a, ar; by rewrite lookup_insert_eq]. exists a', r. rewrite lookup_insert_ne; [done|congruence]. }
  unfold foreign. rewrite Ho, Hhp. naive_solver.
Qed.

Lemma new_arena_run h k d : heap_ok h → page_ok true (pages h) → page_room 1 (pages h) → descs h !! k = Some d → (k < 7)%nat → free_list d = [] →
  ∃ a p, new_pages a 1 (pages h) p ∧ page_ok true p ∧
    new_arena k h = Ok (true, Heap p (<[k := set_free (blocks a k 0 (Z.to_nat (bcount k))) d]> (descs h))
      (<[a := Arena (Some k) (bcount k) false]> (arenas h)) (zeroes a 4096 (bytes h))).
Proof.
  intros Hh Hp Hroom Hd Hk El. destruct (get_law (pages h) 1 Hp ltac:(lia) Hroom) as (a & p & Eg & Hp' & H1 & H2 & H3 & H4 & H5 & H6 & H7).
  exists a, p. destruct (hk_descs h Hh k d Hd) as [Ebs Ebc]. pose proof (bsize_bounds k Hk) as (_ & Hbc & _). split; [by repeat split; try apply H7; try lia|]. split; [done|].
  unfold new_arena. mstep (on_pages_run (page_get 1) h a p Eg). rewrite (proj2 (Z.eqb_neq a NULL)) by (unfold NULL; lia).
  unfold clear, put_arena, put_desc, mmod. do 1 (unfold mbnd at 1; cbn [rbind fst snd]). unfold PG_SIZE.
  erewrite mbnd_Ok by (apply desc_at_run; exact Hd). unfold mbnd at 1; cbn [rbind fst snd]. rewrite Ebs, Ebc, El.
  erewrite mbnd_Ok by (apply mlift_Ok, add_blocks_run; [lia|lia|done|lia|lia|intros b _; apply not_elem_of_nil]). done.
Qed.

(** What a successful request gives, in terms of the abstract heap *)
Record served (size : Z) h (live : gmap Z Z) (b n : Z) h' : Prop := {
  sv_pos : 0 < b;
  sv_size : size ≤ n;
  sv_new : live !! b = None;
  sv_rep : rep h' (<[b := n]> live);
  sv_apart : ∀ b' n', live !! b' = Some n' → b' + n' ≤ b ∨ b + n ≤ b';
  sv_zero : ∀ x, b ≤ x < b + n → bytes h' !! x = Some 0;
  sv_keep : ∀ b' n' x, live !! b' = Some n' → b' ≤ x < b' + n' → bytes h' !! x = bytes h !! x;
  sv_foreign : ∀ x, foreign h' x ↔ foreign h x
}.

(** The abstract part follows from what happened to the concrete blocks. *)
Lemma served_intro size h live b n h' : rep h live → heap_ok h' → tight h' → page_ok false (pages h') → 0 < b → size ≤ n →
  (∀ c, ¬ allocated h b c) → (∀ b' c, allocated h' b' c ↔ allocated h b' c ∨ b' = b ∧ c = n) →
  (∀ x, b ≤ x < b + n → bytes h' !! x = Some 0) →
  (∀ b' n' x, allocated h b' n' → b' ≤ x < b' + n' → ¬ b ≤ x < b + n → bytes h' !! x = bytes h !! x) →
  (∀ x, foreign h' x ↔ foreign h x) → served size h live b n h'.
Proof.
  intros [Hok Ht Hp Hlive] Hok' Ht' Hp' Hb Hn Hno Hal Hz Hkeep Hfo.
  assert (Hap : ∀ b' n', live !! b' = Some n' → b' + n' ≤ b ∨ b + n ≤ b').
  { intros b' n' Hl. apply Hlive in Hl. assert (b' ≠ b) by (intros ->; by apply (Hno n')).
    destruct (allocated_apart h' b' n' b n Hok') as [?|?]; [apply Hal; by left|apply Hal; by right|done|by left|by right]. }
  assert (Hnew : live !! b = None) by (destruct (live !! b) as [c|] eqn:E; [by apply Hlive, Hno in E|done]).
  split; try done.
  - split; try done. intros b' c. rewrite Hal, Hlive, lookup_insert_Some. destruct (decide (b' = b)) as [->|Hne]; naive_solver.
  - intros b' n' x Hl Hx. apply Hkeep with b' n'; [by apply Hlive|done|]. destruct (Hap b' n' Hl); lia.
Qed.

Lemma allocated_pages h (p : P) b c : allocated (Heap p (descs h) (arenas h) (bytes h)) b c ↔ allocated h b c.
Proof. split; intros []; (by eapply in_arena) || (by eapply in_pages). Qed.

(** Bytes of a block in use lie in pages the heap has. *)
Lemma allocated_off_page h b c a n p x : heap_ok h → new_pages a n (pages h) p → allocated h b c → b ≤ x < b + c → ¬ a ≤ x < a + 4096 * n.
Proof.
  intros Hh (H1 & _ & H3 & _ & _ & _ & Hno & _) Hal Hx Hx'. destruct (allocated_inside h b c Hh Hal) as (ar & Har & G1 & G2 & G3 & G4).
  destruct (fresh_apart h a n _ ar Hh Har H1 H3 Hno) as (Q1 & Q2 & Q3). lia.
Qed.

Lemma malloc_small_run h live size : rep h live → 0 < size ≤ 1024 → page_room 1 (pages h) → size < page_pool_size (pages h) →
  ∃ b n h', sys_malloc size h = Ok (b, h') ∧ served size h live b n h'.
Proof.
  intros Hrep Hs Hroom Hps. pose proof Hrep as [Hok Ht Hp Hlive]. destruct (acquire_law (pages h) Hp) as (p1 & Ea & Hp1 & Ho1 & Hr1 & Hk1).
  set (h1 := Heap p1 (descs h) (arenas h) (bytes h)). assert (Hok1 : heap_ok h1) by (apply (heap_ok_pages h); [done|intros x; apply Ho1|done]).
  assert (Hf1 : ∀ x, foreign h1 x ↔ foreign h x) by (intros x; unfold foreign, heap_pages; cbn [pages arenas h1]; by rewrite Ho1).
  destruct (find_desc_fits h size Hok ltac:(lia)) as (d & Hd & Hk & Hfit). set (k := find_desc (descs h) size) in *.
  assert (E0 : sys_malloc size h = (let! ok := (if bool_decide (free_list d = []) then new_arena k else mok true) in
    if negb ok then do! on_pages page_release in mok NULL else take_block k) h1).
  { unfold sys_malloc. mstep (eq_refl : mget _ h = Ok (_, h)). rewrite (proj2 (Z.ltb_lt 0 size)), (proj2 (Z.ltb_lt size _)) by lia. cbn [negb andb].
    mstep (on_pages_run page_acquire h tt p1 Ea). fold h1. rewrite (proj2 (Z.ltb_ge 1024 size)) by lia.
    mstep (eq_refl : mget descs h1 = Ok (descs h, h1)). fold k. by mstep (desc_at_run k d h1 Hd). }
  rewrite E0. case_bool_decide as El.
  - destruct (new_arena_run h1 k d Hok1 Hp1 (Hr1 1 Hroom) Hd Hk El) as (a & p2 & Hnp & Hp2 & En).
    pose proof (bsize_bounds k Hk) as (Hb1 & Hb2 & _). set (c := Nat.pred (Z.to_nat (bcount k))).
    assert (Ebl : blocks a k 0 (Z.to_nat (bcount k)) = block a k 0 :: blocks a k (0 + 1) c) by (rewrite <-blocks_S; f_equal; unfold c; lia).
    rewrite Ebl in En. mstep En. cbn [negb]. set (h2 := Heap p2 _ _ _).
    assert (Ef : free_of h1 k = []) by (unfold free_of; cbn [descs h1]; rewrite Hd; exact El).
    destruct (add_small h1 a k d p2 (zeroes a 4096 (bytes h1)) Hok1 Hnp Hd Hk) as [Hok2 Hal2]. rewrite Ef, Ebl in Hok2, Hal2. cbn [app] in Hok2, Hal2. fold h2 in Hok2, Hal2.
    assert (Hba : block2arena (block a k 0) = a) by (destruct Hnp as (? & ? & ? & ? & _); apply block_arena; (done || lia)).
    destruct (take_block_run h2 k (set_free (block a k 0 :: blocks a k (0 + 1) c) d) (block a k 0) (blocks a k (0 + 1) c) Hok2 Hp2) as (h' & E & Hok' & Ht' & Hp' & Hb & Hno & Hal & Hby & Hfo).
    { cbn [descs h2 h1]. apply list_lookup_insert_eq. by eapply lookup_lt_Some. } { done. }
    { rewrite Hba. intros a' ar' k' H' Hk' Hne. cbn [arenas h2 h1] in H'. rewrite lookup_insert_ne in H' by done. by apply (Ht a' ar'). }
    exists (block a k 0), (bsize k), h'. split; [exact E|]. pose proof (block_inside a k 0 Hk ltac:(lia)) as Hin.
    apply served_intro; try done.
    + intros b' Hc. apply (Hno b'). apply Hal2. by apply allocated_pages.
    + intros b' b'n. rewrite Hal, Hal2. unfold h1. by rewrite allocated_pages.
    + intros x Hx. rewrite Hby, zeroes_lookup, decide_True by done. done.
    + intros b' n' x Hb' Hx Hxn. rewrite Hby, zeroes_lookup, decide_False by done. cbn [bytes h2]. rewrite zeroes_lookup, decide_False; [done|].
      replace 4096 with (4096 * 1) by done. apply (allocated_off_page h1 b' n' a 1 p2 x); [done|done|by apply allocated_pages|done].
    + intros x. rewrite Hfo, <-Hf1. apply (foreign_add h1 h2 a (Arena (Some k) (bcount k) false)); [by eapply arena_none|done|done].
  - mstep (eq_refl : mok true h1 = Ok (true, h1)). cbn [negb]. destruct (free_list d) as [|b l] eqn:Efl; [done|].
    destruct (take_block_run h1 k d b l Hok1 Hp1 Hd Efl) as (h' & E & Hok' & Ht' & Hp' & Hb & Hno & Hal & Hby & Hfo); [by intros a ar k' Ha Hk' _; apply (Ht a ar)|].
    exists b, (bsize k), h'. split; [exact E|]. apply served_intro; try done.
    + intros c Hc. apply (Hno c). by apply allocated_pages.
    + intros b' c. rewrite Hal. unfold h1. by rewrite allocated_pages.
    + intros x Hx. rewrite Hby, zeroes_lookup, decide_True by done. done.
    + intros b' n' x _ _ Hx. rewrite Hby, zeroes_lookup, decide_False by done. done.
    + intros x. by rewrite Hfo.
Qed.

Definition pages_for (size : Z) : Z := DIV_ROUND_UP (u32 (size + arena_size)) PG_SIZE.

Lemma pages_for_eq size : 0 < size ≤ 15724532 → pages_for size = (size + 4107) / 4096.
Proof. intros H. unfold pages_for, DIV_ROUND_UP, arena_size, PG_SIZE. rewrite (u32_small (size + 12)), u32_small by lia. f_equal. lia. Qed.

Lemma malloc_large_run h live size : rep h live → 1024 < size ≤ 15724532 → page_room (pages_for size) (pages h) → size < page_pool_size (pages h) →
  ∃ b n h', sys_malloc size h = Ok (b, h') ∧ served size h live b n h'.
Proof.
  intros Hrep Hs Hroom Hps. pose proof Hrep as [Hok Ht Hp Hlive]. destruct (acquire_law (pages h) Hp) as (p1 & Ea & Hp1 & Ho1 & Hr1 & Hk1).
  set (h1 := Heap p1 (descs h) (arenas h) (bytes h)). assert (Hok1 : heap_ok h1) by (apply (heap_ok_pages h); [done|intros x; apply Ho1|done]).
  pose proof (pages_for_eq size ltac:(lia)) as En. set (n := pages_for size) in *. assert (Hn : 1 ≤ n < 3840 ∧ size ≤ 4096 * n - 12) by (rewrite En; zsolve).
  destruct (get_law p1 n Hp1 ltac:(lia) (Hr1 n Hroom)) as (a & p2 & Eg & Hp2 & H1 & H2 & H3 & H4 & H5 & H6 & H7).
  assert (Hnp : new_pages a n (pages h1) p2) by (by repeat split; try apply H7; try lia).
  set (h2 := Heap p2 (descs h) (<[a := Arena None n true]> (arenas h)) (zeroes a (n * 4096) (bytes h))).
  destruct (add_large h1 a n p2 (bytes h2) Hok1 Hnp : heap_ok h2 ∧ ∀ b c, allocated h2 b c ↔ _) as [Hok2 Hal2].
  destruct (release_law p2 Hp2) as (p3 & Er & Hp3 & Ho3 & Hk3). set (h' := Heap p3 (descs h2) (arenas h2) (bytes h2)).
  exists (a + 12), (4096 * n - 12), h'. split.
  { unfold sys_malloc. mstep (eq_refl : mget _ h = Ok (_, h)). rewrite (proj2 (Z.ltb_lt 0 size)), (proj2 (Z.ltb_lt size _)) by lia. cbn [negb andb].
    mstep (on_pages_run page_acquire h tt p1 Ea). fold h1. rewrite (proj2 (Z.ltb_lt 1024 size)) by lia. fold (pages_for size) n.
    mstep (on_pages_run (page_get n) h1 a p2 Eg). rewrite (proj2 (Z.eqb_neq a NULL)) by (unfold NULL; lia). cbn [negb].
    unfold clear, put_arena, mmod. do 2 (unfold mbnd at 1; cbn [rbind fst snd]). erewrite mbnd_Ok by (apply on_pages_run; exact Er).
    unfold mok, arena_size. by rewrite u32_small by lia. }
  assert (Hok' : heap_ok h') by (apply (heap_ok_pages h2); [done|intros x; apply Ho3|done]).
  assert (Hnone : arenas h !! a = None) by (apply (arena_none h1 a n p2 Hok1 Hnp)).
  apply served_intro; try done; try lia.
  - intros a' ar' k' H' Hk'. cbn [arenas h' h2] in H'. destruct (decide (a' = a)) as [->|Hne]; [rewrite lookup_insert_eq in H'; injection H' as <-; done|].
    rewrite lookup_insert_ne in H' by done. by apply (Ht a' ar').
  - intros c Hc. apply (allocated_pages h p1) in Hc. destruct (allocated_inside h1 (a + 12) c Hok1 Hc) as (ar & Har & _).
    rewrite (block2arena_eq a (a + 12)) in Har by (done || lia). cbn [arenas h1] in Har. congruence.
  - intros b' c. etransitivity; [exact (allocated_pages h2 p3 b' c)|]. rewrite Hal2. unfold h1. by rewrite allocated_pages.
  - intros x Hx. cbn [bytes h' h2]. rewrite zeroes_lookup, decide_True by lia. done.
  - intros b' n' x Hb Hx _. cbn [bytes h' h2]. rewrite zeroes_lookup, decide_False; [done|]. rewrite Z.mul_comm.
    apply (allocated_off_page h1 b' n' a n p2 x); [done|done|by apply allocated_pages|done].
  - intros x. assert (Hf : foreign h1 x ↔ foreign h x) by (unfold foreign, heap_pages; cbn [pages arenas h1]; by rewrite Ho1).
    rewrite <-Hf, <-(foreign_add h1 h2 a (Arena None n true) Hnone Hnp eq_refl). unfold foreign, heap_pages. cbn [pages arenas h']. by rewrite Ho3.
Qed.

(** *** Giving a block back *)

Lemma foreign_drop h h' a ar : heap_ok h → arenas h !! a = Some ar → arenas h' = delete a (arenas h) →
  (∀ x, page_owned (pages h') x ↔ page_owned (pages h) x ∧ ¬ of_pages a (npages ar) x) → ∀ x, foreign h' x ↔ foreign h x.
Proof.
  intros Hh Har E Ho x. assert (Hin : of_pages a (npages ar) x → heap_pages h x) by (intros Hx; by exists a, ar).
  assert (Hhp : heap_pages h' x ↔ heap_pages h x ∧ ¬ of_pages a (npages ar) x).
  { unfold heap_pages. rewrite E. split.
    - intros (a' & r & (Hne & Hr)%lookup_delete_Some & Hx). split; [eauto|]. intros Hx'. unfold of_pages in *. destruct (Z.lt_total a a') as [Hlt|[?|Hlt]]; [|congruence|].
      + pose proof (hk_apart h Hh _ _ _ _ Har Hr Hlt). lia.
      + pose proof (hk_apart h Hh _ _ _ _ Hr Har Hlt). lia.
    - intros [(a' & r & Hr & Hx) Hn]. exists a', r. split; [|done]. rewrite lookup_delete_ne; [done|]. intros ->. apply Hn. congruence. }
  unfold foreign. rewrite Ho, Hhp. naive_solver.
Qed.

Lemma rep_delete h live b h' : rep h live → heap_ok h' → tight h' → page_ok false (pages h') →
  (∀ b' c, allocated h' b' c ↔ allocated h b' c ∧ b' ≠ b) → rep h' (delete b live).
Proof.
  intros [Hok Ht Hp Hlive] Hok' Ht' Hp' Hal. split; try done. intros b' c. rewrite Hal, Hlive, lookup_delete_Some. naive_solver.
Qed.

Lemma tight_drop h a : tight h → ∀ p ds m, tight (Heap (P := P) p ds (delete a (arenas h)) m).
Proof. intros Ht p ds m a' ar k H. cbn [arenas] in H. apply lookup_delete_Some in H as [_ H]. by apply (Ht a' ar k). Qed.

(** The call up to the point where the header is known *)
Lemma free_start b n h live : rep h live → live !! b = Some n → ∃ p1 ar,
  arenas h !! block2arena b = Some ar ∧ page_ok true p1 ∧ (∀ x, page_owned p1 x ↔ page_owned (pages h) x) ∧ page_kernel p1 = page_kernel (pages h) ∧
  on_pages page_acquire h = Ok (tt, Heap p1 (descs h) (arenas h) (bytes h)) ∧ (b =? NULL) = false ∧
  (if page_kernel (pages h) then ASSERT (K_HEAP_START <=? b) else Ok tt) = Ok tt ∧ allocated h b n.
Proof.
  intros [Hok Ht Hp Hlive] Hl. apply Hlive in Hl. destruct (allocated_inside h b n Hok Hl) as (ar & Har & H1 & H2 & H3 & H4).
  destruct (acquire_law (pages h) Hp) as (p1 & Ea & Hp1 & Ho1 & _ & Hk1). exists p1, ar. split_and!; try done.
  - by apply on_pages_run.
  - apply Z.eqb_neq. unfold NULL. lia.
  - destruct (page_kernel (pages h)) eqn:Ek; [|done]. apply ASSERT_true, Z.leb_le.
    destruct (hk_arena h Hok _ ar Har) as (_ & _ & _ & _ & G5 & _). specialize (G5 Ek). lia.
Qed.

(** A header is dropped with its pages; [hm] is the heap when that happens. *)
Lemma give_back hm a ar ds : heap_ok hm → page_ok true (pages hm) → arenas hm !! a = Some ar →
  length ds = 7%nat → (∀ k d, ds !! k = Some d → block_size d = bsize k ∧ blocks_per_arena d = bcount k) →
  (∀ p k, free_of (P := P) (Heap p ds (delete a (arenas hm)) (bytes hm)) k = filter (λ b, block2arena b ≠ a) (free_of hm k)) →
  ∃ h', (do! on_pages (page_put a (npages ar)) in do! drop_arena a in on_pages page_release) (Heap (pages hm) ds (arenas hm) (bytes hm)) = Ok (tt, h') ∧
    heap_ok h' ∧ page_ok false (pages h') ∧ arenas h' = delete a (arenas hm) ∧ bytes h' = bytes hm ∧
    (∀ b c, allocated h' b c ↔ allocated hm b c ∧ block2arena b ≠ a) ∧ ∀ x, foreign h' x ↔ foreign hm x.
Proof.
  intros Hok Hp Har Hlen Hds Hfr. destruct (hk_arena hm Hok a ar Har) as (G1 & G2 & G3 & G4 & _ & G6 & _).
  destruct (put_law (pages hm) a (npages ar) Hp G3 G1 G6) as (p2 & Ep & Hp2 & Hk2 & Ho2). destruct (release_law p2 Hp2) as (p3 & Er & Hp3 & Ho3 & Hk3).
  assert (Ho : ∀ x, page_owned p3 x ↔ page_owned (pages hm) x ∧ ¬ of_pages a (npages ar) x) by (intros x; by rewrite Ho3).
  set (h' := Heap p3 ds (delete a (arenas hm)) (bytes hm)).
  destruct (drop_ok hm a ar p3 ds (bytes hm) Hok Har ltac:(congruence) Ho Hlen Hds (Hfr p3) : heap_ok h' ∧ ∀ b c, allocated h' b c ↔ _) as [Hok' Hal].
  exists h'. split_and!; try done.
  - erewrite mbnd_Ok by (apply on_pages_run; exact Ep). unfold drop_arena, mmod. unfold mbnd at 1. cbn [rbind fst snd]. by rewrite (on_pages_run page_release _ tt p3).
  - by apply (foreign_drop hm h' a ar).
Qed.

Lemma free_large_run b n h live ar : rep h live → live !! b = Some n → arenas h !! block2arena b = Some ar → a_desc ar = None →
  ∃ h', sys_free b h = Ok (tt, h') ∧ rep h' (delete b live) ∧ bytes h' = bytes h ∧ ∀ x, foreign h' x ↔ foreign h x.
Proof.
  intros Hrep Hl Har Hd. destruct (free_start b n h live Hrep Hl) as (p1 & ar' & Har' & Hp1 & Ho1 & Hk1 & Ea & Hb0 & HA & Hal).
  assert (ar' = ar) as -> by congruence. pose proof Hrep as [Hok Ht Hp Hlive]. set (hm := Heap p1 (descs h) (arenas h) (bytes h)) in *.
  assert (Hokm : heap_ok hm) by (apply (heap_ok_pages h); [done|intros x; apply Ho1|done]).
  destruct (hk_arena h Hok _ ar Har) as (G1 & G2 & G3 & G4 & _ & _ & G7). rewrite Hd in G7.
  destruct (give_back hm (block2arena b) ar (descs h) Hokm Hp1 Har (hk_len h Hok) (hk_descs h Hok)) as (h' & E & Hok' & Hp' & Ea' & Eb' & Hal' & Hfo).
  { intros p k. rewrite filter_all; [done|]. intros x Hx E. destruct (hk_free h Hok k x Hx) as (r & i & Er & Dr & _). rewrite E in Er. congruence. }
  exists h'. split; [|split; [|split; [done|]]].
  - unfold sys_free. rewrite Hb0. rewrite ASSERT_true by done. erewrite mbnd_Ok by done. mstep (eq_refl : mget _ h = Ok (_, h)). mstep (mlift_Ok _ h tt HA).
    mstep Ea. mstep (arena_at_run _ ar hm Har). rewrite Hd, G7. unfold npages in E. rewrite G7 in E. exact E.
  - apply (rep_delete h live b h' Hrep Hok'); [|done|].
    + intros a' r k H. rewrite Ea' in H. apply lookup_delete_Some in H as [_ H]. by apply (Ht a' r k).
    + intros b' c. rewrite Hal'. unfold hm. rewrite allocated_pages. pose proof (alloc_arena h b n _ ar Hok Hal Har eq_refl) as Hb. rewrite Hd in Hb. destruct Hb as [Eb _].
      split; intros [Hc Hne]; (split; [done|]); [by intros ->|]. intros E'. pose proof (alloc_arena h b' c _ ar Hok Hc Har E') as Hq. rewrite Hd in Hq. destruct Hq. congruence.
  - intros x. rewrite Hfo. unfold foreign, heap_pages. cbn [pages arenas hm]. by rewrite Ho1.
Qed.

(** The block is appended to its list and counted. *)
Lemma push_block h a ar k d i : heap_ok h → descs h !! k = Some d → arenas h !! a = Some ar → a_desc ar = Some k → 0 ≤ i < bcount k →
  block a k i ∉ free_of h k →
  let h' := Heap (pages h) (<[k := set_free (Spec.append (block a k i) (free_list d)) d]> (descs h)) (<[a := Arena (a_desc ar) (u32 (cnt ar + 1)) (large ar)]> (arenas h)) (bytes h) in
  heap_ok h' ∧ (∀ b c, allocated h' b c ↔ allocated h b c ∧ b ≠ block a k i) ∧ u32 (cnt ar + 1) = cnt ar + 1 ∧ cnt ar + 1 ≤ bcount k.
Proof.
  intros Hok Hd Har Hk Hi Hnf h'. destruct (arena_count h a ar k Hok Har Hk) as (Hlg & Hk7 & Hc & _ & Hcr). destruct (hk_arena h Hok a ar Har) as (G1 & G2 & G3 & G4 & _).
  unfold npages in *. rewrite Hlg in *. assert (Hb2 : block2arena (block a k i) = a) by (apply block_arena; (done || lia)).
  assert (Ef : free_list d = free_of h k) by (unfold free_of; by rewrite Hd). set (l := Spec.append (block a k i) (free_list d)).
  assert (Hu : u32 (cnt ar + 1) = cnt ar + 1) by (apply u32_small; lia).
  assert (Hcl : cnt ar + 1 = Z.of_nat (length (filter (λ b, block2arena b = a) l))).
  { unfold l, Spec.append. rewrite Ef, filter_app, filter_cons, decide_True, length_app by done. cbn. lia. }
  destruct (move_block h a ar k d i l (bytes h) Hok Hd Har Hk Hi) as [Hok' Hal].
  { unfold l, Spec.append. rewrite Ef. apply NoDup_app. split_and!; [apply Hok| |apply NoDup_singleton]. intros x Hx ->%list_elem_of_singleton. done. }
  { intros x Hx. unfold l, Spec.append. rewrite Ef, elem_of_app, list_elem_of_singleton. naive_solver. }
  { intros a' Ha'. unfold l, Spec.append. rewrite Ef, filter_app, (filter_cons _ (block a k i)), decide_False by congruence. cbn. by rewrite app_nil_r. }
  rewrite <-Hcl in Hok', Hal. set (h2 := Heap _ _ _ _) in Hok', Hal. assert (E : h' = h2) by (unfold h', h2; by rewrite Hu, Hk, Hlg). rewrite E.
  split; [done|]. split.
  - intros b c. destruct (decide (b = block a k i)) as [->|Hne]; [|rewrite Hal by done; naive_solver].
    rewrite (allocated_block h2 a (Arena (Some k) (cnt ar + 1) false) k i c Hok' (lookup_insert_eq _ _ _) eq_refl Hi). unfold h2. rewrite free_of_put, decide_True by done.
    unfold l, Spec.append. rewrite elem_of_app, list_elem_of_singleton. naive_solver.
  - split; [done|]. destruct (arena_count h2 a _ k Hok' (lookup_insert_eq _ _ _) eq_refl) as (_ & _ & _ & _ & Hc2). cbn [cnt] in Hc2. lia.
Qed.

Lemma free_small_run b n h live ar k : rep h live → live !! b = Some n → arenas h !! block2arena b = Some ar → a_desc ar = Some k →
  ∃ h', sys_free b h = Ok (tt, h') ∧ rep h' (delete b live) ∧ bytes h' = bytes h ∧ ∀ x, foreign h' x ↔ foreign h x.
Proof.
  intros Hrep Hl Har Hd. destruct (free_start b n h live Hrep Hl) as (p1 & ar' & Har' & Hp1 & Ho1 & Hk1 & Ea & Hb0 & HA & Hal).
  assert (ar' = ar) as -> by congruence. pose proof Hrep as [Hok Ht Hp Hlive]. set (hm := Heap p1 (descs h) (arenas h) (bytes h)) in *.
  assert (Hokm : heap_ok hm) by (apply (heap_ok_pages h); [done|intros x; apply Ho1|done]). set (a := block2arena b) in *.
  destruct (arena_count h a ar k Hok Har Hd) as (Hlg & Hk7 & _). destruct (desc_some h k Hok Hk7) as (d & Edk & Ebs & Ebc & Efl).
  pose proof (alloc_arena h b n a ar Hok Hal Har eq_refl) as Hbk. rewrite Hd in Hbk. destruct Hbk as (i & Hi & Eb & Hnf & _).
  destruct (push_block hm a ar k d i Hokm Edk Har Hd Hi Hnf) as (Hok1 & Hal1 & Hu & Hle). rewrite <-Eb in Hok1, Hal1. set (h1 := Heap _ _ _ _) in Hok1, Hal1.
  assert (Hf1 : ∀ x, foreign h1 x ↔ foreign h x).
  { intros x. unfold foreign. rewrite (heap_pages_update h h1 a ar _ Har eq_refl) by (unfold npages; cbn; by rewrite Hlg). cbn [pages h1 hm]. by rewrite Ho1. }
  assert (Hal2 : ∀ b' c, allocated h1 b' c ↔ allocated h b' c ∧ b' ≠ b) by (intros b' c; rewrite Hal1; unfold hm; by rewrite allocated_pages).
  assert (E0 : sys_free b h = (if u32 (cnt ar + 1) =? blocks_per_arena d then
      let! l := mlift (remove_blocks (Z.to_nat (blocks_per_arena d)) a 0 (block_size d) (Spec.append b (free_list d))) in
      do! put_desc k (set_free l d) in do! on_pages (page_put a 1) in do! drop_arena a in on_pages page_release
    else on_pages page_release) h1).
  { unfold sys_free. rewrite Hb0, ASSERT_true by done. erewrite mbnd_Ok by done. mstep (eq_refl : mget _ h = Ok (_, h)). mstep (mlift_Ok _ h tt HA).
    mstep Ea. fold a. mstep (arena_at_run a ar hm Har). rewrite Hd. mstep (desc_at_run k d hm Edk). unfold put_arena at 1, put_desc at 1, mmod. do 2 (unfold mbnd at 1; cbn [rbind fst snd]).
    unfold h1. by rewrite Hd. }
  rewrite E0, Hu, Ebc. destruct (Z.eqb_spec (cnt ar + 1) (bcount k)) as [Hfull|Hfull].
  - set (ar1 := Arena (a_desc ar) (u32 (cnt ar + 1)) (large ar)) in *. assert (Har1 : arenas h1 !! a = Some ar1) by apply lookup_insert_eq.
    assert (Hn1 : npages ar1 = 1) by (unfold npages, ar1; cbn; by rewrite Hlg). destruct (hk_arena h Hok a ar Har) as (G1 & G2 & G3 & G4 & _). unfold npages in G4. rewrite Hlg in G4.
    pose proof (bsize_bounds k Hk7) as (_ & Hbc & _). set (l := Spec.append b (free_list d)).
    assert (Hfl : free_of h1 k = l) by (unfold h1; rewrite free_of_put, decide_True by done; done).
    assert (Hall : ∀ x, x ∈ blocks a k 0 (Z.to_nat (bcount k)) → x ∈ l).
    { intros x (j & Hj & ->)%elem_of_blocks. rewrite <-Hfl. apply (proj1 (arena_all_free h1 a ar1 k Hok1 Har1 Hd)); [cbn; lia|lia]. }
    rewrite Ebs. mstep (mlift_Ok _ h1 _ (remove_blocks_run (Z.to_nat (bcount k)) a 0 k l ltac:(lia) ltac:(lia) Hk7 ltac:(lia) ltac:(lia) Hall)).
    set (l2 := filter _ l). unfold put_desc at 1, mmod. unfold mbnd at 1. cbn [rbind fst snd].
    assert (El2 : l2 = filter (λ x, block2arena x ≠ a) l).
    { apply filter_iff_in. intros x Hx. rewrite <-Hfl in Hx. destruct (hk_free h1 Hok1 k x Hx) as (r & j & Er & Dr & Hj & Ej). rewrite elem_of_blocks. split.
      - intros Hn Ex. apply Hn. exists j. rewrite <-Ex. split; [lia|done].
      - intros Hn (j' & Hj' & ->). apply Hn, block_arena; (done || lia). }
    set (ds := <[k := set_free l2 d]> (descs h1)).
    assert (Hdd : descs h1 !! k = Some (set_free l d)) by (apply list_lookup_insert_eq; by eapply lookup_lt_Some).
    assert (Eds : ds = <[k := set_free l2 (set_free l d)]> (descs h1)) by done.
    destruct (descs_put h1 k (set_free l d) l2 Hok1 Hdd) as [Hlen Hds]. rewrite <-Eds in Hlen, Hds.
    destruct (give_back h1 a ar1 ds Hok1 Hp1 Har1 Hlen Hds) as (h' & E & Hok' & Hp' & Ea' & Eb' & Hal' & Hfo).
    { intros p k'. rewrite Eds, free_of_put by done. case_decide as Ek; [by subst k'; rewrite Hfl|]. symmetry. apply filter_all. intros x Hx Ex.
      destruct (hk_free h1 Hok1 k' x Hx) as (r & j & Er & Dr & _). rewrite Ex, Har1 in Er. injection Er as <-. cbn [a_desc ar1] in Dr. congruence. }
    rewrite Hn1 in E. exists h'. split; [exact E|]. split; [|split; [done|intros x; by rewrite Hfo]].
    apply (rep_delete h live b h' Hrep Hok'); [|done|].
    + intros a' r k' H Hk'. rewrite Ea' in H. cbn [arenas h1] in H. apply lookup_delete_Some in H as [Hne H]. rewrite lookup_insert_ne in H by done. by apply (Ht a' r k').
    + intros b' c. rewrite Hal'. split; [intros [Hc _]; by apply Hal2|]. intros [Hc Hne]. split; [by apply Hal2|]. intros Ex.
      pose proof (alloc_arena h1 b' c a ar1 Hok1 (proj2 (Hal2 b' c) (conj Hc Hne)) Har1 Ex) as Hq. cbn [a_desc ar1] in Hq. rewrite Hd in Hq. destruct Hq as (j & Hj & -> & Hnfr & _).
      apply Hnfr. rewrite Hfl. apply Hall, elem_of_blocks. exists j. split; [lia|done].
  - destruct (release_law p1 Hp1) as (p3 & Er & Hp3 & Ho3 & Hk3). set (h' := Heap p3 (descs h1) (arenas h1) (bytes h1)). exists h'.
    split; [exact (on_pages_run page_release h1 tt p3 Er)|]. split; [|split; [done|]].
    + apply (rep_delete h live b h' Hrep).
      * apply (heap_ok_pages h1); [done|intros x; apply Ho3|done].
      * intros a' r k' H Hk'. cbn [arenas h' h1] in H. destruct (decide (a' = a)) as [->|Hne].
        { rewrite lookup_insert_eq in H. injection H as <-. cbn [a_desc cnt] in *. assert (k' = k) as -> by congruence. lia. }
        rewrite lookup_insert_ne in H by done. by apply (Ht a' r k').
      * done.
      * intros b' c. etransitivity; [exact (allocated_pages h1 p3 b' c)|]. apply Hal2.
    + intros x. rewrite <-Hf1. unfold foreign, heap_pages. cbn [pages arenas h']. by rewrite Ho3.
Qed.

End heap_lemmas.

(** ** Theorems *)

Section heap_theorems.
Context {B : Build} {P : Type} {A : PageAlloc P} {L : PageLaws P}.
Implicit Types (h : heap P).

(** The descriptors [block_desc_init] sets up are an empty heap. *)
Theorem block_desc_init_empty (p : P) (m : gmap Z Z) : page_ok false p → rep (Heap p block_desc_init ∅ m) ∅.
Proof.
  intros Hp. assert (Hf : ∀ k, free_of (Heap p block_desc_init ∅ m) k = []).
  { intros k. do 7 (destruct k as [|k]; [done|]). done. }
  split; [split| |done|].
  - done.
  - intros k d Hd. cbn [descs] in Hd. do 7 (destruct k as [|k]; [vm_compute in Hd; injection Hd as <-; done|]). done.
  - intros a ar Ha. cbn [arenas] in Ha; by rewrite lookup_empty in Ha.
  - intros a a' ar ar' Ha. cbn [arenas] in Ha; by rewrite lookup_empty in Ha.
  - intros k. rewrite Hf. apply NoDup_nil_2.
  - intros k b Hb. rewrite Hf in Hb. by apply not_elem_of_nil in Hb.
  - intros a ar k Ha. cbn [arenas] in Ha; by rewrite lookup_empty in Ha.
  - intros b n. rewrite lookup_empty. split; [|done]. intros [a ar k i Ha|a ar Ha]; cbn [arenas] in Ha; by rewrite lookup_empty in Ha.
Qed.

(** C17: [sys_malloc] implements an abstract heap, the map from the addresses of
    the blocks in use to their sizes: a request for [size] bytes, when a page
    allocator that keeps its promises ([PageLaws]) has room, returns the address
    of a block of at least [size] bytes that was not in use, overlaps no block
    in use, and is zeroed; blocks in use keep their contents, pages that are
    taken for something else are not touched, and the invariant of arenas,
    headers and free lists holds again. *)
Theorem malloc_serves size h live :
  rep h live → 0 < size ≤ 15724532 → size < page_pool_size (pages h) →
  page_room (if 1024 <? size then pages_for size else 1) (pages h) →
  ∃ b n h', sys_malloc size h = Ok (b, h') ∧ served size h live b n h'.
Proof.
  intros Hrep Hs Hps Hroom. destruct (Z.ltb_spec 1024 size); [by apply malloc_large_run; [|lia| |]|by apply malloc_small_run; [|lia| |]].
Qed.

(** C18: [sys_free] of a block in use returns and takes the block out of the
    abstract heap; every other block stays in use with its contents, and pages
    that do not belong to the heap are not touched. *)
Theorem free_returns b n h live :
  rep h live → live !! b = Some n →
  ∃ h', sys_free b h = Ok (tt, h') ∧ rep h' (delete b live) ∧ bytes h' = bytes h ∧ ∀ x, foreign h' x ↔ foreign h x.
Proof.
  intros Hrep Hl. destruct (free_start b n h live Hrep Hl) as (p1 & ar & Har & _).
  destruct (a_desc ar) as [k|] eqn:Ed; [by apply (free_small_run b n h live ar k)|by apply (free_large_run b n h live ar)].
Qed.

(** The heap keeps no page when nothing is in use: the last block of an arena
    that comes back takes the arena with it. *)
Theorem heap_no_leak h : rep h ∅ → arenas h = ∅.
Proof.
  intros [Hok Ht _ Hlive]. apply map_empty. intros a. destruct (arenas h !! a) as [ar|] eqn:Har; [exfalso|done].
  destruct (a_desc ar) as [k|] eqn:Ed; [|by apply (in_pages h a ar), Hlive in Har].
  specialize (Ht a ar k Har Ed). pose proof (arena_all_free h a ar k Hok Har Ed) as Hall.
  assert (Hfr : ∀ i, 0 ≤ i < bcount k → block a k i ∈ free_of h k).
  { intros i Hi. destruct (decide (block a k i ∈ free_of h k)) as [|Hn]; [done|]. pose proof (in_arena h a ar k i Har Ed Hi Hn) as Hal. by apply Hlive in Hal. }
  apply Hall in Hfr. lia.
Qed.

(** A bitmap of whole sectors never fills its block: the byte behind it, which
    [bitmap_scan] reads, is in the same page. *)
Lemma map_block_slack sects : 1 ≤ sects ≤ 40 → 1024 < 512 * sects → 512 * sects < 4096 * pages_for (512 * sects) - 12.
Proof. intros H1 H2. rewrite pages_for_eq by lia. zsolve. Qed.

End heap_theorems.
