(* ===== verification/HeapPages.v ===== *)
(** * The page allocator keeps the promises the heap relies on

    [Heap] is proved against the interface [PageAlloc]; here [malloc_page] and
    [mfree_page] of [Paging], with the pool's lock around them, are shown to be
    an instance, for kernel threads and for processes. *)

From S2P Require Import Prelude CString Bitmap Interrupt KList Sched Paging PagePool Heap.

(** The pool [sys_malloc] works on: the user pool when the thread has a page directory. *)
Definition own_pool (st : mst) : pool_flags := if self_pgdir st =? NULL then PF_KERNEL else PF_USER.

(** The pool is in order, and its lock is free or held once by the running thread. *)
Record page_state (held : bool) (st : mst) : Prop := {
  ps_pool : pool_state (own_pool st) st;
  ps_self : self st ≠ NULL;
  ps_lock : pool_lock (pool_of (own_pool st) st) = if held then Lock (self st) 1 else Lock NULL 0
}.

#[export] Instance paging_alloc {B : Build} : PageAlloc mst := {
  page_acquire := λ st, acquire (own_pool st) st;
  page_release := λ st, release (own_pool st) st;
  page_get := λ n st, malloc_page (own_pool st) n st;
  page_put := λ a n st, mfree_page (own_pool st) a n st;
  page_pool_size := λ st, pool_size (pool_of (own_pool st) st);
  page_kernel := λ st, self_pgdir st =? NULL;
  page_ok := page_state;
  page_owned := λ st x, pool_owned (own_pool st) st x;
  page_room := λ n st, pool_room (own_pool st) n st
}.

Section paging_laws.
Context {B : Build}.
Implicit Types (st : mst).

Lemma own_pool_same pf st st' : pool_same pf st st' → own_pool st' = own_pool st ∧ (self_pgdir st' =? NULL) = (self_pgdir st =? NULL).
Proof. intros [_ _ E _ _ _]. unfold own_pool. by rewrite E. Qed.

(** ** The lock *)

Definition relock (l : lock) (st : mst) : mst :=
  let p := pool_of (own_pool st) st in with_pool (own_pool st) (Pool (pool_bitmap p) (phy_addr_start p) (pool_size p) l) st.

Lemma relock_same l st : own_pool (relock l st) = own_pool st ∧ pm (relock l st) = pm st ∧ mcr3 (relock l st) = mcr3 st ∧
  (∀ pf, vaddr_of pf (relock l st) = vaddr_of pf st) ∧ (∀ pf f, frame_free (pool_of pf (relock l st)) f ↔ frame_free (pool_of pf st) f) ∧
  (∀ pf, pool_bitmap (pool_of pf (relock l st)) = pool_bitmap (pool_of pf st) ∧ phy_addr_start (pool_of pf (relock l st)) = phy_addr_start (pool_of pf st)) ∧
  self (relock l st) = self st ∧ self_pgdir (relock l st) = self_pgdir st.
Proof. unfold relock, own_pool. destruct (self_pgdir st =? NULL) eqn:E; cbn; rewrite ?E; split_and!; try done; by intros []. Qed.

Lemma page_state_relock h h' st : page_state h st → page_state h' (relock (if h' then Lock (self st) 1 else Lock NULL 0) st).
Proof.
  intros [[H1 H2 H3 H4 H7 H8] H5 H6]. set (l := if h' then _ else _). destruct (relock_same l st) as (E1 & E2 & E3 & E4 & E5 & E6 & E7 & E8).
  assert (Ho : ∀ i, own_page (own_pool st) (relock l st) i ↔ own_page (own_pool st) st i) by (intros i; unfold own_page; by rewrite E2, E3, E4).
  split; [rewrite E1; split|by rewrite E7|].
  - by apply (tables_ok_ext st).
  - destruct H2. split; rewrite ?E4, ?E2, ?E3; done.
  - destruct (E6 PF_KERNEL) as [_ E]. cbn in E. by rewrite E.
  - by rewrite E4.
  - intros i Hi. apply Ho in Hi. rewrite E4, E2, E3. destruct (H7 i Hi) as (f & Hw & Hd & (j & Hj & Ef) & Hn). destruct (E6 (own_pool st)) as [F1 F2].
    exists f. split; [done|]. split; [unfold data_frame; by rewrite E2, E3|]. split; [exists j; by rewrite F1, F2|by rewrite E5].
  - intros i j f Hi Hj. apply Ho in Hi, Hj. rewrite E4, E2, E3. by apply H8.
  - rewrite E7. unfold relock, own_pool. destruct (self_pgdir st =? NULL) eqn:E; cbn; by rewrite ?E.
Qed.

Lemma owned_relock l st x : page_owned (relock l st) x ↔ page_owned st x.
Proof.
  destruct (relock_same l st) as (E1 & E2 & E3 & E4 & _). cbn [page_owned paging_alloc]. unfold pool_owned, own_page. by rewrite E1, E2, E3, E4.
Qed.

Lemma room_relock l st n : page_room n st → page_room n (relock l st).
Proof.
  cbn [page_room paging_alloc]. unfold pool_room. destruct (relock_same l st) as (E1 & _ & _ & E4 & _ & E6 & _). intros (j & H1 & H2 & H3 & H4). exists j.
  rewrite E1, E4. split_and!; try done. destruct (E6 PF_KERNEL) as [K _], (E6 PF_USER) as [U _]. cbn in K, U.
  destruct (own_pool st); unfold budget, nfree in *; by rewrite ?K, ?U.
Qed.

Lemma acquire_run st : page_state false st → acquire (own_pool st) st = Ok (tt, relock (Lock (self st) 1) st).
Proof.
  intros H. unfold acquire. rewrite (ps_lock _ _ H). unfold lock_enter. cbn [holder holder_repeat_nr].
  rewrite (proj2 (Z.eqb_neq NULL (self st))) by (apply not_eq_sym, H). done.
Qed.

Lemma release_run st : page_state true st → release (own_pool st) st = Ok (tt, relock (Lock NULL 0) st).
Proof.
  intros H. unfold release. rewrite (ps_lock _ _ H). unfold lock_leave. cbn [holder holder_repeat_nr]. by rewrite Z.eqb_refl, !ASSERT_true by done.
Qed.

Lemma page_state_same h st st' : page_state h st → pool_same (own_pool st) st st' → pool_state (own_pool st) st' → page_state h st'.
Proof. intros [_ H2 H3] Hs H. destruct (own_pool_same _ _ _ Hs) as [Eo _], Hs as [_ E1 _ _ _ E2]. split; rewrite ?Eo, ?E1, ?E2; done. Qed.

(** The page allocator of [Paging] satisfies what the heap needs: with the
    pool's lock, [malloc_page] hands out pages nobody owns and [mfree_page]
    takes owned pages back, for kernel threads and for processes. *)
#[export] Instance paging_laws : PageLaws mst.
Proof.
  split.
  - intros st H. exists (relock (Lock (self st) 1) st). split; [by apply acquire_run|]. split; [by apply (page_state_relock false true)|].
    split; [intros x; apply owned_relock|]. split; [intros n; apply room_relock|]. cbn. by destruct (relock_same (Lock (self st) 1) st) as (_ & _ & _ & _ & _ & _ & _ & ->).
  - intros st H. exists (relock (Lock NULL 0) st). split; [by apply release_run|]. split; [by apply (page_state_relock true false)|].
    split; [intros x; apply owned_relock|]. cbn. by destruct (relock_same (Lock NULL 0) st) as (_ & _ & _ & _ & _ & _ & _ & ->).
  - intros st n H Hn Hr. destruct (get_run (own_pool st) st n (ps_pool _ _ H) Hn Hr) as (v & st' & E & H' & Hsame & _ & r & Ev & Hr0 & Hrn & Hown & Hnot).
    destruct (own_pool_same _ _ _ Hsame) as [Eo Ek]. pose proof (pl_start _ _ _ Hsame) as Es.
    destruct (ps_vpool _ _ (ps_pool _ _ H)) as [_ _ Va [Vr1 Vr2] _ _]. exists v, st'. split; [done|].
    split; [by apply (page_state_same true st)|].
    assert (Hidx : ∀ x, of_pages v n x → ∃ i, r ≤ i < r + n ∧ x = vstart (own_pool st) st + 4096 * i).
    { intros x [Hx1 Hx2]. exists ((x - vstart (own_pool st) st) / 4096). rewrite Ev in Hx1. split; zsolve. }
    split_and!; try lia; [rewrite Ev; zsolve| |done| |].
    + cbn. intros Hk. assert (K_HEAP_START ≤ vstart (own_pool st) st); [|lia]. apply (ps_heap _ _ (ps_pool _ _ H)). unfold own_pool. by rewrite Hk.
    + intros x Hx (i & Hi & ->). destruct (Hidx _ Hx) as (j & Hj & Ej). apply (Hnot i Hi). lia.
    + intros x. cbn [page_owned paging_alloc]. unfold pool_owned. rewrite Eo, Es. setoid_rewrite Hown. split.
      * intros (i & [Hi|Hi] & ->); [left; eauto|]. right. unfold of_pages. rewrite Ev. split; zsolve.
      * intros [(i & Hi & ->)|Hx]; [eauto|]. destruct (Hidx x Hx) as (i & Hi & ->). eauto.
  - intros st a n H Hn Ha Hown. destruct (Hown a) as (r & Hr & Er); [unfold of_pages; lia|].
    destruct (ps_vpool _ _ (ps_pool _ _ H)) as [_ _ Va [Vr1 Vr2] _ _].
    assert (Hall : ∀ i, r ≤ i < r + n → own_page (own_pool st) st i).
    { intros i Hi. destruct (Hown (vstart (own_pool st) st + 4096 * i)) as (j & Hj & Ej); [unfold of_pages; split; [lia|zsolve]|]. by replace i with j by lia. }
    destruct (put_run (own_pool st) st r n (ps_pool _ _ H) Hn Hall) as (st' & E & H' & Hsame & Hown').
    destruct (own_pool_same _ _ _ Hsame) as [Eo Ek]. pose proof (pl_start _ _ _ Hsame) as Es.
    exists st'. rewrite Er. split; [done|]. split; [by apply (page_state_same true st)|]. split; [done|].
    intros x. cbn [page_owned paging_alloc]. unfold pool_owned. rewrite Eo, Es. setoid_rewrite Hown'. unfold of_pages. split.
    + intros (i & [Hi Hx] & ->). split; [eauto|]. intros [Hy _]. lia.
    + intros [(i & Hi & ->) Hx]. exists i. split; [|done]. split; [done|]. intros Hy. apply Hx. split; [lia|zsolve].
Qed.

End paging_laws.

(** ** A heap in the address space of [Paging]'s example *)

Lemma demo_page_state : page_state false demo_space.
Proof. split; [exact demo_pool_state|done|done]. Qed.

Definition demo_heap : heap mst := Heap demo_space block_desc_init ∅ ∅.

Lemma demo_heap_rep : rep (A := paging_alloc (B := debug_build)) demo_heap ∅.
Proof. apply (block_desc_init_empty (A := paging_alloc (B := debug_build))). exact demo_page_state. Qed.

Lemma demo_room : page_room (PageAlloc := paging_alloc (B := debug_build)) 1 demo_space.
Proof. exact demo_pool_room. Qed.

Lemma malloc_serves_witness :
  ∃ b n h', sys_malloc (B := debug_build) (A := paging_alloc (B := debug_build)) 100 demo_heap = Ok (b, h') ∧ 100 ≤ n ∧
    ∀ x, b ≤ x < b + n → bytes h' !! x = Some 0.
Proof.
  destruct (malloc_serves (B := debug_build) (A := paging_alloc (B := debug_build)) 100 demo_heap ∅ demo_heap_rep ltac:(lia) ltac:(vm_compute; reflexivity) demo_room) as (b & n & h' & E & Hs).
  exists b, n, h'. split; [exact E|]. split; [apply (sv_size _ _ _ _ _ _ Hs)|exact (sv_zero _ _ _ _ _ _ Hs)].
Defined.

(** A block is taken and given back. *)
Lemma free_returns_witness :
  ∃ b h1 h2, sys_malloc (B := debug_build) (A := paging_alloc (B := debug_build)) 100 demo_heap = Ok (b, h1) ∧
    sys_free (B := debug_build) (A := paging_alloc (B := debug_build)) b h1 = Ok (tt, h2) ∧ bytes h2 = bytes h1.
Proof.
  destruct (malloc_small_run (B := debug_build) (A := paging_alloc (B := debug_build)) demo_heap ∅ 100 demo_heap_rep ltac:(lia) demo_room ltac:(vm_compute; reflexivity)) as (b & n & h1 & E & Hs).
  destruct (free_returns (B := debug_build) (A := paging_alloc (B := debug_build)) b n h1 _ (sv_rep _ _ _ _ _ _ Hs) (lookup_insert_eq _ _ _)) as (h2 & E2 & _ & Hb & _).
  exists b, h1, h2. exact (conj E (conj E2 Hb)).
Defined.
