(* ===== verification/System.v ===== *)
(** * The kernel as one state

    The components of the kernel share memory: a process is a task of the
    scheduler ([Sched]), an owner of pages ([Paging]) and of file descriptors
    ([Inode], [File]).  [sys] puts their states side by side.  A PCB is named by
    its address; its scheduling fields are the [task] of [Sched], the others
    are [pcb].  [Paging] and [Inode] each have a copy of what belongs to the
    running thread; [mem_view] and [fs_view] build their states from the PCB of
    the running thread, and [on_mem] and [on_fs] run their operations there and
    store the result back. *)

From S2P Require Import Prelude CString Bitmap Interrupt KList Sched Paging PagePool Ioqueue Disk Inode File.

(** ** State *)

(** [struct thread_stack], the frame [switch_to] pops from [self_kstack]. *)
Record thread_stack := TStack { ts_ebp : Z; ts_ebx : Z; ts_edi : Z; ts_esi : Z; ts_eip : Z; ts_function : Z; ts_arg : Z }.

(** The fields of [struct task_struct] that [task] does not have.  [istack] is
    the [struct intr_stack] at the end of the PCB's page, word by word;
    [vaddr_bits] is the address of the bytes of [p_vaddr]'s bitmap. *)
Record pcb := Pcb {
  self_kstack : Z;
  name : list Z;
  parent_pid : Z;
  exit_status : Z;
  p_fd_table : list Z;
  p_cwd : Z;
  p_vaddr : virtual_addr;
  vaddr_bits : Z;
  istack : list Z;
  tstack : thread_stack
}.

Definition set_self_kstack v p := Pcb v (name p) (parent_pid p) (exit_status p) (p_fd_table p) (p_cwd p) (p_vaddr p) (vaddr_bits p) (istack p) (tstack p).
Definition set_name v p := Pcb (self_kstack p) v (parent_pid p) (exit_status p) (p_fd_table p) (p_cwd p) (p_vaddr p) (vaddr_bits p) (istack p) (tstack p).
Definition set_parent_pid v p := Pcb (self_kstack p) (name p) v (exit_status p) (p_fd_table p) (p_cwd p) (p_vaddr p) (vaddr_bits p) (istack p) (tstack p).
Definition set_exit_status v p := Pcb (self_kstack p) (name p) (parent_pid p) v (p_fd_table p) (p_cwd p) (p_vaddr p) (vaddr_bits p) (istack p) (tstack p).
Definition set_fds v c p := Pcb (self_kstack p) (name p) (parent_pid p) (exit_status p) v c (p_vaddr p) (vaddr_bits p) (istack p) (tstack p).
Definition set_p_vaddr v p := Pcb (self_kstack p) (name p) (parent_pid p) (exit_status p) (p_fd_table p) (p_cwd p) v (vaddr_bits p) (istack p) (tstack p).
Definition set_vaddr_bits v p := Pcb (self_kstack p) (name p) (parent_pid p) (exit_status p) (p_fd_table p) (p_cwd p) (p_vaddr p) v (istack p) (tstack p).
Definition set_istack v p := Pcb (self_kstack p) (name p) (parent_pid p) (exit_status p) (p_fd_table p) (p_cwd p) (p_vaddr p) (vaddr_bits p) v (tstack p).
Definition set_tstack v p := Pcb (self_kstack p) (name p) (parent_pid p) (exit_status p) (p_fd_table p) (p_cwd p) (p_vaddr p) (vaddr_bits p) (istack p) v.

(** [queues] are the ring buffers of the pipes by the address of their page;
    [screen] is what [put_str] has written. *)
Record sys := Sys {
  ker : kst;
  pcbs : gmap Z pcb;
  thread_all_list : list Z;
  pid_bitmap : bitmap;
  pid_lock : lock;
  main_thread : Z;
  space : mst;
  files : fs;
  queues : gmap Z ioqst;
  kbd_buf : ioqst;
  console_lock : lock;
  screen : list Z
}.

Definition set_ker v s := Sys v (pcbs s) (thread_all_list s) (pid_bitmap s) (pid_lock s) (main_thread s) (space s) (files s) (queues s) (kbd_buf s) (console_lock s) (screen s).
Definition set_pcbs v s := Sys (ker s) v (thread_all_list s) (pid_bitmap s) (pid_lock s) (main_thread s) (space s) (files s) (queues s) (kbd_buf s) (console_lock s) (screen s).
Definition set_all v s := Sys (ker s) (pcbs s) v (pid_bitmap s) (pid_lock s) (main_thread s) (space s) (files s) (queues s) (kbd_buf s) (console_lock s) (screen s).
Definition set_pids b l s := Sys (ker s) (pcbs s) (thread_all_list s) b l (main_thread s) (space s) (files s) (queues s) (kbd_buf s) (console_lock s) (screen s).
Definition set_main v s := Sys (ker s) (pcbs s) (thread_all_list s) (pid_bitmap s) (pid_lock s) v (space s) (files s) (queues s) (kbd_buf s) (console_lock s) (screen s).
Definition set_space v s := Sys (ker s) (pcbs s) (thread_all_list s) (pid_bitmap s) (pid_lock s) (main_thread s) v (files s) (queues s) (kbd_buf s) (console_lock s) (screen s).
Definition set_files v s := Sys (ker s) (pcbs s) (thread_all_list s) (pid_bitmap s) (pid_lock s) (main_thread s) (space s) v (queues s) (kbd_buf s) (console_lock s) (screen s).
Definition set_queues v s := Sys (ker s) (pcbs s) (thread_all_list s) (pid_bitmap s) (pid_lock s) (main_thread s) (space s) (files s) v (kbd_buf s) (console_lock s) (screen s).
Definition set_kbd v s := Sys (ker s) (pcbs s) (thread_all_list s) (pid_bitmap s) (pid_lock s) (main_thread s) (space s) (files s) (queues s) v (console_lock s) (screen s).
Definition set_console l v s := Sys (ker s) (pcbs s) (thread_all_list s) (pid_bitmap s) (pid_lock s) (main_thread s) (space s) (files s) (queues s) (kbd_buf s) l v.

(** ** Access *)

Definition self_thread : M sys Z := mget (λ s, cur (ker s)).
Definition pcb_at (t : Z) : M sys pcb := λ s, match pcbs s !! t with Some p => Ok (p, s) | None => Fault end.
Definition task_at (t : Z) : M sys task := λ s, match tasks (ker s) !! t with Some k => Ok (k, s) | None => Fault end.
Definition upd_pcb (t : Z) (f : pcb → pcb) : M sys unit := λ s,
  match pcbs s !! t with Some p => Ok (tt, set_pcbs (<[t := f p]> (pcbs s)) s) | None => Fault end.
Definition put_pcb (t : Z) (p : pcb) : M sys unit := mmod (λ s, set_pcbs (<[t := p]> (pcbs s)) s).

(** ** The components' views *)

Definition mem_view (k : task) (p : pcb) (s : sys) : mst :=
  Mst (pm (space s)) (cr3 (ker s)) (kernel_pool (space s)) (user_pool (space s)) (kernel_vaddr (space s)) (p_vaddr p) (cur (ker s)) (pgdir k).

(** The pages of the kernel pool that are in use, as the running thread sees them. *)
Definition kernel_owned (s : sys) (x : Z) : Prop :=
  pool_owned PF_KERNEL (Mst (pm (space s)) (cr3 (ker s)) (kernel_pool (space s)) (user_pool (space s)) (kernel_vaddr (space s))
    (userprog_vaddr (space s)) (self (space s)) (self_pgdir (space s))) x.

Definition on_mem {A} (m : M mst A) : M sys A := λ s,
  match tasks (ker s) !! cur (ker s), pcbs s !! cur (ker s) with
  | Some k, Some p =>
      let? r := m (mem_view k p s) in
      Ok (r.1, set_space r.2 (set_pcbs (<[cur (ker s) := set_p_vaddr (userprog_vaddr r.2) p]> (pcbs s)) s))
  | _, _ => Fault
  end.

Definition fs_view (p : pcb) (s : sys) : fs := set_fd_table (p_fd_table p) (set_cwd (p_cwd p) (files s)).

Definition on_fs {A} (m : M fs A) : M sys A := λ s,
  match pcbs s !! cur (ker s) with
  | Some p =>
      let? r := m (fs_view p s) in
      Ok (r.1, set_files r.2 (set_pcbs (<[cur (ker s) := set_fds (fd_table r.2) (cwd_inode_nr r.2) p]> (pcbs s)) s))
  | None => Fault
  end.

(** What [addr_v2p] gives the scheduler for the page directory at [v]. *)
Definition v2p {B : Build} (s : sys) (v : Z) : Z :=
  match on_mem (addr_v2p v) s with Ok r => r.1 | _ => 0 end.

Definition on_ker {B : Build} {A} (m : (Z → Z) → M kst A) : M sys A := λ s,
  let? r := m (v2p s) (ker s) in Ok (r.1, set_ker r.2 s).

(** A queue runs with the processor's EFLAGS; a call that goes to sleep is [Block]. *)
Definition on_queue {A} (q : ioqst) (put : ioqst → sys → sys) (m : M ioqst (outcome A)) : M sys A := λ s,
  let? r := m (IoqSt (ioq q) (kflags (ker s)) (sleeping q)) in
  match r.1 with Done a => Ok (a, put r.2 s) | _ => Block end.

(** ** The console ([device/console.c])

    [put_str] writes the characters in front of the NUL. *)

Section console.
Context {B : Build}.

Definition console_acquire : M sys unit := λ s,
  let? l := lock_enter (cur (ker s)) (console_lock s) in Ok (tt, set_console l (screen s) s).
Definition console_release : M sys unit := λ s,
  let? l := lock_leave (cur (ker s)) (console_lock s) in Ok (tt, set_console l (screen s) s).

Definition put_char (ch : Z) : M sys unit := mmod (λ s, set_console (console_lock s) (screen s ++ [ch]) s).
Fixpoint put_str (str : list Z) : M sys unit :=
  match str with
  | [] => λ _, Fault
  | ch :: str' => if ch =? 0 then mok tt else do! put_char ch in put_str str'
  end.

Definition console_put_str (str : list Z) : M sys unit :=
  do! console_acquire in do! put_str str in console_release.
Definition console_put_char (ch : Z) : M sys unit :=
  do! console_acquire in do! put_char ch in console_release.

End console.

(** ** Lemmas *)

Section view_lemmas.
Context {B : Build}.
Implicit Types (s : sys).

Lemma on_mem_run {A} (m : M mst A) s k p a st :
  tasks (ker s) !! cur (ker s) = Some k → pcbs s !! cur (ker s) = Some p → m (mem_view k p s) = Ok (a, st) →
  on_mem m s = Ok (a, set_space st (set_pcbs (<[cur (ker s) := set_p_vaddr (userprog_vaddr st) p]> (pcbs s)) s)).
Proof. intros E1 E2 E3. unfold on_mem. by rewrite E1, E2, E3. Qed.

Lemma on_fs_run {A} (m : M fs A) s p a f :
  pcbs s !! cur (ker s) = Some p → m (fs_view p s) = Ok (a, f) →
  on_fs m s = Ok (a, set_files f (set_pcbs (<[cur (ker s) := set_fds (fd_table f) (cwd_inode_nr f) p]> (pcbs s)) s)).
Proof. intros E1 E2. unfold on_fs. by rewrite E1, E2. Qed.

Lemma on_ker_run {A} (m : (Z → Z) → M kst A) s a k : m (v2p s) (ker s) = Ok (a, k) → on_ker m s = Ok (a, set_ker k s).
Proof. intros E. unfold on_ker. by rewrite E. Qed.

(** [console_put_str] puts the text on the screen when nobody holds the console. *)
Lemma put_str_run text rest s : Forall is_char text → put_str (text ++ 0 :: rest) s = Ok (tt, set_console (console_lock s) (screen s ++ text) s).
Proof.
  intros H. revert s. induction H as [|c text Hc _ IH]; intros s; cbn [app put_str].
  - rewrite app_nil_r. by destruct s.
  - rewrite (proj2 (Z.eqb_neq c 0)) by (unfold is_char in Hc; lia). unfold mbnd, put_char, mmod. cbn [rbind fst snd]. rewrite IH. cbn. by rewrite <-app_assoc.
Qed.

Lemma console_put_str_run text rest s : Forall is_char text → cur (ker s) ≠ 0 → console_lock s = Lock 0 0 →
  console_put_str (text ++ 0 :: rest) s = Ok (tt, set_console (Lock 0 0) (screen s ++ text) s).
Proof.
  intros Ht Hc Hl. unfold console_put_str, console_acquire, mbnd. rewrite Hl. unfold lock_enter. cbn [holder].
  rewrite (proj2 (Z.eqb_neq 0 _)) by done. cbn [rbind fst snd]. change (0 =? KList.NULL) with true. cbn [rbind fst snd].
  rewrite put_str_run by done. cbn [rbind fst snd console_lock set_console screen]. unfold console_release. cbn [ker set_console console_lock]. unfold lock_leave. cbn [holder holder_repeat_nr].
  by rewrite Z.eqb_refl, !ASSERT_true by done.
Qed.

(** *** A sequence of file-system operations works on one [fs] *)

(** The state in which the running thread [p] has left the file system as [f]. *)
Definition put_fs (p : pcb) (f : fs) s : sys :=
  set_files f (set_pcbs (<[cur (ker s) := set_fds (fd_table f) (cwd_inode_nr f) p]> (pcbs s)) s).

Lemma fs_view_put p f s : fs_view (set_fds (fd_table f) (cwd_inode_nr f) p) (put_fs p f s) = f.
Proof. by destruct f. Qed.

Lemma put_fs_pcb p f s : pcbs (put_fs p f s) !! cur (ker (put_fs p f s)) = Some (set_fds (fd_table f) (cwd_inode_nr f) p).
Proof. cbn. by rewrite lookup_insert_eq. Qed.

Lemma put_fs_twice p f f' s : put_fs (set_fds (fd_table f) (cwd_inode_nr f) p) f' (put_fs p f s) = put_fs p f' s.
Proof. unfold put_fs. cbn. by rewrite insert_insert_eq. Qed.

Lemma on_fs_put {A} (m : M fs A) p f s a f' : m f = Ok (a, f') → on_fs m (put_fs p f s) = Ok (a, put_fs p f' s).
Proof.
  intros E. rewrite (on_fs_run m _ _ a f' (put_fs_pcb p f s)) by (by rewrite fs_view_put).
  exact (f_equal (λ z, Ok (a, z)) (put_fs_twice p f f' s)).
Qed.

Lemma on_fs_start {A} (m : M fs A) p s : pcbs s !! cur (ker s) = Some p → on_fs m s = on_fs m (put_fs p (fs_view p s) s).
Proof.
  intros E. unfold on_fs. rewrite put_fs_pcb, E, fs_view_put. destruct (m (fs_view p s)) as [[a f]| | | |]; try done. cbn. by rewrite insert_insert_eq.
Qed.

(** A memory operation that leaves the task's own virtual pages alone. *)
Lemma on_mem_put {A} (m : M mst A) p f s k a st :
  tasks (ker s) !! cur (ker s) = Some k → m (mem_view k p s) = Ok (a, st) → userprog_vaddr st = p_vaddr p →
  on_mem m (put_fs p f s) = Ok (a, put_fs p f (set_space st s)).
Proof.
  intros Hk E Hv. erewrite on_mem_run; [|exact Hk|apply put_fs_pcb|exact E]. rewrite Hv. unfold put_fs. cbn. rewrite insert_insert_eq. by destruct p.
Qed.

Lemma on_mem_keep {A} (m : M mst A) s k p a st :
  tasks (ker s) !! cur (ker s) = Some k → pcbs s !! cur (ker s) = Some p → m (mem_view k p s) = Ok (a, st) → userprog_vaddr st = p_vaddr p →
  on_mem m s = Ok (a, set_space st s).
Proof.
  intros Hk Hp E Hv. erewrite on_mem_run by done. rewrite Hv. assert (Ep : set_p_vaddr (p_vaddr p) p = p) by (by destruct p).
  rewrite Ep, insert_id by done. by destruct s.
Qed.

Lemma owned_space st s x : mcr3 st = cr3 (ker s) → kernel_owned (set_space st s) x ↔ pool_owned PF_KERNEL st x.
Proof. intros E. unfold kernel_owned. cbn. rewrite <-E. done. Qed.

(** [mem_view] looks at the memory, CR3 and the running task only. *)
Lemma mem_view_space k p s st : mcr3 st = cr3 (ker s) → self st = cur (ker s) → self_pgdir st = pgdir k → userprog_vaddr st = p_vaddr p →
  mem_view k p (set_space st s) = st.
Proof. intros. destruct st. unfold mem_view. cbn in *. congruence. Qed.

End view_lemmas.
