(* ===== verification/Fd.v ===== *)
(** * File descriptors ([fs/fs.c] from [fd_local2global] to [sys_lseek],
      [sys_putchar], [shell/pipe.c])

    A descriptor of a process is an index of its [fd_table], which holds an
    index of the global [file_table].  An entry there is a file or, with
    [PIPE_FLAG], a pipe, whose [fd_inode] is the page of the ring buffer and
    whose [fd_pos] counts its open descriptors.  Standard input and output can
    be redirected to a pipe. *)

From S2P Require Import Prelude CString Bitmap Interrupt KList Sched Paging PagePool Ioqueue Disk Inode File System.
From Stdlib Require Import (notations) String.

(** The characters of a message and its NUL. *)
Definition text (s : String.string) : list Z :=
  ((λ c, Z.of_N (Ascii.N_of_ascii c)) <$> String.list_ascii_of_string s) ++ [0].
Definition newline : String.string := String.String (Ascii.ascii_of_nat 10) String.EmptyString.

Definition PIPE_FLAG : Z := 65535.
Definition stdin_no : Z := 0.
Definition stdout_no : Z := 1.
Definition stderr_no : Z := 2.
Definition SEEK_SET : Z := 1.
Definition SEEK_CUR : Z := 2.
Definition SEEK_END : Z := 3.

Section fd_ops.
Context {B : Build}.

Definition fd_local2global (local_fd : Z) : M fs Z :=
  let! t := mget fd_table in
  let! global_fd := mlift (rd t local_fd) in
  do! mlift (ASSERT ((0 <=? global_fd) && (global_fd <? MAX_FILE_OPEN))) in
  mok (u32 global_fd).

(** ** [shell/pipe.c] *)

Definition is_pipe (local_fd : Z) : M fs bool :=
  let! global_fd := fd_local2global local_fd in
  let! x := file_at global_fd in
  mok (fd_flag x =? PIPE_FLAG).

(** Gives back the page of the ring buffer behind slot [global_fd] when the
    last descriptor of the pipe goes. *)
Definition pipe_close (global_fd : Z) : M sys unit :=
  let! x := on_fs (file_at global_fd) in
  let n := u32 (fd_pos x - 1) in
  do! on_fs (put_file global_fd (File n (fd_flag x) (fd_inode x))) in
  if n =? 0 then
    do! on_mem (mfree_page PF_KERNEL (fd_inode x) 1) in
    on_fs (put_file global_fd (File n (fd_flag x) NULL))
  else mok tt.

Definition sys_pipe : M sys (Z * option (Z * Z)) :=
  let! global_fd := on_fs get_free_slot_in_global in
  let! x := on_fs (file_at global_fd) in
  let! page := on_mem (get_kernel_pages 1) in
  do! on_fs (put_file global_fd (File (fd_pos x) (fd_flag x) page)) in
  if page =? NULL then mlift Fault    (* ioqueue_init writes through the pointer *)
  else
    do! mmod (λ s, set_queues (<[page := IoqSt (ioqueue_init (Ioq (Lock NULL 0) NULL NULL (replicate 2048 0) 0 0)) 0 []]> (queues s)) s) in
    do! on_fs (put_file global_fd (File 2 PIPE_FLAG page)) in
    let! fd0 := on_fs (pcb_fd_install global_fd) in
    let! fd1 := on_fs (pcb_fd_install global_fd) in
    mok (0, Some (fd0, fd1)).

Definition sys_fd_redirect (old_local_fd new_local_fd : Z) : M fs unit :=
  let! t := mget fd_table in
  let! v := (if new_local_fd <? 3 then mok new_local_fd else mlift (rd t new_local_fd)) in
  let! t := mlift (wr t old_local_fd v) in
  mmod (set_fd_table t).

(** Runs [m] on the ring buffer behind descriptor [fd]. *)
Definition on_pipe {A} (fd : Z) (m : Z → M ioqst (outcome A)) : M sys A :=
  let! global_fd := on_fs (fd_local2global fd) in
  let! x := on_fs (file_at global_fd) in
  let! qs := mget queues in
  let! c := self_thread in
  match qs !! fd_inode x with
  | Some q => on_queue q (λ q' s, set_queues (<[fd_inode x := q']> (queues s)) s) (m c)
  | None => mlift Fault
  end.

(** ** [fs/fs.c] *)

Definition sys_close (fd : Z) : M sys Z :=
  if 2 <? fd then
    let! global_fd := on_fs (fd_local2global fd) in
    let! p := on_fs (is_pipe fd) in
    let! ret := (if p then do! pipe_close global_fd in mok 0 else on_fs (file_close (Some global_fd))) in
    do! on_fs (let! t := mget fd_table in let! t := mlift (wr t fd (-1)) in mmod (set_fd_table t)) in
    mok ret
  else mok (-1).

(** [buf] is the memory the second argument points to. *)
Definition sys_write (fd : Z) (buf : list Z) (count : Z) : M sys Z :=
  if fd <? 0 then do! console_put_str (text ("sys_write: fd error" ++ newline)) in mok (-1)
  else if fd =? stdout_no then
    let! p := on_fs (is_pipe fd) in
    if p then let! n := on_pipe fd (λ c, pipe_write c buf count) in mok (s32 n)
    else
      let! tmp_buf := mlift (memcpy (Some (replicate 1024 0)) (Some buf) count) in
      do! console_put_str tmp_buf in
      mok (s32 count)
  else
    let! p := on_fs (is_pipe fd) in
    if p then let! n := on_pipe fd (λ c, pipe_write c buf count) in mok (s32 n)
    else
      let! _fd := on_fs (fd_local2global fd) in
      let! wr_file := on_fs (file_at _fd) in
      if negb (Z.land (fd_flag wr_file) O_WRONLY =? 0) || negb (Z.land (fd_flag wr_file) O_RDWR =? 0) then
        let! bytes_written := on_fs (file_write _fd buf count) in mok (s32 (u32 bytes_written))
      else
        do! console_put_str (text ("sys_write: not allowed to write file without flag O_RDWR or O_WRONLY" ++ newline)) in
        mok (-1).

(** The result and the buffer afterwards. *)
Definition pipe_into (fd : Z) (buf : list Z) (count : Z) : M sys (Z * list Z) :=
  let! bytes := on_pipe fd (λ c, pipe_read c count) in
  let! buf := mlift (put_at buf 0 bytes) in
  mok (Z.of_nat (length bytes), buf).

(** The keyboard is read by the same loop as a pipe. *)
Definition kbd_into (buf : list Z) (count : Z) : M sys (Z * list Z) :=
  let! q := mget kbd_buf in
  let! c := self_thread in
  let! bytes := on_queue q set_kbd (pipe_read_loop (Z.to_nat count) c []) in
  let! buf := mlift (put_at buf 0 bytes) in
  mok (if count =? 0 then -1 else s32 count, buf).

Definition sys_read (fd : Z) (buf : ptr) (count : Z) : M sys (Z * list Z) :=
  do! mlift (ASSERT (nonnull buf)) in
  let buf := CString.mem buf in
  if (fd <? 0) || (fd =? stdout_no) || (fd =? stderr_no) then
    do! console_put_str (text ("sys_read: fd error" ++ newline)) in mok (-1, buf)
  else if fd =? stdin_no then
    let! p := on_fs (is_pipe fd) in
    if p then pipe_into fd buf count else kbd_into buf count
  else
    let! p := on_fs (is_pipe fd) in
    if p then pipe_into fd buf count
    else
      let! global_fd := on_fs (fd_local2global fd) in
      on_fs (file_read global_fd buf count).

Definition lseek_pos (x : file) (file_size offset whence : Z) : Z :=
  if whence =? SEEK_SET then offset
  else if whence =? SEEK_CUR then s32 (s32 (fd_pos x) + offset)
  else if whence =? SEEK_END then s32 (file_size + offset)
  else 0.

Definition sys_lseek (fd offset whence : Z) : M sys Z :=
  if fd <? 0 then do! console_put_str (text ("sys_lseek: fd error" ++ newline)) in mok (-1)
  else
    do! mlift (ASSERT ((0 <? whence) && (whence <? 4))) in
    let! _fd := on_fs (fd_local2global fd) in
    let! pf := on_fs (file_at _fd) in
    let! i := on_fs (inode_at (fd_inode pf)) in
    let file_size := s32 (i_size i) in
    let new_pos := lseek_pos pf file_size offset whence in
    if (new_pos <? 0) || (s32 (file_size - 1) <? new_pos) then mok (-1)
    else
      do! on_fs (put_file _fd (File (u32 new_pos) (fd_flag pf) (fd_inode pf))) in
      mok (s32 (u32 new_pos)).

Definition sys_putchar (char_asci : Z) : M sys unit := console_put_char (u8 char_asci).

End fd_ops.

(** ** What a file operation leaves alone *)

(** The fields of [fs] that belong to the running task, and a heap that still
    has memory. *)
Record same_task (s s' : fs) : Prop := {
  st_fds : fd_table s' = fd_table s;
  st_cwd : cwd_inode_nr s' = cwd_inode_nr s;
  st_heap : oom s = [] → oom s' = [] ∧ brk s ≤ brk s'
}.

Definition keeps {A} (m : M fs A) : Prop := ∀ s a s', m s = Ok (a, s') → same_task s s'.

Lemma same_task_refl s : same_task s s.
Proof. by split. Qed.
Lemma same_task_trans s1 s2 s3 : same_task s1 s2 → same_task s2 s3 → same_task s1 s3.
Proof. intros [A1 A2 A3] [C1 C2 C3]. split; [congruence..|]. intros H. destruct (A3 H) as [H2 ?]. destruct (C3 H2). split; [done|lia]. Qed.

Create HintDb keeps.

Lemma keeps_ok {A} (a : A) : keeps (mok a).
Proof. intros s b s' E. injection E as <- <-. apply same_task_refl. Qed.
Lemma keeps_get {A} (f : fs → A) : keeps (mget f).
Proof. intros s b s' E. injection E as <- <-. apply same_task_refl. Qed.
Lemma keeps_lift {A} (r : res A) : keeps (mlift r).
Proof. intros s b s' E. apply mlift_Ok_inv in E as [_ ->]. apply same_task_refl. Qed.
Lemma keeps_bnd {A C} (m : M fs A) (k : A → M fs C) : keeps m → (∀ a, keeps (k a)) → keeps (mbnd m k).
Proof. intros H1 H2 s a s' E. apply mbnd_Ok_inv in E as (b & s1 & E1 & E2). eapply same_task_trans; [by eapply H1|by eapply H2]. Qed.
Lemma keeps_mod (f : fs → fs) : (∀ s, same_task s (f s)) → keeps (mmod f).
Proof. intros H s b s' E. injection E as <- <-. apply H. Qed.

#[export] Hint Resolve keeps_ok keeps_get keeps_lift keeps_mod : keeps.

Ltac keep := repeat first [solve [eauto with keeps] | apply keeps_bnd; [|intros ?] | case_match].

Section keeps_lemmas.
Context {B : Build}.

Lemma keeps_malloc : keeps sys_malloc.
Proof.
  intros s a s' E. unfold sys_malloc in E. destruct (oom s) as [|[] l] eqn:Eo; kinv; split; try done; cbn; rewrite Eo; try done.
  intros _. split; [done|lia].
Qed.
Lemma keeps_free : keeps sys_free.
Proof. apply keeps_mod. intros s. by split. Qed.
Lemma keeps_buf n : keeps (malloc_buf n).
Proof. unfold malloc_buf. pose proof keeps_malloc. keep. Qed.
Lemma keeps_inode_at p : keeps (inode_at p).
Proof. intros s a s' E. unfold inode_at in E. case_match; kinv. apply same_task_refl. Qed.
Lemma keeps_put_inode p i : keeps (put_inode p i).
Proof. apply keeps_mod. intros s. by split. Qed.
Lemma keeps_set_part p : keeps (mmod (set_part p)).
Proof. apply keeps_mod. intros s. by split. Qed.
Lemma keeps_file_at f : keeps (file_at f).
Proof. intros s a s' E. unfold file_at in E. kinv. apply same_task_refl. Qed.
Lemma keeps_put_file f x : keeps (put_file f x).
Proof. intros s a s' E. unfold put_file in E. kinv. by split. Qed.
Lemma keeps_ide_read l b o n : keeps (Inode.ide_read l b o n).
Proof. intros s a s' E. unfold Inode.ide_read in E. kinv. apply same_task_refl. Qed.
Lemma keeps_ide_write l b o n : keeps (Inode.ide_write l b o n).
Proof. intros s a s' E. unfold Inode.ide_write in E. kinv. by split. Qed.

#[local] Hint Resolve keeps_malloc keeps_free keeps_buf keeps_inode_at keeps_put_inode keeps_set_part keeps_file_at keeps_put_file
  keeps_ide_read keeps_ide_write : keeps.

Lemma keeps_alloc : keeps block_bitmap_alloc.
Proof. unfold block_bitmap_alloc. keep. Qed.
Lemma keeps_sync i t : keeps (bitmap_sync i t).
Proof. unfold bitmap_sync. keep. Qed.
Lemma keeps_sector p idx : keeps (sector_of p idx).
Proof. unfold sector_of. keep. Qed.
Lemma keeps_set_sector p idx l : keeps (set_sector p idx l).
Proof. unfold set_sector. keep. Qed.
Lemma keeps_load t ab : keeps (load_table t ab).
Proof. unfold load_table. keep. Qed.
Lemma keeps_inode_sync i b : keeps (inode_sync i b).
Proof. unfold inode_sync, inode_locate. keep. Qed.

#[local] Hint Resolve keeps_alloc keeps_sync keeps_sector keeps_set_sector keeps_load keeps_inode_sync : keeps.

Lemma keeps_grow d n p idx ab : keeps (grow d n p idx ab).
Proof. revert idx ab. induction n as [|n IH]; intros idx ab; cbn [grow]; unfold sync_block; keep. Qed.
Lemma keeps_write_loop n f p ab io src first bw count left : keeps (write_loop n f p ab io src first bw count left).
Proof. revert io src first bw left. induction n as [|n IH]; intros; cbn [write_loop]; [done|]. keep. Qed.

#[local] Hint Resolve keeps_grow keeps_write_loop : keeps.

Lemma keeps_collect p has will ab : keeps (collect_blocks p has will ab).
Proof. unfold collect_blocks, copy_sector, store_table. keep. Qed.
Lemma keeps_first p : keeps (first_block p).
Proof. unfold first_block. keep. Qed.

#[local] Hint Resolve keeps_collect keeps_first : keeps.

Lemma keeps_file_write f buf count : keeps (file_write f buf count).
Proof. unfold file_write, write_blocks. keep. Qed.

End keeps_lemmas.

(** ** The calls on a regular file *)

(** Descriptor [fd] of the running task is slot [g] of the file table. *)
Record fd_open (f : fs) (fd g : Z) (x : file) : Prop := {
  fo_fd : 2 < fd;
  fo_slot : 0 ≤ g < 32;
  fo_table : fd_table f !! Z.to_nat fd = Some g;
  fo_file : file_table f !! Z.to_nat g = Some x
}.

Definition writable (x : file) : bool := negb (Z.land (fd_flag x) O_WRONLY =? 0) || negb (Z.land (fd_flag x) O_RDWR =? 0).

(** The file table after slot [g] has become [x]. *)
Definition with_slot (g : Z) (x : file) (f : fs) : fs := set_file_table (<[Z.to_nat g := x]> (file_table f)) f.

Lemma content_size s i : layout s → file_ok s i ∨ inode_ok i ∧ no_blocks i → length (File.content (drive s) i) = Z.to_nat (i_size i).
Proof.
  intros Hl [Hok|[_ [Hs _]]]; unfold File.content; rewrite length_take; [|rewrite Hs; lia].
  pose proof (used_range s i Hok) as [Hu Hu2]. pose proof (used_blocks s i Hl Hok). pose proof (fo_size s i Hok).
  rewrite img_length by apply Hl. rewrite length_take. zsolve.
Qed.

Section file_calls.
Context {B : Build}.
Implicit Types (f : fs) (s : sys).

Lemma local2global_run f fd g x : fd_open f fd g x → fd_local2global fd f = Ok (g, f).
Proof.
  intros [H1 H2 H3 H4]. unfold fd_local2global. rewrite (mbnd_Ok _ _ _ _ _ eq_refl).
  mstep (mlift_Ok _ f _ (rd_lookup (fd_table f) fd g ltac:(lia) H3)).
  mstep (mlift_Ok _ f _ (ASSERT_true ((0 <=? g) && (g <? MAX_FILE_OPEN)) ltac:(unfold MAX_FILE_OPEN; apply andb_true_iff; split; [apply Z.leb_le|apply Z.ltb_lt]; lia))).
  by rewrite u32_small by lia.
Qed.

Lemma is_pipe_run f fd g x : fd_open f fd g x → is_pipe fd f = Ok (fd_flag x =? PIPE_FLAG, f).
Proof.
  intros H. unfold is_pipe. mstep (local2global_run f fd g x H). destruct H as [H1 H2 H3 H4]. by mstep (file_at_run g x f (proj1 H2) H4).
Qed.

Lemma sys_write_file p f s fd g x buf count n f' :
  fd_open f fd g x → fd_flag x ≠ PIPE_FLAG → writable x = true → file_write g buf count f = Ok (n, f') →
  sys_write fd buf count (put_fs p f s) = Ok (s32 (u32 n), put_fs p f' s).
Proof.
  intros H Hp Hw E. pose proof H as [H1 H2 H3 H4]. unfold sys_write, stdout_no. rewrite (proj2 (Z.ltb_ge _ _)), (proj2 (Z.eqb_neq _ _)) by lia.
  mstep (on_fs_put _ p f s _ _ (is_pipe_run f fd g x H)). rewrite (proj2 (Z.eqb_neq _ _)) by done.
  mstep (on_fs_put _ p f s _ _ (local2global_run f fd g x H)). mstep (on_fs_put _ p f s _ _ (file_at_run g x f (proj1 H2) H4)).
  fold (writable x). rewrite Hw. by mstep (on_fs_put _ p f s _ _ E).
Qed.

(** A file opened for reading only: nothing is written, the screen says why. *)
Lemma sys_write_readonly p f s fd g x buf count :
  fd_open f fd g x → fd_flag x ≠ PIPE_FLAG → writable x = false → cur (ker s) ≠ 0 → console_lock s = Lock 0 0 →
  ∃ msg, sys_write fd buf count (put_fs p f s) = Ok (-1, set_console (Lock 0 0) (screen s ++ msg) (put_fs p f s)).
Proof.
  intros H Hp Hw Hc Hl. pose proof H as [H1 H2 H3 H4]. unfold sys_write, stdout_no. rewrite (proj2 (Z.ltb_ge _ _)), (proj2 (Z.eqb_neq _ _)) by lia.
  mstep (on_fs_put _ p f s _ _ (is_pipe_run f fd g x H)). rewrite (proj2 (Z.eqb_neq _ _)) by done.
  mstep (on_fs_put _ p f s _ _ (local2global_run f fd g x H)). mstep (on_fs_put _ p f s _ _ (file_at_run g x f (proj1 H2) H4)).
  fold (writable x). rewrite Hw. set (m := text _). eexists. unfold text in m. subst m.
  erewrite mbnd_Ok; [reflexivity|]. apply (console_put_str_run _ [] (put_fs p f s)); [by_decide|done|done].
Qed.

Lemma sys_lseek_run p f s fd g x i offset whence :
  fd_open f fd g x → inodes f !! fd_inode x = Some i → 0 < whence < 4 → 0 ≤ i_size i < 2147483648 →
  let pos := lseek_pos x (i_size i) offset whence in
  sys_lseek fd offset whence (put_fs p f s) =
    Ok (if (0 <=? pos) && (pos <? i_size i) then (pos, put_fs p (with_slot g (File pos (fd_flag x) (fd_inode x)) f) s) else (-1, put_fs p f s)).
Proof.
  intros H Hi Hw Hsz pos. pose proof H as [H1 H2 H3 H4]. unfold sys_lseek. rewrite (proj2 (Z.ltb_ge _ _)) by lia.
  mstep (mlift_Ok _ (put_fs p f s) _ (ASSERT_true ((0 <? whence) && (whence <? 4)) ltac:(apply andb_true_iff; split; apply Z.ltb_lt; lia))).
  mstep (on_fs_put _ p f s _ _ (local2global_run f fd g x H)). mstep (on_fs_put _ p f s _ _ (file_at_run g x f (proj1 H2) H4)).
  mstep (on_fs_put _ p f s _ _ (inode_at_run (fd_inode x) i f Hi)). rewrite (s32_small (i_size i)) by lia. rewrite (s32_small (i_size i - 1)) by lia. fold pos.
  replace ((pos <? 0) || (i_size i - 1 <? pos)) with (negb ((0 <=? pos) && (pos <? i_size i))).
  2: { destruct (Z.leb_spec 0 pos), (Z.ltb_spec pos (i_size i)), (Z.ltb_spec pos 0), (Z.ltb_spec (i_size i - 1) pos); done || lia. }
  destruct (Z.leb_spec 0 pos), (Z.ltb_spec pos (i_size i)); cbn [andb negb]; try done.
  rewrite u32_small by lia. rewrite s32_small by lia. by mstep (on_fs_put _ p f s _ _ (put_file_run g x _ f (proj1 H2) H4)).
Qed.

Lemma sys_read_file p f s fd g x buf count r f' :
  fd_open f fd g x → fd_flag x ≠ PIPE_FLAG → file_read g buf count f = Ok (r, f') →
  sys_read fd (Some buf) count (put_fs p f s) = Ok (r, put_fs p f' s).
Proof.
  intros H Hp E. pose proof H as [H1 H2 H3 H4]. unfold sys_read. mstep (mlift_Ok _ (put_fs p f s) _ (ASSERT_true (nonnull (Some buf)) eq_refl)).
  unfold stdout_no, stderr_no, stdin_no. rewrite (proj2 (Z.ltb_ge fd 0)), !(proj2 (Z.eqb_neq _ _)) by lia. cbn [orb].
  mstep (on_fs_put _ p f s _ _ (is_pipe_run f fd g x H)). rewrite (proj2 (Z.eqb_neq _ _)) by done.
  mstep (on_fs_put _ p f s _ _ (local2global_run f fd g x H)). exact (on_fs_put _ p f s _ _ E).
Qed.

(** The first call on the file system sees the descriptors of the running task. *)
Lemma sys_write_start fd buf count p s : 0 ≤ fd → pcbs s !! cur (ker s) = Some p →
  sys_write fd buf count s = sys_write fd buf count (put_fs p (fs_view p s) s).
Proof.
  intros Hf E. unfold sys_write. rewrite (proj2 (Z.ltb_ge fd 0)) by lia. destruct (fd =? stdout_no); unfold mbnd; by rewrite (on_fs_start (is_pipe fd) p s E).
Qed.

(** C27: What is written can be read back, through the system calls of one
    process.  [sys_write] of at least one byte on a descriptor of a regular file
    open for reading and writing appends and returns [count]; [sys_lseek] to the
    old end of the file returns that position; [sys_read] of [count] bytes into
    a buffer of at least that size then returns [count] and exactly the bytes
    that were written.  All three go from the descriptor through the task's
    table, the global table and the inode to the blocks on disk.  It holds when
    the inode's number is below 256 and the inode does not lie across two
    sectors of the table (for the others [inode_sync] writes elsewhere or
    overruns the buffer), the file stays below 71168 bytes, the disk has the
    blocks the data needs, and the kernel heap has memory. *)
Theorem write_seek_read (s : sys) (p : pcb) (fd g : Z) (x : file) (i : inode) (data out : list Z) :
  pcbs s !! cur (ker s) = Some p → fd_open (fs_view p s) fd g x → fd_flag x = O_RDWR →
  layout (files s) → inodes (files s) !! fd_inode x = Some i → file_ok (files s) i ∨ inode_ok i ∧ no_blocks i →
  i_no i < 256 → straddles (i_no i) = false →
  let count := Z.of_nat (length data) in
  0 < count ≤ Z.of_nat (length out) → i_size i + count < 71168 →
  (blocks_needed i count ≤ length (free_bits (bb (files s))))%nat → oom (files s) = [] → 0 < brk (files s) →
  ∃ s1 s2 s3, sys_write fd data count s = Ok (count, s1) ∧ sys_lseek fd (i_size i) SEEK_SET s1 = Ok (i_size i, s2) ∧
    sys_read fd (Some out) count s2 = Ok ((count, data ++ drop (length data) out), s3) ∧
    ∃ i', inodes (files s1) !! fd_inode x = Some i' ∧ File.content (drive (files s1)) i' = File.content (drive (files s)) i ++ data.
Proof.
  intros Hp H Hflag Hl Hi Hfile Hno Hstr count Hcount Hsize Hfree Hoom Hbrk. pose proof H as [H1 H2 H3 H4]. set (f := fs_view p s) in *.
  destruct (file_write_run g x i f data count) as (f1 & E1 & _ & Ha & _); try done; try lia; [by destruct Hl|by destruct Hfile as [[]|[]]; [left|right]|].
  rewrite take_ge in Ha by (unfold count; lia). pose proof (keeps_file_write g data count f count f1 E1) as [K1 K2 K3]. destruct (K3 Hoom) as [K4 K5].
  destruct (ap_file _ _ _ _ _ _ _ Ha) as (i1 & Hi1 & _ & Hs1 & Hok1 & Hc1 & _). fold count in Hs1.
  pose proof (ap_files _ _ _ _ _ _ _ Ha) as Ht1. pose proof (lookup_lt_Some _ _ _ H4) as Hlt.
  set (x1 := File (u32 (i_size i + Z.of_nat (length data) - 1)) (fd_flag x) (fd_inode x)) in *.
  assert (F1 : fd_open f1 fd g x1) by (split; [done|done|by rewrite K1|rewrite Ht1; apply list_lookup_insert_eq; lia]).
  assert (Hsz : 0 ≤ i_size i) by (destruct Hfile as [[(_ & [? _] & _) _ _ _ _ _]|[(_ & [? _] & _) _]]; done).
  set (x2 := File (i_size i) (fd_flag x) (fd_inode x)). set (f2 := with_slot g x2 f1).
  assert (F2 : fd_open f2 fd g x2).
  { split; [done|done|by rewrite <-(fo_table _ _ _ _ F1)|]. unfold f2, with_slot. cbn. rewrite Ht1, list_insert_insert_eq. apply list_lookup_insert_eq. lia. }
  assert (Hl2 : layout f2) by (pose proof (ap_layout _ _ _ _ _ _ _ Ha) as []; by split).
  assert (Hok2 : file_ok f2 i1) by (destruct Hok1; by split).
  pose proof (file_read_run g x2 i1 f2 out count Hl2 (proj1 H2) (fo_file _ _ _ _ F2) Hi1 Hok2) as Hr.
  cbn [fd_pos fd_inode x2] in Hr. rewrite Hs1 in Hr. replace (Z.min count (i_size i + count - i_size i)) with count in Hr by lia.
  specialize (Hr ltac:(lia) ltac:(lia) K4 ltac:(cbn [brk with_slot set_file_table f2]; change (brk f) with (brk (files s)) in K5; lia) ltac:(lia) ltac:(lia)).
  rewrite (proj2 (Z.eqb_neq (i_size i) (i_size i + count))) in Hr by lia. cbn [andb] in Hr.
  assert (Hpf : ¬ fd_flag x = PIPE_FLAG) by (rewrite Hflag; done).
  exists (put_fs p f1 s), (put_fs p f2 s). eexists. split_and!.
  - rewrite (sys_write_start _ _ _ p) by (done || lia). fold f. rewrite (sys_write_file p f s fd g x data count count f1 H); [|done|by unfold writable; rewrite Hflag|done].
    rewrite u32_small, s32_small by lia. done.
  - rewrite (sys_lseek_run p f1 s fd g x1 i1 (i_size i) SEEK_SET F1) by (done || lia). unfold lseek_pos. rewrite Z.eqb_refl.
    rewrite (proj2 (Z.leb_le _ _)), (proj2 (Z.ltb_lt _ _)) by lia. done.
  - etransitivity; [exact (sys_read_file p f2 s fd g x2 out count _ _ F2 Hpf Hr)|]. do 3 f_equal.
    change (drive f2) with (drive f1). rewrite Hc1. change (drive f) with (drive (files s)). unfold count. rewrite Nat2Z.id.
    assert (Hcl : length (File.content (drive (files s)) i) = Z.to_nat (i_size i)) by (by apply content_size).
    rewrite drop_app_length' by done. by rewrite take_ge by lia.
  - exists i1. split; [done|exact Hc1].
Qed.

End file_calls.

(** ** The calls on a pipe *)

(** The slot of a pipe with [n] open descriptors. *)
Definition pipe_slot (n page : Z) : file := File n PIPE_FLAG page.
Definition fresh_ring : ioqst := IoqSt (Ioq (Lock 0 0) 0 0 (replicate 2048 0) 0 0) 0 [].

Section pipe_calls.
Context {B : Build}.
Implicit Types (f : fs) (s : sys).

Lemma on_pipe_run {A} p f s fd g x q (m : Z → M ioqst (outcome A)) a q' :
  fd_open f fd g x → queues s !! fd_inode x = Some q →
  m (cur (ker s)) (IoqSt (ioq q) (kflags (ker s)) (sleeping q)) = Ok (Done a, q') →
  on_pipe fd m (put_fs p f s) = Ok (a, put_fs p f (set_queues (<[fd_inode x := q']> (queues s)) s)).
Proof.
  intros H Hq E. pose proof H as [H1 H2 H3 H4]. unfold on_pipe. mstep (on_fs_put _ p f s _ _ (local2global_run f fd g x H)).
  mstep (on_fs_put _ p f s _ _ (file_at_run g x f (proj1 H2) H4)). unfold mbnd, mget, self_thread, mget. cbn [rbind fst snd].
  change (queues (put_fs p f s)) with (queues s). rewrite Hq. unfold on_queue. change (ker (put_fs p f s)) with (ker s). rewrite E. done.
Qed.

Lemma wr_table_run f fd g x v : fd_open f fd g x →
  (let! t := mget fd_table in let! t := mlift (wr t fd v) in mmod (set_fd_table t)) f = Ok (tt, set_fd_table (<[Z.to_nat fd := v]> (fd_table f)) f).
Proof.
  intros [H1 H2 H3 H4]. pose proof (lookup_lt_Some _ _ _ H3). rewrite (mbnd_Ok _ _ _ _ _ eq_refl).
  by mstep (mlift_Ok _ f _ (wr_Ok (fd_table f) fd v ltac:(lia))).
Qed.

(** *** [sys_pipe] *)

Definition piped (g page : Z) (fd0 fd1 : nat) (f : fs) : fs :=
  set_fd_table (<[fd1 := g]> (<[fd0 := g]> (fd_table f))) (with_slot g (pipe_slot 2 page) f).

Lemma sys_pipe_run p f s k (g fd0 fd1 : nat) :
  tasks (ker s) !! cur (ker s) = Some k → kernel_ok (mem_view k p s) → pool_room PF_KERNEL 1 (mem_view k p s) →
  length (file_table f) = 32%nat → first_in (λ x, fd_inode x =? NULL) (file_table f) 3 32 g → (g < 32)%nat →
  length (fd_table f) = 8%nat → first_in (λ x, x =? -1) (fd_table f) 3 8 fd0 → (fd0 < 8)%nat →
  first_in (λ x, x =? -1) (<[fd0 := Z.of_nat g]> (fd_table f)) 3 8 fd1 → (fd1 < 8)%nat →
  ∃ page st, sys_pipe (put_fs p f s) = Ok ((0, Some (Z.of_nat fd0, Z.of_nat fd1)),
      put_fs p (piped (Z.of_nat g) page fd0 fd1 f) (set_queues (<[page := fresh_ring]> (queues s)) (set_space st s))) ∧
    got_page (mem_view k p s) st page.
Proof.
  intros Hk Hm Hr Hl Hg Hg32 Hl8 Hf0 Hf08 Hf1 Hf18. destruct (get_kernel_page (mem_view k p s) Hm Hr) as (page & st & E & Hgp).
  exists page, st. split; [|done]. destruct (lookup_lt_is_Some_2 (file_table f) g) as [x Hx]; [lia|].
  assert (Hx' : file_table f !! Z.to_nat (Z.of_nat g) = Some x) by (by rewrite Nat2Z.id). unfold sys_pipe.
  mstep (on_fs_put _ p f s _ _ (get_free_slot_run f g Hl Hg)). rewrite decide_False by lia.
  mstep (on_fs_put _ p f s _ _ (file_at_run (Z.of_nat g) x f ltac:(lia) Hx')).
  mstep (on_mem_put _ p f s k page st Hk E (gp_vaddr _ _ _ Hgp)). set (s1 := set_space st s).
  mstep (on_fs_put _ p f s1 _ _ (put_file_run (Z.of_nat g) x (File (fd_pos x) (fd_flag x) page) f ltac:(lia) Hx')).
  pose proof (proj2 (gp_addr _ _ _ Hgp)) as Hpg. rewrite (proj2 (Z.eqb_neq page NULL)) by (unfold K_HEAP_START, NULL in *; lia).
  set (f1 := set_file_table _ f). set (s2 := set_queues (<[page := fresh_ring]> (queues s)) s1).
  erewrite mbnd_Ok with (a := tt) (s1 := put_fs p f1 s2) by reflexivity.
  assert (Hf1' : file_table f1 !! Z.to_nat (Z.of_nat g) = Some (File (fd_pos x) (fd_flag x) page)) by (cbn; apply list_lookup_insert_eq; lia).
  mstep (on_fs_put _ p f1 s2 _ _ (put_file_run (Z.of_nat g) _ (pipe_slot 2 page) f1 ltac:(lia) Hf1')). set (f2 := set_file_table _ f1).
  pose proof (pcb_fd_install_run (Z.of_nat g) f2 fd0 Hl8 Hf0) as I0. rewrite decide_False in I0 by lia. mstep (on_fs_put _ p f2 s2 _ _ I0).
  set (f3 := set_fd_table _ f2). pose proof (pcb_fd_install_run (Z.of_nat g) f3 fd1 ltac:(cbn; by rewrite length_insert) Hf1) as I1. rewrite decide_False in I1 by lia.
  mstep (on_fs_put _ p f3 s2 _ _ I1). unfold mok. do 3 f_equal. unfold piped, with_slot, f3, f2, f1. cbn. by rewrite Nat2Z.id, list_insert_insert_eq.
Qed.

(** *** Writing and reading *)

Lemma sys_write_pipe p f s fd g page n q data :
  fd_open f fd g (pipe_slot n page) → queues s !! page = Some q → intr_get_status (kflags (ker s)) = INTR_OFF →
  ring_ok (ioq q) → consumer (ioq q) = 0 → Z.of_nat (length data) + ring_len (ioq q) ≤ 2047 →
  ∃ q', sys_write fd data (Z.of_nat (length data)) (put_fs p f s) =
      Ok (Z.of_nat (length data), put_fs p f (set_queues (<[page := q']> (queues s)) s)) ∧
    ring_ok (ioq q') ∧ Ioqueue.content (ioq q') = Ioqueue.content (ioq q) ++ data ∧ producer (ioq q') = producer (ioq q).
Proof.
  intros H Hq Hi Hr Hc Hfit. set (q0 := IoqSt (ioq q) (kflags (ker s)) (sleeping q)). pose proof (ring_len_range (ioq q)) as Hlen.
  destruct (pipe_write_loop_spec data (cur (ker s)) q0 0 Hi Hr Hc Hfit ltac:(lia) ltac:(lia)) as (q' & E & R1 & R2 & _ & _ & _ & R3).
  exists q'. split; [|done]. pose proof H as [H1 H2 H3 H4]. unfold sys_write, stdout_no. rewrite (proj2 (Z.ltb_ge _ _)), (proj2 (Z.eqb_neq _ _)) by lia.
  mstep (on_fs_put _ p f s _ _ (is_pipe_run f fd g _ H)). cbn [fd_flag pipe_slot]. rewrite Z.eqb_refl.
  erewrite mbnd_Ok; [|apply (on_pipe_run p f s fd g (pipe_slot n page) q (λ c, pipe_write c data (Z.of_nat (length data))) (Z.of_nat (length data)) q' H Hq)].
  - by rewrite s32_small by lia.
  - unfold pipe_write, mbnd, mget. cbn [rbind fst snd]. cbn [ioq]. rewrite ioq_length_eq by done. unfold bufsize in *. rewrite u32_small by lia.
    rewrite (proj2 (Z.ltb_lt _ _)) by lia. rewrite take_ge by lia. fold q0. rewrite E. by rewrite Z.add_0_l.
Qed.

Lemma sys_read_pipe p f s fd g page n q out count :
  fd_open f fd g (pipe_slot n page) → queues s !! page = Some q → intr_get_status (kflags (ker s)) = INTR_OFF →
  ring_ok (ioq q) → producer (ioq q) = 0 → 0 ≤ count → let got := take (Z.to_nat count) (Ioqueue.content (ioq q)) in
  (length got ≤ length out)%nat →
  ∃ q', sys_read fd (Some out) count (put_fs p f s) =
      Ok ((Z.of_nat (length got), got ++ drop (length got) out), put_fs p f (set_queues (<[page := q']> (queues s)) s)) ∧
    ring_ok (ioq q') ∧ Ioqueue.content (ioq q') = drop (Z.to_nat count) (Ioqueue.content (ioq q)).
Proof.
  intros H Hq Hi Hr Hp Hc got Hout. set (q0 := IoqSt (ioq q) (kflags (ker s)) (sleeping q)). pose proof (content_length (ioq q)) as Hcl. pose proof (ring_len_range (ioq q)) as Hlen.
  set (k := Z.to_nat (if count <? ring_len (ioq q) then count else ring_len (ioq q))).
  assert (Hk : (k ≤ length (Ioqueue.content (ioq q0)))%nat) by (cbn [ioq q0]; unfold k; destruct (Z.ltb_spec count (ring_len (ioq q))); lia).
  destruct (pipe_read_loop_spec k (cur (ker s)) q0 [] Hi Hr Hp Hk) as (q' & E & R1 & R2 & _). cbn [ioq q0] in E, R2.
  assert (Ht : take k (Ioqueue.content (ioq q)) = got ∧ drop k (Ioqueue.content (ioq q)) = drop (Z.to_nat count) (Ioqueue.content (ioq q))).
  { unfold got, k. destruct (Z.ltb_spec count (ring_len (ioq q))); [done|]. by rewrite !take_ge, !drop_ge by lia. } destruct Ht as [Ht1 Ht2].
  exists q'. split; [|by rewrite R2, Ht2]. pose proof H as [H1 H2 H3 H4]. unfold sys_read. mstep (mlift_Ok _ (put_fs p f s) _ (ASSERT_true (nonnull (Some out)) eq_refl)).
  unfold stdout_no, stderr_no, stdin_no. rewrite (proj2 (Z.ltb_ge fd 0)), !(proj2 (Z.eqb_neq _ _)) by lia. cbn [orb].
  mstep (on_fs_put _ p f s _ _ (is_pipe_run f fd g _ H)). cbn [fd_flag pipe_slot]. rewrite Z.eqb_refl. unfold pipe_into.
  erewrite mbnd_Ok; [|apply (on_pipe_run p f s fd g (pipe_slot n page) q (λ c, pipe_read c count) got q' H Hq)].
  - rewrite (mbnd_Ok _ _ _ _ _ (mlift_Ok _ _ _ (put_at_Ok (CString.mem (Some out)) 0 got ltac:(lia) ltac:(cbn; lia)))). done.
  - unfold pipe_read, mbnd, mget. cbn [rbind fst snd]. cbn [ioq]. rewrite ioq_length_eq by done. fold k q0. rewrite E. cbn [app]. by rewrite Ht1.
Qed.

(** *** Closing *)

Lemma close_pipe_kept p f s fd g page n : fd_open f fd g (pipe_slot n page) → 2 ≤ n < 4294967296 →
  sys_close fd (put_fs p f s) = Ok (0, put_fs p (set_fd_table (<[Z.to_nat fd := -1]> (fd_table f)) (with_slot g (pipe_slot (n - 1) page) f)) s).
Proof.
  intros H Hn. pose proof H as [H1 H2 H3 H4]. unfold sys_close. rewrite (proj2 (Z.ltb_lt 2 fd)) by lia.
  mstep (on_fs_put _ p f s _ _ (local2global_run f fd g _ H)). mstep (on_fs_put _ p f s _ _ (is_pipe_run f fd g _ H)). cbn [fd_flag pipe_slot]. rewrite Z.eqb_refl.
  set (f1 := with_slot g (pipe_slot (n - 1) page) f). erewrite mbnd_Ok with (a := 0) (s1 := put_fs p f1 s).
  2: { erewrite mbnd_Ok; [reflexivity|]. unfold pipe_close. mstep (on_fs_put _ p f s _ _ (file_at_run g _ f (proj1 H2) H4)). cbn [fd_pos pipe_slot fd_flag fd_inode].
       rewrite u32_small by lia. mstep (on_fs_put _ p f s _ _ (put_file_run g _ (File (n - 1) PIPE_FLAG page) f (proj1 H2) H4)).
       rewrite (proj2 (Z.eqb_neq (n - 1) 0)) by lia. reflexivity. }
  assert (F1 : fd_open f1 fd g (pipe_slot (n - 1) page)) by (split; try done; cbn; apply list_lookup_insert_eq; by apply lookup_lt_Some in H4).
  by mstep (on_fs_put _ p f1 s _ _ (wr_table_run f1 fd g _ (-1) F1)).
Qed.

Lemma close_pipe_last p f s fd g page k : fd_open f fd g (pipe_slot 1 page) →
  tasks (ker s) !! cur (ker s) = Some k → kernel_ok (mem_view k p s) → pool_owned PF_KERNEL (mem_view k p s) page →
  ∃ st, sys_close fd (put_fs p f s) = Ok (0, put_fs p (set_fd_table (<[Z.to_nat fd := -1]> (fd_table f)) (with_slot g (File 0 PIPE_FLAG NULL) f)) (set_space st s)) ∧
    put_page (mem_view k p s) st page.
Proof.
  intros H Hk Hm Ho. pose proof H as [H1 H2 H3 H4]. destruct (put_kernel_page _ page Hm Ho) as (st & E & Hpp). exists st. split; [|done].
  unfold sys_close. rewrite (proj2 (Z.ltb_lt 2 fd)) by lia.
  mstep (on_fs_put _ p f s _ _ (local2global_run f fd g _ H)). mstep (on_fs_put _ p f s _ _ (is_pipe_run f fd g _ H)). cbn [fd_flag pipe_slot]. rewrite Z.eqb_refl.
  pose proof (lookup_lt_Some _ _ _ H4) as Hlt.
  set (f1 := with_slot g (File 0 PIPE_FLAG NULL) f). erewrite mbnd_Ok with (a := 0) (s1 := put_fs p f1 (set_space st s)).
  2: { erewrite mbnd_Ok; [reflexivity|]. unfold pipe_close. mstep (on_fs_put _ p f s _ _ (file_at_run g _ f (proj1 H2) H4)). cbn [fd_pos pipe_slot fd_flag fd_inode].
       rewrite u32_small by lia. mstep (on_fs_put _ p f s _ _ (put_file_run g _ (File (1 - 1) PIPE_FLAG page) f (proj1 H2) H4)). set (f0 := set_file_table _ f).
       change (1 - 1 =? 0) with true. cbv iota. mstep (on_mem_put _ p f0 s k tt st Hk E (pp_vaddr _ _ _ Hpp)).
       rewrite (on_fs_put _ p f0 _ tt f1); [reflexivity|]. rewrite (put_file_run g (File (1 - 1) PIPE_FLAG page)); [|lia|cbn; by apply list_lookup_insert_eq].
       unfold f1, f0, with_slot. cbn. by rewrite list_insert_insert_eq. }
  assert (F1 : fd_open f1 fd g (File 0 PIPE_FLAG NULL)) by (split; try done; cbn; by apply list_lookup_insert_eq).
  by mstep (on_fs_put _ p f1 _ _ _ (wr_table_run f1 fd g _ (-1) F1)).
Qed.

(** A pipe's descriptors read and write the ring behind its slot. *)
Lemma piped_open f (g fd0 fd1 : nat) page : (3 ≤ fd0 < 8)%nat → (3 ≤ fd1 < 8)%nat → (g < 32)%nat → length (file_table f) = 32%nat → length (fd_table f) = 8%nat →
  fd_open (piped (Z.of_nat g) page fd0 fd1 f) (Z.of_nat fd1) (Z.of_nat g) (pipe_slot 2 page) ∧
  fd_open (piped (Z.of_nat g) page fd0 fd1 f) (Z.of_nat fd0) (Z.of_nat g) (pipe_slot 2 page).
Proof.
  intros H0 H1 Hg Hl Hl8. assert (Hslot : file_table (piped (Z.of_nat g) page fd0 fd1 f) !! Z.to_nat (Z.of_nat g) = Some (pipe_slot 2 page)).
  { cbn. rewrite Nat2Z.id. apply list_lookup_insert_eq. lia. }
  split; (split; [lia|lia| |done]); cbn; rewrite Nat2Z.id.
  - apply list_lookup_insert_eq. rewrite length_insert. lia.
  - destruct (decide (fd0 = fd1)) as [->|Hne]; [apply list_lookup_insert_eq; rewrite length_insert; lia|].
    rewrite list_lookup_insert_ne by done. apply list_lookup_insert_eq. lia.
Qed.

Lemma sys_pipe_start p s : pcbs s !! cur (ker s) = Some p → sys_pipe s = sys_pipe (put_fs p (fs_view p s) s).
Proof. intros E. unfold sys_pipe, mbnd. by rewrite (on_fs_start get_free_slot_in_global p s E). Qed.

(** C28: A pipe carries bytes from one descriptor to the other and leaves
    nothing behind.  [sys_pipe] gives the first two free descriptors of the
    task and a page for the ring; what [sys_write] puts into the second
    descriptor, up to the 2047 bytes the ring holds, [sys_read] gets from the
    first, in order; closing both descriptors frees the two entries of the
    task's table and the slot of the global table and returns the page, so that
    the kernel's pages are the same as before. *)
Theorem pipe_roundtrip (s : sys) (p : pcb) (k : task) (g fd0 fd1 : nat) (data out : list Z) :
  pcbs s !! cur (ker s) = Some p → tasks (ker s) !! cur (ker s) = Some k → intr_get_status (kflags (ker s)) = INTR_OFF →
  kernel_ok (mem_view k p s) → pool_room PF_KERNEL 1 (mem_view k p s) →
  length (file_table (files s)) = 32%nat → first_in (λ x, fd_inode x =? NULL) (file_table (files s)) 3 32 g → (g < 32)%nat →
  length (p_fd_table p) = 8%nat → first_in (λ x, x =? -1) (p_fd_table p) 3 8 fd0 → (fd0 < 8)%nat →
  first_in (λ x, x =? -1) (<[fd0 := Z.of_nat g]> (p_fd_table p)) 3 8 fd1 → (fd1 < 8)%nat → fd0 ≠ fd1 →
  let n := Z.of_nat (length data) in n ≤ 2047 → n ≤ Z.of_nat (length out) →
  ∃ s1 s2 s3 s4 s5, sys_pipe s = Ok ((0, Some (Z.of_nat fd0, Z.of_nat fd1)), s1) ∧ sys_write (Z.of_nat fd1) data n s1 = Ok (n, s2) ∧
    sys_read (Z.of_nat fd0) (Some out) n s2 = Ok ((n, data ++ drop (length data) out), s3) ∧
    sys_close (Z.of_nat fd0) s3 = Ok (0, s4) ∧ sys_close (Z.of_nat fd1) s4 = Ok (0, s5) ∧
    (∀ x, kernel_owned s5 x ↔ kernel_owned s x) ∧
    (p_fd_table <$> pcbs s5 !! cur (ker s)) = Some (<[fd1 := -1]> (<[fd0 := -1]> (p_fd_table p))) ∧
    fd_inode <$> (file_table (files s5) !! g) = Some NULL.
Proof.
  intros Hp Hk Hi Hm Hr Hl Hg Hg32 Hl8 Hf0 Hf08 Hf1 Hf18 Hne n Hn Hout. set (f := fs_view p s).
  destruct (sys_pipe_run p f s k g fd0 fd1 Hk Hm Hr Hl Hg Hg32 Hl8 Hf0 Hf08 Hf1 Hf18) as (page & st & E & Hgp).
  set (f1 := piped (Z.of_nat g) page fd0 fd1 f) in *. set (s1 := set_queues _ (set_space st s)) in *.
  destruct (piped_open f g fd0 fd1 page ltac:(destruct Hf0; lia) ltac:(destruct Hf1; lia) Hg32 Hl Hl8) as [F1 F0]. fold f1 in F0, F1.
  assert (Hq1 : queues s1 !! page = Some fresh_ring) by (cbn; by rewrite lookup_insert_eq).
  assert (Hring : ring_ok (ioq fresh_ring)) by (split; [done|vm_compute; split; congruence|vm_compute; split; congruence]).
  destruct (sys_write_pipe p f1 s1 (Z.of_nat fd1) (Z.of_nat g) page 2 fresh_ring data F1 Hq1 Hi Hring eq_refl) as (q2 & E2 & R2 & C2 & P2).
  { change (ring_len (ioq fresh_ring)) with 0. lia. }
  change (Ioqueue.content (ioq fresh_ring)) with (@nil Z) in C2. cbn [app] in C2.
  set (s2 := set_queues (<[page := q2]> (queues s1)) s1) in *. assert (Hq2 : queues s2 !! page = Some q2) by (cbn; by rewrite lookup_insert_eq).
  destruct (sys_read_pipe p f1 s2 (Z.of_nat fd0) (Z.of_nat g) page 2 q2 out n F0 Hq2 Hi R2 P2 ltac:(lia)) as (q3 & E3 & R3 & C3).
  { rewrite C2, length_take. lia. }
  assert (Hgot : take (Z.to_nat n) (Ioqueue.content (ioq q2)) = data) by (rewrite C2; apply take_ge; lia). rewrite Hgot in E3. set (s3 := set_queues _ s2) in *.
  pose proof (close_pipe_kept p f1 s3 (Z.of_nat fd0) (Z.of_nat g) page 2 F0 ltac:(lia)) as E4. change (2 - 1) with 1 in E4. set (f4 := set_fd_table _ _) in E4.
  assert (F4 : fd_open f4 (Z.of_nat fd1) (Z.of_nat g) (pipe_slot 1 page)).
  { destruct F1 as [A1 A2 A3 A4]. split; [done|done| |].
    - unfold f4. cbn. rewrite !Nat2Z.id in *. rewrite list_lookup_insert_ne by done. done.
    - unfold f4. cbn. rewrite !Nat2Z.id, list_insert_insert_eq. apply list_lookup_insert_eq. lia. }
  assert (Hv : mem_view k p s3 = st).
  { destruct Hgp as [_ G2 G3 G4 G5 _ _ _ _ _]. destruct st. cbn in *. unfold mem_view. cbn. congruence. }
  destruct (close_pipe_last p f4 s3 (Z.of_nat fd1) (Z.of_nat g) page k F4 Hk) as (st5 & E5 & Hpp); rewrite ?Hv; [apply Hgp|by apply (gp_owned _ _ _ Hgp); right|].
  exists (put_fs p f1 s1), (put_fs p f1 s2), (put_fs p f1 s3), (put_fs p f4 s3). eexists. split; [by rewrite (sys_pipe_start p s Hp)|].
  split; [exact E2|]. split; [exact E3|]. split; [exact E4|]. split; [exact E5|]. rewrite Hv in Hpp. split_and!.
  - intros x. change (kernel_owned (set_space st5 s3) x ↔ pool_owned PF_KERNEL (mem_view k p s) x).
    rewrite owned_space by (rewrite (pp_cr3 _ _ _ Hpp), (gp_cr3 _ _ _ Hgp); done). rewrite (pp_owned _ _ _ Hpp), (gp_owned _ _ _ Hgp).
    pose proof (gp_fresh _ _ _ Hgp). split; [by intros [[?|?] ?]|]. intros Hx. split; [by left|]. intros ->. done.
  - change (ker (set_space st5 s3)) with (ker s). unfold put_fs. cbn. rewrite lookup_insert_eq. cbn. f_equal. rewrite !Nat2Z.id.
    apply list_eq. intros j. destruct (decide (j = fd1)) as [->|H1]; [rewrite !list_lookup_insert_eq by (rewrite ?length_insert; cbn; lia); done|].
    rewrite !(list_lookup_insert_ne _ fd1) by done. destruct (decide (j = fd0)) as [->|H0]; [by rewrite !list_lookup_insert_eq by (rewrite ?length_insert; cbn; lia)|].
    rewrite !(list_lookup_insert_ne _ fd0), (list_lookup_insert_ne _ fd1), (list_lookup_insert_ne _ fd0) by done. done.
  - cbn. rewrite !Nat2Z.id, !list_insert_insert_eq, list_lookup_insert_eq by (cbn; lia). done.
Qed.

(** Descriptor 1 that was not redirected is the screen. *)
Lemma stdout_screen f x : fd_table f !! 1%nat = Some 1 → file_table f !! 1%nat = Some x → fd_flag x ≠ PIPE_FLAG → is_pipe stdout_no f = Ok (false, f).
Proof.
  intros Hfd Hx Hpipe. unfold is_pipe, fd_local2global, stdout_no, mbnd at 1. rewrite (mbnd_Ok _ _ _ _ _ eq_refl). rewrite (mbnd_Ok _ _ _ _ _ (mlift_Ok _ f _ (rd_lookup (fd_table f) 1 1 ltac:(lia) Hfd))).
  rewrite (mbnd_Ok _ _ _ _ _ (mlift_Ok _ f _ (ASSERT_true ((0 <=? 1) && (1 <? MAX_FILE_OPEN)) eq_refl))). cbn [rbind mok fst snd].
  mstep (file_at_run 1 x f ltac:(lia) Hx). by rewrite (proj2 (Z.eqb_neq _ _)).
Qed.

Lemma copy_loop_over n dst src : (length dst < n)%nat → copy_loop n dst src = Fault.
Proof. revert dst src. induction n as [|n IH]; intros [|b dst] [|c src] H; simpl in *; try done; try lia. by rewrite IH by lia. Qed.

(** [sys_write] to the screen prints the text and returns its length, as long as
    it is shorter than the 1024 bytes of the kernel's copy ... *)
Theorem write_stdout (s : sys) (p : pcb) (x : file) (msg rest : list Z) :
  pcbs s !! cur (ker s) = Some p → p_fd_table p !! 1%nat = Some 1 → file_table (files s) !! 1%nat = Some x → fd_flag x ≠ PIPE_FLAG →
  Forall is_char msg → Z.of_nat (length msg) < 1024 → cur (ker s) ≠ 0 → console_lock s = Lock 0 0 →
  ∃ s', sys_write stdout_no (msg ++ rest) (Z.of_nat (length msg)) s = Ok (Z.of_nat (length msg), s') ∧ screen s' = screen s ++ msg.
Proof.
  intros Hp Hfd Hx Hpipe Hc Hl Hcur Hlock. rewrite (sys_write_start _ _ _ p) by done. set (f := fs_view p s).
  unfold sys_write. change (stdout_no <? 0) with false. rewrite Z.eqb_refl. mstep (on_fs_put _ p f s _ _ (stdout_screen f x Hfd Hx Hpipe)).
  assert (C : memcpy (Some (replicate 1024 0)) (Some (msg ++ rest)) (Z.of_nat (length msg)) = Ok (msg ++ replicate (1024 - length msg) 0)).
  { unfold memcpy. rewrite ASSERT_true by done. cbn [rbind]. rewrite !mem_Some, copy_loop_run by (rewrite ?length_replicate, ?length_app; lia).
    by rewrite Nat2Z.id, take_app_length, drop_replicate. }
  mstep (mlift_Ok _ (put_fs p f s) _ C). destruct (1024 - length msg)%nat as [|m] eqn:Em; [lia|]. cbn [replicate].
  mstep (console_put_str_run msg (replicate m 0) (put_fs p f s) Hc Hcur Hlock). eexists. split; [by rewrite s32_small by lia|done].
Qed.

(** ... and above that it writes over the kernel stack. *)
Theorem write_stdout_overflow (s : sys) (p : pcb) (x : file) (buf : list Z) (count : Z) :
  pcbs s !! cur (ker s) = Some p → p_fd_table p !! 1%nat = Some 1 → file_table (files s) !! 1%nat = Some x → fd_flag x ≠ PIPE_FLAG →
  1024 < count ≤ Z.of_nat (length buf) → sys_write stdout_no buf count s = Fault.
Proof.
  intros Hp Hfd Hx Hpipe Hc. rewrite (sys_write_start _ _ _ p) by done. unfold sys_write. change (stdout_no <? 0) with false. rewrite Z.eqb_refl.
  mstep (on_fs_put _ p (fs_view p s) s _ _ (stdout_screen (fs_view p s) x Hfd Hx Hpipe)). cbv iota.
  assert (C : memcpy (Some (replicate 1024 0)) (Some buf) count = Fault).
  { unfold memcpy. rewrite ASSERT_true by done. cbn [rbind]. rewrite !mem_Some. apply copy_loop_over; rewrite ?length_replicate; lia. }
  unfold mbnd, mlift. by rewrite C.
Qed.

End pipe_calls.

(** ** Examples *)

(** One kernel thread with the file of [File]'s example open for reading and
    writing as descriptor 3, in the address space of [Paging]'s example. *)
Definition demo_thread : pcb :=
  Pcb 0 [] (-1) 0 [0; 1; 2; 3; -1; -1; -1; -1] 0 (userprog_vaddr demo_space) 0 [] (TStack 0 0 0 0 0 0 0).
Definition demo_ker : kst :=
  Kst 0 (self demo_space) {[ self demo_space := Task 1 TASK_RUNNING 31 31 0 (self_pgdir demo_space) 428280086 [] ]} [] 0 ∅ ∅ (mcr3 demo_space) 0 0.
Definition demo_files : fs :=
  set_inodes {[ 4096 := demo_inode 1 ]} (set_file_table (<[3%nat := File 0 O_RDWR 4096]> (replicate 32 (File 0 0 NULL))) demo_open).
Definition demo_sys : sys :=
  Sys demo_ker {[ self demo_space := demo_thread ]} [self demo_space] (Bitmap 1 [1; 0]) (Lock 0 0) (self demo_space) demo_space demo_files ∅ fresh_ring (Lock 0 0) [].

Lemma demo_files_layout : layout demo_files.
Proof. destruct (demo_file_layout (demo_inode 1)). by split. Qed.

Lemma demo_files_ok : file_ok demo_files (demo_inode 1).
Proof. destruct (demo_file_ok (demo_inode 1) 1) as []; [done|]. by split. Qed.

Lemma write_seek_read_witness : ∃ s1 s2 s3,
  sys_write (B := debug_build) 3 [104; 105] 2 demo_sys = Ok (2, s1) ∧ sys_lseek (B := debug_build) 3 600 SEEK_SET s1 = Ok (600, s2) ∧
  sys_read (B := debug_build) 3 (Some [7; 7; 7]) 2 s2 = Ok ((2, [104; 105; 7]), s3).
Proof.
  destruct (write_seek_read (B := debug_build) demo_sys demo_thread 3 3 (File 0 O_RDWR 4096) (demo_inode 1) [104; 105] [7; 7; 7]) as (s1 & s2 & s3 & E1 & E2 & E3 & _).
  - reflexivity.
  - split; [reflexivity|lia|reflexivity|reflexivity].
  - reflexivity.
  - exact demo_files_layout.
  - reflexivity.
  - left. exact demo_files_ok.
  - reflexivity.
  - reflexivity.
  - vm_compute. split; [reflexivity|discriminate].
  - reflexivity.
  - vm_compute. lia.
  - reflexivity.
  - reflexivity.
  - exists s1, s2, s3. exact (conj E1 (conj E2 E3)).
Defined.

Lemma pipe_roundtrip_witness : ∃ s1 s2 s3,
  sys_pipe (B := debug_build) demo_sys = Ok ((0, Some (4, 5)), s1) ∧ sys_write (B := debug_build) 5 [104; 105] 2 s1 = Ok (2, s2) ∧
  sys_read (B := debug_build) 4 (Some [7; 7; 7]) 2 s2 = Ok ((2, [104; 105; 7]), s3).
Proof.
  destruct (pipe_roundtrip (B := debug_build) demo_sys demo_thread (Task 1 TASK_RUNNING 31 31 0 (self_pgdir demo_space) 428280086 []) 4 4 5 [104; 105] [7; 7; 7])
    as (s1 & s2 & s3 & s4 & s5 & E1 & E2 & E3 & _).
  - reflexivity.
  - reflexivity.
  - reflexivity.
  - exact demo_kernel_ok.
  - exact demo_pool_room.
  - reflexivity.
  - by apply (first_in_at _ _ _ _ _ (File 0 0 NULL)); [lia|..].
  - lia.
  - reflexivity.
  - by apply (first_in_at _ _ _ _ _ (-1)); [lia|..].
  - lia.
  - by apply (first_in_at _ _ _ _ _ (-1)); [lia|..].
  - lia.
  - discriminate.
  - vm_compute. discriminate.
  - vm_compute. discriminate.
  - exists s1, s2, s3. exact (conj E1 (conj E2 E3)).
Defined.
