(* ===== verification/Thread.v ===== *)
(** * The life of threads and processes ([thread/thread.c], [userprog/process.c])

    Process identifiers, the creation of kernel threads and of the first
    process, the list of all tasks and the end of a task.  The scheduler itself
    is [Sched].

    Addresses of code are given by the linker ([Code]).  [mfree_page] clears the
    page table entry of a page but invalidates the TLB entry of a different
    address, so a page just freed may still be accessible; [stale_tlb] says
    whether the processor still has its translation. *)

From S2P Require Import Prelude CString Bitmap Interrupt KList Sched Paging PagePool Ioqueue Disk Inode File System.

Class Code := {
  kernel_thread_fn : Z;
  start_process_fn : Z;
  idle_fn : Z;
  init_fn : Z;
  intr_exit_fn : Z
}.

Definition MAIN : list Z := [109; 97; 105; 110; 0].
Definition IDLE : list Z := [105; 100; 108; 101; 0].
Definition INIT : list Z := [105; 110; 105; 116; 0].

Section thread_ops.
Context {B : Build} {C : Code}.

(** ** Process identifiers *)

Definition pid_acquire : M sys unit := λ s,
  let? l := lock_enter (cur (ker s)) (pid_lock s) in Ok (tt, set_pids (pid_bitmap s) l s).
Definition pid_release : M sys unit := λ s,
  let? l := lock_leave (cur (ker s)) (pid_lock s) in Ok (tt, set_pids (pid_bitmap s) l s).

Definition pid_pool_init : M sys unit := λ s,
  let? b := bitmap_init (Bitmap 128 (replicate 128 0)) in Ok (tt, set_pids b (Lock NULL 0) s).

Definition allocate_pid : M sys Z :=
  do! pid_acquire in
  let! b := mget pid_bitmap in
  let! bit_idx := mlift (bitmap_scan b 1) in
  let! b := mlift (bitmap_set b (u32 bit_idx) 1) in
  do! mmod (λ s, set_pids b (pid_lock s) s) in
  do! pid_release in
  mok (s16 (u32 (bit_idx + 1))).

Definition release_pid (pid : Z) : M sys unit :=
  do! pid_acquire in
  let! b := mget pid_bitmap in
  let! b := mlift (bitmap_set b (u32 (pid - 1)) 0) in
  do! mmod (λ s, set_pids b (pid_lock s) s) in
  pid_release.

Definition fork_pid : M sys Z := allocate_pid.

(** ** Creating threads *)

Definition put_task (t : Z) (k : task) : M sys unit := mmod (λ s, set_ker (with_tasks (<[t := k]> (tasks (ker s))) (ker s)) s).
Definition upd_ktask (t : Z) (f : task → task) : M sys unit := on_ker (λ _, upd_task t f).

(** [self_kstack] is a [uint32_t*]: subtracting [n] moves it by [4 * n] bytes. *)
Definition thread_create (pthread function func_arg : Z) : M sys unit :=
  do! upd_pcb pthread (λ p, set_self_kstack (u32 (u32 (self_kstack p - 4 * 76) - 4 * 32)) p) in
  do! upd_pcb pthread (set_tstack (TStack 0 0 0 0 kernel_thread_fn function func_arg)) in
  upd_ktask pthread (set_kstack [FStart]).

Definition zero_pcb : pcb := Pcb 0 (replicate 16 0) 0 0 (replicate 8 0) 0 (VAddr (Bitmap 0 []) 0) 0 (replicate 19 0) (TStack 0 0 0 0 0 0 0).

(** The kernel stack behind the [struct task_struct] is not cleared. *)
Definition init_thread (pthread : Z) (name : list Z) (prio : Z) : M sys unit :=
  do! mlift (ASSERT (negb (pthread =? NULL))) in
  let! ts := mget (λ s, tasks (ker s)) in
  let stack := from_option kstack [] (ts !! pthread) in
  do! put_task pthread (Task 0 TASK_RUNNING 0 0 0 0 0 stack) in
  do! put_pcb pthread zero_pcb in
  let! pid := allocate_pid in
  let! nm := mlift (strcpy (Some (replicate 16 0)) (Some name)) in
  let! m := mget main_thread in
  let st := if pthread =? m then TASK_RUNNING else TASK_READY in
  do! put_task pthread (Task pid st (u8 prio) (u8 prio) 0 NULL 428280086 stack) in
  put_pcb pthread (Pcb (u32 (pthread + PG_SIZE)) nm (-1) 0 ([0; 1; 2] ++ replicate 5 (-1)) 0 (p_vaddr zero_pcb) 0 (istack zero_pcb) (tstack zero_pcb)).

Definition append_ready (t : Z) : M sys unit :=
  let! r := mget (λ s, thread_ready_list (ker s)) in
  do! mlift (ASSERT (negb (elem_in t r))) in
  mmod (λ s, set_ker (with_ready (Spec.append t r) (ker s)) s).
Definition append_all (t : Z) : M sys unit :=
  let! l := mget thread_all_list in
  do! mlift (ASSERT (negb (elem_in t l))) in
  mmod (set_all (Spec.append t l)).

Definition thread_start (name : list Z) (prio function func_arg : Z) : M sys Z :=
  let! thread := on_mem (get_kernel_pages 1) in
  do! init_thread thread name prio in
  do! thread_create thread function func_arg in
  do! append_ready thread in
  do! append_all thread in
  mok thread.

Definition make_main_thread : M sys unit :=
  let! c := self_thread in
  do! mmod (set_main c) in
  do! init_thread c MAIN 31 in
  append_all c.

(** ** Processes ([userprog/process.c]) *)

Definition USER_VADDR_START : Z := 134512640.
Definition USER_STACK3_VADDR : Z := 3221225472 - 4096.
Definition default_prio : Z := 31.

(** [memcpy(dst, src, 4 * n)] at word boundaries. *)
Fixpoint vcopy (n : nat) (dst src : Z) : M mst unit :=
  match n with
  | O => mok tt
  | S n' =>
      let! w := vload src in
      do! vstore dst w in
      vcopy n' (u32 (dst + 4)) (u32 (src + 4))
  end.

(** The text of the error message is not modelled. *)
Definition create_page_dir : M mst Z :=
  let! page_dir_vaddr := get_kernel_pages 1 in
  if page_dir_vaddr =? NULL then mok NULL
  else
    do! vcopy 256 (u32 (page_dir_vaddr + 768 * 4)) (4294963200 + 768 * 4) in
    let! new_page_dir_phy_addr := Paging.addr_v2p page_dir_vaddr in
    do! vstore (u32 (page_dir_vaddr + 4 * 1023)) (Z.lor new_page_dir_phy_addr PG_FLAGS) in
    mok page_dir_vaddr.

Definition vaddr_bitmap_len : Z := (3221225472 - USER_VADDR_START) / PG_SIZE / 8.
Definition bitmap_pg_cnt : Z := DIV_ROUND_UP vaddr_bitmap_len PG_SIZE.

Definition create_user_vaddr_bitmap (user_prog : Z) : M sys unit :=
  let! bits := on_mem (get_kernel_pages bitmap_pg_cnt) in
  do! mlift (ASSERT (negb (bits =? NULL))) in
  let! b := mlift (bitmap_init (Bitmap vaddr_bitmap_len (replicate (Z.to_nat (bitmap_pg_cnt * PG_SIZE)) 0))) in
  do! upd_pcb user_prog (set_vaddr_bits bits) in
  upd_pcb user_prog (set_p_vaddr (VAddr b USER_VADDR_START)).

Definition set_pgdir (v : Z) (k : task) : task := Task (pid k) (status k) (priority k) (ticks k) (elapsed_ticks k) v (stack_magic k) (kstack k).

(** [block_desc_init] is [Heap.block_desc_init]; the descriptors are in [Heap]'s state. *)
Definition process_execute (filename : Z) (name : list Z) : M sys unit :=
  let! thread := on_mem (get_kernel_pages 1) in
  do! init_thread thread name default_prio in
  do! create_user_vaddr_bitmap thread in
  do! thread_create thread start_process_fn filename in
  let! pgdir := on_mem create_page_dir in
  do! upd_ktask thread (set_pgdir pgdir) in
  let! old_status := on_ker (λ _, kintr_disable) in
  do! append_ready thread in
  do! append_all thread in
  on_ker (λ _, kintr_set_status old_status).

(** What [intr_exit] pops: the 19 words of [struct intr_stack]. *)
Definition intr_frame (edi esi ebp ebx edx ecx eax gs fs es ds eip cs eflags esp ss : Z) : list Z :=
  [0; edi; esi; ebp; 0; ebx; edx; ecx; eax; gs; fs; es; ds; 0; eip; cs; eflags; esp; ss].

Definition SELECTOR_U_CODE : Z := 43.
Definition SELECTOR_U_DATA : Z := 51.

Definition start_process (filename_ : Z) : M sys (list Z) :=
  let! c := self_thread in
  do! upd_pcb c (λ p, set_self_kstack (u32 (self_kstack p + 4 * 32)) p) in
  let! page := on_mem (get_a_page PF_USER USER_STACK3_VADDR) in
  mok (intr_frame 0 0 0 0 0 0 0 0 SELECTOR_U_DATA SELECTOR_U_DATA SELECTOR_U_DATA filename_ SELECTOR_U_CODE 514 (u32 (page + PG_SIZE)) SELECTOR_U_DATA).

Definition thread_init : M sys unit :=
  do! mmod (λ s, set_ker (with_ready [] (ker s)) s) in
  do! mmod (set_all []) in
  do! pid_pool_init in
  do! process_execute init_fn INIT in
  do! make_main_thread in
  let! t := thread_start IDLE 10 idle_fn NULL in
  mmod (λ s, set_ker (Kst (kflags (ker s)) (cur (ker s)) (tasks (ker s)) (thread_ready_list (ker s)) t (semas (ker s)) (locks (ker s)) (cr3 (ker s)) (tss_esp0 (ker s)) (total_ticks (ker s))) s).

(** ** The list of all tasks *)

(** [list_traversal(&thread_all_list, func, arg)]: the first element the
    callback accepts, or NULL. *)
Fixpoint traverse (func : Z → M sys bool) (l : list Z) : M sys Z :=
  match l with
  | [] => mok NULL
  | t :: l' => let! b := func t in if b then mok t else traverse func l'
  end.
Definition all_traversal (func : Z → M sys bool) : M sys Z := let! l := mget thread_all_list in traverse func l.

Definition pid_check (pid_ t : Z) : M sys bool := let! k := task_at t in mok (pid k =? pid_).

Definition pid2thread (pid_ : Z) : M sys Z := all_traversal (pid_check pid_).

(** ** The end of a task *)

(** Reading a field of a PCB whose page has been given back. *)
Definition freed_task (stale_tlb : bool) (t : Z) : M sys task := if stale_tlb then task_at t else mlift Fault.

Definition thread_exit (stale_tlb : bool) (thread_over : Z) (need_schedule : bool) : M sys unit :=
  let! _ := on_ker (λ _, kintr_disable) in
  do! upd_ktask thread_over (set_status TASK_DIED) in
  let! r := mget (λ s, thread_ready_list (ker s)) in
  do! (if elem_in thread_over r then mmod (λ s, set_ker (with_ready (Spec.remove thread_over r) (ker s)) s) else mok tt) in
  let! k := task_at thread_over in
  do! (if pgdir k =? NULL then mok tt else on_mem (mfree_page PF_KERNEL (pgdir k) 1)) in
  let! l := mget thread_all_list in
  do! (if elem_in thread_over l then mmod (set_all (Spec.remove thread_over l)) else mlift Fault) in
  let! m := mget main_thread in
  let! k := (if thread_over =? m then task_at thread_over
             else do! on_mem (mfree_page PF_KERNEL thread_over 1) in freed_task stale_tlb thread_over) in
  do! release_pid (pid k) in
  if need_schedule then on_ker schedule else mok tt.

End thread_ops.
