(* ===== verification/Spaces.v ===== *)
(** * Two address spaces ([create_page_dir] of [userprog/process.c], [userprog/fork.c])

    A process has a page directory of its own, whose upper quarter is the
    kernel's.  [spaces st c] says that the directory in frame [c] is such a
    directory beside the running one: they share the tables of the kernel and no
    others.  The lemmas show how writing a page and adding a page to one space
    leave the other alone. *)

From S2P Require Import Prelude CString Bitmap Interrupt KList Sched Paging PagePool Ioqueue Disk Inode File System Thread.

Definition with_cr3 (c : Z) (st : mst) : mst :=
  Mst (pm st) c (kernel_pool st) (user_pool st) (kernel_vaddr st) (userprog_vaddr st) (self st) (self_pgdir st).

(** [m'] differs from the memory of [st] inside the frames of [F] only. *)
Definition touch (st : mst) (F : Z → Prop) (m' : gmap Z Z) : Prop :=
  (∀ a, 0 ≤ ld m' a < 4294967296) ∧ ∀ a, (∀ f, F f → ¬ f ≤ a < f + 4096) → ld m' a = ld (pm st) a.

Record spaces (st : mst) (c : Z) : Prop := {
  sc_parent : tables_ok st;
  sc_child : tables_ok (with_cr3 c st);
  sc_dir : data_frame st c;
  sc_user : ∀ i, 0 ≤ i < 768 → present (ld (pm st) (c + 4 * i)) = true → data_frame st (frame_of (ld (pm st) (c + 4 * i)));
  sc_kernel : ∀ i, 768 ≤ i < 1023 → ld (pm st) (c + 4 * i) = ld (pm st) (mcr3 st + 4 * i)
}.

(** A frame of data in both spaces. *)
Record plain (st : mst) (c f : Z) : Prop := {
  pn_parent : data_frame st f;
  pn_child : data_frame (with_cr3 c st) f;
  pn_taken : taken st f;
  pn_align : f mod 4096 = 0
}.

Definition user_page (v : Z) : Prop := managed v ∧ pdi v < 768 ∧ v mod 4096 = 0.
Definition kernel_page (v : Z) : Prop := managed v ∧ 768 ≤ pdi v ∧ v mod 4096 = 0.

Section touch_lemmas.
Implicit Types (st : mst) (F : Z → Prop).

Lemma touch_dir st F m' i : tables_ok st → (∀ f, F f → data_frame st f ∧ f mod 4096 = 0) → touch st F m' → 0 ≤ i < 1024 →
  ld m' (mcr3 st + 4 * i) = ld (pm st) (mcr3 st + 4 * i).
Proof.
  intros HT HF [_ Hm] Hi. apply Hm. intros f Hf Hx. destruct (HF f Hf) as [[Hd _] Ha]. pose proof (sm_align _ _ (t_self _ HT)). apply Hd. zsolve.
Qed.

Lemma touch_walk st F m' v : tables_ok st → (∀ f, F f → data_frame st f ∧ f mod 4096 = 0) → touch st F m' → managed v →
  walk m' (mcr3 st) v = walk (pm st) (mcr3 st) v.
Proof.
  intros HT HF Hm [Hv Hi]. pose proof (pti_range v).
  assert (E : pde_at m' (mcr3 st) v = pde_at (pm st) (mcr3 st) v) by (apply (touch_dir st F); [done..|lia]).
  rewrite (walk_same_pde (pm st)) by done. rewrite walk_alt. destruct (present (pde_at (pm st) (mcr3 st) v)) eqn:Ep; [|done].
  destruct Hm as [_ Hm]. rewrite Hm; [done|]. intros f Hf Hx. destruct (HF f Hf) as [[_ Hd] Ha]. apply (Hd (pdi v) ltac:(lia) Ep).
  unfold pte_slot in Hx. fold (pde_at (pm st) (mcr3 st) v). pose proof (frame_aligned (pde_at (pm st) (mcr3 st) v)). zsolve.
Qed.

Lemma touch_ok st F m' : tables_ok st → (∀ f, F f → data_frame st f ∧ f mod 4096 = 0) → touch st F m' →
  tables_ok (with_pm m' st) ∧ ∀ g, data_frame st g → data_frame (with_pm m' st) g.
Proof.
  intros HT HF Hm. pose proof (touch_dir st F m') as Ht. split.
  - destruct HT as [Hs ? ? ? ? Htab Hinj]. split; cbn; try done.
    + eapply self_mapped_write; [exact Hs|by apply (Ht 1023)|apply Hm].
    + intros i Hi. rewrite Ht by (done || lia). by apply Htab.
    + intros i j Hi Hj. rewrite !Ht by (done || lia). by apply Hinj.
  - intros g [Hg1 Hg2]. split; [done|]. intros i Hi. cbn. rewrite Ht by (done || lia). by apply Hg2.
Qed.

Lemma touch_trans st F m1 m2 : touch st F m1 → touch (with_pm m1 st) F m2 → touch st F m2.
Proof. intros [_ H1] [H2 H3]. split; [done|]. intros a Ha. rewrite H3 by done. by apply H1. Qed.

Lemma touch_refl st F : tables_ok st → touch st F (pm st).
Proof. intros HT. split; [apply (sm_words _ _ (t_self _ HT))|done]. Qed.

(** The words of a page *)
Lemma walk_word m c v f k : managed v → v mod 4096 = 0 → walk m c v = Ok f → 0 ≤ k < 1024 → managed (v + 4 * k) ∧ walk m c (v + 4 * k) = Ok (f + 4 * k).
Proof.
  intros Hm Hv Hw Hk. pose proof Hm as [Hvr Hvi]. assert (Hm4 : managed (v + 4 * k)) by (unfold managed, pdi in *; split; [|split]; zsolve). split; [done|].
  destruct (proj2 (same_page (v + 4 * k) v Hm4 Hm) ltac:(zsolve)) as [E1 E2]. rewrite walk_alt in Hw |- *. unfold pte_slot, pde_at in *. rewrite E1, E2.
  destruct (present (ld m (c + 4 * pdi v))); [|done]. destruct (present (ld m (frame_of (ld m (c + 4 * pdi v)) + 4 * pti v))); [|done].
  injection Hw as Hw. f_equal. replace ((v + 4 * k) mod 4096) with (4 * k) by zsolve. rewrite Hv in Hw. lia.
Qed.

End touch_lemmas.

Section copy_lemmas.
Context {B : Build}.
Implicit Types (st : mst) (F : Z → Prop).

(** Copying words between two pages, from the [k]-th on. *)
Lemma vcopy_run n st dst src fd fs : tables_ok st → data_frame st fd → fd mod 4096 = 0 → managed dst → dst mod 4096 = 0 → walk (pm st) (mcr3 st) dst = Ok fd →
  fs mod 4096 = 0 → fs ≠ fd → 0 ≤ src ≤ 4294963200 →
  (∀ m' k, touch st (eq fd) m' → 0 ≤ k < 1024 → walk m' (mcr3 st) (src + 4 * k) = Ok (fs + 4 * k)) →
  ∀ k, 0 ≤ k → k + Z.of_nat n ≤ 1024 → ∃ m', vcopy n (dst + 4 * k) (src + 4 * k) st = Ok (tt, with_pm m' st) ∧ touch st (eq fd) m' ∧
    ∀ i, 0 ≤ i < 1024 → ld m' (fd + 4 * i) = if decide (k ≤ i < k + Z.of_nat n) then ld (pm st) (fs + 4 * i) else ld (pm st) (fd + 4 * i).
Proof.
  intros HT Hd Hf Hm Hv Hw Hfs Hne Hsr Hsrc. revert st HT Hd Hw Hsrc. induction n as [|n IH]; intros st HT Hd Hw Hsrc k Hk Hn.
  - exists (pm st). split; [by destruct st|]. split; [by apply touch_refl|]. intros i Hi. by rewrite decide_False by lia.
  - destruct (walk_word _ _ _ _ k Hm Hv Hw ltac:(lia)) as [Hm4 Hwk]. pose proof (sm_words _ _ (t_self _ HT)) as Hwd.
    set (w := ld (pm st) (fs + 4 * k)). set (m1 := <[fd + 4 * k := u32 w]> (pm st)).
    assert (Hu : u32 w = w) by (apply u32_small, Hwd).
    assert (D1 : touch st (eq fd) m1).
    { split; intros a; [|intros Ha]; unfold m1; rewrite ld_insert; case_decide; rewrite ?Hu; [apply Hwd|apply Hwd| |done]. specialize (Ha fd eq_refl). lia. }
    assert (HF : ∀ f, eq fd f → data_frame st f ∧ f mod 4096 = 0) by (by intros f <-). destruct (touch_ok st (eq fd) m1 HT HF D1) as [HT1 Hd1].
    assert (E0 : vcopy (S n) (dst + 4 * k) (src + 4 * k) st = vcopy n (u32 (dst + 4 * k + 4)) (u32 (src + 4 * k + 4)) (with_pm m1 st)).
    { cbn [vcopy]. unfold mbnd, vload, vstore. rewrite (Hsrc (pm st) k (touch_refl _ _ HT) ltac:(lia)). cbn [rbind fst snd]. rewrite Hwk. cbn [rbind fst snd]. done. }
    assert (Hfin : ∀ i, ld m1 (fs + 4 * i) = ld (pm st) (fs + 4 * i) ∨ ¬ 0 ≤ i < 1024).
    { intros i. destruct (decide (0 ≤ i < 1024)); [left|by right]. unfold m1. rewrite ld_insert, decide_False; [done|]. intros E. apply Hne. zsolve. }
    destruct (decide (n = O)) as [->|Hn0].
    + exists m1. rewrite E0. split; [done|]. split; [done|]. intros i Hi. unfold m1. rewrite ld_insert. repeat case_decide; try lia; try done.
      rewrite Hu. unfold w. by replace i with k by lia.
    + destruct (IH (with_pm m1 st) HT1 (Hd1 fd Hd) ltac:(cbn; by rewrite (touch_walk st (eq fd) m1)) ltac:(intros m' j Hm' Hj; cbn; apply Hsrc; [by eapply touch_trans|done]) (k + 1)) as (m' & E & Hm' & Hc); [lia|lia|].
      exists m'. split; [|split; [by eapply touch_trans|]].
      * rewrite E0. assert (Hd4 : dst + 4 * k + 4 < 4294967296) by (destruct Hm as [? ?]; unfold pdi in *; zsolve).
        rewrite !u32_small by (destruct Hm; lia). replace (dst + 4 * k + 4) with (dst + 4 * (k + 1)) by lia. replace (src + 4 * k + 4) with (src + 4 * (k + 1)) by lia. exact E.
      * intros i Hi. rewrite Hc by done. cbn. destruct (Hfin i) as [->|]; [|done]. unfold m1. rewrite ld_insert. repeat case_decide; try lia; try done.
        rewrite Hu. unfold w. by replace i with k by lia.
Qed.

End copy_lemmas.

(** ** One space beside the other *)

Section spaces_lemmas.
Context {B : Build}.
Implicit Types (st : mst).

Lemma touch_cr3 st c F m' : touch st F m' → touch (with_cr3 c st) F m'.
Proof. done. Qed.

(** The kernel's addresses mean the same in both spaces. *)
Lemma kernel_walk st c v : spaces st c → managed v → 768 ≤ pdi v → walk (pm st) c v = walk (pm st) (mcr3 st) v.
Proof. intros H [Hv Hi] Hk. rewrite !walk_alt. unfold pte_slot, pde_at. by rewrite (sc_kernel _ _ H) by lia. Qed.

Record unmoved (st st' : mst) (c : Z) : Prop := {
  um_spaces : spaces st' c;
  um_plain : ∀ f, plain st c f → plain st' c f;
  um_parent : ∀ v, managed v → walk (pm st') (mcr3 st') v = walk (pm st) (mcr3 st) v;
  um_env : same_env st st'
}.

(** Writing a page of data *)
Lemma plain_write st c f m' : spaces st c → plain st c f → touch st (eq f) m' →
  unmoved st (with_pm m' st) c ∧ ∀ v, managed v → walk m' c v = walk (pm st) c v.
Proof.
  intros [H1 H2 H3 H4 H5] [P1 P2 P3 P4] Hm. assert (HF : ∀ g, eq f g → data_frame st g ∧ g mod 4096 = 0) by (by intros g <-).
  assert (HFc : ∀ g, eq f g → data_frame (with_cr3 c st) g ∧ g mod 4096 = 0) by (by intros g <-). pose proof (touch_cr3 st c _ _ Hm) as Hmc.
  destruct (touch_ok st (eq f) m' H1 HF Hm) as [T1 D1], (touch_ok (with_cr3 c st) (eq f) m' H2 HFc Hmc) as [T2 D2].
  assert (Hdp : ∀ i, 0 ≤ i < 1024 → ld m' (mcr3 st + 4 * i) = ld (pm st) (mcr3 st + 4 * i)) by (intros i Hi; by apply (touch_dir st (eq f))).
  assert (Hdc : ∀ i, 0 ≤ i < 1024 → ld m' (c + 4 * i) = ld (pm st) (c + 4 * i)) by (intros i Hi; by apply (touch_dir (with_cr3 c st) (eq f))).
  split; [split|].
  - split; [done|exact T2|by apply D1| |].
    + cbn. intros i Hi. rewrite Hdc by lia. intros Hp. apply D1. by apply H4.
    + cbn. intros i Hi. rewrite Hdc, Hdp by lia. by apply H5.
  - intros g [Q1 Q2 Q3 Q4]. split; [by apply D1|by apply (D2 g)|done|done].
  - intros v Hv. by apply (touch_walk st (eq f)).
  - by split.
  - intros v Hv. by apply (touch_walk (with_cr3 c st) (eq f)).
Qed.

(** Adding a page to the child's space *)
Lemma add_spaces st c v m' kp' h : spaces st c → managed v → pdi v < 768 → added (with_cr3 c st) v m' kp' h → shrinks 1 (kernel_pool st) kp' →
  let st' := with_pm m' (with_pool PF_KERNEL kp' st) in tables_ok (with_cr3 c st') →
  (∀ g, data_frame (with_cr3 c st) g → ¬ frame_free (kernel_pool st) g → data_frame (with_cr3 c st') g) →
  unmoved st st' c ∧ ∀ f, plain st c f → ∀ a, f ≤ a < f + 4096 → ld m' a = ld (pm st) a.
Proof.
  intros H Hv Hu Had Hsh st' HTc Hdat. pose proof H as [H1 H2 H3 H4 H5]. destruct Had as [A1 [A2 A3] A4 A5]. cbn in A1, A2, A3, A4, A5.
  assert (Hha : h mod 4096 = 0) by (rewrite <-A3; apply frame_aligned). pose proof (sm_align _ _ (t_self _ H2)) as Hca. cbn in Hca.
  assert (Hdh : data_frame st h) by (destruct A1 as [[Hp ->]|[Hf _]]; [apply H4; [destruct Hv; lia|done]|by apply (free_data st PF_KERNEL)]).
  set (F := λ f, f = c ∨ f = h). assert (HF : ∀ g, F g → data_frame st g ∧ g mod 4096 = 0) by (intros g [-> | ->]; done).
  assert (Hm : touch st F m').
  { split; [apply (sm_words _ _ (t_self _ HTc))|]. intros a Ha. apply A5; apply Ha; [by left|by right]. }
  destruct (touch_ok st F m' H1 HF Hm) as [T1 D1]. pose proof (tables_shrink PF_KERNEL (with_pm m' st) kp' 1 T1 Hsh) as T2. change (with_pool PF_KERNEL kp' (with_pm m' st)) with st' in T2.
  assert (Hdp : ∀ i, 0 ≤ i < 1024 → ld m' (mcr3 st + 4 * i) = ld (pm st) (mcr3 st + 4 * i)) by (intros i Hi; by apply (touch_dir st F)).
  split; [split|].
  - split; [done|done|exact (D1 c H3)| |].
    + cbn. intros i Hi. destruct (decide (i = pdi v)) as [->|Hn].
      * intros _. fold (pde_at m' c v). rewrite A3. exact (D1 h Hdh).
      * rewrite A4 by lia. intros Hp. exact (D1 _ (H4 i Hi Hp)).
    + cbn. intros i Hi. rewrite A4, Hdp by lia. by apply H5.
  - intros f [P1 P2 P3 P4]. split; [exact (D1 f P1)|by apply Hdat; [|apply P3]| |done]. destruct P3 as [P3 P5]. split; [|done]. intros Hx. by apply P3, (s_free _ _ _ Hsh).
  - intros w Hw. exact (touch_walk st F m' w H1 HF Hm Hw).
  - by split.
  - intros f [P1 P2 P3 P4] a Ha. assert (Hfc : f ≠ c) by apply P2. assert (Hfh : f ≠ h).
    { intros ->. destruct A1 as [[Hp Eh]|[Hf _]]; [|by destruct P3]. destruct P2 as [_ P2]. apply (P2 (pdi v)); [destruct Hv; lia|done|]. by symmetry. }
    apply A5; zsolve.
Qed.

Lemma unmoved_trans st1 st2 st3 c : unmoved st1 st2 c → unmoved st2 st3 c → unmoved st1 st3 c.
Proof.
  intros [A1 A2 A3 A4] [D1 D2 D3 D4]. split; [done|auto| |by eapply same_env_trans]. intros v Hv. rewrite D3 by done. by apply A3.
Qed.

(** Changes of the pools only *)
Lemma unmoved_pools st st' c : pm st' = pm st → same_env st st' → tables_ok st' → tables_ok (with_cr3 c st') → (∀ f, taken st f → taken st' f) →
  spaces st c → unmoved st st' c.
Proof.
  intros E1 E2 T1 T2 Ht [H1 H2 H3 H4 H5]. pose proof (e_cr3 _ _ E2) as Ec. split; [split| | |done]; try done.
  - unfold data_frame. by rewrite E1, Ec.
  - intros i Hi. unfold data_frame. rewrite E1, Ec. by apply H4.
  - intros i Hi. rewrite E1, Ec. by apply H5.
  - intros f [P1 P2 P3 P4]. split; [unfold data_frame; by rewrite E1, Ec|unfold data_frame; cbn; by rewrite E1|by apply Ht|done].
  - intros v Hv. by rewrite E1, Ec.
Qed.

(** [spaces] and [plain] look at the memory, CR3 and the pools. *)
Lemma spaces_same st st' c : pm st' = pm st → mcr3 st' = mcr3 st → (∀ pf, pool_of pf st' = pool_of pf st) → spaces st c → spaces st' c ∧ ∀ f, plain st c f → plain st' c f.
Proof.
  intros E1 E2 E3 [H1 H2 H3 H4 H5]. assert (E4 : ∀ pf, pool_bitmap (pool_of pf st') = pool_bitmap (pool_of pf st) ∧ phy_addr_start (pool_of pf st') = phy_addr_start (pool_of pf st)) by (intros pf; by rewrite E3).
  assert (Hd : ∀ f, data_frame st f → data_frame st' f) by (intros f; unfold data_frame; by rewrite E1, E2).
  assert (Ht : ∀ f, taken st f → taken st' f) by (intros f; unfold taken; by rewrite (E3 PF_KERNEL : kernel_pool st' = _), (E3 PF_USER : user_pool st' = _)).
  split; [split|].
  - by apply (tables_ok_ext st).
  - apply (tables_ok_ext (with_cr3 c st)); [exact E1|done| |done]. intros pf. pose proof (E4 pf). by destruct pf.
  - by apply Hd.
  - intros i Hi. rewrite E1. intros Hp. by apply Hd, H4.
  - intros i Hi. rewrite E1, E2. by apply H5.
  - intros f [P1 P2 P3 P4]. split; [by apply Hd| |by apply Ht|done]. unfold data_frame in *. cbn in *. by rewrite E1.
Qed.

Lemma relocked_spaces l st c : spaces st c → unmoved st (relocked PF_USER l st) c.
Proof.
  intros H. apply unmoved_pools; try done.
  - by apply (tables_ok_ext st); [..|intros []|apply H].
  - by apply (tables_ok_ext (with_cr3 c st)); [..|intros []|apply H].
Qed.

(** Taking a frame from the user pool *)
Lemma take_spaces st c g p' : spaces st c → pool_take (user_pool st) g p' → let st' := with_pool PF_USER p' st in unmoved st st' c ∧ plain st' c g ∧ ∀ f, plain st c f → f ≠ g.
Proof.
  intros H T st'. pose proof H as [H1 H2 _ _ _]. pose proof (shrinks_take _ _ _ T) as Hsh.
  assert (Ht : ∀ f, taken st f → taken st' f) by (intros f [F1 F2]; split; [done|]; cbn; intros Hx; by apply F2, (s_free _ _ _ Hsh)).
  split; [|split].
  - apply unmoved_pools; try done; [by apply (tables_shrink PF_USER st p' 1)|by apply (tables_shrink PF_USER (with_cr3 c st) p' 1)].
  - split.
    + apply (free_data st PF_USER); [done|apply T].
    + apply (free_data (with_cr3 c st) PF_USER); [done|apply T].
    + split; cbn; [|intros [_ ?]%(pt_free _ _ _ T); done]. intros Hx. eapply (pools_disjoint st); [done|exact Hx|apply T].
    + destruct (frame_free_range _ _ (t_upool _ H1) (pt_was _ _ _ T)). done.
  - intros f [_ _ [_ F2] _] ->. apply F2, T.
Qed.

Lemma lock_pool_run pf st : pool_lock (pool_of pf st) = Lock 0 0 → self st ≠ 0 → acquire pf st = Ok (tt, relocked pf (Lock (self st) 1) st).
Proof. intros Hl Hs. unfold acquire, lock_enter. rewrite Hl. cbn [holder]. by rewrite (proj2 (Z.eqb_neq 0 (self st))) by done. Qed.

Lemma unlock_pool_run pf st : pool_lock (pool_of pf st) = Lock (self st) 1 → release pf st = Ok (tt, relocked pf (Lock 0 0) st).
Proof. intros Hl. unfold release, lock_leave. rewrite Hl. cbn [holder holder_repeat_nr]. by rewrite Z.eqb_refl, !ASSERT_true by done. Qed.

(** What the child gets when a page is added to its space. *)
Record got_child_page (st st' : mst) (c v g : Z) : Prop := {
  cp_unmoved : unmoved st st' c;
  cp_plain : plain st' c g;
  cp_others : ∀ f, plain st c f → f ≠ g ∧ ∀ a, f ≤ a < f + 4096 → ld (pm st') a = ld (pm st) a;
  cp_walk : ∀ v', managed v' → walk (pm st') c v' = if decide (v' / 4096 = v / 4096) then Ok (g + v' mod 4096) else walk (pm st) c v';
  cp_kernel : (nfree (kernel_pool st) ≤ 1 + nfree (kernel_pool st'))%nat;
  cp_user : (nfree (user_pool st) ≤ 1 + nfree (user_pool st'))%nat;
  cp_lock : pool_lock (user_pool st') = Lock 0 0
}.

Lemma child_page st c v : spaces st c → user_page v → walk (pm st) c v = Fault → (0 < nfree (kernel_pool st))%nat → (0 < nfree (user_pool st))%nat →
  pool_lock (user_pool st) = Lock 0 0 → self st ≠ 0 →
  ∃ g st', get_a_page_without_opvaddrbitmap PF_USER v (with_cr3 c st) = Ok (v, with_cr3 c st') ∧ got_child_page st st' c v g.
Proof.
  intros H (Hv & Hu & Hva) Hw Hk Hn Hl Hself. set (sA := relocked PF_USER (Lock (self st) 1) st).
  pose proof (relocked_spaces (Lock (self st) 1) st c H) as UA. fold sA in UA. pose proof (um_spaces _ _ _ UA) as HA.
  destruct (palloc_spec (with_cr3 c sA) PF_USER) as (g & p' & Ep & T); [apply HA|done|]. cbn [pool_of with_cr3 user_pool] in T.
  destruct (take_spaces sA c g p' HA T) as (UB & PB & NB). set (sB := with_pool PF_USER p' sA) in *. pose proof (um_spaces _ _ _ UB) as HB.
  destruct (frame_free_range _ _ (t_upool _ (sc_parent _ _ HA)) (pt_was _ _ _ T)) as [Hgr Hga].
  destruct (page_table_add_spec (with_cr3 c sB) v g (sc_child _ _ HB) Hv ltac:(lia) Hga Hw ltac:(done)) as (m' & kp' & Ea & Hsh & HT' & Hmap & Hdat & (h & Had) & _).
  set (sC := with_pm m' (with_pool PF_KERNEL kp' sB)). destruct (add_spaces sB c v m' kp' h HB Hv Hu Had Hsh HT' Hdat) as [UC LC]. fold sC in UC.
  set (sD := relocked PF_USER (Lock 0 0) sC). pose proof (relocked_spaces (Lock 0 0) sC c (um_spaces _ _ _ UC)) as UD. fold sD in UD.
  exists g, sD. split.
  - unfold get_a_page_without_opvaddrbitmap. mstep (lock_pool_run PF_USER (with_cr3 c st) Hl Hself). change (relocked PF_USER _ (with_cr3 c st)) with (with_cr3 c sA).
    unfold back_page. mstep Ep. change KList.NULL with 0; rewrite (proj2 (Z.eqb_neq g 0)) by lia. change (with_pool PF_USER p' (with_cr3 c sA)) with (with_cr3 c sB). mstep Ea.
    change (with_pm m' (with_pool PF_KERNEL kp' (with_cr3 c sB))) with (with_cr3 c sC). mstep (unlock_pool_run PF_USER (with_cr3 c sC) ltac:(exact (pt_lock _ _ _ T))). done.
  - split; try done.
    + eapply unmoved_trans; [exact UA|]. eapply unmoved_trans; [exact UB|]. eapply unmoved_trans; [exact UC|exact UD].
    + apply (um_plain _ _ _ UD), (um_plain _ _ _ UC). done.
    + intros f Hf. apply (um_plain _ _ _ UA) in Hf. split; [by apply NB|]. apply (um_plain _ _ _ UB) in Hf. exact (LC f Hf).
    + exact (s_nfree _ _ _ Hsh).
    + pose proof (pt_nfree _ _ _ T) as E. change (nfree (user_pool sA)) with (nfree (user_pool st)) in E. change (nfree (user_pool sD)) with (nfree p'). lia.
Qed.

(** ** Copying a page into the other space *)

Record copied_page (st st' : mst) (c v f fb g : Z) : Prop := {
  pc_unmoved : unmoved st st' c;
  pc_plain : plain st' c g;
  pc_others : ∀ h, plain st c h → h ≠ g ∧ (h ≠ fb → ∀ a, h ≤ a < h + 4096 → ld (pm st') a = ld (pm st) a);
  pc_walk : ∀ v', managed v' → walk (pm st') c v' = if decide (v' / 4096 = v / 4096) then Ok (g + v' mod 4096) else walk (pm st) c v';
  pc_content : ∀ i, 0 ≤ i < 1024 → ld (pm st') (g + 4 * i) = ld (pm st) (f + 4 * i);
  pc_kernel : (nfree (kernel_pool st) ≤ 1 + nfree (kernel_pool st'))%nat;
  pc_user : (nfree (user_pool st) ≤ 1 + nfree (user_pool st'))%nat;
  pc_lock : pool_lock (user_pool st') = Lock 0 0
}.

(** A whole page from [src] to [dst] *)
Lemma vcopy_page st dst src fd fs : tables_ok st → data_frame st fd → fd mod 4096 = 0 → managed dst → dst mod 4096 = 0 → walk (pm st) (mcr3 st) dst = Ok fd →
  managed src → src mod 4096 = 0 → walk (pm st) (mcr3 st) src = Ok fs → fs mod 4096 = 0 → fs ≠ fd →
  ∃ m', vcopy 1024 dst src st = Ok (tt, with_pm m' st) ∧ touch st (eq fd) m' ∧ ∀ i, 0 ≤ i < 1024 → ld m' (fd + 4 * i) = ld (pm st) (fs + 4 * i).
Proof.
  intros HT Hd Hf Hm Hv Hw Hms Hvs Hws Hfs Hne. assert (HF : ∀ g, eq fd g → data_frame st g ∧ g mod 4096 = 0) by (by intros g <-).
  destruct (vcopy_run 1024 st dst src fd fs HT Hd Hf Hm Hv Hw Hfs Hne ltac:(destruct Hms; unfold pdi in *; zsolve)) with (k := 0) as (m' & E & Hm' & Hc); [|lia|lia|].
  { intros m' k Hm' Hk. apply (walk_word m' (mcr3 st) src fs k); try done. by rewrite (touch_walk st (eq fd) m'). }
  exists m'. rewrite Z.mul_0_r, !Z.add_0_r in E. split; [exact E|]. split; [done|]. intros i Hi. rewrite Hc by done. by rewrite decide_True by lia.
Qed.

Lemma copy_one st c v buf f fb : spaces st c → user_page v → kernel_page buf → walk (pm st) (mcr3 st) v = Ok f → walk (pm st) (mcr3 st) buf = Ok fb →
  plain st c f → plain st c fb → f ≠ fb → walk (pm st) c v = Fault → (0 < nfree (kernel_pool st))%nat → (0 < nfree (user_pool st))%nat →
  pool_lock (user_pool st) = Lock 0 0 → self st ≠ 0 →
  ∃ st1 st2 st3 g, vcopy 1024 buf v st = Ok (tt, st1) ∧ get_a_page_without_opvaddrbitmap PF_USER v (with_cr3 c st1) = Ok (v, with_cr3 c st2) ∧
    vcopy 1024 v buf (with_cr3 c st2) = Ok (tt, with_cr3 c st3) ∧ unmoved st st1 c ∧ unmoved st st2 c ∧ copied_page st st3 c v f fb g.
Proof.
  intros H Hv Hb Hwv Hwb Pf Pb Hne Hcv Hk Hu Hl Hs. destruct Hv as (Hmv & Huv & Hav), Hb as (Hmb & Hkb & Hab).
  destruct (vcopy_page st buf v fb f (sc_parent _ _ H) (pn_parent _ _ _ Pb) (pn_align _ _ _ Pb) Hmb Hab Hwb Hmv Hav Hwv (pn_align _ _ _ Pf) Hne) as (m1 & E1 & T1 & C1).
  destruct (plain_write st c fb m1 H Pb T1) as [U1 W1]. set (st1 := with_pm m1 st) in *. pose proof (um_spaces _ _ _ U1) as H1.
  destruct (child_page st1 c v H1 (conj Hmv (conj Huv Hav)) ltac:(cbn; by rewrite W1) Hk Hu Hl Hs) as (g & st2 & E2 & G). pose proof (cp_unmoved _ _ _ _ _ G) as U2. pose proof (um_spaces _ _ _ U2) as H2.
  assert (U12 : unmoved st st2 c) by (by eapply unmoved_trans). pose proof (cp_plain _ _ _ _ _ G) as Pg. pose proof (um_plain _ _ _ U12 fb Pb) as Pb2.
  destruct (cp_others _ _ _ _ _ G fb (um_plain _ _ _ U1 fb Pb)) as [Hbg Hbc].
  assert (Wv : walk (pm st2) c v = Ok g) by (rewrite (cp_walk _ _ _ _ _ G) by done; rewrite decide_True by done; f_equal; lia).
  assert (Wb : walk (pm st2) c buf = Ok fb) by (rewrite kernel_walk by done; by rewrite (um_parent _ _ _ U12)).
  destruct (vcopy_page (with_cr3 c st2) v buf g fb (sc_child _ _ H2) (pn_child _ _ _ Pg) (pn_align _ _ _ Pg) Hmv Hav Wv Hmb Hab Wb (pn_align _ _ _ Pb) Hbg) as (m3 & E3 & T3 & C3).
  destruct (plain_write st2 c g m3 H2 Pg T3) as [U3 W3]. exists st1, st2, (with_pm m3 st2), g. split; [exact E1|]. split; [exact E2|]. split; [exact E3|]. split; [done|]. split; [done|].
  assert (T3' : ∀ h, h mod 4096 = 0 → h ≠ g → ∀ a, h ≤ a < h + 4096 → ld m3 a = ld (pm st2) a).
  { intros h Hh Hhg a Ha. apply (proj2 T3). intros k <- Hx. pose proof (pn_align _ _ _ Pg). apply Hhg. zsolve. }
  split; try apply G.
  - by eapply unmoved_trans.
  - by apply (um_plain _ _ _ U3).
  - intros h Hh. destruct (cp_others _ _ _ _ _ G h (um_plain _ _ _ U1 h Hh)) as [Hhg Hhc]. split; [done|]. intros Hhb a Ha. cbn. pose proof (pn_align _ _ _ Hh) as Hha. pose proof (pn_align _ _ _ Pb) as Hba.
    rewrite (T3' h) by done. rewrite Hhc by done. cbn. apply (proj2 T1). intros k <- Hx. apply Hhb. zsolve.
  - intros v' Hv'. cbn. rewrite W3 by done. rewrite (cp_walk _ _ _ _ _ G) by done. case_decide; [done|]. cbn. by apply W1.
  - intros i Hi. cbn. rewrite C3 by done. cbn. rewrite Hbc by lia. cbn. by apply C1.
Qed.

End spaces_lemmas.

(** ** A new directory *)

(** What [create_page_dir] makes: a directory [c] at the kernel address [v],
    with the kernel's tables and an empty user part. *)
Record made_dir (st st' : mst) (v c : Z) : Prop := {
  md_spaces : spaces st' c;
  md_ok : kernel_ok st';
  md_page : kernel_page v;
  md_walk : walk (pm st') (mcr3 st') v = Ok c;
  md_empty : ∀ i, 0 ≤ i < 768 → ld (pm st') (c + 4 * i) = 0;
  md_env : mcr3 st' = mcr3 st ∧ self st' = self st ∧ self_pgdir st' = self_pgdir st ∧ userprog_vaddr st' = userprog_vaddr st;
  md_kept : kept st st' v 1;
  md_owned : ∀ x, pool_owned PF_KERNEL st' x ↔ pool_owned PF_KERNEL st x ∨ x = v;
  md_fresh : ¬ pool_owned PF_KERNEL st v
}.

Section dir_lemmas.
Context {B : Build}.
Implicit Types (st : mst).

(** The directory that the writes of [create_page_dir] leave in the page. *)
Lemma dir_tables st c m' : tables_ok st → data_frame st c → taken st c → c mod 4096 = 0 → 0 ≤ c < 4294967296 → touch st (eq c) m' →
  (∀ i, 0 ≤ i < 768 → ld m' (c + 4 * i) = 0) → (∀ i, 768 ≤ i < 1023 → ld m' (c + 4 * i) = ld (pm st) (mcr3 st + 4 * i)) → ld m' (c + 4092) = c + 7 →
  spaces (with_pm m' st) c.
Proof.
  intros HT Hd Htk Ha Hc Hm H0 Hk Hl. assert (HF : ∀ g, eq c g → data_frame st g ∧ g mod 4096 = 0) by (by intros g <-).
  destruct (touch_ok st (eq c) m' HT HF Hm) as [T1 D1].
  assert (Hdp : ∀ i, 0 ≤ i < 1024 → ld m' (mcr3 st + 4 * i) = ld (pm st) (mcr3 st + 4 * i)) by (intros i Hi; by apply (touch_dir st (eq c))).
  assert (Hnp : ∀ i, 0 ≤ i < 768 → present (ld m' (c + 4 * i)) = false) by (intros i Hi; by rewrite H0).
  assert (Hcase : ∀ i, 0 ≤ i < 1023 → present (ld m' (c + 4 * i)) = true → 768 ≤ i ∧ ld m' (c + 4 * i) = ld (pm st) (mcr3 st + 4 * i)).
  { intros i Hi Hp. destruct (decide (i < 768)); [by rewrite Hnp in Hp by lia|]. split; [lia|apply Hk; lia]. }
  split; [done| |by apply D1| |].
  - split; cbn; try apply HT; try done.
    + split; cbn; try done; [apply Hm|by rewrite Hl, present_flags|by rewrite Hl, frame_flags].
    + intros i Hi Hp. destruct (Hcase i Hi Hp) as [Hi2 E]. rewrite E in Hp |- *. split; [by apply Hd; [lia|]|]. by apply (t_tab _ HT); [lia|].
    + intros i j Hi Hj Hp Hq. destruct (Hcase i ltac:(lia) Hp) as [Hi2 E], (Hcase j ltac:(lia) Hq) as [Hj2 E']. rewrite E, E' in *. by apply (t_inj _ HT).
  - cbn. intros i Hi Hp. by rewrite Hnp in Hp.
  - cbn. intros i Hi. rewrite Hdp by lia. by apply Hk.
Qed.

Lemma create_page_dir_run st : kernel_ok st → pool_room PF_KERNEL 1 st → ∃ v c st', create_page_dir st = Ok (v, st') ∧ made_dir st st' v c.
Proof.
  intros Hok Hr. destruct (get_kernel_page st Hok Hr) as (v & s1 & E1 & [G1 G2 G3 G4 G5 [G6a G6b] G7 G8 (c & Gw & Gc) G9]). pose proof G1 as (P1 & _).
  pose proof (ps_tables _ _ P1) as HT. pose proof (t_self _ HT) as Hself.
  destruct (proj2 (G8 v) ltac:(by right)) as (r & Hown & Ev). destruct (ps_back _ _ P1 r Hown) as (f & Hw & Hd & Hip & Hnf). rewrite <-Ev in Hw. assert (f = c) as -> by congruence.
  pose proof (ps_vpool _ _ P1) as [_ _ Va [Vr1 Vr2] _ _]. assert (Hmv : managed v) by (rewrite Ev; apply managed_range; [done|lia|destruct Hown; lia|destruct Hown; lia]).
  assert (Hkv : 768 ≤ pdi v) by (unfold pdi, K_HEAP_START in *; zsolve).
  assert (Hca : c mod 4096 = 0) by (destruct (walk_Ok_inv _ _ _ _ Gw) as (_ & _ & ->); rewrite G6a, Z.add_0_r; apply frame_aligned).
  assert (Hcr : 0 ≤ c < 4294967296) by (pose proof (po_range _ (t_pool _ HT)); destruct Hip as (j & Hj & ->); cbn in Hj |- *; lia).
  assert (Htk : taken s1 c) by (split; [done|]; intros (i & Hi & Ei & _); destruct Hip as (j & Hj & Ej); pose proof (t_disj _ HT); cbn in *; lia).
  assert (HF : ∀ g, eq c g → data_frame s1 g ∧ g mod 4096 = 0) by (by intros g <-).
  (* the kernel's entries *)
  destruct (vcopy_run 256 s1 v 4294963200 c (mcr3 s1) HT Hd Hca Hmv G6a Gw (sm_align _ _ Hself) ltac:(intros E; by apply (proj1 Hd)) ltac:(lia)) with (k := 768) as (m1 & E2 & T1 & C1); [|lia|lia|].
  { intros m' k Hm' Hk. assert (Hs' : self_mapped m' (mcr3 s1)) by (apply (t_self (with_pm m' s1)); by apply (touch_ok s1 (eq c))).
    pose proof (walk_pde m' (mcr3 s1) (4194304 * k) Hs' ltac:(lia)) as E. rewrite pde_ptr_eq in E by lia. replace (pdi (4194304 * k)) with k in E by (unfold pdi; zsolve).
    replace (4294963200 + 4 * k) with (4294963200 + k * 4) by lia. exact E. }
  set (s2 := with_pm m1 s1) in *. destruct (touch_ok s1 (eq c) m1 HT HF T1) as [HT2 D2]. fold s2 in HT2, D2.
  assert (Gw2 : walk (pm s2) (mcr3 s2) v = Ok c) by (cbn; by rewrite (touch_walk s1 (eq c) m1)).
  (* its own address *)
  destruct (walk_word _ _ _ _ 1023 Hmv G6a Gw2 ltac:(lia)) as [_ Gw3]. set (m2 := <[c + 4 * 1023 := c + 7]> m1).
  assert (T2 : touch s2 (eq c) m2).
  { split; intros a; [|intros Ha]; unfold m2; rewrite ld_insert; case_decide; [zsolve|apply (sm_words _ _ (t_self _ HT2))| |done]. specialize (Ha c eq_refl). lia. }
  assert (T12 : touch s1 (eq c) m2) by (by eapply touch_trans).
  assert (Hsp : spaces (with_pm m2 s1) c).
  { apply dir_tables; try done.
    - intros i Hi. unfold m2. rewrite ld_insert, decide_False by lia. rewrite C1 by lia. rewrite decide_False by lia. apply Gc. lia.
    - intros i Hi. unfold m2. rewrite ld_insert, decide_False by lia. rewrite C1 by lia. by rewrite decide_True by lia.
    - change 4092 with (4 * 1023). unfold m2. by rewrite ld_insert, decide_True. }
  exists v, c, (with_pm m2 s1). split.
  - unfold create_page_dir. mstep E1. change (v =? NULL) with (v =? 0). rewrite (proj2 (Z.eqb_neq v 0)) by (unfold K_HEAP_START in *; lia).
    rewrite u32_small by (destruct Hmv; unfold pdi in *; zsolve). change (768 * 4) with (4 * 768). erewrite mbnd_Ok by exact E2. fold s2.
    erewrite mbnd_Ok by (by apply (addr_v2p_spec s2 v c); [apply HT2|apply Hmv|]). rewrite u32_small by (destruct Hmv; unfold pdi in *; zsolve).
    unfold mbnd, vstore. rewrite Gw3. cbn [rbind fst snd]. rewrite lor_flags by done. done.
  - destruct (data_write_pool PF_KERNEL s1 c m2 P1 Hd Hca) as (P2 & _ & Ho); [split; [apply T12|intros a Ha; apply (proj2 T12); by intros ? <-]|].
    split; try done.
    + split; [done|]. split; [apply G1|apply G1].
    + cbn. by rewrite (touch_walk s1 (eq c) m2).
    + intros i Hi. cbn. unfold m2. rewrite ld_insert, decide_False by lia. rewrite C1 by lia. rewrite decide_False by lia. apply Gc. lia.
    + destruct G9 as [K1 K2 K3]. destruct (touch_ok s1 (eq c) m2 HT HF T12) as [_ D3]. split.
      * intros w Hmw Hx. cbn. rewrite (touch_walk s1 (eq c) m2) by done. by apply K1.
      * intros g Hg Hgf. apply D3. by apply K2.
      * intros g Hg. exact (K3 g Hg).
    + intros x. rewrite (owned_iff PF_KERNEL s1 (with_pm m2 s1) eq_refl Ho). apply G8.
Qed.

(** *** In the new space *)

(** What is data beside a new directory is data in it. *)
Lemma dir_data st st' v c f : made_dir st st' v c → data_frame st' f → f ≠ c → data_frame (with_cr3 c st') f.
Proof.
  intros [M1 _ _ _ M5 _ _ _ _] Hd Hne. split; [done|]. cbn. intros i Hi Hp. destruct (decide (i < 768)) as [Hu|Hu]; [rewrite M5 in Hp by lia; done|].
  rewrite (sc_kernel _ _ M1) in Hp |- * by lia. by apply Hd.
Qed.

Lemma pool_page st i : pool_state PF_KERNEL st → 0 ≤ i < bit_cnt (vbits PF_KERNEL st) → managed (vstart PF_KERNEL st + 4096 * i) ∧ 768 ≤ pdi (vstart PF_KERNEL st + 4096 * i).
Proof.
  intros [H1 H2 H3 H4 _ _] Hi. specialize (H4 eq_refl). destruct H2 as [_ _ Va [Vr1 Vr2] _ _]. split; [apply managed_range; lia|]. unfold pdi, K_HEAP_START in *. zsolve.
Qed.

(** The kernel's pool as the new process sees it, when no page of the pool is
    the running directory. *)
Lemma kernel_ok_child st st' v c : made_dir st st' v c → (∀ i, 0 ≤ i < bit_cnt (vbits PF_KERNEL st') → walk (pm st') (mcr3 st') (vstart PF_KERNEL st' + 4096 * i) ≠ Ok (mcr3 st')) →
  kernel_ok (with_cr3 c st').
Proof.
  intros Hmd Hno. pose proof Hmd as [M1 (P & Hs & Hl) _ _ M5 _ _ _ _]. split; [|by split]. pose proof P as [H1 H2 H3 H4 H7 H8].
  assert (Hw : ∀ i, 0 ≤ i < bit_cnt (vbits PF_KERNEL st') → walk (pm st') c (vstart PF_KERNEL st' + 4096 * i) = walk (pm st') (mcr3 st') (vstart PF_KERNEL st' + 4096 * i)).
  { intros i Hi. destruct (pool_page st' i P Hi). by apply kernel_walk. }
  assert (Hown : ∀ i, own_page PF_KERNEL (with_cr3 c st') i → own_page PF_KERNEL st' i ∧ walk (pm st') (mcr3 st') (vstart PF_KERNEL st' + 4096 * i) ≠ Ok c).
  { intros i (Hi & Hb & Ht & Hx). change (vbits PF_KERNEL (with_cr3 c st')) with (vbits PF_KERNEL st') in *. change (vstart PF_KERNEL (with_cr3 c st')) with (vstart PF_KERNEL st') in *. cbn [pm mcr3 with_cr3] in Hx.
    rewrite Hw in Hx by done. split; [|done]. split_and!; try done; [lia|lia|]. by apply Hno. }
  split; try done.
  - apply M1.
  - destruct H2 as [V1 V2 V3 V4 V5 V6]. split; try done. intros i Hi Hb. change (walk (pm st') c (vstart PF_KERNEL st' + 4096 * i) = Fault). rewrite Hw by done. by apply V6.
  - intros i Hi. destruct (Hown i Hi) as [Ho Hnc]. destruct (H7 i Ho) as (f & Ef & Hd & Hip). exists f. change (walk (pm st') c (vstart PF_KERNEL st' + 4096 * i) = Ok f ∧ data_frame (with_cr3 c st') f ∧ in_pool (kernel_pool st') f ∧ ¬ frame_free (kernel_pool st') f).
    rewrite Hw by apply Ho. split; [done|]. split; [|done]. apply (dir_data st st' v c f Hmd Hd). congruence.
  - intros i j f Hi Hj. destruct (Hown i Hi) as [Hoi _], (Hown j Hj) as [Hoj _]. change (walk (pm st') c (vstart PF_KERNEL st' + 4096 * i) = Ok f → walk (pm st') c (vstart PF_KERNEL st' + 4096 * j) = Ok f → i = j).
    rewrite !Hw by (apply Hoi || apply Hoj). by apply H8.
Qed.

(** A user page in the running space *)
Lemma user_page_run st v : kernel_ok st → user_page v → walk (pm st) (mcr3 st) v = Fault → (1 ≤ nfree (kernel_pool st))%nat → (1 ≤ nfree (user_pool st))%nat → pool_lock (user_pool st) = Lock 0 0 →
  ∃ g st', get_a_page_without_opvaddrbitmap PF_USER v st = Ok (v, st') ∧ kernel_ok st' ∧ walk (pm st') (mcr3 st') v = Ok g ∧ data_frame st' g ∧ taken st' g ∧ g mod 4096 = 0 ∧
    same_env st st' ∧ ∀ w, managed w → w / 4096 ≠ v / 4096 → walk (pm st') (mcr3 st') w = walk (pm st) (mcr3 st) w.
Proof.
  intros (P & Hs & Hl) (Hv & Hu & Hva) Hw Hk Hn Hlu. set (sA := relocked PF_USER (Lock (self st) 1) st). pose proof P as [H1 H2 H3 H4 H7 H8].
  assert (HTA : tables_ok sA) by (by apply (tables_ok_ext st); [..|intros []|]).
  destruct (map_one sA PF_USER 0 v HTA (t_upool _ HTA) (conj Hk Hn) Hv Hw) as (g & sB & sC & E1 & Hgn & E2 & _ & HTC & Henv & Hgf & Hgnf & Hshk & Hshu & Hmap & Hdg & Hkeep & _).
  set (sD := relocked PF_USER (Lock 0 0) sC). destruct Henv as [V1 V2 V3 V4 V5]. pose proof (frame_free_range _ _ (t_upool _ HTA) Hgf) as [_ Hga].
  exists g, sD. split; [|].
  { unfold get_a_page_without_opvaddrbitmap. mstep (lock_pool_run PF_USER st Hlu Hs). fold sA. unfold back_page. mstep E1. change KList.NULL with 0 in *. rewrite (proj2 (Z.eqb_neq g 0)) by done. mstep E2.
    mstep (unlock_pool_run PF_USER sC ltac:(cbn; rewrite (s_lock _ _ _ Hshu), V4; done)). done. }
  assert (Hout : ∀ w, managed w → w / 4096 ≠ v / 4096 → walk (pm sD) (mcr3 sD) w = walk (pm st) (mcr3 st) w).
  { intros w Hmw Hne. change (walk (pm sC) (mcr3 sC) w = walk (pm sA) (mcr3 sA) w). rewrite Hmap, decide_False by done. done. }
  assert (Hpw : ∀ i, 0 ≤ i < bit_cnt (vbits PF_KERNEL st) → walk (pm sD) (mcr3 sD) (vstart PF_KERNEL st + 4096 * i) = walk (pm st) (mcr3 st) (vstart PF_KERNEL st + 4096 * i)).
  { intros i Hi. destruct (pool_page st i P Hi) as [Hm Hp]. apply Hout; [done|]. intros E. apply (same_page _ _ Hm Hv) in E as [E _]. lia. }
  assert (Ev : vaddr_of PF_KERNEL sD = vaddr_of PF_KERNEL st) by exact V2. assert (Ec : mcr3 sD = mcr3 st) by exact V1.
  assert (Hown : ∀ i, own_page PF_KERNEL sD i → own_page PF_KERNEL st i).
  { intros i. unfold own_page. rewrite Ev, Ec. intros (Hi & Hb & Ht & Hx). rewrite <-Ec, Hpw, Ec in Hx by done. done. }
  assert (Hfree : ∀ f, frame_free (kernel_pool sD) f → frame_free (kernel_pool st) f) by exact (s_free _ _ _ Hshk).
  split_and!; try done.
  - split; [|split; [cbn; by rewrite V4|change (pool_lock (kernel_pool sC) = Lock 0 0); by rewrite (s_lock _ _ _ Hshk)]]. split.
    + by apply (tables_ok_ext sC); [..|intros []|].
    + destruct H2 as [A1 A2 A3 A4 A5 A6]. split; rewrite ?Ev; try done. intros i Hi Hb. rewrite Hpw by done. by apply A6.
    + cbn. rewrite (s_start _ _ _ Hshk). done.
    + by rewrite Ev.
    + intros i Hi%Hown. rewrite Ev, Hpw by apply Hi. destruct (H7 i Hi) as (f & Ef & Hd & (j & Hj & Ej) & Hnf). exists f. split; [done|]. split; [exact (Hkeep f Hd Hnf)|]. split; [|by intros ?%Hfree].
      exists j. cbn. rewrite (s_start _ _ _ Hshk), (s_cnt _ _ _ Hshk). done.
    + intros i j f Hi%Hown Hj%Hown. rewrite Ev, !Hpw by (apply Hi || apply Hj). by apply H8.
  - change (walk (pm sC) (mcr3 sC) v = Ok g). rewrite Hmap, decide_True by done. f_equal. lia.
  - split; [|exact Hgnf]. intros Hx. apply Hfree in Hx. eapply (pools_disjoint st); done.
Qed.

End dir_lemmas.

(** C13: A new page directory shares the kernel and nothing else.  With a page
    to be had, [create_page_dir] returns the address of a page whose frame [c]
    holds a well-formed directory that maps itself, in which every kernel
    address means what it means in the running space and no user address is
    mapped; the running space translates every other page as before. *)
Theorem create_page_dir_shares {B : Build} (st : mst) : kernel_ok st → pool_room PF_KERNEL 1 st →
  ∃ v c st', create_page_dir st = Ok (v, st') ∧ tables_ok (with_cr3 c st') ∧ walk (pm st') (mcr3 st') v = Ok c ∧
    (∀ w, managed w → 768 ≤ pdi w → walk (pm st') c w = walk (pm st') (mcr3 st') w) ∧
    (∀ w, managed w → pdi w < 768 → walk (pm st') c w = Fault) ∧
    (∀ w, managed w → w / 4096 ≠ v / 4096 → walk (pm st') (mcr3 st') w = walk (pm st) (mcr3 st) w) ∧ kernel_ok st'.
Proof.
  intros Hok Hr. destruct (create_page_dir_run st Hok Hr) as (v & c & st' & E & [M1 M2 M3 M4 M5 M6 M7 _ _]). exists v, c, st'. split_and!; try done.
  - apply M1.
  - intros w Hw Hk. by apply kernel_walk.
  - intros w [Hw Hi] Hu. rewrite walk_alt. unfold pde_at. by rewrite M5 by lia.
  - intros w Hw Hne. apply (kt_walk _ _ _ _ M7); [done|lia].
Qed.

Lemma create_page_dir_shares_witness : ∃ v c st', create_page_dir (B := debug_build) demo_space = Ok (v, st') ∧
  walk (pm st') (mcr3 st') v = Ok c ∧ walk (pm st') c USER_VADDR_START = Fault.
Proof.
  destruct (create_page_dir_shares (B := debug_build) demo_space demo_kernel_ok demo_pool_room) as (v & c & st' & E & _ & Hw & _ & Hu & _).
  exists v, c, st'. split; [exact E|]. split; [exact Hw|]. apply Hu; unfold managed, pdi, USER_VADDR_START; zsolve.
Defined.
