(* ===== verification/Exit.v ===== *)
(** * Waiting and exiting ([userprog/wait_exit.c])

    A process that exits gives back its memory and its files, hands its
    children to init, wakes its parent and stays behind as [TASK_HANGING] with
    its exit status until the parent collects it in [sys_wait].

    System calls run with interrupts off, so [sys_wait] and [sys_exit] are
    interrupted only where they give up the processor: [sys_wait] is one turn
    of its loop, which returns or sleeps in [thread_block]; [sys_exit] ends in
    [thread_block]. *)

From S2P Require Import Prelude CString Bitmap Interrupt KList Sched Paging PagePool Ioqueue Disk Inode File System Fd Thread.

Section exit_ops.
Context {B : Build} {C : Code} (stale_tlb : bool).

(** ** The resources of a process *)

Fixpoint free_ptes (n : nat) (v_pte_ptr : Z) : M mst unit :=
  match n with
  | O => mok tt
  | S n' =>
      let! pte := vload v_pte_ptr in
      do! (if Z.land pte 1 =? 0 then mok tt else free_a_phy_page (Z.land pte 4294963200)) in
      free_ptes n' (u32 (v_pte_ptr + 4))
  end.

Fixpoint free_pdes (n : nat) (pgdir_vaddr pde_idx : Z) : M mst unit :=
  match n with
  | O => mok tt
  | S n' =>
      let! pde := vload (u32 (pgdir_vaddr + 4 * pde_idx)) in
      do! (if Z.land pde 1 =? 0 then mok tt
           else
             do! free_ptes 1024 (pte_ptr (u32 (pde_idx * 4194304))) in
             free_a_phy_page (Z.land pde 4294963200)) in
      free_pdes n' pgdir_vaddr (pde_idx + 1)
  end.

(** The descriptors from [local_fd] on; [fds] is the table of [release_thread]. *)
Fixpoint close_fds (n : nat) (release_thread local_fd : Z) : M sys unit :=
  match n with
  | O => mok tt
  | S n' =>
      let! p := pcb_at release_thread in
      let! fd := mlift (rd (p_fd_table p) local_fd) in
      do! (if fd =? -1 then mok tt
           else
             let! b := on_fs (is_pipe local_fd) in
             if b then let! global_fd := on_fs (fd_local2global local_fd) in pipe_close global_fd
             else let! _ := sys_close local_fd in mok tt) in
      close_fds n' release_thread (local_fd + 1)
  end.

Definition release_prog_resource (release_thread : Z) : M sys unit :=
  let! k := task_at release_thread in
  do! on_mem (free_pdes 768 (pgdir k) 0) in
  let! p := pcb_at release_thread in
  let bitmap_pg_cnt := btmp_bytes_len (vaddr_bitmap (p_vaddr p)) / PG_SIZE in
  do! on_mem (mfree_page PF_KERNEL (vaddr_bits p) bitmap_pg_cnt) in
  close_fds 5 release_thread 3.

(** ** The callbacks of [list_traversal] *)

Definition find_child (ppid t : Z) : M sys bool := let! p := pcb_at t in mok (parent_pid p =? ppid).

Definition find_hanging_child (ppid t : Z) : M sys bool :=
  let! p := pcb_at t in
  let! k := task_at t in
  mok ((parent_pid p =? ppid) && bool_decide (status k = TASK_HANGING)).

Definition init_adopt_a_child (pid_ t : Z) : M sys bool :=
  let! p := pcb_at t in
  do! (if parent_pid p =? pid_ then upd_pcb t (set_parent_pid 1) else mok tt) in
  mok false.

(** ** [sys_wait] and [sys_exit] *)

(** One turn of the loop of [sys_wait]: [Some] is the return value with the
    status it has stored, [None] means that the caller sleeps in [thread_block]
    and tests again when it is woken. *)
Definition sys_wait : M sys (option (Z * option Z)) :=
  let! parent_thread := self_thread in
  let! pk := task_at parent_thread in
  let! child_thread := all_traversal (find_hanging_child (pid pk)) in
  if negb (child_thread =? NULL) then
    let! p := pcb_at child_thread in
    let! k := task_at child_thread in
    let child_pid := u16 (pid k) in
    do! thread_exit stale_tlb child_thread false in
    mok (Some (s16 child_pid, Some (exit_status p)))
  else
    let! child_thread := all_traversal (find_child (pid pk)) in
    if child_thread =? NULL then mok (Some (-1, None))
    else do! on_ker (λ v2p, thread_block v2p TASK_WAITING) in mok None.

Definition sys_exit (status_ : Z) : M sys unit :=
  let! child_thread := self_thread in
  do! upd_pcb child_thread (set_exit_status (s8 status_)) in
  let! p := pcb_at child_thread in
  if parent_pid p =? -1 then mlift Panic
  else
    let! k := task_at child_thread in
    let! _ := all_traversal (init_adopt_a_child (pid k)) in
    do! release_prog_resource child_thread in
    let! p := pcb_at child_thread in
    let! parent_thread := pid2thread (parent_pid p) in
    let! pk := task_at parent_thread in
    do! (if bool_decide (status pk = TASK_WAITING) then on_ker (λ _, thread_unblock parent_thread) else mok tt) in
    on_ker (λ v2p, thread_block v2p TASK_HANGING).

End exit_ops.

(** ** The process table *)

Inductive pstate := Alive | Waiting | Zombie (status_ : Z).
Record aproc := AProc { a_pid : Z; a_parent : Z; a_state : pstate }.

Definition pstate_of (k : task) (p : pcb) : pstate :=
  match status k with TASK_HANGING => Zombie (exit_status p) | TASK_WAITING => Waiting | _ => Alive end.
Definition aproc_of (s : sys) (t : Z) : option aproc :=
  k ← tasks (ker s) !! t; p ← pcbs s !! t; Some (AProc (pid k) (parent_pid p) (pstate_of k p)).

(** The tasks in the order of [thread_all_list]. *)
Definition ptable (s : sys) : list aproc := omap (aproc_of s) (thread_all_list s).

(** What waiting means: the oldest zombie among the children is taken out of
    the table and reported; without one the caller sleeps if it has a child
    and fails if it has none. *)
Inductive wait_answer := Collected (pid_ status_ : Z) | Sleeps | NoChild.

Fixpoint first_zombie (me : Z) (T : list aproc) : option (Z * Z) :=
  match T with
  | [] => None
  | a :: T' => match a_state a with
               | Zombie st => if a_parent a =? me then Some (a_pid a, st) else first_zombie me T'
               | _ => first_zombie me T'
               end
  end.
Definition abs_wait (me : Z) (T : list aproc) : wait_answer :=
  match first_zombie me T with
  | Some (c, st) => Collected c st
  | None => if existsb (λ a, a_parent a =? me) T then Sleeps else NoChild
  end.
Definition abs_remove (c : Z) (T : list aproc) : list aproc := filter (λ a, a_pid a ≠ c) T.

(** ** The invariant of the table *)

Record task_ok (s : sys) (t : Z) (k : task) (p : pcb) : Prop := {
  to_task : tasks (ker s) !! t = Some k;
  to_pcb : pcbs s !! t = Some p;
  to_null : t ≠ 0;
  to_pid : 1 ≤ pid k ≤ 1024;
  to_bit : bit (pid_bitmap s) (pid k - 1) = true
}.

Record procs_ok (s : sys) : Prop := {
  po_nodup : NoDup (thread_all_list s);
  po_tasks : ∀ t, t ∈ thread_all_list s → ∃ k p, task_ok s t k p;
  po_pids : ∀ t u k k', t ∈ thread_all_list s → u ∈ thread_all_list s → tasks (ker s) !! t = Some k → tasks (ker s) !! u = Some k' → pid k = pid k' → t = u;
  po_bitmap : bitmap_ok (pid_bitmap s) ∧ btmp_bytes_len (pid_bitmap s) = 128;
  po_lock : pid_lock s = Lock 0 0;
  po_cur : cur (ker s) ∈ thread_all_list s
}.

(** The pages [thread_exit] gives back are the kernel's to give. *)
Record reapable (s : sys) (t : Z) : Prop := {
  ra_mem : ∀ k p, task_ok s (cur (ker s)) k p → kernel_ok (mem_view k p s);
  ra_pcb : t ≠ main_thread s → kernel_owned s t;
  ra_pgdir : ∀ k, tasks (ker s) !! t = Some k → pgdir k ≠ 0 → kernel_owned s (pgdir k) ∧ pgdir k ≠ t
}.

Section table_lemmas.
Context {B : Build} {C : Code}.
Implicit Types (s : sys) (k : task) (p : pcb).

Lemma find_cons (b : Z → bool) t l : Spec.find b (t :: l) = if b t then t else Spec.find b l.
Proof.
  unfold Spec.find. cbn [list_find]. destruct (b t) eqn:E; [by rewrite decide_True by done|].
  rewrite decide_False by congruence. by destruct (list_find (λ y, b y = true) l) as [[]|].
Qed.

Lemma traverse_run (func : Z → M sys bool) (b : Z → bool) l s :
  (∀ t, t ∈ l → func t s = Ok (b t, s)) → traverse func l s = Ok (Spec.find b l, s).
Proof.
  induction l as [|t l IH]; intros H; [done|]. cbn [traverse]. mstep (H t ltac:(by left)). rewrite find_cons.
  destruct (b t); [done|]. apply IH. intros. apply H. by right.
Qed.

Lemma find_cases (b : Z → bool) l :
  (Spec.find b l = 0 ∧ ∀ t, t ∈ l → b t = false) ∨
  (∃ l1 l2, l = l1 ++ Spec.find b l :: l2 ∧ b (Spec.find b l) = true ∧ ∀ t, t ∈ l1 → b t = false).
Proof.
  induction l as [|t l IH]; [left; split; [done|set_solver]|]. rewrite find_cons. destruct (b t) eqn:E.
  - right. exists [], l. split_and!; [done|done|set_solver].
  - destruct IH as [[H1 H2]|(l1 & l2 & H1 & H2 & H3)].
    + left. split; [done|]. intros u [->|Hu]%elem_of_cons; auto.
    + right. exists (t :: l1), l2. split_and!; [by rewrite H1 at 1|done|]. intros u [->|Hu]%elem_of_cons; auto.
Qed.

Lemma null_not_listed s : procs_ok s → 0 ∉ thread_all_list s.
Proof. intros H H0. destruct (po_tasks _ H 0 H0) as (k & p & [? ? ? ? ?]). done. Qed.

(** What the callbacks test *)
Definition is_child (s : sys) (me t : Z) : bool := match pcbs s !! t with Some p => parent_pid p =? me | None => false end.
Definition is_zombie_child (s : sys) (me t : Z) : bool :=
  is_child s me t && match tasks (ker s) !! t with Some k => bool_decide (status k = TASK_HANGING) | None => false end.

Lemma find_child_run s me t : procs_ok s → t ∈ thread_all_list s → find_child me t s = Ok (is_child s me t, s).
Proof. intros H Ht. destruct (po_tasks _ H t Ht) as (k & p & [H1 H2 _ _ _]). unfold find_child, is_child, mbnd, pcb_at. by rewrite H2. Qed.

Lemma find_hanging_run s me t : procs_ok s → t ∈ thread_all_list s → find_hanging_child me t s = Ok (is_zombie_child s me t, s).
Proof.
  intros H Ht. destruct (po_tasks _ H t Ht) as (k & p & [H1 H2 _ _ _]).
  unfold find_hanging_child, is_zombie_child, is_child, mbnd, pcb_at, task_at. rewrite H2. cbn [rbind fst snd]. rewrite H1. done.
Qed.

Lemma ptable_in s t : procs_ok s → t ∈ thread_all_list s → ∃ k p, task_ok s t k p ∧ aproc_of s t = Some (AProc (pid k) (parent_pid p) (pstate_of k p)).
Proof. intros H Ht. destruct (po_tasks _ H t Ht) as (k & p & Ho). exists k, p. split; [done|]. destruct Ho as [H1 H2 _ _ _]. unfold aproc_of. by rewrite H1, H2. Qed.

Lemma first_zombie_app me T1 T2 : first_zombie me T1 = None → first_zombie me (T1 ++ T2) = first_zombie me T2.
Proof. induction T1 as [|a T1 IH]; intros H; [done|]. cbn in *. destruct (a_state a); auto. destruct (a_parent a =? me); auto. done. Qed.

Lemma no_zombie s me l : procs_ok s → (∀ t, t ∈ l → t ∈ thread_all_list s) → (∀ t, t ∈ l → is_zombie_child s me t = false) → first_zombie me (omap (aproc_of s) l) = None.
Proof.
  intros H Hl Hz. induction l as [|t l IH]; [done|]. destruct (ptable_in s t H (Hl t ltac:(by left))) as (k & p & [H1 H2 _ _ _] & E).
  cbn. rewrite E. cbn. specialize (Hz t ltac:(by left)) as Hzt. unfold is_zombie_child, is_child in Hzt. rewrite H1, H2 in Hzt.
  rewrite IH by (intros; (apply Hl || apply Hz); by right). unfold pstate_of. destruct (status k); try done. cbn in Hzt.
  rewrite andb_true_r in Hzt. by rewrite Hzt.
Qed.

Lemma existsb_children s me l : procs_ok s → (∀ t, t ∈ l → t ∈ thread_all_list s) → existsb (λ a, a_parent a =? me) (omap (aproc_of s) l) = existsb (is_child s me) l.
Proof.
  intros H Hl. induction l as [|t l IH]; [done|]. destruct (ptable_in s t H (Hl t ltac:(by left))) as (k & p & [H1 H2 _ _ _] & E).
  cbn. rewrite E. cbn. rewrite IH by (intros; apply Hl; by right). unfold is_child. by rewrite H2.
Qed.

End table_lemmas.

(** ** Reaping a task *)

(** What [thread_exit] of a task other than the running one does. *)
Record reaped (s : sys) (t : Z) (k : task) (s' : sys) : Prop := {
  re_tasks : ∀ u, u ≠ t → tasks (ker s') !! u = tasks (ker s) !! u;
  re_cur : cur (ker s') = cur (ker s);
  re_ready : thread_ready_list (ker s') = Spec.remove t (thread_ready_list (ker s));
  re_off : intr_get_status (kflags (ker s')) = INTR_OFF;
  re_pcbs : pcbs s' = pcbs s;
  re_all : thread_all_list s' = Spec.remove t (thread_all_list s);
  re_bits : ∀ i, 0 ≤ i → bit (pid_bitmap s') i = if decide (i = pid k - 1) then false else bit (pid_bitmap s) i;
  re_bitmap : bitmap_ok (pid_bitmap s') ∧ btmp_bytes_len (pid_bitmap s') = 128;
  re_lock : pid_lock s' = Lock 0 0;
  re_rest : main_thread s' = main_thread s ∧ files s' = files s ∧ queues s' = queues s ∧ screen s' = screen s;
  re_mem : ∀ kc pc, tasks (ker s) !! cur (ker s) = Some kc → pcbs s !! cur (ker s) = Some pc → kernel_ok (mem_view kc pc s');
  re_owned : ∀ x, kernel_owned s' x ↔
    kernel_owned s x ∧ (t ≠ main_thread s → x ≠ t) ∧ (pgdir k ≠ 0 → x ≠ pgdir k)
}.

Section reap_lemmas.
Context {B : Build} {C : Code}.
Implicit Types (s : sys) (k : task) (p : pcb).

(** *** [release_pid] *)

Lemma release_pid_run s n : bitmap_ok (pid_bitmap s) → btmp_bytes_len (pid_bitmap s) = 128 → pid_lock s = Lock 0 0 → 1 ≤ n ≤ 1024 → cur (ker s) ≠ 0 →
  ∃ b, release_pid n s = Ok (tt, set_pids b (Lock 0 0) s) ∧ bitmap_ok b ∧ btmp_bytes_len b = 128 ∧
    ∀ i, 0 ≤ i → bit b i = if decide (i = n - 1) then false else bit (pid_bitmap s) i.
Proof.
  intros Hb Hl Hlk Hn Hc.
  destruct (bitmap_set_spec (pid_bitmap s) (n - 1) 0 Hb ltac:(lia)) as (b & E & Hb' & Hl' & _ & Hbits); [destruct Hb; zsolve|by left|].
  exists b. split; [|by rewrite Hl']. unfold release_pid, pid_acquire, pid_release, mbnd. rewrite Hlk. unfold lock_enter. cbn [holder].
  rewrite (proj2 (Z.eqb_neq 0 _)) by done. change (0 =? KList.NULL) with true. cbn [rbind fst snd]. unfold mget, mlift, mmod. cbn [rbind fst snd pid_bitmap set_pids].
  rewrite u32_small by lia. rewrite E. cbn [rbind fst snd pid_lock set_pids ker]. unfold lock_leave. cbn [holder holder_repeat_nr].
  by rewrite Z.eqb_refl, !ASSERT_true by done.
Qed.

(** *** Giving back an optional page *)

Lemma free_page_run (b : bool) v s k p : tasks (ker s) !! cur (ker s) = Some k → pcbs s !! cur (ker s) = Some p → kernel_ok (mem_view k p s) →
  (b = false → kernel_owned s v) →
  ∃ st, (if b then mok tt else on_mem (mfree_page PF_KERNEL v 1)) s = Ok (tt, set_space st s) ∧ kernel_ok (mem_view k p (set_space st s)) ∧
    ∀ x, kernel_owned (set_space st s) x ↔ kernel_owned s x ∧ (b = false → x ≠ v).
Proof.
  intros Hk Hp Hm Ho. destruct b.
  - exists (space s). split; [by destruct s|]. split; [done|]. intros x. split; [intros ?; by split|by intros [? _]].
  - destruct (put_kernel_page (mem_view k p s) v Hm (Ho eq_refl)) as (st & E & [P1 P2 P3 P4 P5 P6]). exists st.
    split; [by apply (on_mem_keep _ s k p)|]. split; [by rewrite mem_view_space|]. intros x. rewrite owned_space by done.
    split; [intros [? ?]%P6; by split|intros [? H]; apply P6; split; [done|by apply H]].
Qed.

Lemma thread_exit_run (stale : bool) s t k : procs_ok s → t ∈ thread_all_list s → t ≠ cur (ker s) → tasks (ker s) !! t = Some k → reapable s t →
  ∃ s', thread_exit stale t false s = (if stale || (t =? main_thread s) then Ok (tt, s') else Fault) ∧ reaped s t k s'.
Proof.
  intros H Ht Hne Hk [R1 R2 R3]. destruct (po_tasks _ H _ (po_cur _ H)) as (kc & pc & Hc). pose proof Hc as [C1 C2 C3 _ _].
  destruct (po_tasks _ H t Ht) as (k' & p & [T1 T2 T3 T4 T5]). assert (k' = k) as -> by congruence. clear T1.
  unfold thread_exit. set (f1 := (intr_disable (kflags (ker s))).2). set (s1 := set_ker (with_flags f1 (ker s)) s).
  erewrite mbnd_Ok with (s1 := s1) by reflexivity. set (k1 := set_status TASK_DIED k).
  set (s2 := set_ker (with_tasks (<[t := k1]> (tasks (ker s))) (with_flags f1 (ker s))) s). erewrite mbnd_Ok with (a := tt) (s1 := s2).
  2: { unfold upd_ktask, on_ker, upd_task. cbn. by rewrite Hk. }
  erewrite mbnd_Ok with (s1 := s2) by reflexivity. change (thread_ready_list (ker s2)) with (thread_ready_list (ker s)). set (r := thread_ready_list (ker s)).
  set (s3 := set_ker (with_ready (Spec.remove t r) (ker s2)) s2). erewrite mbnd_Ok with (a := tt) (s1 := s3).
  2: { unfold elem_in. case_bool_decide as Hin; [done|]. unfold mok. do 2 f_equal. unfold s3, Spec.remove. rewrite filter_all by (intros x Hx ->; done). by destruct s. }
  erewrite mbnd_Ok with (a := k1) (s1 := s3) by (unfold task_at; cbn; by rewrite lookup_insert_eq). cbn [pgdir k1 set_status].
  assert (Hc3 : tasks (ker s3) !! cur (ker s3) = Some kc) by (cbn; by rewrite lookup_insert_ne). assert (Hp3 : pcbs s3 !! cur (ker s3) = Some pc) by done.
  destruct (free_page_run (pgdir k =? NULL) (pgdir k) s3 kc pc Hc3 Hp3) as (st4 & E4 & M4 & O4).
  { exact (R1 kc pc Hc). } { intros E. apply R3; [done|]. by apply Z.eqb_neq. }
  erewrite mbnd_Ok by exact E4. set (s4 := set_space st4 s3) in *. erewrite mbnd_Ok with (s1 := s4) by reflexivity.
  change (thread_all_list s4) with (thread_all_list s). set (s5 := set_all (Spec.remove t (thread_all_list s)) s4). erewrite mbnd_Ok with (a := tt) (s1 := s5).
  2: { unfold elem_in. by rewrite bool_decide_true by done. }
  erewrite mbnd_Ok with (s1 := s5) by reflexivity. change (main_thread s5) with (main_thread s).
  destruct (free_page_run (t =? main_thread s) t s5 kc pc Hc3 Hp3) as (st6 & E6 & M6 & O6).
  { exact M4. } { intros E. apply Z.eqb_neq in E. apply O4. split; [by apply R2|]. intros Hg ->. apply Z.eqb_neq in Hg. by destruct (R3 _ Hk Hg). }
  set (s6 := set_space st6 s5) in *. destruct (po_bitmap _ H) as [Hb Hl]. destruct (release_pid_run s6 (pid k) Hb Hl (po_lock _ H) T4 C3) as (b & E7 & B1 & B2 & B3).
  exists (set_pids b (Lock 0 0) s6). split.
  { destruct (stale || (t =? main_thread s)) eqn:Est.
    - erewrite mbnd_Ok with (a := k1) (s1 := s6); [erewrite mbnd_Ok; [reflexivity|exact E7]|].
      destruct (t =? main_thread s); [|erewrite mbnd_Ok by exact E6; rewrite orb_false_r in Est; unfold freed_task; rewrite Est]; [injection E6 as E6'; unfold s6; rewrite <-E6'|]; unfold task_at; cbn; by rewrite lookup_insert_eq.
    - apply orb_false_iff in Est as [-> Em]. rewrite Em in *. unfold mbnd. rewrite E6. done. }
  split; try done.
  - intros u Hu. cbn. by rewrite lookup_insert_ne by done.
  - cbn. unfold f1, intr_disable. destruct (intr_get_status (kflags (ker s))) eqn:Ef; [done|apply cli_off].
  - intros kc' pc' E1 E2. assert (kc' = kc) as -> by congruence. assert (pc' = pc) as -> by congruence. exact M6.
  - intros x. change (kernel_owned s6 x ↔ kernel_owned s x ∧ (t ≠ main_thread s → x ≠ t) ∧ (pgdir k ≠ 0 → x ≠ pgdir k)). rewrite O6. change (kernel_owned s5 x) with (kernel_owned s4 x).
    rewrite O4, !Z.eqb_neq. change (kernel_owned s3 x) with (kernel_owned s x). unfold NULL. tauto.
Qed.

End reap_lemmas.

(** ** The scheduler with interrupts off *)

(** The running thread has gone to sleep as [stat]; [n] runs. *)
Record switched {B : Build} (stat : task_status) (s : sys) (n : Z) (r : list Z) (s' : sys) : Prop := {
  sw_cur : cur (ker s') = n;
  sw_ready : thread_ready_list (ker s') = r;
  sw_slept : ∀ k, tasks (ker s) !! cur (ker s) = Some k →
    tasks (ker s') !! cur (ker s) = Some (set_kstack (FBlock INTR_OFF :: kstack k) (set_status stat k));
  sw_next : ∀ k, tasks (ker s) !! n = Some k → tasks (ker s') !! n = Some (set_status TASK_RUNNING k);
  sw_tasks : ∀ u, u ≠ cur (ker s) → u ≠ n → tasks (ker s') !! u = tasks (ker s) !! u;
  sw_flags : kflags (ker s') = kflags (ker s);
  sw_cr3 : ∀ k, tasks (ker s) !! n = Some k → cr3 (ker s') = if pgdir k =? 0 then 1048576 else v2p s (pgdir k);
  sw_rest : s' = set_ker (ker s') s
}.

Section switch_lemmas.
Context {B : Build} {C : Code}.
Implicit Types (s : sys) (k : task) (p : pcb).

Lemma disable_off f : intr_get_status f = INTR_OFF → intr_disable f = (INTR_OFF, f).
Proof. intros H. unfold intr_disable. by rewrite H. Qed.

Lemma unblock_off t k (s : kst) : intr_get_status (kflags s) = INTR_OFF → tasks s !! t = Some k → blocked_status (status k) = true → t ∉ thread_ready_list s →
  thread_unblock t s = Ok (tt, with_tasks (<[t := set_status TASK_READY k]> (tasks s)) (with_ready (t :: thread_ready_list s) s)).
Proof.
  intros Hf Hk Hb Hr. unfold thread_unblock, mbnd, kintr_disable, kintr_set_status, get_task, kassert, mlift, mget, mmod, upd_task. rewrite (disable_off _ Hf). cbn.
  rewrite Hk. cbn. rewrite Hb, ASSERT_true by done. cbn. rewrite decide_False by (intros E; by rewrite E in Hb). cbn. unfold elem_in. rewrite bool_decide_false by done. cbn.
  rewrite ASSERT_true by done. cbn. rewrite Hk. cbn. rewrite (disable_off _ Hf). by destruct s.
Qed.

Lemma block_off stat s k n r kn : intr_get_status (kflags (ker s)) = INTR_OFF → blocked_status stat = true →
  tasks (ker s) !! cur (ker s) = Some k → thread_ready_list (ker s) = n :: r → n ≠ cur (ker s) → n ≠ 0 → tasks (ker s) !! n = Some kn →
  ∃ s', on_ker (λ v2p, thread_block v2p stat) s = Ok (tt, s') ∧ switched stat s n r s'.
Proof.
  intros Hf Hb Hk Hr Hne Hn0 Hn. set (k1 := set_kstack (FBlock INTR_OFF :: kstack k) (set_status stat k)).
  set (m1 := <[cur (ker s) := k1]> (tasks (ker s))). set (m2 := <[n := set_status TASK_RUNNING kn]> m1).
  assert (Hm2 : m2 !! n = Some (set_status TASK_RUNNING kn)) by apply lookup_insert_eq.
  set (c3 := if pgdir kn =? 0 then 1048576 else v2p s (pgdir kn)). set (e := if pgdir kn =? 0 then tss_esp0 (ker s) else u32 (n + PG_SIZE)).
  set (ks := with_cur n (with_mmu c3 e (with_tasks m2 (with_ready r (ker s))))).
  assert (E : thread_block (v2p s) stat (ker s) = Ok (tt, ks)).
  { unfold thread_block, mbnd, kassert, mlift, kintr_disable, running_thread, mget, upd_task, push_frame, running_thread, mget, mbnd, upd_task. rewrite Hb, ASSERT_true by done.
    cbn. rewrite (disable_off _ Hf). cbn. rewrite Hk. cbn. rewrite lookup_insert_eq. cbn. rewrite insert_insert_eq. fold k1. fold m1.
    unfold schedule, mbnd, kassert, mlift, mget, running_thread, get_task, mget. cbn. rewrite Hf, ASSERT_true by done. cbn. unfold m1 at 1. rewrite lookup_insert_eq. cbn.
    rewrite decide_False by (intros E; by rewrite E in Hb). cbn. rewrite Hr. rewrite (bool_decide_false (n :: r = [])) by done. cbn. rewrite Hr. rewrite (bool_decide_false (n :: r = [])) by done. cbn.
    rewrite ASSERT_true by done. cbn. unfold upd_task. cbn. unfold m1 at 1. rewrite lookup_insert_ne by done. rewrite Hn. cbn. fold m2.
    unfold process_activate, mbnd, kassert, mlift, page_dir_activate, mbnd, get_task, mmod. rewrite ASSERT_true by (apply negb_true_iff, Z.eqb_neq; done). cbn. rewrite Hm2. cbn. rewrite Hm2. cbn.
    unfold ks, c3, e. change KList.NULL with 0. destruct (pgdir kn =? 0); reflexivity. }
  exists (set_ker ks s). split; [by apply on_ker_run|]. split; try done.
  - intros k' Hk'. assert (k' = k) as -> by congruence. cbn. unfold m2, m1. by rewrite lookup_insert_ne, lookup_insert_eq by done.
  - intros k' Hk'. assert (k' = kn) as -> by congruence. cbn. unfold m2. by rewrite lookup_insert_eq.
  - intros u H1 H2. cbn. unfold m2, m1. by rewrite !lookup_insert_ne by done.
  - intros k' Hk'. assert (k' = kn) as -> by congruence. done.
Qed.

End switch_lemmas.

(** ** [sys_wait] *)

Section wait_theorems.
Context {B : Build} {C : Code}.
Implicit Types (s : sys) (k : task) (p : pcb).

Lemma aproc_reaped s t k s' u : reaped s t k s' → u ≠ t → aproc_of s' u = aproc_of s u.
Proof. intros H Hu. unfold aproc_of. by rewrite (re_tasks _ _ _ _ H u Hu), (re_pcbs _ _ _ _ H). Qed.

Lemma ptable_reaped s t k s' : procs_ok s → t ∈ thread_all_list s → tasks (ker s) !! t = Some k → reaped s t k s' → ptable s' = abs_remove (pid k) (ptable s).
Proof.
  intros H Ht Hk Hr. unfold ptable. rewrite (re_all _ _ _ _ Hr). unfold Spec.remove, abs_remove. assert (Hl : ∀ u, u ∈ thread_all_list s → u ∈ thread_all_list s) by done. revert Hl.
  generalize (thread_all_list s) at 1 3 4 as l. induction l as [|u l IH]; intros Hl; [done|]. rewrite filter_cons.
  destruct (ptable_in s u H (Hl u ltac:(by left))) as (ku & pu & Ho & E). cbn [omap list_omap]. rewrite E. rewrite filter_cons.
  assert (IHl := IH ltac:(intros; apply Hl; by right)). destruct (decide (u = t)) as [->|Hne].
  - rewrite decide_False by (intros Hx; done). assert (ku = k) as -> by (destruct Ho; congruence). rewrite decide_False by (intros Hx; done). exact IHl.
  - rewrite decide_True by done. cbn [omap list_omap]. rewrite (aproc_reaped s t k s' u Hr Hne), E. rewrite decide_True; [by f_equal|].
    cbn. intros Ep. apply Hne. eapply (po_pids _ H); [apply Hl; by left|exact Ht|apply Ho|exact Hk|done].
Qed.

Lemma procs_reaped s t k s' : procs_ok s → t ∈ thread_all_list s → t ≠ cur (ker s) → tasks (ker s) !! t = Some k → reaped s t k s' → procs_ok s'.
Proof.
  intros H Ht Hne Hk Hr. assert (Hin : ∀ u, u ∈ thread_all_list s' → u ∈ thread_all_list s ∧ u ≠ t) by (intros u; rewrite (re_all _ _ _ _ Hr); unfold Spec.remove; rewrite list_elem_of_filter; tauto).
  split.
  - rewrite (re_all _ _ _ _ Hr). apply NoDup_filter, H.
  - intros u [Hu Hut]%Hin. destruct (po_tasks _ H u Hu) as (ku & pu & [T1 T2 T3 T4 T5]). exists ku, pu. split; try done.
    + by rewrite (re_tasks _ _ _ _ Hr).
    + by rewrite (re_pcbs _ _ _ _ Hr).
    + rewrite (re_bits _ _ _ _ Hr) by lia. rewrite decide_False; [done|]. intros E. apply Hut. eapply (po_pids _ H); eauto. lia.
  - intros u v ku kv [Hu1 Hu2]%Hin [Hv1 Hv2]%Hin. rewrite !(re_tasks _ _ _ _ Hr) by done. by apply (po_pids _ H).
  - apply Hr.
  - apply Hr.
  - rewrite (re_cur _ _ _ _ Hr), (re_all _ _ _ _ Hr). unfold Spec.remove. apply list_elem_of_filter. split; [done|apply H].
Qed.

(** C8: [sys_wait] implements waiting on the process table.  If a child has
    exited, it returns the identifier and the exit status of the one that is
    first in the list of tasks; the child leaves the list of all tasks and the
    ready list, its identifier is free again, the kernel's pages are those from
    before without its PCB (unless it is the main thread) and its page
    directory, and no other process, file or queue changes.  This supposes that
    [thread_exit] can still read the identifier in the PCB whose page it has
    just given back, through the TLB; without that [sys_wait] faults.  Without a
    child it returns -1 and changes nothing.  Otherwise, when some other thread
    is ready, the caller goes to sleep as [TASK_WAITING], to test again when it
    is woken, and the first ready thread runs.  The call runs with interrupts
    off and needs the pages of the tasks to be the kernel's. *)
Theorem wait_refines (s : sys) (kc : task) :
  procs_ok s → intr_get_status (kflags (ker s)) = INTR_OFF → tasks (ker s) !! cur (ker s) = Some kc → status kc = TASK_RUNNING →
  (∀ t, t ∈ thread_all_list s → t ≠ cur (ker s) → reapable s t) →
  match abs_wait (pid kc) (ptable s) with
  | Collected c st => ∃ t k s', t ∈ thread_all_list s ∧ tasks (ker s) !! t = Some k ∧ pid k = c ∧
      sys_wait true s = Ok (Some (c, Some st), s') ∧ procs_ok s' ∧ ptable s' = abs_remove c (ptable s) ∧ reaped s t k s' ∧
      (t ≠ main_thread s → sys_wait false s = Fault)
  | NoChild => sys_wait true s = Ok (Some (-1, None), s)
  | Sleeps => ∀ n r kn, thread_ready_list (ker s) = n :: r → n ≠ cur (ker s) → n ≠ 0 → tasks (ker s) !! n = Some kn →
      ∃ s', sys_wait true s = Ok (None, s') ∧ switched TASK_WAITING s n r s'
  end.
Proof.
  intros H Hf Hkc Hrun Hreap. set (me := pid kc). set (l := thread_all_list s).
  assert (Hz : all_traversal (find_hanging_child me) s = Ok (Spec.find (is_zombie_child s me) l, s)).
  { unfold all_traversal, mbnd, mget. cbn [rbind fst snd]. apply traverse_run. intros t Ht. by apply find_hanging_run. }
  assert (Hch : all_traversal (find_child me) s = Ok (Spec.find (is_child s me) l, s)).
  { unfold all_traversal, mbnd, mget. cbn [rbind fst snd]. apply traverse_run. intros t Ht. by apply find_child_run. }
  assert (Estart : ∀ stale, sys_wait stale s = (if negb (Spec.find (is_zombie_child s me) l =? NULL) then
      (let! p := pcb_at (Spec.find (is_zombie_child s me) l) in let! k := task_at (Spec.find (is_zombie_child s me) l) in
       do! thread_exit stale (Spec.find (is_zombie_child s me) l) false in mok (Some (s16 (u16 (pid k)), Some (exit_status p)))) s
      else (let! child_thread := all_traversal (find_child me) in
        if child_thread =? NULL then mok (Some (-1, None)) else do! on_ker (λ v2p, thread_block v2p TASK_WAITING) in mok None) s)).
  { intros stale. unfold sys_wait. rewrite (mbnd_Ok _ _ _ _ _ eq_refl). erewrite mbnd_Ok by (unfold task_at; by rewrite Hkc). fold me. mstep Hz. by destruct (negb _). }
  destruct (find_cases (is_zombie_child s me) l) as [[E Hno]|(l1 & l2 & El & Hb & Hno)].
  - assert (Efz : first_zombie me (ptable s) = None) by (apply no_zombie; auto). unfold abs_wait. rewrite Efz. unfold ptable. fold l. rewrite existsb_children by auto.
    rewrite Estart, E. change (negb (0 =? NULL)) with false. cbv iota. mstep Hch. destruct (find_cases (is_child s me) l) as [[E2 Hnc]|(l1 & l2 & El & Hb & _)].
    + rewrite E2. change (0 =? NULL) with true. cbv iota. assert (existsb (is_child s me) l = false) as ->; [|done].
      apply not_true_iff_false. intros (t & Ht & Hc)%existsb_exists. rewrite Hnc in Hc by (by apply list_elem_of_In). done.
    + assert (existsb (is_child s me) l = true) as ->.
      { apply existsb_exists. exists (Spec.find (is_child s me) l). split; [|done]. apply list_elem_of_In. rewrite El at 2. set_solver. }
      intros n r kn Hr Hn1 Hn0 Hn. assert (Hin : Spec.find (is_child s me) l ∈ l) by (rewrite El at 2; set_solver).
      rewrite (proj2 (Z.eqb_neq _ _)) by (intros E0; rewrite E0 in Hin; by apply (null_not_listed s H)).
      destruct (block_off TASK_WAITING s kc n r kn Hf eq_refl Hkc Hr Hn1 Hn0 Hn) as (s' & Eb & Hsw). exists s'. split; [by erewrite mbnd_Ok by exact Eb|done].
  - set (t := Spec.find (is_zombie_child s me) l) in *. assert (Hin : t ∈ l) by (rewrite El; set_solver).
    destruct (ptable_in s t H Hin) as (k & p & Ho & Ea). pose proof Ho as [T1 T2 T3 T4 T5]. pose proof Hb as Hb'. unfold is_zombie_child, is_child in Hb'. rewrite T1, T2 in Hb'.
    apply andb_true_iff in Hb' as [Hpar Hhang%bool_decide_eq_true_1].
    assert (Efz : first_zombie me (ptable s) = Some (pid k, exit_status p)).
    { unfold ptable. fold l. rewrite El, omap_app. rewrite first_zombie_app by (apply no_zombie; [done| |done]; intros u Hu; fold l; rewrite El; set_solver).
      cbn [omap list_omap]. rewrite Ea. cbn. unfold pstate_of. rewrite Hhang. by rewrite Hpar. }
    unfold abs_wait. rewrite Efz. rewrite !Estart. rewrite (proj2 (Z.eqb_neq t NULL)) by done. cbn [negb].
    assert (Htc : t ≠ cur (ker s)) by (intros Etc; rewrite Etc in T1; congruence).
    destruct (thread_exit_run true s t k H Hin Htc T1 (Hreap t Hin Htc)) as (s' & Ex & Hre).
    destruct (thread_exit_run false s t k H Hin Htc T1 (Hreap t Hin Htc)) as (s2 & Ex2 & _).
    exists t, k, s'. split_and!; [done|done|done| |by eapply procs_reaped|by eapply ptable_reaped|done|].
    + erewrite mbnd_Ok by (unfold pcb_at; by rewrite T2). erewrite mbnd_Ok by (unfold task_at; by rewrite T1). erewrite mbnd_Ok by exact Ex.
      by rewrite u16_small, s16_small by lia.
    + intros Hm. erewrite mbnd_Ok by (unfold pcb_at; by rewrite T2). erewrite mbnd_Ok by (unfold task_at; by rewrite T1).
      rewrite (proj2 (Z.eqb_neq _ _) Hm) in Ex2. unfold mbnd. by rewrite Ex2.
Qed.

End wait_theorems.

(** ** What releasing resources leaves alone *)

Record same_procs (s s' : sys) : Prop := {
  sp_ker : ker s' = ker s;
  sp_all : thread_all_list s' = thread_all_list s;
  sp_pids : pid_bitmap s' = pid_bitmap s ∧ pid_lock s' = pid_lock s;
  sp_main : main_thread s' = main_thread s;
  sp_others : ∀ t, t ≠ cur (ker s) → pcbs s' !! t = pcbs s !! t;
  sp_self : ∀ p, pcbs s !! cur (ker s) = Some p → ∃ p', pcbs s' !! cur (ker s) = Some p' ∧ parent_pid p' = parent_pid p ∧ exit_status p' = exit_status p
}.

Definition skeeps {A} (m : M sys A) : Prop := ∀ s a s', m s = Ok (a, s') → same_procs s s'.

Lemma same_procs_refl s : same_procs s s.
Proof. split; eauto. Qed.
Lemma same_procs_trans s1 s2 s3 : same_procs s1 s2 → same_procs s2 s3 → same_procs s1 s3.
Proof.
  intros [A1 A2 [A3 A4] A5 A6 A7] [D1 D2 [D3 D4] D5 D6 D7]. rewrite A1 in *. split; [congruence..|split; congruence|congruence| |].
  - intros t Ht. rewrite D6 by done. by apply A6.
  - intros p Hp. destruct (A7 p Hp) as (p1 & H1 & E1 & E2). destruct (D7 p1 H1) as (p2 & H2 & E3 & E4). exists p2. split_and!; congruence.
Qed.

Create HintDb skeeps.

Lemma skeeps_ok {A} (a : A) : skeeps (mok a).
Proof. intros s b s' E. injection E as <- <-. apply same_procs_refl. Qed.
Lemma skeeps_get {A} (f : sys → A) : skeeps (mget f).
Proof. intros s b s' E. injection E as <- <-. apply same_procs_refl. Qed.
Lemma skeeps_lift {A} (r : res A) : skeeps (mlift r).
Proof. intros s b s' E. apply mlift_Ok_inv in E as [_ ->]. apply same_procs_refl. Qed.
Lemma skeeps_bnd {A D} (m : M sys A) (k : A → M sys D) : skeeps m → (∀ a, skeeps (k a)) → skeeps (mbnd m k).
Proof. intros H1 H2 s a s' E. apply mbnd_Ok_inv in E as (b & s1 & E1 & E2). eapply same_procs_trans; [by eapply H1|by eapply H2]. Qed.
Lemma skeeps_pcb t : skeeps (pcb_at t).
Proof. intros s a s' E. unfold pcb_at in E. case_match; kinv. apply same_procs_refl. Qed.
Lemma skeeps_task t : skeeps (task_at t).
Proof. intros s a s' E. unfold task_at in E. case_match; kinv. apply same_procs_refl. Qed.

(** An update of the running task's PCB that keeps its family. *)
Lemma same_procs_self s s1 p p' : pcbs s !! cur (ker s) = Some p → parent_pid p' = parent_pid p → exit_status p' = exit_status p →
  ker s1 = ker s → thread_all_list s1 = thread_all_list s → pid_bitmap s1 = pid_bitmap s → pid_lock s1 = pid_lock s → main_thread s1 = main_thread s →
  pcbs s1 = <[cur (ker s) := p']> (pcbs s) → same_procs s s1.
Proof.
  intros Hp E1 E2 K1 K2 K3 K4 K5 Epc. split; try done; rewrite Epc.
  - intros t Ht. by rewrite lookup_insert_ne by done.
  - intros q Hq. assert (q = p) as -> by congruence. exists p'. by rewrite lookup_insert_eq.
Qed.

Lemma skeeps_mem {A} (m : M mst A) : skeeps (on_mem m).
Proof. intros s a s' E. unfold on_mem in E. repeat case_match; try done. kinv. eapply same_procs_self; cycle -1; [reflexivity|..]; done. Qed.
Lemma skeeps_fs {A} (m : M fs A) : skeeps (on_fs m).
Proof. intros s a s' E. unfold on_fs in E. repeat case_match; try done. kinv. eapply same_procs_self; cycle -1; [reflexivity|..]; done. Qed.

#[export] Hint Resolve skeeps_ok skeeps_get skeeps_lift skeeps_pcb skeeps_task skeeps_mem skeeps_fs : skeeps.

Ltac skeep := repeat first [solve [eauto with skeeps] | apply skeeps_bnd; [|intros ?] | case_match].

Section release_lemmas.
Context {B : Build} {C : Code}.
Implicit Types (s : sys) (k : task) (p : pcb).

Lemma skeeps_pipe_close g : skeeps (pipe_close g).
Proof. unfold pipe_close. skeep. Qed.
#[local] Hint Resolve skeeps_pipe_close : skeeps.
Lemma skeeps_close fd : skeeps (sys_close fd).
Proof. unfold sys_close. skeep. Qed.
#[local] Hint Resolve skeeps_close : skeeps.
Lemma skeeps_close_fds n t fd : skeeps (close_fds n t fd).
Proof. revert fd. induction n as [|n IH]; intros fd; cbn [close_fds]; skeep. Qed.
#[local] Hint Resolve skeeps_close_fds : skeeps.
Lemma skeeps_release t : skeeps (release_prog_resource t).
Proof. unfold release_prog_resource. skeep. Qed.

(** *** Adoption *)

Definition adopt (me : Z) (p : pcb) : pcb := if parent_pid p =? me then set_parent_pid 1 p else p.

Lemma adopt_run me l s : NoDup l → (∀ t, t ∈ l → is_Some (pcbs s !! t)) →
  ∃ m', traverse (init_adopt_a_child me) l s = Ok (0, set_pcbs m' s) ∧ ∀ t, m' !! t = if decide (t ∈ l) then adopt me <$> pcbs s !! t else pcbs s !! t.
Proof.
  intros Hnd. revert s. induction Hnd as [|t l Hnt Hnd IH]; intros s Hl.
  - exists (pcbs s). split; [by destruct s|]. intros t. by rewrite decide_False by set_solver.
  - destruct (Hl t ltac:(by left)) as [p Hp]. set (s1 := set_pcbs (<[t := adopt me p]> (pcbs s)) s).
    destruct (IH s1) as (m' & E & Hm'). { intros u Hu. cbn. destruct (decide (u = t)) as [->|]; [by rewrite lookup_insert_eq|]. rewrite lookup_insert_ne by done. apply Hl. by right. }
    exists m'. split.
    + cbn [traverse]. erewrite mbnd_Ok with (a := false) (s1 := s1); [exact E|]. unfold init_adopt_a_child. erewrite mbnd_Ok by (unfold pcb_at; by rewrite Hp).
      unfold s1, adopt. destruct (parent_pid p =? me).
      * unfold mbnd, upd_pcb. by rewrite Hp.
      * rewrite insert_id by done. by destruct s.
    + intros u. rewrite Hm'. cbn. destruct (decide (u = t)) as [->|Hne].
      * rewrite decide_False by done. rewrite decide_True by (by left). by rewrite lookup_insert_eq, Hp.
      * rewrite lookup_insert_ne by done. repeat case_decide; try done; set_solver.
Qed.

End release_lemmas.

(** ** [sys_exit] *)

Definition abs_exit (me st par : Z) (a : aproc) : aproc :=
  let a1 := if a_parent a =? me then AProc (a_pid a) 1 (a_state a) else a in
  if a_pid a =? me then AProc (a_pid a1) (a_parent a1) (Zombie st)
  else if a_pid a =? par then match a_state a with Waiting => AProc (a_pid a1) (a_parent a1) Alive | _ => a1 end
  else a1.

Section exit_theorems.
Context {B : Build} {C : Code}.
Implicit Types (s : sys) (k : task) (p : pcb).

(** The state in which the status is stored and the children are adopted. *)
Definition given_away (s s1 : sys) (kc : task) (st : Z) : Prop :=
  s1 = set_pcbs (pcbs s1) s ∧ ∀ t, pcbs s1 !! t =
    if decide (t ∈ thread_all_list s) then adopt (pid kc) <$> (if decide (t = cur (ker s)) then set_exit_status st <$> pcbs s !! t else pcbs s !! t) else pcbs s !! t.

Lemma pid2thread_run s t k : procs_ok s → t ∈ thread_all_list s → tasks (ker s) !! t = Some k → pid2thread (pid k) s = Ok (t, s).
Proof.
  intros H Ht Hk. unfold pid2thread, all_traversal, mbnd, mget. cbn [rbind fst snd].
  set (b := λ u, match tasks (ker s) !! u with Some k' => pid k' =? pid k | None => false end).
  rewrite (traverse_run (pid_check (pid k)) b).
  2: { intros u Hu. destruct (po_tasks _ H u Hu) as (ku & pu & [H1 _ _ _ _]). unfold pid_check, mbnd, task_at, b. by rewrite H1. }
  destruct (find_cases b (thread_all_list s)) as [[_ Hno]|(l1 & l2 & El & Hb & _)].
  - specialize (Hno t Ht). unfold b in Hno. rewrite Hk, Z.eqb_refl in Hno. done.
  - assert (Hin : Spec.find b (thread_all_list s) ∈ thread_all_list s) by (rewrite El at 2; set_solver). revert Hb. unfold b at 1. case_match eqn:E; [|done].
    intros Ep%Z.eqb_eq. assert (Spec.find b (thread_all_list s) = t) as ->; [|done]. by eapply (po_pids _ H).
Qed.

Lemma exit_start s kc pc st : procs_ok s → tasks (ker s) !! cur (ker s) = Some kc → pcbs s !! cur (ker s) = Some pc → parent_pid pc ≠ -1 →
  ∃ s1, given_away s s1 kc (s8 st) ∧ sys_exit st s =
    (do! release_prog_resource (cur (ker s)) in
     let! p := pcb_at (cur (ker s)) in
     let! parent_thread := pid2thread (parent_pid p) in
     let! pk := task_at parent_thread in
     do! (if bool_decide (status pk = TASK_WAITING) then on_ker (λ _, thread_unblock parent_thread) else mok tt) in
     on_ker (λ v2p, thread_block v2p TASK_HANGING)) s1.
Proof.
  intros H Hk Hp Hpar. set (c := cur (ker s)) in *. set (s0 := set_pcbs (<[c := set_exit_status (s8 st) pc]> (pcbs s)) s).
  destruct (adopt_run (pid kc) (thread_all_list s0) s0 (po_nodup _ H)) as (m' & E & Hm').
  { intros t Ht. destruct (po_tasks _ H t Ht) as (k & p & [_ H2 _ _ _]). cbn. destruct (decide (t = c)) as [->|]; [by rewrite lookup_insert_eq|by rewrite lookup_insert_ne, H2]. }
  exists (set_pcbs m' s0). split.
  - split; [done|]. intros t. cbn. rewrite Hm'. cbn. fold c. destruct (decide (t = c)) as [->|Hne].
    + rewrite lookup_insert_eq, Hp. cbn. rewrite !decide_True by apply H. done.
    + by rewrite lookup_insert_ne by done.
  - unfold sys_exit. erewrite mbnd_Ok with (a := c) (s1 := s) by reflexivity. erewrite mbnd_Ok with (a := tt) (s1 := s0) by (unfold upd_pcb; by rewrite Hp).
    erewrite mbnd_Ok with (a := set_exit_status (s8 st) pc) (s1 := s0) by (unfold pcb_at; cbn; by rewrite lookup_insert_eq). cbn [parent_pid set_exit_status]. rewrite (proj2 (Z.eqb_neq _ _)) by done.
    erewrite mbnd_Ok with (a := kc) (s1 := s0) by (unfold task_at; cbn; by rewrite Hk). erewrite mbnd_Ok with (a := 0) (s1 := set_pcbs m' s0); [done|].
    unfold all_traversal, mbnd, mget. cbn [rbind fst snd]. exact E.
Qed.

Lemma first_zombie_exit me st par T : (∃ a, a ∈ T ∧ a_pid a = me) → (∀ a, a ∈ T → a_pid a = me → a_parent a = par) → me ≠ par →
  first_zombie par T = None → (par = 1 → first_zombie me T = None) → first_zombie par (abs_exit me st par <$> T) = Some (me, st).
Proof.
  intros Hex Hpar Hne. induction T as [|a T IH]; [by destruct Hex as (a & Ha & _); apply not_elem_of_nil in Ha|]. intros Hz H1. cbn [fmap list_fmap first_zombie].
  change (list_fmap _ _ (abs_exit me st par) T) with (abs_exit me st par <$> T). set (T' := abs_exit me st par <$> T) in *. unfold abs_exit. destruct (Z.eqb_spec (a_pid a) me) as [Em|Em].
  - rewrite (Hpar a ltac:(by left) Em). rewrite (proj2 (Z.eqb_neq par me)) by done. cbn. rewrite ?(Hpar a ltac:(by left) Em), ?Z.eqb_refl. by rewrite Em.
  - assert (IH' : first_zombie par T' = Some (me, st)).
    { apply IH; [|intros; apply Hpar; [by right|done]| |].
      - destruct Hex as (b & [->|Hb]%elem_of_cons & Eb); [done|by exists b].
      - cbn in Hz. destruct (a_state a); auto. destruct (a_parent a =? par); done.
      - intros E1. specialize (H1 E1). cbn in H1. destruct (a_state a); auto. destruct (a_parent a =? me); done. }
    cbn in Hz. destruct (a_state a) eqn:Es.
    + destruct (a_pid a =? par), (a_parent a =? me); cbn; rewrite ?Es; done.
    + destruct (a_pid a =? par), (a_parent a =? me); cbn; rewrite ?Es; done.
    + destruct (Z.eqb_spec (a_parent a) par) as [Ep|Ep]; [done|]. destruct (Z.eqb_spec (a_parent a) me) as [Eq|Eq].
      * assert (par ≠ 1). { intros E1. specialize (H1 E1). cbn in H1. rewrite Es in H1. by rewrite (proj2 (Z.eqb_eq _ _) Eq) in H1. }
        destruct (a_pid a =? par); cbn; rewrite ?Es; cbn; by rewrite (proj2 (Z.eqb_neq 1 par)) by done.
      * destruct (a_pid a =? par); cbn; rewrite ?Es; cbn; by rewrite ?(proj2 (Z.eqb_neq _ _) Ep).
Qed.

(** A state in which the tasks are the same and every PCB is still there. *)
Lemma procs_ok_ext s s' : procs_ok s → ker s' = ker s → thread_all_list s' = thread_all_list s → pid_bitmap s' = pid_bitmap s → pid_lock s' = pid_lock s →
  (∀ t, t ∈ thread_all_list s → is_Some (pcbs s' !! t)) → procs_ok s'.
Proof.
  intros [H1 H2 H3 H4 H5 H6] E1 E2 E3 E4 Hp. split; rewrite ?E1, ?E2, ?E3, ?E4; try done.
  intros t Ht. destruct (H2 t Ht) as (k & p & [T1 T2 T3 T4 T5]). destruct (Hp t Ht) as [p' Hp']. exists k, p'. by split; rewrite ?E1, ?E3.
Qed.

(** The same identifiers and PCBs, the tasks with other statuses and stacks. *)
Lemma procs_ok_tasks s s' : procs_ok s → s' = set_ker (ker s') s → cur (ker s') ∈ thread_all_list s →
  (∀ t k, tasks (ker s) !! t = Some k → ∃ k', tasks (ker s') !! t = Some k' ∧ pid k' = pid k) → procs_ok s'.
Proof.
  intros [H1 H2 H3 H4 H5 H6] -> Hc Ht. cbn in *. split; try done.
  - intros t Hin. destruct (H2 t Hin) as (k & p & [T1 T2 T3 T4 T5]). destruct (Ht t k T1) as (k' & T1' & Ep). exists k', p. split; cbn; rewrite ?Ep; done.
  - intros t u k k' Hin1 Hin2 E1 E2 Ep. cbn in E1, E2. destruct (H2 t Hin1) as (kt & pt & [T1 _ _ _ _]), (H2 u Hin2) as (ku & pu & [U1 _ _ _ _]).
    destruct (Ht t kt T1) as (? & ? & ?), (Ht u ku U1) as (? & ? & ?). apply (H3 t u kt ku); try done; congruence.
Qed.

(** The PCBs when the resources are gone. *)
Lemma released_pcb s s1 s2 kc pc st t : procs_ok s → given_away s s1 kc st → same_procs s1 s2 → pcbs s !! cur (ker s) = Some pc → parent_pid pc ≠ pid kc →
  t ∈ thread_all_list s → ∃ p p2, pcbs s !! t = Some p ∧ pcbs s2 !! t = Some p2 ∧ parent_pid p2 = parent_pid (adopt (pid kc) p) ∧
    (t ≠ cur (ker s) → exit_status p2 = exit_status p) ∧ (t = cur (ker s) → parent_pid p2 = parent_pid pc ∧ exit_status p2 = st).
Proof.
  intros H [Es1 Hg] [K1 K2 K3 K4 K5 K6] Hpc Hne Ht. destruct (po_tasks _ H t Ht) as (k & p & [_ T2 _ _ _]). exists p.
  assert (Ec : cur (ker s1) = cur (ker s)) by (by rewrite Es1). specialize (Hg t). rewrite decide_True in Hg by done. destruct (decide (t = cur (ker s))) as [->|Hn].
  - assert (p = pc) as -> by congruence. rewrite T2 in Hg. cbn in Hg. rewrite <-Ec in Hg. destruct (K6 _ Hg) as (p2 & E2 & E3 & E4). rewrite Ec in E2.
    unfold adopt in E3, E4. cbn [parent_pid set_exit_status] in E3, E4. rewrite (proj2 (Z.eqb_neq _ _) Hne) in E3, E4. cbn in E3, E4.
    exists p2. unfold adopt. rewrite (proj2 (Z.eqb_neq _ _) Hne). by split_and!.
  - rewrite T2 in Hg. cbn in Hg. exists (adopt (pid kc) p). rewrite K5 by (by rewrite Ec). split_and!; try done. unfold adopt. by destruct (parent_pid p =? pid kc).
Qed.

(** The exiting task and its waiting parent change places. *)
Lemma exit_switch s s2 kc p2 par kp ks : procs_ok s2 → intr_get_status (kflags (ker s2)) = INTR_OFF →
  tasks (ker s2) !! cur (ker s2) = Some kc → pcbs s2 !! cur (ker s2) = Some p2 → par ∈ thread_all_list s2 → par ≠ cur (ker s2) → tasks (ker s2) !! par = Some kp → pid kp = parent_pid p2 →
  status kp = TASK_WAITING → par ∉ thread_ready_list (ker s2) → kstack kp = FBlock INTR_OFF :: ks → ker s2 = ker s →
  ∃ s' s'', (let! p := pcb_at (cur (ker s)) in
     let! parent_thread := pid2thread (parent_pid p) in
     let! pk := task_at parent_thread in
     do! (if bool_decide (status pk = TASK_WAITING) then on_ker (λ _, thread_unblock parent_thread) else mok tt) in
     on_ker (λ v2p, thread_block v2p TASK_HANGING)) s2 = Ok (tt, s') ∧
    on_ker (λ v2p, run_frame v2p (FBlock INTR_OFF)) s' = Ok (tt, s'') ∧ s'' = set_ker (ker s'') s2 ∧ cur (ker s'') = par ∧ kflags (ker s'') = kflags (ker s2) ∧
    tasks (ker s'') !! cur (ker s2) = Some (set_kstack (FBlock INTR_OFF :: kstack kc) (set_status TASK_HANGING kc)) ∧
    tasks (ker s'') !! par = Some (set_kstack ks (set_status TASK_RUNNING (set_status TASK_READY kp))) ∧
    ∀ u, u ≠ cur (ker s2) → u ≠ par → tasks (ker s'') !! u = tasks (ker s2) !! u.
Proof.
  intros H Hf Hkc Hp2 Hpar Hne Hkp Epid Hw Hnr Hst Eker. rewrite <-Eker.
  set (s3 := set_ker (with_tasks (<[par := set_status TASK_READY kp]> (tasks (ker s2))) (with_ready (par :: thread_ready_list (ker s2)) (ker s2))) s2).
  destruct (po_tasks _ H par Hpar) as (kp' & pp & [_ _ Hp0 _ _]).
  assert (Hc3 : tasks (ker s3) !! cur (ker s3) = Some kc) by (cbn; by rewrite lookup_insert_ne by done).
  assert (Hn3 : tasks (ker s3) !! par = Some (set_status TASK_READY kp)) by (cbn; by rewrite lookup_insert_eq).
  destruct (block_off TASK_HANGING s3 kc par (thread_ready_list (ker s2)) _ Hf eq_refl Hc3 eq_refl Hne Hp0 Hn3) as (s4 & E4 & [W1 W2 W3 W4 W5 W6 _ W8]).
  specialize (W3 kc Hc3). specialize (W4 _ Hn3). set (kr := set_status TASK_RUNNING (set_status TASK_READY kp)) in *.
  set (s5 := set_ker (with_tasks (<[par := set_kstack ks kr]> (tasks (ker s4))) (ker s4)) s4). exists s4, s5. split_and!.
  - erewrite mbnd_Ok by (unfold pcb_at; by rewrite Hp2). rewrite <-Epid. mstep (pid2thread_run s2 par kp H Hpar Hkp).
    erewrite mbnd_Ok by (unfold task_at; by rewrite Hkp). rewrite bool_decide_true by done. erewrite mbnd_Ok; [exact E4|].
    apply on_ker_run. apply unblock_off; try done. by rewrite Hw.
  - apply on_ker_run. unfold run_frame, pop_frame, running_thread, mbnd, mget, upd_task, kintr_set_status. cbn [rbind fst snd]. rewrite W1, W4. cbn [rbind fst snd kflags with_tasks kstack set_status].
    unfold intr_set_status. rewrite disable_off by (by rewrite W6). cbn. rewrite Hst. cbn. by destruct (ker s4).
  - unfold s5. rewrite W8. by destruct s2.
  - done.
  - cbn. by rewrite W6.
  - cbn. rewrite lookup_insert_ne by done. exact W3.
  - cbn. by rewrite lookup_insert_eq.
  - intros u H1 H2. cbn. rewrite lookup_insert_ne by done. rewrite W5 by done. cbn. by rewrite lookup_insert_ne by done.
Qed.

(** The table after the exit. *)
Lemma exit_table s s1 s2 s'' kc pc par kp ks st : procs_ok s → given_away s s1 kc st → same_procs s1 s2 → s'' = set_ker (ker s'') s2 →
  pcbs s !! cur (ker s) = Some pc → tasks (ker s) !! cur (ker s) = Some kc → tasks (ker s) !! par = Some kp → status kp = TASK_WAITING →
  parent_pid pc = pid kp → par ∈ thread_all_list s → par ≠ cur (ker s) →
  tasks (ker s'') !! cur (ker s) = Some (set_kstack (FBlock INTR_OFF :: kstack kc) (set_status TASK_HANGING kc)) →
  tasks (ker s'') !! par = Some (set_kstack ks (set_status TASK_RUNNING (set_status TASK_READY kp))) →
  (∀ u, u ≠ cur (ker s) → u ≠ par → tasks (ker s'') !! u = tasks (ker s) !! u) →
  ptable s'' = abs_exit (pid kc) st (pid kp) <$> ptable s.
Proof.
  intros H Hg Hsp Es'' Hpc Hkc Hkp Hw Epar Hpar Hne T1 T2 T3.
  assert (Hnp : pid kp ≠ pid kc) by (intros E; apply Hne; eapply (po_pids _ H); eauto; apply H).
  assert (Eall : thread_all_list s'' = thread_all_list s) by (rewrite Es''; cbn; rewrite (sp_all _ _ Hsp); destruct Hg as [-> _]; done).
  assert (Epc : pcbs s'' = pcbs s2) by (by rewrite Es''). unfold ptable. rewrite Eall.
  assert (Hl : ∀ u, u ∈ thread_all_list s → u ∈ thread_all_list s) by done. revert Hl. generalize (thread_all_list s) at 1 3 4 as l.
  induction l as [|u l IH]; intros Hl; [done|]. cbn [omap list_omap].
  destruct (ptable_in s u H (Hl u ltac:(by left))) as (ku & pu & [U1 U2 _ _ _] & Ea).
  destruct (released_pcb s s1 s2 kc pc st u H Hg Hsp Hpc ltac:(congruence) (Hl u ltac:(by left))) as (p & p2 & P1 & P2 & P3 & P4 & P5). assert (p = pu) as -> by congruence.
  assert (Eu : aproc_of s'' u = Some (abs_exit (pid kc) st (pid kp) (AProc (pid ku) (parent_pid pu) (pstate_of ku pu)))).
  { unfold aproc_of. rewrite Epc, P2. destruct (decide (u = cur (ker s))) as [->|Huc].
    - assert (ku = kc) as -> by congruence. assert (pu = pc) as -> by congruence. rewrite T1. cbn. destruct (P5 eq_refl) as [Q1 Q2]. rewrite Q1. unfold pstate_of. cbn. rewrite Q2.
      unfold abs_exit. cbn. rewrite Z.eqb_refl, Epar. by rewrite (proj2 (Z.eqb_neq _ _) Hnp).
    - assert (Hpk : pid ku ≠ pid kc) by (intros E; apply Huc; eapply (po_pids _ H); eauto; [apply Hl; by left|apply H]).
      unfold abs_exit. cbn. rewrite (proj2 (Z.eqb_neq _ _) Hpk). destruct (decide (u = par)) as [->|Hup].
      + assert (ku = kp) as -> by congruence. rewrite T2, Z.eqb_refl. cbn. rewrite P3. unfold pstate_of, adopt. cbn. rewrite Hw. by destruct (parent_pid pu =? pid kc).
      + rewrite T3, U1 by done. cbn. rewrite P3. assert (Hpp : pid ku ≠ pid kp) by (intros E; apply Hup; eapply (po_pids _ H); eauto; apply Hl; by left).
        rewrite (proj2 (Z.eqb_neq _ _) Hpp). unfold pstate_of, adopt. rewrite (P4 Huc). by destruct (parent_pid pu =? pid kc). }
  rewrite Eu, Ea. cbn. f_equal. apply IH. intros v Hv. apply Hl. by right.
Qed.

(** C9: A process that exits hands over to its waiting parent.  A process whose
    parent sleeps in [sys_wait] calls [sys_exit], with interrupts off; it is
    supposed that [release_prog_resource] comes to its end without a fault.
    Then its children belong to init, its status (the low byte, signed) is kept,
    and the parent is woken and is the very next thread to run, inside its loop
    of [sys_wait].  The table changes exactly as [abs_exit] says and its
    invariant is kept.  If no other zombie was waiting for the parent, nor, when
    the parent is init, among the children it inherits, the answer that the
    table then has for the parent is this process and its status. *)
Theorem exit_hands_over (s : sys) (kc kp : task) (pc : pcb) (par : Z) (ks : list frame) (st : Z) :
  procs_ok s → intr_get_status (kflags (ker s)) = INTR_OFF →
  tasks (ker s) !! cur (ker s) = Some kc → pcbs s !! cur (ker s) = Some pc → parent_pid pc ≠ -1 → parent_pid pc = pid kp →
  par ∈ thread_all_list s → par ≠ cur (ker s) → tasks (ker s) !! par = Some kp → status kp = TASK_WAITING →
  kstack kp = FBlock INTR_OFF :: ks → par ∉ thread_ready_list (ker s) →
  (∀ s1, given_away s s1 kc (s8 st) → ∃ s2, release_prog_resource (cur (ker s)) s1 = Ok (tt, s2)) →
  ∃ s' s'', sys_exit st s = Ok (tt, s') ∧ cur (ker s') = par ∧ on_ker (λ v2p, run_frame v2p (FBlock INTR_OFF)) s' = Ok (tt, s'') ∧
    cur (ker s'') = par ∧ procs_ok s'' ∧ ptable s'' = abs_exit (pid kc) (s8 st) (pid kp) <$> ptable s ∧
    (first_zombie (pid kp) (ptable s) = None → (pid kp = 1 → first_zombie (pid kc) (ptable s) = None) →
      abs_wait (pid kp) (ptable s'') = Collected (pid kc) (s8 st)).
Proof.
  intros H Hf Hkc Hpc Hp1 Epar Hpar Hne Hkp Hw Hst Hnr Hrel.
  destruct (exit_start s kc pc st H Hkc Hpc Hp1) as (s1 & Hg & Ex). destruct (Hrel s1 Hg) as (s2 & Er). pose proof (skeeps_release _ _ _ _ Er) as Hsp.
  assert (Hnp : pid kp ≠ pid kc) by (intros E; apply Hne; eapply (po_pids _ H); eauto; apply H).
  assert (Ek : ker s2 = ker s) by (rewrite (sp_ker _ _ Hsp); by destruct Hg as [-> _]).
  assert (Eall : thread_all_list s2 = thread_all_list s) by (rewrite (sp_all _ _ Hsp); by destruct Hg as [-> _]).
  assert (H2 : procs_ok s2).
  { apply (procs_ok_ext s); try done; [rewrite (proj1 (sp_pids _ _ Hsp)); by destruct Hg as [-> _]|rewrite (proj2 (sp_pids _ _ Hsp)); by destruct Hg as [-> _]|].
    intros t Ht. destruct (released_pcb s s1 s2 kc pc (s8 st) t H Hg Hsp Hpc ltac:(congruence) Ht) as (p & p2 & _ & P2 & _). by rewrite P2. }
  destruct (released_pcb s s1 s2 kc pc (s8 st) (cur (ker s)) H Hg Hsp Hpc ltac:(congruence) (po_cur _ H)) as (p & p2 & _ & P2 & _ & _ & P5). destruct (P5 eq_refl) as [P6 P7].
  destruct (exit_switch s s2 kc p2 par kp ks H2) as (s' & s'' & E1 & E2 & Es & Ec & Efl & T1 & T2 & T3); rewrite ?Ek, ?Eall; try done; [congruence|].
  rewrite Ek in *. assert (Htab := exit_table s s1 s2 s'' kc pc par kp ks (s8 st) H Hg Hsp Es Hpc Hkc Hkp Hw Epar Hpar Hne T1 T2 T3).
  assert (H3 : procs_ok s'').
  { apply (procs_ok_tasks s2); [done|done|by rewrite Ec, Eall|]. rewrite Ek. intros t k Hk. destruct (decide (t = cur (ker s))) as [->|]; [eexists; split; [exact T1|]; cbn; congruence|].
    destruct (decide (t = par)) as [->|]; [eexists; split; [exact T2|]; cbn; congruence|]. exists k. split; [by rewrite T3|done]. }
  exists s', s''. split; [by rewrite Ex; erewrite mbnd_Ok by exact Er|]. split.
  { revert E2 Ec. unfold on_ker, run_frame, pop_frame, running_thread, mbnd, mget, upd_task, kintr_set_status. cbn [rbind fst snd]. case_match; [|done]. cbn. intros E2. by injection E2 as <-. }
  split; [done|]. split; [done|]. split; [done|]. split; [done|]. intros Hz1 Hz2. pose proof (po_cur _ H) as Hin. destruct (ptable_in s (cur (ker s)) H Hin) as (kk & pp & [K1 K2 _ _ _] & Ea).
  assert (kk = kc) as -> by congruence. assert (pp = pc) as -> by congruence.
  assert (Hfz : first_zombie (pid kp) (ptable s'') = Some (pid kc, s8 st)).
  { rewrite Htab. apply first_zombie_exit; try done.
    - exists (AProc (pid kc) (parent_pid pc) (pstate_of kc pc)). split; [|done]. apply list_elem_of_omap. by exists (cur (ker s)).
    - intros a (t & Ht & Hat)%list_elem_of_omap Eap. destruct (ptable_in s t H Ht) as (kt & pt & [A1 A2 _ _ _] & Eat). rewrite Hat in Eat. injection Eat as ->. cbn in *.
      assert (t = cur (ker s)) as -> by (by eapply (po_pids _ H)). congruence.
    }
  unfold abs_wait. by rewrite Hfz.
Qed.

End exit_theorems.

(** ** A parent and its child *)

Definition res_or {A} (d : A) (r : res A) : A := match r with Ok a => a | _ => d end.
Definition demo_page : Z * mst := res_or (0, demo_space) (get_kernel_pages (B := debug_build) 1 demo_space).
Definition demo_child : Z := Eval vm_compute in demo_page.1.

Lemma demo_child_owned : kernel_ok demo_page.2 ∧ pool_owned PF_KERNEL demo_page.2 demo_child ∧
  demo_page.2 = Mst (pm demo_page.2) 1048576 (kernel_pool demo_page.2) (user_pool demo_page.2) (kernel_vaddr demo_page.2) (userprog_vaddr demo_space) (self demo_space) 0.
Proof.
  destruct (get_kernel_page (B := debug_build) demo_space demo_kernel_ok demo_pool_room) as (v & st & E & G).
  assert (demo_page = (v, st)) as Ep by (unfold demo_page; by rewrite E). assert (demo_child = demo_page.1) as -> by (vm_compute; reflexivity). rewrite Ep. cbn [fst snd]. destruct G as [G1 G2 G3 G4 G5 _ _ G8 _ _]. split_and!; [done|apply G8; by right|].
  destruct st. cbn in *. by subst.
Qed.

Definition demo_pids : bitmap := Bitmap 128 (3 :: replicate 127 0).
Lemma demo_pids_ok : bitmap_ok demo_pids ∧ btmp_bytes_len demo_pids = 128.
Proof. split; [|done]. split; [cbn; lia|by vm_compute|]. apply Forall_cons. split; [lia|]. apply Forall_replicate. lia. Qed.

Definition demo_parent : Z := self demo_space.
Definition demo_family_pcb (parent status_ : Z) : pcb :=
  Pcb 0 [] parent status_ [0; 1; 2; -1; -1; -1; -1; -1] 0 (userprog_vaddr demo_space) 0 [] (TStack 0 0 0 0 0 0 0).
Definition demo_family_ker (st : task_status) : kst :=
  Kst 0 demo_parent {[ demo_parent := Task 1 TASK_RUNNING 31 31 0 0 428280086 []; demo_child := Task 2 st 31 31 0 0 428280086 [] ]} [] 0 ∅ ∅ 1048576 0 0.
(** The child has exited with status 7. *)
Definition demo_family : sys :=
  Sys (demo_family_ker TASK_HANGING) {[ demo_parent := demo_family_pcb (-1) 0; demo_child := demo_family_pcb 1 7 ]} [demo_parent; demo_child]
    demo_pids (Lock 0 0) demo_parent demo_page.2 demo_files ∅ fresh_ring (Lock 0 0) [].

Lemma demo_family_ok : procs_ok demo_family.
Proof.
  assert (Hin : ∀ t, t ∈ thread_all_list demo_family → t = demo_parent ∨ t = demo_child) by (intros t Ht; cbn in Ht; set_solver).
  split.
  - apply (bool_decide_unpack _). vm_compute. exact I.
  - intros t [-> | ->]%Hin; do 2 eexists; (split; [reflexivity|reflexivity|done|cbn; lia|vm_compute; reflexivity]).
  - intros t u k k' [-> | ->]%Hin [-> | ->]%Hin E1 E2 E; try reflexivity; vm_compute in E1, E2; injection E1 as <-; injection E2 as <-; discriminate E.
  - exact demo_pids_ok.
  - done.
  - cbn. by left.
Qed.

Lemma wait_refines_witness : ∃ s', sys_wait (B := debug_build) true demo_family = Ok (Some (2, Some 7), s') ∧ bit (pid_bitmap s') 1 = false.
Proof.
  pose proof (wait_refines (B := debug_build) demo_family (Task 1 TASK_RUNNING 31 31 0 0 428280086 []) demo_family_ok eq_refl eq_refl eq_refl) as H.
  destruct H as (t & k & s' & _ & _ & Ek & E & _ & _ & Hre & _).
  - intros t Ht Hne. assert (t = demo_child) as -> by (cbn in Ht; set_solver). destruct demo_child_owned as (Hk & Ho & Em). split.
    + intros k p [T1 T2 _ _ _]. vm_compute in T1, T2. injection T1 as <-. injection T2 as <-. rewrite Em in Hk. exact Hk.
    + intros _. change (kernel_owned (set_space demo_page.2 demo_family) demo_child). apply owned_space; [exact (f_equal mcr3 Em)|exact Ho].
    + intros k Hk0 Hp. vm_compute in Hk0. injection Hk0 as <-. by destruct Hp.
  - exists s'. split; [exact E|]. rewrite (re_bits _ _ _ _ Hre) by lia. rewrite Ek. reflexivity.
Defined.

(** ** A process that exits while its parent waits *)

(** Three pages: the PCB of the process, its page directory, its bitmap. *)
Definition demo_pages : list Z * mst :=
  res_or ([], demo_space) ((let! a := get_kernel_pages (B := debug_build) 1 in let! b := get_kernel_pages (B := debug_build) 1 in
    let! c := get_kernel_pages (B := debug_build) 1 in mok [a; b; c]) demo_space).
Definition demo_proc : Z := Eval vm_compute in default 0 (demo_pages.1 !! 0%nat).
Definition demo_pgdir : Z := Eval vm_compute in default 0 (demo_pages.1 !! 1%nat).
Definition demo_bits : Z := Eval vm_compute in default 0 (demo_pages.1 !! 2%nat).

Definition demo_exit_task : task := Task 2 TASK_RUNNING 31 31 0 demo_pgdir 428280086 [].
Definition demo_exit_parent : task := Task 1 TASK_WAITING 31 31 0 0 428280086 [FBlock INTR_OFF].
Definition demo_exit_pcb : pcb :=
  Pcb 0 [] 1 0 [0; 1; 2; -1; -1; -1; -1; -1] 0 (VAddr (Bitmap 4096 (replicate 4096 0)) USER_VADDR_START) demo_bits [] (TStack 0 0 0 0 0 0 0).
Definition demo_exiting : sys :=
  Sys (Kst 0 demo_proc {[ demo_parent := demo_exit_parent; demo_proc := demo_exit_task ]} [] 0 ∅ ∅ 1048576 0 0)
    {[ demo_parent := demo_family_pcb (-1) 0; demo_proc := demo_exit_pcb ]} [demo_parent; demo_proc]
    demo_pids (Lock 0 0) demo_parent demo_pages.2 demo_files ∅ fresh_ring (Lock 0 0) [].

Lemma demo_exiting_ok : procs_ok demo_exiting.
Proof.
  assert (Hin : ∀ t, t ∈ thread_all_list demo_exiting → t = demo_parent ∨ t = demo_proc) by (intros t Ht; cbn in Ht; set_solver).
  split.
  - apply (bool_decide_unpack _). vm_compute. exact I.
  - intros t [-> | ->]%Hin; do 2 eexists; (split; [reflexivity|reflexivity|done|cbn; lia|vm_compute; reflexivity]).
  - intros t u k k' [-> | ->]%Hin [-> | ->]%Hin E1 E2 E; try reflexivity; vm_compute in E1, E2; injection E1 as <-; injection E2 as <-; discriminate E.
  - exact demo_pids_ok.
  - done.
  - cbn. by right; left.
Qed.

Lemma demo_release s1 : given_away demo_exiting s1 demo_exit_task (s8 7) → ∃ s2, release_prog_resource (B := debug_build) (cur (ker demo_exiting)) s1 = Ok (tt, s2).
Proof.
  intros [E Hg]. assert (Ep : pcbs s1 = {[ demo_parent := demo_family_pcb (-1) 0; demo_proc := set_exit_status 7 demo_exit_pcb ]}).
  { apply map_eq. intros t. rewrite Hg. change (cur (ker demo_exiting)) with demo_proc. change (thread_all_list demo_exiting) with [demo_parent; demo_proc]. cbn [pcbs demo_exiting].
    destruct (decide (t = demo_parent)) as [->|H1]; [vm_compute; reflexivity|]. destruct (decide (t = demo_proc)) as [->|H2]; [vm_compute; reflexivity|].
    rewrite decide_False by (intros [?|[?|[]%not_elem_of_nil]%elem_of_cons]%elem_of_cons; done). by rewrite !lookup_insert_ne, !lookup_singleton_ne by done. }
  rewrite Ep in E. rewrite E. clear.
  assert (H : match release_prog_resource (B := debug_build) demo_proc (set_pcbs {[ demo_parent := demo_family_pcb (-1) 0; demo_proc := set_exit_status 7 demo_exit_pcb ]} demo_exiting) with Ok _ => true | _ => false end = true) by (vm_compute; reflexivity).
  change (cur (ker demo_exiting)) with demo_proc. revert H. generalize (release_prog_resource (B := debug_build) demo_proc (set_pcbs {[ demo_parent := demo_family_pcb (-1) 0; demo_proc := set_exit_status 7 demo_exit_pcb ]} demo_exiting)).
  intros r H. destruct r as [[[] s2]| | | |]; try done. by exists s2.
Qed.

Lemma exit_hands_over_witness : ∃ s' s'', sys_exit (B := debug_build) 7 demo_exiting = Ok (tt, s') ∧ cur (ker s') = demo_parent ∧
  on_ker (B := debug_build) (λ v2p, run_frame (B := debug_build) v2p (FBlock INTR_OFF)) s' = Ok (tt, s'') ∧ ptable s'' = [AProc 1 (-1) Alive; AProc 2 1 (Zombie 7)] ∧
  abs_wait 1 (ptable s'') = Collected 2 7.
Proof.
  destruct (exit_hands_over (B := debug_build) demo_exiting demo_exit_task demo_exit_parent demo_exit_pcb demo_parent [] 7 demo_exiting_ok) as (s' & s'' & E1 & E2 & E3 & _ & _ & E4 & E5).
  - reflexivity.
  - reflexivity.
  - reflexivity.
  - discriminate.
  - reflexivity.
  - by left.
  - discriminate.
  - reflexivity.
  - reflexivity.
  - reflexivity.
  - set_solver.
  - exact demo_release.
  - exists s', s''. split; [exact E1|]. split; [exact E2|]. split; [exact E3|]. split; [rewrite E4; reflexivity|]. apply E5; reflexivity.
Defined.
