(* ===== verification/Fork.v ===== *)
(** * Forking ([userprog/fork.c])

    [sys_fork] copies the PCB page of the running process, gives the copy an
    identifier, a bitmap and a page directory of its own, copies every page of
    the user space through a kernel buffer, and queues the child, which returns
    from the system call with 0 in EAX.

    The descriptors of the user heap ([u_block_desc]) are in the state of
    [Heap] and not in the PCB here. *)

From S2P Require Import Prelude CString Bitmap Interrupt KList Sched Paging PagePool Ioqueue Disk Inode File System Fd Thread Spaces Exit.

Section fork_ops.
Context {B : Build} {C : Code}.

(** The words of [struct intr_stack] that are changed or read by name. *)
Definition EAX_IDX : nat := 8.
Definition EFLAGS_IDX : nat := 16.

Definition copy_pcb_vaddrbitmap_stack0 (child_thread parent_thread : Z) : M sys Z :=
  let! k := task_at parent_thread in
  let! p := pcb_at parent_thread in
  do! put_task child_thread k in
  do! put_pcb child_thread p in
  let! pid_ := fork_pid in
  do! upd_ktask child_thread (λ k, Task pid_ TASK_READY (priority k) (priority k) 0 (pgdir k) (stack_magic k) (kstack k)) in
  do! upd_pcb child_thread (set_parent_pid (pid k)) in
  let! vaddr_btmp := on_mem (get_kernel_pages bitmap_pg_cnt) in
  if vaddr_btmp =? NULL then mok (-1)
  else
    let! p := pcb_at child_thread in
    let v := p_vaddr p in
    do! mlift (ASSERT (negb (vaddr_bits p =? NULL))) in
    let! bytes := mlift (get_at (bits (vaddr_bitmap v)) 0 (bitmap_pg_cnt * PG_SIZE)) in
    do! upd_pcb child_thread (set_p_vaddr (VAddr (Bitmap (btmp_bytes_len (vaddr_bitmap v)) bytes) (vaddr_start v))) in
    do! upd_pcb child_thread (set_vaddr_bits vaddr_btmp) in
    mok 0.

(** One page of the parent, through the buffer, to the child. *)
Definition copy_page (child_thread parent_thread buf_page prog_vaddr : Z) : M sys unit :=
  do! on_mem (vcopy 1024 buf_page prog_vaddr) in
  do! on_ker (λ v2p, page_dir_activate v2p child_thread) in
  let! _ := on_mem (get_a_page_without_opvaddrbitmap PF_USER prog_vaddr) in
  do! on_mem (vcopy 1024 prog_vaddr buf_page) in
  on_ker (λ v2p, page_dir_activate v2p parent_thread).

Fixpoint copy_bits (n : nat) (child_thread parent_thread buf_page vaddr_start idx_byte idx_bit byte : Z) : M sys unit :=
  match n with
  | O => mok tt
  | S n' =>
      do! (if Z.land (Z.shiftl BITMAP_MASK idx_bit) byte =? 0 then mok tt
           else copy_page child_thread parent_thread buf_page (u32 (u32 (u32 (u32 (idx_byte * 8) + idx_bit) * PG_SIZE) + vaddr_start))) in
      copy_bits n' child_thread parent_thread buf_page vaddr_start idx_byte (idx_bit + 1) byte
  end.

Fixpoint copy_bytes (child_thread parent_thread buf_page vaddr_start idx_byte : Z) (bytes : list Z) : M sys unit :=
  match bytes with
  | [] => mok tt
  | byte :: bytes' =>
      do! (if byte =? 0 then mok tt else copy_bits 8 child_thread parent_thread buf_page vaddr_start idx_byte 0 byte) in
      copy_bytes child_thread parent_thread buf_page vaddr_start (idx_byte + 1) bytes'
  end.

(** The parent's bitmap is not written while its pages are copied. *)
Definition copy_body_stack3 (child_thread parent_thread buf_page : Z) : M sys unit :=
  let! p := pcb_at parent_thread in
  let v := p_vaddr p in
  let! bytes := mlift (get_at (bits (vaddr_bitmap v)) 0 (btmp_bytes_len (vaddr_bitmap v))) in
  copy_bytes child_thread parent_thread buf_page (vaddr_start v) 0 bytes.

(** The child leaves the kernel through [intr_exit] with EAX = 0; the thread
    stack lies just below the interrupt stack, so that its last fields are the
    first words of it. *)
Definition build_child_stack (child_thread : Z) : M sys Z :=
  let! p := pcb_at child_thread in
  let! istack_ := mlift (wr (istack p) (Z.of_nat EAX_IDX) 0) in
  let! edi := mlift (rd istack_ 1) in
  let! esi := mlift (rd istack_ 2) in
  let! eflags := mlift (rd istack_ (Z.of_nat EFLAGS_IDX)) in
  do! upd_pcb child_thread (set_istack istack_) in
  do! upd_pcb child_thread (set_tstack (TStack 0 0 0 0 intr_exit_fn edi esi)) in
  do! upd_pcb child_thread (set_self_kstack (u32 (child_thread + PG_SIZE - 76 - 20))) in
  do! upd_ktask child_thread (set_kstack [FIntr eflags]) in
  mok 0.

Fixpoint update_inode_open_cnts (n : nat) (thread local_fd : Z) : M sys unit :=
  match n with
  | O => mok tt
  | S n' =>
      let! p := pcb_at thread in
      let! global_fd := mlift (rd (p_fd_table p) local_fd) in
      do! mlift (ASSERT (global_fd <? 32)) in
      do! (if global_fd =? -1 then mok tt
           else
             let! b := on_fs (is_pipe local_fd) in
             let! x := on_fs (file_at global_fd) in
             if b then on_fs (put_file global_fd (File (u32 (fd_pos x + 1)) (fd_flag x) (fd_inode x)))
             else on_fs (let! i := inode_at (fd_inode x) in put_inode (fd_inode x) (set_open_cnts (u32 (i_open_cnts i + 1)) i))) in
      update_inode_open_cnts n' thread (local_fd + 1)
  end.

Definition copy_process (child_thread parent_thread : Z) : M sys Z :=
  let! buf_page := on_mem (get_kernel_pages 1) in
  if buf_page =? NULL then mok (-1)
  else
    let! r := copy_pcb_vaddrbitmap_stack0 child_thread parent_thread in
    if r =? -1 then mok (-1)
    else
      let! pgdir_ := on_mem create_page_dir in
      do! upd_ktask child_thread (set_pgdir pgdir_) in
      if pgdir_ =? NULL then mok (-1)
      else
        do! copy_body_stack3 child_thread parent_thread buf_page in
        let! _ := build_child_stack child_thread in
        do! update_inode_open_cnts 5 child_thread 3 in
        do! on_mem (mfree_page PF_KERNEL buf_page 1) in
        mok 0.

Definition sys_fork : M sys Z :=
  let! parent_thread := self_thread in
  let! child_thread := on_mem (get_kernel_pages 1) in
  if child_thread =? NULL then mok (-1)
  else
    let! k := task_at parent_thread in
    let! fl := mget (λ s, kflags (ker s)) in
    do! mlift (ASSERT (bool_decide (intr_get_status fl = INTR_OFF) && negb (pgdir k =? NULL))) in
    let! r := copy_process child_thread parent_thread in
    if r =? -1 then mok (-1)
    else
      do! append_ready child_thread in
      do! append_all child_thread in
      let! k := task_at child_thread in
      mok (pid k).

End fork_ops.

(** ** The pages of a process *)

(** The pages that are marked in a bitmap whose first bit stands for [start]. *)
Definition set_pages (b : bitmap) (start : Z) : list Z :=
  (λ j, start + 4096 * j) <$> filter (λ j, bit b j = true) (seqZ 0 (bit_cnt b)).

Section loop_lemmas.
Context {B : Build} {C : Code}.

Fixpoint copy_pages (child_thread parent_thread buf_page : Z) (pages : list Z) : M sys unit :=
  match pages with
  | [] => mok tt
  | v :: pages' => do! copy_page child_thread parent_thread buf_page v in copy_pages child_thread parent_thread buf_page pages'
  end.

Lemma copy_pages_app t c buf l1 l2 s : copy_pages t c buf (l1 ++ l2) s = (do! copy_pages t c buf l1 in copy_pages t c buf l2) s.
Proof. revert s. induction l1 as [|v l1 IH]; intros s; [done|]. cbn [app copy_pages]. unfold mbnd. destruct (copy_page t c buf v s) as [[[] s1]| | | |]; try done. cbn [rbind fst snd]. apply IH. Qed.

Lemma copy_bits_pages n t c buf b start ib i w s : 0 ≤ ib → 0 ≤ i → i + Z.of_nat n ≤ 8 → bits b !! Z.to_nat ib = Some w → 0 ≤ start → start + 4096 * (8 * ib + 8) ≤ 4294967296 →
  copy_bits n t c buf start ib i w s = copy_pages t c buf ((λ j, start + 4096 * j) <$> filter (λ j, bit b j = true) (seqZ (8 * ib + i) (Z.of_nat n))) s.
Proof.
  intros Hib Hi Hn Hw Hs0 Hs1. revert i s Hi Hn. induction n as [|n IH]; intros i s Hi Hn; [done|]. cbn [copy_bits]. rewrite seqZ_cons by lia. rewrite filter_cons.
  replace (Z.pred (Z.of_nat (S n))) with (Z.of_nat n) by lia. replace (Z.succ (8 * ib + i)) with (8 * ib + (i + 1)) by lia.
  assert (Eb : bit b (8 * ib + i) = Z.testbit w i) by (unfold bit; replace ((8 * ib + i) / 8) with ib by zsolve; rewrite Hw; f_equal; zsolve). rewrite Eb.
  rewrite Z.land_comm. pose proof (testbit_land_pow2 w i Hi) as Et. unfold BITMAP_MASK. destruct (Z.eqb_spec (Z.land w (Z.shiftl 1 i)) 0) as [E|E].
  - rewrite decide_False by (rewrite Et; done). unfold mbnd, mok. cbn [rbind fst snd]. apply IH; lia.
  - rewrite decide_True by (rewrite Et; done). cbn [fmap list_fmap copy_pages]. unfold PG_SIZE. rewrite !u32_small by zsolve. replace ((ib * 8 + i) * 4096 + start) with (start + 4096 * (8 * ib + i)) by lia.
    unfold mbnd. destruct (copy_page t c buf (start + 4096 * (8 * ib + i)) s) as [[[] s1]| | | |]; try done. cbn [rbind fst snd]. apply IH; lia.
Qed.

Lemma copy_bytes_pages t c buf b start bs ib s : 0 ≤ ib → (∀ i w, bs !! i = Some w → bits b !! (Z.to_nat ib + i)%nat = Some w) → 0 ≤ start → start + 4096 * (8 * (ib + Z.of_nat (length bs))) ≤ 4294967296 →
  copy_bytes t c buf start ib bs s = copy_pages t c buf ((λ j, start + 4096 * j) <$> filter (λ j, bit b j = true) (seqZ (8 * ib) (8 * Z.of_nat (length bs)))) s.
Proof.
  revert ib s. induction bs as [|w bs IH]; intros ib s Hib Hbs Hs0 Hs1; [done|]. cbn [copy_bytes length] in *.
  pose proof (Hbs 0%nat w eq_refl) as Hw. rewrite Nat.add_0_r in Hw. replace (8 * Z.of_nat (S (length bs))) with (8 + 8 * Z.of_nat (length bs)) by lia.
  rewrite seqZ_app, filter_app, fmap_app, copy_pages_app by lia. replace (8 * ib + 8) with (8 * (ib + 1)) by lia.
  assert (E : (if w =? 0 then mok tt else copy_bits 8 t c buf start ib 0 w) s = copy_pages t c buf ((λ j, start + 4096 * j) <$> filter (λ j, bit b j = true) (seqZ (8 * ib) 8)) s).
  { destruct (Z.eqb_spec w 0) as [->|_]; [|rewrite (copy_bits_pages 8 t c buf b) by (done || lia); by rewrite Z.add_0_r].
    assert (filter (λ j, bit b j = true) (seqZ (8 * ib) 8) = []) as ->; [|done]. destruct (filter _ _) as [|j l] eqn:El; [done|].
    assert (Hj : j ∈ filter (λ j, bit b j = true) (seqZ (8 * ib) 8)) by (rewrite El; by left). apply list_elem_of_filter in Hj as [Hb Hj%elem_of_seqZ].
    unfold bit in Hb. replace (j / 8) with ib in Hb by zsolve. rewrite Hw, Z.bits_0 in Hb. done. }
  unfold mbnd. rewrite E. destruct (copy_pages t c buf _ s) as [[[] s1]| | | |]; try done. cbn [rbind fst snd]. apply IH; [lia| |done|lia].
  intros i x Hx. rewrite <-(Hbs (S i) x Hx). f_equal. lia.
Qed.

(** [copy_body_stack3] copies the marked pages, in order. *)
Lemma copy_body_pages t c buf s p : pcbs s !! c = Some p → let v := p_vaddr p in bitmap_ok (vaddr_bitmap v) → 0 ≤ vaddr_start v →
  vaddr_start v + 4096 * bit_cnt (vaddr_bitmap v) ≤ 4294967296 → copy_body_stack3 t c buf s = copy_pages t c buf (set_pages (vaddr_bitmap v) (vaddr_start v)) s.
Proof.
  intros Hp v Hb Hs0 Hs1. set (n := btmp_bytes_len (vaddr_bitmap v)). pose proof Hb as [Hn Hl _]. fold n in Hn, Hl. unfold bit_cnt in Hs1. fold n in Hs1.
  unfold copy_body_stack3. erewrite mbnd_Ok by (unfold pcb_at; by rewrite Hp). fold v. fold n. unfold get_at, mlift, mbnd.
  rewrite (proj2 (Z.leb_le 0 n)), (proj2 (Z.leb_le (0 + n) _)) by lia. change (0 <=? 0) with true. cbn [andb rbind fst snd]. change (Z.to_nat 0) with 0%nat. rewrite drop_0.
  assert (Hlen : length (take (Z.to_nat n) (bits (vaddr_bitmap v))) = Z.to_nat n) by (rewrite length_take; lia).
  rewrite (copy_bytes_pages t c buf (vaddr_bitmap v)); rewrite ?Hlen; [|lia| |done|lia].
  - unfold set_pages, bit_cnt. fold n. do 4 f_equal. lia.
  - intros i w Hi%lookup_take_Some. cbn. apply Hi.
Qed.

End loop_lemmas.

(** ** The copy of the user space *)

(** The two processes: [kp] and [pp] are the running parent's, [kc] the
    child's, whose directory is in frame [c]; [buf] is the buffer. *)
Record forking (s : sys) (t : Z) (kp kc : task) (pp : pcb) (buf : Z) : Prop := {
  fk_parent : tasks (ker s) !! cur (ker s) = Some kp;
  fk_pcb : pcbs s !! cur (ker s) = Some pp;
  fk_child : tasks (ker s) !! t = Some kc;
  fk_dirs : kernel_page (pgdir kp) ∧ kernel_page (pgdir kc);
  fk_buf : kernel_page buf;
  fk_cur : cur (ker s) ≠ 0
}.

Record fork_mem (st : mst) (kp kc : task) (c buf fb : Z) : Prop := {
  fm_spaces : spaces st c;
  fm_child : walk (pm st) (mcr3 st) (pgdir kc) = Ok c;
  fm_parent : walk (pm st) (mcr3 st) (pgdir kp) = Ok (mcr3 st);
  fm_buf : walk (pm st) (mcr3 st) buf = Ok fb;
  fm_plain : plain st c fb;
  fm_lock : pool_lock (user_pool st) = Lock 0 0
}.

(** What copying the pages [l] has done: the parent's space is as before, its
    pages (all frames but the buffer's) keep their words, and each page of [l]
    is in the child's space, in a frame of its own, with the same words. *)
Record copied (st st' : mst) (c fb : Z) (l : list Z) : Prop := {
  co_unmoved : unmoved st st' c;
  co_words : ∀ h, plain st c h → h ≠ fb → ∀ a, h ≤ a < h + 4096 → ld (pm st') a = ld (pm st) a;
  co_pages : ∀ v, v ∈ l → ∃ f g, walk (pm st) (mcr3 st) v = Ok f ∧ walk (pm st') c v = Ok g ∧ (∀ h, plain st c h → h ≠ g) ∧
    ∀ i, 0 ≤ i < 1024 → ld (pm st') (g + 4 * i) = ld (pm st) (f + 4 * i);
  co_own : ∀ v w g, v ∈ l → w ∈ l → walk (pm st') c v = Ok g → walk (pm st') c w = Ok g → v = w;
  co_others : ∀ w, managed w → (∀ v, v ∈ l → w / 4096 ≠ v / 4096) → walk (pm st') c w = walk (pm st) c w
}.

Section copy_theorems.
Context {B : Build} {C : Code}.
Implicit Types (s : sys) (st : mst) (kp kc : task) (pp : pcb).

Lemma v2p_run s k p v f : tasks (ker s) !! cur (ker s) = Some k → pcbs s !! cur (ker s) = Some p → self_mapped (pm (space s)) (cr3 (ker s)) → 0 ≤ v < 4294967296 →
  walk (pm (space s)) (cr3 (ker s)) v = Ok f → v2p s v = f.
Proof. intros Hk Hp Hs Hv Hw. unfold v2p. by erewrite on_mem_run by (done || exact (addr_v2p_spec (mem_view k p s) v f Hs Hv Hw)). Qed.

Lemma activate_run s k p t kt f : tasks (ker s) !! cur (ker s) = Some k → pcbs s !! cur (ker s) = Some p → self_mapped (pm (space s)) (cr3 (ker s)) →
  tasks (ker s) !! t = Some kt → kernel_page (pgdir kt) → walk (pm (space s)) (cr3 (ker s)) (pgdir kt) = Ok f →
  on_ker (λ v2p, page_dir_activate v2p t) s = Ok (tt, set_ker (with_mmu f (tss_esp0 (ker s)) (ker s)) s).
Proof.
  intros Hk Hp Hs Ht (Hm & Hi & _) Hw. apply on_ker_run. unfold page_dir_activate, mbnd, get_task. rewrite Ht. cbn [rbind fst snd]. change (pgdir kt =? KList.NULL) with (pgdir kt =? 0).
  rewrite (proj2 (Z.eqb_neq (pgdir kt) 0)) by (intros E; rewrite E in Hi; done). by rewrite (v2p_run s k p (pgdir kt) f) by (done || apply Hm).
Qed.

Lemma fork_mem_unmoved st st' kp kc c buf fb s t pp : forking s t kp kc pp buf → fork_mem st kp kc c buf fb → unmoved st st' c → pool_lock (user_pool st') = Lock 0 0 → fork_mem st' kp kc c buf fb.
Proof.
  intros [_ _ _ [[D1 _] [D2 _]] [D3 _] _] [F1 F2 F3 F4 F5 F6] [U1 U2 U3 U4] Hl. split; rewrite ?U3 by done; try done; [|by apply U2]. by rewrite (e_cr3 _ _ U4).
Qed.

Lemma copy_page_run s t kp kc pp buf c fb v f : forking s t kp kc pp buf → let st := mem_view kp pp s in fork_mem st kp kc c buf fb → user_page v →
  walk (pm st) (mcr3 st) v = Ok f → plain st c f → f ≠ fb → walk (pm st) c v = Fault → (0 < nfree (kernel_pool st))%nat → (0 < nfree (user_pool st))%nat →
  ∃ x st' g, copy_page t (cur (ker s)) buf v s = Ok (tt, set_space x s) ∧ mem_view kp pp (set_space x s) = st' ∧ copied_page st st' c v f fb g.
Proof.
  intros Hf st Hm Hv Hw Pf Hne Hcv Hk Hu. pose proof Hf as [K1 K2 K3 [D1 D2] D3 K4]. pose proof Hm as [F1 F2 F3 F4 F5 F6].
  destruct (copy_one st c v buf f fb F1 Hv D3 Hw F4 Pf F5 Hne Hcv Hk Hu F6 K4) as (st1 & st2 & st3 & g & E1 & E2 & E3 & U1 & U2 & Hc).
  pose proof (um_env _ _ _ U1) as [A1 A2 A3 A4 A5]. pose proof (um_env _ _ _ U2) as [B1 B2 B3 B4 B5]. pose proof (um_env _ _ _ (pc_unmoved _ _ _ _ _ _ _ Hc)) as [C1 C2 C3 C4 C5].
  set (s1 := set_space st1 s). set (s2 := set_ker (with_mmu c (tss_esp0 (ker s)) (ker s)) s1). set (s3 := set_space (with_cr3 c st2) s2). set (s4 := set_space (with_cr3 c st3) s2).
  assert (M2 : mem_view kp pp s2 = with_cr3 c st1) by (unfold s2, s1; clear -A1 A2 A3 A4 A5; unfold st, mem_view in *; destruct st1; unfold with_cr3; cbn in *; congruence).
  assert (M3 : mem_view kp pp s3 = with_cr3 c st2) by (unfold s3, s2, s1; clear -B1 B2 B3 B4 B5; unfold st, mem_view in *; destruct st2; unfold with_cr3; cbn in *; congruence).
  exists (with_cr3 c st3), st3, g. split; [|split; [clear -C1 C2 C3 C4 C5; unfold st, mem_view in *; destruct st3; unfold with_cr3; cbn in *; congruence|done]].
  unfold copy_page. erewrite mbnd_Ok by (apply (on_mem_keep _ s kp pp); [done|done|exact E1|by rewrite A3]). fold s1.
  erewrite mbnd_Ok by (apply (activate_run s1 kp pp t kc c); try done; [change (self_mapped (pm st1) (mcr3 st)); rewrite <-A1; apply (um_spaces _ _ _ U1)|change (walk (pm st1) (mcr3 st) (pgdir kc) = Ok c); rewrite <-A1; rewrite (um_parent _ _ _ U1) by apply D2; done]).
  change (set_ker _ s1) with s2. erewrite mbnd_Ok by (apply (on_mem_keep _ s2 kp pp); [done|done|rewrite M2; exact E2|cbn; by rewrite B3]). fold s3.
  erewrite mbnd_Ok by (apply (on_mem_keep _ s3 kp pp); [done|done|rewrite M3; exact E3|cbn; by rewrite C3]). change (set_space (with_cr3 c st3) s3) with s4.
  pose proof (um_spaces _ _ _ (pc_unmoved _ _ _ _ _ _ _ Hc)) as H3.
  rewrite (activate_run s4 kp pp (cur (ker s)) kp (mcr3 st)); try done.
  - unfold s4, s2, s1, st. cbn. by destruct s as [[] ? ? ? ? ? ? ? ? ? ? ?].
  - exact (t_self _ (sc_child _ _ H3)).
  - change (walk (pm st3) c (pgdir kp) = Ok (mcr3 st)). rewrite (kernel_walk st3 c) by (done || apply D1). rewrite (um_parent _ _ _ (pc_unmoved _ _ _ _ _ _ _ Hc)) by apply D1. done.
Qed.

(** The pages of the parent that are to be copied. *)
Record to_copy (st : mst) (c fb : Z) (l : list Z) : Prop := {
  tc_user : ∀ v, v ∈ l → user_page v;
  tc_parent : ∀ v, v ∈ l → ∃ f, walk (pm st) (mcr3 st) v = Ok f ∧ plain st c f ∧ f ≠ fb;
  tc_child : ∀ v, v ∈ l → walk (pm st) c v = Fault;
  tc_frames : (length l ≤ nfree (kernel_pool st))%nat ∧ (length l ≤ nfree (user_pool st))%nat
}.

Lemma same_user_page v w : user_page v → user_page w → v / 4096 = w / 4096 → v = w.
Proof. intros (_ & _ & A1) (_ & _ & A2) E. zsolve. Qed.

Lemma to_copy_next st st1 c fb v f g l : v ∉ l → to_copy st c fb (v :: l) → copied_page st st1 c v f fb g → to_copy st1 c fb l.
Proof.
  intros Hn [T1 T2 T3 [T4 T5]] [P1 P2 P3 P4 P5 P6 P7 P8]. cbn [length] in *. split.
  - intros w Hw. apply T1. by right.
  - intros w Hw. destruct (T2 w ltac:(by right)) as (fw & Ew & Pw & Nw). exists fw. rewrite (um_parent _ _ _ P1) by (apply T1; by right). split_and!; try done. by apply (um_plain _ _ _ P1).
  - intros w Hw. rewrite P4 by (apply T1; by right). rewrite decide_False; [apply T3; by right|]. intros E. apply Hn. rewrite <-(same_user_page w v); [done|apply T1; by right|apply T1; by left|done].
  - lia.
Qed.

Lemma copied_next st st1 st2 c fb v f g l : v ∉ l → to_copy st c fb (v :: l) → plain st c fb → walk (pm st) (mcr3 st) v = Ok f → copied_page st st1 c v f fb g → copied st1 st2 c fb l → copied st st2 c fb (v :: l).
Proof.
  intros Hn [T1 T2 T3 _] Pfb Hf [P1 P2 P3 P4 P5 P6 P7 P8] [C1 C2 C3 C4 C5]. pose proof (um_plain _ _ _ P1) as Hpl. destruct (P3 fb Pfb) as [Hbg _].
  assert (Hv : user_page v) by (apply T1; by left).
  assert (Wg : walk (pm st2) c v = Ok g).
  { rewrite C5; [|apply Hv|intros w Hw E; apply Hn; rewrite (same_user_page v w); [done..|apply T1; by right|done]]. rewrite P4, decide_True by (done || apply Hv). f_equal. destruct Hv as (_ & _ & ->). lia. }
  split.
  - by eapply unmoved_trans.
  - intros h Hh Hhb a Ha. rewrite (C2 h) by (done || by apply Hpl). by apply (proj2 (P3 h Hh)).
  - intros w [->|Hw]%elem_of_cons.
    + exists f, g. split_and!; try done; [intros h Hh; by apply P3|]. intros i Hi. rewrite (C2 g) by (done || lia). by apply P5.
    + destruct (C3 w Hw) as (fw & gw & E1 & E2 & E3 & E4). rewrite (um_parent _ _ _ P1) in E1 by (apply T1; by right). exists fw, gw. split_and!; try done; [intros h Hh; by apply E3, Hpl|].
      intros i Hi. rewrite E4 by done. destruct (T2 w ltac:(by right)) as (fw' & E1' & Pw & Nw). assert (fw' = fw) as -> by congruence. apply (proj2 (P3 fw Pw)); [done|lia].
  - assert (Hg : ∀ w, w ∈ l → walk (pm st2) c w ≠ Ok g).
    { intros w Hw E. destruct (C3 w Hw) as (fw & gw & _ & E2 & E3 & _). apply (E3 g); [done|congruence]. }
    intros w1 w2 x [->|H1]%elem_of_cons [->|H2]%elem_of_cons E1 E2; [done| | |by eapply C4].
    + exfalso. apply (Hg w2 H2). congruence.
    + exfalso. apply (Hg w1 H1). congruence.
  - intros w Hw Hne. rewrite C5 by (try done; intros u Hu; apply Hne; by right). rewrite P4, decide_False; try done. apply Hne. by left.
Qed.

Lemma copy_pages_run l s t kp kc pp buf c fb : NoDup l → forking s t kp kc pp buf → let st := mem_view kp pp s in fork_mem st kp kc c buf fb → to_copy st c fb l →
  ∃ x st', copy_pages t (cur (ker s)) buf l s = Ok (tt, set_space x s) ∧ mem_view kp pp (set_space x s) = st' ∧ fork_mem st' kp kc c buf fb ∧ copied st st' c fb l.
Proof.
  intros Hnd. revert s. induction Hnd as [|v l Hn Hnd IH]; intros s Hf st Hm Ht.
  - exists (space s), st. split; [by destruct s|]. split; [by destruct s|]. split; [done|]. split; try done; try (intros ? ?%not_elem_of_nil; done); [|by intros ? ? ? ?%not_elem_of_nil].
    split; try done; apply Hm.
  - pose proof Ht as [T1 T2 T3 [T4 T5]]. cbn [length] in T4, T5. destruct (T2 v ltac:(by left)) as (f & Ef & Pf & Nf).
    assert (K0 : (0 < nfree (kernel_pool st))%nat) by lia. assert (U0 : (0 < nfree (user_pool st))%nat) by lia.
    destruct (copy_page_run s t kp kc pp buf c fb v f Hf Hm (T1 v ltac:(by left)) Ef Pf Nf (T3 v ltac:(by left)) K0 U0) as (x1 & st1 & g & E1 & M1 & Hc). set (s1 := set_space x1 s) in *.
    assert (Hf1 : forking s1 t kp kc pp buf) by (destruct Hf; by split).
    destruct (IH s1 Hf1) as (x & st' & E & M & Hm' & Hco); rewrite ?M1.
    + apply (fork_mem_unmoved st st1 kp kc c buf fb s t pp Hf Hm); apply Hc.
    + by eapply to_copy_next.
    + exists x, st'. split; [cbn [copy_pages]; by erewrite mbnd_Ok by exact E1|]. split; [done|]. split; [done|]. rewrite M1 in Hco. eapply copied_next; try done. apply Hm.
Qed.

End copy_theorems.

(** C10: Forking copies the user space.  When every page that is marked in the
    bitmap of the running process is mapped, and there is a frame of the user
    pool and one of the kernel pool for each of them, [copy_body_stack3] returns
    and has added to the child's space exactly those pages, each in a frame
    that neither the parent nor another page of the child uses, holding the
    parent's words; the parent's translations and the words of its pages are
    unchanged, and nothing else of the kernel has changed. *)
Theorem fork_copies_memory {B : Build} (s : sys) (t : Z) (kp kc : task) (pp : pcb) (buf c fb : Z) :
  forking s t kp kc pp buf → fork_mem (mem_view kp pp s) kp kc c buf fb →
  bitmap_ok (vaddr_bitmap (p_vaddr pp)) → 0 ≤ vaddr_start (p_vaddr pp) → vaddr_start (p_vaddr pp) + 4096 * bit_cnt (vaddr_bitmap (p_vaddr pp)) ≤ 4294967296 →
  let pages := set_pages (vaddr_bitmap (p_vaddr pp)) (vaddr_start (p_vaddr pp)) in to_copy (mem_view kp pp s) c fb pages →
  ∃ x, copy_body_stack3 t (cur (ker s)) buf s = Ok (tt, set_space x s) ∧ let st := mem_view kp pp s in let st' := mem_view kp pp (set_space x s) in
    tables_ok st' ∧ tables_ok (with_cr3 c st') ∧
    (∀ v, managed v → walk (pm st') (mcr3 st') v = walk (pm st) (mcr3 st) v) ∧
    (∀ v, v ∈ pages → ∃ f g, walk (pm st') (mcr3 st') v = Ok f ∧ walk (pm st') c v = Ok g ∧ f ≠ g ∧
      ∀ i, 0 ≤ i < 1024 → ld (pm st') (g + 4 * i) = ld (pm st) (f + 4 * i) ∧ ld (pm st') (f + 4 * i) = ld (pm st) (f + 4 * i)) ∧
    (∀ v w g, v ∈ pages → w ∈ pages → walk (pm st') c v = Ok g → walk (pm st') c w = Ok g ∨ walk (pm st') (mcr3 st') w = Ok g → v = w ∧ walk (pm st') c w = Ok g) ∧
    (∀ v, managed v → (∀ w, w ∈ pages → v / 4096 ≠ w / 4096) → walk (pm st') c v = walk (pm st) c v).
Proof.
  intros Hf Hm Hb Hs0 Hs1 pages Ht. rewrite (copy_body_pages t (cur (ker s)) buf s pp (fk_pcb _ _ _ _ _ _ Hf)) by done. fold pages.
  assert (Hnd : NoDup pages) by (apply NoDup_fmap; [intros x y E; lia|apply NoDup_filter, NoDup_seqZ]).
  destruct (copy_pages_run pages s t kp kc pp buf c fb Hnd Hf Hm Ht) as (x & st' & E & M & _ & [U W P O N]). exists x. split; [done|]. cbn zeta. rewrite M. pose proof (um_parent _ _ _ U) as Up.
  split; [apply U|]. split; [apply U|]. split; [done|]. split; [|split; [|done]].
  - intros v Hv. destruct (P v Hv) as (f & g & E1 & E2 & E3 & E4). destruct (tc_parent _ _ _ _ Ht v Hv) as (f' & E1' & Pf & Nf). assert (f' = f) as -> by congruence.
    exists f, g. rewrite Up by (apply Ht; done). split_and!; try done; [by apply E3|]. intros i Hi. split; [by apply E4|]. apply (W f); [done..|lia].
  - intros v w g Hv Hw Eg [Ew|Ew]; [split; [by eapply O|done]|]. exfalso. destruct (P v Hv) as (f & g' & _ & E2 & E3 & _). assert (g' = g) as -> by congruence.
    rewrite Up in Ew by (apply Ht; done). destruct (tc_parent _ _ _ _ Ht w Hw) as (f' & E1' & Pf & _). apply (E3 f' Pf). congruence.
Qed.

(** ** A process with one page *)

Definition frame_now (st : mst) (v : Z) : Z := res_or 0 (walk (pm st) (mcr3 st) v).

(** A process is made beside the kernel: its directory, in its space the page
    it runs from, a buffer, and a directory for its child. *)
Definition fork1 : Z * mst := res_or (0, demo_space) (create_page_dir (B := debug_build) demo_space).
Definition fork_cp : Z := Eval vm_compute in frame_now fork1.2 fork1.1.
Definition fork2 : Z * mst := res_or (0, demo_space) (get_a_page_without_opvaddrbitmap (B := debug_build) PF_USER USER_VADDR_START (with_cr3 fork_cp fork1.2)).
Definition fork3 : Z * mst := res_or (0, demo_space) (get_kernel_pages (B := debug_build) 1 fork2.2).
Definition fork4 : Z * mst := res_or (0, demo_space) (create_page_dir (B := debug_build) fork3.2).
Definition fork_dir : Z := Eval vm_compute in fork1.1.
Definition fork_buf : Z := Eval vm_compute in fork3.1.
Definition fork_cdir : Z := Eval vm_compute in fork4.1.
Definition fork_c : Z := Eval vm_compute in frame_now fork4.2 fork_cdir.
Definition fork_fb : Z := Eval vm_compute in frame_now fork4.2 fork_buf.
Definition fork_g : Z := Eval vm_compute in frame_now fork4.2 USER_VADDR_START.

Lemma room_at st j : 0 ≤ j → j + 1 ≤ bit_cnt (vbits PF_KERNEL st) → bit (vbits PF_KERNEL st) j = false → (2 ≤ nfree (kernel_pool st))%nat → pool_room PF_KERNEL 1 st.
Proof. intros H1 H2 H3 H4. exists j. split_and!; try done. intros k Hk. by replace k with j by lia. Qed.

(** The steps, in any kernel: a process at [c1] with a page [u] in frame [g] and
    a buffer in frame [fb], ready to fork into the directory [c2]. *)
Record ready_to_fork (st : mst) (v1 c1 u g buf fb v2 c2 : Z) : Prop := {
  rf_spaces : spaces st c2;
  rf_cr3 : mcr3 st = c1;
  rf_dir : kernel_page v1 ∧ walk (pm st) c1 v1 = Ok c1;
  rf_cdir : kernel_page v2 ∧ walk (pm st) c1 v2 = Ok c2;
  rf_buf : kernel_page buf ∧ walk (pm st) c1 buf = Ok fb ∧ plain st c2 fb;
  rf_page : walk (pm st) c1 u = Ok g ∧ plain st c2 g ∧ walk (pm st) c2 u = Fault
}.

Lemma made_by {B : Build} st v c st' : kernel_ok st → pool_room PF_KERNEL 1 st → create_page_dir st = Ok (v, st') → walk (pm st') (mcr3 st') v = Ok c → made_dir st st' v c.
Proof. intros K R E W. destruct (create_page_dir_run st K R) as (v' & c' & s' & E' & M). rewrite E in E'. injection E' as <- <-. rewrite (md_walk _ _ _ _ M) in W. by injection W as <-. Qed.

(** A process beside the kernel: its directory, and in its space one page. *)
Lemma process_ready {B : Build} st0 st1 st2 v1 c1 u g :
  kernel_ok st0 → pool_room PF_KERNEL 1 st0 → create_page_dir st0 = Ok (v1, st1) → walk (pm st1) (mcr3 st1) v1 = Ok c1 →
  vbits PF_KERNEL st1 = Bitmap 1 [1; 0] → vstart PF_KERNEL st1 = v1 → c1 ≠ mcr3 st1 →
  user_page u → (1 ≤ nfree (kernel_pool st1))%nat → (1 ≤ nfree (user_pool st1))%nat → pool_lock (user_pool st1) = Lock 0 0 →
  get_a_page_without_opvaddrbitmap PF_USER u (with_cr3 c1 st1) = Ok (u, st2) → walk (pm st2) (mcr3 st2) u = Ok g →
  kernel_ok st2 ∧ mcr3 st2 = c1 ∧ data_frame st2 g ∧ taken st2 g ∧ g mod 4096 = 0 ∧
  (∀ w, managed w → w / 4096 ≠ u / 4096 → walk (pm st2) c1 w = walk (pm st1) c1 w) ∧ ∀ w, managed w → pdi w < 768 → w / 4096 ≠ u / 4096 → walk (pm st2) c1 w = Fault.
Proof.
  intros K0 R0 E1 W1 Vb Vs N1 Hu F1 F2 L E2 W2.
  pose proof (made_by _ _ _ _ K0 R0 E1 W1) as M1. pose proof M1 as [S1 K1 P1 _ Emp1 _ _ _ _].
  assert (Hno : ∀ i, 0 ≤ i < bit_cnt (vbits PF_KERNEL st1) → walk (pm st1) (mcr3 st1) (vstart PF_KERNEL st1 + 4096 * i) ≠ Ok (mcr3 st1)).
  { intros i Hi. destruct (decide (i = 0)) as [->|Hne]; [rewrite Vs, Z.mul_0_r, Z.add_0_r, W1; congruence|]. rewrite (vo_free _ _ (ps_vpool _ _ (proj1 K1))); [done|done|]. rewrite Vb in *. change (bit_cnt (Bitmap 1 [1; 0])) with 8 in Hi.
    revert i Hi Hne. by apply (bit_explode (λ j, j ≠ 0 → bit (Bitmap 1 [1; 0]) j = false)). }
  assert (Hemp : ∀ w, managed w → pdi w < 768 → walk (pm st1) c1 w = Fault) by (intros w [Hw Hi] Hp; rewrite walk_alt; unfold pde_at; by rewrite Emp1 by lia).
  destruct (user_page_run (with_cr3 c1 st1) u (kernel_ok_child _ _ _ _ M1 Hno) Hu) as (g' & st2' & E2' & K2 & W2' & Dg & Tg & Ag & [C2 _ _ _ _] & O2); try done.
  { cbn. apply Hemp; apply Hu. }
  rewrite E2 in E2'. injection E2' as <-. rewrite W2 in W2'. injection W2' as <-. cbn in C2. rewrite C2 in O2. split_and!; try done.
  intros w Hw Hp Hne. rewrite O2 by done. by apply Hemp.
Qed.

Lemma fork_ready {B : Build} st0 st1 st2 st3 st4 v1 c1 u g buf fb v2 c2 :
  kernel_ok st0 → pool_room PF_KERNEL 1 st0 → create_page_dir st0 = Ok (v1, st1) → walk (pm st1) (mcr3 st1) v1 = Ok c1 →
  vbits PF_KERNEL st1 = Bitmap 1 [1; 0] → vstart PF_KERNEL st1 = v1 → c1 ≠ mcr3 st1 →
  user_page u → (1 ≤ nfree (kernel_pool st1))%nat → (1 ≤ nfree (user_pool st1))%nat → pool_lock (user_pool st1) = Lock 0 0 →
  get_a_page_without_opvaddrbitmap PF_USER u (with_cr3 c1 st1) = Ok (u, st2) → walk (pm st2) (mcr3 st2) u = Ok g →
  pool_room PF_KERNEL 1 st2 → get_kernel_pages 1 st2 = Ok (buf, st3) → walk (pm st3) (mcr3 st3) buf = Ok fb →
  pool_room PF_KERNEL 1 st3 → create_page_dir st3 = Ok (v2, st4) → walk (pm st4) (mcr3 st4) v2 = Ok c2 →
  buf / 4096 ≠ v1 / 4096 → v2 / 4096 ≠ v1 / 4096 → v2 / 4096 ≠ buf / 4096 → g ≠ c2 → fb ≠ c2 →
  ready_to_fork st4 v1 c1 u g buf fb v2 c2.
Proof.
  intros K0 R0 E1 W1 Vb Vs N1 Hu F1 F2 L E2 W2 R2 E3 W3 R3 E4 W4 D1 D2 D3 D4 D5.
  destruct (process_ready st0 st1 st2 v1 c1 u g) as (K2 & C2 & Dg & Tg & Ag & O2 & _); try done.
  pose proof (made_by _ _ _ _ K0 R0 E1 W1) as M1. pose proof M1 as [S1 _ P1 _ _ _ _ _ _]. destruct Hu as (Hmu & Hiu & Hau).
  destruct (get_kernel_page st2 K2 R2) as (b' & st3' & E3' & [K3 C3 _ _ _ [Ab Rb] _ O3 _ [Kw3 Kd3 Kt3]]). rewrite E3 in E3'. injection E3' as <- <-.
  pose proof (made_by _ _ _ _ K3 R3 E4 W4) as M2. pose proof M2 as [S2 K4 P2 _ Emp2 [C4 _] [Kw4 Kd4 Kt4] _ _]. pose proof K3 as [Po3 _].
  assert (Ecr : mcr3 st4 = c1) by (by rewrite C4, C3, C2). destruct P1 as (Hm1 & Hk1 & Ha1), P2 as (Hm2 & Hk2 & Ha2).
  destruct (proj2 (O3 buf) ltac:(by right)) as (r & Hr & Er). destruct (ps_back _ _ Po3 r Hr) as (f & Ef & Df & (j & Hj & Ej) & Nf). rewrite <-Er, W3 in Ef. injection Ef as <-.
  destruct (pool_page st3 r Po3 (proj1 Hr)) as [Hmb Hkb]. rewrite <-Er in Hmb, Hkb.
  assert (Hdis : ∀ w, managed w → 768 ≤ pdi w → u / 4096 ≠ w / 4096) by (intros w Hw Hk E; apply (same_page u w Hmu Hw) in E; lia).
  assert (Tf : taken st3 fb) by (split; [exact Nf|]; intros (i & Hi & Ei & _); pose proof (t_disj _ (ps_tables _ _ Po3)); cbn in Hj, Ej; lia).
  assert (Dg4 : data_frame st4 g) by (apply Kd4; [apply Kd3; [done|apply Tg]|by destruct (Kt3 _ Tg)]). assert (Df4 : data_frame st4 fb) by (by apply Kd4).
  assert (Af : fb mod 4096 = 0) by (destruct (walk_Ok_inv _ _ _ _ W3) as (_ & _ & ->); rewrite Ab, Z.add_0_r; apply frame_aligned).
  split; try done.
  - split; [done|]. rewrite <-Ecr. rewrite Kw4 by (done || lia). rewrite Kw3 by (done || lia). rewrite C2, O2; [|done|intros E; by apply (Hdis v1 Hm1 Hk1)]. rewrite Ecr. exact (eq_trans (kernel_walk st1 c1 v1 S1 Hm1 Hk1) W1).
  - split; [done|]. by rewrite <-Ecr.
  - split; [done|]. split; [rewrite <-Ecr, Kw4 by (done || lia); done|]. split; [done|by apply (dir_data _ _ _ _ _ M2)|auto|done].
  - split; [|split].
    + rewrite <-Ecr. pose proof (Hdis v2 Hm2 Hk2). pose proof (Hdis buf Hmb Hkb). rewrite Kw4 by (done || lia). rewrite Kw3 by (done || lia). done.
    + split; [done|by apply (dir_data _ _ _ _ _ M2)|auto|done].
    + rewrite walk_alt. unfold pde_at. by rewrite Emp2 by (destruct Hmu; lia).
Qed.

Lemma ready_mem s kp kc pp v1 c1 u g buf fb v2 c2 : ready_to_fork (space s) v1 c1 u g buf fb v2 c2 → cr3 (ker s) = c1 → pgdir kp = v1 → pgdir kc = v2 → pool_lock (user_pool (space s)) = Lock 0 0 →
  user_page u → g ≠ fb → (1 ≤ nfree (kernel_pool (space s)))%nat → (1 ≤ nfree (user_pool (space s)))%nat →
  fork_mem (mem_view kp pp s) kp kc c2 buf fb ∧ to_copy (mem_view kp pp s) c2 fb [u].
Proof.
  intros [R1 R2 [R3 R4] [R5 R6] (R7 & R8 & R9) (R10 & R11 & R12)] Ec <- <- Hl Hu Hne F1 F2.
  destruct (spaces_same (space s) (mem_view kp pp s) c2) as [S P]; [done|cbn; congruence|by intros []|done|]. split; split; cbn; rewrite ?Ec; try done.
  - by apply P.
  - intros v Hv. apply list_elem_of_singleton in Hv as ->. done.
  - intros v Hv. apply list_elem_of_singleton in Hv as ->. exists g. split_and!; try done. by apply P.
  - intros v Hv. apply list_elem_of_singleton in Hv as ->. done.
Qed.

Definition is_ok {A} (r : res A) : bool := match r with Ok _ => true | _ => false end.
Lemma ok_pair {A D} (d : A * D) (r : res (A * D)) x : is_ok r = true → (res_or d r).1 = x → r = Ok (x, (res_or d r).2).
Proof. destruct r as [[]| | | |]; try done. cbn. by intros _ ->. Qed.

Lemma fork_demo_ready : ready_to_fork fork4.2 fork_dir fork_cp USER_VADDR_START fork_g fork_buf fork_fb fork_cdir fork_c.
Proof.
  apply (fork_ready (B := debug_build) demo_space fork1.2 fork2.2 fork3.2).
  - exact demo_kernel_ok.
  - exact demo_pool_room.
  - apply ok_pair; vm_compute; reflexivity.
  - vm_compute. reflexivity.
  - vm_compute. reflexivity.
  - vm_compute. reflexivity.
  - vm_compute. discriminate.
  - unfold user_page, managed, pdi, USER_VADDR_START. split_and!; zsolve.
  - apply Nat.leb_le. vm_compute. reflexivity.
  - apply Nat.leb_le. vm_compute. reflexivity.
  - vm_compute. reflexivity.
  - apply ok_pair; vm_compute; reflexivity.
  - vm_compute. reflexivity.
  - apply (room_at _ 1); [lia|vm_compute; discriminate|vm_compute; reflexivity|apply Nat.leb_le; vm_compute; reflexivity].
  - apply ok_pair; vm_compute; reflexivity.
  - vm_compute. reflexivity.
  - apply (room_at _ 2); [lia|vm_compute; discriminate|vm_compute; reflexivity|apply Nat.leb_le; vm_compute; reflexivity].
  - apply ok_pair; vm_compute; reflexivity.
  - vm_compute. reflexivity.
  - vm_compute. discriminate.
  - vm_compute. discriminate.
  - vm_compute. discriminate.
  - discriminate.
  - discriminate.
Qed.

Definition fork_parent : task := Task 2 TASK_RUNNING 31 31 0 fork_dir 428280086 [].
Definition fork_child : task := Task 3 TASK_READY 31 31 0 fork_cdir 428280086 [].
Definition fork_child_addr : Z := K_HEAP_START + 7 * 4096.
Definition fork_pcb : pcb := Pcb 0 [] 1 0 [0; 1; 2; -1; -1; -1; -1; -1] 0 (VAddr (Bitmap 1 [1; 0]) USER_VADDR_START) 0 [] (TStack 0 0 0 0 0 0 0).
Definition fork_demo : sys :=
  Sys (Kst 0 demo_parent {[ demo_parent := fork_parent; fork_child_addr := fork_child ]} [] 0 ∅ ∅ fork_cp 0 0) {[ demo_parent := fork_pcb ]} [demo_parent]
    demo_pids (Lock 0 0) demo_parent fork4.2 demo_files ∅ fresh_ring (Lock 0 0) [].

Lemma fork_copies_memory_witness : ∃ x, copy_body_stack3 (B := debug_build) fork_child_addr demo_parent fork_buf fork_demo = Ok (tt, set_space x fork_demo) ∧
  ∃ f g, walk (pm x) fork_cp USER_VADDR_START = Ok f ∧ walk (pm x) fork_c USER_VADDR_START = Ok g ∧ f ≠ g ∧ ∀ i, 0 ≤ i < 1024 → ld (pm x) (g + 4 * i) = ld (pm x) (f + 4 * i).
Proof.
  pose proof fork_demo_ready as R. assert (Hu : user_page USER_VADDR_START) by (unfold user_page, managed, pdi, USER_VADDR_START; split_and!; zsolve).
  destruct (ready_mem fork_demo fork_parent fork_child fork_pcb _ _ _ _ _ _ _ _ R) as [Hm Ht]; [reflexivity..|vm_compute; reflexivity|exact Hu|discriminate|apply Nat.leb_le; vm_compute; reflexivity|apply Nat.leb_le; vm_compute; reflexivity|].
  destruct (fork_copies_memory (B := debug_build) fork_demo fork_child_addr fork_parent fork_child fork_pcb fork_buf fork_c fork_fb) as (x & E & _ & _ & _ & Hp & _).
  - destruct R as [_ _ [R1 _] [R2 _] [R3 _] _]. split; [reflexivity|reflexivity|reflexivity|exact (conj R1 R2)|exact R3|discriminate].
  - exact Hm.
  - cbn. split; [cbn; lia|cbn; lia|repeat constructor; lia].
  - cbn. unfold USER_VADDR_START. lia.
  - vm_compute. discriminate.
  - exact Ht.
  - exists x. split; [exact E|]. destruct (Hp USER_VADDR_START) as (f & g & W1 & W2 & Hne & Hw); [vm_compute; by left|]. exists f, g. split; [exact W1|]. split; [exact W2|]. split; [exact Hne|].
    intros i Hi. destruct (Hw i Hi) as [E1 E2]. exact (eq_trans E1 (eq_sym E2)).
Defined.
