(* ===== verification/Spawn.v ===== *)
(** * New tasks in the table ([thread_start], [sys_fork])

    Creating a thread and forking a process add one task to the table of
    [Exit], with a fresh identifier, and keep its invariant. *)

From S2P Require Import Prelude CString Bitmap Interrupt KList Sched Paging PagePool Ioqueue Disk Inode File System Fd Thread Spaces Exit Fork.

(** No PCB lies in a page that is still to be handed out. *)
Definition pcbs_owned (s : sys) : Prop :=
  (∀ t, t ∈ thread_all_list s → kernel_owned s t ∨ t < K_HEAP_START) ∧ ∀ t, t ∈ thread_ready_list (ker s) → t ∈ thread_all_list s.

(** [s'] is [s] with the task [t] added at the end of the list. *)
Record task_added (s s' : sys) (t i : Z) (k : task) (p : pcb) : Prop := {
  ta_all : thread_all_list s' = thread_all_list s ++ [t];
  ta_task : tasks (ker s') !! t = Some k;
  ta_pcb : pcbs s' !! t = Some p;
  ta_pid : pid k = i + 1;
  ta_free : 0 ≤ i < 1024 ∧ bit (pid_bitmap s) i = false;
  ta_tasks : ∀ u, u ≠ t → tasks (ker s') !! u = tasks (ker s) !! u;
  ta_pcbs : ∀ u q, u ≠ t → pcbs s !! u = Some q → ∃ q', pcbs s' !! u = Some q' ∧ parent_pid q' = parent_pid q ∧ exit_status q' = exit_status q;
  ta_cur : cur (ker s') = cur (ker s);
  ta_bitmap : bitmap_ok (pid_bitmap s') ∧ btmp_bytes_len (pid_bitmap s') = 128;
  ta_bits : ∀ j, 0 ≤ j → bit (pid_bitmap s') j = if decide (j = i) then true else bit (pid_bitmap s) j;
  ta_lock : pid_lock s' = Lock 0 0
}.

Section spawn_lemmas.
Context {B : Build} {C : Code}.
Implicit Types (s : sys) (k : task) (p : pcb).

Lemma allocate_pid_run s : bitmap_ok (pid_bitmap s) → btmp_bytes_len (pid_bitmap s) = 128 → pid_lock s = Lock 0 0 → cur (ker s) ≠ 0 → (∃ j, 0 ≤ j < 1024 ∧ bit (pid_bitmap s) j = false) →
  ∃ b i, allocate_pid s = Ok (i + 1, set_pids b (Lock 0 0) s) ∧ 0 ≤ i < 1024 ∧ bit (pid_bitmap s) i = false ∧ bitmap_ok b ∧ btmp_bytes_len b = 128 ∧
    ∀ j, 0 ≤ j → bit b j = if decide (j = i) then true else bit (pid_bitmap s) j.
Proof.
  intros Hb Hl Hlk Hc (j & Hj & Hfree). assert (Ecnt : bit_cnt (pid_bitmap s) = 1024) by (unfold bit_cnt; by rewrite Hl).
  destruct (bitmap_scan_one (pid_bitmap s) Hb) as (i & E & Hi & Hbi & _); [exists j; by rewrite Ecnt|]. rewrite Ecnt in Hi.
  destruct (bitmap_set_spec (pid_bitmap s) i 1 Hb ltac:(lia)) as (b & E2 & Hb' & Hl' & _ & Hbits); [destruct Hb; zsolve|by right|].
  exists b, i. split; [|by rewrite Hl']. unfold allocate_pid, pid_acquire, pid_release, mbnd. rewrite Hlk. unfold lock_enter. cbn [holder].
  rewrite (proj2 (Z.eqb_neq 0 _)) by done. change (0 =? KList.NULL) with true. cbn [rbind fst snd]. unfold mget, mlift, mmod. cbn [rbind fst snd pid_bitmap set_pids].
  rewrite E. cbn [rbind fst snd]. rewrite u32_small by lia. rewrite E2. cbn [rbind fst snd pid_lock set_pids ker]. unfold lock_leave. cbn [holder holder_repeat_nr].
  rewrite Z.eqb_refl, !ASSERT_true by done. cbn [rbind fst snd]. rewrite (u32_small (i + 1)), (s16_small (i + 1)) by lia. done.
Qed.

Lemma added_aproc s s' t i k p u : procs_ok s → t ∉ thread_all_list s → task_added s s' t i k p → u ∈ thread_all_list s → aproc_of s' u = aproc_of s u.
Proof.
  intros H Ht [A1 A2 A3 A4 A5 A6 A7 A8 A9 A10 A11] Hu. assert (Hne : u ≠ t) by (by intros ->). destruct (po_tasks _ H u Hu) as (ku & pu & [T1 T2 _ _ _]).
  destruct (A7 u pu Hne T2) as (pu' & E1 & E2 & E3). unfold aproc_of, pstate_of. rewrite A6, T1, T2, E1 by done. cbn. by rewrite E2, E3.
Qed.

Lemma added_table s s' t i k p : procs_ok s → t ∉ thread_all_list s → task_added s s' t i k p → ptable s' = ptable s ++ [AProc (i + 1) (parent_pid p) (pstate_of k p)].
Proof.
  intros H Ht Ha. pose proof Ha as [A1 A2 A3 A4 _ _ _ _ _ _ _]. unfold ptable. rewrite A1, omap_app. f_equal.
  - assert (Hl : ∀ u, u ∈ thread_all_list s → u ∈ thread_all_list s) by done. revert Hl. generalize (thread_all_list s) at 1 3 4 as l.
    induction l as [|u l IH]; intros Hl; [done|]. cbn [omap list_omap]. rewrite (added_aproc s s' t i k p u H Ht Ha) by (apply Hl; by left). rewrite IH by (intros; apply Hl; by right). done.
  - cbn. unfold aproc_of. rewrite A2, A3. cbn. by rewrite A4.
Qed.

Lemma added_procs s s' t i k p : procs_ok s → t ∉ thread_all_list s → t ≠ 0 → task_added s s' t i k p → procs_ok s'.
Proof.
  intros H Ht Ht0 [A1 A2 A3 A4 [A5 A5'] A6 A7 A8 A9 A10 A11].
  assert (Hold : ∀ u, u ∈ thread_all_list s → u ≠ t ∧ ∃ ku pu, task_ok s u ku pu ∧ tasks (ker s') !! u = Some ku ∧ pid ku ≠ i + 1).
  { intros u Hu. assert (u ≠ t) by (by intros ->). split; [done|]. destruct (po_tasks _ H u Hu) as (ku & pu & Ho). exists ku, pu. split; [done|]. destruct Ho as [T1 T2 T3 T4 T5]. rewrite A6 by done.
    split; [done|]. intros E. rewrite E in T5. replace (i + 1 - 1) with i in T5 by lia. congruence. }
  split.
  - rewrite A1. apply NoDup_app. split; [apply H|]. split; [|apply NoDup_singleton]. intros u Hu ->%list_elem_of_singleton. done.
  - intros u. rewrite A1. intros [Hu| ->%list_elem_of_singleton]%elem_of_app.
    + destruct (Hold u Hu) as (Hne & ku & pu & [T1 T2 T3 T4 T5] & E & En). destruct (A7 u pu Hne T2) as (pu' & E1 & _). exists ku, pu'. split; try done. rewrite A10 by lia. case_decide; [done|done].
    + exists k, p. split; try done; rewrite A4; [lia|]. rewrite A10 by lia. by rewrite decide_True by lia.
  - intros u v ku kv. rewrite A1. intros [Hu| ->%list_elem_of_singleton]%elem_of_app [Hv| ->%list_elem_of_singleton]%elem_of_app E1 E2 E; try done.
    + destruct (Hold u Hu) as (Hne & _), (Hold v Hv) as (Hne' & _). rewrite A6 in E1, E2 by done. by eapply (po_pids _ H).
    + destruct (Hold u Hu) as (Hne & ku' & pu & _ & E3 & En). congruence.
    + destruct (Hold v Hv) as (Hne & kv' & pv & _ & E3 & En). congruence.
  - done.
  - done.
  - rewrite A8, A1. apply elem_of_app. left. apply H.
Qed.

(** The page for a new PCB is not the PCB of a task. *)
Lemma fresh_pcb s k p v st : pcbs_owned s → main_thread s < K_HEAP_START → got_page (mem_view k p s) st v →
  v ∉ thread_all_list s ∧ v ∉ thread_ready_list (ker s) ∧ v ≠ 0 ∧ v ≠ main_thread s.
Proof.
  intros [H1 H2] Hm [_ _ _ _ _ [_ Hv] Hf _ _ _]. assert (Hn : v ∉ thread_all_list s) by (intros Hin; destruct (H1 v Hin); [done|lia]).
  split_and!; [done|intros Hin; by apply Hn, H2|unfold K_HEAP_START in Hv; lia|lia].
Qed.

Definition new_task (i prio : Z) : task := Task (i + 1) TASK_READY (u8 prio) (u8 prio) 0 0 428280086 [FStart].
Definition new_pcb (t : Z) (nm : list Z) (function func_arg : Z) : pcb :=
  Pcb (u32 (u32 (u32 (t + PG_SIZE) - 4 * 76) - 4 * 32)) nm (-1) 0 ([0; 1; 2] ++ replicate 5 (-1)) 0 (p_vaddr zero_pcb) 0 (istack zero_pcb) (TStack 0 0 0 0 kernel_thread_fn function func_arg).

(** [init_thread] and [thread_create] on the page [t]. *)
Lemma new_thread_run s t nm rest prio fn arg : t ≠ 0 → t ≠ main_thread s → bitmap_ok (pid_bitmap s) → btmp_bytes_len (pid_bitmap s) = 128 → pid_lock s = Lock 0 0 → cur (ker s) ≠ 0 →
  (∃ j, 0 ≤ j < 1024 ∧ bit (pid_bitmap s) j = false) → Forall is_char nm → (length nm < 16)%nat →
  ∃ b i nm', (do! init_thread t (nm ++ 0 :: rest) prio in thread_create t fn arg) s =
      Ok (tt, set_ker (with_tasks (<[t := new_task i prio]> (tasks (ker s))) (ker s)) (set_pcbs (<[t := new_pcb t nm' fn arg]> (pcbs s)) (set_pids b (Lock 0 0) s))) ∧
    0 ≤ i < 1024 ∧ bit (pid_bitmap s) i = false ∧ bitmap_ok b ∧ btmp_bytes_len b = 128 ∧ ∀ j, 0 ≤ j → bit b j = if decide (j = i) then true else bit (pid_bitmap s) j.
Proof.
  intros Ht Hm Hb Hl Hlk Hc Hfree Hnm Hlen. set (ks := from_option kstack [] (tasks (ker s) !! t)).
  set (s1 := set_pcbs (<[t := zero_pcb]> (pcbs s)) (set_ker (with_tasks (<[t := Task 0 TASK_RUNNING 0 0 0 0 0 ks]> (tasks (ker s))) (ker s)) s)).
  assert (Es : strcpy (Some (replicate 16 0)) (Some (nm ++ 0 :: rest)) = Ok (nm ++ 0 :: drop (S (length nm)) (replicate 16 0))).
  { unfold strcpy. rewrite ASSERT_true by done. cbn [rbind]. rewrite !mem_Some. rewrite strcpy_loop_run by done. by rewrite decide_True by (rewrite length_replicate; lia). }
  destruct (allocate_pid_run s1 Hb Hl Hlk Hc Hfree) as (b & i & E & Hi & Hbi & B1 & B2 & B3). eexists b, i, _. split; [|done].
  unfold init_thread. unfold mbnd at 1 2. unfold mlift at 1. rewrite ASSERT_true by (apply negb_true_iff, Z.eqb_neq; done). cbn [rbind fst snd].
  erewrite mbnd_Ok with (a := tasks (ker s)) (s1 := s) by reflexivity. fold ks. do 2 erewrite mbnd_Ok by reflexivity. fold s1. erewrite mbnd_Ok by exact E.
  erewrite mbnd_Ok by (unfold mlift; rewrite Es; reflexivity).
  unfold mbnd at 1, mget. cbn [rbind fst snd main_thread set_pids s1 set_pcbs set_ker]. rewrite (proj2 (Z.eqb_neq t (main_thread s))) by done.
  unfold thread_create, put_task, put_pcb, mmod, mbnd, upd_pcb, upd_ktask, on_ker, upd_task. cbn [rbind fst snd pcbs set_pcbs set_ker set_pids ker tasks with_tasks s1].
  repeat (progress (cbn [rbind fst snd pcbs set_pcbs set_ker set_pids ker tasks with_tasks s1]; rewrite ?lookup_insert_eq, ?insert_insert_eq)).
  reflexivity.
Qed.

End spawn_lemmas.

(** C12: Starting a thread adds one task and nothing else.  With a page and an
    identifier to be had, [thread_start] returns the page of a new PCB, which is
    no other task's; the table of processes has grown by one living task
    without a parent, whose identifier no other task has, at its end, and keeps
    its invariant; the new task is ready, behind all others, and will enter
    [kernel_thread] with the function and the argument it was given. *)
Theorem thread_start_adds {B : Build} {C : Code} (s : sys) (k : task) (p : pcb) (nm rest : list Z) (prio fn arg : Z) :
  procs_ok s → pcbs_owned s → main_thread s < K_HEAP_START → tasks (ker s) !! cur (ker s) = Some k → pcbs s !! cur (ker s) = Some p →
  kernel_ok (mem_view k p s) → pool_room PF_KERNEL 1 (mem_view k p s) → (∃ j, 0 ≤ j < 1024 ∧ bit (pid_bitmap s) j = false) → Forall is_char nm → (length nm < 16)%nat →
  ∃ t s' i kt pt, thread_start (nm ++ 0 :: rest) prio fn arg s = Ok (t, s') ∧ procs_ok s' ∧ t ∉ thread_all_list s ∧
    ptable s' = ptable s ++ [AProc i (-1) Alive] ∧ (∀ a, a ∈ ptable s → a_pid a ≠ i) ∧
    thread_ready_list (ker s') = thread_ready_list (ker s) ++ [t] ∧ cur (ker s') = cur (ker s) ∧
    tasks (ker s') !! t = Some kt ∧ status kt = TASK_READY ∧ kstack kt = [FStart] ∧ ticks kt = u8 prio ∧
    pcbs s' !! t = Some pt ∧ tstack pt = TStack 0 0 0 0 kernel_thread_fn fn arg.
Proof.
  intros H Hpo Hmain Hk Hp Hok Hr Hfree Hnm Hlen. destruct (get_kernel_page (mem_view k p s) Hok Hr) as (t & st & E1 & G). destruct (fresh_pcb s k p t st Hpo Hmain G) as (N1 & N2 & N3 & N4).
  set (s1 := set_space st s). destruct (po_bitmap _ H) as [Hb Hl]. assert (Hc : cur (ker s) ≠ 0) by (intros E; apply (null_not_listed s H); rewrite <-E; apply H).
  destruct (new_thread_run s1 t nm rest prio fn arg N3 N4 Hb Hl (po_lock _ H) Hc Hfree Hnm Hlen) as (b & i & nm' & E2 & Hi & Hbi & B1 & B2 & B3). set (s2 := set_ker _ _) in E2.
  set (s3 := set_ker (with_ready (thread_ready_list (ker s) ++ [t]) (ker s2)) s2). set (s4 := set_all (thread_all_list s ++ [t]) s3).
  assert (Ha : task_added s s4 t i (new_task i prio) (new_pcb t nm' fn arg)).
  { split; try done.
    - cbn. apply lookup_insert_eq.
    - cbn. apply lookup_insert_eq.
    - intros u Hu. cbn. by rewrite lookup_insert_ne by done.
    - intros u q Hu Hq. cbn. rewrite lookup_insert_ne by done. by exists q. }
  exists t, s4, (i + 1), (new_task i prio), (new_pcb t nm' fn arg). split.
  { unfold thread_start. erewrite mbnd_Ok by (apply (on_mem_keep _ s k p); [done|done|exact E1|apply G]). fold s1.
    assert (Eb : ∀ D (m1 m2 : M sys unit) (k2 : M sys D), (do! m1 in do! m2 in k2) s1 = (do! (do! m1 in m2) in k2) s1) by (intros D m1 m2 k2; unfold mbnd; destruct (m1 s1) as [[[] ?]| | | |]; done).
    rewrite Eb. mstep E2. erewrite mbnd_Ok with (a := tt) (s1 := s3) by (unfold append_ready, mbnd, mget, mlift, elem_in; cbn; rewrite bool_decide_false by done; by rewrite ASSERT_true).
    erewrite mbnd_Ok with (a := tt) (s1 := s4) by (unfold append_all, mbnd, mget, mlift, elem_in; cbn; rewrite bool_decide_false by done; by rewrite ASSERT_true). done. }
  split; [by eapply added_procs|]. split; [done|]. split; [by rewrite (added_table s s4 t i _ _ H N1 Ha)|]. split.
  { intros a (u & Hu & Hau)%list_elem_of_omap. destruct (ptable_in s u H Hu) as (ku & pu & [_ _ _ _ T5] & Ea). rewrite Hau in Ea. injection Ea as ->. cbn. intros E. rewrite E in T5. replace (i + 1 - 1) with i in T5 by lia. change (pid_bitmap s1) with (pid_bitmap s) in Hbi. congruence. }
  split_and!; try done; cbn; apply lookup_insert_eq.
Qed.

Definition demo_code : Code := {| kernel_thread_fn := 3221229568; start_process_fn := 3221229584; idle_fn := 3221229600; init_fn := 3221229616; intr_exit_fn := 3221229632 |}.

Lemma demo_family_pcbs : pcbs_owned demo_family.
Proof.
  split.
  - intros t Ht. assert (Hx : t = demo_parent ∨ t = demo_child) by (cbn in Ht; set_solver). destruct Hx as [Hx|Hx]; rewrite Hx; [right; unfold demo_parent, K_HEAP_START; cbn; lia|left].
    destruct demo_child_owned as (_ & Ho & Em). change (kernel_owned (set_space demo_page.2 demo_family) demo_child). apply owned_space; [exact (f_equal mcr3 Em)|exact Ho].
  - intros t Ht. cbn in Ht. by apply not_elem_of_nil in Ht.
Qed.

Lemma thread_start_adds_witness : ∃ t s' i, thread_start (B := debug_build) (C := demo_code) IDLE 10 4096 0 demo_family = Ok (t, s') ∧
  ptable s' = [AProc 1 (-1) Alive; AProc 2 1 (Zombie 7); AProc i (-1) Alive] ∧ i ≠ 1 ∧ i ≠ 2.
Proof.
  destruct demo_child_owned as (Hk & _ & Em).
  destruct (thread_start_adds (B := debug_build) (C := demo_code) demo_family
    (Task 1 TASK_RUNNING 31 31 0 0 428280086 []) (demo_family_pcb (-1) 0) [105; 100; 108; 101] [] 10 4096 0 demo_family_ok) as (t & s' & i & kt & pt & E & Hs & _ & Ht & Hf & _).
  - exact demo_family_pcbs.
  - change (demo_parent < K_HEAP_START). unfold demo_parent, K_HEAP_START. cbn. lia.
  - reflexivity.
  - reflexivity.
  - rewrite Em in Hk. exact Hk.
  - apply (room_at _ 1); [lia|vm_compute; discriminate|vm_compute; reflexivity|apply Nat.leb_le; vm_compute; reflexivity].
  - exists 2. split; [lia|]. vm_compute. reflexivity.
  - repeat constructor; vm_compute; try discriminate; try reflexivity.
  - cbn. lia.
  - exists t, s', i. split; [exact E|]. split; [rewrite Ht; reflexivity|]. split; apply not_eq_sym.
    + apply (Hf (AProc 1 (-1) Alive)). vm_compute. by left.
    + apply (Hf (AProc 2 1 (Zombie 7))). vm_compute. by right; left.
Defined.

(** ** What the steps of a fork leave alone *)

Record fork_frame (t : Z) (s s' : sys) : Prop := {
  ff_ker : cur (ker s') = cur (ker s) ∧ kflags (ker s') = kflags (ker s) ∧ thread_ready_list (ker s') = thread_ready_list (ker s);
  ff_all : thread_all_list s' = thread_all_list s;
  ff_pids : pid_bitmap s' = pid_bitmap s ∧ pid_lock s' = pid_lock s;
  ff_tasks : ∀ u, u ≠ t → tasks (ker s') !! u = tasks (ker s) !! u;
  ff_pcbs : ∀ u q, u ≠ t → pcbs s !! u = Some q → ∃ q', pcbs s' !! u = Some q' ∧ parent_pid q' = parent_pid q ∧ exit_status q' = exit_status q ∧ istack q' = istack q ∧ name q' = name q ∧
    (u ≠ cur (ker s) → q' = q);
  ff_task : ∀ k, tasks (ker s) !! t = Some k → ∃ k', tasks (ker s') !! t = Some k' ∧ pid k' = pid k ∧ status k' = status k ∧ kstack k' = kstack k;
  ff_pcb : ∀ q, pcbs s !! t = Some q → ∃ q', pcbs s' !! t = Some q' ∧ parent_pid q' = parent_pid q ∧ p_fd_table q' = p_fd_table q ∧ istack q' = istack q ∧ name q' = name q
}.

Definition fkeeps (t : Z) {A} (m : M sys A) : Prop := ∀ s a s', cur (ker s) ≠ t → m s = Ok (a, s') → fork_frame t s s'.

Lemma fork_frame_refl t s : fork_frame t s s.
Proof. split; eauto 10. Qed.
Lemma fork_frame_trans t s1 s2 s3 : fork_frame t s1 s2 → fork_frame t s2 s3 → fork_frame t s1 s3.
Proof.
  intros [(A1 & A2 & A3) A4 [A5 A6] A7 A8 A9 A10] [(D1 & D2 & D3) D4 [D5 D6] D7 D8 D9 D10]. split; [split_and!; congruence|congruence|split; congruence| | | |].
  - intros u Hu. rewrite D7 by done. by apply A7.
  - intros u q Hu Hq. destruct (A8 u q Hu Hq) as (q1 & H1 & E1 & E2 & E3 & E4 & E5). destruct (D8 u q1 Hu H1) as (q2 & H2 & F1 & F2 & F3 & F4 & F5). exists q2. split_and!; try congruence.
    intros Hc. rewrite F5, E5 by congruence. done.
  - intros k Hk. destruct (A9 k Hk) as (k1 & H1 & E1 & E2 & E3). destruct (D9 k1 H1) as (k2 & H2 & F1 & F2 & F3). exists k2. split_and!; congruence.
  - intros q Hq. destruct (A10 q Hq) as (q1 & H1 & E1 & E2 & E3 & E4). destruct (D10 q1 H1) as (q2 & H2 & F1 & F2 & F3 & F4). exists q2. split_and!; congruence.
Qed.

Create HintDb fkeeps.

Section frame_lemmas.
Context {B : Build} {C : Code} (t : Z).

Lemma fkeeps_ok {A} (a : A) : fkeeps t (mok a).
Proof. intros s b s' _ E. injection E as <- <-. apply fork_frame_refl. Qed.
Lemma fkeeps_get {A} (f : sys → A) : fkeeps t (mget f).
Proof. intros s b s' _ E. injection E as <- <-. apply fork_frame_refl. Qed.
Lemma fkeeps_lift {A} (r : res A) : fkeeps t (mlift r).
Proof. intros s b s' _ E. apply mlift_Ok_inv in E as [_ ->]. apply fork_frame_refl. Qed.
Lemma fkeeps_bnd {A D} (m : M sys A) (k : A → M sys D) : fkeeps t m → (∀ a, fkeeps t (k a)) → fkeeps t (mbnd m k).
Proof.
  intros H1 H2 s a s' Hc E. apply mbnd_Ok_inv in E as (b & s1 & E1 & E2). pose proof (H1 _ _ _ Hc E1) as F1. eapply fork_frame_trans; [exact F1|].
  eapply H2; [|exact E2]. destruct (ff_ker _ _ _ F1) as (-> & _). done.
Qed.
Lemma fkeeps_pcb u : fkeeps t (pcb_at u).
Proof. intros s a s' _ E. unfold pcb_at in E. case_match; kinv. apply fork_frame_refl. Qed.
Lemma fkeeps_task u : fkeeps t (task_at u).
Proof. intros s a s' _ E. unfold task_at in E. case_match; kinv. apply fork_frame_refl. Qed.

(** Changes of the running task's PCB that keep its family. *)
Lemma fork_frame_self s s1 p p' : cur (ker s) ≠ t → pcbs s !! cur (ker s) = Some p → parent_pid p' = parent_pid p → exit_status p' = exit_status p → istack p' = istack p → name p' = name p →
  ker s1 = ker s → thread_all_list s1 = thread_all_list s → pid_bitmap s1 = pid_bitmap s → pid_lock s1 = pid_lock s → pcbs s1 = <[cur (ker s) := p']> (pcbs s) → fork_frame t s s1.
Proof.
  intros Hc Hp E1 E2 E3 E4 K1 K2 K3 K4 Epc. split; rewrite ?K1, ?Epc; try done; eauto.
  - intros u q Hu Hq. destruct (decide (u = cur (ker s))) as [->|Hn]; [|rewrite lookup_insert_ne by done; exists q; by split_and!]. assert (q = p) as -> by congruence. exists p'. rewrite lookup_insert_eq. by split_and!.
  - intros q Hq. rewrite lookup_insert_ne by done. exists q. by split_and!.
Qed.

Lemma fkeeps_mem {A} (m : M mst A) : fkeeps t (on_mem m).
Proof. intros s a s' Hc E. unfold on_mem in E. repeat case_match; try done. kinv. eapply fork_frame_self; cycle -1; [reflexivity|..]; done. Qed.
Lemma fkeeps_fs {A} (m : M fs A) : fkeeps t (on_fs m).
Proof. intros s a s' Hc E. unfold on_fs in E. repeat case_match; try done. kinv. eapply fork_frame_self; cycle -1; [reflexivity|..]; done. Qed.

Lemma fkeeps_upd_pcb f : (∀ p, parent_pid (f p) = parent_pid p ∧ p_fd_table (f p) = p_fd_table p ∧ istack (f p) = istack p ∧ name (f p) = name p) → fkeeps t (upd_pcb t f).
Proof.
  intros Hf s a s' Hc E. unfold upd_pcb in E. case_match eqn:Ep; kinv. destruct (Hf p) as (F1 & F2 & F3 & F4). split; try done; eauto.
  - intros u q Hu Hq. cbn. rewrite lookup_insert_ne by done. exists q. by split_and!.
  - intros q Hq. assert (q = p) as -> by congruence. cbn. rewrite lookup_insert_eq. exists (f p). by split_and!.
Qed.

Lemma fkeeps_upd_task f : (∀ k, pid (f k) = pid k ∧ status (f k) = status k ∧ kstack (f k) = kstack k) → fkeeps t (upd_ktask t f).
Proof.
  intros Hf s a s' Hc E. unfold upd_ktask, on_ker, upd_task in E. destruct (tasks (ker s) !! t) as [k|] eqn:Ek; [|done]. cbn in E. injection E as <- <-. destruct (Hf k) as (F1 & F2 & F3). split; try done; eauto 10.
  - intros u Hu. cbn. by rewrite lookup_insert_ne by done.
  - intros k' Hk'. assert (k' = k) as -> by congruence. cbn. rewrite lookup_insert_eq. by exists (f k).
Qed.

Lemma fkeeps_activate u : fkeeps t (on_ker (λ v2p, page_dir_activate v2p u)).
Proof.
  intros s a s' Hc E. unfold on_ker, page_dir_activate, mbnd, get_task, mmod in E. destruct (tasks (ker s) !! u) as [k|]; [|done]. cbn in E. injection E as <- <-. split; cbn; try done; eauto 10.
Qed.

End frame_lemmas.

#[export] Hint Resolve fkeeps_ok fkeeps_get fkeeps_lift fkeeps_pcb fkeeps_task fkeeps_mem fkeeps_fs fkeeps_activate : fkeeps.

Ltac fkeep := repeat first [solve [eauto with fkeeps] | apply fkeeps_bnd; [|intros ?] | case_match].

Section fork_table.
Context {B : Build} {C : Code}.
Implicit Types (s : sys) (k : task) (p : pcb).

Lemma fkeeps_copy_page t c buf v : fkeeps t (copy_page t c buf v).
Proof. unfold copy_page. fkeep. Qed.
#[local] Hint Resolve fkeeps_copy_page : fkeeps.
Lemma fkeeps_copy_bits n t c buf start ib i w : fkeeps t (copy_bits n t c buf start ib i w).
Proof. revert i. induction n as [|n IH]; intros i; cbn [copy_bits]; fkeep. Qed.
#[local] Hint Resolve fkeeps_copy_bits : fkeeps.
Lemma fkeeps_copy_bytes t c buf start ib bs : fkeeps t (copy_bytes t c buf start ib bs).
Proof. revert ib. induction bs as [|w bs IH]; intros ib; cbn [copy_bytes]; fkeep. Qed.
#[local] Hint Resolve fkeeps_copy_bytes : fkeeps.
Lemma fkeeps_copy_body t c buf : fkeeps t (copy_body_stack3 t c buf).
Proof. unfold copy_body_stack3. fkeep. Qed.
Lemma fkeeps_open_cnts n t fd : fkeeps t (update_inode_open_cnts n t fd).
Proof. revert fd. induction n as [|n IH]; intros fd; cbn [update_inode_open_cnts]; fkeep. Qed.

(** The child right after its PCB was copied and given an identifier. *)
Definition child_task (i : Z) (k : task) : task := Task (i + 1) TASK_READY (priority k) (priority k) 0 (pgdir k) (stack_magic k) (kstack k).
Definition with_child (t i : Z) (b : bitmap) (k : task) (p : pcb) (s : sys) : sys :=
  set_ker (with_tasks (<[t := child_task i k]> (tasks (ker s))) (ker s)) (set_pcbs (<[t := set_parent_pid (pid k) p]> (pcbs s)) (set_pids b (Lock 0 0) s)).

(** The second half of [copy_pcb_vaddrbitmap_stack0] *)
Definition copy_bitmap (t : Z) : M sys Z :=
  let! vaddr_btmp := on_mem (get_kernel_pages bitmap_pg_cnt) in
  if vaddr_btmp =? NULL then mok (-1)
  else
    let! p := pcb_at t in
    let v := p_vaddr p in
    do! mlift (ASSERT (negb (vaddr_bits p =? NULL))) in
    let! bytes := mlift (get_at (bits (vaddr_bitmap v)) 0 (bitmap_pg_cnt * PG_SIZE)) in
    do! upd_pcb t (set_p_vaddr (VAddr (Bitmap (btmp_bytes_len (vaddr_bitmap v)) bytes) (vaddr_start v))) in
    do! upd_pcb t (set_vaddr_bits vaddr_btmp) in
    mok 0.

Lemma copy_pcb_run s t c k p : t ≠ c → tasks (ker s) !! c = Some k → pcbs s !! c = Some p → bitmap_ok (pid_bitmap s) → btmp_bytes_len (pid_bitmap s) = 128 → pid_lock s = Lock 0 0 → cur (ker s) ≠ 0 →
  (∃ j, 0 ≤ j < 1024 ∧ bit (pid_bitmap s) j = false) →
  ∃ b i, copy_pcb_vaddrbitmap_stack0 t c s = copy_bitmap t (with_child t i b k p s) ∧ 0 ≤ i < 1024 ∧ bit (pid_bitmap s) i = false ∧ bitmap_ok b ∧ btmp_bytes_len b = 128 ∧
    ∀ j, 0 ≤ j → bit b j = if decide (j = i) then true else bit (pid_bitmap s) j.
Proof.
  intros Htc Hk Hp Hb Hl Hlk Hc Hfree. set (s1 := set_pcbs (<[t := p]> (pcbs s)) (set_ker (with_tasks (<[t := k]> (tasks (ker s))) (ker s)) s)).
  destruct (allocate_pid_run s1 Hb Hl Hlk Hc Hfree) as (b & i & E & Hi & Hbi & B1 & B2 & B3). exists b, i. split; [|done].
  unfold copy_pcb_vaddrbitmap_stack0. erewrite mbnd_Ok by (unfold task_at; by rewrite Hk). erewrite mbnd_Ok by (unfold pcb_at; by rewrite Hp). do 2 erewrite mbnd_Ok by reflexivity. fold s1.
  unfold fork_pid. erewrite mbnd_Ok by exact E. erewrite mbnd_Ok by (unfold upd_ktask, on_ker, upd_task; cbn; rewrite lookup_insert_eq; reflexivity).
  erewrite mbnd_Ok by (unfold upd_pcb; cbn; rewrite lookup_insert_eq; reflexivity). cbn. rewrite !insert_insert_eq. reflexivity.
Qed.

Lemma fkeeps_copy_bitmap t : fkeeps t (copy_bitmap t).
Proof. unfold copy_bitmap. fkeep; by apply fkeeps_upd_pcb. Qed.

(** [build_child_stack] changes EAX only. *)
Lemma build_inv s t a s' p k : build_child_stack t s = Ok (a, s') → pcbs s !! t = Some p → tasks (ker s) !! t = Some k →
  ∃ p' k', s' = set_ker (with_tasks (<[t := k']> (tasks (ker s))) (ker s)) (set_pcbs (<[t := p']> (pcbs s)) s) ∧ pid k' = pid k ∧ status k' = status k ∧
    (EAX_IDX < length (istack p))%nat ∧ istack p' = <[EAX_IDX := 0]> (istack p) ∧ parent_pid p' = parent_pid p ∧ p_fd_table p' = p_fd_table p ∧ name p' = name p ∧ ts_eip (tstack p') = intr_exit_fn ∧
    ∃ fl, istack p' !! EFLAGS_IDX = Some fl ∧ kstack k' = [FIntr fl].
Proof.
  intros E Hp Hk. unfold build_child_stack in E. apply mbnd_Ok_inv in E as (p0 & s0 & Ep & E). unfold pcb_at in Ep. rewrite Hp in Ep. injection Ep as <- <-.
  apply mbnd_Ok_inv in E as (l & s1 & [El ->]%mlift_Ok_inv & E). apply mbnd_Ok_inv in E as (edi & s1 & [_ ->]%mlift_Ok_inv & E). apply mbnd_Ok_inv in E as (esi & s1 & [_ ->]%mlift_Ok_inv & E).
  apply mbnd_Ok_inv in E as (fl & s1 & [Efl ->]%mlift_Ok_inv & E). apply wr_Ok_inv in El as [Eb ->]. rewrite Nat2Z.id in *.
  unfold upd_pcb, upd_ktask, on_ker, upd_task, mbnd, mok in E. repeat (progress (cbn [rbind fst snd pcbs set_pcbs ker tasks set_ker with_tasks] in E; rewrite ?Hp, ?Hk, ?lookup_insert_eq, ?insert_insert_eq in E)).
  injection E as <- <-. do 2 eexists. split; [reflexivity|]. cbn. split_and!; try done; [lia|]. exists fl. split; [|done]. unfold rd in Efl. rewrite Nat2Z.id in Efl. destruct (Z.of_nat EFLAGS_IDX <? 0); [done|]. case_match; [by simplify_eq|done].
Qed.

(** The kernel and the two processes when [copy_process] has succeeded. *)
Record forked (s s2 : sys) (t i : Z) (kp : task) (pp : pcb) (k' : task) (p' : pcb) : Prop := {
  fd_ker : cur (ker s2) = cur (ker s) ∧ thread_ready_list (ker s2) = thread_ready_list (ker s) ∧ thread_all_list s2 = thread_all_list s;
  fd_tasks : ∀ u, u ≠ t → tasks (ker s2) !! u = tasks (ker s) !! u;
  fd_pcbs : ∀ u q, u ≠ t → pcbs s !! u = Some q → ∃ q', pcbs s2 !! u = Some q' ∧ parent_pid q' = parent_pid q ∧ exit_status q' = exit_status q ∧ istack q' = istack q;
  fd_task : tasks (ker s2) !! t = Some k' ∧ pid k' = i + 1 ∧ status k' = TASK_READY;
  fd_pcb : pcbs s2 !! t = Some p' ∧ parent_pid p' = pid kp ∧ p_fd_table p' = p_fd_table pp ∧ name p' = name pp;
  fd_frame : istack p' = <[EAX_IDX := 0]> (istack pp) ∧ (EAX_IDX < length (istack pp))%nat ∧ ∃ fl, istack p' !! EFLAGS_IDX = Some fl ∧ kstack k' = [FIntr fl];
  fd_free : 0 ≤ i < 1024 ∧ bit (pid_bitmap s) i = false;
  fd_bitmap : bitmap_ok (pid_bitmap s2) ∧ btmp_bytes_len (pid_bitmap s2) = 128;
  fd_bits : ∀ j, 0 ≤ j → bit (pid_bitmap s2) j = if decide (j = i) then true else bit (pid_bitmap s) j;
  fd_lock : pid_lock s2 = Lock 0 0
}.

Lemma copy_process_inv s t c kp pp s2 : c = cur (ker s) → t ≠ c → c ≠ 0 → tasks (ker s) !! c = Some kp → pcbs s !! c = Some pp → bitmap_ok (pid_bitmap s) → btmp_bytes_len (pid_bitmap s) = 128 → pid_lock s = Lock 0 0 →
  (∃ j, 0 ≤ j < 1024 ∧ bit (pid_bitmap s) j = false) → copy_process t c s = Ok (0, s2) → ∃ i k' p', forked s s2 t i kp pp k' p'.
Proof.
  intros -> Htc Hc0 Hk Hp Hb Hl Hlk Hfree E. unfold copy_process in E. apply mbnd_Ok_inv in E as (buf & sa & Ea & E). destruct (buf =? NULL); [done|].
  unfold on_mem in Ea. rewrite Hk, Hp in Ea. apply rbind_Ok_inv in Ea as ([v st] & _ & Ea). injection Ea as _ <-. set (pa := set_p_vaddr (userprog_vaddr st) pp) in *. cbn [fst snd] in E. set (sa := set_space _ _) in E.
  destruct (copy_pcb_run sa t (cur (ker s)) kp pa Htc Hk ltac:(cbn; apply lookup_insert_eq) Hb Hl Hlk Hc0 Hfree) as (b & i & Ec & Hi & Hbi & B1 & B2 & B3). set (sd := with_child t i b kp pa sa) in Ec.
  apply mbnd_Ok_inv in E as (r & se & Er & E). rewrite Ec in Er. pose proof (fkeeps_copy_bitmap t sd r se (not_eq_sym Htc) Er) as F1. destruct (r =? -1); [done|].
  assert (Hce : cur (ker se) ≠ t) by (rewrite (proj1 (ff_ker _ _ _ F1)); by apply not_eq_sym).
  apply mbnd_Ok_inv in E as (d & sf & Ed & E). apply mbnd_Ok_inv in E as ([] & sg & Eg & E). destruct (d =? NULL); [done|]. apply mbnd_Ok_inv in E as ([] & sh & Eh & E).
  assert (F2 : fork_frame t se sh).
  { assert (Hm : fkeeps t (let! d := on_mem create_page_dir in do! upd_ktask t (set_pgdir d) in copy_body_stack3 t (cur (ker s)) buf)) by (fkeep; by apply fkeeps_upd_task).
    apply (Hm se tt sh Hce). erewrite mbnd_Ok by exact Ed. erewrite mbnd_Ok by exact Eg. exact Eh. }
  pose proof (fork_frame_trans _ _ _ _ F1 F2) as F. destruct F as [(K1 & _ & K2) K3 [K4 K5] K6 K7 K8 K9].
  destruct (K8 (child_task i kp) ltac:(cbn; apply lookup_insert_eq)) as (kh & Hkh & Ek1 & Ek2 & _). destruct (K9 (set_parent_pid (pid kp) pa) ltac:(cbn; apply lookup_insert_eq)) as (ph & Hph & Ep1 & Ep2 & Ep3 & Ep4).
  apply mbnd_Ok_inv in E as (x & si & Ei & E). destruct (build_inv sh t x si ph kh Ei Hph Hkh) as (p3 & k3 & Esi & G1 & G2 & G3 & G4 & G5 & G6 & G7 & _ & G8).
  assert (Hci : cur (ker si) ≠ t) by (rewrite Esi; cbn; rewrite K1; by apply not_eq_sym).
  assert (F3 : fork_frame t si s2).
  { assert (Hm : fkeeps t (do! update_inode_open_cnts 5 t 3 in do! on_mem (mfree_page PF_KERNEL buf 1) in mok 0)) by (fkeep; apply fkeeps_open_cnts). by apply (Hm si 0 s2 Hci). }
  destruct F3 as [(L1 & _ & L2) L3 [L4 L5] L6 L7 L8 L9]. destruct (L8 k3 ltac:(rewrite Esi; cbn; apply lookup_insert_eq)) as (k' & M1 & M2 & M3 & M4). destruct (L9 p3 ltac:(rewrite Esi; cbn; apply lookup_insert_eq)) as (p' & N1 & N2 & N3 & N4 & N5).
  exists i, k', p'. split.
  - rewrite L1, L2, L3, Esi. cbn. by rewrite K1, K2, K3.
  - intros u Hu. rewrite L6, Esi by done. cbn. rewrite lookup_insert_ne by done. rewrite K6 by done. cbn. by rewrite lookup_insert_ne by done.
  - intros u q Hu Hq. destruct (decide (u = cur (ker s))) as [->|Hn].
    + assert (q = pp) as -> by congruence. destruct (K7 (cur (ker s)) pa Hu) as (q1 & Q1 & Q2 & Q3 & Q4 & _); [cbn; rewrite lookup_insert_ne by done; apply lookup_insert_eq|].
      destruct (L7 (cur (ker s)) q1 Hu) as (q2 & R1 & R2 & R3 & R4 & _); [rewrite Esi; cbn; by rewrite lookup_insert_ne by done|]. unfold pa in Q2, Q3, Q4. cbn in Q2, Q3, Q4. exists q2. split_and!; congruence.
    + destruct (K7 u q Hu) as (q1 & Q1 & Q2 & Q3 & Q4 & _); [cbn; by rewrite !lookup_insert_ne by done|].
      destruct (L7 u q1 Hu) as (q2 & R1 & R2 & R3 & R4 & _); [rewrite Esi; cbn; by rewrite lookup_insert_ne by done|]. exists q2. split_and!; congruence.
  - cbn in Ek1, Ek2. split_and!; [done|congruence|congruence].
  - unfold pa in Ep1, Ep2, Ep4. cbn in Ep1, Ep2, Ep4. split_and!; [done|congruence..].
  - unfold pa in Ep3. cbn in Ep3. destruct G8 as (fl & G8 & G9). split; [congruence|]. split; [by rewrite <-Ep3|]. exists fl. split; congruence.
  - done.
  - rewrite L4, Esi. cbn. rewrite K4. done.
  - intros j Hj. rewrite L4, Esi. cbn. rewrite K4. by apply B3.
  - rewrite L5, Esi. cbn. by rewrite K5.
Qed.

End fork_table.

(** C11: A successful fork adds exactly the child.  When the process's copy
    succeeds, [sys_fork] returns to the parent an identifier that no task had;
    the table of processes has grown by one living task with that identifier
    whose parent is the caller, and keeps its invariant; the child is ready
    behind all others; its descriptors and its name are the parent's; and it
    will return from the interrupt with the parent's registers except for EAX,
    which is 0. *)
Theorem fork_adds_child {B : Build} {C : Code} (s : sys) (kp : task) (pp : pcb) :
  procs_ok s → pcbs_owned s → main_thread s < K_HEAP_START → intr_get_status (kflags (ker s)) = INTR_OFF →
  tasks (ker s) !! cur (ker s) = Some kp → pcbs s !! cur (ker s) = Some pp → pgdir kp ≠ 0 →
  kernel_ok (mem_view kp pp s) → pool_room PF_KERNEL 1 (mem_view kp pp s) → (∃ j, 0 ≤ j < 1024 ∧ bit (pid_bitmap s) j = false) →
  (∀ t st, get_kernel_pages 1 (mem_view kp pp s) = Ok (t, st) → ∃ s2, copy_process t (cur (ker s)) (set_space st s) = Ok (0, s2)) →
  ∃ t s' i kc pc pp', sys_fork s = Ok (i, s') ∧ procs_ok s' ∧ t ∉ thread_all_list s ∧
    ptable s' = ptable s ++ [AProc i (pid kp) Alive] ∧ (∀ a, a ∈ ptable s → a_pid a ≠ i) ∧
    thread_ready_list (ker s') = thread_ready_list (ker s) ++ [t] ∧ cur (ker s') = cur (ker s) ∧
    tasks (ker s') !! t = Some kc ∧ pcbs s' !! t = Some pc ∧ pcbs s' !! cur (ker s) = Some pp' ∧
    p_fd_table pc = p_fd_table pp ∧ name pc = name pp ∧ istack pp' = istack pp ∧ istack pc = <[EAX_IDX := 0]> (istack pp) ∧ istack pc !! EAX_IDX = Some 0 ∧
    ∃ fl, istack pc !! EFLAGS_IDX = Some fl ∧ kstack kc = [FIntr fl].
Proof.
  intros H Hpo Hmain Hoff Hk Hp Hpg Hok Hr Hfree Hcp. destruct (get_kernel_page (mem_view kp pp s) Hok Hr) as (t & st & E1 & G). destruct (fresh_pcb s kp pp t st Hpo Hmain G) as (N1 & N2 & N3 & _).
  set (s1 := set_space st s). destruct (po_bitmap _ H) as [Hb Hl]. assert (Hc : cur (ker s) ≠ 0) by (intros E; apply (null_not_listed s H); rewrite <-E; apply H).
  assert (Htc : t ≠ cur (ker s)) by (intros ->; apply N1, H). destruct (Hcp t st E1) as (s2 & E2). fold s1 in E2.
  destruct (copy_process_inv s1 t (cur (ker s)) kp pp s2 eq_refl Htc Hc Hk Hp Hb Hl (po_lock _ H) Hfree E2) as (i & k' & p' & [(D1 & D2 & D3) D4 D5 [D6 [D7 D8]] [D9 [D10 [D11 D12]]] [D13 [D14 D15]] [D16 D17] D18 D19 D20]).
  change (pid_bitmap s1) with (pid_bitmap s) in *. set (s3 := set_ker (with_ready (thread_ready_list (ker s2) ++ [t]) (ker s2)) s2). set (s4 := set_all (thread_all_list s2 ++ [t]) s3).
  assert (Ha : task_added s s4 t i k' p').
  { split; try done; [cbn; by rewrite D3|]. intros u q Hu Hq. destruct (D5 u q Hu Hq) as (q' & Q1 & Q2 & Q3 & _). by exists q'. }
  destruct (D5 (cur (ker s)) pp (not_eq_sym Htc) Hp) as (pp' & Q1 & _ & _ & Q4).
  exists t, s4, (i + 1), k', p', pp'. split.
  { unfold sys_fork. erewrite mbnd_Ok with (a := cur (ker s)) (s1 := s) by reflexivity. erewrite mbnd_Ok by (apply (on_mem_keep _ s kp pp); [done|done|exact E1|apply G]). fold s1.
    change (t =? NULL) with (t =? 0). rewrite (proj2 (Z.eqb_neq t 0)) by done. erewrite mbnd_Ok by (unfold task_at; cbn; rewrite Hk; reflexivity). erewrite mbnd_Ok with (a := kflags (ker s)) (s1 := s1) by reflexivity.
    erewrite mbnd_Ok with (a := tt) (s1 := s1) by (unfold mlift; rewrite bool_decide_true by done; change (pgdir kp =? NULL) with (pgdir kp =? 0); rewrite (proj2 (Z.eqb_neq (pgdir kp) 0)) by done; by rewrite ASSERT_true).
    mstep E2. change (0 =? -1) with false. cbv iota.
    erewrite mbnd_Ok with (a := tt) (s1 := s3) by (unfold append_ready, mbnd, mget, mlift, elem_in; cbn; rewrite bool_decide_false by (rewrite D2; done); by rewrite ASSERT_true).
    erewrite mbnd_Ok with (a := tt) (s1 := s4) by (unfold append_all, mbnd, mget, mlift, elem_in; cbn; rewrite bool_decide_false by (rewrite D3; done); by rewrite ASSERT_true).
    erewrite mbnd_Ok by (unfold task_at; cbn; rewrite D6; reflexivity). by rewrite D7. }
  split; [by eapply added_procs|]. split; [done|]. split; [rewrite (added_table s s4 t i k' p' H N1 Ha), D10; unfold pstate_of; by rewrite D8|]. split.
  { intros a (u & Hu & Hau)%list_elem_of_omap. destruct (ptable_in s u H Hu) as (ku & pu & [_ _ _ _ T5] & Ea). rewrite Hau in Ea. injection Ea as ->. cbn. intros E. rewrite E in T5. replace (i + 1 - 1) with i in T5 by lia. congruence. }
  split; [cbn; by rewrite D2|]. split_and!; try done. rewrite D13. by apply list_lookup_insert_eq.
Qed.

(** ** A larger memory *)

(** 64 pages of each kind, all free, and nothing but the self-map. *)
Definition wide_map : bitmap := Bitmap 8 (replicate 9 0).
Definition wide_space (uv : virtual_addr) (self_ pgdir_ : Z) : mst :=
  Mst (pm demo_space) 1048576 (Pool wide_map 2097152 262144 (Lock 0 0)) (Pool wide_map 2359296 262144 (Lock 0 0)) (VAddr wide_map K_HEAP_START) uv self_ pgdir_.

Lemma wide_bit i : 0 ≤ i → bit wide_map i = false.
Proof.
  intros Hi. unfold bit, wide_map. cbn [bits]. destruct (replicate 9 0 !! Z.to_nat (i / 8)) as [w|] eqn:E; [|done]. apply lookup_replicate in E as [-> _]. apply Z.bits_0.
Qed.
Lemma wide_map_ok : bitmap_ok wide_map ∧ slack wide_map.
Proof. split; [split; cbn; [lia|lia|repeat constructor; lia]|unfold slack; cbn; lia]. Qed.

Lemma wide_kernel_ok uv self_ pgdir_ : self_ ≠ 0 → kernel_ok (wide_space uv self_ pgdir_).
Proof.
  intros Hs. set (st := wide_space uv self_ pgdir_). assert (Hcnt : bit_cnt wide_map = 64) by done. destruct wide_map_ok as [Hb Hsl].
  assert (Hld : ∀ i, 0 ≤ i < 1023 → ld (pm demo_space) (1048576 + 4 * i) = 0) by (intros i Hi; by rewrite demo_ld, decide_False by lia).
  assert (HT : tables_ok st).
  { destruct demo_tables_ok as [T1 _ _ _ _ _ _]. split; [exact T1|split; try done; cbn; lia|split; try done; cbn; lia|cbn; lia|split; intros (i & Hi & E & _); cbn in *; lia| |].
    - intros i Hi. change (present (ld (pm demo_space) (1048576 + 4 * i)) = true → frame_of (ld (pm demo_space) (1048576 + 4 * i)) ≠ 1048576 ∧ taken st (frame_of (ld (pm demo_space) (1048576 + 4 * i)))). by rewrite Hld.
    - intros i j Hi Hj. change (present (ld (pm demo_space) (1048576 + 4 * i)) = true → present (ld (pm demo_space) (1048576 + 4 * j)) = true → frame_of (ld (pm demo_space) (1048576 + 4 * i)) = frame_of (ld (pm demo_space) (1048576 + 4 * j)) → i = j).
      by rewrite Hld by lia. }
  assert (Hn : ∀ i, ¬ own_page PF_KERNEL st i) by (intros i (Hi & Hx & _); change (vbits PF_KERNEL st) with wide_map in *; rewrite wide_bit in Hx by lia; done).
  split; [|done]. split; [done| |cbn; lia|done|by intros i Hi%Hn|by intros i j f Hi%Hn].
  split; try done. intros i Hi _. change (vbits PF_KERNEL st) with wide_map in Hi. apply demo_unmapped. change (vstart PF_KERNEL st) with K_HEAP_START. rewrite Hcnt in Hi. apply managed_range; [done|..]; unfold K_HEAP_START; lia.
Qed.

(** A process that runs on nothing but its PCB. *)
Definition lone_pcb : pcb :=
  Pcb 0 [] 1 0 [0; 1; 2; -1; -1; -1; -1; -1] 0 (VAddr (Bitmap 1 (replicate 94208 0)) USER_VADDR_START) 3222274048 (replicate 16 7 ++ [514; 7; 7]) (TStack 0 0 0 0 0 0 0).
Definition lone_task : task := Task 2 TASK_RUNNING 31 31 0 4096 428280086 [].
Definition lone : sys :=
  Sys (Kst 0 demo_parent {[ demo_parent := lone_task ]} [] 0 ∅ ∅ 1048576 0 0) {[ demo_parent := lone_pcb ]} [demo_parent]
    demo_pids (Lock 0 0) demo_parent (wide_space (p_vaddr lone_pcb) demo_parent 4096) demo_files ∅ fresh_ring (Lock 0 0) [].

Lemma lone_ok : procs_ok lone ∧ pcbs_owned lone.
Proof.
  assert (Hin : ∀ t, t ∈ thread_all_list lone → t = demo_parent) by (intros t Ht; cbn in Ht; set_solver). split; [split|split].
  - apply NoDup_singleton.
  - intros t ->%Hin; do 2 eexists; (split; [reflexivity|reflexivity|done|cbn; lia|vm_compute; reflexivity]).
  - by intros t u k k' ->%Hin ->%Hin.
  - exact demo_pids_ok.
  - done.
  - cbn. by left.
  - intros t ->%Hin. right. unfold demo_parent, K_HEAP_START. cbn. lia.
  - intros t Ht. cbn in Ht. by apply not_elem_of_nil in Ht.
Qed.

Definition returns_zero (r : res (Z * sys)) : bool := match r with Ok (x, _) => x =? 0 | _ => false end.
Lemma ok_zero r : returns_zero r = true → ∃ s2, r = Ok (0, s2).
Proof. destruct r as [[x s2]| | | |]; try done. intros ->%Z.eqb_eq. by exists s2. Qed.

Lemma lone_copy t st : get_kernel_pages (B := debug_build) 1 (mem_view lone_task lone_pcb lone) = Ok (t, st) → ∃ s2, copy_process (B := debug_build) (C := demo_code) t (cur (ker lone)) (set_space st lone) = Ok (0, s2).
Proof.
  intros E. set (r := get_kernel_pages (B := debug_build) 1 (mem_view lone_task lone_pcb lone)) in E.
  assert (H : match r with Ok (t, st) => returns_zero (copy_process (B := debug_build) (C := demo_code) t (cur (ker lone)) (set_space st lone)) | _ => false end = true) by (vm_compute; reflexivity).
  rewrite E in H. apply ok_zero. exact H.
Qed.

Lemma fork_adds_child_witness : ∃ s' i, sys_fork (B := debug_build) (C := demo_code) lone = Ok (i, s') ∧ ptable s' = [AProc 2 1 Alive; AProc i 2 Alive] ∧ i ≠ 2.
Proof.
  destruct lone_ok as [H1 H2]. destruct (fork_adds_child (B := debug_build) (C := demo_code) lone lone_task lone_pcb H1 H2) as (t & s' & i & kc & pc & pp' & E & _ & _ & Ht & Hf & _).
  - change (demo_parent < K_HEAP_START). unfold demo_parent, K_HEAP_START. cbn. lia.
  - reflexivity.
  - reflexivity.
  - reflexivity.
  - discriminate.
  - apply (wide_kernel_ok (p_vaddr lone_pcb) demo_parent 4096). discriminate.
  - apply (room_at _ 0); [lia|vm_compute; discriminate|vm_compute; reflexivity|apply Nat.leb_le; vm_compute; reflexivity].
  - exists 2. split; [lia|]. vm_compute. reflexivity.
  - exact lone_copy.
  - exists s', i. split; [exact E|]. split; [rewrite Ht; reflexivity|]. apply not_eq_sym. apply (Hf (AProc 2 1 Alive)). vm_compute. by left.
Defined.
