(* ===== verification/Exec.v ===== *)
(** * Loading a program ([userprog/exec.c])

    [sys_execv] replaces the image of the running process by an ELF file: it
    reads the header, loads every segment of type [PT_LOAD] at its address,
    taking pages where the process has none, and leaves the kernel for the entry
    point of the file.  The path and the vector of arguments stay in the user's
    memory, where the image is loaded too. *)

From S2P Require Import Prelude CString Bitmap Disk Inode File Dir Path Fs Create Tree Interrupt KList Sched Paging PagePool Ioqueue System Fd Thread Spaces Exit Fork.

(** ** Bytes of memory

    Memory is words; a byte is a part of the word around it. *)

Definition byte_of (w j : Z) : Z := w / 256 ^ j mod 256.
Definition set_byte (w j b : Z) : Z := w - byte_of w j * 256 ^ j + b mod 256 * 256 ^ j.

Definition vload8 (v : Z) : M mst Z := let! w := vload (v - v mod 4) in mok (byte_of w (v mod 4)).
Definition vstore8 (v b : Z) : M mst unit := let! w := vload (v - v mod 4) in vstore (v - v mod 4) (set_byte w (v mod 4) b).

Fixpoint vload_bytes (n : nat) (v : Z) : M mst (list Z) :=
  match n with
  | O => mok []
  | S n' => let! b := vload8 v in let! l := vload_bytes n' (u32 (v + 1)) in mok (b :: l)
  end.
Fixpoint vstore_bytes (v : Z) (l : list Z) : M mst unit :=
  match l with
  | [] => mok tt
  | b :: l' => do! vstore8 v b in vstore_bytes (u32 (v + 1)) l'
  end.

(** The characters at [v] up to a NUL. *)
Fixpoint user_str (fuel : nat) (v : Z) : M mst (list Z) :=
  match fuel with
  | O => mlift Spin
  | S fuel' =>
      let! b := vload8 v in
      if b =? 0 then mok [0] else let! l := user_str fuel' (u32 (v + 1)) in mok (b :: l)
  end.

(** ** ELF *)

Record Elf32_Ehdr := Ehdr {
  e_ident : list Z; e_type : Z; e_machine : Z; e_version : Z; e_entry : Z; e_phoff : Z; e_shoff : Z; e_flags : Z;
  e_ehsize : Z; e_phentsize : Z; e_phnum : Z; e_shentsize : Z; e_shnum : Z; e_shstrndx : Z
}.
Record Elf32_Phdr := Phdr {
  p_type : Z; p_offset : Z; p_vaddr_ : Z; p_paddr : Z; p_filesz : Z; p_memsz : Z; p_flags : Z; p_align : Z
}.

Definition PT_LOAD : Z := 1.
Definition sizeof_Ehdr : Z := 52.
Definition sizeof_Phdr : Z := 32.

(** The fields of a structure in memory. *)
Definition at16 (l : list Z) (k : nat) : Z := nth k l 0 + nth (k + 1) l 0 * 256.
Definition at32 (l : list Z) (k : nat) : Z := of_le32 (nth k l 0) (nth (k + 1) l 0) (nth (k + 2) l 0) (nth (k + 3) l 0).
Definition ehdr_of (l : list Z) : Elf32_Ehdr :=
  Ehdr (take 16 l) (at16 l 16) (at16 l 18) (at32 l 20) (at32 l 24) (at32 l 28) (at32 l 32) (at32 l 36)
    (at16 l 40) (at16 l 42) (at16 l 44) (at16 l 46) (at16 l 48) (at16 l 50).
Definition phdr_of (l : list Z) : Elf32_Phdr :=
  Phdr (at32 l 0) (at32 l 4) (at32 l 8) (at32 l 12) (at32 l 16) (at32 l 20) (at32 l 24) (at32 l 28).

Section exec_ops.
Context {B : Build} {J : Stack}.

(** The test of the ELF header; [true] when the file is refused. *)
Definition bad_header (h : Elf32_Ehdr) : res bool :=
  let? c := memcmp (Some (e_ident h)) (Some [127; 69; 76; 70; 1; 1; 1; 0]) 7 in
  Ok (negb (c =? 0) || negb (e_type h =? 2) || negb (e_machine h =? 3) || negb (e_version h =? 1) ||
      (1024 <? e_phnum h) || negb (e_phentsize h =? sizeof_Phdr)).

(** [read(fd, vaddr, filesz)] into the user's memory. *)
Definition read_user (fd vaddr filesz : Z) : M sys Z :=
  let! old := on_mem (vload_bytes (Z.to_nat filesz) vaddr) in
  let! r := sys_read fd (if vaddr =? NULL then None else Some old) filesz in
  do! on_mem (vstore_bytes vaddr r.2) in
  mok r.1.

(** *** [segment_load] *)

Definition occupy_pages (filesz vaddr : Z) : Z :=
  let size_in_first_page := PG_SIZE - Z.land vaddr 4095 in
  if size_in_first_page <? filesz then DIV_ROUND_UP (filesz - size_in_first_page) PG_SIZE + 1 else 1.

(** Whether the loop takes a page at [vaddr_page]. *)
Definition page_missing (vaddr_page : Z) : M mst bool :=
  let! pde := vload (pde_ptr vaddr_page) in
  if Z.land pde 1 =? 0 then mok true
  else let! pte := vload (pte_ptr vaddr_page) in mok (Z.land pte 1 =? 0).

Fixpoint segment_pages (n : nat) (vaddr_page : Z) : M mst bool :=
  match n with
  | O => mok true
  | S n' =>
      let! b := page_missing vaddr_page in
      let! p := (if b then get_a_page PF_USER vaddr_page else mok 1) in
      if p =? NULL then mok false else segment_pages n' (u32 (vaddr_page + PG_SIZE))
  end.

Definition segment_load (fd offset filesz vaddr : Z) : M sys bool :=
  let! b := on_mem (segment_pages (Z.to_nat (occupy_pages filesz vaddr)) (Z.land vaddr 4294963200)) in
  if negb b then mok false
  else
    let! _ := sys_lseek fd (s32 offset) SEEK_SET in
    let! _ := read_user fd vaddr filesz in
    mok true.

(** *** [load] *)

(** The loop over the program headers; [false] is [goto done] with -1. *)
Fixpoint load_segments (n : nat) (fd prog_header_offset : Z) (h : Elf32_Ehdr) : M sys bool :=
  match n with
  | O => mok true
  | S n' =>
      let! _ := sys_lseek fd (s32 prog_header_offset) SEEK_SET in
      let! r := sys_read fd (Some (replicate 32 0)) (e_phentsize h) in
      if negb (r.1 =? e_phentsize h) then mok false
      else
        let ph := phdr_of r.2 in
        let! b := (if PT_LOAD =? p_type ph then segment_load fd (p_offset ph) (p_filesz ph) (p_vaddr_ ph) else mok true) in
        if negb b then mok false
        else load_segments n' fd (u32 (prog_header_offset + e_phentsize h)) h
  end.

(** [load] between opening and closing the file. *)
Definition load_open (fd : Z) : M sys Z :=
  let! r := sys_read fd (Some (replicate 52 0)) sizeof_Ehdr in
  if negb (r.1 =? sizeof_Ehdr) then mok (-1)
  else
    let h := ehdr_of r.2 in
    let! bad := mlift (bad_header h) in
    if bad then mok (-1)
    else
      let! b := load_segments (Z.to_nat (e_phnum h)) fd (e_phoff h) h in
      mok (if b then s32 (e_entry h) else -1).

Definition load (pathname : list Z) : M sys Z :=
  let! fd := on_fs (sys_open pathname O_RDONLY) in
  if fd =? -1 then mok (-1)
  else
    let! ret := load_open fd in
    let! _ := sys_close fd in
    mok ret.

(** *** [sys_execv] *)

Fixpoint count_args (fuel : nat) (argv argc : Z) : M mst Z :=
  match fuel with
  | O => mlift Spin
  | S fuel' =>
      let! w := vload (u32 (argv + 4 * argc)) in
      if w =? 0 then mok argc else count_args fuel' argv (u32 (argc + 1))
  end.

(** The words of [struct intr_stack] that [sys_execv] sets. *)
Definition EBX_IDX : Z := 5.
Definition ECX_IDX : Z := 7.
Definition EIP_IDX : Z := 14.
Definition ESP_IDX : Z := 17.

(** [inl] is a return to the caller; [inr] is the frame that [intr_exit] pops,
    and the call does not come back.  The fuel bounds the length of the path and
    of the argument vector. *)
Definition sys_execv (fuel : nat) (path argv : Z) : M sys (Z + list Z) :=
  let! argc := on_mem (count_args fuel argv 0) in
  let! pathname := on_mem (user_str fuel path) in
  let! entry_point := load pathname in
  if entry_point =? -1 then mok (inl (-1))
  else
    let! cur := self_thread in
    let! p := pcb_at cur in
    let! new_name := on_mem (vload_bytes 16 path) in
    let! nm := mlift (memcpy (Some (name p)) (Some new_name) 16) in
    do! upd_pcb cur (set_name nm) in
    let! f := mlift (wr (istack p) EBX_IDX argv) in
    let! f := mlift (wr f ECX_IDX argc) in
    let! f := mlift (wr f EIP_IDX (u32 entry_point)) in
    let! f := mlift (wr f ESP_IDX 3221225472) in
    do! upd_pcb cur (set_istack f) in
    mok (inr f).

End exec_ops.

(** ** The user part of an address space *)

(** What a byte of the running space reads as. *)
Definition ubyte (st : mst) (a : Z) : res Z := let? r := vload8 a st in Ok r.1.

Definition user_addr (a : Z) : Prop := 4194304 ≤ a < 3221225472.

(** Every page of the user part that is mapped has a frame of its own, which is
    neither free nor part of the tables. *)
Record user_map (st : mst) : Prop := {
  uo_tables : tables_ok st;
  uo_data : ∀ v f, user_page v → walk (pm st) (mcr3 st) v = Ok f → data_frame st f ∧ taken st f;
  uo_inj : ∀ v w f, user_page v → user_page w → walk (pm st) (mcr3 st) v = Ok f → walk (pm st) (mcr3 st) w = Ok f → v = w
}.

(** A process that can take pages: those of its bitmap. *)
Record user_ok (st : mst) : Prop := {
  uo_map :> user_map st;
  uo_lock : pool_lock (user_pool st) = Lock 0 0;
  uo_self : self st ≠ 0;
  uo_proc : self_pgdir st ≠ 0;
  uo_start : 0 ≤ vaddr_start (userprog_vaddr st) ∧ vaddr_start (userprog_vaddr st) mod 4096 = 0;
  uo_bits : bitmap_ok (vaddr_bitmap (userprog_vaddr st))
}.

(** The bitmap of the process has a bit for page [v]. *)
Definition in_bitmap (st : mst) (v : Z) : Prop :=
  vaddr_start (userprog_vaddr st) ≤ v < vaddr_start (userprog_vaddr st) + 4096 * bit_cnt (vaddr_bitmap (userprog_vaddr st)).

Section byte_lemmas.
Implicit Types (st : mst).

Lemma byte_of_set w j b : 0 ≤ w < 4294967296 → 0 ≤ j < 4 → 0 ≤ b < 256 →
  0 ≤ set_byte w j b < 4294967296 ∧ ∀ i, 0 ≤ i < 4 → byte_of (set_byte w j b) i = if decide (i = j) then b else byte_of w i.
Proof.
  intros Hw Hj Hb. unfold set_byte, byte_of.
  assert (Cj : j = 0 ∨ j = 1 ∨ j = 2 ∨ j = 3) by lia.
  split.
  - destruct_or! Cj; subst j; cbn; zsolve.
  - intros i Hi. assert (Ci : i = 0 ∨ i = 1 ∨ i = 2 ∨ i = 3) by lia.
    rewrite (Z.mod_small b) by lia.
    destruct_or! Cj; subst j; destruct_or! Ci; subst i; case_decide; try lia; cbn -[Z.div Z.modulo]; zsolve.
Qed.

Lemma byte_of_range w j : 0 ≤ byte_of w j < 256.
Proof. apply Z.mod_pos_bound. lia. Qed.

Lemma user_addr_page a : user_addr a → user_page (a - a mod 4096).
Proof. unfold user_addr, user_page, managed, pdi. intros. split_and!; zsolve. Qed.

(** Where the byte at [a] is. *)
Lemma walk_addr st a : user_addr a →
  walk (pm st) (mcr3 st) (a - a mod 4) = let? f := walk (pm st) (mcr3 st) (a - a mod 4096) in Ok (f + (a mod 4096 - a mod 4)).
Proof.
  intros Ha. pose proof (user_addr_page a Ha) as (Hm & _ & Hal). rewrite !walk_alt.
  assert (E : pdi (a - a mod 4) = pdi (a - a mod 4096) ∧ pti (a - a mod 4) = pti (a - a mod 4096)) by (unfold pdi, pti; split; zsolve).
  destruct E as [E1 E2]. unfold pte_slot, pde_at. rewrite E1, E2. rewrite Hal.
  destruct (present _); [|done]. destruct (present _); [|done]. cbn [rbind]. f_equal. zsolve.
Qed.

Lemma ubyte_run st a f : user_addr a → walk (pm st) (mcr3 st) (a - a mod 4096) = Ok f →
  vload8 a st = Ok (byte_of (ld (pm st) (f + (a mod 4096 - a mod 4))) (a mod 4), st).
Proof. intros Ha Hw. unfold vload8, mbnd, vload. rewrite walk_addr, Hw by done. done. Qed.

Lemma ubyte_alt st a : user_addr a →
  ubyte st a = let? f := walk (pm st) (mcr3 st) (a - a mod 4096) in Ok (byte_of (ld (pm st) (f + (a mod 4096 - a mod 4))) (a mod 4)).
Proof. intros Ha. unfold ubyte, vload8, mbnd, vload. rewrite walk_addr by done. by destruct (walk _ _ _). Qed.

End byte_lemmas.

Section store_lemmas.
Implicit Types (st : mst).

Lemma walk_frame m c v f : v mod 4096 = 0 → walk m c v = Ok f → f mod 4096 = 0.
Proof.
  intros Hv Hw. rewrite walk_alt in Hw. destruct (present _); [|done]. destruct (present _); [|done]. injection Hw as <-. rewrite Hv, Z.add_0_r. apply frame_aligned.
Qed.

(** Writing into a frame of the user part changes no translation. *)
Lemma touch_user st v f m' : user_ok st → user_page v → walk (pm st) (mcr3 st) v = Ok f → touch st (eq f) m' →
  user_ok (with_pm m' st) ∧ ∀ w, managed w → walk m' (mcr3 st) w = walk (pm st) (mcr3 st) w.
Proof.
  intros H Hv Hw Ht. destruct (uo_data _ H v f Hv Hw) as [Hd Hk]. pose proof (walk_frame _ _ _ _ (proj2 (proj2 Hv)) Hw) as Hal.
  assert (HF : ∀ g, eq f g → data_frame st g ∧ g mod 4096 = 0) by (by intros g <-).
  destruct (touch_ok st (eq f) m' (uo_tables _ H) HF Ht) as [HT' Hd'].
  assert (W : ∀ w, managed w → walk m' (mcr3 st) w = walk (pm st) (mcr3 st) w) by (intros w Hm; apply (touch_walk st (eq f)); [apply H|done..]).
  split; [|done]. destruct H as [[H1 H2 H3] H4 H5 H6 H7 H8]. split; try done. split; try done.
  - intros w g Hu. cbn. rewrite W by apply Hu. intros Eg. destruct (H2 w g Hu Eg). split; [by apply Hd'|done].
  - intros w w' g Hu Hu'. cbn. rewrite !W by (apply Hu || apply Hu'). by apply H3.
Qed.

Lemma store8_run st a b f : user_ok st → user_addr a → walk (pm st) (mcr3 st) (a - a mod 4096) = Ok f → 0 ≤ b < 256 →
  ∃ m', vstore8 a b st = Ok (tt, with_pm m' st) ∧ user_ok (with_pm m' st) ∧ (∀ w, managed w → walk m' (mcr3 st) w = walk (pm st) (mcr3 st) w) ∧
    ∀ a', user_addr a' → ubyte (with_pm m' st) a' = if decide (a' = a) then Ok b else ubyte st a'.
Proof.
  intros H Ha Hw Hb. pose proof (user_addr_page a Ha) as Hp. pose proof (walk_frame _ _ _ _ (proj2 (proj2 Hp)) Hw) as Hal.
  set (x := f + (a mod 4096 - a mod 4)). set (w := ld (pm st) x). pose proof (sm_words _ _ (t_self _ (uo_tables _ H))) as Hwd.
  destruct (byte_of_set w (a mod 4) b (Hwd x) ltac:(zsolve) Hb) as [Hr Hbs]. set (w' := set_byte w (a mod 4) b) in *.
  set (m' := <[x := u32 w']> (pm st)).
  assert (Ht : touch st (eq f) m').
  { split; intros y; [|intros Hy]; unfold m'; rewrite ld_insert, ?u32_small by done; case_decide; try done. specialize (Hy f eq_refl). unfold x in *. zsolve. }
  destruct (touch_user st _ f m' H Hp Hw Ht) as [Hok Hsame]. exists m'. split_and!; try done.
  - unfold vstore8, mbnd, vload, vstore. rewrite walk_addr, Hw by done. cbn [rbind fst snd]. rewrite walk_addr, Hw by done. done.
  - intros a' Ha'. pose proof (user_addr_page a' Ha') as Hp'. rewrite !ubyte_alt by done. cbn [pm mcr3 with_pm]. rewrite Hsame by apply Hp'.
    destruct (decide (a' = a)) as [->|Hne].
    + rewrite Hw. cbn [rbind]. unfold m'. fold x. rewrite ld_insert, decide_True, u32_small, Hbs by (done || zsolve). by rewrite decide_True.
    + destruct (walk (pm st) (mcr3 st) (a' - a' mod 4096)) as [f'| | | |] eqn:Ew; try done. cbn [rbind].
      unfold m'. rewrite ld_insert. case_decide as Hx; [|done]. pose proof (walk_frame _ _ _ _ (proj2 (proj2 Hp')) Ew) as Hal'.
      assert (f' = f) by (unfold x in Hx; zsolve). subst f'. pose proof (uo_inj _ H _ _ _ Hp' Hp Ew Hw) as E.
      rewrite u32_small, Hbs by (done || zsolve). rewrite decide_False by (unfold x in Hx; zsolve). unfold w. by rewrite Hx.
Qed.

(** Every byte of [a .. a + n) is in a page that is mapped. *)
Definition mapped_at st (a : Z) : Prop := ∃ f, walk (pm st) (mcr3 st) (a - a mod 4096) = Ok f.
Definition range_mapped st (a n : Z) : Prop := 4194304 ≤ a ∧ a + n ≤ 3221225472 ∧ ∀ x, a ≤ x < a + n → mapped_at st x.

Lemma range_next st a n : 0 ≤ n → range_mapped st a (1 + n) → u32 (a + 1) = a + 1 ∧ user_addr a ∧ mapped_at st a ∧ range_mapped st (a + 1) n.
Proof.
  intros Hn (H1 & H2 & H3). unfold user_addr. split_and!; [apply u32_small; lia|lia|lia|apply H3; lia|]. split_and!; [lia|lia|]. intros x Hx. apply H3. lia.
Qed.

Lemma load_bytes_run st n a : range_mapped st a (Z.of_nat n) → ∃ l, vload_bytes n a st = Ok (l, st) ∧ length l = n.
Proof.
  revert a. induction n as [|n IH]; intros a H; [by exists []|].
  rewrite Nat2Z.inj_succ, <-Z.add_1_l in H. destruct (range_next st a (Z.of_nat n) ltac:(lia) H) as (E & Ha & [f Hf] & Hr).
  destruct (IH _ Hr) as (l & El & Hl). eexists. cbn [vload_bytes]. mstep (ubyte_run st a f Ha Hf). rewrite E. mstep El. split; [done|]. cbn. by rewrite Hl.
Qed.

Lemma store_bytes_run l st a : user_ok st → range_mapped st a (Z.of_nat (length l)) → Forall (λ b, 0 ≤ b < 256) l →
  ∃ m', vstore_bytes a l st = Ok (tt, with_pm m' st) ∧ user_ok (with_pm m' st) ∧ (∀ w, managed w → walk m' (mcr3 st) w = walk (pm st) (mcr3 st) w) ∧
    ∀ x, user_addr x → ubyte (with_pm m' st) x = if decide (a ≤ x < a + Z.of_nat (length l)) then Ok (nth (Z.to_nat (x - a)) l 0) else ubyte st x.
Proof.
  revert st a. induction l as [|b l IH]; intros st a H Hr Hl.
  - exists (pm st). split; [by destruct st|]. split; [by destruct st|]. split; [done|]. intros x Hx. cbn [length]. rewrite decide_False by lia. by destruct st.
  - apply Forall_cons in Hl as [Hb Hl]. cbn [length] in Hr. rewrite Nat2Z.inj_succ, <-Z.add_1_l in Hr. destruct (range_next st a (Z.of_nat (length l)) ltac:(lia) Hr) as (E & Ha & [f Hf] & Hr').
    destruct (store8_run st a b f H Ha Hf Hb) as (m1 & E1 & H1 & W1 & U1). set (st1 := with_pm m1 st) in *.
    assert (R1 : range_mapped st1 (a + 1) (Z.of_nat (length l))).
    { destruct Hr' as (? & ? & Hm). split_and!; try done. intros x Hx. unfold mapped_at. cbn. rewrite W1; [by apply Hm|]. apply user_addr_page. unfold user_addr in *. lia. }
    destruct (IH st1 (a + 1) H1 R1 Hl) as (m2 & E2 & H2 & W2 & U2). exists m2. split_and!; try done.
    + cbn [vstore_bytes]. mstep E1. rewrite E. exact E2.
    + intros w Hw. cbn in W2. by rewrite W2, W1.
    + intros x Hx. etransitivity; [exact (U2 x Hx)|]. rewrite (U1 x Hx). cbn [length]. repeat case_decide; try lia; try done.
      * replace (Z.to_nat (x - a)) with (S (Z.to_nat (x - (a + 1)))) by lia. done.
      * subst x. by rewrite Z.sub_diag.
Qed.

End store_lemmas.

(** ** Taking pages *)

(** [st'] is [st] with up to [n] frames taken for user pages; what was mapped
    reads as before. *)
Record grows (n : nat) (st st' : mst) : Prop := {
  gr_ok : user_ok st';
  gr_cr3 : mcr3 st' = mcr3 st;
  gr_self : self st' = self st;
  gr_proc : self_pgdir st' = self_pgdir st;
  gr_bitmap : ∀ v, in_bitmap st v → in_bitmap st' v;
  gr_walk : ∀ v f, user_page v → walk (pm st) (mcr3 st) v = Ok f → walk (pm st') (mcr3 st') v = Ok f;
  gr_bytes : ∀ a, user_addr a → mapped_at st a → ubyte st' a = ubyte st a;
  gr_kfree : (nfree (kernel_pool st) ≤ n + nfree (kernel_pool st'))%nat;
  gr_ufree : (nfree (user_pool st) ≤ n + nfree (user_pool st'))%nat
}.

Lemma grows_refl st : user_ok st → grows 0 st st.
Proof. intros H. by split. Qed.

Lemma grows_mapped n st st' a : grows n st st' → user_addr a → mapped_at st a → mapped_at st' a.
Proof. intros G Ha [f Hf]. exists f. by apply (gr_walk _ _ _ G); [apply user_addr_page|]. Qed.

Lemma grows_trans n m st1 st2 st3 : grows n st1 st2 → grows m st2 st3 → grows (n + m) st1 st3.
Proof.
  intros G1 G2. pose proof G1 as [_ A1 A2 A3 _ _ _ _ _]. pose proof G2 as [C0 C1 C2 C3 _ _ _ _ _]. split; [done|congruence..| | | | |].
  - intros v Hv. by apply (gr_bitmap _ _ _ G2), (gr_bitmap _ _ _ G1).
  - intros v f Hv Hw. by apply (gr_walk _ _ _ G2), (gr_walk _ _ _ G1).
  - intros a Ha Hm. rewrite (gr_bytes _ _ _ G2), (gr_bytes _ _ _ G1); try done. by apply (grows_mapped n st1).
  - pose proof (gr_kfree _ _ _ G1). pose proof (gr_kfree _ _ _ G2). lia.
  - pose proof (gr_ufree _ _ _ G1). pose proof (gr_ufree _ _ _ G2). lia.
Qed.

Section page_lemmas.
Context {B : Build}.
Implicit Types (st : mst).

Lemma walk_cases m c v : walk m c v = Fault ∨ ∃ f, walk m c v = Ok f.
Proof. rewrite walk_alt. destruct (present _); [|by left]. destruct (present _); [right; by eexists|by left]. Qed.

Lemma page_missing_run st v : tables_ok st → user_page v →
  ∃ b, page_missing v st = Ok (b, st) ∧ if b : bool then walk (pm st) (mcr3 st) v = Fault else ∃ f, walk (pm st) (mcr3 st) v = Ok f.
Proof.
  intros HT ((Hv & _) & _). pose proof (t_self _ HT) as Hs. unfold page_missing, mbnd, vload. rewrite walk_pde by done. cbn [rbind fst snd].
  rewrite present_land, walk_alt. fold (pde_at (pm st) (mcr3 st) v). destruct (present (pde_at (pm st) (mcr3 st) v)) eqn:Ep; cbn [negb]; [|by exists true].
  rewrite walk_pte by done. cbn [rbind fst snd]. rewrite present_land. eexists. split; [done|].
  destruct (present (ld (pm st) _)); cbn [negb]; [by eexists|done].
Qed.

(** A page in the tables of the running space leaves the frames of the user
    part alone. *)
Lemma added_data st v m' kp' h f a : tables_ok st → h mod 4096 = 0 → added st v m' kp' h → managed v → data_frame st f → taken st f → f mod 4096 = 0 →
  f ≤ a < f + 4096 → ld m' a = ld (pm st) a.
Proof.
  intros HT Hh [A1 _ _ A4] [Hv Hi] [D1 D2] [K1 K2] Hf Ha. pose proof (sm_align _ _ (t_self _ HT)). apply A4; [intros Hx; apply D1; zsolve|].
  intros Hx. assert (h = f) as -> by zsolve. destruct A1 as [[Ep E]|[Hfr _]]; [|done]. apply (D2 (pdi v) ltac:(lia) Ep). by rewrite E.
Qed.

Lemma added_aligned st v m' kp' h : tables_ok st → added st v m' kp' h → h mod 4096 = 0.
Proof. intros HT [[[_ ->]|[Hf _]] _ _ _]; [apply frame_aligned|]. by destruct (frame_free_range _ _ (t_pool _ HT) Hf). Qed.

Lemma user_map_ext st st' : pm st' = pm st → mcr3 st' = mcr3 st →
  (∀ pf, pool_bitmap (pool_of pf st') = pool_bitmap (pool_of pf st) ∧ phy_addr_start (pool_of pf st') = phy_addr_start (pool_of pf st)) → user_map st → user_map st'.
Proof.
  intros E1 E2 E3 [H1 H2 H3]. destruct (E3 PF_KERNEL) as [K1 K2], (E3 PF_USER) as [U1 U2]. cbn in K1, K2, U1, U2. split.
  - by apply (tables_ok_ext st).
  - intros v f Hv. rewrite E1, E2. intros Hw. destruct (H2 v f Hv Hw) as [Hd Ht]. unfold data_frame, taken, frame_free in *. by rewrite E1, E2, K1, K2, U1, U2.
  - intros v w f Hv Hw. rewrite E1, E2. by apply H3.
Qed.

Lemma user_map_take st g p' : user_map st → pool_take (user_pool st) g p' →
  user_map (with_pool PF_USER p' st) ∧ data_frame (with_pool PF_USER p' st) g ∧ taken (with_pool PF_USER p' st) g ∧
  ∀ v f, user_page v → walk (pm st) (mcr3 st) v = Ok f → f ≠ g.
Proof.
  intros [H1 H2 H3] T. pose proof (shrinks_take _ _ _ T) as Hsh. pose proof (free_data st PF_USER g H1 (pt_was _ _ _ T)) as Hd. split_and!.
  - split; [by apply (tables_shrink PF_USER st p' 1)| |done]. intros v f Hv Hw. destruct (H2 v f Hv Hw) as [? [Hk Hu]]. split; [done|]. split; [done|]. cbn. intros Hx. by apply Hu, (s_free _ _ _ Hsh).
  - done.
  - split; cbn; intros Hx; [by eapply (pools_disjoint st); [exact H1|exact Hx|apply T]|]. apply (pt_free _ _ _ T) in Hx. naive_solver.
  - intros v f Hv Hw ->. destruct (H2 v g Hv Hw) as [_ [_ Hu]]. apply Hu, T.
Qed.

(** Mapping the page [v] to a frame no other page has. *)
Lemma user_map_add st v g : user_map st → user_page v → walk (pm st) (mcr3 st) v = Fault → data_frame st g → taken st g → 0 ≤ g < 4294967296 → g mod 4096 = 0 →
  (∀ w f, user_page w → walk (pm st) (mcr3 st) w = Ok f → f ≠ g) → (0 < nfree (kernel_pool st))%nat →
  ∃ m' kp', page_table_add v g st = Ok (tt, with_pm m' (with_pool PF_KERNEL kp' st)) ∧ shrinks 1 (kernel_pool st) kp' ∧
    let st' := with_pm m' (with_pool PF_KERNEL kp' st) in user_map st' ∧ maps_to st st' v g ∧
    ∀ w f a, user_page w → walk (pm st) (mcr3 st) w = Ok f → f ≤ a < f + 4096 → ld m' a = ld (pm st) a.
Proof.
  intros [H1 H2 H3] Hv Hw Hgd Hgt Hgr Hga Hne Hk.
  destruct (page_table_add_spec st v g H1 (proj1 Hv) Hgr Hga Hw ltac:(done)) as (m' & kp' & E & Hsh & HT & Hmap & Hdat & (h & Had) & _).
  exists m', kp'. split; [done|]. split; [done|]. set (st' := with_pm m' (with_pool PF_KERNEL kp' st)) in *. cbn zeta.
  assert (Ht : ∀ f, taken st f → taken st' f) by (intros f [F1 F2]; split; [intros Hx; by apply F1, (s_free _ _ _ Hsh)|done]).
  assert (Hfr : ∀ w f, user_page w → walk (pm st') (mcr3 st') w = Ok f → w = v ∧ f = g ∨ w ≠ v ∧ walk (pm st) (mcr3 st) w = Ok f).
  { intros w f Hu. rewrite Hmap by apply Hu. destruct Hu as (? & ? & Hwa), Hv as (? & ? & Hva). case_decide as Ex.
    - intros [= <-]. left. split; zsolve.
    - right. split; [by intros ->|done]. }
  split_and!; try done.
  - split; [done| |].
    + intros w f Hu [[-> ->]|[_ Hf]]%Hfr; [|destruct (H2 w f Hu Hf) as [? Hx]; pose proof Hx as [? ?]|done]; split; auto. by apply Hdat; [|apply Hgt].
    + intros w w' f Hu Hu' [[-> ->]|[_ Hf]]%Hfr [[-> Ef]|[_ Hf']]%Hfr; try done; [by destruct (Hne w' g Hu' Hf')|by destruct (Hne w f Hu Hf)|by apply (H3 w w' f)].
  - intros w f a Hu Hf Ha. destruct (H2 w f Hu Hf) as [Hd Hx]. refine (added_data st v m' kp' h f a H1 (added_aligned _ _ _ _ _ H1 Had) Had (proj1 Hv) Hd Hx _ Ha). by eapply walk_frame; [apply Hu|].
Qed.

Lemma get_a_page_run st v : user_ok st → user_page v → walk (pm st) (mcr3 st) v = Fault → in_bitmap st v →
  (0 < nfree (kernel_pool st))%nat → (0 < nfree (user_pool st))%nat →
  ∃ st', get_a_page PF_USER v st = Ok (v, st') ∧ grows 1 st st' ∧ ∃ g, walk (pm st') (mcr3 st') v = Ok g.
Proof.
  intros H Hv Hw Hin Hk Hu. pose proof H as [HM Hl Hs Hp [Hst Hsa] Hb]. set (V := userprog_vaddr st) in *.
  set (idx := (v - vaddr_start V) / 4096). assert (Hidx : 0 ≤ idx < bit_cnt (vaddr_bitmap V)) by (unfold in_bitmap in Hin; fold V in Hin; unfold idx; zsolve).
  assert (Hix : s32 (u32 (v - vaddr_start V) / PG_SIZE) = idx).
  { unfold in_bitmap in Hin. fold V in Hin. destruct Hv as ((Hvr & _) & _). pose proof (bok_len _ Hb). unfold bit_cnt in *. rewrite u32_small by lia. fold idx. apply s32_small. lia. }
  destruct (bitmap_set_spec (vaddr_bitmap V) idx 1 Hb ltac:(lia)) as (b' & Eb & Hb' & Hlen & _ & _); [destruct Hb; unfold bit_cnt in Hidx; zsolve|by right|].
  set (sA := relocked PF_USER (Lock (self st) 1) st). set (sB := with_vaddr PF_USER (VAddr b' (vaddr_start V)) sA).
  assert (MB : user_map sB) by (by apply (user_map_ext st); [..|intros []|]).
  destruct (palloc_spec sB PF_USER (t_upool _ (uo_tables _ MB)) Hu) as (g & p' & Ep & T).
  destruct (user_map_take sB g p' MB T) as (MC & Hgd & Hgt & Hne). set (sC := with_pool PF_USER p' sB) in *.
  destruct (frame_free_range _ _ (t_upool _ (uo_tables _ MB)) (pt_was _ _ _ T)) as [Hgr Hga].
  destruct (user_map_add sC v g MC Hv Hw Hgd Hgt ltac:(lia) Hga Hne Hk) as (m' & kp' & Ea & Hsh & MD & Hmap & Hdat). set (sD := with_pm m' (with_pool PF_KERNEL kp' sC)) in *.
  set (sE := relocked PF_USER (Lock 0 0) sD). assert (ME : user_map sE) by (by apply (user_map_ext sD); [..|intros []|]).
  assert (Hold : ∀ w f, user_page w → walk (pm st) (mcr3 st) w = Ok f → walk (pm sE) (mcr3 sE) w = Ok f).
  { intros w f Hw' Ef. transitivity (walk (pm sD) (mcr3 sD) w); [done|]. rewrite Hmap, decide_False by (apply Hw' || (intros Ex; destruct Hw' as (_ & _ & ?), Hv as (_ & _ & ?); assert (w = v) by zsolve; congruence)). done. }
  exists sE. split_and!.
  - unfold get_a_page. mstep (lock_pool_run PF_USER st Hl Hs). fold sA. do 2 rewrite (mbnd_Ok _ _ _ _ _ eq_refl).
    change (vaddr_of PF_USER sA) with V. rewrite Hix. change (self_pgdir sA) with (self_pgdir st). change KList.NULL with 0.
    rewrite (proj2 (Z.eqb_neq (self_pgdir st) 0)) by done. cbn [negb andb]. rewrite bool_decide_eq_true_2 by done.
    unfold massert. rewrite (mbnd_Ok _ _ _ tt sB).
    2: { mstep (mlift_Ok _ sA _ (ASSERT_true (0 <=? idx) ltac:(apply Z.leb_le; lia))). rewrite u32_small by (pose proof (bok_len _ Hb); unfold bit_cnt in *; lia). by mstep (mlift_Ok _ sA _ Eb). }
    unfold back_page. mstep Ep. change KList.NULL with 0. rewrite (proj2 (Z.eqb_neq g 0)) by lia. mstep Ea.
    mstep (unlock_pool_run PF_USER sD ltac:(exact (pt_lock _ _ _ T))). done.
  - split; [|done..| |exact Hold| | |].
    + split; [exact ME|done|exact Hs|exact Hp|exact (conj Hst Hsa)|exact Hb'].
    + intros w. unfold in_bitmap, bit_cnt. change (userprog_vaddr sE) with (VAddr b' (vaddr_start V)). cbn. rewrite Hlen. done.
    + intros a Ha [f Hf]. pose proof (user_addr_page a Ha) as Hpa. rewrite !ubyte_alt by done. rewrite Hf, (Hold _ _ Hpa Hf). cbn [rbind].
      change (pm sE) with m'. rewrite (Hdat _ f _ Hpa Hf); [done|]. zsolve.
    + pose proof (s_nfree _ _ _ Hsh). done.
    + pose proof (pt_nfree _ _ _ T) as E. change (nfree (user_pool st) = S (nfree (user_pool sE))) in E. lia.
  - exists (g + v mod 4096). transitivity (walk (pm sD) (mcr3 sD) v); [done|]. by rewrite Hmap, decide_True by (done || apply Hv).
Qed.

Lemma segment_pages_run n st v : user_ok st → 4194304 ≤ v → v mod 4096 = 0 → v + 4096 * Z.of_nat n ≤ 3221225472 →
  (∀ x, v ≤ x < v + 4096 * Z.of_nat n → in_bitmap st x) → (n ≤ nfree (kernel_pool st))%nat → (n ≤ nfree (user_pool st))%nat →
  ∃ st', segment_pages n v st = Ok (true, st') ∧ grows n st st' ∧ ∀ x, v ≤ x < v + 4096 * Z.of_nat n → mapped_at st' x.
Proof.
  revert st v. induction n as [|n IH]; intros st v H Hv Ha Hend Hin Hk Hu.
  - exists st. split; [done|]. split; [by apply grows_refl|lia].
  - assert (Hp : user_page v) by (unfold user_page, managed, pdi; split_and!; zsolve).
    assert (S1 : ∃ r st1, (let! b := page_missing v in if b then get_a_page PF_USER v else mok 1) st = Ok (r, st1) ∧ r ≠ 0 ∧ grows 1 st st1 ∧ ∃ g, walk (pm st1) (mcr3 st1) v = Ok g).
    { destruct (page_missing_run st v (uo_tables _ H) Hp) as ([] & E & Hw).
      - destruct (get_a_page_run st v H Hp Hw (Hin v ltac:(lia)) ltac:(lia) ltac:(lia)) as (st1 & E1 & G1 & W1). exists v, st1. mstep E. split_and!; [done|lia|done|done].
      - exists 1, st. mstep E. destruct Hw as [f Hf]. split; [done|]. split; [done|]. split; [|by exists f]. apply (grows_trans 1 0 st st st); [|by apply grows_refl].
        pose proof (grows_refl st H) as []. split; try done; lia. }
    destruct S1 as (r & st1 & E1 & Hr & G1 & g & W1).
    destruct (IH st1 (v + 4096)) as (st' & E2 & G2 & M2); [apply G1|lia|zsolve|lia| | | |].
    + intros x Hx. apply (gr_bitmap _ _ _ G1), Hin. lia.
    + pose proof (gr_kfree _ _ _ G1). lia.
    + pose proof (gr_ufree _ _ _ G1). lia.
    + exists st'. split_and!.
      * cbn [segment_pages]. revert E1. unfold mbnd. destruct (page_missing v st) as [[b s0]| | | |]; cbn [rbind fst snd]; try done.
        intros ->. cbn [rbind fst snd]. rewrite (proj2 (Z.eqb_neq r _)) by done. rewrite u32_small by (unfold PG_SIZE; lia). exact E2.
      * exact (grows_trans 1 n _ _ _ G1 G2).
      * intros x Hx. destruct (decide (v + 4096 ≤ x)); [apply M2; lia|]. apply (grows_mapped n st1); [done|unfold user_addr; lia|].
        exists g. by replace (x - x mod 4096) with v by zsolve.
Qed.

(** ** The pages of a segment *)

(** [occupy_pages] counts the pages from the one of [vaddr] to the one of the
    last byte. *)
Lemma occupy_pages_exact filesz vaddr : 0 < filesz → 0 ≤ vaddr → vaddr + filesz ≤ 3221225472 →
  occupy_pages filesz vaddr = (vaddr + filesz - 1) / 4096 - vaddr / 4096 + 1.
Proof.
  intros Hf Hv He. unfold occupy_pages, DIV_ROUND_UP. change 4095 with (Z.ones 12). rewrite Z.land_ones by lia. change (2 ^ 12) with 4096. unfold PG_SIZE.
  case (Z.ltb_spec (4096 - vaddr mod 4096) filesz); intros; [rewrite u32_small by zsolve|]; zsolve.
Qed.

Lemma page_floor vaddr : 0 ≤ vaddr < 4294967296 → Z.land vaddr 4294963200 = vaddr - vaddr mod 4096.
Proof.
  intros Hv. change 4294963200 with (Z.shiftl (Z.ones 20) 12).
  assert (E : vaddr = Z.land vaddr (Z.ones 32)) by (rewrite Z.land_ones by lia; symmetry; by apply Z.mod_small).
  replace (vaddr - vaddr mod 4096) with (Z.shiftl (Z.shiftr vaddr 12) 12).
  2: { rewrite Z.shiftl_mul_pow2, Z.shiftr_div_pow2 by lia. change (2 ^ 12) with 4096. zsolve. }
  rewrite E at 2. apply Z.bits_inj'. intros n Hn. rewrite Z.land_spec, !Z.shiftl_spec by lia. destruct (decide (n < 12)).
  - rewrite !(Z.testbit_neg_r _ (n - 12)) by lia. by rewrite andb_false_r.
  - rewrite Z.shiftr_spec, Z.land_spec by lia. rewrite !Z.testbit_ones by lia. replace (n - 12 + 12) with n by lia. f_equal.
    destruct (Z.leb_spec 0 (n - 12)), (Z.ltb_spec (n - 12) 20), (Z.leb_spec 0 n), (Z.ltb_spec n 32); lia || done.
Qed.

End page_lemmas.

(** ** The image a file describes *)

(** The program headers of a file. *)
Fixpoint phdrs (n : nat) (off : Z) (l : list Z) : list Elf32_Phdr :=
  match n with
  | O => []
  | S n' => phdr_of (take 32 (drop (Z.to_nat off) l)) :: phdrs n' (off + 32) l
  end.

Definition covers (x : Z) (ph : Elf32_Phdr) : bool := (PT_LOAD =? p_type ph) && (p_vaddr_ ph <=? x) && (x <? p_vaddr_ ph + p_filesz ph).

(** The byte at [x] when the segments are laid over an image, one after the other. *)
Fixpoint laid_over (segs : list Elf32_Phdr) (l : list Z) (x : Z) (old : res Z) : res Z :=
  match segs with
  | [] => old
  | ph :: segs' => laid_over segs' l x (if covers x ph then Ok (nth (Z.to_nat (p_offset ph + (x - p_vaddr_ ph))) l 0) else old)
  end.

(** The most pages that loading the segments can take. *)
Definition pages_wanted (segs : list Elf32_Phdr) : nat :=
  sum_list ((λ ph, if PT_LOAD =? p_type ph then Z.to_nat (occupy_pages (p_filesz ph) (p_vaddr_ ph)) else O) <$> segs).

(** ** A file and a memory in one state *)

(** The running thread [p] has left the file system as [f] and the memory as [st]. *)
Definition ex_state (p : pcb) (f : fs) (st : mst) (s : sys) : sys := put_fs (set_p_vaddr (userprog_vaddr st) p) f (set_space st s).

Record agrees (st : mst) (s : sys) (k : task) : Prop := {
  ag_task : tasks (ker s) !! cur (ker s) = Some k;
  ag_cr3 : mcr3 st = cr3 (ker s);
  ag_self : self st = cur (ker s);
  ag_pgdir : self_pgdir st = pgdir k
}.

(** Descriptor [fd] of the table [T] stands at [pos] in a regular file of bytes [l]. *)
Record reads (T : list Z) (f : fs) (fd pos : Z) (l : list Z) : Prop := {
  rs_fds : fd_table f = T;
  rs_layout : layout f;
  rs_open : ∃ g x i, fd_open f fd g x ∧ fd_flag x ≠ PIPE_FLAG ∧ fd_pos x = pos ∧ inodes f !! fd_inode x = Some i ∧ file_ok f i ∧
    File.content (drive f) i = l ∧ i_size i < 71168;
  rs_bytes : Forall (λ b, 0 ≤ b < 256) l;
  rs_heap : oom f = [] ∧ 0 < brk f
}.

Section exec_lemmas.
Context {B : Build} (T : list Z).
Implicit Types (st : mst) (s : sys) (f : fs) (l : list Z).

Lemma on_mem_ex {A} (m : M mst A) p f st s k a st' : agrees st s k → m st = Ok (a, st') → on_mem m (ex_state p f st s) = Ok (a, ex_state p f st' s).
Proof.
  intros [Hk H1 H2 H3] E. unfold ex_state. erewrite on_mem_run; [|exact Hk|apply put_fs_pcb|].
  2: { etransitivity; [|exact E]. f_equal. destruct st. cbn in *. unfold mem_view. cbn. congruence. }
  unfold put_fs. cbn. by rewrite insert_insert_eq.
Qed.

Lemma reads_size f fd pos l i : reads T f fd pos l → file_ok f i → File.content (drive f) i = l → Z.of_nat (length l) = i_size i.
Proof.
  intros H Hok <-. rewrite (content_size f i (rs_layout _ _ _ _ _ H) (or_introl Hok)). destruct Hok as [(_ & [? _] & _) _ _ _ _ _]. lia.
Qed.

Lemma reads_seek p f s fd pos l off : reads T f fd pos l → 0 ≤ off < Z.of_nat (length l) →
  ∃ f', sys_lseek fd off SEEK_SET (put_fs p f s) = Ok (off, put_fs p f' s) ∧ reads T f' fd off l.
Proof.
  intros H Ho. pose proof H as [HT Hl (g & x & i & Hfd & Hp & Hpos & Hi & Hok & Hc & Hsz) Hb Hh]. pose proof (reads_size f fd pos l i H Hok Hc) as Hlen.
  set (x' := File off (fd_flag x) (fd_inode x)). exists (with_slot g x' f). split.
  - rewrite (sys_lseek_run p f s fd g x i off SEEK_SET Hfd Hi) by (unfold SEEK_SET; lia). unfold lseek_pos. rewrite Z.eqb_refl, (proj2 (Z.leb_le _ _)), (proj2 (Z.ltb_lt _ _)) by lia. done.
  - destruct Hfd as [F1 F2 F3 F4]. pose proof (lookup_lt_Some _ _ _ F4). split; try done; [by destruct Hl|]. exists g, x', i. split_and!; try done.
    + split; try done. cbn. apply list_lookup_insert_eq. lia.
    + by destruct Hok.
Qed.

Lemma reads_read p f s fd pos l buf n : reads T f fd pos l → 0 ≤ pos < Z.of_nat (length l) → 0 ≤ n → pos + n ≤ Z.of_nat (length l) → n ≤ Z.of_nat (length buf) →
  ∃ f', sys_read fd (Some buf) n (put_fs p f s) = Ok ((n, take (Z.to_nat n) (drop (Z.to_nat pos) l) ++ drop (Z.to_nat n) buf), put_fs p f' s) ∧ reads T f' fd (pos + n) l.
Proof.
  intros H Hpos Hn Hend Hbuf. pose proof H as [HT Hl (g & x & i & Hfd & Hp & <- & Hi & Hok & Hc & Hsz) Hb [Ho Hbr]]. pose proof (reads_size f fd _ l i H Hok Hc) as Hlen.
  pose proof (file_read_run g x i f buf n Hl (proj1 (fo_slot _ _ _ _ Hfd)) (fo_file _ _ _ _ Hfd) Hi Hok) as R. cbv zeta in R.
  replace (Z.min n (i_size i - fd_pos x)) with n in R by lia. specialize (R ltac:(lia) ltac:(lia) Ho Hbr Hbuf ltac:(lia)).
  rewrite (proj2 (Z.eqb_neq (fd_pos x) (i_size i))) in R by lia. cbn [andb] in R. rewrite Hc in R. eexists. split; [exact (sys_read_file p f s fd g x buf n _ _ Hfd Hp R)|].
  destruct Hfd as [F1 F2 F3 F4]. pose proof (lookup_lt_Some _ _ _ F4). split; [done|by destruct Hl| |done|split; [done|cbn; lia]].
  exists g, (File (fd_pos x + n) (fd_flag x) (fd_inode x)), i. split_and!; try done.
  - split; try done. cbn. apply list_lookup_insert_eq. lia.
  - by destruct Hok.
Qed.

(** Loading bytes over an image whose pages are there. *)
Lemma agrees_grows n st st' s k : agrees st s k → grows n st st' → agrees st' s k.
Proof. intros [A1 A2 A3 A4] G. split; [done|..]; [rewrite (gr_cr3 _ _ _ G)|rewrite (gr_self _ _ _ G)|rewrite (gr_proc _ _ _ G)]; done. Qed.

Lemma read_user_run p f st s k fd pos l vaddr n : agrees st s k → user_ok st → reads T f fd pos l → 0 ≤ pos < Z.of_nat (length l) → 0 ≤ n → pos + n ≤ Z.of_nat (length l) →
  range_mapped st vaddr n →
  ∃ f' m', read_user fd vaddr n (ex_state p f st s) = Ok (n, ex_state p f' (with_pm m' st) s) ∧ reads T f' fd (pos + n) l ∧ user_ok (with_pm m' st) ∧
    (∀ w, managed w → walk m' (mcr3 st) w = walk (pm st) (mcr3 st) w) ∧
    ∀ x, user_addr x → ubyte (with_pm m' st) x = if decide (vaddr ≤ x < vaddr + n) then Ok (nth (Z.to_nat (pos + (x - vaddr))) l 0) else ubyte st x.
Proof.
  intros Ha H Hr Hpos Hn Hend Hm. destruct (load_bytes_run st (Z.to_nat n) vaddr) as (old & E1 & Hold); [by rewrite Z2Nat.id|].
  set (p' := set_p_vaddr (userprog_vaddr st) p). destruct (reads_read p' f (set_space st s) fd pos l old n Hr Hpos Hn Hend ltac:(lia)) as (f' & E2 & R2).
  rewrite (drop_ge old), app_nil_r in E2 by lia. set (new := take (Z.to_nat n) (drop (Z.to_nat pos) l)) in *.
  assert (Hlen : length new = Z.to_nat n) by (unfold new; rewrite length_take, length_drop; lia).
  destruct (store_bytes_run new st vaddr H) as (m' & E3 & H3 & W3 & U3); [by rewrite Hlen, Z2Nat.id| |].
  { apply Forall_take, Forall_drop, Hr. }
  exists f', m'. split_and!; try done.
  - unfold read_user. mstep (on_mem_ex _ p f st s k _ _ Ha E1). rewrite (proj2 (Z.eqb_neq vaddr _)) by (destruct Hm; unfold NULL; lia).
    mstep E2. cbn [fst snd]. change (put_fs p' f' (set_space st s)) with (ex_state p f' st s). by mstep (on_mem_ex _ p f' st s k _ _ Ha E3).
  - intros x Hx. rewrite U3, Hlen, Z2Nat.id by done. case_decide; [|done]. f_equal. unfold new. rewrite nth_firstn, (proj2 (Nat.ltb_lt _ _)) by lia. rewrite nth_skipn. f_equal. lia.
Qed.

(** The segment at [off] of the file fits the process. *)
Record seg_fits st l (off filesz vaddr : Z) : Prop := {
  sf_size : 0 < filesz;
  sf_file : 0 ≤ off ∧ off + filesz ≤ Z.of_nat (length l);
  sf_addr : 4194304 ≤ vaddr ∧ vaddr + filesz ≤ 3221225472;
  sf_bits : ∀ x, vaddr - vaddr mod 4096 ≤ x < vaddr + filesz → in_bitmap st x
}.

(** What [segment_load] does to the memory: the bytes of the file lie at
    [vaddr], everything else that was mapped is as before. *)
Record seg_loaded (n : nat) st st' l (off filesz vaddr : Z) : Prop := {
  sl_ok : user_ok st';
  sl_env : mcr3 st' = mcr3 st ∧ self st' = self st ∧ self_pgdir st' = self_pgdir st;
  sl_bitmap : ∀ v, in_bitmap st v → in_bitmap st' v;
  sl_bytes : ∀ x, vaddr ≤ x < vaddr + filesz → mapped_at st' x ∧ ubyte st' x = Ok (nth (Z.to_nat (off + (x - vaddr))) l 0);
  sl_others : ∀ x, user_addr x → mapped_at st x → mapped_at st' x ∧ (¬ vaddr ≤ x < vaddr + filesz → ubyte st' x = ubyte st x);
  sl_kfree : (nfree (kernel_pool st) ≤ n + nfree (kernel_pool st'))%nat;
  sl_ufree : (nfree (user_pool st) ≤ n + nfree (user_pool st'))%nat
}.

Lemma in_bitmap_page st x y : user_ok st → x / 4096 = y / 4096 → in_bitmap st x → in_bitmap st y.
Proof. intros H E. unfold in_bitmap. pose proof (uo_start _ H). zsolve. Qed.

Lemma segment_load_run p f st s k fd pos l off filesz vaddr : agrees st s k → user_ok st → reads T f fd pos l → seg_fits st l off filesz vaddr →
  let n := Z.to_nat (occupy_pages filesz vaddr) in (n ≤ nfree (kernel_pool st))%nat → (n ≤ nfree (user_pool st))%nat →
  ∃ f' st', segment_load fd off filesz vaddr (ex_state p f st s) = Ok (true, ex_state p f' st' s) ∧ reads T f' fd (off + filesz) l ∧ seg_loaded n st st' l off filesz vaddr.
Proof.
  intros Ha H Hr [S1 [S2 S3] [S4 S5] S6] n Hk Hu. pose proof (occupy_pages_exact filesz vaddr ltac:(lia) ltac:(lia) ltac:(lia)) as En.
  set (v := vaddr - vaddr mod 4096). assert (Hn : v + 4096 * Z.of_nat n = (vaddr + filesz - 1) / 4096 * 4096 + 4096) by (unfold n; rewrite En; unfold v; zsolve).
  destruct (segment_pages_run n st v H ltac:(unfold v; zsolve) ltac:(unfold v; zsolve) ltac:(rewrite Hn; zsolve)) as (st1 & E1 & G1 & M1); [|done|done|].
  { intros x Hx. rewrite Hn in Hx. destruct (decide (x < vaddr + filesz)); [apply S6; fold v; lia|]. apply (in_bitmap_page st (vaddr + filesz - 1)); [done|zsolve|]. apply S6. zsolve. }
  assert (R1 : range_mapped st1 vaddr filesz) by (split_and!; [lia|lia|]; intros x Hx; apply M1; rewrite Hn; unfold v; zsolve).
  set (p1 := set_p_vaddr (userprog_vaddr st1) p). destruct (reads_seek p1 f (set_space st1 s) fd pos l off Hr ltac:(lia)) as (f1 & E2 & R2).
  destruct (read_user_run p f1 st1 s k fd off l vaddr filesz (agrees_grows _ _ _ _ _ Ha G1) (gr_ok _ _ _ G1) R2 ltac:(lia) ltac:(lia) ltac:(lia) R1) as (f2 & m2 & E3 & R3 & H3 & W3 & U3).
  pose proof R2 as [_ _ (g & x0 & i & _ & _ & _ & _ & Hok & Hc & Hsz) _ _]. pose proof (reads_size f1 fd off l i R2 Hok Hc) as Hlen.
  assert (Hmap : ∀ x, user_addr x → mapped_at st1 x → mapped_at (with_pm m2 st1) x) by (intros x Hx; unfold mapped_at; cbn; by rewrite W3 by apply user_addr_page, Hx).
  exists f2, (with_pm m2 st1). split_and!; [|done|split; try done].
  - unfold segment_load. fold n. rewrite page_floor by lia. fold v. mstep (on_mem_ex _ p f st s k _ _ Ha E1). cbn [negb]. rewrite s32_small by lia. unfold ex_state at 1. fold p1. mstep E2.
    change (put_fs p1 f1 (set_space st1 s)) with (ex_state p f1 st1 s). by mstep E3.
  - by destruct G1.
  - intros w Hw. by apply (gr_bitmap _ _ _ G1).
  - intros x Hx. split; [apply Hmap; [unfold user_addr; lia|by apply R1]|]. by rewrite U3, decide_True by (unfold user_addr; lia).
  - intros x Hx Hm. split; [by apply Hmap, (grows_mapped n st)|]. intros Hout. rewrite U3, decide_False by done. by apply (gr_bytes _ _ _ G1).
  - apply G1.
  - apply G1.
Qed.

Definition segs_fit st l (segs : list Elf32_Phdr) : Prop :=
  Forall (λ ph, PT_LOAD = p_type ph → seg_fits st l (p_offset ph) (p_filesz ph) (p_vaddr_ ph)) segs.

(** What the loop over the headers does to the memory. *)
Record img_loaded st st' l (segs : list Elf32_Phdr) : Prop := {
  il_ok : user_ok st';
  il_env : mcr3 st' = mcr3 st ∧ self st' = self st ∧ self_pgdir st' = self_pgdir st;
  il_bytes : ∀ x, user_addr x → mapped_at st x ∨ existsb (covers x) segs = true → mapped_at st' x ∧ ubyte st' x = laid_over segs l x (ubyte st x)
}.

Lemma segs_fit_mono st st' l segs : (∀ v, in_bitmap st v → in_bitmap st' v) → segs_fit st l segs → segs_fit st' l segs.
Proof. intros Hb H. eapply Forall_impl; [exact H|]. cbn. intros ph Hf Hp. destruct (Hf Hp). split; auto. Qed.

Lemma laid_over_covered segs l x a b : existsb (covers x) segs = true → laid_over segs l x a = laid_over segs l x b.
Proof.
  revert a b. induction segs as [|ph segs IH]; intros a b H; [done|]. cbn [existsb laid_over] in *. destruct (covers x ph); [done|]. by apply IH.
Qed.

Lemma img_loaded_cons n st st1 st' l ph segs : PT_LOAD = p_type ph → seg_loaded n st st1 l (p_offset ph) (p_filesz ph) (p_vaddr_ ph) → img_loaded st1 st' l segs → img_loaded st st' l (ph :: segs).
Proof.
  intros Hp S I. destruct (sl_env _ _ _ _ _ _ _ S) as (E1 & E2 & E3). destruct I as [I1 (I2 & I3 & I4) I5]. split; [done|split_and!; congruence|].
  intros x Hx Hm. cbn [laid_over existsb] in *.
  assert (C : covers x ph = true ∧ p_vaddr_ ph ≤ x < p_vaddr_ ph + p_filesz ph ∨ covers x ph = false ∧ ¬ p_vaddr_ ph ≤ x < p_vaddr_ ph + p_filesz ph).
  { unfold covers. rewrite <-Hp, Z.eqb_refl. cbn [andb]. destruct (Z.leb_spec (p_vaddr_ ph) x), (Z.ltb_spec x (p_vaddr_ ph + p_filesz ph)); cbn [andb]; [by left|right; split; [done|lia]..]. }
  destruct C as [[-> Hin]|[Ec Hout]].
  - destruct (sl_bytes _ _ _ _ _ _ _ S x Hin) as [M <-]. apply I5; [done|by left].
  - rewrite Ec in *. cbn [orb] in Hm. destruct (existsb (covers x) segs) eqn:Es.
    + rewrite (laid_over_covered segs l x (ubyte st x) (ubyte st1 x)) by done. apply I5; [done|by right].
    + destruct Hm as [Hm|]; [|done]. destruct (sl_others _ _ _ _ _ _ _ S x Hx Hm) as [M <-]; [|done]. apply I5; [done|by left].
Qed.

Lemma img_loaded_skip st st' l ph segs : PT_LOAD ≠ p_type ph → img_loaded st st' l segs → img_loaded st st' l (ph :: segs).
Proof.
  intros Hp [I1 I2 I5]. assert (Ec : ∀ x, covers x ph = false) by (intros x; unfold covers; by rewrite (proj2 (Z.eqb_neq _ _))).
  split; [done..|]. intros x Hx. cbn [laid_over existsb]. rewrite Ec. by apply I5.
Qed.

Lemma pages_wanted_cons ph segs : pages_wanted (ph :: segs) = ((if (PT_LOAD =? p_type ph)%Z then Z.to_nat (occupy_pages (p_filesz ph) (p_vaddr_ ph)) else O) + pages_wanted segs)%nat.
Proof. done. Qed.

Lemma load_segments_run n p f st s k fd pos l off h : agrees st s k → user_ok st → reads T f fd pos l → e_phentsize h = 32 → 0 ≤ off → off + 32 * Z.of_nat n ≤ Z.of_nat (length l) →
  segs_fit st l (phdrs n off l) → (pages_wanted (phdrs n off l) ≤ nfree (kernel_pool st))%nat → (pages_wanted (phdrs n off l) ≤ nfree (user_pool st))%nat →
  ∃ f' st', load_segments n fd off h (ex_state p f st s) = Ok (true, ex_state p f' st' s) ∧ (∃ pos', reads T f' fd pos' l) ∧ img_loaded st st' l (phdrs n off l).
Proof.
  revert f st pos off. induction n as [|n IH]; intros f st pos off Ha H Hr Hh Ho Hend Hfit Hk Hu.
  - exists f, st. split; [done|]. split; [by exists pos|]. split; [done..|]. intros x Hx [Hm|Hm]; done.
  - cbn [phdrs] in *. set (ph := phdr_of (take 32 (drop (Z.to_nat off) l))) in *. apply Forall_cons in Hfit as [Hf1 Hfit].
    rewrite pages_wanted_cons in Hk, Hu.
    set (p1 := set_p_vaddr (userprog_vaddr st) p). destruct (reads_seek p1 f (set_space st s) fd pos l off Hr ltac:(lia)) as (f1 & E1 & R1).
    pose proof R1 as [_ _ (g & x0 & i & _ & _ & _ & _ & Hok & Hc & Hsz) _ _]. pose proof (reads_size f1 fd off l i R1 Hok Hc) as Hlen.
    destruct (reads_read p1 f1 (set_space st s) fd off l (replicate 32 0) 32 R1 ltac:(lia) ltac:(lia) ltac:(lia) ltac:(rewrite length_replicate; lia)) as (f2 & E2 & R2).
    change (drop (Z.to_nat 32) (replicate 32 0)) with (@nil Z) in E2. rewrite app_nil_r in E2. change (Z.to_nat 32) with 32%nat in E2.
    assert (E0 : load_segments (S n) fd off h (ex_state p f st s) =
      (let! b := (if PT_LOAD =? p_type ph then segment_load fd (p_offset ph) (p_filesz ph) (p_vaddr_ ph) else mok true) in
       if negb b then mok false else load_segments n fd (off + 32) h) (ex_state p f2 st s)).
    { cbn [load_segments]. rewrite s32_small by lia. unfold ex_state at 1. fold p1. mstep E1. rewrite Hh. mstep E2. cbn [fst snd]. rewrite Z.eqb_refl. cbn [negb]. rewrite u32_small by lia. done. }
    rewrite E0. destruct (Z.eqb_spec PT_LOAD (p_type ph)) as [Hp|Hp].
    + destruct (segment_load_run p f2 st s k fd (off + 32) l (p_offset ph) (p_filesz ph) (p_vaddr_ ph) Ha H R2 (Hf1 Hp) ltac:(lia) ltac:(lia)) as (f3 & st3 & E3 & R3 & S3).
      pose proof (sl_kfree _ _ _ _ _ _ _ S3). pose proof (sl_ufree _ _ _ _ _ _ _ S3). destruct (sl_env _ _ _ _ _ _ _ S3) as (V1 & V2 & V3).
      destruct (IH f3 st3 _ (off + 32) ltac:(destruct Ha; split; congruence) (sl_ok _ _ _ _ _ _ _ S3) R3 Hh ltac:(lia) ltac:(lia) (segs_fit_mono _ _ _ _ (sl_bitmap _ _ _ _ _ _ _ S3) Hfit) ltac:(lia) ltac:(lia)) as (f' & st' & E & R & I).
      exists f', st'. split; [by mstep E3|]. split; [done|]. by eapply img_loaded_cons.
    + destruct (IH f2 st _ (off + 32) Ha H R2 Hh ltac:(lia) ltac:(lia) Hfit Hk Hu) as (f' & st' & E & R & I).
      exists f', st'. split; [by rewrite (mbnd_Ok _ _ _ _ _ eq_refl)|]. split; [done|]. by apply img_loaded_skip.
Qed.

Lemma inode_close_total q i f : inodes f !! q = Some i → ∃ f', inode_close q f = Ok (tt, f') ∧ file_table f' = file_table f ∧ fd_table f' = fd_table f.
Proof.
  intros Hi. unfold inode_close. mstep (inode_at_run q i f Hi). rewrite (mbnd_Ok _ _ _ _ _ eq_refl). destruct (u32 (i_open_cnts i - 1) =? 0); by eexists.
Qed.

Lemma reads_close p f s fd pos l : reads T f fd pos l → ∃ f', sys_close fd (put_fs p f s) = Ok (0, put_fs p f' s) ∧ fd_table f' = <[Z.to_nat fd := -1]> (fd_table f).
Proof.
  intros [_ _ (g & x & i & Hfd & Hp & _ & Hi & _) _ _]. pose proof Hfd as [F1 F2 F3 F4].
  set (f1 := set_inodes (<[fd_inode x := set_write_deny false i]> (inodes f)) f).
  destruct (inode_close_total (fd_inode x) (set_write_deny false i) f1 ltac:(cbn; by rewrite lookup_insert_eq)) as (f2 & E2 & T2 & D2).
  set (f3 := with_slot g (File (fd_pos x) (fd_flag x) NULL) f2).
  assert (E3 : file_close (Some g) f = Ok (0, f3)).
  { unfold file_close. mstep (file_at_run g x f (proj1 F2) F4). mstep (inode_at_run (fd_inode x) i f Hi). mstep (eq_refl : put_inode (fd_inode x) (set_write_deny false i) f = Ok (tt, f1)).
    mstep E2. by mstep (put_file_run g x (File (fd_pos x) (fd_flag x) NULL) f2 (proj1 F2) ltac:(rewrite T2; exact F4)). }
  assert (E4 : (let! t := mget fd_table in let! t := mlift (wr t fd (-1)) in mmod (set_fd_table t)) f3 = Ok (tt, set_fd_table (<[Z.to_nat fd := -1]> (fd_table f3)) f3)).
  { apply (wr_table_run f3 fd g (File (fd_pos x) (fd_flag x) NULL)). pose proof (lookup_lt_Some _ _ _ F4). split; [done|done|cbn; rewrite D2; exact F3|cbn; rewrite T2]. apply list_lookup_insert_eq. done. }
  exists (set_fd_table (<[Z.to_nat fd := -1]> (fd_table f3)) f3). split; [|cbn; by rewrite D2]. unfold sys_close. rewrite (proj2 (Z.ltb_lt _ _)) by lia.
  mstep (on_fs_put _ p f s _ _ (local2global_run f fd g x Hfd)). mstep (on_fs_put _ p f s _ _ (is_pipe_run f fd g x Hfd)). rewrite (proj2 (Z.eqb_neq _ _)) by done.
  mstep (on_fs_put _ p f s _ _ E3). by mstep (on_fs_put _ p f3 s _ _ E4).
Qed.

(** *** A program file *)

Lemma byte_nth l k : Forall (λ b, 0 ≤ b < 256) l → 0 ≤ nth k l 0 < 256.
Proof. intros H. destruct (nth_in_or_default k l 0) as [Hi| ->]; [|lia]. rewrite Forall_forall in H. apply H. by apply list_elem_of_In. Qed.

Lemma at16_range l k : Forall (λ b, 0 ≤ b < 256) l → 0 ≤ at16 l k < 65536.
Proof. intros H. unfold at16. pose proof (byte_nth l k H). pose proof (byte_nth l (k + 1) H). lia. Qed.
Lemma at32_range l k : Forall (λ b, 0 ≤ b < 256) l → 0 ≤ at32 l k < 4294967296.
Proof. intros H. unfold at32, of_le32. pose proof (byte_nth l k H). pose proof (byte_nth l (k + 1) H). pose proof (byte_nth l (k + 2) H). pose proof (byte_nth l (k + 3) H). lia. Qed.

Definition elf_header l : Elf32_Ehdr := ehdr_of (take 52 l).
Definition elf_segments l : list Elf32_Phdr := phdrs (Z.to_nat (e_phnum (elf_header l))) (e_phoff (elf_header l)) l.

(** A header the code accepts, with its table of program headers inside the file. *)
Record elf_file l : Prop := {
  ef_len : 52 ≤ Z.of_nat (length l);
  ef_good : bad_header (elf_header l) = Ok false;
  ef_table : e_phoff (elf_header l) + 32 * e_phnum (elf_header l) ≤ Z.of_nat (length l)
}.

Lemma good_header h : bad_header h = Ok false → e_phentsize h = 32.
Proof.
  unfold bad_header. intros E. destruct (memcmp _ _ _) as [c| | | |]; cbn [rbind] in E; try done. injection E as E.
  apply orb_false_iff in E as [_ E]. apply negb_false_iff, Z.eqb_eq in E. exact E.
Qed.

Lemma load_open_run p f st s k fd l : agrees st s k → user_ok st → reads T f fd 0 l → elf_file l → segs_fit st l (elf_segments l) →
  (pages_wanted (elf_segments l) ≤ nfree (kernel_pool st))%nat → (pages_wanted (elf_segments l) ≤ nfree (user_pool st))%nat →
  ∃ f' st', load_open fd (ex_state p f st s) = Ok (s32 (e_entry (elf_header l)), ex_state p f' st' s) ∧ (∃ pos, reads T f' fd pos l) ∧ img_loaded st st' l (elf_segments l).
Proof.
  intros Ha H Hr [L1 L2 L3] Hfit Hk Hu. set (h := elf_header l) in *. set (p1 := set_p_vaddr (userprog_vaddr st) p).
  destruct (reads_read p1 f (set_space st s) fd 0 l (replicate 52 0) 52 Hr ltac:(lia) ltac:(lia) ltac:(lia) ltac:(rewrite length_replicate; lia)) as (f1 & E1 & R1).
  change (drop (Z.to_nat 52) (replicate 52 0)) with (@nil Z) in E1. rewrite app_nil_r in E1. change (Z.to_nat 52) with 52%nat in E1. change (drop (Z.to_nat 0) l) with l in E1.
  assert (Hb : Forall (λ b, 0 ≤ b < 256) (take 52 l)) by apply Forall_take, Hr. pose proof (at32_range (take 52 l) 28 Hb) as Ho. pose proof (at16_range (take 52 l) 44 Hb) as Hn.
  change (at32 (take 52 l) 28) with (e_phoff h) in Ho. change (at16 (take 52 l) 44) with (e_phnum h) in Hn.
  destruct (load_segments_run (Z.to_nat (e_phnum h)) p f1 st s k fd _ l (e_phoff h) h Ha H R1 (good_header h L2) ltac:(lia) ltac:(lia) Hfit Hk Hu) as (f' & st' & E & R & I).
  exists f', st'. split; [|done]. unfold load_open, ex_state at 1, sizeof_Ehdr. fold p1. mstep E1. cbn [fst snd]. rewrite Z.eqb_refl. cbn [negb]. change (ehdr_of (take 52 l)) with h.
  change (put_fs p1 f1 (set_space st s)) with (ex_state p f1 st s). mstep (mlift_Ok _ (ex_state p f1 st s) _ L2). by mstep E.
Qed.

End exec_lemmas.

(** ** The call *)

Section execv.
Context {B : Build} {J : Stack}.
Implicit Types (s : sys).

(** A process that calls [sys_execv] with the path [nm] and [argc] arguments. *)
Record calls_exec (fuel : nat) s (k : task) (p : pcb) (path argv : Z) (nm : list Z) (argc : Z) : Prop := {
  ce_task : tasks (ker s) !! cur (ker s) = Some k;
  ce_pcb : pcbs s !! cur (ker s) = Some p;
  ce_space : space s = mem_view k p s;
  ce_user : user_ok (space s);
  ce_args : count_args fuel argv 0 (space s) = Ok (argc, space s);
  ce_path : user_str fuel path (space s) = Ok (nm, space s);
  ce_name : range_mapped (space s) path 16 ∧ length (name p) = 16%nat;
  ce_istack : length (istack p) = 19%nat
}.

Lemma on_mem_same {A} (m : M mst A) s k p a : tasks (ker s) !! cur (ker s) = Some k → pcbs s !! cur (ker s) = Some p → space s = mem_view k p s →
  m (space s) = Ok (a, space s) → on_mem m s = Ok (a, s).
Proof.
  intros Hk Hp Hs E. rewrite (on_mem_keep m s k p a (space s) Hk Hp); [by destruct s|by rewrite <-Hs|by rewrite Hs].
Qed.

Lemma load_run T s k p nm fd f1 l : tasks (ker s) !! cur (ker s) = Some k → pcbs s !! cur (ker s) = Some p → space s = mem_view k p s → user_ok (space s) →
  sys_open nm O_RDONLY (fs_view p s) = Ok (fd, f1) → reads T f1 fd 0 l → elf_file l → segs_fit (space s) l (elf_segments l) →
  (pages_wanted (elf_segments l) ≤ nfree (kernel_pool (space s)))%nat → (pages_wanted (elf_segments l) ≤ nfree (user_pool (space s)))%nat →
  ∃ f' st', load nm s = Ok (s32 (e_entry (elf_header l)), ex_state p f' st' s) ∧ fd_table f' = <[Z.to_nat fd := -1]> T ∧ img_loaded (space s) st' l (elf_segments l).
Proof.
  intros Hk Hp Hs Hu Eo Hr He Hfit Hkf Huf. set (st := space s) in *.
  assert (Ag : agrees st s k) by (by split; rewrite ?Hs).
  destruct (load_open_run T p f1 st s k fd l Ag Hu Hr He Hfit Hkf Huf) as (f2 & st' & E2 & [pos R2] & I).
  destruct (reads_close T (set_p_vaddr (userprog_vaddr st') p) f2 (set_space st' s) fd pos l R2) as (f3 & E3 & T3).
  exists f3, st'. split; [|split; [by rewrite T3, (rs_fds _ _ _ _ _ R2)|done]].
  pose proof Hr as [_ _ (g & x & i & [Hfd _ _ _] & _) _ _].
  assert (E1 : on_fs (sys_open nm O_RDONLY) s = Ok (fd, ex_state p f1 st s)).
  { rewrite (on_fs_run _ s p fd f1 Hp Eo). do 2 f_equal. assert (Ev : set_p_vaddr (userprog_vaddr st) p = p) by (rewrite Hs; by destruct p). unfold ex_state, put_fs. rewrite Ev. by destruct s. }
  unfold load. mstep E1. rewrite (proj2 (Z.eqb_neq fd (-1))) by lia. mstep E2. unfold ex_state at 1. by mstep E3.
Qed.

(** The frame with which the new program starts. *)
Definition exec_frame (old : list Z) (argv argc entry : Z) : list Z :=
  <[17%nat := 3221225472]> (<[14%nat := entry]> (<[7%nat := argc]> (<[5%nat := argv]> old))).

(** Executing a program.  When [sys_open] of the path succeeds on an ELF file
    the code accepts, of less than 71168 bytes, whose segments are not empty,
    lie in the file and in the part of the address space the process has bits
    for, and both pools have as many pages as the segments touch, [sys_execv]
    does not return: it leaves the kernel with the entry point of the file in
    EIP, the top of user space in ESP and the arguments in EBX and ECX.  The
    file is closed again, and the memory is the old image with the segments of
    the file laid over it, later ones over earlier ones.  The name of the
    process is what the bytes at [path] have become under the new image. *)
Theorem execv_enters (fuel : nat) s (k : task) (p : pcb) (path argv : Z) (nm : list Z) (argc fd : Z) (f1 : fs) (l : list Z) :
  calls_exec fuel s k p path argv nm argc →
  sys_open nm O_RDONLY (fs_view p s) = Ok (fd, f1) → reads (fd_table f1) f1 fd 0 l →
  elf_file l → s32 (e_entry (elf_header l)) ≠ -1 → segs_fit (space s) l (elf_segments l) →
  (pages_wanted (elf_segments l) ≤ nfree (kernel_pool (space s)))%nat → (pages_wanted (elf_segments l) ≤ nfree (user_pool (space s)))%nat →
  let fr := exec_frame (istack p) argv argc (e_entry (elf_header l)) in
  ∃ s' p', sys_execv fuel path argv s = Ok (inr fr, s') ∧ ker s' = ker s ∧ pcbs s' !! cur (ker s) = Some p' ∧ istack p' = fr ∧
    vload_bytes 16 path (space s') = Ok (name p', space s') ∧ p_fd_table p' = <[Z.to_nat fd := -1]> (fd_table f1) ∧ user_ok (space s') ∧
    ∀ x, user_addr x → mapped_at (space s) x ∨ existsb (covers x) (elf_segments l) = true →
      ubyte (space s') x = laid_over (elf_segments l) l x (ubyte (space s) x).
Proof.
  intros [Hk Hp Hs Hu Ea Ep [Hn1 Hn2] Hi] Eo Hr He Hent Hfit Hkf Huf fr.
  destruct (load_run (fd_table f1) s k p nm fd f1 l Hk Hp Hs Hu Eo Hr He Hfit Hkf Huf) as (f' & st' & E & T' & [I1 (I2 & I3 & I4) I5]).
  assert (Ag : agrees st' s k) by (split; [done|rewrite I2|rewrite I3|rewrite I4]; by rewrite Hs).
  assert (R : range_mapped st' path 16).
  { destruct Hn1 as (? & ? & Hm). split_and!; try done. intros x Hx. apply I5; [unfold user_addr; lia|left; by apply Hm]. }
  destruct (load_bytes_run st' 16 path R) as (new & En & Hnew).
  set (p1 := set_fds (fd_table f') (cwd_inode_nr f') (set_p_vaddr (userprog_vaddr st') p)).
  assert (Ecp : memcpy (Some (name p1)) (Some new) 16 = Ok new).
  { unfold memcpy. rewrite ASSERT_true by done. cbn [rbind]. rewrite !mem_Some, copy_loop_run by (change (Z.to_nat 16) with 16%nat; cbn; lia). change (Z.to_nat 16) with 16%nat. rewrite take_ge, drop_ge, app_nil_r by (cbn; lia). done. }
  assert (Hen : u32 (s32 (e_entry (elf_header l))) = e_entry (elf_header l)).
  { assert (Hb : Forall (λ b, 0 ≤ b < 256) (take 52 l)) by apply Forall_take, Hr. pose proof (at32_range (take 52 l) 24 Hb) as Ho. change (at32 (take 52 l) 24) with (e_entry (elf_header l)) in Ho. zsolve. }
  set (s1 := ex_state p f' st' s). set (s2 := set_pcbs (<[cur (ker s) := set_name new p1]> (pcbs s1)) s1).
  set (s3 := set_pcbs (<[cur (ker s) := set_istack fr (set_name new p1)]> (pcbs s2)) s2).
  assert (Ef : ∃ a b c, wr (istack p1) EBX_IDX argv = Ok a ∧ wr a ECX_IDX argc = Ok b ∧ wr b EIP_IDX (u32 (s32 (e_entry (elf_header l)))) = Ok c ∧ wr c ESP_IDX 3221225472 = Ok fr).
  { rewrite Hen. eexists _, _, _. unfold EBX_IDX, ECX_IDX, EIP_IDX, ESP_IDX.
    change (istack p1) with (istack p). split_and!; apply wr_Ok; rewrite ?length_insert, Hi; lia. }
  destruct Ef as (fa & fb & fc & W1 & W2 & W3 & W4).
  exists s3, (set_istack fr (set_name new p1)). split_and!; try done.
  - unfold sys_execv. mstep (on_mem_same _ s k p _ Hk Hp Hs Ea). mstep (on_mem_same _ s k p _ Hk Hp Hs Ep). mstep E. rewrite (proj2 (Z.eqb_neq _ _)) by done.
    rewrite (mbnd_Ok _ _ _ _ _ eq_refl). change (cur (ker (ex_state p f' st' s))) with (cur (ker s)). fold s1.
    assert (Hp1 : pcbs s1 !! cur (ker s) = Some p1) by (cbn; apply lookup_insert_eq).
    assert (E3 : pcb_at (cur (ker s)) s1 = Ok (p1, s1)) by (unfold pcb_at; by rewrite Hp1). mstep E3.
    mstep (on_mem_ex _ p f' st' s k _ _ Ag En). fold s1. mstep (mlift_Ok _ s1 _ Ecp).
    assert (E4 : upd_pcb (cur (ker s)) (set_name new) s1 = Ok (tt, s2)) by (unfold upd_pcb; by rewrite Hp1). mstep E4.
    mstep (mlift_Ok _ s2 _ W1). mstep (mlift_Ok _ s2 _ W2). mstep (mlift_Ok _ s2 _ W3). mstep (mlift_Ok _ s2 _ W4).
    assert (E5 : upd_pcb (cur (ker s)) (set_istack fr) s2 = Ok (tt, s3)) by (unfold upd_pcb, s2 at 1; cbn [pcbs set_pcbs]; by rewrite lookup_insert_eq). by mstep E5.
  - cbn. apply lookup_insert_eq.
  - intros x Hx Hm. by apply I5.
Qed.

End execv.

(** ** A program "/x" of one segment *)

Definition prog_vaddr : Z := USER_VADDR_START + 4112.
Definition prog : list Z :=
  ([127; 69; 76; 70; 1; 1; 1; 0] ++ replicate 8 0 ++ [2; 0; 3; 0] ++ bytes_of [1; prog_vaddr; 52; 0; 0] ++ [52; 0; 32; 0; 1; 0; 0; 0; 0; 0; 0; 0]) ++
  bytes_of [1; 84; prog_vaddr; prog_vaddr; 4; 4; 5; 4096] ++ [184; 42; 205; 48] ++ replicate 512 0.
Definition prog_disk : disk := <[614 := take 512 (drop 512 prog) ++ replicate 424 0]> (<[613 := take 512 prog]> tree_disk).
Definition prog_fs : fs := set_drive prog_disk tree_fs.

(** A process with the path and the vector of one argument in its only page. *)
Definition with_args (st : mst) : mst :=
  Mst (<[fork_g + 16 := USER_VADDR_START]> (<[fork_g := 30767]> (pm st))) (mcr3 st) (kernel_pool st) (user_pool st) (kernel_vaddr st) (VAddr (Bitmap 1 [1; 0]) USER_VADDR_START) demo_parent fork_dir.
Definition prog_mem : mst := with_args fork2.2.
Definition prog_task : task := Task 2 TASK_RUNNING 31 31 0 fork_dir 428280086 [].
Definition prog_pcb : pcb := Pcb 0 (replicate 16 0) 1 0 [0; 1; 2; -1; -1; -1; -1; -1] 0 (VAddr (Bitmap 1 [1; 0]) USER_VADDR_START) 0 (replicate 19 0) (TStack 0 0 0 0 0 0 0).
Definition prog_sys : sys :=
  Sys (Kst 0 demo_parent {[ demo_parent := prog_task ]} [] 0 ∅ ∅ fork_cp 0 0) {[ demo_parent := prog_pcb ]} [demo_parent]
    demo_pids (Lock 0 0) demo_parent prog_mem prog_fs ∅ fresh_ring (Lock 0 0) [].

Lemma fork2_user : user_map fork2.2 ∧ walk (pm fork2.2) (mcr3 fork2.2) USER_VADDR_START = Ok fork_g.
Proof.
  assert (Hu : user_page USER_VADDR_START) by (unfold user_page, managed, pdi, USER_VADDR_START; split_and!; zsolve).
  assert (W : walk (pm fork2.2) (mcr3 fork2.2) USER_VADDR_START = Ok fork_g) by (vm_compute; reflexivity). split; [|exact W].
  destruct (process_ready (B := debug_build) demo_space fork1.2 fork2.2 fork_dir fork_cp USER_VADDR_START fork_g) as (K & C & D & T & _ & _ & Hno).
  - exact demo_kernel_ok.
  - exact demo_pool_room.
  - apply ok_pair; vm_compute; reflexivity.
  - vm_compute. reflexivity.
  - vm_compute. reflexivity.
  - vm_compute. reflexivity.
  - vm_compute. discriminate.
  - exact Hu.
  - apply Nat.leb_le. vm_compute. reflexivity.
  - apply Nat.leb_le. vm_compute. reflexivity.
  - vm_compute. reflexivity.
  - apply ok_pair; vm_compute; reflexivity.
  - exact W.
  - revert W K C D T Hno. generalize fork2.2. intros st W K C D T Hno.
    assert (Hone : ∀ v f, user_page v → walk (pm st) (mcr3 st) v = Ok f → v = USER_VADDR_START ∧ f = fork_g).
    { intros v f Hv Hf. destruct (decide (v / 4096 = USER_VADDR_START / 4096)) as [E|E].
      - assert (v = USER_VADDR_START) as -> by (destruct Hv as (_ & _ & ?), Hu as (_ & _ & ?); zsolve). rewrite W in Hf. by injection Hf as <-.
      - rewrite C, Hno in Hf by (done || apply Hv). done. }
    split.
    + apply K.
    + intros v f Hv Hf. destruct (Hone v f Hv Hf) as [-> ->]. done.
    + intros v w f Hv Hw Hf Hf'. destruct (Hone v f Hv Hf) as [-> _], (Hone w f Hw Hf') as [-> _]. done.
Qed.

Lemma with_args_ok st : user_map st → walk (pm st) (mcr3 st) USER_VADDR_START = Ok fork_g → pool_lock (user_pool st) = Lock 0 0 →
  user_ok (with_args st) ∧ walk (pm (with_args st)) (mcr3 (with_args st)) USER_VADDR_START = Ok fork_g.
Proof.
  intros H W Hl. assert (Hu : user_page USER_VADDR_START) by (unfold user_page, managed, pdi, USER_VADDR_START; split_and!; zsolve).
  set (st1 := Mst (pm st) (mcr3 st) (kernel_pool st) (user_pool st) (kernel_vaddr st) (VAddr (Bitmap 1 [1; 0]) USER_VADDR_START) demo_parent fork_dir).
  assert (Hk : user_ok st1).
  { split.
    - by apply (user_map_ext st); [..|intros []|].
    - exact Hl.
    - discriminate.
    - discriminate.
    - cbn. unfold USER_VADDR_START. split; [lia|reflexivity].
    - split; [cbn; lia|cbn; lia|repeat constructor; lia]. }
  set (m' := <[fork_g + 16 := USER_VADDR_START]> (<[fork_g := 30767]> (pm st))).
  assert (Ht : touch st1 (eq fork_g) m').
  { pose proof (sm_words _ _ (t_self _ (uo_tables _ Hk))) as Hwd. split; intros y; [|intros Hy]; unfold m'; rewrite !ld_insert; repeat case_decide; try apply Hwd; try done; unfold USER_VADDR_START in *.
    all: try lia. all: specialize (Hy _ eq_refl); lia. }
  destruct (touch_user st1 USER_VADDR_START fork_g m' Hk Hu W Ht) as [Hok Hw]. split; [exact Hok|]. exact (eq_trans (Hw _ (proj1 Hu)) W).
Qed.

Lemma prog_user_ok : user_ok prog_mem ∧ walk (pm prog_mem) (mcr3 prog_mem) USER_VADDR_START = Ok fork_g.
Proof. destruct fork2_user as [H W]. apply with_args_ok; [exact H|exact W|vm_compute; reflexivity]. Qed.

(** "/x" after [sys_open] *)
Definition prog_open : Z * fs := res_or (0, prog_fs) (@sys_open debug_build tree_stack [47; 120; 0] O_RDONLY (fs_view prog_pcb prog_sys)).
Definition prog_inode : inode := Inode 1 600 1 false (613 :: 614 :: replicate 11 0).

Lemma prog_disk_ok : disk_ok prog_disk.
Proof. intros l s. unfold prog_disk. rewrite !lookup_insert_Some. intros [[_ <-]|[_ [[_ <-]|[_ H]]]]; [reflexivity|reflexivity|by apply (tree_disk_ok l)]. Qed.

Lemma own_at f b : cur_part f = Partition 0 10000 demo_sb tree_blocks tree_inodes [16386; 8192] → b ∈ [613; 614] → own f b.
Proof. intros E Hb. unfold own, data_lba, bb. rewrite !E. apply list_elem_of_In in Hb. destruct Hb as [<-|[<-|[]]]; by_decide. Qed.

Lemma prog_reads : reads (fd_table prog_open.2) prog_open.2 3 0 prog.
Proof.
  assert (E : cur_part prog_open.2 = Partition 0 10000 demo_sb tree_blocks tree_inodes [16386; 8192] ∧ drive prog_open.2 = prog_disk ∧
    fd_table prog_open.2 !! 3%nat = Some 3 ∧ file_table prog_open.2 !! 3%nat = Some (File 0 O_RDONLY 16386) ∧ inodes prog_open.2 !! 16386 = Some prog_inode ∧
    oom prog_open.2 = [] ∧ brk prog_open.2 = 16388) by (split_and!; vm_compute; reflexivity).
  revert E. generalize prog_open.2. intros f (Ep & Ed & E1 & E2 & E3 & E4 & E5).
  split; [done| | |by_decide|by rewrite E4, E5].
  - destruct tree_layout. split; rewrite ?Ep, ?Ed; try done. apply prog_disk_ok.
  - exists 3, (File 0 O_RDONLY 16386), prog_inode. split_and!; try done.
    + split.
      * by_decide.
      * reflexivity.
      * split; [intros _; vm_compute; lia|reflexivity].
      * intros k Hk. change (used prog_inode) with 2%nat in Hk. do 12 (destruct k as [|k]; [reflexivity || lia|]). lia.
      * rewrite Ed. change (owned prog_disk prog_inode) with [613; 614]. apply Forall_forall. intros b Hb. apply (own_at f b Ep Hb).
      * rewrite Ed. change (owned prog_disk prog_inode) with [613; 614]. by_decide.
    + rewrite Ed. vm_compute. reflexivity.
Qed.

Lemma prog_elf : elf_file (B := debug_build) prog.
Proof.
  split.
  - vm_compute. discriminate.
  - vm_compute. reflexivity.
  - vm_compute. discriminate.
Qed.

Lemma prog_fits st : userprog_vaddr st = VAddr (Bitmap 1 [1; 0]) USER_VADDR_START → segs_fit st prog (elf_segments prog).
Proof.
  intros E. change (elf_segments prog) with [Phdr 1 84 prog_vaddr prog_vaddr 4 4 5 4096]. constructor; [|constructor]. intros _. cbn [p_offset p_filesz p_vaddr_].
  split; [lia|vm_compute; split; discriminate|unfold prog_vaddr, USER_VADDR_START; lia|]. unfold in_bitmap. rewrite E. unfold bit_cnt, prog_vaddr, USER_VADDR_START. cbn [vaddr_start vaddr_bitmap btmp_bytes_len]. intros x Hx. zsolve.
Qed.

(** Reading memory leaves it as it is. *)
Definition reads_only {A} (m : M mst A) : Prop := ∀ st a st', m st = Ok (a, st') → st' = st.
Lemma reads_only_value {A} (m : M mst A) st a : reads_only m → Tree.value (m st) = Some a → m st = Ok (a, st).
Proof. intros K E. unfold Tree.value in E. destruct (m st) as [[b st']| | | |] eqn:Em; try done. rewrite (K _ _ _ Em). cbn in E. by injection E as ->. Qed.
Lemma reads_only_bnd {A D} (m : M mst A) (k : A → M mst D) : reads_only m → (∀ a, reads_only (k a)) → reads_only (let! a := m in k a).
Proof. intros Km Kk st d st' E. unfold mbnd in E. destruct (m st) as [[b st1]| | | |] eqn:Em; try done. cbn in E. rewrite (Kk b _ _ _ E). exact (Km _ _ _ Em). Qed.
Lemma reads_only_vload v : reads_only (vload v).
Proof. intros st a st' E. unfold vload in E. destruct (walk _ _ _); try done. cbn in E. by injection E as _ <-. Qed.
Lemma reads_only_ok {A} (a : A) : reads_only (mok a).
Proof. intros st b st' [= _ <-]. done. Qed.
Lemma reads_only_count fuel argv n : reads_only (count_args fuel argv n).
Proof. revert n. induction fuel as [|fuel IH]; intros n; [done|]. apply reads_only_bnd; [apply reads_only_vload|]. intros w. destruct (w =? 0); [apply reads_only_ok|apply IH]. Qed.
Lemma reads_only_str fuel v : reads_only (user_str fuel v).
Proof.
  revert v. induction fuel as [|fuel IH]; intros v; [done|]. apply reads_only_bnd; [apply reads_only_bnd; [apply reads_only_vload|intros w; apply reads_only_ok]|].
  intros b. destruct (b =? 0); [apply reads_only_ok|]. apply reads_only_bnd; [apply IH|]. intros l. apply reads_only_ok.
Qed.

Lemma page_mapped st u f x : u mod 4096 = 0 → walk (pm st) (mcr3 st) u = Ok f → u ≤ x < u + 4096 → mapped_at st x.
Proof. intros Hu Hw Hx. exists f. by replace (x - x mod 4096) with u by zsolve. Qed.

Lemma prog_calls_at s : cr3 (ker s) = mcr3 (space s) → tasks (ker s) !! cur (ker s) = Some prog_task → pcbs s !! cur (ker s) = Some prog_pcb →
  self (space s) = cur (ker s) → self_pgdir (space s) = fork_dir → userprog_vaddr (space s) = p_vaddr prog_pcb → user_ok (space s) →
  walk (pm (space s)) (mcr3 (space s)) USER_VADDR_START = Ok fork_g →
  Tree.value (count_args 10 (USER_VADDR_START + 16) 0 (space s)) = Some 1 → Tree.value (user_str 10 USER_VADDR_START (space s)) = Some [47; 120; 0] →
  calls_exec 10 s prog_task prog_pcb USER_VADDR_START (USER_VADDR_START + 16) [47; 120; 0] 1.
Proof.
  intros E1 Hk Hp E2 E3 E4 Hu W Ea Es. split; try done.
  - unfold mem_view. destruct (space s). cbn in *. by subst.
  - apply reads_only_value; [apply reads_only_count|exact Ea].
  - apply reads_only_value; [apply reads_only_str|exact Es].
  - split; [|done]. split; [by vm_compute|]. split; [by vm_compute|]. intros x Hx. apply (page_mapped _ USER_VADDR_START fork_g); [done|done|lia].
Qed.

Lemma prog_calls : calls_exec 10 prog_sys prog_task prog_pcb USER_VADDR_START (USER_VADDR_START + 16) [47; 120; 0] 1.
Proof.
  destruct prog_user_ok as [Hu W]. apply prog_calls_at; [vm_compute; reflexivity|reflexivity..|exact Hu|exact W|vm_compute; reflexivity|vm_compute; reflexivity].
Qed.

Lemma execv_enters_witness : ∃ fr s', sys_execv (B := debug_build) (J := tree_stack) 10 USER_VADDR_START (USER_VADDR_START + 16) prog_sys = Ok (inr fr, s') ∧
  fr !! 14%nat = Some prog_vaddr ∧ ubyte (space s') prog_vaddr = Ok 184.
Proof.
  destruct (execv_enters (B := debug_build) (J := tree_stack) 10 prog_sys prog_task prog_pcb USER_VADDR_START (USER_VADDR_START + 16) [47; 120; 0] 1 3 prog_open.2 prog)
    as (s' & p' & E & _ & _ & _ & _ & _ & _ & Hb).
  - exact prog_calls.
  - apply ok_pair; vm_compute; reflexivity.
  - exact prog_reads.
  - exact prog_elf.
  - vm_compute. discriminate.
  - apply prog_fits. reflexivity.
  - apply Nat.leb_le. vm_compute. reflexivity.
  - apply Nat.leb_le. vm_compute. reflexivity.
  - eexists _, s'. split; [exact E|]. split; [reflexivity|]. rewrite Hb; [reflexivity|unfold user_addr, prog_vaddr, USER_VADDR_START; lia|right; reflexivity].
Defined.
